(* ===== verification/_CoqProject ===== *)
-Q . S2P
Prelude.v
Layout.v
Sigbus.v
Tlb.v
Clock.v
Text.v
Virtqueue.v
VirtioBlk.v
ConsoleHub.v
VirtioConsole.v
VirtioNet.v
VirtioRng.v
DataPlane.v
L2cpu.v
Telemetry.v
Tensix.v
Chip.v
Boot.v
DispatchProofs.v
PollProofs.v
Terminal.v
Parse.v
Profile.v
Protocol.v
ChipConsole.v
DeviceTree.v
DtbProofs.v
Server.v
Release.v
ColdBoot.v
ConsoleWorker.v
WarmResume.v
Session.v
Metrics.v
Exporter.v
CloudInit.v
Disk.v
Fetch.v
Images.v
Instances.v
Cli.v
Lifetime.v
Sandbox.v
DebugCmds.v
Firmware.v
FirmwareProofs.v
SerialLine.v
FirmwareBoot.v
SelfTest.v
DaemonLog.v
TerminalGuard.v
FaultHandler.v
