(* ===== verification/Prelude.v ===== *)
(** * A verification library for bhx

    bhx is a daemon that boots Linux on the four L2CPUs of a Blackhole chip and
    gives each guest virtio devices and a console.  Guests see register files in
    the L1 memory of one Tensix tile; firmware on that tile shadows the guests'
    register writes and sets a dirty byte per notified queue; the daemon polls
    those bytes through a PCIe window, walks the virtqueues in guest memory, runs
    the device and pulses an interrupt.  Clients talk to the daemon over a
    framed JSON protocol and attach to a per-L2CPU console hub.

    This file is the root: the result type of Rust, fixed-width arithmetic,
    little-endian bytes, byte-addressed memory, strings, and the lemmas and
    tactics the other files share.

    ** Files and what they model

    - [Layout]: [src/virtio_engine.rs], [src/tensix_proto.rs],
      [src/uart_engine.rs]; the constants and address functions of the L1.
    - [Text]: the operations of the Rust standard library on strings that the
      parsers use.
    - [Virtqueue]: [src/virtio/mod.rs]; ring structures, the trait
      [VirtioDeviceImpl] as a class, [process_one_chain_for_queue].  The laws
      that a device promises to the framework are the class [DeviceLaws]; each
      device file proves its instance.
    - [VirtioBlk], [VirtioConsole], [VirtioRng], [VirtioNet]: the devices of
      [src/virtio/block.rs], [console.rs], [rng.rs] and [network.rs].
    - [ConsoleHub]: [src/daemon/console_hub.rs]; scrollback, clients, the writer
      role, fan-out.
    - [DataPlane]: [src/tensix_data_plane.rs] with [src/virtio/interrupt.rs] and
      the address ranges of [src/l2cpu.rs]; registries and published masks, the
      dirty bitmap, [dispatch_chain], the UART feed, the status and statistics
      passes and one iteration of [run_poll_loop].  [DispatchProofs] and
      [PollProofs] hold the theorems about it.
    - [Tlb]: [src/tlb.rs] and the TLB requests of [src/kmd.rs] on a ledger of
      descriptors, driver windows and mappings ([Os]); [L2cpu]: [src/l2cpu.rs]
      and [src/x280_tlb.rs].
    - [Clock]: [src/clock.rs] and the reset and register access of
      [src/shared_chip.rs]; [Chip]: [src/chip.rs], the other requests of
      [src/kmd.rs], and the rotation of windows in [src/shared_chip.rs].
    - [Telemetry]: [src/telemetry.rs] and [src/tensix_tile.rs]; [Tensix]:
      [src/tensix.rs] and [src/tensix_engine.rs].
    - [Boot]: image placement of [src/boot.rs]; [DeviceTree]: its device-tree
      edits over [src/fdt_ffi.rs], with the theorems in [DtbProofs].
    - [Terminal]: the pump of [src/daemon/terminal.rs].
    - [Parse]: [src/parse.rs] and [src/error.rs].
    - [Profile]: [src/profile.rs] and the catalogue of [src/image.rs].
    - [Protocol]: [src/daemon/protocol.rs].
    - [Sigbus]: [src/daemon/sigbus.rs], the registry of ranges and the message of
      the handler; [FaultHandler]: its installation, and faults inside it.
    - [ChipConsole]: the OpenSBI UART rings of [src/daemon/chip_console.rs], the
      two data passes of [uart_pass], the warm-resume probe.
    - [Server]: device add, remove, stop and shutdown requests of
      [src/daemon/server.rs] on the state of [src/daemon/mod.rs], and the device
      teardown of [chip_console.rs] on a park; the boxed trait object is the sum
      of the device types.
    - [Release]: parked cores of [src/daemon/server.rs]: the release metadata,
      the forced park, the swap of attachments and [dispatch_release].
    - [ColdBoot]: [dispatch_boot] with everything it calls, and
      [get_or_bring_up_tensix_engine] of [src/daemon/mod.rs].
    - [ConsoleWorker]: the thread of a booted core in
      [src/daemon/chip_console.rs]: [uart_pass], [chip_console_main], the park
      branch and [auto_release_for_reboot]; [WarmResume]: the start and the end of
      [serve]; [Session]: [handle_client] of [src/daemon/server.rs].
    - [Metrics], [Exporter]: [src/daemon/metrics.rs]; the counters and the text
      exposition, then the HTTP exporter and the telemetry poller.
    - [CloudInit]: [src/cloud_init.rs].
    - [Disk]: what [std::fs] does to files, with faults, and [src/xdg.rs];
      [Fetch]: [src/fetch.rs]; [Images]: the rest of [src/image.rs] and
      [src/ramdisk.rs]; [Instances]: the files of [src/profile.rs].
    - [Cli]: the commands of [src/main.rs] and [src/daemon/client.rs];
      [DebugCmds]: its debug commands, with [isa_emu_pmu] of [src/regs.rs];
      [SelfTest]: its self-tests.
    - [Lifetime]: [src/daemon/lifetime.rs], [runner.rs] and [fork.rs];
      [DaemonLog]: the log file, its sidecar and the status listing of
      [runner.rs], and [src/daemon/log.rs]; [Sandbox]:
      [src/daemon/sandbox.rs]; [TerminalGuard]: [src/console.rs].
    - [Firmware]: [brisc-firmware/virtio.c] and its headers, with the theorems in
      [FirmwareProofs]; [SerialLine]: a guest's UART from its transmit register
      to the hub; [FirmwareBoot]: the start-up handshake with [bring_up].

    A Rust function has a definition of the same name; where two functions share
    a name the definition carries a short prefix ([blk_data], [con_data]).  A
    loop body that has no name in the source has a definition of its own.

    ** How the code is read

    - An integer of width [w] is a [Z]; an operation that can leave the range is
      written with the wrap, saturation or check of the source.  Unchecked
      arithmetic wraps, as in the release build, which is what the daemon ships.
    - Memory is a byte map ([gmap Z Z]); the L1 is one map, each guest's memory
      another, and rings and buffers live in the same map, so overlaps are
      covered.  A byte that was never written reads as 0.
    - Within one daemon operation the other side (guest, firmware) does not
      write: a volatile read sees the state at the start of the operation and
      the operation's own writes.  Where threads of the daemon race, the steps
      are separate and the theorems range over interleavings ([Sigbus],
      [Terminal], and the two halves of [dispatch_remove_net] in [Server]).
      In [Firmware] and its theorems the writes of the other cores fall between
      any two loads or stores, in [SelfTest] between any two accesses of the
      host, and in [Lifetime] processes interleave between system calls.
    - Files are a [Disk] with the faults to come: each operation that can fail
      takes the next one, so a theorem over all faults covers every failure and
      every partial write.
    - A Rust [Result] is [result], [?] is [let?]; a null dereference, a failed
      assertion or an [expect] is [None] or [Fault].  The texts of errors and of
      log lines are left out; the variant of the error is kept.
    - Results of the operating system are arguments: a socket is the script of
      the results that [send] returns, [getrandom] a script of results, the file
      system and ports of a request are the record [Host], libslirp the frames it
      will deliver and the frames it was sent.  The iteration order
      of a [HashMap] is an argument.  JSON, YAML and [f64] belong to other
      packages and are arguments or classes; a theorem that needs something of
      them says so, and that is a round trip.
    - The world of the command line is a handful of classes: [Shell] (environment,
      paths, the daemon's answers), [Web] and [MetaCodec] (downloads), [Tools]
      and [SeedHost] (programs that are run), [ProfileCodec] (YAML),
      [Confiner] (landlock and seccomp, whose documented behaviour is
      [ConfinerLaws]), and [Bench] (what the cores do around a self-test).
    - The kernel and its driver are the classes [Kernel] and [Board] (which call
      succeeds and which number it returns); [KernelLaws] says that new
      descriptors, windows and mappings are fresh, and [counting_kernel] is an
      instance that refuses a chosen list of calls.  The tile's firmware, the
      guest of a core and libfdt are the classes [Firmware], [Guest] and
      [Libfdt]; [LibfdtLaws] states libfdt's documented effect on the tree, and
      [Tagged] is an instance.  The loops that wait for them sleep, and the
      classes say only that the clock moves with the sleeps.
    - Objects that several owners share ([Arc]) are copied where no modelled
      operation reads another owner's copy; each file says so.

    ** Loops that are not structural

    - [walk_chain] takes [queue_num] steps, the bound in the source.
    - [drain_avail] has fuel 65536: a 16-bit cursor meets the avail index within
      65535 advances; [dispatch_drains] shows that the fuel is never used up.
    - [feed_loop] has fuel 4: a clamped ring holds at most 1024 bytes and a chunk
      takes 256 of them unless it is the last; [uart_drain_exact].
    - [raise_postdiv] and [lower_postdiv] have fuel 256 and [adjust_fbdiv] 65536,
      the ranges of the divider fields; [set_frequency_safe] shows that they
      finish.
    - [fill_loop] has the buffer length as fuel, since every iteration writes a
      byte; [rng_fills_buffer].
    - [fold16] has fuel 2, which folds any 32-bit sum; [tx_checksum_valid].
    - [bulk_loop] has one unit per byte and one more, since every turn writes a
      byte; [bulk_write_exact].
    - The waits are bounded by their timeouts over the sleep of a turn:
      [poll_magic] 502 (500 ms by 1 ms, [bring_up_total]), [lds_poll] 2001 (2 s
      by 1 ms, [lds_poll_exact]), [wait_arc_fw_ready] 501 (5 s by 10 ms,
      [shared_reset_releases]), [park_poll] 1001 (10 s by 10 ms,
      [force_park_poll_ends]), and in the self-tests [poll_mem] 502 and
      [await_ack] 502 (500 ms by 1 ms), [watch_dirty] 51 (100 ms by 2 ms).
    - [climb] walks up a path and has its length as fuel, [climb_ends];
      [zero_region] has the words of the region, [read_fields] the length of its
      input, [trim_end_matches] that of the string.

    ** What the theorems show

    - Queues: processing a chain is the request the chain describes, never hands
      a device a buffer outside guest memory, and changes nothing else of it
      ([process_chain_refines], [callbacks_in_range], [process_chain_effects]);
      a dispatch drains the ring and touches only its own guest
      ([dispatch_drains], [dispatch_isolated]).
    - Devices: the block device answers each request with the right status and
      data and a write is read back; keystrokes and entropy reach the guest
      whole; a transmit chain becomes exactly one frame, with a transport
      checksum that verifies ([blk_request_correct], [blk_write_then_read],
      [console_rx], [rng_fills_buffer], [net_tx_frame], [tx_checksum_valid]).
    - Polling: no notification is lost or invented, the firmware's masks follow
      the registries, the UART feed is drained in order, a guest reset wipes the
      cursors of its device ([collect_dirty_exact], [masks_track_registries],
      [uart_drain_exact], [status_pass_wipes]).
    - Layout: no two cells of the L1 overlap and slots partition the devices
      ([cells_disjoint], [slot_partition]).
    - Console: one writer at most, scrollback is a window on the output, every
      client gets each push or is dropped ([hub_reachable_ok],
      [scrollback_is_log_suffix], [push_delivers], [attach_writer]); the UART
      rings are bounded queues ([output_pass_fifo], [rx_ring_queue]); the
      terminal forwards keys verbatim and, past the length announced for the
      replay, no more cursor reports than there were status requests
      ([keys_verbatim], [cpr_gate]); a running core is adopted exactly when its
      descriptor and magic are there ([probe_exact]).
    - Chip: PLL steps never overshoot, cores leave reset at 200 MHz
      ([set_frequency_safe], [reset_x280_releases]); opening an L2CPU takes what
      closing it gives back, on every failure path, and its windows reach its
      tile ([l2cpu_lifecycle], [small_tlb_reaches]); a board reset ends and
      rotates the windows ([lds_poll_exact], [shared_reset_releases]).
    - Tile: telemetry is decoded as the tags say, each field as its word means,
      the picked tile is reachable ([decode_last_wins], [decoded_fields_mean],
      [millicelsius_rounds], [telemetry_total], [picked_tile_reachable]); the
      tile is prepared exactly, bring-up reports or returns with the tile ready, and
      releases what it took when it fails, and only firmware of this build is adopted ([prepare_tile_exact],
      [bring_up_total], [adopt_accepts_exactly]).
    - Boot: images land where they belong and nowhere else
      ([bulk_write_exact], [boot_l2cpu_exact]); patching a device tree is a
      script of edits, after which the guest sees its memory, arguments,
      reservations and devices ([modify_dtb_refines], [modify_dtb_guest_view],
      [release_reservation]); a boot leaves a running core and its siblings
      alone, installs a slot in step with the registrations, and a release
      writes every word before it rings the hart ([boot_spares_running],
      [reset_spares_running], [cold_boot_in_step], [release_rings_last],
      [swap_attaches_exactly], [force_park_poll_ends]).
    - Daemon: slot table and registrations stay in step over every sequence of
      requests, stopping releases everything of the L2CPU
      ([attachments_in_step], [stop_releases]); the fault-range table is
      linearisable ([ranges_linearizable]); frames round-trip
      ([frames_roundtrip]).
    - Input: sizes and forwards parse exactly, profile validation accepts exactly
      the legal files, a reset removes exactly the instances of a profile
      ([size_disk_exact], [fwd_pair_roundtrip], [validate_all_exact],
      [reset_instances_exact]).
    - Threads: the console thread scrubs a core that powers off and restarts one
      that reboots ([poweroff_scrubs], [reboot_rides_through]); the daemon adopts
      what runs, and at its end shuts every client out with a reason and joins
      every worker ([serve_start_adopts], [serve_stop_drains]); a client sees the
      scrollback, then the live output, and the writer's keys arrive as typed
      ([replay_follows_live], [reader_types_as_writer], [last_words]); reports are true and every
      request is counted once ([status_true], [conversation_accounts]).
    - Metrics: the page of a scrape reads back as the lines of the snapshot, and
      a request head is found whatever the packets ([exposition_sound], [header_scan_exact],
      [scrape_end_to_end], [poller_backs_off]).
    - Files: under any fault a download or a list of profiles is the old file or
      the new one whole ([download_atomic], [save_atomic]); without faults a pull
      that downloads is ready to boot ([pull_ready]); the lines of a seed are those
      of its template with the operator's fields ([seed_reads_back],
      [seed_iso_staged]).
    - Commands: targets, profiles and reports ([target_exact],
      [boot_client_exact], [profile_compiled], [catalogue_edits],
      [debug_interlock], [counter_rows_exact], [unhandled_rows_sorted],
      [counters_snapshot_exact], [raw_mode_exact], [guard_restores]); the
      self-tests judge what they see ([hello_dead_fails], [hello_live_passes],
      [loopback_accounts], [corrupted_none_iff]).
    - Process: never two daemons on one directory while no name is removed under
      them ([one_daemon], [commands_in_turn]); of the rights that the kernel
      restricts the sandbox grants no more than it lists ([sandbox_confines]; an
      old kernel restricts fewer, [old_kernel_truncates]); the log is found again ([log_remembered],
      [logs_last_lines]), a fault leaves its line and faults in the handler do
      not loop ([fault_reported], [faults_end]), and the debug flag of the status only adds lines
      ([debug_only_adds]).
    - Firmware: a guest's set-up of a queue and its notification reach the masks
      and bytes the daemon reads ([setup_reaches_daemon]); what a guest writes
      to its UART reaches the console once and in order, less counted drops
      ([uart_stream]); start-up
      and bring-up meet ([firmware_meets_daemon]); both sides build the same
      device table, and helper cores run as their mask says ([tables_agree],
      [helpers_follow_masks]).
    - Behaviour that departs from what the comments say, by component: devices and
      polling: [blk_sector_wraps], [blk_single_descriptor_faults],
      [console_tx_last_buffer], [malformed_stops_drain], [blk_slots_declared];
      console: [scrollback_bound_exceeded], [second_park_missed],
      [slow_client_held]; requests and boot: [remove_net_race],
      [refused_release_strands], [initramfs_outside_memory],
      [slot_samples_interleaved], [telemetry_unaligned_panics]; files:
      [key_quote_breaks_out], [second_nameserver_lost], [failed_convert_sticks],
      [zip_takes_any_image], [partial_clone_kept]; commands:
      [profile_root_device_ignored], [profile_drops_flags],
      [no_password_default], [glued_locator_resets_all],
      [lone_coordinate_ignored]; process: [stop_splits_daemons],
      [second_start_orphans], [probe_stops_daemon],
      [sandboxed_exit_leaves_names], [sandbox_lets_out],
      [log_in_home_opens_home], [refused_start_moves_log], [spaced_log_lost],
      [sidecar_fault_ignored], [other_signal_reenters], [bus_error_code];
      firmware: [raced_capture_sticks],
      [late_poll_misfiles], [late_clear_loses_ready], [notify_overwritten],
      [stale_ready_loses], [uart_window_elsewhere], [early_greeting_lost],
      [stale_page_answers]; self-tests: [engine_test_fails],
      [virtio_test_panics], [one_bad_byte_swamps].

    ** Not modelled

    The kernel driver, libfdt and libslirp are foreign code; [src/slirp_ffi.rs]
    holds declarations of foreign functions.  Of [main.rs] the declaration of the arguments and the text that
    commands print are left out, with the telemetry dump, which prints what
    [Telemetry] decodes; of [runner.rs] following a growing log, an endless copy
    to the terminal.  The start-up assembly and the hello firmware of
    [brisc-firmware], the spawning of threads and the register constants that nothing modelled uses are left out. *)

From stdpp Require Export base numbers list gmap.
From Stdlib Require Export ZArith Lia.
From Stdlib Require String Ascii.
Export Stdlib.Strings.String.StringSyntax.

#[global] Open Scope Z_scope.

(** ** Results

    [Result<T, E>] of Rust, with the bind that the [?] operator performs. *)

Inductive result (T E : Type) : Type :=
| Ok (t : T)
| Err (e : E).
Arguments Ok {T E} t.
Arguments Err {T E} e.

Definition is_ok {T E} (r : result T E) : bool :=
  match r with Ok _ => true | Err _ => false end.

Definition result_map {T U E} (f : T -> U) (r : result T E) : result U E :=
  match r with Ok t => Ok (f t) | Err e => Err e end.

Definition map_err {T E F} (f : E -> F) (r : result T E) : result T F :=
  match r with Ok t => Ok t | Err e => Err (f e) end.

Definition ok_or {T E} (o : option T) (e : E) : result T E :=
  match o with Some t => Ok t | None => Err e end.

Declare Scope rust_scope.
Delimit Scope rust_scope with rust.

Notation "'let?' x ':=' r 'in' k" :=
  (match r with Ok x => k | Err e => Err e end)
  (at level 10, x pattern, r at level 100, k at level 200)
  : rust_scope.

Notation "'let!' x ':=' r 'in' k" :=
  (match r with Some x => k | None => None end)
  (at level 10, x pattern, r at level 100, k at level 200)
  : rust_scope.

#[global] Open Scope rust_scope.

(** ** Fixed-width unsigned integers

    A value of type [uN] is a [Z] in [0 .. 2^N - 1]; every operation that can
    leave the range is written with the wrap, saturation or check of the
    source. *)

Definition wrap (w x : Z) : Z := x mod 2 ^ w.
Definition u8 (x : Z) : Z := wrap 8 x.
Definition u16 (x : Z) : Z := wrap 16 x.
Definition u32 (x : Z) : Z := wrap 32 x.
Definition u64 (x : Z) : Z := wrap 64 x.

Definition U16_MAX : Z := 65535.
Definition U32_MAX : Z := 4294967295.
Definition U64_MAX : Z := 18446744073709551615.

Definition fits (w x : Z) : Prop := 0 <= x < 2 ^ w.

#[export] Instance fits_dec w x : Decision (fits w x).
Proof. unfold fits. apply _. Defined.

Definition checked_add64 (a b : Z) : option Z :=
  if a + b <=? U64_MAX then Some (a + b) else None.
Definition checked_mul64 (a b : Z) : option Z :=
  if a * b <=? U64_MAX then Some (a * b) else None.
Definition saturating_add64 (a b : Z) : Z := Z.min (a + b) U64_MAX.
Definition saturating_sub (a b : Z) : Z := Z.max 0 (a - b).

Lemma wrap_fits w x : 0 <= w -> fits w (wrap w x).
Proof. intros. apply Z.mod_pos_bound. lia. Qed.

Lemma wrap_small w x : fits w x -> wrap w x = x.
Proof. apply Z.mod_small. Qed.


Lemma wrap_idemp w x : 0 <= w -> wrap w (wrap w x) = wrap w x.
Proof. intros. by apply wrap_small, wrap_fits. Qed.

Lemma wrap_add_l w x y : 0 <= w -> wrap w (wrap w x + y) = wrap w (x + y).
Proof. intros. unfold wrap. by rewrite Zplus_mod_idemp_l. Qed.

Lemma wrap_sub_r w x y : 0 <= w -> wrap w (x - wrap w y) = wrap w (x - y).
Proof. intros. unfold wrap. by rewrite Zminus_mod_idemp_r. Qed.

(** Two fields packed into a word. *)
Lemma lor_shiftl_add k a b : 0 <= k -> fits k a -> Z.lor a (Z.shiftl b k) = a + b * 2 ^ k.
Proof.
  intros Hk Ha. rewrite <- Z.shiftl_mul_pow2 by done.
  assert (Hl : Z.land a (Z.shiftl b k) = 0).
  { apply Z.bits_inj'. intros n Hn. rewrite Z.land_spec, Z.bits_0, Z.shiftl_spec by done.
    destruct (Z.ltb_spec n k); [rewrite (Z.testbit_neg_r b) by lia; apply andb_false_r|].
    rewrite <- (Z.mod_small a (2 ^ k)) by exact Ha.
    rewrite Z.mod_pow2_bits_high by lia. apply andb_false_l. }
  by rewrite Z.add_nocarry_lxor, Z.lxor_lor.
Qed.

(** ** Little-endian byte sequences *)

Fixpoint le_bytes (n : nat) (x : Z) : list Z :=
  match n with
  | O => []
  | S n => x mod 256 :: le_bytes n (x / 256)
  end.

Fixpoint le_value (l : list Z) : Z :=
  match l with
  | [] => 0
  | b :: l => b + 256 * le_value l
  end.

Definition is_byte (b : Z) : Prop := 0 <= b < 256.

#[export] Instance is_byte_dec b : Decision (is_byte b).
Proof. unfold is_byte. apply _. Defined.

Lemma length_le_bytes n x : length (le_bytes n x) = n.
Proof. revert x. induction n; intros; simpl; auto. Qed.

Lemma le_bytes_are_bytes n x : Forall is_byte (le_bytes n x).
Proof.
  revert x. induction n; intros; simpl; constructor; auto.
  apply Z.mod_pos_bound. lia.
Qed.

Lemma pow256_succ n : 2 ^ (8 * Z.of_nat (S n)) = 256 * 2 ^ (8 * Z.of_nat n).
Proof.
  replace (8 * Z.of_nat (S n)) with (8 + 8 * Z.of_nat n) by lia.
  rewrite Z.pow_add_r by lia. reflexivity.
Qed.

Lemma le_value_le_bytes n x : fits (8 * Z.of_nat n) x -> le_value (le_bytes n x) = x.
Proof.
  revert x. induction n as [|n IH]; intros x Hx.
  - unfold fits in Hx. simpl in *. lia.
  - cbn [le_bytes le_value]. rewrite IH.
    + pose proof (Z.div_mod x 256). lia.
    + unfold fits in *. rewrite pow256_succ in Hx. split.
      * apply Z.div_pos; lia.
      * apply Z.div_lt_upper_bound; lia.
Qed.

Lemma le_value_bound l : Forall is_byte l -> fits (8 * Z.of_nat (length l)) (le_value l).
Proof.
  induction 1 as [|b l Hb Hl IH]; unfold fits, is_byte in *.
  - simpl. lia.
  - cbn [le_value length]. rewrite pow256_succ. lia.
Qed.

Lemma le_bytes_le_value l : Forall is_byte l -> le_bytes (length l) (le_value l) = l.
Proof.
  induction 1 as [|b l Hb Hl IH]; [done|]. cbn [le_value length le_bytes].
  unfold is_byte in Hb.
  replace (b + 256 * le_value l) with (b + le_value l * 256) by lia.
  rewrite Z.mod_add, Z.div_add, Z.mod_small, Z.div_small, Z.add_0_l, IH by lia. done.
Qed.

(** ** Byte-addressed memory

    The guest's DRAM (and the disk image, and the L1 of a tile) as a map from
    byte addresses to bytes; an address that was never written reads 0. *)

Definition rd8 (m : gmap Z Z) (a : Z) : Z := default 0 (m !! a).
Definition wr8 (m : gmap Z Z) (a v : Z) : gmap Z Z := <[a := v]> m.

Fixpoint read_bytes (m : gmap Z Z) (a : Z) (n : nat) : list Z :=
  match n with
  | O => []
  | S n => rd8 m a :: read_bytes m (a + 1) n
  end.

Fixpoint write_bytes (m : gmap Z Z) (a : Z) (l : list Z) : gmap Z Z :=
  match l with
  | [] => m
  | b :: l => write_bytes (wr8 m a b) (a + 1) l
  end.

Definition rd16 (m : gmap Z Z) (a : Z) : Z := le_value (read_bytes m a 2).
Definition rd32 (m : gmap Z Z) (a : Z) : Z := le_value (read_bytes m a 4).
Definition rd64 (m : gmap Z Z) (a : Z) : Z := le_value (read_bytes m a 8).
Definition wr16 (m : gmap Z Z) (a v : Z) : gmap Z Z := write_bytes m a (le_bytes 2 v).
Definition wr32 (m : gmap Z Z) (a v : Z) : gmap Z Z := write_bytes m a (le_bytes 4 v).
Definition wr64 (m : gmap Z Z) (a v : Z) : gmap Z Z := write_bytes m a (le_bytes 8 v).

(** A memory all of whose cells hold bytes. *)
Definition mem_ok (m : gmap Z Z) : Prop := map_Forall (fun _ b => is_byte b) m.

Lemma rd8_wr8_eq m a v : rd8 (wr8 m a v) a = v.
Proof. unfold rd8, wr8. by rewrite lookup_insert_eq. Qed.

Lemma rd8_wr8_ne m a b v : a <> b -> rd8 (wr8 m a v) b = rd8 m b.
Proof. intros. unfold rd8, wr8. by rewrite lookup_insert_ne. Qed.

Lemma length_read_bytes m a n : length (read_bytes m a n) = n.
Proof. revert a. induction n; intros; simpl; auto. Qed.

(** A write leaves every address outside [a, a + length l) alone. *)
Lemma rd8_write_bytes_out m a l x :
  x < a \/ a + Z.of_nat (length l) <= x -> rd8 (write_bytes m a l) x = rd8 m x.
Proof.
  revert m a. induction l as [|b l IH]; intros m a Hx; [done|]. cbn [write_bytes length] in *.
  rewrite IH by lia. apply rd8_wr8_ne. lia.
Qed.

Lemma rd8_write_bytes_in m a l i b :
  l !! i = Some b -> rd8 (write_bytes m a l) (a + Z.of_nat i) = b.
Proof.
  revert m a i. induction l as [|c l IH]; intros m a i Hi; [done|].
  destruct i as [|i]; cbn [write_bytes lookup list_lookup] in *; simplify_eq.
  - rewrite rd8_write_bytes_out by lia. rewrite Z.add_0_r. apply rd8_wr8_eq.
  - replace (a + Z.of_nat (S i)) with (a + 1 + Z.of_nat i) by lia. by apply IH.
Qed.

Lemma read_bytes_ext m m' a n :
  (forall x, a <= x < a + Z.of_nat n -> rd8 m x = rd8 m' x) -> read_bytes m a n = read_bytes m' a n.
Proof.
  revert a. induction n as [|n IH]; intros a H; [done|]. cbn [read_bytes].
  rewrite H by lia. f_equal. apply IH. intros. apply H. lia.
Qed.

(** Reading a range disjoint from a write. *)
Lemma read_write_bytes_out m a l b n :
  b + Z.of_nat n <= a \/ a + Z.of_nat (length l) <= b ->
  read_bytes (write_bytes m a l) b n = read_bytes m b n.
Proof. intros. apply read_bytes_ext. intros. apply rd8_write_bytes_out. lia. Qed.

(** Reading back exactly what was written. *)
Lemma read_write_bytes_same m a l : read_bytes (write_bytes m a l) a (length l) = l.
Proof.
  revert m a. induction l as [|b l IH]; intros; [done|]. cbn [write_bytes length read_bytes].
  rewrite rd8_write_bytes_out by lia. rewrite rd8_wr8_eq. f_equal. apply IH.
Qed.

Lemma read_write_bytes_len m a l n : length l = n -> read_bytes (write_bytes m a l) a n = l.
Proof. intros <-. apply read_write_bytes_same. Qed.

Lemma read_bytes_lookup m a n i :
  (i < n)%nat -> read_bytes m a n !! i = Some (rd8 m (a + Z.of_nat i)).
Proof.
  revert a i. induction n as [|n IH]; intros a i Hi; [lia|].
  destruct i as [|i]; cbn [read_bytes lookup list_lookup].
  - by rewrite Z.add_0_r.
  - change (list_lookup i (read_bytes m (a + 1) n)) with (read_bytes m (a + 1) n !! i).
    rewrite IH by lia. do 2 f_equal. lia.
Qed.

Lemma le_value_app l k : le_value (l ++ k) = le_value l + 2 ^ (8 * Z.of_nat (length l)) * le_value k.
Proof.
  induction l as [|b l IH]; cbn [app le_value length]; [lia|]. rewrite IH, pow256_succ. lia.
Qed.

Lemma read_bytes_app m a n n' :
  read_bytes m a (n + n') = read_bytes m a n ++ read_bytes m (a + Z.of_nat n) n'.
Proof.
  revert a. induction n as [|n IH]; intros a; cbn [read_bytes Nat.add app].
  - by rewrite Z.add_0_r.
  - rewrite IH. do 3 f_equal. lia.
Qed.

Lemma write_bytes_app m a l k :
  write_bytes m a (l ++ k) = write_bytes (write_bytes m a l) (a + Z.of_nat (length l)) k.
Proof.
  revert m a. induction l as [|b l IH]; intros m a; cbn [write_bytes app length].
  - by rewrite Z.add_0_r.
  - rewrite IH. f_equal. lia.
Qed.

Lemma rd64_rd32 m a : rd64 m a = rd32 m a + 2 ^ 32 * rd32 m (a + 4).
Proof.
  unfold rd64, rd32. change 8%nat with (4 + 4)%nat.
  by rewrite read_bytes_app, le_value_app, length_read_bytes.
Qed.

Lemma rd_wr_same n m a v :
  fits (8 * Z.of_nat n) v -> le_value (read_bytes (write_bytes m a (le_bytes n v)) a n) = v.
Proof.
  intros. rewrite <- (length_le_bytes n v) at 2. rewrite read_write_bytes_same.
  by apply le_value_le_bytes.
Qed.

Lemma rd32_wr8_out m a v b : a < b \/ b + 4 <= a -> rd32 (wr8 m a v) b = rd32 m b.
Proof.
  intros H. unfold rd32. f_equal. apply read_bytes_ext. intros x Hx. apply rd8_wr8_ne. simpl in Hx. lia.
Qed.

Lemma rd32_wr32_out m a v b : b + 4 <= a \/ a + 4 <= b -> rd32 (wr32 m a v) b = rd32 m b.
Proof.
  intros H. unfold rd32, wr32. rewrite read_write_bytes_out; [done|].
  rewrite length_le_bytes. simpl. lia.
Qed.

Lemma rd32_wr32_eq m a v : fits 32 v -> rd32 (wr32 m a v) a = v.
Proof. apply (rd_wr_same 4). Qed.

Lemma rd8_wr32_out m a v b : b < a \/ a + 4 <= b -> rd8 (wr32 m a v) b = rd8 m b.
Proof. intros. unfold wr32. apply rd8_write_bytes_out. rewrite length_le_bytes. simpl. lia. Qed.

Lemma rd8_is_byte m a : mem_ok m -> is_byte (rd8 m a).
Proof.
  intros Hm. unfold rd8. destruct (m !! a) eqn:E; simpl; [|unfold is_byte; lia].
  exact (Hm _ _ E).
Qed.

Lemma mem_ok_wr8 m a v : mem_ok m -> is_byte v -> mem_ok (wr8 m a v).
Proof. intros. by apply map_Forall_insert_2. Qed.

Lemma mem_ok_write_bytes m a l : mem_ok m -> Forall is_byte l -> mem_ok (write_bytes m a l).
Proof.
  intros Hm Hl. revert m a Hm. induction Hl; intros; simpl; auto using mem_ok_wr8.
Qed.

Lemma read_bytes_are_bytes m a n : mem_ok m -> Forall is_byte (read_bytes m a n).
Proof. intros. revert a. induction n; intros; simpl; constructor; auto using rd8_is_byte. Qed.

Lemma rd_bound n m a : mem_ok m -> fits (8 * Z.of_nat n) (le_value (read_bytes m a n)).
Proof.
  intros. pose proof (le_value_bound (read_bytes m a n) (read_bytes_are_bytes m a n H)) as Hb.
  by rewrite length_read_bytes in Hb.
Qed.

Lemma rd16_fits m a : mem_ok m -> fits 16 (rd16 m a).
Proof. exact (rd_bound 2 m a). Qed.

Lemma rd32_fits m a : mem_ok m -> fits 32 (rd32 m a).
Proof. exact (rd_bound 4 m a). Qed.

Lemma rd64_fits m a : mem_ok m -> fits 64 (rd64 m a).
Proof. exact (rd_bound 8 m a). Qed.

Lemma fits_mono w w' x : w <= w' -> fits w x -> fits w' x.
Proof. intros Hw [? ?]. split; [done|]. pose proof (Z.pow_le_mono_r 2 w w'). lia. Qed.

(** ** Lists *)

Lemma sublist_Forall {A} (P : A -> Prop) (l k : list A) : sublist k l -> Forall P l -> Forall P k.
Proof. intros Hs. rewrite !Forall_forall. eauto using elem_of_sublist. Qed.

Lemma list_elem_of_map {A B} (f : A -> B) (x : A) (l : list A) : x ∈ l -> f x ∈ List.map f l.
Proof. intros. apply list_elem_of_In, List.in_map. by apply list_elem_of_In. Qed.

(** ** Characters and strings

    A [&str] is the list of its Unicode scalar values; [chars] gives the list of
    an ASCII literal. *)

Definition chars (s : String.string) : list Z :=
  List.map (fun c => Z.of_nat (Ascii.nat_of_ascii c)) (String.list_ascii_of_string s).
Arguments chars s%_string_scope.

(** ** Automation *)

Create HintDb bhx.
Create Rewrite HintDb bhx_len.
#[export] Hint Resolve wrap_fits le_bytes_are_bytes mem_ok_wr8 mem_ok_write_bytes
  read_bytes_are_bytes rd8_is_byte rd16_fits rd32_fits rd64_fits : bhx.
#[export] Hint Rewrite length_le_bytes length_read_bytes : bhx_len.

(** Split every boolean test in the goal and turn it into a proposition. *)
Ltac bool_cases :=
  repeat match goal with
  | |- context [if ?b then _ else _] =>
      match type of b with bool => destruct b eqn:? end
  | H : context [if ?b then _ else _] |- _ =>
      match type of b with bool => destruct b eqn:? end
  end.

Ltac bool_to_prop :=
  repeat match goal with
  | H : (_ && _)%bool = true |- _ => apply andb_prop in H as [? ?]
  | H : (_ || _)%bool = false |- _ => apply orb_false_iff in H as [? ?]
  | H : negb _ = true |- _ => apply negb_true_iff in H
  | H : negb _ = false |- _ => apply negb_false_iff in H
  | H : (_ =? _) = true |- _ => apply Z.eqb_eq in H
  | H : (_ =? _) = false |- _ => apply Z.eqb_neq in H
  | H : (_ <? _) = true |- _ => apply Z.ltb_lt in H
  | H : (_ <? _) = false |- _ => apply Z.ltb_ge in H
  | H : (_ <=? _) = true |- _ => apply Z.leb_le in H
  | H : (_ <=? _) = false |- _ => apply Z.leb_gt in H
  end.

Ltac bools := bool_cases; bool_to_prop.

(** Read a 32-bit word through a stack of 32-bit writes at known distances. *)
Ltac read_words :=
  repeat match goal with
  | |- context [rd32 (wr32 ?m ?a ?v) ?b] =>
      first [rewrite (rd32_wr32_out m a v b) by lia
            |rewrite (rd32_wr32_eq m a v) by (done || by apply wrap_fits)]
  end.
