(* ===== verification/Layout.v ===== *)
(** The memory layout that the daemon and the firmware of the reserved Tensix
    tile share: the register files, the queue shadows and the statistics of
    [src/virtio_engine.rs], the control block of [src/tensix_proto.rs] and the
    UART regions of [src/uart_engine.rs].  The functions compute [u32]
    addresses in the L1 of the tile; the theorems show that within the bounds
    of the layout no two of the addressed cells overlap and nothing wraps. *)

From S2P Require Import Prelude.

(** ** Constants of [virtio_engine.rs] *)

Definition CODE_BASE : Z := 0x0.
Definition CODE_SIZE : Z := 0x4000.
Definition STATS_BASE : Z := 0x4000.
Definition STATS_SIZE : Z := 0x1000.
Definition REGS_BASE : Z := 0x10000.
Definition REGS_PER_DEV : Z := 0x1000.
Definition NUM_L2CPUS : Z := 4.
Definition DEVS_PER_L2CPU : Z := 8.
Definition NUM_SLOTS : Z := NUM_L2CPUS * DEVS_PER_L2CPU.
Definition PER_L2CPU_WINDOW_SIZE : Z := DEVS_PER_L2CPU * REGS_PER_DEV.
Definition DEV_BLK : Z := 0.
Definition DEV_NET : Z := 1.
Definition DEV_CONSOLE : Z := 2.
Definition DEV_RNG : Z := 3.
Definition DEV_BLK1 : Z := 4.
Definition DEV_BLK2 : Z := 5.
Definition MMIO_MAGIC_VALUE : Z := 0x0.
Definition MMIO_VERSION : Z := 0x4.
Definition MMIO_DEVICE_ID : Z := 0x8.
Definition MMIO_VENDOR_ID : Z := 0xc.
Definition MMIO_DEVICE_FEATURES : Z := 0x10.
Definition MMIO_DEVICE_FEATURES_SEL : Z := 0x14.
Definition MMIO_SW_IMPL : Z := 0x18.
Definition MMIO_SEL_GENERATION : Z := 0x1c.
Definition MMIO_DRIVER_FEATURES : Z := 0x20.
Definition MMIO_DRIVER_FEATURES_SEL : Z := 0x24.
Definition MMIO_QUEUE_SEL : Z := 0x30.
Definition MMIO_QUEUE_NUM_MAX : Z := 0x34.
Definition MMIO_QUEUE_NUM : Z := 0x38.
Definition MMIO_QUEUE_READY : Z := 0x44.
Definition MMIO_QUEUE_NOTIFY : Z := 0x50.
Definition MMIO_INTERRUPT_STATUS : Z := 0x60.
Definition MMIO_INTERRUPT_ACK : Z := 0x64.
Definition MMIO_STATUS : Z := 0x70.
Definition MMIO_QUEUE_DESC_LOW : Z := 0x80.
Definition MMIO_QUEUE_DESC_HIGH : Z := 0x84.
Definition MMIO_QUEUE_DRIVER_LOW : Z := 0x90.
Definition MMIO_QUEUE_DRIVER_HIGH : Z := 0x94.
Definition MMIO_QUEUE_DEVICE_LOW : Z := 0xa0.
Definition MMIO_QUEUE_DEVICE_HIGH : Z := 0xa4.
Definition MMIO_CONFIG_GENERATION : Z := 0xfc.
Definition MMIO_CONFIG : Z := 0x100.
Definition MAGIC : Z := 0x74726976.
Definition VERSION : Z := 2.
Definition VENDOR_ID : Z := 0x55544254.
Definition VIRTIO_ID_NET : Z := 1.
Definition VIRTIO_ID_BLOCK : Z := 2.
Definition VIRTIO_ID_CONSOLE : Z := 3.
Definition VIRTIO_ID_ENTROPY : Z := 4.
Definition QUEUE_NUM_MAX : Z := 256.
Definition STATUS_ACKNOWLEDGE : Z := 1.
Definition STATUS_DRIVER : Z := 2.
Definition STATUS_DRIVER_OK : Z := 4.
Definition STATUS_FEATURES_OK : Z := 8.
Definition STATUS_DEVICE_NEEDS_RESET : Z := 64.
Definition STATUS_FAILED : Z := 128.
Definition STATS_OFF_VERSION : Z := 0x0.
Definition STATS_OFF_MAGIC : Z := 0x4.
Definition STATS_OFF_HEARTBEAT : Z := 0x8.
Definition STATS_OFF_STATUS_CHANGES : Z := 0x10.
Definition STATS_OFF_SEL_CHANGES : Z := 0x14.
Definition STATS_OFF_NOTIFY_EVENTS : Z := 0x18.
Definition STATS_OFF_READY_EVENTS : Z := 0x1c.
Definition STATS_OFF_LAST_NOTIFY : Z := 0x20.
Definition STATS_OFF_SEL_READY_RACES : Z := 0x24.
Definition STATS_OFF_READY_CAPTURE_SEL_RACES : Z := 0x28.
Definition STATS_OFF_QUEUE_SETUPS : Z := 0x2c.
Definition STATS_OFF_QUEUE_TEARDOWNS : Z := 0x30.
Definition STATS_OFF_BRISC_OLD_SEL_RESCUE : Z := 0x34.
Definition STATS_OFF_DEV_FEAT_SEL_CHANGES : Z := 0x38.
Definition STATS_OFF_TRISC1_SEL_RACES : Z := 0x3c.
Definition STATS_OFF_MAX_SWEEP_CYCLES : Z := 0x40.
Definition STATS_OFF_MAX_STEADY_SWEEP_CYCLES : Z := 0x44.
Definition STATS_OFF_MAX_SEL_PATH_CYCLES : Z := 0x48.
Definition STATS_OFF_LAST_SWEEP_CYCLES : Z := 0x4c.
Definition STATS_OFF_MAX_TRISC1_REACTION_CYCLES : Z := 0x50.
Definition STATS_OFF_MAX_TRISC1_OUTER_CYCLES : Z := 0x54.
Definition SHADOW_BASE : Z := 0x30000.
Definition SHADOW_PER_DEVICE : Z := 0x400.
Definition SHADOW_PER_QUEUE : Z := 0x40.
Definition SHADOW_Q_OFF_NUM : Z := 0x0.
Definition SHADOW_Q_OFF_READY : Z := 0x4.
Definition SHADOW_Q_OFF_DESC_LO : Z := 0x8.
Definition SHADOW_Q_OFF_DESC_HI : Z := 0xc.
Definition SHADOW_Q_OFF_DRIVER_LO : Z := 0x10.
Definition SHADOW_Q_OFF_DRIVER_HI : Z := 0x14.
Definition SHADOW_Q_OFF_DEVICE_LO : Z := 0x18.
Definition SHADOW_Q_OFF_DEVICE_HI : Z := 0x1c.
Definition SNAP_BASE_OFF : Z := 0x200.
Definition SNAP_OFF_STATUS : Z := 0x0.
Definition STATS_MAGIC_LOADED : Z := 0xb155.
Definition QUEUES_BLK : Z := 1.
Definition QUEUES_NET : Z := 2.
Definition QUEUES_CONSOLE : Z := 2.
Definition QUEUES_RNG : Z := 1.
Definition VIRTIO_F_VERSION_1_HIGH_BIT : Z := 0x1.
Definition VIRTIO_NET_F_MAC_BIT : Z := Z.shiftl 1 5.

(** ** Constants of [tensix_proto.rs] *)

Definition PROTOCOL_VERSION : Z := 5.
Definition CTRL_BASE : Z := 0x5000.
Definition CTRL_SIZE : Z := 0x1000.
Definition CTRL_OFF_HELLO : Z := 0x0.
Definition CTRL_OFF_HELLO_ACK : Z := 0x40.
Definition CTRL_OFF_ACTIVE_SLOTS : Z := 0xc0.
Definition CTRL_OFF_ACTIVE_VIRTIO_SLOTS : Z := 0xc4.
Definition MAX_QUEUES_PER_SLOT : Z := 8.
Definition CTRL_OFF_DIRTY : Z := 0x100.
Definition CTRL_OFF_PROCESSED : Z := 0x200.
Definition CTRL_OFF_END : Z := 0x400.
Definition HELLO_MAGIC : Z := 0x4f4c4548.
Definition HELLO_ACK_MAGIC : Z := 0x214b4341.
Definition HELLO_OFF_PROTOCOL_VERSION : Z := 0x0.
Definition HELLO_OFF_MAGIC : Z := 0x4.
Definition HELLO_ACK_OFF_PROTOCOL_VERSION : Z := 0x0.
Definition HELLO_ACK_OFF_FIRMWARE_VERSION : Z := 0x4.
Definition HELLO_ACK_OFF_MAGIC : Z := 0x8.

(** ** Constants of [uart_engine.rs] *)

Definition UART_PER_L2CPU_STRIDE : Z := 0x4000.
Definition UART_REG_FILE_SIZE : Z := 0x1000.
Definition UART_OFFSET_FROM_ENGINE_BASE : Z := 0x30000.
Definition UART_SLOT_OFFSET_IN_L2CPU : Z := 6.
Definition TRISC0_GLOBAL_BASE : Z := 0x58000.
Definition TRISC0_GLOBAL_OFF_HEARTBEAT : Z := 0x0.
Definition UART_PRIVATE_BASE : Z := 0x50000.
Definition UART_PRIVATE_PER_L2CPU : Z := 0x2000.
Definition UART_PRIV_OFF_HOLD : Z := 0x0.
Definition UART_PRIV_OFF_FEED_PRODUCER_SEQ : Z := 0x4.
Definition UART_PRIV_OFF_FEED_CONSUMER_SEQ : Z := 0x8.
Definition UART_PRIV_OFF_FEED_DROP_COUNT : Z := 0xc.
Definition UART_PRIV_OFF_FEED_RING : Z := 0x40.
Definition UART_FEED_RING_ENTRIES : Z := 1024.

(** ** Address computations *)

Definition slot (l2cpu_idx device_idx : Z) : Z := u32 (u32 (l2cpu_idx * DEVS_PER_L2CPU) + device_idx).

Definition slot_regs_base (s : Z) : Z := u32 (REGS_BASE + u32 (s * REGS_PER_DEV)).

Definition l2cpu_window_base (l2cpu_idx : Z) : Z :=
  u32 (REGS_BASE + u32 (l2cpu_idx * PER_L2CPU_WINDOW_SIZE)).

Definition shadow_queue_addr (s queue_idx off : Z) : Z :=
  u32 (SHADOW_BASE + s * SHADOW_PER_DEVICE + queue_idx * SHADOW_PER_QUEUE + off).

Definition snap_addr (s off : Z) : Z :=
  u32 (SHADOW_BASE + s * SHADOW_PER_DEVICE + SNAP_BASE_OFF + off).

Definition is_blk_index (device_idx : Z) : bool :=
  (device_idx =? DEV_BLK) || (device_idx =? DEV_BLK1) || (device_idx =? DEV_BLK2).

Definition num_queues_for_device (device_idx : Z) : Z :=
  if is_blk_index device_idx then QUEUES_BLK
  else if device_idx =? DEV_NET then QUEUES_NET
  else if device_idx =? DEV_CONSOLE then QUEUES_CONSOLE
  else if device_idx =? DEV_RNG then QUEUES_RNG
  else 0.

Definition device_id_for_index (device_idx : Z) : Z :=
  if is_blk_index device_idx then VIRTIO_ID_BLOCK
  else if device_idx =? DEV_NET then VIRTIO_ID_NET
  else if device_idx =? DEV_CONSOLE then VIRTIO_ID_CONSOLE
  else if device_idx =? DEV_RNG then VIRTIO_ID_ENTROPY
  else 0.

Definition dev_feat_low_for_index (device_idx : Z) : Z :=
  if device_idx =? DEV_NET then VIRTIO_NET_F_MAC_BIT else 0.

Definition dev_feat_high_for_index (device_idx : Z) : Z :=
  if is_blk_index device_idx || (device_idx =? DEV_NET) || (device_idx =? DEV_CONSOLE)
     || (device_idx =? DEV_RNG)
  then VIRTIO_F_VERSION_1_HIGH_BIT else 0.

Definition dirty_byte_addr (s queue : Z) : Z :=
  u32 (CTRL_BASE + CTRL_OFF_DIRTY + s * MAX_QUEUES_PER_SLOT + queue).

Definition processed_cursor_addr (s queue : Z) : Z :=
  u32 (CTRL_BASE + CTRL_OFF_PROCESSED + s * MAX_QUEUES_PER_SLOT * 2 + queue * 2).

Definition slot_for_l2cpu (l2cpu_idx : Z) : Z :=
  u16 (l2cpu_idx * DEVS_PER_L2CPU + UART_SLOT_OFFSET_IN_L2CPU).

Definition l2cpu_for_slot (s : Z) : option Z :=
  if (s mod DEVS_PER_L2CPU =? UART_SLOT_OFFSET_IN_L2CPU) && (s / DEVS_PER_L2CPU <? NUM_L2CPUS)
  then Some (u8 (s / DEVS_PER_L2CPU)) else None.

Definition uart_pa_from_engine_base (engine_base : Z) : Z :=
  u64 (engine_base + UART_OFFSET_FROM_ENGINE_BASE).

Definition trisc0_heartbeat_addr : Z := TRISC0_GLOBAL_BASE + TRISC0_GLOBAL_OFF_HEARTBEAT.

Definition uart_private_base (l2cpu_idx : Z) : Z :=
  u32 (UART_PRIVATE_BASE + l2cpu_idx * UART_PRIVATE_PER_L2CPU).

Definition feed_drop_count_addr (l2cpu_idx : Z) : Z :=
  u32 (uart_private_base l2cpu_idx + UART_PRIV_OFF_FEED_DROP_COUNT).

(** The compile-time assertions of both layout modules, as one executable
    check. *)
Definition LAYOUT_INVARIANTS : bool :=
  (CODE_BASE + CODE_SIZE <=? STATS_BASE) && (STATS_BASE + STATS_SIZE <=? REGS_BASE)
  && (STATS_BASE + STATS_SIZE <=? CTRL_BASE) && (CTRL_BASE + CTRL_SIZE <=? REGS_BASE)
  && (NUM_SLOTS * REGS_PER_DEV =? 32 * 0x1000)
  && (PER_L2CPU_WINDOW_SIZE =? DEVS_PER_L2CPU * REGS_PER_DEV)
  && (Z.land DEVS_PER_L2CPU (DEVS_PER_L2CPU - 1) =? 0)
  && (REGS_BASE + NUM_SLOTS * REGS_PER_DEV <=? SHADOW_BASE)
  && (SHADOW_BASE + NUM_SLOTS * SHADOW_PER_DEVICE <=? 0x40000)
  && (NUM_SLOTS =? 32)
  && (CTRL_OFF_DIRTY + NUM_SLOTS * MAX_QUEUES_PER_SLOT <=? CTRL_OFF_PROCESSED)
  && (CTRL_OFF_PROCESSED + NUM_SLOTS * MAX_QUEUES_PER_SLOT * 2 <=? CTRL_OFF_END)
  && (CTRL_OFF_END <=? CTRL_SIZE).

(** ** Regions of the L1

    A region is a base address with a length; the cells that the daemon
    addresses are the register file of a slot, the shadow record of a queue,
    the status snapshot of a slot, a dirty byte, a processed cursor, the
    private UART region of an L2CPU. *)

Record region := mk_region { reg_base : Z; reg_len : Z }.

Definition disjoint (r1 r2 : region) : Prop :=
  reg_base r1 + reg_len r1 <= reg_base r2 \/ reg_base r2 + reg_len r2 <= reg_base r1.

Definition inside (r1 r2 : region) : Prop :=
  reg_base r2 <= reg_base r1 /\ reg_base r1 + reg_len r1 <= reg_base r2 + reg_len r2.

Inductive cell :=
| RegFile (s : Z)
| ShadowQueue (s q : Z)
| Snapshot (s : Z)
| DirtyByte (s q : Z)
| ProcessedCursor (s q : Z)
| ActiveSlots
| ActiveVirtioSlots
| UartPrivate (l2cpu : Z).

Definition cell_region (c : cell) : region :=
  match c with
  | RegFile s => mk_region (slot_regs_base s) REGS_PER_DEV
  | ShadowQueue s q => mk_region (shadow_queue_addr s q 0) SHADOW_PER_QUEUE
  | Snapshot s => mk_region (snap_addr s SNAP_OFF_STATUS) 4
  | DirtyByte s q => mk_region (dirty_byte_addr s q) 1
  | ProcessedCursor s q => mk_region (processed_cursor_addr s q) 2
  | ActiveSlots => mk_region (CTRL_BASE + CTRL_OFF_ACTIVE_SLOTS) 4
  | ActiveVirtioSlots => mk_region (CTRL_BASE + CTRL_OFF_ACTIVE_VIRTIO_SLOTS) 4
  | UartPrivate i => mk_region (uart_private_base i) UART_PRIVATE_PER_L2CPU
  end.

(** The cells the layout reserves room for. *)
Definition cell_ok (c : cell) : Prop :=
  match c with
  | RegFile s | Snapshot s => 0 <= s < NUM_SLOTS
  | ShadowQueue s q | DirtyByte s q | ProcessedCursor s q =>
      0 <= s < NUM_SLOTS /\ 0 <= q < MAX_QUEUES_PER_SLOT
  | ActiveSlots | ActiveVirtioSlots => True
  | UartPrivate i => 0 <= i < NUM_L2CPUS
  end.

Lemma slot_exact i d :
  0 <= i < NUM_L2CPUS -> 0 <= d < DEVS_PER_L2CPU ->
  slot i d = i * 8 + d /\ 0 <= slot i d < NUM_SLOTS.
Proof.
  unfold slot, u32, NUM_SLOTS, NUM_L2CPUS, DEVS_PER_L2CPU in *. intros.
  unfold wrap. rewrite (Z.mod_small (i * 8)) by lia. rewrite Z.mod_small by lia. lia.
Qed.

(** The base of each cell without the wrap, for cells in range. *)
Lemma cell_base_exact c :
  cell_ok c ->
  reg_base (cell_region c) =
  match c with
  | RegFile s => 0x10000 + s * 0x1000
  | ShadowQueue s q => 0x30000 + s * 0x400 + q * 0x40
  | Snapshot s => 0x30000 + s * 0x400 + 0x200
  | DirtyByte s q => 0x5100 + s * 8 + q
  | ProcessedCursor s q => 0x5200 + s * 16 + q * 2
  | ActiveSlots => 0x50c0
  | ActiveVirtioSlots => 0x50c4
  | UartPrivate i => 0x50000 + i * 0x2000
  end.
Proof.
  destruct c; cbn -[Z.add Z.mul];
    unfold slot_regs_base, shadow_queue_addr, snap_addr, dirty_byte_addr, processed_cursor_addr,
      uart_private_base, u32, wrap, NUM_SLOTS, NUM_L2CPUS, DEVS_PER_L2CPU, MAX_QUEUES_PER_SLOT,
      REGS_BASE, REGS_PER_DEV, SHADOW_BASE, SHADOW_PER_DEVICE, SHADOW_PER_QUEUE, SNAP_BASE_OFF,
      SNAP_OFF_STATUS, CTRL_BASE, CTRL_OFF_DIRTY, CTRL_OFF_PROCESSED, UART_PRIVATE_BASE,
      UART_PRIVATE_PER_L2CPU; intros;
    repeat (rewrite (Z.mod_small (_ * _)) by lia); repeat (rewrite Z.mod_small by lia);
    first [reflexivity | lia].
Qed.

(** Any two different cells of the shared layout occupy disjoint byte
    ranges of the L1, and each of them stays clear of the firmware image, of
    the statistics block and of the HELLO / HELLO-ACK records. *)
Theorem cells_disjoint c1 c2 :
  cell_ok c1 -> cell_ok c2 ->
  (c1 <> c2 -> disjoint (cell_region c1) (cell_region c2)) /\
  disjoint (cell_region c1) (mk_region CODE_BASE CODE_SIZE) /\
  disjoint (cell_region c1) (mk_region STATS_BASE STATS_SIZE) /\
  disjoint (cell_region c1) (mk_region (CTRL_BASE + CTRL_OFF_HELLO) 8) /\
  disjoint (cell_region c1) (mk_region (CTRL_BASE + CTRL_OFF_HELLO_ACK) 12).
Proof.
  intros H1 H2. unfold disjoint. rewrite !cell_base_exact by assumption.
  destruct c1, c2; simpl in *;
    unfold NUM_SLOTS, NUM_L2CPUS, DEVS_PER_L2CPU, MAX_QUEUES_PER_SLOT, REGS_PER_DEV,
      SHADOW_PER_QUEUE, UART_PRIVATE_PER_L2CPU, CODE_BASE, CODE_SIZE, STATS_BASE, STATS_SIZE,
      CTRL_BASE, CTRL_OFF_HELLO, CTRL_OFF_HELLO_ACK in *;
    (split; [intros Hne | lia]); try lia; try congruence.
  all: try match type of Hne with
    | RegFile ?a <> RegFile ?b => assert (a <> b) by congruence
    | Snapshot ?a <> Snapshot ?b => assert (a <> b) by congruence
    | UartPrivate ?a <> UartPrivate ?b => assert (a <> b) by congruence
    | ?c ?a ?q <> ?c ?b ?r =>
        assert (a <> b \/ q <> r) by (destruct (Z.eq_dec a b), (Z.eq_dec q r); subst; auto)
    end; lia.
Qed.

Lemma cells_disjoint_witness :
  disjoint (cell_region (DirtyByte 31 7)) (cell_region (ProcessedCursor 0 0)).
Proof.
  refine (proj1 (cells_disjoint (DirtyByte 31 7) (ProcessedCursor 0 0) _ _) _).
  - vm_compute; repeat split; discriminate.
  - vm_compute; repeat split; discriminate.
  - discriminate.
Defined.

(** The slot computed for a device of an L2CPU is exactly its position in
    the slot table: distinct (L2CPU, device) pairs get distinct slots below
    [NUM_SLOTS], the register file of the slot lies inside the window of its
    L2CPU, and the UART slot of an L2CPU, the only slot that maps back to it,
    is never the slot of a virtio device. *)
Theorem slot_partition i d :
  0 <= i < NUM_L2CPUS -> 0 <= d < DEVS_PER_L2CPU ->
  0 <= slot i d < NUM_SLOTS /\
  (forall i' d', 0 <= i' < NUM_L2CPUS -> 0 <= d' < DEVS_PER_L2CPU ->
     slot i d = slot i' d' -> i = i' /\ d = d') /\
  inside (cell_region (RegFile (slot i d)))
         (mk_region (l2cpu_window_base i) PER_L2CPU_WINDOW_SIZE) /\
  l2cpu_for_slot (slot_for_l2cpu i) = Some i /\
  (l2cpu_for_slot (slot i d) = Some i <-> d = UART_SLOT_OFFSET_IN_L2CPU) /\
  (0 < num_queues_for_device d -> l2cpu_for_slot (slot i d) = None).
Proof.
  intros Hi Hd. destruct (slot_exact i d Hi Hd) as [E B].
  assert (Hi' : i = 0 \/ i = 1 \/ i = 2 \/ i = 3) by (unfold NUM_L2CPUS in *; lia).
  assert (Hd' : d = 0 \/ d = 1 \/ d = 2 \/ d = 3 \/ d = 4 \/ d = 5 \/ d = 6 \/ d = 7)
    by (unfold DEVS_PER_L2CPU in *; lia).
  split; [exact B|]. split; [|clear E B Hi Hd].
  - intros i' d' H1 H2. destruct (slot_exact i' d' H1 H2) as [-> _]. rewrite E.
    unfold DEVS_PER_L2CPU in *. lia.
  - destruct Hi' as [->|[->|[->| ->]]], Hd' as [->|[->|[->|[->|[->|[->|[->| ->]]]]]]];
      vm_compute; repeat split; (discriminate || reflexivity || (intros; discriminate)).
Qed.

Lemma slot_partition_witness : l2cpu_for_slot (slot 3 6) = Some 3.
Proof. apply (slot_partition 3 6); [split; vm_compute; congruence ..|reflexivity]. Defined.

(** The compile-time assertions hold of the constants. *)
Lemma layout_invariants_hold : LAYOUT_INVARIANTS = true.
Proof. reflexivity. Qed.
