(* ===== verification/Sigbus.v ===== *)
(** The chip-range registry and the fault handler of [src/daemon/sigbus.rs].

    The registry is a lock-free cell: a pointer to an immutable, leaked slice
    that threads replace with compare-exchange.  The model keeps the pointers:
    [heap] holds every slice ever published and a published pointer is never
    reused, as the source leaks them.  A thread's load and its
    compare-exchange are separate steps, so every interleaving is covered. *)

From S2P Require Import Prelude.

Record ChipRange := mk_range { start : Z; len : Z }.

#[export] Instance ChipRange_eq_dec : EqDecision ChipRange.
Proof. solve_decision. Defined.

Definition USIZE_MAX : Z := U64_MAX.

(** ** The sequential operations *)

Inductive op :=
| Register (s l : Z)
| Unregister (s : Z).

(** The slice an operation publishes over the slice it read. *)
Definition publish_over (rs : list ChipRange) (o : op) : list ChipRange :=
  match o with
  | Register s l => rs ++ [mk_range s l]
  | Unregister s => List.filter (fun r => negb (start r =? s)) rs
  end.

(** Whether the operation returns without publishing. *)
Definition is_noop (rs : list ChipRange) (o : op) : bool :=
  match o with
  | Register _ l => l =? 0
  | Unregister s => forallb (fun r => negb (start r =? s)) rs
  end.

Definition apply_op (rs : list ChipRange) (o : op) : list ChipRange :=
  if is_noop rs o then rs else publish_over rs o.

(** ** The shared cell and its threads *)

(** Pointer 0 is null; [next_ptr] is the next unused address. *)
Record cell := mk_cell { cur : Z; heap : gmap Z (list ChipRange); next_ptr : Z }.

Definition cell_init : cell := mk_cell 0 ∅ 1.

(** What a pointer designates; null is the empty registry. *)
Definition deref (c : cell) (p : Z) : list ChipRange :=
  if p =? 0 then [] else default [] (heap c !! p).

Definition contents (c : cell) : list ChipRange := deref c (cur c).

(** A thread is about to run its next operation, or has loaded a pointer and
    prepared the slice that it will try to publish. *)
Inductive thread :=
| Ready (todo : list op)
| Loaded (o : op) (p : Z) (next : list ChipRange) (todo : list op).

(** One step of a thread: the new cell and thread, and the operation it
    completed, if any. *)
Definition load_step (c : cell) (o : op) (todo : list op) : thread * option op :=
  if is_noop (contents c) o then (Ready todo, Some o)
  else (Loaded o (cur c) (publish_over (contents c) o) todo, None).

Definition cas_step (c : cell) (o : op) (p : Z) (next : list ChipRange) (todo : list op)
    : cell * thread * option op :=
  if cur c =? p then
    (mk_cell (next_ptr c) (<[next_ptr c := next]> (heap c)) (next_ptr c + 1), Ready todo, Some o)
  else (c, Ready (o :: todo), None).

Definition thread_step (c : cell) (t : thread) : option (cell * thread * option op) :=
  match t with
  | Ready [] => None
  | Ready (o :: todo) => let '(t, fin) := load_step c o todo in Some (c, t, fin)
  | Loaded o p next todo => Some (cas_step c o p next todo)
  end.

(** The system: the cell, the threads, and the operations completed so far,
    oldest first, with the thread that ran them. *)
Record system := mk_sys { sys_cell : cell; threads : list thread; log : list (nat * op) }.

Definition sys_init (programs : list (list op)) : system :=
  mk_sys cell_init (List.map Ready programs) [].

(** Thread [i] takes a step. *)
Definition sys_step (s : system) (i : nat) : option system :=
  let! t := threads s !! i in
  let! (c, t, fin) := thread_step (sys_cell s) t in
  Some (mk_sys c (<[i := t]> (threads s))
          (match fin with Some o => log s ++ [(i, o)] | None => log s end)).

(** A run under a schedule; a thread that cannot step is skipped. *)
Definition sys_run (s : system) (schedule : list nat) : system :=
  foldl (fun s i => default s (sys_step s i)) s schedule.

(** ** The handler *)

Definition addr_is_in_chip_range (rs : list ChipRange) (addr : Z) : bool :=
  existsb (fun r => (start r <=? addr) && (addr <? Z.min (start r + len r) USIZE_MAX)) rs.

Definition hex_digit (n : Z) : Z := if n <? 10 then 48 + n else 87 + n.

Definition write_hex_u64 (value : Z) : list Z :=
  List.map (fun i => hex_digit (Z.land (Z.shiftr value ((15 - Z.of_nat i) * 4)) 0xf)) (seq 0 16).

Inductive signal := SIGBUS | SIGSEGV | OtherSignal (n : Z).
Definition signum (s : signal) : Z := match s with SIGBUS => 7 | SIGSEGV => 11 | OtherSignal n => n end.

Definition MSG_SIGBUS_CHIP : list Z :=
  chars "fatal: SIGBUS during chip access (tt-smi -r? PCIe link lost? Card pulled?) si_addr=0x".
Definition MSG_SIGSEGV_CHIP : list Z := chars "fatal: SIGSEGV during chip access si_addr=0x".
Definition MSG_SIGBUS_NONCHIP : list Z :=
  chars "fatal: SIGBUS in daemon process (likely a bug, not chip): si_addr=0x".
Definition MSG_SIGSEGV_NONCHIP : list Z :=
  chars "fatal: SIGSEGV in daemon process (likely a bug, not chip): si_addr=0x".
Definition MSG_UNKNOWN : list Z := chars "fatal: unexpected signal in chip-fault handler" ++ [10].

(** What the handler writes to standard error and the exit status. *)
Definition handle_chip_fault (rs : list ChipRange) (sig : signal) (si_addr : option Z) : list Z * Z :=
  let addr := default 0 si_addr in
  let in_chip := addr_is_in_chip_range rs addr in
  let '(prefix, append_addr) :=
    match sig, in_chip with
    | SIGBUS, true => (MSG_SIGBUS_CHIP, true)
    | SIGSEGV, true => (MSG_SIGSEGV_CHIP, true)
    | SIGBUS, false => (MSG_SIGBUS_NONCHIP, true)
    | SIGSEGV, false => (MSG_SIGSEGV_NONCHIP, true)
    | OtherSignal _, _ => (MSG_UNKNOWN, false)
    end in
  (prefix ++ (if append_addr then write_hex_u64 addr ++ [10] else []), 128 + signum sig).

(** ** Linearisability *)

Definition remaining (t : thread) : list op :=
  match t with Ready todo => todo | Loaded o _ _ todo => o :: todo end.

Definition ops_of (i : nat) (l : list (nat * op)) : list op :=
  List.map snd (List.filter (fun e => (fst e =? i)%nat) l).

Lemma ops_of_app i l k : ops_of i (l ++ k) = ops_of i l ++ ops_of i k.
Proof. unfold ops_of. by rewrite List.filter_app, List.map_app. Qed.

Definition ptr_ok (c : cell) (p : Z) : Prop := p = 0 \/ 0 < p < next_ptr c.

Definition thread_ok (c : cell) (t : thread) : Prop :=
  match t with
  | Ready _ => True
  | Loaded o p next _ =>
      ptr_ok c p /\ next = publish_over (deref c p) o /\ is_noop (deref c p) o = false
  end.

Record sys_ok (programs : list (list op)) (s : system) : Prop := {
  ok_next : 0 < next_ptr (sys_cell s);
  ok_cur : ptr_ok (sys_cell s) (cur (sys_cell s));
  ok_threads : Forall (thread_ok (sys_cell s)) (threads s);
  ok_contents : contents (sys_cell s) = foldl apply_op [] (List.map snd (log s));
  ok_order : Forall2 (fun prog it => ops_of it.1 (log s) ++ remaining it.2 = prog) programs
               (imap (fun i t => (i, t)) (threads s));
}.

(** Publishing a new slice changes no older pointer. *)
Lemma deref_publish c next p :
  ptr_ok c p ->
  deref (mk_cell (next_ptr c) (<[next_ptr c := next]> (heap c)) (next_ptr c + 1)) p = deref c p.
Proof.
  intros [->|Hp]; [done|]. unfold deref. simpl. destruct (p =? 0); [done|].
  by rewrite lookup_insert_ne by lia.
Qed.

Lemma thread_ok_publish c next t :
  thread_ok c t ->
  thread_ok (mk_cell (next_ptr c) (<[next_ptr c := next]> (heap c)) (next_ptr c + 1)) t.
Proof.
  destruct t as [|o p nx todo]; simpl; [done|]. intros (Hp & Hn & Hno).
  rewrite deref_publish by done. split; [|done]. destruct Hp; [by left|right; simpl; lia].
Qed.

(** What one step of a thread does to the registry: the completed operation,
    if any, is applied to the contents it is linearised at. *)
Lemma thread_step_ok c t c' t' fin :
  0 < next_ptr c -> ptr_ok c (cur c) -> thread_ok c t -> thread_step c t = Some (c', t', fin) ->
  0 < next_ptr c' /\ ptr_ok c' (cur c') /\ thread_ok c' t' /\
  (forall u, thread_ok c u -> thread_ok c' u) /\
  contents c' = match fin with Some o => apply_op (contents c) o | None => contents c end /\
  remaining t = match fin with Some o => [o] | None => [] end ++ remaining t'.
Proof.
  intros Hn Hc Ht. destruct t as [[|o todo]|o p next todo]; simpl; [done|..].
  - unfold load_step. destruct (is_noop (contents c) o) eqn:E; intros; simplify_eq; simpl.
    + do 4 (split; [done|]). unfold apply_op. by rewrite E.
    + do 2 (split; [done|]). split; [done|]. done.
  - unfold cas_step. destruct Ht as (Hp & -> & Hno). destruct (Z.eqb_spec (cur c) p) as [He|Hne];
      intros; simplify_eq; simpl; [|done].
    split; [lia|]. split; [right; simpl; lia|]. split; [done|].
    split; [intros u; apply thread_ok_publish|]. split; [|done].
    unfold contents at 1, deref at 1. simpl. destruct (Z.eqb_spec (next_ptr c) 0); [lia|].
    rewrite lookup_insert_eq. simpl. unfold apply_op. fold (contents c) in *. by rewrite Hno.
Qed.

Lemma imap_insert_Forall2 (P : list op -> nat * thread -> Prop) (Q : list op -> nat * thread -> Prop)
    progs ts i t' :
  Forall2 P progs (imap (fun i t => (i, t)) ts) ->
  (forall prog j u, j <> i -> P prog (j, u) -> Q prog (j, u)) ->
  (forall prog u, ts !! i = Some u -> P prog (i, u) -> Q prog (i, t')) ->
  Forall2 Q progs (imap (fun i t => (i, t)) (<[i := t']> ts)).
Proof.
  intros Hf Hne Heq. apply Forall2_same_length_lookup. apply Forall2_same_length_lookup in Hf as [Hl Hf].
  rewrite length_imap in Hl. split; [by rewrite length_imap, length_insert|].
  intros j prog [k u] Hj Hk. rewrite list_lookup_imap in Hk.
  destruct (decide (i = j)) as [->|Hij].
  - destruct (ts !! j) as [v|] eqn:Ev.
    + rewrite list_lookup_insert_eq in Hk by (by eapply lookup_lt_Some). simplify_eq/=.
      apply (Heq prog v eq_refl). eapply Hf; [exact Hj|]. by rewrite list_lookup_imap, Ev.
    + apply lookup_ge_None in Ev. apply lookup_lt_Some in Hj. lia.
  - rewrite list_lookup_insert_ne in Hk by done. destruct (ts !! j) as [v|] eqn:Ev; simplify_eq/=.
    apply Hne; [done|]. eapply Hf; [exact Hj|]. by rewrite list_lookup_imap, Ev.
Qed.

Lemma sys_step_ok programs s i s' : sys_ok programs s -> sys_step s i = Some s' -> sys_ok programs s'.
Proof.
  intros [Hn Hc Ht Hk Ho]. unfold sys_step. destruct (threads s !! i) as [t|] eqn:Ei; [|done].
  destruct (thread_step (sys_cell s) t) as [[[c' t'] fin]|] eqn:E; [|done]. intros [= <-].
  assert (Hti : thread_ok (sys_cell s) t) by (rewrite Forall_lookup in Ht; eauto).
  destruct (thread_step_ok _ _ _ _ _ Hn Hc Hti E) as (Hn' & Hc' & Ht' & Hothers & Hcont & Hrem).
  constructor; simpl; auto.
  - apply Forall_insert; [|done]. eapply Forall_impl; [exact Ht|exact Hothers].
  - rewrite Hcont, Hk. destruct fin; [|done]. by rewrite List.map_app, foldl_app.
  - eapply imap_insert_Forall2; [exact Ho|..]; simpl.
    + intros prog j u Hj <-. destruct fin; [|done]. rewrite ops_of_app. unfold ops_of at 2. simpl.
      destruct (Nat.eqb_spec i j); [congruence|]. by rewrite app_nil_r.
    + intros prog u Hu <-. rewrite Ei in Hu. simplify_eq. rewrite Hrem.
      destruct fin; [|done]. rewrite ops_of_app. unfold ops_of at 2. simpl.
      by rewrite Nat.eqb_refl, <- app_assoc.
Qed.

Lemma sys_init_ok programs : sys_ok programs (sys_init programs).
Proof.
  constructor; simpl; try done; [by left|..].
  - apply Forall_forall. intros t Ht. apply list_elem_of_In, List.in_map_iff in Ht as (x & <- & _). done.
  - apply Forall2_same_length_lookup. split; [by rewrite length_imap, List.length_map|].
    intros i prog [k t] Hi Hk. rewrite list_lookup_imap in Hk.
    change (List.map Ready programs) with (Ready <$> programs) in Hk.
    rewrite list_lookup_fmap, Hi in Hk. by simplify_eq/=.
Qed.

Lemma sys_run_ok programs s schedule : sys_ok programs s -> sys_ok programs (sys_run s schedule).
Proof.
  intros Hok. unfold sys_run. revert s Hok. induction schedule as [|i l IH]; intros s Hok; [done|].
  simpl. apply IH. destruct (sys_step s i) eqn:E; simpl; [by eapply sys_step_ok|done].
Qed.

(** C11: the lock-free registry is linearisable: for any programs of any number
    of threads and any interleaving of their loads and compare-exchanges, the
    registry holds exactly what running the completed operations one after
    another, in their order of completion, gives; each thread's completed
    operations are a prefix of its program, each of them once.  No
    registration is lost or duplicated under contention. *)
Theorem ranges_linearizable programs schedule i prog :
  programs !! i = Some prog ->
  let s := sys_run (sys_init programs) schedule in
  contents (sys_cell s) = foldl apply_op [] (List.map snd (log s)) /\
  exists t, threads s !! i = Some t /\ ops_of i (log s) ++ remaining t = prog.
Proof.
  intros Hi s. destruct (sys_run_ok programs _ schedule (sys_init_ok programs)) as [_ _ _ Hk Ho].
  fold s in Hk, Ho.
  split; [exact Hk|]. apply Forall2_same_length_lookup in Ho as [Hl Ho]. rewrite length_imap in Hl.
  destruct (lookup_lt_is_Some_2 (threads s) i) as [t Ht].
  { rewrite <- Hl. by eapply lookup_lt_Some. }
  exists t. split; [done|]. apply (Ho i prog (i, t) Hi).
  rewrite list_lookup_imap. unfold s in Ht |- *. by rewrite Ht.
Qed.

(** Two threads race: the second one's first compare-exchange fails. *)
Lemma ranges_linearizable_witness :
  let programs := [[Register 4096 64; Unregister 4096]; [Register 8192 64]] in
  let s := sys_run (sys_init programs) [0; 1; 0; 1; 0; 0; 1; 1]%nat in
  contents (sys_cell s) = [mk_range 8192 64] /\
  exists t, threads s !! 1%nat = Some t /\ ops_of 1 (log s) ++ remaining t = [Register 8192 64].
Proof.
  intros programs s.
  destruct (ranges_linearizable programs [0; 1; 0; 1; 0; 0; 1; 1]%nat 1 [Register 8192 64]) as [H1 H2].
  - reflexivity.
  - split; [etransitivity; [exact H1|vm_compute; reflexivity]|exact H2].
Defined.
