(* ===== verification/Tlb.v ===== *)
(** TLB windows: [src/tlb.rs] with the requests of [src/kmd.rs] it makes.

    A process owns descriptors, TLB windows of the driver, and mappings; [Os]
    is that ledger together with the memories of the chip's tiles.  The driver
    and the kernel decide whether a call succeeds and which number it returns:
    they are the class [Kernel], and what the code relies on is [KernelLaws].  A
    mapping is a segment of the address space; an access through a pointer
    resolves the address, so an access outside every window is [Panic], as the
    fault would be.  [same_resources] compares ledgers up to how the mappings
    are cut into segments. *)

From S2P Require Import Prelude Sigbus.

Definition TWO_MEG : Z := Z.shiftl 1 21.
Definition FOUR_GIG : Z := Z.shiftl 1 32.

Record NocTlbConfig := mk_noc {
  noc_addr : Z; x_end : Z; y_end : Z; x_start : Z; y_start : Z;
  noc_sel : Z; mcast : Z; ordering : Z; linked : Z; static_vc : Z }.

Definition noc_default : NocTlbConfig := mk_noc 0 0 0 0 0 0 0 0 0 0.

(** ** The ledger *)

(** A mapping: [seg_tlb] is the window behind it and whether it is
    write-combined, [None] for a reservation without access; [seg_off] is the
    offset in the window of the segment's first byte. *)
Record Seg := mk_seg { seg_base : Z; seg_len : Z; seg_off : Z; seg_tlb : option (Z * bool) }.

Record Os := mk_os {
  fds : gset Z;
  tlbs : gmap Z (Z * NocTlbConfig);
  segs : list Seg;
  ranges : list ChipRange;
  noc : gmap (Z * Z) (gmap Z Z);
  calls : nat }.

Definition seg_has (s : Seg) (a : Z) : bool := (seg_base s <=? a) && (a <? seg_base s + seg_len s).

(** What an address designates: the mapping's window and the offset in it. *)
Fixpoint resolve (l : list Seg) (a : Z) : option (option (Z * bool) * Z) :=
  match l with
  | [] => None
  | s :: l => if seg_has s a then Some (seg_tlb s, seg_off s + (a - seg_base s)) else resolve l a
  end.

(** What is left of a segment when [b, b + n) is unmapped. *)
Definition carve (b n : Z) (s : Seg) : list Seg :=
  (if seg_base s <? b
   then [mk_seg (seg_base s) (Z.min (seg_len s) (b - seg_base s)) (seg_off s) (seg_tlb s)] else []) ++
  (if b + n <? seg_base s + seg_len s
   then let b' := Z.max (seg_base s) (b + n) in
        [mk_seg b' (seg_base s + seg_len s - b') (seg_off s + (b' - seg_base s)) (seg_tlb s)] else []).

Definition munmap_segs (b n : Z) (l : list Seg) : list Seg := List.flat_map (carve b n) l.

(** ** System calls *)

Definition tick (os : Os) : Os :=
  mk_os (fds os) (tlbs os) (segs os) (ranges os) (noc os) (S (calls os)).
Definition set_fds (f : gset Z) (os : Os) : Os :=
  mk_os f (tlbs os) (segs os) (ranges os) (noc os) (S (calls os)).
Definition set_tlbs (t : gmap Z (Z * NocTlbConfig)) (os : Os) : Os :=
  mk_os (fds os) t (segs os) (ranges os) (noc os) (S (calls os)).
Definition set_segs (l : list Seg) (os : Os) : Os :=
  mk_os (fds os) (tlbs os) l (ranges os) (noc os) (S (calls os)).
Definition set_ranges (r : list ChipRange) (os : Os) : Os :=
  mk_os (fds os) (tlbs os) (segs os) r (noc os) (calls os).
Definition set_noc (m : gmap (Z * Z) (gmap Z Z)) (os : Os) : Os :=
  mk_os (fds os) (tlbs os) (segs os) (ranges os) m (calls os).

(** The answers of the kernel and the driver. *)
Class Kernel := {
  k_open : Os -> Z -> result Z Z;
  k_dup : Os -> Z -> result Z Z;
  k_alloc : Os -> Z -> Z -> result Z Z;
  k_config : Os -> Z -> Z -> NocTlbConfig -> result unit Z;
  k_mmap : Os -> Z -> result Z Z;
  k_mmap_fixed : Os -> Z -> Z -> result unit Z }.

(** New descriptors, windows and mappings do not coincide with live ones. *)
Class KernelLaws `{K : Kernel} : Prop := {
  open_fresh : forall os card fd, k_open os card = Ok fd -> (fd ∉ fds os);
  dup_fresh : forall os fd fd', k_dup os fd = Ok fd' -> (fd' ∉ fds os);
  alloc_fresh : forall os fd size id, k_alloc os fd size = Ok id -> tlbs os !! id = None;
  mmap_fresh : forall os size b a,
    k_mmap os size = Ok b -> b <= a < b + size -> resolve (segs os) a = None }.

(** An operation on the ledger: a value, an I/O error, or a panic. *)
Inductive io (A : Type) :=
| Ret (a : A) (os : Os)
| IoErr (e : Z) (os : Os)
| Panic.
Arguments Ret {A} a os.
Arguments IoErr {A} e os.
Arguments Panic {A}.

Definition io_bind {A B} (m : io A) (k : A -> Os -> io B) : io B :=
  match m with Ret a os => k a os | IoErr e os => IoErr e os | Panic => Panic end.

Definition ioctl_free_tlb (fd id : Z) (os : Os) : Os :=
  if decide (fd ∈ fds os) then set_tlbs (delete id (tlbs os)) os else tick os.
Definition munmap (b n : Z) (os : Os) : Os := set_segs (munmap_segs b n (segs os)) os.
Definition close (fd : Z) (os : Os) : Os := set_fds (fds os ∖ {[fd]}) os.

Definition register_chip_range (b n : Z) (os : Os) : Os :=
  set_ranges (apply_op (ranges os) (Register b n)) os.
Definition unregister_chip_range (b : Z) (os : Os) : Os :=
  set_ranges (apply_op (ranges os) (Unregister b)) os.

(** ** Access through a pointer *)

Definition tile_mem (os : Os) (t : Z * Z) : gmap Z Z := default ∅ (noc os !! t).

(** The tile and the address in it that a pointer reaches. *)
Definition target (os : Os) (va : Z) : option ((Z * Z) * Z) :=
  match resolve (segs os) va with
  | Some (Some (id, _), off) =>
      let! (_, cfg) := tlbs os !! id in
      Some ((x_end cfg, y_end cfg), noc_addr cfg + off)
  | _ => None
  end.

Definition poke8 (va b : Z) (os : Os) : option Os :=
  let! (t, a) := target os va in
  Some (set_noc (<[t := wr8 (tile_mem os t) a b]> (noc os)) os).

Fixpoint poke (va : Z) (l : list Z) (os : Os) : option Os :=
  match l with
  | [] => Some os
  | b :: l => let! os := poke8 va b os in poke (va + 1) l os
  end.

Definition peek8 (os : Os) (va : Z) : option Z :=
  let! (t, a) := target os va in Some (rd8 (tile_mem os t) a).

Fixpoint peek (os : Os) (va : Z) (n : nat) : option (list Z) :=
  match n with
  | O => Some []
  | S n => let! b := peek8 os va in let! l := peek os (va + 1) n in Some (b :: l)
  end.

(** ** Handles *)

Record TlbHandle := mk_handle { h_fd : Z; tlb_id : Z; tlb_base : Z; tlb_size : Z }.

Section with_kernel.
Context `{K : Kernel}.

Definition mmap_tlb (base : option Z) (size id : Z) (use_wc : bool) (os : Os) : io Z :=
  match base with
  | None =>
      match k_mmap os size with
      | Ok b => Ret b (set_segs (mk_seg b size 0 (Some (id, use_wc)) :: segs os) os)
      | Err e => IoErr e (tick os)
      end
  | Some b =>
      match k_mmap_fixed os b size with
      | Ok _ => Ret b (set_segs (mk_seg b size 0 (Some (id, use_wc)) :: munmap_segs b size (segs os)) os)
      | Err e => IoErr e (tick os)
      end
  end.

(** [base] is [None] for a null pointer. *)
Definition tlb_handle_new (fd size : Z) (config : NocTlbConfig) (base : option Z) (use_wc : bool)
    (os : Os) : io TlbHandle :=
  match k_alloc os fd size with
  | Err e => IoErr e (tick os)
  | Ok id =>
      let os := set_tlbs (<[id := (fd, noc_default)]> (tlbs os)) os in
      match k_config os fd id config with
      | Err e => IoErr e (ioctl_free_tlb fd id (tick os))
      | Ok _ =>
          let os := set_tlbs (<[id := (fd, config)]> (tlbs os)) os in
          match mmap_tlb base size id use_wc os with
          | Ret mem os => Ret (mk_handle fd id mem size) os
          | IoErr e os => IoErr e (ioctl_free_tlb fd id os)
          | Panic => Panic
          end
      end
  end.

Definition tlb_handle_drop (h : TlbHandle) (os : Os) : Os :=
  ioctl_free_tlb (h_fd h) (tlb_id h) (munmap (tlb_base h) (tlb_size h) os).

(** ** Windows *)

Record TlbWindow := mk_window { w_offset : Z; window : TlbHandle; window_size : Z }.

Definition is_power_of_two (n : Z) : bool := (0 <? n) && (Z.land n (n - 1) =? 0).

Definition tlb_window_new (fd x y addr window_size : Z) (base : option Z) (use_wc : bool) (os : Os)
    : io TlbWindow :=
  if negb (is_power_of_two window_size) then Panic
  else
    let mask := window_size - 1 in
    let offset := Z.land addr mask in
    let config := mk_noc (Z.land addr (U64_MAX - mask)) x y 0 0 0 0 0 0 0 in
    io_bind (tlb_handle_new fd window_size config base use_wc os)
      (fun h os => Ret (mk_window offset h window_size) os).

Definition new_2m (fd x y addr : Z) (os : Os) : io TlbWindow :=
  tlb_window_new fd x y addr TWO_MEG None false os.
Definition new_4g (fd x y addr base : Z) (use_wc : bool) (os : Os) : io TlbWindow :=
  tlb_window_new fd x y addr FOUR_GIG (Some base) use_wc os.

End with_kernel.

Definition window_drop (w : TlbWindow) (os : Os) : Os := tlb_handle_drop (window w) os.

(** The offset of a 32-bit access, [None] when an assertion fails. *)
Definition window_off (w_offset window_size addr : Z) : option Z :=
  let! off := checked_add64 w_offset addr in
  if window_size <? off + 4 then None
  else if negb (off mod 4 =? 0) then None
  else Some off.

Definition window_write32 (w : TlbWindow) (addr value : Z) (os : Os) : option Os :=
  let! off := window_off (w_offset w) (window_size w) addr in
  poke (tlb_base (window w) + off) (le_bytes 4 value) os.

Definition window_read32 (w : TlbWindow) (addr : Z) (os : Os) : option Z :=
  let! off := window_off (w_offset w) (window_size w) addr in
  let! l := peek os (tlb_base (window w) + off) 4 in
  Some (le_value l).

Definition get_window (w : TlbWindow) : Z := tlb_base (window w) + w_offset w.

(** ** Ledgers up to segmentation *)

Record same_resources (os os' : Os) : Prop := mk_same {
  same_fds : fds os = fds os';
  same_tlbs : tlbs os = tlbs os';
  same_ranges : ranges os = ranges os';
  same_resolve : forall a, resolve (segs os) a = resolve (segs os') a }.

#[export] Instance same_resources_equiv : Equivalence same_resources.
Proof.
  split.
  - by intros os.
  - intros os os' []. by split.
  - intros os1 os2 os3 [] []. split; congruence.
Qed.

#[export] Instance fds_proper : Proper (same_resources ==> eq) fds.
Proof. by intros ? ? []. Qed.
#[export] Instance tlbs_proper : Proper (same_resources ==> eq) tlbs.
Proof. by intros ? ? []. Qed.
#[export] Instance ranges_proper : Proper (same_resources ==> eq) ranges.
Proof. by intros ? ? []. Qed.
#[export] Instance target_proper : Proper (same_resources ==> eq ==> eq) target.
Proof. intros os os' [] a ? <-. unfold target. by rewrite same_resolve0, same_tlbs0. Qed.

(** ** Unmapping *)

Lemma resolve_app l l' a :
  resolve (l ++ l') a = match resolve l a with Some r => Some r | None => resolve l' a end.
Proof. induction l as [|s l IH]; cbn; [done|]. by destruct (seg_has s a). Qed.

Lemma resolve_carve b n s a : 0 <= n ->
  resolve (carve b n s) a = if (b <=? a) && (a <? b + n) then None else resolve [s] a.
Proof.
  intros Hn. unfold carve. rewrite resolve_app.
  repeat case_match; simplify_eq; cbn [resolve seg_has seg_base seg_len seg_off seg_tlb] in *;
    unfold seg_has in *; cbn [seg_base seg_len seg_off seg_tlb] in *;
    repeat case_match; simplify_eq; bool_to_prop; try done;
    try (do 2 f_equal; lia);
    repeat match goal with H : (_ && _)%bool = false |- _ => apply andb_false_iff in H as [? | ?] end;
    bool_to_prop; try lia.
Qed.

Lemma resolve_munmap b n l a : 0 <= n ->
  resolve (munmap_segs b n l) a = if (b <=? a) && (a <? b + n) then None else resolve l a.
Proof.
  intros Hn. induction l as [|s l IH]; cbn [munmap_segs List.flat_map].
  - by case_match.
  - change (List.flat_map (carve b n) l) with (munmap_segs b n l).
    rewrite resolve_app, resolve_carve, IH by done. case_match; [done|].
    cbn [resolve]. by destruct (seg_has s a).
Qed.

Lemma resolve_mapped b n o t l a :
  resolve (mk_seg b n o t :: l) a =
  if (b <=? a) && (a <? b + n) then Some (t, o + (a - b)) else resolve l a.
Proof. done. Qed.

(** A fresh mapping, unmapped again. *)
Lemma resolve_map_unmap b n o t l : 0 <= n ->
  (forall a, b <= a < b + n -> resolve l a = None) ->
  forall a, resolve (munmap_segs b n (mk_seg b n o t :: l)) a = resolve l a.
Proof.
  intros Hn Hfree a. rewrite resolve_munmap, resolve_mapped by done.
  case_match eqn:E; [|done]. bool_to_prop. symmetry. apply Hfree. lia.
Qed.

(** ** Access *)

Lemma target_set_noc m os va : target (set_noc m os) va = target os va.
Proof. done. Qed.

Lemma tile_mem_set t m os t' :
  tile_mem (set_noc (<[t := m]> (noc os)) os) t' = if decide (t = t') then m else tile_mem os t'.
Proof.
  unfold tile_mem. cbn. case_decide; subst.
  - by rewrite lookup_insert_eq.
  - by rewrite lookup_insert_ne.
Qed.

(** What an access may change of the ledger: the memory of one tile. *)
Record wrote (os os' : Os) (t : Z * Z) (m : gmap Z Z) : Prop := mk_wrote {
  wrote_same : same_resources os os';
  wrote_calls : calls os' = calls os;
  wrote_segs : segs os' = segs os;
  wrote_mem : tile_mem os' t = m;
  wrote_other : forall t', t' <> t -> tile_mem os' t' = tile_mem os t' }.

Lemma wrote_trans os1 os2 os3 t m2 m3 : wrote os1 os2 t m2 -> wrote os2 os3 t m3 -> wrote os1 os3 t m3.
Proof.
  intros [S2 C2 G2 _ O2] [S3 C3 G3 M3 O3]. split; try congruence.
  - by rewrite S2.
  - intros t' Ht. by rewrite O3, O2.
Qed.

Lemma poke_contiguous l : forall os va t a,
  (forall i, 0 <= i < Z.of_nat (length l) -> target os (va + i) = Some (t, a + i)) ->
  exists os', poke va l os = Some os' /\ wrote os os' t (write_bytes (tile_mem os t) a l).
Proof.
  induction l as [|b l IH]; intros os va t a H; cbn [poke length write_bytes] in *.
  - exists os. done.
  - assert (Ha : target os va = Some (t, a)).
    { rewrite <- (Z.add_0_r va), (H 0) by lia. do 2 f_equal. lia. }
    unfold poke8. rewrite Ha. cbn [negb].
    set (os1 := set_noc _ os).
    destruct (IH os1 (va + 1) t (a + 1)) as (os' & Hp & [Hs Hc Hg Hm Ho]).
    { intros i Hi. unfold os1. rewrite target_set_noc.
      replace (va + 1 + i) with (va + (i + 1)) by lia. rewrite H by lia. do 2 f_equal. lia. }
    exists os'. split; [done|]. split.
    + rewrite <- Hs. by split.
    + by rewrite Hc.
    + by rewrite Hg.
    + rewrite Hm. unfold os1. rewrite tile_mem_set. by rewrite decide_True.
    + intros t' Ht. rewrite Ho by done. unfold os1. rewrite tile_mem_set. by rewrite decide_False.
Qed.

Lemma peek_contiguous n : forall os va t a,
  (forall i, 0 <= i < Z.of_nat n -> target os (va + i) = Some (t, a + i)) ->
  peek os va n = Some (read_bytes (tile_mem os t) a n).
Proof.
  induction n as [|n IH]; intros os va t a H; cbn [peek read_bytes]; [done|].
  assert (Ha : target os va = Some (t, a)).
  { rewrite <- (Z.add_0_r va), (H 0) by lia. do 2 f_equal. lia. }
  unfold peek8. rewrite Ha. rewrite (IH os (va + 1) t (a + 1)); [done|].
  intros i Hi. replace (va + 1 + i) with (va + (i + 1)) by lia. rewrite H by lia. do 2 f_equal. lia.
Qed.

(** ** Opening and dropping a window *)

Definition config_of (x y addr size : Z) : NocTlbConfig :=
  mk_noc (Z.land addr (U64_MAX - (size - 1))) x y 0 0 0 0 0 0 0.

(** The ledger after a window was opened at [b]. *)
Record opened (os os' : Os) (fd x y addr size : Z) (wc : bool) (w : TlbWindow) (id b : Z) : Prop :=
  mk_opened {
    op_window : w = mk_window (Z.land addr (size - 1)) (mk_handle fd id b size) size;
    op_fresh : tlbs os !! id = None;
    op_tlbs : tlbs os' = <[id := (fd, config_of x y addr size)]> (tlbs os);
    op_fds : fds os' = fds os;
    op_ranges : ranges os' = ranges os;
    op_noc : noc os' = noc os;
    op_resolve : forall a, resolve (segs os') a =
      if (b <=? a) && (a <? b + size) then Some (Some (id, wc), a - b) else resolve (segs os) a }.

Lemma free_fresh_same fd id v os os0 :
  fd ∈ fds os -> tlbs os0 !! id = None -> fds os = fds os0 -> ranges os = ranges os0 ->
  tlbs os = <[id := v]> (tlbs os0) -> (forall a, resolve (segs os) a = resolve (segs os0) a) ->
  same_resources (ioctl_free_tlb fd id os) os0.
Proof.
  intros Hfd Hid Hf Hr Ht Ha. unfold ioctl_free_tlb. rewrite decide_True by done.
  split; cbn; try done. by rewrite Ht, delete_insert_id.
Qed.

Section specs.
Context `{KL : KernelLaws}.

Lemma tlb_window_new_spec fd x y addr size base wc os :
  is_power_of_two size = true -> fd ∈ fds os ->
  match tlb_window_new fd x y addr size base wc os with
  | Ret w os' => exists id b, opened os os' fd x y addr size wc w id b /\
      match base with
      | Some b' => b = b'
      | None => forall a, b <= a < b + size -> resolve (segs os) a = None
      end
  | IoErr _ os' => same_resources os' os /\ noc os' = noc os
  | Panic => False
  end.
Proof.
  intros Hsz Hfd. unfold tlb_window_new. rewrite Hsz. cbn [negb]. fold (config_of x y addr size).
  assert (Hpos : 0 <= size) by (unfold is_power_of_two in Hsz; bool_to_prop; lia).
  unfold tlb_handle_new. destruct (k_alloc os fd size) as [id|e] eqn:Ea; cbn [io_bind]; [|by split].
  apply alloc_fresh in Ea.
  destruct (k_config _ fd id _) as [[]|e] eqn:Ec; cbn [io_bind].
  2:{ split; [|unfold ioctl_free_tlb; by case_decide]. by eapply free_fresh_same. }
  set (os1 := set_tlbs _ (set_tlbs _ os)).
  assert (Ht1 : tlbs os1 = <[id := (fd, config_of x y addr size)]> (tlbs os)).
  { cbn. by rewrite insert_insert_eq. }
  unfold mmap_tlb. destruct base as [b|].
  - destruct (k_mmap_fixed os1 b size) as [[]|e]; cbn [io_bind].
    + exists id, b. split; [|done]. split; try done. intros a. cbn [set_segs segs].
      rewrite resolve_mapped. destruct (_ && _)%bool eqn:E; [by rewrite Z.add_0_l|].
      by rewrite resolve_munmap, E.
    + split; [|unfold ioctl_free_tlb; by case_decide]. by eapply free_fresh_same.
  - destruct (k_mmap os1 size) as [b|e] eqn:Em; cbn [io_bind].
    + exists id, b. split.
      * by split.
      * intros a Ha. exact (mmap_fresh os1 size b a Em Ha).
    + split; [|unfold ioctl_free_tlb; by case_decide]. by eapply free_fresh_same.
Qed.

(** Dropping a window leaves a hole where it was mapped. *)
Lemma window_drop_spec off fd id b size os :
  0 <= size -> fd ∈ fds os ->
  let os' := window_drop (mk_window off (mk_handle fd id b size) size) os in
  fds os' = fds os /\ tlbs os' = delete id (tlbs os) /\ ranges os' = ranges os /\ noc os' = noc os /\
  forall a, resolve (segs os') a = if (b <=? a) && (a <? b + size) then None else resolve (segs os) a.
Proof.
  intros Hsz Hfd os'. unfold os', window_drop, tlb_handle_drop, ioctl_free_tlb. cbn [h_fd tlb_id].
  rewrite decide_True by done. repeat split; try done. intros a. by apply resolve_munmap.
Qed.

(** A window over fresh addresses, dropped again. *)
Lemma open_drop_same os os1 os2 fd x y addr size wc w id b :
  0 <= size -> fd ∈ fds os -> opened os os1 fd x y addr size wc w id b ->
  (forall a, b <= a < b + size -> resolve (segs os) a = None) ->
  same_resources os2 os1 -> same_resources (window_drop w os2) os.
Proof.
  intros Hsz Hfd [-> Hid Ht Hf Hr Hn Hs] Hfree [Sf St Sr Ss].
  destruct (window_drop_spec (Z.land addr (size - 1)) fd id b size os2) as (Df & Dt & Dr & Dn & Ds).
  { done. } { by rewrite Sf, Hf. }
  split.
  - by rewrite Df, Sf.
  - by rewrite Dt, St, Ht, delete_insert_id.
  - by rewrite Dr, Sr.
  - intros a. rewrite Ds, Ss, Hs. destruct (_ && _)%bool eqn:E; [|done].
    bool_to_prop. symmetry. apply Hfree. lia.
Qed.

Lemma window_drop_noc w os : noc (window_drop w os) = noc os.
Proof. unfold window_drop, tlb_handle_drop, ioctl_free_tlb. by case_decide. Qed.

(** Every address of an open window reaches the tile at the aligned address. *)
Lemma opened_target os os' fd x y addr size wc w id b i :
  opened os os' fd x y addr size wc w id b -> 0 <= i < size ->
  target os' (b + i) = Some ((x, y), Z.land addr (U64_MAX - (size - 1)) + i).
Proof.
  intros [-> Hid Ht Hf Hr Hn Hs] Hi. unfold target. rewrite Hs.
  replace ((b <=? b + i) && (b + i <? b + size))%bool with true by lia.
  rewrite Ht, lookup_insert_eq. cbn. do 2 f_equal. lia.
Qed.

(** What the other pointers reach is unchanged. *)
Lemma opened_keeps os os' fd x y addr size wc w id b :
  opened os os' fd x y addr size wc w id b ->
  (forall a, b <= a < b + size -> resolve (segs os) a = None) ->
  forall va r, target os va = Some r -> target os' va = Some r.
Proof.
  intros [-> Hid Ht _ _ _ Hs] Hfree va r. unfold target. rewrite Hs.
  destruct (_ && _)%bool eqn:E.
  - bool_to_prop. by rewrite Hfree by lia.
  - destruct (resolve (segs os) va) as [[[[id' wc']|] off]|]; try done. rewrite Ht.
    destruct (decide (id = id')) as [<-|]; [by rewrite Hid|]. by rewrite lookup_insert_ne.
Qed.

End specs.

Lemma close_open (fd : Z) (s : gset Z) : (fd ∉ s) -> ({[fd]} ∪ s) ∖ {[fd]} = s.
Proof. set_solver. Qed.

(** ** A kernel

    Numbers are handed out in increasing order; the calls whose index is listed
    are refused. *)

Definition max_key (l : list Z) : Z := foldr Z.max 0 l.
Definition top (l : list Seg) : Z := foldr (fun s m => Z.max m (seg_base s + seg_len s)) 0 l.

Definition answer {A} (refused : list nat) (os : Os) (a : A) : result A Z :=
  if decide (calls os ∈ refused) then Err 28 else Ok a.

Definition counting_kernel (refused : list nat) : Kernel := {|
  k_open os _ := answer refused os (max_key (elements (fds os)) + 1);
  k_dup os _ := answer refused os (max_key (elements (fds os)) + 1);
  k_alloc os _ _ := answer refused os (max_key (List.map fst (map_to_list (tlbs os))) + 1);
  k_config os _ _ _ := answer refused os tt;
  k_mmap os _ := answer refused os (top (segs os));
  k_mmap_fixed os _ _ := answer refused os tt |}.

Lemma max_key_ge l k : k ∈ l -> k <= max_key l.
Proof. unfold max_key. induction 1; cbn [foldr] in *; lia. Qed.

Lemma resolve_above l a : top l <= a -> resolve l a = None.
Proof.
  induction l as [|s l IH]; [done|]. cbn [top foldr resolve]. intros H. fold (top l) in H.
  unfold seg_has. replace (a <? seg_base s + seg_len s) with false by lia.
  rewrite andb_false_r. apply IH. lia.
Qed.

Lemma answer_ok {A} refused os (a b : A) : answer refused os a = Ok b -> b = a.
Proof. unfold answer. case_decide; by intros [= ->]. Qed.

#[export] Instance counting_laws refused : KernelLaws (K := counting_kernel refused).
Proof.
  assert (Hfd : forall os : Os, max_key (elements (fds os)) + 1 ∉ fds os).
  { intros os Hin. apply elem_of_elements, max_key_ge in Hin. lia. }
  split.
  - intros os card fd ->%answer_ok. apply Hfd.
  - intros os fd fd' ->%answer_ok. apply Hfd.
  - intros os fd size id ->%answer_ok. destruct (tlbs os !! _) as [v|] eqn:E; [|done].
    apply elem_of_map_to_list in E. apply (list_elem_of_map fst), max_key_ge in E. cbn in E. lia.
  - intros os size b a ->%answer_ok Ha. apply resolve_above. lia.
Qed.
