(* ===== verification/Clock.v ===== *)
(** The PLL stepping of [src/clock.rs] and the reset sequencing of
    [src/shared_chip.rs] on top of it.

    The ARC register file is a map from addresses to 32-bit words; [history]
    keeps the register file after each write, oldest first, which is what the
    clock tree sees.  [None] of a [SharedChip] is the state while its file
    descriptor is being rotated. *)

From S2P Require Import Prelude Sigbus Tlb.

Definition PLL4_BASE : Z := 0x80020500.
Definition PLL_CNTL_1 : Z := 0x4.
Definition PLL_CNTL_5 : Z := 0x14.

Definition ARC_RESET_WINDOW_BASE : Z := 0x80000000.
Definition ARC_RESET_WINDOW_SIZE : Z := 0x200000.
Definition L2CPU_RESET_ADDR : Z := 0x80030014.
Definition CSM_WINDOW_BASE : Z := 0x10000000.
Definition CSM_WINDOW_SIZE : Z := 0x200000.

(** [None] is the panic on an unsupported frequency. *)
Definition frequency_solution (mhz : Z) : option (Z * list Z) :=
  if mhz =? 200 then Some (128, [15; 15; 15; 15])
  else if mhz =? 1750 then Some (140, [1; 1; 1; 1])
  else if mhz =? 15 then Some (120, [99; 99; 99; 99])
  else None.

Record PllCntl1 := mk_cntl1 { refdiv : Z; postdiv : Z; fbdiv : Z }.

Definition cntl1_from_u32 (val : Z) : PllCntl1 :=
  match le_bytes 4 val with
  | [b0; b1; b2; b3] => mk_cntl1 b0 b1 (le_value [b2; b3])
  | _ => mk_cntl1 0 0 0
  end.

Definition cntl1_to_u32 (c : PllCntl1) : Z :=
  le_value ([refdiv c; postdiv c] ++ le_bytes 2 (fbdiv c)).

Definition cntl5_from_u32 (val : Z) : list Z := le_bytes 4 val.
Definition cntl5_to_u32 (pd : list Z) : Z := le_value pd.

(** ** The register file *)

Record Arc := mk_arc { regs : gmap Z Z; history : list (gmap Z Z) }.

Definition pll_read32 (arc : Arc) (addr : Z) : Z := default 0 (regs arc !! addr).
Definition pll_write32 (arc : Arc) (addr v : Z) : Arc :=
  let r := <[addr := v]> (regs arc) in mk_arc r (history arc ++ [r]).

Inductive stepping (A : Type) :=
| Stepped (a : A)
| Panicked
| OutOfFuel.
Arguments Stepped {A} a.
Arguments Panicked {A}.
Arguments OutOfFuel {A}.

Definition pd_at (pd : list Z) (i : nat) : Z := default 0 (pd !! i).

(** Step 1 for one divider. *)
Fixpoint raise_postdiv (fuel : nat) (i : nat) (target : Z) (pd : list Z) (arc : Arc)
    : stepping (list Z * Arc) :=
  if pd_at pd i <? target then
    match fuel with
    | O => OutOfFuel
    | S fuel =>
        let pd := <[i := u8 (pd_at pd i + 1)]> pd in
        raise_postdiv fuel i target pd (pll_write32 arc (PLL4_BASE + PLL_CNTL_5) (cntl5_to_u32 pd))
    end
  else Stepped (pd, arc).

(** Step 3 for one divider. *)
Fixpoint lower_postdiv (fuel : nat) (i : nat) (target : Z) (pd : list Z) (arc : Arc)
    : stepping (list Z * Arc) :=
  if target <? pd_at pd i then
    match fuel with
    | O => OutOfFuel
    | S fuel =>
        let pd := <[i := u8 (pd_at pd i - 1)]> pd in
        lower_postdiv fuel i target pd (pll_write32 arc (PLL4_BASE + PLL_CNTL_5) (cntl5_to_u32 pd))
    end
  else Stepped (pd, arc).

(** Step 2. *)
Fixpoint adjust_fbdiv (fuel : nat) (target : Z) (c : PllCntl1) (arc : Arc) : stepping Arc :=
  if fbdiv c =? target then Stepped arc
  else match fuel with
  | O => OutOfFuel
  | S fuel =>
      let fb := if fbdiv c <? target then u16 (fbdiv c + 1) else u16 (fbdiv c - 1) in
      let c := mk_cntl1 (refdiv c) (postdiv c) fb in
      adjust_fbdiv fuel target c (pll_write32 arc (PLL4_BASE + PLL_CNTL_1) (cntl1_to_u32 c))
  end.

(** The [for i in 0..4] loops. *)
Fixpoint for_each (body : nat -> list Z -> Arc -> stepping (list Z * Arc)) (ids : list nat)
    (pd : list Z) (arc : Arc) : stepping (list Z * Arc) :=
  match ids with
  | [] => Stepped (pd, arc)
  | i :: ids =>
      match body i pd arc with
      | Stepped (pd, arc) => for_each body ids pd arc
      | Panicked => Panicked
      | OutOfFuel => OutOfFuel
      end
  end.

(** A divider byte moves at most 255 steps, the feedback divider at most
    65535. *)
Definition postdiv_fuel : nat := 256.
Definition fbdiv_fuel : nat := Z.to_nat 65536.

Definition set_frequency (arc : Arc) (mhz : Z) : stepping Arc :=
  match frequency_solution mhz with
  | None => Panicked
  | Some (target_fbdiv, target_postdiv) =>
      let pd := cntl5_from_u32 (pll_read32 arc (PLL4_BASE + PLL_CNTL_5)) in
      let c := cntl1_from_u32 (pll_read32 arc (PLL4_BASE + PLL_CNTL_1)) in
      match for_each (fun i => raise_postdiv postdiv_fuel i (pd_at target_postdiv i))
              [0; 1; 2; 3]%nat pd arc with
      | Stepped (pd, arc) =>
          match adjust_fbdiv fbdiv_fuel target_fbdiv c arc with
          | Stepped arc =>
              match for_each (fun i => lower_postdiv postdiv_fuel i (pd_at target_postdiv i))
                      [0; 1; 2; 3]%nat pd arc with
              | Stepped (_, arc) => Stepped arc
              | Panicked => Panicked
              | OutOfFuel => OutOfFuel
              end
          | Panicked => Panicked
          | OutOfFuel => OutOfFuel
          end
      | Panicked => Panicked
      | OutOfFuel => OutOfFuel
      end
  end.

(** ** The shared chip *)

(** [None] is the panic of the range assertion. *)
Definition reset_window_offset (addr : Z) : option Z :=
  if (ARC_RESET_WINDOW_BASE <=? addr) && (addr <? ARC_RESET_WINDOW_BASE + ARC_RESET_WINDOW_SIZE)
  then Some (addr - ARC_RESET_WINDOW_BASE) else None.

Definition csm_window_offset (addr : Z) : option Z :=
  if (CSM_WINDOW_BASE <=? addr) && (addr <? CSM_WINDOW_BASE + CSM_WINDOW_SIZE)
  then Some (addr - CSM_WINDOW_BASE) else None.

(** The chip handle: the mapped register windows, or [None] while the fd is
    rotated. *)
Record SharedChip := mk_chip { inner : option (Arc * gmap Z Z) }.

Inductive ChipErr := Rotating.

Definition arc_read32 (c : SharedChip) (addr : Z) : option (result Z ChipErr) :=
  let! off := reset_window_offset addr in
  match inner c with
  | Some (arc, _) => let! _ := window_off 0 TWO_MEG off in Some (Ok (pll_read32 arc addr))
  | None => Some (Err Rotating)
  end.

Definition arc_write32 (c : SharedChip) (addr v : Z) : option (result SharedChip ChipErr) :=
  let! off := reset_window_offset addr in
  match inner c with
  | Some (arc, csm) =>
      let! _ := window_off 0 TWO_MEG off in
      Some (Ok (mk_chip (Some (pll_write32 arc addr v, csm))))
  | None => Some (Err Rotating)
  end.

Definition csm_read32 (c : SharedChip) (addr : Z) : option (result Z ChipErr) :=
  let! off := csm_window_offset addr in
  match inner c with
  | Some (_, csm) => let! off := window_off 0 TWO_MEG off in Some (Ok (rd32 csm off))
  | None => Some (Err Rotating)
  end.

Definition l2cpu_is_running (c : SharedChip) (l2cpu_idx : Z) : option (result bool ChipErr) :=
  let! r := arc_read32 c L2CPU_RESET_ADDR in
  Some (result_map (fun val => Z.land (Z.shiftr val (l2cpu_idx + 4)) 1 =? 1) r).

Definition read_l2cpu_reset (c : SharedChip) : option (result Z ChipErr) :=
  arc_read32 c L2CPU_RESET_ADDR.

(** The mask of the reset bits to release. *)
Definition release_mask (indices : list Z) : Z :=
  foldl (fun m i => Z.lor m (u32 (Z.shiftl 1 ((i + 4) mod 32)))) 0 indices.

(** [apply_release_bits] on the reset register of the chip. *)
Definition apply_release_bits (c : SharedChip) (indices : list Z)
    : option (result (SharedChip * (Z * Z * Z)) ChipErr) :=
  let! r := arc_read32 c L2CPU_RESET_ADDR in
  match r with
  | Err e => Some (Err e)
  | Ok before =>
      let mask := release_mask indices in
      let after := Z.lor before mask in
      let! w := arc_write32 c L2CPU_RESET_ADDR after in
      Some (result_map (fun c => (c, (before, mask, after))) w)
  end.

(** [clock::set_frequency] on the chip: a rotating chip panics. *)
Definition chip_set_frequency (c : SharedChip) (mhz : Z) : option SharedChip :=
  match inner c with
  | None => None
  | Some (arc, csm) =>
      match set_frequency arc mhz with
      | Stepped arc => Some (mk_chip (Some (arc, csm)))
      | _ => None
      end
  end.

Definition idle_pll (c : SharedChip) : option SharedChip := chip_set_frequency c 200.

(** [None] is a panic. *)
Definition reset_x280 (c : SharedChip) (indices : list Z) : option (result SharedChip ChipErr) :=
  let! c := chip_set_frequency c 200 in
  let! r := apply_release_bits c indices in
  match r with
  | Err e => Some (Err e)
  | Ok (c, _) =>
      let! rb := arc_read32 c L2CPU_RESET_ADDR in
      match rb with
      | Err e => Some (Err e)
      | Ok _ => let! c := chip_set_frequency c 1750 in Some (Ok c)
      end
  end.

(** ** What the clock tree sees *)

(** The PLL setting that a register file holds. *)
Record pll := mk_pll { p_cntl1 : PllCntl1; p_postdivs : list Z }.

Definition pll_of (r : gmap Z Z) : pll :=
  mk_pll (cntl1_from_u32 (default 0 (r !! (PLL4_BASE + PLL_CNTL_1))))
         (cntl5_from_u32 (default 0 (r !! (PLL4_BASE + PLL_CNTL_5)))).

Fixpoint dist_l (l k : list Z) : Z :=
  match l, k with
  | a :: l, b :: k => Z.abs (a - b) + dist_l l k
  | _, _ => 0
  end.

(** How many single steps separate two settings. *)
Definition pll_dist (p q : pll) : Z :=
  Z.abs (fbdiv (p_cntl1 p) - fbdiv (p_cntl1 q)) + dist_l (p_postdivs p) (p_postdivs q).

(** [p] runs no faster than [q] on any output, for every clock formula that
    grows with the feedback divider and falls with the post dividers. *)
Definition no_faster (p q : pll) : Prop :=
  fbdiv (p_cntl1 p) <= fbdiv (p_cntl1 q) /\ Forall2 Z.ge (p_postdivs p) (p_postdivs q).

(** [n] register writes, each of which moves one divider by one step and
    leads to a setting with [P]. *)
Inductive run (P : pll -> Prop) : nat -> Arc -> Arc -> Prop :=
| run_0 arc : run P 0 arc arc
| run_S n arc a v arc' :
    a = PLL4_BASE + PLL_CNTL_1 \/ a = PLL4_BASE + PLL_CNTL_5 ->
    pll_dist (pll_of (regs arc)) (pll_of (regs (pll_write32 arc a v))) = 1 ->
    P (pll_of (regs (pll_write32 arc a v))) ->
    run P n (pll_write32 arc a v) arc' -> run P (S n) arc arc'.

Lemma run_app P n m a b c : run P n a b -> run P m b c -> run P (n + m) a c.
Proof. induction 1; intros; simpl; [done|]. econstructor; eauto. Qed.

Lemma run_mono (P Q : pll -> Prop) n a b : (forall p, P p -> Q p) -> run P n a b -> run Q n a b.
Proof. induction 2; econstructor; eauto. Qed.

(** Consecutive register files differ by one divider step. *)
Fixpoint stepwise (r : gmap Z Z) (visited : list (gmap Z Z)) : Prop :=
  match visited with
  | [] => True
  | r' :: visited => pll_dist (pll_of r) (pll_of r') = 1 /\ stepwise r' visited
  end.

(** A run leaves every other register alone and extends the history. *)
Lemma run_frame P n a b :
  run P n a b ->
  (forall x, x <> PLL4_BASE + PLL_CNTL_1 -> x <> PLL4_BASE + PLL_CNTL_5 -> regs b !! x = regs a !! x) /\
  exists h, history b = history a ++ h /\ length h = n /\ stepwise (regs a) h /\
    Forall (fun r => P (pll_of r)) h.
Proof.
  induction 1 as [a|n arc a v arc' Ha Hd HP _ (IH1 & h & Hh & Hl & Hs & Hf)].
  - split; [done|]. exists []. by rewrite app_nil_r.
  - split.
    + intros x H1 H2. rewrite IH1 by done. simpl. apply lookup_insert_ne. by destruct Ha; subst; auto.
    + exists (<[a := v]> (regs arc) :: h). rewrite Hh. simpl. rewrite <- app_assoc.
      split; [done|]. split; [by rewrite Hl|]. split; [done|]. by constructor.
Qed.

(** ** Encodings *)

Lemma cntl5_roundtrip pd : length pd = 4%nat -> Forall is_byte pd -> cntl5_from_u32 (cntl5_to_u32 pd) = pd.
Proof.
  intros Hl Hb. unfold cntl5_from_u32, cntl5_to_u32. rewrite <- Hl. by apply le_bytes_le_value.
Qed.

Lemma cntl1_roundtrip c :
  is_byte (refdiv c) -> is_byte (postdiv c) -> fits 16 (fbdiv c) -> cntl1_from_u32 (cntl1_to_u32 c) = c.
Proof.
  intros Hr Hp Hf. unfold cntl1_from_u32, cntl1_to_u32.
  set (l := [refdiv c; postdiv c] ++ le_bytes 2 (fbdiv c)).
  assert (Hl : le_bytes 4 (le_value l) = l).
  { apply (le_bytes_le_value l). apply Forall_app. split; [|apply le_bytes_are_bytes].
    apply Forall_cons; split; [done|]. apply Forall_cons; split; [done|]. by apply Forall_nil. }
  rewrite Hl. subst l. cbn [le_bytes app].
  change [fbdiv c mod 256; fbdiv c / 256 mod 256] with (le_bytes 2 (fbdiv c)).
  rewrite (le_value_le_bytes 2) by done. by destruct c.
Qed.

Lemma cntl1_from_bounds v :
  let c := cntl1_from_u32 v in is_byte (refdiv c) /\ is_byte (postdiv c) /\ fits 16 (fbdiv c).
Proof.
  unfold cntl1_from_u32. cbn [le_bytes]. split; [|split]; [apply Z.mod_pos_bound; lia..|].
  apply (le_value_bound [_; _]).
  repeat (apply Forall_cons; split; [apply Z.mod_pos_bound; lia|]). by apply Forall_nil.
Qed.

(** ** The loops *)

Lemma dist_l_refl l : dist_l l l = 0.
Proof. induction l; simpl; lia. Qed.

Lemma dist_l_insert l i a v : l !! i = Some a -> dist_l l (<[i := v]> l) = Z.abs (a - v).
Proof.
  revert i. induction l as [|b l IH]; intros [|i] Hi; simpl in *; simplify_eq.
  - rewrite dist_l_refl. lia.
  - rewrite (IH i Hi). lia.
Qed.

Lemma pd_at_lookup pd i : (i < length pd)%nat -> pd !! i = Some (pd_at pd i).
Proof. intros Hi. apply lookup_lt_is_Some_2 in Hi as [a Ha]. unfold pd_at. by rewrite Ha. Qed.

Lemma pd_at_insert pd i v : (i < length pd)%nat -> pd_at (<[i := v]> pd) i = v.
Proof. intros. unfold pd_at. by rewrite list_lookup_insert_eq. Qed.

Lemma pd_at_byte pd i : (i < length pd)%nat -> Forall is_byte pd -> is_byte (pd_at pd i).
Proof. intros Hi Hb. rewrite Forall_lookup in Hb. exact (Hb _ _ (pd_at_lookup pd i Hi)). Qed.

(** The state the loops keep: the registers hold [c] and [pd]. *)
Definition holds (arc : Arc) (c : PllCntl1) (pd : list Z) : Prop :=
  pll_of (regs arc) = mk_pll c pd /\ length pd = 4%nat /\ Forall is_byte pd.

(** One write of CNTL5 that sets divider [i] to the neighbouring value [v]. *)
Lemma write_postdiv arc c pd i v :
  holds arc c pd -> (i < 4)%nat -> is_byte v -> Z.abs (pd_at pd i - v) = 1 ->
  let arc' := pll_write32 arc (PLL4_BASE + PLL_CNTL_5) (cntl5_to_u32 (<[i := v]> pd)) in
  holds arc' c (<[i := v]> pd) /\ pll_dist (pll_of (regs arc)) (pll_of (regs arc')) = 1.
Proof.
  intros (Hp & Hl & Hb) Hi Hv Hd arc'.
  assert (Hb' : Forall is_byte (<[i := v]> pd)) by (by apply Forall_insert).
  assert (Hl' : length (<[i := v]> pd) = 4%nat) by (by rewrite length_insert).
  assert (E : pll_of (regs arc') = mk_pll c (<[i := v]> pd)).
  { unfold pll_of, arc'. simpl. rewrite lookup_insert_eq, lookup_insert_ne by (vm_compute; discriminate).
    simpl. rewrite cntl5_roundtrip by done. f_equal. by injection Hp. }
  split; [done|]. rewrite Hp, E. unfold pll_dist. simpl.
  rewrite (dist_l_insert _ _ (pd_at pd i)) by (apply pd_at_lookup; lia). lia.
Qed.

Lemma raise_spec P fuel i t pd c arc :
  holds arc c pd -> (i < 4)%nat -> is_byte t -> t - pd_at pd i <= Z.of_nat fuel ->
  (forall v, pd_at pd i < v <= t -> P (mk_pll c (<[i := v]> pd))) ->
  let m := Z.max (pd_at pd i) t in
  exists n arc', raise_postdiv fuel i t pd arc = Stepped (<[i := m]> pd, arc') /\
    holds arc' c (<[i := m]> pd) /\ run P n arc arc' /\ Z.of_nat n = m - pd_at pd i.
Proof.
  revert pd arc. induction fuel as [|fuel IH]; intros pd arc Hh Hi Ht Hf HP m; cbn [raise_postdiv];
    pose proof (proj1 (proj2 Hh)) as Hl; pose proof (pd_at_byte pd i ltac:(lia) (proj2 (proj2 Hh))) as Hb;
    destruct (Z.ltb_spec (pd_at pd i) t) as [Hlt|Hge].
  2, 4: exists 0%nat, arc; subst m; rewrite Z.max_l, list_insert_id by (try apply pd_at_lookup; lia);
    split; [done|split; [done|split; [constructor|simpl; lia]]].
  { lia. }
  assert (Hu : u8 (pd_at pd i + 1) = pd_at pd i + 1).
  { apply wrap_small. unfold is_byte, fits in *. lia. }
  rewrite Hu. set (v := pd_at pd i + 1).
  destruct (write_postdiv arc c pd i v Hh Hi) as [Hh' Hd]; [unfold is_byte in *; lia|lia|].
  set (arc' := pll_write32 arc _ _) in *.
  assert (Ev : pd_at (<[i := v]> pd) i = v) by (apply pd_at_insert; lia).
  destruct (IH (<[i := v]> pd) arc') as (n & arc2 & E & Hh2 & Hr & Hn); auto.
  { rewrite Ev. lia. }
  { intros w Hw. rewrite list_insert_insert_eq. apply HP. lia. }
  rewrite Ev, list_insert_insert_eq in E, Hh2. rewrite Ev in Hn.
  replace (Z.max v t) with m in * by lia.
  exists (S n), arc2. split; [done|]. split; [done|]. split; [|lia].
  eapply run_S; [by right|exact Hd| |exact Hr]. fold arc'. rewrite (proj1 Hh'). apply HP. lia.
Qed.

Lemma lower_spec P fuel i t pd c arc :
  holds arc c pd -> (i < 4)%nat -> is_byte t -> pd_at pd i - t <= Z.of_nat fuel ->
  (forall v, t <= v < pd_at pd i -> P (mk_pll c (<[i := v]> pd))) ->
  let m := Z.min (pd_at pd i) t in
  exists n arc', lower_postdiv fuel i t pd arc = Stepped (<[i := m]> pd, arc') /\
    holds arc' c (<[i := m]> pd) /\ run P n arc arc' /\ Z.of_nat n = pd_at pd i - m.
Proof.
  revert pd arc. induction fuel as [|fuel IH]; intros pd arc Hh Hi Ht Hf HP m; cbn [lower_postdiv];
    pose proof (proj1 (proj2 Hh)) as Hl; pose proof (pd_at_byte pd i ltac:(lia) (proj2 (proj2 Hh))) as Hb;
    destruct (Z.ltb_spec t (pd_at pd i)) as [Hlt|Hge].
  2, 4: exists 0%nat, arc; subst m; rewrite Z.min_l, list_insert_id by (try apply pd_at_lookup; lia);
    split; [done|split; [done|split; [constructor|simpl; lia]]].
  { lia. }
  assert (Hu : u8 (pd_at pd i - 1) = pd_at pd i - 1).
  { apply wrap_small. unfold is_byte, fits in *. lia. }
  rewrite Hu. set (v := pd_at pd i - 1).
  destruct (write_postdiv arc c pd i v Hh Hi) as [Hh' Hd]; [unfold is_byte in *; lia|lia|].
  set (arc' := pll_write32 arc _ _) in *.
  assert (Ev : pd_at (<[i := v]> pd) i = v) by (apply pd_at_insert; lia).
  destruct (IH (<[i := v]> pd) arc') as (n & arc2 & E & Hh2 & Hr & Hn); auto.
  { rewrite Ev. lia. }
  { intros w Hw. rewrite list_insert_insert_eq. apply HP. lia. }
  rewrite Ev, list_insert_insert_eq in E, Hh2. rewrite Ev in Hn.
  replace (Z.min v t) with m in * by lia.
  exists (S n), arc2. split; [done|]. split; [done|]. split; [|lia].
  eapply run_S; [by right|exact Hd| |exact Hr]. fold arc'. rewrite (proj1 Hh'). apply HP. lia.
Qed.

Definition with_fbdiv (c : PllCntl1) (fb : Z) : PllCntl1 := mk_cntl1 (refdiv c) (postdiv c) fb.

Definition cntl1_ok (c : PllCntl1) : Prop :=
  is_byte (refdiv c) /\ is_byte (postdiv c) /\ fits 16 (fbdiv c).

Lemma write_fbdiv arc c pd v :
  holds arc c pd -> cntl1_ok c -> fits 16 v -> Z.abs (fbdiv c - v) = 1 ->
  let arc' := pll_write32 arc (PLL4_BASE + PLL_CNTL_1) (cntl1_to_u32 (with_fbdiv c v)) in
  holds arc' (with_fbdiv c v) pd /\ pll_dist (pll_of (regs arc)) (pll_of (regs arc')) = 1.
Proof.
  intros (Hp & Hl & Hb) (Hr & Hpd & _) Hv Hd arc'.
  assert (E : pll_of (regs arc') = mk_pll (with_fbdiv c v) pd).
  { unfold pll_of, arc'. simpl. rewrite lookup_insert_eq, lookup_insert_ne by (vm_compute; discriminate).
    simpl. rewrite cntl1_roundtrip by done. f_equal. by injection Hp. }
  split; [done|]. rewrite Hp, E. unfold pll_dist. simpl. rewrite dist_l_refl. lia.
Qed.

Lemma adjust_spec P fuel t pd c arc :
  holds arc c pd -> cntl1_ok c -> fits 16 t -> Z.abs (fbdiv c - t) <= Z.of_nat fuel ->
  (forall v, Z.min (fbdiv c) t <= v <= Z.max (fbdiv c) t -> P (mk_pll (with_fbdiv c v) pd)) ->
  exists n arc', adjust_fbdiv fuel t c arc = Stepped arc' /\
    holds arc' (with_fbdiv c t) pd /\ run P n arc arc' /\ Z.of_nat n = Z.abs (fbdiv c - t).
Proof.
  revert c arc. induction fuel as [|fuel IH]; intros c arc Hh Hc Ht Hf HP; cbn [adjust_fbdiv];
    destruct (Z.eqb_spec (fbdiv c) t) as [He|Hne].
  1, 3: exists 0%nat, arc; replace (with_fbdiv c t) with c by (subst t; by destruct c);
    split; [done|split; [done|split; [constructor|simpl; lia]]].
  { lia. }
  pose proof (proj2 (proj2 Hc)) as Hfb.
  set (v := if fbdiv c <? t then u16 (fbdiv c + 1) else u16 (fbdiv c - 1)).
  assert (Hv : fits 16 v /\ Z.abs (fbdiv c - v) = 1 /\ Z.min (fbdiv c) t <= v <= Z.max (fbdiv c) t /\
               Z.abs (v - t) = Z.abs (fbdiv c - t) - 1).
  { subst v. unfold fits, u16 in *. change (2 ^ 16) with 65536 in *.
    destruct (Z.ltb_spec (fbdiv c) t); rewrite wrap_small by (unfold fits; simpl; lia); lia. }
  destruct Hv as (Hv16 & Hv1 & Hvr & Hvt). fold (with_fbdiv c v).
  destruct (write_fbdiv arc c pd v Hh Hc Hv16 Hv1) as [Hh' Hd].
  set (arc' := pll_write32 arc _ _) in *.
  destruct (IH (with_fbdiv c v) arc') as (n & arc2 & E & Hh2 & Hr & Hn); auto.
  { destruct Hc as (? & ? & ?). by split. }
  { simpl. lia. }
  { simpl. intros w Hw. apply HP. lia. }
  exists (S n), arc2. split; [exact E|]. split; [exact Hh2|]. split; [|simpl in Hn; lia].
  eapply run_S; [by left|exact Hd| |exact Hr]. fold arc'. rewrite (proj1 Hh'). apply HP. lia.
Qed.

#[local] Opaque postdiv_fuel fbdiv_fuel raise_postdiv lower_postdiv adjust_fbdiv.

Lemma postdiv_fuel_enough : Z.of_nat postdiv_fuel = 256.
Proof. reflexivity. Qed.

Lemma for_each_step body i ids pd arc pd' arc' :
  body i pd arc = Stepped (pd', arc') -> for_each body (i :: ids) pd arc = for_each body ids pd' arc'.
Proof. intros E. cbn [for_each]. by rewrite E. Qed.

(** Apply a loop lemma to the next divider, discharge its side conditions and
    advance the [for] loop. *)
Ltac next_divider lem P i t Hp arc' n :=
  match goal with
  | Hh : holds ?arc ?c ?pd |- exists m arc2, for_each _ _ ?pd ?arc = _ /\ _ =>
      let E := fresh "E" in let Hr := fresh "Hr" in let Hn := fresh "Hn" in let Hh' := fresh "Hh" in
      destruct (lem P postdiv_fuel i t pd c arc Hh) as (n & arc' & E & Hh' & Hr & Hn);
      [lia|done|rewrite postdiv_fuel_enough; unfold pd_at, is_byte in *; simpl in *; lia|
       unfold P, pd_at; simpl; intros; apply Hp; lia|];
      unfold pd_at in E, Hh', Hn; simpl in E, Hh', Hn;
      match goal with |- context [for_each ?body _ pd arc] =>
        rewrite (for_each_step body i _ pd arc _ _ E) end; clear E Hh
  end.

Lemma raise_all arc k a b c d ta tb tc td :
  holds arc k [a; b; c; d] -> is_byte ta -> is_byte tb -> is_byte tc -> is_byte td ->
  exists n arc',
    for_each (fun i => raise_postdiv postdiv_fuel i (pd_at [ta; tb; tc; td] i)) [0; 1; 2; 3]%nat
      [a; b; c; d] arc = Stepped ([Z.max a ta; Z.max b tb; Z.max c tc; Z.max d td], arc') /\
    holds arc' k [Z.max a ta; Z.max b tb; Z.max c tc; Z.max d td] /\
    run (fun p => no_faster p (mk_pll k [a; b; c; d])) n arc arc' /\
    Z.of_nat n = (Z.max a ta - a) + (Z.max b tb - b) + (Z.max c tc - c) + (Z.max d td - d).
Proof.
  intros Hh Ha Hb Hc Hd.
  set (P := fun p => no_faster p (mk_pll k [a; b; c; d])).
  assert (Hp : forall x y z w, a <= x -> b <= y -> c <= z -> d <= w -> P (mk_pll k [x; y; z; w])).
  { intros. split; simpl; [lia|]. repeat (apply List.Forall2_cons; [lia|]). apply List.Forall2_nil. }
  assert (Hbs : is_byte a /\ is_byte b /\ is_byte c /\ is_byte d).
  { destruct Hh as (_ & _ & Hf). by rewrite !Forall_cons in Hf; destruct_and!. }
  destruct Hbs as (Hba & Hbb & Hbc & Hbd).
  next_divider (raise_spec) P 0%nat ta Hp arc0 n0.
  next_divider (raise_spec) P 1%nat tb Hp arc1 n1.
  next_divider (raise_spec) P 2%nat tc Hp arc2 n2.
  next_divider (raise_spec) P 3%nat td Hp arc3 n3.
  exists (n0 + (n1 + (n2 + n3)))%nat, arc3. split; [done|]. split; [done|]. split; [|lia].
  eauto using run_app.
Qed.

Lemma lower_all arc k a b c d ta tb tc td :
  holds arc k [a; b; c; d] -> is_byte ta -> is_byte tb -> is_byte tc -> is_byte td ->
  ta <= a -> tb <= b -> tc <= c -> td <= d ->
  exists n arc',
    for_each (fun i => lower_postdiv postdiv_fuel i (pd_at [ta; tb; tc; td] i)) [0; 1; 2; 3]%nat
      [a; b; c; d] arc = Stepped ([ta; tb; tc; td], arc') /\
    holds arc' k [ta; tb; tc; td] /\
    run (fun p => no_faster p (mk_pll k [ta; tb; tc; td])) n arc arc' /\
    Z.of_nat n = (a - ta) + (b - tb) + (c - tc) + (d - td).
Proof.
  intros Hh Ha Hb Hc Hd La Lb Lc Ld.
  set (P := fun p => no_faster p (mk_pll k [ta; tb; tc; td])).
  assert (Hp : forall x y z w, ta <= x -> tb <= y -> tc <= z -> td <= w -> P (mk_pll k [x; y; z; w])).
  { intros. split; simpl; [lia|]. repeat (apply List.Forall2_cons; [lia|]). apply List.Forall2_nil. }
  assert (Hbs : is_byte a /\ is_byte b /\ is_byte c /\ is_byte d).
  { destruct Hh as (_ & _ & Hf). by rewrite !Forall_cons in Hf; destruct_and!. }
  destruct Hbs as (Hba & Hbb & Hbc & Hbd).
  next_divider (lower_spec) P 0%nat ta Hp arc0 n0.
  next_divider (lower_spec) P 1%nat tb Hp arc1 n1.
  next_divider (lower_spec) P 2%nat tc Hp arc2 n2.
  next_divider (lower_spec) P 3%nat td Hp arc3 n3.
  rewrite !Z.min_r in * by lia.
  exists (n0 + (n1 + (n2 + n3)))%nat, arc3. split; [done|]. split; [done|]. split; [|lia].
  eauto using run_app.
Qed.

Lemma frequency_solution_shape mhz fbt pdt :
  frequency_solution mhz = Some (fbt, pdt) ->
  fits 16 fbt /\ exists a b c d, pdt = [a; b; c; d] /\ is_byte a /\ is_byte b /\ is_byte c /\ is_byte d.
Proof.
  unfold frequency_solution, fits, is_byte. bool_cases; intros; simplify_eq;
    (split; [lia|]); eexists _, _, _, _; (split; [reflexivity|]); lia.
Qed.

Lemma fbdiv_fuel_enough : Z.of_nat fbdiv_fuel = 65536.
Proof. reflexivity. Qed.

Lemma no_faster_refl p : no_faster p p.
Proof. split; [lia|]. apply Forall2_same_length_lookup_2; [done|]. intros; simplify_eq. lia. Qed.

(** The run of the three steps. *)
Lemma set_frequency_run arc mhz fbt pdt :
  frequency_solution mhz = Some (fbt, pdt) ->
  let p0 := pll_of (regs arc) in
  let pt := mk_pll (with_fbdiv (p_cntl1 p0) fbt) pdt in
  exists arc' n,
    set_frequency arc mhz = Stepped arc' /\ pll_of (regs arc') = pt /\
    run (fun p => no_faster p p0 \/ no_faster p pt) n arc arc' /\
    Z.of_nat n = pll_dist p0 pt.
Proof.
  intros Hs p0 pt. pose proof (frequency_solution_shape _ _ _ Hs) as (Hfb & ta & tb & tc & td & -> & Ha & Hb & Hc & Hd).
  unfold set_frequency. rewrite Hs. fold (pll_of (regs arc)).
  change (cntl5_from_u32 (pll_read32 arc (PLL4_BASE + PLL_CNTL_5))) with (p_postdivs p0).
  change (cntl1_from_u32 (pll_read32 arc (PLL4_BASE + PLL_CNTL_1))) with (p_cntl1 p0).
  assert (Hok : cntl1_ok (p_cntl1 p0)) by apply cntl1_from_bounds.
  assert (Hpd : exists a b c d, p_postdivs p0 = [a; b; c; d]) by (do 4 eexists; reflexivity).
  destruct Hpd as (a & b & c & d & Hpd).
  assert (Hh : holds arc (p_cntl1 p0) [a; b; c; d]).
  { split; [|split; [done|]]; rewrite <- Hpd; [reflexivity|]. apply le_bytes_are_bytes. }
  rewrite Hpd. set (k := p_cntl1 p0) in *.
  assert (Hp0 : p0 = mk_pll k [a; b; c; d]) by (rewrite <- Hpd; reflexivity).
  clearbody k. subst pt. rewrite Hp0. clear Hpd.
  destruct (raise_all arc k a b c d ta tb tc td Hh Ha Hb Hc Hd) as (n1 & arc1 & -> & Hh1 & Hr1 & Hn1).
  set (pt := mk_pll (with_fbdiv k fbt) [ta; tb; tc; td]).
  set (Q := fun p => no_faster p (mk_pll k [a; b; c; d]) \/ no_faster p pt).
  destruct (adjust_spec Q fbdiv_fuel fbt _ k arc1 Hh1 Hok Hfb) as (n2 & arc2 & -> & Hh2 & Hr2 & Hn2).
  { rewrite fbdiv_fuel_enough. destruct Hok as (_ & _ & Hk). unfold fits in *. lia. }
  { intros v Hv. unfold Q, pt.
    destruct (Z.le_gt_cases v (fbdiv k)); [left|right]; (split; simpl; [lia|]);
      repeat (apply List.Forall2_cons; [lia|]); apply List.Forall2_nil. }
  destruct (lower_all arc2 (with_fbdiv k fbt) _ _ _ _ ta tb tc td Hh2 Ha Hb Hc Hd)
    as (n3 & arc3 & -> & Hh3 & Hr3 & Hn3); [lia..|].
  exists arc3, (n1 + (n2 + n3))%nat. split; [done|]. split; [exact (proj1 Hh3)|]. split.
  - eapply run_app; [|eapply run_app; [exact Hr2|]]; eapply run_mono; [|exact Hr1| |exact Hr3].
    + intros p Hp. by left.
    + intros p Hp. by right.
  - unfold pll_dist. simpl. lia.
Qed.

(** C13: from any register contents, stepping the PLL to a supported frequency
    ends with exactly the target dividers (the reference divider and the
    other CNTL1 field kept), after exactly as many register writes as single
    divider steps separate the two settings; every write moves one divider by
    one, and every intermediate setting is no faster than the initial one or
    no faster than the target one, so the clock never overshoots both. *)
Theorem set_frequency_safe arc mhz fbt pdt :
  frequency_solution mhz = Some (fbt, pdt) ->
  let p0 := pll_of (regs arc) in
  let pt := mk_pll (with_fbdiv (p_cntl1 p0) fbt) pdt in
  exists arc' visited,
    set_frequency arc mhz = Stepped arc' /\ pll_of (regs arc') = pt /\
    history arc' = history arc ++ visited /\ Z.of_nat (length visited) = pll_dist p0 pt /\
    stepwise (regs arc) visited /\
    Forall (fun r => no_faster (pll_of r) p0 \/ no_faster (pll_of r) pt) visited /\
    (forall x, x <> PLL4_BASE + PLL_CNTL_1 -> x <> PLL4_BASE + PLL_CNTL_5 ->
       regs arc' !! x = regs arc !! x).
Proof.
  intros Hs p0 pt. destruct (set_frequency_run arc mhz fbt pdt Hs) as (arc' & n & E & Hp & Hr & Hn).
  apply run_frame in Hr as (Hx & h & Hh & Hl & Hst & Hf). exists arc', h. rewrite Hl. auto 10.
Qed.

(** Registers at the 1750 MHz setting, stepped down to 200 MHz. *)
Definition demo_arc : Arc :=
  mk_arc {[PLL4_BASE + PLL_CNTL_1 := cntl1_to_u32 (mk_cntl1 2 0 140);
           PLL4_BASE + PLL_CNTL_5 := cntl5_to_u32 [1; 1; 1; 1]]} [].

Lemma set_frequency_safe_witness :
  exists arc', set_frequency demo_arc 200 = Stepped arc' /\
    pll_of (regs arc') = mk_pll (mk_cntl1 2 0 128) [15; 15; 15; 15] /\ length (history arc') = 68%nat.
Proof.
  destruct (set_frequency_safe demo_arc 200 128 [15; 15; 15; 15]) as (arc' & h & E & Hp & Hh & Hl & _).
  - reflexivity.
  - exists arc'. split; [exact E|]. split; [etransitivity; [exact Hp|vm_compute; reflexivity]|].
    match type of Hl with _ = ?d => assert (Ed : d = 68) by (vm_compute; reflexivity) end.
    rewrite Ed in Hl. rewrite Hh. simpl. lia.
Defined.

(** ** Releasing L2CPUs from reset *)

Lemma land_1_testbit v n : 0 <= n -> (Z.land (Z.shiftr v n) 1 =? 1) = Z.testbit v n.
Proof.
  intros. rewrite <- (Z.add_0_l n) at 2. rewrite <- Z.shiftr_spec by lia. rewrite Z.bit0_odd.
  change 1 with (Z.ones 1) at 1. rewrite Z.land_ones, Zmod_odd by lia. by destruct (Z.odd _).
Qed.

Lemma release_mask_testbit indices j :
  Forall (fun i => 0 <= i < 28) indices -> 0 <= j ->
  Z.testbit (release_mask indices) (j + 4) = bool_decide (j ∈ indices).
Proof.
  intros Hi Hj. unfold release_mask.
  assert (G : forall m, Z.testbit (foldl (fun m i => Z.lor m (u32 (Z.shiftl 1 ((i + 4) mod 32)))) m indices) (j + 4)
    = Z.testbit m (j + 4) || bool_decide (j ∈ indices)).
  { induction Hi as [|i l Hi Hl IH]; intros m; cbn [foldl].
    - rewrite bool_decide_false by apply not_elem_of_nil. by rewrite orb_false_r.
    - rewrite IH, Z.lor_spec, (Z.mod_small (i + 4)) by lia. rewrite <- orb_assoc. f_equal.
      replace (u32 (Z.shiftl 1 (i + 4))) with (2 ^ (i + 4)).
      2:{ rewrite Z.shiftl_1_l. unfold u32. rewrite wrap_small; [done|]. split; [lia|].
          apply Z.pow_lt_mono_r; lia. }
      rewrite Z.pow2_bits_eqb by lia. destruct (Z.eqb_spec (i + 4) (j + 4)) as [?|Hne].
      + assert (i = j) as -> by lia. symmetry. apply bool_decide_true. left.
      + simpl. apply bool_decide_ext. rewrite elem_of_cons. split; [auto|]. intros [->|?]; [lia|done]. }
  by rewrite G, Z.bits_0.
Qed.

Definition reset_reg (r : gmap Z Z) : Z := default 0 (r !! L2CPU_RESET_ADDR).

Lemma read_reset arc csm :
  arc_read32 (mk_chip (Some (arc, csm))) L2CPU_RESET_ADDR = Some (Ok (reset_reg (regs arc))).
Proof. reflexivity. Qed.

Lemma write_reset arc csm v :
  arc_write32 (mk_chip (Some (arc, csm))) L2CPU_RESET_ADDR v
  = Some (Ok (mk_chip (Some (pll_write32 arc L2CPU_RESET_ADDR v, csm)))).
Proof. reflexivity. Qed.

(** [p] is the setting of a frequency. *)
Definition at_mhz (mhz : Z) (p : pll) : Prop :=
  exists fb pd, frequency_solution mhz = Some (fb, pd) /\ fbdiv (p_cntl1 p) = fb /\ p_postdivs p = pd.

(** [set_frequency] reaches its setting and keeps the reset register. *)
Lemma set_frequency_reset arc mhz fb pd :
  frequency_solution mhz = Some (fb, pd) ->
  exists arc' h, set_frequency arc mhz = Stepped arc' /\ at_mhz mhz (pll_of (regs arc')) /\
    reset_reg (regs arc') = reset_reg (regs arc) /\ history arc' = history arc ++ h.
Proof.
  intros Hs. destruct (set_frequency_run arc mhz fb pd Hs) as (arc' & n & E & Hp & Hr & _).
  apply run_frame in Hr as (Hx & h & Hh & _). exists arc', h. split; [done|]. split.
  - exists fb, pd. by rewrite Hp.
  - split; [|done]. unfold reset_reg. rewrite Hx; [done|vm_compute; discriminate..].
Qed.

Lemma reset_x280_run arc csm indices :
  Forall (fun i => 0 <= i < 4) indices ->
  exists arc' h1 r h2,
    reset_x280 (mk_chip (Some (arc, csm))) indices = Some (Ok (mk_chip (Some (arc', csm)))) /\
    (forall i was, 0 <= i < 4 ->
       l2cpu_is_running (mk_chip (Some (arc, csm))) i = Some (Ok was) ->
       l2cpu_is_running (mk_chip (Some (arc', csm))) i = Some (Ok (was || bool_decide (i ∈ indices)))) /\
    at_mhz 1750 (pll_of (regs arc')) /\
    history arc' = history arc ++ h1 ++ [r] ++ h2 /\
    at_mhz 200 (pll_of r) /\ reset_reg r = Z.lor (reset_reg (regs arc)) (release_mask indices).
Proof.
  intros Hi.
  destruct (set_frequency_reset arc 200 128 [15; 15; 15; 15] eq_refl) as (arc1 & h1 & E1 & Hm1 & Hr1 & Hh1).
  set (after := Z.lor (reset_reg (regs arc)) (release_mask indices)).
  set (arc2 := pll_write32 arc1 L2CPU_RESET_ADDR after).
  destruct (set_frequency_reset arc2 1750 140 [1; 1; 1; 1] eq_refl) as (arc3 & h2 & E2 & Hm2 & Hr2 & Hh2).
  exists arc3, h1, (regs arc2), h2.
  assert (Hreg2 : reset_reg (regs arc2) = after).
  { unfold reset_reg, arc2. simpl. by rewrite lookup_insert_eq. }
  split; [|split; [|split; [|split; [|split]]]]; auto.
  - unfold reset_x280, chip_set_frequency, apply_release_bits. cbn [inner]. rewrite E1.
    rewrite read_reset, Hr1. cbv zeta. fold after. rewrite write_reset. fold arc2. cbn [result_map].
    rewrite read_reset. cbn [inner]. by rewrite E2.
  - intros i was Hij. unfold l2cpu_is_running. rewrite !read_reset. cbn [result_map].
    intros Hw. injection Hw as <-.
    rewrite !land_1_testbit, Hr2, Hreg2 by lia. unfold after. rewrite Z.lor_spec.
    do 3 f_equal. apply release_mask_testbit; [|lia]. eapply Forall_impl; [exact Hi|]. simpl. lia.
  - rewrite Hh2. simpl. rewrite Hh1. by rewrite <- !app_assoc.
  - assert (Hp : pll_of (regs arc2) = pll_of (regs arc1)).
    { unfold pll_of, arc2. simpl. by rewrite !lookup_insert_ne by (vm_compute; discriminate). }
    by rewrite Hp.
Qed.

(** Releasing L2CPUs on a mapped chip succeeds: afterwards exactly the
    L2CPUs that were running before or are in the list are out of reset, the
    PLL is at the 1750 MHz setting, and the register write that released them
    happened while the PLL was at the 200 MHz setting; while the fd is being
    rotated the same call panics instead of returning the error that the
    register accessors report. *)
Theorem reset_x280_releases arc csm indices :
  Forall (fun i => 0 <= i < 4) indices ->
  reset_x280 (mk_chip None) indices = None /\
  exists arc' h1 r h2,
    reset_x280 (mk_chip (Some (arc, csm))) indices = Some (Ok (mk_chip (Some (arc', csm)))) /\
    (forall i was, 0 <= i < 4 ->
       l2cpu_is_running (mk_chip (Some (arc, csm))) i = Some (Ok was) ->
       l2cpu_is_running (mk_chip (Some (arc', csm))) i = Some (Ok (was || bool_decide (i ∈ indices)))) /\
    at_mhz 1750 (pll_of (regs arc')) /\
    history arc' = history arc ++ h1 ++ [r] ++ h2 /\
    at_mhz 200 (pll_of r) /\ reset_reg r = Z.lor (reset_reg (regs arc)) (release_mask indices).
Proof. intros Hi. split; [reflexivity|by apply reset_x280_run]. Qed.

Lemma reset_x280_releases_witness :
  exists arc', reset_x280 (mk_chip (Some (demo_arc, ∅))) [0; 2] = Some (Ok (mk_chip (Some (arc', ∅)))) /\
    l2cpu_is_running (mk_chip (Some (arc', ∅))) 2 = Some (Ok true) /\
    l2cpu_is_running (mk_chip (Some (arc', ∅))) 1 = Some (Ok false).
Proof.
  destruct (reset_x280_releases demo_arc ∅ [0; 2]) as (_ & arc' & h1 & r & h2 & E & Hrun & _).
  - apply Forall_cons; split; [lia|]. apply Forall_cons; split; [lia|]. by apply Forall_nil.
  - exists arc'. split; [exact E|]. split.
    + rewrite (Hrun 2 false); [reflexivity|lia|vm_compute; reflexivity].
    + rewrite (Hrun 1 false); [reflexivity|lia|vm_compute; reflexivity].
Defined.
