(* ===== verification/Text.v ===== *)
(** The string operations of the Rust standard library that the daemon's
    parsers and printers use: [str::trim], [strip_suffix], [split_once],
    [rsplit_once], the [FromStr] of the unsigned integers and their [Display].
    A string is the list of its Unicode scalar values. *)

From S2P Require Import Prelude.

(** ** Characters *)

Definition is_digit (c : Z) : bool := (48 <=? c) && (c <=? 57).
Definition is_lower (c : Z) : bool := (97 <=? c) && (c <=? 122).
Definition is_upper (c : Z) : bool := (65 <=? c) && (c <=? 90).
Definition is_alpha (c : Z) : bool := is_lower c || is_upper c.
Definition is_alnum (c : Z) : bool := is_alpha c || is_digit c.

(** [char::is_whitespace]: the Unicode property White_Space. *)
Definition is_whitespace (c : Z) : bool :=
  ((9 <=? c) && (c <=? 13)) || (c =? 32) || (c =? 0x85) || (c =? 0xa0) || (c =? 0x1680)
  || ((0x2000 <=? c) && (c <=? 0x200a)) || (c =? 0x2028) || (c =? 0x2029)
  || (c =? 0x202f) || (c =? 0x205f) || (c =? 0x3000).

(** [str::len] counts UTF-8 bytes. *)
Definition utf8_len_char (c : Z) : Z :=
  if c <? 0x80 then 1 else if c <? 0x800 then 2 else if c <? 0x10000 then 3 else 4.
Definition str_len (s : list Z) : Z := foldr (fun c n => utf8_len_char c + n) 0 s.

(** ** Slicing *)

Fixpoint drop_ws (s : list Z) : list Z :=
  match s with
  | c :: s' => if is_whitespace c then drop_ws s' else s
  | [] => []
  end.

Definition trim (s : list Z) : list Z := rev (drop_ws (rev (drop_ws s))).

Fixpoint strip_prefix (p s : list Z) : option (list Z) :=
  match p, s with
  | [], s => Some s
  | _ :: _, [] => None
  | a :: p, b :: s => if a =? b then strip_prefix p s else None
  end.

Definition strip_suffix (s p : list Z) : option (list Z) :=
  match strip_prefix (rev p) (rev s) with Some r => Some (rev r) | None => None end.

Definition starts_with (p s : list Z) : bool :=
  match strip_prefix p s with Some _ => true | None => false end.
Definition ends_with (s p : list Z) : bool :=
  match strip_suffix s p with Some _ => true | None => false end.

(** The first occurrence of the delimiter. *)
Fixpoint split_once (p s : list Z) : option (list Z * list Z) :=
  match strip_prefix p s with
  | Some rest => Some ([], rest)
  | None =>
      match s with
      | [] => None
      | c :: s => let! (a, b) := split_once p s in Some (c :: a, b)
      end
  end.

(** The last occurrence of the delimiter. *)
Definition rsplit_once (p s : list Z) : option (list Z * list Z) :=
  let! (a, b) := split_once (rev p) (rev s) in Some (rev b, rev a).

(** ** Unsigned integers *)

Fixpoint digits_value (max acc : Z) (s : list Z) : option Z :=
  match s with
  | [] => Some acc
  | c :: s =>
      if is_digit c then
        let acc := acc * 10 + (c - 48) in
        if acc <=? max then digits_value max acc s else None
      else None
  end.

(** [uN::from_str]: one optional leading '+', then at least one digit. *)
Definition parse_uint (max : Z) (s : list Z) : option Z :=
  match s with
  | [] => None
  | c :: s' =>
      if c =? 43 then (match s' with [] => None | _ => digits_value max 0 s' end)
      else digits_value max 0 s
  end.

Fixpoint show_aux (fuel : nat) (n : Z) (acc : list Z) : list Z :=
  match fuel with
  | O => acc
  | S fuel =>
      let acc := 48 + n mod 10 :: acc in
      if n / 10 =? 0 then acc else show_aux fuel (n / 10) acc
  end.

(** [Display] of an unsigned integer. The fuel bounds the number of digits. *)
Definition show_dec (n : Z) : list Z := show_aux (S (Z.to_nat (Z.log2 n))) n [].

(** Hexadecimal, lower case: [{:x}] of a 64-bit value and [{:0wx}]. *)
Definition hex_digit_of (n : Z) : Z := if n <? 10 then 48 + n else 87 + n.

Fixpoint show_hex_aux (fuel : nat) (n : Z) (acc : list Z) : list Z :=
  match fuel with
  | O => acc
  | S fuel =>
      let acc := hex_digit_of (n mod 16) :: acc in
      if n / 16 =? 0 then acc else show_hex_aux fuel (n / 16) acc
  end.

Definition show_hex (n : Z) : list Z := show_hex_aux 16 n [].

Definition show_hex_pad (w : nat) (n : Z) : list Z :=
  let s := show_hex n in replicate (w - length s) 48 ++ s.

(** [{:02}]. *)
Definition show_dec2 (n : Z) : list Z :=
  let s := show_dec n in if (length s <? 2)%nat then 48 :: s else s.

(** ** Lemmas *)

Lemma digit_code n : is_digit (48 + n mod 10) = true.
Proof. unfold is_digit. pose proof (Z.mod_pos_bound n 10). bools; lia. Qed.

Lemma digits_value_mono max s : forall acc v,
  digits_value max acc s = Some v -> 0 <= acc -> acc <= v.
Proof.
  induction s as [|c s IH]; cbn; intros acc v H ?; [simplify_eq; lia|].
  unfold is_digit in H. bools; try done.
  apply IH in H; [|lia]. lia.
Qed.

Lemma digits_value_le max s : forall acc v,
  digits_value max acc s = Some v -> acc <= max -> v <= max.
Proof.
  induction s as [|c s IH]; cbn; intros acc v H ?; [simplify_eq; lia|].
  bools; try done. by apply IH in H.
Qed.

Lemma show_fuel_step fuel n :
  0 <= n < 2 ^ Z.of_nat (S fuel) -> n / 10 <> 0 ->
  0 <= n / 10 < 2 ^ Z.of_nat fuel /\ fuel <> O.
Proof.
  intros Hn Hq. rewrite Nat2Z.inj_succ, Z.pow_succ_r in Hn by lia.
  pose proof (Z.div_mod n 10). pose proof (Z.mod_pos_bound n 10).
  pose proof (Z.div_pos n 10). split; [lia|]. intros ->. simpl in *. lia.
Qed.

Lemma show_fuel_enough n : 0 <= n -> n < 2 ^ Z.of_nat (S (Z.to_nat (Z.log2 n))).
Proof.
  intros. rewrite Nat2Z.inj_succ, Z2Nat.id by apply Z.log2_nonneg.
  destruct (decide (n = 0)) as [->|]; [done|]. apply Z.log2_spec. lia.
Qed.

Lemma show_aux_value max fuel n acc v :
  0 <= n < 2 ^ Z.of_nat fuel -> fuel <> O -> n <= max ->
  digits_value max n acc = Some v ->
  digits_value max 0 (show_aux fuel n acc) = Some v.
Proof.
  revert n acc. induction fuel as [|fuel IH]; intros n acc Hn Hf Hm Hv; [done|].
  cbn [show_aux]. pose proof (Z.div_mod n 10) as Hdm. pose proof (Z.mod_pos_bound n 10).
  assert (Hq : digits_value max (n / 10) (48 + n mod 10 :: acc) = Some v).
  { cbn. rewrite digit_code. replace (n / 10 * 10 + (48 + n mod 10 - 48)) with n by lia.
    apply Z.leb_le in Hm. by rewrite Hm. }
  destruct (Z.eqb_spec (n / 10) 0) as [E|E]; [by rewrite E in Hq|].
  destruct (show_fuel_step fuel n) as [? ?]; auto. apply IH; auto. lia.
Qed.

Lemma show_aux_head fuel n acc :
  0 <= n < 2 ^ Z.of_nat fuel -> fuel <> O -> exists c s, show_aux fuel n acc = c :: s /\ is_digit c = true.
Proof.
  revert n acc. induction fuel as [|fuel IH]; intros n acc Hn Hf; [done|]. cbn [show_aux].
  destruct (Z.eqb_spec (n / 10) 0) as [E|E]; [eauto using digit_code|].
  destruct (show_fuel_step fuel n) as [? ?]; auto.
Qed.

(** Printing then parsing an unsigned integer gives it back. *)
Lemma parse_show max n : 0 <= n <= max -> parse_uint max (show_dec n) = Some n.
Proof.
  intros Hn. unfold show_dec. pose proof (show_fuel_enough n).
  destruct (show_aux_head (S (Z.to_nat (Z.log2 n))) n []) as (c & s & E & Hc); [lia..|].
  pose proof (show_aux_value max (S (Z.to_nat (Z.log2 n))) n [] n) as Hv.
  rewrite E in *. unfold parse_uint.
  destruct (Z.eqb_spec c 43) as [->|]; [done|]. apply Hv; lia || done.
Qed.

Lemma show_dec_inj a b : 0 <= a -> 0 <= b -> show_dec a = show_dec b -> a = b.
Proof.
  intros Ha Hb E. pose proof (parse_show (Z.max a b) a) as H1. pose proof (parse_show (Z.max a b) b) as H2.
  rewrite E in H1. rewrite H1 in H2 by lia. assert (Some a = Some b) by (apply H2; lia). congruence.
Qed.

Lemma parse_uint_range max s v : 0 <= max -> parse_uint max s = Some v -> 0 <= v <= max.
Proof.
  intros Hm H. unfold parse_uint in H. destruct s as [|c s]; [done|].
  assert (forall t, digits_value max 0 t = Some v -> 0 <= v <= max).
  { intros t Ht. split; [by apply digits_value_mono in Ht|by apply digits_value_le in Ht]. }
  destruct (c =? 43); [destruct s; [done|]|]; eauto.
Qed.

(** ** Hexadecimal *)

Definition hex_digit_value (c : Z) : Z := if c <? 58 then c - 48 else c - 87.

Definition hex_value (s : list Z) : Z := foldl (fun acc c => acc * 16 + hex_digit_value c) 0 s.

Lemma hex_digit_value_of n : 0 <= n < 16 -> hex_digit_value (hex_digit_of n) = n.
Proof. intros. unfold hex_digit_value, hex_digit_of. bools; lia. Qed.

Lemma show_hex_aux_value fuel : forall n acc,
  0 <= n < 16 ^ Z.of_nat fuel ->
  foldl (fun a c => a * 16 + hex_digit_value c) 0 (show_hex_aux fuel n acc) =
  foldl (fun a c => a * 16 + hex_digit_value c) n acc.
Proof.
  induction fuel as [|fuel IH]; intros n acc Hn; cbn [show_hex_aux].
  - change (16 ^ Z.of_nat 0) with 1 in Hn. by replace n with 0 by lia.
  - assert (Hp : 16 ^ Z.of_nat (S fuel) = 16 * 16 ^ Z.of_nat fuel).
    { rewrite Nat2Z.inj_succ, Z.pow_succ_r by lia. done. }
    pose proof (Z.mod_pos_bound n 16 ltac:(lia)). pose proof (Z.div_mod n 16 ltac:(lia)) as Hd.
    destruct (Z.eqb_spec (n / 16) 0) as [E|E].
    + cbn [foldl]. rewrite hex_digit_value_of by done. f_equal. lia.
    + rewrite IH.
      * cbn [foldl]. rewrite hex_digit_value_of by done. f_equal. lia.
      * split; [apply Z.div_pos; lia|]. apply Z.div_lt_upper_bound; lia.
Qed.

(** What [{:x}] prints determines the value. *)
Lemma show_hex_value n : fits 64 n -> hex_value (show_hex n) = n.
Proof. intros H. unfold hex_value, show_hex. by rewrite show_hex_aux_value. Qed.

Lemma show_hex_inj a b : fits 64 a -> fits 64 b -> show_hex a = show_hex b -> a = b.
Proof. intros Ha Hb E. rewrite <- (show_hex_value a), <- (show_hex_value b) by done. by rewrite E. Qed.
