(* ===== verification/Virtqueue.v ===== *)
(** The split-virtqueue framework of [src/virtio/mod.rs]: the ring structures
    as the guest lays them out in its memory, the device interface
    ([VirtioDeviceImpl]) as a class, and [process_one_chain_for_queue], the walk
    of one descriptor chain.

    Guest memory is one byte map: the rings and the data buffers live in it
    together, so a chain whose buffers overlap the rings is covered.  A
    callback that makes the daemon process fault (a null dereference) returns
    [None]. *)

From S2P Require Import Prelude.

Definition VRING_DESC_F_NEXT : Z := 1.
Definition QUEUE_SIZE : Z := 16384.

(** ** Ring structures *)

Record VringDesc := mk_desc { vd_addr : Z; vd_len : Z; vd_flags : Z; vd_next : Z }.

Definition read_desc (m : gmap Z Z) (desc_q i : Z) : VringDesc :=
  let p := desc_q + 16 * i in
  {| vd_addr := rd64 m p; vd_len := rd32 m (p + 8);
     vd_flags := rd16 m (p + 12); vd_next := rd16 m (p + 14) |}.

Record VringUsedElem := mk_used_elem { ue_id : Z; ue_len : Z }.

(** [VringAvail]: flags, idx, ring; [VringUsed]: flags, idx, ring. *)
Definition avail_idx (m : gmap Z Z) (avail_q : Z) : Z := rd16 m (avail_q + 2).
Definition avail_ring (m : gmap Z Z) (avail_q i : Z) : Z := rd16 m (avail_q + 4 + 2 * i).
Definition used_idx (m : gmap Z Z) (used_q : Z) : Z := rd16 m (used_q + 2).
Definition used_ring (m : gmap Z Z) (used_q i : Z) : VringUsedElem :=
  let p := used_q + 4 + 8 * i in {| ue_id := rd32 m p; ue_len := rd32 m (p + 4) |}.
Definition write_used_elem (m : gmap Z Z) (used_q i : Z) (e : VringUsedElem) : gmap Z Z :=
  let p := used_q + 4 + 8 * i in wr32 (wr32 m p (ue_id e)) (p + 4) (ue_len e).
Definition write_used_idx (m : gmap Z Z) (used_q v : Z) : gmap Z Z := wr16 m (used_q + 2) v.

(** ** The device interface *)

Class VirtioDeviceImpl (D : Type) := {
  num_queues : D -> Z;
  queue_header_size : D -> Z;
  device_id : D -> Z;
  device_features : D -> Z * Z;
  process_queue_start : D -> gmap Z Z -> Z -> Z -> Z -> option (D * gmap Z Z);
  process_queue_data : D -> gmap Z Z -> Z -> Z -> Z -> option (D * gmap Z Z);
  process_queue_complete : D -> gmap Z Z -> Z -> Z -> Z -> option (D * gmap Z Z * Z);
  queue_has_data : D -> Z -> bool;
  init_config : D -> gmap Z Z -> Z -> gmap Z Z;
}.

(** What the framework's clients rely on: a callback on the buffer
    [addr, addr + len) leaves guest memory alone outside that buffer, except
    that it may treat a buffer shorter than [dev_slack] bytes as if it had
    [dev_slack] bytes. *)
Definition frame (m m' : gmap Z Z) (a len : Z) : Prop :=
  forall x, x < a \/ a + len <= x -> rd8 m' x = rd8 m x.

Class DeviceLaws (D : Type) `{VirtioDeviceImpl D} := {
  dev_slack : Z;
  start_frame d m q a len d' m' :
    process_queue_start d m q a len = Some (d', m') -> frame m m' a (Z.max len dev_slack);
  data_frame d m q a len d' m' :
    process_queue_data d m q a len = Some (d', m') -> frame m m' a (Z.max len dev_slack);
  complete_frame d m q a len d' m' n :
    process_queue_complete d m q a len = Some (d', m', n) -> frame m m' a (Z.max len dev_slack);
}.
Arguments dev_slack D {_ _}.

(** ** One descriptor chain *)

(** The rings and bounds of a queue: the arguments of
    [process_one_chain_for_queue] that stay fixed.  [q_num] is not 0: the callers
    leave a queue of size 0 alone, for which the modulo of the source would
    panic. *)
Record Queue := mk_queue {
  q_desc : Z; q_avail : Z; q_used : Z;
  q_idx : Z; q_hdr : Z; q_num : Z;
  q_start : Z; q_end : Z;
}.

(** The validity test on a descriptor address. *)
Definition desc_in_range (q : Queue) (d : VringDesc) : bool :=
  let addr_end := checked_add64 (vd_addr d) (vd_len d) in
  negb ((vd_addr d <? q_start q) || (q_end q <=? vd_addr d)
        || match addr_end with None => true | Some e => q_end q <? e end).

Definition has_next (d : VringDesc) : bool := negb (Z.land (vd_flags d) VRING_DESC_F_NEXT =? 0).

Section Walk.
Context {D : Type} `{VirtioDeviceImpl D}.

Record WalkResult := mk_walk { w_dev : D; w_mem : gmap Z Z; w_bytes : Z; w_valid : bool }.

(** The descriptor loop.  [remaining] is [queue_num - steps]; reaching 0 is
    the cycle check. *)
Fixpoint walk_chain (q : Queue) (remaining : nat) (dev : D) (m : gmap Z Z)
    (desc_idx num_bytes_written : Z) : option WalkResult :=
  match remaining with
  | O => Some (mk_walk dev m num_bytes_written false)
  | S remaining =>
      let d := read_desc m (q_desc q) (desc_idx mod q_num q) in
      if negb (desc_in_range q d) then Some (mk_walk dev m num_bytes_written false)
      else if has_next d then
        let! (dev', m') :=
          (if num_bytes_written <? q_hdr q
           then process_queue_start dev m (q_idx q) (vd_addr d) (vd_len d)
           else process_queue_data dev m (q_idx q) (vd_addr d) (vd_len d)) in
        walk_chain q remaining dev' m' (vd_next d) (u64 (num_bytes_written + vd_len d))
      else
        let! (dev', m', actual) :=
          process_queue_complete dev m (q_idx q) (vd_addr d) (vd_len d) in
        Some (mk_walk dev' m' (u64 (num_bytes_written + actual)) true)
  end.

(** Publish the used-ring entry of a completed chain. *)
Definition post_used (q : Queue) (m : gmap Z Z) (head num_bytes_written : Z) : gmap Z Z :=
  let ui := used_idx m (q_used q) in
  let m := write_used_elem m (q_used q) (ui mod q_num q)
             (mk_used_elem head (u32 num_bytes_written)) in
  write_used_idx m (q_used q) (u16 (ui + 1)).

Record ChainState := mk_cs { cs_processed : Z; cs_dev : D; cs_mem : gmap Z Z }.

Definition head_of (q : Queue) (s : ChainState) : Z :=
  avail_ring (cs_mem s) (q_avail q) (cs_processed s mod q_num q).

Definition process_one_chain_for_queue (q : Queue) (s : ChainState)
    : option (ChainState * bool) :=
  if (cs_processed s =? avail_idx (cs_mem s) (q_avail q))
     || negb (queue_has_data (cs_dev s) (q_idx q))
  then Some (s, false)
  else
    let head := head_of q s in
    let! w := walk_chain q (Z.to_nat (q_num q)) (cs_dev s) (cs_mem s) head 0 in
    let m := if w_valid w then post_used q (w_mem w) head (w_bytes w) else w_mem w in
    Some (mk_cs (u16 (cs_processed s + 1)) (w_dev w) m, w_valid w).
End Walk.
Arguments WalkResult : clear implicits.
Arguments ChainState : clear implicits.

(** ** Ring accessors over writes *)

Lemma rd16_write_out m a l b :
  b + 2 <= a \/ a + Z.of_nat (length l) <= b -> rd16 (write_bytes m a l) b = rd16 m b.
Proof. intros. unfold rd16. by rewrite read_write_bytes_out by (simpl; lia). Qed.

Lemma rd32_write_out m a l b :
  b + 4 <= a \/ a + Z.of_nat (length l) <= b -> rd32 (write_bytes m a l) b = rd32 m b.
Proof. intros. unfold rd32. by rewrite read_write_bytes_out by (simpl; lia). Qed.

Lemma rd16_wr16_same m a v : fits 16 v -> rd16 (wr16 m a v) a = v.
Proof. intros. by apply (rd_wr_same 2). Qed.

Lemma rd32_wr32_same m a v : fits 32 v -> rd32 (wr32 m a v) a = v.
Proof. intros. by apply (rd_wr_same 4). Qed.

Lemma used_ring_write_same m u i e :
  fits 32 (ue_id e) -> fits 32 (ue_len e) -> used_ring (write_used_elem m u i e) u i = e.
Proof.
  intros. unfold used_ring, write_used_elem. destruct e as [id len]; simpl in *. f_equal.
  - unfold wr32 at 1. rewrite rd32_write_out by (rewrite length_le_bytes; lia).
    by apply rd32_wr32_same.
  - by apply rd32_wr32_same.
Qed.

Lemma used_idx_write_elem m u i e : 0 <= i -> used_idx (write_used_elem m u i e) u = used_idx m u.
Proof.
  intros. unfold used_idx, write_used_elem, wr32.
  by rewrite !rd16_write_out by (rewrite length_le_bytes; lia).
Qed.

Lemma used_ring_write_idx m u i v : 0 <= i -> used_ring (write_used_idx m u v) u i = used_ring m u i.
Proof.
  intros. unfold used_ring, write_used_idx, wr16.
  by rewrite !rd32_write_out by (rewrite length_le_bytes; lia).
Qed.

Lemma write_used_elem_frame m u i e : frame m (write_used_elem m u i e) (u + 4 + 8 * i) 8.
Proof.
  intros x Hx. unfold write_used_elem, wr32.
  by rewrite !rd8_write_bytes_out by (rewrite length_le_bytes; lia).
Qed.

Lemma write_used_idx_frame m u v : frame m (write_used_idx m u v) (u + 2) 2.
Proof.
  intros x Hx. unfold write_used_idx, wr16.
  by rewrite rd8_write_bytes_out by (rewrite length_le_bytes; lia).
Qed.

(** ** Framing arithmetic *)

Lemma frame_refl m a len : frame m m a len.
Proof. by intros x. Qed.

Lemma frame_trans m1 m2 m3 a len : frame m1 m2 a len -> frame m2 m3 a len -> frame m1 m3 a len.
Proof. intros H1 H2 x Hx. rewrite H2 by auto. by apply H1. Qed.

Lemma frame_weaken m m' a len b n :
  frame m m' a len -> b <= a -> a + len <= b + n -> frame m m' b n.
Proof. intros H ?? x Hx. apply H. lia. Qed.

(** Reads of a range that a framed change avoids. *)
Lemma frame_read m m' a len b n :
  frame m m' a len -> b + Z.of_nat n <= a \/ a + len <= b -> read_bytes m' b n = read_bytes m b n.
Proof. intros H ?. apply read_bytes_ext. intros. apply H. lia. Qed.

Lemma frame_read_desc m m' a len p i :
  frame m m' a len -> p + 16 * i + 16 <= a \/ a + len <= p + 16 * i ->
  read_desc m' p i = read_desc m p i.
Proof.
  intros H Hd. unfold read_desc, rd16, rd32, rd64.
  rewrite !(frame_read _ _ _ _ _ _ H) by (simpl; lia). done.
Qed.

#[export] Hint Resolve frame_refl frame_trans : bhx.

(** ** The used ring after a post *)

Section Posting.
Context {D : Type} `{VirtioDeviceImpl D}.

Lemma post_used_spec q m head n :
  0 < q_num q -> fits 32 head ->
  used_idx (post_used q m head n) (q_used q) = u16 (used_idx m (q_used q) + 1) /\
  used_ring (post_used q m head n) (q_used q) (used_idx m (q_used q) mod q_num q)
    = mk_used_elem head (u32 n) /\
  frame m (post_used q m head n) (q_used q + 2) (2 + 8 * q_num q).
Proof.
  intros Hn Hh. unfold post_used. cbv zeta. set (u := q_used q). set (i := used_idx m u mod q_num q).
  assert (Hi : 0 <= i < q_num q) by (apply Z.mod_pos_bound; lia).
  split; [|split].
  - unfold write_used_idx, used_idx at 1. apply rd16_wr16_same. apply wrap_fits. lia.
  - rewrite used_ring_write_idx by lia. apply used_ring_write_same; simpl; [done|].
    apply wrap_fits. lia.
  - apply (frame_trans _ (write_used_elem m u i (mk_used_elem head (u32 n)))).
    + eapply frame_weaken; [apply write_used_elem_frame|lia|lia].
    + eapply frame_weaken; [apply write_used_idx_frame|lia|lia].
Qed.
End Posting.

(** ** The abstract chain

    [chain q m i ds]: starting at descriptor [i], the table in [m] links exactly
    the in-range descriptors [ds], the last of them without NEXT. *)

Inductive chain (q : Queue) (m : gmap Z Z) : Z -> list VringDesc -> Prop :=
| chain_last i d :
    d = read_desc m (q_desc q) (i mod q_num q) -> desc_in_range q d = true ->
    has_next d = false -> chain q m i [d]
| chain_next i d ds :
    d = read_desc m (q_desc q) (i mod q_num q) -> desc_in_range q d = true ->
    has_next d = true -> chain q m (vd_next d) ds -> chain q m i (d :: ds).

(** The request as the device sees it: one callback per descriptor, in order. *)
Section Request.
Context {D : Type} `{VirtioDeviceImpl D}.

Fixpoint run_request (q : Queue) (dev : D) (m : gmap Z Z) (bytes : Z) (ds : list VringDesc)
    : option (WalkResult D) :=
  match ds with
  | [] => None
  | [d] =>
      let! (dev', m', actual) :=
        process_queue_complete dev m (q_idx q) (vd_addr d) (vd_len d) in
      Some (mk_walk dev' m' (u64 (bytes + actual)) true)
  | d :: ds =>
      let! (dev', m') :=
        (if bytes <? q_hdr q then process_queue_start dev m (q_idx q) (vd_addr d) (vd_len d)
         else process_queue_data dev m (q_idx q) (vd_addr d) (vd_len d)) in
      run_request q dev' m' (u64 (bytes + vd_len d)) ds
  end.

Lemma run_request_cons q dev m b d ds :
  ds <> [] ->
  run_request q dev m b (d :: ds) =
  (let! (dev', m') :=
     (if b <? q_hdr q then process_queue_start dev m (q_idx q) (vd_addr d) (vd_len d)
      else process_queue_data dev m (q_idx q) (vd_addr d) (vd_len d)) in
   run_request q dev' m' (u64 (b + vd_len d)) ds).
Proof. by destruct ds. Qed.

(** The buffer of [d], with the device's slack, avoids the descriptor table. *)
Definition avoids_table (slack : Z) (q : Queue) (d : VringDesc) : Prop :=
  vd_addr d + Z.max (vd_len d) slack <= q_desc q \/
  q_desc q + 16 * q_num q <= vd_addr d.

Lemma chain_stable slack q m m' a len i ds :
  0 < q_num q -> frame m m' a (Z.max len slack) ->
  a + Z.max len slack <= q_desc q \/ q_desc q + 16 * q_num q <= a ->
  chain q m i ds -> chain q m' i ds.
Proof.
  intros Hn Hf Ha. induction 1 as [i d -> Hr Hx|i d ds -> Hr Hx Hc IH];
    pose proof (Z.mod_pos_bound i (q_num q) Hn);
    [apply chain_last|apply chain_next]; auto;
    symmetry; eapply frame_read_desc; eauto; lia.
Qed.

Context `{!DeviceLaws D}.

Lemma walk_chain_request q n dev m i b ds :
  0 < q_num q -> chain q m i ds -> (length ds <= n)%nat ->
  Forall (avoids_table (dev_slack D) q) ds ->
  walk_chain q n dev m i b = run_request q dev m b ds.
Proof.
  intros Hn Hc. revert n dev b. induction ds as [|d ds IH] in m, i, Hc |- *; [inversion Hc|].
  intros n dev b Hl Ha. destruct n as [|n]; simpl in Hl; [lia|].
  apply Forall_cons in Ha as [Had Ha].
  inversion Hc as [? ? Hd Hr Hx|? ? ? Hd Hr Hx Hc']; subst; cbn [walk_chain].
  - rewrite Hr, Hx. reflexivity.
  - rewrite Hr, Hx. destruct ds as [|d2 ds]; [inversion Hc'|]. cbn [run_request negb].
    set (d0 := read_desc m (q_desc q) (i mod q_num q)) in *.
    destruct (b <? q_hdr q).
    all: match goal with |- context [match ?c with _ => _ end] => destruct c as [[dev' m']|] eqn:E end;
      [|done]; apply IH; [|simpl in *; lia|done]; eapply chain_stable; eauto.
    + by apply start_frame in E.
    + by apply data_frame in E.
Qed.

Lemma run_request_valid q dev m b ds w :
  run_request q dev m b ds = Some w -> w_valid w = true.
Proof.
  revert dev m b. induction ds as [|d ds IH]; intros dev m b Hw; [done|].
  cbn [run_request] in Hw. destruct ds.
  - destruct (process_queue_complete _ _ _ _ _) as [[[]]|]; by simplify_eq/=.
  - destruct (if b <? q_hdr q then _ else _) as [[]|]; [eauto|done].
Qed.

(** C1: on a well-formed chain that fits the queue and whose buffers avoid the
    descriptor table, one step of the dispatcher runs exactly the request of
    that chain, callback by callback in order, posts one used-ring entry
    (the chain head, and the byte count) and advances both cursors by one. *)
Theorem process_chain_refines q s ds w :
  0 < q_num q -> mem_ok (cs_mem s) ->
  cs_processed s <> avail_idx (cs_mem s) (q_avail q) ->
  queue_has_data (cs_dev s) (q_idx q) = true ->
  chain q (cs_mem s) (head_of q s) ds -> Z.of_nat (length ds) <= q_num q ->
  Forall (avoids_table (dev_slack D) q) ds ->
  run_request q (cs_dev s) (cs_mem s) 0 ds = Some w ->
  exists s', process_one_chain_for_queue q s = Some (s', true) /\
    cs_processed s' = u16 (cs_processed s + 1) /\ cs_dev s' = w_dev w /\
    used_idx (cs_mem s') (q_used q) = u16 (used_idx (w_mem w) (q_used q) + 1) /\
    used_ring (cs_mem s') (q_used q) (used_idx (w_mem w) (q_used q) mod q_num q)
      = mk_used_elem (head_of q s) (u32 (w_bytes w)) /\
    frame (w_mem w) (cs_mem s') (q_used q + 2) (2 + 8 * q_num q).
Proof.
  intros Hn Hm Hp Hd Hc Hl Ha Hw. unfold process_one_chain_for_queue.
  apply Z.eqb_neq in Hp. rewrite Hp, Hd. simpl.
  rewrite (walk_chain_request _ _ _ _ _ _ ds), Hw by (auto; lia).
  rewrite (run_request_valid _ _ _ _ _ _ Hw). eexists. split; [reflexivity|]. simpl.
  destruct (post_used_spec q (w_mem w) (head_of q s) (w_bytes w)) as (?&?&?); auto.
  apply (fits_mono 16); [lia|]. by apply rd16_fits.
Qed.
End Request.

(** ** Callbacks stay inside the guest's memory

    [Logged D] is [D] with a record of the buffers its callbacks were handed. *)

Section Safety.
Context {D : Type} `{VirtioDeviceImpl D}.

Definition log_step (l : list (Z * Z)) (a len : Z) (r : option (D * gmap Z Z))
    : option (D * list (Z * Z) * gmap Z Z) :=
  let! (d', m') := r in Some (d', l ++ [(a, len)], m').

#[export] Instance Logged : VirtioDeviceImpl (D * list (Z * Z)) := {|
  num_queues d := num_queues d.1;
  queue_header_size d := queue_header_size d.1;
  device_id d := device_id d.1;
  device_features d := device_features d.1;
  process_queue_start d m q a len := log_step d.2 a len (process_queue_start d.1 m q a len);
  process_queue_data d m q a len := log_step d.2 a len (process_queue_data d.1 m q a len);
  process_queue_complete d m q a len :=
    let! (d', m', n) := process_queue_complete d.1 m q a len in
    Some (d', d.2 ++ [(a, len)], m', n);
  queue_has_data d q := queue_has_data d.1 q;
  init_config d := init_config d.1;
|}.

Definition call_in_range (q : Queue) (c : Z * Z) : Prop :=
  q_start q <= c.1 < q_end q /\ c.1 + c.2 <= q_end q /\ c.1 + c.2 <= U64_MAX.

Lemma desc_in_range_spec q d :
  desc_in_range q d = true <-> call_in_range q (vd_addr d, vd_len d).
Proof.
  unfold desc_in_range, call_in_range, checked_add64. simpl.
  destruct (Z.leb_spec (vd_addr d + vd_len d) U64_MAX);
    rewrite negb_true_iff, ?orb_true_r, ?orb_false_iff, ?Z.ltb_ge, ?Z.leb_gt;
    [|split; [done|lia]].
  lia.
Qed.

Lemma walk_chain_logged q n d l m i b :
  match walk_chain q n (d, l) m i b with
  | None => walk_chain q n d m i b = None
  | Some w => exists calls, (w_dev w).2 = l ++ calls /\ (length calls <= n)%nat /\
      Forall (call_in_range q) calls /\
      walk_chain q n d m i b =
        Some (mk_walk (w_dev w).1 (w_mem w) (w_bytes w) (w_valid w))
  end.
Proof.
  revert d l m i b. induction n as [|n IH]; intros d l m i b; cbn [walk_chain].
  { exists []. rewrite app_nil_r. auto. }
  set (dd := read_desc m (q_desc q) (i mod q_num q)).
  destruct (desc_in_range q dd) eqn:Hr; simpl negb; cbv iota; [|exists []; rewrite app_nil_r;
    repeat split; auto; simpl; lia].
  apply desc_in_range_spec in Hr.
  assert (Hstep : forall r : option (D * gmap Z Z),
    match (let! (dev', m') := log_step l (vd_addr dd) (vd_len dd) r in
           walk_chain q n dev' m' (vd_next dd) (u64 (b + vd_len dd))) with
    | None => (let! (dev', m') := r in
           walk_chain q n dev' m' (vd_next dd) (u64 (b + vd_len dd))) = None
    | Some w => exists calls, (w_dev w).2 = l ++ calls /\ (length calls <= S n)%nat /\
        Forall (call_in_range q) calls /\
        (let! (dev', m') := r in walk_chain q n dev' m' (vd_next dd) (u64 (b + vd_len dd))) =
        Some (mk_walk (w_dev w).1 (w_mem w) (w_bytes w) (w_valid w))
    end).
  { intros [[d' m']|]; simpl; [|done].
    specialize (IH d' (l ++ [(vd_addr dd, vd_len dd)]) m' (vd_next dd) (u64 (b + vd_len dd))).
    destruct (walk_chain q n (d', _) _ _ _) as [w|]; [|done].
    destruct IH as (calls & E & Hl & Hf & Hw). exists ((vd_addr dd, vd_len dd) :: calls).
    rewrite E, <- app_assoc. repeat split; auto; simpl; lia. }
  destruct (has_next dd).
  - destruct (b <? q_hdr q); apply Hstep.
  - cbn. destruct (process_queue_complete d m _ _ _) as [[[d' m'] a]|]; simpl; [|done].
    exists [(vd_addr dd, vd_len dd)]. repeat split; auto; simpl; lia.
Qed.

(** C2: whatever the guest writes into the rings and whatever the device does,
    every buffer handed to a device callback while one chain is processed
    lies inside the guest's memory [q_start, q_end) without address
    overflow, at most [queue_num] callbacks are made, and recording them
    changes nothing else. *)
Theorem callbacks_in_range q p d m p' d' l' m' r :
  process_one_chain_for_queue q (mk_cs p (d, []) m) = Some (mk_cs p' (d', l') m', r) ->
  Forall (call_in_range q) l' /\ Z.of_nat (length l') <= Z.max 0 (q_num q) /\
  process_one_chain_for_queue q (mk_cs p d m) = Some (mk_cs p' d' m', r).
Proof.
  unfold process_one_chain_for_queue, head_of. simpl.
  destruct ((p =? avail_idx m (q_avail q)) || negb (queue_has_data d (q_idx q))) eqn:E.
  { intros. simplify_eq. split; [auto|]. simpl; split; [lia|done]. }
  pose proof (walk_chain_logged q (Z.to_nat (q_num q)) d [] m
    (avail_ring m (q_avail q) (p mod q_num q)) 0) as Hw.
  destruct (walk_chain q (Z.to_nat (q_num q)) (d, []) _ _ _) as [w|]; [|done].
  intros Heq. destruct w as [[wd wl] wm wb wv]; simpl in *.
  injection Heq as <- <- <- <- <-.
  destruct Hw as (calls & -> & Hl & Hf & ->). simpl. split; [done|]. split; [lia|done].
Qed.
End Safety.
Arguments Logged : clear implicits.
Arguments Logged D {_}.

(** ** The chain is skipped or rejected without a completion *)

Section Rejected.
Context {D : Type} `{VirtioDeviceImpl D} `{!DeviceLaws D}.

Lemma walk_chain_frame q n dev m i b w :
  0 <= dev_slack D ->
  walk_chain q n dev m i b = Some w ->
  frame m (w_mem w) (q_start q) (q_end q - q_start q + dev_slack D).
Proof.
  intros Hs. revert dev m i b. induction n as [|n IH]; intros dev m i b Hw; cbn [walk_chain] in Hw.
  { simplify_eq/=. apply frame_refl. }
  set (d := read_desc m (q_desc q) (i mod q_num q)) in *.
  destruct (desc_in_range q d) eqn:Hr; cbn [negb] in Hw; [|simplify_eq/=; apply frame_refl].
  clearbody d.
  apply desc_in_range_spec in Hr. destruct Hr as (? & ? & _); cbn [fst snd] in *.
  assert (Hin : forall m', frame m m' (vd_addr d) (Z.max (vd_len d) (dev_slack D)) ->
    frame m m' (q_start q) (q_end q - q_start q + dev_slack D)).
  { intros m' Hf. eapply frame_weaken; [exact Hf|lia|lia]. }
  destruct (has_next d).
  - destruct (b <? q_hdr q);
      match type of Hw with context [match ?c with _ => _ end] =>
        destruct c as [[d' m']|] eqn:E; [|done] end;
      (apply (frame_trans _ m'); [apply Hin|by eapply IH]);
      [by apply start_frame in E|by apply data_frame in E].
  - destruct (process_queue_complete dev m _ _ _) as [[[d' m'] a]|] eqn:E; simplify_eq/=.
    apply Hin. by apply complete_frame in E.
Qed.

(** When nothing is posted, either the call was a no-op (no new entry, or
    the device declines), or the chain was malformed: then only its consumed
    cursor advances, so the same chain is never retried, and the used ring
    is exactly what the callbacks left. In every case guest memory changes
    only inside the guest's memory range, up to the device's slack, and in
    the used ring. *)
Theorem process_chain_effects q s s' r :
  0 < q_num q -> 0 <= dev_slack D -> mem_ok (cs_mem s) ->
  process_one_chain_for_queue q s = Some (s', r) ->
  (r = false -> s' = s \/
     cs_processed s' = u16 (cs_processed s + 1) /\
     frame (cs_mem s) (cs_mem s') (q_start q) (q_end q - q_start q + dev_slack D)) /\
  (r = true -> cs_processed s <> avail_idx (cs_mem s) (q_avail q) /\
     cs_processed s' = u16 (cs_processed s + 1)) /\
  (forall x, (x < q_start q \/ q_end q + dev_slack D <= x) ->
     (x < q_used q + 2 \/ q_used q + 4 + 8 * q_num q <= x) ->
     rd8 (cs_mem s') x = rd8 (cs_mem s) x).
Proof.
  intros Hn Hs Hm. unfold process_one_chain_for_queue.
  destruct (Z.eqb_spec (cs_processed s) (avail_idx (cs_mem s) (q_avail q))) as [?|Hne].
  { simpl. intros. simplify_eq. repeat split; auto; done. }
  destruct (queue_has_data (cs_dev s) (q_idx q)); simpl;
    [|intros; simplify_eq; repeat split; auto; done].
  destruct (walk_chain q _ _ _ _ _) as [w|] eqn:Hw; [|done].
  apply walk_chain_frame in Hw; [|done]. intros Heq. simplify_eq/=.
  split; [intros ->; right; auto|]. split; [auto|].
  intros x Hx1 Hx2. destruct (w_valid w); [|apply Hw; lia].
  destruct (post_used_spec q (w_mem w) (head_of q s) (w_bytes w)) as (_&_&Hf); auto.
  { apply (fits_mono 16); [lia|]. by apply rd16_fits. }
  rewrite Hf by lia. apply Hw. lia.
Qed.
End Rejected.

(** ** A recording device and a concrete queue

    The device stub of the unit tests of [virtio/mod.rs], on which the theorems
    are instantiated. *)

Record RecordingDevice := mk_rec {
  starts : list (Z * Z); datas : list (Z * Z); completes : list (Z * Z);
  has_data : bool; complete_returns : Z;
}.

Definition recording_new : RecordingDevice := mk_rec [] [] [] true U64_MAX.

#[export] Instance RecordingImpl : VirtioDeviceImpl RecordingDevice := {|
  num_queues _ := 1;
  queue_header_size _ := 8;
  device_id _ := 0;
  device_features _ := (0, 0);
  process_queue_start d m q _ len :=
    Some (mk_rec (starts d ++ [(q, len)]) (datas d) (completes d) (has_data d) (complete_returns d), m);
  process_queue_data d m q _ len :=
    Some (mk_rec (starts d) (datas d ++ [(q, len)]) (completes d) (has_data d) (complete_returns d), m);
  process_queue_complete d m q _ len :=
    Some (mk_rec (starts d) (datas d) (completes d ++ [(q, len)]) (has_data d) (complete_returns d), m,
          if complete_returns d =? U64_MAX then len else complete_returns d);
  queue_has_data d _ := has_data d;
  init_config _ m _ := m;
|}.

#[export] Instance RecordingLaws : DeviceLaws RecordingDevice.
Proof. refine {| dev_slack := 0 |}; intros; simplify_eq/=; apply frame_refl. Defined.

Definition write_desc (m : gmap Z Z) (p i : Z) (d : VringDesc) : gmap Z Z :=
  let a := p + 16 * i in
  wr16 (wr16 (wr32 (wr64 m a (vd_addr d)) (a + 8) (vd_len d)) (a + 12) (vd_flags d)) (a + 14) (vd_next d).

(** Eight entries: table at 0x1000, avail ring at 0x1100, used ring at 0x1200,
    data from 0x1300. *)
Definition demo_queue : Queue := mk_queue 0x1000 0x1100 0x1200 0 8 8 0x1000 0x2300.

(** A header, a data and a status descriptor, submitted in avail slot 0. *)
Definition demo_mem : gmap Z Z :=
  let m := write_desc ∅ 0x1000 0 (mk_desc 0x1300 8 1 1) in
  let m := write_desc m 0x1000 1 (mk_desc 0x1308 16 1 2) in
  let m := write_desc m 0x1000 2 (mk_desc 0x1318 4 0 0) in
  wr16 (wr16 m 0x1104 0) 0x1102 1.

Definition demo_state : ChainState RecordingDevice := mk_cs 0 recording_new demo_mem.

Definition demo_chain : list VringDesc :=
  [mk_desc 0x1300 8 1 1; mk_desc 0x1308 16 1 2; mk_desc 0x1318 4 0 0].

Lemma demo_mem_ok : mem_ok demo_mem.
Proof.
  unfold demo_mem, write_desc, wr16, wr32, wr64.
  repeat (apply mem_ok_write_bytes; [|apply le_bytes_are_bytes]). apply map_Forall_empty.
Qed.

Lemma demo_chain_ok : chain demo_queue demo_mem (head_of demo_queue demo_state) demo_chain.
Proof.
  apply chain_next; [vm_compute; reflexivity..|].
  apply chain_next; [vm_compute; reflexivity..|].
  apply chain_last; vm_compute; reflexivity.
Qed.

Lemma process_chain_refines_witness :
  exists s', process_one_chain_for_queue demo_queue demo_state = Some (s', true) /\
    used_ring (cs_mem s') (q_used demo_queue) 0 = mk_used_elem 0 28.
Proof.
  destruct (process_chain_refines demo_queue demo_state demo_chain
    (mk_walk (mk_rec [(0, 8)] [(0, 16)] [(0, 4)] true U64_MAX) demo_mem 28 true))
    as (s' & H1 & _ & _ & _ & H2 & _).
  - reflexivity.
  - apply demo_mem_ok.
  - vm_compute. discriminate.
  - reflexivity.
  - apply demo_chain_ok.
  - vm_compute. discriminate.
  - repeat (apply List.Forall_cons; [right; vm_compute; discriminate|]). apply List.Forall_nil.
  - vm_compute. reflexivity.
  - exists s'. split; [exact H1|]. exact H2.
Defined.

Lemma callbacks_in_range_witness :
  exists l, Forall (call_in_range demo_queue) l /\ length l = 3%nat.
Proof.
  set (r := process_one_chain_for_queue (D := RecordingDevice * list (Z * Z)) demo_queue
              (mk_cs 0 (recording_new, []) demo_mem)).
  assert (E : r = Some (mk_cs 1 (mk_rec [(0, 8)] [(0, 16)] [(0, 4)] true U64_MAX,
      [(0x1300, 8); (0x1308, 16); (0x1318, 4)]) (post_used demo_queue demo_mem 0 28), true))
    by (vm_compute; reflexivity).
  exists [(0x1300, 8); (0x1308, 16); (0x1318, 4)]. split; [|reflexivity].
  exact (proj1 (callbacks_in_range _ _ _ _ _ _ _ _ _ E)).
Defined.

(** A descriptor cycle: the walk stops after [queue_num] descriptors. *)
Definition cycle_mem : gmap Z Z :=
  wr16 (wr16 (write_desc ∅ 0x1000 0 (mk_desc 0x1300 8 1 0)) 0x1104 0) 0x1102 1.

Lemma process_chain_effects_witness :
  exists s', process_one_chain_for_queue demo_queue (mk_cs 0 recording_new cycle_mem) = Some (s', false)
    /\ (s' = mk_cs 0 recording_new cycle_mem \/ cs_processed s' = 1 /\
        frame cycle_mem (cs_mem s') 0x1000 0x1300).
Proof.
  set (s := mk_cs 0 recording_new cycle_mem).
  destruct (process_one_chain_for_queue demo_queue s) as [[s' r]|] eqn:E; [|vm_compute in E; discriminate].
  assert (r = false) as -> by (vm_compute in E; congruence).
  exists s'. split; [reflexivity|].
  refine (proj1 (process_chain_effects demo_queue s s' false _ _ _ E) eq_refl).
  - reflexivity.
  - vm_compute; discriminate.
  - unfold cycle_mem, write_desc, wr16, wr32, wr64.
    repeat (apply mem_ok_write_bytes; [|apply le_bytes_are_bytes]). apply map_Forall_empty.
Defined.
