(* ===== verification/VirtioBlk.v ===== *)
(** The virtio block device of [src/virtio/block.rs].

    The disk image is the byte map behind [mapped_data] with its [file_size];
    [req] is the guest address of the request header, read again from guest
    memory by every callback, and [None] is the null pointer a fresh device
    holds.  Arithmetic is that of the release build: [sector_size * sector]
    wraps at 64 bits. *)

From S2P Require Import Prelude Layout Text Virtqueue.

Definition VIRTIO_BLK_T_IN : Z := 0.
Definition VIRTIO_BLK_T_OUT : Z := 1.
Definition VIRTIO_BLK_T_GET_ID : Z := 8.
Definition VIRTIO_BLK_ID_BYTES : Z := 20.
Definition VIRTIO_BLK_S_OK : Z := 0.
Definition VIRTIO_BLK_S_IOERR : Z := 1.
Definition VIRTIO_BLK_S_UNSUPP : Z := 2.
Definition VIRTIO_F_VERSION_1_BIT : Z := 1.

(** The request header, at its offsets in [VirtioBlkOuthdr]. *)
Record VirtioBlkOuthdr := mk_outhdr { oh_type : Z; oh_ioprio : Z; oh_sector : Z }.

Definition outhdr_size : Z := 16.

Definition read_outhdr (m : gmap Z Z) (p : Z) : VirtioBlkOuthdr :=
  {| oh_type := rd32 m p; oh_ioprio := rd32 m (p + 4); oh_sector := rd64 m (p + 8) |}.

(** The counters of this device's L2CPU that a completion bumps. *)
Record BlkMetrics := mk_blk_metrics {
  bm_read_reqs : Z; bm_write_reqs : Z; bm_read_bytes : Z; bm_write_bytes : Z;
  bm_ioerr : Z; bm_unsupp : Z;
}.

Record VirtioBlk := mk_blk {
  mapped_data : gmap Z Z;
  file_size : Z;
  req : option Z;
  data_offset : Z;
  req_status : Z;
  l2cpu_idx : Z;
  serial : option (list Z);
  blk_metrics : BlkMetrics;
}.

Definition sector_size : Z := 512.

Definition from_file_with_serial (image : gmap Z Z) (size idx : Z) (ser : option (list Z))
    (mtr : BlkMetrics) : VirtioBlk :=
  mk_blk image size None 0 VIRTIO_BLK_S_OK idx ser mtr.

Definition num_sectors (b : VirtioBlk) : Z := (file_size b + sector_size - 1) / sector_size.

Definition set_req (b : VirtioBlk) (r : option Z) (off st : Z) : VirtioBlk :=
  mk_blk (mapped_data b) (file_size b) r off st (l2cpu_idx b) (serial b) (blk_metrics b).

Definition set_disk (b : VirtioBlk) (disk : gmap Z Z) : VirtioBlk :=
  mk_blk disk (file_size b) (req b) (data_offset b) (req_status b) (l2cpu_idx b) (serial b)
    (blk_metrics b).

Definition set_metrics (b : VirtioBlk) (mt : BlkMetrics) : VirtioBlk :=
  mk_blk (mapped_data b) (file_size b) (req b) (data_offset b) (req_status b) (l2cpu_idx b)
    (serial b) mt.

Definition blk_start (b : VirtioBlk) (m : gmap Z Z) (_ addr _ : Z) : option (VirtioBlk * gmap Z Z) :=
  Some (set_req b (Some addr) 0 VIRTIO_BLK_S_OK, m).

(** The bytes of the GET_ID reply. *)
Definition id_bytes (b : VirtioBlk) : list Z :=
  match serial b with
  | Some s => s
  | None => chars "bhx-l2cpu-" ++ show_dec2 (l2cpu_idx b)
  end.

Definition disk_offset_of (b : VirtioBlk) (h : VirtioBlkOuthdr) : Z :=
  u64 (u64 (sector_size * oh_sector h) + data_offset b).

Definition blk_data (b : VirtioBlk) (m : gmap Z Z) (_ addr len : Z) : option (VirtioBlk * gmap Z Z) :=
  let! r := req b in
  let h := read_outhdr m r in
  let disk_offset := disk_offset_of b h in
  let stop := saturating_add64 disk_offset len in
  let advance b st := set_req b (req b) (u64 (data_offset b + len)) st in
  if file_size b <? stop then Some (advance b VIRTIO_BLK_S_IOERR, m)
  else if oh_type h =? VIRTIO_BLK_T_IN then
    let m' := write_bytes m addr (read_bytes (mapped_data b) disk_offset (Z.to_nat len)) in
    Some (advance b (req_status b), m')
  else if oh_type h =? VIRTIO_BLK_T_OUT then
    let disk := write_bytes (mapped_data b) disk_offset (read_bytes m addr (Z.to_nat len)) in
    Some (advance (set_disk b disk) (req_status b), m)
  else if oh_type h =? VIRTIO_BLK_T_GET_ID then
    let n := Z.to_nat (Z.min len VIRTIO_BLK_ID_BYTES) in
    let m' := write_bytes m addr (replicate n 0) in
    let m' := write_bytes m' addr (take n (id_bytes b)) in
    Some (advance b (req_status b), m')
  else Some (advance b VIRTIO_BLK_S_UNSUPP, m).

(** The per-request counters: requests and bytes by direction, then errors. *)
Definition bump_metrics (mt : BlkMetrics) (ty off st : Z) : BlkMetrics :=
  let mt :=
    if ty =? VIRTIO_BLK_T_IN then
      mk_blk_metrics (u64 (bm_read_reqs mt + 1)) (bm_write_reqs mt) (u64 (bm_read_bytes mt + off))
        (bm_write_bytes mt) (bm_ioerr mt) (bm_unsupp mt)
    else if ty =? VIRTIO_BLK_T_OUT then
      mk_blk_metrics (bm_read_reqs mt) (u64 (bm_write_reqs mt + 1)) (bm_read_bytes mt)
        (u64 (bm_write_bytes mt + off)) (bm_ioerr mt) (bm_unsupp mt)
    else mt in
  if st =? VIRTIO_BLK_S_IOERR then
    mk_blk_metrics (bm_read_reqs mt) (bm_write_reqs mt) (bm_read_bytes mt) (bm_write_bytes mt)
      (u64 (bm_ioerr mt + 1)) (bm_unsupp mt)
  else if st =? VIRTIO_BLK_S_UNSUPP then
    mk_blk_metrics (bm_read_reqs mt) (bm_write_reqs mt) (bm_read_bytes mt) (bm_write_bytes mt)
      (bm_ioerr mt) (u64 (bm_unsupp mt + 1))
  else mt.

Definition blk_complete (b : VirtioBlk) (m : gmap Z Z) (_ addr len : Z)
    : option (VirtioBlk * gmap Z Z * Z) :=
  let m' := wr8 m addr (req_status b) in
  let! r := req b in
  let ty := oh_type (read_outhdr m' r) in
  let mt := bump_metrics (blk_metrics b) ty (data_offset b) (req_status b) in
  Some (set_req (set_metrics b mt) (req b) (data_offset b) VIRTIO_BLK_S_OK, m', len).

#[export] Instance BlkImpl : VirtioDeviceImpl VirtioBlk := {|
  num_queues _ := 1;
  queue_header_size _ := outhdr_size;
  device_id _ := VIRTIO_ID_BLOCK;
  device_features _ := (0, VIRTIO_F_VERSION_1_BIT);
  process_queue_start := blk_start;
  process_queue_data := blk_data;
  process_queue_complete := blk_complete;
  queue_has_data _ _ := true;
  init_config b m config := wr64 m config (num_sectors b);
|}.

(** ** Framing *)

Lemma write_bytes_frame m a l n :
  Z.of_nat (length l) <= n -> frame m (write_bytes m a l) a n.
Proof. intros ? x Hx. apply rd8_write_bytes_out. lia. Qed.

Lemma wr8_frame m a v n : 1 <= n -> frame m (wr8 m a v) a n.
Proof. intros ? x Hx. apply rd8_wr8_ne. lia. Qed.

Lemma blk_data_frame b m q a len b' m' :
  blk_data b m q a len = Some (b', m') -> frame m m' a (Z.max len 1).
Proof.
  unfold blk_data. destruct (req b) as [r|]; [|done].
  repeat case_match; intros; simplify_eq; try apply frame_refl.
  - apply write_bytes_frame. rewrite length_read_bytes. lia.
  - eapply frame_trans; apply write_bytes_frame;
      rewrite ?length_replicate, ?length_take; unfold VIRTIO_BLK_ID_BYTES; lia.
Qed.

#[export] Instance BlkLaws : DeviceLaws VirtioBlk.
Proof.
  refine {| dev_slack := 1 |}; cbn.
  - intros. unfold blk_start in *. simplify_eq. apply frame_refl.
  - apply blk_data_frame.
  - intros d m q a len d' m' n. unfold blk_complete.
    destruct (req d); intros; simplify_eq/=. apply wr8_frame. lia.
Defined.

(** ** A whole request

    The chain Linux sends: a 16-byte header, one data buffer, one status byte. *)

Definition blk_chain (hdr buf len st : Z) : list VringDesc :=
  [mk_desc hdr outhdr_size 1 0; mk_desc buf len 1 0; mk_desc st 1 0 0].

(** What the guest should find in the status byte. *)
Definition expected_status (size len : Z) (h : VirtioBlkOuthdr) : Z :=
  if size <? sector_size * oh_sector h + len then VIRTIO_BLK_S_IOERR
  else if (oh_type h =? VIRTIO_BLK_T_IN) || (oh_type h =? VIRTIO_BLK_T_OUT)
          || (oh_type h =? VIRTIO_BLK_T_GET_ID) then VIRTIO_BLK_S_OK
  else VIRTIO_BLK_S_UNSUPP.

(** The range of a request neither wraps at 64 bits nor is negative. *)
Definition request_exact (size len : Z) (h : VirtioBlkOuthdr) : Prop :=
  0 <= len < 2 ^ 32 /\ 0 <= oh_sector h /\ sector_size * oh_sector h + len <= U64_MAX.

Lemma disk_offset_exact b size len h :
  request_exact size len h -> data_offset b = 0 ->
  disk_offset_of b h = sector_size * oh_sector h /\
  saturating_add64 (disk_offset_of b h) len = sector_size * oh_sector h + len.
Proof.
  unfold request_exact, disk_offset_of, saturating_add64, u64, U64_MAX, sector_size. intros (?&?&?) ->.
  rewrite !wrap_small; unfold fits, wrap; rewrite ?Z.mod_small by lia; lia.
Qed.

Lemma blk_request_run q b m hdr buf len st :
  q_hdr q = outhdr_size ->
  run_request q b m 0 (blk_chain hdr buf len st) =
  (let! (b1, m1) := blk_data (set_req b (Some hdr) 0 VIRTIO_BLK_S_OK) m (q_idx q) buf len in
   let! (b2, m2, n) := blk_complete b1 m1 (q_idx q) st 1 in
   Some (mk_walk b2 m2 (u64 (u64 (16 + len) + n)) true)).
Proof. intros Hh. cbn. rewrite Hh. reflexivity. Qed.

(** C14: a block request whose header is intact and whose range does not exceed
    64 bits always completes; the status byte is IOERR exactly when the range
    runs past the image, OK for a read, write or identify in range, UNSUPP for
    any other type; a read in range delivers the image's bytes, a write in range
    stores the guest's bytes at that offset and nowhere else, and a failed
    request moves no data. *)
Theorem blk_request_correct q b m hdr buf len st :
  q_hdr q = outhdr_size ->
  buf + len <= hdr \/ hdr + outhdr_size <= buf ->
  st < buf \/ buf + len <= st ->
  request_exact (file_size b) len (read_outhdr m hdr) ->
  let h := read_outhdr m hdr in
  let off := sector_size * oh_sector h in
  let es := expected_status (file_size b) len h in
  exists w, run_request q b m 0 (blk_chain hdr buf len st) = Some w /\
    w_bytes w = 17 + len /\ rd8 (w_mem w) st = es /\
    file_size (w_dev w) = file_size b /\
    (es = VIRTIO_BLK_S_OK -> oh_type h = VIRTIO_BLK_T_IN ->
       read_bytes (w_mem w) buf (Z.to_nat len) = read_bytes (mapped_data b) off (Z.to_nat len)) /\
    (es = VIRTIO_BLK_S_OK -> oh_type h = VIRTIO_BLK_T_OUT ->
       read_bytes (mapped_data (w_dev w)) off (Z.to_nat len) = read_bytes m buf (Z.to_nat len) /\
       frame (mapped_data b) (mapped_data (w_dev w)) off len) /\
    (oh_type h <> VIRTIO_BLK_T_OUT \/ es <> VIRTIO_BLK_S_OK -> mapped_data (w_dev w) = mapped_data b) /\
    (es <> VIRTIO_BLK_S_OK ->
       read_bytes (w_mem w) buf (Z.to_nat len) = read_bytes m buf (Z.to_nat len)).
Proof.
  intros Hq Hb Hst Hex h off es. rewrite blk_request_run by done.
  set (b0 := set_req b (Some hdr) 0 VIRTIO_BLK_S_OK).
  destruct (disk_offset_exact b0 (file_size b) len h Hex eq_refl) as [Eoff Esat].
  assert (Hlen : 0 <= len) by (unfold request_exact in Hex; lia).
  assert (Hrd : forall mm s, read_bytes (wr8 mm st s) buf (Z.to_nat len) = read_bytes mm buf (Z.to_nat len)).
  { intros. apply read_bytes_ext. intros. apply rd8_wr8_ne. lia. }
  assert (Hn : u64 (u64 (16 + len) + 1) = 17 + len).
  { unfold request_exact, u64 in *. unfold wrap.
    rewrite (Z.mod_small (16 + len)) by lia. rewrite Z.mod_small; lia. }
  unfold blk_data. cbn [req b0 set_req]. fold h. change (set_req b (Some hdr) 0 VIRTIO_BLK_S_OK) with b0.
  cbv zeta. rewrite Esat, Eoff. change (file_size b0) with (file_size b).
  assert (Hes : es = expected_status (file_size b) len h) by done.
  unfold expected_status in Hes. fold off in Hes |- *. clearbody es. rewrite Hes. clear es Hes.
  assert (Eb : req b0 = Some hdr /\ mapped_data b0 = mapped_data b /\ req_status b0 = VIRTIO_BLK_S_OK
    /\ file_size b0 = file_size b) by done.
  destruct Eb as (Er & Ed & Es & Ef). clearbody b0 h.
  destruct (file_size b <? off + len) eqn:E1; [|destruct (oh_type h =? VIRTIO_BLK_T_IN) eqn:E2;
    [|destruct (oh_type h =? VIRTIO_BLK_T_OUT) eqn:E3;
    [|destruct (oh_type h =? VIRTIO_BLK_T_GET_ID) eqn:E4]]]; cbv iota beta;
    unfold blk_complete; cbn [req set_req set_disk orb]; rewrite ?Er;
    (eexists; split; [reflexivity|]);
    cbn [w_dev w_mem w_bytes file_size mapped_data set_req set_disk set_metrics req_status];
    rewrite ?rd8_wr8_eq, ?Hrd, ?Es, ?Ed, ?Ef, ?Hn; bool_to_prop;
    split_and!; try done; intros;
    try (unfold VIRTIO_BLK_T_IN, VIRTIO_BLK_T_OUT, VIRTIO_BLK_T_GET_ID, VIRTIO_BLK_S_OK,
           VIRTIO_BLK_S_IOERR, VIRTIO_BLK_S_UNSUPP in *; exfalso; intuition congruence).
  - apply read_write_bytes_len, length_read_bytes.
  - split; [apply read_write_bytes_len, length_read_bytes|].
    apply write_bytes_frame. rewrite length_read_bytes. lia.
Qed.

(** What a guest writes to a range of sectors is what it reads back: after a
    write request that completed with OK, a read request for the same sector
    and length delivers those bytes, wherever its buffer is. *)
Theorem blk_write_then_read q b m hdr buf len st m2 hdr2 buf2 st2 :
  q_hdr q = outhdr_size ->
  buf + len <= hdr \/ hdr + outhdr_size <= buf -> st < buf \/ buf + len <= st ->
  buf2 + len <= hdr2 \/ hdr2 + outhdr_size <= buf2 -> st2 < buf2 \/ buf2 + len <= st2 ->
  request_exact (file_size b) len (read_outhdr m hdr) ->
  sector_size * oh_sector (read_outhdr m hdr) + len <= file_size b ->
  oh_type (read_outhdr m hdr) = VIRTIO_BLK_T_OUT ->
  oh_type (read_outhdr m2 hdr2) = VIRTIO_BLK_T_IN ->
  oh_sector (read_outhdr m2 hdr2) = oh_sector (read_outhdr m hdr) ->
  exists w w2, run_request q b m 0 (blk_chain hdr buf len st) = Some w /\
    run_request q (w_dev w) m2 0 (blk_chain hdr2 buf2 len st2) = Some w2 /\
    rd8 (w_mem w) st = VIRTIO_BLK_S_OK /\ rd8 (w_mem w2) st2 = VIRTIO_BLK_S_OK /\
    read_bytes (w_mem w2) buf2 (Z.to_nat len) = read_bytes m buf (Z.to_nat len).
Proof.
  intros Hq H1 H2 H3 H4 Hex Hin Ht Ht2 Hs.
  assert (Ees : forall h, oh_type h = VIRTIO_BLK_T_OUT \/ oh_type h = VIRTIO_BLK_T_IN ->
    sector_size * oh_sector h + len <= file_size b ->
    expected_status (file_size b) len h = VIRTIO_BLK_S_OK).
  { intros h Hh Hle. unfold expected_status. apply Z.ltb_ge in Hle. rewrite Hle.
    destruct Hh as [->| ->]; done. }
  destruct (blk_request_correct q b m hdr buf len st) as (w & E & _ & Est & Ef & _ & Hw & _); auto.
  destruct Hw as [Hw _]; auto.
  destruct (blk_request_correct q (w_dev w) m2 hdr2 buf2 len st2) as (w2 & E2 & _ & Est2 & _ & Hr & _);
    auto; rewrite ?Ef in *.
  { unfold request_exact in *. by rewrite Hs. }
  exists w, w2. split; [done|]. split; [done|]. rewrite Est, Est2, !Ees by (auto; congruence || lia).
  split; [done|]. split; [done|]. rewrite Hr by (auto using Ees; apply Ees; auto; lia).
  by rewrite Hs.
Qed.

(** C40: the sector number is multiplied without an overflow check: a write
    addressed to sector 2^55 of an image, which the bound check should refuse,
    completes with OK and overwrites the image from byte 0. *)
Theorem blk_sector_wraps q b m hdr buf len st :
  q_hdr q = outhdr_size ->
  0 <= len <= file_size b -> file_size b <= U64_MAX ->
  oh_type (read_outhdr m hdr) = VIRTIO_BLK_T_OUT -> oh_sector (read_outhdr m hdr) = 2 ^ 55 ->
  0 < len ->
  expected_status (file_size b) len (read_outhdr m hdr) = VIRTIO_BLK_S_IOERR /\
  exists w, run_request q b m 0 (blk_chain hdr buf len st) = Some w /\
    rd8 (w_mem w) st = VIRTIO_BLK_S_OK /\
    read_bytes (mapped_data (w_dev w)) 0 (Z.to_nat len) = read_bytes m buf (Z.to_nat len).
Proof.
  intros Hq Hlen Hsz Ht Hs Hpos. unfold U64_MAX, sector_size in *.
  split.
  { unfold expected_status, sector_size. rewrite Hs.
    destruct (Z.ltb_spec (file_size b) (512 * 2 ^ 55 + len)); [done|lia]. }
  rewrite blk_request_run by done. unfold blk_data. cbn [req set_req].
  assert (E : disk_offset_of (set_req b (Some hdr) 0 VIRTIO_BLK_S_OK) (read_outhdr m hdr) = 0).
  { unfold disk_offset_of. rewrite Hs. reflexivity. }
  cbv zeta. rewrite E. unfold saturating_add64. cbn [file_size set_req].
  rewrite Z.add_0_l, Z.min_l by (unfold U64_MAX; lia).
  destruct (Z.ltb_spec (file_size b) len); [lia|]. rewrite Ht. cbn [Z.eqb VIRTIO_BLK_T_OUT VIRTIO_BLK_T_IN].
  change (1 =? 0) with false. cbv iota beta. unfold blk_complete. cbn [req set_req set_disk].
  eexists. split; [reflexivity|].
  cbn [w_dev w_mem mapped_data set_req set_disk set_metrics req_status]. split; [apply rd8_wr8_eq|].
  apply read_write_bytes_len, length_read_bytes.
Qed.

(** A chain of a single descriptor reaches [process_queue_complete] without a
    [process_queue_start]; as the first request of a fresh device it makes the
    daemon dereference the null request pointer. *)
Theorem blk_single_descriptor_faults q p m image size idx ser mt d :
  0 < q_num q -> p <> avail_idx m (q_avail q) ->
  chain q m (avail_ring m (q_avail q) (p mod q_num q)) [d] ->
  process_one_chain_for_queue q (mk_cs p (from_file_with_serial image size idx ser mt) m) = None.
Proof.
  intros Hn Hp Hc. unfold process_one_chain_for_queue, head_of. cbn [cs_processed cs_dev cs_mem].
  apply Z.eqb_neq in Hp. rewrite Hp. cbn [orb queue_has_data BlkImpl negb].
  destruct (Z.to_nat (q_num q)) eqn:En; [lia|]. cbn [walk_chain].
  inversion Hc as [i ? Hd Hr Hx|? ? ? ? ? ? Hc']; [subst d|inversion Hc']. by rewrite Hr, Hx.
Qed.

(** ** Concrete requests *)

Definition demo_metrics : BlkMetrics := mk_blk_metrics 0 0 0 0 0 0.

(** A one-sector image of bytes 7. *)
Definition demo_blk : VirtioBlk :=
  from_file_with_serial (write_bytes ∅ 0 (replicate 512 7)) 512 0 None demo_metrics.

(** A request header at 0x100 and four data bytes at 0x200. *)
Definition blk_demo_mem (ty sector : Z) : gmap Z Z :=
  write_bytes (wr64 (wr32 ∅ 0x100 ty) 0x108 sector) 0x200 [1; 2; 3; 4].

Definition blk_demo_queue : Queue := mk_queue 0x1000 0x1100 0x1200 0 16 8 0 0x2000.

Lemma blk_request_correct_witness :
  exists w, run_request blk_demo_queue demo_blk (blk_demo_mem VIRTIO_BLK_T_IN 0) 0
      (blk_chain 0x100 0x200 4 0x300) = Some w /\ rd8 (w_mem w) 0x300 = VIRTIO_BLK_S_OK.
Proof.
  destruct (blk_request_correct blk_demo_queue demo_blk (blk_demo_mem VIRTIO_BLK_T_IN 0)
    0x100 0x200 4 0x300) as (w & H1 & _ & H2 & _).
  - reflexivity.
  - right. vm_compute. discriminate.
  - right. vm_compute. discriminate.
  - vm_compute. repeat split; discriminate.
  - exists w. split; [exact H1|]. rewrite H2. vm_compute. reflexivity.
Defined.

Lemma blk_write_then_read_witness :
  exists w w2, run_request blk_demo_queue demo_blk (blk_demo_mem VIRTIO_BLK_T_OUT 0) 0
      (blk_chain 0x100 0x200 4 0x300) = Some w /\
    run_request blk_demo_queue (w_dev w) (blk_demo_mem VIRTIO_BLK_T_IN 0) 0
      (blk_chain 0x100 0x400 4 0x300) = Some w2 /\
    read_bytes (w_mem w2) 0x400 4 = [1; 2; 3; 4].
Proof.
  destruct (blk_write_then_read blk_demo_queue demo_blk (blk_demo_mem VIRTIO_BLK_T_OUT 0)
    0x100 0x200 4 0x300 (blk_demo_mem VIRTIO_BLK_T_IN 0) 0x100 0x400 0x300)
    as (w & w2 & H1 & H2 & _ & _ & H3).
  - reflexivity.
  - right. vm_compute. discriminate.
  - right. vm_compute. discriminate.
  - right. vm_compute. discriminate.
  - left. vm_compute. reflexivity.
  - vm_compute. repeat split; discriminate.
  - vm_compute. discriminate.
  - vm_compute. reflexivity.
  - vm_compute. reflexivity.
  - vm_compute. reflexivity.
  - exists w, w2. split; [exact H1|]. split; [exact H2|]. etransitivity; [exact H3|vm_compute; reflexivity].
Defined.

Lemma blk_sector_wraps_witness :
  exists w, run_request blk_demo_queue demo_blk (blk_demo_mem VIRTIO_BLK_T_OUT (2 ^ 55)) 0
      (blk_chain 0x100 0x200 4 0x300) = Some w /\
    read_bytes (mapped_data (w_dev w)) 0 4 = [1; 2; 3; 4].
Proof.
  destruct (blk_sector_wraps blk_demo_queue demo_blk (blk_demo_mem VIRTIO_BLK_T_OUT (2 ^ 55))
    0x100 0x200 4 0x300) as (_ & w & H1 & _ & H2).
  - reflexivity.
  - vm_compute. split; discriminate.
  - vm_compute. discriminate.
  - vm_compute. reflexivity.
  - vm_compute. reflexivity.
  - vm_compute. reflexivity.
  - exists w. split; [exact H1|]. etransitivity; [exact H2|vm_compute; reflexivity].
Defined.

(** One descriptor without NEXT, submitted in slot 0. *)
Definition single_mem : gmap Z Z :=
  wr16 (wr16 (write_desc ∅ 0x1000 0 (mk_desc 0x1300 8 0 0)) 0x1104 0) 0x1102 1.

Lemma blk_single_descriptor_faults_witness :
  process_one_chain_for_queue (mk_queue 0x1000 0x1100 0x1200 0 16 8 0x1000 0x2300)
    (mk_cs 0 demo_blk single_mem) = None.
Proof.
  apply (blk_single_descriptor_faults (mk_queue 0x1000 0x1100 0x1200 0 16 8 0x1000 0x2300) 0 single_mem
    (write_bytes ∅ 0 (replicate 512 7)) 512 0 None demo_metrics (mk_desc 0x1300 8 0 0)).
  - reflexivity.
  - vm_compute. discriminate.
  - apply chain_last; vm_compute; reflexivity.
Defined.
