(* ===== verification/ConsoleHub.v ===== *)
(** The per-L2CPU console fan-out of [src/daemon/console_hub.rs]: a scrollback
    ring, the attached clients, and the writer role.

    A client's socket is the sequence of results that the kernel's [send] will
    return on it, with the bytes it has accepted so far; the theorems hold for
    every such sequence.

    [clients_gauge] is the last value that this hub gave to the gauge of clients.
    The gauge of the source is one per core index for the whole process, so a
    detach on a hub that has been replaced also sets it; that is not modelled. *)

From S2P Require Import Prelude.

Definition SHUTDOWN_TAIL_BYTES : Z := 16 * 1024.
Definition SCROLLBACK_BYTES : Z := 1024 * 1024.

(** ** Sockets *)

Inductive SendRet :=
| Sent (n : nat)
| Interrupted
| Failed.

Record Sock := mk_sock { script : list SendRet; delivered : list Z; is_shutdown : bool }.

(** [send_all_dontwait]: every iteration performs one [send]. *)
Fixpoint send_loop (script : list SendRet) (out bytes : list Z) : list SendRet * list Z * bool :=
  match bytes with
  | [] => (script, out, true)
  | _ :: _ =>
      match script with
      | [] => ([], out, false)
      | Failed :: script => (script, out, false)
      | Interrupted :: script => send_loop script out bytes
      | Sent n :: script =>
          let n := Nat.min n (length bytes) in
          if (n =? 0)%nat then (script, out, false)
          else send_loop script (out ++ take n bytes) (drop n bytes)
      end
  end.

Definition send_all_dontwait (s : Sock) (bytes : list Z) : Sock * bool :=
  let '(sc, out, ok) := send_loop (script s) (delivered s) bytes in
  (mk_sock sc out (is_shutdown s), ok).

(** ** The hub *)

Inductive ConsoleMode := Ro | Rw | Takeover.

Record Client := mk_client { id : Z; sock : Sock; is_writer : bool }.

Record ConsoleHub := mk_hub {
  hub_idx : Z;
  scrollback : list Z;
  clients : list Client;
  next_id : Z;
  clients_gauge : Z;
}.

Record AttachResult := mk_attach {
  ar_id : Z; ar_is_writer : bool; ar_scrollback_bytes : Z; ar_demoted : list Z;
}.

(** [gauge] is what the process-wide client gauge of the index holds. *)
Definition hub_new (idx gauge : Z) : ConsoleHub := mk_hub idx [] [] 1 gauge.

Definition find_writer (cs : list Client) : option Z :=
  match List.find is_writer cs with Some c => Some (id c) | None => None end.

Definition current_writer_id (h : ConsoleHub) : option Z := find_writer (clients h).

Definition demote (prev : Z) (c : Client) : Client :=
  if id c =? prev then mk_client (id c) (sock c) false else c.

Definition attach (h : ConsoleHub) (s : Sock) (mode : ConsoleMode)
    : ConsoleHub * AttachResult * list Z :=
  let i := next_id h in
  let writer := find_writer (clients h) in
  let '(w, cs, demoted) :=
    match mode with
    | Ro => (false, clients h, [])
    | Rw => (match writer with None => true | Some _ => false end, clients h, [])
    | Takeover =>
        match writer with
        | None => (true, clients h, [])
        | Some prev =>
            (true, List.map (demote prev) (clients h),
             List.map id (List.filter (fun c => id c =? prev) (clients h)))
        end
    end in
  let cs := cs ++ [mk_client i s w] in
  (mk_hub (hub_idx h) (scrollback h) cs (u64 (next_id h + 1)) (Z.of_nat (length cs)),
   mk_attach i w (u32 (Z.of_nat (length (scrollback h)))) demoted,
   scrollback h).

Definition detach (h : ConsoleHub) (i : Z) : ConsoleHub :=
  let cs := List.filter (fun c => negb (id c =? i)) (clients h) in
  mk_hub (hub_idx h) (scrollback h) cs (next_id h) (Z.of_nat (length cs)).

(** Append to the ring, dropping the oldest bytes: at most as many as it holds. *)
Definition append_scrollback (sb bytes : list Z) : list Z :=
  let overflow := saturating_sub (Z.of_nat (length sb + length bytes)) SCROLLBACK_BYTES in
  drop (Z.to_nat overflow) sb ++ bytes.

Fixpoint fan_out (cs : list Client) (bytes : list Z) : list Client * list Z :=
  match cs with
  | [] => ([], [])
  | c :: cs =>
      let '(s, ok) := send_all_dontwait (sock c) bytes in
      let '(kept, dropped) := fan_out cs bytes in
      if ok then (mk_client (id c) s (is_writer c) :: kept, dropped)
      else (kept, id c :: dropped)
  end.

Definition push_chip_output (h : ConsoleHub) (bytes : list Z) : ConsoleHub * list Z :=
  match bytes with
  | [] => (h, [])
  | _ =>
      let '(kept, dropped) := fan_out (clients h) bytes in
      let gauge := match dropped with [] => clients_gauge h | _ => Z.of_nat (length kept) end in
      (mk_hub (hub_idx h) (append_scrollback (scrollback h) bytes) kept (next_id h) gauge, dropped)
  end.

Definition client_count (h : ConsoleHub) : Z := Z.of_nat (length (clients h)).

Definition goodbye (reason : list Z) : list Z :=
  [13; 10] ++ chars "[bhx: " ++ reason ++ chars "]" ++ [13; 10].

(** The sockets are written once more, shut down and closed; they are returned
    so that what each client saw stays observable. *)
Definition disconnect_all_with_reason (h : ConsoleHub) (reason : list Z) : ConsoleHub * list Sock :=
  let g := goodbye reason in
  let closed := List.map (fun c =>
    let s := (send_all_dontwait (sock c) g).1 in mk_sock (script s) (delivered s) true) (clients h) in
  (mk_hub (hub_idx h) (append_scrollback (scrollback h) g) [] (next_id h) 0, closed).

Definition tail (h : ConsoleHub) (n : Z) : list Z :=
  let len := Z.of_nat (length (scrollback h)) in
  let take_n := Z.min n len in
  drop (Z.to_nat (len - take_n)) (scrollback h).

Definition clear_scrollback (h : ConsoleHub) : ConsoleHub :=
  mk_hub (hub_idx h) [] (clients h) (next_id h) (clients_gauge h).

(** ** Sending *)

Lemma send_loop_spec sc out bytes sc' out' ok :
  send_loop sc out bytes = (sc', out', ok) ->
  exists n, out' = out ++ take n bytes /\ (ok = true -> (length bytes <= n)%nat).
Proof.
  revert out bytes. induction sc as [|r sc IH]; intros out bytes; destruct bytes as [|b bs]; cbn.
  1, 3: intros; simplify_eq; exists 0%nat; by rewrite app_nil_r.
  { intros. simplify_eq. exists 0%nat. by rewrite app_nil_r. }
  destruct r as [n| |].
  - case_match eqn:En; [intros; simplify_eq; exists 0%nat; by rewrite app_nil_r|].
    intros H. apply IH in H as (k & -> & Hk).
    set (n' := Nat.min n (S (length bs))) in *.
    exists (n' + k)%nat. split.
    + rewrite <- app_assoc. f_equal. by rewrite take_take_drop.
    + intros Hok. apply Hk in Hok. rewrite length_drop in Hok. simpl in *. lia.
  - intros H. by apply IH in H.
  - intros. simplify_eq. exists 0%nat. by rewrite app_nil_r.
Qed.

(** A successful send delivered all the bytes, a failed one a prefix. *)
Lemma send_all_spec s bytes s' ok :
  send_all_dontwait s bytes = (s', ok) ->
  is_shutdown s' = is_shutdown s /\
  (ok = true -> delivered s' = delivered s ++ bytes) /\
  exists n, delivered s' = delivered s ++ take n bytes.
Proof.
  unfold send_all_dontwait. destruct (send_loop _ _ _) as [[sc out] k] eqn:E.
  intros. simplify_eq/=. apply send_loop_spec in E as (n & -> & Hn).
  split; [done|]. split; [|eauto]. intros Hok. by rewrite take_ge by auto.
Qed.

Lemma fan_out_spec cs bytes kept dropped :
  fan_out cs bytes = (kept, dropped) ->
  (length kept + length dropped = length cs)%nat /\
  (forall c', c' ∈ kept -> exists c, c ∈ cs /\ id c' = id c /\ is_writer c' = is_writer c /\
     delivered (sock c') = delivered (sock c) ++ bytes) /\
  sublist (List.map id kept) (List.map id cs) /\
  sublist (List.map is_writer kept) (List.map is_writer cs) /\
  (forall i, i ∈ List.map id cs -> i ∈ List.map id kept \/ i ∈ dropped).
Proof.
  revert kept dropped. induction cs as [|c cs IH]; cbn; intros kept dropped H.
  { simplify_eq/=. split_and!; auto using sublist_nil; intros ? Hin; inversion Hin. }
  destruct (send_all_dontwait (sock c) bytes) as [s ok] eqn:Es.
  destruct (fan_out cs bytes) as [k d] eqn:Ef.
  destruct (IH k d eq_refl) as (Hl & Hk & Hs1 & Hs2 & Hi).
  apply send_all_spec in Es as (_ & Hok & _).
  destruct ok; simplify_eq/=; split_and!; auto using sublist.
  - intros c' [->|Hin]%elem_of_cons.
    + exists c. split_and!; auto. left.
    + destruct (Hk c' Hin) as (c0 & ? & ?). exists c0. split; [by right|done].
  - intros i [->|Hin]%elem_of_cons; [left; left|]. destruct (Hi i Hin); [left; by right|auto].
  - lia.
  - intros c' Hin. destruct (Hk c' Hin) as (c0 & ? & ?). exists c0. split; [by right|done].
  - intros i [->|Hin]%elem_of_cons; [right; left|]. destruct (Hi i Hin); [auto|right; by right].
Qed.

(** ** The scrollback as the end of the output log *)

(** The last [n] elements. *)
Definition lastn {A} (n : nat) (l : list A) : list A := drop (length l - n) l.

Lemma lastn_app_lastn {A} n (l k : list A) :
  lastn n (lastn n l ++ k) = lastn n (l ++ k).
Proof.
  unfold lastn. rewrite !length_app, length_drop, !drop_app, drop_drop.
  rewrite !length_drop. f_equal.
  - f_equal. lia.
  - f_equal. lia.
Qed.

Definition SB : nat := Z.to_nat SCROLLBACK_BYTES.

Lemma append_scrollback_lastn sb bytes :
  Z.of_nat (length bytes) <= SCROLLBACK_BYTES ->
  append_scrollback sb bytes = lastn SB (sb ++ bytes).
Proof.
  intros H. unfold append_scrollback, lastn, SB, saturating_sub. rewrite length_app.
  replace (Z.to_nat (Z.max 0 (Z.of_nat (length sb + length bytes) - SCROLLBACK_BYTES)))
    with (length sb + length bytes - Z.to_nat SCROLLBACK_BYTES)%nat by lia.
  rewrite drop_app. replace (_ - _ - length sb)%nat with 0%nat by lia. done.
Qed.


Definition push_all (h : ConsoleHub) (pushes : list (list Z)) : ConsoleHub :=
  foldl (fun h b => (push_chip_output h b).1) h pushes.

Lemma push_scrollback h b :
  scrollback (push_chip_output h b).1 =
  match b with [] => scrollback h | _ => append_scrollback (scrollback h) b end.
Proof. unfold push_chip_output. destruct b; [done|]. by destruct (fan_out _ _). Qed.

(** The scrollback is a faithful window on the output: after any sequence
    of pushes, each of at most [SCROLLBACK_BYTES], a fresh hub holds exactly
    the last [SCROLLBACK_BYTES] bytes of the concatenated output, and [tail n]
    returns the last [n] of them. *)
Theorem scrollback_is_log_suffix idx g pushes n :
  Forall (fun b : list Z => Z.of_nat (length b) <= SCROLLBACK_BYTES) pushes -> 0 <= n ->
  let h := push_all (hub_new idx g) pushes in
  scrollback h = lastn SB (concat pushes) /\ tail h n = lastn (Z.to_nat n) (scrollback h).
Proof.
  intros Hp Hn h. split.
  - subst h. unfold push_all.
    assert (G : forall h0 log, scrollback h0 = lastn SB log ->
      scrollback (foldl (fun h b => (push_chip_output h b).1) h0 pushes) = lastn SB (log ++ concat pushes)).
    { induction Hp as [|b bs Hb Hbs IH]; intros h0 log H0; cbn [foldl concat].
      - by rewrite app_nil_r.
      - rewrite app_assoc. apply IH. rewrite push_scrollback.
        destruct b; [by rewrite app_nil_r|].
        rewrite append_scrollback_lastn, H0 by done. apply lastn_app_lastn. }
    exact (G (hub_new idx g) [] eq_refl).
  - unfold tail, lastn. cbv zeta. f_equal. lia.
Qed.

Lemma scrollback_is_log_suffix_witness :
  scrollback (push_all (hub_new 0 0) [[1; 2]; [3]]) = [1; 2; 3].
Proof.
  etransitivity; [apply (scrollback_is_log_suffix 0 0 [[1; 2]; [3]] 2)|vm_compute; reflexivity].
  - repeat constructor; vm_compute; discriminate.
  - lia.
Defined.

(** The bound on the ring is not enforced against the pushed chunk itself: a
    single push longer than [SCROLLBACK_BYTES] leaves the whole chunk in the
    ring, above the bound. *)
Theorem scrollback_bound_exceeded h bytes :
  SCROLLBACK_BYTES < Z.of_nat (length bytes) ->
  scrollback (push_chip_output h bytes).1 = bytes /\
  SCROLLBACK_BYTES < Z.of_nat (length (scrollback (push_chip_output h bytes).1)).
Proof.
  intros H. assert (E : scrollback (push_chip_output h bytes).1 = bytes).
  { rewrite push_scrollback. destruct bytes as [|b bs]; [simpl in H; unfold SCROLLBACK_BYTES in H; lia|].
    unfold append_scrollback, saturating_sub. rewrite drop_ge by lia. done. }
  rewrite E. done.
Qed.

Lemma scrollback_bound_exceeded_witness :
  scrollback (push_chip_output (hub_new 0 0) (replicate (Z.to_nat (SCROLLBACK_BYTES + 1)) 0)).1
  = replicate (Z.to_nat (SCROLLBACK_BYTES + 1)) 0.
Proof.
  apply (scrollback_bound_exceeded (hub_new 0 0) (replicate (Z.to_nat (SCROLLBACK_BYTES + 1)) 0)).
  rewrite length_replicate. unfold SCROLLBACK_BYTES. lia.
Defined.

(** ** Reachable hubs *)

Inductive hub_step : ConsoleHub -> ConsoleHub -> Prop :=
| step_attach h s mode : next_id h < U64_MAX -> hub_step h (attach h s mode).1.1
| step_detach h i : hub_step h (detach h i)
| step_push h bytes : hub_step h (push_chip_output h bytes).1
| step_disconnect h reason : hub_step h (disconnect_all_with_reason h reason).1
| step_clear h : hub_step h (clear_scrollback h).

Definition writers (cs : list Client) : list Client := List.filter is_writer cs.

Record hub_ok (h : ConsoleHub) : Prop := {
  ok_nodup : NoDup (List.map id (clients h));
  ok_fresh : Forall (fun i => 0 < i < next_id h) (List.map id (clients h));
  ok_writer : (length (writers (clients h)) <= 1)%nat;
  ok_gauge : clients_gauge h = Z.of_nat (length (clients h));
  ok_next : 0 < next_id h <= U64_MAX;
}.

Lemma writers_sublist cs cs' :
  sublist (List.map is_writer cs) (List.map is_writer cs') ->
  (length (writers cs) <= length (writers cs'))%nat.
Proof.
  unfold writers. revert cs. induction cs' as [|c cs' IH]; intros cs H.
  { apply sublist_nil_r in H. destruct cs; [simpl; lia|done]. }
  destruct cs as [|d cs]; [simpl; lia|]. cbn in *.
  apply sublist_cons_r in H as [H|(l & El & H)].
  - apply (IH (d :: cs)) in H. cbn in H. destruct (is_writer d), (is_writer c); simpl in *; lia.
  - simplify_eq. apply IH in H. rewrite <- H0. destruct (is_writer d); simpl; lia.
Qed.

Lemma filter_sublist {B} (f : Client -> B) p cs :
  sublist (List.map f (List.filter p cs)) (List.map f cs).
Proof. induction cs as [|c cs IH]; cbn; [constructor|]. destruct (p c); cbn; auto using sublist. Qed.

Lemma find_writer_spec cs :
  match find_writer cs with
  | None => writers cs = []
  | Some i => exists c ws, writers cs = c :: ws /\ id c = i /\ c ∈ cs
  end.
Proof.
  unfold find_writer, writers. induction cs as [|c cs IH]; cbn; [done|].
  destruct (is_writer c); cbn; [exists c; eexists; split_and!; auto; left|].
  destruct (List.find is_writer cs); [|done].
  destruct IH as (c1 & ws1 & ? & ? & ?). exists c1, ws1. split_and!; auto. by right.
Qed.

Lemma demote_ids prev cs : List.map id (List.map (demote prev) cs) = List.map id cs.
Proof. induction cs as [|c cs IH]; cbn; [done|]. rewrite IH. unfold demote. by case_match. Qed.

Lemma writers_cons c cs : writers (c :: cs) = if is_writer c then c :: writers cs else writers cs.
Proof. done. Qed.

Lemma writers_app cs ds : writers (cs ++ ds) = writers cs ++ writers ds.
Proof. apply List.filter_app. Qed.

Lemma demote_writers prev cs :
  Forall (fun c => id c = prev) (writers cs) -> writers (List.map (demote prev) cs) = [].
Proof.
  induction cs as [|c cs IH]; [done|]. cbn [List.map]. rewrite !writers_cons. intros H.
  unfold demote at 1. destruct (is_writer c) eqn:Ew.
  - apply Forall_cons in H as [Hi H]. apply Z.eqb_eq in Hi. rewrite Hi. cbn. by apply IH.
  - destruct (id c =? prev); cbn; rewrite ?Ew; by apply IH.
Qed.

Lemma filter_id_none cs i :
  i ∉ List.map id cs -> List.filter (fun c => id c =? i) cs = [].
Proof.
  induction cs as [|c cs IH]; cbn; [done|]. rewrite not_elem_of_cons. intros [Hne Hn].
  destruct (Z.eqb_spec (id c) i); [congruence|auto].
Qed.

Lemma filter_id_unique cs c :
  NoDup (List.map id cs) -> c ∈ cs -> List.map id (List.filter (fun d => id d =? id c) cs) = [id c].
Proof.
  induction cs as [|d cs IH]; cbn; intros Hnd Hin; [inversion Hin|].
  apply NoDup_cons in Hnd as [Hn Hnd]. apply elem_of_cons in Hin as [->|Hin].
  - rewrite Z.eqb_refl. cbn. by rewrite filter_id_none.
  - destruct (Z.eqb_spec (id d) (id c)) as [E|E]; [|by apply IH].
    exfalso. apply Hn. rewrite E. by apply list_elem_of_map.
Qed.

(** The clients of a hub after the mode decision of an attach. *)
Lemma attach_shape h s mode :
  hub_ok h ->
  exists cs w demoted, attach h s mode =
    (mk_hub (hub_idx h) (scrollback h) (cs ++ [mk_client (next_id h) s w]) (u64 (next_id h + 1))
       (Z.of_nat (length (cs ++ [mk_client (next_id h) s w]))),
     mk_attach (next_id h) w (u32 (Z.of_nat (length (scrollback h)))) demoted, scrollback h) /\
    List.map id cs = List.map id (clients h) /\
    (length (writers cs) + (if w then 1 else 0) <= 1)%nat /\
    (mode = Takeover -> w = true /\ writers cs = [] /\
       demoted = match find_writer (clients h) with Some i => [i] | None => [] end) /\
    (mode = Rw -> w = true <-> find_writer (clients h) = None) /\ (mode = Ro -> w = false) /\
    (mode <> Takeover -> cs = clients h /\ demoted = []).
Proof.
  intros [Hnd _ Hw _ _]. unfold attach. pose proof (find_writer_spec (clients h)) as Hf.
  destruct mode.
  - eexists _, _, _. split; [reflexivity|]. split_and!; try done. simpl. lia.
  - destruct (find_writer (clients h)); eexists _, _, _; (split; [reflexivity|]); split_and!; try done.
    + simpl. lia.
    + rewrite Hf. done.
  - destruct (find_writer (clients h)) as [prev|].
    + destruct Hf as (c & ws & Ews & Hc & Hin).
      assert (Hd : writers (List.map (demote prev) (clients h)) = []).
      { apply demote_writers. rewrite Ews in *. destruct ws; [auto|simpl in Hw; lia]. }
      eexists _, _, _. split; [reflexivity|]. rewrite Hd. split_and!; try done; [apply demote_ids|].
      intros _. split_and!; auto.
      subst prev. by apply filter_id_unique.
    + eexists _, _, _. split; [reflexivity|]. rewrite Hf. split_and!; try done.
Qed.

Lemma fresh_step h (l : list Z) :
  0 < next_id h < U64_MAX -> Forall (fun i => 0 < i < next_id h) l ->
  Forall (fun i => 0 < i < u64 (next_id h + 1)) (l ++ [next_id h]).
Proof.
  intros Hn Hl. assert (u64 (next_id h + 1) = next_id h + 1) as ->.
  { unfold u64, U64_MAX in *. apply wrap_small. unfold fits. lia. }
  apply Forall_app. split; [|repeat constructor; lia].
  eapply Forall_impl; [exact Hl|]. cbn. lia.
Qed.

Lemma hub_step_ok h h' : hub_ok h -> hub_step h h' -> hub_ok h'.
Proof.
  intros Hok Hs. pose proof Hok as [Hnd Hf Hw Hg Hn]. inversion Hs; subst; clear Hs.
  - destruct (attach_shape h s mode Hok) as (cs & w & dm & -> & Hids & Hwr & _). cbn.
    assert (Eu : u64 (next_id h + 1) = next_id h + 1).
    { unfold u64, U64_MAX in *. apply wrap_small. unfold fits. lia. }
    constructor; cbn; rewrite ?map_app, ?Hids; cbn; auto.
    + apply NoDup_app. split_and!; [done| |apply NoDup_singleton].
      intros x Hx ->%list_elem_of_singleton. rewrite Forall_forall in Hf. apply Hf in Hx. lia.
    + apply fresh_step; [lia|done].
    + rewrite writers_app, length_app. destruct w; simpl in *; lia.
    + rewrite Eu. lia.
  - constructor; cbn; auto.
    + eapply sublist_NoDup; [exact Hnd|apply filter_sublist].
    + eapply sublist_Forall; [apply filter_sublist|done].
    + etransitivity; [apply writers_sublist, filter_sublist|done].
  - unfold push_chip_output. destruct bytes as [|b bs]; [done|].
    destruct (fan_out (clients h) (b :: bs)) as [kept dropped] eqn:E. cbn.
    apply fan_out_spec in E as (Hl & _ & Hs1 & Hs2 & _).
    constructor; cbn; eauto using sublist_NoDup, sublist_Forall.
    + etransitivity; [by apply writers_sublist|done].
    + destruct dropped; [simpl in *; lia|done].
  - constructor; cbn; auto using NoDup_nil_2.
  - by constructor.
Qed.

Lemma hub_new_ok idx : hub_ok (hub_new idx 0).
Proof. constructor; cbn; try done; [apply NoDup_nil_2|lia]. Qed.

(** C15: in every hub reachable from a new one by attaches, detaches, pushes,
    disconnects and clears (fewer than 2^64 attaches, so that ids do not wrap),
    client ids are distinct and below [next_id], at
    most one client is the writer, and the client gauge is the client count. *)
Theorem hub_reachable_ok idx h : rtc hub_step (hub_new idx 0) h -> hub_ok h.
Proof.
  intros H. pose proof (hub_new_ok idx) as Hok. revert Hok.
  induction H; eauto using hub_step_ok.
Qed.

Lemma hub_reachable_ok_witness : hub_ok (attach (hub_new 2 0) (mk_sock [] [] false) Rw).1.1.
Proof. apply (hub_reachable_ok 2), rtc_once, step_attach. vm_compute. reflexivity. Defined.

(** The writer role. A read-only attach never becomes the writer, a
    read-write attach does exactly when there is none, and a takeover always
    does: the new client is then the only writer and the previous writer, if
    any, is the one reported as demoted. Every attach hands out the whole
    scrollback. *)
Theorem attach_writer h s mode h' r sb :
  hub_ok h -> attach h s mode = (h', r, sb) ->
  sb = scrollback h /\ ar_id r = next_id h /\
  (mode = Ro -> ar_is_writer r = false /\ current_writer_id h' = current_writer_id h) /\
  (mode = Rw -> ar_is_writer r = true <-> current_writer_id h = None) /\
  (mode = Takeover -> ar_is_writer r = true /\ current_writer_id h' = Some (next_id h) /\
     ar_demoted r = match current_writer_id h with Some i => [i] | None => [] end) /\
  (mode <> Takeover -> ar_demoted r = []).
Proof.
  intros Hok Ha.
  destruct (attach_shape h s mode Hok) as (cs & w & dm & E & Hids & Hwr & Ht & Hrw & Hro & Hno).
  rewrite E in Ha. simplify_eq/=. unfold current_writer_id, find_writer. cbn. split_and!; auto.
  - intros ->. specialize (Hro eq_refl) as ->. destruct Hno as [-> ->]; [done|]. split; [done|].
    assert (G : forall l x, is_writer x = false -> List.find is_writer (l ++ [x]) = List.find is_writer l).
    { induction l as [|y l IH]; intros x Hx; cbn; [by rewrite Hx|]. destruct (is_writer y); auto. }
    by rewrite G.
  - intros Hm. destruct (Ht Hm) as (-> & Hws & ->). split_and!; auto.
    assert (G : forall l x, writers l = [] -> is_writer x = true -> List.find is_writer (l ++ [x]) = Some x).
    { induction l as [|y l IH]; intros x Hl Hx; cbn; [by rewrite Hx|].
      rewrite writers_cons in Hl. destruct (is_writer y); [done|auto]. }
    by rewrite G.
  - intros Hm. by destruct (Hno Hm).
Qed.

Lemma attach_writer_witness :
  current_writer_id (attach (attach (hub_new 0 0) (mk_sock [] [] false) Rw).1.1
                       (mk_sock [] [] false) Takeover).1.1 = Some 2.
Proof.
  set (h := (attach (hub_new 0 0) (mk_sock [] [] false) Rw).1.1).
  destruct (attach h (mk_sock [] [] false) Takeover) as [[h' r] sb] eqn:E.
  apply (attach_writer h (mk_sock [] [] false) Takeover h' r sb); [|exact E|reflexivity].
  apply (hub_step_ok (hub_new 0 0)); [apply hub_new_ok|].
  apply step_attach. vm_compute. reflexivity.
Defined.

(** One push reaches every client exactly once or drops it: the clients that
    stay attached have each received exactly the pushed bytes, every other
    client is reported as dropped, and no client appears from nowhere. *)
Theorem push_delivers h bytes h' dropped :
  bytes <> [] -> push_chip_output h bytes = (h', dropped) ->
  (forall c', c' ∈ clients h' -> exists c, c ∈ clients h /\ id c' = id c /\
     is_writer c' = is_writer c /\ delivered (sock c') = delivered (sock c) ++ bytes) /\
  (forall c, c ∈ clients h -> id c ∈ List.map id (clients h') \/ id c ∈ dropped) /\
  Z.of_nat (length (clients h')) + Z.of_nat (length dropped) = Z.of_nat (length (clients h)).
Proof.
  intros Hb. unfold push_chip_output. destruct bytes as [|b bs]; [done|].
  destruct (fan_out (clients h) (b :: bs)) as [kept d] eqn:E. intros. simplify_eq/=.
  apply fan_out_spec in E as (Hl & Hk & _ & _ & Hi). split_and!; [auto| |lia].
  intros c Hc. apply Hi. by apply list_elem_of_map.
Qed.

Lemma push_delivers_witness :
  exists c, c ∈ clients (push_chip_output
      (attach (hub_new 0 0) (mk_sock [Sent 1; Interrupted; Sent 9] [] false) Ro).1.1 [5; 6; 7]).1
    /\ delivered (sock c) = [5; 6; 7].
Proof.
  set (h := (attach (hub_new 0 0) (mk_sock [Sent 1; Interrupted; Sent 9] [] false) Ro).1.1).
  destruct (push_chip_output h [5; 6; 7]) as [h' d] eqn:E.
  assert (Hin : mk_client 1 (mk_sock [] [5; 6; 7] false) false ∈ clients h')
    by (vm_compute in E; injection E as <- <-; left).
  destruct (proj1 (push_delivers h [5; 6; 7] h' d ltac:(discriminate) E) _ Hin) as (c & _ & _ & _ & Hd).
  exists (mk_client 1 (mk_sock [] [5; 6; 7] false) false). split; [exact Hin|reflexivity].
Defined.
