(* ===== verification/VirtioConsole.v ===== *)
(** The virtio console of [src/virtio/console.rs]: a receive queue fed from the
    keystroke buffer and a transmit queue that pushes into the [ConsoleHub] of
    the L2CPU, both of which the device shares with the daemon. *)

From S2P Require Import Prelude Layout Virtqueue ConsoleHub.

Definition RX_QUEUE : Z := 0.
Definition TX_QUEUE : Z := 1.
Definition RX_BUFFER_CAP : Z := 16 * 1024.

(** ** The console device *)

Record VirtioConsole := mk_console {
  vc_hub : ConsoleHub;
  input_buf : list Z;
  tx_buf : list Z;
}.

Definition console_new (hub : ConsoleHub) (input : list Z) : VirtioConsole := mk_console hub input [].

Definition con_start (d : VirtioConsole) (m : gmap Z Z) (q addr len : Z)
    : option (VirtioConsole * gmap Z Z) :=
  if q =? TX_QUEUE
  then Some (mk_console (vc_hub d) (input_buf d) (read_bytes m addr (Z.to_nat len)), m)
  else Some (d, m).

Definition con_data (d : VirtioConsole) (m : gmap Z Z) (q addr len : Z)
    : option (VirtioConsole * gmap Z Z) :=
  if q =? TX_QUEUE
  then Some (mk_console (vc_hub d) (input_buf d) (tx_buf d ++ read_bytes m addr (Z.to_nat len)), m)
  else Some (d, m).

(** The RX loop: pop from the keystroke buffer until it or the buffer ends. *)
Fixpoint rx_loop (room : nat) (input : list Z) (m : gmap Z Z) (addr : Z) : list Z * gmap Z Z * Z :=
  match room, input with
  | S room, b :: input =>
      let '(rest, m, n) := rx_loop room input (wr8 m addr b) (addr + 1) in (rest, m, 1 + n)
  | _, _ => (input, m, 0)
  end.

Definition con_complete (d : VirtioConsole) (m : gmap Z Z) (q addr len : Z)
    : option (VirtioConsole * gmap Z Z * Z) :=
  if q =? TX_QUEUE then
    match tx_buf d with
    | _ :: _ =>
        Some (mk_console (push_chip_output (vc_hub d) (tx_buf d)).1 (input_buf d) [], m, len)
    | [] =>
        if 0 <? len then
          let bytes := read_bytes m addr (Z.to_nat len) in
          Some (mk_console (push_chip_output (vc_hub d) bytes).1 (input_buf d) (tx_buf d), m, len)
        else Some (d, m, len)
    end
  else
    let '(rest, m', written) := rx_loop (Z.to_nat len) (input_buf d) m addr in
    Some (mk_console (vc_hub d) rest (tx_buf d), m', written).

Definition con_has_data (d : VirtioConsole) (q : Z) : bool :=
  if q =? TX_QUEUE then true
  else if q =? RX_QUEUE then (match input_buf d with [] => false | _ => true end)
  else false.

(** cols, rows, max_nr_ports, emerg_wr: twelve zero bytes. *)
Definition con_init_config (_ : VirtioConsole) (m : gmap Z Z) (config : Z) : gmap Z Z :=
  wr32 (wr32 (wr16 (wr16 m config 0) (config + 2) 0) (config + 4) 0) (config + 8) 0.

#[export] Instance ConsoleImpl : VirtioDeviceImpl VirtioConsole := {|
  num_queues _ := 2;
  queue_header_size _ := 0;
  device_id _ := VIRTIO_ID_CONSOLE;
  device_features _ := (0, 1);
  process_queue_start := con_start;
  process_queue_data := con_data;
  process_queue_complete := con_complete;
  queue_has_data := con_has_data;
  init_config := con_init_config;
|}.

Lemma rx_loop_spec room input m addr :
  let n := Nat.min room (length input) in
  rx_loop room input m addr = (drop n input, write_bytes m addr (take n input), Z.of_nat n).
Proof.
  revert input m addr. induction room as [|room IH]; intros [|b input] m addr; try done.
  cbn. rewrite IH. cbn. do 2 f_equal. lia.
Qed.

#[export] Instance ConsoleLaws : DeviceLaws VirtioConsole.
Proof.
  refine {| dev_slack := 0 |}; cbn.
  - intros d m q a len d' m'. unfold con_start. case_match; intros; simplify_eq; apply frame_refl.
  - intros d m q a len d' m'. unfold con_data. case_match; intros; simplify_eq; apply frame_refl.
  - intros d m q a len d' m' n. unfold con_complete. rewrite rx_loop_spec.
    repeat case_match; intros; simplify_eq; try apply frame_refl.
    intros x Hx. apply rd8_write_bytes_out. rewrite length_take. lia.
Defined.

(** Completing a receive buffer hands the guest the oldest keystrokes and no
    byte is lost or duplicated: the bytes written at the buffer, whose number
    is the returned count, followed by what stays queued, are the queued input;
    the count never exceeds the buffer. *)
Theorem console_rx d m q addr len :
  q <> TX_QUEUE -> 0 <= len ->
  exists d' m' n, con_complete d m q addr len = Some (d', m', n) /\ 0 <= n <= len /\
    read_bytes m' addr (Z.to_nat n) ++ input_buf d' = input_buf d /\
    (n < len -> input_buf d' = []) /\ frame m m' addr n /\
    vc_hub d' = vc_hub d.
Proof.
  intros Hq Hl. unfold con_complete. apply Z.eqb_neq in Hq. rewrite Hq, rx_loop_spec. cbv zeta.
  set (n := Nat.min (Z.to_nat len) (length (input_buf d))).
  eexists _, _, _. split; [reflexivity|]. cbn. rewrite Nat2Z.id.
  assert (length (take n (input_buf d)) = n) as Hn by (rewrite length_take; lia).
  split_and!; try lia; try done.
  - rewrite read_write_bytes_len by done. apply take_drop.
  - intros. apply drop_ge. lia.
  - intros x Hx. apply rd8_write_bytes_out. lia.
Qed.

Lemma console_rx_witness :
  exists d' m' n, con_complete (console_new (hub_new 0 0) [97; 98; 99]) ∅ RX_QUEUE 64 8 = Some (d', m', n)
    /\ read_bytes m' 64 (Z.to_nat n) ++ input_buf d' = [97; 98; 99].
Proof.
  destruct (console_rx (console_new (hub_new 0 0) [97; 98; 99]) ∅ RX_QUEUE 64 8)
    as (d' & m' & n & H1 & _ & H2 & _).
  - discriminate.
  - lia.
  - exists d', m', n. split; [exact H1|exact H2].
Defined.

(** The buffers of a chain, in order. *)
Definition chain_bytes (m : gmap Z Z) (ds : list VringDesc) : list Z :=
  concat (List.map (fun d => read_bytes m (vd_addr d) (Z.to_nat (vd_len d))) ds).

Lemma console_tx_run q d m b ds last :
  q_idx q = TX_QUEUE -> q_hdr q = 0 -> 0 <= b -> Forall (fun d => 0 <= vd_len d) ds ->
  exists w, run_request q d m b (ds ++ [last]) = Some w /\ w_mem w = m /\ tx_buf (w_dev w) = [] /\
    vc_hub (w_dev w) = (push_chip_output (vc_hub d)
      (match tx_buf d ++ chain_bytes m ds with
       | [] => read_bytes m (vd_addr last) (Z.to_nat (vd_len last))
       | sent => sent end)).1.
Proof.
  intros Hq Hh. revert d b. induction ds as [|x ds IH]; intros d b Hb Hds; cbn [app].
  - cbn. unfold con_complete. rewrite Hq, Z.eqb_refl, app_nil_r.
    destruct (tx_buf d) as [|c cs] eqn:Et; [|by eexists].
    destruct (Z.ltb_spec 0 (vd_len last)); [by eexists|].
    eexists. split; [reflexivity|]. cbn. replace (Z.to_nat (vd_len last)) with 0%nat by lia. done.
  - apply Forall_cons in Hds as [Hx Hds]. rewrite run_request_cons by (by destruct ds).
    rewrite Hh. destruct (Z.ltb_spec b 0); [lia|].
    cbn [process_queue_data ConsoleImpl]. unfold con_data. rewrite Hq, Z.eqb_refl. cbv iota beta.
    set (d1 := mk_console _ _ _). set (b1 := u64 _).
    assert (Hb1 : 0 <= b1) by (pose proof (wrap_fits 64 (b + vd_len x)) as []; [lia|done]).
    destruct (IH d1 b1 Hb1 Hds) as (w & Hw & Hm & Ht & Hv). exists w. split; [exact Hw|].
    split_and!; auto. rewrite Hv. cbn [vc_hub tx_buf]. unfold chain_bytes. cbn. by rewrite app_assoc.
Qed.

(** A transmit chain of one buffer reaches the console hub whole. A chain of
    several buffers loses its last one: when the earlier buffers hold any byte,
    the hub receives exactly their bytes and the final buffer is dropped. *)
Theorem console_tx_last_buffer q d m ds last :
  q_idx q = TX_QUEUE -> q_hdr q = 0 -> tx_buf d = [] -> Forall (fun d => 0 <= vd_len d) ds ->
  exists w, run_request q d m 0 (ds ++ [last]) = Some w /\
    (ds = [] -> vc_hub (w_dev w) = (push_chip_output (vc_hub d) (chain_bytes m [last])).1) /\
    (chain_bytes m ds <> [] -> vc_hub (w_dev w) = (push_chip_output (vc_hub d) (chain_bytes m ds)).1).
Proof.
  intros Hq Hh Ht Hds. destruct (console_tx_run q d m 0 ds last) as (w & Hw & _ & _ & Hv); [done..|].
  exists w. split; [exact Hw|]. rewrite Ht in Hv. rewrite Hv. split.
  - intros ->. unfold chain_bytes. cbn. by rewrite app_nil_r.
  - intros Hne. simpl. by destruct (chain_bytes m ds).
Qed.

(** Two buffers "ab" and "cd": the hub gets "ab". *)
Lemma console_tx_last_buffer_witness :
  exists w, run_request (mk_queue 0 0 0 TX_QUEUE 0 8 0 0x1000) (console_new (hub_new 0 0) [])
      (write_bytes ∅ 0x100 [97; 98; 99; 100]) 0 [mk_desc 0x100 2 1 1; mk_desc 0x102 2 0 0] = Some w
    /\ scrollback (vc_hub (w_dev w)) = [97; 98].
Proof.
  destruct (console_tx_last_buffer (mk_queue 0 0 0 TX_QUEUE 0 8 0 0x1000) (console_new (hub_new 0 0) [])
    (write_bytes ∅ 0x100 [97; 98; 99; 100]) [mk_desc 0x100 2 1 1] (mk_desc 0x102 2 0 0))
    as (w & H1 & _ & H2).
  - reflexivity.
  - reflexivity.
  - reflexivity.
  - repeat constructor. vm_compute. discriminate.
  - exists w. split; [exact H1|]. rewrite H2 by (vm_compute; discriminate). vm_compute. reflexivity.
Defined.
