(* ===== verification/VirtioNet.v ===== *)
(** The virtio network device of [src/virtio/network.rs].

    libslirp is foreign code: what it will deliver is the list [inbox] of the
    results of the coming receive calls (its descriptor is readable while that
    list is not empty), and what the device hands to it is the list [outbox].
    A send that fails is only logged by the code, so [outbox] holds every frame
    passed to the send call.  An index out of range is a panic, [None]. *)

From S2P Require Import Prelude Layout Text Virtqueue VirtioConsole.

Definition PACKET_SIZE : nat := 1514.
Definition VIRTIO_NET_HDR_F_NEEDS_CSUM : Z := 1.

Definition format_dhcp_hostname (card idx : Z) : list Z :=
  chars "bhx-card" ++ show_dec card ++ chars "-l2cpu" ++ show_dec idx.

Definition derive_mac (card idx : Z) : list Z :=
  [0x02; 0x00; u8 (Z.land card 0xff); u8 (Z.land (Z.shiftr card 8) 0xff); idx; 0x00].

Definition write_mac_into_config (mac : list Z) (m : gmap Z Z) (config : Z) : gmap Z Z :=
  write_bytes m config mac.

(** ** The transport checksum *)

Definition be16 (buf : list Z) (i : nat) : option Z :=
  let! a := buf !! i in let! b := buf !! S i in Some (a * 256 + b).

(** Where the segment and its checksum field are. *)
Record L4 := mk_l4 { l4_proto : Z; l4_off : nat; l4_len : nat; csum_field_off : nat }.

(** The guards: [Some None] is an early return. *)
Definition l4_layout (buf : list Z) : option (option L4) :=
  if (length buf <? 14 + 20)%nat then Some None
  else
    let! etype := be16 buf 12 in
    if negb (etype =? 0x0800) then Some None
    else
      let ip_hdr_off := 14%nat in
      let! vi := buf !! ip_hdr_off in
      if negb (Z.shiftr vi 4 =? 4) then Some None
      else
        let ihl := (Z.to_nat (Z.land vi 0x0f) * 4)%nat in
        if (ihl <? 20)%nat || (length buf <? ip_hdr_off + ihl)%nat then Some None
        else
          let! tl := be16 buf (ip_hdr_off + 2) in
          let total_len := Z.to_nat tl in
          if (total_len <? ihl)%nat || (length buf <? ip_hdr_off + total_len)%nat then Some None
          else
            let! proto := buf !! (ip_hdr_off + 9)%nat in
            match (if proto =? 6 then Some (ip_hdr_off + ihl + 16)%nat
                   else if proto =? 17 then Some (ip_hdr_off + ihl + 6)%nat
                   else None) with
            | None => Some None
            | Some off =>
                if (length buf <? off + 2)%nat then Some None
                else Some (Some (mk_l4 proto (ip_hdr_off + ihl) (total_len - ihl) off))
            end.

(** The loop over the segment, two bytes at a time, an odd byte padded. *)
Fixpoint sum_words (sum : Z) (l : list Z) : Z :=
  match l with
  | a :: b :: l => sum_words (u32 (sum + (a * 256 + b))) l
  | [a] => u32 (sum + u32 (Z.shiftl a 8))
  | [] => sum
  end.

Fixpoint fold16 (fuel : nat) (sum : Z) : option Z :=
  if 0xFFFF <? sum then
    match fuel with
    | O => None
    | S fuel => fold16 fuel (u32 (Z.shiftr sum 16 + Z.land sum 0xFFFF))
    end
  else Some sum.

(** The addresses of the pseudo-header. *)
Definition pseudo_sum (buf : list Z) : option Z :=
  let! a := be16 buf 26 in
  let! b := be16 buf 30 in
  let! c := be16 buf 28 in
  let! d := be16 buf 32 in
  Some (u32 (u32 (u32 (a + b) + c) + d)).

(** Two folds are enough for a 32-bit sum. *)
Definition fix_tx_l4_checksum (buf : list Z) : option (list Z) :=
  let! layout := l4_layout buf in
  match layout with
  | None => Some buf
  | Some L =>
      let off := csum_field_off L in
      let buf := <[S off := 0]> (<[off := 0]> buf) in
      let! ph := pseudo_sum buf in
      let sum := u32 (u32 (ph + l4_proto L) + Z.of_nat (l4_len L)) in
      let l4 := take (l4_len L) (drop (l4_off L) buf) in
      let! sum := fold16 2 (sum_words sum l4) in
      let checksum := u16 (Z.lnot (u16 sum)) in
      let checksum := if (l4_proto L =? 17) && (checksum =? 0) then 0xFFFF else checksum in
      Some (<[S off := Z.land checksum 0xff]> (<[off := Z.shiftr checksum 8]> buf))
  end.

(** ** The device *)

Inductive RecvRet := Packet (bytes : list Z) | RecvFailed.

Record NetMetrics := mk_net_metrics { nm_rx_packets : Z; nm_rx_bytes : Z; nm_tx_packets : Z; nm_tx_bytes : Z }.

Record VirtioNet := mk_net {
  inbox : list RecvRet;
  outbox : list (list Z);
  net_buffer : list Z;
  header_processed : bool;
  tx_needs_csum : bool;
  tx_offset : nat;
  net_mac : list Z;
  net_hostname : list Z;
  net_forwards : list (Z * Z);
  net_metrics : NetMetrics;
}.

(** The header structure: flags, gso_type, hdr_len, gso_size, csum_start,
    csum_offset, num_buffers. *)
Definition net_hdr_size : Z := 12.

(** [opened] is whether libslirp gave an instance. *)
Definition virtio_net_new (opened : bool) (pending : list RecvRet) (mt : NetMetrics)
    (forwards : list (Z * Z)) (card idx : Z) (hostname_override : option (list Z)) : option VirtioNet :=
  if opened then
    Some (mk_net pending [] (replicate PACKET_SIZE 0) false false 0 (derive_mac card idx)
            (match hostname_override with Some h => h | None => format_dhcp_hostname card idx end)
            forwards mt)
  else None.

Definition set_tx (d : VirtioNet) (buf : list Z) (hp csum : bool) (off : nat) : VirtioNet :=
  mk_net (inbox d) (outbox d) buf hp csum off (net_mac d) (net_hostname d) (net_forwards d) (net_metrics d).

(** [copy_nonoverlapping] into the frame buffer. *)
Definition write_at (buf : list Z) (off : nat) (bytes : list Z) : list Z :=
  take off buf ++ bytes ++ drop (off + length bytes) buf.

Definition net_start (d : VirtioNet) (m : gmap Z Z) (q addr len : Z) : option (VirtioNet * gmap Z Z) :=
  if q =? 0 then
    let m := wr8 m addr 0 in
    let m := wr16 m (addr + 10) 1 in
    let m := wr8 m (addr + 1) 0 in
    let m := wr16 m (addr + 4) 0 in
    Some (set_tx d (net_buffer d) true (tx_needs_csum d) (tx_offset d), m)
  else if q =? 1 then
    let flags := rd8 m addr in
    let csum := negb (Z.land flags VIRTIO_NET_HDR_F_NEEDS_CSUM =? 0) in
    if net_hdr_size <? len then
      let copy_len := Nat.min (Z.to_nat (len - net_hdr_size)) PACKET_SIZE in
      let bytes := read_bytes m (addr + net_hdr_size) copy_len in
      Some (set_tx d (write_at (net_buffer d) 0 bytes) true csum copy_len, m)
    else Some (set_tx d (net_buffer d) true csum 0, m)
  else Some (set_tx d (net_buffer d) true (tx_needs_csum d) (tx_offset d), m).

(** Append one buffer to the frame, as far as it has room. *)
Definition append_tx (d : VirtioNet) (m : gmap Z Z) (addr len : Z) : VirtioNet :=
  let copy_len := Nat.min (Z.to_nat len) (PACKET_SIZE - tx_offset d) in
  let bytes := read_bytes m addr copy_len in
  set_tx d (write_at (net_buffer d) (tx_offset d) bytes) (header_processed d) (tx_needs_csum d)
    (tx_offset d + copy_len).

Definition net_data (d : VirtioNet) (m : gmap Z Z) (q addr len : Z) : option (VirtioNet * gmap Z Z) :=
  if q =? 1 then Some (append_tx d m addr len, m) else Some (d, m).

(** The receive completion, once the header is in place. *)
Definition net_recv (d : VirtioNet) (m : gmap Z Z) (data_addr data_len : Z) : VirtioNet * gmap Z Z :=
  let max_copy := Nat.min (Z.to_nat data_len) PACKET_SIZE in
  match inbox d with
  | Packet bytes :: rest =>
      let got := take max_copy bytes in
      let buf := write_at (net_buffer d) 0 got in
      let mt := net_metrics d in
      let n := length got in
      let mt := if (0 <? n)%nat then
          mk_net_metrics (u64 (nm_rx_packets mt + 1)) (u64 (nm_rx_bytes mt + Z.of_nat n))
            (nm_tx_packets mt) (nm_tx_bytes mt)
        else mt in
      (mk_net rest (outbox d) buf (header_processed d) (tx_needs_csum d) (tx_offset d) (net_mac d)
         (net_hostname d) (net_forwards d) mt, write_bytes m data_addr got)
  | RecvFailed :: rest =>
      (mk_net rest (outbox d) (net_buffer d) (header_processed d) (tx_needs_csum d) (tx_offset d)
         (net_mac d) (net_hostname d) (net_forwards d) (net_metrics d), m)
  | [] => (d, m)
  end.

(** The transmit completion, once the frame is in the buffer. *)
Definition net_send (d : VirtioNet) : option VirtioNet :=
  let total_len := tx_offset d in
  let frame := take total_len (net_buffer d) in
  let! frame := (if tx_needs_csum d then fix_tx_l4_checksum frame else Some frame) in
  let mt := net_metrics d in
  Some (mk_net (inbox d) (outbox d ++ [frame]) (write_at (net_buffer d) 0 frame) (header_processed d)
          false 0 (net_mac d) (net_hostname d) (net_forwards d)
          (mk_net_metrics (nm_rx_packets mt) (nm_rx_bytes mt) (u64 (nm_tx_packets mt + 1))
             (u64 (nm_tx_bytes mt + Z.of_nat total_len)))).

Definition clear_header (d : VirtioNet) : VirtioNet :=
  set_tx d (net_buffer d) false (tx_needs_csum d) (tx_offset d).

Definition net_complete (d : VirtioNet) (m : gmap Z Z) (q addr len : Z)
    : option (VirtioNet * gmap Z Z * Z) :=
  if q =? 0 then
    if header_processed d then
      let '(d, m) := net_recv d m addr len in Some (clear_header d, m, len)
    else
      let! (d, m) := net_start d m q addr len in
      let '(d, m) := net_recv d m (addr + net_hdr_size) (saturating_sub len net_hdr_size) in
      Some (clear_header d, m, len)
  else if q =? 1 then
    let! (d, m) := (if header_processed d then Some (append_tx d m addr len, m)
                    else net_start d m q addr len) in
    let! d := net_send d in
    Some (clear_header d, m, len)
  else Some (clear_header d, m, len).

#[export] Instance NetImpl : VirtioDeviceImpl VirtioNet := {|
  num_queues _ := 2;
  queue_header_size _ := net_hdr_size;
  device_id _ := VIRTIO_ID_NET;
  device_features _ := (VIRTIO_NET_F_MAC_BIT, 1);
  process_queue_start := net_start;
  process_queue_data := net_data;
  process_queue_complete := net_complete;
  queue_has_data d q := if q =? 0 then (match inbox d with [] => false | _ => true end) else true;
  init_config d m config := write_mac_into_config (net_mac d) m config;
|}.

(** ** The laws of the framework *)

Lemma write_frame_in m a l b n :
  b <= a -> a + Z.of_nat (length l) <= b + n -> frame m (write_bytes m a l) b n.
Proof. intros ? ? x Hx. apply rd8_write_bytes_out. lia. Qed.

Lemma wr16_frame_in m a v b n : b <= a -> a + 2 <= b + n -> frame m (wr16 m a v) b n.
Proof. intros. unfold wr16. apply write_frame_in; rewrite ?length_le_bytes; simpl; lia. Qed.

Lemma wr8_frame_in m a v b n : b <= a -> a + 1 <= b + n -> frame m (wr8 m a v) b n.
Proof. intros ? ? x Hx. apply rd8_wr8_ne. lia. Qed.

Lemma net_start_frame d m q a len d' m' :
  net_start d m q a len = Some (d', m') -> frame m m' a (Z.max len net_hdr_size).
Proof.
  unfold net_start, net_hdr_size. repeat case_match; intros; simplify_eq; try apply frame_refl.
  eapply frame_trans; [|apply wr16_frame_in; lia]. eapply frame_trans; [|apply wr8_frame_in; lia].
  eapply frame_trans; [|apply wr16_frame_in; lia]. apply wr8_frame_in; lia.
Qed.

Lemma net_recv_frame d m a len b n :
  b <= a -> a + Z.max len 0 <= b + n -> frame m (net_recv d m a len).2 b n.
Proof.
  intros. unfold net_recv. destruct (inbox d) as [|[bytes|] rest]; simpl; try apply frame_refl.
  apply write_frame_in; [done|]. rewrite length_take. lia.
Qed.

#[export] Instance NetDeviceLaws : DeviceLaws VirtioNet.
Proof.
  refine {| dev_slack := net_hdr_size |}.
  - apply net_start_frame.
  - cbn. unfold net_data. intros. case_match; simplify_eq; apply frame_refl.
  - cbn. intros d m q a len d' m' n. unfold net_complete. destruct (q =? 0).
    + destruct (header_processed d).
      * pose proof (net_recv_frame d m a len a (Z.max len net_hdr_size)) as Hf.
        destruct (net_recv d m a len) as [d1 m1]. intros [= _ <- _]. apply Hf; unfold net_hdr_size; lia.
      * destruct (net_start d m q a len) as [[d1 m1]|] eqn:Es; [|done].
        pose proof (net_recv_frame d1 m1 (a + net_hdr_size) (saturating_sub len net_hdr_size) a
          (Z.max len net_hdr_size)) as Hf.
        destruct (net_recv d1 m1 _ _) as [d2 m2]. intros [= _ <- _].
        eapply frame_trans; [by eapply net_start_frame|].
        apply Hf; unfold saturating_sub, net_hdr_size; lia.
    + destruct (q =? 1); [|intros; simplify_eq; apply frame_refl].
      destruct (header_processed d).
      * destruct (net_send _); intros; simplify_eq. apply frame_refl.
      * destruct (net_start d m q a len) as [[d1 m1]|] eqn:Es; [|done].
        destruct (net_send _); intros; simplify_eq. by eapply net_start_frame.
Defined.

(** ** Ones' complement arithmetic *)

(** The sum of the big-endian words of a byte list, in unbounded arithmetic. *)
Fixpoint words (l : list Z) : Z :=
  match l with
  | a :: b :: l => a * 256 + b + words l
  | [a] => a * 256
  | [] => 0
  end.

Lemma pair_ind (P : list Z -> Prop) :
  P [] -> (forall a, P [a]) -> (forall a b l, P l -> P (a :: b :: l)) -> forall l, P l.
Proof.
  intros H0 H1 H2 l. assert (H : P l /\ forall a, P (a :: l)); [|by destruct H].
  induction l as [|a l [IH1 IH2]]; split; auto.
Qed.

Lemma words_bound l : Forall is_byte l -> 0 <= words l <= 65535 * ((Z.of_nat (length l) + 1) / 2).
Proof.
  induction l as [|a|a b l IH] using pair_ind; intros Hb; simpl words.
  - split; [lia|]. apply Z.mul_nonneg_nonneg; [lia|apply Z.div_pos; lia].
  - apply Forall_cons in Hb as [Ha _]. unfold is_byte in Ha. cbn [length Z.of_nat].
    change ((Z.of_nat 1 + 1) / 2) with 1. lia.
  - apply Forall_cons in Hb as [Ha Hb]. apply Forall_cons in Hb as [Hb' Hb]. specialize (IH Hb).
    unfold is_byte in *. cbn [length]. rewrite !Nat2Z.inj_succ.
    replace (Z.succ (Z.succ (Z.of_nat (length l))) + 1) with (Z.of_nat (length l) + 1 + 1 * 2) by lia.
    rewrite Z.div_add by lia. lia.
Qed.

Lemma sum_words_exact s l :
  Forall is_byte l -> 0 <= s -> s + words l < 2 ^ 32 -> sum_words s l = s + words l.
Proof.
  intros Hb. revert s Hb. induction l as [|a|a b l IH] using pair_ind; intros s Hb Hs Hlt; simpl in *.
  - lia.
  - apply Forall_cons in Hb as [Ha _]. unfold is_byte in Ha. rewrite Z.shiftl_mul_pow2 by lia.
    change (2 ^ 8) with 256. unfold u32.
    rewrite (wrap_small 32 (a * 256)), wrap_small; unfold fits; lia.
  - apply Forall_cons in Hb as [Ha Hb]. apply Forall_cons in Hb as [Hb' Hb].
    pose proof (words_bound l Hb). unfold is_byte in *.
    unfold u32. rewrite wrap_small by (unfold fits; lia). rewrite IH by (try done; lia). lia.
Qed.

(** Folding keeps the residue and positivity. *)
Lemma fold_step s :
  0 <= s < 2 ^ 32 ->
  let t := Z.shiftr s 16 + Z.land s 0xFFFF in
  u32 t = t /\ t mod 65535 = s mod 65535 /\ 0 <= t <= 0x1FFFE /\ (0 < s -> 0 < t) /\ (s <= 0x1FFFE -> t <= 0xFFFF).
Proof.
  intros Hs. cbv zeta. rewrite Z.shiftr_div_pow2 by lia.
  change 0xFFFF with (Z.ones 16). rewrite Z.land_ones by lia. change (2 ^ 16) with 65536. change (Z.ones 16) with 65535.
  assert (Hd : 0 <= s / 65536 <= 65535) by (split; [apply Z.div_pos; lia|]; apply Z.lt_succ_r, Z.div_lt_upper_bound; lia).
  pose proof (Z.mod_pos_bound s 65536 ltac:(lia)) as Hm. pose proof (Z.div_mod s 65536 ltac:(lia)) as He.
  split; [|split; [|lia]].
  - apply wrap_small. unfold fits. lia.
  - rewrite He at 3. replace (65536 * (s / 65536) + s mod 65536)
      with (s / 65536 + s mod 65536 + s / 65536 * 65535) by lia. by rewrite Z.mod_add.
Qed.

Lemma fold16_spec s :
  0 <= s < 2 ^ 32 ->
  exists t, fold16 2 s = Some t /\ 0 <= t <= 0xFFFF /\ t mod 65535 = s mod 65535 /\ (0 < s -> 0 < t).
Proof.
  intros Hs. cbn [fold16]. destruct (Z.ltb_spec 0xFFFF s); [|exists s; split_and!; lia || done].
  destruct (fold_step s Hs) as (E1 & M1 & B1 & P1 & _). rewrite E1.
  set (t := Z.shiftr s 16 + Z.land s 0xFFFF) in *.
  destruct (Z.ltb_spec 0xFFFF t); [|exists t; split_and!; lia || done].
  assert (Ht : 0 <= t < 2 ^ 32) by lia. destruct (fold_step t Ht) as (E2 & M2 & B2 & P2 & L2). rewrite E2.
  set (w := Z.shiftr t 16 + Z.land t 0xFFFF) in *.
  destruct (Z.ltb_spec 0xFFFF w); [lia|]. exists w.
  split; [done|]. split; [lia|]. split; [congruence|]. intros. by apply P2, P1.
Qed.

(** ** The packet around the checksum field *)

Lemma be16_some buf i : (S i < length buf)%nat -> exists v, be16 buf i = Some v.
Proof.
  intros Hi. unfold be16.
  destruct (lookup_lt_is_Some_2 buf i) as [a ->]; [lia|].
  destruct (lookup_lt_is_Some_2 buf (S i)) as [b ->]; [lia|]. by eexists.
Qed.

Lemma be16_bound buf i v : Forall is_byte buf -> be16 buf i = Some v -> 0 <= v <= 65535.
Proof.
  intros Hb. unfold be16. destruct (buf !! i) as [a|] eqn:Ea; [|done].
  destruct (buf !! S i) as [b|] eqn:Eb; [|done]. intros [= <-].
  pose proof (Forall_lookup_1 _ _ _ _ Hb Ea) as H1. pose proof (Forall_lookup_1 _ _ _ _ Hb Eb) as H2.
  unfold is_byte in *. simpl in *. lia.
Qed.

Lemma be16_app pre t i : (S i < length pre)%nat -> be16 (pre ++ t) i = be16 pre i.
Proof. intros. unfold be16. by rewrite !lookup_app_l by lia. Qed.

(** The guards never index out of range, and what passes them is a segment
    inside the packet with its checksum field behind the addresses. *)
Definition layout_ok (buf : list Z) (L : L4) : Prop :=
  (34 <= l4_off L)%nat /\ (l4_off L + l4_len L <= length buf)%nat /\
  (csum_field_off L + 2 <= length buf)%nat /\ Z.of_nat (l4_len L) <= 65535 /\
  (l4_proto L = 6 /\ csum_field_off L = (l4_off L + 16)%nat \/
   l4_proto L = 17 /\ csum_field_off L = (l4_off L + 6)%nat).

Lemma l4_layout_spec buf :
  Forall is_byte buf -> exists o, l4_layout buf = Some o /\ forall L, o = Some L -> layout_ok buf L.
Proof.
  intros Hb. unfold l4_layout. destruct (Nat.ltb_spec (length buf) (14 + 20)); [by eexists|].
  destruct (be16_some buf 12) as [et ->]; [lia|]. destruct (negb _); [by eexists|].
  destruct (lookup_lt_is_Some_2 buf 14) as [vi ->]; [lia|]. destruct (negb _); [by eexists|]. cbv zeta.
  set (ihl := (Z.to_nat (Z.land vi 0x0f) * 4)%nat).
  destruct (Nat.ltb_spec ihl 20); [by eexists|]. destruct (Nat.ltb_spec (length buf) (14 + ihl)); [by eexists|].
  destruct (be16_some buf (14 + 2)) as [tl Etl]; [lia|]. rewrite Etl. apply be16_bound in Etl; [|done].
  destruct (Nat.ltb_spec (Z.to_nat tl) ihl); [by eexists|].
  destruct (Nat.ltb_spec (length buf) (14 + Z.to_nat tl)); [by eexists|]. cbn [orb].
  destruct (lookup_lt_is_Some_2 buf (14 + 9)) as [proto ->]; [lia|].
  destruct (Z.eqb_spec proto 6) as [->|]; [|destruct (Z.eqb_spec proto 17) as [->|]; [|by eexists]].
  - destruct (Nat.ltb_spec (length buf) (14 + ihl + 16 + 2)); [by eexists|]. eexists. split; [reflexivity|].
    intros ? [= <-]. unfold layout_ok. cbn [l4_off l4_len csum_field_off l4_proto]. lia.
  - destruct (Nat.ltb_spec (length buf) (14 + ihl + 6 + 2)); [by eexists|]. eexists. split; [reflexivity|].
    intros ? [= <-]. unfold layout_ok. cbn [l4_off l4_len csum_field_off l4_proto]. lia.
Qed.

Lemma split_two (buf : list Z) off :
  (off + 2 <= length buf)%nat -> exists pre a b post, buf = pre ++ a :: b :: post /\ length pre = off.
Proof.
  intros Hl. exists (take off buf). destruct (drop off buf) as [|a [|b post]] eqn:E.
  - apply (f_equal length) in E. rewrite length_drop in E. simpl in E. lia.
  - apply (f_equal length) in E. rewrite length_drop in E. simpl in E. lia.
  - exists a, b, post. rewrite <- E, take_drop, length_take. split; [done|lia].
Qed.

Lemma insert_two (pre post : list Z) a b x y :
  <[S (length pre) := y]> (<[length pre := x]> (pre ++ a :: b :: post)) = pre ++ x :: y :: post.
Proof. induction pre as [|c pre IH]; simpl; [done|]. f_equal. exact IH. Qed.

Definition segment (L : L4) (buf : list Z) : list Z := take (l4_len L) (drop (l4_off L) buf).

(** The segment around a field at an even offset. *)
Lemma segment_words L pre x y post k :
  length pre = (l4_off L + k)%nat -> (k + 2 <= l4_len L)%nat -> Nat.even k = true ->
  words (segment L (pre ++ x :: y :: post)) =
    words (drop (l4_off L) pre) + (x * 256 + y) + words (take (l4_len L - k - 2) post).
Proof.
  intros Hp Hk He. unfold segment. rewrite drop_app_le by lia.
  assert (Hd : length (drop (l4_off L) pre) = k) by (rewrite length_drop; lia).
  rewrite take_app_ge by lia. rewrite Hd. destruct (l4_len L - k)%nat as [|[|r]] eqn:E; [lia..|].
  cbn [firstn]. replace (S (S r) - 2)%nat with r by lia.
  assert (He' : Nat.even (length (drop (l4_off L) pre)) = true) by (by rewrite Hd).
  generalize dependent (drop (l4_off L) pre). intros l _.
  induction l as [|a|a b l IH] using pair_ind; intros Hl; simpl in *; [lia|done|]. rewrite IH by done. lia.
Qed.

Lemma pseudo_sum_app pre t : (34 <= length pre)%nat -> pseudo_sum (pre ++ t) = pseudo_sum pre.
Proof. intros. unfold pseudo_sum. by rewrite !be16_app by lia. Qed.

Lemma pseudo_sum_bound buf :
  Forall is_byte buf -> (34 <= length buf)%nat -> exists v, pseudo_sum buf = Some v /\ 0 <= v <= 4 * 65535.
Proof.
  intros Hb Hl. unfold pseudo_sum.
  destruct (be16_some buf 26) as [a Ea]; [lia|]. destruct (be16_some buf 30) as [b Eb]; [lia|].
  destruct (be16_some buf 28) as [c Ec]; [lia|]. destruct (be16_some buf 32) as [d Ed]; [lia|].
  rewrite Ea, Eb, Ec, Ed. apply be16_bound in Ea, Eb, Ec, Ed; try done.
  eexists. split; [reflexivity|]. unfold u32. rewrite (wrap_small 32 (a + b)) by (unfold fits; lia).
  rewrite (wrap_small 32 (a + b + c)) by (unfold fits; lia). rewrite wrap_small by (unfold fits; lia). lia.
Qed.

(** What a receiver checks (RFC 1071): pseudo-header, protocol, length and the
    words of the segment, the checksum among them, fold to all ones. *)
Definition checksum_ok (L : L4) (buf : list Z) : Prop :=
  exists ph, pseudo_sum buf = Some ph /\
    fold16 2 (ph + l4_proto L + Z.of_nat (l4_len L) + words (segment L buf)) = Some 0xFFFF.

(** The complement of a folded sum completes it. *)
Lemma complement_completes s t c :
  0 < s -> s + 65535 < 2 ^ 32 -> 0 <= t <= 0xFFFF -> t mod 65535 = s mod 65535 ->
  c = 0xFFFF - t \/ (t = 0xFFFF /\ c = 0xFFFF) ->
  fold16 2 (s + c) = Some 0xFFFF.
Proof.
  intros Hs Hb Ht Hm Hc. destruct (fold16_spec (s + c)) as (r & -> & Hr & Hmr & Hpr); [lia|]. f_equal.
  assert (Hz : (s + c) mod 65535 = 0).
  { rewrite Z.add_mod, <- Hm, <- Z.add_mod by lia. destruct Hc as [->|[-> ->]]; [|reflexivity].
    replace (t + (0xFFFF - t)) with 65535 by lia. reflexivity. }
  rewrite Hz in Hmr. assert (0 < r) by (apply Hpr; lia).
  destruct (decide (r = 0xFFFF)); [done|]. rewrite Z.mod_small in Hmr; lia.
Qed.

Lemma not16_spec t : 0 <= t <= 0xFFFF -> u16 (Z.lnot (u16 t)) = 0xFFFF - t.
Proof.
  intros Ht. unfold u16, Z.lnot. rewrite (wrap_small 16 t) by (unfold fits; lia). unfold wrap.
  replace (Z.pred (- t)) with (65535 - t + (-1) * 2 ^ 16) by lia. rewrite Z.mod_add by lia.
  apply Z.mod_small. lia.
Qed.

Lemma hi_lo c : 0 <= c -> Z.shiftr c 8 * 256 + Z.land c 0xff = c.
Proof.
  intros. rewrite Z.shiftr_div_pow2 by lia. change 0xff with (Z.ones 8). rewrite Z.land_ones by lia.
  change (2 ^ 8) with 256. pose proof (Z.div_mod c 256). lia.
Qed.

Lemma segment_bound L buf :
  Forall is_byte buf -> Z.of_nat (l4_len L) <= 65535 ->
  Forall is_byte (segment L buf) /\ 0 <= words (segment L buf) <= 65535 * 32768.
Proof.
  intros Hb Hl. assert (Hs : Forall is_byte (segment L buf)) by (by apply Forall_take, Forall_drop).
  split; [done|]. pose proof (words_bound _ Hs) as Hw.
  assert (Hlw : Z.of_nat (length (segment L buf)) <= 65535) by (unfold segment; rewrite length_take; lia).
  split; [lia|]. etransitivity; [apply Hw|]. apply Z.mul_le_mono_nonneg_l; [lia|].
  apply Z.div_le_upper_bound; lia.
Qed.

Lemma lookup_around (pre post : list Z) x y a b i :
  i <> length pre -> i <> S (length pre) -> (pre ++ x :: y :: post) !! i = (pre ++ a :: b :: post) !! i.
Proof.
  intros H1 H2. destruct (decide (i < length pre)%nat); [by rewrite !lookup_app_l by lia|].
  rewrite !lookup_app_r by lia. destruct (i - length pre)%nat as [|[|r]] eqn:Ei; [lia..|done].
Qed.

(** C36: the checksum fix-up never reads or writes outside the frame and leaves
    a frame it does not recognise (not IPv4, not TCP or UDP, lengths that do
    not fit) unchanged.  Otherwise it changes at most the two bytes of the
    checksum field, a UDP checksum is never the reserved value 0, and when the
    field lies inside the segment the result is a frame whose transport
    checksum verifies, whatever the guest had put in the field. *)
Theorem tx_checksum_valid buf :
  Forall is_byte buf ->
  exists o, l4_layout buf = Some o /\
  match o with
  | None => fix_tx_l4_checksum buf = Some buf
  | Some L => exists buf' c,
      fix_tx_l4_checksum buf = Some buf' /\ length buf' = length buf /\
      (forall i, i <> csum_field_off L -> i <> S (csum_field_off L) -> buf' !! i = buf !! i) /\
      be16 buf' (csum_field_off L) = Some c /\ (l4_proto L = 17 -> c <> 0) /\
      ((csum_field_off L + 2 <= l4_off L + l4_len L)%nat -> checksum_ok L buf')
  end.
Proof.
  intros Hb. destruct (l4_layout_spec buf Hb) as (o & E & HL). exists o. split; [done|].
  unfold fix_tx_l4_checksum. rewrite E. destruct o as [L|]; [|done].
  destruct (HL L eq_refl) as (H34 & Hseg & Hoff & Hlen & Hproto). cbv zeta.
  destruct (split_two buf (csum_field_off L) Hoff) as (pre & a & b & post & Ebuf & Epre).
  subst buf. rewrite <- Epre. rewrite insert_two.
  apply Forall_app in Hb as [Hbp Hb]. apply Forall_cons in Hb as [_ Hb]. apply Forall_cons in Hb as [_ Hb].
  assert (Hp34 : (34 <= length pre)%nat) by lia.
  destruct (pseudo_sum_bound pre Hbp Hp34) as (ph & Eph & Hph).
  rewrite pseudo_sum_app, Eph by done. fold (segment L (pre ++ 0 :: 0 :: post)).
  destruct (segment_bound L (pre ++ 0 :: 0 :: post)) as [Hbz Hw]; [|done|].
  { apply Forall_app. split; [done|]. by repeat (apply Forall_cons; split; [unfold is_byte; lia|]). }
  set (w0 := words (segment L (pre ++ 0 :: 0 :: post))) in *.
  assert (Esum : u32 (u32 (ph + l4_proto L) + Z.of_nat (l4_len L)) = ph + l4_proto L + Z.of_nat (l4_len L)).
  { unfold u32. rewrite (wrap_small 32 (ph + l4_proto L)) by (unfold fits; lia). apply wrap_small. unfold fits; lia. }
  rewrite Esum, sum_words_exact by (try done; fold w0; lia). fold w0.
  set (s := ph + l4_proto L + Z.of_nat (l4_len L) + w0).
  destruct (fold16_spec s) as (t & -> & Ht & Hmt & _); [lia|].
  rewrite insert_two. set (c0 := u16 (Z.lnot (u16 t))).
  assert (Ec0 : c0 = 0xFFFF - t) by (by apply not16_spec).
  set (c := if (l4_proto L =? 17) && (c0 =? 0) then 0xFFFF else c0).
  assert (Hc : c = 0xFFFF - t \/ (t = 0xFFFF /\ c = 0xFFFF)).
  { unfold c. destruct (l4_proto L =? 17); [|by left]. simpl. destruct (Z.eqb_spec c0 0); [right|by left]. lia. }
  assert (Hcb : 0 <= c <= 65535) by lia.
  exists (pre ++ Z.shiftr c 8 :: Z.land c 0xff :: post), c. split; [done|]. split; [by rewrite !length_app|].
  split; [|split; [|split]].
  - intros i. apply lookup_around.
  - unfold be16. rewrite !lookup_app_r, Nat.sub_diag by lia.
    replace (S (length pre) - length pre)%nat with 1%nat by lia. simpl. by rewrite hi_lo by lia.
  - intros H17. unfold c. rewrite H17. simpl. by destruct (Z.eqb_spec c0 0).
  - intros Hin. exists ph. rewrite pseudo_sum_app by done. split; [done|].
    set (k := (csum_field_off L - l4_off L)%nat).
    assert (Hk : Nat.even k = true) by (unfold k; destruct Hproto as [[_ ->]|[_ ->]]; rewrite Nat.add_comm, Nat.add_sub; done).
    assert (Hpk : length pre = (l4_off L + k)%nat) by (unfold k; lia).
    assert (Hw1 : words (segment L (pre ++ Z.shiftr c 8 :: Z.land c 0xff :: post)) = w0 + c).
    { unfold w0. rewrite !(segment_words L pre _ _ post k), hi_lo by (try done; lia). lia. }
    rewrite Hw1. replace (_ + (w0 + c)) with (s + c) by (unfold s; lia).
    eapply complement_completes; [..|exact Hc]; lia || done.
Qed.

(** ** A transmitted frame *)

Lemma take_read_bytes m a n k : take n (read_bytes m a k) = read_bytes m a (Nat.min n k).
Proof.
  revert a n. induction k as [|k IH]; intros a [|n]; simpl; try done. f_equal. apply IH.
Qed.

Lemma drop_read_bytes m a n k : drop n (read_bytes m a k) = read_bytes m (a + Z.of_nat n) (k - n).
Proof.
  revert a n. induction k as [|k IH]; intros a [|n]; cbn [read_bytes drop Nat.sub]; try done.
  - by rewrite Z.add_0_r.
  - rewrite IH. f_equal. lia.
Qed.

Lemma write_at_spec buf off bytes :
  (off + length bytes <= length buf)%nat ->
  length (write_at buf off bytes) = length buf /\
  take (off + length bytes) (write_at buf off bytes) = take off buf ++ bytes.
Proof.
  intros Hl. unfold write_at. split.
  - rewrite !length_app, length_take, length_drop. lia.
  - rewrite app_assoc. apply take_app_length'. rewrite length_app, length_take. lia.
Qed.

(** The frame buffer holds [acc] of the frame being put together. *)
Definition tx_ok (d : VirtioNet) (acc : list Z) : Prop :=
  header_processed d = true /\ tx_offset d = length acc /\ (length acc <= PACKET_SIZE)%nat /\
  take (length acc) (net_buffer d) = acc /\ length (net_buffer d) = PACKET_SIZE.

Lemma append_tx_ok d m a len acc :
  tx_ok d acc ->
  tx_ok (append_tx d m a len) (take PACKET_SIZE (acc ++ read_bytes m a (Z.to_nat len))).
Proof.
  intros (Hh & Ho & Hl & Ht & Hb).
  set (n := Nat.min (Z.to_nat len) (PACKET_SIZE - tx_offset d)).
  assert (Hn : length (read_bytes m a n) = n) by apply length_read_bytes.
  assert (Ea : take PACKET_SIZE (acc ++ read_bytes m a (Z.to_nat len)) = acc ++ read_bytes m a n).
  { rewrite take_app, take_ge, take_read_bytes by lia. do 2 f_equal. unfold n. lia. }
  rewrite Ea. destruct (write_at_spec (net_buffer d) (tx_offset d) (read_bytes m a n)) as [H1 H2];
    [unfold n in *; lia|].
  unfold append_tx, tx_ok. fold n. cbn [set_tx header_processed tx_offset net_buffer].
  rewrite length_app, Hn, H1. rewrite Hn, Ho, Ht in H2. rewrite Ho. split_and!; try done. unfold n. lia.
Qed.

Definition needs_csum (m : gmap Z Z) (addr : Z) : bool :=
  negb (Z.land (rd8 m addr) VIRTIO_NET_HDR_F_NEEDS_CSUM =? 0).

Lemma net_start_tx d m a len :
  length (net_buffer d) = PACKET_SIZE -> net_hdr_size <= len ->
  exists d', net_start d m 1 a len = Some (d', m) /\
    tx_ok d' (take PACKET_SIZE (drop 12 (read_bytes m a (Z.to_nat len)))) /\
    tx_needs_csum d' = needs_csum m a /\ outbox d' = outbox d.
Proof.
  intros Hb Hl. unfold net_start. cbn [Z.eqb]. cbv zeta. unfold net_hdr_size in *.
  rewrite drop_read_bytes, take_read_bytes. change (a + Z.of_nat 12) with (a + 12).
  replace (Z.to_nat len - 12)%nat with (Z.to_nat (len - 12)) by lia. rewrite (Nat.min_comm PACKET_SIZE).
  set (n := Nat.min (Z.to_nat (len - 12)) PACKET_SIZE).
  destruct (Z.ltb_spec 12 len).
  - eexists. split; [reflexivity|]. split; [|done]. unfold tx_ok. cbn [set_tx header_processed tx_offset net_buffer].
    destruct (write_at_spec (net_buffer d) 0 (read_bytes m (a + 12) n)) as [H1 H2];
      [rewrite length_read_bytes; unfold n; lia|].
    rewrite length_read_bytes in *. rewrite H1. split_and!; try done. unfold n. lia.
  - eexists. split; [reflexivity|]. split; [|done]. replace n with 0%nat by (unfold n; lia).
    unfold tx_ok. cbn. split_and!; try done. lia.
Qed.

Lemma sum_words_fits s l : fits 32 s -> fits 32 (sum_words s l).
Proof.
  revert s. induction l as [|a|a b l IH] using pair_ind; intros s Hs; simpl; [done|by apply wrap_fits|].
  apply IH. by apply wrap_fits.
Qed.

Lemma fix_total buf :
  Forall is_byte buf -> exists buf', fix_tx_l4_checksum buf = Some buf' /\ length buf' = length buf.
Proof.
  intros Hb. destruct (l4_layout_spec buf Hb) as (o & E & HL). unfold fix_tx_l4_checksum. rewrite E.
  destruct o as [L|]; [|by eexists]. destruct (HL L eq_refl) as (H34 & Hseg & Hoff & _ & Hp). cbv zeta.
  destruct (split_two buf _ Hoff) as (pre & a & b & post & -> & Epre). rewrite <- Epre, insert_two.
  apply Forall_app in Hb as [Hbp _].
  destruct (pseudo_sum_bound pre Hbp) as (ph & Eph & _); [lia|]. rewrite pseudo_sum_app, Eph by lia.
  match goal with |- context [fold16 2 ?s] => destruct (fold16_spec s) as (t & -> & _) end.
  { assert (Hf : fits 32 (sum_words (u32 (u32 (ph + l4_proto L) + Z.of_nat (l4_len L)))
      (take (l4_len L) (drop (l4_off L) (pre ++ 0 :: 0 :: post))))) by (by apply sum_words_fits, wrap_fits).
    exact Hf. }
  eexists. split; [reflexivity|]. by rewrite !length_insert, !length_app.
Qed.

(** Sending what was put together. *)
Lemma net_send_ok d acc :
  tx_ok d acc -> Forall is_byte acc ->
  exists d' f, net_send d = Some d' /\
    (if tx_needs_csum d then fix_tx_l4_checksum acc else Some acc) = Some f /\
    outbox d' = outbox d ++ [f] /\ tx_offset d' = 0%nat /\ tx_needs_csum d' = false /\
    length (net_buffer d') = PACKET_SIZE.
Proof.
  intros (Hh & Ho & Hl & Ht & Hb) Hby. unfold net_send. rewrite Ho, Ht.
  assert (Hf : exists f, (if tx_needs_csum d then fix_tx_l4_checksum acc else Some acc) = Some f /\
                         length f = length acc).
  { destruct (tx_needs_csum d); [by apply fix_total|by exists acc]. }
  destruct Hf as (f & Ef & Hf). rewrite Ef. do 2 eexists. split; [reflexivity|]. split; [reflexivity|].
  split_and!; try done. cbn [net_buffer]. destruct (write_at_spec (net_buffer d) 0 f) as [H1 _]; [lia|].
  by rewrite H1.
Qed.

Lemma take_take_app {A} n (a b : list A) : take n (take n a ++ b) = take n (a ++ b).
Proof.
  rewrite !take_app, length_take, take_take, Nat.min_id. do 2 f_equal. lia.
Qed.

Definition chain_len (ds : list VringDesc) : Z := foldr (fun d n => vd_len d + n) 0 ds.

Lemma chain_len_nonneg ds : Forall (fun d => 0 <= vd_len d) ds -> 0 <= chain_len ds.
Proof. induction 1; simpl; lia. Qed.

(** The buffers after the header. *)
Lemma net_tx_run q d m b ds last acc :
  q_idx q = 1 -> q_hdr q = net_hdr_size -> mem_ok m -> tx_ok d acc -> Forall is_byte acc ->
  net_hdr_size <= b -> Forall (fun d => 0 <= vd_len d) (ds ++ [last]) -> b + chain_len (ds ++ [last]) <= U64_MAX ->
  exists w f, run_request q d m b (ds ++ [last]) = Some w /\
    (if tx_needs_csum d then fix_tx_l4_checksum (take PACKET_SIZE (acc ++ chain_bytes m (ds ++ [last])))
     else Some (take PACKET_SIZE (acc ++ chain_bytes m (ds ++ [last])))) = Some f /\
    w_mem w = m /\ outbox (w_dev w) = outbox d ++ [f] /\ header_processed (w_dev w) = false /\
    length (net_buffer (w_dev w)) = PACKET_SIZE.
Proof.
  intros Hq Hh Hm. revert d b acc. induction ds as [|x ds IH]; intros d b acc Hok Hby Hb Hds Hlen; cbn [app] in *.
  - pose proof (append_tx_ok d m (vd_addr last) (vd_len last) acc Hok) as Hok'.
    destruct (net_send_ok _ _ Hok') as (d' & f & Es & Ef & Hout & _ & _ & Hbuf).
    { by apply Forall_take, Forall_app_2, read_bytes_are_bytes. }
    cbn [run_request process_queue_complete NetImpl]. unfold net_complete. rewrite Hq. cbn [Z.eqb].
    destruct Hok as (-> & _). rewrite Es. unfold chain_bytes. cbn [List.map concat]. rewrite app_nil_r.
    do 2 eexists. split; [reflexivity|]. split; [exact Ef|]. by split_and!.
  - apply Forall_cons in Hds as [Hx Hds]. pose proof (chain_len_nonneg _ Hds) as Hn. cbn [chain_len foldr] in Hlen.
    fold (chain_len (ds ++ [last])) in Hlen.
    rewrite run_request_cons by (by destruct ds). rewrite Hh. destruct (Z.ltb_spec b net_hdr_size); [lia|].
    cbn [process_queue_data NetImpl]. unfold net_data. rewrite Hq. cbn [Z.eqb].
    replace (u64 (b + vd_len x)) with (b + vd_len x)
      by (symmetry; apply wrap_small; unfold fits, net_hdr_size, U64_MAX in *; lia).
    destruct (IH (append_tx d m (vd_addr x) (vd_len x)) (b + vd_len x)
      (take PACKET_SIZE (acc ++ read_bytes m (vd_addr x) (Z.to_nat (vd_len x)))))
      as (w & f & Hw & Hf & H3); [by apply append_tx_ok| |lia|done|lia|].
    { by apply Forall_take, Forall_app_2, read_bytes_are_bytes. }
    exists w, f. split; [exact Hw|]. split; [|exact H3]. rewrite <- Hf.
    cbn [append_tx set_tx tx_needs_csum]. unfold chain_bytes. cbn [List.map concat].
    by rewrite take_take_app, <- app_assoc.
Qed.

(** A transmit chain whose first buffer holds the 12-byte header leaves the
    device as exactly one frame: the bytes of all its buffers in order, without
    the header and cut at 1514 bytes, with the transport checksum fixed up
    exactly when the header asks for it; guest memory is unchanged and the
    device is ready for the next chain, single-buffer chains included. *)
Theorem net_tx_frame q d m first rest :
  q_idx q = 1 -> q_hdr q = net_hdr_size -> mem_ok m ->
  header_processed d = false -> length (net_buffer d) = PACKET_SIZE ->
  net_hdr_size <= vd_len first -> Forall (fun d => 0 <= vd_len d) rest ->
  chain_len (first :: rest) <= U64_MAX ->
  let payload := take PACKET_SIZE (drop 12 (chain_bytes m (first :: rest))) in
  exists w f, run_request q d m 0 (first :: rest) = Some w /\
    (if needs_csum m (vd_addr first) then fix_tx_l4_checksum payload else Some payload) = Some f /\
    w_mem w = m /\ outbox (w_dev w) = outbox d ++ [f] /\
    header_processed (w_dev w) = false /\ length (net_buffer (w_dev w)) = PACKET_SIZE.
Proof.
  intros Hq Hh Hm Hp Hb Hf Hr Hlen payload.
  destruct (net_start_tx d m (vd_addr first) (vd_len first) Hb Hf) as (d1 & Es & Hok & Hcs & Hout).
  set (acc := take PACKET_SIZE (drop 12 (read_bytes m (vd_addr first) (Z.to_nat (vd_len first))))) in *.
  assert (Hacc : Forall is_byte acc) by (by apply Forall_take, Forall_drop, read_bytes_are_bytes).
  assert (Epay : payload = take PACKET_SIZE (acc ++ chain_bytes m rest)).
  { unfold payload, acc, chain_bytes. cbn [List.map concat]. rewrite take_take_app, drop_app_le; [done|].
    rewrite length_read_bytes. unfold net_hdr_size in Hf. lia. }
  rewrite Epay, <- Hcs, <- Hout. destruct rest as [|x rest] using rev_ind.
  - destruct (net_send_ok d1 acc Hok Hacc) as (d2 & f & Esd & Ef & Ho & _ & _ & Hbuf).
    cbn [run_request process_queue_complete NetImpl]. unfold net_complete. rewrite Hq, Hp, Es, Esd.
    unfold chain_bytes. cbn [List.map concat]. rewrite app_nil_r.
    assert (Ea : take PACKET_SIZE acc = acc) by (apply take_ge; apply Hok). rewrite Ea.
    do 2 eexists. split; [reflexivity|]. split; [exact Ef|]. by split_and!.
  - clear IHrest. rewrite run_request_cons by (by destruct rest). rewrite Hh. cbn [Z.ltb Z.compare].
    replace (0 <? net_hdr_size) with true by reflexivity. cbn [process_queue_start NetImpl]. rewrite Hq, Es.
    pose proof (chain_len_nonneg _ Hr) as Hn. cbn [chain_len foldr] in Hlen. fold (chain_len (rest ++ [x])) in Hlen.
    rewrite Z.add_0_l. replace (u64 (vd_len first)) with (vd_len first)
      by (symmetry; apply wrap_small; unfold fits, net_hdr_size, U64_MAX in *; lia).
    by apply net_tx_run.
Qed.

(** A UDP datagram of four payload bytes with a wrong checksum. *)
Definition demo_frame : list Z :=
  [82; 85; 10; 0; 2; 2; 2; 0; 0; 0; 1; 0; 8; 0;
   69; 0; 0; 32; 0; 1; 0; 0; 64; 17; 0; 0; 10; 0; 2; 15; 10; 0; 2; 3;
   16; 0; 0; 53; 0; 12; 18; 52; 104; 105; 33; 10].

Lemma demo_frame_bytes : Forall is_byte demo_frame.
Proof. repeat (apply Forall_cons; split; [unfold is_byte; lia|]). by apply Forall_nil. Qed.

Lemma tx_checksum_valid_witness : exists buf',
  fix_tx_l4_checksum demo_frame = Some buf' /\ checksum_ok (mk_l4 17 34 12 40) buf'.
Proof.
  destruct (tx_checksum_valid demo_frame demo_frame_bytes) as (o & E & Ho).
  assert (E' : l4_layout demo_frame = Some (Some (mk_l4 17 34 12 40))) by (vm_compute; reflexivity).
  rewrite E' in E. injection E as <-. destruct Ho as (buf' & c & H1 & _ & _ & _ & _ & H2).
  exists buf'. split; [exact H1|]. apply H2. cbn. lia.
Defined.

(** Header and frame in one buffer, then the same in two. *)
Definition demo_net_mem : gmap Z Z := write_bytes ∅ 0x100 (1 :: replicate 11 0 ++ demo_frame).

Definition demo_net : VirtioNet :=
  mk_net [] [] (replicate PACKET_SIZE 0) false false 0 (derive_mac 0 1) (format_dhcp_hostname 0 1) []
    (mk_net_metrics 0 0 0 0).

Lemma net_tx_frame_witness : exists w f,
  run_request (mk_queue 0 0 0 1 net_hdr_size 8 0 0x1000) demo_net demo_net_mem 0
    [mk_desc 0x100 20 1 1; mk_desc 0x114 38 0 0] = Some w /\
  fix_tx_l4_checksum demo_frame = Some f /\ outbox (w_dev w) = [f].
Proof.
  destruct (net_tx_frame (mk_queue 0 0 0 1 net_hdr_size 8 0 0x1000) demo_net demo_net_mem
    (mk_desc 0x100 20 1 1) [mk_desc 0x114 38 0 0]) as (w & f & H1 & H2 & _ & H3 & _).
  - reflexivity.
  - reflexivity.
  - apply mem_ok_write_bytes; [intros k v Hk; discriminate|].
    apply Forall_cons. split; [unfold is_byte; lia|]. apply Forall_app. split; [|exact demo_frame_bytes].
    repeat (apply Forall_cons; split; [unfold is_byte; lia|]). by apply Forall_nil.
  - reflexivity.
  - reflexivity.
  - vm_compute. congruence.
  - apply Forall_cons. split; [vm_compute; congruence|by apply Forall_nil].
  - vm_compute. congruence.
  - exists w, f. split; [exact H1|]. split; [|exact H3].
    assert (En : needs_csum demo_net_mem (vd_addr (mk_desc 0x100 20 1 1)) = true) by (vm_compute; reflexivity).
    rewrite En in H2.
    assert (Ep : take PACKET_SIZE (drop 12 (chain_bytes demo_net_mem [mk_desc 0x100 20 1 1; mk_desc 0x114 38 0 0]))
      = demo_frame) by (vm_compute; reflexivity).
    rewrite Ep in H2. exact H2.
Defined.
