(* ===== verification/VirtioRng.v ===== *)
(** The virtio entropy device of [src/virtio/rng.rs].  The host's [getrandom]
    is the sequence of results its successive calls return: bytes, or a
    failure, on which the code falls back to a counter pattern. *)

From S2P Require Import Prelude Layout Virtqueue.

Inductive RandRet :=
| Got (bytes : list Z)
| RandFailed.

Record VirtioRng := mk_rng { rng_script : list RandRet }.

(** The counter pattern of the fallback: the low byte of each position. *)
Definition counter_fill (filled : Z) (chunk : nat) : list Z :=
  List.map (fun i => u8 (filled + Z.of_nat i)) (seq 0 chunk).

(** One iteration writes the bytes of the call, at most [chunk] of them, or the
    fallback pattern; [remaining] is [total - filled]. *)
Definition fill_step (script : list RandRet) (filled : Z) (chunk : nat) : list RandRet * list Z :=
  match script with
  | Got bytes :: script =>
      (script, match take chunk bytes with [] => counter_fill filled chunk | got => got end)
  | RandFailed :: script => (script, counter_fill filled chunk)
  | [] => ([], counter_fill filled chunk)
  end.

Fixpoint fill_loop (fuel : nat) (script : list RandRet) (m : gmap Z Z) (addr : Z)
    (filled total : nat) : list RandRet * gmap Z Z * nat :=
  if (filled <? total)%nat then
    match fuel with
    | O => (script, m, filled)
    | S fuel =>
        let chunk := Nat.min (total - filled) 256 in
        let '(script, bytes) := fill_step script (Z.of_nat filled) chunk in
        fill_loop fuel script (write_bytes m (addr + Z.of_nat filled) bytes) addr
          (filled + length bytes) total
    end
  else (script, m, filled).

(** Every iteration writes at least one byte, so [len] iterations are enough. *)
Definition fill_with_entropy (d : VirtioRng) (m : gmap Z Z) (addr len : Z)
    : VirtioRng * gmap Z Z * nat :=
  if (len =? 0) || (addr =? 0) then (d, m, O)
  else
    let '(script, m', filled) :=
      fill_loop (Z.to_nat len) (rng_script d) m addr 0 (Z.to_nat len) in
    (mk_rng script, m', filled).

Definition rng_segment (d : VirtioRng) (m : gmap Z Z) (_ addr len : Z)
    : option (VirtioRng * gmap Z Z) :=
  let '(d', m', _) := fill_with_entropy d m addr len in Some (d', m').

Definition rng_complete (d : VirtioRng) (m : gmap Z Z) (_ addr len : Z)
    : option (VirtioRng * gmap Z Z * Z) :=
  let '(d', m', _) := fill_with_entropy d m addr len in Some (d', m', len).

#[export] Instance RngImpl : VirtioDeviceImpl VirtioRng := {|
  num_queues _ := 1;
  queue_header_size _ := 0;
  device_id _ := VIRTIO_ID_ENTROPY;
  device_features _ := (0, 1);
  process_queue_start := rng_segment;
  process_queue_data := rng_segment;
  process_queue_complete := rng_complete;
  queue_has_data _ _ := true;
  init_config _ m _ := m;
|}.

(** ** The loop *)

(** What the kernel returns is bytes. *)
Definition script_ok (script : list RandRet) : Prop :=
  Forall (fun r => match r with Got bs => Forall is_byte bs | RandFailed => True end) script.

Lemma fill_step_length script filled chunk script' bytes :
  (0 < chunk)%nat -> fill_step script filled chunk = (script', bytes) ->
  (0 < length bytes <= chunk)%nat.
Proof.
  intros Hc. unfold fill_step.
  assert (Hf : length (counter_fill filled chunk) = chunk)
    by (unfold counter_fill; by rewrite length_map, length_seq).
  destruct script as [|[bs|] script]; intros; simplify_eq; try lia.
  pose proof (length_take bs chunk). destruct (take chunk bs); simpl in *; lia.
Qed.

Lemma fill_step_bytes script filled chunk script' bytes :
  script_ok script -> fill_step script filled chunk = (script', bytes) ->
  Forall is_byte bytes /\ script_ok script'.
Proof.
  intros Hs. unfold fill_step.
  assert (Hcf : Forall is_byte (counter_fill filled chunk)).
  { apply Forall_forall. intros x (i & <- & _)%list_elem_of_In%List.in_map_iff.
    apply wrap_fits. lia. }
  destruct script as [|r script]; [intros; by simplify_eq|].
  apply Forall_cons in Hs as [Hr Hs]. destruct r as [bs|]; intros; simplify_eq; split; auto.
  assert (Forall is_byte (take chunk bs)) by (by apply Forall_take). by destruct (take chunk bs).
Qed.

(** With one unit of fuel per missing byte the loop fills the whole buffer and
    nothing beyond it. *)
Lemma fill_loop_complete fuel script m addr filled total script' m' n :
  (total - filled <= fuel)%nat -> (filled <= total)%nat ->
  fill_loop fuel script m addr filled total = (script', m', n) ->
  n = total /\ frame m m' (addr + Z.of_nat filled) (Z.of_nat total - Z.of_nat filled) /\
  (mem_ok m -> script_ok script ->
   mem_ok m').
Proof.
  revert script m filled. induction fuel as [|fuel IH]; intros script m filled Hf Hl H.
  - cbn [fill_loop] in H. destruct (Nat.ltb_spec filled total); [lia|].
    simplify_eq. split_and!; auto using frame_refl. lia.
  - cbn [fill_loop] in H. destruct (Nat.ltb_spec filled total) as [Hlt|Hge].
    2: { simplify_eq. split_and!; auto using frame_refl. lia. }
    destruct (fill_step script (Z.of_nat filled) (Nat.min (total - filled) 256)) as [sc bytes] eqn:Es.
    pose proof Es as Hb. apply fill_step_length in Hb; [|lia].
    apply IH in H as (-> & Hfr & Hok); [|lia|lia]. split; [done|]. split.
    + intros x Hx. rewrite Hfr by lia. apply rd8_write_bytes_out. lia.
    + intros Hm Hs.
      destruct (fill_step_bytes _ _ _ _ _ Hs Es) as [? ?].
      apply Hok; auto with bhx.
Qed.

Lemma fill_with_entropy_spec d m addr len d' m' n :
  0 <= len -> fill_with_entropy d m addr len = (d', m', n) ->
  (addr <> 0 -> Z.of_nat n = len) /\ frame m m' addr len.
Proof.
  intros Hl. unfold fill_with_entropy.
  destruct (Z.eqb_spec len 0), (Z.eqb_spec addr 0); cbn;
    try (intros; simplify_eq; split; [intros; simpl; lia|apply frame_refl]).
  destruct (fill_loop _ _ _ _ _ _) as [[sc mm] k] eqn:E. intros. simplify_eq.
  apply fill_loop_complete in E as (-> & Hf & _); [|lia..]. split; [lia|].
  rewrite Z.add_0_r in Hf. eapply frame_weaken; [exact Hf|lia|lia].
Qed.

#[export] Instance RngLaws : DeviceLaws VirtioRng.
Proof.
  assert (G : forall d m a len d' m' n, fill_with_entropy d m a len = (d', m', n) ->
    frame m m' a (Z.max len 0)).
  { intros d m a len d' m' n H. destruct (Z.le_gt_cases 0 len).
    - rewrite Z.max_l by done. by apply fill_with_entropy_spec in H as [_ ?].
    - unfold fill_with_entropy in H. replace (Z.to_nat len) with 0%nat in H by lia. cbn in H.
      case_match; simplify_eq; apply frame_refl. }
  refine {| dev_slack := 0 |}; cbn; unfold rng_segment, rng_complete; intros;
    destruct (fill_with_entropy _ _ _ _) as [[]] eqn:E; simplify_eq; eauto.
Defined.

(** Whatever [getrandom] returns (short reads, failures), filling a buffer
    terminates with every one of its bytes written, writes nothing outside it,
    and reports the buffer's length. *)
Theorem rng_fills_buffer d m q addr len :
  0 <= len -> addr <> 0 -> mem_ok m ->
  script_ok (rng_script d) ->
  exists d' m', rng_complete d m q addr len = Some (d', m', len) /\
    (exists n, fill_with_entropy d m addr len = (d', m', n) /\ Z.of_nat n = len) /\
    frame m m' addr len /\ mem_ok m'.
Proof.
  intros Hl Ha Hm Hs. unfold rng_complete.
  destruct (fill_with_entropy d m addr len) as [[d' m'] n] eqn:E. exists d', m'.
  destruct (fill_with_entropy_spec _ _ _ _ _ _ _ Hl E) as [Hn Hf].
  split_and!; eauto.
  unfold fill_with_entropy in E. case_match; [by simplify_eq|].
  destruct (fill_loop _ _ _ _ _ _) as [[sc mm] k] eqn:El. simplify_eq.
  apply fill_loop_complete in El as (_ & _ & Hok); [auto|lia|lia].
Qed.

Lemma rng_fills_buffer_witness :
  exists d' m', rng_complete (mk_rng [Got [9]; RandFailed]) ∅ 0 64 4 = Some (d', m', 4)
    /\ frame ∅ m' 64 4.
Proof.
  destruct (rng_fills_buffer (mk_rng [Got [9]; RandFailed]) ∅ 0 64 4) as (d' & m' & H1 & _ & H2 & _).
  - lia.
  - discriminate.
  - apply map_Forall_empty.
  - repeat constructor; vm_compute; congruence.
  - exists d', m'. split; [exact H1|exact H2].
Defined.
