(* ===== verification/DataPlane.v ===== *)
(** The dispatcher of [src/tensix_data_plane.rs] with the interrupt pulse of
    [src/virtio/interrupt.rs] and the memory map of [src/l2cpu.rs].

    The L1 of the tile is a byte map; guest memory is one byte map per L2CPU; an
    interrupt is recorded as a pulse of the PLIC source register.  A
    computation that makes the daemon fault or panic is [Fault]; [Diverges]
    marks a loop that used up its bound. *)

From S2P Require Import Prelude Layout Virtqueue ConsoleHub.

Inductive outcome (A : Type) :=
| Done (a : A)
| Fault
| Diverges.
Arguments Done {A} a.
Arguments Fault {A}.
Arguments Diverges {A}.

(** ** L2CPU memory map *)

Definition L2CPU_STARTING_ADDRESS (i : Z) : Z :=
  if i =? 3 then 0x4000b0000000 else 0x400030000000.

Definition L2CPU_MEMORY_SIZE (i : Z) : Z := if i <? 2 then 0x100000000 else 0x80000000.

(** ** Counters and rings *)

Definition clamp_consumer_to_ring (producer consumer ring_entries : Z) : Z :=
  if ring_entries <? u32 (producer - consumer) then u32 (producer - ring_entries) else consumer.

Definition take_delta (current last : Z) : option Z * Z :=
  if current =? last then (None, last) else (Some (u32 (current - last)), current).

(** ** The interrupt pulse *)

Record Plic := mk_plic { plic_reg : Z; pulses : list Z }.

(** [set_interrupt]: the status bit, then assert and de-assert of the source. *)
Definition set_interrupt (l1 : gmap Z Z) (status_addr number : Z) (p : Plic)
    : outcome (gmap Z Z * Plic) :=
  if number <? 5 then Fault
  else
    let l1 := wr32 l1 status_addr (Z.lor 1 (rd32 l1 status_addr)) in
    let bit := Z.shiftl 1 ((number - 5) mod 32) in
    Done (l1, mk_plic 0 (pulses p ++ [bit])).

(** ** Registered devices *)

Inductive InterruptKind := Block | Net | Console | Rng.

#[export] Instance InterruptKind_eq_dec : EqDecision InterruptKind.
Proof. solve_decision. Defined.

#[export] Instance InterruptKind_countable : Countable InterruptKind.
Proof.
  refine (inj_countable'
    (fun k => match k with Block => 0 | Net => 1 | Console => 2 | Rng => 3 end)
    (fun n => if n =? 0 then Block else if n =? 1 then Net else if n =? 2 then Console else Rng) _).
  by intros [].
Defined.

Definition interrupt_kind_name (k : InterruptKind) : list Z :=
  match k with
  | Block => chars "block" | Net => chars "net" | Console => chars "console" | Rng => chars "rng"
  end.

Record RegEntry (D : Type) := mk_entry {
  re_slot : Z;
  re_l2cpu : Z;
  re_device : D;
  re_interrupt_number : Z;
  re_kind : InterruptKind;
  processed : list Z;
}.
Arguments mk_entry {D}.
Arguments re_slot {D}.
Arguments re_l2cpu {D}.
Arguments re_device {D}.
Arguments re_interrupt_number {D}.
Arguments re_kind {D}.
Arguments processed {D}.

Section Dispatch.
Context {D : Type} `{VirtioDeviceImpl D}.

Definition entry_new (s l2cpu : Z) (dev : D) (number : Z) (kind : InterruptKind) : RegEntry D :=
  mk_entry s l2cpu dev number kind (replicate (Z.to_nat (num_queues dev)) 0).

Definition set_cursor (reg : RegEntry D) (q : nat) (dev : D) (p : Z) : RegEntry D :=
  mk_entry (re_slot reg) (re_l2cpu reg) dev (re_interrupt_number reg) (re_kind reg)
    (<[q := p]> (processed reg)).

(** The inner loop of [dispatch_chain]: process chains until one call reports
    that nothing was posted. *)
Fixpoint drain_avail (fuel : nat) (q : Queue) (s : ChainState D) (posted : bool)
    : outcome (ChainState D * bool) :=
  match fuel with
  | O => Diverges
  | S fuel =>
      match process_one_chain_for_queue q s with
      | None => Fault
      | Some (s', false) => Done (s', posted)
      | Some (s', true) => drain_avail fuel q s' true
      end
  end.

(** A 16-bit cursor cannot advance more than 65535 times before it meets the
    avail index. *)
Definition drain_fuel : nat := Z.to_nat 65536.

Definition read_shadow (l1 : gmap Z Z) (s q off : Z) : Z := rd32 l1 (shadow_queue_addr s q off).

Definition ring_addr (l1 : gmap Z Z) (s q lo hi : Z) : Z :=
  Z.lor (Z.shiftl (read_shadow l1 s q hi) 32) (read_shadow l1 s q lo).

Definition in_range (start mem_end a size : Z) : bool :=
  (start <=? a) && (saturating_add64 a size <=? mem_end).

(** The queue that the shadow registers of slot [s] describe, if they pass the
    checks of [dispatch_chain]. *)
Definition shadow_queue (l1 : gmap Z Z) (reg : RegEntry D) (queue_idx : Z) : option Queue :=
  let s := re_slot reg in
  let desc := ring_addr l1 s queue_idx SHADOW_Q_OFF_DESC_LO SHADOW_Q_OFF_DESC_HI in
  let avail := ring_addr l1 s queue_idx SHADOW_Q_OFF_DRIVER_LO SHADOW_Q_OFF_DRIVER_HI in
  let used := ring_addr l1 s queue_idx SHADOW_Q_OFF_DEVICE_LO SHADOW_Q_OFF_DEVICE_HI in
  let queue_num := read_shadow l1 s queue_idx SHADOW_Q_OFF_NUM in
  if (desc =? 0) || (avail =? 0) || (used =? 0) then None
  else if (queue_num =? 0) || (U16_MAX <? queue_num) then None
  else
    let start := L2CPU_STARTING_ADDRESS (re_l2cpu reg) in
    let mem_end := start + L2CPU_MEMORY_SIZE (re_l2cpu reg) in
    if negb (in_range start mem_end desc 16) || negb (in_range start mem_end avail 4)
       || negb (in_range start mem_end used 4) then None
    else Some (mk_queue desc avail used queue_idx (queue_header_size (re_device reg)) queue_num
                 start mem_end).

(** The chip as the dispatcher sees it: the tile's L1, each L2CPU's guest
    memory and PLIC source register, and the interrupt counters. *)
Record World := mk_world {
  w_l1 : gmap Z Z;
  w_guest : gmap Z (gmap Z Z);
  w_plic : gmap Z Plic;
  w_irqs : gmap (InterruptKind * Z) Z;
}.

Definition guest (w : World) (i : Z) : gmap Z Z := default ∅ (w_guest w !! i).
Definition plic (w : World) (i : Z) : Plic := default (mk_plic 0 []) (w_plic w !! i).
Definition irqs (w : World) (k : InterruptKind) (i : Z) : Z := default 0 (w_irqs w !! (k, i)).

Definition set_l1 (w : World) (l1 : gmap Z Z) : World :=
  mk_world l1 (w_guest w) (w_plic w) (w_irqs w).
Definition set_guest (w : World) (i : Z) (m : gmap Z Z) : World :=
  mk_world (w_l1 w) (<[i := m]> (w_guest w)) (w_plic w) (w_irqs w).

Definition bump_interrupt_metric (w : World) (k : InterruptKind) (i : Z) : World :=
  mk_world (w_l1 w) (w_guest w) (w_plic w) (<[(k, i) := u64 (irqs w k i + 1)]> (w_irqs w)).

(** Set the status bit of the slot, pulse the PLIC and count the interrupt. *)
Definition raise_interrupt (w : World) (reg : RegEntry D) : outcome World :=
  match set_interrupt (w_l1 w) (u32 (slot_regs_base (re_slot reg) + MMIO_INTERRUPT_STATUS))
          (re_interrupt_number reg) (plic w (re_l2cpu reg)) with
  | Done (l1, p) =>
      Done (bump_interrupt_metric
        (mk_world l1 (w_guest w) (<[re_l2cpu reg := p]> (w_plic w)) (w_irqs w))
        (re_kind reg) (re_l2cpu reg))
  | Fault => Fault
  | Diverges => Diverges
  end.

(** [dispatch_chain]: [Some used_idx] when a completion was posted and the
    interrupt raised. *)
Definition dispatch_chain (w : World) (reg : RegEntry D) (queue_idx : Z)
    : outcome (World * RegEntry D * option Z) :=
  match processed reg !! Z.to_nat queue_idx with
  | None => Done (w, reg, None)
  | Some cursor =>
      match shadow_queue (w_l1 w) reg queue_idx with
      | None => Done (w, reg, None)
      | Some q =>
          match drain_avail drain_fuel q
                  (mk_cs cursor (re_device reg) (guest w (re_l2cpu reg))) false with
          | Fault => Fault
          | Diverges => Diverges
          | Done (s, posted) =>
              let reg := set_cursor reg (Z.to_nat queue_idx) (cs_dev s) (cs_processed s) in
              let w := set_guest w (re_l2cpu reg) (cs_mem s) in
              if negb posted then Done (w, reg, None)
              else
                match raise_interrupt w reg with
                | Done w => Done (w, reg, Some (used_idx (cs_mem s) (q_used q)))
                | Fault => Fault
                | Diverges => Diverges
                end
          end
      end
  end.
End Dispatch.

(** ** The dirty bitmap *)

Fixpoint collect_queues (l1 : gmap Z Z) (s q : Z) (n : nat) : gmap Z Z * list (Z * Z) :=
  match n with
  | O => (l1, [])
  | S n =>
      let addr := dirty_byte_addr s q in
      let '(l1, hit) :=
        if rd8 l1 addr =? 0 then (l1, []) else (wr8 l1 addr 0, [(s, u16 q)]) in
      let '(l1, hits) := collect_queues l1 s (q + 1) n in
      (l1, hit ++ hits)
  end.

Fixpoint collect_dirty_pairs (l1 : gmap Z Z) (slots : list (Z * Z)) : gmap Z Z * list (Z * Z) :=
  match slots with
  | [] => (l1, [])
  | (s, n_queues) :: slots =>
      let n := Z.min n_queues MAX_QUEUES_PER_SLOT in
      let '(l1, h1) := collect_queues l1 s 0 (Z.to_nat n) in
      let '(l1, h2) := collect_dirty_pairs l1 slots in
      (l1, h1 ++ h2)
  end.

(** ** Active-slot masks *)

Definition or_slot (mask s : Z) : Z := if s <? 32 then Z.lor mask (Z.shiftl 1 s) else mask.

Definition virtio_mask (slots : list Z) : Z := foldl or_slot 0 slots.

Definition full_mask (slots uarts : list Z) : Z :=
  foldl (fun m i => or_slot m (slot_for_l2cpu i)) (virtio_mask slots) uarts.

Definition publish_active_mask (l1 : gmap Z Z) (slots uarts : list Z) : gmap Z Z :=
  let l1 := wr32 l1 (CTRL_BASE + CTRL_OFF_ACTIVE_SLOTS) (full_mask slots uarts) in
  wr32 l1 (CTRL_BASE + CTRL_OFF_ACTIVE_VIRTIO_SLOTS) (virtio_mask slots).

(** The registries, with the hub of each registered UART, and the operations
    that keep the published masks in step with them. *)
Record Dispatcher (D : Type) := mk_disp {
  registry : gmap Z (RegEntry D);
  uart_registry : gmap Z ConsoleHub;
  world : World;
}.
Arguments mk_disp {D}.
Arguments registry {D}.
Arguments uart_registry {D}.
Arguments world {D}.

Definition publish {D} (r : gmap Z (RegEntry D)) (u : gmap Z ConsoleHub) (w : World) : Dispatcher D :=
  mk_disp r u (set_l1 w
    (publish_active_mask (w_l1 w) (List.map fst (map_to_list r)) (List.map fst (map_to_list u)))).

Definition register_slot {D} (d : Dispatcher D) (e : RegEntry D) : Dispatcher D :=
  publish (<[re_slot e := e]> (registry d)) (uart_registry d) (world d).
Definition unregister_slot {D} (d : Dispatcher D) (s : Z) : Dispatcher D :=
  publish (delete s (registry d)) (uart_registry d) (world d).
Definition register_uart {D} (d : Dispatcher D) (i : Z) (hub : ConsoleHub) : Dispatcher D :=
  publish (registry d) (<[i := hub]> (uart_registry d)) (world d).
Definition unregister_uart {D} (d : Dispatcher D) (i : Z) : Dispatcher D :=
  publish (registry d) (delete i (uart_registry d)) (world d).

(** ** The UART feed *)

(** The cell of sequence number [n] of the feed ring of an L2CPU. *)
Definition feed_byte (l1 : gmap Z Z) (priv_base n : Z) : Z :=
  let idx := Z.land (u32 n) (UART_FEED_RING_ENTRIES - 1) in
  Z.land (rd32 l1 (u32 (priv_base + UART_PRIV_OFF_FEED_RING + idx * 4))) 0xff.

Definition feed_bytes (l1 : gmap Z Z) (priv_base consumer : Z) (n : nat) : list Z :=
  List.map (fun i => feed_byte l1 priv_base (consumer + Z.of_nat i)) (seq 0 n).

(** The drain loop, in chunks of at most 256 bytes, each pushed to the hub. *)
Fixpoint feed_loop (fuel : nat) (l1 : gmap Z Z) (priv_base consumer producer : Z) (h : ConsoleHub)
    : outcome (ConsoleHub * Z) :=
  if consumer =? producer then Done (h, consumer)
  else match fuel with
  | O => Diverges
  | S fuel =>
      let n := Z.min (u32 (producer - consumer)) 256 in
      let h := (push_chip_output h (feed_bytes l1 priv_base consumer (Z.to_nat n))).1 in
      feed_loop fuel l1 priv_base (u32 (consumer + n)) producer h
  end.

(** The UART part of one poll iteration for one L2CPU: the new L1, consumer
    cursor and hub, and whether anything was drained.  A clamped ring holds at
    most 1024 bytes, which is four chunks. *)
Definition drain_uart (l1 : gmap Z Z) (l2cpu_idx consumer : Z) (h : ConsoleHub)
    : outcome (gmap Z Z * Z * ConsoleHub * bool) :=
  if NUM_L2CPUS <=? l2cpu_idx then Done (l1, consumer, h, false)
  else
    let priv_base := uart_private_base l2cpu_idx in
    let producer := rd32 l1 (u32 (priv_base + UART_PRIV_OFF_FEED_PRODUCER_SEQ)) in
    if producer =? consumer then Done (l1, consumer, h, false)
    else
      let consumer := clamp_consumer_to_ring producer consumer UART_FEED_RING_ENTRIES in
      match feed_loop 4 l1 priv_base consumer producer h with
      | Done (h, consumer) =>
          Done (wr32 l1 (u32 (priv_base + UART_PRIV_OFF_FEED_CONSUMER_SEQ)) consumer, consumer, h, true)
      | Fault => Fault
      | Diverges => Diverges
      end.

(** ** One iteration of the poll loop

    The statistics of the dispatcher, the locals of [run_poll_loop] and the
    process-wide counters it feeds.  A [HashMap] iterates in no fixed order, so
    a pass over a registry takes the order of its keys as an argument. *)

Record PollerStats := mk_stats {
  dispatches_total : Z;
  poll_iterations : Z;
  last_dispatch_slot_queue : Z;
}.

(** [last_counter] holds the [last_*] locals, by the offset of the word in the
    statistics block. *)
Record Locals := mk_locals {
  uart_consumer : gmap Z Z;
  last_counter : gmap Z Z;
  last_uart_drops : gmap Z Z;
  last_status : gmap Z Z;
  last_active : Z;
}.

(** [counter_total] holds the exported totals, by the same offset. *)
Record Metrics := mk_metrics {
  dispatch_passes_total : Z;
  dispatch_queues_drained : Z;
  counter_total : gmap Z Z;
  uart_feed_drops_total : gmap Z Z;
}.

Section Poll.
Context {D : Type} `{VirtioDeviceImpl D}.

Definition with_world (d : Dispatcher D) (w : World) (reg : gmap Z (RegEntry D)) : Dispatcher D :=
  mk_disp reg (uart_registry d) w.

(** The second pass of [drain_dirty_bitmap]: dispatch each hit, publish the
    cursor and count. *)
Fixpoint dispatch_hits (d : Dispatcher D) (st : PollerStats) (dispatched : Z) (hits : list (Z * Z))
    : outcome (Dispatcher D * PollerStats * Z) :=
  match hits with
  | [] => Done (d, st, dispatched)
  | (s, q) :: hits =>
      match registry d !! s with
      | None => dispatch_hits d st dispatched hits
      | Some reg =>
          match dispatch_chain (world d) reg q with
          | Fault => Fault
          | Diverges => Diverges
          | Done (w, reg, None) =>
              dispatch_hits (with_world d w (<[s := reg]> (registry d))) st dispatched hits
          | Done (w, reg, Some _) =>
              let cur := default 0 (processed reg !! Z.to_nat q) in
              let w := set_l1 w (wr16 (w_l1 w) (processed_cursor_addr s q) cur) in
              let st := mk_stats (u64 (dispatches_total st + 1)) (poll_iterations st)
                          (Z.lor (u64 (Z.shiftl s 16)) q) in
              dispatch_hits (with_world d w (<[s := reg]> (registry d))) st (u64 (dispatched + 1)) hits
          end
      end
  end.

Definition slots_with_queue_count (d : Dispatcher D) (order : list Z) : list (Z * Z) :=
  omap (fun s => reg ← registry d !! s; Some (s, u32 (Z.of_nat (length (processed reg))))) order.

Definition drain_dirty_bitmap (d : Dispatcher D) (st : PollerStats) (order : list Z)
    : outcome (Dispatcher D * PollerStats * Z) :=
  let '(l1, hits) := collect_dirty_pairs (w_l1 (world d)) (slots_with_queue_count d order) in
  dispatch_hits (with_world d (set_l1 (world d) l1) (registry d)) st 0 hits.

(** The asynchronous RX pass: queue 0 of every net and console device. *)
Fixpoint poll_rx (d : Dispatcher D) (rx_drained : bool) (order : list Z)
    : outcome (Dispatcher D * bool) :=
  match order with
  | [] => Done (d, rx_drained)
  | s :: order =>
      match registry d !! s with
      | None => poll_rx d rx_drained order
      | Some reg =>
          match re_kind reg with
          | Net | Console =>
              match dispatch_chain (world d) reg 0 with
              | Fault => Fault
              | Diverges => Diverges
              | Done (w, reg, r) =>
                  poll_rx (with_world d w (<[s := reg]> (registry d)))
                    (match r with Some _ => true | None => rx_drained end) order
              end
          | Block | Rng => poll_rx d rx_drained order
          end
      end
  end.

(** The UART pass over the registered hubs. *)
Fixpoint poll_uarts (d : Dispatcher D) (consumers : gmap Z Z) (active : bool) (order : list Z)
    : outcome (Dispatcher D * gmap Z Z * bool) :=
  match order with
  | [] => Done (d, consumers, active)
  | i :: order =>
      match uart_registry d !! i with
      | None => poll_uarts d consumers active order
      | Some hub =>
          match drain_uart (w_l1 (world d)) i (default 0 (consumers !! i)) hub with
          | Fault => Fault
          | Diverges => Diverges
          | Done (l1, consumer, hub, drained) =>
              poll_uarts
                (mk_disp (registry d) (<[i := hub]> (uart_registry d)) (set_l1 (world d) l1))
                (if drained then <[i := consumer]> consumers else consumers)
                (active || drained) order
          end
      end
  end.

(** The status pass: a slot whose status register went to 0 has its cursors
    wiped; the others are left alone. *)
Definition wipe (reg : RegEntry D) : RegEntry D :=
  mk_entry (re_slot reg) (re_l2cpu reg) (re_device reg) (re_interrupt_number reg) (re_kind reg)
    (List.map (fun _ => 0) (processed reg)).

Definition probe_status (l1 : gmap Z Z) (st : gmap Z (RegEntry D) * gmap Z Z) (s : Z)
    : gmap Z (RegEntry D) * gmap Z Z :=
  let '(reg, last) := st in
  let status := rd32 l1 (u32 (slot_regs_base s + MMIO_STATUS)) in
  let prev := default 0 (last !! s) in
  if status =? prev then (reg, last)
  else
    let reg := if (status =? 0) && negb (prev =? 0)
               then match reg !! s with Some e => <[s := wipe e]> reg | None => reg end
               else reg in
    (reg, <[s := status]> last).

Definition status_pass (l1 : gmap Z Z) (reg : gmap Z (RegEntry D)) (last : gmap Z Z) (order : list Z)
    : gmap Z (RegEntry D) * gmap Z Z :=
  foldl (probe_status l1) (reg, last) order.
End Poll.

(** A counter of the statistics block whose increase since the last pass is
    added to an exported total. *)
Definition export_counter (l1 : gmap Z Z) (st : gmap Z Z * gmap Z Z) (off : Z) : gmap Z Z * gmap Z Z :=
  let '(last, total) := st in
  match take_delta (rd32 l1 (STATS_BASE + off)) (default 0 (last !! off)) with
  | (None, _) => (last, total)
  | (Some delta, now) => (<[off := now]> last, <[off := u64 (default 0 (total !! off) + delta)]> total)
  end.

(** A counter that is only logged, on each change or on each new maximum. *)
Definition log_counter (l1 : gmap Z Z) (last : gmap Z Z) (off : Z) : gmap Z Z :=
  let now := rd32 l1 (STATS_BASE + off) in
  if now =? default 0 (last !! off) then last else <[off := now]> last.

Definition log_maximum (l1 : gmap Z Z) (last : gmap Z Z) (off : Z) : gmap Z Z :=
  let now := rd32 l1 (STATS_BASE + off) in
  if default 0 (last !! off) <? now then <[off := now]> last else last.

(** The statistics pass, in the order of the loop body. *)
Definition stats_pass (l1 : gmap Z Z) (last total : gmap Z Z) : gmap Z Z * gmap Z Z :=
  let '(last, total) := export_counter l1 (last, total) STATS_OFF_NOTIFY_EVENTS in
  let '(last, total) := export_counter l1 (last, total) STATS_OFF_SEL_READY_RACES in
  let last := log_maximum l1 last STATS_OFF_MAX_SWEEP_CYCLES in
  let last := log_maximum l1 last STATS_OFF_MAX_STEADY_SWEEP_CYCLES in
  let last := log_maximum l1 last STATS_OFF_MAX_SEL_PATH_CYCLES in
  let last := log_counter l1 last STATS_OFF_QUEUE_SETUPS in
  let last := log_counter l1 last STATS_OFF_QUEUE_TEARDOWNS in
  let '(last, total) := export_counter l1 (last, total) STATS_OFF_BRISC_OLD_SEL_RESCUE in
  let last := log_counter l1 last STATS_OFF_READY_CAPTURE_SEL_RACES in
  (last, total).

(** The drop counter of each registered UART. *)
Definition uart_drops (l1 : gmap Z Z) (st : gmap Z Z * gmap Z Z) (i : Z) : gmap Z Z * gmap Z Z :=
  let '(last, total) := st in
  if NUM_L2CPUS <=? i then (last, total)
  else
    let drops := rd32 l1 (u32 (uart_private_base i + UART_PRIV_OFF_FEED_DROP_COUNT)) in
    let prev := default 0 (last !! i) in
    if drops =? prev then (last, total)
    else (<[i := drops]> last, <[i := u64 (default 0 (total !! i) + u32 (drops - prev))]> total).

(** Microseconds to sleep after [idle] microseconds without traffic. *)
Definition poll_sleep (idle : Z) : Z :=
  if idle <? 200 * 1000 then 10
  else if idle <? 2 * 1000 * 1000 then 1000
  else 10 * 1000.

(** One iteration at time [now], with the iteration orders of the four passes
    over the registries; returns the sleep. *)
Definition poll_iteration {D} `{VirtioDeviceImpl D} (d : Dispatcher D) (st : PollerStats)
    (loc : Locals) (mt : Metrics) (now : Z) (o_dirty o_rx o_uart o_status o_drops : list Z)
    : outcome (Dispatcher D * PollerStats * Locals * Metrics * Z) :=
  match drain_dirty_bitmap d st o_dirty with
  | Fault => Fault
  | Diverges => Diverges
  | Done (d, st, dispatched) =>
      match poll_rx d false o_rx with
      | Fault => Fault
      | Diverges => Diverges
      | Done (d, rx_drained) =>
          match poll_uarts d (uart_consumer loc) false o_uart with
          | Fault => Fault
          | Diverges => Diverges
          | Done (d, consumers, uart_active) =>
              let active := (0 <? dispatched) || rx_drained || uart_active in
              let l1 := w_l1 (world d) in
              let '(last, total) := stats_pass l1 (last_counter loc) (counter_total mt) in
              let '(reg, status) := status_pass l1 (registry d) (last_status loc) o_status in
              let '(ldrops, tdrops) :=
                foldl (uart_drops l1) (last_uart_drops loc, uart_feed_drops_total mt) o_drops in
              let active_at := if active then now else last_active loc in
              Done (with_world d (world d) reg,
                    mk_stats (dispatches_total st) (u64 (poll_iterations st + 1))
                      (last_dispatch_slot_queue st),
                    mk_locals consumers last ldrops status active_at,
                    mk_metrics
                      (if 0 <? dispatched then u64 (dispatch_passes_total mt + 1)
                       else dispatch_passes_total mt)
                      (if 0 <? dispatched then u64 (dispatch_queues_drained mt + dispatched)
                       else dispatch_queues_drained mt)
                      total tdrops,
                    poll_sleep (now - active_at))
          end
      end
  end.
