(* ===== verification/L2cpu.v ===== *)
(** One L2CPU of the chip: [src/l2cpu.rs], and the windows of its own NoC TLB,
    [src/x280_tlb.rs].

    Construction and destruction are modelled on the ledger of [Tlb], every
    failure path included; register access and the 8 GB memory window are shown
    to reach the addresses of the L2CPU's tile that the callers mean. *)

From S2P Require Import Prelude Sigbus Tlb Layout Virtqueue DataPlane.

Definition L2CPU_TILES (i : Z) : Z * Z :=
  if i =? 0 then (8, 3) else if i =? 1 then (8, 9) else if i =? 2 then (8, 5) else (8, 7).

Record L2Cpu := mk_l2cpu {
  l2_fd : Z; l2_idx : Z; starting_address : Z; memory_size : Z; coordinates : Z * Z;
  memory : Z; l2_first : TlbWindow; l2_second : TlbWindow }.

(** [2usize << 32], the reserved span, and the windows' addresses. *)
Definition SPAN : Z := Z.shiftl 2 32.
Definition MEM_BASE : Z := 0x400000000000.

Section with_kernel.
Context `{K : Kernel}.

(** [SharedChip::dup_fd]; [None] is a chip whose descriptor is being rotated. *)
Definition dup_fd (chip : option Z) (os : Os) : io Z :=
  match chip with
  | None => IoErr (-1) os
  | Some fd =>
      match k_dup os fd with
      | Ok d => Ret d (set_fds ({[d]} ∪ fds os) os)
      | Err _ => IoErr (-1) (tick os)
      end
  end.

Definition l2cpu_new (idx : Z) (chip : option Z) (os : Os) : io L2Cpu :=
  if negb (idx <? 4) then Panic else
  io_bind (dup_fd chip os) (fun fd os =>
  let xy := L2CPU_TILES idx in
  match k_mmap os SPAN with
  | Err e => IoErr e (close fd (tick os))
  | Ok mem =>
      let os := set_segs (mk_seg mem SPAN 0 None :: segs os) os in
      match new_4g fd xy.1 xy.2 MEM_BASE mem true os with
      | Panic => Panic
      | IoErr e os => IoErr e (close fd (munmap mem SPAN os))
      | Ret first os =>
          match new_4g fd xy.1 xy.2 0x400100000000 (mem + Z.shiftl 1 32) true os with
          | Panic => Panic
          | IoErr e os => IoErr e (close fd (munmap mem SPAN (window_drop first os)))
          | Ret second os =>
              Ret (mk_l2cpu fd idx (L2CPU_STARTING_ADDRESS idx) (L2CPU_MEMORY_SIZE idx) xy
                      mem first second)
                (register_chip_range mem SPAN os)
          end
      end
  end).

Definition l2cpu_drop (l : L2Cpu) (os : Os) : Os :=
  let os := unregister_chip_range (memory l) os in
  let os := window_drop (l2_second l) os in
  let os := window_drop (l2_first l) os in
  close (l2_fd l) (munmap (memory l) SPAN os).

Definition get_memory_ptr (l : L2Cpu) : Z := memory l + (starting_address l - MEM_BASE).

Definition get_persistent_2m_window (l : L2Cpu) (addr : Z) (os : Os) : io TlbWindow :=
  new_2m (l2_fd l) (coordinates l).1 (coordinates l).2 addr os.

Definition l2cpu_write32 (l : L2Cpu) (addr value : Z) (os : Os) : io unit :=
  io_bind (new_2m (l2_fd l) (coordinates l).1 (coordinates l).2 addr os) (fun w os =>
  match window_write32 w 0 value os with
  | None => Panic
  | Some os => Ret tt (window_drop w os)
  end).

Definition l2cpu_read32 (l : L2Cpu) (addr : Z) (os : Os) : io Z :=
  io_bind (new_2m (l2_fd l) (coordinates l).1 (coordinates l).2 addr os) (fun w os =>
  match window_read32 w 0 os with
  | None => Panic
  | Some v => Ret v (window_drop w os)
  end).

(** ** The L2CPU's own TLB windows *)

Definition SMALL_TLB_CFG_BASE : Z := 0x20000000.
Definition SMALL_TLB_CFG_STRIDE : Z := 16.
Definition SMALL_TLB_COUNT : Z := 224.
Definition SMALL_TLB_WINDOW_BASE_UC : Z := 0x430000000.
Definition SMALL_TLB_WINDOW_SHIFT : Z := 21.
Definition SMALL_TLB_WINDOW_SIZE : Z := Z.shiftl 1 SMALL_TLB_WINDOW_SHIFT.
Definition SHARED_TLB_SLOT : Z := 0.

Definition program_small_tlb_unicast (l : L2Cpu) (idx target_x target_y noc_addr : Z) (os : Os)
    : io Z :=
  if negb (idx <? SMALL_TLB_COUNT) then Panic else
  let cfg_base := SMALL_TLB_CFG_BASE + idx * SMALL_TLB_CFG_STRIDE in
  let window_size_mask := SMALL_TLB_WINDOW_SIZE - 1 in
  let aligned_noc := Z.land noc_addr (U64_MAX - window_size_mask) in
  let in_window_offset := noc_addr - aligned_noc in
  let local_offset := Z.shiftr aligned_noc SMALL_TLB_WINDOW_SHIFT in
  let props_lo := Z.lor (Z.land target_x 0x3F) (u32 (Z.shiftl (Z.land target_y 0x3F) 6)) in
  let props_hi := 0 in
  io_bind (l2cpu_write32 l cfg_base (u32 local_offset) os) (fun _ os =>
  io_bind (l2cpu_write32 l (cfg_base + 4) (u32 (Z.shiftr local_offset 32)) os) (fun _ os =>
  io_bind (l2cpu_write32 l (cfg_base + 8) props_lo os) (fun _ os =>
  io_bind (l2cpu_write32 l (cfg_base + 12) props_hi os) (fun _ os =>
  Ret (SMALL_TLB_WINDOW_BASE_UC + idx * SMALL_TLB_WINDOW_SIZE + in_window_offset) os)))).

(** [TensixEngine::program_l2cpu_tlb], with the engine's translated tile. *)
Definition program_l2cpu_tlb (translated_x translated_y : Z) (l : L2Cpu) (l2cpu_idx : Z) (os : Os)
    : io Z :=
  program_small_tlb_unicast l SHARED_TLB_SLOT translated_x translated_y
    (l2cpu_window_base l2cpu_idx) os.

End with_kernel.

(** How the hardware decodes an access to a small window, from the register
    layout that [x280_tlb.rs] documents: tile and NoC address. *)
Definition small_tlb_decode (m : gmap Z Z) (pa : Z) : (Z * Z) * Z :=
  let idx := (pa - SMALL_TLB_WINDOW_BASE_UC) / SMALL_TLB_WINDOW_SIZE in
  let cfg := SMALL_TLB_CFG_BASE + idx * SMALL_TLB_CFG_STRIDE in
  let props := rd32 m (cfg + 8) in
  ((props mod 64, props / 64 mod 64),
   rd64 m cfg * SMALL_TLB_WINDOW_SIZE + (pa - SMALL_TLB_WINDOW_BASE_UC) mod SMALL_TLB_WINDOW_SIZE).

(** ** Alignment *)

Lemma land_low_mask a k : 0 <= k -> Z.land a (2 ^ k - 1) = a mod 2 ^ k.
Proof. intros. rewrite <- Z.land_ones by done. by rewrite Z.ones_equiv, Z.sub_1_r. Qed.

Lemma land_high_mask a k : 0 <= k <= 64 -> fits 64 a ->
  Z.land a (U64_MAX - (2 ^ k - 1)) = a - a mod 2 ^ k.
Proof.
  intros Hk Ha. replace (U64_MAX - (2 ^ k - 1)) with (Z.shiftl (Z.ones (64 - k)) k).
  2:{ rewrite Z.shiftl_mul_pow2, Z.ones_equiv by lia. unfold U64_MAX.
      assert (2 ^ 64 = 2 ^ (64 - k) * 2 ^ k) by (rewrite <- Z.pow_add_r by lia; f_equal; lia).
      lia. }
  apply Z.bits_inj'. intros n Hn. rewrite Z.land_spec, Z.shiftl_spec by done.
  pose proof (Z.div_mod a (2 ^ k)) as Hdm.
  replace (a - a mod 2 ^ k) with (Z.shiftl (Z.shiftr a k) k).
  2:{ rewrite Z.shiftl_mul_pow2, Z.shiftr_div_pow2 by lia. lia. }
  rewrite Z.shiftl_spec by done. destruct (Z.ltb_spec n k).
  - rewrite !(Z.testbit_neg_r _ (n - k)) by lia. apply andb_false_r.
  - rewrite Z.shiftr_spec by lia. replace (n - k + k) with n by lia.
    destruct (Z.ltb_spec n 64).
    + rewrite Z.ones_spec_low by lia. apply andb_true_r.
    + rewrite Z.ones_spec_high by lia. unfold fits in Ha.
      rewrite andb_false_r. symmetry. destruct (Z.eq_dec a 0) as [->|]; [apply Z.bits_0|].
      apply Z.bits_above_log2; [lia|]. apply Z.log2_lt_pow2; [lia|].
      apply (Z.lt_le_trans _ (2 ^ 64)); [lia|]. apply Z.pow_le_mono_r; lia.
Qed.

Lemma two_meg_pow : TWO_MEG = 2 ^ 21.
Proof. done. Qed.

Lemma window_split a : fits 64 a ->
  Z.land a (TWO_MEG - 1) = a mod TWO_MEG /\
  Z.land a (U64_MAX - (TWO_MEG - 1)) = a - a mod TWO_MEG /\ 0 <= a mod TWO_MEG < TWO_MEG.
Proof.
  intros Ha. rewrite two_meg_pow.
  split; [by apply land_low_mask|]. split; [by apply land_high_mask|].
  by apply Z.mod_pos_bound.
Qed.

(** ** Register access *)

(** Registered fault ranges start at mapped addresses. *)
Definition ranges_mapped (os : Os) : Prop :=
  Forall (fun r => resolve (segs os) (start r) <> None) (ranges os).

#[export] Instance ranges_mapped_proper : Proper (same_resources ==> iff) ranges_mapped.
Proof.
  intros os os' [Hf Ht Hr Hs]. unfold ranges_mapped. rewrite Hr.
  split; intros H; (eapply Forall_impl; [exact H|]); intros r; cbv beta; by rewrite Hs.
Qed.

Section specs.
Context `{KL : KernelLaws}.

(** A window opened for one access, and what is behind it. *)
Lemma new_2m_spec fd x y addr os :
  fits 64 addr -> fd ∈ fds os ->
  match new_2m fd x y addr os with
  | Ret w os' =>
      w_offset w = addr mod TWO_MEG /\ window_size w = TWO_MEG /\ noc os' = noc os /\
      (forall i, 0 <= i < TWO_MEG ->
         target os' (tlb_base (window w) + i) = Some ((x, y), addr - addr mod TWO_MEG + i)) /\
      (forall os2, same_resources os2 os' -> same_resources (window_drop w os2) os) /\
      (forall va r, target os va = Some r -> target os' va = Some r) /\ fds os' = fds os /\
      ranges os' = ranges os /\
      (forall a, tlb_base (window w) <= a < tlb_base (window w) + TWO_MEG -> resolve (segs os) a = None) /\
      (forall a, resolve (segs os') a = None -> resolve (segs os) a = None)
  | IoErr _ os' => same_resources os' os /\ noc os' = noc os
  | Panic => False
  end.
Proof.
  intros Ha Hfd. unfold new_2m.
  pose proof (tlb_window_new_spec fd x y addr TWO_MEG None false os eq_refl Hfd) as H.
  destruct (tlb_window_new _ _ _ _ _ _ _ _) as [w os'|e os'|]; [|done..].
  destruct H as (id & b & Hop & Hfree). destruct (window_split addr Ha) as (Hl & Hh & _).
  pose proof (fun i => opened_target _ _ _ _ _ _ _ _ _ _ _ i Hop) as Ht.
  pose proof (fun os2 => open_drop_same _ _ os2 _ _ _ _ _ _ _ _ _ (ltac:(done) : 0 <= TWO_MEG) Hfd Hop Hfree) as Hd.
  pose proof (opened_keeps _ _ _ _ _ _ _ _ _ _ _ Hop Hfree) as Hk.
  destruct Hop as [-> _ _ Hf Hr Hn Hres]. cbn [w_offset window_size window tlb_base].
  rewrite <- Hh. do 3 (split; [done|]). split; [exact Ht|]. split; [exact Hd|]. do 4 (split; [done|]).
  intros a. rewrite Hres. by destruct (_ && _)%bool.
Qed.

Lemma aligned_room addr : addr mod 4 = 0 ->
  (addr mod TWO_MEG) mod 4 = 0 /\ addr mod TWO_MEG + 4 <= TWO_MEG.
Proof.
  intros H4. assert (Hm : (addr mod TWO_MEG) mod 4 = 0).
  { rewrite Z.mod_mod_divide; [done|]. by exists 524288. }
  pose proof (Z.mod_pos_bound addr TWO_MEG ltac:(done)) as Hb.
  pose proof (Z.div_mod (addr mod TWO_MEG) 4 ltac:(done)) as Hd.
  assert (Hw : TWO_MEG = 4 * 524288) by done. lia.
Qed.

Lemma window_off_start addr : addr mod 4 = 0 ->
  window_off (addr mod TWO_MEG) TWO_MEG 0 = Some (addr mod TWO_MEG).
Proof.
  intros [Hm Hb]%aligned_room. assert (Hw : TWO_MEG = 4 * 524288) by done.
  unfold window_off, checked_add64. rewrite Z.add_0_r.
  replace (addr mod TWO_MEG <=? U64_MAX) with true by (unfold U64_MAX; lia).
  replace (TWO_MEG <? addr mod TWO_MEG + 4) with false by lia. by rewrite Hm.
Qed.

(** A register write stores the word at the address, on the tile of the L2CPU,
    and gives the window back. *)
Lemma l2cpu_write32_spec l addr v os :
  fits 64 addr -> addr mod 4 = 0 -> l2_fd l ∈ fds os ->
  match l2cpu_write32 l addr v os with
  | Ret _ os' => same_resources os' os /\
      tile_mem os' (coordinates l) = wr32 (tile_mem os (coordinates l)) addr v /\
      forall t, t <> coordinates l -> tile_mem os' t = tile_mem os t
  | IoErr _ os' => same_resources os' os /\ noc os' = noc os
  | Panic => False
  end.
Proof.
  intros Ha H4 Hfd. unfold l2cpu_write32. destruct (coordinates l) as [x y]. cbn [fst snd].
  pose proof (new_2m_spec (l2_fd l) x y addr os Ha Hfd) as H.
  destruct (new_2m _ _ _ _ _) as [w os1|e os1|]; cbn [io_bind]; [|done..].
  destruct H as (Ho & Hsz & Hn & Ht & Hd & _).
  unfold window_write32. rewrite Ho, Hsz, window_off_start by done.
  destruct (window_split addr Ha) as (_ & _ & Hb). destruct (aligned_room addr H4) as [_ Hw].
  destruct (poke_contiguous (le_bytes 4 v) os1 (tlb_base (window w) + addr mod TWO_MEG) (x, y) addr)
    as (os2 & -> & [Hs Hc Hg Hm Hot]).
  { intros i Hi. rewrite length_le_bytes in Hi. rewrite <- Z.add_assoc, Ht by lia. do 2 f_equal. lia. }
  assert (Hmem : forall t, tile_mem (window_drop w os2) t = tile_mem os2 t).
  { intros t. unfold tile_mem. by rewrite window_drop_noc. }
  assert (Hmem1 : forall t, tile_mem os1 t = tile_mem os t) by (intros; unfold tile_mem; by rewrite Hn).
  split; [apply Hd; by symmetry|]. split.
  - by rewrite Hmem, Hm, Hmem1.
  - intros t Hne. by rewrite Hmem, Hot, Hmem1.
Qed.

Lemma l2cpu_read32_spec l addr os :
  fits 64 addr -> addr mod 4 = 0 -> l2_fd l ∈ fds os ->
  match l2cpu_read32 l addr os with
  | Ret v os' => same_resources os' os /\ noc os' = noc os /\ v = rd32 (tile_mem os (coordinates l)) addr
  | IoErr _ os' => same_resources os' os /\ noc os' = noc os
  | Panic => False
  end.
Proof.
  intros Ha H4 Hfd. unfold l2cpu_read32. destruct (coordinates l) as [x y]. cbn [fst snd].
  pose proof (new_2m_spec (l2_fd l) x y addr os Ha Hfd) as H.
  destruct (new_2m _ _ _ _ _) as [w os1|e os1|]; cbn [io_bind]; [|done..].
  destruct H as (Ho & Hsz & Hn & Ht & Hd & _).
  unfold window_read32. rewrite Ho, Hsz, window_off_start by done.
  destruct (window_split addr Ha) as (_ & _ & Hb). destruct (aligned_room addr H4) as [_ Hw].
  rewrite (peek_contiguous 4 os1 (tlb_base (window w) + addr mod TWO_MEG) (x, y) addr).
  2:{ intros i Hi. rewrite <- Z.add_assoc, Ht by lia. do 2 f_equal. lia. }
  split; [by apply Hd|]. split; [by rewrite window_drop_noc|]. unfold rd32, tile_mem. by rewrite Hn.
Qed.

End specs.

(** ** Construction and destruction *)

(** Registering a range at an unused start and unregistering it. *)
Lemma register_unregister rs b n :
  n <> 0 -> Forall (fun r => start r <> b) rs ->
  apply_op (apply_op rs (Register b n)) (Unregister b) = rs.
Proof.
  intros Hn Hrs. unfold apply_op at 2. cbn [is_noop publish_over].
  replace (n =? 0) with false by lia. unfold apply_op. cbn [is_noop publish_over].
  rewrite forallb_app, List.filter_app. cbn [forallb start List.filter].
  rewrite Z.eqb_refl. cbn [negb andb]. rewrite andb_false_r, app_nil_r.
  induction Hrs as [|r rs Hr Hrs IH]; [done|]. cbn [List.filter].
  replace (start r =? b) with false by lia. cbn [negb]. by rewrite IH.
Qed.

Definition outside (mem a : Z) : Prop := (mem <=? a) && (a <? mem + SPAN) = false.

(** Equal ledgers up to what the reserved span maps. *)
Record agrees (mem : Z) (os os' : Os) : Prop := mk_agrees {
  ag_fds : fds os = fds os';
  ag_tlbs : tlbs os = tlbs os';
  ag_ranges : ranges os = ranges os';
  ag_out : forall a, outside mem a -> resolve (segs os) a = resolve (segs os') a }.

Lemma same_agrees mem os os' : same_resources os os' -> agrees mem os os'.
Proof. intros []. by split. Qed.

(** The descriptor and the span are held, nothing else has changed. *)
Record reserved (os os1 : Os) (fd mem : Z) : Prop := mk_reserved {
  rs_new : fd ∉ fds os;
  rs_agrees : agrees mem os1 (set_fds ({[fd]} ∪ fds os) os);
  rs_free : forall a, mem <= a < mem + SPAN -> resolve (segs os) a = None }.

Lemma reserved_fd os os1 fd mem : reserved os os1 fd mem -> fd ∈ fds os1.
Proof.
  intros H. rewrite (ag_fds _ _ _ (rs_agrees _ _ _ _ H)).
  apply elem_of_union_l, elem_of_singleton_2, eq_refl.
Qed.

(** Unmapping the span and closing the descriptor. *)
Lemma teardown os os1 osX fd mem :
  reserved os os1 fd mem -> agrees mem osX os1 -> same_resources (close fd (munmap mem SPAN osX)) os.
Proof.
  intros [Hn [Hf Ht Hr Hout] Hfree] [Gf Gt Gr Gout].
  split; cbn [close munmap set_fds set_segs fds tlbs ranges segs] in *; try congruence.
  - rewrite Gf, Hf. by apply close_open.
  - intros a. rewrite resolve_munmap by done. destruct (_ && _)%bool eqn:E.
    + bool_to_prop. symmetry. apply Hfree. lia.
    + by rewrite Gout, Hout.
Qed.

Lemma span_split mem a : (mem <=? a) && (a <? mem + SPAN) =
  ((mem <=? a) && (a <? mem + FOUR_GIG)) ||
  ((mem + FOUR_GIG <=? a) && (a <? mem + FOUR_GIG + FOUR_GIG)).
Proof.
  assert (SPAN = FOUR_GIG + FOUR_GIG) by done. assert (0 < FOUR_GIG) by done.
  destruct (Z.leb_spec mem a), (Z.ltb_spec a (mem + SPAN)), (Z.ltb_spec a (mem + FOUR_GIG)),
    (Z.leb_spec (mem + FOUR_GIG) a), (Z.ltb_spec a (mem + FOUR_GIG + FOUR_GIG)); cbn; lia.
Qed.

Section lifecycle.
Context `{KL : KernelLaws}.

(** The two 4 GB windows over the reserved span. *)
Lemma spanned_windows os os1 os2 fd x y mem first second id id' :
  opened os os1 fd x y MEM_BASE FOUR_GIG true first id mem ->
  opened os1 os2 fd x y 0x400100000000 FOUR_GIG true second id' (mem + FOUR_GIG) ->
  (forall a, outside mem a -> resolve (segs os2) a = resolve (segs os) a) /\
  (forall i, 0 <= i < SPAN -> target os2 (mem + i) = Some ((x, y), MEM_BASE + i)).
Proof.
  intros Ho1 Ho2.
  pose proof (fun i => opened_target _ _ _ _ _ _ _ _ _ _ _ i Ho1) as T1.
  pose proof (fun i => opened_target _ _ _ _ _ _ _ _ _ _ _ i Ho2) as T2.
  destruct Ho1 as [-> F1 B1 D1 R1 N1 S1], Ho2 as [-> F2 B2 D2 R2 N2 S2].
  assert (Hne : id <> id').
  { intros ->. rewrite B1, lookup_insert_eq in F2. done. }
  split.
  - intros a. unfold outside. rewrite span_split, S2, S1.
    destruct ((mem <=? a) && (a <? mem + FOUR_GIG))%bool;
      destruct ((mem + FOUR_GIG <=? a) && (a <? mem + FOUR_GIG + FOUR_GIG))%bool; cbn; done.
  - intros i Hi. assert (HS : SPAN = FOUR_GIG + FOUR_GIG) by done. assert (HG : 0 < FOUR_GIG) by done.
    destruct (Z.ltb_spec i FOUR_GIG).
    + specialize (T1 i ltac:(lia)). revert T1. unfold target. rewrite S2, B2.
      replace ((mem + FOUR_GIG <=? mem + i) && (mem + i <? mem + FOUR_GIG + FOUR_GIG))%bool with false by lia.
      rewrite S1. replace ((mem <=? mem + i) && (mem + i <? mem + FOUR_GIG))%bool with true by lia.
      rewrite lookup_insert_ne by done. done.
    + specialize (T2 (i - FOUR_GIG) ltac:(lia)). rewrite <- Z.add_assoc, Zplus_minus in T2.
      rewrite T2. do 2 f_equal. change (Z.land 0x400100000000 _) with (MEM_BASE + FOUR_GIG). lia.
Qed.

Lemma new_4g_spec fd x y addr base os :
  fd ∈ fds os ->
  match new_4g fd x y addr base true os with
  | Ret w os' => exists id b, opened os os' fd x y addr FOUR_GIG true w id b /\ b = base
  | IoErr _ os' => same_resources os' os /\ noc os' = noc os
  | Panic => False
  end.
Proof. intros Hfd. exact (tlb_window_new_spec fd x y addr FOUR_GIG (Some base) true os eq_refl Hfd). Qed.

Lemma reserved_mmap os osD fd mem :
  (fd ∉ fds os) -> osD = set_fds ({[fd]} ∪ fds os) os -> k_mmap osD SPAN = Ok mem ->
  reserved os (set_segs (mk_seg mem SPAN 0 None :: segs osD) osD) fd mem.
Proof.
  intros Hfd -> Em. split; [done| |].
  - split; try done. intros a Ha. cbn [set_segs segs]. by rewrite resolve_mapped, Ha.
  - intros a Ha. by rewrite <- (mmap_fresh _ SPAN mem a Em Ha).
Qed.

Lemma dup_fd_spec chip os :
  match dup_fd chip os with
  | Ret d os' => os' = set_fds ({[d]} ∪ fds os) os /\ (d ∉ fds os)
  | IoErr _ os' => same_resources os' os /\ noc os' = noc os
  | Panic => False
  end.
Proof.
  unfold dup_fd. destruct chip as [fd|]; [|done]. destruct (k_dup os fd) as [d|e] eqn:E.
  - split; [done|]. by eapply dup_fresh.
  - by split.
Qed.

(** Dropping a window over half of the span. *)
Lemma agrees_drop os1 os2 osX fd x y addr mem w id b :
  fd ∈ fds os1 -> opened os1 os2 fd x y addr FOUR_GIG true w id b ->
  b = mem \/ b = mem + FOUR_GIG ->
  agrees mem osX os2 -> agrees mem (window_drop w osX) os1.
Proof.
  intros Hfd [-> Oi Ot Of Or On Os] Hb [Sf St Sr Ss].
  destruct (window_drop_spec (Z.land addr (FOUR_GIG - 1)) fd id b FOUR_GIG osX) as (Df & Dt & Dr & Dn & Ds).
  { done. } { by rewrite Sf, Of. }
  split; try congruence.
  - by rewrite Dt, St, Ot, delete_insert_id.
  - intros a Ha. assert (Hw : (b <=? a) && (a <? b + FOUR_GIG) = false).
    { unfold outside in Ha. rewrite span_split in Ha. apply orb_false_iff in Ha as [H1 H2].
      by destruct Hb as [-> | ->]. }
    by rewrite Ds, Hw, (Ss a Ha), Os, Hw.
Qed.

Lemma ranges_avoid os mem :
  ranges_mapped os -> (forall a, mem <= a < mem + SPAN -> resolve (segs os) a = None) ->
  Forall (fun r => start r <> mem) (ranges os).
Proof.
  intros Hr Hfree. eapply Forall_impl; [exact Hr|]. cbv beta. intros r Hs Hm.
  apply Hs, Hfree. assert (0 < SPAN) by done. lia.
Qed.

(** Registered ranges after the windows are in place. *)
Lemma ranges_mapped_register os os3 mem x y :
  ranges_mapped os -> ranges os3 = ranges os ->
  (forall a, mem <= a < mem + SPAN -> resolve (segs os) a = None) ->
  (forall a, outside mem a -> resolve (segs os3) a = resolve (segs os) a) ->
  (forall i, 0 <= i < SPAN -> target os3 (mem + i) = Some ((x, y), MEM_BASE + i)) ->
  ranges_mapped (register_chip_range mem SPAN os3).
Proof.
  intros Hrm Hr Hfree Hout Htg. unfold ranges_mapped. cbn [register_chip_range set_ranges ranges segs].
  unfold apply_op. cbn [is_noop publish_over]. change (SPAN =? 0) with false. cbn iota.
  apply Forall_app. split.
  - rewrite Hr. eapply Forall_impl; [exact Hrm|]. cbv beta. intros r Hs. rewrite Hout; [done|].
    unfold outside. destruct (_ && _)%bool eqn:H; [|done].
    bool_to_prop. destruct Hs. apply Hfree. lia.
  - apply Forall_cons. split; [|by apply Forall_nil]. cbn [start].
    specialize (Htg 0 ltac:(done)). rewrite Z.add_0_r in Htg. unfold target in Htg.
    by destruct (resolve (segs os3) mem).
Qed.

Lemma l2cpu_built os os1 os2 os3 idx fd x y mem first second id id' :
  0 <= idx < 4 -> ranges_mapped os -> reserved os os1 fd mem ->
  opened os1 os2 fd x y MEM_BASE FOUR_GIG true first id mem ->
  opened os2 os3 fd x y 0x400100000000 FOUR_GIG true second id' (mem + FOUR_GIG) ->
  let l := mk_l2cpu fd idx (L2CPU_STARTING_ADDRESS idx) (L2CPU_MEMORY_SIZE idx) (x, y) mem first second in
  let os' := register_chip_range mem SPAN os3 in
  ranges_mapped os' /\
  (forall off, 0 <= off < memory_size l ->
     target os' (get_memory_ptr l + off) = Some (coordinates l, starting_address l + off)) /\
  (forall os2, same_resources os2 os' -> same_resources (l2cpu_drop l os2) os).
Proof.
  intros Hidx Hrm R Ho1 Ho2 l os'.
  destruct (spanned_windows _ _ _ _ _ _ _ _ _ _ _ Ho1 Ho2) as [Hout Htg].
  pose proof (reserved_fd _ _ _ _ R) as Hfd1.
  assert (Hfd2 : fd ∈ fds os2) by (by rewrite (op_fds _ _ _ _ _ _ _ _ _ _ _ Ho1)).
  assert (Hr : ranges os3 = ranges os).
  { by rewrite (op_ranges _ _ _ _ _ _ _ _ _ _ _ Ho2), (op_ranges _ _ _ _ _ _ _ _ _ _ _ Ho1),
      (ag_ranges _ _ _ (rs_agrees _ _ _ _ R)). }
  assert (Hout' : forall a, outside mem a -> resolve (segs os3) a = resolve (segs os) a).
  { intros a Ha. rewrite Hout by done. by rewrite (ag_out _ _ _ (rs_agrees _ _ _ _ R)). }
  split; [by eapply ranges_mapped_register; eauto using rs_free|]. split.
  - intros off Ho. unfold get_memory_ptr. cbn [memory_size memory starting_address coordinates l] in *.
    assert (Hb : 0 <= L2CPU_STARTING_ADDRESS idx - MEM_BASE + off < SPAN).
    { unfold L2CPU_STARTING_ADDRESS, L2CPU_MEMORY_SIZE, MEM_BASE in *. change SPAN with 0x200000000.
      repeat case_match; lia. }
    change (target os' ?a) with (target os3 a). rewrite <- Z.add_assoc, Htg by done. do 2 f_equal. lia.
  - intros osX HX. unfold l2cpu_drop. cbn [memory l2_second l2_first l2_fd l].
    eapply teardown; [exact R|]. eapply agrees_drop; [done|exact Ho1|by left|].
    eapply agrees_drop; [done|exact Ho2|by right|]. apply same_agrees.
    destruct HX as [Xf Xt Xr Xs]. split; cbn [unregister_chip_range set_ranges fds tlbs ranges segs]; try done.
    rewrite Xr. unfold os'. cbn [register_chip_range set_ranges ranges].
    apply register_unregister; [done|]. rewrite Hr. by eapply ranges_avoid; eauto using rs_free.
Qed.

(** What construction answers, and the L2CPU it makes. *)
Lemma l2cpu_new_spec idx chip os :
  0 <= idx < 4 -> ranges_mapped os ->
  match l2cpu_new idx chip os with
  | Ret l os' =>
      (ranges_mapped os' /\
       (forall off, 0 <= off < memory_size l ->
          target os' (get_memory_ptr l + off) = Some (coordinates l, starting_address l + off)) /\
       (forall os2, same_resources os2 os' -> same_resources (l2cpu_drop l os2) os)) /\
      l2_idx l = idx /\ starting_address l = L2CPU_STARTING_ADDRESS idx /\ coordinates l = L2CPU_TILES idx /\
      l2_fd l ∈ fds os' /\ noc os' = noc os
  | IoErr _ os' => same_resources os' os /\ noc os' = noc os
  | Panic => False
  end.
Proof.
  intros Hidx Hrm. unfold l2cpu_new. replace (idx <? 4) with true by lia. cbn [negb].
  pose proof (dup_fd_spec chip os) as Hd.
  destruct (dup_fd chip os) as [fd osD|e osD|]; cbn [io_bind]; [|done..]. destruct Hd as [HD Hfd].
  destruct (k_mmap osD SPAN) as [mem|e] eqn:Em.
  2:{ split; [|by rewrite HD]. rewrite HD. split; cbn; try done. by apply close_open. }
  pose proof (reserved_mmap os osD fd mem Hfd HD Em) as R.
  set (os1 := set_segs _ osD) in *. assert (Hn1 : noc os1 = noc os) by (unfold os1; by rewrite HD).
  pose proof (reserved_fd _ _ _ _ R) as Hfd1.
  destruct (L2CPU_TILES idx) as [x y] eqn:Hxy. cbn [fst snd].
  pose proof (new_4g_spec fd x y MEM_BASE mem os1 Hfd1) as H1.
  destruct (new_4g fd x y MEM_BASE mem true os1) as [first os2|e os2|]; [| |done].
  2:{ destruct H1 as [H1 Hn]. split; [|cbn; congruence]. by eapply teardown, same_agrees. }
  destruct H1 as (id & b & Ho1 & ->).
  assert (Hfd2 : fd ∈ fds os2) by (by rewrite (op_fds _ _ _ _ _ _ _ _ _ _ _ Ho1)).
  change (Z.shiftl 1 32) with FOUR_GIG.
  pose proof (new_4g_spec fd x y 0x400100000000 (mem + FOUR_GIG) os2 Hfd2) as H2.
  destruct (new_4g fd x y _ (mem + FOUR_GIG) true os2) as [second os3|e os3|]; [| |done].
  2:{ destruct H2 as [H2 Hn]. split.
      - eapply teardown; [done|]. eapply agrees_drop; [done|done|by left|]. by apply same_agrees.
      - cbn. rewrite window_drop_noc, Hn, (op_noc _ _ _ _ _ _ _ _ _ _ _ Ho1). done. }
  destruct H2 as (id' & b & Ho2 & ->). split; [by eapply l2cpu_built|]. split; [done|]. split; [done|].
  split; [done|]. cbn [l2_fd]. cbn [register_chip_range set_ranges fds noc].
  rewrite (op_fds _ _ _ _ _ _ _ _ _ _ _ Ho2), (op_noc _ _ _ _ _ _ _ _ _ _ _ Ho2), (op_noc _ _ _ _ _ _ _ _ _ _ _ Ho1).
  done.
Qed.

(** C9: For every L2CPU, whatever the driver answers: a failed construction
    leaves descriptors, TLB windows, mappings and registered fault ranges as
    they were; after a successful one every byte of the core's memory is reached
    through the memory pointer at its own NoC address, and destruction
    gives back exactly what was taken. *)
Theorem l2cpu_lifecycle idx chip os :
  0 <= idx < 4 -> ranges_mapped os ->
  match l2cpu_new idx chip os with
  | Ret l os' =>
      ranges_mapped os' /\
      (forall off, 0 <= off < memory_size l ->
         target os' (get_memory_ptr l + off) = Some (coordinates l, starting_address l + off)) /\
      (forall os2, same_resources os2 os' -> same_resources (l2cpu_drop l os2) os)
  | IoErr _ os' => same_resources os' os /\ noc os' = noc os
  | Panic => False
  end.
Proof.
  intros Hidx Hrm. pose proof (l2cpu_new_spec idx chip os Hidx Hrm) as H.
  destruct (l2cpu_new idx chip os); [apply H|done..].
Qed.

End lifecycle.

(** The second of two windows is refused, and nothing is left behind. *)
Lemma l2cpu_lifecycle_witness :
  let K := counting_kernel [6]%nat in
  let os := mk_os {[3]} ∅ [] [] ∅ 0 in
  match l2cpu_new (K := K) 3 (Some 3) os with
  | Ret _ _ => False
  | IoErr e os' => e = 28 /\ same_resources os' os
  | Panic => False
  end.
Proof.
  intros K os.
  pose proof (l2cpu_lifecycle (K := K) 3 (Some 3) os ltac:(lia) ltac:(by apply Forall_nil)) as H.
  revert H. vm_compute. intros H. split; [reflexivity|apply H].
Defined.

(** ** Reaching a NoC address through a small window *)

Section small_tlb.
Context `{KL : KernelLaws}.

(** A run of register writes, one window each. *)
Fixpoint l2cpu_write_all (l : L2Cpu) (ws : list (Z * Z)) (os : Os) : io unit :=
  match ws with
  | [] => Ret tt os
  | (a, v) :: ws => io_bind (l2cpu_write32 l a v os) (fun _ os => l2cpu_write_all l ws os)
  end.

Definition stores (ws : list (Z * Z)) (m : gmap Z Z) : gmap Z Z :=
  foldl (fun m w => wr32 m w.1 w.2) m ws.

Lemma l2cpu_write_all_spec l ws : forall os,
  Forall (fun w => fits 64 w.1 /\ w.1 mod 4 = 0) ws -> l2_fd l ∈ fds os ->
  match l2cpu_write_all l ws os with
  | Ret _ os' => same_resources os' os /\
      tile_mem os' (coordinates l) = stores ws (tile_mem os (coordinates l)) /\
      forall t, t <> coordinates l -> tile_mem os' t = tile_mem os t
  | IoErr _ os' => same_resources os' os /\ exists k, (k < length ws)%nat /\
      tile_mem os' (coordinates l) = stores (take k ws) (tile_mem os (coordinates l)) /\
      forall t, t <> coordinates l -> tile_mem os' t = tile_mem os t
  | Panic => False
  end.
Proof.
  induction ws as [|[a v] ws IH]; intros os Hws Hfd; cbn [l2cpu_write_all]; [done|].
  apply Forall_cons in Hws as [[Ha H4] Hws]. cbn [fst] in *.
  pose proof (l2cpu_write32_spec l a v os Ha H4 Hfd) as H.
  destruct (l2cpu_write32 l a v os) as [[] os1|e os1|]; cbn [io_bind]; [| |done].
  - destruct H as (Hs & Hm & Ho). specialize (IH os1 Hws ltac:(by rewrite Hs)).
    destruct (l2cpu_write_all l ws os1) as [[] os2|e os2|]; [| |done].
    + destruct IH as (Hs2 & Hm2 & Ho2). split; [by rewrite Hs2|]. split; [by rewrite Hm2, Hm|].
      intros t Ht. by rewrite Ho2, Ho.
    + destruct IH as (Hs2 & k & Hk & Hm2 & Ho2). split; [by rewrite Hs2|]. exists (S k).
      split; [cbn; lia|]. split; [by rewrite Hm2, Hm|]. intros t Ht. by rewrite Ho2, Ho.
  - destruct H as (Hs & Hn). split; [done|]. exists O. split; [cbn; lia|]. unfold tile_mem. by rewrite Hn.
Qed.

Definition small_tlb_words (idx x y a : Z) : list (Z * Z) :=
  let cfg := SMALL_TLB_CFG_BASE + idx * SMALL_TLB_CFG_STRIDE in
  let local := Z.shiftr (Z.land a (U64_MAX - (SMALL_TLB_WINDOW_SIZE - 1))) SMALL_TLB_WINDOW_SHIFT in
  [(cfg, u32 local); (cfg + 4, u32 (Z.shiftr local 32));
   (cfg + 8, Z.lor (Z.land x 0x3F) (u32 (Z.shiftl (Z.land y 0x3F) 6))); (cfg + 12, 0)].

Lemma program_small_tlb_words l idx x y a os : idx < SMALL_TLB_COUNT ->
  program_small_tlb_unicast l idx x y a os =
  io_bind (l2cpu_write_all l (small_tlb_words idx x y a) os) (fun _ os =>
    Ret (SMALL_TLB_WINDOW_BASE_UC + idx * SMALL_TLB_WINDOW_SIZE +
         (a - Z.land a (U64_MAX - (SMALL_TLB_WINDOW_SIZE - 1)))) os).
Proof.
  intros Hi. unfold program_small_tlb_unicast. replace (idx <? SMALL_TLB_COUNT) with true by lia.
  cbn [negb l2cpu_write_all small_tlb_words].
  repeat (destruct (l2cpu_write32 _ _ _ _) as [[] ?|? ?|]; cbn [io_bind]; [|done..]). done.
Qed.

(** The property word holds the coordinates' low six bits. *)
Lemma props_decode x y :
  let p := Z.lor (Z.land x 0x3F) (u32 (Z.shiftl (Z.land y 0x3F) 6)) in
  p mod 64 = x mod 64 /\ p / 64 mod 64 = y mod 64 /\ fits 32 p.
Proof.
  change 0x3F with (Z.ones 6). rewrite !Z.land_ones by lia. change (2 ^ 6) with 64.
  pose proof (Z.mod_pos_bound x 64 ltac:(lia)). pose proof (Z.mod_pos_bound y 64 ltac:(lia)).
  unfold u32. rewrite (wrap_small 32) by (rewrite Z.shiftl_mul_pow2 by lia; unfold fits; lia).
  assert (E : Z.lor (x mod 64) (Z.shiftl (y mod 64) 6) = x mod 64 + y mod 64 * 64)
    by (apply lor_shiftl_add; [lia|unfold fits; lia]).
  rewrite E. split; [|split].
  - rewrite Z.mod_add by lia. by rewrite Z.mod_mod.
  - rewrite Z.div_add, Z.div_small by lia. rewrite Z.add_0_l. by rewrite Z.mod_mod.
  - unfold fits. lia.
Qed.

Lemma small_tlb_window_split a : fits 64 a ->
  let off := a mod SMALL_TLB_WINDOW_SIZE in
  Z.land a (U64_MAX - (SMALL_TLB_WINDOW_SIZE - 1)) = a - off /\
  Z.shiftr (a - off) SMALL_TLB_WINDOW_SHIFT = a / SMALL_TLB_WINDOW_SIZE /\
  0 <= off < SMALL_TLB_WINDOW_SIZE /\ fits 64 (a / SMALL_TLB_WINDOW_SIZE).
Proof.
  intros Ha off. change SMALL_TLB_WINDOW_SIZE with TWO_MEG in *.
  destruct (window_split a Ha) as (_ & Hh & Hb). split; [done|].
  assert (Ht : TWO_MEG = 2097152) by done. unfold fits in *.
  pose proof (Z.div_mod a TWO_MEG ltac:(done)) as Hd. split; [|split; [done|]].
  - rewrite Z.shiftr_div_pow2 by done. change (2 ^ SMALL_TLB_WINDOW_SHIFT) with TWO_MEG.
    unfold off. replace (a - a mod TWO_MEG) with (a / TWO_MEG * TWO_MEG) by lia. by apply Z.div_mul.
  - split; [apply Z.div_pos; lia|]. apply Z.div_lt_upper_bound; lia.
Qed.

Lemma stores_decode m idx x y a : fits 64 a ->
  let m' := stores (small_tlb_words idx x y a) m in
  let cfg := SMALL_TLB_CFG_BASE + idx * SMALL_TLB_CFG_STRIDE in
  rd64 m' cfg = a / SMALL_TLB_WINDOW_SIZE /\
  rd32 m' (cfg + 8) mod 64 = x mod 64 /\ rd32 m' (cfg + 8) / 64 mod 64 = y mod 64 /\
  (forall b, b < cfg \/ cfg + 16 <= b -> rd8 m' b = rd8 m b).
Proof.
  intros Ha m' cfg. destruct (small_tlb_window_split a Ha) as (H1 & H2 & _ & H64).
  destruct (props_decode x y) as (Px & Py & Pf).
  unfold m', stores, small_tlb_words. rewrite H1, H2. cbn [foldl fst snd].
  fold cfg. set (q := a / SMALL_TLB_WINDOW_SIZE) in *.
  rewrite rd64_rd32.
  read_words.
  split; [|split; [done|split; [done|]]].
  - unfold u32, wrap. rewrite Z.shiftr_div_pow2 by lia. unfold fits in H64.
    rewrite (Z.mod_small (q / 2 ^ 32)).
    + pose proof (Z.div_mod q (2 ^ 32) ltac:(done)). lia.
    + split; [apply Z.div_pos; lia|]. apply Z.div_lt_upper_bound; lia.
  - intros b Hb. by rewrite !rd8_wr32_out by lia.
Qed.

(** Programming a small window returns a physical address through which the
    core reaches exactly the requested NoC address on the requested tile, up to
    the end of the window, as the hardware decodes the four registers; the
    registers of other windows and the host's resources are unchanged, also
    when a write fails part way. *)
Theorem small_tlb_reaches l idx x y a os :
  0 <= idx < SMALL_TLB_COUNT -> fits 64 a -> l2_fd l ∈ fds os ->
  let mem o := tile_mem o (coordinates l) in
  let cfg := SMALL_TLB_CFG_BASE + idx * SMALL_TLB_CFG_STRIDE in
  match program_small_tlb_unicast l idx x y a os with
  | Ret pa os' => same_resources os' os /\
      (forall b, b < cfg \/ cfg + 16 <= b -> rd8 (mem os') b = rd8 (mem os) b) /\
      forall k, 0 <= k < SMALL_TLB_WINDOW_SIZE - a mod SMALL_TLB_WINDOW_SIZE ->
        small_tlb_decode (mem os') (pa + k) = ((x mod 64, y mod 64), a + k)
  | IoErr _ os' => same_resources os' os /\
      forall b, b < cfg \/ cfg + 16 <= b -> rd8 (mem os') b = rd8 (mem os) b
  | Panic => False
  end.
Proof.
  intros Hi Ha Hfd mem cfg. rewrite program_small_tlb_words by lia.
  assert (Hws : Forall (fun w => fits 64 w.1 /\ w.1 mod 4 = 0) (small_tlb_words idx x y a)).
  { unfold small_tlb_words, SMALL_TLB_CFG_BASE, SMALL_TLB_CFG_STRIDE, SMALL_TLB_COUNT, fits in *.
    repeat apply Forall_cons_2; cbn [fst]; try apply Forall_nil_2; (split; [lia|]);
      Z.div_mod_to_equations; lia. }
  pose proof (l2cpu_write_all_spec l _ os Hws Hfd) as H.
  destruct (l2cpu_write_all l _ os) as [[] os'|e os'|]; cbn [io_bind]; [| |done].
  - destruct H as (Hs & Hm & _). destruct (stores_decode (mem os) idx x y a Ha) as (D & Dx & Dy & Do).
    fold (mem os') (mem os) in Hm. rewrite <- Hm in D, Dx, Dy, Do. fold cfg in D, Dx, Dy, Do.
    split; [done|]. split; [done|]. intros k Hk.
    destruct (small_tlb_window_split a Ha) as (-> & _ & Hb & _). unfold small_tlb_decode.
    set (off := a mod SMALL_TLB_WINDOW_SIZE) in *. assert (HS : 0 < SMALL_TLB_WINDOW_SIZE) by done.
    assert (Hpa : SMALL_TLB_WINDOW_BASE_UC + idx * SMALL_TLB_WINDOW_SIZE + (a - (a - off)) + k -
                  SMALL_TLB_WINDOW_BASE_UC = idx * SMALL_TLB_WINDOW_SIZE + (off + k)) by lia.
    rewrite Hpa, (Z.add_comm (idx * _)), Z.div_add, Z.mod_add, Z.div_small, (Z.mod_small (off + k)), Z.add_0_l by lia.
    fold cfg. rewrite D, Dx, Dy. f_equal.
    pose proof (Z.div_mod a SMALL_TLB_WINDOW_SIZE ltac:(done)). lia.
  - destruct H as (Hs & k & _ & Hm & _). split; [done|]. intros b Hb. unfold mem. rewrite Hm.
    assert (G : forall j m, rd8 (stores (take j (small_tlb_words idx x y a)) m) b = rd8 m b).
    { intros j m. unfold small_tlb_words. fold cfg.
      do 5 (destruct j as [|j]; [cbn [take stores foldl fst snd]; by rewrite ?rd8_wr32_out by lia|]).
      cbn [take stores foldl fst snd]. by rewrite !rd8_wr32_out by lia. }
    apply G.
Qed.

End small_tlb.

(** The window of the fourth L2CPU at the engine tile. *)
Lemma small_tlb_reaches_witness :
  let K := counting_kernel [] in
  let os := mk_os {[3]} ∅ [] [] ∅ 0 in
  let l := mk_l2cpu 3 3 0 0 (8, 7) 0 (mk_window 0 (mk_handle 3 0 0 0) 0) (mk_window 0 (mk_handle 3 0 0 0) 0) in
  match program_small_tlb_unicast (K := K) l 0 14 11 (l2cpu_window_base 3) os with
  | Ret pa os' => small_tlb_decode (tile_mem os' (8, 7)) pa = ((14, 11), l2cpu_window_base 3)
  | _ => False
  end.
Proof.
  intros K os l.
  assert (Hfd : 3 ∈ fds os) by (apply (bool_decide_unpack _); reflexivity).
  pose proof (small_tlb_reaches (K := K) l 0 14 11 (l2cpu_window_base 3) os ltac:(done) ltac:(done) Hfd) as H.
  destruct (program_small_tlb_unicast (K := K) l 0 14 11 (l2cpu_window_base 3) os) as [pa os'|e os'|] eqn:E.
  - destruct H as (_ & _ & H). rewrite <- (Z.add_0_r pa).
    refine (H 0 _). vm_compute. split; [discriminate|reflexivity].
  - vm_compute in E. discriminate E.
  - exact H.
Defined.
