(* ===== verification/Telemetry.v ===== *)
(** The telemetry table of the ARC firmware, [src/telemetry.rs], and the choice
    of the engine's tile from it, [src/tensix_tile.rs].

    A [Telemetry] keeps the fields that the decoder assigns as a function from
    field names; an element of an array field is a name of its own, a [bool]
    field holds 0 or 1, and the two halves of the board id are fields as they
    are locals of the source.  [None] is a failed assertion. *)

From S2P Require Import Prelude Sigbus Tlb Clock.

Definition ARC_TELEMETRY_PTR_ADDR : Z := 0x80030434.
Definition ARC_CSM_BASE : Z := 0x10000000.
Definition ARC_CSM_SIZE : Z := Z.shiftl 1 19.

Definition BOARD_ID_HIGH : Z := 1.
Definition BOARD_ID_LOW : Z := 2.
Definition ASIC_ID : Z := 3.
Definition HARVESTING_STATE : Z := 4.
Definition VCORE : Z := 6.
Definition TDP : Z := 7.
Definition TDC : Z := 8.
Definition VDD_LIMITS : Z := 9.
Definition ASIC_TEMPERATURE : Z := 11.
Definition VREG_TEMPERATURE : Z := 12.
Definition BOARD_TEMPERATURE : Z := 13.
Definition AICLK : Z := 14.
Definition AXICLK : Z := 15.
Definition ARCCLK : Z := 16.
Definition L2CPUCLK0 : Z := 17.
Definition L2CPUCLK1 : Z := 18.
Definition L2CPUCLK2 : Z := 19.
Definition L2CPUCLK3 : Z := 20.
Definition ETH_LIVE_STATUS : Z := 21.
Definition DDR_STATUS : Z := 22.
Definition DDR_SPEED : Z := 23.
Definition FAN_SPEED : Z := 31.
Definition TIMER_HEARTBEAT : Z := 32.
Definition TELEM_ENUM_COUNT : Z := 33.
Definition ENABLED_TENSIX_COL : Z := 34.
Definition ENABLED_ETH : Z := 35.
Definition ENABLED_GDDR : Z := 36.
Definition ENABLED_L2CPU : Z := 37.
Definition PCIE_USAGE : Z := 38.
Definition NOC_TRANSLATION : Z := 40.
Definition FAN_RPM : Z := 41.
Definition GDDR01_TEMP : Z := 42.
Definition GDDR23_TEMP : Z := 43.
Definition GDDR45_TEMP : Z := 44.
Definition GDDR67_TEMP : Z := 45.
Definition GDDR01_CORR_ERRS : Z := 46.
Definition GDDR23_CORR_ERRS : Z := 47.
Definition GDDR45_CORR_ERRS : Z := 48.
Definition GDDR67_CORR_ERRS : Z := 49.
Definition GDDR_UNCORR_ERRS : Z := 50.
Definition MAX_GDDR_TEMP : Z := 51.
Definition ASIC_LOCATION : Z := 52.
Definition BOARD_POWER_LIMIT : Z := 53.
Definition INPUT_POWER : Z := 54.
Definition TDC_LIMIT_MAX : Z := 55.
Definition THM_LIMIT_THROTTLE : Z := 56.
Definition THERM_TRIP_COUNT : Z := 60.
Definition AICLK_LIMIT_MAX : Z := 63.
Definition TDP_LIMIT_MAX : Z := 64.

(** ** Decoding values *)

(** [raw as i32]. *)
Definition as_i32 (x : Z) : Z := if x <? 2 ^ 31 then x else x - 2 ^ 32.

Definition fixed16_to_millicelsius (raw : Z) : Z :=
  let scaled := as_i32 raw * 1000 in
  let half := Z.shiftl 1 15 in
  let adjusted := if 0 <=? scaled then scaled + half else scaled - half in
  Z.quot adjusted (Z.shiftl 1 16).

Definition vdd_limits (raw : Z) : Z * Z :=
  (Z.land raw 0xFFFF, Z.land (Z.shiftr raw 16) 0xFFFF).

Definition max_byte_u32 (raw : Z) : Z := foldr Z.max 0 (le_bytes 4 raw).

(** ** The table *)

Inductive Field :=
  | F_board_id_high | F_board_id_low | F_asic_id | F_harvesting_state
  | F_enabled_tensix_col | F_enabled_eth | F_enabled_gddr | F_enabled_l2cpu
  | F_noc_translation_enabled | F_asic_location | F_vcore_mv | F_tdp_w
  | F_tdc_a | F_vdd_min_mv | F_vdd_max_mv | F_thm_limit_throttle_c
  | F_asic_temperature_mc | F_vreg_temperature_mc | F_board_temperature_mc | F_max_gddr_temperature_c
  | F_gddr_temperature_c_0 | F_gddr_temperature_c_1 | F_gddr_temperature_c_2 | F_gddr_temperature_c_3
  | F_gddr_corr_errs_0 | F_gddr_corr_errs_1 | F_gddr_corr_errs_2 | F_gddr_corr_errs_3
  | F_gddr_uncorr_errs | F_input_power_w | F_board_power_limit_w | F_tdp_limit_max_w
  | F_tdc_limit_max_a | F_fan_speed_pct | F_fan_rpm | F_aiclk_mhz
  | F_axiclk_mhz | F_arcclk_mhz | F_l2cpuclk_mhz_0 | F_l2cpuclk_mhz_1
  | F_l2cpuclk_mhz_2 | F_l2cpuclk_mhz_3 | F_aiclk_limit_max_mhz | F_ddr_status
  | F_ddr_speed_mts | F_timer_heartbeat | F_therm_trip_count | F_pcie_usage
  | F_eth_live_status.

#[export] Instance Field_eq_dec : EqDecision Field.
Proof. solve_decision. Defined.

Record TelemetryEntry := mk_entry { tag : Z; te_offset : Z; data : Z }.

Record Telemetry := mk_telemetry {
  t_version : Z; t_entry_count : Z; t_entries : list TelemetryEntry; field : Field -> Z }.

Inductive TelemetryError :=
| ArcNotReady
| OutOfCsm (addr : Z)
| EntryCountTooLarge (n : Z)
| UnsupportedVersion (v : Z)
| SharedChipErr (e : ChipErr).

Definition set_field (f : Field) (v : Z) (t : Field -> Z) : Field -> Z :=
  fun g => if decide (g = f) then v else t g.

(** One entry of the table. *)
Definition decode_entry (tag data : Z) (t : Field -> Z) : Field -> Z :=
  if tag =? BOARD_ID_HIGH then set_field F_board_id_high data t
  else if tag =? BOARD_ID_LOW then set_field F_board_id_low data t
  else if tag =? ASIC_ID then set_field F_asic_id data t
  else if tag =? HARVESTING_STATE then set_field F_harvesting_state data t
  else if tag =? ENABLED_TENSIX_COL then set_field F_enabled_tensix_col data t
  else if tag =? ENABLED_ETH then set_field F_enabled_eth data t
  else if tag =? ENABLED_GDDR then set_field F_enabled_gddr data t
  else if tag =? ENABLED_L2CPU then set_field F_enabled_l2cpu data t
  else if tag =? NOC_TRANSLATION then set_field F_noc_translation_enabled (if data =? 0 then 0 else 1) t
  else if tag =? ASIC_LOCATION then set_field F_asic_location data t
  else if tag =? VCORE then set_field F_vcore_mv data t
  else if tag =? TDP then set_field F_tdp_w data t
  else if tag =? TDC then set_field F_tdc_a data t
  else if tag =? VDD_LIMITS then set_field F_vdd_max_mv (vdd_limits data).2 (set_field F_vdd_min_mv (vdd_limits data).1 t)
  else if tag =? THM_LIMIT_THROTTLE then set_field F_thm_limit_throttle_c data t
  else if tag =? ASIC_TEMPERATURE then set_field F_asic_temperature_mc (fixed16_to_millicelsius data) t
  else if tag =? VREG_TEMPERATURE then set_field F_vreg_temperature_mc (fixed16_to_millicelsius data) t
  else if tag =? BOARD_TEMPERATURE then set_field F_board_temperature_mc (fixed16_to_millicelsius data) t
  else if tag =? MAX_GDDR_TEMP then set_field F_max_gddr_temperature_c data t
  else if tag =? GDDR01_TEMP then set_field F_gddr_temperature_c_0 (max_byte_u32 data) t
  else if tag =? GDDR23_TEMP then set_field F_gddr_temperature_c_1 (max_byte_u32 data) t
  else if tag =? GDDR45_TEMP then set_field F_gddr_temperature_c_2 (max_byte_u32 data) t
  else if tag =? GDDR67_TEMP then set_field F_gddr_temperature_c_3 (max_byte_u32 data) t
  else if tag =? GDDR01_CORR_ERRS then set_field F_gddr_corr_errs_0 data t
  else if tag =? GDDR23_CORR_ERRS then set_field F_gddr_corr_errs_1 data t
  else if tag =? GDDR45_CORR_ERRS then set_field F_gddr_corr_errs_2 data t
  else if tag =? GDDR67_CORR_ERRS then set_field F_gddr_corr_errs_3 data t
  else if tag =? GDDR_UNCORR_ERRS then set_field F_gddr_uncorr_errs data t
  else if tag =? INPUT_POWER then set_field F_input_power_w data t
  else if tag =? BOARD_POWER_LIMIT then set_field F_board_power_limit_w data t
  else if tag =? TDP_LIMIT_MAX then set_field F_tdp_limit_max_w data t
  else if tag =? TDC_LIMIT_MAX then set_field F_tdc_limit_max_a data t
  else if tag =? FAN_SPEED then set_field F_fan_speed_pct data t
  else if tag =? FAN_RPM then set_field F_fan_rpm data t
  else if tag =? AICLK then set_field F_aiclk_mhz data t
  else if tag =? AXICLK then set_field F_axiclk_mhz data t
  else if tag =? ARCCLK then set_field F_arcclk_mhz data t
  else if tag =? L2CPUCLK0 then set_field F_l2cpuclk_mhz_0 data t
  else if tag =? L2CPUCLK1 then set_field F_l2cpuclk_mhz_1 data t
  else if tag =? L2CPUCLK2 then set_field F_l2cpuclk_mhz_2 data t
  else if tag =? L2CPUCLK3 then set_field F_l2cpuclk_mhz_3 data t
  else if tag =? AICLK_LIMIT_MAX then set_field F_aiclk_limit_max_mhz data t
  else if tag =? DDR_STATUS then set_field F_ddr_status data t
  else if tag =? DDR_SPEED then set_field F_ddr_speed_mts data t
  else if tag =? TIMER_HEARTBEAT then set_field F_timer_heartbeat data t
  else if tag =? THERM_TRIP_COUNT then set_field F_therm_trip_count data t
  else if tag =? PCIE_USAGE then set_field F_pcie_usage data t
  else if tag =? ETH_LIVE_STATUS then set_field F_eth_live_status data t
  else t.

Definition decode_entries (version entry_count : Z) (entries : list TelemetryEntry) : Telemetry :=
  mk_telemetry version entry_count entries
    (foldl (fun t e => decode_entry (tag e) (data e) t) (fun _ => 0) entries).

Definition board_id (t : Telemetry) : Z :=
  Z.lor (Z.shiftl (field t F_board_id_high) 32) (field t F_board_id_low).

(** [?] on a chip access. *)
Definition chip_try {A} (r : option (result Z ChipErr)) (k : Z -> option (result A TelemetryError))
    : option (result A TelemetryError) :=
  match r with
  | None => None
  | Some (Err e) => Some (Err (SharedChipErr e))
  | Some (Ok v) => k v
  end.

(** The loop over the tag table, from entry [i]. *)
Fixpoint read_entries (n : nat) (chip : SharedChip) (tags_base data_base i : Z)
    : option (result (list TelemetryEntry) TelemetryError) :=
  match n with
  | O => Some (Ok [])
  | S n =>
      chip_try (csm_read32 chip (tags_base + i * 4)) (fun entry =>
      let tag := Z.land entry 0xFFFF in
      let offset := Z.land (Z.shiftr entry 16) 0xFFFF in
      chip_try (csm_read32 chip (data_base + offset * 4)) (fun data =>
      let! r := read_entries n chip tags_base data_base (i + 1) in
      Some (result_map (cons (mk_entry tag offset data)) r)))
  end.

Definition read_telemetry (chip : SharedChip) : option (result Telemetry TelemetryError) :=
  chip_try (arc_read32 chip ARC_TELEMETRY_PTR_ADDR) (fun table_addr =>
  if table_addr =? 0 then Some (Err ArcNotReady)
  else if negb ((ARC_CSM_BASE <=? table_addr) && (table_addr <? ARC_CSM_BASE + ARC_CSM_SIZE))
  then Some (Err (OutOfCsm table_addr))
  else
    chip_try (csm_read32 chip table_addr) (fun version =>
    let major := Z.land (Z.shiftr version 16) 0xFF in
    if 1 <? major then Some (Err (UnsupportedVersion version))
    else
      chip_try (csm_read32 chip (table_addr + 4)) (fun entry_count =>
      if (entry_count =? 0) ||
         (saturating_sub (ARC_CSM_BASE + ARC_CSM_SIZE) table_addr <? entry_count * 8 + 8)
      then Some (Err (EntryCountTooLarge entry_count))
      else
        let tags_base := table_addr + 8 in
        let data_base := table_addr + 8 + entry_count * 4 in
        let! r := read_entries (Z.to_nat entry_count) chip tags_base data_base 0 in
        Some (result_map (decode_entries version entry_count) r)))).

(** ** Choosing a tile *)

Definition TENSIX_COLS_NOC0 : list Z := [1; 2; 3; 4; 5; 6; 7; 10; 11; 12; 13; 14; 15; 16].
Definition TENSIX_ROWS_NOC0 : list Z := [2; 3; 4; 5; 6; 7; 8; 9; 10; 11].

(** [u32::count_ones]. *)
Definition count_ones (m : Z) : Z :=
  Z.of_nat (length (List.filter (fun i => Z.testbit m (Z.of_nat i)) (seq 0 32))).

(** The values of [l] whose position [i] satisfies [p]. *)
Fixpoint select_pos (p : Z -> bool) (i : Z) (l : list Z) : list Z :=
  match l with
  | [] => []
  | x :: l => if p i then x :: select_pos p (i + 1) l else select_pos p (i + 1) l
  end.

Definition bit_set (mask i : Z) : bool := negb (Z.land mask (u32 (Z.shiftl 1 i)) =? 0).

Definition working_tensix_cols (enabled_mask : Z) (noc_translation_enabled : bool) : list Z :=
  if noc_translation_enabled then
    let working := count_ones enabled_mask in
    List.filter (fun x => (if x <=? 7 then x - 1 else x - 3) <? working) TENSIX_COLS_NOC0
  else select_pos (bit_set enabled_mask) 0 TENSIX_COLS_NOC0.

Definition working_tensix_rows (harvesting_state : Z) : list Z :=
  select_pos (fun i => negb (bit_set harvesting_state i)) 0 TENSIX_ROWS_NOC0.

Definition harvested_tensix_rows (harvesting_state : Z) : list Z :=
  select_pos (bit_set harvesting_state) 0 TENSIX_ROWS_NOC0.

(** The loop of [noc0_to_translated_tensix] at array position [i]. *)
Fixpoint translate_loop (l : list Z) (i pos enabled_count logical_x y : Z) : option (Z * Z) :=
  match l with
  | [] => None
  | _ :: l =>
      if i =? pos then
        if enabled_count <=? logical_x then None
        else let! x := TENSIX_COLS_NOC0 !! Z.to_nat logical_x in Some (x, y)
      else translate_loop l (i + 1) pos enabled_count
             (if i <? enabled_count then logical_x + 1 else logical_x) y
  end.

Definition noc0_to_translated_tensix (noc0_x noc0_y enabled_tensix_col_mask : Z)
    (noc_translation_enabled : bool) : option (Z * Z) :=
  if negb noc_translation_enabled then Some (noc0_x, noc0_y)
  else
    let! p := list_find (fun v => v = noc0_x) TENSIX_COLS_NOC0 in
    translate_loop TENSIX_COLS_NOC0 0 (Z.of_nat p.1) (count_ones enabled_tensix_col_mask) 0 noc0_y.

Inductive PickError :=
| NoWorkingCols (mask : Z) (trans : bool)
| NoWorkingRows (state : Z).

Inductive PickReason := HarvestedRowCorner | BottomRightCorner.

Record PickedTile := mk_picked { pt_x : Z; pt_y : Z; reason : PickReason }.

Definition trans_enabled (telem : Telemetry) : bool := negb (field telem F_noc_translation_enabled =? 0).

Definition pick_virtio_engine_tile (telem : Telemetry) : result PickedTile PickError :=
  let mask := field telem F_enabled_tensix_col in
  let state := field telem F_harvesting_state in
  match last (working_tensix_cols mask (trans_enabled telem)) with
  | None => Err (NoWorkingCols mask (trans_enabled telem))
  | Some x =>
      match last (working_tensix_rows state) with
      | None => Err (NoWorkingRows state)
      | Some last_row =>
          match head (harvested_tensix_rows state) with
          | Some y => Ok (mk_picked x y HarvestedRowCorner)
          | None => Ok (mk_picked x last_row BottomRightCorner)
          end
      end
  end.

(** ** The decoder against a table of fields *)

(** The tag that carries a field, and how its word is read. *)
Definition tag_of (f : Field) : Z :=
  match f with
  | F_board_id_high => BOARD_ID_HIGH
  | F_board_id_low => BOARD_ID_LOW
  | F_asic_id => ASIC_ID
  | F_harvesting_state => HARVESTING_STATE
  | F_enabled_tensix_col => ENABLED_TENSIX_COL
  | F_enabled_eth => ENABLED_ETH
  | F_enabled_gddr => ENABLED_GDDR
  | F_enabled_l2cpu => ENABLED_L2CPU
  | F_noc_translation_enabled => NOC_TRANSLATION
  | F_asic_location => ASIC_LOCATION
  | F_vcore_mv => VCORE
  | F_tdp_w => TDP
  | F_tdc_a => TDC
  | F_vdd_min_mv => VDD_LIMITS
  | F_vdd_max_mv => VDD_LIMITS
  | F_thm_limit_throttle_c => THM_LIMIT_THROTTLE
  | F_asic_temperature_mc => ASIC_TEMPERATURE
  | F_vreg_temperature_mc => VREG_TEMPERATURE
  | F_board_temperature_mc => BOARD_TEMPERATURE
  | F_max_gddr_temperature_c => MAX_GDDR_TEMP
  | F_gddr_temperature_c_0 => GDDR01_TEMP
  | F_gddr_temperature_c_1 => GDDR23_TEMP
  | F_gddr_temperature_c_2 => GDDR45_TEMP
  | F_gddr_temperature_c_3 => GDDR67_TEMP
  | F_gddr_corr_errs_0 => GDDR01_CORR_ERRS
  | F_gddr_corr_errs_1 => GDDR23_CORR_ERRS
  | F_gddr_corr_errs_2 => GDDR45_CORR_ERRS
  | F_gddr_corr_errs_3 => GDDR67_CORR_ERRS
  | F_gddr_uncorr_errs => GDDR_UNCORR_ERRS
  | F_input_power_w => INPUT_POWER
  | F_board_power_limit_w => BOARD_POWER_LIMIT
  | F_tdp_limit_max_w => TDP_LIMIT_MAX
  | F_tdc_limit_max_a => TDC_LIMIT_MAX
  | F_fan_speed_pct => FAN_SPEED
  | F_fan_rpm => FAN_RPM
  | F_aiclk_mhz => AICLK
  | F_axiclk_mhz => AXICLK
  | F_arcclk_mhz => ARCCLK
  | F_l2cpuclk_mhz_0 => L2CPUCLK0
  | F_l2cpuclk_mhz_1 => L2CPUCLK1
  | F_l2cpuclk_mhz_2 => L2CPUCLK2
  | F_l2cpuclk_mhz_3 => L2CPUCLK3
  | F_aiclk_limit_max_mhz => AICLK_LIMIT_MAX
  | F_ddr_status => DDR_STATUS
  | F_ddr_speed_mts => DDR_SPEED
  | F_timer_heartbeat => TIMER_HEARTBEAT
  | F_therm_trip_count => THERM_TRIP_COUNT
  | F_pcie_usage => PCIE_USAGE
  | F_eth_live_status => ETH_LIVE_STATUS
  end.

Definition convert (f : Field) (data : Z) : Z :=
  match f with
  | F_noc_translation_enabled => (if data =? 0 then 0 else 1)
  | F_vdd_min_mv => (vdd_limits data).1
  | F_vdd_max_mv => (vdd_limits data).2
  | F_asic_temperature_mc => (fixed16_to_millicelsius data)
  | F_vreg_temperature_mc => (fixed16_to_millicelsius data)
  | F_board_temperature_mc => (fixed16_to_millicelsius data)
  | F_gddr_temperature_c_0 => (max_byte_u32 data)
  | F_gddr_temperature_c_1 => (max_byte_u32 data)
  | F_gddr_temperature_c_2 => (max_byte_u32 data)
  | F_gddr_temperature_c_3 => (max_byte_u32 data)
  | _ => data
  end.

Lemma decode_entry_field tg d t f :
  decode_entry tg d t f = if tg =? tag_of f then convert f d else t f.
Proof.
  destruct (Z.eqb_spec tg (tag_of f)) as [->|Hne].
  - destruct f; reflexivity.
  - destruct f; unfold decode_entry, tag_of in *;
      repeat match goal with
      | |- context [if tg =? ?c then _ else _] => destruct (Z.eqb_spec tg c); [first [reflexivity|congruence]|]
      end; reflexivity.
Qed.

(** The word of the last entry with a tag. *)
Definition last_data (tg : Z) (entries : list TelemetryEntry) : option Z :=
  last (List.map data (List.filter (fun e => tag e =? tg) entries)).

Lemma decode_field version n entries f :
  field (decode_entries version n entries) f =
  match last_data (tag_of f) entries with Some d => convert f d | None => 0 end.
Proof.
  unfold decode_entries. cbn [field].
  induction entries as [|e entries IH] using rev_ind; [done|].
  rewrite foldl_app. cbn [foldl]. rewrite decode_entry_field, IH.
  unfold last_data. rewrite List.filter_app, List.map_app. cbn [List.filter].
  destruct (tag e =? tag_of f); cbn [List.map]; [by rewrite last_snoc|by rewrite app_nil_r].
Qed.

(** C39: Every field of the decoded table is the reading of the last entry with
    the field's tag, 0 when there is none, whatever other tags the firmware
    publishes and in whatever order. *)
Theorem decode_last_wins version n entries f :
  field (decode_entries version n entries) f =
  match last_data (tag_of f) entries with Some d => convert f d | None => 0 end.
Proof. apply decode_field. Qed.

Lemma millicelsius_nearest raw :
  fits 32 raw ->
  let t := fixed16_to_millicelsius raw in
  let exact := as_i32 raw * 1000 in
  2 * Z.abs (t * 65536 - exact) <= 65536 /\
  (2 * Z.abs (t * 65536 - exact) = 65536 -> Z.abs exact < Z.abs (t * 65536)) /\
  - 2 ^ 31 <= t < 2 ^ 31.
Proof.
  intros Hr t exact. unfold t, fixed16_to_millicelsius. fold exact.
  assert (Hx : - 2 ^ 31 * 1000 <= exact < 2 ^ 31 * 1000).
  { unfold exact, as_i32, fits in *. destruct (Z.ltb_spec raw (2 ^ 31)); lia. }
  change (Z.shiftl 1 15) with 32768. change (Z.shiftl 1 16) with 65536.
  destruct (Z.leb_spec 0 exact).
  - rewrite Z.quot_div_nonneg by lia. Z.div_mod_to_equations. lia.
  - replace (exact - 32768) with (- (- exact + 32768)) by lia.
    rewrite Z.quot_opp_l, Z.quot_div_nonneg by lia. Z.div_mod_to_equations. lia.
Qed.

(** A temperature is the firmware's 16.16 number in thousandths of a degree,
    rounded to the nearest, ties away from zero, for every 32-bit word. *)
Theorem millicelsius_rounds raw :
  fits 32 raw ->
  let t := fixed16_to_millicelsius raw in
  let exact := as_i32 raw * 1000 in
  2 * Z.abs (t * 65536 - exact) <= 65536 /\
  (2 * Z.abs (t * 65536 - exact) = 65536 -> Z.abs exact < Z.abs (t * 65536)) /\
  - 2 ^ 31 <= t < 2 ^ 31.
Proof. apply millicelsius_nearest. Qed.

Lemma millicelsius_rounds_witness :
  fixed16_to_millicelsius 0xFFF60000 = -10000 /\
  2 * Z.abs (fixed16_to_millicelsius 0xFFF60001 * 65536 - as_i32 0xFFF60001 * 1000) <= 65536.
Proof.
  split; [reflexivity|]. apply (millicelsius_rounds 0xFFF60001). vm_compute. split; [discriminate|reflexivity].
Defined.

(** The values of the Rust type of a field. *)
Definition field_range (f : Field) : Z * Z :=
  match f with
  | F_noc_translation_enabled => (0, 2)
  | F_vdd_min_mv | F_vdd_max_mv => (0, 2 ^ 16)
  | F_asic_temperature_mc | F_vreg_temperature_mc | F_board_temperature_mc => (- 2 ^ 31, 2 ^ 31)
  | _ => (0, 2 ^ 32)
  end.

Lemma max_byte_range raw : 0 <= max_byte_u32 raw < 256.
Proof.
  unfold max_byte_u32. pose proof (le_bytes_are_bytes 4 raw) as H.
  induction H as [|b l Hb _ IH]; cbn [foldr]; [lia|]. unfold is_byte in Hb. lia.
Qed.

Lemma convert_range f d : fits 32 d -> (field_range f).1 <= convert f d < (field_range f).2.
Proof.
  intros Hd. pose proof (millicelsius_nearest d Hd) as (_ & _ & Ht). pose proof (max_byte_range d) as Hm.
  assert (Hl : forall x, 0 <= Z.land x 0xFFFF < 2 ^ 16).
  { intros x. change 0xFFFF with (Z.ones 16). rewrite Z.land_ones by lia. by apply Z.mod_pos_bound. }
  unfold fits in Hd. destruct f; cbn [field_range fst snd convert vdd_limits]; try lia; try apply Hl.
  destruct (d =? 0); lia.
Qed.

(** The four bytes of a word, lowest first. *)
Definition bytes_of (d : Z) : list Z := [d mod 256; d / 2 ^ 8 mod 256; d / 2 ^ 16 mod 256; d / 2 ^ 24].

(** What a field says of its word, without the decoder: the supply limits are the
    halves of the word; a temperature is the signed 16.16 number in thousandths,
    the nearest one, ties away from zero; the temperature of a pair of memory
    channels is the greatest of four bytes. *)
Definition meaning (f : Field) (d v : Z) : Prop :=
  match f with
  | F_noc_translation_enabled => (v = 0 /\ d = 0) \/ (v = 1 /\ d <> 0)
  | F_vdd_min_mv => exists high, d = high * 2 ^ 16 + v /\ 0 <= v < 2 ^ 16
  | F_vdd_max_mv => exists low, d = v * 2 ^ 16 + low /\ 0 <= low < 2 ^ 16
  | F_asic_temperature_mc | F_vreg_temperature_mc | F_board_temperature_mc =>
      exists s, - 2 ^ 31 <= s < 2 ^ 31 /\ s mod 2 ^ 32 = d /\
        2 * Z.abs (v * 2 ^ 16 - s * 1000) <= 2 ^ 16 /\
        (2 * Z.abs (v * 2 ^ 16 - s * 1000) = 2 ^ 16 -> Z.abs (s * 1000) < Z.abs (v * 2 ^ 16))
  | F_gddr_temperature_c_0 | F_gddr_temperature_c_1 | F_gddr_temperature_c_2 | F_gddr_temperature_c_3 =>
      v ∈ bytes_of d /\ Forall (fun b => b <= v) (bytes_of d)
  | _ => v = d
  end.

Lemma le_bytes_of d : fits 32 d -> le_bytes 4 d = bytes_of d.
Proof.
  intros Hd. unfold fits in Hd. cbn [le_bytes]. unfold bytes_of. rewrite !Z.div_div by lia.
  change (256 * 256 * 256) with (2 ^ 24). change (256 * 256) with (2 ^ 16). change (2 ^ 8) with 256.
  rewrite (Z.mod_small (d / 2 ^ 24)); [done|]. Z.div_mod_to_equations. lia.
Qed.

Lemma max_byte_greatest d : fits 32 d -> max_byte_u32 d ∈ bytes_of d /\ Forall (fun b => b <= max_byte_u32 d) (bytes_of d).
Proof.
  intros Hd. unfold max_byte_u32. rewrite <- le_bytes_of by done.
  assert (Hg : forall l, Forall (fun b => b <= foldr Z.max 0 l) l).
  { intros l. induction l as [|b l IH]; cbn [foldr]; constructor; [lia|]. eapply Forall_impl; [exact IH|]. cbn. lia. }
  split; [|apply Hg].
  assert (Hm : forall l, Forall is_byte l -> l <> [] -> foldr Z.max 0 l ∈ l).
  { intros l Hb. induction Hb as [|b l Hb _ IH]; [done|]. intros _. cbn [foldr]. unfold is_byte in Hb.
    destruct l as [|b' l]; [cbn; replace (Z.max b 0) with b by lia; apply list_elem_of_here|].
    destruct (Z.max_spec b (foldr Z.max 0 (b' :: l))) as [[_ ->]|[_ ->]]; [|apply list_elem_of_here].
    apply list_elem_of_further. by apply IH. }
  apply Hm; [apply le_bytes_are_bytes|done].
Qed.

Lemma limits_halves d : fits 32 d ->
  d = (vdd_limits d).2 * 2 ^ 16 + (vdd_limits d).1 /\ 0 <= (vdd_limits d).1 < 2 ^ 16.
Proof.
  intros Hd. unfold vdd_limits. cbn [fst snd]. change 0xFFFF with (Z.ones 16).
  rewrite !Z.land_ones, Z.shiftr_div_pow2 by lia. unfold fits in Hd. Z.div_mod_to_equations. lia.
Qed.

Lemma as_i32_signed d : fits 32 d -> - 2 ^ 31 <= as_i32 d < 2 ^ 31 /\ as_i32 d mod 2 ^ 32 = d.
Proof. unfold fits, as_i32. intros Hd. destruct (Z.ltb_spec d (2 ^ 31)); Z.div_mod_to_equations; lia. Qed.

Lemma convert_means f d : fits 32 d -> meaning f d (convert f d).
Proof.
  intros Hd. destruct (limits_halves d Hd) as [Hv Hl].
  assert (Ht : exists s, - 2 ^ 31 <= s < 2 ^ 31 /\ s mod 2 ^ 32 = d /\
    2 * Z.abs (fixed16_to_millicelsius d * 2 ^ 16 - s * 1000) <= 2 ^ 16 /\
    (2 * Z.abs (fixed16_to_millicelsius d * 2 ^ 16 - s * 1000) = 2 ^ 16 ->
     Z.abs (s * 1000) < Z.abs (fixed16_to_millicelsius d * 2 ^ 16))).
  { exists (as_i32 d). destruct (as_i32_signed d Hd). destruct (millicelsius_nearest d Hd) as (H1 & H2 & _). done. }
  destruct f; cbn [meaning convert]; try done; try (by apply max_byte_greatest).
  - destruct (Z.eqb_spec d 0); [by left|by right].
  - by exists (vdd_limits d).2.
  - by exists (vdd_limits d).1.
Qed.

Lemma last_data_fits tg entries d : Forall (fun e => fits 32 (data e)) entries -> last_data tg entries = Some d -> fits 32 d.
Proof.
  intros He E. unfold last_data in E. apply last_Some in E as [l E].
  assert (Hin : d ∈ List.map data (List.filter (fun e => tag e =? tg) entries)).
  { rewrite E. apply elem_of_app. right. apply list_elem_of_here. }
  apply list_elem_of_In, List.in_map_iff in Hin as (e & <- & Hin). apply List.filter_In in Hin as [Hin _].
  eapply Forall_forall in He; [exact He|]. by apply list_elem_of_In.
Qed.

(** C38: Every field of the decoded table says what its word means: the supply
    limits are the low and the high half of the word, minimum and maximum; a
    temperature is the signed 16.16 number of degrees in thousandths, rounded to
    the nearest, ties away from zero; the temperature of a pair of memory channels
    is the greatest of the four bytes; translation is on exactly when the word is
    not 0; every other field is the word.  The word is the one of the last entry
    with the field's tag, and a field without an entry is 0.  The board's id is
    its two words, and every value fits its Rust type. *)
Theorem decoded_fields_mean version n entries f :
  Forall (fun e => fits 32 (data e)) entries ->
  let t := decode_entries version n entries in
  match last_data (tag_of f) entries with
  | Some d => meaning f d (field t f)
  | None => field t f = 0
  end /\
  (field_range f).1 <= field t f < (field_range f).2 /\
  board_id t = field t F_board_id_high * 2 ^ 32 + field t F_board_id_low.
Proof.
  intros He t. assert (Hr : forall g, (field_range g).1 <= field t g < (field_range g).2).
  { intros g. unfold t. rewrite decode_field. destruct (last_data (tag_of g) entries) as [d|] eqn:E; [|by destruct g; cbn].
    apply convert_range. by eapply last_data_fits. }
  split; [|split; [done|]].
  - unfold t. rewrite decode_field. destruct (last_data (tag_of f) entries) as [d|] eqn:E; [|done].
    apply convert_means. by eapply last_data_fits.
  - unfold board_id. rewrite Z.lor_comm, Z.add_comm. apply lor_shiftl_add; [lia|apply (Hr F_board_id_low)].
Qed.

(** The supply limits of a word, and a temperature just below zero. *)
Lemma decoded_fields_mean_witness :
  let t := decode_entries 1 3 [mk_entry VDD_LIMITS 0 0x038402EE; mk_entry ASIC_TEMPERATURE 1 0xFFFFFFFF] in
  (exists high, 0x038402EE = high * 2 ^ 16 + field t F_vdd_min_mv) /\ field t F_asic_temperature_mc < 2 ^ 31.
Proof.
  intros t.
  assert (He : Forall (fun e => fits 32 (data e)) [mk_entry VDD_LIMITS 0 0x038402EE; mk_entry ASIC_TEMPERATURE 1 0xFFFFFFFF])
    by (repeat constructor; vm_compute; discriminate).
  split.
  - destruct (decoded_fields_mean 1 3 _ F_vdd_min_mv He) as [(high & E & _) _]. exists high. exact E.
  - destruct (decoded_fields_mean 1 3 _ F_asic_temperature_mc He) as (_ & H & _). apply H.
Defined.

(** ** Reading the table *)

Lemma csm_read32_ok arc csm a :
  CSM_WINDOW_BASE <= a -> a + 4 <= CSM_WINDOW_BASE + CSM_WINDOW_SIZE -> a mod 4 = 0 ->
  csm_read32 (mk_chip (Some (arc, csm))) a = Some (Ok (rd32 csm (a - CSM_WINDOW_BASE))).
Proof.
  intros H1 H2 H4. unfold csm_read32, csm_window_offset, window_off, checked_add64.
  change CSM_WINDOW_SIZE with TWO_MEG in *. change CSM_WINDOW_BASE with (4 * 67108864) in *.
  change TWO_MEG with 2097152 in *.
  replace (_ && _)%bool with true by lia. cbn [inner]. rewrite Z.add_0_l.
  replace (_ <=? U64_MAX) with true by (unfold U64_MAX; lia).
  replace (_ <? _) with false by lia.
  replace ((a - 4 * 67108864) mod 4) with 0; [done|]. Z.div_mod_to_equations. lia.
Qed.

Lemma csm_read32_unaligned arc csm a :
  a mod 4 <> 0 -> csm_read32 (mk_chip (Some (arc, csm))) a = None.
Proof.
  intros H4. unfold csm_read32, csm_window_offset, window_off, checked_add64.
  change CSM_WINDOW_BASE with (4 * 67108864).
  repeat (case_match; simplify_eq; try done); bool_to_prop. Z.div_mod_to_equations. lia.
Qed.

Lemma land_16 x : 0 <= Z.land x 0xFFFF < 65536.
Proof. change 0xFFFF with (Z.ones 16). rewrite Z.land_ones by lia. by apply Z.mod_pos_bound. Qed.

Lemma read_entries_ok arc csm tags_base data_base : forall n i,
  0 <= i -> CSM_WINDOW_BASE <= tags_base -> CSM_WINDOW_BASE <= data_base ->
  tags_base mod 4 = 0 -> data_base mod 4 = 0 ->
  tags_base + (i + Z.of_nat n) * 4 <= data_base -> data_base + 262144 <= CSM_WINDOW_BASE + CSM_WINDOW_SIZE ->
  exists l, read_entries n (mk_chip (Some (arc, csm))) tags_base data_base i = Some (Ok l) /\ length l = n /\
    forall k e, l !! k = Some e ->
      let w := rd32 csm (tags_base + (i + Z.of_nat k) * 4 - CSM_WINDOW_BASE) in
      tag e = Z.land w 0xFFFF /\
      data e = rd32 csm (data_base + Z.land (Z.shiftr w 16) 0xFFFF * 4 - CSM_WINDOW_BASE).
Proof.
  induction n as [|n IH]; intros i Hi Ht Hd At Ad Hb Hw; cbn [read_entries].
  { by exists []. }
  rewrite csm_read32_ok by (try lia; Z.div_mod_to_equations; lia). cbn [chip_try].
  set (w := rd32 _ _). pose proof (land_16 (Z.shiftr w 16)) as Ho.
  rewrite csm_read32_ok by (try lia; Z.div_mod_to_equations; lia). cbn [chip_try].
  destruct (IH (i + 1)) as (l & -> & Hl & He); try done; [lia..|].
  eexists. split; [reflexivity|]. split; [cbn; lia|]. intros [|k] e.
  - cbn [lookup list_lookup]. intros [= <-]. cbn [tag data Z.of_nat]. rewrite Z.add_0_r. by split.
  - cbn [lookup list_lookup]. intros Hk. specialize (He k e Hk).
    replace (i + Z.of_nat (S k)) with (i + 1 + Z.of_nat k) by lia. exact He.
Qed.

(** With a word-aligned pointer from the firmware, reading the table never
    panics: it reports an absent or misplaced table, a newer version or a count
    that does not fit, or returns exactly the published entries, each with the
    word its tag entry points at. *)
Theorem telemetry_total arc csm :
  mem_ok csm -> pll_read32 arc ARC_TELEMETRY_PTR_ADDR mod 4 = 0 ->
  let p := pll_read32 arc ARC_TELEMETRY_PTR_ADDR in
  let at_ a := rd32 csm (a - CSM_WINDOW_BASE) in
  match read_telemetry (mk_chip (Some (arc, csm))) with
  | None => False
  | Some (Err ArcNotReady) => p = 0
  | Some (Err (OutOfCsm a)) => a = p /\ (p < ARC_CSM_BASE \/ ARC_CSM_BASE + ARC_CSM_SIZE <= p)
  | Some (Err (UnsupportedVersion v)) => v = at_ p /\ 1 < Z.land (Z.shiftr v 16) 0xFF
  | Some (Err (EntryCountTooLarge n)) =>
      n = at_ (p + 4) /\ (n = 0 \/ ARC_CSM_BASE + ARC_CSM_SIZE < p + 8 + n * 8)
  | Some (Err (SharedChipErr _)) => False
  | Some (Ok t) =>
      let n := at_ (p + 4) in
      t_version t = at_ p /\ Z.of_nat (length (t_entries t)) = n /\
      forall k e, t_entries t !! k = Some e ->
        let w := at_ (p + 8 + Z.of_nat k * 4) in
        tag e = Z.land w 0xFFFF /\
        data e = at_ (p + 8 + n * 4 + Z.land (Z.shiftr w 16) 0xFFFF * 4)
  end.
Proof.
  intros Hm H4 p at_. unfold read_telemetry.
  change (arc_read32 (mk_chip (Some (arc, csm))) ARC_TELEMETRY_PTR_ADDR) with (Some (Ok p : result Z ChipErr)).
  cbn [chip_try]. fold p in H4.
  change ARC_CSM_BASE with CSM_WINDOW_BASE. change ARC_CSM_SIZE with 524288.
  assert (HS : CSM_WINDOW_SIZE = 2097152) by done.
  destruct (Z.eqb_spec p 0) as [|Hp]; [done|].
  destruct (_ && _)%bool eqn:Hin; cbn [negb]; [|split; [done|]; apply andb_false_iff in Hin as [? | ?]; bool_to_prop; lia].
  bool_to_prop. rewrite csm_read32_ok by lia. cbn [chip_try]. fold (at_ p).
  destruct (Z.ltb_spec 1 (Z.land (Z.shiftr (at_ p) 16) 0xFF)); [done|].
  rewrite csm_read32_ok by (try lia; Z.div_mod_to_equations; lia). cbn [chip_try]. fold (at_ (p + 4)).
  pose proof (rd32_fits csm (p + 4 - CSM_WINDOW_BASE) Hm) as Hf. fold (at_ (p + 4)) in Hf. unfold fits in Hf.
  unfold saturating_sub. set (n := at_ (p + 4)) in *.
  destruct (_ || _)%bool eqn:Hn.
  { split; [done|]. apply orb_true_iff in Hn as [? | ?]; bool_to_prop; lia. }
  bool_to_prop.
  destruct (read_entries_ok arc csm (p + 8) (p + 8 + n * 4) (Z.to_nat n) 0) as (l & -> & Hl & He);
    try lia; try (Z.div_mod_to_equations; lia).
  cbn [result_map]. split; [done|]. split; [cbn [t_entries decode_entries]; lia|]. exact He.
Qed.

(** A table of one entry: tag 40, offset 0, word 1. *)
Definition demo_arc : Arc := mk_arc {[ARC_TELEMETRY_PTR_ADDR := 0x10000100]} [].
Definition demo_csm : gmap Z Z :=
  wr32 (wr32 (wr32 (wr32 ∅ 0x100 0x10000) 0x104 1) 0x108 40) 0x10C 1.

Lemma telemetry_total_witness :
  mem_ok demo_csm /\
  exists t, read_telemetry (mk_chip (Some (demo_arc, demo_csm))) = Some (Ok t) /\
    length (t_entries t) = 1%nat /\ trans_enabled t = true.
Proof.
  assert (Hm : mem_ok demo_csm).
  { unfold demo_csm, wr32. repeat apply mem_ok_write_bytes; try apply le_bytes_are_bytes. apply map_Forall_empty. }
  split; [exact Hm|].
  pose proof (telemetry_total demo_arc demo_csm Hm eq_refl) as H.
  destruct (read_telemetry (mk_chip (Some (demo_arc, demo_csm)))) as [[t|e]|] eqn:E;
    [|vm_compute in E; discriminate E|destruct H].
  exists t. split; [reflexivity|]. destruct H as (_ & Hn & _). split; [|vm_compute in E; injection E as <-; reflexivity].
  apply Nat2Z.inj. rewrite Hn. reflexivity.
Defined.

(** The pointer is checked against the bounds of the firmware's memory but
    not for alignment: an odd pointer inside it ends the daemon with a failed
    assertion instead of an error. *)
Theorem telemetry_unaligned_panics arc csm p :
  regs arc !! ARC_TELEMETRY_PTR_ADDR = Some p ->
  ARC_CSM_BASE <= p < ARC_CSM_BASE + ARC_CSM_SIZE -> p mod 4 <> 0 ->
  read_telemetry (mk_chip (Some (arc, csm))) = None.
Proof.
  intros Hp Hb Ha. unfold read_telemetry.
  change (arc_read32 (mk_chip (Some (arc, csm))) ARC_TELEMETRY_PTR_ADDR)
    with (Some (Ok (default 0 (regs arc !! ARC_TELEMETRY_PTR_ADDR)) : result Z ChipErr)).
  rewrite Hp. change (default 0 (Some p)) with p. cbn [chip_try].
  change ARC_CSM_SIZE with 524288 in *. change ARC_CSM_BASE with (4 * 67108864) in *.
  replace (p =? 0) with false by lia.
  replace ((4 * 67108864 <=? p) && (p <? 4 * 67108864 + 524288)) with true by lia. cbn [negb].
  by rewrite csm_read32_unaligned.
Qed.

Lemma telemetry_unaligned_panics_witness :
  read_telemetry (mk_chip (Some (mk_arc {[ARC_TELEMETRY_PTR_ADDR := 0x10000102]} [], ∅))) = None.
Proof.
  apply (telemetry_unaligned_panics _ _ 0x10000102);
    [reflexivity|vm_compute; split; [discriminate|reflexivity]|vm_compute; discriminate].
Defined.

(** ** The chosen tile *)

Lemma count_ones_bound m : 0 <= count_ones m <= 32.
Proof.
  unfold count_ones. pose proof (List.filter_length_le (fun i => Z.testbit m (Z.of_nat i)) (seq 0 32)) as H.
  rewrite length_seq in H. lia.
Qed.

(** The decoder of the translated case keeps a prefix of the columns. *)
Lemma working_cols_prefix m :
  working_tensix_cols m true = take (Z.to_nat (count_ones m)) TENSIX_COLS_NOC0.
Proof.
  unfold working_tensix_cols. pose proof (count_ones_bound m) as H. revert H.
  generalize (count_ones m). intros n H. rewrite <- (Z2Nat.id n) by lia.
  assert (Hn : (Z.to_nat n <= 32)%nat) by lia. revert Hn. generalize (Z.to_nat n). clear.
  intros k Hk. rewrite Nat2Z.id. do 33 (destruct k as [|k]; [reflexivity|]). lia.
Qed.

Lemma translate_loop_spec pos n y : forall l i,
  0 <= n -> 0 <= i <= pos -> pos < i + Z.of_nat (length l) ->
  translate_loop l i pos n (Z.min i n) y =
  if pos <? n then (let! x := TENSIX_COLS_NOC0 !! Z.to_nat pos in Some (x, y)) else None.
Proof.
  induction l as [|c l IH]; intros i Hn Hi Hl; cbn [translate_loop length] in *; [lia|].
  destruct (Z.eqb_spec i pos) as [->|].
  - destruct (Z.ltb_spec pos n), (Z.leb_spec n (Z.min pos n)); try lia; [|done].
    by rewrite Z.min_l by lia.
  - replace (if i <? n then Z.min i n + 1 else Z.min i n) with (Z.min (i + 1) n)
      by (destruct (Z.ltb_spec i n); lia).
    apply IH; lia.
Qed.

Lemma cols_nodup : NoDup TENSIX_COLS_NOC0.
Proof. apply (bool_decide_unpack _). vm_compute. exact I. Qed.

(** Translation is the identity on the working columns. *)
Lemma translate_identity m x y :
  noc0_to_translated_tensix x y m true =
  if decide (x ∈ working_tensix_cols m true) then Some (x, y) else None.
Proof.
  rewrite working_cols_prefix. unfold noc0_to_translated_tensix. cbn [negb].
  pose proof (count_ones_bound m) as Hn. set (n := count_ones m) in *. clearbody n.
  destruct (list_find (fun v => v = x) TENSIX_COLS_NOC0) as [[pos v]|] eqn:E.
  - apply list_find_Some in E as (Hp & -> & _). cbn [fst].
    pose proof (lookup_lt_Some _ _ _ Hp) as Hlt. cbn [TENSIX_COLS_NOC0 length] in Hlt.
    pose proof (translate_loop_spec (Z.of_nat pos) n y TENSIX_COLS_NOC0 0) as T.
    rewrite Z.min_l in T by lia. rewrite T by (cbn [TENSIX_COLS_NOC0 length]; lia). rewrite Nat2Z.id, Hp.
    destruct (Z.ltb_spec (Z.of_nat pos) n), (decide _) as [Hin|Hin]; try done.
    + destruct Hin. apply elem_of_take. exists pos. split; [done|lia].
    + apply elem_of_take in Hin as (i & Hi & Hl).
      pose proof (NoDup_lookup _ _ _ _ cols_nodup Hi Hp). lia.
  - apply list_find_None in E. destruct (decide _) as [Hin|Hin]; [|done].
    apply elem_of_take in Hin as (i & Hi & _). rewrite Forall_forall in E.
    by destruct (E x (list_elem_of_lookup_2 _ _ _ Hi)).
Qed.

Lemma elem_of_select_pos p x : forall l i,
  x ∈ select_pos p i l <-> exists j, l !! j = Some x /\ p (i + Z.of_nat j) = true.
Proof.
  induction l as [|y l IH]; intros i; cbn [select_pos].
  - split; [intros H; inversion H|]. intros (j & Hj & _). by destruct j.
  - assert (G : (exists j, (y :: l) !! j = Some x /\ p (i + Z.of_nat j) = true) <->
                (y = x /\ p i = true) \/ x ∈ select_pos p (i + 1) l).
    { rewrite IH. split.
      - intros ([|j] & Hj & Hp); cbn in Hj; [left; rewrite Z.add_0_r in Hp; by simplify_eq|].
        right. exists j. split; [done|]. by replace (i + 1 + Z.of_nat j) with (i + Z.of_nat (S j)) by lia.
      - intros [[-> Hp] | (j & Hj & Hp)]; [exists O; by rewrite Z.add_0_r|].
        exists (S j). split; [done|]. by replace (i + Z.of_nat (S j)) with (i + 1 + Z.of_nat j) by lia. }
    rewrite G. destruct (p i) eqn:E; [rewrite elem_of_cons|]; naive_solver.
Qed.

Lemma select_pos_all p : forall l i,
  (forall j x, l !! j = Some x -> p (i + Z.of_nat j) = true) -> select_pos p i l = l.
Proof.
  induction l as [|y l IH]; intros i H; cbn [select_pos]; [done|].
  pose proof (H 0%nat y eq_refl) as H0. rewrite Z.add_0_r in H0. rewrite H0. f_equal. apply IH. intros j x Hj.
  specialize (H (S j) x Hj). by replace (i + 1 + Z.of_nat j) with (i + Z.of_nat (S j)) by lia.
Qed.

(** A tile is refused only when no column or no row works; the picked tile
    lies in a working column, in a harvested row when there is one and else in
    the last row, and it always has a translated form, its own coordinates. *)
Theorem picked_tile_reachable telem :
  let mask := field telem F_enabled_tensix_col in
  let state := field telem F_harvesting_state in
  let trans := trans_enabled telem in
  match pick_virtio_engine_tile telem with
  | Ok p =>
      pt_x p ∈ working_tensix_cols mask trans /\
      noc0_to_translated_tensix (pt_x p) (pt_y p) mask trans = Some (pt_x p, pt_y p) /\
      match reason p with
      | HarvestedRowCorner => exists i, TENSIX_ROWS_NOC0 !! i = Some (pt_y p) /\ bit_set state (Z.of_nat i) = true
      | BottomRightCorner => pt_y p = 11 /\
          forall i y, TENSIX_ROWS_NOC0 !! i = Some y -> bit_set state (Z.of_nat i) = false
      end
  | Err (NoWorkingCols m t) => m = mask /\ t = trans /\ working_tensix_cols mask trans = []
  | Err (NoWorkingRows s) => s = state /\ working_tensix_rows state = []
  end.
Proof.
  intros mask state trans. unfold pick_virtio_engine_tile. fold mask state trans.
  destruct (last (working_tensix_cols mask trans)) as [x|] eqn:Hx.
  2:{ by apply last_None in Hx. }
  apply last_Some_elem_of in Hx.
  assert (Ht : forall y, noc0_to_translated_tensix x y mask trans = Some (x, y)).
  { intros y. destruct trans; [|done]. rewrite translate_identity. by rewrite decide_True. }
  destruct (last (working_tensix_rows state)) as [ly|] eqn:Hr.
  2:{ by apply last_None in Hr. }
  destruct (head (harvested_tensix_rows state)) as [y|] eqn:Hh; cbn [pt_x pt_y reason].
  - split; [done|]. split; [apply Ht|].
    assert (Hy : y ∈ harvested_tensix_rows state).
    { destruct (harvested_tensix_rows state); [done|]. injection Hh as ->. apply list_elem_of_here. }
    apply elem_of_select_pos in Hy as (j & Hj & Hp). exists j. by rewrite Z.add_0_l in Hp.
  - split; [done|]. split; [apply Ht|].
    assert (Hno : forall i y, TENSIX_ROWS_NOC0 !! i = Some y -> bit_set state (Z.of_nat i) = false).
    { intros i y Hi. destruct (bit_set state (Z.of_nat i)) eqn:E; [|done].
      assert (Hin : y ∈ harvested_tensix_rows state).
      { apply elem_of_select_pos. exists i. by rewrite Z.add_0_l. }
      destruct (harvested_tensix_rows state); [inversion Hin|done]. }
    split; [|exact Hno].
    assert (Hw : working_tensix_rows state = TENSIX_ROWS_NOC0).
    { apply select_pos_all. intros j y Hj. rewrite Z.add_0_l, (Hno j y Hj). done. }
    rewrite Hw in Hr. cbn in Hr. congruence.
Qed.
