(* ===== verification/Tensix.v ===== *)
(** The Tensix tile that hosts the engine: [src/tensix.rs] (windows, L1 access,
    soft reset, firmware load) and [src/tensix_engine.rs] (bring-up, handshake,
    adoption of running firmware).

    The firmware image and its build id are generated by the build; they are
    arguments.  While the daemon waits, the firmware runs: [Firmware] gives the
    memory of the tile after each poll and the time the poll loop has measured.
    The diagnostics and the file that publishes the tile are left out. *)

From S2P Require Import Prelude Sigbus Tlb Layout Virtqueue DataPlane L2cpu Clock Telemetry.

Definition TENSIX_SOFT_RESET_ADDR : Z := 0xFFB121B0.
Definition SOFT_RESET_BRISC : Z := Z.shiftl 1 11.
Definition SOFT_RESET_TRISC0 : Z := Z.shiftl 1 12.
Definition SOFT_RESET_TRISC1 : Z := Z.shiftl 1 13.
Definition SOFT_RESET_TRISC2 : Z := Z.shiftl 1 14.
Definition SOFT_RESET_NCRISC : Z := Z.shiftl 1 18.
Definition SOFT_RESET_ALL : Z :=
  Z.lor SOFT_RESET_BRISC (Z.lor SOFT_RESET_TRISC0
    (Z.lor SOFT_RESET_TRISC1 (Z.lor SOFT_RESET_TRISC2 SOFT_RESET_NCRISC))).
Definition SOFT_RESET_ALL_EXCEPT_BRISC : Z := Z.land SOFT_RESET_ALL (U32_MAX - SOFT_RESET_BRISC).
Definition RISCV_DEBUG_REG_TRISC0_RESET_PC : Z := 0xFFB12228.
Definition RISCV_DEBUG_REG_TRISC1_RESET_PC : Z := 0xFFB1222C.
Definition RISCV_DEBUG_REG_TRISC2_RESET_PC : Z := 0xFFB12230.
Definition RISCV_DEBUG_REG_TRISC_RESET_PC_OVERRIDE : Z := 0xFFB12234.
Definition TRISC_RESET_PC_OVERRIDE_T0 : Z := Z.shiftl 1 0.
Definition TRISC_RESET_PC_OVERRIDE_T1 : Z := Z.shiftl 1 1.
Definition TRISC_RESET_PC_OVERRIDE_T2 : Z := Z.shiftl 1 2.
Definition TRISC0_RESET_ENTRY_PTR_L1_OFFSET : Z := 0x4.
Definition TRISC1_RESET_ENTRY_PTR_L1_OFFSET : Z := 0x8.
Definition TRISC2_RESET_ENTRY_PTR_L1_OFFSET : Z := 0xC.
Definition TENSIX_L1_SIZE : Z := 1536 * 1024.
Definition TLB_BASE_L1 : Z := 0.
Definition TLB_BASE_DEBUG_REGS : Z := 0xFFA00000.

(** ** The tile *)

Record TensixTile := mk_tile {
  tile_x : Z; tile_y : Z; tile_fd : Z; l1_window : TlbWindow; debug_regs_window : TlbWindow }.

Section with_kernel.
Context `{K : Kernel}.

Definition wrap_owned_fd (fd x y : Z) (os : Os) : io TensixTile :=
  match new_2m fd x y TLB_BASE_L1 os with
  | Panic => Panic
  | IoErr e os => IoErr e (close fd os)
  | Ret l1 os =>
      match new_2m fd x y TLB_BASE_DEBUG_REGS os with
      | Panic => Panic
      | IoErr e os => IoErr e (close fd (window_drop l1 os))
      | Ret dbg os => Ret (mk_tile x y fd l1 dbg) os
      end
  end.

Definition tile_new (card x y : Z) (os : Os) : io TensixTile :=
  match k_open os card with
  | Err e => IoErr e (tick os)
  | Ok fd => wrap_owned_fd fd x y (set_fds ({[fd]} ∪ fds os) os)
  end.

Definition new_with_dup_fd (fd x y : Z) (os : Os) : io TensixTile := wrap_owned_fd fd x y os.

End with_kernel.

Definition tile_drop (t : TensixTile) (os : Os) : Os :=
  close (tile_fd t) (window_drop (l1_window t) (window_drop (debug_regs_window t) os)).

(** L1 access; [None] is a failed assertion. *)
Definition read_l1_u32 (t : TensixTile) (offset : Z) (os : Os) : option Z :=
  if TENSIX_L1_SIZE <? offset + 4 then None else window_read32 (l1_window t) offset os.

Definition write_l1_u32 (t : TensixTile) (offset value : Z) (os : Os) : option Os :=
  if TENSIX_L1_SIZE <? offset + 4 then None else window_write32 (l1_window t) offset value os.

Definition read_l1_u8 (t : TensixTile) (offset : Z) (os : Os) : option Z :=
  if TENSIX_L1_SIZE <=? offset then None else peek8 os (get_window (l1_window t) + offset).

Definition write_l1_u8 (t : TensixTile) (offset value : Z) (os : Os) : option Os :=
  if TENSIX_L1_SIZE <=? offset then None else poke8 (get_window (l1_window t) + offset) value os.

Definition write_l1_u16 (t : TensixTile) (offset value : Z) (os : Os) : option Os :=
  if TENSIX_L1_SIZE <? offset + 2 then None
  else poke (get_window (l1_window t) + offset) (le_bytes 2 value) os.

Definition l1_ptr (t : TensixTile) (offset : Z) : option Z :=
  if TENSIX_L1_SIZE <=? offset then None else Some (get_window (l1_window t) + offset).

Definition read_soft_reset (t : TensixTile) (os : Os) : option Z :=
  window_read32 (debug_regs_window t) (TENSIX_SOFT_RESET_ADDR - TLB_BASE_DEBUG_REGS) os.

Definition write_soft_reset (t : TensixTile) (value : Z) (os : Os) : option Os :=
  window_write32 (debug_regs_window t) (TENSIX_SOFT_RESET_ADDR - TLB_BASE_DEBUG_REGS) value os.

Definition assert_all_resets (t : TensixTile) (os : Os) : option Os :=
  let! os := write_soft_reset t SOFT_RESET_ALL os in
  let! _ := read_soft_reset t os in Some os.

Definition release_brisc_only (t : TensixTile) (os : Os) : option Os :=
  let! os := write_soft_reset t SOFT_RESET_ALL_EXCEPT_BRISC os in
  let! _ := read_soft_reset t os in Some os.

Definition set_trisc0_reset_pc (t : TensixTile) (pc : Z) (os : Os) : option Os :=
  window_write32 (debug_regs_window t) (RISCV_DEBUG_REG_TRISC0_RESET_PC - TLB_BASE_DEBUG_REGS) pc os.
Definition set_trisc1_reset_pc (t : TensixTile) (pc : Z) (os : Os) : option Os :=
  window_write32 (debug_regs_window t) (RISCV_DEBUG_REG_TRISC1_RESET_PC - TLB_BASE_DEBUG_REGS) pc os.
Definition set_trisc2_reset_pc (t : TensixTile) (pc : Z) (os : Os) : option Os :=
  window_write32 (debug_regs_window t) (RISCV_DEBUG_REG_TRISC2_RESET_PC - TLB_BASE_DEBUG_REGS) pc os.

(** The read-modify-write of the override register. *)
Definition enable_override (bit : Z) (t : TensixTile) (os : Os) : option Os :=
  let off := RISCV_DEBUG_REG_TRISC_RESET_PC_OVERRIDE - TLB_BASE_DEBUG_REGS in
  let! prev := window_read32 (debug_regs_window t) off os in
  window_write32 (debug_regs_window t) off (Z.lor prev bit) os.
Definition enable_trisc0_reset_pc_override := enable_override TRISC_RESET_PC_OVERRIDE_T0.
Definition enable_trisc1_reset_pc_override := enable_override TRISC_RESET_PC_OVERRIDE_T1.
Definition enable_trisc2_reset_pc_override := enable_override TRISC_RESET_PC_OVERRIDE_T2.

Definition read_trisc0_reset_entry (t : TensixTile) (os : Os) : option Z :=
  read_l1_u32 t TRISC0_RESET_ENTRY_PTR_L1_OFFSET os.
Definition read_trisc1_reset_entry (t : TensixTile) (os : Os) : option Z :=
  read_l1_u32 t TRISC1_RESET_ENTRY_PTR_L1_OFFSET os.
Definition read_trisc2_reset_entry (t : TensixTile) (os : Os) : option Z :=
  read_l1_u32 t TRISC2_RESET_ENTRY_PTR_L1_OFFSET os.

(** The words of the image from offset [off], the remainder padded with
    zeros. *)
Fixpoint load_words (t : TensixTile) (off : Z) (fw : list Z) (os : Os) : option Os :=
  match fw with
  | [] => Some os
  | a :: b :: c :: d :: fw =>
      let! os := window_write32 (l1_window t) off (le_value [a; b; c; d]) os in
      load_words t (off + 4) fw os
  | remainder =>
      window_write32 (l1_window t) off (le_value (take 4 (remainder ++ [0; 0; 0; 0]))) os
  end.

Definition load_brisc_firmware (t : TensixTile) (firmware : list Z) (os : Os) : option Os :=
  if TENSIX_L1_SIZE <? Z.of_nat (length firmware) then None
  else load_words t 0 firmware os.

(** ** The engine *)

Record TensixEngine := mk_engine {
  eng_tile : TensixTile; noc0_x : Z; noc0_y : Z; translated_x : Z; translated_y : Z;
  firmware_version : Z; protocol_version : Z }.

(** The firmware between polls, and [started.elapsed()] in milliseconds; a poll
    loop sleeps at least one millisecond per iteration. *)
Class Firmware := {
  fw_step : nat -> gmap Z Z -> gmap Z Z;
  elapsed_ms : nat -> Z;
  elapsed_grows : forall k, Z.of_nat k <= elapsed_ms k }.

Inductive polled := Seen (k : nat) (os : Os) | TimedOut (os : Os) | PollPanic | PollFuel.

(** A write of the firmware to its tile. *)
Definition fw_runs `{Firmware} (t : TensixTile) (k : nat) (os : Os) : Os :=
  let xy := (tile_x t, tile_y t) in
  set_noc (<[xy := fw_step k (tile_mem os xy)]> (noc os)) os.

(** Poll the word at [addr] for [magic]; [k] counts the polls of the loop, [k0]
    those before it. *)
Fixpoint poll_magic `{Firmware} (fuel : nat) (t : TensixTile) (addr magic timeout : Z) (k0 k : nat) (os : Os)
    : polled :=
  match fuel with
  | O => PollFuel
  | S fuel =>
      let os := fw_runs t (k0 + k) os in
      match read_l1_u32 t addr os with
      | None => PollPanic
      | Some m =>
          if m =? magic then Seen (k0 + k + 1) os
          else if timeout <? elapsed_ms k then TimedOut os
          else poll_magic fuel t addr magic timeout k0 (k + 1) os
      end
  end.

Definition STATS_TIMEOUT_MS : Z := 200.
Definition HANDSHAKE_TIMEOUT_MS : Z := 500.
Definition poll_fuel : nat := 502.

(** [for off in (0..REGS_PER_DEV).step_by(4)] of one slot. *)
Definition clear_slot (t : TensixTile) (s : nat) (os : option Os) : option Os :=
  foldl (fun os i => let! os := os in
           write_l1_u32 t (slot_regs_base (Z.of_nat s) + Z.of_nat i * 4) 0 os)
        os (seq 0 (Z.to_nat (REGS_PER_DEV / 4))).

Definition clear_regs (t : TensixTile) (os : Os) : option Os :=
  foldl (fun os s => clear_slot t s os) (Some os) (seq 0 (Z.to_nat NUM_SLOTS)).

(** The set-up of one TRISC; an entry of 0 skips it. *)
Definition setup_trisc (entry : TensixTile -> Os -> option Z) (set_pc : TensixTile -> Z -> Os -> option Os)
    (enable : TensixTile -> Os -> option Os) (t : TensixTile) (os : Os) : option Os :=
  let! pc := entry t os in
  if pc =? 0 then Some os
  else let! os := set_pc t pc os in enable t os.

(** From the soft reset to the release of BRISC. *)
Definition prepare_tile (firmware : list Z) (t : TensixTile) (os : Os) : option Os :=
  let! os := assert_all_resets t os in
  let! os := clear_regs t os in
  let! os := load_brisc_firmware t firmware os in
  let! os := setup_trisc read_trisc0_reset_entry set_trisc0_reset_pc enable_trisc0_reset_pc_override t os in
  let! os := setup_trisc read_trisc1_reset_entry set_trisc1_reset_pc enable_trisc1_reset_pc_override t os in
  let! os := setup_trisc read_trisc2_reset_entry set_trisc2_reset_pc enable_trisc2_reset_pc_override t os in
  release_brisc_only t os.

Definition stamped_version (fw_build_id : Z) : Z :=
  Z.lor (u32 (Z.shiftl fw_build_id 8)) PROTOCOL_VERSION.

(** Versions of the firmware, or an error; both keep the ledger. *)
Inductive handshake := Acked (fw proto : Z) (os : Os) | Refused (os : Os) | HsPanic | HsFuel.

Definition run_handshake `{Firmware} (t : TensixTile) (k0 : nat) (os : Os) : handshake :=
  match (let! os := write_l1_u32 t (CTRL_BASE + CTRL_OFF_HELLO + HELLO_OFF_PROTOCOL_VERSION) PROTOCOL_VERSION os in
         write_l1_u32 t (CTRL_BASE + CTRL_OFF_HELLO + HELLO_OFF_MAGIC) HELLO_MAGIC os) with
  | None => HsPanic
  | Some os =>
      match poll_magic poll_fuel t (CTRL_BASE + CTRL_OFF_HELLO_ACK + HELLO_ACK_OFF_MAGIC) HELLO_ACK_MAGIC
              HANDSHAKE_TIMEOUT_MS k0 0 os with
      | PollFuel => HsFuel
      | PollPanic => HsPanic
      | TimedOut os => Refused os
      | Seen _ os =>
          match read_l1_u32 t (CTRL_BASE + CTRL_OFF_HELLO_ACK + HELLO_ACK_OFF_PROTOCOL_VERSION) os,
                read_l1_u32 t (CTRL_BASE + CTRL_OFF_HELLO_ACK + HELLO_ACK_OFF_FIRMWARE_VERSION) os with
          | Some protocol, Some version =>
              if negb (protocol =? PROTOCOL_VERSION) then Refused os else Acked version protocol os
          | _, _ => HsPanic
          end
      end
  end.

Inductive engine_result := Up (e : TensixEngine) (os : Os) | Down (os : Os) | EngPanic | EngFuel.

Section engine.
Context `{K : Kernel} `{FW : Firmware}.

(** Telemetry, tile and translation: the part that [bring_up] and
    [adopt_running] share. *)
Definition choose_tile (chip : SharedChip) : option (option (PickedTile * (Z * Z))) :=
  let! r := read_telemetry chip in
  Some (match r with
        | Err _ => None
        | Ok telem =>
            match pick_virtio_engine_tile telem with
            | Err _ => None
            | Ok p =>
                let! xy := noc0_to_translated_tensix (pt_x p) (pt_y p)
                             (field telem F_enabled_tensix_col) (trans_enabled telem) in
                Some (p, xy)
            end
        end).

Definition bring_up (firmware : list Z) (fw_build_id : Z) (chip : SharedChip) (chip_fd : option Z) (os : Os)
    : engine_result :=
  match choose_tile chip with
  | None => EngPanic
  | Some None => Down os
  | Some (Some (p, (tx, ty))) =>
      match io_bind (dup_fd chip_fd os) (fun dup os => new_with_dup_fd dup (pt_x p) (pt_y p) os) with
      | Panic => EngPanic
      | IoErr _ os => Down os
      | Ret t os =>
          match prepare_tile firmware t os with
          | None => EngPanic
          | Some os =>
              match poll_magic poll_fuel t (STATS_BASE + STATS_OFF_MAGIC) STATS_MAGIC_LOADED
                      STATS_TIMEOUT_MS 0 0 os with
              | PollFuel => EngFuel
              | PollPanic => EngPanic
              | TimedOut os => Down (tile_drop t os)
              | Seen k os =>
                  match write_l1_u32 t (STATS_BASE + STATS_OFF_VERSION) (stamped_version fw_build_id) os with
                  | None => EngPanic
                  | Some os =>
                      match run_handshake t k os with
                      | HsFuel => EngFuel
                      | HsPanic => EngPanic
                      | Refused os => Down (tile_drop t os)
                      | Acked version protocol os =>
                          Up (mk_engine t (pt_x p) (pt_y p) tx ty version protocol) os
                      end
                  end
              end
          end
      end
  end.

Definition adopt_running (fw_build_id : Z) (chip : SharedChip) (chip_fd : option Z) (os : Os) : engine_result :=
  match choose_tile chip with
  | None => EngPanic
  | Some None => Down os
  | Some (Some (p, (tx, ty))) =>
      match io_bind (dup_fd chip_fd os) (fun dup os => new_with_dup_fd dup (pt_x p) (pt_y p) os) with
      | Panic => EngPanic
      | IoErr _ os => Down os
      | Ret t os =>
          match read_l1_u32 t (STATS_BASE + STATS_OFF_MAGIC) os with
          | None => EngPanic
          | Some stats_magic =>
              if negb (stats_magic =? STATS_MAGIC_LOADED) then Down (tile_drop t os)
              else match read_l1_u32 t (STATS_BASE + STATS_OFF_VERSION) os with
              | None => EngPanic
              | Some version =>
                  let firmware_protocol := Z.land version 0xff in
                  let firmware_build_id := Z.land (Z.shiftr version 8) 0xffffff in
                  let expected_build_id := Z.land fw_build_id 0xffffff in
                  if negb (firmware_protocol =? PROTOCOL_VERSION) then Down (tile_drop t os)
                  else if negb (firmware_build_id =? expected_build_id) then Down (tile_drop t os)
                  else Up (mk_engine t (pt_x p) (pt_y p) tx ty version firmware_protocol) os
              end
          end
      end
  end.

End engine.

(** ** Access through the windows of a tile *)

Definition tile_xy (t : TensixTile) : Z * Z := (tile_x t, tile_y t).

(** The window reaches [base] and the 2 MiB above it on tile [xy]. *)
Definition window_at (os : Os) (w : TlbWindow) (xy : Z * Z) (base : Z) : Prop :=
  w_offset w = 0 /\ window_size w = TWO_MEG /\
  forall i, 0 <= i < TWO_MEG -> target os (tlb_base (window w) + i) = Some (xy, base + i).

Record tile_ready (os : Os) (t : TensixTile) : Prop := mk_ready {
  tr_l1 : window_at os (l1_window t) (tile_xy t) TLB_BASE_L1;
  tr_dbg : window_at os (debug_regs_window t) (tile_xy t) TLB_BASE_DEBUG_REGS }.

#[export] Instance window_at_proper : Proper (same_resources ==> eq ==> eq ==> eq ==> iff) window_at.
Proof.
  intros os os' Hs w ? <- xy ? <- base ? <-. unfold window_at.
  split; intros (H1 & H2 & H3); (split; [done|split; [done|]]); intros i Hi;
    [rewrite <- Hs|rewrite Hs]; by apply H3.
Qed.

#[export] Instance tile_ready_proper : Proper (same_resources ==> eq ==> iff) tile_ready.
Proof.
  intros os os' Hs t ? <-. split; intros [H1 H2]; split;
    [by rewrite <- Hs|by rewrite <- Hs|by rewrite Hs|by rewrite Hs].
Qed.

(** A 32-bit access in range. *)
Definition word_in (off : Z) : Prop := 0 <= off /\ off + 4 <= TWO_MEG /\ off mod 4 = 0.

Lemma window_off_in off : word_in off -> window_off 0 TWO_MEG off = Some off.
Proof.
  intros (H0 & H1 & H4). unfold window_off, checked_add64. rewrite Z.add_0_l.
  change TWO_MEG with 2097152 in *.
  replace (off <=? U64_MAX) with true by (unfold U64_MAX; lia).
  replace (2097152 <? off + 4) with false by lia. by rewrite H4.
Qed.

Lemma window_write32_at os w xy base off v :
  window_at os w xy base -> word_in off ->
  exists os', window_write32 w off v os = Some os' /\
    wrote os os' xy (wr32 (tile_mem os xy) (base + off) v).
Proof.
  intros (Ho & Hs & Ht) Hw. unfold window_write32. rewrite Ho, Hs, window_off_in by done.
  destruct Hw as (H0 & H1 & _). apply poke_contiguous. rewrite length_le_bytes. intros i Hi.
  rewrite <- !Z.add_assoc, Ht by lia. done.
Qed.

Lemma window_read32_at os w xy base off :
  window_at os w xy base -> word_in off ->
  window_read32 w off os = Some (rd32 (tile_mem os xy) (base + off)).
Proof.
  intros (Ho & Hs & Ht) Hw. unfold window_read32. rewrite Ho, Hs, window_off_in by done.
  destruct Hw as (H0 & H1 & _). rewrite (peek_contiguous 4 os _ xy (base + off)); [done|].
  intros i Hi. rewrite <- !Z.add_assoc, Ht by lia. done.
Qed.

(** The operation [f] of the daemon changes the memory of the tile by [g]. *)
Definition tile_does (t : TensixTile) (f : Os -> option Os) (g : gmap Z Z -> gmap Z Z) : Prop :=
  forall os, tile_ready os t ->
    exists os', f os = Some os' /\ wrote os os' (tile_xy t) (g (tile_mem os (tile_xy t))).

Lemma does_skip t : tile_does t (fun os => Some os) (fun m => m).
Proof. intros os _. by exists os. Qed.

Lemma does_seq t f f' g g' :
  tile_does t f g -> tile_does t f' g' ->
  tile_does t (fun os => let! os := f os in f' os) (fun m => g' (g m)).
Proof.
  intros Hf Hf' os Hr. destruct (Hf os Hr) as (os1 & -> & W1).
  destruct (Hf' os1) as (os2 & E & W2).
  { by rewrite <- (wrote_same _ _ _ _ W1). }
  exists os2. split; [exact E|]. rewrite (wrote_mem _ _ _ _ W1) in W2. by eapply wrote_trans.
Qed.

(** A step that depends on a read. *)
Lemma does_read {A} t (r : Os -> option A) (v : gmap Z Z -> A) f g :
  (forall os, tile_ready os t -> r os = Some (v (tile_mem os (tile_xy t)))) ->
  (forall a, tile_does t (f a) (g a)) ->
  tile_does t (fun os => let! a := r os in f a os) (fun m => g (v m) m).
Proof. intros Hr Hf os H. rewrite (Hr os H). by apply Hf. Qed.

Lemma does_ext t f g g' : (forall m, g m = g' m) -> tile_does t f g -> tile_does t f g'.
Proof. intros E H os Hr. rewrite <- E. by apply H. Qed.

Lemma write_l1_does t off v :
  0 <= off -> off + 4 <= TENSIX_L1_SIZE -> off mod 4 = 0 ->
  tile_does t (write_l1_u32 t off v) (fun m => wr32 m off v).
Proof.
  intros H0 H1 H4 os [Hl _]. unfold write_l1_u32. replace (TENSIX_L1_SIZE <? off + 4) with false by lia.
  apply (window_write32_at _ _ _ _ off v Hl). unfold word_in. change TWO_MEG with 2097152.
  change TENSIX_L1_SIZE with 1572864 in H1. lia.
Qed.

Lemma read_l1_reads t off os :
  tile_ready os t -> 0 <= off -> off + 4 <= TENSIX_L1_SIZE -> off mod 4 = 0 ->
  read_l1_u32 t off os = Some (rd32 (tile_mem os (tile_xy t)) off).
Proof.
  intros [Hl _] H0 H1 H4. unfold read_l1_u32. replace (TENSIX_L1_SIZE <? off + 4) with false by lia.
  rewrite (window_read32_at _ _ _ _ _ Hl); [done|]. unfold word_in. change TWO_MEG with 2097152.
  change TENSIX_L1_SIZE with 1572864 in H1. lia.
Qed.

(** Registers of the debug block, by address. *)
Definition dbg_reg (a : Z) : Prop := word_in (a - TLB_BASE_DEBUG_REGS).

Lemma dbg_write_does t a v : dbg_reg a ->
  tile_does t (window_write32 (debug_regs_window t) (a - TLB_BASE_DEBUG_REGS) v) (fun m => wr32 m a v).
Proof.
  intros Ha os [_ Hd]. destruct (window_write32_at _ _ _ _ _ v Hd Ha) as (os' & E & W).
  exists os'. split; [done|]. by rewrite Zplus_minus in W.
Qed.

Lemma dbg_reads t a os : tile_ready os t -> dbg_reg a ->
  window_read32 (debug_regs_window t) (a - TLB_BASE_DEBUG_REGS) os = Some (rd32 (tile_mem os (tile_xy t)) a).
Proof. intros [_ Hd] Ha. by rewrite (window_read32_at _ _ _ _ _ Hd Ha), Zplus_minus. Qed.

Ltac dbg := unfold dbg_reg, word_in; vm_compute; repeat split; discriminate.

Lemma soft_reset_does t v (f : Os -> option Os) :
  (forall os, f os = let! os := write_soft_reset t v os in let! _ := read_soft_reset t os in Some os) ->
  tile_does t f (fun m => wr32 m TENSIX_SOFT_RESET_ADDR v).
Proof.
  intros Hf os Hr. rewrite Hf. revert os Hr. fold (tile_does t (fun os => let! os := write_soft_reset t v os in
    let! _ := read_soft_reset t os in Some os) (fun m => wr32 m TENSIX_SOFT_RESET_ADDR v)).
  apply (does_seq t _ _ (fun m => wr32 m TENSIX_SOFT_RESET_ADDR v) (fun m => m)).
  - apply dbg_write_does. dbg.
  - apply (does_read t (read_soft_reset t) (fun m => rd32 m TENSIX_SOFT_RESET_ADDR) (fun _ os => Some os) (fun _ m => m)).
    + intros os Hr. apply dbg_reads; [done|dbg].
    + intros _. apply does_skip.
Qed.

(** ** Loading the firmware *)

(** Padding to a multiple of four bytes. *)
Definition pad4 (l : list Z) : list Z := l ++ replicate ((4 - length l mod 4) mod 4) 0.

Lemma pad4_step a b c d l : pad4 (a :: b :: c :: d :: l) = a :: b :: c :: d :: pad4 l.
Proof.
  unfold pad4. cbn [length app]. do 4 f_equal. f_equal.
  change (S (S (S (S (length l))))) with (4 + length l)%nat.
  replace (4 + length l)%nat with (length l + 1 * 4)%nat by lia. by rewrite Nat.Div0.mod_add.
Qed.

Lemma wr32_le_value m a l : length l = 4%nat -> Forall is_byte l -> wr32 m a (le_value l) = write_bytes m a l.
Proof. intros Hl Hb. unfold wr32. rewrite <- Hl. by rewrite le_bytes_le_value. Qed.

Ltac bytes := repeat (apply Forall_cons_2; [assumption|]); apply Forall_nil_2.

Lemma load_words_does t n : forall fw off,
  (length fw <= n)%nat -> Forall is_byte fw -> 0 <= off -> off mod 4 = 0 ->
  off + Z.of_nat (length fw) <= TENSIX_L1_SIZE ->
  tile_does t (load_words t off fw) (fun m => write_bytes m off (pad4 fw)).
Proof.
  induction n as [|n IH]; intros fw off Hn Hb H0 H4 Hl.
  { destruct fw; [apply does_skip|cbn in Hn; lia]. }
  change TENSIX_L1_SIZE with (4 * 393216) in Hl.
  assert (Hw : 0 < Z.of_nat (length fw) -> word_in off).
  { intros Hp. unfold word_in. change TWO_MEG with (4 * 524288). Z.div_mod_to_equations. lia. }
  assert (Hone : forall l, length l = 4%nat -> Forall is_byte l -> 0 < Z.of_nat (length fw) ->
    tile_does t (window_write32 (l1_window t) off (le_value l)) (fun m => write_bytes m off l)).
  { intros l H4l Hbl Hp os [Hr _]. rewrite <- (wr32_le_value _ _ l H4l Hbl).
    exact (window_write32_at _ _ _ _ off _ Hr (Hw Hp)). }
  assert (H0b : is_byte 0) by (unfold is_byte; lia).
  destruct fw as [|a [|b [|c [|d fw]]]]; cbn [load_words length] in *;
    rewrite ?Forall_cons in Hb; destruct_and?.
  - apply does_skip.
  - apply (Hone [a; 0; 0; 0]); [done| |lia]. bytes.
  - apply (Hone [a; b; 0; 0]); [done| |lia]. bytes.
  - apply (Hone [a; b; c; 0]); [done| |lia]. bytes.
  - assert (E : forall m, write_bytes (write_bytes m off [a; b; c; d]) (off + 4) (pad4 fw) =
                          write_bytes m off (pad4 (a :: b :: c :: d :: fw))).
    { intros m. rewrite pad4_step. symmetry. apply (write_bytes_app m off [a; b; c; d]). }
    eapply does_ext; [exact E|].
    apply (does_seq t _ _ (fun m => write_bytes m off [a; b; c; d]) (fun m => write_bytes m (off + 4) (pad4 fw)));
      [apply (Hone [a; b; c; d]); [done|bytes|lia]|].
    apply IH; [lia|done|lia|Z.div_mod_to_equations; lia|].
    change TENSIX_L1_SIZE with (4 * 393216). lia.
Qed.

Lemma load_firmware_does t fw :
  Forall is_byte fw -> Z.of_nat (length fw) <= TENSIX_L1_SIZE ->
  tile_does t (load_brisc_firmware t fw) (fun m => write_bytes m 0 (pad4 fw)).
Proof.
  intros Hb Hl os Hr. unfold load_brisc_firmware. replace (TENSIX_L1_SIZE <? _) with false by lia.
  by apply (load_words_does t (length fw)).
Qed.

(** ** Clearing the register files *)

Lemma wr32_zero m a : wr32 m a 0 = write_bytes m a (replicate 4 0).
Proof. done. Qed.

Lemma write_zeros_app m a n k :
  write_bytes (write_bytes m a (replicate n 0)) (a + Z.of_nat n) (replicate k 0) =
  write_bytes m a (replicate (n + k) 0).
Proof. rewrite replicate_add, write_bytes_app. by rewrite length_replicate. Qed.

Lemma clear_words_does t base n :
  0 <= base -> base mod 4 = 0 -> base + Z.of_nat n * 4 <= TENSIX_L1_SIZE ->
  tile_does t (fun os => foldl (fun os i => let! os := os in write_l1_u32 t (base + Z.of_nat i * 4) 0 os)
                 (Some os) (seq 0 n))
    (fun m => write_bytes m base (replicate (4 * n) 0)).
Proof.
  intros H0 H4 Hl. induction n as [|n IH]; [apply does_skip|].
  rewrite seq_S. cbn [Nat.add].
  assert (E : forall m, wr32 (write_bytes m base (replicate (4 * n) 0)) (base + Z.of_nat n * 4) 0 =
                        write_bytes m base (replicate (4 * S n) 0)).
  { intros m. rewrite wr32_zero. replace (base + Z.of_nat n * 4) with (base + Z.of_nat (4 * n)) by lia.
    rewrite write_zeros_app. f_equal. f_equal. lia. }
  eapply does_ext; [exact E|]. intros os Hr. rewrite foldl_app. cbn [foldl].
  apply (does_seq t (fun os => foldl _ (Some os) (seq 0 n)) (write_l1_u32 t (base + Z.of_nat n * 4) 0)
           (fun m => write_bytes m base (replicate (4 * n) 0)) (fun m => wr32 m (base + Z.of_nat n * 4) 0));
    [apply IH; lia| |done].
  apply write_l1_does; [lia|lia|]. Z.div_mod_to_equations. lia.
Qed.

Lemma slot_base_eq s : (s < 32)%nat -> slot_regs_base (Z.of_nat s) = REGS_BASE + Z.of_nat s * 4096.
Proof.
  intros Hs. unfold slot_regs_base, u32, REGS_BASE, REGS_PER_DEV.
  rewrite !wrap_small; [done| |]; unfold fits; rewrite ?wrap_small; unfold fits; lia.
Qed.

Lemma clear_slot_does t s : (s < 32)%nat ->
  tile_does t (fun os => clear_slot t s (Some os))
    (fun m => write_bytes m (REGS_BASE + Z.of_nat s * 4096) (replicate 4096 0)).
Proof.
  intros Hs. unfold clear_slot. rewrite slot_base_eq by done.
  apply (clear_words_does t (REGS_BASE + Z.of_nat s * 4096) 1024); unfold REGS_BASE; [lia| |].
  - Z.div_mod_to_equations. lia.
  - change TENSIX_L1_SIZE with 1572864. lia.
Qed.

(** All register files lie side by side. *)
Lemma clear_slots_does t n : (n <= 32)%nat ->
  tile_does t (fun os => foldl (fun os s => clear_slot t s os) (Some os) (seq 0 n))
    (fun m => write_bytes m REGS_BASE (replicate (4096 * n) 0)).
Proof.
  induction n as [|n IH]; intros Hn; [apply does_skip|].
  assert (E : forall m, write_bytes (write_bytes m REGS_BASE (replicate (4096 * n) 0))
                          (REGS_BASE + Z.of_nat n * 4096) (replicate 4096 0) =
                        write_bytes m REGS_BASE (replicate (4096 * S n) 0)).
  { intros m. replace (REGS_BASE + Z.of_nat n * 4096) with (REGS_BASE + Z.of_nat (4096 * n)) by lia.
    rewrite write_zeros_app. f_equal. f_equal. lia. }
  eapply does_ext; [exact E|]. intros os Hr. rewrite seq_S, foldl_app. cbn [foldl Nat.add].
  destruct (IH ltac:(lia) os Hr) as (os1 & E1 & W1). rewrite E1.
  destruct (clear_slot_does t n ltac:(lia) os1) as (os2 & E2 & W2).
  { by rewrite <- (wrote_same _ _ _ _ W1). }
  exists os2. split; [exact E2|]. rewrite (wrote_mem _ _ _ _ W1) in W2. by eapply wrote_trans.
Qed.

Definition regs_bytes : nat := 4096 * 32.

Lemma regs_bytes_Z : Z.of_nat regs_bytes = 131072.
Proof. unfold regs_bytes. rewrite Nat2Z.inj_mul. reflexivity. Qed.

Lemma clear_regs_does t :
  tile_does t (clear_regs t) (fun m => write_bytes m REGS_BASE (replicate regs_bytes 0)).
Proof. exact (clear_slots_does t 32 (le_n 32)). Qed.

#[local] Opaque regs_bytes.

(** ** The tile at the moment BRISC starts *)

Definition setup_mem (entry pc_reg bit : Z) (m : gmap Z Z) : gmap Z Z :=
  let pc := rd32 m entry in
  if pc =? 0 then m
  else let m := wr32 m pc_reg pc in
       wr32 m RISCV_DEBUG_REG_TRISC_RESET_PC_OVERRIDE
         (Z.lor (rd32 m RISCV_DEBUG_REG_TRISC_RESET_PC_OVERRIDE) bit).

Lemma enable_override_does t bit :
  tile_does t (enable_override bit t)
    (fun m => wr32 m RISCV_DEBUG_REG_TRISC_RESET_PC_OVERRIDE
                (Z.lor (rd32 m RISCV_DEBUG_REG_TRISC_RESET_PC_OVERRIDE) bit)).
Proof.
  apply (does_read t _ (fun m => rd32 m RISCV_DEBUG_REG_TRISC_RESET_PC_OVERRIDE)
           (fun prev => window_write32 (debug_regs_window t) _ (Z.lor prev bit))
           (fun prev m => wr32 m RISCV_DEBUG_REG_TRISC_RESET_PC_OVERRIDE (Z.lor prev bit))).
  - intros os Hr. apply dbg_reads; [done|dbg].
  - intros prev. apply dbg_write_does. dbg.
Qed.

Lemma setup_trisc_does t entry pc_reg bit :
  0 <= entry -> entry + 4 <= 16 -> entry mod 4 = 0 -> dbg_reg pc_reg ->
  tile_does t (setup_trisc (fun t => read_l1_u32 t entry)
                 (fun t pc => window_write32 (debug_regs_window t) (pc_reg - TLB_BASE_DEBUG_REGS) pc)
                 (enable_override bit) t)
    (setup_mem entry pc_reg bit).
Proof.
  intros H0 H1 H4 Hreg.
  apply (does_read t (read_l1_u32 t entry) (fun m => rd32 m entry)
           (fun pc os => if pc =? 0 then Some os
              else let! os := window_write32 (debug_regs_window t) (pc_reg - TLB_BASE_DEBUG_REGS) pc os in
                   enable_override bit t os)
           (fun pc m => if pc =? 0 then m else
              let m := wr32 m pc_reg pc in
              wr32 m RISCV_DEBUG_REG_TRISC_RESET_PC_OVERRIDE
                (Z.lor (rd32 m RISCV_DEBUG_REG_TRISC_RESET_PC_OVERRIDE) bit))).
  - intros os Hr. apply read_l1_reads; try done. change TENSIX_L1_SIZE with 1572864. lia.
  - intros pc. destruct (pc =? 0); [apply does_skip|].
    apply (does_seq t _ _ (fun m => wr32 m pc_reg pc)
             (fun m => wr32 m RISCV_DEBUG_REG_TRISC_RESET_PC_OVERRIDE
                (Z.lor (rd32 m RISCV_DEBUG_REG_TRISC_RESET_PC_OVERRIDE) bit))).
    + by apply dbg_write_does.
    + apply enable_override_does.
Qed.

(** The memory that [prepare_tile] leaves. *)
Definition prepared (fw : list Z) (m : gmap Z Z) : gmap Z Z :=
  let m := wr32 m TENSIX_SOFT_RESET_ADDR SOFT_RESET_ALL in
  let m := write_bytes m REGS_BASE (replicate regs_bytes 0) in
  let m := write_bytes m 0 (pad4 fw) in
  let m := setup_mem TRISC0_RESET_ENTRY_PTR_L1_OFFSET RISCV_DEBUG_REG_TRISC0_RESET_PC TRISC_RESET_PC_OVERRIDE_T0 m in
  let m := setup_mem TRISC1_RESET_ENTRY_PTR_L1_OFFSET RISCV_DEBUG_REG_TRISC1_RESET_PC TRISC_RESET_PC_OVERRIDE_T1 m in
  let m := setup_mem TRISC2_RESET_ENTRY_PTR_L1_OFFSET RISCV_DEBUG_REG_TRISC2_RESET_PC TRISC_RESET_PC_OVERRIDE_T2 m in
  wr32 m TENSIX_SOFT_RESET_ADDR SOFT_RESET_ALL_EXCEPT_BRISC.

Lemma prepare_tile_does t fw :
  Forall is_byte fw -> Z.of_nat (length fw) <= TENSIX_L1_SIZE ->
  tile_does t (prepare_tile fw t) (prepared fw).
Proof.
  intros Hb Hl.
  assert (S0 : tile_does t (assert_all_resets t) (fun m => wr32 m TENSIX_SOFT_RESET_ADDR SOFT_RESET_ALL))
    by (by apply soft_reset_does).
  assert (S7 : tile_does t (release_brisc_only t) (fun m => wr32 m TENSIX_SOFT_RESET_ADDR SOFT_RESET_ALL_EXCEPT_BRISC))
    by (by apply soft_reset_does).
  assert (T0 := setup_trisc_does t TRISC0_RESET_ENTRY_PTR_L1_OFFSET RISCV_DEBUG_REG_TRISC0_RESET_PC
                  TRISC_RESET_PC_OVERRIDE_T0 ltac:(done) ltac:(done) ltac:(done) ltac:(dbg)).
  assert (T1 := setup_trisc_does t TRISC1_RESET_ENTRY_PTR_L1_OFFSET RISCV_DEBUG_REG_TRISC1_RESET_PC
                  TRISC_RESET_PC_OVERRIDE_T1 ltac:(done) ltac:(done) ltac:(done) ltac:(dbg)).
  assert (T2 := setup_trisc_does t TRISC2_RESET_ENTRY_PTR_L1_OFFSET RISCV_DEBUG_REG_TRISC2_RESET_PC
                  TRISC_RESET_PC_OVERRIDE_T2 ltac:(done) ltac:(done) ltac:(done) ltac:(dbg)).
  exact (does_seq _ _ _ _ _ S0 (does_seq _ _ _ _ _ (clear_regs_does t)
           (does_seq _ _ _ _ _ (load_firmware_does t fw Hb Hl)
              (does_seq _ _ _ _ _ T0 (does_seq _ _ _ _ _ T1 (does_seq _ _ _ _ _ T2 S7)))))).
Qed.

Lemma rd8_setup_mem e r b m a :
  a < r -> r < RISCV_DEBUG_REG_TRISC_RESET_PC_OVERRIDE -> rd8 (setup_mem e r b m) a = rd8 m a.
Proof.
  intros H1 H2. unfold setup_mem. destruct (_ =? 0); [done|]. by rewrite !rd8_wr32_out by lia.
Qed.

Lemma rd32_ext m m' a : (forall x, a <= x < a + 4 -> rd8 m x = rd8 m' x) -> rd32 m a = rd32 m' a.
Proof. intros H. unfold rd32. f_equal. apply read_bytes_ext. intros x Hx. apply H. lia. Qed.

Lemma mem_ok_wr32 m a v : mem_ok m -> mem_ok (wr32 m a v).
Proof. intros. apply mem_ok_write_bytes; [done|]. apply le_bytes_are_bytes. Qed.

Lemma mem_ok_setup e r b m : mem_ok m -> mem_ok (setup_mem e r b m).
Proof. intros H. unfold setup_mem. destruct (_ =? 0); [done|]. by repeat apply mem_ok_wr32. Qed.

Lemma fits_lor w a b : 0 <= w -> fits w a -> fits w b -> fits w (Z.lor a b).
Proof.
  intros Hw Ha Hb. assert (Hn : 0 <= Z.lor a b) by (apply Z.lor_nonneg; unfold fits in *; lia).
  split; [done|]. destruct (Z.eq_dec (Z.lor a b) 0) as [->|Hz]; [lia|].
  apply Z.log2_lt_cancel. rewrite Z.log2_pow2, Z.log2_lor by (unfold fits in *; lia).
  unfold fits in *. apply Z.max_lub_lt.
  - destruct (Z.eq_dec a 0) as [->|]; [|apply Z.log2_lt_pow2; lia]. cbn. destruct (Z.eq_dec w 0); [|lia].
    subst. assert (b = 0) by lia. subst. done.
  - destruct (Z.eq_dec b 0) as [->|]; [|apply Z.log2_lt_pow2; lia]. cbn. destruct (Z.eq_dec w 0); [|lia].
    subst. assert (a = 0) by lia. subst. done.
Qed.

(** What one set-up establishes, and what it leaves to the others. *)
Lemma setup_mem_sets e r i m :
  mem_ok m -> e + 4 <= r -> r + 4 <= RISCV_DEBUG_REG_TRISC_RESET_PC_OVERRIDE -> 0 <= i < 32 -> rd32 m e <> 0 ->
  let m' := setup_mem e r (Z.shiftl 1 i) m in
  rd32 m' r = rd32 m e /\ Z.testbit (rd32 m' RISCV_DEBUG_REG_TRISC_RESET_PC_OVERRIDE) i = true.
Proof.
  intros Hm H1 H2 Hi Hne m'. unfold m', setup_mem. replace (rd32 m e =? 0) with false by lia.
  assert (Hf : fits 32 (rd32 m e)) by auto with bhx.
  rewrite rd32_wr32_out by lia. rewrite rd32_wr32_eq by done. split; [done|].
  rewrite rd32_wr32_eq; [|].
  - rewrite Z.lor_spec, Z.shiftl_spec by lia. rewrite Z.sub_diag. apply orb_true_r.
  - apply fits_lor; [lia| |].
    + apply rd32_fits. by apply mem_ok_wr32.
    + rewrite Z.shiftl_1_l. split; [lia|]. apply Z.pow_lt_mono_r; lia.
Qed.

Lemma setup_mem_keeps e r b j r' m :
  mem_ok m -> fits 32 b -> r' + 4 <= r \/ r + 4 <= r' ->
  r + 4 <= RISCV_DEBUG_REG_TRISC_RESET_PC_OVERRIDE -> r' + 4 <= RISCV_DEBUG_REG_TRISC_RESET_PC_OVERRIDE ->
  let m' := setup_mem e r b m in
  rd32 m' r' = rd32 m r' /\
  (Z.testbit (rd32 m RISCV_DEBUG_REG_TRISC_RESET_PC_OVERRIDE) j = true ->
   Z.testbit (rd32 m' RISCV_DEBUG_REG_TRISC_RESET_PC_OVERRIDE) j = true).
Proof.
  intros Hm Hb Hr H1 H2 m'. unfold m', setup_mem. destruct (rd32 m e =? 0); [done|].
  set (o := RISCV_DEBUG_REG_TRISC_RESET_PC_OVERRIDE) in *.
  rewrite (rd32_wr32_out _ o _ r'), (rd32_wr32_out _ r _ r'), (rd32_wr32_out _ r _ o) by lia.
  split; [done|]. intros Hj. rewrite rd32_wr32_eq; [rewrite Z.lor_spec; by rewrite Hj|].
  apply fits_lor; [lia| |done]. auto with bhx.
Qed.

Definition trisc_entry (i : Z) : Z := TRISC0_RESET_ENTRY_PTR_L1_OFFSET + 4 * i.
Definition trisc_pc (i : Z) : Z := RISCV_DEBUG_REG_TRISC0_RESET_PC + 4 * i.

(** Below the debug registers only the first three steps write. *)
Lemma prepared_l1 fw m a : a < TENSIX_L1_SIZE ->
  rd8 (prepared fw m) a =
  rd8 (write_bytes (write_bytes m REGS_BASE (replicate regs_bytes 0)) 0 (pad4 fw)) a.
Proof.
  intros Ha. change TENSIX_L1_SIZE with 1572864 in Ha. unfold prepared.
  rewrite rd8_wr32_out by (unfold TENSIX_SOFT_RESET_ADDR; lia).
  rewrite !rd8_setup_mem by (first [done | unfold RISCV_DEBUG_REG_TRISC0_RESET_PC,
    RISCV_DEBUG_REG_TRISC1_RESET_PC, RISCV_DEBUG_REG_TRISC2_RESET_PC; lia]).
  assert (Hx : rd8 (wr32 m TENSIX_SOFT_RESET_ADDR SOFT_RESET_ALL) a = rd8 m a).
  { apply rd8_wr32_out. unfold TENSIX_SOFT_RESET_ADDR. lia. }
  assert (G : forall l m1 m2 b, rd8 m1 a = rd8 m2 a -> rd8 (write_bytes m1 b l) a = rd8 (write_bytes m2 b l) a).
  { clear. intros l m1 m2 b H.
    destruct (decide (b <= a < b + Z.of_nat (length l))) as [Hin|Hout].
    - destruct (lookup_lt_is_Some_2 l (Z.to_nat (a - b))) as [x Hx]; [lia|].
      replace a with (b + Z.of_nat (Z.to_nat (a - b))) by lia.
      by rewrite !(rd8_write_bytes_in _ _ _ _ _ Hx).
    - rewrite !rd8_write_bytes_out by lia. done. }
  by apply G, G.
Qed.

Lemma length_pad4 l : Z.of_nat (length l) <= Z.of_nat (length (pad4 l)).
Proof. unfold pad4. rewrite length_app. lia. Qed.

Lemma pad4_bytes l : Forall is_byte l -> Forall is_byte (pad4 l).
Proof. intros H. apply Forall_app. split; [done|]. apply Forall_replicate. unfold is_byte. lia. Qed.

Lemma rd32_prepared_entry fw m i : 0 <= i < 3 ->
  rd32 (prepared fw m) (trisc_entry i) =
  rd32 (write_bytes (write_bytes (wr32 m TENSIX_SOFT_RESET_ADDR SOFT_RESET_ALL) REGS_BASE (replicate regs_bytes 0))
          0 (pad4 fw)) (trisc_entry i).
Proof.
  intros Hi. apply rd32_ext. intros x Hx. unfold trisc_entry, TRISC0_RESET_ENTRY_PTR_L1_OFFSET in Hx.
  unfold prepared. rewrite rd8_wr32_out by (unfold TENSIX_SOFT_RESET_ADDR; lia).
  by rewrite !rd8_setup_mem by (first [done | unfold RISCV_DEBUG_REG_TRISC0_RESET_PC,
    RISCV_DEBUG_REG_TRISC1_RESET_PC, RISCV_DEBUG_REG_TRISC2_RESET_PC; lia]).
Qed.

(** The override of every TRISC with an entry point. *)
Lemma prepared_trisc fw m i :
  mem_ok m -> Forall is_byte fw -> 0 <= i < 3 -> rd32 (prepared fw m) (trisc_entry i) <> 0 ->
  rd32 (prepared fw m) (trisc_pc i) = rd32 (prepared fw m) (trisc_entry i) /\
  Z.testbit (rd32 (prepared fw m) RISCV_DEBUG_REG_TRISC_RESET_PC_OVERRIDE) i = true.
Proof.
  intros Hm Hb Hi Hne. rewrite rd32_prepared_entry in * by done. unfold prepared.
  set (m0 := write_bytes _ 0 (pad4 fw)) in *.
  assert (Hm0 : mem_ok m0).
  { apply mem_ok_write_bytes; [|by apply pad4_bytes]. apply mem_ok_write_bytes; [by apply mem_ok_wr32|].
    apply Forall_replicate. unfold is_byte. lia. }
  clearbody m0. clear Hm m.
  assert (K : forall m e r b j, r < RISCV_DEBUG_REG_TRISC_RESET_PC_OVERRIDE -> j + 4 <= r ->
            rd32 (setup_mem e r b m) j = rd32 m j).
  { intros m e r b j H1 H2. apply rd32_ext. intros x Hx. apply rd8_setup_mem; lia. }
  set (m1 := setup_mem TRISC0_RESET_ENTRY_PTR_L1_OFFSET _ _ m0).
  set (m2 := setup_mem TRISC1_RESET_ENTRY_PTR_L1_OFFSET _ _ m1).
  set (m3 := setup_mem TRISC2_RESET_ENTRY_PTR_L1_OFFSET _ _ m2).
  assert (Hm1 : mem_ok m1) by (by apply mem_ok_setup).
  assert (Hm2 : mem_ok m2) by (by apply mem_ok_setup).
  rewrite !(rd32_wr32_out m3) by
    (unfold trisc_pc, RISCV_DEBUG_REG_TRISC0_RESET_PC, RISCV_DEBUG_REG_TRISC_RESET_PC_OVERRIDE, TENSIX_SOFT_RESET_ADDR; lia).
  assert (Hc : i = 0 \/ i = 1 \/ i = 2) by lia. destruct Hc as [-> | [-> | ->]].
  - destruct (setup_mem_sets (trisc_entry 0) (trisc_pc 0) 0 m0) as [P1 T1]; try done.
    destruct (setup_mem_keeps TRISC1_RESET_ENTRY_PTR_L1_OFFSET RISCV_DEBUG_REG_TRISC1_RESET_PC TRISC_RESET_PC_OVERRIDE_T1
                0 (trisc_pc 0) m1 Hm1) as [P2 T2]; try done; [by left|].
    destruct (setup_mem_keeps TRISC2_RESET_ENTRY_PTR_L1_OFFSET RISCV_DEBUG_REG_TRISC2_RESET_PC TRISC_RESET_PC_OVERRIDE_T2
                0 (trisc_pc 0) m2 Hm2) as [P3 T3]; try done; [by left|].
    split; [exact (eq_trans P3 (eq_trans P2 P1))|exact (T3 (T2 T1))].
  - destruct (setup_mem_sets (trisc_entry 1) (trisc_pc 1) 1 m1) as [P1 T1]; try done.
    { unfold m1. by rewrite K. }
    destruct (setup_mem_keeps TRISC2_RESET_ENTRY_PTR_L1_OFFSET RISCV_DEBUG_REG_TRISC2_RESET_PC TRISC_RESET_PC_OVERRIDE_T2
                1 (trisc_pc 1) m2 Hm2) as [P3 T3]; try done; [by left|].
    split; [|exact (T3 T1)]. etransitivity; [exact (eq_trans P3 P1)|]. unfold m1. by rewrite K.
  - destruct (setup_mem_sets (trisc_entry 2) (trisc_pc 2) 2 m2) as [P1 T1]; try done.
    { unfold m2. rewrite K by done. unfold m1. by rewrite K. }
    split; [|exact T1]. etransitivity; [exact P1|]. unfold m2. rewrite K by done. unfold m1. by rewrite K.
Qed.

(** When BRISC leaves reset, the tile holds exactly the firmware image, the
    rest of every register file is zero, only BRISC runs, and each TRISC whose
    entry word the image plants will start there; no other tile and no host
    resource has changed. *)
Theorem prepare_tile_exact t fw os :
  tile_ready os t -> mem_ok (tile_mem os (tile_xy t)) ->
  Forall is_byte fw -> Z.of_nat (length fw) <= TENSIX_L1_SIZE ->
  exists os', prepare_tile fw t os = Some os' /\ same_resources os os' /\
    (forall xy, xy <> tile_xy t -> tile_mem os' xy = tile_mem os xy) /\
    let m := tile_mem os' (tile_xy t) in
    read_bytes m 0 (length fw) = fw /\
    (forall a, Z.of_nat (length fw) + 4 <= a -> REGS_BASE <= a < REGS_BASE + NUM_SLOTS * REGS_PER_DEV -> rd8 m a = 0) /\
    rd32 m TENSIX_SOFT_RESET_ADDR = SOFT_RESET_ALL_EXCEPT_BRISC /\
    (forall i, 0 <= i < 3 -> rd32 m (trisc_entry i) <> 0 ->
       rd32 m (trisc_pc i) = rd32 m (trisc_entry i) /\
       Z.testbit (rd32 m RISCV_DEBUG_REG_TRISC_RESET_PC_OVERRIDE) i = true).
Proof.
  intros Hr Hm Hb Hl. destruct (prepare_tile_does t fw Hb Hl os Hr) as (os' & E & [Ws _ _ Wm Wo]).
  exists os'. split; [done|]. split; [done|]. split; [done|]. cbv zeta. rewrite Wm.
  set (m := tile_mem os (tile_xy t)) in *. clearbody m. split; [|split; [|split]].
  - assert (Hp : pad4 fw = fw ++ replicate ((4 - length fw mod 4) mod 4) 0) by done.
    transitivity (read_bytes (write_bytes (write_bytes m REGS_BASE (replicate regs_bytes 0)) 0 fw) 0 (length fw)).
    2:{ by apply read_write_bytes_same. }
    apply read_bytes_ext. intros x Hx. rewrite prepared_l1 by lia.
    rewrite Hp, write_bytes_app, rd8_write_bytes_out by lia. done.
  - intros a Ha Hra. change (NUM_SLOTS * REGS_PER_DEV) with 131072 in Hra. unfold REGS_BASE in Hra.
    rewrite prepared_l1 by (change TENSIX_L1_SIZE with 1572864; lia).
    assert (Hpl : Z.of_nat (length (pad4 fw)) < Z.of_nat (length fw) + 4).
    { unfold pad4. rewrite length_app, length_replicate.
      pose proof (Nat.mod_upper_bound (4 - length fw mod 4) 4). lia. }
    rewrite rd8_write_bytes_out by lia.
    assert (Hz : replicate regs_bytes 0 !! Z.to_nat (a - REGS_BASE) = Some 0).
    { apply lookup_replicate_2. pose proof regs_bytes_Z. unfold REGS_BASE. lia. }
    replace a with (REGS_BASE + Z.of_nat (Z.to_nat (a - REGS_BASE))) by (unfold REGS_BASE; lia).
    exact (rd8_write_bytes_in m REGS_BASE _ _ _ Hz).
  - unfold prepared. by apply rd32_wr32_eq.
  - intros i Hi. by apply prepared_trisc.
Qed.

(** ** Opening the tile and waiting for the firmware *)

Section opening.
Context `{KL : KernelLaws}.

Lemma close_same fd os os' : same_resources os os' -> same_resources (close fd os) (close fd os').
Proof. intros [Hf Ht Hr Hs]. split; cbn; try done. by rewrite Hf. Qed.

Lemma wrap_owned_fd_spec fd x y os :
  fd ∈ fds os ->
  match wrap_owned_fd fd x y os with
  | Ret t os' => tile_ready os' t /\ tile_xy t = (x, y) /\ noc os' = noc os /\
      (forall os2, same_resources os2 os' -> same_resources (tile_drop t os2) (close fd os))
  | IoErr _ os' => same_resources os' (close fd os) /\ noc os' = noc os
  | Panic => False
  end.
Proof.
  intros Hfd. unfold wrap_owned_fd.
  pose proof (new_2m_spec fd x y TLB_BASE_L1 os ltac:(done) Hfd) as H1.
  destruct (new_2m fd x y TLB_BASE_L1 os) as [l1 os1|e os1|]; [| |done].
  2:{ destruct H1 as [H1 Hn]. split; [by apply close_same|done]. }
  destruct H1 as (Ho1 & Hs1 & Hn1 & Ht1 & Hd1 & _ & Hf1 & _).
  pose proof (new_2m_spec fd x y TLB_BASE_DEBUG_REGS os1 ltac:(done) ltac:(by rewrite Hf1)) as H2.
  destruct (new_2m fd x y TLB_BASE_DEBUG_REGS os1) as [dbg os2|e os2|]; [| |done].
  2:{ destruct H2 as [H2 Hn]. split; [by apply close_same, Hd1|]. cbn. rewrite window_drop_noc. congruence. }
  destruct H2 as (Ho2 & Hs2 & Hn2 & Ht2 & Hd2 & Hk2 & _).
  split; [|split; [done|split; [congruence|]]].
  - split; (split; [done|split; [done|]]); intros i Hi.
    + apply Hk2. exact (Ht1 i Hi).
    + exact (Ht2 i Hi).
  - intros os3 H3. by apply close_same, Hd1, Hd2.
Qed.

Lemma open_tile_spec chip x y os :
  match io_bind (dup_fd chip os) (fun dup os => new_with_dup_fd dup x y os) with
  | Ret t os' => tile_ready os' t /\ tile_xy t = (x, y) /\ noc os' = noc os /\
      (forall os2, same_resources os2 os' -> same_resources (tile_drop t os2) os)
  | IoErr _ os' => same_resources os' os /\ noc os' = noc os
  | Panic => False
  end.
Proof.
  pose proof (dup_fd_spec chip os) as Hd.
  destruct (dup_fd chip os) as [fd os1|e os1|]; cbn [io_bind]; [|done..]. destruct Hd as [-> Hfd].
  set (os1 := set_fds _ os). assert (Hc : same_resources (close fd os1) os).
  { split; cbn; try done. by apply close_open. }
  pose proof (wrap_owned_fd_spec fd x y os1 ltac:(cbn; set_solver)) as H.
  unfold new_with_dup_fd. destruct (wrap_owned_fd fd x y os1) as [t os2|e os2|]; [| |done].
  - destruct H as (H1 & H2 & H3 & H4). split; [done|]. split; [done|]. split; [done|].
    intros os3 Ho. etransitivity; [by apply H4|done].
  - destruct H as [H1 H2]. split; [by rewrite H1|done].
Qed.

End opening.

Section polling.
Context `{FW : Firmware}.

Lemma fw_runs_same t k os : same_resources (fw_runs t k os) os.
Proof. by split. Qed.

(** A poll loop ends, with the word seen or by its timeout. *)
Lemma poll_magic_spec t addr magic timeout k0 : forall fuel k os,
  tile_ready os t -> 0 <= addr -> addr + 4 <= TENSIX_L1_SIZE -> addr mod 4 = 0 ->
  Z.of_nat k <= timeout + 1 -> timeout + 1 < Z.of_nat (k + fuel) ->
  match poll_magic fuel t addr magic timeout k0 k os with
  | Seen _ os' => same_resources os' os /\ rd32 (tile_mem os' (tile_xy t)) addr = magic
  | TimedOut os' => same_resources os' os
  | PollPanic | PollFuel => False
  end.
Proof.
  induction fuel as [|fuel IH]; intros k os Hr H0 H1 H4 Hk Hf; cbn [poll_magic]; [lia|].
  assert (Hr' : tile_ready (fw_runs t (k0 + k) os) t) by (by rewrite fw_runs_same).
  rewrite read_l1_reads by done. destruct (Z.eqb_spec (rd32 (tile_mem (fw_runs t (k0 + k) os) (tile_xy t)) addr) magic).
  { by split. }
  destruct (Z.ltb_spec timeout (elapsed_ms k)); [done|].
  pose proof (elapsed_grows k). specialize (IH (k + 1)%nat (fw_runs t (k0 + k) os) Hr' H0 H1 H4 ltac:(lia) ltac:(lia)).
  pose proof (fw_runs_same t (k0 + k) os) as Hs.
  destruct (poll_magic _ _ _ _ _ _ _ _); [|by rewrite IH|done..].
  destruct IH as [IH ?]. split; [by rewrite IH|done].
Qed.

Lemma run_handshake_spec t k0 os :
  tile_ready os t ->
  match run_handshake t k0 os with
  | Acked version proto os' => same_resources os' os /\ proto = PROTOCOL_VERSION /\
      version = rd32 (tile_mem os' (tile_xy t)) (CTRL_BASE + CTRL_OFF_HELLO_ACK + HELLO_ACK_OFF_FIRMWARE_VERSION)
  | Refused os' => same_resources os' os
  | HsPanic | HsFuel => False
  end.
Proof.
  intros Hr. unfold run_handshake.
  destruct (does_seq t _ _ _ _
              (write_l1_does t (CTRL_BASE + CTRL_OFF_HELLO + HELLO_OFF_PROTOCOL_VERSION) PROTOCOL_VERSION
                 ltac:(done) ltac:(done) ltac:(done))
              (write_l1_does t (CTRL_BASE + CTRL_OFF_HELLO + HELLO_OFF_MAGIC) HELLO_MAGIC
                 ltac:(done) ltac:(done) ltac:(done)) os Hr) as (os1 & -> & W).
  pose proof (wrote_same _ _ _ _ W) as S1.
  assert (Hr1 : tile_ready os1 t) by (by rewrite <- S1).
  pose proof (poll_magic_spec t (CTRL_BASE + CTRL_OFF_HELLO_ACK + HELLO_ACK_OFF_MAGIC) HELLO_ACK_MAGIC
                HANDSHAKE_TIMEOUT_MS k0 poll_fuel 0 os1 Hr1 ltac:(done) ltac:(done) ltac:(done) ltac:(done) ltac:(done)) as P.
  destruct (poll_magic _ _ _ _ _ _ _ _) as [k os2|os2| |]; try done.
  2:{ by rewrite P. }
  destruct P as [P _]. assert (Hr2 : tile_ready os2 t) by (by rewrite P).
  rewrite !read_l1_reads by done.
  destruct (Z.eqb_spec (rd32 (tile_mem os2 (tile_xy t))
    (CTRL_BASE + CTRL_OFF_HELLO_ACK + HELLO_ACK_OFF_PROTOCOL_VERSION)) PROTOCOL_VERSION); cbn [negb].
  - split; [by rewrite P|done].
  - by rewrite P.
Qed.

End polling.

(** ** Bring-up and adoption *)

Section engine_specs.
Context `{KL : KernelLaws} `{FW : Firmware}.

(** The choice of the tile panics only where reading the telemetry does. *)
Lemma choose_tile_panics chip : choose_tile chip = None <-> read_telemetry chip = None.
Proof. unfold choose_tile. by destruct (read_telemetry chip). Qed.

(** C26: Bringing up the engine always ends, however long the firmware takes and
    whatever it writes: it reports failure with every descriptor, window and
    mapping given back, or returns an engine that speaks the daemon's protocol
    and whose release gives back exactly what it holds.  It panics only where
    reading the chip's telemetry does (a table at an unaligned address), before
    anything was opened.  The firmware image is one that fits the tile's memory. *)
Theorem bring_up_total fw build_id chip chip_fd os :
  Forall is_byte fw -> Z.of_nat (length fw) <= TENSIX_L1_SIZE ->
  match bring_up fw build_id chip chip_fd os with
  | Up e os' =>
      protocol_version e = PROTOCOL_VERSION /\ tile_xy (eng_tile e) = (noc0_x e, noc0_y e) /\
      tile_ready os' (eng_tile e) /\
      forall os2, same_resources os2 os' -> same_resources (tile_drop (eng_tile e) os2) os
  | Down os' => same_resources os' os
  | EngPanic => read_telemetry chip = None
  | EngFuel => False
  end.
Proof.
  intros Hb Hl. unfold bring_up.
  destruct (choose_tile chip) as [[[p [tx ty]]|]|] eqn:Hc; [|done|by apply choose_tile_panics].
  pose proof (open_tile_spec chip_fd (pt_x p) (pt_y p) os) as H.
  destruct (io_bind _ _) as [t os1|e os1|]; [|by destruct H|done].
  destruct H as (Hr & Hxy & _ & Hdrop).
  destruct (prepare_tile_does t fw Hb Hl os1 Hr) as (os2 & -> & W). apply wrote_same in W.
  assert (Hr2 : tile_ready os2 t) by (by rewrite <- W).
  pose proof (poll_magic_spec t (STATS_BASE + STATS_OFF_MAGIC) STATS_MAGIC_LOADED STATS_TIMEOUT_MS 0
                poll_fuel 0 os2 Hr2 ltac:(done) ltac:(done) ltac:(done) ltac:(done) ltac:(done)) as P.
  destruct (poll_magic _ _ _ _ _ _ _ _) as [k os3|os3| |]; try done.
  2:{ apply Hdrop. by rewrite P, W. }
  destruct P as [P _]. assert (Hr3 : tile_ready os3 t) by (by rewrite P).
  destruct (write_l1_does t (STATS_BASE + STATS_OFF_VERSION) (stamped_version build_id)
              ltac:(done) ltac:(done) ltac:(done) os3 Hr3) as (os4 & -> & W4). apply wrote_same in W4.
  assert (Hr4 : tile_ready os4 t) by (by rewrite <- W4).
  pose proof (run_handshake_spec t k os4 Hr4) as R.
  assert (S4 : same_resources os4 os1) by (by rewrite <- W4, P, <- W).
  destruct (run_handshake t k os4) as [version proto os5|os5| |]; try done.
  - destruct R as (R & -> & _). cbn [protocol_version eng_tile noc0_x noc0_y].
    assert (S5 : same_resources os5 os1) by (by rewrite R).
    split; [done|]. split; [done|]. split; [by rewrite S5|]. intros os6 H6. apply Hdrop. by rewrite H6.
  - apply Hdrop. by rewrite R.
Qed.

(** The version word that carries a build id. *)
Lemma stamped_decode v id : fits 32 v ->
  Z.land v 0xff = PROTOCOL_VERSION /\ Z.land (Z.shiftr v 8) 0xffffff = Z.land id 0xffffff <->
  v = stamped_version id.
Proof.
  intros Hv. change 0xff with (Z.ones 8). change 0xffffff with (Z.ones 24).
  rewrite !Z.land_ones, Z.shiftr_div_pow2 by lia.
  assert (E : stamped_version id = PROTOCOL_VERSION + (id mod 2 ^ 24) * 2 ^ 8).
  { unfold stamped_version. rewrite Z.lor_comm. rewrite <- lor_shiftl_add by done. f_equal.
    unfold u32, wrap. rewrite !Z.shiftl_mul_pow2 by lia. change (2 ^ 32) with (2 ^ 24 * 2 ^ 8).
    by rewrite Z.mul_mod_distr_r. }
  rewrite E. unfold PROTOCOL_VERSION, fits in *. change (2 ^ 8) with 256. change (2 ^ 24) with 16777216.
  change (2 ^ 32) with 4294967296 in Hv. pose proof (Z.mod_pos_bound id 16777216 ltac:(lia)).
  rewrite (Z.mod_small (v / 256)) by (Z.div_mod_to_equations; lia).
  split; intros; [destruct_and?|subst v; split]; Z.div_mod_to_equations; lia.
Qed.

(** A restarted daemon adopts the firmware on the tile exactly when its page
    is initialised and carries the version word that a bring-up by the same
    build writes; it never writes to the tile, and a refusal gives everything
    back. *)
Theorem adopt_accepts_exactly build_id chip chip_fd os p tx ty t os1 :
  choose_tile chip = Some (Some (p, (tx, ty))) ->
  io_bind (dup_fd chip_fd os) (fun dup os => new_with_dup_fd dup (pt_x p) (pt_y p) os) = Ret t os1 ->
  mem_ok (tile_mem os (pt_x p, pt_y p)) ->
  let m := tile_mem os (pt_x p, pt_y p) in
  let accepted := rd32 m (STATS_BASE + STATS_OFF_MAGIC) = STATS_MAGIC_LOADED /\
                  rd32 m (STATS_BASE + STATS_OFF_VERSION) = stamped_version build_id in
  match adopt_running build_id chip chip_fd os with
  | Up e os' => accepted /\ noc os' = noc os /\ eng_tile e = t /\
      (noc0_x e, noc0_y e, translated_x e, translated_y e) = (pt_x p, pt_y p, tx, ty) /\
      firmware_version e = stamped_version build_id /\ protocol_version e = PROTOCOL_VERSION
  | Down os' => ~ accepted /\ noc os' = noc os /\ same_resources os' os
  | EngPanic | EngFuel => False
  end.
Proof.
  intros Hc Ho Hm m accepted. unfold adopt_running. rewrite Hc, Ho.
  pose proof (open_tile_spec chip_fd (pt_x p) (pt_y p) os) as H. rewrite Ho in H.
  destruct H as (Hr & Hxy & Hn & Hdrop).
  assert (Hmem : tile_mem os1 (tile_xy t) = m) by (unfold m, tile_mem; by rewrite Hn, Hxy).
  assert (Hd : same_resources (tile_drop t os1) os) by (by apply Hdrop).
  assert (Hdn : noc (tile_drop t os1) = noc os) by (cbn; by rewrite !window_drop_noc).
  rewrite !read_l1_reads by done. rewrite Hmem.
  destruct (Z.eqb_spec (rd32 m (STATS_BASE + STATS_OFF_MAGIC)) STATS_MAGIC_LOADED) as [Em|Em]; cbn [negb].
  2:{ split; [|done]. intros [? _]. done. }
  pose proof (stamped_decode _ build_id (rd32_fits m (STATS_BASE + STATS_OFF_VERSION) Hm)) as D.
  set (v := rd32 m (STATS_BASE + STATS_OFF_VERSION)) in *.
  destruct (Z.eqb_spec (Z.land v 0xff) PROTOCOL_VERSION) as [Ep|Ep]; cbn [negb].
  2:{ split; [|done]. intros [_ Hv]. apply D in Hv as [? _]. done. }
  destruct (Z.eqb_spec (Z.land (Z.shiftr v 8) 0xffffff) (Z.land build_id 0xffffff)) as [Eb|Eb]; cbn [negb].
  2:{ split; [|done]. intros [_ Hv]. apply D in Hv as [_ ?]. done. }
  assert (Hv : v = stamped_version build_id) by (by apply D).
  split; [done|]. repeat split; done.
Qed.

End engine_specs.

(** ** A chip, a firmware and a restart *)

Definition demo_table : gmap Z Z :=
  foldl (fun m w => wr32 m w.1 w.2) ∅
    [(0x100, 0x10000); (0x104, 2); (0x108, 34); (0x10C, 40 + 65536); (0x110, 0x3FFF); (0x114, 1)].
Definition demo_chip : SharedChip := mk_chip (Some (demo_arc, demo_table)).

(** Firmware that publishes its page at the first poll and acknowledges the
    greeting at the second. *)
#[export, refine] Instance demo_firmware : Firmware := {|
  fw_step k m :=
    match k with
    | O => wr32 m (STATS_BASE + STATS_OFF_MAGIC) STATS_MAGIC_LOADED
    | _ => wr32 (wr32 m (CTRL_BASE + CTRL_OFF_HELLO_ACK + HELLO_ACK_OFF_PROTOCOL_VERSION) PROTOCOL_VERSION)
             (CTRL_BASE + CTRL_OFF_HELLO_ACK + HELLO_ACK_OFF_MAGIC) HELLO_ACK_MAGIC
    end;
  elapsed_ms k := Z.of_nat k |}.
Proof. intros k. reflexivity. Defined.

Definition demo_os (m : gmap Z Z) : Os := mk_os {[3]} ∅ [] [] {[(16, 11) := m]} 0.

Lemma bring_up_total_witness :
  read_telemetry demo_chip <> None /\
  match bring_up (K := counting_kernel [2]%nat) [0x6f; 0; 0; 8] 7 demo_chip (Some 3) (demo_os ∅) with
  | Up e _ => protocol_version e = PROTOCOL_VERSION
  | Down os' => same_resources os' (demo_os ∅)
  | _ => False
  end.
Proof.
  assert (Hc : read_telemetry demo_chip <> None) by (vm_compute; discriminate). split; [exact Hc|].
  assert (Hb : Forall is_byte [0x6f; 0; 0; 8]) by (apply (bool_decide_unpack _); exact I).
  pose proof (bring_up_total (K := counting_kernel [2]%nat) [0x6f; 0; 0; 8] 7 demo_chip (Some 3) (demo_os ∅)
                Hb ltac:(vm_compute; discriminate)) as H.
  destruct (bring_up (K := counting_kernel [2]%nat) [0x6f; 0; 0; 8] 7 demo_chip (Some 3) (demo_os ∅));
    [apply H|exact H|exact (Hc H)|exact H].
Defined.

Definition demo_page (version : Z) : gmap Z Z :=
  wr32 (wr32 ∅ (STATS_BASE + STATS_OFF_MAGIC) STATS_MAGIC_LOADED) (STATS_BASE + STATS_OFF_VERSION) version.

(** The same build adopts; a build with another id is refused. *)
Lemma adopt_accepts_exactly_witness :
  match adopt_running (K := counting_kernel []) 0xabcdef demo_chip (Some 3) (demo_os (demo_page 0xabcdef05)) with
  | Up e _ => (noc0_x e, noc0_y e) = (16, 11)
  | _ => False
  end /\
  match adopt_running (K := counting_kernel []) 0xabcdee demo_chip (Some 3) (demo_os (demo_page 0xabcdef05)) with
  | Down os' => same_resources os' (demo_os (demo_page 0xabcdef05))
  | _ => False
  end.
Proof.
  set (os := demo_os (demo_page 0xabcdef05)).
  assert (Hm : mem_ok (tile_mem os (16, 11))).
  { change (mem_ok (demo_page 0xabcdef05)). unfold demo_page. repeat apply mem_ok_wr32. apply map_Forall_empty. }
  destruct (io_bind (dup_fd (K := counting_kernel []) (Some 3) os)
              (fun dup os => new_with_dup_fd (K := counting_kernel []) dup 16 11 os)) as [t os1|e os1|] eqn:Ho;
    [|vm_compute in Ho; discriminate Ho|vm_compute in Ho; discriminate Ho].
  pose proof (fun id => adopt_accepts_exactly (K := counting_kernel []) id demo_chip (Some 3) os
                (mk_picked 16 11 BottomRightCorner) 16 11 t os1 eq_refl Ho Hm) as H.
  split.
  - specialize (H 0xabcdef). destruct (adopt_running _ _ _ _) as [e os'|os'| |]; [|exfalso|exact H|exact H].
    + destruct H as (_ & _ & _ & Hc & _). injection Hc as -> -> _ _. reflexivity.
    + destruct H as (Hno & _). apply Hno. split; vm_compute; reflexivity.
  - specialize (H 0xabcdee). destruct (adopt_running _ _ _ _) as [e os'|os'| |]; [exfalso|apply H|exact H|exact H].
    destruct H as ((_ & Hv) & _). vm_compute in Hv. discriminate Hv.
Defined.

(** An image that plants an entry for TRISC0 only. *)
Lemma prepare_tile_exact_witness :
  exists t os1, tile_ready os1 t /\
    exists os', prepare_tile [0x6f; 0; 0; 8; 0x80; 0; 0; 0] t os1 = Some os' /\
      rd32 (tile_mem os' (16, 11)) TENSIX_SOFT_RESET_ADDR = SOFT_RESET_ALL_EXCEPT_BRISC.
Proof.
  pose proof (open_tile_spec (K := counting_kernel []) (Some 3) 16 11 (demo_os ∅)) as H.
  destruct (io_bind (dup_fd (K := counting_kernel []) (Some 3) (demo_os ∅))
              (fun dup os => new_with_dup_fd (K := counting_kernel []) dup 16 11 os)) as [t os1|e os1|] eqn:Ho;
    [|vm_compute in Ho; discriminate Ho|destruct H].
  destruct H as (Hr & Hxy & Hn & _). exists t, os1. split; [exact Hr|].
  assert (Hm : mem_ok (tile_mem os1 (tile_xy t))).
  { rewrite Hxy. unfold tile_mem. rewrite Hn. exact (map_Forall_empty _). }
  assert (Hb : Forall is_byte [0x6f; 0; 0; 8; 0x80; 0; 0; 0]) by (apply (bool_decide_unpack _); exact I).
  destruct (prepare_tile_exact t [0x6f; 0; 0; 8; 0x80; 0; 0; 0] os1 Hr Hm Hb ltac:(vm_compute; discriminate))
    as (os' & E & _ & _ & _ & _ & Hs & _).
  exists os'. split; [exact E|]. rewrite <- Hxy. exact Hs.
Defined.
