(* ===== verification/Chip.v ===== *)
(** The board reset of [src/chip.rs], the requests of [src/kmd.rs] it makes, and
    the descriptor and windows of [src/shared_chip.rs] across a reset.

    The driver's answers, the configuration byte and the firmware's boot status
    at each poll, and the time that has passed are the class [Board]; the loops
    sleep between polls, which bounds their number. *)

From S2P Require Import Prelude Sigbus Tlb Layout Virtqueue DataPlane L2cpu Clock Text.

Definition TENSTORRENT_IOCTL_MAGIC : Z := 0xFA.
Definition TENSTORRENT_RESET_DEVICE_RESTORE_STATE : Z := 0.
Definition TENSTORRENT_RESET_DEVICE_RESET_PCIE_LINK : Z := 1.
Definition TENSTORRENT_RESET_DEVICE_CONFIG_WRITE : Z := 2.
Definition TT_POWER_FLAG_MAX_AI_CLK : Z := Z.shiftl 1 0.
Definition TT_POWER_FLAG_MRISC_PHY_WAKEUP : Z := Z.shiftl 1 1.
Definition TT_POWER_FLAG_TENSIX_ENABLE : Z := Z.shiftl 1 2.
Definition TT_POWER_FLAG_L2CPU_ENABLE : Z := Z.shiftl 1 3.

Definition validity (flags_count settings_count : Z) : Z :=
  Z.lor (Z.land flags_count 0xF) (u8 (Z.shiftl (Z.land settings_count 0xF) 4)).

Definition ioctl_nr (magic nr : Z) : Z := Z.lor (Z.shiftl magic 8) nr.
Definition IOCTL_GET_DEVICE_INFO : Z := ioctl_nr TENSTORRENT_IOCTL_MAGIC 0.
Definition IOCTL_RESET_DEVICE : Z := ioctl_nr TENSTORRENT_IOCTL_MAGIC 6.
Definition IOCTL_ALLOCATE_TLB : Z := ioctl_nr TENSTORRENT_IOCTL_MAGIC 11.
Definition IOCTL_FREE_TLB : Z := ioctl_nr TENSTORRENT_IOCTL_MAGIC 12.
Definition IOCTL_CONFIGURE_TLB : Z := ioctl_nr TENSTORRENT_IOCTL_MAGIC 13.
Definition IOCTL_SET_POWER_STATE : Z := ioctl_nr TENSTORRENT_IOCTL_MAGIC 15.

(** A [PowerState] request: validity and flags. *)
Record PowerState := mk_power { ps_validity : Z; power_flags : Z }.

Definition max_power : PowerState :=
  mk_power (validity 4 0)
    (Z.lor TT_POWER_FLAG_MAX_AI_CLK (Z.lor TT_POWER_FLAG_MRISC_PHY_WAKEUP
       (Z.lor TT_POWER_FLAG_TENSIX_ENABLE TT_POWER_FLAG_L2CPU_ENABLE))).

(** ** Text of a PCI address *)

Definition format_bdf (domain bus_dev_fn : Z) : list Z :=
  let bus := Z.land (Z.shiftr bus_dev_fn 8) 0xff in
  let dev := Z.land (Z.shiftr bus_dev_fn 3) 0x1f in
  let func := Z.land bus_dev_fn 0x7 in
  show_hex_pad 4 domain ++ chars ":" ++ show_hex_pad 2 bus ++ chars ":" ++
  show_hex_pad 2 dev ++ chars "." ++ show_dec func.

(** ** The reset *)

Definition lds_reset_poll_step (byte : Z) (saw_asserted : bool) : bool * bool :=
  let reset_bit := Z.land (Z.shiftr byte 1) 1 in
  let new_saw := saw_asserted || (reset_bit =? 1) in
  let completed := (reset_bit =? 0) && new_saw in
  (completed, new_saw).

(** What the board answers: device info (domain and bus_dev_fn), a reset request
    (the [result] word), a power request; the byte of the configuration file at
    poll [k], or the error of opening it; the status word of the firmware; the
    time in milliseconds since each loop started. *)
Class Board := {
  b_info : Os -> Z -> result (Z * Z) Z;
  b_reset : Os -> Z -> Z -> result Z Z;
  b_power : Os -> Z -> PowerState -> result unit Z;
  cfg_byte : nat -> result Z Z;
  lds_ms : nat -> Z;
  boot_status : nat -> Z;
  arc_ms : nat -> Z;
  lds_grows : forall k, Z.of_nat k <= lds_ms k;
  arc_grows : forall k, 10 * Z.of_nat k <= arc_ms k }.

(** How the poll of the configuration byte ends. *)
Inductive lds := Completed (polls : nat) | LdsTimeout (polls : nat) | LdsErr (e : Z) | LdsFuel.

Definition LDS_DEADLINE_MS : Z := 2000.
Definition lds_fuel : nat := 2001.

Fixpoint lds_poll `{Board} (fuel k : nat) (saw_asserted : bool) : lds :=
  match fuel with
  | O => LdsFuel
  | S fuel =>
      match cfg_byte k with
      | Err e => LdsErr e
      | Ok byte =>
          let '(completed, new_saw) := lds_reset_poll_step byte saw_asserted in
          if completed then Completed (k + 1)
          else if LDS_DEADLINE_MS <=? lds_ms k then LdsTimeout (k + 1)
          else lds_poll fuel (k + 1) new_saw
      end
  end.

Section with_board.
Context `{K : Kernel} `{B : Board}.

Definition open_device (card : Z) (os : Os) : io Z :=
  match k_open os card with
  | Ok fd => Ret fd (set_fds ({[fd]} ∪ fds os) os)
  | Err e => IoErr e (tick os)
  end.

(** A non-zero result word is an error of the chip. *)
Definition reset_device (fd flags : Z) (os : Os) : io unit :=
  match b_reset os fd flags with
  | Err e => IoErr e (tick os)
  | Ok res => if negb (res =? 0) then IoErr (-1) (tick os) else Ret tt (tick os)
  end.

Definition get_device_info (fd : Z) (os : Os) : io (Z * Z) :=
  match b_info os fd with
  | Err e => IoErr e (tick os)
  | Ok i => Ret i (tick os)
  end.

Definition request_max_power (fd : Z) (os : Os) : io unit :=
  match b_power os fd max_power with
  | Err e => IoErr e (tick os)
  | Ok _ => Ret tt (tick os)
  end.

(** A fresh descriptor for one request, closed before its result is looked
    at. *)
Definition with_device {A} (card : Z) (f : Z -> Os -> io A) (os : Os) : io A :=
  io_bind (open_device card os) (fun fd os =>
  match f fd os with
  | Ret a os => Ret a (close fd os)
  | IoErr e os => IoErr e (close fd os)
  | Panic => Panic
  end).

(** [chip::reset_board]: how the poll ended is logged only. *)
Definition chip_reset_board (card : Z) (os : Os) : io lds :=
  io_bind (with_device card get_device_info os) (fun _ os =>
  io_bind (with_device card (fun fd => reset_device fd TENSTORRENT_RESET_DEVICE_CONFIG_WRITE) os) (fun _ os =>
  match lds_poll lds_fuel 0 false with
  | LdsErr e => IoErr e os
  | LdsFuel => Panic
  | ended =>
      io_bind (with_device card (fun fd => reset_device fd TENSTORRENT_RESET_DEVICE_RESTORE_STATE) os)
        (fun _ os => Ret ended os)
  end)).

(** ** The shared windows *)

Definition ARC_TILE_X : Z := 8.
Definition ARC_TILE_Y : Z := 0.
Definition ARC_BOOT_STATUS_0_ADDR : Z := 0x80030408.
Definition ARC_FW_READY_TIMEOUT : Z := 5000.
Definition ARC_FW_READY_POLL : Z := 10.

Record Inner := mk_inner { reset_window : TlbWindow; csm_window : TlbWindow; inner_fd : Z }.

Definition tlb_data (w : TlbWindow) : Z := tlb_base (window w).

Definition inner_drop (i : Inner) (os : Os) : Os :=
  let os := unregister_chip_range (tlb_data (reset_window i)) os in
  let os := unregister_chip_range (tlb_data (csm_window i)) os in
  let os := window_drop (csm_window i) os in
  let os := window_drop (reset_window i) os in
  close (inner_fd i) os.

Definition open_inner (card : Z) (os : Os) : io Inner :=
  io_bind (open_device card os) (fun fd os =>
  let os := match request_max_power fd os with Ret _ os | IoErr _ os => os | Panic => os end in
  match new_2m fd ARC_TILE_X ARC_TILE_Y ARC_RESET_WINDOW_BASE os with
  | Panic => Panic
  | IoErr e os => IoErr e (close fd os)
  | Ret rw os =>
      match new_2m fd ARC_TILE_X ARC_TILE_Y CSM_WINDOW_BASE os with
      | Panic => Panic
      | IoErr e os => IoErr e (close fd (window_drop rw os))
      | Ret cw os =>
          let os := register_chip_range (tlb_data rw) ARC_RESET_WINDOW_SIZE os in
          let os := register_chip_range (tlb_data cw) CSM_WINDOW_SIZE os in
          Ret (mk_inner rw cw fd) os
      end
  end).

Inductive arc_wait := ArcDone (k : nat) | ArcError (k : nat) | ArcTimeout (k : nat) | ArcFuel.

Definition arc_fuel : nat := 501.

(** [wait_arc_fw_ready_inner]: the read of the status word at poll [k] is
    [boot_status k]. *)
Fixpoint wait_arc_fw_ready (fuel k : nat) : arc_wait :=
  match fuel with
  | O => ArcFuel
  | S fuel =>
      let s := Z.land (Z.shiftr (boot_status k) 1) 0x3 in
      if s =? 2 then ArcDone k
      else if s =? 3 then ArcError k
      else if ARC_FW_READY_TIMEOUT <=? arc_ms k then ArcTimeout k
      else wait_arc_fw_ready fuel (k + 1)
  end.

(** [SharedChip::reset_board] on the slot of the lock: the slot afterwards and
    whether the call succeeded. *)
Definition shared_reset_board (slot : option Inner) (card : Z) (os : Os) : io (option Inner * bool) :=
  let os := match slot with Some i => inner_drop i os | None => os end in
  match chip_reset_board card os with
  | Panic => Panic
  | IoErr _ os => Ret (None, false) os
  | Ret _ os =>
      match open_inner card os with
      | Panic => Panic
      | IoErr _ os => Ret (None, false) os
      | Ret i os =>
          match wait_arc_fw_ready arc_fuel 0 with
          | ArcFuel => Panic
          | _ => Ret (Some i, true) os
          end
      end
  end.

End with_board.

(** ** The polling loops *)

Section loops.
Context `{B : Board}.

(** Bit 1 of the configuration byte at poll [k]. *)
Definition asserted (k : nat) : bool :=
  match cfg_byte k with Ok byte => Z.testbit byte 1 | Err _ => false end.

(** The reset is over at poll [n]: released, after having been asserted. *)
Definition over_at (n : nat) : Prop :=
  asserted n = false /\ exists j, (j < n)%nat /\ asserted j = true.

Lemma lds_step_bits byte saw :
  lds_reset_poll_step byte saw = (negb (Z.testbit byte 1) && saw, saw || Z.testbit byte 1).
Proof.
  unfold lds_reset_poll_step.
  assert (E : Z.land (Z.shiftr byte 1) 1 = Z.b2z (Z.testbit byte 1)).
  { change 1 with (Z.ones 1) at 2. rewrite Z.land_ones by lia.
    rewrite Z.testbit_spec' by lia. by rewrite Z.shiftr_div_pow2 by lia. }
  rewrite E. destruct (Z.testbit byte 1), saw; reflexivity.
Qed.

Lemma lds_poll_spec : forall fuel k saw,
  (forall i, (i < k)%nat -> ~ over_at i) -> (saw = true <-> exists j, (j < k)%nat /\ asserted j = true) ->
  Z.of_nat k <= LDS_DEADLINE_MS -> LDS_DEADLINE_MS < Z.of_nat (k + fuel) ->
  match lds_poll fuel k saw with
  | Completed p => exists n, p = (n + 1)%nat /\ over_at n /\ forall i, (i < n)%nat -> ~ over_at i
  | LdsTimeout p => exists n, p = (n + 1)%nat /\ LDS_DEADLINE_MS <= lds_ms n /\ forall i, (i <= n)%nat -> ~ over_at i
  | LdsErr e => exists n, cfg_byte n = Err e /\ forall i, (i < n)%nat -> ~ over_at i
  | LdsFuel => False
  end.
Proof.
  induction fuel as [|fuel IH]; intros k saw Hno Hsaw Hk Hf; cbn [lds_poll]; [lia|].
  destruct (cfg_byte k) as [byte|e] eqn:Eb; [|by exists k].
  rewrite lds_step_bits.
  assert (Ha : asserted k = Z.testbit byte 1) by (unfold asserted; by rewrite Eb).
  destruct (negb (Z.testbit byte 1) && saw) eqn:Ec.
  - exists k. split; [done|]. split; [|done]. apply andb_prop in Ec as [Eb1 ->].
    split; [by rewrite Ha; apply negb_true_iff|]. by apply Hsaw.
  - assert (Hnk : ~ over_at k).
    { intros [H1 H2]. apply Hsaw in H2 as ->. rewrite Ha in H1. by rewrite H1 in Ec. }
    assert (Hno' : forall i, (i < k + 1)%nat -> ~ over_at i).
    { intros i Hi. destruct (decide (i = k)) as [->|]; [done|]. apply Hno. lia. }
    destruct (Z.leb_spec LDS_DEADLINE_MS (lds_ms k)).
    + exists k. split; [done|]. split; [done|]. intros i Hi. apply Hno'. lia.
    + pose proof (lds_grows k). apply IH; [done| |lia|lia].
      rewrite orb_true_iff, Hsaw, <- Ha. split.
      * intros [(j & Hj & Hj') | Hk']; [exists j; split; [lia|done]|exists k; split; [lia|done]].
      * intros (j & Hj & Hj'). destruct (decide (j = k)) as [->|]; [by right|].
        left. exists j. split; [lia|done].
Qed.

(** The poll of the configuration byte always ends within its deadline; it
    reports completion at exactly the first poll that finds the bit released
    after an earlier poll found it asserted, and a timeout only when no poll
    did. *)
Theorem lds_poll_exact :
  match lds_poll lds_fuel 0 false with
  | Completed p => exists n, p = (n + 1)%nat /\ over_at n /\ forall i, (i < n)%nat -> ~ over_at i
  | LdsTimeout p => exists n, p = (n + 1)%nat /\ LDS_DEADLINE_MS <= lds_ms n /\ forall i, (i <= n)%nat -> ~ over_at i
  | LdsErr e => exists n, cfg_byte n = Err e /\ forall i, (i < n)%nat -> ~ over_at i
  | LdsFuel => False
  end.
Proof.
  apply lds_poll_spec; [lia| |done|done]. split; [done|]. intros (j & Hj & _). lia.
Qed.

Lemma wait_arc_ends : forall fuel k,
  10 * Z.of_nat k < ARC_FW_READY_TIMEOUT + 10 -> ARC_FW_READY_TIMEOUT < 10 * Z.of_nat (k + fuel) ->
  wait_arc_fw_ready fuel k <> ArcFuel.
Proof.
  unfold ARC_FW_READY_TIMEOUT.
  induction fuel as [|fuel IH]; intros k Hk Hf; cbn [wait_arc_fw_ready]; [lia|].
  destruct (_ =? 2); [done|]. destruct (_ =? 3); [done|].
  unfold ARC_FW_READY_TIMEOUT. destruct (Z.leb_spec 5000 (arc_ms k)); [done|].
  pose proof (arc_grows k). apply IH; lia.
Qed.

End loops.

(** ** Resources across a reset *)

Section resources.
Context `{KL : KernelLaws} `{B : Board}.

Lemma with_device_same {A} card (f : Z -> Os -> io A) os :
  (forall fd os1, match f fd os1 with
                  | Ret _ os2 | IoErr _ os2 => same_resources os2 os1 /\ noc os2 = noc os1
                  | Panic => False
                  end) ->
  match with_device card f os with
  | Ret _ os' | IoErr _ os' => same_resources os' os /\ noc os' = noc os
  | Panic => False
  end.
Proof.
  intros Hf. unfold with_device, open_device. destruct (k_open os card) as [fd|e] eqn:E; cbn [io_bind]; [|done].
  apply open_fresh in E. set (os1 := set_fds _ os). specialize (Hf fd os1).
  assert (Hc : forall os2, same_resources os2 os1 -> same_resources (close fd os2) os).
  { intros os2 [Sf St Sr Ss]. split; cbn; try done. rewrite Sf. by apply close_open. }
  destruct (f fd os1) as [a os2|e os2|]; [| |done]; (destruct Hf as [H1 H2]; split; [by apply Hc|done]).
Qed.

Lemma reset_device_same fd flags os :
  match reset_device fd flags os with
  | Ret _ os' | IoErr _ os' => same_resources os' os /\ noc os' = noc os
  | Panic => False
  end.
Proof. unfold reset_device. destruct (b_reset os fd flags) as [r|e]; [destruct (negb (r =? 0))|]; done. Qed.

Lemma get_device_info_same fd os :
  match get_device_info fd os with
  | Ret _ os' | IoErr _ os' => same_resources os' os /\ noc os' = noc os
  | Panic => False
  end.
Proof. unfold get_device_info. by destruct (b_info os fd). Qed.

(** A board reset closes every descriptor it opens, on every path. *)
Lemma chip_reset_board_same card os :
  match chip_reset_board card os with
  | Ret _ os' | IoErr _ os' => same_resources os' os /\ noc os' = noc os
  | Panic => False
  end.
Proof.
  unfold chip_reset_board.
  pose proof (with_device_same card get_device_info os get_device_info_same) as H1.
  destruct (with_device card get_device_info os) as [i os1|e os1|]; cbn [io_bind]; [|done..].
  pose proof (with_device_same card (fun fd => reset_device fd TENSTORRENT_RESET_DEVICE_CONFIG_WRITE) os1
                (fun fd => reset_device_same fd _)) as H2.
  destruct (with_device card _ os1) as [[] os2|e os2|]; cbn [io_bind]; [| |done];
    destruct H1 as [S1 N1], H2 as [S2 N2]; [|split; [by rewrite S2|congruence]].
  pose proof (with_device_same card (fun fd => reset_device fd TENSTORRENT_RESET_DEVICE_RESTORE_STATE) os2
                (fun fd => reset_device_same fd _)) as H3.
  assert (S : same_resources os2 os /\ noc os2 = noc os) by (split; [by rewrite S2|congruence]).
  assert (G : forall ended, match io_bind (with_device card (fun fd => reset_device fd TENSTORRENT_RESET_DEVICE_RESTORE_STATE) os2)
                (fun _ os => Ret (ended : lds) os) with
              | Ret _ os' | IoErr _ os' => same_resources os' os /\ noc os' = noc os
              | Panic => False
              end).
  { intros ended. destruct (with_device card _ os2) as [[] os3|e os3|]; cbn [io_bind]; [| |done];
      (destruct H3 as [S3 N3], S as [S N]; split; [by rewrite S3|congruence]). }
  pose proof lds_poll_exact as L. destruct (lds_poll lds_fuel 0 false); [apply G|apply G|done|done].
Qed.

Lemma unregister_two rs a b n m :
  n <> 0 -> m <> 0 -> a <> b -> Forall (fun r => start r <> a) rs -> Forall (fun r => start r <> b) rs ->
  apply_op (apply_op (apply_op (apply_op rs (Register a n)) (Register b m)) (Unregister a)) (Unregister b) = rs.
Proof.
  intros Hn Hm Hab Ha Hb.
  assert (E : apply_op (apply_op (apply_op rs (Register a n)) (Register b m)) (Unregister a) =
              apply_op rs (Register b m)).
  { unfold apply_op at 2 3 4. cbn [is_noop publish_over].
    replace (n =? 0) with false by lia. replace (m =? 0) with false by lia.
    unfold apply_op. cbn [is_noop publish_over]. rewrite !forallb_app, !List.filter_app.
    cbn [forallb start List.filter]. rewrite Z.eqb_refl. replace (b =? a) with false by lia. cbn [negb andb].
    rewrite andb_false_r. cbn [andb]. rewrite app_nil_r. f_equal.
    clear -Ha. induction Ha as [|r rs Hr _ IH]; [done|]. cbn [List.filter].
    replace (start r =? a) with false by lia. cbn [negb]. by rewrite IH. }
  rewrite E. by apply register_unregister.
Qed.

(** A range that starts in fresh addresses is not registered yet. *)
Lemma ranges_fresh os b n :
  ranges_mapped os -> 0 < n -> (forall a, b <= a < b + n -> resolve (segs os) a = None) ->
  Forall (fun r => start r <> b) (ranges os).
Proof.
  intros Hr Hn Hfree. eapply Forall_impl; [exact Hr|]. cbv beta. intros r Hs Hm. apply Hs, Hfree. lia.
Qed.

Lemma open_inner_spec card os :
  ranges_mapped os ->
  match open_inner card os with
  | Ret i os' => noc os' = noc os /\
      (forall k, 0 <= k < TWO_MEG ->
         target os' (tlb_data (reset_window i) + k) = Some ((ARC_TILE_X, ARC_TILE_Y), ARC_RESET_WINDOW_BASE + k) /\
         target os' (tlb_data (csm_window i) + k) = Some ((ARC_TILE_X, ARC_TILE_Y), CSM_WINDOW_BASE + k)) /\
      (forall os2, same_resources os2 os' -> same_resources (inner_drop i os2) os)
  | IoErr _ os' => same_resources os' os /\ noc os' = noc os
  | Panic => False
  end.
Proof.
  intros Hrm. unfold open_inner, open_device. destruct (k_open os card) as [fd|e] eqn:E; cbn [io_bind]; [|done].
  apply open_fresh in E.
  set (os0 := match request_max_power fd _ with Ret _ o | IoErr _ o => o | Panic => _ end).
  assert (H0 : same_resources os0 (set_fds ({[fd]} ∪ fds os) os) /\ noc os0 = noc os).
  { unfold os0, request_max_power. by destruct (b_power _ _ _). }
  clearbody os0. destruct H0 as [S0 N0].
  assert (Hfd : fd ∈ fds os0) by (rewrite S0; cbn; set_solver).
  assert (Hclose : forall o, same_resources o os0 -> same_resources (close fd o) os).
  { intros o Ho. rewrite S0 in Ho. destruct Ho as [Of Ot Or Os]. split; cbn in *; try done.
    rewrite Of. by apply close_open. }
  pose proof (new_2m_spec fd ARC_TILE_X ARC_TILE_Y ARC_RESET_WINDOW_BASE os0 ltac:(done) Hfd) as H1.
  destruct (new_2m fd ARC_TILE_X ARC_TILE_Y ARC_RESET_WINDOW_BASE os0) as [rw os1|e os1|]; [| |done].
  2:{ destruct H1 as [H1 H1n]. split; [by apply Hclose|cbn; congruence]. }
  destruct H1 as (_ & _ & Hn1 & Ht1 & Hd1 & _ & Hf1 & Hr1 & Hfr1 & Hres1).
  pose proof (new_2m_spec fd ARC_TILE_X ARC_TILE_Y CSM_WINDOW_BASE os1 ltac:(done) ltac:(by rewrite Hf1)) as H2.
  destruct (new_2m fd ARC_TILE_X ARC_TILE_Y CSM_WINDOW_BASE os1) as [cw os2|e os2|]; [| |done].
  2:{ destruct H2 as [H2 H2n]. split; [by apply Hclose, Hd1|]. cbn. rewrite window_drop_noc. congruence. }
  destruct H2 as (_ & _ & Hn2 & Ht2 & Hd2 & Hk2 & _ & Hr2 & Hfr2 & _).
  split; [cbn; congruence|]. split.
  { intros k Hk. unfold tlb_data. cbn [reset_window csm_window].
    change (target (register_chip_range _ _ _) ?a) with (target os2 a).
    split; [apply Hk2; exact (Ht1 k Hk)|exact (Ht2 k Hk)]. }
  intros os3 [Sf St Sr Ss]. unfold inner_drop. cbn [reset_window csm_window inner_fd].
  apply Hclose, Hd1, Hd2. split; cbn [unregister_chip_range set_ranges fds tlbs ranges segs] in *; try done.
  assert (Hro : ranges os2 = ranges os) by (rewrite Hr2, Hr1, S0; done).
  rewrite Sr. cbn [register_chip_range set_ranges ranges]. rewrite Hro.
  assert (Hfree : forall a, resolve (segs os0) a = resolve (segs os) a) by (intros a; by rewrite (same_resolve _ _ S0 a)).
  apply unregister_two; [done|done| | |].
  - unfold tlb_data. intros Heq. specialize (Ht1 0 ltac:(done)). rewrite Z.add_0_r in Ht1.
    specialize (Hfr2 (tlb_base (window rw)) ltac:(rewrite Heq; change TWO_MEG with 2097152; lia)).
    unfold target in Ht1. by rewrite Hfr2 in Ht1.
  - apply (ranges_fresh os _ TWO_MEG); [done|done|]. intros a Ha. rewrite <- Hfree. by apply Hfr1.
  - apply (ranges_fresh os _ TWO_MEG); [done|done|]. intros a Ha. rewrite <- Hfree.
    by apply Hres1, Hfr2.
Qed.

(** A board reset through the shared chip always ends.  The old windows and
    descriptor are released first; on success the slot holds new windows onto
    the same registers, whose release gives back exactly what they took; on
    failure nothing is held, and the slot stays empty. *)
Theorem shared_reset_releases i card os base :
  same_resources (inner_drop i os) base -> ranges_mapped base ->
  match shared_reset_board (Some i) card os with
  | Ret (Some i', true) os' =>
      (forall k, 0 <= k < TWO_MEG ->
         target os' (tlb_data (reset_window i') + k) = Some ((ARC_TILE_X, ARC_TILE_Y), ARC_RESET_WINDOW_BASE + k) /\
         target os' (tlb_data (csm_window i') + k) = Some ((ARC_TILE_X, ARC_TILE_Y), CSM_WINDOW_BASE + k)) /\
      forall os2, same_resources os2 os' -> same_resources (inner_drop i' os2) base
  | Ret (None, false) os' => same_resources os' base
  | _ => False
  end.
Proof.
  intros Hi Hrm. unfold shared_reset_board. set (os0 := inner_drop i os) in *. clearbody os0.
  pose proof (chip_reset_board_same card os0) as H1.
  destruct (chip_reset_board card os0) as [l os1|e os1|]; [| |done]; destruct H1 as [S1 _]; [|by rewrite S1].
  assert (Hb : same_resources os1 base) by (by rewrite S1).
  pose proof (open_inner_spec card os1 ltac:(by rewrite Hb)) as H2.
  destruct (open_inner card os1) as [i' os2|e os2|]; [| |done].
  - destruct H2 as (_ & Ht & Hd).
    pose proof (wait_arc_ends arc_fuel 0 ltac:(done) ltac:(done)) as Hw.
    destruct (wait_arc_fw_ready arc_fuel 0); try done;
      (split; [exact Ht|]; intros os3 H3; etransitivity; [by apply Hd|done]).
  - destruct H2 as [H2 _]. by rewrite H2.
Qed.

End resources.

(** ** A board *)

(** The bit is asserted at the second poll and released at the third; the
    firmware is ready at once. *)
#[export, refine] Instance demo_board : Board := {|
  b_info _ _ := Ok (0, 0x0100);
  b_reset _ _ _ := Ok 0;
  b_power _ _ _ := Err 25;
  cfg_byte k := Ok (if Nat.eqb k 1 then 6 else 4);
  lds_ms k := Z.of_nat k;
  boot_status _ := 4;
  arc_ms k := 10 * Z.of_nat k |}.
Proof. all: intros k; apply Z.le_refl. Defined.

Example lds_poll_third : lds_poll lds_fuel 0 false = Completed 3.
Proof. reflexivity. Qed.

Example format_bdf_canonical : format_bdf 0 0x0100 = chars "0000:01:00.0".
Proof. reflexivity. Qed.

Definition demo_base : Os := mk_os {[3]} ∅ [] [] ∅ 0.

(** The chip is reopened after the reset; when the reset request cannot open the
    device, the slot is left empty. *)
Lemma shared_reset_releases_witness :
  match open_inner (K := counting_kernel []) 0 demo_base with
  | Ret i os1 =>
      match shared_reset_board (K := counting_kernel []) (Some i) 0 os1 with
      | Ret (Some _, true) _ => True
      | _ => False
      end /\
      match shared_reset_board (K := counting_kernel [calls os1 + 5]%nat) (Some i) 0 os1 with
      | Ret (None, false) os' => same_resources os' demo_base
      | _ => False
      end
  | _ => False
  end.
Proof.
  assert (Hm : ranges_mapped demo_base) by (apply Forall_nil_2).
  pose proof (open_inner_spec (K := counting_kernel []) 0 demo_base Hm) as Ho.
  destruct (open_inner (K := counting_kernel []) 0 demo_base) as [i os1|e os1|] eqn:E;
    [|vm_compute in E; discriminate E|exact Ho].
  destruct Ho as (_ & _ & Hd). specialize (Hd os1 (reflexivity os1)). split.
  - vm_compute in E. injection E as <- <-. vm_compute. exact I.
  - pose proof (shared_reset_releases (K := counting_kernel [calls os1 + 5]%nat) i 0 os1 demo_base Hd Hm) as H.
    vm_compute in E. injection E as <- <-.
    destruct (shared_reset_board (K := _) (Some _) 0 _) as [[[i'|] []] os'|e os'|] eqn:Er;
      vm_compute in Er; first [discriminate Er|exact H|idtac].
Defined.
