(* ===== verification/Boot.v ===== *)
(** Loading a core: [read_bin_file], [l2cpu_noc_write_bulk], [boot_l2cpu] and
    [configure_prefetchers] of [src/boot.rs] with the constants of
    [src/regs.rs].

    Reading a file gives its bytes or an error; the writes go through the
    windows of [L2cpu], so the memory they change is that of the core's tile. *)

From S2P Require Import Prelude Sigbus Tlb Layout Virtqueue DataPlane L2cpu Tensix.

Definition CONTROL_BASE : Z := 0xfffff7fefff10000.
Definition L3_CTRL_BASE : Z := 0x02010000.
Definition L3_ENABLE_OFFSET : Z := 8.
Definition L3_ENABLE_VALUE : Z := 0x0f.
Definition L2_PREFETCH_BASE : Z := 0x02030000.
Definition L2_PREFETCH_STRIDE : Z := 0x2000.
Definition L2_PREFETCH_NUM : Z := 4.
Definition L2_PREFETCH_CFG_LO : Z := 0x00015811.
Definition L2_PREFETCH_CFG_HI : Z := 0x0038c84e.

Definition OPENSBI_OFFSET : Z := 0x0.
Definition DTB_OFFSET : Z := 0x100000.
Definition KERNEL_OFFSET : Z := 0x200000.
Definition INITRAMFS_OFFSET : Z := 0xb5000000.

(** The file, padded to a multiple of four bytes. *)
Definition read_bin_file (file : result (list Z) Z) : result (list Z) Z :=
  let? data := file in
  let padding := (length data mod 4)%nat in
  if (padding =? 0)%nat then Ok data else Ok (data ++ replicate (4 - padding) 0).

(** [?] on the result of a file operation. *)
Definition io_try {A B} (r : result A Z) (os : Os) (k : A -> io B) : io B :=
  match r with Ok a => k a | Err e => IoErr e os end.

Section with_kernel.
Context `{K : Kernel}.

(** The [while] loop; the fuel is the number of windows the data can touch. *)
Fixpoint bulk_loop (fuel : nat) (l : L2Cpu) (addr : Z) (data : list Z) (written : Z) (os : Os) : io unit :=
  let total := Z.of_nat (length data) in
  if negb (written <? total) then Ret tt os
  else match fuel with
  | O => Panic
  | S fuel =>
      let cur_addr := u64 (addr + written) in
      let window_base := Z.land cur_addr (U64_MAX - (TWO_MEG - 1)) in
      let offset_in_window := cur_addr - window_base in
      let remaining_in_window := TWO_MEG - offset_in_window in
      let chunk := Z.min remaining_in_window (total - written) in
      io_bind (get_persistent_2m_window l window_base os) (fun w os =>
      let dst := get_window w + offset_in_window in
      match poke dst (take (Z.to_nat chunk) (drop (Z.to_nat written) data)) os with
      | None => Panic
      | Some os => bulk_loop fuel l addr data (written + chunk) (window_drop w os)
      end)
  end.

Definition bulk_fuel (data : list Z) : nat := Z.to_nat (Z.of_nat (length data) / TWO_MEG + 2).

Definition l2cpu_noc_write_bulk (l : L2Cpu) (addr : Z) (data : list Z) (os : Os) : io unit :=
  bulk_loop (bulk_fuel data) l addr data 0 os.

(** [l2cpu_noc_write_bulk] of a file that may be absent. *)
Definition write_image (l : L2Cpu) (file : option (result (list Z) Z)) (addr : Z) (os : Os) : io unit :=
  match file with
  | None => Ret tt os
  | Some file => io_try (read_bin_file file) os (fun bytes => l2cpu_noc_write_bulk l addr bytes os)
  end.

Definition reset_vectors (opensbi_addr : Z) : list (Z * Z) :=
  let lo := Z.land opensbi_addr 0xffffffff in
  let hi := u32 (Z.shiftr opensbi_addr 32) in
  flat_map (fun core => [(CONTROL_BASE + core * 8, lo); (CONTROL_BASE + core * 8 + 4, hi)]) [0; 1; 2; 3].

Definition boot_l2cpu (l : L2Cpu) (opensbi : result (list Z) Z) (opensbi_addr : Z)
    (kernel : option (result (list Z) Z)) (kernel_addr : Z) (dtb_bytes : list Z) (dtb_addr : Z)
    (rootfs : option (result (list Z) Z)) (rootfs_addr : Z) (os : Os) : io unit :=
  if negb (l2_idx l <? 4) then Panic else
  let l3_enable_addr := L3_CTRL_BASE + L3_ENABLE_OFFSET in
  io_bind (l2cpu_write32 l l3_enable_addr L3_ENABLE_VALUE os) (fun _ os =>
  io_bind (l2cpu_read32 l l3_enable_addr os) (fun _ os =>
  io_bind (write_image l (Some opensbi) opensbi_addr os) (fun _ os =>
  io_bind (write_image l kernel kernel_addr os) (fun _ os =>
  io_bind (write_image l (Some (Ok dtb_bytes)) dtb_addr os) (fun _ os =>
  io_bind (write_image l rootfs rootfs_addr os) (fun _ os =>
  l2cpu_write_all l (reset_vectors opensbi_addr) os)))))).

Definition prefetch_words : list (Z * Z) :=
  flat_map (fun i => let base := L2_PREFETCH_BASE + Z.of_nat i * L2_PREFETCH_STRIDE in
                     [(base, L2_PREFETCH_CFG_LO); (base + 4, L2_PREFETCH_CFG_HI)])
    (seq 0 (Z.to_nat L2_PREFETCH_NUM)).

Definition configure_prefetchers (l : L2Cpu) (os : Os) : io unit :=
  if negb (l2_idx l <? 4) then Panic else l2cpu_write_all l prefetch_words os.

End with_kernel.

Lemma io_bind_assoc {A B C} (x : io A) (f : A -> Os -> io B) (g : B -> Os -> io C) :
  io_bind (io_bind x f) g = io_bind x (fun a os => io_bind (f a os) g).
Proof. by destruct x. Qed.

Lemma read_bin_file_pads file :
  read_bin_file file = match file with Ok data => Ok (pad4 data) | Err e => Err e end.
Proof.
  destruct file as [data|e]; [|done]. unfold read_bin_file, pad4.
  pose proof (Nat.mod_upper_bound (length data) 4 ltac:(lia)).
  destruct (Nat.eqb_spec (length data mod 4) 0) as [->|Hn].
  - cbn. by rewrite app_nil_r.
  - by rewrite (Nat.mod_small (4 - length data mod 4)) by lia.
Qed.

(** ** Bulk writes *)

Section bulk.
Context `{KL : KernelLaws}.

Lemma take_app_drop {A} n m (l : list A) : take n l ++ take m (drop n l) = take (n + m) l.
Proof. by rewrite take_take_drop. Qed.

(** One iteration writes the part of the data that lies in one window. *)
Lemma bulk_loop_spec l addr data os0 : forall fuel written os,
  0 <= addr -> addr + Z.of_nat (length data) <= 2 ^ 64 ->
  0 <= written <= Z.of_nat (length data) -> l2_fd l ∈ fds os0 ->
  (written = 0 \/ (addr + written) mod TWO_MEG = 0 \/ written = Z.of_nat (length data)) ->
  Z.of_nat (length data) - written <
    Z.of_nat fuel * TWO_MEG - (if written =? 0 then TWO_MEG else 0) + 1 ->
  same_resources os os0 ->
  tile_mem os (coordinates l) = write_bytes (tile_mem os0 (coordinates l)) addr (take (Z.to_nat written) data) ->
  (forall t, t <> coordinates l -> tile_mem os t = tile_mem os0 t) ->
  match bulk_loop fuel l addr data written os with
  | Ret _ os' => same_resources os' os0 /\
      tile_mem os' (coordinates l) = write_bytes (tile_mem os0 (coordinates l)) addr data /\
      forall t, t <> coordinates l -> tile_mem os' t = tile_mem os0 t
  | IoErr _ os' => same_resources os' os0 /\ exists k, (k <= length data)%nat /\
      (k = 0%nat \/ (addr + Z.of_nat k) mod TWO_MEG = 0) /\
      tile_mem os' (coordinates l) = write_bytes (tile_mem os0 (coordinates l)) addr (take k data) /\
      forall t, t <> coordinates l -> tile_mem os' t = tile_mem os0 t
  | Panic => False
  end.
Proof.
  assert (HT : TWO_MEG = 2097152) by done.
  induction fuel as [|fuel IH]; intros written os Ha Hl Hw Hfd Hb Hf Hs Hm Ho; cbn [bulk_loop];
    destruct (Z.ltb_spec written (Z.of_nat (length data))) as [Hlt|Hge]; cbn [negb].
  1,2,4: try (destruct (Z.eqb_spec written 0); lia).
  1,2: split; [done|]; split; [|done]; rewrite Hm, take_ge by lia; done.
  set (cur := u64 (addr + written)).
  assert (Hcur : cur = addr + written) by (unfold cur, u64; rewrite wrap_small; [done|unfold fits; lia]).
  assert (Hfit : fits 64 cur) by (rewrite Hcur; unfold fits; lia).
  destruct (window_split cur Hfit) as (_ & Hh & Hr). rewrite Hh.
  set (off := cur mod TWO_MEG) in *. replace (cur - (cur - off)) with off by lia.
  set (chunk := Z.min (TWO_MEG - off) (Z.of_nat (length data) - written)).
  assert (Hchunk : 0 < chunk <= TWO_MEG - off) by (unfold chunk; lia).
  unfold get_persistent_2m_window. destruct (coordinates l) as [x y] eqn:Hxy. cbn [fst snd].
  assert (Hbase : fits 64 (cur - off)) by (unfold fits in *; pose proof (Z.div_mod cur TWO_MEG ltac:(done)); lia).
  assert (Hal : (cur - off) mod TWO_MEG = 0).
  { pose proof (Z.div_mod cur TWO_MEG ltac:(done)) as Hd. fold off in Hd.
    replace (cur - off) with (cur / TWO_MEG * TWO_MEG) by lia. by apply Z.mod_mul. }
  pose proof (new_2m_spec (l2_fd l) x y (cur - off) os Hbase ltac:(by rewrite Hs)) as H.
  destruct (new_2m _ _ _ _ _) as [w os1|e os1|]; cbn [io_bind]; [| |done].
  2:{ destruct H as [H Hn]. split; [by rewrite H|]. exists (Z.to_nat written). split; [lia|].
      split; [destruct Hb as [-> | [Hb | Hb]]; [by left|right; by rewrite Z2Nat.id by lia|lia]|].
      split; [unfold tile_mem in *; by rewrite Hn|]. intros t Ht. unfold tile_mem in *. rewrite Hn. by apply Ho. }
  destruct H as (Hwo & _ & Hn & Ht & Hd & _). rewrite Hal in Hwo. unfold get_window. rewrite Hwo, Z.add_0_r.
  set (part := take (Z.to_nat chunk) (drop (Z.to_nat written) data)).
  assert (Hpl : Z.of_nat (length part) = chunk).
  { unfold part. rewrite length_take, length_drop. unfold chunk in *. lia. }
  destruct (poke_contiguous part os1 (tlb_base (window w) + off) (x, y) (addr + written)) as (os2 & -> & W).
  { intros i Hi. rewrite Hpl in Hi. rewrite <- Z.add_assoc, Ht by lia. do 2 f_equal. rewrite Hal. lia. }
  destruct W as [Ws _ _ Wm Wo].
  assert (Hmem : forall t, tile_mem (window_drop w os2) t = tile_mem os2 t).
  { intros t. unfold tile_mem. by rewrite window_drop_noc. }
  assert (Hmem1 : forall t, tile_mem os1 t = tile_mem os t) by (intros; unfold tile_mem; by rewrite Hn).
  apply IH; try done.
  - unfold chunk in *. lia.
  - destruct (Z.eq_dec (written + chunk) (Z.of_nat (length data))) as [|Hne]; [by right; right|]. right; left.
    assert (chunk = TWO_MEG - off) by (unfold chunk in *; lia).
    replace (addr + (written + chunk)) with (cur - off + 1 * TWO_MEG) by lia. by rewrite Z.mod_add.
  - replace (written + chunk =? 0) with false by lia.
    destruct (Z.eqb_spec written 0) as [->|Hnz]; [unfold chunk in *; lia|].
    destruct Hb as [|[Hb|]]; [lia| |lia]. assert (off = 0) by (unfold off; by rewrite Hcur).
    unfold chunk in *. lia.
  - rewrite <- Hs. apply Hd. by symmetry.
  - rewrite Hmem, Wm, Hmem1, Hm. unfold part.
    replace (addr + written) with (addr + Z.of_nat (length (take (Z.to_nat written) data)))
      by (rewrite length_take; lia).
    rewrite <- write_bytes_app, take_app_drop. do 2 f_equal. lia.
  - intros t Hne. by rewrite Hmem, Wo, Hmem1, Ho.
Qed.

Lemma bulk_write_spec l addr data os :
  0 <= addr -> addr + Z.of_nat (length data) <= 2 ^ 64 -> l2_fd l ∈ fds os ->
  match l2cpu_noc_write_bulk l addr data os with
  | Ret _ os' => same_resources os' os /\
      tile_mem os' (coordinates l) = write_bytes (tile_mem os (coordinates l)) addr data /\
      forall t, t <> coordinates l -> tile_mem os' t = tile_mem os t
  | IoErr _ os' => same_resources os' os /\ exists k, (k <= length data)%nat /\
      (k = 0%nat \/ (addr + Z.of_nat k) mod TWO_MEG = 0) /\
      tile_mem os' (coordinates l) = write_bytes (tile_mem os (coordinates l)) addr (take k data) /\
      forall t, t <> coordinates l -> tile_mem os' t = tile_mem os t
  | Panic => False
  end.
Proof.
  intros Ha Hl Hfd. apply bulk_loop_spec; try done.
  - lia.
  - by left.
  - unfold bulk_fuel. cbn [Z.eqb]. pose proof (Z.div_mod (Z.of_nat (length data)) TWO_MEG ltac:(done)).
    pose proof (Z.mod_pos_bound (Z.of_nat (length data)) TWO_MEG ltac:(done)).
    assert (0 <= Z.of_nat (length data) / TWO_MEG) by (apply Z.div_pos; [lia|done]).
    rewrite Z2Nat.id by lia. change TWO_MEG with 2097152 in *. lia.
Qed.

End bulk.

(** Writing an image through 2 MiB windows is one contiguous write: it always
    ends, a success leaves exactly the bytes at the address and nothing else
    changed on the chip or in the host's resources, and a failure leaves a
    prefix that ends at a window boundary. *)
Theorem bulk_write_exact `{KL : KernelLaws} l addr data os :
  0 <= addr -> addr + Z.of_nat (length data) <= 2 ^ 64 -> l2_fd l ∈ fds os ->
  match l2cpu_noc_write_bulk l addr data os with
  | Ret _ os' => same_resources os' os /\
      tile_mem os' (coordinates l) = write_bytes (tile_mem os (coordinates l)) addr data /\
      forall t, t <> coordinates l -> tile_mem os' t = tile_mem os t
  | IoErr _ os' => same_resources os' os /\ exists k, (k <= length data)%nat /\
      (k = 0%nat \/ (addr + Z.of_nat k) mod TWO_MEG = 0) /\
      tile_mem os' (coordinates l) = write_bytes (tile_mem os (coordinates l)) addr (take k data) /\
      forall t, t <> coordinates l -> tile_mem os' t = tile_mem os t
  | Panic => False
  end.
Proof. apply bulk_write_spec. Qed.

(** Five bytes across a window boundary: two go through the first window and
    three through the second. *)
Lemma bulk_write_exact_witness :
  let K := counting_kernel [] in
  let os := mk_os {[3]} ∅ [] [] ∅ 0 in
  let l := mk_l2cpu 3 3 0 0 (8, 7) 0 (mk_window 0 (mk_handle 3 0 0 0) 0) (mk_window 0 (mk_handle 3 0 0 0) 0) in
  match l2cpu_noc_write_bulk (K := K) l (TWO_MEG - 2) [1; 2; 3; 4; 5] os with
  | Ret _ os' => same_resources os' os /\ tile_mem os' (8, 7) = write_bytes ∅ (TWO_MEG - 2) [1; 2; 3; 4; 5]
  | _ => False
  end.
Proof.
  intros K os l.
  assert (Hfd : 3 ∈ fds os) by (apply (bool_decide_unpack _); reflexivity).
  pose proof (bulk_write_exact (K := K) l (TWO_MEG - 2) [1; 2; 3; 4; 5] os ltac:(done) ltac:(done) Hfd) as H.
  destruct (l2cpu_noc_write_bulk _ _ _ _) as [[] os'|e os'|] eqn:E.
  - destruct H as (H1 & H2 & _). exact (conj H1 H2).
  - vm_compute in E. discriminate E.
  - exact H.
Defined.

(** ** Booting *)

(** The memory a core boots from. *)
Definition image (file : option (result (list Z) Z)) : list Z :=
  match file with Some (Ok data) => pad4 data | _ => [] end.

Definition boot_memory (opensbi : list Z) (opensbi_addr : Z) (kernel : list Z) (kernel_addr : Z)
    (dtb : list Z) (dtb_addr : Z) (rootfs : list Z) (rootfs_addr : Z) (m : gmap Z Z) : gmap Z Z :=
  let m := wr32 m (L3_CTRL_BASE + L3_ENABLE_OFFSET) L3_ENABLE_VALUE in
  let m := write_bytes m opensbi_addr opensbi in
  let m := write_bytes m kernel_addr kernel in
  let m := write_bytes m dtb_addr dtb in
  let m := write_bytes m rootfs_addr rootfs in
  stores (reset_vectors opensbi_addr) m.

Section boot.
Context `{KL : KernelLaws}.

(** An operation whose success changes the core's memory by [g] and nothing
    else. *)
Definition core_does {A} (l : L2Cpu) (f : Os -> io A) (g : gmap Z Z -> gmap Z Z) : Prop :=
  forall os, l2_fd l ∈ fds os ->
    match f os with
    | Ret _ os' => same_resources os' os /\
        tile_mem os' (coordinates l) = g (tile_mem os (coordinates l)) /\
        forall t, t <> coordinates l -> tile_mem os' t = tile_mem os t
    | IoErr _ os' => same_resources os' os /\ forall t, t <> coordinates l -> tile_mem os' t = tile_mem os t
    | Panic => False
    end.

Lemma core_seq {A B} l (f : Os -> io A) (k : A -> Os -> io B) g g' :
  core_does l f g -> (forall a, core_does l (k a) g') ->
  core_does l (fun os => io_bind (f os) k) (fun m => g' (g m)).
Proof.
  intros Hf Hk os Hfd. specialize (Hf os Hfd). destruct (f os) as [a os1|e os1|]; cbn [io_bind]; [|done..].
  destruct Hf as (S1 & M1 & O1). specialize (Hk a os1 ltac:(by rewrite S1)).
  destruct (k a os1) as [b os2|e os2|]; [| |done].
  - destruct Hk as (S2 & M2 & O2). split; [by rewrite S2|]. split; [by rewrite M2, M1|].
    intros t Ht. by rewrite O2, O1.
  - destruct Hk as (S2 & O2). split; [by rewrite S2|]. intros t Ht. by rewrite O2, O1.
Qed.

Definition in_space (addr : Z) (data : list Z) : Prop := 0 <= addr /\ addr + Z.of_nat (length data) <= 2 ^ 64.

Lemma write_image_does l file addr :
  in_space addr (image file) ->
  core_does l (write_image l file addr) (fun m => write_bytes m addr (image file)).
Proof.
  intros [Ha Hl] os Hfd. unfold write_image. destruct file as [file|]; [|done].
  rewrite read_bin_file_pads. destruct file as [data|e]; cbn [io_try image]; [|by split].
  pose proof (bulk_write_spec l addr (pad4 data) os Ha Hl Hfd) as H.
  destruct (l2cpu_noc_write_bulk _ _ _ _) as [[] os'|e os'|]; [done| |done].
  destruct H as (H & k & _ & _ & _ & Ho). by split.
Qed.

Lemma write_all_does l ws :
  Forall (fun w => fits 64 w.1 /\ w.1 mod 4 = 0) ws -> core_does l (l2cpu_write_all l ws) (stores ws).
Proof.
  intros Hws os Hfd. pose proof (l2cpu_write_all_spec l ws os Hws Hfd) as H.
  destruct (l2cpu_write_all l ws os) as [[] os'|e os'|]; [done| |done].
  destruct H as (H & k & _ & _ & Ho). by split.
Qed.

Lemma l3_enable_does l :
  core_does l (fun os => io_bind (l2cpu_write32 l (L3_CTRL_BASE + L3_ENABLE_OFFSET) L3_ENABLE_VALUE os)
                 (fun _ os => l2cpu_read32 l (L3_CTRL_BASE + L3_ENABLE_OFFSET) os))
    (fun m => wr32 m (L3_CTRL_BASE + L3_ENABLE_OFFSET) L3_ENABLE_VALUE).
Proof.
  apply (core_seq l (l2cpu_write32 l _ _) (fun _ => l2cpu_read32 l _)
           (fun m => wr32 m (L3_CTRL_BASE + L3_ENABLE_OFFSET) L3_ENABLE_VALUE) (fun m => m)).
  - intros os Hfd. pose proof (l2cpu_write32_spec l (L3_CTRL_BASE + L3_ENABLE_OFFSET) L3_ENABLE_VALUE os
      ltac:(done) ltac:(done) Hfd) as H.
    destruct (l2cpu_write32 _ _ _ _) as [[] os'|e os'|]; [done| |done].
    destruct H as [H Hn]. split; [done|]. intros t _. unfold tile_mem. by rewrite Hn.
  - intros _ os Hfd. pose proof (l2cpu_read32_spec l (L3_CTRL_BASE + L3_ENABLE_OFFSET) os
      ltac:(done) ltac:(done) Hfd) as H.
    destruct (l2cpu_read32 _ _ _) as [v os'|e os'|]; [| |done].
    + destruct H as (H & Hn & _). split; [done|]. unfold tile_mem. by rewrite Hn.
    + destruct H as [H Hn]. split; [done|]. intros t _. unfold tile_mem. by rewrite Hn.
Qed.

Lemma reset_vectors_ok a : Forall (fun w => fits 64 w.1 /\ w.1 mod 4 = 0) (reset_vectors a).
Proof.
  unfold reset_vectors, CONTROL_BASE, fits. cbn [flat_map app].
  repeat apply Forall_cons_2; cbn [fst]; try apply Forall_nil_2; vm_compute; split; try split; done.
Qed.

Lemma boot_l2cpu_does l opensbi oaddr kernel kaddr dtb daddr rootfs raddr :
  l2_idx l < 4 ->
  in_space oaddr (image (Some opensbi)) -> in_space kaddr (image kernel) ->
  in_space daddr (pad4 dtb) -> in_space raddr (image rootfs) ->
  core_does l (boot_l2cpu l opensbi oaddr kernel kaddr dtb daddr rootfs raddr)
    (boot_memory (image (Some opensbi)) oaddr (image kernel) kaddr (pad4 dtb) daddr (image rootfs) raddr).
Proof.
  intros Hi H1 H2 H3 H4 os Hfd. unfold boot_l2cpu. replace (l2_idx l <? 4) with true by lia. cbn [negb].
  pose proof (core_seq l _ _ _ _ (l3_enable_does l) (fun _ =>
    core_seq l _ _ _ _ (write_image_does l (Some opensbi) oaddr H1) (fun _ =>
    core_seq l _ _ _ _ (write_image_does l kernel kaddr H2) (fun _ =>
    core_seq l _ _ _ _ (write_image_does l (Some (Ok dtb)) daddr H3) (fun _ =>
    core_seq l _ _ _ _ (write_image_does l rootfs raddr H4) (fun _ =>
    write_all_does l _ (reset_vectors_ok oaddr)))))) os Hfd) as H.
  cbv beta in H. rewrite io_bind_assoc in H. exact H.
Qed.

End boot.

(** A successful boot leaves in the core's memory exactly the cache enable
    word, the firmware, the kernel, the device tree and the root file system,
    each padded to words and each where it was asked to be, with all four
    reset vectors at the firmware, in this order of writes; nothing else of the
    chip or the host changes, also when it fails. *)
Theorem boot_l2cpu_exact `{KL : KernelLaws} l opensbi oaddr kernel kaddr dtb daddr rootfs raddr os :
  l2_idx l < 4 -> l2_fd l ∈ fds os ->
  in_space oaddr (image (Some opensbi)) -> in_space kaddr (image kernel) ->
  in_space daddr (pad4 dtb) -> in_space raddr (image rootfs) ->
  match boot_l2cpu l opensbi oaddr kernel kaddr dtb daddr rootfs raddr os with
  | Ret _ os' => same_resources os' os /\
      tile_mem os' (coordinates l) =
        boot_memory (image (Some opensbi)) oaddr (image kernel) kaddr (pad4 dtb) daddr (image rootfs) raddr
          (tile_mem os (coordinates l)) /\
      forall t, t <> coordinates l -> tile_mem os' t = tile_mem os t
  | IoErr _ os' => same_resources os' os /\ forall t, t <> coordinates l -> tile_mem os' t = tile_mem os t
  | Panic => False
  end.
Proof. intros Hi Hfd H1 H2 H3 H4. by apply boot_l2cpu_does. Qed.

(** A core with three-byte images at the offsets the daemon uses. *)
Lemma boot_l2cpu_exact_witness :
  let K := counting_kernel [] in
  let os := mk_os {[3]} ∅ [] [] ∅ 0 in
  let l := mk_l2cpu 3 3 0 0 (8, 7) 0 (mk_window 0 (mk_handle 3 0 0 0) 0) (mk_window 0 (mk_handle 3 0 0 0) 0) in
  let a := 0x4000b0000000 in
  match boot_l2cpu (K := K) l (Ok [1; 2; 3]) a (Some (Ok [4; 5; 6])) (a + KERNEL_OFFSET) [7; 8; 9]
          (a + DTB_OFFSET) None a os with
  | Ret _ os' => same_resources os' os /\ tile_mem os' (8, 7) = boot_memory [1; 2; 3; 0] a [4; 5; 6; 0] (a + KERNEL_OFFSET) [7; 8; 9; 0]
        (a + DTB_OFFSET) [] a ∅
  | _ => False
  end.
Proof.
  intros K os l a.
  assert (Hfd : 3 ∈ fds os) by (apply (bool_decide_unpack _); reflexivity).
  pose proof (boot_l2cpu_exact (K := K) l (Ok [1; 2; 3]) a (Some (Ok [4; 5; 6])) (a + KERNEL_OFFSET) [7; 8; 9]
    (a + DTB_OFFSET) None a os ltac:(done) Hfd ltac:(done) ltac:(done) ltac:(done) ltac:(done)) as H.
  destruct (boot_l2cpu _ _ _ _ _ _ _ _ _ _) as [[] os'|e os'|] eqn:E.
  - destruct H as (H1 & H2 & _). exact (conj H1 H2).
  - vm_compute in E. discriminate E.
  - exact H.
Defined.
