(* ===== verification/DispatchProofs.v ===== *)
(** Properties of the dispatch of one queue ([dispatch_chain] of
    [src/tensix_data_plane.rs]): the drain of the avail ring ends, it stops for
    one of three reasons, one interrupt is raised per drain that posted
    something, and a dispatch touches only its own guest. *)

From S2P Require Import Prelude Layout Virtqueue ConsoleHub DataPlane.

(** ** Rings that the buffers stay clear of *)

Definition in_rings (q : Queue) (x : Z) : Prop :=
  q_desc q <= x < q_desc q + 16 * q_num q \/ q_avail q <= x < q_avail q + 4 + 2 * q_num q.

(** The two memories agree on the descriptor table and on the avail ring. *)
Definition rings_same (q : Queue) (m m' : gmap Z Z) : Prop :=
  forall x, in_rings q x -> rd8 m' x = rd8 m x.

Definition clear_of_rings (q : Queue) (a len : Z) : Prop :=
  forall x, a <= x < a + len -> ~ in_rings q x.

(** The guest obeys the ring protocol: the used ring and every buffer that the
    table describes are clear of the table and of the avail ring. *)
Definition separated (slack : Z) (q : Queue) (m : gmap Z Z) : Prop :=
  clear_of_rings q (q_used q + 2) (2 + 8 * q_num q) /\
  forall i, 0 <= i < q_num q ->
    desc_in_range q (read_desc m (q_desc q) i) = true ->
    clear_of_rings q (vd_addr (read_desc m (q_desc q) i))
      (Z.max (vd_len (read_desc m (q_desc q) i)) slack).

Lemma rings_same_refl q m : rings_same q m m.
Proof. by intros x. Qed.

Lemma rings_same_trans q m1 m2 m3 : rings_same q m1 m2 -> rings_same q m2 m3 -> rings_same q m1 m3.
Proof. intros H1 H2 x Hx. rewrite H2, H1; auto. Qed.

Lemma frame_rings_same q m m' a len :
  frame m m' a len -> clear_of_rings q a len -> rings_same q m m'.
Proof.
  intros Hf Hc x Hx. apply Hf. destruct (decide (a <= x < a + len)) as [Hin|]; [|lia].
  by apply Hc in Hin.
Qed.

Lemma rings_same_desc q m m' i :
  0 <= i < q_num q -> rings_same q m m' -> read_desc m' (q_desc q) i = read_desc m (q_desc q) i.
Proof.
  intros Hi Hs. unfold read_desc, rd16, rd32, rd64.
  rewrite !(read_bytes_ext m' m); [done|..]; intros; apply Hs; left; lia.
Qed.

Lemma rings_same_avail_idx q m m' :
  0 < q_num q -> rings_same q m m' -> avail_idx m' (q_avail q) = avail_idx m (q_avail q).
Proof.
  intros Hn Hs. unfold avail_idx, rd16. f_equal. apply read_bytes_ext. intros. apply Hs. right. lia.
Qed.

Lemma separated_same slack q m m' :
  rings_same q m m' -> separated slack q m -> separated slack q m'.
Proof.
  intros Hs [Hu Hb]. split; [done|]. intros i Hi.
  rewrite (rings_same_desc q m m' i Hi Hs). by apply Hb.
Qed.

#[export] Hint Resolve rings_same_refl rings_same_trans separated_same : bhx.

Section Drain.
Context {D : Type} `{VirtioDeviceImpl D} `{!DeviceLaws D}.

Lemma walk_chain_rings q n dev m i b w :
  0 < q_num q -> separated (dev_slack D) q m ->
  walk_chain q n dev m i b = Some w -> rings_same q m (w_mem w).
Proof.
  intros Hn. revert dev m i b. induction n as [|n IH]; intros dev m i b Hsep Hw; cbn [walk_chain] in Hw.
  { simplify_eq/=. auto with bhx. }
  pose proof (proj2 Hsep (i mod q_num q) (Z.mod_pos_bound i (q_num q) Hn)) as Hd.
  set (d := read_desc m (q_desc q) (i mod q_num q)) in *. clearbody d.
  destruct (desc_in_range q d) eqn:Hr; cbn [negb] in Hw; [|simplify_eq/=; auto with bhx].
  specialize (Hd eq_refl). destruct (has_next d).
  - destruct (b <? q_hdr q);
      match type of Hw with context [match ?c with _ => _ end] =>
        destruct c as [[d' m']|] eqn:E; [|done] end;
      [apply start_frame in E|apply data_frame in E];
      apply (frame_rings_same q) in E; eauto with bhx.
  - destruct (process_queue_complete dev m _ _ _) as [[[d' m'] a]|] eqn:E; simplify_eq/=.
    apply complete_frame in E. by apply (frame_rings_same q) in E.
Qed.

(** One step, under separation, keeps the rings the guest owns. *)
Lemma process_one_rings q s s' r :
  0 < q_num q -> fits 16 (head_of q s) -> separated (dev_slack D) q (cs_mem s) ->
  process_one_chain_for_queue q s = Some (s', r) -> rings_same q (cs_mem s) (cs_mem s').
Proof.
  intros Hn Hh Hsep. unfold process_one_chain_for_queue.
  destruct (_ || _); [intros; simplify_eq; auto with bhx|].
  destruct (walk_chain _ _ _ _ _ _) as [w|] eqn:Hw; [|done]. intros. simplify_eq/=.
  apply walk_chain_rings in Hw; [|done..]. destruct (w_valid w); [|done].
  eapply rings_same_trans; [exact Hw|]. eapply frame_rings_same; [|exact (proj1 Hsep)].
  destruct (post_used_spec q (w_mem w) (head_of q s) (w_bytes w)) as (_ & _ & Hf); [done| |exact Hf].
  by apply (fits_mono 16); [lia|].
Qed.

(** ** What the drain loop does *)

(** [posts q n s s']: [n] steps from [s] to [s'], each of which posted. *)
Inductive posts (q : Queue) : nat -> ChainState D -> ChainState D -> Prop :=
| posts_0 s : posts q 0 s s
| posts_S n s1 s2 s3 :
    process_one_chain_for_queue q s1 = Some (s2, true) -> posts q n s2 s3 -> posts q (S n) s1 s3.

Lemma drain_avail_posts fuel q s p s' p' :
  drain_avail fuel q s p = Done (s', p') ->
  exists n s1, posts q n s s1 /\ process_one_chain_for_queue q s1 = Some (s', false) /\
    (n < fuel)%nat /\ p' = p || (0 <? Z.of_nat n).
Proof.
  revert s p. induction fuel as [|fuel IH]; intros s p; cbn [drain_avail]; [done|].
  destruct (process_one_chain_for_queue q s) as [[s2 []]|] eqn:E; [| |done].
  - intros Hd. apply IH in Hd as (n & s1 & Hp & Hs & Hn & ->).
    exists (S n), s1. split; [by econstructor|]. split; [done|]. split; [lia|].
    symmetry. replace (0 <? Z.of_nat (S n)) with true by (symmetry; apply Z.ltb_lt; lia).
    apply orb_true_r.
  - intros. simplify_eq. exists 0%nat, s. split; [constructor|]. split; [done|]. split; [lia|].
    by rewrite orb_false_r.
Qed.

Lemma process_one_true q s s' :
  process_one_chain_for_queue q s = Some (s', true) ->
  cs_processed s <> avail_idx (cs_mem s) (q_avail q) /\ cs_processed s' = u16 (cs_processed s + 1).
Proof.
  unfold process_one_chain_for_queue.
  destruct (Z.eqb_spec (cs_processed s) (avail_idx (cs_mem s) (q_avail q))); [done|].
  destruct (negb _); [done|]. destruct (walk_chain _ _ _ _ _ _); [|done]. intros. by simplify_eq/=.
Qed.

(** Distance of a 16-bit cursor from its goal. *)
Lemma cursor_advance a p :
  fits 16 a -> fits 16 p -> p <> a -> u16 (a - u16 (p + 1)) = u16 (a - p) - 1 /\ 0 < u16 (a - p).
Proof.
  unfold fits, u16, wrap. intros Ha Hp Hne. change (2 ^ 16) with 65536 in *.
  rewrite Zminus_mod_idemp_r. Z.div_mod_to_equations. lia.
Qed.

(** The state the drain runs in: rings that are never written, and a cursor
    that is a [u16]. *)
Definition drain_ok (q : Queue) (a : Z) (s : ChainState D) : Prop :=
  separated (dev_slack D) q (cs_mem s) /\ avail_idx (cs_mem s) (q_avail q) = a /\
  fits 16 (cs_processed s) /\ (forall i, 0 <= i < q_num q -> fits 16 (avail_ring (cs_mem s) (q_avail q) i)).

Lemma rings_same_avail_ring q m m' i :
  0 <= i < q_num q -> rings_same q m m' -> avail_ring m' (q_avail q) i = avail_ring m (q_avail q) i.
Proof.
  intros Hi Hs. unfold avail_ring, rd16. f_equal. apply read_bytes_ext. intros. apply Hs. right. lia.
Qed.

Lemma drain_ok_step q a s s' r :
  0 < q_num q -> drain_ok q a s -> process_one_chain_for_queue q s = Some (s', r) -> drain_ok q a s'.
Proof.
  intros Hn (Hsep & Ha & Hp & Hr) E.
  assert (Hs : rings_same q (cs_mem s) (cs_mem s')).
  { eapply process_one_rings; eauto. apply Hr, Z.mod_pos_bound. lia. }
  split; [eauto with bhx|]. split; [by rewrite (rings_same_avail_idx q (cs_mem s))|]. split.
  - revert E. unfold process_one_chain_for_queue. destruct (_ || _); [intros; by simplify_eq|].
    destruct (walk_chain _ _ _ _ _ _); [|done]. intros. simplify_eq/=. apply wrap_fits. lia.
  - intros i Hi. rewrite (rings_same_avail_ring q (cs_mem s)); auto.
Qed.

Lemma drain_ok_init q s :
  mem_ok (cs_mem s) -> fits 16 (cs_processed s) -> separated (dev_slack D) q (cs_mem s) ->
  drain_ok q (avail_idx (cs_mem s) (q_avail q)) s.
Proof. intros. split; [done|]. split; [done|]. split; [done|]. intros. by apply rd16_fits. Qed.

(** With separated rings the loop ends: every post brings the cursor one step
    closer to the avail index. *)
Lemma drain_avail_ends fuel q a s p :
  0 < q_num q -> fits 16 a -> drain_ok q a s -> u16 (a - cs_processed s) < Z.of_nat fuel ->
  drain_avail fuel q s p <> Diverges.
Proof.
  intros Hn Ha. revert s p. induction fuel as [|fuel IH]; intros s p Hok Hf; cbn [drain_avail].
  { pose proof (wrap_fits 16 (a - cs_processed s)) as [? _]; [lia|]. unfold u16 in Hf. lia. }
  destruct (process_one_chain_for_queue q s) as [[s2 []]|] eqn:E; [|done..].
  pose proof (drain_ok_step _ _ _ _ _ Hn Hok E) as Hok2. apply process_one_true in E as [Hne Hp2].
  destruct Hok as (_ & Hav & Hp & _). rewrite Hav in Hne.
  destruct (cursor_advance a (cs_processed s)) as [E1 _]; [done..|].
  apply IH; [done|]. rewrite Hp2, E1. lia.
Qed.

Lemma posts_ok q a n s s' : 0 < q_num q -> drain_ok q a s -> posts q n s s' -> drain_ok q a s'.
Proof. induction 3; eauto using drain_ok_step. Qed.

Lemma posts_bound q a n s s' :
  0 < q_num q -> fits 16 a -> drain_ok q a s -> posts q n s s' ->
  Z.of_nat n <= u16 (a - cs_processed s).
Proof.
  intros Hn Ha Hok Hp. induction Hp as [s|n s1 s2 s3 E Hp IH].
  { apply wrap_fits. lia. }
  pose proof (drain_ok_step _ _ _ _ _ Hn Hok E) as Hok2. specialize (IH Hok2).
  apply process_one_true in E as [Hne Hp2]. destruct Hok as (_ & Hav & Hf & _).
  rewrite Hav in Hne. destruct (cursor_advance a (cs_processed s1)) as [E1 ?]; [done..|].
  rewrite Hp2, E1 in IH. lia.
Qed.

(** Each post moves the cursor by one. *)
Lemma posts_cursor q n s s' :
  fits 16 (cs_processed s) -> posts q n s s' -> cs_processed s' = u16 (cs_processed s + Z.of_nat n).
Proof.
  intros Hf. induction 1 as [s|n s1 s2 s3 E Hp IH].
  - rewrite Z.add_0_r. unfold u16. by rewrite wrap_small.
  - apply process_one_true in E as [_ E]. rewrite IH, E by (rewrite E; apply wrap_fits; lia).
    unfold u16. rewrite wrap_add_l by lia. f_equal. lia.
Qed.

(** Why a step posts nothing. *)
Inductive stop (q : Queue) (s s' : ChainState D) : Prop :=
| stop_drained : s' = s -> cs_processed s = avail_idx (cs_mem s) (q_avail q) -> stop q s s'
| stop_declined : s' = s -> queue_has_data (cs_dev s) (q_idx q) = false -> stop q s s'
| stop_malformed w :
    walk_chain q (Z.to_nat (q_num q)) (cs_dev s) (cs_mem s) (head_of q s) 0 = Some w ->
    w_valid w = false -> s' = mk_cs (u16 (cs_processed s + 1)) (w_dev w) (w_mem w) -> stop q s s'.

Lemma process_one_false q s s' :
  process_one_chain_for_queue q s = Some (s', false) -> stop q s s'.
Proof.
  unfold process_one_chain_for_queue.
  destruct (Z.eqb_spec (cs_processed s) (avail_idx (cs_mem s) (q_avail q))); simpl.
  { intros. simplify_eq. by apply stop_drained. }
  destruct (queue_has_data _ _) eqn:Hd; simpl; [|intros; simplify_eq; by apply stop_declined].
  destruct (walk_chain _ _ _ _ _ _) as [w|] eqn:Hw; [|done]. intros Heq.
  destruct (w_valid w) eqn:Hv; simplify_eq/=. by eapply stop_malformed.
Qed.

(** ** One dispatch *)

Lemma shadow_queue_num l1 (reg : RegEntry D) qi q :
  mem_ok l1 -> shadow_queue l1 reg qi = Some q -> 0 < q_num q <= U16_MAX.
Proof.
  intros Hm. unfold shadow_queue.
  pose proof (rd32_fits l1 (shadow_queue_addr (re_slot reg) qi SHADOW_Q_OFF_NUM) Hm) as [Hn _].
  fold (read_shadow l1 (re_slot reg) qi SHADOW_Q_OFF_NUM) in Hn.
  bool_cases; try done. intros. simplify_eq/=.
  repeat match goal with H : _ || _ = false |- _ => apply orb_false_iff in H as [? ?] end.
  bool_to_prop. lia.
Qed.

Lemma guest_set_guest w i m : guest (set_guest w i m) i = m.
Proof. unfold guest. simpl. by rewrite lookup_insert_eq. Qed.

Lemma guest_set_guest_ne w i j m : i <> j -> guest (set_guest w i m) j = guest w j.
Proof. intros. unfold guest. simpl. by rewrite lookup_insert_ne. Qed.

(** What raising the interrupt does, and that nothing else changes. *)
Lemma raise_interrupt_spec w (reg : RegEntry D) w' :
  raise_interrupt w reg = Done w' ->
  5 <= re_interrupt_number reg /\
  w_guest w' = w_guest w /\
  w_l1 w' = (let a := u32 (slot_regs_base (re_slot reg) + MMIO_INTERRUPT_STATUS) in
             wr32 (w_l1 w) a (Z.lor 1 (rd32 (w_l1 w) a))) /\
  plic w' (re_l2cpu reg) =
    mk_plic 0 (pulses (plic w (re_l2cpu reg)) ++ [Z.shiftl 1 ((re_interrupt_number reg - 5) mod 32)]) /\
  (forall j, j <> re_l2cpu reg -> plic w' j = plic w j) /\
  irqs w' (re_kind reg) (re_l2cpu reg) = u64 (irqs w (re_kind reg) (re_l2cpu reg) + 1) /\
  (forall k j, (k, j) <> (re_kind reg, re_l2cpu reg) -> irqs w' k j = irqs w k j).
Proof.
  unfold raise_interrupt, set_interrupt. destruct (Z.ltb_spec (re_interrupt_number reg) 5); [done|].
  intros Heq. injection Heq as <-. unfold plic, irqs. simpl.
  rewrite !lookup_insert_eq. do 4 (split; [done|]). split; [|split].
  - intros j Hj. by rewrite lookup_insert_ne.
  - done.
  - intros k j Hj. by rewrite lookup_insert_ne by congruence.
Qed.

(** The shape of a dispatch that completed. *)
Lemma dispatch_chain_done w (reg : RegEntry D) qi w' reg' r :
  dispatch_chain w reg qi = Done (w', reg', r) ->
  (w' = w /\ reg' = reg /\ r = None /\
     (processed reg !! Z.to_nat qi = None \/ shadow_queue (w_l1 w) reg qi = None)) \/
  exists cursor q s posted,
    processed reg !! Z.to_nat qi = Some cursor /\ shadow_queue (w_l1 w) reg qi = Some q /\
    drain_avail drain_fuel q (mk_cs cursor (re_device reg) (guest w (re_l2cpu reg))) false
      = Done (s, posted) /\
    reg' = set_cursor reg (Z.to_nat qi) (cs_dev s) (cs_processed s) /\
    (posted = false /\ r = None /\ w' = set_guest w (re_l2cpu reg) (cs_mem s) \/
     posted = true /\ r = Some (used_idx (cs_mem s) (q_used q)) /\
     raise_interrupt (set_guest w (re_l2cpu reg) (cs_mem s)) reg = Done w').
Proof.
  unfold dispatch_chain.
  destruct (processed reg !! Z.to_nat qi) as [cursor|]; [|intros; simplify_eq; eauto 10].
  destruct (shadow_queue (w_l1 w) reg qi) as [q|]; [|intros; simplify_eq; eauto 10].
  destruct (drain_avail _ _ _ _) as [[s []]| |] eqn:E; cbn [negb]; try done.
  - match goal with |- context [raise_interrupt ?a ?b] => destruct (raise_interrupt a b) eqn:Er end;
      try done.
    intros. simplify_eq. right. exists cursor, q, s, true. do 3 (split; [done|]). split; [done|]. right. auto.
  - intros. simplify_eq. right. exists cursor, q, s, false. do 3 (split; [done|]). split; [done|]. left. auto.
Qed.

(** C3: when the guest keeps its buffers and its used ring clear of the
    descriptor table and of the avail ring, the dispatch of a queue ends after
    at most one pass over the outstanding entries; it posts one completion per
    chain, in ring order, and stops because the ring is drained, the device
    declines, or a chain is malformed; the cursor, the device and guest memory
    are left as that run leaves them, and the caller is told [None] exactly
    when nothing was posted. *)
Theorem dispatch_drains w (reg : RegEntry D) qi cursor q :
  processed reg !! Z.to_nat qi = Some cursor -> fits 16 cursor ->
  shadow_queue (w_l1 w) reg qi = Some q -> mem_ok (w_l1 w) ->
  mem_ok (guest w (re_l2cpu reg)) -> separated (dev_slack D) q (guest w (re_l2cpu reg)) ->
  dispatch_chain w reg qi <> Diverges /\
  forall w' reg' r, dispatch_chain w reg qi = Done (w', reg', r) ->
    exists n s1 s', let s := mk_cs cursor (re_device reg) (guest w (re_l2cpu reg)) in
      posts q n s s1 /\ stop q s1 s' /\
      cs_processed s1 = u16 (cursor + Z.of_nat n) /\
      Z.of_nat n <= u16 (avail_idx (cs_mem s) (q_avail q) - cursor) /\
      reg' = set_cursor reg (Z.to_nat qi) (cs_dev s') (cs_processed s') /\
      guest w' (re_l2cpu reg) = cs_mem s' /\ (r = None <-> n = 0%nat).
Proof.
  intros Hc Hf Hq Hl1 Hm Hsep. pose proof (shadow_queue_num _ _ _ _ Hl1 Hq) as Hn.
  set (s := mk_cs cursor (re_device reg) (guest w (re_l2cpu reg))).
  pose proof (drain_ok_init q s Hm Hf Hsep) as Hok.
  set (a := avail_idx (cs_mem s) (q_avail q)) in *.
  assert (Ha : fits 16 a) by (by apply rd16_fits). split.
  - unfold dispatch_chain. rewrite Hc, Hq. fold s.
    assert (Hne : drain_avail drain_fuel q s false <> Diverges).
    { apply (drain_avail_ends _ _ a); [lia|done..|]. unfold drain_fuel.
      pose proof (wrap_fits 16 (a - cs_processed s)) as [_ Hlt]; [lia|].
      rewrite Z2Nat.id by lia. exact Hlt. }
    destruct (drain_avail drain_fuel q s false) as [[s' []]| |]; try done.
    cbn [negb]. unfold raise_interrupt, set_interrupt. by destruct (_ <? 5).
  - intros w' reg' r Hd.
    apply dispatch_chain_done in Hd as [(_ & _ & _ & [?|?])|(c & q' & s' & p & Hc' & Hq' & E & -> & Hr)].
    1, 2: congruence.
    simplify_eq. fold s in E. apply drain_avail_posts in E as (n & s1 & Hp & Hs & _ & ->).
    exists n, s1, s'. cbn zeta. split; [done|]. split; [by apply process_one_false|].
    split; [by apply (posts_cursor q n s)|]. split.
    { apply (posts_bound q a n s s1); [lia|done..]. }
    split; [done|].
    destruct (Z.ltb_spec 0 (Z.of_nat n)); destruct Hr as [(? & -> & ->)|(? & -> & Hri)]; try done.
    + apply raise_interrupt_spec in Hri as (_ & Hg & _). split; [|split; [done|lia]].
      unfold guest. rewrite Hg. simpl. by rewrite lookup_insert_eq.
    + rewrite guest_set_guest. split; [done|]. split; [lia|done].
Qed.
(** A dispatch touches only what belongs to its slot and queue: the memory,
    the PLIC and the counters of other L2CPUs and the other cursors of the
    device are unchanged, the L1 changes at most in the interrupt-status word
    of the slot, and exactly when a completion was posted (result [Some], the
    used index the guest now sees) that word gets bit 0, the PLIC source of
    the device is pulsed once and one interrupt is counted. *)
Theorem dispatch_isolated w (reg : RegEntry D) qi w' reg' r :
  dispatch_chain w reg qi = Done (w', reg', r) ->
  (forall j, j <> re_l2cpu reg -> guest w' j = guest w j /\ plic w' j = plic w j) /\
  (forall j, j <> Z.to_nat qi -> processed reg' !! j = processed reg !! j) /\
  length (processed reg') = length (processed reg) /\ re_slot reg' = re_slot reg /\
  match r with
  | None => w_l1 w' = w_l1 w /\ plic w' (re_l2cpu reg) = plic w (re_l2cpu reg) /\
            forall k j, irqs w' k j = irqs w k j
  | Some u =>
      let a := u32 (slot_regs_base (re_slot reg) + MMIO_INTERRUPT_STATUS) in
      w_l1 w' = wr32 (w_l1 w) a (Z.lor 1 (rd32 (w_l1 w) a)) /\
      pulses (plic w' (re_l2cpu reg)) =
        pulses (plic w (re_l2cpu reg)) ++ [Z.shiftl 1 ((re_interrupt_number reg - 5) mod 32)] /\
      plic_reg (plic w' (re_l2cpu reg)) = 0 /\
      irqs w' (re_kind reg) (re_l2cpu reg) = u64 (irqs w (re_kind reg) (re_l2cpu reg) + 1) /\
      exists q, shadow_queue (w_l1 w) reg qi = Some q /\
        u = used_idx (guest w' (re_l2cpu reg)) (q_used q)
  end.
Proof.
  intros Hd. apply dispatch_chain_done in Hd
    as [(-> & -> & -> & _)|(c & q & s & p & Hc & Hq & _ & -> & Hr)]; [done|].
  assert (Hg : forall j, j <> re_l2cpu reg -> guest w' j = guest w j /\ plic w' j = plic w j).
  { intros j Hj. destruct Hr as [(_ & _ & ->)|(_ & _ & Hr)].
    - by rewrite guest_set_guest_ne by done.
    - apply raise_interrupt_spec in Hr as (_ & Hgu & _ & _ & Hp & _). rewrite Hp by done.
      split; [|done]. unfold guest. rewrite Hgu. simpl. by rewrite lookup_insert_ne. }
  split; [exact Hg|]. cbn [set_cursor processed re_slot].
  split; [intros j Hj; by rewrite list_lookup_insert_ne|].
  split; [by rewrite length_insert|]. split; [done|].
  destruct Hr as [(_ & -> & ->)|(_ & -> & Hr)]; [done|].
  apply raise_interrupt_spec in Hr as (_ & Hgu & -> & -> & _ & Hirq & _).
  do 4 (split; [done|]). exists q. split; [done|].
  unfold guest. rewrite Hgu. simpl. by rewrite lookup_insert_eq.
Qed.
End Drain.

Section Malformed.
Context {D : Type} `{VirtioDeviceImpl D}.

(** A malformed chain at the cursor ends the drain: the dispatch consumes
    that chain only and reports that nothing was posted, without an
    interrupt, however many further entries the avail ring holds; they wait
    for the next notification of the queue. *)
Theorem malformed_stops_drain w (reg : RegEntry D) qi cursor q wk :
  let s := mk_cs cursor (re_device reg) (guest w (re_l2cpu reg)) in
  processed reg !! Z.to_nat qi = Some cursor ->
  shadow_queue (w_l1 w) reg qi = Some q ->
  cursor <> avail_idx (cs_mem s) (q_avail q) -> queue_has_data (re_device reg) (q_idx q) = true ->
  walk_chain q (Z.to_nat (q_num q)) (cs_dev s) (cs_mem s) (head_of q s) 0 = Some wk ->
  w_valid wk = false ->
  dispatch_chain w reg qi =
    Done (set_guest w (re_l2cpu reg) (w_mem wk),
          set_cursor reg (Z.to_nat qi) (w_dev wk) (u16 (cursor + 1)), None).
Proof.
  intros s Hc Hq Hne Hd Hw Hv. unfold dispatch_chain. rewrite Hc, Hq. fold s.
  assert (E : process_one_chain_for_queue q s = Some (mk_cs (u16 (cursor + 1)) (w_dev wk) (w_mem wk), false)).
  { unfold process_one_chain_for_queue. apply Z.eqb_neq in Hne.
    replace (_ || _) with false by (symmetry; apply orb_false_iff; split;
      [exact Hne|apply negb_false_iff; exact Hd]).
    cbv zeta. by rewrite Hw, Hv. }
  assert (Hf : exists f, drain_fuel = S f) by (exists (Z.to_nat 65535); reflexivity).
  destruct Hf as [f ->]. cbn [drain_avail]. by rewrite E.
Qed.
End Malformed.

(** ** A concrete slot

    Slot 2 of L2CPU 0 with the recording device: eight entries, rings and data
    in the first kilobyte of the guest's memory. *)

Definition demo_base : Z := 0x400030000000.

Definition demo_l1 : gmap Z Z :=
  let put l1 off v := wr32 l1 (shadow_queue_addr 2 0 off) v in
  let l1 := put ∅ SHADOW_Q_OFF_DESC_LO 0x30000000 in
  let l1 := put l1 SHADOW_Q_OFF_DESC_HI 0x4000 in
  let l1 := put l1 SHADOW_Q_OFF_DRIVER_LO 0x30000100 in
  let l1 := put l1 SHADOW_Q_OFF_DRIVER_HI 0x4000 in
  let l1 := put l1 SHADOW_Q_OFF_DEVICE_LO 0x30000200 in
  let l1 := put l1 SHADOW_Q_OFF_DEVICE_HI 0x4000 in
  put l1 SHADOW_Q_OFF_NUM 8.

(** Two chains in the avail ring; the first descriptor points to [a0]. *)
Definition demo_guest (a0 : Z) : gmap Z Z :=
  let m := write_desc ∅ demo_base 0 (mk_desc a0 8 0 0) in
  let m := write_desc m demo_base 1 (mk_desc (demo_base + 0x308) 16 0 0) in
  wr16 (wr16 (wr16 m (demo_base + 0x104) 0) (demo_base + 0x106) 1) (demo_base + 0x102) 2.

Definition demo_reg : RegEntry RecordingDevice := entry_new 2 0 recording_new 10 Block.
Definition demo_world (a0 : Z) : World := mk_world demo_l1 {[0 := demo_guest a0]} ∅ ∅.
Definition demo_shadow : Queue :=
  mk_queue demo_base (demo_base + 0x100) (demo_base + 0x200) 0 8 8 demo_base (demo_base + 0x100000000).

Lemma demo_l1_ok : mem_ok demo_l1.
Proof.
  unfold demo_l1, wr32. repeat (apply mem_ok_write_bytes; [|apply le_bytes_are_bytes]).
  apply map_Forall_empty.
Qed.

Lemma demo_guest_ok a0 : mem_ok (demo_guest a0).
Proof.
  unfold demo_guest, write_desc, wr16, wr32, wr64.
  repeat (apply mem_ok_write_bytes; [|apply le_bytes_are_bytes]). apply map_Forall_empty.
Qed.

Lemma demo_separated : separated 0 demo_shadow (demo_guest (demo_base + 0x300)).
Proof.
  assert (Hc : forall a len, demo_base + 0x200 <= a -> clear_of_rings demo_shadow a len).
  { intros a len Ha x Hx Hr. unfold in_rings, demo_shadow in Hr. simpl in Hr. lia. }
  split; [apply Hc; vm_compute; discriminate|].
  intros i Hi. cbn [demo_shadow q_num] in Hi.
  assert (i = 0 \/ i = 1 \/ 2 <= i < 8) as [->|[->|Hi2]] by lia.
  - intros _. apply Hc. vm_compute. discriminate.
  - intros _. apply Hc. vm_compute. discriminate.
  - assert (i = 2 \/ i = 3 \/ i = 4 \/ i = 5 \/ i = 6 \/ i = 7) as Hc6 by lia.
    repeat (destruct Hc6 as [->|Hc6]); try subst i; intros E; vm_compute in E; discriminate.
Qed.

Lemma dispatch_drains_witness :
  exists w' reg', dispatch_chain (demo_world (demo_base + 0x300)) demo_reg 0 = Done (w', reg', Some 2) /\
    exists n, (n <= 2)%nat /\ n <> 0%nat.
Proof.
  pose (w := demo_world (demo_base + 0x300)).
  destruct (dispatch_drains w demo_reg 0 0 demo_shadow) as [_ Hd].
  - reflexivity.
  - vm_compute. split; [discriminate|reflexivity].
  - vm_compute. reflexivity.
  - apply demo_l1_ok.
  - apply demo_guest_ok.
  - apply demo_separated.
  - destruct (dispatch_chain w demo_reg 0) as [[[w' reg'] r]| |] eqn:E;
      [|vm_compute in E; discriminate..].
    assert (r = Some 2) as -> by (vm_compute in E; congruence).
    destruct (Hd w' reg' (Some 2) eq_refl) as (n & s1 & s' & _ & _ & _ & Hn & _ & _ & Hr).
    exists w', reg'. split; [exact E|]. exists n. split.
    + match type of Hn with _ <= ?b => assert (Eb : b = 2) by (vm_compute; reflexivity) end.
      rewrite Eb in Hn. lia.
    + intros ->. by destruct Hr as [_ Hr]; specialize (Hr eq_refl).
Defined.

Lemma dispatch_isolated_witness :
  exists w' reg', dispatch_chain (demo_world (demo_base + 0x300)) demo_reg 0 = Done (w', reg', Some 2) /\
    pulses (plic w' 0) = [Z.shiftl 1 5] /\ guest w' 1 = ∅.
Proof.
  destruct (dispatch_chain (demo_world (demo_base + 0x300)) demo_reg 0) as [[[w' reg'] r]| |] eqn:E;
    [|vm_compute in E; discriminate..].
  assert (r = Some 2) as -> by (vm_compute in E; congruence).
  destruct (dispatch_isolated _ _ _ _ _ _ E) as (Hg & _ & _ & _ & _ & Hp & _).
  exists w', reg'. split; [reflexivity|]. split; [exact Hp|].
  apply (Hg 1). discriminate.
Defined.

Lemma malformed_stops_drain_witness :
  exists w', dispatch_chain (demo_world 0x1000) demo_reg 0 =
    Done (w', set_cursor demo_reg 0 recording_new 1, None) /\
    avail_idx (demo_guest 0x1000) (q_avail demo_shadow) = 2.
Proof.
  exists (set_guest (demo_world 0x1000) 0 (demo_guest 0x1000)). split; [|vm_compute; reflexivity].
  apply (malformed_stops_drain (demo_world 0x1000) demo_reg 0 0 demo_shadow
    (mk_walk recording_new (demo_guest 0x1000) 0 false)).
  - reflexivity.
  - vm_compute. reflexivity.
  - vm_compute. discriminate.
  - reflexivity.
  - vm_compute. reflexivity.
  - reflexivity.
Defined.
