(* ===== verification/PollProofs.v ===== *)
(** Properties of the passes of the poll loop of [src/tensix_data_plane.rs]:
    the dirty bitmap, the published masks, the UART feed, the status pass and
    the exported counters. *)

From S2P Require Import Prelude Layout Virtqueue ConsoleHub DataPlane.

(** ** The dirty bitmap *)

Definition dirty_ok (s q : Z) : Prop := 0 <= s < NUM_SLOTS /\ 0 <= q < MAX_QUEUES_PER_SLOT.

Lemma dirty_byte_addr_inj s q s' q' :
  dirty_ok s q -> dirty_ok s' q' -> dirty_byte_addr s q = dirty_byte_addr s' q' -> s = s' /\ q = q'.
Proof.
  intros H1 H2. pose proof (cell_base_exact (DirtyByte s q) H1) as E1.
  pose proof (cell_base_exact (DirtyByte s' q') H2) as E2. simpl in E1, E2. rewrite E1, E2.
  unfold dirty_ok, MAX_QUEUES_PER_SLOT in *. lia.
Qed.

(** A pair is served by a list of (slot, number of queues). *)
Definition served (slots : list (Z * Z)) (s q : Z) : Prop :=
  exists n, (s, n) ∈ slots /\ 0 <= q < Z.min n MAX_QUEUES_PER_SLOT.

Lemma collect_queues_spec l1 s q n l1' hits :
  0 <= s < NUM_SLOTS -> 0 <= q -> q + Z.of_nat n <= MAX_QUEUES_PER_SLOT ->
  collect_queues l1 s q n = (l1', hits) ->
  (forall s' q', (s', q') ∈ hits <->
     s' = s /\ q <= q' < q + Z.of_nat n /\ rd8 l1 (dirty_byte_addr s q') <> 0) /\
  (forall q', q <= q' < q + Z.of_nat n -> rd8 l1' (dirty_byte_addr s q') = 0) /\
  (forall x, (forall q', q <= q' < q + Z.of_nat n -> x <> dirty_byte_addr s q') -> rd8 l1' x = rd8 l1 x) /\
  NoDup hits.
Proof.
  intros Hs. revert l1 q l1' hits. induction n as [|n IH]; intros l1 q l1' hits Hq Hn E; cbn in E.
  { simplify_eq. split; [|split; [|split; [done|constructor]]].
    - intros s' q'. rewrite elem_of_nil. split; [done|]. simpl. lia.
    - simpl. lia. }
  set (a := dirty_byte_addr s q) in *.
  destruct (if rd8 l1 a =? 0 then _ else _) as [l2 hit] eqn:E1.
  destruct (collect_queues l2 s (q + 1) n) as [l3 hs] eqn:E2. simplify_eq.
  apply IH in E2 as (H1 & H2 & H2' & H3); [|lia..].
  assert (Hinj : forall q', q + 1 <= q' < q + 1 + Z.of_nat n -> dirty_byte_addr s q' <> a).
  { intros q' ? Heq. apply dirty_byte_addr_inj in Heq as [_ ->]; unfold dirty_ok; lia. }
  assert (Hu : u16 q = q) by (apply wrap_small; unfold fits, MAX_QUEUES_PER_SLOT in *; lia).
  rewrite Hu in E1.
  assert (Hl2 : forall x, rd8 l2 x = if decide (x = a) then 0 else rd8 l1 x).
  { intros x. destruct (Z.eqb_spec (rd8 l1 a) 0); simplify_eq; case_decide; subst;
      rewrite ?rd8_wr8_eq, ?rd8_wr8_ne by congruence; done. }
  assert (Hhit : forall p, p ∈ hit <-> p = (s, q) /\ rd8 l1 a <> 0).
  { intros p. destruct (Z.eqb_spec (rd8 l1 a) 0); simplify_eq;
      rewrite ?elem_of_nil, ?list_elem_of_singleton; split; by intros; destruct_and?. }
  split; [|split; [|split]].
  - intros s' q'. rewrite elem_of_app, Hhit, H1, Hl2. split.
    + intros [[Heq ?]|(-> & ? & Hne)]; [simplify_eq; split; [done|]; split; [lia|done]|].
      rewrite decide_False in Hne by auto. split; [done|]. split; [lia|done].
    + intros (-> & ? & Hne). destruct (decide (q' = q)) as [->|]; [left; auto|right].
      rewrite decide_False by (apply Hinj; lia). split; [done|]. split; [lia|done].
  - intros q' Hq'. destruct (decide (q' = q)) as [->|]; [|apply H2; lia].
    rewrite H2', Hl2, decide_True; [done..|]. intros q' ? Heq. by apply (Hinj q').
  - intros x Hx. rewrite H2', Hl2, decide_False; [done|apply Hx; lia|]. intros; apply Hx; lia.
  - apply NoDup_app. split; [destruct (rd8 l1 a =? 0); simplify_eq; [constructor|apply NoDup_singleton]|].
    split; [|done]. intros [s' q'] Hin. apply Hhit in Hin as [? _]. simplify_eq.
    rewrite H1. intros (_ & ? & _). lia.
Qed.

(** C24: the scan of the dirty bitmap returns, without repetition, exactly the
    pairs of registered slots and announced queues (at most eight per slot)
    whose dirty byte was set, clears exactly the bytes of the registered
    pairs, and leaves every other byte of the L1 alone: no notification is
    lost and none is invented. *)
Theorem collect_dirty_exact l1 slots l1' hits :
  Forall (fun p => 0 <= p.1 < NUM_SLOTS) slots -> NoDup (List.map fst slots) ->
  collect_dirty_pairs l1 slots = (l1', hits) ->
  (forall s q, (s, q) ∈ hits <-> served slots s q /\ rd8 l1 (dirty_byte_addr s q) <> 0) /\
  (forall s q, served slots s q -> rd8 l1' (dirty_byte_addr s q) = 0) /\
  (forall x, (forall s q, served slots s q -> x <> dirty_byte_addr s q) -> rd8 l1' x = rd8 l1 x) /\
  NoDup hits.
Proof.
  intros Hok. revert l1 l1' hits. induction Hok as [|[s n] slots Hs Hok IH]; intros l1 l1' hits Hnd E; cbn in E.
  { simplify_eq. unfold served. split; [|split; [|split; [done|constructor]]].
    - intros s q. rewrite elem_of_nil. split; [done|]. intros ((n & Hin & _) & _). by apply elem_of_nil in Hin.
    - intros s q (n & Hin & _). by apply elem_of_nil in Hin. }
  apply NoDup_cons in Hnd as [Hni Hnd]. simpl in Hs, Hni.
  destruct (collect_queues l1 s 0 _) as [l2 h1] eqn:E1.
  destruct (collect_dirty_pairs l2 slots) as [l3 h2] eqn:E2. simplify_eq.
  set (k := Z.min n MAX_QUEUES_PER_SLOT) in *.
  apply collect_queues_spec in E1 as (Q1 & Q2 & Q3 & Q4); [|lia|lia|unfold k, MAX_QUEUES_PER_SLOT; lia].
  apply IH in E2 as (P1 & P2 & P3 & P4); [|done].
  assert (Hk : forall q, 0 <= q < 0 + Z.of_nat (Z.to_nat k) <-> 0 <= q < k) by lia.
  assert (Hsv : forall s' q, served ((s, n) :: slots) s' q <-> (s' = s /\ 0 <= q < k) \/ served slots s' q).
  { intros s' q. unfold served. setoid_rewrite elem_of_cons. split.
    - intros (m & [?|?] & ?); simplify_eq; [left; auto|right; eauto].
    - intros [[-> ?]|(m & ? & ?)]; [exists n; auto|exists m; auto]. }
  assert (Hdis : forall s' q' q, served slots s' q' -> 0 <= q < k -> dirty_byte_addr s' q' <> dirty_byte_addr s q).
  { intros s' q' q (m & Hin & Hq') Hq Heq.
    assert (0 <= s' < NUM_SLOTS) by (rewrite Forall_forall in Hok; exact (Hok _ Hin)).
    apply dirty_byte_addr_inj in Heq as [-> _]; [|split; [done|lia]..].
    apply Hni. by apply (list_elem_of_map fst) in Hin. }
  split; [|split; [|split]].
  - intros s' q. rewrite elem_of_app, Q1, P1, Hsv, Hk. split.
    + intros [(-> & ? & ?)|[Hv Hd]]; [auto|]. split; [auto|]. rewrite <- Q3; [done|].
      intros q' Hq'. apply Hk in Hq'. eauto.
    + intros [[[-> ?]|Hv] Hd]; [auto|right]. split; [done|]. rewrite Q3; [done|].
      intros q' Hq'. apply Hk in Hq'. eauto.
  - intros s' q Hv. apply Hsv in Hv as [[-> Hq]|Hv]; [|eauto].
    rewrite P3; [apply Q2; lia|]. intros s' q' Hv Heq. by eapply Hdis.
  - intros x Hx. rewrite P3, Q3; [done| |].
    + intros q' Hq'. apply Hk in Hq'. apply Hx, Hsv. auto.
    + intros s' q' Hv. apply Hx, Hsv. auto.
  - apply NoDup_app. split; [done|]. split; [|done]. intros [s' q] Hin.
    apply Q1 in Hin as (-> & _ & _). rewrite P1. intros [(m & Hin & _) _].
    apply Hni. by apply (list_elem_of_map fst) in Hin.
Qed.

Lemma collect_dirty_exact_witness :
  let l1 := wr8 (wr8 (wr8 ∅ (dirty_byte_addr 0 1) 1) (dirty_byte_addr 8 0) 255) (dirty_byte_addr 9 0) 1 in
  exists l1', collect_dirty_pairs l1 [(8, 1); (0, 2)] = (l1', [(8, 0); (0, 1)]) /\
    rd8 l1' (dirty_byte_addr 9 0) = 1.
Proof.
  intros l1. destruct (collect_dirty_pairs l1 [(8, 1); (0, 2)]) as [l1' hits] eqn:E.
  assert (hits = [(8, 0); (0, 1)]) as -> by (vm_compute in E; congruence).
  exists l1'. split; [reflexivity|].
  destruct (collect_dirty_exact l1 [(8, 1); (0, 2)] l1' [(8, 0); (0, 1)]) as (_ & _ & H & _).
  - repeat constructor; simpl; (lia || (vm_compute; reflexivity)).
  - apply (bool_decide_unpack (NoDup [8; 0])). vm_compute. exact I.
  - exact E.
  - rewrite H; [vm_compute; reflexivity|]. intros s q (n & Hin & Hq).
    apply elem_of_cons in Hin as [Hin|Hin]; [|apply list_elem_of_singleton in Hin]; simplify_eq;
      unfold MAX_QUEUES_PER_SLOT in Hq.
    + assert (q = 0) as -> by lia. vm_compute. discriminate.
    + assert (q = 0 \/ q = 1) as [->| ->] by lia; vm_compute; discriminate.
Defined.

(** ** The published masks *)

Lemma testbit_or_slot m s i :
  0 <= s -> 0 <= i -> Z.testbit (or_slot m s) i = Z.testbit m i || ((i =? s) && (s <? 32)).
Proof.
  intros Hs Hi. unfold or_slot. destruct (Z.ltb_spec s 32); [|by rewrite andb_false_r, orb_false_r].
  rewrite Z.lor_spec, Z.shiftl_1_l, andb_true_r. f_equal.
  rewrite Z.pow2_bits_eqb by lia. apply Z.eqb_sym.
Qed.

Lemma testbit_fold {A} (f : A -> Z) m (l : list A) i :
  Forall (fun x => 0 <= f x) l -> 0 <= i ->
  Z.testbit (foldl (fun m x => or_slot m (f x)) m l) i = true <->
  Z.testbit m i = true \/ (i < 32 /\ exists x, x ∈ l /\ f x = i).
Proof.
  intros Hl Hi. revert m. induction Hl as [|x l Hx Hl IH]; intros m; cbn [foldl].
  - split; [auto|]. intros [?|[_ (x & Hin & _)]]; [done|]. by apply elem_of_nil in Hin.
  - rewrite IH, testbit_or_slot by lia. setoid_rewrite elem_of_cons. split.
    + intros [Hb|(? & y & ? & ?)]; [|right; eauto]. apply orb_true_iff in Hb as [?|Hb]; [auto|].
      apply andb_prop in Hb as [Hb1 Hb2]. apply Z.eqb_eq in Hb1. apply Z.ltb_lt in Hb2. subst.
      right. split; [lia|]. eauto.
    + intros [->|(? & y & [->|?] & <-)]; [auto| |right; eauto].
      left. rewrite Z.eqb_refl, (proj2 (Z.ltb_lt _ _)) by lia. apply orb_true_r.
Qed.

Lemma elem_of_map_fst {K A} `{Countable K} (m : gmap K A) k :
  k ∈ List.map fst (map_to_list m) <-> is_Some (m !! k).
Proof.
  split.
  - intros Hin. apply list_elem_of_In, List.in_map_iff in Hin as ([k' v] & <- & Hin).
    apply list_elem_of_In, elem_of_map_to_list in Hin. by eexists.
  - intros [v Hv]. apply list_elem_of_In, List.in_map_iff. exists (k, v). split; [done|].
    by apply list_elem_of_In, elem_of_map_to_list.
Qed.

Lemma rd32_publish l1 slots uarts :
  fits 32 (full_mask slots uarts) -> fits 32 (virtio_mask slots) ->
  rd32 (publish_active_mask l1 slots uarts) (CTRL_BASE + CTRL_OFF_ACTIVE_SLOTS) = full_mask slots uarts /\
  rd32 (publish_active_mask l1 slots uarts) (CTRL_BASE + CTRL_OFF_ACTIVE_VIRTIO_SLOTS) = virtio_mask slots.
Proof.
  intros Hf Hv. unfold publish_active_mask. split; [|by apply rd32_wr32_same].
  unfold wr32 at 1. rewrite rd32_write_out by (vm_compute; left; discriminate). by apply rd32_wr32_same.
Qed.

Lemma or_slot_fits m s : fits 32 m -> 0 <= s -> fits 32 (or_slot m s).
Proof.
  intros [H0 H1] Hs. unfold or_slot. destruct (Z.ltb_spec s 32); [|done].
  assert (0 <= Z.lor m (Z.shiftl 1 s)).
  { apply Z.lor_nonneg. split; [done|]. apply Z.shiftl_nonneg. lia. }
  split; [done|]. destruct (decide (Z.lor m (Z.shiftl 1 s) = 0)) as [->|]; [lia|].
  apply Z.log2_lt_pow2; [lia|]. rewrite Z.log2_lor by (try apply Z.shiftl_nonneg; lia).
  rewrite Z.shiftl_1_l, Z.log2_pow2 by lia.
  apply Z.max_lub_lt; [|lia]. destruct (decide (m = 0)) as [->|]; [done|]. apply Z.log2_lt_pow2; lia.
Qed.

Lemma foldl_or_fits {A} (f : A -> Z) m (l : list A) :
  Forall (fun x => 0 <= f x) l -> fits 32 m -> fits 32 (foldl (fun m x => or_slot m (f x)) m l).
Proof. intros Hl. revert m. induction Hl; intros; simpl; auto using or_slot_fits. Qed.

Lemma slot_for_l2cpu_nonneg i : 0 <= slot_for_l2cpu i.
Proof. apply wrap_fits. lia. Qed.

(** The operations on the registries. *)
Inductive disp_step {D} : Dispatcher D -> Dispatcher D -> Prop :=
| step_register_slot d e : 0 <= re_slot e -> disp_step d (register_slot d e)
| step_unregister_slot d s : disp_step d (unregister_slot d s)
| step_register_uart d i hub : disp_step d (register_uart d i hub)
| step_unregister_uart d i : disp_step d (unregister_uart d i).

(** Slot numbers are unsigned. *)
Definition keys_ok {D} (d : Dispatcher D) : Prop := map_Forall (fun s _ => 0 <= s) (registry d).

Lemma disp_step_keys {D} (d d' : Dispatcher D) : keys_ok d -> disp_step d d' -> keys_ok d'.
Proof.
  unfold keys_ok. intros Hk Hs. destruct Hs; cbn [registry register_slot unregister_slot
    register_uart unregister_uart publish]; [apply map_Forall_insert_2|apply map_Forall_delete|..]; done.
Qed.

(** After any sequence of registrations and removals that ends in one,
    bit [i] of the active-slot word in the L1 is set exactly when slot [i]
    is a registered device or the UART slot of a registered UART, and bit [i]
    of the virtio-only word exactly when slot [i] is a registered device: the
    firmware polls what is registered, and no more. *)
Theorem masks_track_registries {D} (d0 d1 d : Dispatcher D) :
  keys_ok d0 -> rtc disp_step d0 d1 -> disp_step d1 d ->
  forall i, 0 <= i < 32 ->
  (Z.testbit (rd32 (w_l1 (world d)) (CTRL_BASE + CTRL_OFF_ACTIVE_SLOTS)) i = true <->
     is_Some (registry d !! i) \/
     exists u, is_Some (uart_registry d !! u) /\ slot_for_l2cpu u = i) /\
  (Z.testbit (rd32 (w_l1 (world d)) (CTRL_BASE + CTRL_OFF_ACTIVE_VIRTIO_SLOTS)) i = true <->
     is_Some (registry d !! i)).
Proof.
  intros Hk Hr Hd i Hi.
  assert (Hreg : keys_ok d).
  { eapply disp_step_keys; [|exact Hd]. clear Hd. induction Hr; eauto using disp_step_keys. }
  assert (E : exists l1, w_l1 (world d) = publish_active_mask l1
    (List.map fst (map_to_list (registry d))) (List.map fst (map_to_list (uart_registry d)))).
  { destruct Hd; by eexists. }
  destruct E as [l1 ->]. set (ks := List.map fst (map_to_list (registry d))).
  set (us := List.map fst (map_to_list (uart_registry d))).
  assert (Hks : Forall (fun s => 0 <= s) ks).
  { apply Forall_forall. intros s Hs. apply elem_of_map_fst in Hs as [e He]. exact (Hreg _ _ He). }
  assert (Hus : Forall (fun u => 0 <= slot_for_l2cpu u) us)
    by (apply Forall_forall; intros; apply slot_for_l2cpu_nonneg).
  assert (Hv : fits 32 (virtio_mask ks)) by (by apply (foldl_or_fits (fun s => s))).
  assert (Hf : fits 32 (full_mask ks us)) by (by apply foldl_or_fits).
  destruct (rd32_publish l1 ks us Hf Hv) as [-> ->].
  assert (Hvb : Z.testbit (virtio_mask ks) i = true <-> is_Some (registry d !! i)).
  { unfold virtio_mask. rewrite (testbit_fold (fun s => s) 0 ks i Hks), Z.bits_0 by lia.
    rewrite <- elem_of_map_fst. split; [intros [?|(_ & s & ? & <-)]; done|].
    intros. right. split; [lia|]. by exists i. }
  split; [|exact Hvb]. unfold full_mask.
  rewrite (testbit_fold slot_for_l2cpu _ us i Hus), Hvb by lia. split.
  - intros [?|(_ & u & Hu & ?)]; [auto|]. right. exists u. split; [|done]. by apply elem_of_map_fst.
  - intros [?|(u & Hu & ?)]; [auto|]. right. split; [lia|]. exists u. split; [|done]. by apply elem_of_map_fst.
Qed.

Lemma masks_track_registries_witness :
  let d0 : Dispatcher unit := mk_disp ∅ ∅ (mk_world ∅ ∅ ∅ ∅) in
  let d := register_uart (register_slot d0 (mk_entry 9 1 tt 12 Block [])) 1 (hub_new 1 0) in
  Z.testbit (rd32 (w_l1 (world d)) (CTRL_BASE + CTRL_OFF_ACTIVE_SLOTS)) 14 = true.
Proof.
  intros d0 d.
  apply (masks_track_registries d0 (register_slot d0 (mk_entry 9 1 tt 12 Block [])) d).
  - intros k v Hv. discriminate.
  - apply rtc_once. apply step_register_slot. vm_compute. discriminate.
  - apply step_register_uart.
  - lia.
  - right. exists 1. split; [vm_compute; by eexists|vm_compute; reflexivity].
Defined.

(** ** The UART feed *)

Lemma u32_fits x : fits 32 (u32 x).
Proof. apply wrap_fits. lia. Qed.

Lemma length_feed_bytes l1 base c n : length (feed_bytes l1 base c n) = n.
Proof. unfold feed_bytes. by rewrite List.length_map, List.length_seq. Qed.

Lemma feed_byte_wrap l1 base c i : feed_byte l1 base (u32 c + i) = feed_byte l1 base (c + i).
Proof. unfold feed_byte, u32. by rewrite wrap_add_l by lia. Qed.

Lemma feed_bytes_app l1 base c a b :
  feed_bytes l1 base c (a + b) = feed_bytes l1 base c a ++ feed_bytes l1 base (u32 (c + Z.of_nat a)) b.
Proof.
  unfold feed_bytes. rewrite List.seq_app, List.map_app. f_equal. simpl.
  apply list_eq. intros j. rewrite !list_lookup_fmap.
  destruct (decide (j < b)%nat).
  - rewrite !lookup_seq_lt by lia. simpl. rewrite feed_byte_wrap. do 2 f_equal. lia.
  - rewrite !lookup_seq_ge by lia. done.
Qed.

(** The distance of two sequence numbers after [n] of its steps. *)
Lemma distance_step p c n :
  fits 32 c -> fits 32 p -> 0 <= n <= u32 (p - c) -> u32 (p - u32 (c + n)) = u32 (p - c) - n.
Proof.
  unfold fits, u32, wrap. change (2 ^ 32) with 4294967296. intros.
  rewrite Zminus_mod_idemp_r. Z.div_mod_to_equations. lia.
Qed.

Lemma distance_zero p c : fits 32 c -> fits 32 p -> u32 (p - c) = 0 <-> c = p.
Proof.
  unfold fits, u32, wrap. change (2 ^ 32) with 4294967296. intros. Z.div_mod_to_equations. lia.
Qed.

Lemma feed_loop_spec fuel l1 base c p h :
  fits 32 c -> fits 32 p -> u32 (p - c) <= 256 * Z.of_nat fuel ->
  exists chunks, feed_loop fuel l1 base c p h = Done (push_all h chunks, p) /\
    concat chunks = feed_bytes l1 base c (Z.to_nat (u32 (p - c))) /\
    Forall (fun b : list Z => 0 < Z.of_nat (length b) <= 256) chunks.
Proof.
  intros Hc Hp. revert c h Hc. induction fuel as [|fuel IH]; intros c h Hc Hf; cbn [feed_loop];
    pose proof (u32_fits (p - c)) as [Hd _]; pose proof (distance_zero p c Hc Hp) as Hz;
    destruct (Z.eqb_spec c p) as [->|Hne].
  1, 3: exists []; rewrite (proj2 Hz) by done; split; [done|split; [done|constructor]].
  { lia. }
  assert (0 < u32 (p - c)) by (destruct (Z.eq_dec (u32 (p - c)) 0); [tauto|lia]).
  set (n := Z.min (u32 (p - c)) 256). assert (Hn : 0 < n <= u32 (p - c) /\ n <= 256) by (unfold n; lia).
  pose proof (distance_step p c n Hc Hp ltac:(lia)) as Ed.
  destruct (IH (u32 (c + n)) (push_chip_output h (feed_bytes l1 base c (Z.to_nat n))).1)
    as (chunks & E & Hcat & Hall); [apply u32_fits|lia|].
  exists (feed_bytes l1 base c (Z.to_nat n) :: chunks). split; [exact E|]. split.
  - cbn [concat]. rewrite Hcat, Ed.
    replace (Z.to_nat (u32 (p - c))) with (Z.to_nat n + Z.to_nat (u32 (p - c) - n))%nat by lia.
    rewrite feed_bytes_app. by rewrite Z2Nat.id by lia.
  - constructor; [rewrite length_feed_bytes; lia|done].
Qed.

Lemma clamp_spec p c n :
  fits 32 c -> fits 32 p -> 0 <= n < 2 ^ 32 ->
  u32 (p - clamp_consumer_to_ring p c n) = Z.min (u32 (p - c)) n /\
  fits 32 (clamp_consumer_to_ring p c n).
Proof.
  intros Hc Hp Hn. unfold clamp_consumer_to_ring. destruct (Z.ltb_spec n (u32 (p - c))).
  - split; [|apply u32_fits]. rewrite Z.min_r by lia. unfold u32. rewrite wrap_sub_r by lia.
    replace (p - (p - n)) with n by lia. by apply wrap_small.
  - split; [|done]. lia.
Qed.

(** One drain of a UART ring ends with the consumer cursor equal to the
    producer cursor it read and publishes it; the hub receives, in order and
    in non-empty chunks of at most 256 bytes, exactly the bytes of the last
    [min (producer - consumer) 1024] sequence numbers (the distance modulo
    2^32), that is everything outstanding, or the newest 1024 bytes when the
    ring was overrun; nothing else of the L1 changes. *)
Theorem uart_drain_exact l1 i consumer h :
  0 <= i < NUM_L2CPUS -> mem_ok l1 -> fits 32 consumer ->
  let base := uart_private_base i in
  let producer := rd32 l1 (u32 (base + UART_PRIV_OFF_FEED_PRODUCER_SEQ)) in
  let n := Z.min (u32 (producer - consumer)) UART_FEED_RING_ENTRIES in
  let l1' := if producer =? consumer then l1
             else wr32 l1 (u32 (base + UART_PRIV_OFF_FEED_CONSUMER_SEQ)) producer in
  exists chunks,
    drain_uart l1 i consumer h = Done (l1', producer, push_all h chunks, negb (producer =? consumer)) /\
    concat chunks = feed_bytes l1 base (u32 (producer - n)) (Z.to_nat n) /\
    Forall (fun b : list Z => 0 < Z.of_nat (length b) <= 256) chunks.
Proof.
  intros Hi Hm Hc base producer n l1'. unfold drain_uart.
  destruct (Z.leb_spec NUM_L2CPUS i); [lia|]. fold base. fold producer.
  assert (Hp : fits 32 producer) by (by apply rd32_fits).
  subst l1'. destruct (Z.eqb_spec producer consumer) as [Heq|Hne]; simpl negb; cbv iota.
  - exists []. subst n. rewrite Heq at 2. rewrite Heq. rewrite (proj2 (distance_zero consumer consumer Hc Hc)) by done.
    split; [done|split; [done|constructor]].
  - destruct (clamp_spec producer consumer UART_FEED_RING_ENTRIES Hc Hp) as [Ed Hf]; [vm_compute; split; congruence|].
    set (c := clamp_consumer_to_ring producer consumer UART_FEED_RING_ENTRIES) in *. fold n in Ed.
    destruct (feed_loop_spec 4 l1 base c producer h Hf Hp) as (chunks & E & Hcat & Hall).
    { rewrite Ed. unfold n, UART_FEED_RING_ENTRIES. lia. }
    exists chunks. rewrite E. split; [done|]. split; [|done]. rewrite Hcat, Ed. f_equal.
    rewrite <- Ed. unfold u32. rewrite wrap_sub_r by lia.
    replace (producer - (producer - c)) with c by lia. symmetry. by apply wrap_small.
Qed.

Lemma uart_drain_exact_witness :
  let base := uart_private_base 0 in
  let l1 := wr32 (wr32 (wr32 ∅ (base + UART_PRIV_OFF_FEED_PRODUCER_SEQ) 2)
              (base + UART_PRIV_OFF_FEED_RING) 104) (base + UART_PRIV_OFF_FEED_RING + 4) 105 in
  exists chunks l1', drain_uart l1 0 0 (hub_new 0 0) = Done (l1', 2, push_all (hub_new 0 0) chunks, true) /\
    concat chunks = [104; 105].
Proof.
  intros base l1.
  destruct (uart_drain_exact l1 0 0 (hub_new 0 0)) as (chunks & E & Hc & _).
  - vm_compute. split; congruence.
  - unfold l1, wr32. repeat (apply mem_ok_write_bytes; [|apply le_bytes_are_bytes]). apply map_Forall_empty.
  - vm_compute. split; congruence.
  - assert (Hp : rd32 l1 (u32 (base + UART_PRIV_OFF_FEED_PRODUCER_SEQ)) = 2) by (vm_compute; reflexivity).
    cbv zeta in E. fold base in E. rewrite Hp in E. eexists chunks, _. split; [exact E|].
    etransitivity; [exact Hc|vm_compute; reflexivity].
Defined.

(** ** The status pass *)

Section Status.
Context {D : Type} `{VirtioDeviceImpl D}.

Definition slot_status (l1 : gmap Z Z) (s : Z) : Z := rd32 l1 (u32 (slot_regs_base s + MMIO_STATUS)).

Definition went_to_zero (l1 last : gmap Z Z) (s : Z) : bool :=
  (slot_status l1 s =? 0) && negb (default 0 (last !! s) =? 0).

Lemma probe_status_spec l1 (reg : gmap Z (RegEntry D)) last s reg' last' :
  probe_status l1 (reg, last) s = (reg', last') ->
  default 0 (last' !! s) = slot_status l1 s /\
  reg' !! s = (if went_to_zero l1 last s then wipe <$> reg !! s else reg !! s) /\
  forall t, t <> s -> reg' !! t = reg !! t /\ last' !! t = last !! t.
Proof.
  unfold probe_status, went_to_zero. fold (slot_status l1 s).
  destruct (Z.eqb_spec (slot_status l1 s) (default 0 (last !! s))) as [He|Hne].
  { intros. simplify_eq. split; [done|]. split; [|done].
    destruct (Z.eqb_spec (slot_status l1 s) 0) as [Hz|]; [|done].
    rewrite <- He, Hz. done. }
  intros E. injection E as <- <-. rewrite lookup_insert_eq. split; [done|]. split.
  - destruct (_ && _); [|done]. destruct (reg !! s) eqn:Er; [|by rewrite Er].
    by rewrite lookup_insert_eq.
  - intros t Ht. rewrite lookup_insert_ne by done. split; [|done].
    destruct (_ && _); [|done]. destruct (reg !! s); [|done]. by rewrite lookup_insert_ne.
Qed.

(** One status pass over the registered slots records the status register
    of each, wipes the cursors of exactly the devices whose status went from
    non-zero to zero (the guest reset them, so their rings start again at
    entry 0), and changes no other device. *)
Theorem status_pass_wipes l1 (reg : gmap Z (RegEntry D)) last order reg' last' :
  NoDup order -> status_pass l1 reg last order = (reg', last') ->
  (forall s, s ∈ order ->
     default 0 (last' !! s) = slot_status l1 s /\
     reg' !! s = (if went_to_zero l1 last s then wipe <$> reg !! s else reg !! s)) /\
  (forall s, s ∉ order -> reg' !! s = reg !! s /\ last' !! s = last !! s).
Proof.
  intros Hnd. unfold status_pass. revert reg last. induction Hnd as [|s order Hs Hnd IH]; intros reg last E;
    cbn [foldl] in E.
  { simplify_eq. split; [|done]. intros s Hs. by apply elem_of_nil in Hs. }
  destruct (probe_status l1 (reg, last) s) as [reg1 last1] eqn:E1.
  apply probe_status_spec in E1 as (P1 & P2 & P3). apply IH in E as [Q1 Q2]. split.
  - intros t Ht. apply elem_of_cons in Ht as [->|Ht].
    + destruct (Q2 s Hs) as [-> ->]. auto.
    + assert (t <> s) as Hts by (by intros ->). destruct (P3 t Hts) as [Hr Hl].
      destruct (Q1 t Ht) as [-> ->]. split; [done|]. unfold went_to_zero. by rewrite Hr, Hl.
  - intros t Ht. apply not_elem_of_cons in Ht as [Hts Ht]. destruct (Q2 t Ht) as [-> ->]. by apply P3.
Qed.
End Status.

Lemma status_pass_wipes_witness :
  let e := mk_entry (D := RecordingDevice) 2 0 recording_new 10 Block [7] in
  exists reg' last', status_pass ∅ {[2 := e]} {[2 := 15]} [2] = (reg', last') /\
    reg' !! 2 = Some (wipe e).
Proof.
  intros e. destruct (status_pass ∅ {[2 := e]} {[2 := 15]} [2]) as [reg' last'] eqn:E.
  exists reg', last'. split; [reflexivity|].
  destruct (status_pass_wipes ∅ {[2 := e]} {[2 := 15]} [2] reg' last') as [H _].
  - apply NoDup_singleton.
  - exact E.
  - destruct (H 2) as [_ ->]; [by apply list_elem_of_singleton|]. vm_compute. reflexivity.
Defined.
