(* ===== verification/Terminal.v ===== *)
(** The terminal pump of [src/daemon/terminal.rs]: the reader thread that
    prints the console stream and counts cursor-position queries, and the
    writer thread that forwards keystrokes and gates cursor-position reports.

    The two threads share [exit], [in_replay] and [pending_cpr]; an iteration of
    either loop is one step, and a run is any interleaving of such steps. *)

From S2P Require Import Prelude.

Definition ESC : Z := 0x1b.
Definition LBRACK : Z := 91.

Definition is_ascii_digit (c : Z) : bool := (48 <=? c) && (c <=? 57).
Definition is_final (b : Z) : bool := (0x40 <=? b) && (b <=? 0x7e).
Definition params_ok (buf : list Z) : bool := forallb (fun c => is_ascii_digit c || (c =? 59)) buf.

(** ** Queries in the output *)

Inductive CprQueryState :=
| QIdle
| QEsc
| QCsi (buf : list Z).

Definition query_step (st : CprQueryState) (b : Z) : CprQueryState * Z :=
  match st with
  | QIdle => (if b =? ESC then QEsc else QIdle, 0)
  | QEsc => (if b =? LBRACK then QCsi [] else QIdle, 0)
  | QCsi buf =>
      if negb (is_final b) then (QCsi (buf ++ [b]), 0)
      else (QIdle, if (b =? 110) && params_ok buf then 1 else 0)
  end.

(** [consume]: the new state and the number of queries completed. *)
Fixpoint consume (st : CprQueryState) (bytes : list Z) : CprQueryState * Z :=
  match bytes with
  | [] => (st, 0)
  | b :: bytes =>
      let '(st, h) := query_step st b in
      let '(st, hs) := consume st bytes in
      (st, h + hs)
  end.

(** ** Keystrokes *)

Inductive EscState :=
| EIdle
| EEsc
| ECsi (buf : list Z).

Inductive EscDecision :=
| Emit
| Drop
| CprResponse.

(** [advance_esc]: the new state, the bytes pushed to [out], the decision. *)
Definition advance_esc (st : EscState) (byte : Z) : EscState * list Z * EscDecision :=
  match st with
  | EIdle => if byte =? ESC then (EEsc, [], Drop) else (EIdle, [byte], Emit)
  | EEsc => if byte =? LBRACK then (ECsi [], [], Drop) else (EIdle, [ESC; byte], Emit)
  | ECsi buf =>
      if negb (is_final byte) then (ECsi (buf ++ [byte]), [], Drop)
      else
        let out := [ESC; LBRACK] ++ buf ++ [byte] in
        if (byte =? 82) && params_ok buf then (EIdle, out, CprResponse) else (EIdle, out, Emit)
  end.

(** The emit loop under the ctrl-A prefix.  [ws] are the results of the
    successive [write_all] calls; an exhausted list means success. *)
Inductive emitted :=
| Continue (ctrl_a : bool) (sent : list Z)
| Quit (sent : list Z)
| WriteFailed (sent : list Z).

Definition next_write (ws : list bool) : bool * list bool :=
  match ws with [] => (true, []) | w :: ws => (w, ws) end.

Fixpoint emit_loop (to_emit : list Z) (ctrl_a : bool) (sent : list Z) (ws : list bool) : emitted :=
  match to_emit with
  | [] => Continue ctrl_a sent
  | e :: rest =>
      if ctrl_a then
        if e =? 120 then Quit sent
        else
          let '(ok, ws) := next_write ws in
          if negb ok then WriteFailed sent
          else
            let '(ok, ws) := next_write ws in
            if negb ok then WriteFailed (sent ++ [1])
            else emit_loop rest false (sent ++ [1; e]) ws
      else if e =? 1 then emit_loop rest true sent ws
      else
        let '(ok, ws) := next_write ws in
        if negb ok then WriteFailed sent else emit_loop rest false (sent ++ [e]) ws
  end.

(** ** The pump *)

(** [forwarded] counts the reports that passed the gate; it is not part of the
    program's state and nothing reads it. *)
Record Pump := mk_pump {
  exit : bool;
  in_replay : bool;
  pending_cpr : Z;
  target : Z;
  drained : Z;
  det : CprQueryState;
  printed : list Z;
  reader_done : bool;
  esc : EscState;
  ctrl_a : bool;
  sent : list Z;
  writer_done : bool;
  forwarded : Z;
}.

Definition pump_init (scrollback_bytes : Z) : Pump :=
  mk_pump false (0 <? scrollback_bytes) 0 scrollback_bytes 0 QIdle [] false EIdle false [] false 0.

(** One iteration of [reader_loop] on a chunk of the stream. *)
Definition reader_chunk (p : Pump) (buf : list Z) : Pump :=
  let n := Z.of_nat (length buf) in
  let was_replay := in_replay p in
  let remaining := saturating_sub (target p) (drained p) in
  let drained' := if was_replay then saturating_add64 (drained p) n else drained p in
  let replay' := if was_replay then negb (target p <=? drained') else false in
  let live_start := if was_replay then Z.min remaining n else 0 in
  let '(det', queries) :=
    if live_start <? n then consume (det p) (drop (Z.to_nat live_start) buf) else (det p, 0) in
  let pending' := if 0 <? queries then u64 (pending_cpr p + queries) else pending_cpr p in
  mk_pump (exit p) replay' pending' (target p) drained' det' (printed p ++ buf) (reader_done p)
    (esc p) (ctrl_a p) (sent p) (writer_done p) (forwarded p).

(** End of stream or a read error. *)
Definition reader_stop (p : Pump) : Pump :=
  mk_pump true (in_replay p) (pending_cpr p) (target p) (drained p) (det p) (printed p) true
    (esc p) (ctrl_a p) (sent p) (writer_done p) (forwarded p).

(** The writer's part of the state after an iteration. *)
Definition set_writer (p : Pump) (ex : bool) (pend : Z) (e : EscState) (c : bool) (out : list Z)
    (done : bool) (fwd : Z) : Pump :=
  mk_pump ex (in_replay p) pend (target p) (drained p) (det p) (printed p) (reader_done p)
    e c out done fwd.

(** The emit part of an iteration, after the gate. *)
Definition writer_emit (p : Pump) (pend : Z) (e : EscState) (out : list Z) (ws : list bool) (fwd : Z)
    : Pump :=
  match emit_loop out (ctrl_a p) (sent p) ws with
  | Continue c sent => set_writer p (exit p) pend e c sent (writer_done p) fwd
  | Quit sent => set_writer p true pend e false sent true fwd
  | WriteFailed sent => set_writer p (exit p) pend e false sent true fwd
  end.

(** One iteration of [writer_loop] with a byte from the keyboard. *)
Definition writer_byte (p : Pump) (byte : Z) (ws : list bool) : Pump :=
  let '(e, out, decision) := advance_esc (esc p) byte in
  let drop_it := set_writer p (exit p) (pending_cpr p) e (ctrl_a p) (sent p) (writer_done p) (forwarded p) in
  match decision with
  | Drop => drop_it
  | Emit => writer_emit p (pending_cpr p) e out ws (forwarded p)
  | CprResponse =>
      if in_replay p then drop_it
      else if pending_cpr p =? 0 then drop_it
      else writer_emit p (pending_cpr p - 1) e out ws (forwarded p + 1)
  end.

(** End of the keyboard input. *)
Definition writer_stop (p : Pump) : Pump :=
  set_writer p (exit p) (pending_cpr p) (esc p) (ctrl_a p) (sent p) true (forwarded p).

Inductive event :=
| Chunk (buf : list Z)
| Eof
| Key (byte : Z) (ws : list bool)
| KeyEof.

Definition pump_step (p : Pump) (e : event) : Pump :=
  match e with
  | Chunk buf => if reader_done p then p else reader_chunk p buf
  | Eof => if reader_done p then p else reader_stop p
  | Key b ws => if exit p || writer_done p then p else writer_byte p b ws
  | KeyEof => if exit p || writer_done p then p else writer_stop p
  end.

Definition pump (scrollback_bytes : Z) (events : list event) : Pump :=
  foldl pump_step (pump_init scrollback_bytes) events.

(** ** Counting queries *)

Lemma consume_app st a b :
  consume st (a ++ b) =
  let '(st1, h1) := consume st a in let '(st2, h2) := consume st1 b in (st2, h1 + h2).
Proof.
  revert st. induction a as [|x a IH]; intros st; cbn [consume app].
  - by destruct (consume st b).
  - destruct (query_step st x) as [st1 h]. rewrite IH. destruct (consume st1 a) as [st2 h2].
    destruct (consume st2 b) as [st3 h3]. f_equal. lia.
Qed.

Lemma consume_bound st bytes : 0 <= (consume st bytes).2 <= Z.of_nat (length bytes).
Proof.
  revert st. induction bytes as [|b bytes IH]; intros st; cbn [consume length]; [simpl; lia|].
  assert (Hs : 0 <= (query_step st b).2 <= 1).
  { destruct st; simpl; [lia..|]. destruct (negb _); simpl; [lia|]. destruct (_ && _); simpl; lia. }
  destruct (query_step st b) as [st1 h]. specialize (IH st1). destruct (consume st1 bytes) as [st2 hs].
  simpl in *. lia.
Qed.

(** The live part of the output: what follows the replayed scrollback. *)
Definition live (p : Pump) : list Z := drop (Z.to_nat (target p)) (printed p).

Record pump_ok (sb : Z) (p : Pump) : Prop := {
  ok_target : target p = sb;
  ok_det : det p = (consume QIdle (live p)).1;
  ok_count : forwarded p + pending_cpr p = (consume QIdle (live p)).2;
  ok_pos : 0 <= pending_cpr p /\ 0 <= forwarded p;
  ok_replay : in_replay p = (Z.of_nat (length (printed p)) <? sb);
  ok_drained : in_replay p = true -> drained p = Z.of_nat (length (printed p));
}.

(** The live part of a chunk that follows [l] of the stream. *)
Lemma drop_app_live (l buf : list Z) (t : nat) :
  drop t (l ++ buf) = drop t l ++ drop (Nat.min (t - length l) (length buf)) buf.
Proof.
  rewrite drop_app. f_equal. destruct (decide (t - length l <= length buf)%nat).
  - by rewrite Nat.min_l.
  - rewrite Nat.min_r, !drop_ge by lia. done.
Qed.

Lemma reader_chunk_ok sb p buf :
  0 <= sb -> pump_ok sb p -> Z.of_nat (length (printed p ++ buf)) < 2 ^ 64 ->
  pump_ok sb (reader_chunk p buf).
Proof.
  intros Hsb [Ht Hd Hc [Hp1 Hp2] Hr Hdr] Hlen. rewrite length_app in Hlen.
  set (n := Z.of_nat (length buf)). set (L := Z.of_nat (length (printed p))) in *.
  set (ls := if in_replay p then Z.min (saturating_sub (target p) (drained p)) n else 0).
  assert (Hls : Z.to_nat ls = Nat.min (Z.to_nat sb - length (printed p)) (length buf)).
  { subst ls. destruct (in_replay p) eqn:Er.
    - rewrite Hdr, Ht by done. unfold saturating_sub, n, L. lia.
    - symmetry in Hr. apply Z.ltb_ge in Hr. unfold L in Hr. lia. }
  assert (Hlive : drop (Z.to_nat sb) (printed p ++ buf) = live p ++ drop (Z.to_nat ls) buf).
  { unfold live. rewrite Ht, drop_app_live, Hls. done. }
  set (r := if ls <? n then consume (det p) (drop (Z.to_nat ls) buf) else (det p, 0)).
  assert (Er : r = consume (det p) (drop (Z.to_nat ls) buf)).
  { subst r. destruct (Z.ltb_spec ls n); [done|]. rewrite drop_ge by (unfold n in *; lia). done. }
  assert (Hall : consume QIdle (live p ++ drop (Z.to_nat ls) buf) =
    (r.1, (consume QIdle (live p)).2 + r.2)).
  { rewrite consume_app, Er, Hd. destruct (consume QIdle (live p)) as [s1 h1]. simpl.
    by destruct (consume s1 _). }
  pose proof (consume_bound QIdle (live p ++ drop (Z.to_nat ls) buf)) as Hb.
  rewrite Hall, <- Hlive, length_drop, length_app in Hb. simpl in Hb.
  pose proof (consume_bound (det p) (drop (Z.to_nat ls) buf)) as Hb2. rewrite <- Er in Hb2.
  assert (Hpend : (if 0 <? r.2 then u64 (pending_cpr p + r.2) else pending_cpr p) = pending_cpr p + r.2).
  { destruct (Z.ltb_spec 0 r.2); [|lia]. apply wrap_small. unfold fits. lia. }
  assert (E : reader_chunk p buf =
    mk_pump (exit p) (if in_replay p then negb (target p <=? saturating_add64 (drained p) n) else false)
      (pending_cpr p + r.2) (target p)
      (if in_replay p then saturating_add64 (drained p) n else drained p) r.1 (printed p ++ buf)
      (reader_done p) (esc p) (ctrl_a p) (sent p) (writer_done p) (forwarded p)).
  { unfold reader_chunk. fold n. cbv zeta. fold ls. fold r. destruct r as [r1 r2]. simpl in *.
    rewrite Hpend. by destruct (in_replay p). }
  rewrite E. clear E.
  assert (Hsat : in_replay p = true -> saturating_add64 (drained p) n = L + n).
  { intros Hin. rewrite Hdr by done. unfold saturating_add64, U64_MAX, L, n. lia. }
  constructor; simpl; auto.
  - unfold live at 1. simpl. by rewrite Ht, Hlive, Hall.
  - unfold live at 1. simpl. rewrite Ht, Hlive, Hall. simpl. lia.
  - lia.
  - rewrite length_app. destruct (in_replay p) eqn:Ein.
    + rewrite Hsat, Ht by done. fold L in Hr |- *. rewrite Nat2Z.inj_add. fold L n.
      destruct (Z.leb_spec sb (L + n)), (Z.ltb_spec (L + n) sb); simpl; lia || done.
    + symmetry in Hr |- *. apply Z.ltb_ge in Hr. apply Z.ltb_ge. unfold L in Hr. lia.
  - destruct (in_replay p); [|done]. intros _. rewrite Hsat by done. rewrite length_app. lia.
Qed.

(** The invariant reads only the reader's part and the two counters. *)
Lemma set_writer_ok sb p ex pend e c out dn fwd :
  pump_ok sb p -> fwd + pend = forwarded p + pending_cpr p -> 0 <= pend -> 0 <= fwd ->
  pump_ok sb (set_writer p ex pend e c out dn fwd).
Proof. intros [] Hs ??. constructor; auto. simpl. rewrite Hs. done. Qed.

Lemma writer_byte_ok sb p b ws : pump_ok sb p -> pump_ok sb (writer_byte p b ws).
Proof.
  intros Hok. pose proof (ok_pos _ _ Hok) as [H1 H2]. unfold writer_byte.
  destruct (advance_esc (esc p) b) as [[e out] []].
  - unfold writer_emit. destruct (emit_loop _ _ _ _); by apply set_writer_ok.
  - by apply set_writer_ok.
  - destruct (in_replay p); [by apply set_writer_ok|].
    destruct (Z.eqb_spec (pending_cpr p) 0); [by apply set_writer_ok|].
    unfold writer_emit. destruct (emit_loop _ _ _ _); apply set_writer_ok; lia || done.
Qed.

Lemma pump_step_printed p e : exists k, printed (pump_step p e) = printed p ++ k.
Proof.
  assert (Hw : forall b ws, printed (writer_byte p b ws) = printed p).
  { intros b ws. unfold writer_byte, writer_emit. destruct (advance_esc (esc p) b) as [[e' out] []];
      [by destruct (emit_loop _ _ _ _)|done|].
    destruct (in_replay p); [done|]. destruct (pending_cpr p =? 0); [done|].
    by destruct (emit_loop _ _ _ _). }
  destruct e as [buf| |b ws|]; simpl.
  - destruct (reader_done p); [exists []; by rewrite app_nil_r|]. exists buf. unfold reader_chunk.
    by destruct (if _ <? _ then _ else _).
  - exists []. rewrite app_nil_r. by destruct (reader_done p).
  - exists []. rewrite app_nil_r. destruct (exit p || writer_done p); [done|]. apply Hw.
  - exists []. rewrite app_nil_r. by destruct (exit p || writer_done p).
Qed.

Lemma pump_step_ok sb p e :
  0 <= sb -> pump_ok sb p -> Z.of_nat (length (printed (pump_step p e))) < 2 ^ 64 ->
  pump_ok sb (pump_step p e).
Proof.
  intros Hsb Hok Hlen. pose proof (ok_pos _ _ Hok) as [H1 H2]. destruct e as [buf| |b ws|]; simpl in *.
  - destruct (reader_done p); [done|]. apply reader_chunk_ok; [done..|].
    revert Hlen. unfold reader_chunk. by destruct (if _ <? _ then _ else _).
  - destruct (reader_done p); [done|]. destruct Hok. by constructor.
  - destruct (exit p || writer_done p); [done|]. by apply writer_byte_ok.
  - destruct (exit p || writer_done p); [done|]. by apply set_writer_ok.
Qed.

Lemma pump_snoc sb evs e : pump sb (evs ++ [e]) = pump_step (pump sb evs) e.
Proof. unfold pump. by rewrite foldl_app. Qed.

Lemma pump_ok_all sb evs :
  0 <= sb -> Z.of_nat (length (printed (pump sb evs))) < 2 ^ 64 -> pump_ok sb (pump sb evs).
Proof.
  intros Hsb. induction evs as [|e evs IH] using rev_ind; intros Hlen.
  - constructor; simpl; auto; unfold live; simpl; try (rewrite drop_nil; done); lia.
  - rewrite pump_snoc in *. apply pump_step_ok; [done| |done]. apply IH.
    destruct (pump_step_printed (pump sb evs) e) as [k Hk]. rewrite Hk, length_app in Hlen. lia.
Qed.

(** The stream that the reader consumed: the chunks before the end of file. *)
Fixpoint stream (evs : list event) : list Z :=
  match evs with
  | [] => []
  | Chunk buf :: evs => buf ++ stream evs
  | Eof :: _ => []
  | _ :: evs => stream evs
  end.

Lemma pump_step_reader p e :
  reader_done (pump_step p e) = match e with Eof => true | _ => reader_done p end /\
  printed (pump_step p e) =
    match e with Chunk buf => if reader_done p then printed p else printed p ++ buf | _ => printed p end.
Proof.
  destruct e as [buf| |b ws|]; simpl.
  - destruct (reader_done p) eqn:E; [done|]. unfold reader_chunk.
    by destruct (if _ <? _ then _ else _).
  - by destruct (reader_done p) eqn:E.
  - destruct (exit p || writer_done p); [done|]. unfold writer_byte, writer_emit.
    destruct (advance_esc (esc p) b) as [[e' out] []]; [by destruct (emit_loop _ _ _ _)|done|].
    destruct (in_replay p); [done|]. destruct (pending_cpr p =? 0); [done|].
    by destruct (emit_loop _ _ _ _).
  - by destruct (exit p || writer_done p).
Qed.

Lemma foldl_printed evs p :
  printed (foldl pump_step p evs) = if reader_done p then printed p else printed p ++ stream evs.
Proof.
  revert p. induction evs as [|e evs IH]; intros p; cbn [foldl stream].
  - rewrite app_nil_r. by destruct (reader_done p).
  - rewrite IH. destruct (pump_step_reader p e) as [-> ->].
    destruct e, (reader_done p); rewrite ?app_nil_r, ?app_assoc; done.
Qed.

(** *** Sequences of a terminal's output

    What a query is, without the detector: the output is cut into plain bytes,
    two-byte escapes and control sequences (escape, an opening bracket,
    bytes that are not final, a final byte), with an unfinished one at the end. *)

Inductive sequence :=
| Plain (b : Z)
| Escape (b : Z)
| Csi (params : list Z) (final : Z).

Definition spelled (q : sequence) : list Z :=
  match q with Plain b => [b] | Escape b => [ESC; b] | Csi ps f => ESC :: LBRACK :: ps ++ [f] end.

Definition final_byte (b : Z) : Prop := 0x40 <= b <= 0x7e.

Definition well_formed (q : sequence) : Prop :=
  match q with
  | Plain b => b <> ESC
  | Escape b => b <> LBRACK
  | Csi ps f => Forall (fun b => ~ final_byte b) ps /\ final_byte f
  end.

Definition unfinished (tail : list Z) : Prop :=
  tail = [] \/ tail = [ESC] \/ exists ps, tail = ESC :: LBRACK :: ps /\ Forall (fun b => ~ final_byte b) ps.

Definition cut_into (bytes : list Z) (qs : list sequence) (tail : list Z) : Prop :=
  bytes = concat (List.map spelled qs) ++ tail /\ Forall well_formed qs /\ unfinished tail.

(** A device status request: digits and semicolons, then [n]. *)
Definition is_query (q : sequence) : bool :=
  match q with
  | Csi ps f => (f =? 110) && forallb (fun c => ((48 <=? c) && (c <=? 57)) || (c =? 59)) ps
  | _ => false
  end.

Definition queries_in (qs : list sequence) : Z := Z.of_nat (length (List.filter is_query qs)).

Lemma is_final_spec b : is_final b = true <-> final_byte b.
Proof. unfold is_final, final_byte. lia. Qed.

Lemma consume_params ps buf rest : Forall (fun b => ~ final_byte b) ps ->
  consume (QCsi buf) (ps ++ rest) = consume (QCsi (buf ++ ps)) rest.
Proof.
  intros H. revert buf. induction H as [|b ps Hb _ IH]; intros buf; [by rewrite app_nil_r|]. cbn [app consume query_step].
  rewrite <- is_final_spec in Hb. destruct (is_final b); [done|]. cbn [negb]. rewrite IH, <- app_assoc. by destruct (consume _ rest).
Qed.

Lemma consume_csi rest : consume QIdle (ESC :: LBRACK :: rest) = consume (QCsi []) rest.
Proof. cbn. by destruct (consume (QCsi []) rest). Qed.

Lemma consume_spelled q rest : well_formed q ->
  consume QIdle (spelled q ++ rest) = ((consume QIdle rest).1, (if is_query q then 1 else 0) + (consume QIdle rest).2).
Proof.
  destruct q as [b|b|ps f]; cbn [well_formed spelled app is_query].
  - intros H. cbn [consume query_step]. rewrite (proj2 (Z.eqb_neq _ _) H). by destruct (consume QIdle rest).
  - intros H. cbn [consume query_step]. rewrite Z.eqb_refl. cbn [query_step]. rewrite (proj2 (Z.eqb_neq _ _) H). by destruct (consume QIdle rest).
  - intros [Hps Hf]. rewrite consume_csi, <- app_assoc, consume_params by done. cbn [app consume query_step].
    rewrite (proj2 (is_final_spec f) Hf). cbn [negb]. unfold params_ok, is_ascii_digit.
    destruct (consume QIdle rest). cbn [fst snd]. f_equal.
Qed.

Lemma consume_tail tail : unfinished tail -> (consume QIdle tail).2 = 0.
Proof.
  intros [->|[->|(ps & -> & H)]]; [done..|]. rewrite consume_csi.
  pose proof (consume_params ps [] [] H) as E. rewrite app_nil_r in E. rewrite E. done.
Qed.

(** The detector counts the queries of any cutting of the bytes. *)
Lemma consume_counts bytes qs tail : cut_into bytes qs tail -> (consume QIdle bytes).2 = queries_in qs.
Proof.
  intros (-> & Hq & Ht). unfold queries_in. induction Hq as [|q qs Hq _ IH]; [by apply consume_tail|].
  cbn [List.map concat List.filter]. rewrite <- app_assoc, consume_spelled by done. cbn [snd]. rewrite IH. destruct (is_query q); cbn [length]; lia.
Qed.

Lemma cut_cons q bytes qs tail : well_formed q -> cut_into bytes qs tail -> cut_into (spelled q ++ bytes) (q :: qs) tail.
Proof. intros Hq (-> & H & Ht). split; [|split; [by constructor|done]]. cbn. by rewrite app_assoc. Qed.

Lemma params_split bytes : exists ps rest, bytes = ps ++ rest /\ Forall (fun b => ~ final_byte b) ps /\
  (rest = [] \/ exists f rest', rest = f :: rest' /\ final_byte f).
Proof.
  induction bytes as [|b bytes (ps & rest & -> & Hp & Hr)]; [by exists [], []; auto|].
  destruct (is_final b) eqn:E.
  - apply is_final_spec in E. exists [], (b :: ps ++ rest). split; [done|]. split; [constructor|]. right. eauto.
  - exists (b :: ps), rest. split; [done|]. split; [|done]. constructor; [|done]. rewrite <- is_final_spec. congruence.
Qed.

Lemma cutting_exists bytes : exists qs tail, cut_into bytes qs tail.
Proof.
  induction bytes as [bytes IH] using (induction_ltof1 _ (@length Z)). unfold ltof in IH.
  destruct bytes as [|b bytes]; [exists [], []; split_and!; [done|constructor|by left]|].
  assert (T : forall tail, unfinished tail -> exists qs tail', cut_into tail qs tail')
    by (intros tail H; exists [], tail; split_and!; [done|constructor|done]).
  destruct (Z.eq_dec b ESC) as [->|Hb].
  2:{ destruct (IH bytes) as (qs & tail & H); [cbn; lia|]. exists (Plain b :: qs), tail. by apply (cut_cons (Plain b)). }
  destruct bytes as [|c bytes]; [by apply T; right; left|]. destruct (Z.eq_dec c LBRACK) as [->|Hc].
  2:{ destruct (IH bytes) as (qs & tail & H); [cbn; lia|]. exists (Escape c :: qs), tail. by apply (cut_cons (Escape c)). }
  destruct (params_split bytes) as (ps & rest & -> & Hp & [->|(f & rest' & -> & Hf)]).
  - apply T. right. right. exists ps. by rewrite app_nil_r.
  - destruct (IH rest') as (qs & tail & H); [cbn; rewrite length_app; cbn; lia|]. exists (Csi ps f :: qs), tail.
    pose proof (cut_cons (Csi ps f) rest' qs tail (conj Hp Hf) H) as Hx. cbn [spelled app] in Hx. by rewrite <- app_assoc in Hx.
Qed.



(** ** Keystrokes are forwarded verbatim *)

(** The bytes the escape lexer holds back. *)
Definition held (st : EscState) : list Z :=
  match st with EIdle => [] | EEsc => [ESC] | ECsi buf => [ESC; LBRACK] ++ buf end.

Lemma advance_esc_lossless st b st' out d :
  advance_esc st b = (st', out, d) ->
  held st ++ [b] = out ++ held st' /\ (d = Drop -> out = []).
Proof.
  destruct st as [| |buf]; simpl.
  - destruct (Z.eqb_spec b ESC); intros; simplify_eq/=; by split.
  - destruct (Z.eqb_spec b LBRACK); intros; simplify_eq/=; by split.
  - destruct (negb (is_final b)); [intros; simplify_eq/=; by split|].
    destruct (_ && _); intros; simplify_eq/=; rewrite ?app_nil_r; by split.
Qed.

(** The complete cursor-position reports among the bytes typed. *)
Fixpoint reports (st : EscState) (typed : list Z) : nat :=
  match typed with
  | [] => 0
  | b :: typed =>
      let '(st, _, d) := advance_esc st b in
      (match d with CprResponse => 1 | _ => 0 end + reports st typed)%nat
  end.

Fixpoint typed (evs : list event) : list Z :=
  match evs with
  | [] => []
  | Key b _ :: evs => b :: typed evs
  | _ :: evs => typed evs
  end.

Lemma emit_loop_plain out sent :
  Forall (fun e => e <> 1) out -> emit_loop out false sent [] = Continue false (sent ++ out).
Proof.
  intros Hf. revert sent. induction Hf as [|e out He Hf IH]; intros sent; cbn [emit_loop].
  - by rewrite app_nil_r.
  - destruct (Z.eqb_spec e 1); [done|]. simpl. by rewrite IH, <- app_assoc.
Qed.

Definition plain_event (e : event) : Prop :=
  match e with Chunk _ => True | Key b ws => b <> 1 /\ ws = [] | _ => False end.

Definition running (p : Pump) : Prop :=
  exit p = false /\ writer_done p = false /\ ctrl_a p = false /\ Forall (fun e => e <> 1) (held (esc p)).

Lemma plain_chunk p buf :
  running p -> running (pump_step p (Chunk buf)) /\
  esc (pump_step p (Chunk buf)) = esc p /\ sent (pump_step p (Chunk buf)) = sent p.
Proof.
  intros Hr. simpl. destruct (reader_done p); [done|]. unfold reader_chunk.
  by destruct (if _ <? _ then _ else _).
Qed.

Lemma plain_key p b :
  running p -> b <> 1 -> (advance_esc (esc p) b).2 <> CprResponse ->
  running (pump_step p (Key b [])) /\
  esc (pump_step p (Key b [])) = (advance_esc (esc p) b).1.1 /\
  sent (pump_step p (Key b [])) ++ held (esc (pump_step p (Key b []))) = sent p ++ held (esc p) ++ [b].
Proof.
  intros (Hx & Hw & Hc & Hh) Hb Hd. simpl. rewrite Hx, Hw. simpl. unfold writer_byte.
  destruct (advance_esc (esc p) b) as [[e out] d] eqn:E.
  apply advance_esc_lossless in E as [Hl Hdr]. simpl in Hd.
  assert (Hf : Forall (fun e => e <> 1) (out ++ held e)).
  { rewrite <- Hl. apply Forall_app. split; [done|]. by apply Forall_singleton. }
  apply Forall_app in Hf as [Hfo Hfh]. rewrite Hl. destruct d; [|rewrite Hdr by done|done].
  - unfold writer_emit. rewrite Hc, emit_loop_plain by done. simpl.
    split; [by unfold running|]. split; [done|]. by rewrite app_assoc.
  - simpl. split; [by unfold running|]. done.
Qed.

(** With the pump running and no ctrl-A typed, every byte typed is sent to
    the guest, in order and unchanged, except the bytes of an escape sequence
    that is not complete yet, which are held back, as long as the input holds
    no cursor-position report; output of the guest does not interfere. *)
Theorem keys_verbatim sb evs :
  Forall plain_event evs -> reports EIdle (typed evs) = 0%nat ->
  let p := pump sb evs in sent p ++ held (esc p) = typed evs /\ exit p = false.
Proof.
  intros Hf. unfold pump.
  assert (G : forall p, running p -> reports (esc p) (typed evs) = 0%nat ->
    let p' := foldl pump_step p evs in
    sent p' ++ held (esc p') = (sent p ++ held (esc p)) ++ typed evs /\ exit p' = false).
  { induction Hf as [|e evs He Hf IH]; intros p Hr Hz; cbn [foldl typed] in *.
    { rewrite app_nil_r. split; [done|]. apply Hr. }
    destruct e as [buf| |b ws|]; try done.
    - destruct (plain_chunk p buf Hr) as (Hr' & He' & Hs'). rewrite <- He', <- Hs'.
      apply IH; [done|]. by rewrite He'.
    - destruct He as [Hb ->]. cbn [reports typed] in Hz.
      destruct (advance_esc (esc p) b) as [[e out] d] eqn:E.
      destruct (plain_key p b Hr Hb) as (Hr' & He' & Hs'); [rewrite E; by destruct d|].
      rewrite E in He'. cbn [fst] in He'.
      destruct (IH _ Hr') as [H1 H2]; [rewrite He'; lia|]. split; [|exact H2].
      rewrite H1, Hs', <- !app_assoc. done. }
  intros Hz. apply (G (pump_init sb)); [|done]. by repeat split.
Qed.

Lemma keys_verbatim_witness :
  let evs := [Key 108 []; Chunk [36; 32]; Key 27 []; Key 91 []; Key 65 []; Key 27 []] in
  sent (pump 0 evs) ++ [27] = [108; 27; 91; 65; 27].
Proof.
  intros evs. refine (proj1 (keys_verbatim 0 evs _ _)).
  - repeat (apply Forall_cons; split; [first [exact I | split; [discriminate|reflexivity]]|]).
    by apply Forall_nil.
  - reflexivity.
Defined.
