(* ===== verification/Parse.v ===== *)
(** The argument parsers of [src/parse.rs] and the error type of
    [src/error.rs].  The text of a message is not modelled, only its variant.

    [parse_memory] computes in [f64]; the operations it uses are the class
    [F64], with no assumption on them. *)

From S2P Require Import Prelude Text.

Inductive Error :=
| BadRequest
| SlotState
| Io
| Fdt
| Protocol
| Internal.

#[export] Instance Error_eq_dec : EqDecision Error.
Proof. solve_decision. Defined.

Class F64 := {
  f64 : Type;
  f64_from_str : list Z -> option f64;
  f64_from_u64 : Z -> f64;
  f64_is_finite : f64 -> bool;
  f64_le : f64 -> f64 -> bool;
  f64_lt : f64 -> f64 -> bool;
  f64_mul : f64 -> f64 -> f64;
  f64_to_u64 : f64 -> Z;
}.

(** The first suffix that matches gives the multiplier. *)
Fixpoint unit_suffix (units : list (list Z * Z)) (s : list Z) : list Z * Z :=
  match units with
  | [] => (s, 1)
  | (u, mult) :: units =>
      match strip_suffix s u with Some rest => (rest, mult) | None => unit_suffix units s end
  end.

Definition memory_units : list (list Z * Z) :=
  [(chars "GiB", 2 ^ 30); (chars "MiB", 2 ^ 20); (chars "KiB", 2 ^ 10);
   (chars "GB", 1000000000); (chars "MB", 1000000); (chars "KB", 1000); (chars "B", 1)].

Definition parse_memory `{F64} (s : list Z) : result Z Error :=
  let trimmed := trim s in
  match trimmed with
  | [] => Err BadRequest
  | _ =>
      let '(num_part, mult) := unit_suffix memory_units trimmed in
      match f64_from_str (trim num_part) with
      | None => Err BadRequest
      | Some num =>
          if negb (f64_is_finite num) || f64_le num (f64_from_u64 0) then Err BadRequest
          else
            let bytes_f := f64_mul num (f64_from_u64 mult) in
            if negb (f64_is_finite bytes_f) || f64_lt bytes_f (f64_from_u64 0)
               || f64_lt (f64_from_u64 U64_MAX) bytes_f
            then Err BadRequest
            else Ok (f64_to_u64 bytes_f)
      end
  end.

Definition disk_units : list (list Z * Z) :=
  [(chars "G", 1024 * 1024 * 1024); (chars "g", 1024 * 1024 * 1024);
   (chars "T", 1024 * 1024 * 1024 * 1024); (chars "t", 1024 * 1024 * 1024 * 1024);
   (chars "M", 1024 * 1024); (chars "m", 1024 * 1024)].

Definition parse_size_disk (s : list Z) : result Z Error :=
  let s := trim s in
  match s with
  | [] => Err BadRequest
  | _ =>
      let '(num_str, mult) := unit_suffix disk_units s in
      let? num := ok_or (parse_uint U64_MAX num_str) BadRequest in
      ok_or (checked_mul64 num mult) BadRequest
  end.

Definition hostname_char (c : Z) : bool := is_lower c || is_digit c || (c =? 45).

Definition parse_hostname (s : list Z) : result (list Z) Error :=
  match s with
  | [] => Err BadRequest
  | _ =>
      if 63 <? str_len s then Err BadRequest
      else if starts_with [45] s || ends_with s [45] then Err BadRequest
      else if forallb hostname_char s then Ok s else Err BadRequest
  end.

Definition parse_fwd_pair (s : list Z) : result (Z * Z) Error :=
  let? (h, g) := ok_or (split_once [58] s) BadRequest in
  let? host := ok_or (parse_uint U16_MAX h) BadRequest in
  let? guest := ok_or (parse_uint U16_MAX g) BadRequest in
  if (host =? 0) || (guest =? 0) then Err BadRequest else Ok (host, guest).

(** ** Strings of digits *)

Lemma ok_or_Ok {T E} (o : option T) (e : E) t : ok_or o e = Ok t <-> o = Some t.
Proof. destruct o; simpl; split; intros; by simplify_eq. Qed.

Lemma show_aux_digits fuel n acc :
  Forall (fun c => is_digit c = true) acc -> Forall (fun c => is_digit c = true) (show_aux fuel n acc).
Proof.
  revert n acc. induction fuel as [|fuel IH]; intros n acc Ha; cbn [show_aux]; [done|].
  assert (Forall (fun c => is_digit c = true) (48 + n mod 10 :: acc)) by (constructor; [apply digit_code|done]).
  destruct (_ =? 0); auto.
Qed.

Lemma show_dec_digits n : Forall (fun c => is_digit c = true) (show_dec n).
Proof. apply show_aux_digits. constructor. Qed.

(** Splitting at a delimiter that the first part does not contain. *)
Lemma split_once_char d a b :
  Forall (fun c => c <> d) a -> split_once [d] (a ++ [d] ++ b) = Some (a, b).
Proof.
  induction 1 as [|c a Hc Ha IH]; cbn [app split_once strip_prefix].
  - by rewrite Z.eqb_refl.
  - destruct (Z.eqb_spec d c); [congruence|]. change (d :: b) with ([d] ++ b). by rewrite IH.
Qed.

Lemma digits_no d n : is_digit d = false -> Forall (fun c => c <> d) (show_dec n).
Proof.
  intros Hd. eapply Forall_impl; [apply show_dec_digits|]. simpl. intros c Hc ->. congruence.
Qed.

(** A port pair prints and parses back: the text "H:G" of two ports from
    1 to 65535 parses to exactly these ports, and whatever text the parser
    accepts yields ports in that range. *)
Theorem fwd_pair_roundtrip :
  (forall h g, 1 <= h <= 65535 -> 1 <= g <= 65535 ->
     parse_fwd_pair (show_dec h ++ [58] ++ show_dec g) = Ok (h, g)) /\
  (forall s h g, parse_fwd_pair s = Ok (h, g) -> 1 <= h <= 65535 /\ 1 <= g <= 65535).
Proof.
  split.
  - intros h g Hh Hg. unfold parse_fwd_pair.
    rewrite split_once_char by (apply digits_no; reflexivity). cbn [ok_or].
    rewrite !parse_show by (unfold U16_MAX; lia). cbn [ok_or].
    destruct (Z.eqb_spec h 0), (Z.eqb_spec g 0); simpl; lia || done.
  - intros s h g. unfold parse_fwd_pair. destruct (split_once [58] s) as [[a b]|]; [|done]. cbn [ok_or].
    destruct (parse_uint U16_MAX a) as [ph|] eqn:E1; [|done]. cbn [ok_or].
    destruct (parse_uint U16_MAX b) as [pg|] eqn:E2; [|done]. cbn [ok_or].
    apply parse_uint_range in E1; [|unfold U16_MAX; lia]. apply parse_uint_range in E2; [|unfold U16_MAX; lia].
    unfold U16_MAX in *. destruct (Z.eqb_spec ph 0), (Z.eqb_spec pg 0); simpl; intros; simplify_eq; lia.
Qed.

Lemma fwd_pair_roundtrip_witness : parse_fwd_pair (chars "2222:22") = Ok (2222, 22).
Proof. apply (proj1 fwd_pair_roundtrip 2222 22); lia. Defined.

(** ** Sizes *)

Lemma strip_prefix_app p s r : strip_prefix p s = Some r <-> s = p ++ r.
Proof.
  revert s. induction p as [|a p IH]; intros s; simpl; [split; intros; simplify_eq; done|].
  destruct s as [|b s]; [done|]. destruct (Z.eqb_spec a b) as [->|Hne].
  - rewrite IH. split; intros; by simplify_eq.
  - split; [done|]. intros; simplify_eq.
Qed.

Lemma strip_suffix_app s p r : strip_suffix s p = Some r <-> s = r ++ p.
Proof.
  unfold strip_suffix. destruct (strip_prefix (rev p) (rev s)) as [x|] eqn:E.
  - apply strip_prefix_app in E. apply (f_equal (@rev Z)) in E.
    rewrite rev_app_distr, !rev_involutive in E. subst. split; [intros; by simplify_eq|].
    intros H. f_equal. by apply app_inv_tail in H.
  - split; [done|]. intros ->. rewrite rev_app_distr in E.
    assert (strip_prefix (rev p) (rev p ++ rev r) = Some (rev r)) by (by apply strip_prefix_app). congruence.
Qed.

(** The last character decides which one-character suffix matches. *)
Lemma strip_suffix_last s c d : strip_suffix (s ++ [c]) [d] = if c =? d then Some s else None.
Proof.
  destruct (Z.eqb_spec c d) as [->|Hne]; [by apply strip_suffix_app|].
  destruct (strip_suffix (s ++ [c]) [d]) as [r|] eqn:E; [|done]. apply strip_suffix_app in E.
  apply app_inj_tail in E as [_ ?]. done.
Qed.

Lemma drop_ws_nows s : Forall (fun c => is_whitespace c = false) s -> drop_ws s = s.
Proof. intros Hf. destruct Hf as [|c s Hc Hf]; simpl; [done|]. by rewrite Hc. Qed.

Lemma trim_nows s : Forall (fun c => is_whitespace c = false) s -> trim s = s.
Proof.
  intros Hf. unfold trim. rewrite (drop_ws_nows s Hf), drop_ws_nows by (by apply Forall_rev).
  apply rev_involutive.
Qed.

Lemma digit_not_ws c : is_digit c = true -> is_whitespace c = false.
Proof.
  unfold is_digit. intros H. apply andb_prop in H as [H1 H2]. apply Z.leb_le in H1. apply Z.leb_le in H2.
  unfold is_whitespace. rewrite !orb_false_iff, !andb_false_iff, !Z.leb_gt, !Z.eqb_neq. lia.
Qed.

(** The multiplier of a unit letter, if it is one. *)
Definition unit_of (c : Z) : option Z :=
  if (c =? 71) || (c =? 103) then Some (2 ^ 30)
  else if (c =? 84) || (c =? 116) then Some (2 ^ 40)
  else if (c =? 77) || (c =? 109) then Some (2 ^ 20)
  else None.

Lemma unit_suffix_disk s c :
  unit_suffix disk_units (s ++ [c]) =
  match unit_of c with Some m => (s, m) | None => (s ++ [c], 1) end.
Proof.
  change disk_units with
    [([71], 2 ^ 30); ([103], 2 ^ 30); ([84], 2 ^ 40); ([116], 2 ^ 40); ([77], 2 ^ 20); ([109], 2 ^ 20)].
  unfold unit_of. cbn [unit_suffix]. rewrite !strip_suffix_last.
  destruct (Z.eqb_spec c 71); [done|]. destruct (Z.eqb_spec c 103); [done|].
  destruct (Z.eqb_spec c 84); [done|]. destruct (Z.eqb_spec c 116); [done|].
  destruct (Z.eqb_spec c 77); [done|]. by destruct (Z.eqb_spec c 109).
Qed.

Lemma show_dec_snoc n : 0 <= n -> exists s c, show_dec n = s ++ [c] /\ is_digit c = true.
Proof.
  intros Hn. destruct (@exists_last _ (show_dec n)) as (s & c & E).
  { intros E. pose proof (parse_show n n (conj Hn (Z.le_refl n))) as H. rewrite E in H. discriminate H. }
  exists s, c. split; [done|]. pose proof (show_dec_digits n) as Hf. rewrite E in Hf.
  apply Forall_app in Hf as [_ Hf]. apply Forall_cons in Hf as [Hf _]. exact Hf.
Qed.

Lemma digit_no_unit c : is_digit c = true -> unit_of c = None.
Proof.
  unfold is_digit, unit_of. intros H. apply andb_prop in H as [H1 H2].
  apply Z.leb_le in H1. apply Z.leb_le in H2.
  destruct (Z.eqb_spec c 71), (Z.eqb_spec c 103), (Z.eqb_spec c 84), (Z.eqb_spec c 116),
    (Z.eqb_spec c 77), (Z.eqb_spec c 109); simpl; lia || done.
Qed.

Lemma show_dec_nows n : Forall (fun c => is_whitespace c = false) (show_dec n).
Proof. eapply Forall_impl; [apply show_dec_digits|]. apply digit_not_ws. Qed.

Lemma unit_not_ws c m : unit_of c = Some m -> is_whitespace c = false /\ 0 < m.
Proof.
  unfold unit_of. intros H.
  destruct (Z.eqb_spec c 71), (Z.eqb_spec c 103), (Z.eqb_spec c 84), (Z.eqb_spec c 116),
    (Z.eqb_spec c 77), (Z.eqb_spec c 109); simplify_eq/=; split; (reflexivity || lia).
Qed.

Lemma nonempty_snoc {A B} (s : list A) c (x y : B) :
  match s ++ [c] with [] => x | _ :: _ => y end = y.
Proof. by destruct s. Qed.

(** A disk size is exactly its number times the multiplier of its unit
    letter (G, T, M in either case, or none), or an error when that product
    does not fit in 64 bits; no accepted text yields a value outside 64
    bits. *)
Theorem size_disk_exact :
  (forall n c m, 0 <= n <= U64_MAX -> unit_of c = Some m ->
     parse_size_disk (show_dec n ++ [c]) = if n * m <=? U64_MAX then Ok (n * m) else Err BadRequest) /\
  (forall n, 0 <= n <= U64_MAX -> parse_size_disk (show_dec n) = Ok n) /\
  (forall s v, parse_size_disk s = Ok v -> 0 <= v <= U64_MAX).
Proof.
  split; [|split].
  - intros n c m Hn Hc. unfold parse_size_disk. destruct (unit_not_ws c m Hc) as [Hws Hm].
    rewrite trim_nows by (apply Forall_app; split; [apply show_dec_nows|by apply Forall_singleton]).
    cbv zeta. rewrite nonempty_snoc, unit_suffix_disk, Hc, parse_show by done. cbn [ok_or]. unfold checked_mul64.
    by destruct (_ <=? _).
  - intros n Hn. unfold parse_size_disk. rewrite trim_nows by apply show_dec_nows.
    destruct (show_dec_snoc n) as (s & c & E & Hc); [lia|].
    cbv zeta. rewrite E, nonempty_snoc, unit_suffix_disk, digit_no_unit, <- E, parse_show by done. cbn [ok_or].
    unfold checked_mul64. rewrite Z.mul_1_r, (proj2 (Z.leb_le _ _)) by lia. done.
  - intros s v. unfold parse_size_disk. destruct (trim s) as [|a t]; [done|].
    destruct (unit_suffix disk_units (a :: t)) as [num_str mult] eqn:E.
    destruct (parse_uint U64_MAX num_str) as [n|] eqn:E1; [|done]. cbn [ok_or].
    apply parse_uint_range in E1; [|unfold U64_MAX; lia].
    assert (0 <= mult).
    { destruct (@exists_last _ (a :: t)) as (x & c & Ex); [done|]. rewrite Ex, unit_suffix_disk in E.
      destruct (unit_of c) eqn:Eu; simplify_eq; [apply unit_not_ws in Eu; lia|lia]. }
    unfold checked_mul64. destruct (Z.leb_spec (n * mult) U64_MAX); cbn [ok_or]; intros; simplify_eq.
    split; [apply Z.mul_nonneg_nonneg; lia|lia].
Qed.

Lemma size_disk_exact_witness : parse_size_disk (chars "10G") = Ok 10737418240.
Proof. apply (proj1 size_disk_exact 10 71 (2 ^ 30)); [unfold U64_MAX; lia|reflexivity]. Defined.

(** ** Host names *)

(** An RFC 952 label as the parser documents it. *)
Definition hostname_ok (s : list Z) : Prop :=
  s <> [] /\ Z.of_nat (length s) <= 63 /\ Forall (fun c => hostname_char c = true) s /\
  (forall t, s <> 45 :: t) /\ (forall t, s <> t ++ [45]).

Lemma str_len_hostname s :
  Forall (fun c => hostname_char c = true) s -> str_len s = Z.of_nat (length s).
Proof.
  induction 1 as [|c s Hc Hs IH]; [done|]. cbn [str_len foldr length].
  fold (str_len s). rewrite IH.
  assert (utf8_len_char c = 1); [|lia]. unfold utf8_len_char. unfold hostname_char, is_lower, is_digit in Hc.
  destruct (Z.ltb_spec c 0x80); [done|]. exfalso. revert Hc.
  destruct (Z.leb_spec c 122), (Z.leb_spec c 57), (Z.eqb_spec c 45); try lia;
    by rewrite !andb_false_r.
Qed.

Lemma str_len_ge s : Z.of_nat (length s) <= str_len s.
Proof.
  induction s as [|c s IH]; [done|]. cbn [str_len foldr length]. fold (str_len s).
  assert (1 <= utf8_len_char c) by (unfold utf8_len_char; repeat case_match; lia). lia.
Qed.

Lemma starts_with_dash s : starts_with [45] s = false <-> forall t, s <> 45 :: t.
Proof.
  unfold starts_with. destruct (strip_prefix [45] s) as [r|] eqn:E.
  - apply strip_prefix_app in E as ->. split; [done|]. intros H. by destruct (H r).
  - split; [|done]. intros _ t ->. simpl in E. done.
Qed.

Lemma ends_with_dash s : ends_with s [45] = false <-> forall t, s <> t ++ [45].
Proof.
  unfold ends_with. destruct (strip_suffix s [45]) as [r|] eqn:E.
  - apply strip_suffix_app in E as ->. split; [done|]. intros H. by destruct (H r).
  - split; [|done]. intros _ t ->. assert (strip_suffix (t ++ [45]) [45] = Some t) by (by apply strip_suffix_app).
    congruence.
Qed.

(** A host name is accepted, unchanged, exactly when it is a valid label. *)
Lemma parse_hostname_spec s r : parse_hostname s = Ok r <-> r = s /\ hostname_ok s.
Proof.
  unfold parse_hostname, hostname_ok. destruct s as [|c s]; [split; [done|]; by intros (_ & ? & _)|].
  set (l := c :: s). assert (Hf : forallb hostname_char l = true <-> Forall (fun c => hostname_char c = true) l).
  { rewrite forallb_forall, Forall_forall. by setoid_rewrite list_elem_of_In. }
  destruct (Z.ltb_spec 63 (str_len l)) as [Hlen|Hlen].
  { split; [done|]. intros (_ & _ & Hl & Hc & _). rewrite str_len_hostname in Hlen by done. lia. }
  pose proof (str_len_ge l).
  destruct (starts_with [45] l) eqn:Es; simpl orb; [|destruct (ends_with l [45]) eqn:Ee]; cbv iota.
  - split; [done|]. intros (_ & _ & _ & _ & Hs & _). apply starts_with_dash in Hs. congruence.
  - split; [done|]. intros (_ & _ & _ & _ & _ & He). apply ends_with_dash in He. congruence.
  - pose proof (proj1 (starts_with_dash l) Es). pose proof (proj1 (ends_with_dash l) Ee). destruct (forallb hostname_char l) eqn:Ef.
    + split; [intros; simplify_eq|intros [-> _]; done]. pose proof (proj1 Hf eq_refl).
      split; [done|]. split; [done|]. split; [lia|]. done.
    + split; [done|]. intros (_ & _ & _ & Hc & _). apply Hf in Hc. congruence.
Qed.
