(* ===== verification/Profile.v ===== *)
(** The image catalogue of [src/image.rs] and the profiles of
    [src/profile.rs]: validation, the edit loop, per-profile instance
    directories.

    YAML and JSON encoding is code of other packages: a file's content is given
    by the result of decoding it.  A [BTreeMap] is the list of its entries in
    key order. *)

From S2P Require Import Prelude Text Parse.

(** ** The image catalogue *)

Inductive ImageFormat := Ext4 | RawDisk | Qcow2.
Inductive Compression := CNone | Xz | Zip.

(** The download address and the description, which nothing computes with, are
    left out. *)
Record KnownImage := mk_image {
  im_name : list Z;
  im_aliases : list (list Z);
  im_format : ImageFormat;
  im_compression : Compression;
  im_default_size : list Z;
  im_default_user : list Z;
  im_default_password : list Z;
  im_cloud_init : bool;
  im_extract_partition : bool;
  im_needs_bootloader : bool;
}.

Definition KNOWN_IMAGES : list KnownImage := [
  mk_image (chars "tt-debian") [chars "tt"] Ext4 Zip (chars "10G") (chars "debian") (chars "debian")
    true false false;
  mk_image (chars "debian-13") [chars "default"; chars "debian"; chars "trixie"] RawDisk CNone
    (chars "10G") [] [] true false true;
  mk_image (chars "ubuntu-24.04") [chars "ubuntu"; chars "noble"] RawDisk Xz (chars "10G")
    (chars "ubuntu") (chars "ubuntu") true false true;
  mk_image (chars "ubuntu-26.04") [chars "resolute"] Qcow2 CNone (chars "10G") (chars "bhx")
    (chars "bhx") true false true;
  mk_image (chars "fedora-42") [chars "fedora"; chars "fedora-server"] RawDisk Xz (chars "10G")
    [] [] true false true;
  mk_image (chars "fedora-42-cloud") [chars "fedora-cloud"] Qcow2 CNone (chars "10G") [] []
    true false true;
  mk_image (chars "almalinux-10-kitten") [chars "almalinux"; chars "alma"; chars "kitten"] Qcow2 CNone
    (chars "10G") [] [] true false true;
  mk_image (chars "opensuse-tumbleweed") [chars "opensuse"; chars "tumbleweed"; chars "suse"] Qcow2
    CNone (chars "10G") [] [] true false true
].

Definition str_eqb (a b : list Z) : bool := bool_decide (a = b).

Definition get_known_image (name : list Z) : option KnownImage :=
  match List.find (fun img => str_eqb (im_name img) name) KNOWN_IMAGES with
  | Some img => Some img
  | None => List.find (fun img => existsb (fun a => str_eqb a name) (im_aliases img)) KNOWN_IMAGES
  end.

Definition is_single_fs_artifact (img : KnownImage) : bool :=
  im_extract_partition img || match im_format img with Ext4 => true | _ => false end.

(** ** Profiles *)

Record NetworkConfig := mk_net {
  net_enabled : bool; net_hostname : option (list Z); net_forwards : list (list Z);
}.

Record ConsoleConfig := mk_console { con_virtio : bool; con_rng : bool }.

Definition ConsoleConfig_default : ConsoleConfig := mk_console true true.

Record CloudInitConfig := mk_ci {
  ci_user : option (list Z); ci_password : option (list Z); ci_ssh_keys : list (list Z);
  ci_hostname : option (list Z); ci_instance_id : option (list Z); ci_nameservers : list (list Z);
  ci_extra_user_data : option (list Z);
}.

Record Profile := mk_profile {
  pr_image : list Z;
  pr_memory : option (list Z);
  pr_bootloader : option (list Z);
  pr_initramfs : option (list Z);
  pr_root_device : option (list Z);
  pr_network : NetworkConfig;
  pr_console : ConsoleConfig;
  pr_cloud_init : option CloudInitConfig;
}.

Definition ProfilesFile : Type := list (list Z * Profile).

Definition name_char (c : Z) : bool := is_alnum c || (c =? 45) || (c =? 95).

Definition validate_profile_name (name : list Z) : result unit Error :=
  match name with
  | [] => Err BadRequest
  | c :: rest =>
      if 32 <? str_len name then Err BadRequest
      else if negb (is_alpha c) then Err BadRequest
      else if forallb name_char rest then Ok tt else Err BadRequest
  end.

Definition validate_hostname (s : list Z) : result unit Error :=
  result_map (fun _ => tt) (parse_hostname s).

Definition parse_forward (s : list Z) : result (Z * Z) Error := parse_fwd_pair s.

Section Validation.
Context `{F64}.

Definition parse_memory_str (s : list Z) : result Z Error := parse_memory s.

(** The [?] on each element of a list. *)
Fixpoint try_each {A B} (f : A -> result B Error) (l : list A) : result unit Error :=
  match l with
  | [] => Ok tt
  | a :: l => let? _ := f a in try_each f l
  end.

Definition try_opt {A} (f : A -> result unit Error) (o : option A) : result unit Error :=
  match o with Some a => f a | None => Ok tt end.

Definition validate_profile (name : list Z) (p : Profile) : result unit Error :=
  let? _ := validate_profile_name name in
  let? _ := ok_or (get_known_image (pr_image p)) BadRequest in
  let? _ := try_opt (fun mem =>
    let? bytes := parse_memory_str mem in if bytes =? 0 then Err BadRequest else Ok tt) (pr_memory p) in
  let? _ := try_opt (fun bl =>
    if negb (str_eqb bl (chars "kernel")) && negb (str_eqb bl (chars "uboot"))
    then Err BadRequest else Ok tt) (pr_bootloader p) in
  let? _ := try_opt validate_hostname (net_hostname (pr_network p)) in
  let? _ := try_each parse_forward (net_forwards (pr_network p)) in
  try_opt (fun ci => try_opt validate_hostname (ci_hostname ci)) (pr_cloud_init p).

Definition validate_all (profiles : ProfilesFile) : result unit Error :=
  try_each (fun np => validate_profile np.1 np.2) profiles.

(** ** The file and the edit loop *)

(** What reading the file gives: nothing there, a read error, or its bytes. *)
Inductive file_read := Missing | ReadError | Bytes (b : list Z).

(** [decode] is the YAML decoder. *)
Definition load_profiles_from (decode : list Z -> option ProfilesFile) (f : file_read)
    : result ProfilesFile Error :=
  match f with
  | Missing => Ok []
  | ReadError => Err Io
  | Bytes [] => Ok []
  | Bytes b => ok_or (decode b) BadRequest
  end.

(** [edit n] is the file after the editor's [n]-th run, or the editor's error;
    [confirm] is the prompt between attempts.  The result carries the number
    of editor runs; [None] is the [unreachable!] panic. *)
Fixpoint edit_attempts (decode : list Z -> option ProfilesFile) (edit : nat -> result file_read Error)
    (confirm : nat -> result unit Error) (max_attempts attempt budget : nat)
    : option (result ProfilesFile Error * nat) :=
  match budget with
  | O => None
  | S budget =>
      match edit attempt with
      | Err e => Some (Err e, attempt)
      | Ok f =>
          match (let? ps := load_profiles_from decode f in let? _ := validate_all ps in Ok ps) with
          | Ok ps => Some (Ok ps, attempt)
          | Err e =>
              if (attempt =? max_attempts)%nat then Some (Err e, attempt)
              else match confirm attempt with
                   | Err e => Some (Err e, attempt)
                   | Ok _ => edit_attempts decode edit confirm max_attempts (S attempt) budget
                   end
          end
      end
  end.

Definition edit_with_retry (decode : list Z -> option ProfilesFile) (edit : nat -> result file_read Error)
    (confirm : nat -> result unit Error) (max_attempts : nat)
    : option (result ProfilesFile Error * nat) :=
  edit_attempts decode edit confirm max_attempts 1 max_attempts.
End Validation.

(** ** Instance directories *)

(** The directory name of an instance, under [instances_dir]. *)
Definition instance_dir (profile_name : list Z) (l2cpu_idx : Z) : list Z :=
  profile_name ++ chars "-l" ++ show_dec l2cpu_idx.

(** Whether a directory entry belongs to a profile. *)
Definition is_instance_of (profile_name name : list Z) : bool :=
  match rsplit_once (chars "-l") name with
  | Some (p_name, suffix) =>
      str_eqb p_name profile_name && match parse_uint 255 suffix with Some _ => true | None => false end
  | None => false
  end.

(** One pass over the directory: [None] is a name that is not Unicode, [rm]
    tells whether a removal succeeds.  Returns the entries left and removed;
    the pass stops at the first failure. *)
Fixpoint reset_pass (rm : list Z -> bool) (profile_name : list Z) (entries : list (option (list Z)))
    (removed : list (list Z)) : list (option (list Z)) * result (list (list Z)) Error :=
  match entries with
  | [] => ([], Ok removed)
  | None :: entries =>
      let '(kept, r) := reset_pass rm profile_name entries removed in (None :: kept, r)
  | Some name :: entries =>
      if is_instance_of profile_name name then
        if rm name then reset_pass rm profile_name entries (removed ++ [name])
        else (Some name :: entries, Err Io)
      else
        let '(kept, r) := reset_pass rm profile_name entries removed in (Some name :: kept, r)
  end.

(** [reset_instances] on the entries of an existing instances directory. *)
Definition reset_instances (rm : list Z -> bool) (entries : list (option (list Z)))
    (profile_name : list Z) (l2cpu_filter : option Z)
    : list (option (list Z)) * result (list (list Z)) Error :=
  match l2cpu_filter with
  | Some idx =>
      let t := instance_dir profile_name idx in
      if bool_decide (Some t ∈ entries) then
        if rm t then (List.filter (fun e => negb (bool_decide (e = Some t))) entries, Ok [t])
        else (entries, Err Io)
      else (entries, Ok [])
  | None => reset_pass rm profile_name entries []
  end.

(** ** What validation accepts *)

Definition name_ok (name : list Z) : Prop :=
  exists c rest, name = c :: rest /\ is_alpha c = true /\ Forall (fun c => name_char c = true) rest /\
    (length name <= 32)%nat.

Lemma name_char_ascii c : name_char c = true -> utf8_len_char c = 1.
Proof.
  unfold name_char, is_alnum, is_alpha, is_lower, is_upper, is_digit, utf8_len_char. intros H.
  destruct (Z.ltb_spec c 0x80); [done|]. exfalso. revert H.
  destruct (Z.leb_spec c 122), (Z.leb_spec c 90), (Z.leb_spec c 57), (Z.eqb_spec c 45), (Z.eqb_spec c 95);
    try lia; by rewrite !andb_false_r.
Qed.

Lemma alpha_name_char c : is_alpha c = true -> name_char c = true.
Proof. unfold name_char, is_alnum. by intros ->. Qed.

Lemma str_len_name s : Forall (fun c => name_char c = true) s -> str_len s = Z.of_nat (length s).
Proof.
  induction 1 as [|c s Hc Hs IH]; [done|]. cbn [str_len foldr length]. fold (str_len s).
  rewrite IH, name_char_ascii by done. lia.
Qed.

Lemma forallb_Forall (f : Z -> bool) s : forallb f s = true <-> Forall (fun c => f c = true) s.
Proof. rewrite forallb_forall, Forall_forall. by setoid_rewrite list_elem_of_In. Qed.

Lemma validate_name_spec name : validate_profile_name name = Ok tt <-> name_ok name.
Proof.
  unfold validate_profile_name, name_ok. destruct name as [|c rest].
  { split; [done|]. by intros (? & ? & ? & _). }
  destruct (Z.ltb_spec 32 (str_len (c :: rest))) as [Hl|Hl].
  { split; [done|]. intros (c' & r' & Heq & Ha & Hr & Hn). simplify_eq.
    rewrite str_len_name in Hl by (constructor; [by apply alpha_name_char|done]). lia. }
  pose proof (str_len_ge (c :: rest)).
  destruct (is_alpha c) eqn:Ha; simpl negb; cbv iota.
  - destruct (forallb name_char rest) eqn:Hr.
    + split; [|done]. intros _. exists c, rest. apply forallb_Forall in Hr. repeat split; auto. lia.
    + split; [done|]. intros (c' & r' & Heq & _ & Hr' & _). simplify_eq.
      apply forallb_Forall in Hr'. congruence.
  - split; [done|]. intros (c' & r' & Heq & Ha' & _). simplify_eq. congruence.
Qed.

Lemma try_each_spec {A B} (f : A -> result B Error) l :
  try_each f l = Ok tt <-> Forall (fun a => exists b, f a = Ok b) l.
Proof.
  induction l as [|a l IH]; cbn [try_each]; [split; [constructor|done]|].
  rewrite Forall_cons. destruct (f a) as [b|e]; rewrite <- ?IH; split; eauto.
  - by intros [_ ?].
  - done.
  - by intros [[? ?] _].
Qed.

Lemma bind_ok {T U} (r : result T Error) (k : T -> result U Error) u :
  (let? x := r in k x) = Ok u <-> exists x, r = Ok x /\ k x = Ok u.
Proof. destruct r as [x|e]; [|split; [done|by intros (? & ? & _)]]. split; [eauto|]. by intros (? & [= ->] & ?). Qed.

Definition opt_all {A} (P : A -> Prop) (o : option A) : Prop :=
  match o with Some a => P a | None => True end.

Section ValidationSpec.
Context `{F64}.

Definition profile_ok (name : list Z) (p : Profile) : Prop :=
  name_ok name /\ is_Some (get_known_image (pr_image p)) /\
  opt_all (fun mem => exists bytes, parse_memory mem = Ok bytes /\ bytes <> 0) (pr_memory p) /\
  opt_all (fun bl => bl = chars "kernel" \/ bl = chars "uboot") (pr_bootloader p) /\
  opt_all hostname_ok (net_hostname (pr_network p)) /\
  Forall (fun f => exists h g, parse_fwd_pair f = Ok (h, g)) (net_forwards (pr_network p)) /\
  opt_all (fun ci => opt_all hostname_ok (ci_hostname ci)) (pr_cloud_init p).

Lemma try_opt_spec {A} (f : A -> result unit Error) (P : A -> Prop) o :
  (forall a, f a = Ok tt <-> P a) -> try_opt f o = Ok tt <-> opt_all P o.
Proof. intros Hf. destruct o; simpl; [apply Hf|done]. Qed.

Lemma validate_hostname_spec s : validate_hostname s = Ok tt <-> hostname_ok s.
Proof.
  unfold validate_hostname. destruct (parse_hostname s) as [r|e] eqn:E; simpl.
  - apply parse_hostname_spec in E as [_ ?]. done.
  - split; [done|]. intros Hok. assert (parse_hostname s = Ok s) by (by apply parse_hostname_spec). congruence.
Qed.

Lemma bind_unit {U} (r : result unit Error) (k : result U Error) u :
  (let? _ := r in k) = Ok u <-> r = Ok tt /\ k = Ok u.
Proof. destruct r as [[]|e]; split; intuition congruence. Qed.

Lemma validate_profile_spec name p : validate_profile name p = Ok tt <-> profile_ok name p.
Proof.
  unfold validate_profile, profile_ok. rewrite !bind_unit, validate_name_spec.
  apply and_iff_compat_l. rewrite bind_ok. setoid_rewrite ok_or_Ok.
  assert (Hmem : try_opt (fun mem => let? bytes := parse_memory_str mem in
      if bytes =? 0 then Err BadRequest else Ok tt) (pr_memory p) = Ok tt <->
    opt_all (fun mem => exists bytes, parse_memory mem = Ok bytes /\ bytes <> 0) (pr_memory p)).
  { apply try_opt_spec. intros mem. rewrite bind_ok. unfold parse_memory_str.
    split; intros (b & E & Hb); exists b; (split; [done|]); destruct (Z.eqb_spec b 0); done. }
  assert (Hbl : try_opt (fun bl => if negb (str_eqb bl (chars "kernel")) && negb (str_eqb bl (chars "uboot"))
      then Err BadRequest else Ok tt) (pr_bootloader p) = Ok tt <->
    opt_all (fun bl => bl = chars "kernel" \/ bl = chars "uboot") (pr_bootloader p)).
  { apply try_opt_spec. intros bl. unfold str_eqb.
    destruct (bool_decide_reflect (bl = chars "kernel")), (bool_decide_reflect (bl = chars "uboot"));
      simpl; split; intros; try done; auto. by destruct H0. }
  assert (Hfw : try_each parse_forward (net_forwards (pr_network p)) = Ok tt <->
    Forall (fun f => exists h g, parse_fwd_pair f = Ok (h, g)) (net_forwards (pr_network p))).
  { rewrite try_each_spec. apply Forall_iff. intros f. unfold parse_forward. split.
    - intros [[h g] E]. eauto.
    - intros (h & g & E). eauto. }
  setoid_rewrite bind_unit. setoid_rewrite Hmem. setoid_rewrite bind_unit. setoid_rewrite Hbl.
  setoid_rewrite bind_unit.
  setoid_rewrite (try_opt_spec validate_hostname hostname_ok (net_hostname (pr_network p)) validate_hostname_spec).
  setoid_rewrite bind_unit. setoid_rewrite Hfw.
  setoid_rewrite (try_opt_spec _ (fun ci => opt_all hostname_ok (ci_hostname ci)) (pr_cloud_init p)).
  2:{ intros ci. apply try_opt_spec, validate_hostname_spec. }
  split; [intros (img & E & Hr); split; [by exists img|done]|intros [[img E] Hr]; by exists img].
Qed.

Definition all_bad {T} (r : result T Error) : Prop := forall e, r = Err e -> e = BadRequest.

Lemma all_bad_bind {T U} (r : result T Error) (k : T -> result U Error) :
  all_bad r -> (forall x, all_bad (k x)) -> all_bad (let? x := r in k x).
Proof. intros Hr Hk e. destruct r as [x|e']; [apply Hk|]. intros; simplify_eq. by apply Hr. Qed.

Lemma all_bad_ok_or {T} (o : option T) : all_bad (ok_or o BadRequest).
Proof. intros e. destruct o; simpl; congruence. Qed.

Lemma all_bad_try_opt {A} (f : A -> result unit Error) o :
  (forall a, all_bad (f a)) -> all_bad (try_opt f o).
Proof. intros Hf. destruct o; simpl; [apply Hf|]. by intros e. Qed.

Lemma all_bad_try_each {A B} (f : A -> result B Error) l :
  (forall a, all_bad (f a)) -> all_bad (try_each f l).
Proof. intros Hf. induction l; simpl; [by intros e|]. by apply all_bad_bind. Qed.

Lemma all_bad_hostname s : all_bad (validate_hostname s).
Proof.
  intros e. unfold validate_hostname, parse_hostname. destruct s; simpl; [congruence|].
  repeat case_match; simpl; congruence.
Qed.

Lemma all_bad_memory s : all_bad (parse_memory s).
Proof.
  intros e. unfold parse_memory. destruct (trim s); [congruence|].
  destruct (unit_suffix _ _) as [a b]. repeat case_match; congruence.
Qed.

Lemma all_bad_fwd s : all_bad (parse_fwd_pair s).
Proof.
  unfold parse_fwd_pair. apply all_bad_bind; [apply all_bad_ok_or|]. intros [h g].
  apply all_bad_bind; [apply all_bad_ok_or|]. intros host.
  apply all_bad_bind; [apply all_bad_ok_or|]. intros guest e. case_match; congruence.
Qed.

Lemma all_bad_profile name p : all_bad (validate_profile name p).
Proof.
  unfold validate_profile.
  apply all_bad_bind; [|intros _; apply all_bad_bind; [apply all_bad_ok_or|]; intros _].
  { intros e. unfold validate_profile_name. repeat case_match; congruence. }
  repeat (apply all_bad_bind; [|intros _]).
  - apply all_bad_try_opt. intros mem. apply all_bad_bind; [apply all_bad_memory|].
    intros b e. case_match; congruence.
  - apply all_bad_try_opt. intros bl e. case_match; congruence.
  - apply all_bad_try_opt, all_bad_hostname.
  - apply all_bad_try_each, all_bad_fwd.
  - apply all_bad_try_opt. intros ci. apply all_bad_try_opt, all_bad_hostname.
Qed.

(** Validation accepts a profile file exactly when every profile has a
    legal name, a known image, a parsable non-zero memory size, a known boot
    loader, legal host names and parsable port forwards; it rejects every
    other file, always as a bad request of the client and never as an I/O or
    internal error. *)
Theorem validate_all_exact (ps : ProfilesFile) :
  (validate_all ps = Ok tt <-> Forall (fun np => profile_ok np.1 np.2) ps) /\
  forall e, validate_all ps = Err e -> e = BadRequest.
Proof.
  unfold validate_all. split.
  - rewrite try_each_spec. apply Forall_iff. intros [n p]. simpl. rewrite <- validate_profile_spec.
    split; [by intros [[] ?]|eauto].
  - apply all_bad_try_each. intros np. apply all_bad_profile.
Qed.

(** The edit loop only returns files that validate, after at most
    [max_attempts] runs of the editor. *)
Lemma edit_with_retry_valid decode edit confirm max ps n :
  edit_with_retry decode edit confirm max = Some (Ok ps, n) ->
  validate_all ps = Ok tt /\ (n <= max)%nat.
Proof.
  unfold edit_with_retry. assert (Hb : (1 + max <= max + 1)%nat) by lia. revert Hb.
  generalize 1%nat at 1 3. generalize max at 1 4. intros k. induction k as [|k IH]; intros a Hb E; [done|].
  cbn [edit_attempts] in E. destruct (edit a) as [f|e]; [|done].
  destruct (load_profiles_from decode f) as [q|e]; [destruct (validate_all q) as [[]|e] eqn:Ev|].
  - simplify_eq. split; [done|lia].
  - destruct (a =? max)%nat; [done|]. destruct (confirm a); [|done]. apply IH in E; [done|lia].
  - destruct (a =? max)%nat; [done|]. destruct (confirm a); [|done]. apply IH in E; [done|lia].
Qed.
End ValidationSpec.

(** ** Instance directories *)

Lemma split_once_two d e a b :
  Forall (fun c => c <> d) a -> split_once [d; e] (a ++ [d; e] ++ b) = Some (a, b).
Proof.
  induction 1 as [|c a Hc Ha IH]; cbn [app split_once strip_prefix].
  - by rewrite !Z.eqb_refl.
  - destruct (Z.eqb_spec d c); [congruence|]. change (d :: e :: b) with ([d; e] ++ b). by rewrite IH.
Qed.

Lemma rsplit_instance p i :
  rsplit_once (chars "-l") (instance_dir p i) = Some (p, show_dec i).
Proof.
  unfold rsplit_once, instance_dir. change (chars "-l") with [45; 108].
  rewrite !rev_app_distr, <- app_assoc. change (rev [45; 108]) with [108; 45].
  rewrite split_once_two, !rev_involutive; [done|]. apply Forall_rev, digits_no. reflexivity.
Qed.

Lemma is_instance_of_spec q p i :
  0 <= i <= 255 -> is_instance_of q (instance_dir p i) = bool_decide (p = q).
Proof.
  intros Hi. unfold is_instance_of. rewrite rsplit_instance, parse_show by done. apply andb_true_r.
Qed.

Lemma reset_pass_spec q entries removed :
  reset_pass (fun _ => true) q entries removed =
  (List.filter (fun e => match e with Some n => negb (is_instance_of q n) | None => true end) entries,
   Ok (removed ++ omap (fun e => match e with Some n => if is_instance_of q n then Some n else None
                                 | None => None end) entries)).
Proof.
  revert removed. induction entries as [|[n|] entries IH]; intros removed; cbn [reset_pass List.filter].
  - by rewrite app_nil_r.
  - cbn [omap list_omap]. destruct (is_instance_of q n); cbn [negb]; rewrite IH; [|done].
    by rewrite <- app_assoc.
  - cbn [omap list_omap]. by rewrite IH.
Qed.

(** An instance directory identifies its profile and L2CPU, whatever
    hyphens the profile name has, and resetting a profile (removals
    succeeding) removes exactly its own instances: of the directories that
    instances have, the ones of the profile (and, with a filter, of that
    L2CPU) are gone and every other one is kept. *)
Theorem reset_instances_exact entries q f entries' r :
  reset_instances (fun _ => true) entries q f = (entries', r) ->
  (forall p i p' i', 0 <= i <= 255 -> 0 <= i' <= 255 ->
     instance_dir p i = instance_dir p' i' -> p = p' /\ i = i') /\
  (forall p i, 0 <= i <= 255 -> 0 <= default 0 f <= 255 ->
     Some (instance_dir p i) ∈ entries' <->
     Some (instance_dir p i) ∈ entries /\
     ~ (p = q /\ match f with Some idx => i = idx | None => True end)) /\
  (forall e, e ∈ entries' -> e ∈ entries).
Proof.
  assert (Hinj : forall p i p' i', 0 <= i <= 255 -> 0 <= i' <= 255 ->
     instance_dir p i = instance_dir p' i' -> p = p' /\ i = i').
  { intros p i p' i' Hi Hi' E. apply (f_equal (rsplit_once (chars "-l"))) in E.
    rewrite !rsplit_instance in E. injection E as -> E. split; [done|]. apply show_dec_inj; lia || done. }
  assert (Hfil : forall (P : option (list Z) -> bool) e l, e ∈ List.filter P l <-> e ∈ l /\ P e = true).
  { intros. rewrite !list_elem_of_In. apply List.filter_In. }
  intros E. split; [exact Hinj|]. unfold reset_instances in E. destruct f as [idx|]; simpl.
  - case_bool_decide as Ht; simplify_eq.
    + split; [|intros e He; by apply Hfil in He as [? _]].
      intros p i Hi Hx. rewrite Hfil, negb_true_iff, bool_decide_eq_false. apply and_iff_compat_l.
      split; [intros Hne [-> ->]; done|]. intros Hne [= Heq]. apply Hinj in Heq; [done|lia..].
    + split; [|done]. intros p i Hi Hx. split; [|by intros [? _]]. intros Hin. split; [done|].
      by intros [-> ->].
  - rewrite reset_pass_spec in E. simplify_eq. split; [|intros e He; by apply Hfil in He as [? _]].
    intros p i Hi _. rewrite Hfil, is_instance_of_spec, negb_true_iff, bool_decide_eq_false by done.
    apply and_iff_compat_l. split; [by intros ? [? _]|intros Hne Heq; by apply Hne].
Qed.

Lemma reset_instances_exact_witness :
  let es := [Some (instance_dir (chars "deb") 0); Some (instance_dir (chars "deb-l0") 1)] in
  Some (instance_dir (chars "deb-l0") 1) ∈ (reset_instances (fun _ => true) es (chars "deb") None).1.
Proof.
  intros es. destruct (reset_instances (fun _ => true) es (chars "deb") None) as [es' r] eqn:E.
  destruct (reset_instances_exact es (chars "deb") None es' r) as (_ & H & _).
  - exact E.
  - simpl. apply (H (chars "deb-l0") 1); [lia|simpl; lia|]. split; [right; left|]. by intros [? _].
Defined.

(** Every name and every alias of the catalogue resolves to its own image. *)
Lemma catalogue_unambiguous :
  Forall (fun img => Forall (fun n => get_known_image n = Some img) (im_name img :: im_aliases img))
    KNOWN_IMAGES.
Proof. repeat constructor; vm_compute; reflexivity. Qed.
