(* ===== verification/Protocol.v ===== *)
(** The control-socket protocol of [src/daemon/protocol.rs]: the messages and
    the length-prefixed frames that carry them.

    The JSON encoder and decoder belong to another package: they are the
    arguments [encode] and [decode].  A stream is the list of the bytes that
    can still be read from it. *)

From S2P Require Import Prelude ConsoleHub.

(** ** Messages *)

Inductive BootPayload :=
| Kernel (path : list Z)
| Uboot (path : list Z).

Definition payload_path (p : BootPayload) : list Z := match p with Kernel p | Uboot p => p end.
Definition is_uboot (p : BootPayload) : bool := match p with Uboot _ => true | Kernel _ => false end.

Definition default_root_device : list Z := chars "vda".
Definition default_true : bool := true.

Record BootRequest := mk_boot {
  b_l2cpu : Z;
  b_opensbi : list Z;
  b_payload : BootPayload;
  b_dtb : list Z;
  b_initramfs : option (list Z);
  b_root_device : list Z;
  b_disk : option (list Z);
  b_network : bool;
  b_extra_fwd : list (Z * Z);
  b_console : bool;
  b_rng : bool;
  b_force : bool;
  b_memory_override : option Z;
  b_hostname_override : option (list Z);
  b_cloud_init : option (list Z);
  b_extra_bootargs : option (list Z);
}.

Inductive Request :=
| Status
| Boot (b : BootRequest)
| AttachConsole (l2cpu : Z) (mode : ConsoleMode)
| AddDisk (l2cpu : Z) (path : list Z) (name : option (list Z))
| RemoveDisk (l2cpu : Z) (name : option (list Z))
| AddNet (l2cpu : Z) (ssh_port : option Z) (extra_fwd : list (Z * Z))
| RemoveNet (l2cpu : Z)
| AddConsole (l2cpu : Z)
| RemoveConsole (l2cpu : Z)
| Stop (l2cpu : Z)
| Shutdown.

Inductive L2CpuState := Stopped | Running | Wedged | Parked.

Record DiskAttach := mk_disk_attach { da_path : list Z; da_name : option (list Z) }.

Record PurgatoryReleaseMeta := mk_release {
  next_addr_pa : Z; next_mode_pa : Z; next_arg1_pa : Z; hsm_state_pa : Z; msip_pa : Z;
  force_park_request_pa : option Z; force_park_request_value : option Z;
}.

Record L2CpuStatus := mk_l2status {
  st_idx : Z;
  st_state : L2CpuState;
  st_disk : option (list Z);
  st_disks : list DiskAttach;
  st_net : bool;
  st_virtio_console : bool;
  st_clients : Z;
  st_purgatory_status : option Z;
  st_purgatory_peers : option Z;
  st_purgatory_release_meta : option PurgatoryReleaseMeta;
}.

Record StatusPayload := mk_status {
  sp_pid : Z;
  sp_uptime_secs : Z;
  sp_l2cpus : list L2CpuStatus;
  sp_engine_tile : option (Z * Z);
  sp_pll_fbdiv : option Z;
  sp_pll_postdiv0 : option Z;
}.

Inductive Response :=
| ROk
| RStatus (p : StatusPayload)
| Attached (scrollback_bytes : Z) (live : bool)
| RError (error : list Z).

(** ** Frames *)

Definition MAX_FRAME_BYTES : Z := 64 * 1024.

Inductive FrameError :=
| UnexpectedEof
| FrameTooLarge
| Codec.

Section Frames.
Context {T : Type} (encode : T -> option (list Z)) (decode : list Z -> option T).

(** The bytes a successful call appends to the stream. *)
Definition write_frame (msg : T) : result (list Z) FrameError :=
  match encode msg with
  | None => Err Codec
  | Some body =>
      if MAX_FRAME_BYTES <? Z.of_nat (length body) then Err FrameTooLarge
      else Ok (le_bytes 4 (u32 (Z.of_nat (length body))) ++ body)
  end.

Definition read_exact (n : nat) (stream : list Z) : option (list Z * list Z) :=
  if (n <=? length stream)%nat then Some (take n stream, drop n stream) else None.

(** The message and the rest of the stream. *)
Definition read_frame (stream : list Z) : result (T * list Z) FrameError :=
  match read_exact 4 stream with
  | None => Err UnexpectedEof
  | Some (len_buf, stream) =>
      let len := le_value len_buf in
      if MAX_FRAME_BYTES <? len then Err FrameTooLarge
      else
        match read_exact (Z.to_nat len) stream with
        | None => Err UnexpectedEof
        | Some (body, stream) =>
            match decode body with None => Err Codec | Some msg => Ok (msg, stream) end
        end
  end.

(** A connection that writes several messages. *)
Fixpoint write_frames (msgs : list T) : result (list Z) FrameError :=
  match msgs with
  | [] => Ok []
  | m :: msgs =>
      let? a := write_frame m in
      let? b := write_frames msgs in
      Ok (a ++ b)
  end.

(** Read [n] messages. *)
Fixpoint read_frames (n : nat) (stream : list Z) : result (list T * list Z) FrameError :=
  match n with
  | O => Ok ([], stream)
  | S n =>
      let? (m, stream) := read_frame stream in
      let? (ms, stream) := read_frames n stream in
      Ok (m :: ms, stream)
  end.

Context (codec : forall msg body, encode msg = Some body -> decode body = Some msg).

Lemma read_exact_app a b : read_exact (length a) (a ++ b) = Some (a, b).
Proof.
  unfold read_exact. rewrite length_app, (proj2 (Nat.leb_le _ _)) by lia.
  by rewrite take_app_length, drop_app_length.
Qed.

Lemma read_write_frame msg frame rest :
  write_frame msg = Ok frame -> read_frame (frame ++ rest) = Ok (msg, rest).
Proof.
  unfold write_frame, read_frame. destruct (encode msg) as [body|] eqn:E; [|done].
  destruct (Z.ltb_spec MAX_FRAME_BYTES (Z.of_nat (length body))) as [|Hlen]; [done|]. intros Heq.
  set (n := Z.of_nat (length body)) in *.
  assert (frame = le_bytes 4 (u32 n) ++ body) as -> by congruence. clear Heq.
  assert (Hn : u32 n = n) by (apply wrap_small; unfold fits, MAX_FRAME_BYTES in *; lia).
  rewrite Hn, <- app_assoc. rewrite <- (length_le_bytes 4 n) at 1. rewrite read_exact_app.
  rewrite (le_value_le_bytes 4) by (unfold fits, MAX_FRAME_BYTES in *; simpl; lia).
  destruct (Z.ltb_spec MAX_FRAME_BYTES n); [lia|].
  unfold n at 1. rewrite Nat2Z.id, read_exact_app. by rewrite (codec _ _ E).
Qed.

(** C37: on a connection, the reader gets exactly the messages that the writer
    sent, in order, and the bytes after them untouched; a frame whose length
    field exceeds the limit is refused without reading its body, and a stream
    that ends inside a frame is an end-of-file error, whatever the bytes. *)
Theorem frames_roundtrip msgs bytes rest :
  write_frames msgs = Ok bytes ->
  read_frames (length msgs) (bytes ++ rest) = Ok (msgs, rest) /\
  (forall len body, MAX_FRAME_BYTES < len < 2 ^ 32 ->
     read_frame (le_bytes 4 len ++ body) = Err FrameTooLarge) /\
  (forall len body, 0 <= len <= MAX_FRAME_BYTES -> Z.of_nat (length body) < len ->
     read_frame (le_bytes 4 len ++ body) = Err UnexpectedEof).
Proof.
  intros Hw. split; [|split].
  - revert bytes Hw. induction msgs as [|m msgs IH]; intros bytes Hw; cbn in *; [by simplify_eq|].
    destruct (write_frame m) as [a|e] eqn:Ea; [|done].
    destruct (write_frames msgs) as [b|e] eqn:Eb; [|done]. injection Hw as <-.
    rewrite <- app_assoc, (read_write_frame _ _ _ Ea). by rewrite (IH b eq_refl).
  - intros len body Hlen. unfold read_frame.
    rewrite <- (length_le_bytes 4 len) at 1. rewrite read_exact_app.
    rewrite (le_value_le_bytes 4) by (unfold fits, MAX_FRAME_BYTES in *; simpl; lia).
    destruct (Z.ltb_spec MAX_FRAME_BYTES len); [done|lia].
  - intros len body Hl Hb. unfold read_frame.
    rewrite <- (length_le_bytes 4 len) at 1. rewrite read_exact_app.
    rewrite (le_value_le_bytes 4) by (unfold fits, MAX_FRAME_BYTES in *; simpl; lia).
    destruct (Z.ltb_spec MAX_FRAME_BYTES len); [lia|]. unfold read_exact.
    destruct (Nat.leb_spec (Z.to_nat len) (length body)); [lia|done].
Qed.
End Frames.

(** The two console requests under a toy encoding. *)
Definition toy_encode (r : Request) : option (list Z) :=
  match r with
  | Stop i => Some [1; i]
  | Shutdown => Some [2]
  | _ => None
  end.

Definition toy_decode (b : list Z) : option Request :=
  match b with
  | [1; i] => Some (Stop i)
  | [2] => Some Shutdown
  | _ => None
  end.

Lemma frames_roundtrip_witness :
  exists bytes, write_frames toy_encode [Stop 3; Shutdown] = Ok bytes /\
    read_frames toy_decode 2 (bytes ++ [9]) = Ok ([Stop 3; Shutdown], [9]).
Proof.
  eexists. split; [vm_compute; reflexivity|].
  refine (proj1 (frames_roundtrip toy_encode toy_decode _ [Stop 3; Shutdown] _ [9] _)).
  - intros [] body E; simplify_eq/=; reflexivity.
  - vm_compute. reflexivity.
Defined.
