(* ===== verification/ChipConsole.v ===== *)
(** The virtual UART of OpenSBI as [src/daemon/chip_console.rs] drives it: the
    two byte rings in guest memory, the descriptor and magic checks, the
    output and input parts of one iteration of [uart_pass], the tests on the
    purgatory words that decide about parking, and the warm-resume probe.

    [q] is the address of the ring structure; the guest's memory is a byte
    map.  Both sides of a ring take [head] and [tail] modulo the ring size. *)

From S2P Require Import Prelude ConsoleHub.

Definition BUFFER_SIZE : Z := 0x1000.
Definition VIRTUAL_UART_MAGIC : Z := 0x5649525455415254.
Definition OPENSBI_DEBUG_PTR : Z := 0x80.
Definition EYE_CATCHER : list Z := chars "OSBIdbug".

Definition OFF_MAGIC : Z := 0.
Definition OFF_TX_BUF : Z := 8.
Definition OFF_RX_BUF : Z := 8 + BUFFER_SIZE.
Definition OFF_TX_HEAD : Z := 8 + 2 * BUFFER_SIZE.
Definition OFF_TX_TAIL : Z := OFF_TX_HEAD + 4.
Definition OFF_RX_HEAD : Z := OFF_TX_TAIL + 4.
Definition OFF_RX_TAIL : Z := OFF_RX_HEAD + 4.

(** ** The rings *)

Definition read_magic (m : gmap Z Z) (q : Z) : Z := rd64 m (q + OFF_MAGIC).
Definition read_tx_head (m : gmap Z Z) (q : Z) : Z := rd32 m (q + OFF_TX_HEAD).
Definition read_tx_tail (m : gmap Z Z) (q : Z) : Z := rd32 m (q + OFF_TX_TAIL).
Definition write_tx_tail (m : gmap Z Z) (q v : Z) : gmap Z Z := wr32 m (q + OFF_TX_TAIL) v.
Definition read_rx_head (m : gmap Z Z) (q : Z) : Z := rd32 m (q + OFF_RX_HEAD).
Definition read_rx_tail (m : gmap Z Z) (q : Z) : Z := rd32 m (q + OFF_RX_TAIL).
Definition write_rx_head (m : gmap Z Z) (q v : Z) : gmap Z Z := wr32 m (q + OFF_RX_HEAD) v.
Definition write_rx_tail (m : gmap Z Z) (q v : Z) : gmap Z Z := wr32 m (q + OFF_RX_TAIL) v.

Definition can_push (m : gmap Z Z) (q : Z) : bool :=
  let head := read_rx_head m q mod BUFFER_SIZE in
  let tail := read_rx_tail m q mod BUFFER_SIZE in
  negb ((head + 1) mod BUFFER_SIZE =? tail).

Definition can_pop (m : gmap Z Z) (q : Z) : bool :=
  let head := read_tx_head m q mod BUFFER_SIZE in
  let tail := read_tx_tail m q mod BUFFER_SIZE in
  negb (head =? tail).

Definition push_char (m : gmap Z Z) (q c : Z) : gmap Z Z * bool :=
  if negb (can_push m q) then (m, false)
  else
    let head := read_rx_head m q in
    let slot := head mod BUFFER_SIZE in
    let m := wr8 m (q + OFF_RX_BUF + slot) c in
    (write_rx_head m q (u32 (head + 1) mod BUFFER_SIZE), true).

Definition pop_char (m : gmap Z Z) (q : Z) : gmap Z Z * Z :=
  let tail := read_tx_tail m q in
  let slot := tail mod BUFFER_SIZE in
  let c := rd8 m (q + OFF_TX_BUF + slot) in
  (write_tx_tail m q (u32 (tail + 1) mod BUFFER_SIZE), c).

Definition drain_rx_ring (m : gmap Z Z) (q : Z) : gmap Z Z * Z :=
  let head := read_rx_head m q in
  let tail := read_rx_tail m q in
  let pending := u32 (head - tail) mod BUFFER_SIZE in
  (write_rx_tail m q head, pending).

(** ** Descriptor, magic and purgatory words *)

Inductive DescriptorError :=
| EyeCatcherMismatch (offset got want : Z)
| VirtuartBaseUninit.

Fixpoint check_eye (offset : Z) (want desc : list Z) : option DescriptorError :=
  match want, desc with
  | [], _ => None
  | w :: want, d :: desc =>
      if d =? w then check_eye (offset + 1) want desc else Some (EyeCatcherMismatch offset d w)
  | w :: _, [] => Some (EyeCatcherMismatch offset 0 w)
  end.

Definition DESCRIPTOR_BYTES : Z := 24.
Definition OFF_VIRTUART_BASE_IN_DESC : Z := 16.

Definition decode_descriptor (desc : list Z) : result Z DescriptorError :=
  match check_eye 0 EYE_CATCHER desc with
  | Some e => Err e
  | None =>
      let virtuart_base := le_value (take 8 (drop (Z.to_nat OFF_VIRTUART_BASE_IN_DESC) desc)) in
      if virtuart_base =? U64_MAX then Err VirtuartBaseUninit else Ok virtuart_base
  end.

Definition decode_magic (magic_bytes : list Z) : result unit Z :=
  let magic := le_value magic_bytes in
  if magic =? VIRTUAL_UART_MAGIC then Ok tt else Err magic.

Definition detect_park_transition (last_parked current_parked : bool) : bool :=
  negb last_parked && current_parked.

(** The chip access of one L2CPU: the start of its memory, 32-bit reads, and
    the bytes that a persistent window over an address shows; [None] is an
    error of the kernel driver. *)
Record L2CpuIo := mk_io {
  io_start : Z;
  io_read32 : Z -> option Z;
  io_window : Z -> option (nat -> Z);
}.

Definition window_bytes (w : nat -> Z) (off n : nat) : list Z := List.map w (seq off n).

Definition probe_warm_resume (io : L2CpuIo) : bool :=
  match io_read32 io (u64 (io_start io + OPENSBI_DEBUG_PTR)) with
  | None => false
  | Some debug_ptr =>
      match io_window io (u64 (io_start io + debug_ptr)) with
      | None => false
      | Some desc =>
          match decode_descriptor (window_bytes desc 0 (Z.to_nat DESCRIPTOR_BYTES)) with
          | Err _ => false
          | Ok uart_base =>
              match io_window io uart_base with
              | None => false
              | Some q => is_ok (decode_magic (window_bytes q (Z.to_nat OFF_MAGIC) 8))
              end
          end
      end
  end.

Definition STATUS_OFFSET : Z := 0xE0000.
Definition RESET_TYPE_OFFSET : Z := STATUS_OFFSET + 0x48.
Definition STATUS_PARKED : Z := 0x5f5f44454b524150.
Definition RESET_TYPE_SHUTDOWN : Z := 0.
Definition RESET_TYPE_COLD_REBOOT : Z := 1.
Definition RESET_TYPE_WARM_REBOOT : Z := 2.

Definition read_parked_state (io : L2CpuIo) (purg_pa : Z) : bool :=
  match io_read32 io purg_pa with
  | None => false
  | Some lo =>
      match io_read32 io (u64 (purg_pa + 4)) with
      | None => false
      | Some hi => Z.lor (Z.shiftl hi 32) lo =? STATUS_PARKED
      end
  end.

Definition read_parked_reset_type (io : L2CpuIo) (mem_start : Z) : Z :=
  default RESET_TYPE_SHUTDOWN (io_read32 io (u64 (mem_start + RESET_TYPE_OFFSET))).

(** ** One iteration of [uart_pass] *)

(** The pop loop, at most [n] bytes. *)
Fixpoint pop_loop (n : nat) (m : gmap Z Z) (q : Z) : gmap Z Z * list Z :=
  match n with
  | O => (m, [])
  | S n =>
      if can_pop m q then
        let '(m, c) := pop_char m q in
        let '(m, cs) := pop_loop n m q in (m, c :: cs)
      else (m, [])
  end.

(** The output part: up to 256 bytes to the hub, and the byte counter. *)
Definition output_pass (m : gmap Z Z) (q : Z) (h : ConsoleHub) (g2h : Z)
    : gmap Z Z * ConsoleHub * Z * bool :=
  let '(m, out) := pop_loop 256 m q in
  match out with
  | [] => (m, h, g2h, false)
  | _ => (m, (push_chip_output h out).1, u64 (g2h + Z.of_nat (length out)), true)
  end.

(** The input part.  [InputDrained]: the channel is empty.  [InputClosed]: it
    is empty and the sending side is gone, on which [uart_pass] returns.
    [InputBlocked]: the ring is full and the loop spins on the byte it has
    taken (and counted), until the guest makes room or the worker is told to
    exit. *)
Inductive InputPass :=
| InputDrained (m : gmap Z Z) (h2g : Z) (got_input : bool)
| InputClosed (m : gmap Z Z) (h2g : Z)
| InputBlocked (m : gmap Z Z) (h2g : Z) (b : Z) (channel : list Z).

Fixpoint input_pass (m : gmap Z Z) (q h2g : Z) (connected got_input : bool) (channel : list Z) : InputPass :=
  match channel with
  | [] => if connected then InputDrained m h2g got_input else InputClosed m h2g
  | b :: channel =>
      let h2g := u64 (h2g + 1) in
      let '(m, pushed) := push_char m q b in
      if pushed then input_pass m q h2g connected true channel else InputBlocked m h2g b channel
  end.

Definition drain_input_channel (channel : list Z) : list Z * Z := ([], Z.of_nat (length channel)).

(** ** The rings as queues *)

(** The bytes between the two indices. *)
Definition ring (m : gmap Z Z) (buf head tail : Z) : list Z :=
  List.map (fun i => rd8 m (buf + (tail + Z.of_nat i) mod BUFFER_SIZE))
    (seq 0 (Z.to_nat ((head - tail) mod BUFFER_SIZE))).

Definition rx (m : gmap Z Z) (q : Z) : list Z :=
  ring m (q + OFF_RX_BUF) (read_rx_head m q) (read_rx_tail m q).
Definition tx (m : gmap Z Z) (q : Z) : list Z :=
  ring m (q + OFF_TX_BUF) (read_tx_head m q) (read_tx_tail m q).

Ltac uart_layout :=
  unfold read_magic, read_tx_head, read_tx_tail, read_rx_head, read_rx_tail, write_tx_tail, write_rx_head,
    write_rx_tail, OFF_RX_TAIL, OFF_RX_HEAD, OFF_TX_TAIL, OFF_TX_HEAD, OFF_RX_BUF, OFF_TX_BUF, OFF_MAGIC,
    BUFFER_SIZE in *.

Lemma mod_bound x : 0 <= x mod BUFFER_SIZE < BUFFER_SIZE.
Proof. apply Z.mod_pos_bound. reflexivity. Qed.

(** The ring size divides 2^32, so the 32-bit wrap is invisible. *)
Lemma u32_mod x : u32 x mod BUFFER_SIZE = x mod BUFFER_SIZE.
Proof.
  unfold u32, wrap, BUFFER_SIZE. apply Z.mod_mod_divide. by exists 1048576.
Qed.

Lemma length_ring m buf head tail :
  Z.of_nat (length (ring m buf head tail)) = (head - tail) mod BUFFER_SIZE.
Proof.
  unfold ring. rewrite List.length_map, List.length_seq. pose proof (mod_bound (head - tail)). lia.
Qed.

Lemma ring_ext m m' buf head tail :
  (forall i, 0 <= i < BUFFER_SIZE -> rd8 m' (buf + i) = rd8 m (buf + i)) ->
  ring m' buf head tail = ring m buf head tail.
Proof. intros H. unfold ring. apply List.map_ext. intros i. apply H, mod_bound. Qed.

Lemma mod_fits x : fits 32 (x mod BUFFER_SIZE).
Proof. pose proof (mod_bound x). unfold fits, BUFFER_SIZE in *. lia. Qed.

(** Indices modulo the ring size. *)
Lemma ring_next head tail :
  (head mod BUFFER_SIZE + 1) mod BUFFER_SIZE <> tail mod BUFFER_SIZE ->
  (((head + 1) mod BUFFER_SIZE) - tail) mod BUFFER_SIZE = (head - tail) mod BUFFER_SIZE + 1.
Proof.
  rewrite Zplus_mod_idemp_l, Zminus_mod_idemp_l. unfold BUFFER_SIZE. intros.
  Z.div_mod_to_equations. lia.
Qed.

Lemma ring_slot head tail i :
  0 <= i < (head - tail) mod BUFFER_SIZE -> (tail + i) mod BUFFER_SIZE <> head mod BUFFER_SIZE.
Proof. unfold BUFFER_SIZE. intros. Z.div_mod_to_equations. lia. Qed.

Lemma ring_last head tail : (tail + (head - tail) mod BUFFER_SIZE) mod BUFFER_SIZE = head mod BUFFER_SIZE.
Proof. rewrite Zplus_mod_idemp_r. f_equal. lia. Qed.

Lemma ring_prev head tail :
  head mod BUFFER_SIZE <> tail mod BUFFER_SIZE ->
  (head - (tail + 1) mod BUFFER_SIZE) mod BUFFER_SIZE = (head - tail) mod BUFFER_SIZE - 1 /\
  0 < (head - tail) mod BUFFER_SIZE.
Proof.
  rewrite Zminus_mod_idemp_r. unfold BUFFER_SIZE. intros. Z.div_mod_to_equations. lia.
Qed.

Lemma can_push_spec m q : can_push m q = (Z.of_nat (length (rx m q)) <? BUFFER_SIZE - 1).
Proof.
  unfold can_push, rx. rewrite length_ring. set (h := read_rx_head m q). set (t := read_rx_tail m q).
  rewrite Zplus_mod_idemp_l. unfold BUFFER_SIZE.
  destruct (Z.eqb_spec ((h + 1) mod 4096) (t mod 4096)), (Z.ltb_spec ((h - t) mod 4096) (4096 - 1));
    simpl; try done; exfalso; Z.div_mod_to_equations; lia.
Qed.

Lemma can_pop_spec m q : can_pop m q = (0 <? Z.of_nat (length (tx m q))).
Proof.
  unfold can_pop, tx. rewrite length_ring. set (h := read_tx_head m q). set (t := read_tx_tail m q).
  unfold BUFFER_SIZE.
  destruct (Z.eqb_spec (h mod 4096) (t mod 4096)), (Z.ltb_spec 0 ((h - t) mod 4096));
    simpl; try done; exfalso; Z.div_mod_to_equations; lia.
Qed.

(** A push appends to the RX queue and touches nothing else that is read. *)
Lemma push_char_spec m q c :
  push_char m q c =
    (if Z.of_nat (length (rx m q)) <? BUFFER_SIZE - 1 then ((push_char m q c).1, true) else (m, false)) /\
  (Z.of_nat (length (rx m q)) < BUFFER_SIZE - 1 ->
     rx (push_char m q c).1 q = rx m q ++ [c] /\ tx (push_char m q c).1 q = tx m q).
Proof.
  assert (Hcp := can_push_spec m q). unfold push_char. rewrite Hcp.
  destruct (Z.ltb_spec (Z.of_nat (length (rx m q))) (BUFFER_SIZE - 1)) as [Hlt|]; cbn [negb fst]; [|split; [done|lia]].
  split; [done|]. intros _. rewrite u32_mod.
  set (h := read_rx_head m q) in *. set (t := read_rx_tail m q) in *.
  set (m1 := wr8 m (q + OFF_RX_BUF + h mod BUFFER_SIZE) c).
  set (m2 := write_rx_head m1 q ((h + 1) mod BUFFER_SIZE)).
  pose proof (mod_bound h) as Hb.
  assert (Hh : read_rx_head m2 q = (h + 1) mod BUFFER_SIZE) by (apply rd32_wr32_eq, mod_fits).
  assert (Ht : read_rx_tail m2 q = t).
  { unfold m2, m1, t. uart_layout. rewrite rd32_wr32_out, rd32_wr8_out by lia. done. }
  assert (Hne : (h mod BUFFER_SIZE + 1) mod BUFFER_SIZE <> t mod BUFFER_SIZE).
  { unfold can_push in Hcp. fold h t in Hcp. apply negb_true_iff, Z.eqb_neq in Hcp. exact Hcp. }
  assert (Hcell : forall i, 0 <= i < BUFFER_SIZE -> rd8 m2 (q + OFF_RX_BUF + i) = rd8 m1 (q + OFF_RX_BUF + i)).
  { intros i Hi. unfold m2. uart_layout. apply rd8_wr32_out. lia. }
  split.
  - unfold rx at 1. rewrite Hh, Ht, (ring_ext m1 m2) by done. unfold ring. rewrite ring_next by done.
    pose proof (mod_bound (h - t)) as Hn. rewrite Z2Nat.inj_add, Nat.add_1_r, seq_S, List.map_app by lia.
    f_equal.
    + unfold rx, ring. fold h t. apply List.map_ext_in. intros i Hi. apply List.in_seq in Hi.
      unfold m1. apply rd8_wr8_ne. assert (Hs : (t + Z.of_nat i) mod BUFFER_SIZE <> h mod BUFFER_SIZE).
      { apply ring_slot. clear -Hi Hn. revert Hi Hn. generalize ((h - t) mod BUFFER_SIZE). intros; lia. }
      clear -Hs. lia.
    + cbn [List.map]. f_equal. unfold m1. rewrite Nat.add_0_l, Z2Nat.id by lia.
      rewrite ring_last. apply rd8_wr8_eq.
  - assert (E1 : read_tx_head m2 q = read_tx_head m q).
    { unfold m2, m1. uart_layout. rewrite rd32_wr32_out, rd32_wr8_out by lia. done. }
    assert (E2 : read_tx_tail m2 q = read_tx_tail m q).
    { unfold m2, m1. uart_layout. rewrite rd32_wr32_out, rd32_wr8_out by lia. done. }
    unfold tx. rewrite E1, E2. apply ring_ext. intros i Hi. unfold m2, m1. uart_layout.
    rewrite rd8_wr32_out by lia. apply rd8_wr8_ne. lia.
Qed.

(** A pop takes the oldest byte of the TX queue. *)
Lemma pop_char_spec m q c rest :
  tx m q = c :: rest ->
  (pop_char m q).2 = c /\ tx (pop_char m q).1 q = rest /\ rx (pop_char m q).1 q = rx m q.
Proof.
  intros E. assert (Hcp := can_pop_spec m q). rewrite E in Hcp. cbn [length] in Hcp.
  rewrite (proj2 (Z.ltb_lt _ _)) in Hcp by lia.
  unfold pop_char. cbn [fst snd]. rewrite u32_mod.
  set (h := read_tx_head m q) in *. set (t := read_tx_tail m q) in *.
  set (m1 := write_tx_tail m q ((t + 1) mod BUFFER_SIZE)).
  assert (Hne : h mod BUFFER_SIZE <> t mod BUFFER_SIZE).
  { unfold can_pop in Hcp. fold h t in Hcp. apply negb_true_iff, Z.eqb_neq in Hcp. exact Hcp. }
  destruct (ring_prev h t Hne) as [Hlen Hpos].
  assert (Hh : read_tx_head m1 q = h).
  { unfold m1, h. uart_layout. rewrite rd32_wr32_out by lia. done. }
  assert (Ht : read_tx_tail m1 q = (t + 1) mod BUFFER_SIZE) by (apply rd32_wr32_eq, mod_fits).
  assert (Er : ring m1 (q + OFF_TX_BUF) h ((t + 1) mod BUFFER_SIZE)
             = ring m (q + OFF_TX_BUF) h ((t + 1) mod BUFFER_SIZE)).
  { apply ring_ext. intros i Hi. unfold m1. uart_layout. apply rd8_wr32_out. lia. }
  unfold tx, ring in E. fold h t in E.
  set (n := (h - t) mod BUFFER_SIZE) in *.
  replace (Z.to_nat n) with (S (Z.to_nat (n - 1))) in E by lia. cbn [seq List.map] in E.
  injection E as Ec Erest. rewrite Z.add_0_r in Ec. split; [exact Ec|]. split.
  - unfold tx. rewrite Hh, Ht, Er. unfold ring. rewrite Hlen, <- Erest, <- List.seq_shift, List.map_map.
    apply List.map_ext. intros i. rewrite Zplus_mod_idemp_l. do 3 f_equal. lia.
  - assert (E1 : read_rx_head m1 q = read_rx_head m q).
    { unfold m1. uart_layout. rewrite rd32_wr32_out by lia. done. }
    assert (E2 : read_rx_tail m1 q = read_rx_tail m q).
    { unfold m1. uart_layout. rewrite rd32_wr32_out by lia. done. }
    unfold rx. rewrite E1, E2. apply ring_ext. intros i Hi. unfold m1. uart_layout.
    apply rd8_wr32_out. lia.
Qed.

Lemma pop_loop_spec n m q :
  let '(m', out) := pop_loop n m q in
  out = take n (tx m q) /\ tx m' q = drop n (tx m q) /\ rx m' q = rx m q.
Proof.
  revert m. induction n as [|n IH]; intros m; cbn [pop_loop]; [done|]. rewrite can_pop_spec.
  destruct (tx m q) as [|c rest] eqn:E; cbn [length Z.of_nat]; [done|].
  rewrite (proj2 (Z.ltb_lt _ _)) by lia.
  destruct (pop_char_spec m q c rest E) as (Hc & Ht & Hr).
  destruct (pop_char m q) as [m1 c1]. simpl in Hc, Ht, Hr. subst c1. specialize (IH m1).
  destruct (pop_loop n m1 q) as [m2 cs]. destruct IH as (-> & H2 & H3).
  rewrite Ht in *. rewrite Hr in H3. done.
Qed.

(** One output pass over the guest's TX ring, whatever its indices hold,
    hands the hub exactly the oldest (up to 256) bytes of the queue in order
    and in one push, leaves the rest queued, counts them, and does not touch
    the RX queue; with an empty queue nothing is pushed. *)
Theorem output_pass_fifo m q h g2h :
  let out := take 256 (tx m q) in
  let '(m', h', g', got) := output_pass m q h g2h in
  tx m q = out ++ tx m' q /\ rx m' q = rx m q /\
  h' = (push_chip_output h out).1 /\
  got = bool_decide (tx m q <> []) /\
  g' = (if got then u64 (g2h + Z.of_nat (length out)) else g2h).
Proof.
  intros out. unfold output_pass. pose proof (pop_loop_spec 256 m q) as Hp.
  destruct (pop_loop 256 m q) as [m' o]. destruct Hp as (-> & Ht & Hr). fold out.
  assert (Hs : tx m q = out ++ tx m' q) by (rewrite Ht; symmetry; apply take_drop).
  destruct out as [|c out'] eqn:Eo.
  - assert (Hnil : tx m q = []).
    { unfold out in Eo. destruct (tx m q); [done|]. by rewrite firstn_cons in Eo. }
    rewrite bool_decide_false by (rewrite Hnil; intros H; by apply H). done.
  - rewrite bool_decide_true by (rewrite Hs; done). done.
Qed.

(** The memory, the counter and the bytes still to come after a pass. *)
Definition input_mem (r : InputPass) : gmap Z Z :=
  match r with InputDrained m _ _ | InputClosed m _ | InputBlocked m _ _ _ => m end.
Definition input_count (r : InputPass) : Z :=
  match r with InputDrained _ n _ | InputClosed _ n | InputBlocked _ n _ _ => n end.
Definition input_rest (r : InputPass) : list Z :=
  match r with InputBlocked _ _ b ch => b :: ch | _ => [] end.

Lemma input_pass_aux m q n cn g input :
  let room := Z.to_nat (BUFFER_SIZE - 1 - Z.of_nat (length (rx m q))) in
  let r := input_pass m q n cn g input in
  rx (input_mem r) q = rx m q ++ take room input /\ input_rest r = drop room input /\
  tx (input_mem r) q = tx m q.
Proof.
  revert m n g. induction input as [|b input IH]; intros m n g; cbn [input_pass].
  { rewrite take_nil, drop_nil. destruct cn; simpl; by rewrite app_nil_r. }
  destruct (push_char_spec m q b) as [E Hok]. rewrite E. clear E.
  destruct (Z.ltb_spec (Z.of_nat (length (rx m q))) (BUFFER_SIZE - 1)) as [Hlt|Hge].
  - destruct (Hok Hlt) as [Hrx Htx]. set (m1 := (push_char m q b).1) in *.
    specialize (IH m1 (u64 (n + 1)) true). cbv zeta in *.
    rewrite Hrx, length_app in IH. cbn [length] in IH.
    replace (Z.to_nat (BUFFER_SIZE - 1 - Z.of_nat (length (rx m q))))
      with (S (Z.to_nat (BUFFER_SIZE - 1 - Z.of_nat (length (rx m q) + 1)))) by lia.
    destruct IH as (H1 & H2 & H3). rewrite H1, <- app_assoc, H3. simpl. done.
  - replace (Z.to_nat (BUFFER_SIZE - 1 - Z.of_nat (length (rx m q)))) with 0%nat by lia.
    simpl. by rewrite app_nil_r.
Qed.

(** Every byte taken from the channel is counted, the held one included. *)
Lemma input_pass_count m q n cn g input :
  let r := input_pass m q n cn g input in
  let held := match r with InputBlocked _ _ _ _ => 1 | _ => 0 end in
  fits 64 n ->
  input_count r = u64 (n + (Z.of_nat (length input) - Z.of_nat (length (input_rest r)) + held)).
Proof.
  cbv zeta. revert m n g. induction input as [|b input IH]; intros m n g Hn; cbn [input_pass].
  { destruct cn; simpl; rewrite Z.add_0_r; symmetry; by apply wrap_small. }
  destruct (push_char m q b) as [m1 []].
  - rewrite IH by (by apply wrap_fits). set (r := input_pass _ _ _ _ _). clearbody r.
    cbn [length]. rewrite Nat2Z.inj_succ.
    unfold u64. rewrite wrap_add_l by done. f_equal. destruct r; lia.
  - simpl. f_equal. lia.
Qed.

Lemma drain_rx_empty m q : fits 32 (read_rx_head m q) -> rx (drain_rx_ring m q).1 q = [].
Proof.
  intros Hf. unfold drain_rx_ring. cbn [fst]. set (m1 := write_rx_tail m q (read_rx_head m q)).
  assert (Hh : read_rx_head m1 q = read_rx_head m q).
  { unfold m1. uart_layout. rewrite rd32_wr32_out by lia. done. }
  assert (Ht : read_rx_tail m1 q = read_rx_head m q) by (by apply rd32_wr32_eq).
  unfold rx, ring. rewrite Hh, Ht, Z.sub_diag. done.
Qed.

Lemma drain_rx_head m q : read_rx_head (drain_rx_ring m q).1 q = read_rx_head m q.
Proof. unfold drain_rx_ring. cbn [fst]. uart_layout. by rewrite rd32_wr32_out by lia. Qed.

(** The RX ring is a bounded queue of 4095 bytes: one input pass appends
    the channel's bytes in order up to the capacity and never overwrites a
    byte the guest has not read; what does not fit is kept in order (the
    byte being retried in front), which happens only with a full ring; every
    byte taken is counted; the TX queue is left alone.  Discarding the ring
    on a park empties it and reports exactly the number of queued bytes. *)
Theorem rx_ring_queue m q n cn g input :
  fits 32 (read_rx_head m q) -> fits 64 n ->
  let r := input_pass m q n cn g input in
  (exists k, rx (input_mem r) q = rx m q ++ take k input /\ input_rest r = drop k input) /\
  (input_rest r <> [] -> Z.of_nat (length (rx (input_mem r) q)) = BUFFER_SIZE - 1) /\
  (input_rest r = [] -> input_count r = u64 (n + Z.of_nat (length input))) /\
  tx (input_mem r) q = tx m q /\
  rx (drain_rx_ring m q).1 q = [] /\ (drain_rx_ring m q).2 = Z.of_nat (length (rx m q)).
Proof.
  intros Hf Hn r. pose proof (input_pass_aux m q n cn g input) as Ha. cbv zeta in Ha. fold r in Ha.
  pose proof (input_pass_count m q n cn g input) as Hc. cbv zeta in Hc. fold r in Hc. specialize (Hc Hn).
  set (room := Z.to_nat (BUFFER_SIZE - 1 - Z.of_nat (length (rx m q)))) in *.
  assert (Hcap : Z.of_nat (length (rx m q)) <= BUFFER_SIZE - 1).
  { unfold rx. rewrite length_ring. pose proof (mod_bound (read_rx_head m q - read_rx_tail m q)). lia. }
  destruct Ha as (H1 & H2 & H3).
  split; [by exists room|]. split; [|split; [|split; [done|split]]].
  - intros Hne. rewrite H1, length_app, length_take.
    assert (room < length input)%nat.
    { destruct (decide (room < length input)%nat); [done|]. rewrite drop_ge in H2 by lia. done. }
    unfold room in *. lia.
  - intros E. rewrite Hc, E. f_equal. destruct r; simpl in *; [lia|lia|done].
  - by apply drain_rx_empty.
  - unfold drain_rx_ring. cbn [snd]. rewrite u32_mod. unfold rx. by rewrite length_ring.
Qed.

(** A ring structure at address 0 whose RX indices are about to wrap. *)
Definition demo_uart : gmap Z Z := write_rx_tail (write_rx_head ∅ 0 4095) 0 4095.

Lemma rx_ring_queue_witness :
  let r := input_pass demo_uart 0 7 true false [104; 105] in
  rx (input_mem r) 0 = [104; 105] /\ input_count r = 9 /\ (drain_rx_ring demo_uart 0).2 = 0.
Proof.
  pose proof (rx_ring_queue demo_uart 0 7 true false [104; 105]) as H. cbv zeta in *.
  assert (Hf : fits 32 (read_rx_head demo_uart 0)) by (vm_compute; split; congruence).
  specialize (H Hf). assert (Hn : fits 64 7) by (vm_compute; split; congruence). specialize (H Hn).
  assert (Er : input_rest (input_pass demo_uart 0 7 true false [104; 105]) = []) by (vm_compute; reflexivity).
  destruct H as ((k & H1 & H2) & _ & Hc & _ & _ & H4). split; [|split].
  - rewrite H1. assert (E : rx demo_uart 0 = []) by (vm_compute; reflexivity). rewrite E.
    pose proof (take_drop k [104; 105]) as Ht. rewrite <- H2, Er, app_nil_r in Ht. exact Ht.
  - rewrite (Hc Er). reflexivity.
  - etransitivity; [exact H4|vm_compute; reflexivity].
Defined.

(** The descriptor decodes exactly when it starts with the eye catcher and
    its base is set. *)
Lemma check_eye_spec off want desc :
  check_eye off want desc = None <-> exists rest, desc = want ++ rest.
Proof.
  revert off desc. induction want as [|w want IH]; intros off desc; simpl.
  { split; [by exists desc|done]. }
  destruct desc as [|d desc]; [split; [done|by intros [? ?]]|].
  destruct (Z.eqb_spec d w) as [->|Hne].
  - rewrite IH. split; intros [r Hr]; exists r; by simplify_eq.
  - split; [done|]. intros [r Hr]. by simplify_eq.
Qed.

(** ** The warm-resume probe *)

(** Bytes that decode to the magic are the magic's bytes. *)
Lemma le_value_inj (l k : list Z) :
  Forall is_byte l -> Forall is_byte k -> length l = length k -> le_value l = le_value k -> l = k.
Proof.
  intros Hl Hk Hn He. rewrite <- (le_bytes_le_value l Hl), <- (le_bytes_le_value k Hk). by rewrite Hn, He.
Qed.

Lemma window_bytes_are_bytes w off n :
  (forall i, is_byte (w i)) -> Forall is_byte (window_bytes w off n) /\ length (window_bytes w off n) = n.
Proof.
  intros Hw. split.
  - apply Forall_forall. intros b Hb. apply list_elem_of_In, List.in_map_iff in Hb as (i & <- & _). apply Hw.
  - unfold window_bytes. by rewrite List.length_map, List.length_seq.
Qed.

Lemma decode_magic_spec q :
  (forall i, is_byte (q i)) ->
  is_ok (decode_magic (window_bytes q (Z.to_nat OFF_MAGIC) 8)) = true <-> window_bytes q 0 8 = chars "TRAUTRIV".
Proof.
  intros Hq. unfold decode_magic. change (Z.to_nat OFF_MAGIC) with 0%nat.
  destruct (window_bytes_are_bytes q 0 8 Hq) as [H1 H2].
  destruct (Z.eqb_spec (le_value (window_bytes q 0 8)) VIRTUAL_UART_MAGIC) as [E|E]; simpl.
  - split; [|done]. intros _. apply le_value_inj; [done| |done|by rewrite E].
    let b := eval vm_compute in (chars "TRAUTRIV") in change (chars "TRAUTRIV") with b.
    repeat (apply Forall_cons; split; [unfold is_byte; lia|]). by apply Forall_nil.
  - split; [done|]. intros E'. exfalso. apply E. by rewrite E'.
Qed.

Lemma decode_descriptor_spec desc base :
  decode_descriptor (window_bytes desc 0 (Z.to_nat DESCRIPTOR_BYTES)) = Ok base <->
  window_bytes desc 0 8 = chars "OSBIdbug" /\ base = le_value (window_bytes desc 16 8) /\ base <> U64_MAX.
Proof.
  unfold decode_descriptor.
  change (take 8 (drop _ (window_bytes desc 0 _))) with (window_bytes desc 16 8).
  destruct (check_eye 0 EYE_CATCHER _) as [e|] eqn:Ec.
  - split; [done|]. intros (E & _). exfalso. assert (Hn : check_eye 0 EYE_CATCHER
      (window_bytes desc 0 (Z.to_nat DESCRIPTOR_BYTES)) = None); [|congruence].
    apply check_eye_spec. exists (window_bytes desc 8 16).
    change (window_bytes desc 0 (Z.to_nat DESCRIPTOR_BYTES))
      with (window_bytes desc 0 8 ++ window_bytes desc 8 16). by rewrite E.
  - apply check_eye_spec in Ec as [rest Er].
    assert (E : window_bytes desc 0 8 = chars "OSBIdbug").
    { change (window_bytes desc 0 8) with (take 8 (window_bytes desc 0 (Z.to_nat DESCRIPTOR_BYTES))).
      by rewrite Er. }
    destruct (Z.eqb_spec (le_value (window_bytes desc 16 8)) U64_MAX) as [Eu|Eu].
    + split; [done|]. intros (_ & -> & Hne). by exfalso; apply Hne.
    + split; [intros [= <-]; done|]. by intros (_ & -> & _).
Qed.

(** The probe adopts a running core exactly when the debug pointer and
    both windows can be read, the descriptor starts with the bytes [OSBIdbug],
    its UART base is set, and the structure at that base starts with the bytes
    [TRAUTRIV] (the magic in memory order). *)
Theorem probe_exact io :
  (forall a w, io_window io a = Some w -> forall i, is_byte (w i)) ->
  probe_warm_resume io = true <->
  exists debug_ptr desc base q,
    io_read32 io (u64 (io_start io + OPENSBI_DEBUG_PTR)) = Some debug_ptr /\
    io_window io (u64 (io_start io + debug_ptr)) = Some desc /\
    window_bytes desc 0 8 = chars "OSBIdbug" /\
    base = le_value (window_bytes desc 16 8) /\ base <> U64_MAX /\
    io_window io base = Some q /\ window_bytes q 0 8 = chars "TRAUTRIV".
Proof.
  intros Hb. unfold probe_warm_resume. split.
  - destruct (io_read32 io _) as [p|] eqn:E1; [|done].
    destruct (io_window io (u64 (io_start io + p))) as [desc|] eqn:E2; [|done].
    destruct (decode_descriptor _) as [base|] eqn:E3; [|done]. apply decode_descriptor_spec in E3 as (? & ? & ?).
    destruct (io_window io base) as [q|] eqn:E4; [|done]. intros H3.
    exists p, desc, base, q. repeat split; try done. apply decode_magic_spec; [by apply (Hb base)|done].
  - intros (p & desc & base & q & -> & -> & H3 & H4 & H5 & H6 & H7).
    assert (E3 : decode_descriptor (window_bytes desc 0 (Z.to_nat DESCRIPTOR_BYTES)) = Ok base)
      by (by apply decode_descriptor_spec).
    rewrite E3, H6. apply decode_magic_spec; [by apply (Hb base)|done].
Qed.

(** A core whose descriptor sits at its start and whose ring is at 4096. *)
Definition demo_io : L2CpuIo :=
  mk_io 0 (fun a => Some 0)
    (fun a => let bytes := if a =? 4096 then chars "TRAUTRIV"
                else chars "OSBIdbug" ++ replicate 8 0 ++ le_bytes 8 4096 in
              Some (fun i => default 0 (bytes !! i))).

Lemma probe_exact_witness : probe_warm_resume demo_io = true.
Proof.
  apply (probe_exact demo_io).
  - intros a w [= <-] i. destruct (a =? 4096);
      do 24 (destruct i as [|i]; [vm_compute; split; congruence|]); vm_compute; split; congruence.
  - do 4 eexists. split; [reflexivity|]. split; [reflexivity|]. split; [vm_compute; reflexivity|].
    split; [vm_compute; reflexivity|]. split; [vm_compute; congruence|]. split; [reflexivity|].
    vm_compute. reflexivity.
Defined.
