(* ===== verification/DeviceTree.v ===== *)
(** The device tree given to the guest: [src/fdt_ffi.rs] and the patching
    functions of [src/boot.rs] ([modify_dtb], [verify_dtb_invariants],
    [add_opensbi_reservation_for_release]).

    libfdt is a C library outside the sources: the class [Libfdt] holds the
    functions the bindings declare, on the bytes of the buffer, and
    [LibfdtLaws] what libfdt documents about them.  A well-formed blob denotes
    the list of its nodes in document order, each with its path and its
    properties; an offset denotes a position in that list.  An operation that
    inserts bytes at a node moves every node behind it, so it keeps the offsets
    up to that node only. *)

From S2P Require Import Prelude Text ChipConsole.

(** ** Bytes *)

Definition be_bytes (n : nat) (x : Z) : list Z := rev (le_bytes n x).
Definition be_value (l : list Z) : Z := le_value (rev l).

(** The UTF-8 bytes of a string. *)
Definition utf8_char (c : Z) : list Z :=
  if c <? 0x80 then [c]
  else if c <? 0x800 then [192 + c / 64; 128 + c mod 64]
  else if c <? 0x10000 then [224 + c / 4096; 128 + c / 64 mod 64; 128 + c mod 64]
  else [240 + c / 262144; 128 + c / 4096 mod 64; 128 + c / 64 mod 64; 128 + c mod 64].

Definition utf8 (s : list Z) : list Z := flat_map utf8_char s.

(** ** libfdt *)

Class Libfdt := {
  fdt_open_into : list Z -> Z -> Z * list Z;
  fdt_pack : list Z -> Z * list Z;
  fdt_path_offset : list Z -> list Z -> Z;
  fdt_add_subnode : list Z -> Z -> list Z -> Z * list Z;
  fdt_set_name : list Z -> Z -> list Z -> Z * list Z;
  fdt_get_name : list Z -> Z -> option (list Z);
  fdt_setprop : list Z -> Z -> list Z -> list Z -> Z * list Z;
  fdt_getprop : list Z -> Z -> list Z -> option (list Z);
  fdt_get_phandle : list Z -> Z -> Z;
  fdt_find_max_phandle : list Z -> Z * Z;
  fdt_strerror : Z -> option (list Z) }.

(** [Error::Fdt], and a failed slice of [pack]. *)
Inductive fdt_error :=
| FdtError (op message : list Z)
| FdtPanic.

Definition fdt_display (e : fdt_error) : list Z :=
  match e with
  | FdtError op message => chars "fdt: " ++ op ++ chars ": " ++ message
  | FdtPanic => []
  end.

(** [map_err(|e| Error::fdt(op, format!("{}", e)))]; a panic is not an error. *)
Definition fdt_context {A} (op : list Z) (r : result A fdt_error) : result A fdt_error :=
  match r with
  | Ok a => Ok a
  | Err FdtPanic => Err FdtPanic
  | Err e => Err (FdtError op (fdt_display e))
  end.

Record Fdt := mk_fdt { storage : list Z; byte_len : Z }.

Fixpoint nul_position (s : list Z) (i : Z) : option Z :=
  match s with
  | [] => None
  | c :: s => if c =? 0 then Some i else nul_position s (i + 1)
  end.

(** [CString::new]. *)
Definition c_string (op s : list Z) : result (list Z) fdt_error :=
  match nul_position (utf8 s) 0 with
  | None => Ok (utf8 s)
  | Some i => Err (FdtError op (chars "nul byte found in provided data at position: " ++ show_dec i))
  end.

Section bindings.
Context `{L : Libfdt}.

Definition show_i32 (n : Z) : list Z := if n <? 0 then 45 :: show_dec (- n) else show_dec n.

Definition err_str (err : Z) : list Z :=
  match fdt_strerror err with
  | None => chars "fdt error " ++ show_i32 err
  | Some s => s
  end.

Definition check (err : Z) (op : list Z) : result unit fdt_error :=
  if err <? 0 then Err (FdtError op (err_str err)) else Ok tt.

(** [op(arg)]. *)
Definition call (op arg : list Z) : list Z := op ++ [40] ++ arg ++ [41].

Definition open_into (src : list Z) (extra_bytes : Z) : result Fdt fdt_error :=
  let total := Z.of_nat (length src) + extra_bytes in
  let words := (total + 7) / 8 in
  let storage := src ++ replicate (Z.to_nat (words * 8) - length src) 0 in
  let (ret, storage) := fdt_open_into storage total in
  let? _ := check ret (chars "fdt_open_into") in
  Ok (mk_fdt storage total).

Definition path_offset (fdt : Fdt) (path : list Z) : result (option Z) fdt_error :=
  let? c_path := c_string (call (chars "path_offset") path) path in
  let ret := fdt_path_offset (storage fdt) c_path in
  if ret =? -1 then Ok None
  else if ret <? 0 then Err (FdtError (call (chars "path_offset") path) (err_str ret))
  else Ok (Some ret).

Definition add_subnode (fdt : Fdt) (parent : Z) (name : list Z) : result (Z * Fdt) fdt_error :=
  let? c_name := c_string (chars "fdt_add_subnode") name in
  let (ret, storage) := fdt_add_subnode (storage fdt) parent c_name in
  if ret <? 0 then Err (FdtError (call (chars "fdt_add_subnode") name) (err_str ret))
  else Ok (ret, mk_fdt storage (byte_len fdt)).

Definition set_name (fdt : Fdt) (node : Z) (name : list Z) : result Fdt fdt_error :=
  let? c_name := c_string (chars "fdt_set_name") name in
  let (ret, storage) := fdt_set_name (storage fdt) node c_name in
  let? _ := check ret (call (chars "fdt_set_name") name) in
  Ok (mk_fdt storage (byte_len fdt)).

(** The bytes of the name: a name that is not UTF-8 is [None] in the source,
    which its only use does not tell from one that differs. *)
Definition get_name (fdt : Fdt) (node : Z) : option (list Z) := fdt_get_name (storage fdt) node.

Definition setprop (fdt : Fdt) (node : Z) (name value : list Z) : result Fdt fdt_error :=
  let? c_name := c_string (chars "fdt_setprop") name in
  let (ret, storage) := fdt_setprop (storage fdt) node c_name value in
  let? _ := check ret (call (chars "fdt_setprop") name) in
  Ok (mk_fdt storage (byte_len fdt)).

Definition setprop_u32 (fdt : Fdt) (node : Z) (name : list Z) (value : Z) : result Fdt fdt_error :=
  setprop fdt node name (be_bytes 4 value).

Definition setprop_string (fdt : Fdt) (node : Z) (name value : list Z) : result Fdt fdt_error :=
  setprop fdt node name (utf8 value ++ [0]).

Definition getprop (fdt : Fdt) (node : Z) (name : list Z) : option (list Z) :=
  match c_string [] name with
  | Ok c_name => fdt_getprop (storage fdt) node c_name
  | Err _ => None
  end.

Definition get_phandle (fdt : Fdt) (node : Z) : Z := fdt_get_phandle (storage fdt) node.

Definition find_max_phandle (fdt : Fdt) : result Z fdt_error :=
  let (ret, ph) := fdt_find_max_phandle (storage fdt) in
  let? _ := check ret (chars "fdt_find_max_phandle") in
  Ok ph.

(** The [totalsize] word of the header. *)
Definition totalsize (storage : list Z) : Z := be_value (take 4 (drop 4 storage)).

Definition pack (fdt : Fdt) : result (list Z) fdt_error :=
  let (ret, storage) := fdt_pack (storage fdt) in
  let? _ := check ret (chars "fdt_pack") in
  let buf_bytes := take (Z.to_nat (byte_len fdt)) storage in
  if byte_len fdt <? 8 then Err FdtPanic
  else
    let size := totalsize buf_bytes in
    if byte_len fdt <? size then Err FdtPanic else Ok (take (Z.to_nat size) buf_bytes).

End bindings.

(** ** Patching *)

Definition RESERVED_SIZE : Z := 0xC00000.
Definition UART_IRQ : Z := 35.

Inductive BootDevice :=
| Vda (dev : list Z)
| Initramfs (addr len : Z)
| InitramfsAndVda (addr len : Z) (dev : list Z)
| Uboot.

Record VirtioMmioNode := mk_node { node_addr : Z; node_size : Z; node_irq : Z }.

Definition reg64 (addr size : Z) : list Z := be_bytes 8 addr ++ be_bytes 8 size.

Definition memory_name (mem_start : Z) : list Z := chars "memory@" ++ show_hex mem_start.
Definition purgatory_name (pa : Z) : list Z := chars "bhx-purgatory@" ++ show_hex pa.
Definition opensbi_name (mem_start : Z) : list Z := chars "bhx-opensbi-firmware@" ++ show_hex mem_start.
Definition virtio_name (addr : Z) : list Z := chars "virtio@" ++ show_hex addr.
Definition serial_name (addr : Z) : list Z := chars "serial@" ++ show_hex addr.

Definition console_args (virtio_console_attached : bool) : list Z :=
  if virtio_console_attached then chars "console=hvc0 earlycon=sbi" else chars "earlycon=sbi keep_bootcon".

Definition bootargs_of (boot_device : BootDevice) (virtio_console_attached : bool)
    (extra_bootargs : option (list Z)) : list Z :=
  let console_args := console_args virtio_console_attached in
  let base_bootargs :=
    match boot_device with
    | Vda dev => chars "rw " ++ console_args ++ chars " root=/dev/" ++ dev
    | Initramfs addr len =>
        chars "rw " ++ console_args ++ chars " initrd=0x" ++ show_hex addr ++ chars "," ++ show_dec len
    | InitramfsAndVda addr len dev =>
        chars "rw " ++ console_args ++ chars " initrd=0x" ++ show_hex addr ++ chars "," ++ show_dec len
          ++ chars " root=/dev/" ++ dev
    | Uboot => console_args
    end in
  match extra_bootargs with
  | Some ((_ :: _) as extra) => base_bootargs ++ chars " " ++ extra
  | _ => base_bootargs
  end.

Section patching.
Context `{L : Libfdt}.


(** [path_offset(path)?.ok_or_else(...)?]. *)
Definition require_node (fdt : Fdt) (path op message : list Z) : result Z fdt_error :=
  let? o := path_offset fdt path in
  match o with
  | Some node => Ok node
  | None => Err (FdtError op message)
  end.

Definition patch_memory (fdt : Fdt) (mem_start mem_size : Z) : result Fdt fdt_error :=
  let? memory_node := require_node fdt (chars "/memory@400030000000") (chars "path_offset")
                        (chars "memory@400030000000 node not found in DT") in
  let? fdt := setprop fdt memory_node (chars "reg") (reg64 mem_start mem_size) in
  let canonical_name := memory_name mem_start in
  if bool_decide (get_name fdt memory_node = Some canonical_name) then Ok fdt
  else set_name fdt memory_node canonical_name.

Definition patch_chosen (fdt : Fdt) (bootargs : list Z) : result Fdt fdt_error :=
  let? found := path_offset fdt (chars "/chosen") in
  let? (chosen, fdt) := match found with
                        | Some o => Ok (o, fdt)
                        | None => add_subnode fdt 0 (chars "chosen")
                        end in
  let? fdt := setprop fdt chosen (chars "bootargs") (utf8 bootargs ++ [0]) in
  let? (sbi_console, fdt) := add_subnode fdt chosen (chars "sbi-console") in
  let? fdt := setprop fdt sbi_console (chars "compatible") (chars "riscv,sbi-debug-console" ++ [0]) in
  setprop fdt chosen (chars "stdout-path") (chars "/chosen/sbi-console" ++ [0]).

Definition add_reservation (fdt : Fdt) (reserved : Z) (name : list Z) (addr size : Z)
    : result Fdt fdt_error :=
  let? (node, fdt) := add_subnode fdt reserved name in
  let? fdt := setprop fdt node (chars "reg") (reg64 addr size) in
  setprop fdt node (chars "no-map") [].

Definition patch_reserved (fdt : Fdt) (mem_start mem_end : Z) : result Fdt fdt_error :=
  let? found := path_offset fdt (chars "/reserved-memory") in
  let? (reserved, fdt) :=
    match found with
    | Some o => Ok (o, fdt)
    | None =>
        let? (r, fdt) := add_subnode fdt 0 (chars "reserved-memory") in
        let? fdt := setprop_u32 fdt r (chars "#address-cells") 2 in
        let? fdt := setprop_u32 fdt r (chars "#size-cells") 2 in
        let? fdt := setprop fdt r (chars "ranges") [] in
        Ok (r, fdt)
    end in
  let? fdt := add_reservation fdt reserved (chars "memory@4000afa00000") (u64 (mem_end - RESERVED_SIZE))
                RESERVED_SIZE in
  let purg_pa := u64 (mem_start + STATUS_OFFSET) in
  add_reservation fdt reserved (purgatory_name purg_pa) purg_pa 0x1000.

Definition add_virtio_node (fdt : Fdt) (soc plic_phandle : Z) (spec : VirtioMmioNode)
    : result Fdt fdt_error :=
  let? (node, fdt) := add_subnode fdt soc (virtio_name (node_addr spec)) in
  let? fdt := setprop_string fdt node (chars "compatible") (chars "virtio,mmio") in
  let? fdt := setprop fdt node (chars "reg") (reg64 (node_addr spec) (node_size spec)) in
  let? fdt := setprop_u32 fdt node (chars "interrupts") (node_irq spec) in
  setprop_u32 fdt node (chars "interrupt-parent") plic_phandle.

Fixpoint add_virtio_nodes (fdt : Fdt) (soc plic_phandle : Z) (specs : list VirtioMmioNode)
    : result Fdt fdt_error :=
  match specs with
  | [] => Ok fdt
  | spec :: specs =>
      let? fdt := add_virtio_node fdt soc plic_phandle spec in
      add_virtio_nodes fdt soc plic_phandle specs
  end.

Definition add_uart_node (fdt : Fdt) (soc plic_phandle addr : Z) : result Fdt fdt_error :=
  let? (node, fdt) := add_subnode fdt soc (serial_name addr) in
  let? fdt := setprop_string fdt node (chars "compatible") (chars "ns16550a") in
  let? fdt := setprop fdt node (chars "reg") (reg64 addr 0x1000) in
  let? fdt := setprop_u32 fdt node (chars "reg-shift") 2 in
  let? fdt := setprop_u32 fdt node (chars "reg-io-width") 4 in
  let? fdt := setprop_u32 fdt node (chars "clock-frequency") 1843200 in
  let? fdt := setprop_u32 fdt node (chars "current-speed") 115200 in
  let? fdt := setprop_u32 fdt node (chars "interrupts") UART_IRQ in
  setprop_u32 fdt node (chars "interrupt-parent") plic_phandle.

Definition patch_soc (fdt : Fdt) (virtio_nodes : list VirtioMmioNode) (uart_addr : option Z)
    : result Fdt fdt_error :=
  let? soc := require_node fdt (chars "/soc") (chars "path_offset") (chars "soc node not found in DT") in
  let? plic := require_node fdt (chars "/soc/interrupt-controller@c000000") (chars "path_offset")
                 (chars "plic node not found in DT") in
  let plic_phandle := get_phandle fdt plic in
  let? (plic_phandle, fdt) :=
    if plic_phandle =? 0 then
      let? max := find_max_phandle fdt in
      let plic_phandle := u32 (max + 1) in
      let? fdt := setprop_u32 fdt plic (chars "phandle") plic_phandle in
      Ok (plic_phandle, fdt)
    else Ok (plic_phandle, fdt) in
  let? fdt := add_virtio_nodes fdt soc plic_phandle virtio_nodes in
  match uart_addr with
  | None => Ok fdt
  | Some addr => add_uart_node fdt soc plic_phandle addr
  end.

Definition VERIFY : list Z := chars "verify_dtb_invariants".

Definition expect_node (fdt : Fdt) (path : list Z) : result Z fdt_error :=
  let? o := fdt_context path (path_offset fdt path) in
  match o with
  | Some node => Ok node
  | None => Err (FdtError VERIFY (chars "missing " ++ path ++ chars " in patched DTB"))
  end.

Definition expect_node_exists (fdt : Fdt) (path : list Z) : result unit fdt_error :=
  let? _ := expect_node fdt path in Ok tt.

Definition expect_node_with_reg_and_no_map (fdt : Fdt) (path : list Z) (expected_addr expected_size : Z)
    : result unit fdt_error :=
  let? node := expect_node fdt path in
  match getprop fdt node (chars "reg") with
  | None => Err (FdtError VERIFY (path ++ chars " has no `reg` property"))
  | Some reg =>
      if negb (length reg =? 16)%nat then
        Err (FdtError VERIFY (path ++ chars " `reg` is " ++ show_dec (Z.of_nat (length reg)) ++
               chars " bytes, expected 16 (u64 addr + u64 size)"))
      else
        let addr := be_value (take 8 reg) in
        let size := be_value (take 8 (drop 8 reg)) in
        if negb (addr =? expected_addr) || negb (size =? expected_size) then
          Err (FdtError VERIFY (path ++ chars " `reg` is (0x" ++ show_hex addr ++ chars ", 0x" ++ show_hex size ++
                 chars "), expected (0x" ++ show_hex expected_addr ++ chars ", 0x" ++ show_hex expected_size ++
                 chars ")"))
        else match getprop fdt node (chars "no-map") with
             | None => Err (FdtError VERIFY (path ++ chars " missing `no-map` " ++ [0x2014] ++ chars " kernel must not allocate over it"))
             | Some _ => Ok tt
             end
  end.

Definition purgatory_path (pa : Z) : list Z := chars "/reserved-memory/" ++ purgatory_name pa.

Definition verify_dtb_invariants (dtb : list Z) (mem_start : Z) : result unit fdt_error :=
  let? fdt := fdt_context (chars "verify_dtb_invariants/open") (open_into dtb 0) in
  let purg_pa := u64 (mem_start + STATUS_OFFSET) in
  let? _ := expect_node_with_reg_and_no_map fdt (purgatory_path purg_pa) purg_pa 0x1000 in
  let? _ := expect_node_exists fdt (chars "/" ++ memory_name mem_start) in
  let? o := fdt_context (chars "verify/chosen") (path_offset fdt (chars "/chosen")) in
  match o with
  | None => Err (FdtError VERIFY (chars "missing /chosen node in patched DTB"))
  | Some chosen =>
      match getprop fdt chosen (chars "bootargs") with
      | None => Err (FdtError VERIFY (chars "missing /chosen/bootargs in patched DTB"))
      | Some _ => Ok tt
      end
  end.

Definition modify_dtb (dtb_bytes : list Z) (boot_device : BootDevice) (mem_start mem_size : Z)
    (virtio_nodes : list VirtioMmioNode) (uart_addr : option Z) (virtio_console_attached : bool)
    (extra_bootargs : option (list Z)) : result (list Z) fdt_error :=
  let mem_end := u64 (mem_start + mem_size) in
  let? fdt := open_into dtb_bytes 2000 in
  let? fdt := patch_memory fdt mem_start mem_size in
  let? fdt := patch_chosen fdt (bootargs_of boot_device virtio_console_attached extra_bootargs) in
  let? fdt := patch_reserved fdt mem_start mem_end in
  let? fdt := patch_soc fdt virtio_nodes uart_addr in
  let? packed := pack fdt in
  let? _ := verify_dtb_invariants packed mem_start in
  Ok packed.

Definition add_opensbi_reservation_for_release (dtb : list Z) (mem_start : Z) : result (list Z) fdt_error :=
  let? fdt := fdt_context (chars "add_opensbi_reservation/open") (open_into dtb 4096) in
  let? reserved := require_node fdt (chars "/reserved-memory") (chars "add_opensbi_reservation_for_release")
                     (chars "missing /reserved-memory in patched DTB") in
  let? fdt := add_reservation fdt reserved (opensbi_name mem_start) mem_start 0x60000 in
  pack fdt.

End patching.

(** ** What libfdt promises *)

Abbreviation node_path := (list (list Z)).
Abbreviation node_props := (gmap (list Z) (list Z)).
Abbreviation dtree := (list (node_path * node_props)).

(** A name given without a unit address also matches a node that has one. *)
Definition node_name_eq (c n : list Z) : bool :=
  bool_decide (c = n)
  || (negb (existsb (Z.eqb 64) c) && starts_with (c ++ [64]) n).

(** The first child of the node at [i] that has the name. *)
Definition is_child (p : node_path) (c : list Z) (e : node_path * node_props) : Prop :=
  exists n, last e.1 = Some n /\ e.1 = p ++ [n] /\ node_name_eq c n = true.

#[export] Instance is_child_dec p c e : Decision (is_child p c e).
Proof.
  refine (match last e.1 as o return last e.1 = o -> _ with
          | None => fun H => right _
          | Some n => fun H => cast_if (decide (e.1 = p ++ [n] /\ node_name_eq c n = true))
          end eq_refl).
  - by exists n.
  - intros (n' & Hn' & Hc). simplify_eq. done.
  - intros (n & Hn & _). congruence.
Defined.

Definition child (t : dtree) (i : nat) (c : list Z) : option nat :=
  match t !! i with
  | Some (p, _) =>
      match list_find (is_child p c) (drop (S i) t) with
      | Some (k, _) => Some (S i + k)%nat
      | None => None
      end
  | None => None
  end.

Fixpoint descend (t : dtree) (i : nat) (comps : list (list Z)) : option nat :=
  match comps with
  | [] => Some i
  | c :: comps => let! j := child t i c in descend t j comps
  end.

(** The components of a path, between slashes. *)
Fixpoint split_path (s cur : list Z) : list (list Z) :=
  match s with
  | [] => match cur with [] => [] | _ => [rev cur] end
  | c :: s =>
      if c =? 47 then match cur with [] => split_path s [] | _ => rev cur :: split_path s [] end
      else split_path s (c :: cur)
  end.

Definition lookup_path (t : dtree) (p : list Z) : option nat := descend t 0 (split_path p []).

Definition t_add (t : dtree) (i : nat) (p : node_path) (name : list Z) : dtree :=
  take (S i) t ++ (p ++ [name], ∅) :: drop (S i) t.

Definition t_set (t : dtree) (i : nat) (key value : list Z) : dtree :=
  alter (fun e => (e.1, <[key := value]> e.2)) i t.

(** A renamed node takes its descendants with it. *)
Definition rename_path (p : node_path) (name : list Z) (q : node_path) : node_path :=
  if decide (p `prefix_of` q) then removelast p ++ [name] ++ drop (length p) q else q.

Definition t_rename (t : dtree) (p : node_path) (name : list Z) : dtree :=
  (fun e => (rename_path p name e.1, e.2)) <$> t.

(** The root comes first, parents come before their children, and no two nodes
    have the same path. *)
Record tree_wf (t : dtree) : Prop := {
  wf_unique : NoDup t.*1;
  wf_root : t.*1 !! 0%nat = Some [];
  wf_parent : forall j p n, t.*1 !! j = Some (p ++ [n]) -> exists i, (i < j)%nat /\ t.*1 !! i = Some p }.

Definition word_prop (ps : node_props) (name : list Z) : option Z :=
  match ps !! name with
  | Some v => if (length v =? 4)%nat then Some (be_value v) else None
  | None => None
  end.

Definition phandle_of (ps : node_props) : Z :=
  match word_prop ps (chars "phandle") with
  | Some v => v
  | None => match word_prop ps (chars "linux,phandle") with Some v => v | None => 0 end
  end.

Class LibfdtLaws `{L : Libfdt} := {
  tree_of : list Z -> option dtree;
  node_at : list Z -> Z -> option nat;
  law_wf buf t : tree_of buf = Some t -> tree_wf t;
  law_root buf t : tree_of buf = Some t -> node_at buf 0 = Some 0%nat;
  (** The blob ends where its header says. *)
  law_tail buf rest t : tree_of buf = Some t -> tree_of (buf ++ rest) = Some t;
  law_open buf size ret buf' t :
    fdt_open_into buf size = (ret, buf') -> 0 <= ret -> tree_of buf = Some t ->
    tree_of buf' = Some t /\ totalsize buf' = size /\ length buf' = length buf;
  law_pack buf ret buf' t :
    fdt_pack buf = (ret, buf') -> 0 <= ret -> tree_of buf = Some t ->
    8 <= totalsize buf' <= totalsize buf /\ length buf' = length buf /\
    tree_of (take (Z.to_nat (totalsize buf')) buf') = Some t;
  law_path buf path t :
    head path = Some 47 -> tree_of buf = Some t ->
    match lookup_path t path with
    | Some i => 0 <= fdt_path_offset buf path /\ node_at buf (fdt_path_offset buf path) = Some i
    | None => fdt_path_offset buf path = -1
    end;
  law_add buf off name ret buf' t i p ps :
    fdt_add_subnode buf off name = (ret, buf') -> 0 <= ret ->
    tree_of buf = Some t -> node_at buf off = Some i -> t !! i = Some (p, ps) ->
    child t i name = None /\ tree_of buf' = Some (t_add t i p name) /\
    node_at buf' ret = Some (S i) /\
    (forall off' j, node_at buf off' = Some j -> (j <= i)%nat -> node_at buf' off' = Some j) /\
    totalsize buf' = totalsize buf;
  law_set_name buf off name ret buf' t i p ps :
    fdt_set_name buf off name = (ret, buf') -> 0 <= ret ->
    tree_of buf = Some t -> node_at buf off = Some i -> t !! i = Some (p, ps) ->
    NoDup (t_rename t p name).*1 ->
    tree_of buf' = Some (t_rename t p name) /\ totalsize buf' = totalsize buf;
  law_get_name buf off t i p n ps :
    tree_of buf = Some t -> node_at buf off = Some i -> t !! i = Some (p ++ [n], ps) ->
    fdt_get_name buf off = Some n;
  law_setprop buf off key value ret buf' t i :
    fdt_setprop buf off key value = (ret, buf') -> 0 <= ret ->
    tree_of buf = Some t -> node_at buf off = Some i ->
    tree_of buf' = Some (t_set t i key value) /\
    (forall off' j, node_at buf off' = Some j -> (j <= i)%nat -> node_at buf' off' = Some j) /\
    totalsize buf' = totalsize buf;
  law_getprop buf off key t i p ps :
    tree_of buf = Some t -> node_at buf off = Some i -> t !! i = Some (p, ps) ->
    fdt_getprop buf off key = ps !! key;
  law_phandle buf off t i p ps :
    tree_of buf = Some t -> node_at buf off = Some i -> t !! i = Some (p, ps) ->
    fdt_get_phandle buf off = phandle_of ps;
  law_max_phandle buf ret ph t :
    fdt_find_max_phandle buf = (ret, ph) -> 0 <= ret -> tree_of buf = Some t ->
    0 <= ph < U32_MAX /\
    forall p ps, (p, ps) ∈ t -> phandle_of ps <= ph \/ phandle_of ps = U32_MAX }.
