(* ===== verification/DtbProofs.v ===== *)
(** The proofs about [DeviceTree]: what each binding does to the tree that the
    buffer denotes, the patches as scripts of edits by path, the two claims
    about [modify_dtb], the one about the reservation of a release, and a
    library that keeps the laws. *)

From S2P Require Import Prelude Text ChipConsole DeviceTree.

Implicit Types (t : dtree) (p q : node_path) (ps qs : node_props).

(** ** The tree as a map from paths to properties *)

Definition sem (t : dtree) : gmap node_path node_props := list_to_map t.

(** An edit that names its node by path. *)
Inductive edit :=
| AddNode (p : node_path) (name : list Z)
| SetProp (p : node_path) (key value : list Z)
| Rename (p : node_path) (name : list Z).

Definition apply_edit (m : gmap node_path node_props) (e : edit) : gmap node_path node_props :=
  match e with
  | AddNode p name => <[p ++ [name] := ∅]> m
  | SetProp p key value => alter <[key := value]> p m
  | Rename p name => kmap (rename_path p name) m
  end.

Definition run_edits (es : list edit) (m : gmap node_path node_props) : gmap node_path node_props := foldl apply_edit m es.

Lemma run_edits_app es es' m : run_edits (es ++ es') m = run_edits es' (run_edits es m).
Proof. apply foldl_app. Qed.

Lemma node_name_eq_refl n : node_name_eq n n = true.
Proof. unfold node_name_eq. by rewrite bool_decide_true. Qed.

Lemma sem_lookup t i p ps : tree_wf t -> t !! i = Some (p, ps) -> sem t !! p = Some ps.
Proof. intros [Hn _ _] Hi. apply elem_of_list_to_map_1; [done|]. by eapply list_elem_of_lookup_2. Qed.

Lemma fst_lookup (t : dtree) i p : t.*1 !! i = Some p -> exists ps, t !! i = Some (p, ps).
Proof. rewrite list_lookup_fmap, fmap_Some. intros ([q ps] & ? & ->). by exists ps. Qed.

Lemma lookup_fst (t : dtree) i p ps : t !! i = Some (p, ps) -> t.*1 !! i = Some p.
Proof. intros Hi. rewrite list_lookup_fmap. exact (f_equal (fmap fst) Hi). Qed.

Lemma t_set_fst t i k v : (t_set t i k v).*1 = t.*1.
Proof.
  unfold t_set. revert i. induction t as [|[q ps] t IH]; intros [|i]; cbn; [done..|]. f_equal. apply IH.
Qed.

Lemma sem_set t i p ps k v :
  NoDup t.*1 -> t !! i = Some (p, ps) -> sem (t_set t i k v) = alter <[k := v]> p (sem t).
Proof.
  unfold sem, t_set. revert i. induction t as [|[q qs] t IH]; intros i Hn Hi; [done|].
  cbn in Hn. apply NoDup_cons in Hn as [Hq Hn].
  destruct i as [|i]; cbn in Hi |- *.
  - simplify_eq. by rewrite alter_insert_eq.
  - assert (p <> q). { intros ->. apply Hq. apply list_elem_of_fmap. exists (q, ps). split; [done|].
      by eapply list_elem_of_lookup_2. }
    rewrite alter_insert_ne by done. f_equal. by apply (IH i).
Qed.

Lemma child_none t i p ps name :
  tree_wf t -> t !! i = Some (p, ps) -> child t i name = None -> sem t !! (p ++ [name]) = None.
Proof.
  intros [Hn Hr Hp] Hi Hc. apply not_elem_of_list_to_map_1. intros Hin.
  apply list_elem_of_lookup in Hin as [j Hj]. destruct (Hp j p name Hj) as (i' & Hlt & Hi').
  assert (i' = i) as -> by (eapply NoDup_lookup; [exact Hn|exact Hi'|by eapply lookup_fst]).
  apply fst_lookup in Hj as [qs Hj]. unfold child in Hc. rewrite Hi in Hc.
  destruct (list_find _ _) as [[k e]|] eqn:E; [done|]. apply list_find_None in E.
  rewrite Forall_lookup in E. apply (E (j - S i)%nat (p ++ [name], qs)).
  - rewrite lookup_drop. replace (S i + (j - S i))%nat with j by lia. done.
  - exists name. cbn. rewrite last_snoc. split; [done|]. split; [done|]. apply node_name_eq_refl.
Qed.

Lemma sem_add t i p ps name :
  tree_wf t -> t !! i = Some (p, ps) -> child t i name = None ->
  sem (t_add t i p name) = <[p ++ [name] := ∅]> (sem t).
Proof.
  intros Hwf Hi Hc. pose proof (child_none _ _ _ _ _ Hwf Hi Hc) as Hf. unfold sem in *.
  rewrite <- (take_drop (S i) t) in Hf at 1. rewrite <- (take_drop (S i) t) at 2.
  unfold t_add. rewrite !list_to_map_app in *. cbn [list_to_map foldr fst snd].
  rewrite lookup_union_None in Hf. rewrite <- insert_union_r; [done|apply Hf].
Qed.

Lemma t_add_lookup t i p name j : (j <= i)%nat -> (i < length t)%nat -> t_add t i p name !! j = t !! j.
Proof.
  intros Hj Hi. unfold t_add. rewrite lookup_app_l by (rewrite length_take; lia).
  apply lookup_take_lt. lia.
Qed.

Lemma t_add_new t i p name : (i < length t)%nat -> t_add t i p name !! S i = Some (p ++ [name], ∅).
Proof.
  intros Hi. unfold t_add. rewrite lookup_app_r by (rewrite length_take; lia).
  rewrite length_take. by replace (S i - min (S i) (length t))%nat with 0%nat by lia.
Qed.

Lemma t_set_lookup t i k v j p ps :
  t !! j = Some (p, ps) -> exists ps', t_set t i k v !! j = Some (p, ps').
Proof.
  intros Hj. apply fst_lookup. rewrite t_set_fst. by eapply lookup_fst.
Qed.

Lemma sem_rename t p name :
  NoDup t.*1 -> NoDup (t_rename t p name).*1 -> sem (t_rename t p name) = kmap (rename_path p name) (sem t).
Proof.
  intros Hn Hr. unfold sem, kmap.
  assert (E : t_rename t p name = prod_map (rename_path p name) id <$> t).
  { apply list_fmap_ext. by intros i [q qs] _. }
  unfold t_rename in *. rewrite E in Hr |- *. apply list_to_map_proper; [done|].
  apply fmap_Permutation. symmetry. by apply map_to_list_to_map.
Qed.

Lemma child_spec t i c j p ps :
  t !! i = Some (p, ps) -> child t i c = Some j ->
  (i < j)%nat /\ exists n qs, t !! j = Some (p ++ [n], qs) /\ node_name_eq c n = true.
Proof.
  intros Hi. unfold child. rewrite Hi. destruct (list_find _ _) as [[k [q qs]]|] eqn:E; [|done].
  intros [= <-]. apply list_find_Some in E as (Hk & (n & _ & Hq & Hn) & _). cbn in Hq. subst q.
  rewrite lookup_drop in Hk. split; [lia|]. exists n, qs. done.
Qed.

Lemma descend_spec t comps : forall i j p ps,
  t !! i = Some (p, ps) -> descend t i comps = Some j ->
  (i <= j)%nat /\ exists q qs, t !! j = Some (p ++ q, qs) /\
    Forall2 (fun c n => node_name_eq c n = true) comps q.
Proof.
  induction comps as [|c comps IH]; intros i j p ps Hi; cbn [descend].
  - intros [= <-]. split; [lia|]. exists [], ps. rewrite app_nil_r. done.
  - destruct (child t i c) as [k|] eqn:E; [|done]. intros Hd.
    destruct (child_spec _ _ _ _ _ _ Hi E) as (Hlt & n & qs & Hk & Hn).
    destruct (IH _ _ _ _ Hk Hd) as (Hle & q & qs' & Hj & Hf). split; [lia|].
    exists (n :: q), qs'. rewrite cons_middle, app_assoc. split; [done|]. by constructor.
Qed.

Lemma descend_app t cs cs' i : descend t i (cs ++ cs') = let! j := descend t i cs in descend t j cs'.
Proof. revert i. induction cs as [|c cs IH]; intros i; cbn; [done|]. by destruct (child t i c). Qed.

(** ** Ascii strings *)

Definition ascii (s : list Z) : Prop := Forall (fun c => 0 < c < 128) s.

Lemma utf8_ascii s : ascii s -> utf8 s = s.
Proof.
  induction 1 as [|c s Hc _ IH]; [done|]. cbn. unfold utf8_char. replace (c <? 128) with true by lia.
  cbn. f_equal. exact IH.
Qed.

Lemma c_string_ascii op s : ascii s -> c_string op s = Ok s.
Proof.
  intros Ha. unfold c_string. rewrite (utf8_ascii _ Ha).
  assert (H : forall i, nul_position s i = None); [|by rewrite H].
  induction Ha as [|c s Hc _ IH]; intros i; cbn; [done|]. replace (c =? 0) with false by lia. apply IH.
Qed.

Lemma ascii_app s s' : ascii s -> ascii s' -> ascii (s ++ s').
Proof. apply Forall_app_2. Qed.

Lemma ascii_hex n : ascii (show_hex n).
Proof.
  unfold show_hex. assert (H : forall fuel n acc, ascii acc -> ascii (show_hex_aux fuel n acc)).
  { induction fuel as [|fuel IH]; intros m acc Ha; cbn [show_hex_aux]; [done|].
    assert (Ha' : ascii (hex_digit_of (m mod 16) :: acc)).
    { constructor; [|done]. pose proof (Z.mod_pos_bound m 16 ltac:(done)). unfold hex_digit_of.
      destruct (Z.ltb_spec (m mod 16) 10); lia. }
    destruct (m / 16 =? 0); [done|]. by apply IH. }
  apply H. constructor.
Qed.

Definition asciib (s : list Z) : bool := forallb (fun c => (0 <? c) && (c <? 128)) s.

Lemma asciib_spec s : asciib s = true -> ascii s.
Proof.
  unfold asciib, ascii. rewrite forallb_forall, Forall_forall. intros H c Hc.
  specialize (H c ltac:(by apply list_elem_of_In)). lia.
Qed.

(** Literals compute; a name is a literal and a hexadecimal number. *)
(** A path from the root. *)
Definition absolute_path (s : list Z) : Prop := head s = Some 47 /\ ascii s.

Ltac solve_ascii :=
  first [ apply asciib_spec; reflexivity
        | apply ascii_app; [apply asciib_spec; reflexivity | apply ascii_hex]
        | split; [reflexivity | apply asciib_spec; reflexivity] ].

(** ** The operations on buffers, as edits of the map *)

Section specs.
Context `{LL : LibfdtLaws}.

(** The buffer denotes a tree with this content. *)
Definition view (fdt : Fdt) (m : gmap node_path node_props) : Prop :=
  exists t, tree_of (storage fdt) = Some t /\ sem t = m /\ totalsize (storage fdt) = byte_len fdt.

(** The offset denotes the node at position [i], whose path is [p]. *)
Definition handle (fdt : Fdt) (off : Z) (i : nat) (p : node_path) : Prop :=
  exists t ps, tree_of (storage fdt) = Some t /\ node_at (storage fdt) off = Some i /\ t !! i = Some (p, ps).

Definition keeps (fdt fdt' : Fdt) (i : nat) : Prop :=
  forall off j p, handle fdt off j p -> (j <= i)%nat -> handle fdt' off j p.

Lemma keeps_refl fdt i : keeps fdt fdt i.
Proof. by intros off j p. Qed.

Lemma keeps_trans f1 f2 f3 i j : keeps f1 f2 i -> keeps f2 f3 j -> (i <= j)%nat -> keeps f1 f3 i.
Proof. intros H1 H2 Hij off k p Hh Hk. apply H2; [by apply H1|lia]. Qed.

Lemma handle_in fdt m off i p : view fdt m -> handle fdt off i p -> is_Some (m !! p).
Proof.
  intros (t & Ht & <- & _) (t' & ps & Ht' & _ & Hi). simplify_eq. exists ps.
  by eapply sem_lookup; [eapply law_wf|].
Qed.

Lemma setprop_does fdt m off i p key value fdt' :
  view fdt m -> handle fdt off i p -> setprop fdt off key value = Ok fdt' -> ascii key ->
  view fdt' (apply_edit m (SetProp p key value)) /\ keeps fdt fdt' i.
Proof.
  intros (t & Ht & <- & Hs) (t0 & ps & Ht0 & Hn & Hi) H Hk. assert (t = t0) as -> by congruence. revert H. unfold setprop.
  rewrite c_string_ascii by done. destruct (fdt_setprop _ _ _ _) as [ret buf] eqn:E.
  unfold check. destruct (Z.ltb_spec ret 0) as [|Hr]; [done|]. intros [= <-].
  destruct (law_setprop _ _ _ _ _ _ _ _ E Hr Ht0 Hn) as (Ht' & Hkeep & Hs').
  split.
  - exists (t_set t0 i key value). split; [done|]. split; [|cbn [storage byte_len]; congruence].
    eapply sem_set; [|done]. by apply (law_wf _ _ Ht0).
  - intros off' j q (t1 & qs & Ht1 & Hn1 & Hj) Hle. cbn [storage].
    assert (t1 = t0) as -> by congruence. destruct (t_set_lookup t0 i key value j q qs Hj) as [qs' Hj']. exists (t_set t0 i key value), qs'. auto.
Qed.

Lemma add_subnode_does fdt m off i p name node fdt' :
  view fdt m -> handle fdt off i p -> add_subnode fdt off name = Ok (node, fdt') -> ascii name ->
  view fdt' (apply_edit m (AddNode p name)) /\ handle fdt' node (S i) (p ++ [name]) /\ keeps fdt fdt' i /\
  m !! (p ++ [name]) = None.
Proof.
  intros (t & Ht & <- & Hs) (t0 & ps & Ht0 & Hn & Hi) H Hk. assert (t = t0) as -> by congruence. revert H. unfold add_subnode.
  rewrite c_string_ascii by done. destruct (fdt_add_subnode _ _ _) as [ret buf] eqn:E.
  destruct (Z.ltb_spec ret 0) as [|Hr]; [done|]. intros [= <- <-].
  destruct (law_add _ _ _ _ _ _ _ _ _ E Hr Ht0 Hn Hi) as (Hc & Ht' & Hnew & Hkeep & Hs').
  pose proof (law_wf _ _ Ht0) as Hwf. pose proof (lookup_lt_Some _ _ _ Hi) as Hlt.
  repeat split.
  - exists (t_add t0 i p name). split; [done|]. split; [|cbn [storage byte_len]; congruence]. by eapply sem_add.
  - exists (t_add t0 i p name), ∅. split; [done|]. split; [done|]. by apply t_add_new.
  - intros off' j q (t1 & qs & Ht1 & Hn1 & Hj) Hle. cbn [storage].
    assert (t1 = t0) as -> by congruence. exists (t_add t0 i p name), qs. split; [done|]. split; [by auto|]. by rewrite t_add_lookup.
  - by eapply child_none.
Qed.

Lemma path_offset_does fdt m path :
  absolute_path path -> view fdt m ->
  match path_offset fdt path with
  | Ok (Some off) => exists i p, handle fdt off i p /\
      Forall2 (fun c n => node_name_eq c n = true) (split_path path []) p
  | Ok None => True
  | Err _ => False
  end.
Proof.
  intros [Hs Ha] (t & Ht & _ & _). unfold path_offset. rewrite c_string_ascii by done.
  pose proof (law_path _ path _ Hs Ht) as H. unfold lookup_path in H.
  destruct (descend t 0 _) as [i|] eqn:E.
  - destruct H as [H0 Hn]. replace (_ =? -1) with false by lia. replace (_ <? 0) with false by lia.
    destruct (fst_lookup t 0 [] (wf_root _ (law_wf _ _ Ht))) as [ps Hr].
    destruct (descend_spec _ _ _ _ _ _ Hr E) as (_ & q & qs & Hi & Hf). cbn [app] in Hi.
    exists i, q. split; [|done]. by exists t, qs.
  - by rewrite H.
Qed.

Lemma root_handle fdt m : view fdt m -> handle fdt 0 0 [].
Proof.
  intros (t & Ht & _ & _). destruct (fst_lookup t 0 [] (wf_root _ (law_wf _ _ Ht))) as [ps Hr].
  exists t, ps. split; [done|]. split; [by eapply law_root|done].
Qed.

(** A node found below a path that was found before lies behind it. *)
Lemma path_offset_below fdt m a b off off' :
  view fdt m -> path_offset fdt a = Ok (Some off) -> path_offset fdt b = Ok (Some off') ->
  absolute_path a -> absolute_path b -> (exists c, split_path b [] = split_path a [] ++ c) ->
  exists i j p q, handle fdt off i p /\ handle fdt off' j (p ++ q) /\ (i <= j)%nat /\
    Forall2 (fun c n => node_name_eq c n = true) (split_path a []) p /\
    Forall2 (fun c n => node_name_eq c n = true) (split_path b []) (p ++ q).
Proof.
  intros (t & Ht & _ & _) H1 H2 [Sa Ha] [Sb Hb] [c Hc]. revert H1 H2. unfold path_offset. rewrite !c_string_ascii by done.
  pose proof (law_path _ a _ Sa Ht) as Hpa. pose proof (law_path _ b _ Sb Ht) as Hpb. unfold lookup_path in *.
  rewrite Hc in *. rewrite descend_app in Hpb.
  destruct (fst_lookup t 0 [] (wf_root _ (law_wf _ _ Ht))) as [ps Hr].
  destruct (descend t 0 _) as [i|] eqn:E; [|by rewrite Hpa].
  destruct (descend t i c) as [j|] eqn:E'; [|by rewrite Hpb].
  destruct Hpa as [H0 Hn], Hpb as [H0' Hn'].
  replace (fdt_path_offset _ a =? -1) with false by lia. replace (fdt_path_offset _ a <? 0) with false by lia.
  replace (fdt_path_offset _ b =? -1) with false by lia. replace (fdt_path_offset _ b <? 0) with false by lia.
  intros [= <-] [= <-].
  destruct (descend_spec _ _ _ _ _ _ Hr E) as (_ & p & qs & Hi & Hf). cbn [app] in Hi.
  destruct (descend_spec _ _ _ _ _ _ Hi E') as (Hle & q & qs' & Hj & Hf').
  exists i, j, p, q. split; [by exists t, qs|]. split; [by exists t, qs'|]. split; [done|].
  split; [done|]. by apply Forall2_app.
Qed.

Lemma rename_inj p name q q' :
  p <> [] -> ~ (removelast p ++ [name]) `prefix_of` q -> ~ (removelast p ++ [name]) `prefix_of` q' ->
  rename_path p name q = rename_path p name q' -> q = q'.
Proof.
  intros Hp Hq Hq'. unfold rename_path. destruct (decide (p `prefix_of` q)) as [[k ->]|]; cbn.
  - destruct (decide (p `prefix_of` q')) as [[k' ->]|].
    + rewrite !drop_app_length. by intros [= ->]%app_inv_head.
    + intros E. destruct Hq'. rewrite <- E. exists (drop (length p) (p ++ k)). by rewrite <- app_assoc.
  - destruct (decide (p `prefix_of` q')) as [[k' ->]|]; [|done].
    intros E. destruct Hq. rewrite E. exists (drop (length p) (p ++ k')). by rewrite <- app_assoc.
Qed.

Lemma set_name_does fdt m off i p name fdt' :
  ascii name -> view fdt m -> handle fdt off i p -> p <> [] ->
  (forall q, is_Some (m !! q) -> ~ (removelast p ++ [name]) `prefix_of` q) ->
  set_name fdt off name = Ok fdt' -> view fdt' (apply_edit m (Rename p name)).
Proof.
  intros Hk (t & Ht & <- & Hs) (t0 & ps & Ht0 & Hn & Hi) Hp Hfresh. assert (t = t0) as -> by congruence.
  unfold set_name. rewrite c_string_ascii by done. destruct (fdt_set_name _ _ _) as [ret buf] eqn:E.
  unfold check. destruct (Z.ltb_spec ret 0) as [|Hr]; [done|]. intros [= <-].
  pose proof (law_wf _ _ Ht) as Hwf. pose proof (wf_unique _ Hwf) as Hnd.
  assert (Hin : forall q, q ∈ t0.*1 -> ~ (removelast p ++ [name]) `prefix_of` q).
  { intros q Hq. apply Hfresh. apply list_elem_of_lookup in Hq as [j Hj].
    apply fst_lookup in Hj as [qs Hj]. exists qs. by eapply sem_lookup. }
  assert (Hnd' : NoDup (t_rename t0 p name).*1).
  { unfold t_rename. rewrite <- list_fmap_compose. cbn.
    replace (fst ∘ (λ e : list (list Z) * gmap (list Z) (list Z), (rename_path p name e.1, e.2)))
      with (rename_path p name ∘ fst (B := node_props)) by done.
    rewrite list_fmap_compose. apply NoDup_fmap_2_strong; [|done].
    intros q q' Hq Hq' Heq. eapply rename_inj; [done| | |done]; by apply Hin. }
  destruct (law_set_name _ _ _ _ _ _ _ _ _ E Hr Ht Hn Hi Hnd') as (Ht' & Hs').
  exists (t_rename t0 p name). split; [done|]. split; [by apply sem_rename|]. cbn [storage byte_len]. congruence.
Qed.

Lemma get_name_does fdt off i p n : handle fdt off i (p ++ [n]) -> get_name fdt off = Some n.
Proof. intros (t & ps & Ht & Hn & Hi). by eapply law_get_name. Qed.

End specs.

(** ** The patches as scripts of edits *)

Definition MEMORY : list Z := chars "memory@400030000000".
Definition PLIC : list Z := chars "interrupt-controller@c000000".

Definition memory_edits (mem_start mem_size : Z) : list edit :=
  SetProp [MEMORY] (chars "reg") (reg64 mem_start mem_size)
  :: if bool_decide (memory_name mem_start = MEMORY) then [] else [Rename [MEMORY] (memory_name mem_start)].

Definition chosen_edits (chosen bootargs : list Z) : list edit :=
  [ SetProp [chosen] (chars "bootargs") (utf8 bootargs ++ [0]);
    AddNode [chosen] (chars "sbi-console");
    SetProp [chosen; chars "sbi-console"] (chars "compatible") (chars "riscv,sbi-debug-console" ++ [0]);
    SetProp [chosen] (chars "stdout-path") (chars "/chosen/sbi-console" ++ [0]) ].

Definition reservation_edits (reserved name : list Z) (addr size : Z) : list edit :=
  [ AddNode [reserved] name;
    SetProp [reserved; name] (chars "reg") (reg64 addr size);
    SetProp [reserved; name] (chars "no-map") [] ].

Definition new_reserved_edits : list edit :=
  let p := [chars "reserved-memory"] in
  [ AddNode [] (chars "reserved-memory"); SetProp p (chars "#address-cells") (be_bytes 4 2);
    SetProp p (chars "#size-cells") (be_bytes 4 2); SetProp p (chars "ranges") [] ].

Definition reserved_edits (reserved : list Z) (mem_start mem_end : Z) : list edit :=
  reservation_edits reserved (chars "memory@4000afa00000") (u64 (mem_end - RESERVED_SIZE)) RESERVED_SIZE ++
  reservation_edits reserved (purgatory_name (u64 (mem_start + STATUS_OFFSET)))
    (u64 (mem_start + STATUS_OFFSET)) 0x1000.

Definition virtio_edits (soc : list Z) (phandle : Z) (spec : VirtioMmioNode) : list edit :=
  let p := [soc; virtio_name (node_addr spec)] in
  [ AddNode [soc] (virtio_name (node_addr spec));
    SetProp p (chars "compatible") (chars "virtio,mmio" ++ [0]);
    SetProp p (chars "reg") (reg64 (node_addr spec) (node_size spec));
    SetProp p (chars "interrupts") (be_bytes 4 (node_irq spec));
    SetProp p (chars "interrupt-parent") (be_bytes 4 phandle) ].

Definition uart_edits (soc : list Z) (phandle addr : Z) : list edit :=
  let p := [soc; serial_name addr] in
  [ AddNode [soc] (serial_name addr);
    SetProp p (chars "compatible") (chars "ns16550a" ++ [0]);
    SetProp p (chars "reg") (reg64 addr 0x1000);
    SetProp p (chars "reg-shift") (be_bytes 4 2);
    SetProp p (chars "reg-io-width") (be_bytes 4 4);
    SetProp p (chars "clock-frequency") (be_bytes 4 1843200);
    SetProp p (chars "current-speed") (be_bytes 4 115200);
    SetProp p (chars "interrupts") (be_bytes 4 UART_IRQ);
    SetProp p (chars "interrupt-parent") (be_bytes 4 phandle) ].

Definition plic_edits (soc : list Z) (fresh : bool) (phandle : Z) : list edit :=
  if fresh then [SetProp [soc; PLIC] (chars "phandle") (be_bytes 4 phandle)] else [].

Definition soc_edits (soc : list Z) (fresh : bool) (phandle : Z) (specs : list VirtioMmioNode)
    (uart_addr : option Z) : list edit :=
  plic_edits soc fresh phandle ++ flat_map (virtio_edits soc phandle) specs ++
  match uart_addr with Some addr => uart_edits soc phandle addr | None => [] end.

(** A top-level node that is used if it is there and made otherwise. *)
Inductive found_or_made (m : gmap node_path node_props) (name : list Z) (make : list edit)
    : list Z -> list edit -> Prop :=
| found n : is_Some (m !! [n]) -> node_name_eq name n = true -> found_or_made m name make n []
| made : m !! [name] = None -> found_or_made m name make name make.

Create HintDb no_panic.

Section scripts.
Context `{LL : LibfdtLaws}.

Lemma exact_name c n : existsb (Z.eqb 64) c = true -> node_name_eq c n = true -> n = c.
Proof. unfold node_name_eq. intros ->. cbn. rewrite orb_false_r. by intros <-%bool_decide_eq_true. Qed.

Lemma add_reservation_does fdt m off i r name addr size fdt' :
  view fdt m -> handle fdt off i [r] -> add_reservation fdt off name addr size = Ok fdt' -> ascii name ->
  view fdt' (run_edits (reservation_edits r name addr size) m) /\ keeps fdt fdt' i /\ m !! [r; name] = None.
Proof.
  intros V Hd H Ha. unfold add_reservation in H.
  destruct (add_subnode fdt off name) as [[node f1]|] eqn:E1; [|done].
  destruct (add_subnode_does _ _ _ _ _ _ _ _ V Hd E1 Ha) as (V1 & H1 & K1 & Hf).
  destruct (setprop f1 node _ _) as [f2|] eqn:E2; [|done].
  destruct (setprop_does _ _ _ _ _ _ _ _ V1 H1 E2 ltac:(solve_ascii)) as [V2 K2].
  destruct (setprop_does _ _ _ _ _ _ _ _ V2 (K2 _ _ _ H1 ltac:(lia)) H ltac:(solve_ascii)) as [V3 K3].
  split; [exact V3|]. split; [|done].
  eapply keeps_trans; [exact K1| |apply Nat.le_succ_diag_r].
  eapply keeps_trans; [exact K2|exact K3|done].
Qed.

Lemma require_node_does fdt m path op message off :
  view fdt m -> require_node fdt path op message = Ok off -> absolute_path path ->
  path_offset fdt path = Ok (Some off) /\
  exists i p, handle fdt off i p /\ Forall2 (fun c n => node_name_eq c n = true) (split_path path []) p.
Proof.
  intros V H0 Ha. revert H0. unfold require_node. pose proof (path_offset_does fdt m path Ha V) as H.
  destruct (path_offset fdt path) as [[o|]|]; [|done..]. intros [= ->]. done.
Qed.

Lemma patch_memory_does fdt m mem_start mem_size fdt' :
  (memory_name mem_start <> MEMORY -> forall q, is_Some (m !! q) -> ~ [memory_name mem_start] `prefix_of` q) ->
  view fdt m -> patch_memory fdt mem_start mem_size = Ok fdt' ->
  is_Some (m !! [MEMORY]) /\ view fdt' (run_edits (memory_edits mem_start mem_size) m).
Proof.
  intros Hfresh V. unfold patch_memory. intros H.
  destruct (require_node _ _ _ _) as [off|] eqn:E0; [|done].
  destruct (require_node_does _ _ _ _ _ _ V E0 ltac:(solve_ascii)) as (_ & i & p & Hd & Hf).
  change (Forall2 (fun c n => node_name_eq c n = true) [MEMORY] p) in Hf. apply Forall2_cons_inv_l in Hf as (n & l & Hn & Hl & ->).
  apply Forall2_nil_inv_l in Hl as ->. apply exact_name in Hn as ->; [|done].
  split; [by eapply handle_in|].
  destruct (setprop fdt off _ _) as [f1|] eqn:E1; [|done].
  destruct (setprop_does _ _ _ _ _ _ _ _ V Hd E1 ltac:(solve_ascii)) as [V1 K1].
  pose proof (K1 _ _ _ Hd ltac:(lia)) as Hd1. rewrite (get_name_does f1 off i [] MEMORY Hd1) in H.
  unfold memory_edits. destruct (bool_decide_reflect (memory_name mem_start = MEMORY)) as [Heq|Hne].
  - rewrite bool_decide_true in H by congruence. simplify_eq. exact V1.
  - rewrite bool_decide_false in H by congruence.
    refine (set_name_does _ _ _ _ _ _ _ _ V1 Hd1 _ _ H); [solve_ascii|done|].
    intros q Hq. apply (Hfresh Hne). cbn in Hq. by rewrite lookup_alter_is_Some in Hq.
Qed.

Lemma top_level fdt m name off i p :
  view fdt m -> handle fdt off i p -> Forall2 (fun c n => node_name_eq c n = true) [name] p ->
  exists n, p = [n] /\ node_name_eq name n = true /\ is_Some (m !! [n]).
Proof.
  intros V Hd Hf. apply Forall2_cons_inv_l in Hf as (n & l & Hn & Hl & ->).
  apply Forall2_nil_inv_l in Hl as ->. exists n. split; [done|]. split; [done|]. by eapply handle_in.
Qed.

Lemma patch_chosen_does fdt m bootargs fdt' :
  view fdt m -> patch_chosen fdt bootargs = Ok fdt' ->
  exists chosen pre, found_or_made m (chars "chosen") [AddNode [] (chars "chosen")] chosen pre /\
    view fdt' (run_edits (pre ++ chosen_edits chosen bootargs) m).
Proof.
  intros V. unfold patch_chosen. pose proof (path_offset_does fdt m (chars "/chosen") ltac:(solve_ascii) V) as Hp.
  destruct (path_offset fdt _) as [found|]; [|done]. intros H.
  assert (exists off i f1 chosen pre, found_or_made m (chars "chosen") [AddNode [] (chars "chosen")] chosen pre /\
    handle f1 off i [chosen] /\ view f1 (run_edits pre m) /\
    match found with Some o => Ok (o, fdt) | None => add_subnode fdt 0 (chars "chosen") end = Ok (off, f1))
    as (off & i & f1 & chosen & pre & Hfm & Hd & V1 & E).
  { destruct found as [o|].
    - destruct Hp as (i & p & Hd & Hf). destruct (top_level _ _ _ _ _ _ V Hd Hf) as (n & -> & Hn & Hin).
      exists o, i, fdt, n, []. by repeat split; [constructor|..].
    - destruct (add_subnode fdt 0 _) as [[node f1]|] eqn:E1; [|done].
      destruct (add_subnode_does _ _ _ _ _ _ _ _ V (root_handle _ _ V) E1 ltac:(solve_ascii)) as (V1 & H1 & _ & Hf).
      exists node, 1%nat, f1, (chars "chosen"), [AddNode [] (chars "chosen")].
      split; [by constructor|]. done. }
  rewrite E in H. exists chosen, pre. split; [done|]. rewrite run_edits_app.
  destruct (setprop f1 off _ _) as [f2|] eqn:E2; [|done].
  destruct (setprop_does _ _ _ _ _ _ _ _ V1 Hd E2 ltac:(solve_ascii)) as [V2 K2].
  pose proof (K2 _ _ _ Hd ltac:(lia)) as Hd2.
  destruct (add_subnode f2 off _) as [[sbi f3]|] eqn:E3; [|done].
  destruct (add_subnode_does _ _ _ _ _ _ _ _ V2 Hd2 E3 ltac:(solve_ascii)) as (V3 & H3 & K3 & _).
  destruct (setprop f3 sbi _ _) as [f4|] eqn:E4; [|done].
  destruct (setprop_does _ _ _ _ _ _ _ _ V3 H3 E4 ltac:(solve_ascii)) as [V4 K4].
  destruct (setprop_does _ _ _ _ _ _ _ _ V4
    (K4 _ _ _ (K3 _ _ _ Hd2 ltac:(lia)) ltac:(lia)) H ltac:(solve_ascii)) as [V5 _].
  exact V5.
Qed.

(** The next property of the node a handle denotes. *)
Ltac next_set V Hd KK H :=
  lazymatch type of H with
  | match setprop ?f ?off ?k ?v with Ok _ => _ | Err _ => _ end = Ok _ =>
      let E := fresh "E" in let f' := fresh "f" in
      let V' := fresh "V" in let K := fresh "K" in let Hd' := fresh "Hd" in let KK' := fresh "KK" in
      destruct (setprop f off k v) as [f'|] eqn:E; [|discriminate H];
      destruct (setprop_does _ _ _ _ _ _ _ _ V Hd E ltac:(solve_ascii)) as [V' K];
      pose proof (K _ _ _ Hd ltac:(lia)) as Hd';
      pose proof (keeps_trans _ _ _ _ _ KK K ltac:(lia)) as KK';
      clear V KK Hd E K; rename V' into V, Hd' into Hd, KK' into KK
  | setprop ?f ?off ?k ?v = Ok _ =>
      let V' := fresh "V" in let K := fresh "K" in let KK' := fresh "KK" in
      destruct (setprop_does _ _ _ _ _ _ _ _ V Hd H ltac:(solve_ascii)) as [V' K];
      pose proof (keeps_trans _ _ _ _ _ KK K ltac:(lia)) as KK';
      clear V KK H K; rename V' into V, KK' into KK
  end.

Lemma patch_reserved_does fdt m mem_start mem_end fdt' :
  view fdt m -> patch_reserved fdt mem_start mem_end = Ok fdt' ->
  exists reserved pre, found_or_made m (chars "reserved-memory") new_reserved_edits reserved pre /\
    view fdt' (run_edits (pre ++ reserved_edits reserved mem_start mem_end) m).
Proof.
  intros V. unfold patch_reserved.
  pose proof (path_offset_does fdt m (chars "/reserved-memory") ltac:(solve_ascii) V) as Hp.
  destruct (path_offset fdt _) as [found|]; [|done].
  set (get := match found with Some o => Ok (o, fdt) | None => _ end). intros H.
  assert (Hget : match get with Err _ => True | Ok (off, f1) => exists i reserved pre,
    found_or_made m (chars "reserved-memory") new_reserved_edits reserved pre /\
    handle f1 off i [reserved] /\ view f1 (run_edits pre m) end).
  { unfold get. destruct found as [o|].
    - destruct Hp as (i & p & Hd & Hf). destruct (top_level _ _ _ _ _ _ V Hd Hf) as (n & -> & Hn & Hin).
      exists i, n, []. by repeat split; [constructor|..].
    - destruct (add_subnode fdt 0 _) as [[node f1]|] eqn:E1; [|done].
      destruct (add_subnode_does _ _ _ _ _ _ _ _ V (root_handle _ _ V) E1 ltac:(solve_ascii))
        as (V1 & H1 & KK & Hf). unfold setprop_u32. clear get H.
      match goal with |- match ?x with _ => _ end => destruct x as [[off f2]|] eqn:H; [|done] end.
      do 3 next_set V1 H1 KK H. injection H as <- <-.
      exists 1%nat, (chars "reserved-memory"), new_reserved_edits. split; [by constructor|]. done. }
  destruct get as [[off f1]|]; [|done]. destruct Hget as (i & reserved & pre & Hfm & Hd & V1).
  exists reserved, pre. split; [done|]. rewrite run_edits_app. unfold reserved_edits. rewrite run_edits_app.
  destruct (add_reservation f1 off _ _ _) as [f2|] eqn:E2; [|done].
  destruct (add_reservation_does _ _ _ _ _ _ _ _ _ V1 Hd E2 ltac:(solve_ascii)) as (V2 & K2 & _).
  by destruct (add_reservation_does _ _ _ _ _ _ _ _ _ V2 (K2 _ _ _ Hd ltac:(lia)) H ltac:(solve_ascii)) as (V3 & _ & _).
Qed.

Lemma add_virtio_node_does fdt m off i s phandle spec fdt' :
  view fdt m -> handle fdt off i [s] -> add_virtio_node fdt off phandle spec = Ok fdt' ->
  view fdt' (run_edits (virtio_edits s phandle spec) m) /\ keeps fdt fdt' i /\
  m !! [s; virtio_name (node_addr spec)] = None.
Proof.
  intros V Hd. unfold add_virtio_node, setprop_string, setprop_u32. intros H.
  destruct (add_subnode fdt off _) as [[node f1]|] eqn:E1; [|done].
  destruct (add_subnode_does _ _ _ _ _ _ _ _ V Hd E1 ltac:(solve_ascii)) as (V1 & H1 & KK & Hf).
  do 4 next_set V1 H1 KK H. done.
Qed.

Definition virtio_names (specs : list VirtioMmioNode) : list (list Z) :=
  (fun spec => virtio_name (node_addr spec)) <$> specs.

Lemma run_edits_present es m p :
  Forall (fun e => match e with Rename _ _ => False | _ => True end) es ->
  is_Some (m !! p) -> is_Some (run_edits es m !! p).
Proof.
  intros Hes. revert m. induction Hes as [|e es He _ IH]; intros m Hm; [done|]. apply IH.
  destruct e as [q n|q k v|q n]; cbn [apply_edit]; [|by rewrite lookup_alter_is_Some|done].
  destruct (decide (q ++ [n] = p)) as [<-|]; [by rewrite lookup_insert_eq|by rewrite lookup_insert_ne].
Qed.

Lemma add_virtio_nodes_does specs : forall fdt m off i s phandle fdt',
  view fdt m -> handle fdt off i [s] -> add_virtio_nodes fdt off phandle specs = Ok fdt' ->
  view fdt' (run_edits (flat_map (virtio_edits s phandle) specs) m) /\ keeps fdt fdt' i /\
  NoDup (virtio_names specs) /\ forall n, n ∈ virtio_names specs -> m !! [s; n] = None.
Proof.
  induction specs as [|spec specs IH]; intros fdt m off i s phandle fdt' V Hd H; cbn [add_virtio_nodes] in H.
  - injection H as <-. split; [done|]. split; [apply keeps_refl|]. split; [constructor|]. by intros n ?%elem_of_nil.
  - destruct (add_virtio_node fdt off phandle spec) as [f1|] eqn:E1; [|done].
    destruct (add_virtio_node_does _ _ _ _ _ _ _ _ V Hd E1) as (V1 & K1 & Hf).
    destruct (IH _ _ _ _ _ _ _ V1 (K1 _ _ _ Hd ltac:(lia)) H) as (V2 & K2 & Hnd & Hall).
    cbn [flat_map virtio_names fmap list_fmap]. rewrite run_edits_app. split; [exact V2|].
    split; [by eapply keeps_trans|]. fold (virtio_names specs).
    assert (Hpres : forall n, is_Some (m !! [s; n]) -> is_Some (run_edits (virtio_edits s phandle spec) m !! [s; n])).
    { intros n. apply run_edits_present. by repeat constructor. }
    assert (Hhere : is_Some (run_edits (virtio_edits s phandle spec) m !! [s; virtio_name (node_addr spec)])).
    { cbn. rewrite !lookup_alter_is_Some. by rewrite lookup_insert_eq. }
    split.
    + constructor; [|done]. intros Hin%Hall. rewrite Hin in Hhere. by destruct Hhere.
    + intros n [->|Hin]%elem_of_cons; [done|]. destruct (m !! [s; n]) as [x|] eqn:E; [|done].
      specialize (Hpres n ltac:(by rewrite E)). rewrite (Hall n Hin) in Hpres. by destruct Hpres.
Qed.

Lemma add_uart_node_does fdt m off i s phandle addr fdt' :
  view fdt m -> handle fdt off i [s] -> add_uart_node fdt off phandle addr = Ok fdt' ->
  view fdt' (run_edits (uart_edits s phandle addr) m).
Proof.
  intros V Hd. unfold add_uart_node, setprop_string, setprop_u32. intros H.
  destruct (add_subnode fdt off _) as [[node f1]|] eqn:E1; [|done].
  destruct (add_subnode_does _ _ _ _ _ _ _ _ V Hd E1 ltac:(solve_ascii)) as (V1 & H1 & KK & Hf).
  do 8 next_set V1 H1 KK H. done.
Qed.

(** The phandle the new nodes refer to: the interrupt controller's own, or one
    that no node has. *)
Definition phandle_ok (m : gmap node_path node_props) (soc : list Z) (fresh : bool) (phandle : Z) : Prop :=
  exists ps, m !! [soc; PLIC] = Some ps /\
    if fresh then phandle_of ps = 0 /\ 0 < phandle <= U32_MAX /\
      forall p qs, m !! p = Some qs -> phandle_of qs < phandle \/ phandle_of qs = U32_MAX
    else phandle = phandle_of ps /\ phandle <> 0.

Lemma max_phandle_does fdt m ph :
  view fdt m -> find_max_phandle fdt = Ok ph ->
  0 <= ph < U32_MAX /\ forall p qs, m !! p = Some qs -> phandle_of qs <= ph \/ phandle_of qs = U32_MAX.
Proof.
  intros (t & Ht & <- & _). unfold find_max_phandle, check. destruct (fdt_find_max_phandle _) as [ret x] eqn:E.
  destruct (Z.ltb_spec ret 0) as [|Hr]; [done|]. intros [= <-].
  destruct (law_max_phandle _ _ _ _ E Hr Ht) as [Hb Hall]. split; [done|].
  intros p qs Hp. apply (Hall p). by apply elem_of_list_to_map_2.
Qed.

Lemma patch_soc_does fdt m specs uart_addr fdt' :
  view fdt m -> patch_soc fdt specs uart_addr = Ok fdt' ->
  exists soc fresh phandle, is_Some (m !! [soc]) /\ node_name_eq (chars "soc") soc = true /\
    phandle_ok m soc fresh phandle /\ NoDup (virtio_names specs) /\
    view fdt' (run_edits (soc_edits soc fresh phandle specs uart_addr) m).
Proof.
  intros V. unfold patch_soc. intros H.
  destruct (require_node fdt (chars "/soc") _ _) as [so|] eqn:E1; [|done].
  destruct (require_node fdt (chars "/soc/interrupt-controller@c000000") _ _) as [po|] eqn:E2; [|done].
  destruct (require_node_does _ _ _ _ _ _ V E1 ltac:(solve_ascii)) as [P1 _].
  destruct (require_node_does _ _ _ _ _ _ V E2 ltac:(solve_ascii)) as [P2 _].
  destruct (path_offset_below fdt m _ _ _ _ V P1 P2 ltac:(solve_ascii) ltac:(solve_ascii)
    ltac:(by exists [PLIC])) as (i & j & p & q & Hs & Hp & Hij & Hf1 & Hf2).
  destruct (top_level _ _ (chars "soc") _ _ _ V Hs Hf1) as (s & -> & Hsn & Hsi).
  change (Forall2 (fun c n => node_name_eq c n = true) [chars "soc"; PLIC] ([s] ++ q)) in Hf2.
  cbn [app] in Hf2, Hp. apply Forall2_cons in Hf2 as [_ Hf2].
  apply Forall2_cons_inv_l in Hf2 as (n & l & Hn & Hl & ->). apply Forall2_nil_inv_l in Hl as ->.
  apply exact_name in Hn as ->; [|done].
  set (get := if get_phandle fdt po =? 0 then _ else _) in H.
  assert (Hget : match get with Err _ => True | Ok (ph, f1) => exists fresh,
    phandle_ok m s fresh ph /\ view f1 (run_edits (plic_edits s fresh ph) m) /\ handle f1 so i [s] end).
  { unfold get. destruct Hp as (t & ps & Ht & Hn & Hj). pose proof V as (t' & Ht' & Hm & _).
    assert (t' = t) as -> by congruence. pose proof (law_phandle _ _ _ _ _ _ Ht Hn Hj) as Hph.
    unfold get_phandle. rewrite Hph.
    assert (Hl : m !! [s; PLIC] = Some ps) by (rewrite <- Hm; eapply sem_lookup; [by eapply law_wf|done]).
    destruct (Z.eqb_spec (phandle_of ps) 0) as [H0|H0].
    - clear get H. destruct (find_max_phandle fdt) as [mx|] eqn:Em; [|done].
      destruct (max_phandle_does _ _ _ V Em) as [Hb Hall]. unfold setprop_u32.
      assert (Hu : u32 (mx + 1) = mx + 1) by (apply wrap_small; unfold fits, U32_MAX in *; lia).
      rewrite Hu. destruct (setprop fdt po _ _) as [f1|] eqn:Es; [|done].
      destruct (setprop_does _ _ _ _ _ _ _ _ V (ex_intro _ t (ex_intro _ ps (conj Ht (conj Hn Hj)))) Es
        ltac:(solve_ascii)) as [V1 K1].
      exists true. split; [|split; [exact V1|by apply K1]]. exists ps. split; [done|]. split; [done|].
      split; [lia|]. intros p qs Hq. destruct (Hall p qs Hq); [left; lia|by right].
    - exists false. split; [by exists ps|]. by split. }
  destruct get as [[ph f1]|]; [|done]. destruct Hget as (fresh & Hok & V1 & Hs1).
  exists s, fresh, ph. split; [done|]. split; [done|]. split; [done|].
  destruct (add_virtio_nodes f1 so ph specs) as [f2|] eqn:E3; [|done].
  destruct (add_virtio_nodes_does _ _ _ _ _ _ _ _ V1 Hs1 E3) as (V2 & K2 & Hnd & _). split; [done|].
  unfold soc_edits. rewrite !run_edits_app.
  destruct uart_addr as [addr|].
  - by eapply add_uart_node_does; [exact V2|apply K2; [exact Hs1|lia]|].
  - injection H as <-. exact V2.
Qed.

Lemma open_into_does src extra fdt t :
  tree_of src = Some t -> open_into src extra = Ok fdt -> view fdt (sem t).
Proof.
  intros Ht. unfold open_into. destruct (fdt_open_into _ _) as [ret buf] eqn:E. unfold check.
  destruct (Z.ltb_spec ret 0) as [|Hr]; [done|]. intros [= <-].
  destruct (law_open _ _ _ _ _ E Hr (law_tail _ _ _ Ht)) as (Ht' & Hs & _). by exists t.
Qed.

Lemma totalsize_take n l : 8 <= n -> totalsize (take (Z.to_nat n) l) = totalsize l.
Proof.
  intros Hn. unfold totalsize. rewrite skipn_firstn_comm, take_take. do 2 f_equal. lia.
Qed.

Lemma pack_does fdt m :
  view fdt m ->
  match pack fdt with
  | Ok out => exists t, tree_of out = Some t /\ sem t = m
  | Err e => e <> FdtPanic
  end.
Proof.
  intros (t & Ht & Hm & Hs). unfold pack, check. destruct (fdt_pack _) as [ret buf] eqn:E.
  destruct (Z.ltb_spec ret 0) as [|Hr]; [done|].
  destruct (law_pack _ _ _ _ E Hr Ht) as (Hsz & _ & Ht'). rewrite Hs in Hsz.
  replace (byte_len fdt <? 8) with false by lia. rewrite totalsize_take by lia.
  replace (byte_len fdt <? totalsize buf) with false by lia.
  exists t. split; [|done]. rewrite take_take. by rewrite Nat.min_l by lia.
Qed.

(** The source's own errors are not panics. *)
Lemma c_string_no_panic op s : c_string op s <> Err FdtPanic.
Proof. unfold c_string. by destruct (nul_position _ _). Qed.

Lemma path_offset_no_panic fdt (p : list Z) : path_offset fdt p <> Err FdtPanic.
Proof.
  unfold path_offset. pose proof (c_string_no_panic (call (chars "path_offset") p) p).
  destruct (c_string _ _) as [c|e]; [|congruence]. by repeat case_match.
Qed.

Lemma add_subnode_no_panic fdt o n : add_subnode fdt o n <> Err FdtPanic.
Proof.
  unfold add_subnode. pose proof (c_string_no_panic (chars "fdt_add_subnode") n).
  destruct (c_string _ _) as [c|e]; [|congruence]. by repeat case_match.
Qed.

Lemma setprop_no_panic fdt o k v : setprop fdt o k v <> Err FdtPanic.
Proof.
  unfold setprop, check. pose proof (c_string_no_panic (chars "fdt_setprop") k).
  destruct (c_string _ _) as [c|e]; [|congruence]. destruct (fdt_setprop _ _ _ _) as [ret buf].
  by destruct (ret <? 0).
Qed.

Lemma set_name_no_panic fdt o n : set_name fdt o n <> Err FdtPanic.
Proof.
  unfold set_name, check. pose proof (c_string_no_panic (chars "fdt_set_name") n).
  destruct (c_string _ _) as [c|e]; [|congruence]. destruct (fdt_set_name _ _ _) as [ret buf].
  by destruct (ret <? 0).
Qed.

Lemma open_into_no_panic src extra : open_into src extra <> Err FdtPanic.
Proof. unfold open_into, check. destruct (fdt_open_into _ _) as [ret buf]. by destruct (ret <? 0). Qed.

Lemma max_phandle_no_panic fdt : find_max_phandle fdt <> Err FdtPanic.
Proof. unfold find_max_phandle, check. destruct (fdt_find_max_phandle _) as [ret ph]. by destruct (ret <? 0). Qed.

#[local] Hint Resolve path_offset_no_panic add_subnode_no_panic setprop_no_panic set_name_no_panic
  open_into_no_panic max_phandle_no_panic : no_panic.

Lemma fdt_context_no_panic {A} op (r : result A fdt_error) : r <> Err FdtPanic -> fdt_context op r <> Err FdtPanic.
Proof. by destruct r as [|[]]. Qed.

(** Through the calls of a function, each of which cannot panic. *)
Ltac no_panic :=
  repeat first
    [ discriminate
    | solve [eauto with no_panic]
    | match goal with
      | |- (match ?r with Ok _ => _ | Err _ => _ end) <> _ =>
          let N := fresh in
          assert (N : r <> Err FdtPanic) by no_panic; destruct r as [?|?]; [|congruence]
      | |- (match ?o with Some _ => _ | None => _ end) <> _ => destruct o
      | |- (if ?b then _ else _) <> _ => destruct b
      | |- (let (_, _) := ?p in _) <> _ => destruct p
      | |- fdt_context _ _ <> _ => apply fdt_context_no_panic
      end ].

Lemma require_node_no_panic fdt (p : list Z) op msg : require_node fdt p op msg <> Err FdtPanic.
Proof. unfold require_node. no_panic. Qed.

Lemma add_reservation_no_panic fdt r name addr size : add_reservation fdt r name addr size <> Err FdtPanic.
Proof. unfold add_reservation. no_panic. Qed.

#[local] Hint Resolve require_node_no_panic add_reservation_no_panic fdt_context_no_panic : no_panic.

Lemma patch_memory_no_panic fdt s z : patch_memory fdt s z <> Err FdtPanic.
Proof. unfold patch_memory. no_panic. Qed.

Lemma patch_chosen_no_panic fdt b : patch_chosen fdt b <> Err FdtPanic.
Proof. unfold patch_chosen. no_panic. Qed.

Lemma patch_reserved_no_panic fdt s e : patch_reserved fdt s e <> Err FdtPanic.
Proof. unfold patch_reserved, setprop_u32. no_panic. Qed.

Lemma add_virtio_nodes_no_panic specs : forall fdt s ph, add_virtio_nodes fdt s ph specs <> Err FdtPanic.
Proof.
  induction specs as [|spec specs IH]; intros fdt s ph; cbn [add_virtio_nodes]; [done|].
  unfold add_virtio_node, setprop_string, setprop_u32. no_panic.
Qed.

#[local] Hint Resolve add_virtio_nodes_no_panic : no_panic.

Lemma patch_soc_no_panic fdt specs u : patch_soc fdt specs u <> Err FdtPanic.
Proof. unfold patch_soc, add_uart_node, setprop_u32, setprop_string. no_panic. Qed.

Lemma verify_no_panic dtb s : verify_dtb_invariants dtb s <> Err FdtPanic.
Proof. unfold verify_dtb_invariants, expect_node_with_reg_and_no_map, expect_node_exists, expect_node. no_panic. Qed.

Lemma modify_dtb_edits dtb dev mem_start mem_size specs uart con extra t out :
  tree_of dtb = Some t ->
  (memory_name mem_start <> MEMORY -> forall q, is_Some (sem t !! q) -> ~ [memory_name mem_start] `prefix_of` q) ->
  modify_dtb dtb dev mem_start mem_size specs uart con extra = Ok out ->
  exists t' chosen cpre reserved rpre soc fresh phandle,
    let m1 := run_edits (memory_edits mem_start mem_size) (sem t) in
    let m2 := run_edits (cpre ++ chosen_edits chosen (bootargs_of dev con extra)) m1 in
    let m3 := run_edits (rpre ++ reserved_edits reserved mem_start (u64 (mem_start + mem_size))) m2 in
    tree_of out = Some t' /\ is_Some (sem t !! [MEMORY]) /\
    found_or_made m1 (chars "chosen") [AddNode [] (chars "chosen")] chosen cpre /\
    found_or_made m2 (chars "reserved-memory") new_reserved_edits reserved rpre /\
    is_Some (m3 !! [soc]) /\ node_name_eq (chars "soc") soc = true /\ phandle_ok m3 soc fresh phandle /\
    NoDup (virtio_names specs) /\
    sem t' = run_edits (soc_edits soc fresh phandle specs uart) m3 /\
    verify_dtb_invariants out mem_start = Ok tt.
Proof.
  intros Ht Hfresh. unfold modify_dtb. intros H.
  destruct (open_into dtb 2000) as [f0|] eqn:E0; [|done]. pose proof (open_into_does _ _ _ _ Ht E0) as V0.
  destruct (patch_memory f0 _ _) as [f1|] eqn:E1; [|done].
  destruct (patch_memory_does _ _ _ _ _ Hfresh V0 E1) as [Hmem V1].
  destruct (patch_chosen f1 _) as [f2|] eqn:E2; [|done].
  destruct (patch_chosen_does _ _ _ _ V1 E2) as (chosen & cpre & Hc & V2).
  destruct (patch_reserved f2 _ _) as [f3|] eqn:E3; [|done].
  destruct (patch_reserved_does _ _ _ _ _ V2 E3) as (reserved & rpre & Hr & V3).
  destruct (patch_soc f3 _ _) as [f4|] eqn:E4; [|done].
  destruct (patch_soc_does _ _ _ _ _ V3 E4) as (soc & fresh & ph & Hs & Hn & Hp & Hnd & V4).
  pose proof (pack_does _ _ V4) as P. destruct (pack f4) as [packed|] eqn:E5; [|done].
  destruct P as (t' & Ht' & Hsem). destruct (verify_dtb_invariants packed mem_start) as [[]|] eqn:E6; [|done].
  injection H as <-. exists t', chosen, cpre, reserved, rpre, soc, fresh, ph. by repeat split.
Qed.

Lemma modify_dtb_no_panic dtb dev mem_start mem_size specs uart con extra t :
  tree_of dtb = Some t ->
  (memory_name mem_start <> MEMORY -> forall q, is_Some (sem t !! q) -> ~ [memory_name mem_start] `prefix_of` q) ->
  modify_dtb dtb dev mem_start mem_size specs uart con extra <> Err FdtPanic.
Proof.
  intros Ht Hfresh. unfold modify_dtb.
  destruct (open_into dtb 2000) as [f0|e] eqn:E0; [|pose proof (open_into_no_panic dtb 2000); congruence].
  pose proof (open_into_does _ _ _ _ Ht E0) as V0.
  pose proof (patch_memory_no_panic f0 mem_start mem_size).
  destruct (patch_memory f0 _ _) as [f1|] eqn:E1; [|congruence].
  destruct (patch_memory_does _ _ _ _ _ Hfresh V0 E1) as [Hmem V1].
  pose proof (patch_chosen_no_panic f1 (bootargs_of dev con extra)).
  destruct (patch_chosen f1 _) as [f2|] eqn:E2; [|congruence].
  destruct (patch_chosen_does _ _ _ _ V1 E2) as (chosen & cpre & Hc & V2).
  pose proof (patch_reserved_no_panic f2 mem_start (u64 (mem_start + mem_size))).
  destruct (patch_reserved f2 _ _) as [f3|] eqn:E3; [|congruence].
  destruct (patch_reserved_does _ _ _ _ _ V2 E3) as (reserved & rpre & Hr & V3).
  pose proof (patch_soc_no_panic f3 specs uart). destruct (patch_soc f3 _ _) as [f4|] eqn:E4; [|congruence].
  destruct (patch_soc_does _ _ _ _ _ V3 E4) as (soc & fresh & ph & Hs & Hn & Hp & Hnd & V4).
  pose proof (pack_does _ _ V4) as P. destruct (pack f4) as [packed|]; [|congruence].
  pose proof (verify_no_panic packed mem_start).
  destruct (verify_dtb_invariants packed mem_start); [done|congruence].
Qed.

End scripts.

(** C5: Patching by byte offsets that move with every insertion does to the
    device tree exactly the edits by path: the memory node, the chosen node,
    the two reservations, and the devices under the bus, in this order and
    nothing else; a tree whose memory node can be renamed never makes it
    panic. *)
Theorem modify_dtb_refines `{LL : LibfdtLaws} dtb dev mem_start mem_size specs uart con extra t :
  tree_of dtb = Some t ->
  (memory_name mem_start <> MEMORY -> forall q, is_Some (sem t !! q) -> ~ [memory_name mem_start] `prefix_of` q) ->
  match modify_dtb dtb dev mem_start mem_size specs uart con extra with
  | Ok out =>
      exists t' chosen cpre reserved rpre soc fresh phandle,
      let m1 := run_edits (memory_edits mem_start mem_size) (sem t) in
      let m2 := run_edits (cpre ++ chosen_edits chosen (bootargs_of dev con extra)) m1 in
      let m3 := run_edits (rpre ++ reserved_edits reserved mem_start (u64 (mem_start + mem_size))) m2 in
      tree_of out = Some t' /\
      found_or_made m1 (chars "chosen") [AddNode [] (chars "chosen")] chosen cpre /\
      found_or_made m2 (chars "reserved-memory") new_reserved_edits reserved rpre /\
      node_name_eq (chars "soc") soc = true /\ phandle_ok m3 soc fresh phandle /\
      sem t' = run_edits (soc_edits soc fresh phandle specs uart) m3
  | Err e => e <> FdtPanic
  end.
Proof.
  intros Ht Hfresh. pose proof (modify_dtb_no_panic _ dev _ mem_size specs uart con extra _ Ht Hfresh) as N.
  destruct (modify_dtb _ _ _ _ _ _ _ _) as [out|e] eqn:E; [|congruence].
  destruct (modify_dtb_edits _ _ _ _ _ _ _ _ _ _ Ht Hfresh E)
    as (t' & chosen & cpre & reserved & rpre & soc & fresh & ph & Ht' & _ & Hc & Hr & _ & Hn & Hp & _ & Hs & _).
  by exists t', chosen, cpre, reserved, rpre, soc, fresh, ph.
Qed.

(** ** What the guest reads *)

Definition prop_at (m : gmap node_path node_props) (p : node_path) (key : list Z) : option (list Z) :=
  m !! p ≫= fun ps => ps !! key.

(** The edit neither sets the property nor makes the node. *)
Definition leaves (p : node_path) (key : list Z) (e : edit) : Prop :=
  match e with
  | AddNode q n => q ++ [n] <> p
  | SetProp q k _ => q <> p \/ k <> key
  | Rename _ _ => False
  end.

Lemma run_edits_leaves es m p key :
  Forall (leaves p key) es -> prop_at (run_edits es m) p key = prop_at m p key.
Proof.
  intros Hes. revert m. induction Hes as [|e es He _ IH]; intros m; [done|].
  transitivity (prop_at (apply_edit m e) p key); [apply IH|]. unfold prop_at.
  destruct e as [q n|q k v|q n]; cbn [leaves apply_edit] in *; [by rewrite lookup_insert_ne| |done].
  destruct (decide (q = p)) as [->|]; [|by rewrite lookup_alter_ne].
  rewrite lookup_alter_eq. destruct (m !! p) as [ps|]; [|done]. cbn.
  rewrite lookup_insert_ne; [done|]. by destruct He.
Qed.

(** The last edit of a property decides its value. *)
Lemma run_edits_value es1 es2 m p key value :
  is_Some (run_edits es1 m !! p) -> Forall (leaves p key) es2 ->
  prop_at (run_edits (es1 ++ SetProp p key value :: es2) m) p key = Some value.
Proof.
  intros Hp Hes. rewrite run_edits_app.
  change (prop_at (run_edits es2 (apply_edit (run_edits es1 m) (SetProp p key value))) p key = Some value).
  rewrite run_edits_leaves by done. unfold prop_at. cbn.
  rewrite lookup_alter_eq. destruct Hp as [ps ->]. cbn. by rewrite lookup_insert_eq.
Qed.

Lemma run_edits_same es m p : Forall (fun e => forall key, leaves p key e) es -> run_edits es m !! p = m !! p.
Proof.
  intros Hes. revert m. induction Hes as [|e es He _ IH]; intros m; [done|].
  transitivity (apply_edit m e !! p); [apply IH|].
  destruct e as [q n|q k v|q n]; cbn [leaves apply_edit] in *; [|rewrite lookup_alter_ne; [done|]|].
  - by rewrite lookup_insert_ne; [|apply (He [])].
  - by destruct (He k).
  - by destruct (He []).
Qed.

(** A node that matches a name starts with its first character. *)
Lemma node_name_eq_head x c n : node_name_eq (x :: c) n = true -> exists n', n = x :: n'.
Proof.
  unfold node_name_eq. intros [<-%bool_decide_eq_true|[_ H]%andb_true_iff]%orb_true_iff; [by exists c|].
  unfold starts_with in H. destruct n as [|y n]; [done|]. cbn in H.
  destruct (Z.eqb_spec x y) as [->|]; [by exists n|done].
Qed.

Lemma found_or_made_head m x c make n pre :
  found_or_made m (x :: c) make n pre -> exists n', n = x :: n'.
Proof. intros [n0 _ H|_]; [by eapply node_name_eq_head|by exists c]. Qed.

Lemma kmap_lookup (f : node_path -> node_path) m p ps :
  (forall q q', is_Some (m !! q) -> is_Some (m !! q') -> f q = f q' -> q = q') ->
  m !! p = Some ps -> (kmap f m : gmap node_path node_props) !! f p = Some ps.
Proof.
  intros Hinj Hp. unfold kmap. apply elem_of_list_to_map_1.
  - rewrite <- list_fmap_compose. apply NoDup_fmap_2_strong; [|apply NoDup_map_to_list].
    intros [q qs] [q' qs'] Hq%elem_of_map_to_list Hq'%elem_of_map_to_list. cbn. intros Heq.
    apply Hinj in Heq as ->; [|by eexists..]. by simplify_eq.
  - apply list_elem_of_fmap. exists (p, ps). split; [done|]. by apply elem_of_map_to_list.
Qed.

(** The memory node, under its new name. *)
Lemma memory_edits_reg m mem_start mem_size :
  (memory_name mem_start <> MEMORY -> forall q, is_Some (m !! q) -> ~ [memory_name mem_start] `prefix_of` q) ->
  is_Some (m !! [MEMORY]) ->
  prop_at (run_edits (memory_edits mem_start mem_size) m) [memory_name mem_start] (chars "reg") =
    Some (reg64 mem_start mem_size).
Proof.
  intros Hfresh [ps Hps]. unfold memory_edits, prop_at.
  set (reg := reg64 mem_start mem_size).
  assert (H1 : apply_edit m (SetProp [MEMORY] (chars "reg") reg) !! [MEMORY] = Some (<[chars "reg" := reg]> ps)).
  { cbn [apply_edit]. by rewrite lookup_alter_eq, Hps. }
  destruct (bool_decide_reflect (memory_name mem_start = MEMORY)) as [->|Hne]; cbn [run_edits foldl].
  - rewrite H1. cbn. by rewrite lookup_insert_eq.
  - change (apply_edit (apply_edit m (SetProp [MEMORY] (chars "reg") reg)) (Rename [MEMORY] (memory_name mem_start)))
      with (kmap (rename_path [MEMORY] (memory_name mem_start)) (apply_edit m (SetProp [MEMORY] (chars "reg") reg))
            : gmap node_path node_props).
    assert (Hr : rename_path [MEMORY] (memory_name mem_start) [MEMORY] = [memory_name mem_start]).
    { unfold rename_path. by rewrite decide_True. }
    rewrite <- Hr at 1. erewrite kmap_lookup; [|
      |exact H1]; [cbn; by rewrite lookup_insert_eq|].
    intros q q' Hq Hq' Heq. cbn [apply_edit] in Hq, Hq'. rewrite lookup_alter_is_Some in Hq, Hq'.
    eapply rename_inj; [| | |exact Heq]; [done|by apply Hfresh..].
Qed.

Definition no_rename (e : edit) : Prop := match e with Rename _ _ => False | _ => True end.

(** One goal per edit of an explicit list. *)
Ltac each_edit := repeat first [apply Forall_cons_2 | apply Forall_nil_2]; cbn [leaves no_rename app].

(** A property of a node the edits make. *)
Lemma run_edits_made es1 mid es2 m q n key value :
  Forall no_rename mid -> Forall (leaves (q ++ [n]) key) es2 ->
  prop_at (run_edits (es1 ++ AddNode q n :: mid ++ SetProp (q ++ [n]) key value :: es2) m) (q ++ [n]) key = Some value.
Proof.
  intros Hmid Hes.
  replace (es1 ++ AddNode q n :: mid ++ SetProp (q ++ [n]) key value :: es2)
    with ((es1 ++ AddNode q n :: mid) ++ SetProp (q ++ [n]) key value :: es2) by (by rewrite <- app_assoc). apply run_edits_value; [|done].
  rewrite run_edits_app. apply (run_edits_present mid (apply_edit (run_edits es1 m) (AddNode q n))); [done|].
  cbn. by rewrite lookup_insert_eq.
Qed.

Lemma virtio_edits_leave p key soc ph specs :
  (forall n, p <> [soc; chars "virtio@" ++ n]) -> Forall (leaves p key) (flat_map (virtio_edits soc ph) specs).
Proof.
  intros Hp. induction specs as [|spec specs IH]; [constructor|]. cbn [flat_map]. apply Forall_app_2; [|done].
  assert (Hv : [soc; virtio_name (node_addr spec)] <> p) by (intros <-; by eapply Hp).
  each_edit; auto.
Qed.

Lemma soc_edits_leave p key soc fresh ph specs uart :
  (forall n, p <> [soc; chars "virtio@" ++ n]) -> (forall n, p <> [soc; chars "serial@" ++ n]) ->
  p <> [soc; PLIC] \/ key <> chars "phandle" -> Forall (leaves p key) (soc_edits soc fresh ph specs uart).
Proof.
  intros Hv Hs Hp. unfold soc_edits. repeat apply Forall_app_2.
  - destruct fresh; [|constructor]. each_edit. destruct Hp; [left|right]; congruence.
  - by apply virtio_edits_leave.
  - destruct uart as [addr|]; [|constructor].
    assert (Ha : [soc; serial_name addr] <> p) by (intros <-; by eapply Hs).
    each_edit; auto.
Qed.

Lemma reserved_edits_leave p key r mem_start mem_end :
  (forall n, p <> [r; n]) -> Forall (leaves p key) (reserved_edits r mem_start mem_end).
Proof. intros Hp. each_edit; try left; intros <-; by eapply Hp. Qed.

Lemma new_reserved_leave m r pre p key :
  found_or_made m (chars "reserved-memory") new_reserved_edits r pre -> p <> [chars "reserved-memory"] ->
  Forall (leaves p key) pre.
Proof. intros [n _ _|_] Hp; each_edit; try left; by intros <-. Qed.

Lemma new_chosen_leave m c pre p key :
  found_or_made m (chars "chosen") [AddNode [] (chars "chosen")] c pre -> p <> [chars "chosen"] ->
  Forall (leaves p key) pre.
Proof. intros [n _ _|_] Hp; each_edit; by intros <-. Qed.

Section guest_view.
Variables (m1 : gmap node_path node_props) (mem_start mem_end : Z) (bootargs : list Z).
Variables (chosen reserved soc : list Z) (cpre rpre : list edit) (fresh : bool) (phandle : Z).
Variables (specs : list VirtioMmioNode) (uart : option Z).

Let m2 := run_edits (cpre ++ chosen_edits chosen bootargs) m1.
Let m3 := run_edits (rpre ++ reserved_edits reserved mem_start mem_end) m2.
Let m4 := run_edits (soc_edits soc fresh phandle specs uart) m3.

Hypothesis Hchosen : found_or_made m1 (chars "chosen") [AddNode [] (chars "chosen")] chosen cpre.
Hypothesis Hreserved : found_or_made m2 (chars "reserved-memory") new_reserved_edits reserved rpre.
Hypothesis Hphandle : phandle_ok m3 soc fresh phandle.
Hypothesis Hnames : NoDup (virtio_names specs).

Lemma chosen_head : exists n, chosen = 99 :: n.
Proof. exact (found_or_made_head m1 99 (chars "hosen") _ _ _ Hchosen). Qed.

Lemma reserved_head : exists n, reserved = 114 :: n.
Proof. exact (found_or_made_head m2 114 (chars "eserved-memory") _ _ _ Hreserved). Qed.

Lemma view_memory name key :
  key <> chars "bootargs" -> key <> chars "stdout-path" ->
  prop_at m4 [109 :: name] key = prop_at m1 [109 :: name] key.
Proof.
  intros Hb Hs. unfold m4, m3, m2. destruct chosen_head as [cn Hc], reserved_head as [rn Hr].
  rewrite run_edits_leaves by (apply soc_edits_leave; [done..|by left]).
  rewrite run_edits_leaves.
  2:{ apply Forall_app_2; [by eapply new_reserved_leave|by apply reserved_edits_leave]. }
  apply run_edits_leaves. apply Forall_app_2; [by eapply new_chosen_leave|].
  each_edit; try done; left; congruence.
Qed.

Lemma view_chosen :
  prop_at m4 [chosen] (chars "bootargs") = Some (utf8 bootargs ++ [0]) /\
  prop_at m4 [chosen] (chars "stdout-path") = Some (chars "/chosen/sbi-console" ++ [0]).
Proof.
  destruct chosen_head as [cn Hc], reserved_head as [rn Hr]. unfold m4, m3.
  assert (Hlater : forall key, prop_at
    (run_edits (soc_edits soc fresh phandle specs uart)
      (run_edits (rpre ++ reserved_edits reserved mem_start mem_end) m2)) [chosen] key = prop_at m2 [chosen] key).
  { intros key. rewrite Hc. rewrite run_edits_leaves by (apply soc_edits_leave; [done..|by left]).
    apply run_edits_leaves, Forall_app_2; [by eapply new_reserved_leave|by apply reserved_edits_leave]. }
  rewrite !Hlater. unfold m2.
  assert (Hin : is_Some (run_edits cpre m1 !! [chosen])).
  { destruct Hchosen as [n Hn _|_]; [done|]. cbn. by rewrite lookup_insert_eq. }
  split.
  - apply run_edits_value; [done|]. each_edit; try (by right); by intros [=].
  - set (es := chosen_edits chosen bootargs).
    change es with (take 3 es ++ SetProp [chosen] (chars "stdout-path") (chars "/chosen/sbi-console" ++ [0]) :: []).
    rewrite app_assoc. apply run_edits_value; [|constructor]. rewrite run_edits_app.
    apply run_edits_present; [|done]. by each_edit.
Qed.

Lemma view_reserved_pool :
  let p := [reserved; chars "memory@4000afa00000"] in
  prop_at m4 p (chars "reg") = Some (reg64 (u64 (mem_end - RESERVED_SIZE)) RESERVED_SIZE) /\
  prop_at m4 p (chars "no-map") = Some [].
Proof.
  intros p. destruct reserved_head as [rn Hr].
  assert (Hlater : forall key, prop_at m4 p key = prop_at m3 p key).
  { intros key. unfold m4. apply run_edits_leaves, soc_edits_leave; [by intros n [= _]..|left; by intros [= _]]. }
  rewrite !Hlater. unfold m3, reserved_edits, reservation_edits. cbn [app]. split.
  - apply (run_edits_made rpre [] _ m2 [reserved] (chars "memory@4000afa00000")); [constructor|].
    each_edit; try (by right); try left; by intros [=].
  - apply (run_edits_made rpre [SetProp p _ _] _ m2 [reserved] (chars "memory@4000afa00000")); [by each_edit|].
    each_edit; try (by right); try left; by intros [=].
Qed.

Lemma view_purgatory :
  let pa := u64 (mem_start + STATUS_OFFSET) in
  let p := [reserved; purgatory_name pa] in
  prop_at m4 p (chars "reg") = Some (reg64 pa 0x1000) /\ prop_at m4 p (chars "no-map") = Some [].
Proof.
  intros pa p. assert (Hlater : forall key, prop_at m4 p key = prop_at m3 p key).
  { intros key. unfold m4. apply run_edits_leaves, soc_edits_leave; [by intros n [= _]..|left; by intros [= _]]. }
  rewrite !Hlater. unfold m3, reserved_edits. rewrite app_assoc. unfold reservation_edits at 2. fold pa. split.
  - apply (run_edits_made _ [] [_] m2 [reserved] (purgatory_name pa)); [constructor|].
    each_edit. by right.
  - apply (run_edits_made _ [SetProp p _ _] [] m2 [reserved] (purgatory_name pa)); [by each_edit|constructor].
Qed.

Lemma view_virtio spec :
  spec ∈ specs ->
  let p := [soc; virtio_name (node_addr spec)] in
  prop_at m4 p (chars "compatible") = Some (chars "virtio,mmio" ++ [0]) /\
  prop_at m4 p (chars "reg") = Some (reg64 (node_addr spec) (node_size spec)) /\
  prop_at m4 p (chars "interrupts") = Some (be_bytes 4 (node_irq spec)) /\
  prop_at m4 p (chars "interrupt-parent") = Some (be_bytes 4 phandle).
Proof.
  intros Hin p. apply list_elem_of_split in Hin as (l1 & l2 & Hs).
  assert (Hrest : forall key, Forall (leaves p key) (flat_map (virtio_edits soc phandle) l2 ++
    match uart with Some addr => uart_edits soc phandle addr | None => [] end)).
  { intros key. apply Forall_app_2.
    - unfold virtio_names in Hnames. rewrite Hs, fmap_app, fmap_cons in Hnames.
      apply NoDup_app in Hnames as (_ & _ & [Hnot _]%NoDup_cons). clear Hs.
      induction l2 as [|spec' l2 IH]; [constructor|]. rewrite fmap_cons, not_elem_of_cons in Hnot.
      destruct Hnot as [Hne Hnot]. cbn [flat_map]. apply Forall_app_2; [|by apply IH].
      assert (Hv : [soc; virtio_name (node_addr spec')] <> p) by (unfold p; congruence).
      each_edit; auto.
    - destruct uart as [addr|]; [|constructor]. each_edit; try left; unfold p; by intros [=]. }
  assert (Hm4 : m4 = run_edits ((plic_edits soc fresh phandle ++ flat_map (virtio_edits soc phandle) l1) ++
    virtio_edits soc phandle spec ++ flat_map (virtio_edits soc phandle) l2 ++
    match uart with Some addr => uart_edits soc phandle addr | None => [] end) m3).
  { unfold m4, soc_edits. rewrite Hs, flat_map_app. cbn [flat_map]. by rewrite <- !app_assoc. }
  rewrite Hm4. set (F := flat_map (virtio_edits soc phandle)) in *. unfold virtio_edits. cbn [app]. repeat split.
  - apply (run_edits_made _ [] _ m3 [soc] (virtio_name (node_addr spec))); [constructor|].
    each_edit; [by right..|apply Hrest].
  - apply (run_edits_made _ [_] _ m3 [soc] (virtio_name (node_addr spec))); [by each_edit|].
    each_edit; [by right..|apply Hrest].
  - apply (run_edits_made _ [_; _] _ m3 [soc] (virtio_name (node_addr spec))); [by each_edit|].
    each_edit; [by right..|apply Hrest].
  - apply (run_edits_made _ [_; _; _] _ m3 [soc] (virtio_name (node_addr spec))); [by each_edit|].
    apply Hrest.
Qed.

Lemma be_value_bytes n x : fits (8 * Z.of_nat n) x -> be_value (be_bytes n x) = x.
Proof. intros Hx. unfold be_value, be_bytes. rewrite rev_involutive. by apply le_value_le_bytes. Qed.

Lemma view_phandle :
  exists ps, m4 !! [soc; PLIC] = Some ps /\ phandle_of ps = phandle /\ phandle <> 0.
Proof.
  destruct Hphandle as (ps & Hps & Hok). unfold m4, soc_edits. rewrite run_edits_app.
  rewrite run_edits_same.
  - destruct fresh; cbn [plic_edits].
    + destruct Hok as (_ & Hr & _). exists (<[chars "phandle" := be_bytes 4 phandle]> ps).
      split; [unfold run_edits; cbn [foldl apply_edit]; by rewrite lookup_alter_eq, Hps|]. split; [|lia].
      unfold phandle_of, word_prop. rewrite lookup_insert_eq. cbn [length be_bytes].
      change (length (be_bytes 4 phandle) =? 4)%nat with true. cbn match. apply be_value_bytes.
      unfold fits, U32_MAX in *. lia.
    + exists ps. destruct Hok. by repeat split.
  - apply Forall_app_2.
    + apply Forall_forall. intros e He key. revert e He. apply Forall_forall, virtio_edits_leave. by intros n [= _].
    + destruct uart as [addr|]; [|constructor]. each_edit; intros key; try left; by intros [=].
Qed.

End guest_view.

(** The device tree a guest boots with describes exactly its core: memory
    at the given start and size under the matching node name, the boot
    arguments, both reservations unmapped (the virtio region at the top of
    memory and the purgatory page), and every device with its registers, its
    interrupt and the interrupt controller's phandle. *)
Theorem modify_dtb_guest_view `{LL : LibfdtLaws} dtb dev mem_start mem_size specs uart con extra t out :
  tree_of dtb = Some t ->
  (memory_name mem_start <> MEMORY -> forall q, is_Some (sem t !! q) -> ~ [memory_name mem_start] `prefix_of` q) ->
  modify_dtb dtb dev mem_start mem_size specs uart con extra = Ok out ->
  exists t' chosen reserved soc phandle,
    let m := sem t' in
    let purg_pa := u64 (mem_start + STATUS_OFFSET) in
    tree_of out = Some t' /\
    prop_at m [memory_name mem_start] (chars "reg") = Some (reg64 mem_start mem_size) /\
    prop_at m [chosen] (chars "bootargs") = Some (utf8 (bootargs_of dev con extra) ++ [0]) /\
    prop_at m [chosen] (chars "stdout-path") = Some (chars "/chosen/sbi-console" ++ [0]) /\
    prop_at m [reserved; chars "memory@4000afa00000"] (chars "reg") =
      Some (reg64 (u64 (u64 (mem_start + mem_size) - RESERVED_SIZE)) RESERVED_SIZE) /\
    prop_at m [reserved; chars "memory@4000afa00000"] (chars "no-map") = Some [] /\
    prop_at m [reserved; purgatory_name purg_pa] (chars "reg") = Some (reg64 purg_pa 0x1000) /\
    prop_at m [reserved; purgatory_name purg_pa] (chars "no-map") = Some [] /\
    (forall spec, spec ∈ specs ->
      let p := [soc; virtio_name (node_addr spec)] in
      prop_at m p (chars "reg") = Some (reg64 (node_addr spec) (node_size spec)) /\
      prop_at m p (chars "interrupts") = Some (be_bytes 4 (node_irq spec)) /\
      prop_at m p (chars "interrupt-parent") = Some (be_bytes 4 phandle)) /\
    exists ps, m !! [soc; PLIC] = Some ps /\ phandle_of ps = phandle /\ phandle <> 0.
Proof.
  intros Ht Hfresh H. destruct (modify_dtb_edits _ _ _ _ _ _ _ _ _ _ Ht Hfresh H)
    as (t' & chosen & cpre & reserved & rpre & soc & fresh & ph & Ht' & Hmem & Hc & Hr & _ & Hn & Hp & Hnd & Hs & _).
  exists t', chosen, reserved, soc, ph. intros m purg_pa. unfold m. rewrite Hs.
  pose proof (memory_edits_reg (sem t) mem_start mem_size Hfresh Hmem) as Hreg.
  pose proof (view_chosen _ mem_start (u64 (mem_start + mem_size)) _ _ _ soc _ _ fresh ph specs uart Hc Hr Hp) as [V1 V2].
  pose proof (view_reserved_pool _ mem_start (u64 (mem_start + mem_size)) _ _ _ soc _ _ fresh ph specs uart Hr) as [V3 V4].
  pose proof (view_purgatory (run_edits (memory_edits mem_start mem_size) (sem t)) mem_start (u64 (mem_start + mem_size))
    (bootargs_of dev con extra) chosen reserved soc cpre rpre fresh ph specs uart) as [V5 V6].
  pose proof (view_phandle _ mem_start (u64 (mem_start + mem_size)) _ _ _ soc _ _ fresh ph specs uart Hp) as V7.
  refine (conj Ht' (conj _ (conj V1 (conj V2 (conj V3 (conj V4 (conj V5 (conj V6 (conj _ V7))))))))).
  - etransitivity; [|exact Hreg]. refine (view_memory _ _ _ _ _ _ _ _ _ _ _ _ _ Hc Hr _ _ _ _); done.
  - intros spec Hin.
    apply (view_virtio _ mem_start (u64 (mem_start + mem_size)) _ _ _ _ _ _ fresh ph specs uart Hnd spec Hin).
Qed.

(** The reservation a release adds keeps the tree it is given and appends
    one unmapped node over the firmware; with the purgatory page of the patched
    tree the two ranges are apart. *)
Theorem release_reservation `{LL : LibfdtLaws} dtb mem_start t out :
  tree_of dtb = Some t -> fits 63 mem_start ->
  add_opensbi_reservation_for_release dtb mem_start = Ok out ->
  exists t' reserved, tree_of out = Some t' /\
    node_name_eq (chars "reserved-memory") reserved = true /\
    sem t !! [reserved; opensbi_name mem_start] = None /\
    sem t' = run_edits (reservation_edits reserved (opensbi_name mem_start) mem_start 0x60000) (sem t) /\
    (forall p key, p <> [reserved; opensbi_name mem_start] -> prop_at (sem t') p key = prop_at (sem t) p key) /\
    mem_start + 0x60000 <= u64 (mem_start + STATUS_OFFSET).
Proof.
  intros Ht Hfit. unfold add_opensbi_reservation_for_release. intros H.
  destruct (open_into dtb 4096) as [f0|[]] eqn:E0; cbn [fdt_context] in H; [|done..].
  pose proof (open_into_does _ _ _ _ Ht E0) as V0.
  destruct (require_node f0 _ _ _) as [off|] eqn:E1; [|done].
  destruct (require_node_does _ _ _ _ _ _ V0 E1 ltac:(solve_ascii)) as (_ & i & p & Hd & Hf).
  destruct (top_level _ _ _ _ _ _ V0 Hd Hf) as (r & -> & Hn & _).
  destruct (add_reservation f0 off _ _ _) as [f1|] eqn:E2; [|done].
  destruct (add_reservation_does _ _ _ _ _ _ _ _ _ V0 Hd E2 ltac:(solve_ascii)) as (V1 & _ & Hnone).
  pose proof (pack_does _ _ V1) as P. rewrite H in P. destruct P as (t' & Ht' & Hs).
  exists t', r. rewrite Hs. repeat split; try done.
  - intros p key Hp. apply run_edits_leaves. each_edit; [congruence|left; congruence..].
  - unfold u64. rewrite wrap_small; unfold fits, STATUS_OFFSET in *; lia.
Qed.

(** ** A library that keeps the laws

    The tree is one number behind a header of eight bytes, and an offset is a
    position in the tree. *)

Definition wfb (t : dtree) : bool :=
  bool_decide (NoDup t.*1) && bool_decide (t.*1 !! 0%nat = Some []) &&
  forallb (fun j => match t.*1 !! j with
                    | Some ((_ :: _) as q) => bool_decide (removelast q ∈ take j t.*1)
                    | _ => true
                    end) (seq 0 (length t)).

Lemma wfb_spec t : wfb t = true -> tree_wf t.
Proof.
  unfold wfb. intros [[Hn%bool_decide_eq_true Hr%bool_decide_eq_true]%andb_true_iff Hp]%andb_true_iff.
  split; [done..|]. intros j p n Hj. rewrite forallb_forall in Hp.
  assert (Hl : (j < length t)%nat) by (rewrite <- (length_fmap fst); by eapply lookup_lt_Some).
  specialize (Hp j ltac:(apply in_seq; lia)). rewrite Hj in Hp.
  destruct (p ++ [n]) as [|x l] eqn:E; [by destruct p|]. rewrite <- E, removelast_last in Hp.
  apply bool_decide_eq_true, list_elem_of_lookup in Hp as [i Hi]. exists i.
  apply lookup_take_Some in Hi as [Hi Hlt]. done.
Qed.

Module Tagged.

Definition tree_at (buf : list Z) : option dtree :=
  match buf !! 8%nat with
  | Some (Zpos z) => let! tr := decode z in if wfb tr then Some tr else None
  | _ => None
  end.

Definition with_tree (buf : list Z) (t : dtree) : list Z := <[8%nat := Zpos (encode t)]> buf.
Definition with_size (buf : list Z) (n : Z) : list Z := take 4 buf ++ be_bytes 4 n ++ drop 8 buf.
Definition blob (t : dtree) : list Z := replicate 4 0 ++ be_bytes 4 9 ++ [Zpos (encode t)].
Definition position (off : Z) : option nat := if off <? 0 then None else Some (Z.to_nat off).

(** An update that must give a tree again. *)
Definition update (buf : list Z) (off : Z) (f : dtree -> nat -> node_path -> option (Z * dtree)) : Z * list Z :=
  match tree_at buf, position off with
  | Some t, Some i =>
      match t !! i with
      | Some (p, _) =>
          match f t i p with
          | Some (ret, t') => if wfb t' then (ret, with_tree buf t') else (-1, buf)
          | None => (-1, buf)
          end
      | None => (-1, buf)
      end
  | _, _ => (-1, buf)
  end.

Definition node_of (buf : list Z) (off : Z) : option (node_path * node_props) :=
  let! tr := tree_at buf in let! i := position off in tr !! i.

Definition max_phandle (t : dtree) : Z :=
  foldr (fun e acc => if phandle_of e.2 <? U32_MAX then Z.max (phandle_of e.2) acc else acc) 0 t.

#[export] Instance libfdt : Libfdt := {|
  fdt_open_into buf size :=
    if (9 <=? size) && (size <=? U32_MAX) then (0, with_size buf size) else (-3, buf);
  fdt_pack buf := if 9 <=? totalsize buf then (0, with_size buf 9) else (-9, buf);
  fdt_path_offset buf path :=
    match tree_at buf with
    | Some t => match lookup_path t path with Some i => Z.of_nat i | None => -1 end
    | None => -9
    end;
  fdt_add_subnode buf off name :=
    update buf off (fun t i p =>
      match child t i name with
      | Some _ => None
      | None => Some (Z.of_nat (S i), t_add t i p name)
      end);
  fdt_set_name buf off name := update buf off (fun t i p => Some (0, t_rename t p name));
  fdt_get_name buf off := match node_of buf off with Some (p, _) => last p | None => None end;
  fdt_setprop buf off key value := update buf off (fun t i p => Some (0, t_set t i key value));
  fdt_getprop buf off key := match node_of buf off with Some (_, ps) => ps !! key | None => None end;
  fdt_get_phandle buf off := match node_of buf off with Some (_, ps) => phandle_of ps | None => 0 end;
  fdt_find_max_phandle buf :=
    match tree_at buf with
    | Some t => if forallb (fun e => phandle_of e.2 <=? U32_MAX) t then (0, max_phandle t) else (-16, 0)
    | None => (-9, 0)
    end;
  fdt_strerror _ := None |}.

Lemma tree_at_length buf t : tree_at buf = Some t -> (9 <= length buf)%nat.
Proof. unfold tree_at. destruct (buf !! 8%nat) eqn:E; [|done]. intros _. by apply lookup_lt_Some in E. Qed.

Lemma tree_at_wf buf t : tree_at buf = Some t -> wfb t = true.
Proof.
  unfold tree_at. destruct (buf !! 8%nat) as [[|z|z]|]; [done| |done..].
  destruct (decode z) as [t'|]; [|done]. by destruct (wfb t') eqn:E; intros [= <-].
Qed.

Lemma tree_at_with buf t : (9 <= length buf)%nat -> wfb t = true -> tree_at (with_tree buf t) = Some t.
Proof.
  intros Hl Hw. unfold tree_at, with_tree. rewrite list_lookup_insert_eq by lia. by rewrite decode_encode, Hw.
Qed.

Lemma with_tree_size buf t : totalsize (with_tree buf t) = totalsize buf.
Proof.
  unfold totalsize, with_tree. f_equal.
  rewrite drop_insert_ge by lia. by rewrite take_insert_ge by lia.
Qed.

Lemma with_size_tree buf n : (9 <= length buf)%nat -> tree_at (with_size buf n) = tree_at buf.
Proof.
  intros Hl. unfold tree_at, with_size. rewrite lookup_app_r by (rewrite length_take; lia).
  rewrite length_take, Nat.min_l by lia. rewrite lookup_app_r by (cbn; lia).
  rewrite lookup_drop. done.
Qed.

Lemma with_size_length buf n : (9 <= length buf)%nat -> length (with_size buf n) = length buf.
Proof.
  intros Hl. unfold with_size. rewrite !length_app, length_take, length_drop.
  change (length (be_bytes 4 n)) with 4%nat. lia.
Qed.

Lemma with_size_size buf n : (9 <= length buf)%nat -> fits 32 n -> totalsize (with_size buf n) = n.
Proof.
  intros Hl Hn. unfold totalsize, with_size. rewrite drop_app_length' by (rewrite length_take; lia).
  rewrite take_app_length' by done. by apply be_value_bytes.
Qed.

Lemma update_spec buf off f ret buf' t i p ps :
  update buf off f = (ret, buf') -> 0 <= ret -> tree_at buf = Some t -> position off = Some i ->
  t !! i = Some (p, ps) ->
  exists t', f t i p = Some (ret, t') /\ tree_at buf' = Some t' /\ totalsize buf' = totalsize buf.
Proof.
  intros H Hr Ht Hi Hp. unfold update in H. rewrite Ht, Hi, Hp in H.
  destruct (f t i p) as [[r t']|]; [|by simplify_eq]. destruct (wfb t') eqn:Hw; [|by simplify_eq].
  injection H as <- <-. exists t'. split; [done|].
  split; [apply tree_at_with; [by eapply tree_at_length|done]|apply with_tree_size].
Qed.

Lemma position_nat i : position (Z.of_nat i) = Some i.
Proof. unfold position. destruct (Z.ltb_spec (Z.of_nat i) 0); [lia|]. by rewrite Nat2Z.id. Qed.

Lemma node_of_spec buf off t i : tree_at buf = Some t -> position off = Some i -> node_of buf off = t !! i.
Proof. intros Ht Hi. unfold node_of. by rewrite Ht, Hi. Qed.

Lemma max_phandle_bound t : 0 <= max_phandle t < U32_MAX.
Proof.
  unfold max_phandle. induction t as [|[p ps] t IH]; cbn [foldr snd]; [by unfold U32_MAX|].
  destruct (Z.ltb_spec (phandle_of ps) U32_MAX); lia.
Qed.

Lemma max_phandle_ge t p ps :
  (p, ps) ∈ t -> phandle_of ps <= U32_MAX -> phandle_of ps <= max_phandle t \/ phandle_of ps = U32_MAX.
Proof.
  intros Hin Hle. destruct (Z.eq_dec (phandle_of ps) U32_MAX) as [|Hne]; [by right|]. left. unfold max_phandle.
  induction t as [|[q qs] t IH]; [by apply elem_of_nil in Hin|]. cbn [foldr snd].
  apply elem_of_cons in Hin as [[= <- <-]|Hin].
  - replace (_ <? _) with true by lia. lia.
  - specialize (IH Hin). destruct (Z.ltb_spec (phandle_of qs) U32_MAX); lia.
Qed.

#[export] Instance laws : LibfdtLaws.
Proof.
  refine {| tree_of := tree_at; node_at _ off := position off |}.
  - intros buf t Ht. by apply wfb_spec, (tree_at_wf buf).
  - done.
  - intros buf rest t Ht. unfold tree_at. rewrite lookup_app_l by (apply tree_at_length in Ht; lia). exact Ht.
  - cbn. intros buf size ret buf' t H Hr Ht. pose proof (tree_at_length _ _ Ht) as Hl.
    destruct (Z.leb_spec 9 size), (Z.leb_spec size U32_MAX); cbn in H; simplify_eq; try lia.
    rewrite with_size_tree by done. rewrite with_size_size by (done || (unfold fits, U32_MAX in *; lia)).
    split; [done|]. split; [done|]. by apply with_size_length.
  - cbn. intros buf ret buf' t H Hr Ht. pose proof (tree_at_length _ _ Ht) as Hl.
    destruct (Z.leb_spec 9 (totalsize buf)); simplify_eq; [|lia].
    rewrite with_size_size by (done || (unfold fits; lia)). split; [lia|].
    split; [by apply with_size_length|].
    rewrite <- Ht, <- (with_size_tree buf 9) by done. unfold tree_at. by rewrite lookup_take_lt by lia.
  - cbn. intros buf path t _ Ht. rewrite Ht. destruct (lookup_path t path) as [i|]; [|done].
    split; [lia|]. apply position_nat.
  - cbn. intros buf off name ret buf' t i p ps H Hr Ht Hi Hp.
    destruct (update_spec _ _ _ _ _ _ _ _ _ H Hr Ht Hi Hp) as (t' & Hf & Ht' & Hs).
    destruct (child t i name) as [|]; [done|]. injection Hf as <- <-. split; [done|]. split; [done|].
    split; [|by split]. apply (position_nat (S i)).
  - cbn. intros buf off name ret buf' t i p ps H Hr Ht Hi Hp _.
    destruct (update_spec _ _ _ _ _ _ _ _ _ H Hr Ht Hi Hp) as (t' & Hf & Ht' & Hs). by simplify_eq.
  - cbn. intros buf off t i p n ps Ht Hi Hp. rewrite (node_of_spec _ _ _ _ Ht Hi), Hp. by rewrite last_snoc.
  - cbn. intros buf off key value ret buf' t i H Hr Ht Hi.
    destruct (t !! i) as [[p ps]|] eqn:Hp.
    + destruct (update_spec _ _ _ _ _ _ _ _ _ H Hr Ht Hi Hp) as (t' & Hf & Ht' & Hs). by simplify_eq.
    + unfold update in H. rewrite Ht, Hi, Hp in H. by simplify_eq.
  - cbn. intros buf off key t i p ps Ht Hi Hp. by rewrite (node_of_spec _ _ _ _ Ht Hi), Hp.
  - cbn. intros buf off t i p ps Ht Hi Hp. by rewrite (node_of_spec _ _ _ _ Ht Hi), Hp.
  - cbn. intros buf ret ph t H Hr Ht. rewrite Ht in H. destruct (forallb _ t) eqn:Hall; simplify_eq; [|done].
    split; [apply max_phandle_bound|]. intros p ps Hin. apply (max_phandle_ge _ _ _ Hin).
    rewrite forallb_forall in Hall. specialize (Hall (p, ps) ltac:(by apply list_elem_of_In)). cbn in Hall. lia.
Defined.

End Tagged.

(** A card's tree: memory, a bus and its interrupt controller. *)
Definition card_tree : dtree :=
  [ ([], ∅); ([MEMORY], {[ chars "reg" := reg64 0x400030000000 0x100000000 ]});
    ([chars "soc"], ∅); ([chars "soc"; PLIC], {[ chars "phandle" := be_bytes 4 7 ]}) ].

Definition card_dtb : list Z := Tagged.blob card_tree.

Lemma card_dtb_tree : tree_of (LibfdtLaws := Tagged.laws) card_dtb = Some card_tree.
Proof. vm_compute. reflexivity. Qed.

Lemma card_fresh mem_start :
  memory_name mem_start <> MEMORY -> forall q, is_Some (sem card_tree !! q) -> ~ [memory_name mem_start] `prefix_of` q.
Proof.
  intros Hne q [ps Hq%elem_of_list_to_map_2] [k ->]. unfold card_tree in Hq.
  cbn [app] in Hq. apply (list_elem_of_fmap_2 fst) in Hq. cbn [fmap list_fmap fst] in Hq.
  rewrite !elem_of_cons, elem_of_nil in Hq. destruct Hq as [Hq|[Hq|[Hq|[Hq|[]]]]]; [done| |by injection Hq..].
  congruence.
Qed.

(** The fourth core, whose memory starts elsewhere, with two devices. *)
Lemma modify_dtb_guest_view_witness :
  let specs := [mk_node 0x30000000 0x1000 33; mk_node 0x30001000 0x1000 32] in
  match modify_dtb (L := Tagged.libfdt) card_dtb (Vda (chars "vda")) 0x4000b0000000 0x80000000 specs None true None with
  | Ok out => exists t' soc phandle, tree_of (LibfdtLaws := Tagged.laws) out = Some t' /\
      prop_at (sem t') [memory_name 0x4000b0000000] (chars "reg") = Some (reg64 0x4000b0000000 0x80000000) /\
      prop_at (sem t') [soc; virtio_name 0x30001000] (chars "interrupts") = Some [0; 0; 0; 32] /\
      exists ps, sem t' !! [soc; PLIC] = Some ps /\ phandle_of ps = phandle /\ phandle <> 0
  | Err _ => False
  end.
Proof.
  intros specs.
  assert (Hok : is_ok (modify_dtb (L := Tagged.libfdt) card_dtb (Vda (chars "vda")) 0x4000b0000000 0x80000000 specs
    None true None) = true) by (vm_compute; reflexivity).
  destruct (modify_dtb (L := Tagged.libfdt) _ _ _ _ _ _ _ _) as [out|e] eqn:E; [|discriminate Hok].
  destruct (modify_dtb_guest_view (LL := Tagged.laws) _ _ _ _ _ _ _ _ _ _ card_dtb_tree (card_fresh _) E)
    as (t' & chosen & reserved & soc & ph & Ht & Hm & _ & _ & _ & _ & _ & _ & Hv & Hp).
  exists t', soc, ph. destruct (Hv (mk_node 0x30001000 0x1000 32)) as (_ & Hi & _); [right; left|].
  exact (conj Ht (conj Hm (conj Hi Hp))).
Defined.

(** The first core, whose memory node keeps its name, with a serial port. *)
Lemma modify_dtb_refines_witness :
  match modify_dtb (L := Tagged.libfdt) card_dtb Uboot 0x400030000000 0x100000000 [] (Some 0x10000000) false None with
  | Ok out => exists t' chosen cpre reserved rpre soc fresh phandle,
      tree_of (LibfdtLaws := Tagged.laws) out = Some t' /\
      sem t' = run_edits (soc_edits soc fresh phandle [] (Some 0x10000000))
        (run_edits (rpre ++ reserved_edits reserved 0x400030000000 0x400130000000)
          (run_edits (cpre ++ chosen_edits chosen (chars "earlycon=sbi keep_bootcon"))
            (run_edits (memory_edits 0x400030000000 0x100000000) (sem card_tree))))
  | Err _ => False
  end.
Proof.
  assert (Hok : is_ok (modify_dtb (L := Tagged.libfdt) card_dtb Uboot 0x400030000000 0x100000000 []
    (Some 0x10000000) false None) = true) by (vm_compute; reflexivity).
  pose proof (modify_dtb_refines (LL := Tagged.laws) card_dtb Uboot 0x400030000000 0x100000000 [] (Some 0x10000000)
    false None card_tree card_dtb_tree (card_fresh _)) as H.
  destruct (modify_dtb (L := Tagged.libfdt) _ _ _ _ _ _ _ _) as [out|e]; [|discriminate Hok].
  destruct H as (t' & chosen & cpre & reserved & rpre & soc & fresh & ph & Ht & _ & _ & _ & _ & Hs).
  exists t', chosen, cpre, reserved, rpre, soc, fresh, ph. exact (conj Ht Hs).
Defined.

(** A patched tree, released. *)
Definition parked_tree : dtree :=
  [ ([], ∅); ([chars "reserved-memory"], ∅);
    ([chars "reserved-memory"; purgatory_name 0x4000300e0000], {[ chars "no-map" := [] ]}) ].

Lemma release_reservation_witness :
  match add_opensbi_reservation_for_release (L := Tagged.libfdt) (Tagged.blob parked_tree) 0x400030000000 with
  | Ok out => exists t' reserved, tree_of (LibfdtLaws := Tagged.laws) out = Some t' /\
      sem t' = run_edits (reservation_edits reserved (opensbi_name 0x400030000000) 0x400030000000 0x60000)
        (sem parked_tree)
  | Err _ => False
  end.
Proof.
  assert (Hok : is_ok (add_opensbi_reservation_for_release (L := Tagged.libfdt) (Tagged.blob parked_tree)
    0x400030000000) = true) by (vm_compute; reflexivity).
  assert (Ht0 : tree_of (LibfdtLaws := Tagged.laws) (Tagged.blob parked_tree) = Some parked_tree)
    by (vm_compute; reflexivity).
  destruct (add_opensbi_reservation_for_release (Tagged.blob parked_tree) 0x400030000000) as [out|e] eqn:E;
    [|discriminate Hok].
  assert (Hfit : fits 63 0x400030000000) by (split; [discriminate|reflexivity]).
  destruct (release_reservation (LL := Tagged.laws) (Tagged.blob parked_tree) 0x400030000000 parked_tree out Ht0 Hfit E)
    as (t' & r & Ht & _ & _ & Hs & _). exists t', r. exact (conj Ht Hs).
Defined.
