(* ===== verification/Server.v ===== *)
(** The device management of [src/daemon/server.rs] on the state of
    [src/daemon/mod.rs], with the device teardown that
    [src/daemon/chip_console.rs] performs on a park: attaching and removing
    disks, network and console of a booted L2CPU, stopping it, and the step
    back of the PLL.

    [l2cpus] has a key per booted slot.  A handler runs with the locks it
    takes held; it returns the new state and its result, and [None] is a
    panic.  The handlers answer with [reply_ok] or, through their caller, with
    [reply_err], so the reply is the result.  What the host decides (opening
    and mapping an image, a free port, the slirp instance) is the
    argument [Host].  A hub, an input buffer and an L2CPU handle that
    several owners share in the code are copied here: no operation of this
    file reads one of the other copies. *)

From S2P Require Import Prelude Layout Text Virtqueue VirtioBlk ConsoleHub VirtioConsole VirtioRng VirtioNet DataPlane Clock Parse Protocol.

Definition DISK_IRQ : Z := 33.
Definition NET_IRQ : Z := 32.
Definition CONSOLE_IRQ : Z := 31.
Definition RNG_IRQ : Z := 30.
Definition DISK1_IRQ : Z := 29.
Definition DISK2_IRQ : Z := 28.

Definition SSH_BASE_PORT : Z := 2222.
Definition PORTS_PER_CARD : Z := 4.
Definition ssh_port (card idx : Z) : Z :=
  u16 (u16 (SSH_BASE_PORT + idx) + u16 (PORTS_PER_CARD * u16 card)).

Definition MAX_DISKS_PER_L2CPU : Z := 3.

(** ** State *)

Record WorkerHandle := mk_worker { description : list Z }.

Record DiskWorker := mk_disk {
  dw_path : list Z;
  dw_slot_idx : Z;
  dw_name : option (list Z);
  dw_worker : WorkerHandle;
}.

Record VirtioConsoleSlot := mk_vcs { vcs_worker : WorkerHandle; vcs_input_buf : list Z }.

Record L2CpuSlot := mk_slot {
  console_hub : ConsoleHub;
  console_worker : WorkerHandle;
  disks : list DiskWorker;
  dtb_bytes : option (list Z);
  blk_dtb_dev_idx : list Z;
  net : option WorkerHandle;
  virtio_console : option VirtioConsoleSlot;
  virtio_rng : option WorkerHandle;
  boot_payload : option BootPayload;
  net_extra_fwd : list (Z * Z);
}.

Definition set_disks (s : L2CpuSlot) (l : list DiskWorker) : L2CpuSlot :=
  mk_slot (console_hub s) (console_worker s) l (dtb_bytes s) (blk_dtb_dev_idx s) (net s)
    (virtio_console s) (virtio_rng s) (boot_payload s) (net_extra_fwd s).
Definition set_net (s : L2CpuSlot) (n : option WorkerHandle) : L2CpuSlot :=
  mk_slot (console_hub s) (console_worker s) (disks s) (dtb_bytes s) (blk_dtb_dev_idx s) n
    (virtio_console s) (virtio_rng s) (boot_payload s) (net_extra_fwd s).
Definition set_virtio_console (s : L2CpuSlot) (c : option VirtioConsoleSlot) : L2CpuSlot :=
  mk_slot (console_hub s) (console_worker s) (disks s) (dtb_bytes s) (blk_dtb_dev_idx s) (net s)
    c (virtio_rng s) (boot_payload s) (net_extra_fwd s).
Definition set_virtio_rng (s : L2CpuSlot) (r : option WorkerHandle) : L2CpuSlot :=
  mk_slot (console_hub s) (console_worker s) (disks s) (dtb_bytes s) (blk_dtb_dev_idx s) (net s)
    (virtio_console s) r (boot_payload s) (net_extra_fwd s).

(** ** Requests that need no state *)

Definition validate_l2cpu (idx : Z) : result Z Error := if idx <? 4 then Ok idx else Err BadRequest.

Inductive BootSlotDecision := Reject (reason : list Z) | Proceed | TearDownAndProceed.

Definition decide_boot_slot (slot_present force : bool) (idx : Z) : BootSlotDecision :=
  match slot_present, force with
  | false, _ => Proceed
  | true, true => TearDownAndProceed
  | true, false =>
      Reject (chars "l2cpu " ++ show_dec idx ++
              chars " is already booted; stop it first, or re-run with --force")
  end.

Definition validate_add_disk_request (F : Type) (current_count : Z) (name : option (list Z))
    (existing_names : list (option (list Z))) (open_rw : option F) : result F Error :=
  if MAX_DISKS_PER_L2CPU <=? current_count then Err SlotState
  else if match name with
          | Some n => existsb (fun e => bool_decide (e = Some n)) existing_names
          | None => false
          end then Err SlotState
  else ok_or open_rw Io.

Definition validate_remove_disk_request (disks_empty : bool) : result unit Error :=
  if disks_empty then Err SlotState else Ok tt.

Definition pick_free_blk_slot (used eligible : list Z) : option Z :=
  List.find (fun s => bool_decide (s ∈ eligible) && negb (bool_decide (s ∈ used)))
    [DEV_BLK; DEV_BLK1; DEV_BLK2].

Definition irq_for_blk_dev_idx (dev_idx : Z) : option Z :=
  if dev_idx =? DEV_BLK then Some DISK_IRQ
  else if dev_idx =? DEV_BLK1 then Some DISK1_IRQ
  else if dev_idx =? DEV_BLK2 then Some DISK2_IRQ
  else None.

(** ** The daemon *)

(** [Box<dyn VirtioDeviceImpl>]: the four device types. *)
Inductive Device :=
| DBlk (b : VirtioBlk)
| DNet (n : VirtioNet)
| DConsole (c : VirtioConsole)
| DRng (r : VirtioRng).

Definition lift1 {A M} (f : A -> Device) (r : option (A * M)) : option (Device * M) :=
  let! (a, m) := r in Some (f a, m).
Definition lift2 {A M} (f : A -> Device) (r : option (A * M * Z)) : option (Device * M * Z) :=
  let! (a, m, n) := r in Some (f a, m, n).

#[export] Instance DynImpl : VirtioDeviceImpl Device := {|
  num_queues d := match d with
    | DBlk b => num_queues b | DNet n => num_queues n
    | DConsole c => num_queues c | DRng r => num_queues r end;
  queue_header_size d := match d with
    | DBlk b => queue_header_size b | DNet n => queue_header_size n
    | DConsole c => queue_header_size c | DRng r => queue_header_size r end;
  device_id d := match d with
    | DBlk b => device_id b | DNet n => device_id n
    | DConsole c => device_id c | DRng r => device_id r end;
  device_features d := match d with
    | DBlk b => device_features b | DNet n => device_features n
    | DConsole c => device_features c | DRng r => device_features r end;
  process_queue_start d m q a l := match d with
    | DBlk b => lift1 DBlk (process_queue_start b m q a l)
    | DNet n => lift1 DNet (process_queue_start n m q a l)
    | DConsole c => lift1 DConsole (process_queue_start c m q a l)
    | DRng r => lift1 DRng (process_queue_start r m q a l) end;
  process_queue_data d m q a l := match d with
    | DBlk b => lift1 DBlk (process_queue_data b m q a l)
    | DNet n => lift1 DNet (process_queue_data n m q a l)
    | DConsole c => lift1 DConsole (process_queue_data c m q a l)
    | DRng r => lift1 DRng (process_queue_data r m q a l) end;
  process_queue_complete d m q a l := match d with
    | DBlk b => lift2 DBlk (process_queue_complete b m q a l)
    | DNet n => lift2 DNet (process_queue_complete n m q a l)
    | DConsole c => lift2 DConsole (process_queue_complete c m q a l)
    | DRng r => lift2 DRng (process_queue_complete r m q a l) end;
  queue_has_data d q := match d with
    | DBlk b => queue_has_data b q | DNet n => queue_has_data n q
    | DConsole c => queue_has_data c q | DRng r => queue_has_data r q end;
  init_config d m a := match d with
    | DBlk b => init_config b m a | DNet n => init_config n m a
    | DConsole c => init_config c m a | DRng r => init_config r m a end;
|}.

(** What the host answers: the image a path opens to, if it opens, and its
    mapping, if it maps; the counters of an L2CPU; whether a port can be bound;
    whether libslirp gives an instance, and what it will deliver. *)
Record Host := mk_host {
  open_rw : list Z -> option (option (gmap Z Z * Z));
  blk_counters : Z -> BlkMetrics;
  port_free : Z -> bool;
  slirp_open : bool;
  slirp_inbox : list RecvRet;
  net_counters : Z -> NetMetrics;
}.

Record DaemonState := mk_state {
  card : Z;
  l2cpus : gmap Z L2CpuSlot;
  shared_chip : SharedChip;
  tensix_engine : bool;
  dispatcher : option (Dispatcher Device);
  shutdown_tails : gmap Z (list Z);
  shutdown : bool;
  joined : list WorkerHandle;
}.

Definition set_slot (st : DaemonState) (i : Z) (s : L2CpuSlot) : DaemonState :=
  mk_state (card st) (<[i := s]> (l2cpus st)) (shared_chip st) (tensix_engine st) (dispatcher st)
    (shutdown_tails st) (shutdown st) (joined st).
Definition take_slot (st : DaemonState) (i : Z) : DaemonState :=
  mk_state (card st) (delete i (l2cpus st)) (shared_chip st) (tensix_engine st) (dispatcher st)
    (shutdown_tails st) (shutdown st) (joined st).
Definition set_dispatcher (st : DaemonState) (d : option (Dispatcher Device)) : DaemonState :=
  mk_state (card st) (l2cpus st) (shared_chip st) (tensix_engine st) d
    (shutdown_tails st) (shutdown st) (joined st).
Definition set_tail (st : DaemonState) (i : Z) (t : list Z) : DaemonState :=
  mk_state (card st) (l2cpus st) (shared_chip st) (tensix_engine st) (dispatcher st)
    (<[i := t]> (shutdown_tails st)) (shutdown st) (joined st).
Definition set_chip (st : DaemonState) (c : SharedChip) : DaemonState :=
  mk_state (card st) (l2cpus st) c (tensix_engine st) (dispatcher st)
    (shutdown_tails st) (shutdown st) (joined st).

(** The exit flag of the worker is set and its thread joined. *)
Definition stop_and_join (st : DaemonState) (w : WorkerHandle) : DaemonState :=
  mk_state (card st) (l2cpus st) (shared_chip st) (tensix_engine st) (dispatcher st)
    (shutdown_tails st) (shutdown st) (joined st ++ [w]).

Definition option_list {A} (o : option A) : list A := match o with Some a => [a] | None => [] end.

(** [L2CpuSlot::shutdown]: the workers in the order they are joined. *)
Definition slot_workers (s : L2CpuSlot) : list WorkerHandle :=
  List.map dw_worker (disks s) ++ option_list (net s) ++
  List.map vcs_worker (option_list (virtio_console s)) ++ option_list (virtio_rng s).
Definition slot_shutdown (st : DaemonState) (s : L2CpuSlot) : DaemonState :=
  foldl stop_and_join st (slot_workers s ++ [console_worker s]).

Definition unregister_all (d : Dispatcher Device) (ks : list Z) : Dispatcher Device :=
  foldl unregister_slot d ks.

(** ** Disks *)

Definition dispatch_add_disk (h : Host) (st : DaemonState) (i : Z) (path : list Z)
    (name : option (list Z)) : option (DaemonState * result unit Error) :=
  match validate_l2cpu i, l2cpus st !! i with
  | Err e, _ => Some (st, Err e)
  | Ok _, None => Some (st, Err SlotState)
  | Ok _, Some s =>
      match validate_add_disk_request _ (Z.of_nat (length (disks s))) name (List.map dw_name (disks s))
              (open_rw h path) with
      | Err e => Some (st, Err e)
      | Ok disk_image =>
          let l2cpu_base := u32 (i * DEVS_PER_L2CPU) in
          let used := List.map (fun d => u32 (dw_slot_idx d - l2cpu_base)) (disks s) in
          match pick_free_blk_slot used (blk_dtb_dev_idx s) with
          | None => Some (st, Err SlotState)
          | Some dev_idx =>
              let! irq := irq_for_blk_dev_idx dev_idx in
              match dispatcher st, tensix_engine st with
              | Some d, true =>
                  match disk_image with
                  | None => Some (st, Err SlotState)
                  | Some (image, size) =>
                      let blk := from_file_with_serial image size i name (blk_counters h i) in
                      let slot_idx := u32 (l2cpu_base + dev_idx) in
                      let config_addr := u32 (slot_regs_base slot_idx + MMIO_CONFIG) in
                      let w := set_l1 (world d) (init_config blk (w_l1 (world d)) config_addr) in
                      let d := mk_disp (registry d) (uart_registry d) w in
                      let d := register_slot d (entry_new slot_idx i (DBlk blk) irq Block) in
                      let worker := mk_worker (chars "disk l2cpu " ++ show_dec i ++ chars " @ " ++ path
                                               ++ chars " (engine)") in
                      let s := set_disks s (disks s ++ [mk_disk path slot_idx name worker]) in
                      Some (set_slot (set_dispatcher st (Some d)) i s, Ok tt)
                  end
              | _, _ => Some (st, Err SlotState)
              end
          end
      end
  end.

(** The workers to remove, and those that stay. *)
Definition split_disks (name : option (list Z)) (l : list DiskWorker)
    : result (list DiskWorker * list DiskWorker) Error :=
  match name with
  | None => if (1 <? length l)%nat then Err SlotState else Ok (l, [])
  | Some want =>
      let taken := List.filter (fun d => bool_decide (dw_name d = Some want)) l in
      let keep := List.filter (fun d => negb (bool_decide (dw_name d = Some want))) l in
      match taken with [] => Err SlotState | _ => Ok (taken, keep) end
  end.

Definition dispatch_remove_disk (st : DaemonState) (i : Z) (name : option (list Z))
    : DaemonState * result unit Error :=
  match validate_l2cpu i, l2cpus st !! i with
  | Err e, _ => (st, Err e)
  | Ok _, None => (st, Err SlotState)
  | Ok _, Some s =>
      match validate_remove_disk_request (match disks s with [] => true | _ => false end) with
      | Err e => (st, Err e)
      | Ok _ =>
          match split_disks name (disks s) with
          | Err e => (st, Err e)
          | Ok (taken, keep) =>
              let st := set_slot st i (set_disks s keep) in
              let st := set_dispatcher st
                ((fun d => unregister_all d (List.map dw_slot_idx taken)) <$> dispatcher st) in
              (foldl stop_and_join st (List.map dw_worker taken), Ok tt)
          end
      end
  end.

(** ** Network *)

Definition net_slot (i : Z) : Z := u32 (u32 (i * DEVS_PER_L2CPU) + DEV_NET).
Definition console_slot (i : Z) : Z := u32 (u32 (i * DEVS_PER_L2CPU) + DEV_CONSOLE).

Definition dispatch_add_net (h : Host) (st : DaemonState) (i : Z) (ssh_port_override : option Z)
    (extra_fwd : list (Z * Z)) : DaemonState * result unit Error :=
  match validate_l2cpu i, l2cpus st !! i with
  | Err e, _ => (st, Err e)
  | Ok _, None => (st, Err SlotState)
  | Ok _, Some s =>
      if bool_decide (is_Some (net s)) then (st, Err SlotState)
      else
        let ssh := match ssh_port_override with Some p => p | None => ssh_port (card st) i end in
        let forwards := (ssh, 22) :: extra_fwd in
        if negb (forallb (fun f => port_free h f.1) forwards) then (st, Err Io)
        else
          match dispatcher st with
          | None => (st, Err SlotState)
          | Some d =>
              match virtio_net_new (slirp_open h) (slirp_inbox h) (net_counters h i) forwards (card st) i None with
              | None => (st, Err SlotState)
              | Some dev =>
                  let d := register_slot d (entry_new (net_slot i) i (DNet dev) NET_IRQ Net) in
                  let worker := mk_worker (chars "net l2cpu " ++ show_dec i ++ chars " (engine)") in
                  (set_slot (set_dispatcher st (Some d)) i (set_net s (Some worker)), Ok tt)
              end
          end
  end.

(** [dispatch_remove_net] drops the registration first, under the dispatcher
    lock only, and takes the handle later, under the slot lock. *)
Definition remove_net_unregister (st : DaemonState) (i : Z) : DaemonState :=
  set_dispatcher st ((fun d => unregister_slot d (net_slot i)) <$> dispatcher st).

Definition remove_net_take (st : DaemonState) (i : Z) : DaemonState * result unit Error :=
  match l2cpus st !! i with
  | None => (st, Err SlotState)
  | Some s =>
      match net s with
      | None => (st, Err SlotState)
      | Some w => (stop_and_join (set_slot st i (set_net s None)) w, Ok tt)
      end
  end.

Definition dispatch_remove_net (st : DaemonState) (i : Z) : DaemonState * result unit Error :=
  match validate_l2cpu i with
  | Err e => (st, Err e)
  | Ok _ => remove_net_take (remove_net_unregister st i) i
  end.

(** ** Console *)

Definition dispatch_add_console (st : DaemonState) (i : Z) : DaemonState * result unit Error :=
  match validate_l2cpu i, l2cpus st !! i with
  | Err e, _ => (st, Err e)
  | Ok _, None => (st, Err SlotState)
  | Ok _, Some s =>
      if bool_decide (is_Some (virtio_console s)) then (st, Err SlotState)
      else
        match dispatcher st with
        | None => (st, Err SlotState)
        | Some d =>
            let device := console_new (console_hub s) [] in
            let d := register_slot d (entry_new (console_slot i) i (DConsole device) CONSOLE_IRQ Console) in
            let worker := mk_worker (chars "virtio-console l2cpu " ++ show_dec i ++ chars " (engine)") in
            (set_slot (set_dispatcher st (Some d)) i
               (set_virtio_console s (Some (mk_vcs worker []))), Ok tt)
        end
  end.

Definition dispatch_remove_console (st : DaemonState) (i : Z) : DaemonState * result unit Error :=
  match validate_l2cpu i with
  | Err e => (st, Err e)
  | Ok _ =>
      let st := set_dispatcher st
        ((fun d => unregister_slot d (console_slot i)) <$> dispatcher st) in
      match l2cpus st !! i with
      | None => (st, Err SlotState)
      | Some s =>
          match virtio_console s with
          | None => (st, Err SlotState)
          | Some vc => (stop_and_join (set_slot st i (set_virtio_console s None)) (vcs_worker vc), Ok tt)
          end
      end
  end.

(** ** Stopping an L2CPU *)

Definition unregister_engine_slots (st : DaemonState) (i : Z) : DaemonState :=
  let base := u32 (i * DEVS_PER_L2CPU) in
  set_dispatcher st ((fun d =>
    unregister_uart (unregister_all d
      (List.map (fun dev => u32 (base + Z.of_nat dev)) (seq 0 (Z.to_nat DEVS_PER_L2CPU)))) i)
    <$> dispatcher st).

(** The loop over the reset bits, and the step down once none is running. *)
Fixpoint idle_unless_running (c : SharedChip) (idxs : list Z) : option SharedChip :=
  match idxs with
  | [] => idle_pll c
  | i :: idxs =>
      let! r := l2cpu_is_running c i in
      match r with
      | Ok true => Some c
      | Ok false => idle_unless_running c idxs
      | Err _ => Some c
      end
  end.

Definition maybe_idle_pll (st : DaemonState) : option DaemonState :=
  if bool_decide (l2cpus st = ∅) then
    let! c := idle_unless_running (shared_chip st) [0; 1; 2; 3] in Some (set_chip st c)
  else Some st.

Definition internal_stop (st : DaemonState) (i : Z) (reason : list Z)
    : option (DaemonState * result bool Error) :=
  match validate_l2cpu i with
  | Err e => Some (st, Err e)
  | Ok _ =>
      match l2cpus st !! i with
      | None => Some (st, Ok false)
      | Some s =>
          let st := take_slot st i in
          let hub := (disconnect_all_with_reason (console_hub s)
            (chars "l2cpu " ++ show_dec i ++ chars " stopped (" ++ reason ++ chars ")")).1 in
          let st := set_tail st i (tail hub SHUTDOWN_TAIL_BYTES) in
          let st := unregister_engine_slots st i in
          let st := slot_shutdown st s in
          let! st := maybe_idle_pll st in
          Some (st, Ok true)
      end
  end.

Definition dispatch_stop (st : DaemonState) (i : Z) : option (DaemonState * result unit Error) :=
  let! (st, r) := internal_stop st i (chars "client-requested") in
  Some (st, match r with
            | Ok true => Ok tt
            | Ok false => Err SlotState
            | Err e => Err e
            end).

Definition dispatch_shutdown (st : DaemonState) : DaemonState * result unit Error :=
  (mk_state (card st) (l2cpus st) (shared_chip st) (tensix_engine st) (dispatcher st)
     (shutdown_tails st) true (joined st), Ok tt).

(** ** Device teardown on a park *)

Definition drop_net_for_reboot (st : DaemonState) (i : Z) : DaemonState * option (list (Z * Z)) :=
  match l2cpus st !! i with
  | None => (st, None)
  | Some s =>
      match boot_payload s, net s with
      | Some _, Some w =>
          let st := set_slot st i (set_net s None) in
          let st := set_dispatcher st ((fun d => unregister_slot d (net_slot i)) <$> dispatcher st) in
          (stop_and_join st w, Some (net_extra_fwd s))
      | _, _ => (st, None)
      end
  end.

(** [pair] is whether the throwaway socket pair could be made. *)
Definition reattach_net_for_reboot (h : Host) (pair : bool) (st : DaemonState) (i : Z)
    (extra_fwd : list (Z * Z)) : DaemonState * result unit Error :=
  if pair then dispatch_add_net h st i None extra_fwd else (st, Err Io).

Definition drop_workers_on_shutdown_park (st : DaemonState) (i : Z) : DaemonState :=
  match l2cpus st !! i with
  | None => st
  | Some s =>
      let st := set_slot st i (set_virtio_rng (set_virtio_console (set_net (set_disks s []) None) None) None) in
      let base := u32 (i * DEVS_PER_L2CPU) in
      let ks := List.map dw_slot_idx (disks s)
        ++ (if bool_decide (is_Some (net s)) then [u32 (base + DEV_NET)] else [])
        ++ (if bool_decide (is_Some (virtio_console s)) then [u32 (base + DEV_CONSOLE)] else [])
        ++ (if bool_decide (is_Some (virtio_rng s)) then [u32 (base + DEV_RNG)] else []) in
      let st := set_dispatcher st ((fun d => unregister_all d ks) <$> dispatcher st) in
      foldl stop_and_join st (slot_workers s)
  end.

(** ** Slots and registrations in step *)

(** What a registration says: the slot, the L2CPU, the label and type of the
    device, its interrupt, and the serial of a disk. *)
Definition view : Type := Z * Z * InterruptKind * InterruptKind * Z * option (option (list Z)).

Definition device_kind (d : Device) : InterruptKind :=
  match d with DBlk _ => Block | DNet _ => Net | DConsole _ => Console | DRng _ => Rng end.

Definition entry_view (e : RegEntry Device) : view :=
  (re_slot e, re_l2cpu e, re_kind e, device_kind (re_device e), re_interrupt_number e,
   match re_device e with DBlk b => Some (serial b) | _ => None end).

Definition disk_at (k : Z) (l : list DiskWorker) : option DiskWorker :=
  List.find (fun d => dw_slot_idx d =? k) l.

(** What slot [k] should have registered, given the L2CPU it belongs to. *)
Definition expected (k i : Z) (s : L2CpuSlot) : option view :=
  let dev := k mod DEVS_PER_L2CPU in
  if dev =? DEV_NET then (fun _ => (k, i, Net, Net, NET_IRQ, None)) <$> net s
  else if dev =? DEV_CONSOLE then (fun _ => (k, i, Console, Console, CONSOLE_IRQ, None)) <$> virtio_console s
  else if dev =? DEV_RNG then (fun _ => (k, i, Rng, Rng, RNG_IRQ, None)) <$> virtio_rng s
  else
    let! irq := irq_for_blk_dev_idx dev in
    (fun d => (k, i, Block, Block, irq, Some (dw_name d))) <$> disk_at k (disks s).

Definition expected_at (l : gmap Z L2CpuSlot) (k : Z) : option view :=
  let! s := l !! (k / DEVS_PER_L2CPU) in expected k (k / DEVS_PER_L2CPU) s.

Definition blk_devs : list Z := [DEV_BLK; DEV_BLK1; DEV_BLK2].

(** The disks of an L2CPU sit on distinct block slots that its device tree
    declares, and no two have the same name. *)
Definition disks_ok (i : Z) (s : L2CpuSlot) : Prop :=
  Forall (fun d => exists dev, dev ∈ blk_devs /\ dev ∈ blk_dtb_dev_idx s /\
                               dw_slot_idx d = i * DEVS_PER_L2CPU + dev) (disks s) /\
  NoDup (List.map dw_slot_idx (disks s)) /\ NoDup (omap dw_name (disks s)).

Definition consistent (l : gmap Z L2CpuSlot) (od : option (Dispatcher Device)) : Prop :=
  (forall i s, l !! i = Some s -> 0 <= i < 4 /\ disks_ok i s) /\
  (forall d, od = Some d ->
     (forall k, entry_view <$> registry d !! k = expected_at l k) /\
     (forall u, is_Some (uart_registry d !! u) -> is_Some (l !! u))).

Definition state_ok (st : DaemonState) : Prop := consistent (l2cpus st) (dispatcher st).

Lemma elem_cons_ne (a k : Z) l : a <> k -> bool_decide (k ∈ a :: l) = bool_decide (k ∈ l).
Proof.
  intros Hne. apply bool_decide_ext. rewrite elem_of_cons. split; [intros [E|E]; [by subst|done]|tauto].
Qed.

Lemma registry_unregister_all d ks k :
  registry (unregister_all d ks) !! k = if bool_decide (k ∈ ks) then None else registry d !! k.
Proof.
  revert d. induction ks as [|a ks IH]; intros d; [done|]. cbn [unregister_all foldl].
  fold (unregister_all (unregister_slot d a) ks). rewrite IH. cbn [unregister_slot publish registry].
  destruct (decide (a = k)) as [->|Hne].
  - rewrite lookup_delete_eq, (bool_decide_true (k ∈ k :: ks)) by apply list_elem_of_here. by case_bool_decide.
  - by rewrite lookup_delete_ne, elem_cons_ne.
Qed.

Lemma uart_unregister_all d ks : uart_registry (unregister_all d ks) = uart_registry d.
Proof. revert d. induction ks as [|a ks IH]; intros d; [done|]. 
  change (uart_registry (unregister_all (unregister_slot d a) ks) = uart_registry d). by rewrite IH. Qed.

Lemma join_l2cpus st ws : l2cpus (foldl stop_and_join st ws) = l2cpus st.
Proof. revert st. induction ws; intros st; [done|]. simpl. by rewrite IHws. Qed.
Lemma join_dispatcher st ws : dispatcher (foldl stop_and_join st ws) = dispatcher st.
Proof. revert st. induction ws; intros st; [done|]. simpl. by rewrite IHws. Qed.
Lemma join_joined st ws : joined (foldl stop_and_join st ws) = joined st ++ ws.
Proof.
  revert st. induction ws; intros st; simpl; [by rewrite app_nil_r|]. rewrite IHws. simpl. by rewrite <- app_assoc.
Qed.

(** Replacing the slot of L2CPU [i]: what the registry must look like. *)
Lemma consistent_update l d d' i s s' :
  consistent l (Some d) -> l !! i = Some s -> disks_ok i s' ->
  (forall k, k / DEVS_PER_L2CPU <> i -> registry d' !! k = registry d !! k) ->
  (forall k, k / DEVS_PER_L2CPU = i -> entry_view <$> registry d' !! k = expected k i s') ->
  uart_registry d' = uart_registry d ->
  consistent (<[i := s']> l) (Some d').
Proof.
  intros [Hs Hd] Hi Hok Hout Hin Hu. destruct (Hd d eq_refl) as [Hreg Huart]. split.
  - intros j sj. destruct (decide (j = i)) as [->|].
    + rewrite lookup_insert_eq. intros [= <-]. split; [|done]. by destruct (Hs i s Hi).
    + rewrite lookup_insert_ne by done. apply Hs.
  - intros ? [= <-]. split.
    + intros k. unfold expected_at. destruct (decide (k / DEVS_PER_L2CPU = i)) as [E|Hne].
      * rewrite E, lookup_insert_eq. by apply Hin.
      * rewrite lookup_insert_ne, Hout by done. apply Hreg.
    + intros u Hsu. rewrite Hu in Hsu. destruct (decide (u = i)) as [->|].
      * rewrite lookup_insert_eq. by eexists.
      * rewrite lookup_insert_ne by done. by apply Huart.
Qed.

Lemma consistent_none l i s s' :
  consistent l None -> l !! i = Some s -> disks_ok i s' -> consistent (<[i := s']> l) None.
Proof.
  intros [Hs _] Hi Hok. split; [|done]. intros j sj. destruct (decide (j = i)) as [->|].
  - rewrite lookup_insert_eq. intros [= <-]. split; [|done]. by destruct (Hs i s Hi).
  - rewrite lookup_insert_ne by done. apply Hs.
Qed.

(** Adding one registration to L2CPU [i]. *)
Lemma consistent_add l d d' i s s' e :
  consistent l (Some d) -> l !! i = Some s -> disks_ok i s' ->
  registry d' = <[re_slot e := e]> (registry d) -> uart_registry d' = uart_registry d ->
  re_slot e / DEVS_PER_L2CPU = i ->
  (forall k, k / DEVS_PER_L2CPU = i -> k <> re_slot e -> expected k i s' = expected k i s) ->
  expected (re_slot e) i s' = Some (entry_view e) ->
  consistent (<[i := s']> l) (Some d').
Proof.
  intros Hc Hi Hok Hr Hu Hk Hoth Hnew. eapply consistent_update; [exact Hc|exact Hi|exact Hok| | |exact Hu].
  - intros k Hne. rewrite Hr, lookup_insert_ne; [done|]. intros <-. by apply Hne.
  - intros k Ek. rewrite Hr. destruct (decide (k = re_slot e)) as [->|Hne].
    + by rewrite lookup_insert_eq.
    + rewrite lookup_insert_ne, Hoth by done. destruct Hc as [_ Hd]. destruct (Hd d eq_refl) as [Hreg _].
      rewrite Hreg. unfold expected_at. by rewrite Ek, Hi.
Qed.

(** Removing registrations from L2CPU [i]. *)
Lemma consistent_remove l od i s s' ks :
  consistent l od -> l !! i = Some s -> disks_ok i s' ->
  Forall (fun k => k / DEVS_PER_L2CPU = i) ks ->
  (forall k, k / DEVS_PER_L2CPU = i -> expected k i s' = if bool_decide (k ∈ ks) then None else expected k i s) ->
  consistent (<[i := s']> l) ((fun d => unregister_all d ks) <$> od).
Proof.
  intros Hc Hi Hok Hks Hexp. destruct od as [d|]; [|by eapply consistent_none]. simpl.
  eapply consistent_update; [exact Hc|exact Hi|exact Hok| | |apply uart_unregister_all].
  - intros k Hne. rewrite registry_unregister_all, bool_decide_false; [done|].
    intros Hin. eapply Forall_forall in Hks; [|exact Hin]. done.
  - intros k Ek. rewrite registry_unregister_all, Hexp by done. destruct Hc as [_ Hd].
    destruct (Hd d eq_refl) as [Hreg _]. case_bool_decide; [done|]. rewrite Hreg.
    unfold expected_at. by rewrite Ek, Hi.
Qed.

(** ** The disk list *)

Lemma disk_at_spec k l d : disk_at k l = Some d -> d ∈ l /\ dw_slot_idx d = k.
Proof.
  intros H. apply List.find_some in H as [H1 H2]. split; [by apply list_elem_of_In|by apply Z.eqb_eq].
Qed.

Lemma disk_at_cons k a l : disk_at k (a :: l) = if dw_slot_idx a =? k then Some a else disk_at k l.
Proof. done. Qed.

Lemma disk_at_None k l : disk_at k l = None <-> k ∉ List.map dw_slot_idx l.
Proof.
  induction l as [|a l IH]; simpl; [split; [intros _; apply not_elem_of_nil|done]|]. rewrite elem_of_cons.
  destruct (Z.eqb_spec (dw_slot_idx a) k) as [->|Hne].
  - split; [done|]. intros H. exfalso. apply H. by left.
  - rewrite IH. split; [|tauto]. intros H [?|?]; [by subst|done].
Qed.

Lemma disk_at_snoc k l w :
  dw_slot_idx w ∉ List.map dw_slot_idx l ->
  disk_at k (l ++ [w]) = if k =? dw_slot_idx w then Some w else disk_at k l.
Proof.
  intros Hnew. induction l as [|a l IH]; cbn [app]; rewrite !disk_at_cons.
  { rewrite Z.eqb_sym. by destruct (k =? dw_slot_idx w). }
  cbn [List.map] in Hnew. rewrite elem_of_cons in Hnew. rewrite IH by tauto.
  destruct (Z.eqb_spec (dw_slot_idx a) k) as [<-|]; [|done].
  destruct (Z.eqb_spec (dw_slot_idx a) (dw_slot_idx w)); [|done]. exfalso. apply Hnew. by left.
Qed.

(** Removing the disks that satisfy [p] removes exactly their slots. *)
Lemma disk_at_filter p k l :
  NoDup (List.map dw_slot_idx l) ->
  disk_at k (List.filter (fun d => negb (p d)) l) =
    if bool_decide (k ∈ List.map dw_slot_idx (List.filter p l)) then None else disk_at k l.
Proof.
  induction l as [|a l IH]; cbn [List.map List.filter]; [done|]. intros Hnd.
  apply NoDup_cons in Hnd as [Ha Hnd]. specialize (IH Hnd).
  assert (Hsub : dw_slot_idx a ∉ List.map dw_slot_idx (List.filter p l)).
  { intros Hin. apply Ha. apply list_elem_of_In, List.in_map_iff in Hin as (d & <- & Hd).
    apply List.filter_In in Hd as [Hd _]. by apply list_elem_of_In, List.in_map. }
  destruct (p a) eqn:Ep; cbn [negb List.map]; rewrite ?disk_at_cons.
  - rewrite IH. destruct (Z.eqb_spec (dw_slot_idx a) k) as [<-|Hne].
    + rewrite (bool_decide_false _ Hsub), (bool_decide_true (_ ∈ _ :: _)) by apply list_elem_of_here.
      by apply disk_at_None.
    + by rewrite elem_cons_ne.
  - destruct (Z.eqb_spec (dw_slot_idx a) k) as [<-|Hne]; [by rewrite bool_decide_false|]. apply IH.
Qed.

Lemma map_filter_sublist {A B} (f : A -> B) p (l : list A) :
  sublist (List.map f (List.filter p l)) (List.map f l).
Proof. induction l as [|a l IH]; simpl; [done|]. destruct (p a); simpl; by constructor. Qed.

Lemma omap_filter_sublist {A B} (f : A -> option B) p (l : list A) :
  sublist (omap f (List.filter p l)) (omap f l).
Proof.
  induction l as [|a l IH]; simpl; [done|].
  destruct (p a); simpl; destruct (f a); simpl; first [exact IH|by constructor].
Qed.

Lemma disks_ok_filter i s p :
  disks_ok i s -> disks_ok i (set_disks s (List.filter p (disks s))).
Proof.
  intros (H1 & H2 & H3). split; [|split]; simpl.
  - apply Forall_forall. intros d Hd. apply list_elem_of_In, List.filter_In in Hd as [Hd _].
    eapply Forall_forall in H1; [exact H1|by apply list_elem_of_In].
  - eapply sublist_NoDup; [exact H2|apply map_filter_sublist].
  - eapply sublist_NoDup; [exact H3|apply omap_filter_sublist].
Qed.

(** At most three disks, since the slots are distinct. *)
Lemma disks_ok_length i s : disks_ok i s -> Z.of_nat (length (disks s)) <= MAX_DISKS_PER_L2CPU.
Proof.
  intros (H1 & H2 & _). rewrite <- (List.length_map dw_slot_idx).
  assert (Hs : List.map dw_slot_idx (disks s) ⊆+ List.map (fun dev => i * DEVS_PER_L2CPU + dev) blk_devs).
  { apply NoDup_submseteq; [done|]. intros k Hk. apply list_elem_of_In, List.in_map_iff in Hk as (d & <- & Hd).
    eapply Forall_forall in H1 as (dev & Hdev & _ & ->); [|by apply list_elem_of_In].
    apply list_elem_of_In, (List.in_map (fun dev => i * DEVS_PER_L2CPU + dev)). by apply list_elem_of_In. }
  apply submseteq_length in Hs. cbn [List.map blk_devs length] in Hs. unfold MAX_DISKS_PER_L2CPU. lia.
Qed.

(** ** Every handler keeps them in step *)

Lemma dev_slot i dev :
  0 <= i < 4 -> 0 <= dev < DEVS_PER_L2CPU ->
  u32 (u32 (i * DEVS_PER_L2CPU) + dev) = i * DEVS_PER_L2CPU + dev /\
  (i * DEVS_PER_L2CPU + dev) / DEVS_PER_L2CPU = i /\
  (i * DEVS_PER_L2CPU + dev) mod DEVS_PER_L2CPU = dev.
Proof.
  unfold u32, wrap, DEVS_PER_L2CPU. intros. rewrite (Z.mod_small (i * 8)) by lia.
  rewrite Z.mod_small by lia. Z.div_mod_to_equations. lia.
Qed.

Lemma blk_dev_cases dev : dev ∈ blk_devs -> dev = 0 \/ dev = 4 \/ dev = 5.
Proof. unfold blk_devs, DEV_BLK, DEV_BLK1, DEV_BLK2. rewrite !elem_of_cons, elem_of_nil. tauto. Qed.

Lemma blk_dev_range dev : dev ∈ blk_devs -> 0 <= dev < DEVS_PER_L2CPU.
Proof. intros H. apply blk_dev_cases in H. unfold DEVS_PER_L2CPU. lia. Qed.

Lemma expected_same k i s s' :
  disk_at k (disks s') = disk_at k (disks s) ->
  net s' = net s -> virtio_console s' = virtio_console s -> virtio_rng s' = virtio_rng s ->
  expected k i s' = expected k i s.
Proof. unfold expected. by intros -> -> -> ->. Qed.

Lemma pick_spec used eligible dev :
  pick_free_blk_slot used eligible = Some dev -> dev ∈ blk_devs /\ dev ∈ eligible /\ dev ∉ used.
Proof.
  intros H. apply List.find_some in H as [H1 H2]. apply list_elem_of_In in H1.
  apply andb_prop in H2 as [H2 H3]. apply bool_decide_eq_true in H2.
  apply negb_true_iff, bool_decide_eq_false in H3. done.
Qed.

(** The new disk of an accepted request. *)
Lemma disks_ok_snoc (F : Type) i s path name dev worker (o : option F) (f : F) :
  0 <= i < 4 -> disks_ok i s ->
  validate_add_disk_request F (Z.of_nat (length (disks s))) name (List.map dw_name (disks s)) o = Ok f ->
  pick_free_blk_slot (List.map (fun d => u32 (dw_slot_idx d - u32 (i * DEVS_PER_L2CPU))) (disks s))
    (blk_dtb_dev_idx s) = Some dev ->
  let w := mk_disk path (i * DEVS_PER_L2CPU + dev) name worker in
  (dw_slot_idx w ∉ List.map dw_slot_idx (disks s)) /\ disks_ok i (set_disks s (disks s ++ [w])).
Proof.
  intros Hi (H1 & H2 & H3) Hv Hp w. apply pick_spec in Hp as (Hb & He & Hu).
  assert (Hn : dw_slot_idx w ∉ List.map dw_slot_idx (disks s)).
  { intros Hin. apply Hu. apply list_elem_of_In, List.in_map_iff in Hin as (d & Ed & Hd).
    apply list_elem_of_In, List.in_map_iff. exists d. split; [|done].
    rewrite Ed. simpl. apply blk_dev_range in Hb. revert Hb. unfold u32, wrap, DEVS_PER_L2CPU. intros.
    rewrite (Z.mod_small (i * 8)) by lia. rewrite Z.mod_small; lia. }
  split; [done|]. split; [|split]; simpl.
  - apply Forall_app. split; [done|]. apply Forall_singleton. by exists dev.
  - rewrite List.map_app. apply NoDup_app. split; [done|]. split; [|apply NoDup_singleton].
    intros k Hk Hk'. apply list_elem_of_singleton in Hk'. by subst.
  - rewrite omap_app. simpl. destruct name as [n|]; [|by rewrite app_nil_r].
    apply NoDup_app. split; [done|]. split; [|apply NoDup_singleton].
    intros x Hx Hx'. apply list_elem_of_singleton in Hx'. subst x.
    apply list_elem_of_omap in Hx as (d & Hd & En). unfold validate_add_disk_request in Hv.
    destruct (_ <=? _); [done|]. destruct (existsb _ _) eqn:Ex; [done|].
    assert (Ht : existsb (fun e => bool_decide (e = Some n)) (List.map dw_name (disks s)) = true); [|congruence].
    apply existsb_exists. exists (dw_name d). split; [apply List.in_map; by apply list_elem_of_In|].
    by apply bool_decide_eq_true.
Qed.

Lemma ok_add_disk h st i path name st' r :
  state_ok st -> dispatch_add_disk h st i path name = Some (st', r) -> state_ok st'.
Proof.
  intros Hok. unfold dispatch_add_disk. destruct (validate_l2cpu i); [|by intros [= <- _]].
  destruct (l2cpus st !! i) as [s|] eqn:Es; [|by intros [= <- _]].
  destruct (validate_add_disk_request _ _ _ _ _) as [img|e] eqn:Ev; [|by intros [= <- _]].
  destruct (pick_free_blk_slot _ _) as [dev|] eqn:Ep; [|by intros [= <- _]].
  destruct (irq_for_blk_dev_idx dev) as [irq|] eqn:Ei; [|done].
  unfold state_ok in *. destruct (dispatcher st) as [d|] eqn:Ed; [|intros [= <- _]; by rewrite Ed].
  destruct (tensix_engine st); [|intros [= <- _]; by rewrite Ed].
  destruct img as [[image size]|]; [|intros [= <- _]; by rewrite Ed].
  cbv zeta. intros [= <- _]. cbn [l2cpus dispatcher set_slot set_dispatcher].
  destruct (proj1 Hok i s Es) as [Hi Hd].
  destruct (pick_spec _ _ _ Ep) as (Hb & _ & _). pose proof (blk_dev_range dev Hb) as Hr.
  destruct (dev_slot i dev Hi Hr) as (E1 & E2 & E3). rewrite E1.
  destruct (disks_ok_snoc _ i s path name dev
    (mk_worker (chars "disk l2cpu " ++ show_dec i ++ chars " @ " ++ path ++ chars " (engine)"))
    _ _ Hi Hd Ev Ep) as [Hn Hd'].
  eapply consistent_add with (s := s); [exact Hok|exact Es|exact Hd'|reflexivity|done|exact E2| |].
  - intros k _ Hk. apply expected_same; try done. cbn [disks set_disks]. rewrite disk_at_snoc by exact Hn.
    simpl in Hk |- *. by rewrite (proj2 (Z.eqb_neq _ _) Hk).
  - unfold expected. cbn [re_slot entry_new disks set_disks]. rewrite E3, disk_at_snoc by exact Hn.
    simpl dw_slot_idx. rewrite Z.eqb_refl, Ei.
    apply blk_dev_cases in Hb. by destruct Hb as [-> | [-> | ->]].
Qed.

Lemma split_disks_spec name l taken keep :
  split_disks name l = Ok (taken, keep) ->
  exists p, taken = List.filter p l /\ keep = List.filter (fun d => negb (p d)) l.
Proof.
  unfold split_disks. destruct name as [n|].
  - intros H. exists (fun d => bool_decide (dw_name d = Some n)).
    destruct (List.filter _ l) eqn:E in H |- *; [done|]. by injection H as <- <-.
  - intros H. destruct (1 <? length l)%nat; [done|]. injection H as <- <-. exists (fun _ => true).
    clear. split; (induction l as [|a l IH]; simpl; [done|]); [by rewrite <- IH|exact IH].
Qed.

Lemma disk_slot_div i s d : 0 <= i < 4 -> disks_ok i s -> d ∈ disks s -> dw_slot_idx d / DEVS_PER_L2CPU = i.
Proof.
  intros Hi (H1 & _) Hd. eapply Forall_forall in H1 as (dev & Hb & _ & ->); [|exact Hd].
  by destruct (dev_slot i dev Hi (blk_dev_range dev Hb)) as (_ & ? & _).
Qed.

(** A slot that holds a disk is none of the other devices' slots. *)
Lemma disk_slot_dev i s k :
  0 <= i < 4 -> disks_ok i s -> k ∈ List.map dw_slot_idx (disks s) -> k mod DEVS_PER_L2CPU ∈ blk_devs.
Proof.
  intros Hi (H1 & _) Hk. apply list_elem_of_In, List.in_map_iff in Hk as (d & <- & Hd).
  eapply Forall_forall in H1 as (dev & Hb & _ & ->); [|by apply list_elem_of_In].
  destruct (dev_slot i dev Hi (blk_dev_range dev Hb)) as (_ & _ & E). by rewrite E.
Qed.

Lemma expected_blk k i s :
  k mod DEVS_PER_L2CPU ∈ blk_devs ->
  expected k i s = let! irq := irq_for_blk_dev_idx (k mod DEVS_PER_L2CPU) in
    (fun d => (k, i, Block, Block, irq, Some (dw_name d))) <$> disk_at k (disks s).
Proof. intros H. unfold expected. apply blk_dev_cases in H. by destruct H as [-> | [-> | ->]]. Qed.

Lemma ok_remove_disk st i name : state_ok st -> state_ok (dispatch_remove_disk st i name).1.
Proof.
  intros Hok. unfold dispatch_remove_disk. destruct (validate_l2cpu i); [|done].
  destruct (l2cpus st !! i) as [s|] eqn:Es; [|done].
  destruct (validate_remove_disk_request _); [|done].
  destruct (split_disks name (disks s)) as [[taken keep]|] eqn:Ek; [|done].
  destruct (split_disks_spec _ _ _ _ Ek) as (p & -> & ->).
  cbn [fst]. unfold state_ok in *. rewrite join_l2cpus, join_dispatcher. cbn [l2cpus dispatcher set_slot set_dispatcher].
  destruct (proj1 Hok i s Es) as [Hi Hd].
  assert (Hin : forall d, d ∈ List.filter p (disks s) -> d ∈ disks s).
  { intros d Hd'. apply list_elem_of_In, List.filter_In in Hd' as [? _]. by apply list_elem_of_In. }
  eapply consistent_remove; [exact Hok|exact Es|by apply disks_ok_filter| |].
  - apply Forall_forall. intros k Hk. apply list_elem_of_In, List.in_map_iff in Hk as (d & <- & Hd').
    eapply disk_slot_div; [done|exact Hd|]. apply Hin. by apply list_elem_of_In.
  - intros k Ek'. case_bool_decide as Hk.
    + rewrite expected_blk. { cbn [disks set_disks]. rewrite disk_at_filter by apply Hd.
        rewrite bool_decide_true by done. by destruct (irq_for_blk_dev_idx _). }
      eapply disk_slot_dev; [exact Hi|exact Hd|]. apply list_elem_of_In, List.in_map_iff in Hk as (d & <- & Hd').
      apply list_elem_of_In, List.in_map. apply list_elem_of_In, Hin. by apply list_elem_of_In.
    + apply expected_same; try done. cbn [disks set_disks]. rewrite disk_at_filter by apply Hd.
      by rewrite bool_decide_false.
Qed.

(** Setting one of the single devices changes what its slot should hold. *)
Lemma expected_single k i dev s s' :
  0 <= i < 4 -> 0 <= dev < DEVS_PER_L2CPU -> k / DEVS_PER_L2CPU = i -> k <> i * DEVS_PER_L2CPU + dev ->
  disks s' = disks s -> (dev <> DEV_NET -> net s' = net s) ->
  (dev <> DEV_CONSOLE -> virtio_console s' = virtio_console s) ->
  (dev <> DEV_RNG -> virtio_rng s' = virtio_rng s) ->
  expected k i s' = expected k i s.
Proof.
  intros Hi Hdev Hk Hne Hd Hn Hc Hr.
  assert (Hm : k mod DEVS_PER_L2CPU <> dev) by (unfold DEVS_PER_L2CPU in *; Z.div_mod_to_equations; lia).
  unfold expected. rewrite Hd.
  destruct (Z.eqb_spec (k mod DEVS_PER_L2CPU) DEV_NET); [rewrite Hn; [done|congruence]|].
  destruct (Z.eqb_spec (k mod DEVS_PER_L2CPU) DEV_CONSOLE); [rewrite Hc; [done|congruence]|].
  destruct (Z.eqb_spec (k mod DEVS_PER_L2CPU) DEV_RNG); [rewrite Hr; [done|congruence]|]. done.
Qed.

Lemma dev_ranges :
  0 <= DEV_NET < DEVS_PER_L2CPU /\ 0 <= DEV_CONSOLE < DEVS_PER_L2CPU /\ 0 <= DEV_RNG < DEVS_PER_L2CPU.
Proof. unfold DEV_NET, DEV_CONSOLE, DEV_RNG, DEVS_PER_L2CPU. lia. Qed.

(** The slot of a single device holds what that device's field says. *)
Lemma expected_at_net i s : 0 <= i < 4 ->
  expected (i * DEVS_PER_L2CPU + DEV_NET) i s =
    (fun _ => (i * DEVS_PER_L2CPU + DEV_NET, i, Net, Net, NET_IRQ, None)) <$> net s.
Proof.
  intros Hi. unfold expected. destruct (dev_slot i DEV_NET Hi (proj1 dev_ranges)) as (_ & _ & E).
  rewrite E. done.
Qed.

Lemma expected_at_console i s : 0 <= i < 4 ->
  expected (i * DEVS_PER_L2CPU + DEV_CONSOLE) i s =
    (fun _ => (i * DEVS_PER_L2CPU + DEV_CONSOLE, i, Console, Console, CONSOLE_IRQ, None)) <$> virtio_console s.
Proof.
  intros Hi. unfold expected. destruct (dev_slot i DEV_CONSOLE Hi (proj1 (proj2 dev_ranges))) as (_ & _ & E).
  rewrite E. done.
Qed.

Lemma ok_add_net h st i o fwd : state_ok st -> state_ok (dispatch_add_net h st i o fwd).1.
Proof.
  intros Hok. unfold dispatch_add_net. destruct (validate_l2cpu i); [|done].
  destruct (l2cpus st !! i) as [s|] eqn:Es; [|done]. case_bool_decide; [done|]. cbv zeta.
  destruct (negb _); [done|]. unfold state_ok in *.
  destruct (dispatcher st) as [d|] eqn:Ed; [|by rewrite <- Ed in Hok].
  destruct (virtio_net_new _ _ _ _ _ _ _) as [dev|]; [|by rewrite <- Ed in Hok].
  cbn [fst l2cpus dispatcher set_slot set_dispatcher].
  destruct (proj1 Hok i s Es) as [Hi Hd]. destruct (dev_slot i DEV_NET Hi (proj1 dev_ranges)) as (E1 & E2 & E3).
  eapply consistent_add with (s := s); [exact Hok|exact Es|exact Hd|reflexivity|done| | |];
    cbn [re_slot entry_new]; unfold net_slot; rewrite E1.
  - exact E2.
  - intros k Hk Hne. eapply (expected_single k i DEV_NET); [done|apply dev_ranges|done..].
  - rewrite expected_at_net by done. done.
Qed.

Lemma ok_add_console st i : state_ok st -> state_ok (dispatch_add_console st i).1.
Proof.
  intros Hok. unfold dispatch_add_console. destruct (validate_l2cpu i); [|done].
  destruct (l2cpus st !! i) as [s|] eqn:Es; [|done]. case_bool_decide; [done|]. unfold state_ok in *.
  destruct (dispatcher st) as [d|] eqn:Ed; [|by rewrite <- Ed in Hok].
  cbn [fst l2cpus dispatcher set_slot set_dispatcher].
  destruct (proj1 Hok i s Es) as [Hi Hd].
  destruct (dev_slot i DEV_CONSOLE Hi (proj1 (proj2 dev_ranges))) as (E1 & E2 & E3).
  eapply consistent_add with (s := s); [exact Hok|exact Es|exact Hd|reflexivity|done| | |];
    cbn [re_slot entry_new]; unfold console_slot; rewrite E1.
  - exact E2.
  - intros k Hk Hne. eapply (expected_single k i DEV_CONSOLE); [done|apply dev_ranges|done..].
  - rewrite expected_at_console by done. done.
Qed.

(** Dropping a registration that the slot table does not ask for. *)
Lemma consistent_idle l d k :
  consistent l (Some d) -> expected_at l k = None -> consistent l (Some (unregister_slot d k)).
Proof.
  intros [Hs Hd] Hk. destruct (Hd d eq_refl) as [Hreg Hu]. split; [done|]. intros ? [= <-]. split; [|done].
  intros k'. cbn [unregister_slot publish registry]. destruct (decide (k' = k)) as [->|].
  - by rewrite lookup_delete_eq, Hk.
  - rewrite lookup_delete_ne by done. apply Hreg.
Qed.

Lemma consistent_drop1 l od i s s' k :
  consistent l od -> l !! i = Some s -> disks_ok i s' -> k / DEVS_PER_L2CPU = i ->
  (forall k', k' / DEVS_PER_L2CPU = i -> k' <> k -> expected k' i s' = expected k' i s) ->
  expected k i s' = None ->
  consistent (<[i := s']> l) ((fun d => unregister_slot d k) <$> od).
Proof.
  intros Hc Hi Hd Hk Ho Hn.
  eapply (consistent_remove _ _ _ _ _ [k]); [exact Hc|exact Hi|exact Hd|by apply Forall_singleton|].
  intros k' Hk'. case_bool_decide as E.
  - apply list_elem_of_singleton in E. by subst k'.
  - apply Ho; [done|]. intros ->. apply E. by apply list_elem_of_singleton.
Qed.

Lemma validate_range i j : validate_l2cpu i = Ok j -> i < 4.
Proof. unfold validate_l2cpu. destruct (Z.ltb_spec i 4); by intros. Qed.

Lemma ok_remove_net st i : 0 <= i -> state_ok st -> state_ok (dispatch_remove_net st i).1.
Proof.
  intros H0 Hok. unfold dispatch_remove_net. destruct (validate_l2cpu i) eqn:Ev; [|done].
  apply validate_range in Ev. assert (Hi : 0 <= i < 4) by lia.
  destruct (dev_slot i DEV_NET Hi (proj1 dev_ranges)) as (E1 & E2 & E3).
  unfold remove_net_take, state_ok in *. cbn [l2cpus remove_net_unregister set_dispatcher].
  assert (Hidle : (forall s, l2cpus st !! i = Some s -> net s = None) ->
    consistent (l2cpus st) ((fun d => unregister_slot d (net_slot i)) <$> dispatcher st)).
  { intros Hn. destruct (dispatcher st) as [d|]; [|done]. apply consistent_idle; [done|].
    unfold expected_at, net_slot. rewrite E1, E2. destruct (l2cpus st !! i) as [s|]; [|done].
    by rewrite expected_at_net, (Hn s). }
  destruct (l2cpus st !! i) as [s|] eqn:Es; [|by apply Hidle].
  destruct (net s) as [w|] eqn:En; [|apply Hidle; by intros ? [= <-]].
  cbn [fst l2cpus dispatcher stop_and_join set_slot remove_net_unregister set_dispatcher].
  destruct (proj1 Hok i s Es) as [_ Hd].
  eapply consistent_drop1; [exact Hok|exact Es|exact Hd| | |]; unfold net_slot; rewrite E1.
  - exact E2.
  - intros k Hk Hne. eapply (expected_single k i DEV_NET); [done|apply dev_ranges|done..].
  - by rewrite expected_at_net.
Qed.

Lemma ok_remove_console st i : 0 <= i -> state_ok st -> state_ok (dispatch_remove_console st i).1.
Proof.
  intros H0 Hok. unfold dispatch_remove_console. destruct (validate_l2cpu i) eqn:Ev; [|done].
  apply validate_range in Ev. assert (Hi : 0 <= i < 4) by lia.
  destruct (dev_slot i DEV_CONSOLE Hi (proj1 (proj2 dev_ranges))) as (E1 & E2 & E3).
  unfold state_ok in *. cbn [l2cpus set_dispatcher].
  assert (Hidle : (forall s, l2cpus st !! i = Some s -> virtio_console s = None) ->
    consistent (l2cpus st) ((fun d => unregister_slot d (console_slot i)) <$> dispatcher st)).
  { intros Hn. destruct (dispatcher st) as [d|]; [|done]. apply consistent_idle; [done|].
    unfold expected_at, console_slot. rewrite E1, E2. destruct (l2cpus st !! i) as [s|]; [|done].
    by rewrite expected_at_console, (Hn s). }
  destruct (l2cpus st !! i) as [s|] eqn:Es; [|by apply Hidle].
  destruct (virtio_console s) as [vc|] eqn:En; [|apply Hidle; by intros ? [= <-]].
  cbn [fst l2cpus dispatcher stop_and_join set_slot set_dispatcher].
  destruct (proj1 Hok i s Es) as [_ Hd].
  eapply consistent_drop1; [exact Hok|exact Es|exact Hd| | |]; unfold console_slot; rewrite E1.
  - exact E2.
  - intros k Hk Hne. eapply (expected_single k i DEV_CONSOLE); [done|apply dev_ranges|done..].
  - by rewrite expected_at_console.
Qed.

Lemma ok_drop_net st i : state_ok st -> state_ok (drop_net_for_reboot st i).1.
Proof.
  intros Hok. unfold drop_net_for_reboot. destruct (l2cpus st !! i) as [s|] eqn:Es; [|done].
  destruct (boot_payload s); [|done]. destruct (net s) as [w|]; [|done].
  unfold state_ok in *. cbn [fst l2cpus dispatcher stop_and_join set_slot set_dispatcher].
  destruct (proj1 Hok i s Es) as [Hi Hd]. destruct (dev_slot i DEV_NET Hi (proj1 dev_ranges)) as (E1 & E2 & E3).
  eapply consistent_drop1; [exact Hok|exact Es|exact Hd| | |]; unfold net_slot; rewrite E1.
  - exact E2.
  - intros k Hk Hne. eapply (expected_single k i DEV_NET); [done|apply dev_ranges|done..].
  - by rewrite expected_at_net.
Qed.

(** The slots that a park with shutdown unregisters. *)
Definition park_slots (i : Z) (s : L2CpuSlot) : list Z :=
  List.map dw_slot_idx (disks s)
  ++ (if bool_decide (is_Some (net s)) then [i * DEVS_PER_L2CPU + DEV_NET] else [])
  ++ (if bool_decide (is_Some (virtio_console s)) then [i * DEVS_PER_L2CPU + DEV_CONSOLE] else [])
  ++ (if bool_decide (is_Some (virtio_rng s)) then [i * DEVS_PER_L2CPU + DEV_RNG] else []).

Lemma if_elem {A} (P : Prop) `{Decision P} (x a : A) : x ∈ (if bool_decide P then [a] else []) <-> P /\ x = a.
Proof.
  case_bool_decide; [rewrite list_elem_of_singleton|rewrite elem_of_nil]; tauto.
Qed.

Lemma park_slots_div i s :
  0 <= i < 4 -> disks_ok i s -> Forall (fun k => k / DEVS_PER_L2CPU = i) (park_slots i s).
Proof.
  intros Hi Hd. apply Forall_forall. intros k. unfold park_slots.
  rewrite !elem_of_app, !if_elem. intros [Hk|[[_ ->]|[[_ ->]|[_ ->]]]].
  - apply list_elem_of_In, List.in_map_iff in Hk as (d & <- & Hd'). eapply disk_slot_div; [done|exact Hd|].
    by apply list_elem_of_In.
  - by destruct (dev_slot i DEV_NET Hi (proj1 dev_ranges)) as (_ & ? & _).
  - by destruct (dev_slot i DEV_CONSOLE Hi (proj1 (proj2 dev_ranges))) as (_ & ? & _).
  - by destruct (dev_slot i DEV_RNG Hi (proj2 (proj2 dev_ranges))) as (_ & ? & _).
Qed.

(** A slot outside them has nothing attached. *)
Lemma park_slots_all k i s :
  0 <= i < 4 -> k / DEVS_PER_L2CPU = i -> (k ∉ park_slots i s) -> expected k i s = None.
Proof.
  intros Hi Hk Hn. unfold park_slots in Hn. rewrite !elem_of_app, !if_elem in Hn.
  assert (Ek : forall dev, k mod DEVS_PER_L2CPU = dev -> k = i * DEVS_PER_L2CPU + dev).
  { intros dev. unfold DEVS_PER_L2CPU in *. Z.div_mod_to_equations. lia. }
  unfold expected.
  destruct (Z.eqb_spec (k mod DEVS_PER_L2CPU) DEV_NET) as [E|].
  { apply Ek in E. destruct (net s); [|done]. exfalso. apply Hn. right. left. by split; [eexists|]. }
  destruct (Z.eqb_spec (k mod DEVS_PER_L2CPU) DEV_CONSOLE) as [E|].
  { apply Ek in E. destruct (virtio_console s); [|done]. exfalso. apply Hn. right. right. left. by split; [eexists|]. }
  destruct (Z.eqb_spec (k mod DEVS_PER_L2CPU) DEV_RNG) as [E|].
  { apply Ek in E. destruct (virtio_rng s); [|done]. exfalso. apply Hn. right. right. right. by split; [eexists|]. }
  destruct (irq_for_blk_dev_idx _); [|done].
  assert (Ed : disk_at k (disks s) = None) by (apply disk_at_None; tauto). by rewrite Ed.
Qed.

Lemma ok_drop_workers st i : state_ok st -> state_ok (drop_workers_on_shutdown_park st i).
Proof.
  intros Hok. unfold drop_workers_on_shutdown_park. destruct (l2cpus st !! i) as [s|] eqn:Es; [|done].
  unfold state_ok in *. rewrite join_l2cpus, join_dispatcher. cbn [l2cpus dispatcher set_slot set_dispatcher].
  destruct (proj1 Hok i s Es) as [Hi Hd].
  destruct (dev_slot i DEV_NET Hi (proj1 dev_ranges)) as (-> & _).
  destruct (dev_slot i DEV_CONSOLE Hi (proj1 (proj2 dev_ranges))) as (-> & _).
  destruct (dev_slot i DEV_RNG Hi (proj2 (proj2 dev_ranges))) as (-> & _).
  eapply (consistent_remove _ _ _ _ _ (park_slots i s)); [exact Hok|exact Es| |by apply park_slots_div|].
  - split; [|split]; cbn; [by apply Forall_nil|apply NoDup_nil_2..].
  - intros k Hk. transitivity (@None view).
    + unfold expected. cbn. repeat case_match; done.
    + case_bool_decide; [done|]. symmetry. by apply park_slots_all.
Qed.

(** ** Stopping *)

Definition engine_slots (i : Z) : list Z :=
  List.map (fun dev => u32 (u32 (i * DEVS_PER_L2CPU) + Z.of_nat dev)) (seq 0 (Z.to_nat DEVS_PER_L2CPU)).

Lemma engine_slots_spec i k : 0 <= i < 4 -> k ∈ engine_slots i <-> k / DEVS_PER_L2CPU = i.
Proof.
  intros Hi. unfold engine_slots. rewrite list_elem_of_In, List.in_map_iff. split.
  - intros (dev & <- & Hdev). apply List.in_seq in Hdev.
    assert (Hr : 0 <= Z.of_nat dev < DEVS_PER_L2CPU) by (unfold DEVS_PER_L2CPU in *; lia).
    destruct (dev_slot i (Z.of_nat dev) Hi Hr) as (E1 & E2 & _). by rewrite E1.
  - intros Hk. exists (Z.to_nat (k mod DEVS_PER_L2CPU)).
    assert (Hr : 0 <= k mod DEVS_PER_L2CPU < DEVS_PER_L2CPU) by (apply Z.mod_pos_bound; reflexivity).
    rewrite Z2Nat.id by lia. destruct (dev_slot i _ Hi Hr) as (E1 & _ & _). rewrite E1.
    split; [|apply List.in_seq; lia]. unfold DEVS_PER_L2CPU in *. Z.div_mod_to_equations. lia.
Qed.

(** The dispatcher once everything of L2CPU [i] is unregistered. *)
Definition without (d : Dispatcher Device) (i : Z) : Dispatcher Device :=
  unregister_uart (unregister_all d (engine_slots i)) i.

Lemma registry_unregister_uart (d : Dispatcher Device) i : registry (unregister_uart d i) = registry d.
Proof. done. Qed.
Lemma uart_unregister_uart (d : Dispatcher Device) i :
  uart_registry (unregister_uart d i) = delete i (uart_registry d).
Proof. done. Qed.

Lemma registry_without d i k :
  0 <= i < 4 -> registry (without d i) !! k = if k / DEVS_PER_L2CPU =? i then None else registry d !! k.
Proof.
  intros Hi. unfold without. rewrite registry_unregister_uart, registry_unregister_all.
  pose proof (engine_slots_spec i k Hi) as Hs.
  destruct (Z.eqb_spec (k / DEVS_PER_L2CPU) i) as [E|E].
  - rewrite bool_decide_true; [done|tauto].
  - rewrite bool_decide_false; [done|tauto].
Qed.

Lemma uart_without d i : uart_registry (without d i) = delete i (uart_registry d).
Proof. unfold without. by rewrite uart_unregister_uart, uart_unregister_all. Qed.

Lemma consistent_stop l od i :
  0 <= i < 4 -> consistent l od -> consistent (delete i l) ((fun d => without d i) <$> od).
Proof.
  intros Hi [Hs Hd]. split.
  - intros j s Hj. apply lookup_delete_Some in Hj as [_ Hj]. by apply Hs.
  - intros d' E. destruct od as [d|]; [|done]. injection E as <-. destruct (Hd d eq_refl) as [Hreg Hu].
    split.
    + intros k. rewrite registry_without by done. unfold expected_at.
      destruct (Z.eqb_spec (k / DEVS_PER_L2CPU) i) as [->|Hk]; [by rewrite lookup_delete_eq|].
      rewrite lookup_delete_ne by done. apply Hreg.
    + intros u Hsu. rewrite uart_without in Hsu. destruct (decide (u = i)) as [->|].
      * rewrite lookup_delete_eq in Hsu. by destruct Hsu.
      * rewrite lookup_delete_ne in Hsu by done. rewrite lookup_delete_ne by done. by apply Hu.
Qed.

(** Whether any core is out of reset. *)
Definition any_released (r : gmap Z Z) (idxs : list Z) : bool :=
  existsb (fun i => Z.testbit (reset_reg r) (i + 4)) idxs.

(** What stepping back does to the chip: nothing when it is being rotated, when
    another slot is booted or a core is out of reset; otherwise the PLL reaches
    the 200 MHz setting with the reset register unchanged. *)
Definition stepped_back (idle : bool) (c c' : SharedChip) : Prop :=
  match inner c with
  | Some (arc, csm) =>
      if idle && negb (any_released (regs arc) [0; 1; 2; 3])
      then exists arc', c' = mk_chip (Some (arc', csm)) /\ at_mhz 200 (pll_of (regs arc')) /\
             reset_reg (regs arc') = reset_reg (regs arc)
      else c' = c
  | None => c' = c
  end.

Lemma idle_spec arc csm idxs :
  Forall (fun i => 0 <= i) idxs ->
  let c := mk_chip (Some (arc, csm)) in
  exists c', idle_unless_running c idxs = Some c' /\
    (if any_released (regs arc) idxs then c' = c
     else exists arc', c' = mk_chip (Some (arc', csm)) /\ at_mhz 200 (pll_of (regs arc')) /\
            reset_reg (regs arc') = reset_reg (regs arc)).
Proof.
  intros Hi c. induction Hi as [|i idxs Hi _ IH]; cbn [idle_unless_running any_released existsb].
  - destruct (set_frequency_reset arc 200 128 [15; 15; 15; 15] eq_refl) as (arc' & h & E & Hm & Hr & _).
    exists (mk_chip (Some (arc', csm))). unfold idle_pll, chip_set_frequency, c. cbn [inner]. rewrite E.
    split; [done|]. by exists arc'.
  - unfold l2cpu_is_running. unfold c at 1. rewrite read_reset. cbn [result_map].
    rewrite land_1_testbit by lia. destruct (Z.testbit _ _); [by exists c|]. exact IH.
Qed.

Lemma maybe_idle_spec st :
  exists c, maybe_idle_pll st = Some (set_chip st c) /\
    stepped_back (bool_decide (l2cpus st = ∅)) (shared_chip st) c.
Proof.
  unfold maybe_idle_pll, stepped_back. destruct (shared_chip st) as [[[arc csm]|]] eqn:Ec; cbn [inner].
  - case_bool_decide; cbn [andb].
    + assert (Hf : Forall (fun i => 0 <= i) [0; 1; 2; 3]).
      { repeat (apply Forall_cons; split; [lia|]). by apply Forall_nil. }
      destruct (idle_spec arc csm _ Hf) as (c & -> & H'). exists c. split; [done|].
      by destruct (any_released _ _).
    + exists (mk_chip (Some (arc, csm))). split; [|done]. by destruct st; simpl in *; subst.
  - exists (mk_chip None). split; [|done]. case_bool_decide; [done|]. by destruct st; simpl in *; subst.
Qed.

(** Every worker of the slot is joined, the console thread last. *)
Lemma slot_shutdown_eq st s :
  slot_shutdown st s = mk_state (card st) (l2cpus st) (shared_chip st) (tensix_engine st) (dispatcher st)
    (shutdown_tails st) (shutdown st) (joined st ++ slot_workers s ++ [console_worker s]).
Proof.
  unfold slot_shutdown. generalize (slot_workers s ++ [console_worker s]). intros ws. revert st.
  induction ws as [|w ws IH]; intros st; simpl; [rewrite app_nil_r; by destruct st|].
  rewrite IH. simpl. by rewrite <- app_assoc.
Qed.

Lemma stop_spec st i reason s :
  0 <= i < 4 -> l2cpus st !! i = Some s ->
  let hub := (disconnect_all_with_reason (console_hub s)
    (chars "l2cpu " ++ show_dec i ++ chars " stopped (" ++ reason ++ chars ")")).1 in
  exists c, internal_stop st i reason =
    Some (mk_state (card st) (delete i (l2cpus st)) c (tensix_engine st)
            ((fun d => without d i) <$> dispatcher st)
            (<[i := tail hub SHUTDOWN_TAIL_BYTES]> (shutdown_tails st)) (shutdown st)
            (joined st ++ slot_workers s ++ [console_worker s]), Ok true) /\
    stepped_back (bool_decide (delete i (l2cpus st) = ∅)) (shared_chip st) c.
Proof.
  intros Hi Es hub. unfold internal_stop, validate_l2cpu. rewrite (proj2 (Z.ltb_lt i 4)), Es by lia.
  fold hub. cbv zeta.
  set (st1 := unregister_engine_slots (set_tail (take_slot st i) i (tail hub SHUTDOWN_TAIL_BYTES)) i).
  assert (Ef : slot_shutdown st1 s = mk_state (card st) (delete i (l2cpus st)) (shared_chip st)
    (tensix_engine st) ((fun d => without d i) <$> dispatcher st)
    (<[i := tail hub SHUTDOWN_TAIL_BYTES]> (shutdown_tails st)) (shutdown st)
    (joined st ++ slot_workers s ++ [console_worker s])).
  { by rewrite slot_shutdown_eq. }
  rewrite Ef. destruct (maybe_idle_spec (mk_state (card st) (delete i (l2cpus st)) (shared_chip st)
    (tensix_engine st) ((fun d => without d i) <$> dispatcher st)
    (<[i := tail hub SHUTDOWN_TAIL_BYTES]> (shutdown_tails st)) (shutdown st)
    (joined st ++ slot_workers s ++ [console_worker s]))) as (c & E & Hc).
  rewrite E. exists c. split; [reflexivity|exact Hc].
Qed.

Lemma ok_stop st i reason st' r :
  state_ok st -> internal_stop st i reason = Some (st', r) -> state_ok st'.
Proof.
  intros Hok. destruct (l2cpus st !! i) as [s|] eqn:Es.
  - destruct (proj1 Hok i s Es) as [Hi _]. destruct (stop_spec st i reason s Hi Es) as (c & E & _).
    rewrite E. intros [= <- _]. unfold state_ok. cbn [l2cpus dispatcher]. by apply consistent_stop.
  - unfold internal_stop. destruct (validate_l2cpu i); [rewrite Es|]; by intros [= <- _].
Qed.

(** One request or one park of an L2CPU; an index on the wire is a [u8]. *)
Inductive server_step (st : DaemonState) : DaemonState -> Prop :=
| step_add_disk h i path name st' r :
    dispatch_add_disk h st i path name = Some (st', r) -> server_step st st'
| step_remove_disk i name : server_step st (dispatch_remove_disk st i name).1
| step_add_net h i ssh fwd : server_step st (dispatch_add_net h st i ssh fwd).1
| step_remove_net i : 0 <= i -> server_step st (dispatch_remove_net st i).1
| step_add_console i : server_step st (dispatch_add_console st i).1
| step_remove_console i : 0 <= i -> server_step st (dispatch_remove_console st i).1
| step_stop i reason st' r : internal_stop st i reason = Some (st', r) -> server_step st st'
| step_shutdown : server_step st (dispatch_shutdown st).1
| step_drop_net i : server_step st (drop_net_for_reboot st i).1
| step_reattach_net h pair i fwd : server_step st (reattach_net_for_reboot h pair st i fwd).1
| step_shutdown_park i : server_step st (drop_workers_on_shutdown_park st i).

Lemma server_step_ok st st' : state_ok st -> server_step st st' -> state_ok st'.
Proof.
  intros Hok Hs. destruct Hs; eauto using ok_add_disk, ok_remove_disk, ok_add_net, ok_remove_net,
    ok_add_console, ok_remove_console, ok_stop, ok_drop_net, ok_drop_workers.
  unfold reattach_net_for_reboot. destruct pair; [by apply ok_add_net|done].
Qed.

Lemma add_disk_total h st i path name : dispatch_add_disk h st i path name <> None.
Proof.
  unfold dispatch_add_disk. repeat case_match; try done.
  match goal with Hp : pick_free_blk_slot _ _ = Some _ |- _ => apply pick_spec in Hp as (Hb & _ & _) end.
  apply blk_dev_cases in Hb. by destruct Hb as [-> | [-> | ->]].
Qed.

(** C4: over any sequence of management requests and parks, run one at a time,
    the slot table and the dispatcher stay in step: a virtio slot is
    registered exactly when the L2CPU it belongs to lists a device there, with
    the device type, interrupt and serial of that device; an L2CPU never has
    more than three disks, all on distinct block slots that its device tree
    declares and with distinct names; a UART stays registered only for a
    booted L2CPU; and neither adding a disk nor stopping panics. *)
Theorem attachments_in_step st st' :
  state_ok st -> rtc server_step st st' ->
  (forall d k, dispatcher st' = Some d -> entry_view <$> registry d !! k = expected_at (l2cpus st') k) /\
  (forall d u, dispatcher st' = Some d -> is_Some (uart_registry d !! u) -> is_Some (l2cpus st' !! u)) /\
  (forall i s, l2cpus st' !! i = Some s ->
     0 <= i < 4 /\ disks_ok i s /\ Z.of_nat (length (disks s)) <= MAX_DISKS_PER_L2CPU) /\
  (forall h i path name reason,
     dispatch_add_disk h st' i path name <> None /\ internal_stop st' i reason <> None).
Proof.
  intros Hok Hr. assert (Hok' : state_ok st') by (induction Hr; eauto using server_step_ok).
  clear Hr Hok. pose proof Hok' as [Hs Hd]. split; [|split; [|split]].
  - intros d k E. by apply (Hd d E).
  - intros d u E. by apply (Hd d E).
  - intros i s Hi. destruct (Hs i s Hi) as [? Hdk]. eauto using disks_ok_length.
  - intros h i path name reason. split; [apply add_disk_total|].
    destruct (l2cpus st' !! i) as [s|] eqn:Es.
    + destruct (Hs i s Es) as [Hi _]. destruct (stop_spec st' i reason s Hi Es) as (c & -> & _). done.
    + unfold internal_stop. destruct (validate_l2cpu i); by rewrite ?Es.
Qed.

(** Stopping a booted L2CPU succeeds and releases all of it and nothing
    else: its slot is gone, every virtio slot and the UART of the L2CPU are
    unregistered while the registrations of the others stay, its workers are
    joined once each with the console worker last, the tail of the hub after
    the goodbye line is kept for its index, and the PLL steps back to the
    200 MHz setting exactly when no slot is left and every core is in reset. *)
Theorem stop_releases st i reason s :
  state_ok st -> l2cpus st !! i = Some s ->
  exists st', internal_stop st i reason = Some (st', Ok true) /\
    l2cpus st' = delete i (l2cpus st) /\
    (forall d, dispatcher st = Some d -> exists d', dispatcher st' = Some d' /\
       uart_registry d' = delete i (uart_registry d) /\
       forall k, registry d' !! k = if k / DEVS_PER_L2CPU =? i then None else registry d !! k) /\
    joined st' = joined st ++ slot_workers s ++ [console_worker s] /\
    shutdown_tails st' = <[i := tail (disconnect_all_with_reason (console_hub s)
      (chars "l2cpu " ++ show_dec i ++ chars " stopped (" ++ reason ++ chars ")")).1 SHUTDOWN_TAIL_BYTES]>
      (shutdown_tails st) /\
    stepped_back (bool_decide (delete i (l2cpus st) = ∅)) (shared_chip st) (shared_chip st').
Proof.
  intros Hok Es. destruct (proj1 Hok i s Es) as [Hi _].
  destruct (stop_spec st i reason s Hi Es) as (c & E & Hc). rewrite E. eexists. split; [reflexivity|].
  cbn [l2cpus dispatcher joined shutdown_tails shared_chip]. split; [done|]. split; [|done].
  intros d Ed. exists (without d i). split; [by rewrite Ed|]. split; [apply uart_without|].
  intros k. by apply registry_without.
Qed.

(** Removing the network is not one step: the registration is dropped
    before the slot lock is taken, so when another client attaches a network
    in between, both requests answer ok and the L2CPU lists no network while
    the new device stays registered with the dispatcher. *)
Theorem remove_net_race h st i ssh fwd st2 :
  0 <= i < 4 -> dispatch_add_net h (remove_net_unregister st i) i ssh fwd = (st2, Ok tt) ->
  exists st3 s d e, remove_net_take st2 i = (st3, Ok tt) /\
    l2cpus st3 !! i = Some s /\ net s = None /\
    dispatcher st3 = Some d /\ registry d !! net_slot i = Some e /\ re_kind e = Net /\
    ~ state_ok st3.
Proof.
  intros Hi. unfold dispatch_add_net. destruct (validate_l2cpu i); [|done].
  cbn [l2cpus remove_net_unregister set_dispatcher].
  destruct (l2cpus st !! i) as [s|] eqn:Es; [|done]. case_bool_decide; [done|]. cbv zeta.
  destruct (negb _); [done|]. cbn [dispatcher remove_net_unregister set_dispatcher].
  destruct (dispatcher st) as [d|] eqn:Ed; cbn [fmap option_fmap option_map]; [|done]. destruct (virtio_net_new _ _ _ _ _ _ _) as [dev|]; [|done].
  set (e := entry_new (net_slot i) i (DNet dev) NET_IRQ Net). intros [= <-].
  unfold remove_net_take. cbn [l2cpus set_slot set_dispatcher]. rewrite lookup_insert_eq. cbn [net set_net].
  do 4 eexists. split; [reflexivity|]. cbn [l2cpus dispatcher stop_and_join set_slot set_dispatcher].
  rewrite !lookup_insert_eq. split; [reflexivity|]. split; [reflexivity|]. split; [reflexivity|].
  assert (He : registry (register_slot (unregister_slot d (net_slot i)) e) !! net_slot i = Some e).
  { cbn [register_slot publish registry]. apply lookup_insert_eq. }
  split; [exact He|]. split; [done|]. intros [_ Hd]. destruct (Hd _ eq_refl) as [Hreg _].
  specialize (Hreg (net_slot i)). cbn [dispatcher stop_and_join set_slot set_dispatcher] in Hreg.
  rewrite He in Hreg. destruct (dev_slot i DEV_NET Hi (proj1 dev_ranges)) as (E1 & E2 & _).
  unfold expected_at in Hreg. cbn [l2cpus stop_and_join set_slot] in Hreg. unfold net_slot in Hreg.
  rewrite E1, E2, lookup_insert_eq, expected_at_net in Hreg by done. done.
Qed.

(** ** The boxed device keeps the laws of the framework

    With it the theorems on chains and dispatches hold for the registry of the
    daemon, whose entries mix the four device types. *)

Definition dyn_slack : Z :=
  Z.max (Z.max (dev_slack VirtioBlk) (dev_slack VirtioNet)) (Z.max (dev_slack VirtioConsole) (dev_slack VirtioRng)).

Lemma frame_slack m m' a len s : frame m m' a (Z.max len s) -> s <= dyn_slack -> frame m m' a (Z.max len dyn_slack).
Proof. intros Hf Hs x Hx. apply Hf. lia. Qed.

Lemma dyn_slacks :
  dev_slack VirtioBlk <= dyn_slack /\ dev_slack VirtioNet <= dyn_slack /\
  dev_slack VirtioConsole <= dyn_slack /\ dev_slack VirtioRng <= dyn_slack.
Proof. unfold dyn_slack. lia. Qed.

#[local] Ltac dyn_frame law :=
  let E := fresh in
  match goal with |- match ?r with _ => _ end = Some _ -> _ => destruct r as [[? ?]|] eqn:E; [|done] end;
  repeat match goal with p : (_ * _)%type |- _ => destruct p end;
  intros; simplify_eq/=;
  (eapply frame_slack;
   [first [eapply (law VirtioBlk BlkImpl BlkLaws); exact E
          |eapply (law VirtioNet NetImpl NetDeviceLaws); exact E
          |eapply (law VirtioConsole ConsoleImpl ConsoleLaws); exact E
          |eapply (law VirtioRng RngImpl RngLaws); exact E]
   |apply dyn_slacks]).

#[export] Instance DynDeviceLaws : DeviceLaws Device.
Proof.
  refine {| dev_slack := dyn_slack |}.
  - intros [] m q a len d' m'; cbn [process_queue_start DynImpl]; unfold lift1; dyn_frame @start_frame.
  - intros [] m q a len d' m'; cbn [process_queue_data DynImpl]; unfold lift1; dyn_frame @data_frame.
  - intros [] m q a len d' m' k; cbn [process_queue_complete DynImpl]; unfold lift2; dyn_frame @complete_frame.
Defined.
(** ** A daemon with L2CPU 1 booted and nothing attached *)

Definition demo_slot : L2CpuSlot :=
  mk_slot (hub_new 1 0) (mk_worker (chars "console l2cpu 1")) [] None [DEV_BLK; DEV_BLK1] None None None
    (Some (Kernel (chars "Image"))) [].

Definition booted_demo : DaemonState :=
  mk_state 0 {[1 := demo_slot]} (mk_chip (Some (mk_arc ∅ [], ∅))) true
    (Some (mk_disp ∅ ∅ (mk_world ∅ ∅ ∅ ∅))) ∅ false [].

Definition demo_host : Host :=
  mk_host (fun _ => Some (Some (∅, 512))) (fun _ => mk_blk_metrics 0 0 0 0 0 0) (fun _ => true)
    true [] (fun _ => mk_net_metrics 0 0 0 0).

Lemma booted_demo_ok : state_ok booted_demo.
Proof.
  split.
  - intros i s Hi. cbn [booted_demo l2cpus] in Hi. apply lookup_singleton_Some in Hi as [<- <-]. split; [lia|].
    split; [|split]; [by apply Forall_nil|apply NoDup_nil_2..].
  - intros d [= <-]. cbn [registry uart_registry]. split.
    + intros k. rewrite lookup_empty. unfold expected_at. symmetry. cbn [booted_demo l2cpus].
      destruct ({[1 := demo_slot]} !! (k / DEVS_PER_L2CPU)) as [s|] eqn:E; [|done].
      apply lookup_singleton_Some in E as [_ <-]. unfold expected. cbn. repeat case_match; done.
    + intros u Hu. rewrite lookup_empty in Hu. by destruct Hu.
Qed.

Lemma attachments_in_step_witness : exists st',
  dispatch_add_disk demo_host booted_demo 1 (chars "root.img") (Some (chars "root")) = Some (st', Ok tt) /\
  forall d k, dispatcher st' = Some d -> entry_view <$> registry d !! k = expected_at (l2cpus st') k.
Proof.
  eexists. split; [reflexivity|].
  eapply (attachments_in_step booted_demo); [exact booted_demo_ok|].
  apply rtc_once. eapply (step_add_disk _ demo_host 1 (chars "root.img") (Some (chars "root"))). reflexivity.
Defined.

Lemma stop_releases_witness : exists st',
  internal_stop booted_demo 1 (chars "test") = Some (st', Ok true) /\
  l2cpus st' !! 1 = None /\ joined st' = [mk_worker (chars "console l2cpu 1")].
Proof.
  destruct (stop_releases booted_demo 1 (chars "test") demo_slot booted_demo_ok) as (st' & E & Hl & _ & Hj & _).
  { apply lookup_singleton_eq. }
  exists st'. split; [exact E|]. split; [rewrite Hl; apply lookup_delete_eq|exact Hj].
Defined.

Lemma remove_net_race_witness : exists st2 st3,
  dispatch_add_net demo_host (remove_net_unregister booted_demo 1) 1 None [] = (st2, Ok tt) /\
  remove_net_take st2 1 = (st3, Ok tt) /\ ~ state_ok st3.
Proof.
  destruct (dispatch_add_net demo_host (remove_net_unregister booted_demo 1) 1 None []) as [st2 r] eqn:E.
  assert (r = Ok tt) as -> by (injection E as _ <-; reflexivity).
  destruct (remove_net_race demo_host booted_demo 1 None [] st2) as (st3 & s & d & e & H1 & _ & _ & _ & _ & _ & H2);
    [lia|exact E|].
  by exists st2, st3.
Defined.
