(* ===== verification/Release.v ===== *)
(** Waking a parked L2CPU: [read_parked_release_meta],
    [trigger_force_park_if_available], [swap_attached_for_release],
    [attach_rng_inline] and [dispatch_release] of [src/daemon/server.rs].

    The state is that of [Server] with the machine of [Tlb] and the L2CPU
    handle each booted slot holds.  A handler returns the new state and its
    result, and [None] is a panic.  The class [Guest] is what runs on the core
    while the daemon sleeps; the clock advances at least as much as the
    sleeps. *)

From S2P Require Import Prelude Layout Text Sigbus Tlb Virtqueue VirtioBlk ConsoleHub VirtioConsole VirtioRng VirtioNet DataPlane L2cpu Clock Parse Protocol Tensix Boot ChipConsole DeviceTree DtbProofs Server.

Definition NEXT_ADDR_PA_OFFSET : Z := STATUS_OFFSET + 0x10.
Definition NEXT_MODE_PA_OFFSET : Z := STATUS_OFFSET + 0x18.
Definition NEXT_ARG1_PA_OFFSET : Z := STATUS_OFFSET + 0x20.
Definition HSM_STATE_PA_OFFSET : Z := STATUS_OFFSET + 0x28.
Definition MSIP_PA_OFFSET : Z := STATUS_OFFSET + 0x30.
Definition FORCE_PARK_REQ_PA_OFFSET : Z := STATUS_OFFSET + 0x38.
Definition FORCE_PARK_REQ_VALUE_OFFSET : Z := STATUS_OFFSET + 0x40.
Definition NEXT_MODE_S : Z := 1.
Definition HSM_STATE_STOPPED : Z := 1.
Definition HSM_STATE_START_PENDING : Z := 2.
Definition FORCE_PARK_TIMEOUT_SECS : Z := 10.

(** ** Attachments *)

Definition rng_slot (i : Z) : Z := u32 (u32 (i * DEVS_PER_L2CPU) + DEV_RNG).

(** [entropy] is what [getrandom] will answer the device. *)
Definition attach_rng_inline (entropy : list RandRet) (st : DaemonState) (i : Z)
    : DaemonState * result unit Error :=
  if negb (tensix_engine st) then (st, Err SlotState)
  else match dispatcher st with
  | None => (st, Err SlotState)
  | Some d =>
      match l2cpus st !! i with
      | None => (st, Err SlotState)
      | Some s =>
          let slot_idx := rng_slot i in
          let config_addr := u32 (slot_regs_base slot_idx + MMIO_CONFIG) in
          let rng := mk_rng entropy in
          let w := set_l1 (world d) (init_config rng (w_l1 (world d)) config_addr) in
          let d := mk_disp (registry d) (uart_registry d) w in
          let d := register_slot d (entry_new slot_idx i (DRng rng) RNG_IRQ Rng) in
          let worker := mk_worker (chars "rng l2cpu " ++ show_dec i ++ chars " (engine)") in
          (set_slot (set_dispatcher st (Some d)) i (set_virtio_rng s (Some worker)), Ok tt)
      end
  end.

(** What the request asks to be attached. *)
Record Attach := mk_attach {
  a_disk : option (list Z);
  a_cloud_init : option (list Z);
  a_network : bool;
  a_extra_fwd : list (Z * Z);
  a_rng : bool;
  a_console : bool }.

(** The first part: the devices the slot has are unregistered and joined. *)
Definition detach_all (st : DaemonState) (i : Z) : DaemonState * result unit Error :=
  match l2cpus st !! i with
  | None => (st, Err SlotState)
  | Some s =>
      let st := set_slot st i (set_virtio_rng (set_virtio_console (set_net (set_disks s []) None) None) None) in
      let base := u32 (i * DEVS_PER_L2CPU) in
      let ks := List.map dw_slot_idx (disks s)
        ++ (if bool_decide (is_Some (net s)) then [u32 (base + DEV_NET)] else [])
        ++ (if bool_decide (is_Some (virtio_console s)) then [u32 (base + DEV_CONSOLE)] else [])
        ++ (if bool_decide (is_Some (virtio_rng s)) then [u32 (base + DEV_RNG)] else []) in
      let st := set_dispatcher st ((fun d => unregister_all d ks) <$> dispatcher st) in
      (foldl stop_and_join st (slot_workers s), Ok tt)
  end.

(** A step of a handler, run only if the ones before succeeded. *)
Definition and_then (r : option (DaemonState * result unit Error))
    (k : DaemonState -> option (DaemonState * result unit Error)) : option (DaemonState * result unit Error) :=
  match r with
  | Some (st, Ok _) => k st
  | _ => r
  end.

Definition when {A} (o : option A) (k : A -> DaemonState -> option (DaemonState * result unit Error))
    (st : DaemonState) : option (DaemonState * result unit Error) :=
  match o with Some a => k a st | None => Some (st, Ok tt) end.

Definition flag (b : bool) : option unit := if b then Some tt else None.

(** [pair] is whether the throwaway socket pair could be made. *)
Definition swap_attached_for_release (h : Host) (pair : bool) (entropy : list RandRet) (st : DaemonState) (i : Z)
    (a : Attach) : option (DaemonState * result unit Error) :=
  and_then (Some (detach_all st i)) (fun st =>
  if negb pair then Some (st, Err Io) else
  and_then (when (a_disk a) (fun path st => dispatch_add_disk h st i path None) st) (fun st =>
  and_then (when (a_cloud_init a) (fun path st => dispatch_add_disk h st i path (Some (chars "cidata"))) st) (fun st =>
  and_then (when (flag (a_network a)) (fun _ st => Some (dispatch_add_net h st i None (a_extra_fwd a))) st) (fun st =>
  and_then (when (flag (a_console a)) (fun _ st => Some (dispatch_add_console st i)) st) (fun st =>
  when (flag (a_rng a)) (fun _ st => Some (attach_rng_inline entropy st i)) st))))).

(** ** The parked core *)

Record Machine := mk_machine {
  daemon : DaemonState;
  host : Os;
  handles : gmap Z L2Cpu }.

Definition set_daemon (m : Machine) (st : DaemonState) : Machine := mk_machine st (host m) (handles m).
Definition set_host (m : Machine) (os : Os) : Machine := mk_machine (daemon m) os (handles m).

Definition reply (A : Type) : Type := option (Machine * result A Error).

(** An operation of the core whose error ends the handler. *)
Definition on_host {A B} (m : Machine) (x : io A) (k : A -> Machine -> reply B) : reply B :=
  match x with
  | Ret a os => k a (set_host m os)
  | IoErr _ os => Some (set_host m os, Err Io)
  | Panic => None
  end.

(** The handle of a booted slot. *)
Definition slot_l2cpu (m : Machine) (i : Z) : option L2Cpu :=
  match l2cpus (daemon m) !! i with Some _ => handles m !! i | None => None end.

Class Guest := {
  guest_step : nat -> gmap Z Z -> gmap Z Z;
  waited_ms : nat -> Z;
  waited_grows : forall k, 10 * Z.of_nat k <= waited_ms k }.

Section with_kernel.
Context `{K : Tlb.Kernel} `{L : Libfdt} `{G : Guest}.

(** The closure [read_u64]: a failed access is [None]. *)
Definition read_u64 (l : L2Cpu) (pa : Z) (os : Os) : io (option Z) :=
  match l2cpu_read32 l pa os with
  | Ret lo os =>
      match l2cpu_read32 l (u64 (pa + 4)) os with
      | Ret hi os => Ret (Some (Z.lor (Z.shiftl hi 32) lo)) os
      | IoErr _ os => Ret None os
      | Panic => Panic
      end
  | IoErr _ os => Ret None os
  | Panic => Panic
  end.

Record ParkedReleaseMeta := mk_meta {
  m_l2cpu : L2Cpu;
  next_addr_pa : Z;
  next_mode_pa : Z;
  next_arg1_pa : Z;
  hsm_state_pa : Z;
  msip_pa : Z }.

Definition positive (o : option Z) : option Z :=
  match o with Some a => if 0 <? a then Some a else None | None => None end.

Definition read_parked_release_meta (m : Machine) (i : Z) : reply (option ParkedReleaseMeta) :=
  match slot_l2cpu m i with
  | None => Some (m, Ok None)
  | Some l =>
      let mem_base := L2CPU_STARTING_ADDRESS i in
      on_host m (read_u64 l (mem_base + STATUS_OFFSET) (host m)) (fun status m =>
      if negb (bool_decide (status = Some STATUS_PARKED)) then Some (m, Ok None)
      else
        on_host m (read_u64 l (mem_base + NEXT_ADDR_PA_OFFSET) (host m)) (fun a m =>
        on_host m (read_u64 l (mem_base + NEXT_MODE_PA_OFFSET) (host m)) (fun b m =>
        on_host m (read_u64 l (mem_base + NEXT_ARG1_PA_OFFSET) (host m)) (fun c m =>
        on_host m (read_u64 l (mem_base + HSM_STATE_PA_OFFSET) (host m)) (fun d m =>
        on_host m (read_u64 l (mem_base + MSIP_PA_OFFSET) (host m)) (fun e m =>
        match positive a, positive b, positive c, positive d, positive e with
        | Some a, Some b, Some c, Some d, Some e => Some (m, Ok (Some (mk_meta l a b c d e)))
        | _, _, _, _, _ => Some (m, Ok None)
        end))))))
  end.

(** [(l.read32(pa), l.read32(pa + 4))]: both reads are made. *)
Definition read_both (l : L2Cpu) (pa : Z) (os : Os) : io (option Z) :=
  match l2cpu_read32 l pa os with
  | Ret lo os =>
      match l2cpu_read32 l (pa + 4) os with
      | Ret hi os => Ret (Some (Z.lor (Z.shiftl hi 32) lo)) os
      | IoErr _ os => Ret None os
      | Panic => Panic
      end
  | IoErr _ os =>
      match l2cpu_read32 l (pa + 4) os with
      | Ret _ os | IoErr _ os => Ret None os
      | Panic => Panic
      end
  | Panic => Panic
  end.

Inductive SiblingClassification := SibParked | SibRunning.

Definition classify_sibling (purg : option Z) : SiblingClassification :=
  if bool_decide (purg = Some STATUS_PARKED) then SibParked else SibRunning.

(** What the guest does to the core's memory during the [k]-th sleep. *)
Definition sleep_guest (l : L2Cpu) (k : nat) (os : Os) : Os :=
  set_noc (<[coordinates l := guest_step k (tile_mem os (coordinates l))]> (noc os)) os.

(** The loop of step 4; [false] is the timeout.  The fuel is more than the
    sleeps of ten milliseconds that fit before the deadline. *)
Fixpoint park_poll (fuel k : nat) (l : L2Cpu) (purg_pa : Z) (os : Os) : io bool :=
  match read_both l purg_pa os with
  | Panic => Panic
  | IoErr e os => IoErr e os
  | Ret v os =>
      if bool_decide (v = Some STATUS_PARKED) then Ret true os
      else if FORCE_PARK_TIMEOUT_SECS * 1000 <=? waited_ms k then Ret false os
      else match fuel with
           | O => Panic
           | S fuel => park_poll fuel (S k) l purg_pa (sleep_guest l k os)
           end
  end.

Definition park_fuel : nat := 1001.

Definition write_u64 (l : L2Cpu) (pa val : Z) (os : Os) : io unit :=
  io_bind (l2cpu_write32 l pa (u32 val) os) (fun _ os =>
  l2cpu_write32 l (u64 (pa + 4)) (u32 (Z.shiftr val 32)) os).

Definition trigger_force_park_if_available (m : Machine) (i : Z) : reply (option ParkedReleaseMeta) :=
  let mem_base := L2CPU_STARTING_ADDRESS i in
  match slot_l2cpu m i with
  | None => Some (m, Ok None)
  | Some l =>
      on_host m (read_u64 l (mem_base + FORCE_PARK_REQ_PA_OFFSET) (host m)) (fun req_pa m =>
      on_host m (read_u64 l (mem_base + FORCE_PARK_REQ_VALUE_OFFSET) (host m)) (fun req_val m =>
      on_host m (read_u64 l (mem_base + MSIP_PA_OFFSET) (host m)) (fun mpa m =>
      match positive req_pa, positive req_val, positive mpa with
      | Some rpa, Some rval, Some mpa =>
          on_host m (write_u64 l rpa rval (host m)) (fun _ m =>
          on_host m (l2cpu_write32 l mpa 1 (host m)) (fun _ m =>
          on_host m (park_poll park_fuel 0 l (mem_base + STATUS_OFFSET) (host m)) (fun parked m =>
          if parked then read_parked_release_meta m i else Some (m, Err Internal))))
      | _, _, _ => Some (m, Ok None)
      end)))
  end.

Definition take_slot_dtb_bytes (m : Machine) (i : Z) : option (list Z) :=
  match l2cpus (daemon m) !! i with Some s => dtb_bytes s | None => None end.

(** The end of [dispatch_release], from the clearing of the magic on. *)
Definition wake (m : Machine) (i : Z) (meta : ParkedReleaseMeta) : reply unit :=
  let mem_base := L2CPU_STARTING_ADDRESS i in
  let l := m_l2cpu meta in
  on_host m (write_u64 l (mem_base + STATUS_OFFSET) 0 (host m)) (fun _ m =>
  on_host m (write_u64 l (next_addr_pa meta) (mem_base + KERNEL_OFFSET) (host m)) (fun _ m =>
  on_host m (write_u64 l (next_mode_pa meta) NEXT_MODE_S (host m)) (fun _ m =>
  on_host m (write_u64 l (next_arg1_pa meta) (mem_base + DTB_OFFSET) (host m)) (fun _ m =>
  on_host m (l2cpu_read32 l (hsm_state_pa meta) (host m)) (fun hsm_now m =>
  if negb (hsm_now =? HSM_STATE_STOPPED) then Some (m, Err Internal)
  else
    on_host m (l2cpu_write32 l (hsm_state_pa meta) HSM_STATE_START_PENDING (host m)) (fun _ m =>
    on_host m (l2cpu_write32 l (msip_pa meta) 1 (host m)) (fun _ m =>
    Some (set_daemon m (set_tail (daemon m) i []), Ok tt)))))))).

(** [payload] is what reading the payload's file gives. *)
Definition dispatch_release (h : Host) (pair : bool) (entropy : list RandRet) (m : Machine) (i : Z)
    (payload : result (list Z) Z) (meta : ParkedReleaseMeta) (dtb : option (list Z)) (a : Attach) : reply unit :=
  let mem_base := L2CPU_STARTING_ADDRESS i in
  let kernel_addr := mem_base + KERNEL_OFFSET in
  let dtb_addr := mem_base + DTB_OFFSET in
  let l := m_l2cpu meta in
  match read_bin_file payload with
  | Err _ => Some (m, Err Io)
  | Ok kernel_bytes =>
      on_host m (l2cpu_noc_write_bulk l kernel_addr kernel_bytes (host m)) (fun _ m =>
      let reimage (k : Machine -> reply unit) : reply unit :=
        match dtb with
        | None => k m
        | Some bytes =>
            match add_opensbi_reservation_for_release bytes mem_base with
            | Err FdtPanic => None
            | Err _ => Some (m, Err Parse.Fdt)
            | Ok with_opensbi_resv =>
                on_host m (l2cpu_noc_write_bulk l dtb_addr with_opensbi_resv (host m)) (fun _ m => k m)
            end
        end in
      reimage (fun m =>
      let swapped :=
        if bool_decide (is_Some (a_disk a)) || bool_decide (is_Some (a_cloud_init a)) || a_network a || a_rng a
           || a_console a
        then swap_attached_for_release h pair entropy (daemon m) i a
        else Some (daemon m, Ok tt) in
      match swapped with
      | None => None
      | Some (st, Err e) => Some (set_daemon m st, Err e)
      | Some (st, Ok _) => wake (set_daemon m st) i meta
      end))
  end.

End with_kernel.

(** ** Attachments stay in step *)

Lemma detach_all_drop st i :
  detach_all st i = match l2cpus st !! i with
                    | None => (st, Err SlotState)
                    | Some _ => (drop_workers_on_shutdown_park st i, Ok tt)
                    end.
Proof. unfold detach_all, drop_workers_on_shutdown_park. by destruct (l2cpus st !! i). Qed.

Lemma expected_at_rng i s : 0 <= i < 4 ->
  expected (i * DEVS_PER_L2CPU + DEV_RNG) i s =
    (fun _ => (i * DEVS_PER_L2CPU + DEV_RNG, i, Rng, Rng, RNG_IRQ, None)) <$> virtio_rng s.
Proof.
  intros Hi. unfold expected. destruct (dev_slot i DEV_RNG Hi (proj2 (proj2 dev_ranges))) as (_ & _ & E).
  rewrite E. done.
Qed.

Lemma ok_attach_rng entropy st i : state_ok st -> state_ok (attach_rng_inline entropy st i).1.
Proof.
  intros Hok. unfold attach_rng_inline. destruct (negb _); [done|]. unfold state_ok in *.
  destruct (dispatcher st) as [d|] eqn:Ed; [|by rewrite <- Ed in Hok].
  destruct (l2cpus st !! i) as [s|] eqn:Es; [|by rewrite <- Ed in Hok].
  cbn [fst l2cpus dispatcher set_slot set_dispatcher].
  destruct (proj1 Hok i s Es) as [Hi Hd].
  destruct (dev_slot i DEV_RNG Hi (proj2 (proj2 dev_ranges))) as (E1 & E2 & E3).
  eapply consistent_add with (s := s); [exact Hok|exact Es|exact Hd|reflexivity|done| | |];
    cbn [re_slot entry_new]; unfold rng_slot; rewrite E1.
  - exact E2.
  - intros k Hk Hne. eapply (expected_single k i DEV_RNG); [done|apply dev_ranges|done..].
  - rewrite expected_at_rng by done. done.
Qed.

(** What an L2CPU has attached. *)
Definition devices (s : L2CpuSlot) : list (list Z * option (list Z)) * bool * bool * bool :=
  (List.map (fun d => (dw_path d, dw_name d)) (disks s), bool_decide (is_Some (net s)),
   bool_decide (is_Some (virtio_console s)), bool_decide (is_Some (virtio_rng s))).

Definition attached (st : DaemonState) (i : Z) (dv : list (list Z * option (list Z)) * bool * bool * bool) : Prop :=
  exists s, l2cpus st !! i = Some s /\ devices s = dv.

Lemma attached_insert st st' i s dv :
  l2cpus st' = <[i := s]> (l2cpus st) -> devices s = dv -> attached st' i dv.
Proof. intros H <-. exists s. by rewrite H, lookup_insert_eq. Qed.

Lemma detach_attached st i st' : detach_all st i = (st', Ok tt) -> attached st' i ([], false, false, false).
Proof.
  rewrite detach_all_drop. unfold drop_workers_on_shutdown_park. destruct (l2cpus st !! i) as [s|]; [|done].
  intros [= <-]. eapply (attached_insert st); [by rewrite join_l2cpus|done].
Qed.

Lemma add_disk_attached h st i path name st' ds n c r :
  attached st i (ds, n, c, r) -> dispatch_add_disk h st i path name = Some (st', Ok tt) ->
  attached st' i (ds ++ [(path, name)], n, c, r).
Proof.
  intros (s & Es & Hd) H. unfold dispatch_add_disk in H. destruct (validate_l2cpu i); [|done].
  rewrite Es in H. repeat case_match; simplify_eq.
  eapply (attached_insert st); [reflexivity|]. unfold devices in *. cbn. simplify_eq. by rewrite List.map_app.
Qed.

Lemma add_net_attached h st i o fwd st' ds n c r :
  attached st i (ds, n, c, r) -> dispatch_add_net h st i o fwd = (st', Ok tt) -> attached st' i (ds, true, c, r).
Proof.
  intros (s & Es & Hd) H. unfold dispatch_add_net in H. destruct (validate_l2cpu i); [|done].
  rewrite Es in H. repeat case_match; simplify_eq;
    (eapply (attached_insert st); [reflexivity|]; unfold devices in *; cbn; by simplify_eq).
Qed.

Lemma add_console_attached st i st' ds n c r :
  attached st i (ds, n, c, r) -> dispatch_add_console st i = (st', Ok tt) -> attached st' i (ds, n, true, r).
Proof.
  intros (s & Es & Hd) H. unfold dispatch_add_console in H. destruct (validate_l2cpu i); [|done].
  rewrite Es in H. repeat case_match; simplify_eq;
    (eapply (attached_insert st); [reflexivity|]; unfold devices in *; cbn; by simplify_eq).
Qed.

Lemma attach_rng_attached entropy st i st' ds n c r :
  attached st i (ds, n, c, r) -> attach_rng_inline entropy st i = (st', Ok tt) -> attached st' i (ds, n, c, true).
Proof.
  intros (s & Es & Hd) H. unfold attach_rng_inline in H. destruct (negb _); [done|].
  destruct (dispatcher st); [|done]. rewrite Es in H. simplify_eq.
  eapply (attached_insert st); [reflexivity|]. unfold devices in *. cbn. by simplify_eq.
Qed.

(** A step of the swap: it keeps the invariant, does not panic, and on success
    changes what is attached by [f]. *)
Definition swap_step (i : Z) (k : DaemonState -> option (DaemonState * result unit Error))
    (f : list (list Z * option (list Z)) * bool * bool * bool -> list (list Z * option (list Z)) * bool * bool * bool)
    : Prop :=
  forall st dv, state_ok st -> attached st i dv ->
    match k st with
    | None => False
    | Some (st', Ok _) => state_ok st' /\ attached st' i (f dv)
    | Some (st', Err _) => state_ok st'
    end.

Lemma swap_seq i k k' f g :
  swap_step i k f -> swap_step i k' g -> swap_step i (fun st => and_then (k st) k') (fun dv => g (f dv)).
Proof.
  intros Hk Hk' st dv Hok Ha. specialize (Hk st dv Hok Ha). destruct (k st) as [[st1 [[]|e]]|]; cbn [and_then]; [|done..].
  destruct Hk as [Hok1 Ha1]. apply (Hk' st1 (f dv) Hok1 Ha1).
Qed.

Lemma swap_when {A} i (o : option A) k f :
  (forall a, o = Some a -> swap_step i (k a) (f a)) ->
  swap_step i (when o k) (fun dv => match o with Some a => f a dv | None => dv end).
Proof. destruct o as [a|]; [intros H; exact (H a eq_refl)|]. by intros _ st dv Hok Ha. Qed.

Definition with_disk (path : list Z) (name : option (list Z))
    (dv : list (list Z * option (list Z)) * bool * bool * bool) : list (list Z * option (list Z)) * bool * bool * bool :=
  let '(ds, n, c, r) := dv in (ds ++ [(path, name)], n, c, r).

Lemma step_disk h i path name : swap_step i (fun st => dispatch_add_disk h st i path name) (with_disk path name).
Proof.
  intros st [[[ds n] c] r] Hok Ha. destruct (dispatch_add_disk h st i path name) as [[st' [[]|e]]|] eqn:E.
  - split; [by eapply ok_add_disk|]. by eapply add_disk_attached.
  - by eapply ok_add_disk.
  - by eapply add_disk_total.
Qed.

Lemma step_net h i o fwd :
  swap_step i (fun st => Some (dispatch_add_net h st i o fwd)) (fun '(ds, _, c, r) => (ds, true, c, r)).
Proof.
  intros st [[[ds n] c] r] Hok Ha. pose proof (ok_add_net h st i o fwd Hok) as H.
  destruct (dispatch_add_net h st i o fwd) as [st' [[]|e]] eqn:E; [|done]. split; [done|]. by eapply add_net_attached.
Qed.

Lemma step_console i :
  swap_step i (fun st => Some (dispatch_add_console st i)) (fun '(ds, n, _, r) => (ds, n, true, r)).
Proof.
  intros st [[[ds n] c] r] Hok Ha. pose proof (ok_add_console st i Hok) as H.
  destruct (dispatch_add_console st i) as [st' [[]|e]] eqn:E; [|done]. split; [done|]. by eapply add_console_attached.
Qed.

Lemma step_rng entropy i :
  swap_step i (fun st => Some (attach_rng_inline entropy st i)) (fun '(ds, n, c, _) => (ds, n, c, true)).
Proof.
  intros st [[[ds n] c] r] Hok Ha. pose proof (ok_attach_rng entropy st i Hok) as H.
  destruct (attach_rng_inline entropy st i) as [st' [[]|e]] eqn:E; [|done]. split; [done|]. by eapply attach_rng_attached.
Qed.

Definition asked (a : Attach) : list (list Z * option (list Z)) * bool * bool * bool :=
  (option_list ((fun p => (p, None)) <$> a_disk a) ++ option_list ((fun p => (p, Some (chars "cidata"))) <$> a_cloud_init a),
   a_network a, a_console a, a_rng a).

Lemma swap_all h pair entropy i a st :
  state_ok st ->
  match swap_attached_for_release h pair entropy st i a with
  | None => False
  | Some (st', Ok _) => state_ok st' /\ attached st' i (asked a)
  | Some (st', Err _) => state_ok st'
  end.
Proof.
  intros Hok. unfold swap_attached_for_release. cbn [and_then].
  pose proof (detach_all_drop st i) as Hdrop. pose proof (ok_drop_workers st i Hok) as Hok1.
  destruct (detach_all st i) as [st1 [[]|e]] eqn:E; cbn [and_then]; [|by destruct (l2cpus st !! i); simplify_eq].
  apply detach_attached in E as Ha. destruct (l2cpus st !! i); simplify_eq.
  destruct pair; cbn [negb]; [|done].
  pose proof (swap_seq i _ _ _ _ (swap_when i (a_disk a) _ _ (fun p _ => step_disk h i p None))
    (swap_seq i _ _ _ _ (swap_when i (a_cloud_init a) _ _ (fun p _ => step_disk h i p (Some (chars "cidata"))))
    (swap_seq i _ _ _ _ (swap_when i (flag (a_network a)) _ _ (fun _ _ => step_net h i None (a_extra_fwd a)))
    (swap_seq i _ _ _ _ (swap_when i (flag (a_console a)) _ _ (fun _ _ => step_console i))
    (swap_when i (flag (a_rng a)) _ _ (fun _ _ => step_rng entropy i))))) _ _ Hok1 Ha) as H.
  cbv beta in H. destruct (and_then _ _) as [[st' [[]|e]]|]; [|done..]. destruct H as [H1 H2]. split; [done|].
  unfold asked. destruct a as [disk ci net fwd rng con]. cbn in *.
  by destruct disk, ci, net, con, rng.
Qed.

(** ** The words that wake the hart *)

Definition u64_words (pa v : Z) : list (Z * Z) := [(pa, u32 v); (u64 (pa + 4), u32 (Z.shiftr v 32))].

Definition release_words (i : Z) (meta : ParkedReleaseMeta) : list (Z * Z) :=
  let mem_base := L2CPU_STARTING_ADDRESS i in
  u64_words (mem_base + STATUS_OFFSET) 0 ++
  u64_words (next_addr_pa meta) (mem_base + KERNEL_OFFSET) ++
  u64_words (next_mode_pa meta) NEXT_MODE_S ++
  u64_words (next_arg1_pa meta) (mem_base + DTB_OFFSET).

Definition word_addr (pa : Z) : Prop := fits 64 pa /\ pa mod 4 = 0.

(** The published addresses are of words. *)
Definition meta_ok (meta : ParkedReleaseMeta) : Prop :=
  Forall word_addr [next_addr_pa meta; next_mode_pa meta; next_arg1_pa meta; hsm_state_pa meta; msip_pa meta].

Lemma word_addr_next pa : word_addr pa -> word_addr (u64 (pa + 4)).
Proof.
  intros [Hf H4]. split; [apply wrap_fits; lia|]. unfold u64, wrap, fits in *.
  destruct (Z.lt_ge_cases (pa + 4) (2 ^ 64)).
  - rewrite (Z.mod_small (pa + 4)) by lia. rewrite Z.add_mod, H4 by done. done.
  - assert (pa + 4 = 2 ^ 64) as -> by (Z.div_mod_to_equations; lia). done.
Qed.

Lemma u64_words_ok pa v : word_addr pa -> Forall (fun w => fits 64 w.1 /\ w.1 mod 4 = 0) (u64_words pa v).
Proof. intros Hpa. repeat constructor; cbn; try apply Hpa; apply (word_addr_next pa Hpa). Qed.

Lemma status_addr i : 0 <= i < 4 -> word_addr (L2CPU_STARTING_ADDRESS i + STATUS_OFFSET).
Proof.
  intros Hi. assert (i = 0 \/ i = 1 \/ i = 2 \/ i = 3) as Hc by lia.
  destruct Hc as [-> |[-> |[-> | ->]]]; split; done.
Qed.

Lemma release_words_ok i meta :
  0 <= i < 4 -> meta_ok meta -> Forall (fun w => fits 64 w.1 /\ w.1 mod 4 = 0) (release_words i meta).
Proof.
  intros Hi Hm. unfold meta_ok in Hm. rewrite !Forall_cons in Hm. destruct Hm as (H1 & H2 & H3 & _).
  unfold release_words. repeat apply Forall_app_2; apply u64_words_ok; [by apply status_addr|done..].
Qed.

Section release.
Context `{KL : KernelLaws} `{L : Libfdt} `{G : Guest}.

Lemma write_u64_all l pa v os : write_u64 l pa v os = l2cpu_write_all l (u64_words pa v) os.
Proof.
  unfold write_u64. cbn [l2cpu_write_all u64_words].
  destruct (l2cpu_write32 l pa _ os) as [[] os1|e os1|]; cbn [io_bind]; [|done..].
  by destruct (l2cpu_write32 l _ _ os1) as [[] os2|e os2|].
Qed.

(** The machine after the words [ws], with nothing else changed. *)
Definition written (l : L2Cpu) (os0 : Os) (ws : list (Z * Z)) (os : Os) : Prop :=
  same_resources os os0 /\ tile_mem os (coordinates l) = stores ws (tile_mem os0 (coordinates l)) /\
  forall t, t <> coordinates l -> tile_mem os t = tile_mem os0 t.

Lemma written_refl l os : written l os [] os.
Proof. by split. Qed.

Lemma written_more l os0 ws ws' os :
  l2_fd l ∈ fds os0 -> Forall (fun w => fits 64 w.1 /\ w.1 mod 4 = 0) ws' -> written l os0 ws os ->
  match l2cpu_write_all l ws' os with
  | Ret _ os' => written l os0 (ws ++ ws') os'
  | IoErr _ os' => exists k, (k < length ws')%nat /\ written l os0 (ws ++ take k ws') os'
  | Panic => False
  end.
Proof.
  intros Hfd Hws (Hs & Hm & Ho). pose proof (l2cpu_write_all_spec l ws' os Hws ltac:(by rewrite Hs)) as H.
  destruct (l2cpu_write_all l ws' os) as [[] os'|e os'|]; [| |done].
  - destruct H as (H1 & H2 & H3). split; [by rewrite H1|]. split; [|intros t Ht; by rewrite H3, Ho].
    unfold stores in *. by rewrite H2, Hm, foldl_app.
  - destruct H as (H1 & k & Hk & H2 & H3). exists k. split; [done|].
    split; [by rewrite H1|]. split; [|intros t Ht; by rewrite H3, Ho].
    unfold stores in *. by rewrite H2, Hm, foldl_app.
Qed.

Lemma read_written l os0 ws os pa :
  l2_fd l ∈ fds os0 -> word_addr pa -> written l os0 ws os ->
  match l2cpu_read32 l pa os with
  | Ret v os' => written l os0 ws os' /\ v = rd32 (stores ws (tile_mem os0 (coordinates l))) pa
  | IoErr _ os' => written l os0 ws os'
  | Panic => False
  end.
Proof.
  intros Hfd [Hf H4] (Hs & Hm & Ho). pose proof (l2cpu_read32_spec l pa os Hf H4 ltac:(by rewrite Hs)) as H.
  assert (Hk : forall os', same_resources os' os -> noc os' = noc os -> written l os0 ws os').
  { intros os' H1 H2. split; [by rewrite H1|]. unfold tile_mem in *. by rewrite H2. }
  destruct (l2cpu_read32 l pa os) as [v os'|e os'|]; [| |done].
  - destruct H as (H1 & H2 & ->). split; [by apply Hk|]. by rewrite Hm.
  - destruct H as [H1 H2]. by apply Hk.
Qed.

(** Writes that end a handler on an error, in continuation form. *)
Lemma on_host_write {B} l os0 ws ws' m (k : Machine -> reply B) (P : reply B -> Prop) :
  l2_fd l ∈ fds os0 -> Forall (fun w => fits 64 w.1 /\ w.1 mod 4 = 0) ws' -> written l os0 ws (host m) ->
  (forall os, written l os0 (ws ++ ws') os -> P (k (set_host m os))) ->
  (forall os k', (k' < length ws')%nat -> written l os0 (ws ++ take k' ws') os -> P (Some (set_host m os, Err Io))) ->
  P (on_host m (l2cpu_write_all l ws' (host m)) (fun _ m => k m)).
Proof.
  intros Hfd Hws Hw Hk He. pose proof (written_more l os0 ws ws' (host m) Hfd Hws Hw) as H.
  destruct (l2cpu_write_all l ws' (host m)) as [[] os|e os|]; cbn [on_host]; [by apply Hk| |done].
  destruct H as (k' & Hk' & H). by eapply He.
Qed.

Lemma write32_all l pa v os : l2cpu_write32 l pa v os = l2cpu_write_all l [(pa, v)] os.
Proof. cbn [l2cpu_write_all]. by destruct (l2cpu_write32 l pa v os) as [[] os1|e os1|]. Qed.

(** What [wake] does from a state [m]. *)
Definition wake_post (m : Machine) (i : Z) (meta : ParkedReleaseMeta) (r : reply unit) : Prop :=
  let l := m_l2cpu meta in
  let hsm := (hsm_state_pa meta, HSM_STATE_START_PENDING) in
  match r with
  | None => False
  | Some (m', Ok _) =>
      written l (host m) (release_words i meta ++ [hsm; (msip_pa meta, 1)]) (host m') /\
      rd32 (stores (release_words i meta) (tile_mem (host m) (coordinates l))) (hsm_state_pa meta) = HSM_STATE_STOPPED /\
      daemon m' = set_tail (daemon m) i [] /\ handles m' = handles m
  | Some (m', Err e) =>
      daemon m' = daemon m /\ handles m' = handles m /\
      if bool_decide (e = Internal) then written l (host m) (release_words i meta) (host m')
      else exists pre, pre `prefix_of` (release_words i meta ++ [hsm]) /\ written l (host m) pre (host m')
  end.

(** The next words of [wake], after those of [W]. *)
Ltac next_write W :=
  lazymatch goal with
  | Hfd : l2_fd ?l ∈ fds (host ?m) |- wake_post ?m ?i ?meta _ =>
      eapply (on_host_write l (host m) _ _ _ _ (wake_post m i meta)); [exact Hfd| |exact W| |]
  end.

Lemma wake_spec m i meta :
  0 <= i < 4 -> meta_ok meta -> l2_fd (m_l2cpu meta) ∈ fds (host m) -> wake_post m i meta (wake m i meta).
Proof.
  intros Hi Hm Hfd. pose proof Hm as Hm'. unfold meta_ok in Hm'. rewrite !Forall_cons in Hm'.
  destruct Hm' as (A1 & A2 & A3 & A4 & A5 & _). unfold wake. rewrite write_u64_all.
  assert (Herr : forall os pre, pre `prefix_of` (release_words i meta ++ [(hsm_state_pa meta, HSM_STATE_START_PENDING)]) ->
    written (m_l2cpu meta) (host m) pre os -> forall m1, daemon m1 = daemon m -> handles m1 = handles m ->
    wake_post m i meta (Some (set_host m1 os, Err Io))).
  { intros os pre Hp Hw m1 Hd Hh. split; [done|]. split; [done|]. rewrite bool_decide_false by done. by exists pre. }
  unfold release_words in Herr.
  next_write (written_refl (m_l2cpu meta) (host m)); [by apply u64_words_ok, status_addr| |].
  2:{ intros os k _ Hw. refine (Herr _ _ _ Hw _ _ _); [|done..]. apply prefix_app_r, prefix_app_r, prefix_take. }
  intros os1 W1. rewrite write_u64_all.
  next_write W1; [by apply u64_words_ok| |].
  2:{ intros os k _ Hw. refine (Herr _ _ _ Hw _ _ _); [|done..].
      rewrite <- !app_assoc, app_nil_l. apply prefix_app, prefix_app_r, prefix_take. }
  intros os2 W2. rewrite write_u64_all.
  next_write W2; [by apply u64_words_ok| |].
  2:{ intros os k _ Hw. refine (Herr _ _ _ Hw _ _ _); [|done..].
      rewrite <- !app_assoc, app_nil_l. do 2 apply prefix_app. apply prefix_app_r, prefix_take. }
  intros os3 W3. rewrite write_u64_all.
  next_write W3; [by apply u64_words_ok| |].
  2:{ intros os k _ Hw. refine (Herr _ _ _ Hw _ _ _); [|done..].
      rewrite <- !app_assoc, app_nil_l. do 3 apply prefix_app. apply prefix_app_r, prefix_take. }
  intros os4 W4. rewrite <- !app_assoc, app_nil_l in W4. change (written (m_l2cpu meta) (host m) (release_words i meta) os4) in W4.
  pose proof (read_written _ _ _ _ _ Hfd A4 W4) as Hr. cbn [host set_host].
  destruct (l2cpu_read32 _ _ os4) as [v os5|e os5|]; cbn [on_host]; [| |done].
  2:{ refine (Herr _ _ _ Hr _ _ _); [by apply prefix_app_r|done..]. }
  destruct Hr as [W5 Hv]. destruct (Z.eqb_spec v HSM_STATE_STOPPED) as [->|Hne]; cbn [negb].
  2:{ split; [done|]. split; [done|]. by rewrite bool_decide_true. }
  rewrite write32_all. next_write W5; [| |].
  { repeat constructor; apply A4. }
  2:{ intros os k _ Hw. refine (Herr _ _ _ Hw _ _ _); [apply prefix_app, prefix_take|done..]. }
  intros os6 W6. rewrite write32_all.
  next_write W6; [| |].
  { repeat constructor; apply A5. }
  2:{ intros os [|k] Hk Hw; [|cbn in Hk; lia]. rewrite app_nil_r in Hw. by refine (Herr _ _ _ Hw _ _ _). }
  intros os7 W7. rewrite <- app_assoc in W7. by split.
Qed.

(** The images a release writes. *)
Definition reimaged (mem : gmap Z Z) (i : Z) (kernel dtb : list Z) : gmap Z Z :=
  write_bytes (write_bytes mem (L2CPU_STARTING_ADDRESS i + KERNEL_OFFSET) kernel)
    (L2CPU_STARTING_ADDRESS i + DTB_OFFSET) dtb.

(** The files fit in the address space, and libfdt does not make the call
    panic. *)
Definition images_ok (i : Z) (payload : result (list Z) Z) (dtb : option (list Z)) : Prop :=
  match payload with Ok data => Z.of_nat (length (pad4 data)) <= 2 ^ 40 | Err _ => True end /\
  match dtb with
  | None => True
  | Some b => match add_opensbi_reservation_for_release b (L2CPU_STARTING_ADDRESS i) with
              | Ok bytes => Z.of_nat (length bytes) <= 2 ^ 40
              | Err e => e <> FdtPanic
              end
  end.

Definition release_dtb (i : Z) (dtb : option (list Z)) : list Z :=
  match dtb with
  | None => []
  | Some b => match add_opensbi_reservation_for_release b (L2CPU_STARTING_ADDRESS i) with Ok bytes => bytes | Err _ => [] end
  end.

Definition asks (a : Attach) : bool :=
  bool_decide (is_Some (a_disk a)) || bool_decide (is_Some (a_cloud_init a)) || a_network a || a_rng a || a_console a.

Lemma image_space i : 0 <= i < 4 ->
  0 <= L2CPU_STARTING_ADDRESS i + KERNEL_OFFSET < 2 ^ 48 /\ 0 <= L2CPU_STARTING_ADDRESS i + DTB_OFFSET < 2 ^ 48.
Proof.
  intros Hi. assert (i = 0 \/ i = 1 \/ i = 2 \/ i = 3) as Hc by lia.
  destruct Hc as [-> |[-> |[-> | ->]]]; vm_compute; repeat split; discriminate.
Qed.

End release.

Lemma written_trans l os0 os1 ws os :
  same_resources os1 os0 -> (forall t, t <> coordinates l -> tile_mem os1 t = tile_mem os0 t) ->
  written l os1 ws os ->
  same_resources os os0 /\ tile_mem os (coordinates l) = stores ws (tile_mem os1 (coordinates l)) /\
  forall t, t <> coordinates l -> tile_mem os t = tile_mem os0 t.
Proof.
  intros Hs Ho (Hs' & Hm & Ho'). split; [by rewrite Hs'|]. split; [done|]. intros t Ht. by rewrite Ho', Ho.
Qed.

Section release_proof.
Context `{KL : KernelLaws} `{L : Libfdt} `{G : Guest}.

(** What a release has done to the core, when it failed. *)
Definition released_part (m : Machine) (i : Z) (meta : ParkedReleaseMeta) (payload : result (list Z) Z)
    (dtb : option (list Z)) (os : Os) : Prop :=
  let c := coordinates (m_l2cpu meta) in
  exists kernel tree pre, kernel `prefix_of` image (Some payload) /\ tree `prefix_of` release_dtb i dtb /\
    pre `prefix_of` (release_words i meta ++ [(hsm_state_pa meta, HSM_STATE_START_PENDING)]) /\
    tile_mem os c = stores pre (reimaged (tile_mem (host m) c) i kernel tree).

(** The slots and the registrations after a release: in step if they were, and
    the same ones when nothing was to be attached. *)
Definition registered_after (a : Attach) (st st' : DaemonState) : Prop :=
  (state_ok st -> state_ok st') /\
  (asks a = false -> dispatcher st' = dispatcher st /\ l2cpus st' = l2cpus st).

Lemma registered_same a st st' : dispatcher st' = dispatcher st -> l2cpus st' = l2cpus st -> registered_after a st st'.
Proof. intros Ed El. split; [|done]. unfold state_ok. by rewrite Ed, El. Qed.

Definition release_post (m : Machine) (i : Z) (payload : result (list Z) Z) (meta : ParkedReleaseMeta)
    (dtb : option (list Z)) (a : Attach) (r : reply unit) : Prop :=
  let c := coordinates (m_l2cpu meta) in
  match r with
  | None => False
  | Some (m', r) =>
      same_resources (host m') (host m) /\ handles m' = handles m /\ registered_after a (daemon m) (daemon m') /\
      (forall t, t <> c -> tile_mem (host m') t = tile_mem (host m) t) /\
      match r with
      | Ok _ =>
          let img := reimaged (tile_mem (host m) c) i (image (Some payload)) (release_dtb i dtb) in
          is_ok payload = true /\
          tile_mem (host m') c = stores (release_words i meta ++
            [(hsm_state_pa meta, HSM_STATE_START_PENDING); (msip_pa meta, 1)]) img /\
          rd32 (stores (release_words i meta) img) (hsm_state_pa meta) = HSM_STATE_STOPPED /\
          (asks a = true -> attached (daemon m') i (asked a)) /\
          shutdown_tails (daemon m') !! i = Some []
      | Err e =>
          released_part m i meta payload dtb (host m') /\
          (asks a = false -> e = Internal ->
           tile_mem (host m') c = stores (release_words i meta)
             (reimaged (tile_mem (host m) c) i (image (Some payload)) (release_dtb i dtb)))
      end
  end.

(** From the images on. *)
Lemma release_tail h pair entropy m m1 i payload meta dtb a :
  0 <= i < 4 -> meta_ok meta -> l2_fd (m_l2cpu meta) ∈ fds (host m) -> (asks a = true -> state_ok (daemon m)) ->
  is_ok payload = true -> daemon m1 = daemon m -> handles m1 = handles m -> same_resources (host m1) (host m) ->
  (forall t, t <> coordinates (m_l2cpu meta) -> tile_mem (host m1) t = tile_mem (host m) t) ->
  tile_mem (host m1) (coordinates (m_l2cpu meta)) =
    reimaged (tile_mem (host m) (coordinates (m_l2cpu meta))) i (image (Some payload)) (release_dtb i dtb) ->
  release_post m i payload meta dtb a
    (match (if asks a then swap_attached_for_release h pair entropy (daemon m1) i a else Some (daemon m1, Ok tt)) with
     | None => None
     | Some (st, Err e) => Some (set_daemon m1 st, Err e)
     | Some (st, Ok _) => wake (set_daemon m1 st) i meta
     end).
Proof.
  intros Hi Hm Hfd Hok Hpay Hd Hh Hs Ho Himg.
  assert (Hpart : forall pre os, pre `prefix_of` (release_words i meta ++ [(hsm_state_pa meta, HSM_STATE_START_PENDING)]) ->
    written (m_l2cpu meta) (host m1) pre os -> released_part m i meta payload dtb os).
  { intros pre os Hp (_ & Hw & _). exists (image (Some payload)), (release_dtb i dtb), pre.
    rewrite <- Himg. done. }
  assert (Hsw : match (if asks a then swap_attached_for_release h pair entropy (daemon m1) i a else Some (daemon m1, Ok tt)) with
    | None => False
    | Some (st, Ok _) => registered_after a (daemon m) st /\ (asks a = true -> attached st i (asked a))
    | Some (st, Err _) => registered_after a (daemon m) st
    end).
  { rewrite Hd. unfold registered_after. destruct (asks a); [|done].
    pose proof (swap_all h pair entropy i a (daemon m) (Hok eq_refl)) as H.
    destruct (swap_attached_for_release _ _ _ _ _ _) as [[st [[]|e]]|]; [|done..]. by destruct H. }
  destruct (if asks a then _ else _) as [[st [[]|e]]|] eqn:Esw; [| |done].
  - destruct Hsw as [Hst Hatt]. pose proof (wake_spec (set_daemon m1 st) i meta Hi Hm ltac:(cbn; by rewrite Hs)) as H.
    destruct (wake (set_daemon m1 st) i meta) as [[m' [[]|e]]|]; [| |done].
    + destruct H as (Hw & Hr & Hd' & Hh').
      destruct (written_trans _ _ _ _ _ Hs Ho Hw) as (S1 & M1 & O1). cbn [host set_daemon] in *.
      split; [done|]. split; [by rewrite Hh'|]. rewrite Hd'. split; [done|]. split; [done|]. split; [done|].
      rewrite M1, Himg. rewrite Himg in Hr. split; [done|]. split; [done|]. split; [done|]. apply lookup_insert_eq.
    + destruct H as (Hd' & Hh' & H). assert (Hw : exists pre,
        pre `prefix_of` (release_words i meta ++ [(hsm_state_pa meta, HSM_STATE_START_PENDING)]) /\
        written (m_l2cpu meta) (host m1) pre (host m')).
      { case_bool_decide; [|done]. exists (release_words i meta). split; [by apply prefix_app_r|done]. }
      destruct Hw as (pre & Hp & Hw). destruct (written_trans _ _ _ _ _ Hs Ho Hw) as (S1 & M1 & O1).
      split; [done|]. split; [by rewrite Hh'|]. rewrite Hd'. split; [done|]. split; [done|].
      split; [by eapply Hpart|]. intros _ ->. rewrite bool_decide_true in H by done.
      destruct (written_trans _ _ _ _ _ Hs Ho H) as (_ & M2 & _). by rewrite M2, Himg.
  - split; [done|]. split; [done|]. split; [done|]. split; [done|].
    split; [eapply Hpart; [apply prefix_nil|]; by apply written_refl|].
    intros Ha. rewrite Ha in Esw. discriminate Esw.
Qed.

Lemma release_spec h pair entropy m i payload meta dtb a :
  0 <= i < 4 -> meta_ok meta -> l2_fd (m_l2cpu meta) ∈ fds (host m) ->
  (asks a = true -> state_ok (daemon m)) -> images_ok i payload dtb ->
  release_post m i payload meta dtb a (dispatch_release h pair entropy m i payload meta dtb a).
Proof.
  intros Hi Hm Hfd Hok [Hpay Hdtb]. unfold dispatch_release. rewrite read_bin_file_pads.
  destruct (image_space i Hi) as [Hk Hd].
  assert (Hearly : forall os kernel tree e, e <> Internal -> same_resources os (host m) ->
    (forall t, t <> coordinates (m_l2cpu meta) -> tile_mem os t = tile_mem (host m) t) ->
    kernel `prefix_of` image (Some payload) -> tree `prefix_of` release_dtb i dtb ->
    tile_mem os (coordinates (m_l2cpu meta)) = reimaged (tile_mem (host m) (coordinates (m_l2cpu meta))) i kernel tree ->
    release_post m i payload meta dtb a (Some (set_host m os, Err e))).
  { intros os kernel tree e He S1 O1 Hk1 Ht1 M1. split; [done|]. split; [done|]. split; [by apply registered_same|]. split; [done|].
    split; [|done]. exists kernel, tree, []. split; [done|]. split; [done|]. split; [apply prefix_nil|done]. }
  destruct payload as [data|e].
  2:{ replace m with (set_host m (host m)) at 2 by (by destruct m). by apply (Hearly _ [] []); try apply prefix_nil. }
  pose proof (bulk_write_spec (m_l2cpu meta) (L2CPU_STARTING_ADDRESS i + KERNEL_OFFSET) (pad4 data) (host m)
    ltac:(lia) ltac:(lia) Hfd) as H.
  destruct (l2cpu_noc_write_bulk _ _ _ _) as [[] os1|e os1|]; cbn [on_host]; [| |done].
  2:{ destruct H as (S1 & k & _ & _ & M1 & O1). eapply (Hearly _ (take k (pad4 data)) []); [done|done|done|apply prefix_take| |done].
      apply prefix_nil. }
  destruct H as (S1 & M1 & O1). unfold images_ok, release_dtb in *.
  destruct dtb as [b|]; [|by apply release_tail].
  destruct (add_opensbi_reservation_for_release b (L2CPU_STARTING_ADDRESS i)) as [bytes|e] eqn:Eb.
  2:{ destruct e; [|done]. apply (Hearly _ (pad4 data) []); done. }
  cbn [host set_host].
  pose proof (bulk_write_spec (m_l2cpu meta) (L2CPU_STARTING_ADDRESS i + DTB_OFFSET) bytes os1
    ltac:(lia) ltac:(lia) ltac:(by rewrite S1)) as H.
  destruct (l2cpu_noc_write_bulk _ _ _ os1) as [[] os2|e os2|]; cbn [on_host]; [| |done].
  - destruct H as (S2 & M2 & O2). apply release_tail; try done; cbn [host set_host].
    + by rewrite S2.
    + intros t Ht. by rewrite O2, O1.
    + rewrite M2, M1. unfold release_dtb. by rewrite Eb.
  - destruct H as (S2 & k & _ & _ & M2 & O2). eapply (Hearly _ (pad4 data) (take k bytes)).
    + done.
    + by rewrite S2.
    + intros t Ht. by rewrite O2, O1.
    + done.
    + apply prefix_take.
    + by rewrite M2, M1.
Qed.

End release_proof.

(** C6: Releasing a parked core rings the doorbell last: a success leaves
    exactly the new images, the cleared magic, the entry, mode and tree of the
    hart, its state as start-pending and then the interrupt, and only for a
    hart that was stopped; a failure leaves a prefix of this that ends before
    the interrupt.  In both cases the other cores' memory and the resources
    are as before; slots and registrations stay in step if they were, and stay
    the same if no device is to be attached.  This is for addresses that the
    firmware published word-aligned (at a misaligned one the release panics),
    files that fit in the address space, and, when devices are to be attached,
    slots in step with the registrations; then the release does not panic. *)
Theorem release_rings_last `{KL : KernelLaws} `{L : Libfdt} `{G : Guest} h pair entropy m i payload meta dtb a :
  0 <= i < 4 -> meta_ok meta -> l2_fd (m_l2cpu meta) ∈ fds (host m) ->
  (asks a = true -> state_ok (daemon m)) -> images_ok i payload dtb ->
  release_post m i payload meta dtb a (dispatch_release h pair entropy m i payload meta dtb a).
Proof. apply release_spec. Qed.

(** Swapping the devices of a parked core never panics and keeps the slot
    table and the dispatcher in step, also when it stops half way; when it
    succeeds the core has exactly the devices that were asked for. *)
Theorem swap_attaches_exactly h pair entropy i a st :
  state_ok st ->
  match swap_attached_for_release h pair entropy st i a with
  | None => False
  | Some (st', Ok _) => state_ok st' /\ attached st' i (asked a)
  | Some (st', Err _) => state_ok st'
  end.
Proof. apply swap_all. Qed.

(** ** A refused release *)

Definition apart (a b : Z) : Prop := b + 4 <= a \/ a + 4 <= b.

(** No published word overlaps the status word. *)
Definition status_apart (i : Z) (meta : ParkedReleaseMeta) : Prop :=
  let s := L2CPU_STARTING_ADDRESS i + STATUS_OFFSET in
  Forall (fun w => apart w.1 s /\ apart w.1 (s + 4)) (drop 2 (release_words i meta)).

Lemma stores_apart ws m b : Forall (fun w => apart w.1 b) ws -> rd32 (stores ws m) b = rd32 m b.
Proof.
  intros Hws. revert m. induction Hws as [|[a v] ws Ha _ IH]; intros m; [done|].
  unfold stores in *. cbn [foldl]. rewrite IH. by apply rd32_wr32_out.
Qed.

Lemma stores_app ws ws' m : stores (ws ++ ws') m = stores ws' (stores ws m).
Proof. apply foldl_app. Qed.

Lemma release_words_clear i meta mem :
  0 <= i < 4 -> status_apart i meta ->
  let s := L2CPU_STARTING_ADDRESS i + STATUS_OFFSET in
  rd32 (stores (release_words i meta) mem) s = 0 /\ rd32 (stores (release_words i meta) mem) (s + 4) = 0.
Proof.
  intros Hi Ha s.
  assert (Hs : u64 (s + 4) = s + 4).
  { apply wrap_small. unfold s. assert (i = 0 \/ i = 1 \/ i = 2 \/ i = 3) as Hc by lia.
    destruct Hc as [-> |[-> |[-> | ->]]]; vm_compute; split; (discriminate || reflexivity). }
  rewrite <- (take_drop 2 (release_words i meta)), stores_app.
  rewrite !(stores_apart (drop 2 (release_words i meta))) by (eapply Forall_impl; [exact Ha|]; by intros w []).
  change (take 2 (release_words i meta)) with (u64_words s 0). unfold u64_words. rewrite Hs.
  unfold stores. cbn [foldl fst snd]. split.
  - rewrite rd32_wr32_out by (unfold apart; lia). by apply rd32_wr32_eq.
  - by apply rd32_wr32_eq.
Qed.

Section refused.
Context `{KL : KernelLaws}.

Lemma read_u64_zero l pa os :
  l2_fd l ∈ fds os -> word_addr pa -> fits 64 (pa + 4) ->
  rd32 (tile_mem os (coordinates l)) pa = 0 -> rd32 (tile_mem os (coordinates l)) (pa + 4) = 0 ->
  match read_u64 l pa os with
  | Ret (Some v) _ => v = 0
  | Ret None _ => True
  | _ => False
  end.
Proof.
  intros Hfd Hpa Hf Hlo Hhi. unfold read_u64.
  assert (Hn : u64 (pa + 4) = pa + 4) by by apply wrap_small.
  pose proof (word_addr_next _ Hpa) as [F4 A4]. rewrite Hn in *.
  pose proof (l2cpu_read32_spec l pa os (proj1 Hpa) (proj2 Hpa) Hfd) as H.
  destruct (l2cpu_read32 l pa os) as [lo os1|e os1|]; [|done..]. destruct H as (Hs & Hnoc & ->).
  pose proof (l2cpu_read32_spec l (pa + 4) os1 F4 A4 ltac:(by rewrite Hs)) as H.
  destruct (l2cpu_read32 l (pa + 4) os1) as [hi os2|e os2|]; [|done..]. destruct H as (_ & _ & ->).
  assert (Hm : tile_mem os1 (coordinates l) = tile_mem os (coordinates l)) by (unfold tile_mem; by rewrite Hnoc).
  by rewrite Hm, Hlo, Hhi.
Qed.

End refused.

(** A release that is refused because the hart is not stopped strands the
    core: the parked magic is already cleared, so no later request finds the
    core parked. *)
Theorem refused_release_strands `{KL : KernelLaws} `{L : Libfdt} `{G : Guest} h pair entropy m i payload meta dtb a m' :
  0 <= i < 4 -> meta_ok meta -> l2_fd (m_l2cpu meta) ∈ fds (host m) ->
  images_ok i payload dtb -> asks a = false -> status_apart i meta ->
  slot_l2cpu m' i = Some (m_l2cpu meta) ->
  dispatch_release h pair entropy m i payload meta dtb a = Some (m', Err Internal) ->
  match read_parked_release_meta m' i with
  | Some (_, Ok o) => o = None
  | _ => False
  end.
Proof.
  intros Hi Hm Hfd Himg Ha Hap Hslot H.
  pose proof (release_spec h pair entropy m i payload meta dtb a Hi Hm Hfd ltac:(by rewrite Ha) Himg) as P. rewrite H in P.
  destruct P as (Hs & _ & _ & _ & _ & Hmem). specialize (Hmem Ha eq_refl).
  destruct (release_words_clear i meta (reimaged (tile_mem (host m) (coordinates (m_l2cpu meta))) i
    (image (Some payload)) (release_dtb i dtb)) Hi Hap) as [Z1 Z2]. rewrite <- Hmem in Z1, Z2.
  unfold read_parked_release_meta. rewrite Hslot.
  assert (Hf4 : fits 64 (L2CPU_STARTING_ADDRESS i + STATUS_OFFSET + 4)).
  { assert (i = 0 \/ i = 1 \/ i = 2 \/ i = 3) as Hc by lia.
    destruct Hc as [-> |[-> |[-> | ->]]]; vm_compute; split; (discriminate || reflexivity). }
  pose proof (read_u64_zero (m_l2cpu meta) _ (host m') ltac:(by rewrite Hs) (status_addr i Hi) Hf4 Z1 Z2) as R.
  destruct (read_u64 _ _ _) as [[v|] os|e os|]; cbn [on_host]; [|done..].
  subst v. by rewrite bool_decide_false.
Qed.

(** ** Waiting for a forced park *)

Definition parked_mem (mem : gmap Z Z) (pa : Z) : bool :=
  Z.lor (Z.shiftl (rd32 mem (pa + 4)) 32) (rd32 mem pa) =? STATUS_PARKED.

Section poll.
Context `{KL : KernelLaws} `{G : Guest}.

(** The core's memory at the [k]-th look. *)
Fixpoint guest_mem (k : nat) (mem : gmap Z Z) : gmap Z Z :=
  match k with
  | O => mem
  | S k => guest_step k (guest_mem k mem)
  end.

(** No window is ever refused. *)
Definition never_refused (l : L2Cpu) : Prop :=
  forall os pa, word_addr pa -> l2_fd l ∈ fds os -> exists v os', l2cpu_read32 l pa os = Ret v os'.

Lemma read_both_spec l pa os :
  l2_fd l ∈ fds os -> word_addr pa -> word_addr (pa + 4) ->
  match read_both l pa os with
  | Ret o os' => same_resources os' os /\ noc os' = noc os /\
      (forall v, o = Some v -> (v =? STATUS_PARKED) = parked_mem (tile_mem os (coordinates l)) pa) /\
      (never_refused l -> is_Some o)
  | _ => False
  end.
Proof.
  intros Hfd [F A] [F' A']. unfold read_both. pose proof (l2cpu_read32_spec l pa os F A Hfd) as H.
  destruct (l2cpu_read32 l pa os) as [lo os1|e os1|] eqn:E1; [| |done].
  - destruct H as (S1 & N1 & ->). pose proof (l2cpu_read32_spec l (pa + 4) os1 F' A' ltac:(by rewrite S1)) as H.
    destruct (l2cpu_read32 l (pa + 4) os1) as [hi os2|e os2|] eqn:E2; [| |done].
    + destruct H as (S2 & N2 & ->). split; [by rewrite S2|]. split; [by rewrite N2|]. split; [|done].
      intros v [= <-]. unfold parked_mem. by replace (tile_mem os1 (coordinates l)) with (tile_mem os (coordinates l))
        by (unfold tile_mem; by rewrite N1).
    + destruct H as [S2 N2]. split; [by rewrite S2|]. split; [by rewrite N2|]. split; [done|].
      intros Hn. destruct (Hn os1 (pa + 4)) as (v & os' & Hv); [done|by rewrite S1|congruence].
  - destruct H as [S1 N1]. pose proof (l2cpu_read32_spec l (pa + 4) os1 F' A' ltac:(by rewrite S1)) as H.
    assert (Hno : ~ never_refused l).
    { intros Hn. destruct (Hn os pa) as (v & os' & Hv); [done..|congruence]. }
    destruct (l2cpu_read32 l (pa + 4) os1) as [hi os2|e' os2|]; [| |done].
    + destruct H as (S2 & N2 & _). split; [by rewrite S2|]. by split; [rewrite N2|].
    + destruct H as (S2 & N2). split; [by rewrite S2|]. by split; [rewrite N2|].
Qed.

Lemma sleep_guest_spec l k os :
  same_resources (sleep_guest l k os) os /\
  tile_mem (sleep_guest l k os) (coordinates l) = guest_step k (tile_mem os (coordinates l)).
Proof. split; [by split|]. unfold tile_mem, sleep_guest. cbn. by rewrite lookup_insert_eq. Qed.

Lemma park_poll_spec l pa mem0 : forall fuel k os,
  word_addr pa -> word_addr (pa + 4) -> l2_fd l ∈ fds os ->
  1000 < Z.of_nat fuel + Z.of_nat k -> tile_mem os (coordinates l) = guest_mem k mem0 ->
  match park_poll fuel k l pa os with
  | Ret true os' => same_resources os' os /\ parked_mem (tile_mem os' (coordinates l)) pa = true
  | Ret false os' => same_resources os' os /\ exists j, (k <= j)%nat /\ FORCE_PARK_TIMEOUT_SECS * 1000 <= waited_ms j /\
      (never_refused l -> forall j', (k <= j' <= j)%nat -> parked_mem (guest_mem j' mem0) pa = false)
  | _ => False
  end.
Proof.
  induction fuel as [|fuel IH]; intros k os Ha Ha' Hfd Hf Hm; cbn [park_poll];
    pose proof (read_both_spec l pa os Hfd Ha Ha') as H;
    (destruct (read_both l pa os) as [o os1|e os1|]; [|done..]); destruct H as (S1 & N1 & Hv & Hn);
    pose proof (waited_grows k) as Hw;
    (assert (Hm1 : tile_mem os1 (coordinates l) = guest_mem k mem0) by (unfold tile_mem in *; by rewrite N1)).
  all: destruct (bool_decide_reflect (o = Some STATUS_PARKED)) as [->|Hne].
  1,3: split; [done|]; rewrite Hm1, <- Hm, <- (Hv _ eq_refl); apply Z.eqb_refl.
  all: assert (Hno : never_refused l -> parked_mem (guest_mem k mem0) pa = false)
    by (intros Hr; destruct (Hn Hr) as [v ->]; rewrite <- Hm, <- (Hv _ eq_refl); apply Z.eqb_neq; congruence).
  all: destruct (Z.leb_spec (FORCE_PARK_TIMEOUT_SECS * 1000) (waited_ms k)) as [Ht|Ht].
  1,3: split; [done|]; exists k; split; [lia|]; split; [done|]; intros Hr j' Hj';
    replace j' with k by lia; by apply Hno.
  - unfold FORCE_PARK_TIMEOUT_SECS in Ht. lia.
  - destruct (sleep_guest_spec l k os1) as [S2 M2].
    specialize (IH (S k) (sleep_guest l k os1) Ha Ha' ltac:(rewrite S2; by rewrite S1)
      ltac:(replace (Z.of_nat fuel + Z.of_nat (S k)) with (Z.of_nat (S fuel) + Z.of_nat k) by lia; done)
      ltac:(rewrite M2, Hm1; done)).
    destruct (park_poll fuel (S k) l pa _) as [[] os2|e os2|]; [| |done..].
    + destruct IH as [S3 P]. split; [by rewrite S3, S2|done].
    + destruct IH as (S3 & j & Hj & Hjt & Hall). split; [by rewrite S3, S2|]. exists j. split; [lia|].
      split; [done|]. intros Hr j' Hj'. destruct (decide (j' = k)) as [->|]; [by apply Hno|]. apply Hall; [done|lia].
Qed.

End poll.

(** C35: Waiting for a forced park always ends, within ten seconds of sleeps and
    one look more: it reports the core parked only when its memory says so,
    and when no access fails it reports a core that parks before the deadline
    as parked. *)
Theorem force_park_poll_ends `{KL : KernelLaws} `{G : Guest} l pa os :
  word_addr pa -> word_addr (pa + 4) -> l2_fd l ∈ fds os ->
  match park_poll park_fuel 0 l pa os with
  | Ret b os' => same_resources os' os /\
      (b = true -> parked_mem (tile_mem os' (coordinates l)) pa = true) /\
      (never_refused l -> forall k, parked_mem (guest_mem k (tile_mem os (coordinates l))) pa = true ->
         (forall j, (j <= k)%nat -> waited_ms j < FORCE_PARK_TIMEOUT_SECS * 1000) -> b = true)
  | _ => False
  end.
Proof.
  intros Ha Ha' Hfd. pose proof (park_poll_spec l pa (tile_mem os (coordinates l)) park_fuel 0 os Ha Ha' Hfd
    ltac:(done) eq_refl) as H.
  destruct (park_poll _ _ _ _ _) as [[] os'|e os'|]; [| |done..].
  - destruct H as [H P]. by split.
  - destruct H as (S1 & j & _ & Hj & Hall). split; [done|]. split; [done|]. intros Hr k Hk Hb.
    destruct (Nat.le_gt_cases k j) as [Hkj|Hkj].
    + rewrite (Hall Hr k) in Hk by lia. done.
    + specialize (Hb j ltac:(lia)). lia.
Qed.

(** ** Concrete runs *)

Definition demo_l2cpu : L2Cpu :=
  mk_l2cpu 3 1 (L2CPU_STARTING_ADDRESS 1) (L2CPU_MEMORY_SIZE 1) (8, 9) 0
    (mk_window 0 (mk_handle 3 0 0 0) 0) (mk_window 0 (mk_handle 3 0 0 0) 0).

(** A core whose hart is stopped or not. *)
Definition parked_machine (hsm : Z) : Machine :=
  mk_machine booted_demo (mk_os {[3]} ∅ [] [] {[ (8, 9) := wr32 ∅ 0x5000 hsm ]} 0) {[ 1 := demo_l2cpu ]}.

Definition demo_meta : ParkedReleaseMeta := mk_meta demo_l2cpu 0x1000 0x2000 0x3000 0x5000 0x6000.
Definition no_attach : Attach := mk_attach None None false [] false false.

Lemma demo_meta_ok : meta_ok demo_meta.
Proof. unfold meta_ok. repeat (constructor; [split; [split; [discriminate|reflexivity]|reflexivity]|]). constructor. Qed.

#[local] Instance idle_guest : Guest.
Proof. refine {| guest_step _ mem := mem; waited_ms k := 10 * Z.of_nat k |}. intros. lia. Defined.

(** The stopped hart is released; its interrupt is pending. *)
Lemma release_rings_last_witness :
  match dispatch_release (K := counting_kernel []) (L := Tagged.libfdt) demo_host true [] (parked_machine 1) 1
          (Ok [1; 2; 3]) demo_meta None no_attach with
  | Some (m', Ok _) => tile_mem (host m') (8, 9) =
      stores (release_words 1 demo_meta ++ [(0x5000, 2); (0x6000, 1)])
        (reimaged (wr32 ∅ 0x5000 1) 1 [1; 2; 3; 0] [])
  | _ => False
  end.
Proof.
  assert (Hfd : 3 ∈ fds (host (parked_machine 1))) by (apply (bool_decide_unpack _); reflexivity).
  assert (Himg : images_ok (L := Tagged.libfdt) 1 (Ok [1; 2; 3]) None) by (split; [discriminate|exact I]).
  pose proof (release_rings_last (K := counting_kernel []) (L := Tagged.libfdt) demo_host true [] (parked_machine 1) 1
    (Ok [1; 2; 3]) demo_meta None no_attach ltac:(lia) demo_meta_ok Hfd (fun _ => booted_demo_ok) Himg) as H.
  destruct (dispatch_release _ _ _ _ _ _ _ _ _) as [[m' [[]|e]]|] eqn:E.
  - destruct H as (_ & _ & _ & _ & _ & H & _). exact H.
  - exfalso. revert E. vm_compute. discriminate.
  - exact H.
Defined.

(** A disk and a network in place of nothing. *)
Lemma swap_attaches_exactly_witness :
  match swap_attached_for_release demo_host true [] booted_demo 1
          (mk_attach (Some (chars "root.img")) (Some (chars "seed.img")) true [] true true) with
  | Some (st', Ok _) => attached st' 1
      ([(chars "root.img", None); (chars "seed.img", Some (chars "cidata"))], true, true, true)
  | _ => False
  end.
Proof.
  pose proof (swap_attaches_exactly demo_host true [] 1
    (mk_attach (Some (chars "root.img")) (Some (chars "seed.img")) true [] true true) booted_demo booted_demo_ok) as H.
  assert (Hok : match swap_attached_for_release demo_host true [] booted_demo 1
    (mk_attach (Some (chars "root.img")) (Some (chars "seed.img")) true [] true true) with
    | Some (_, Ok _) => true | _ => false end = true) by (vm_compute; reflexivity).
  destruct (swap_attached_for_release _ _ _ _ _ _) as [[st' [[]|e]]|]; [exact (proj2 H)|discriminate Hok..].
Defined.

(** A hart that still runs: the core is refused now and not parked later. *)
Lemma refused_release_strands_witness :
  match dispatch_release (K := counting_kernel []) (L := Tagged.libfdt) demo_host true [] (parked_machine 0) 1
          (Ok [1; 2; 3]) demo_meta None no_attach with
  | Some (m', Err Internal) =>
      match read_parked_release_meta (K := counting_kernel []) m' 1 with Some (_, Ok o) => o = None | _ => False end
  | _ => False
  end.
Proof.
  assert (Hfd : 3 ∈ fds (host (parked_machine 0))) by (apply (bool_decide_unpack _); reflexivity).
  assert (Himg : images_ok (L := Tagged.libfdt) 1 (Ok [1; 2; 3]) None) by (split; [discriminate|exact I]).
  assert (Hap : status_apart 1 demo_meta).
  { unfold status_apart. repeat apply Forall_cons_2; try apply Forall_nil_2; split; right; vm_compute; discriminate. }
  assert (Hrun : match dispatch_release (K := counting_kernel []) (L := Tagged.libfdt) demo_host true []
      (parked_machine 0) 1 (Ok [1; 2; 3]) demo_meta None no_attach with
    | Some (m', Err Internal) => bool_decide (is_Some (l2cpus (daemon m') !! 1)) && bool_decide (is_Some (handles m' !! 1))
    | _ => false end = true) by (vm_compute; reflexivity).
  pose proof (release_spec (K := counting_kernel []) (L := Tagged.libfdt) demo_host true [] (parked_machine 0) 1
    (Ok [1; 2; 3]) demo_meta None no_attach ltac:(lia) demo_meta_ok Hfd (fun _ => booted_demo_ok) Himg) as P.
  destruct (dispatch_release _ _ _ _ _ _ _ _ _) as [[m' [[]|[]]]|] eqn:E; try discriminate Hrun.
  apply (refused_release_strands (K := counting_kernel []) (L := Tagged.libfdt) demo_host true [] (parked_machine 0) 1
    (Ok [1; 2; 3]) demo_meta None no_attach m' ltac:(lia) demo_meta_ok Hfd Himg eq_refl Hap); [|exact E].
  destruct P as (_ & Hh & _). unfold slot_l2cpu. rewrite Hh.
  destruct (l2cpus (daemon m') !! 1); [reflexivity|discriminate Hrun].
Defined.

(** A guest that parks during the second sleep. *)
Definition late_guest : Guest.
Proof.
  refine {| guest_step k mem := if (k =? 1)%nat then wr32 (wr32 mem 0x1000 0x4b524150) 0x1004 0x5f5f4445 else mem;
            waited_ms k := 10 * Z.of_nat k |}. intros. lia.
Defined.

Lemma force_park_poll_ends_witness :
  match park_poll (K := counting_kernel []) (G := late_guest) park_fuel 0 demo_l2cpu 0x1000 (host (parked_machine 0)) with
  | Ret b os' => b = true /\ parked_mem (tile_mem os' (8, 9)) 0x1000 = true
  | _ => False
  end.
Proof.
  assert (Hfd : 3 ∈ fds (host (parked_machine 0))) by (apply (bool_decide_unpack _); reflexivity).
  assert (H1 : word_addr 0x1000) by (split; [split; [discriminate|reflexivity]|reflexivity]).
  assert (H2 : word_addr (0x1000 + 4)) by (split; [split; [discriminate|reflexivity]|reflexivity]).
  assert (Hb : match park_poll (K := counting_kernel []) (G := late_guest) park_fuel 0 demo_l2cpu 0x1000
    (host (parked_machine 0)) with Ret b _ => b | _ => false end = true) by (vm_compute; reflexivity).
  pose proof (force_park_poll_ends (K := counting_kernel []) (G := late_guest) demo_l2cpu 0x1000 (host (parked_machine 0))
    H1 H2 Hfd) as H.
  destruct (park_poll _ _ _ _ _) as [b os'|e os'|]; [|discriminate Hb..]. subst b.
  destruct H as (_ & H & _). split; [reflexivity|exact (H eq_refl)].
Defined.
