(* ===== verification/ColdBoot.v ===== *)
(** The boot request of [src/daemon/server.rs]: [dispatch_boot] with
    [handle_existing_slot], [maybe_opportunistic_reset_board],
    [run_boot_sequence], [make_slot_from_l2cpu], the registration of the
    devices, [release_l2cpu_from_reset] and [install_slot_and_reply_ok], and
    [get_or_bring_up_tensix_engine] of [src/daemon/mod.rs].

    The card is the machine of [Release] with what the daemon keeps besides:
    the ARC windows of the shared chip, the engine, the interrupt window of
    each booted slot, the marks of wedged cores and whether the board was
    reset in this session.  What the host decides is in [Env].  A handler
    returns the card and its result, and [None] is a panic. *)

From S2P Require Import Prelude Layout Text Sigbus Tlb Virtqueue VirtioBlk ConsoleHub VirtioConsole VirtioRng VirtioNet DataPlane L2cpu Clock Telemetry Tensix Chip Boot Parse Protocol ChipConsole DeviceTree DtbProofs Server Release.

Definition PENDING_BASE : Z := 0x2FF10000.
Definition PENDING_OFFSET : Z := 0x404.
Definition PENDING_ADDR : Z := PENDING_BASE + PENDING_OFFSET.

(** ** What a boot request asks for *)

Record BootRequest := mk_boot {
  r_opensbi : list Z;
  r_payload : BootPayload;
  r_dtb : list Z;
  r_initramfs : option (list Z);
  r_root_device : list Z;
  r_attach : Attach;
  r_force : bool;
  r_memory : option Z;
  r_hostname : option (list Z);
  r_extra_bootargs : option (list Z) }.

Definition some {A} (o : option A) : bool := match o with Some _ => true | None => false end.

Definition memory_size_for (i : Z) (memory_override : option Z) : Z :=
  let physical_size := L2CPU_MEMORY_SIZE i in
  match memory_override with
  | Some req => Z.min (Z.land req (U64_MAX - (2 * 1024 * 1024 - 1))) physical_size
  | None => physical_size
  end.

Definition blk_dtb_devs (cloud_init : bool) : list Z := DEV_BLK :: if cloud_init then [DEV_BLK1] else [].

(** The [emit] calls, in order. *)
Definition virtio_nodes_for (x280_base : Z) (a : Attach) : list VirtioMmioNode :=
  let emit (dev_idx : Z) (enabled : bool) (irq : Z) : list VirtioMmioNode :=
    if enabled then [mk_node (u64 (x280_base + dev_idx * REGS_PER_DEV)) REGS_PER_DEV irq] else [] in
  emit DEV_BLK (some (a_disk a)) DISK_IRQ ++
  emit DEV_NET (a_network a) NET_IRQ ++
  emit DEV_CONSOLE (a_console a) CONSOLE_IRQ ++
  emit DEV_RNG (a_rng a) RNG_IRQ ++
  emit DEV_BLK1 (some (a_cloud_init a)) DISK1_IRQ.

Definition any_host_device (a : Attach) : bool :=
  a_rng a || a_network a || some (a_disk a) || a_console a || some (a_cloud_init a).

(** ** The card *)

Record Env := mk_env {
  e_host : Host;
  e_read : list Z -> result (list Z) Z;
  e_pair : bool;
  e_entropy : list RandRet;
  e_firmware : list Z;
  e_build_id : Z;
  e_world : World;
  e_gauge : Z;
  e_arc : Arc * gmap Z Z }.

Record Card := mk_card {
  mach : Machine;
  c_inner : option Inner;
  c_engine : option TensixEngine;
  interrupts : gmap Z TlbWindow;
  wedged : gmap Z bool;
  chip_reset_this_session : bool }.

Definition set_mach (c : Card) (m : Machine) : Card :=
  mk_card m (c_inner c) (c_engine c) (interrupts c) (wedged c) (chip_reset_this_session c).
Definition set_os (c : Card) (os : Os) : Card := set_mach c (set_host (mach c) os).
Definition set_st (c : Card) (st : DaemonState) : Card := set_mach c (set_daemon (mach c) st).
Definition set_engine (st : DaemonState) (up : bool) : DaemonState :=
  mk_state (card st) (l2cpus st) (shared_chip st) up (dispatcher st) (shutdown_tails st) (shutdown st) (joined st).

Definition answer (A : Type) : Type := option (Card * result A Error).

(** The last owner of a slot lets go of its L2CPU and its interrupt window. *)
Definition drop_handle (c : Card) (i : Z) : Card :=
  let os := match handles (mach c) !! i with Some l => l2cpu_drop l (host (mach c)) | None => host (mach c) end in
  let os := match interrupts c !! i with Some w => window_drop w os | None => os end in
  mk_card (mk_machine (daemon (mach c)) os (delete i (handles (mach c)))) (c_inner c) (c_engine c)
    (delete i (interrupts c)) (wedged c) (chip_reset_this_session c).

(** ** The devices of a cold boot *)

(** The closure [register]: the configuration space, then the entry. *)
Definition register {D} `{VirtioDeviceImpl D} (wrap : D -> Device) (d : Dispatcher Device) (i slot_idx : Z) (dev : D)
    (irq : Z) (kind : InterruptKind) : Dispatcher Device :=
  let config_addr := u32 (slot_regs_base slot_idx + MMIO_CONFIG) in
  let w := set_l1 (world d) (init_config dev (w_l1 (world d)) config_addr) in
  register_slot (mk_disp (registry d) (uart_registry d) w) (entry_new slot_idx i (wrap dev) irq kind).

Definition dev_slot_of (i dev_idx : Z) : Z := u32 (u32 (i * DEVS_PER_L2CPU) + dev_idx).

(** The closure [attach_disk]: a file that does not open or map is skipped. *)
Definition attach_disk (h : Host) (i : Z) (path : list Z) (serial : option (list Z)) (dev_idx irq : Z) (label : list Z)
    (d : Dispatcher Device) (s : L2CpuSlot) : Dispatcher Device * L2CpuSlot :=
  match open_rw h path with
  | Some (Some (image, size)) =>
      let blk := from_file_with_serial image size i serial (blk_counters h i) in
      let slot_idx := dev_slot_of i dev_idx in
      let worker := mk_worker (label ++ chars " l2cpu " ++ show_dec i ++ chars " @ " ++ path ++ chars " (engine)") in
      (register DBlk d i slot_idx blk irq Block, set_disks s (disks s ++ [mk_disk path slot_idx serial worker]))
  | _ => (d, s)
  end.

Definition attach_net (h : Host) (card i : Z) (extra_fwd : list (Z * Z)) (hostname : option (list Z))
    (d : Dispatcher Device) (s : L2CpuSlot) : Dispatcher Device * L2CpuSlot :=
  let forwards := (ssh_port card i, 22) :: extra_fwd in
  match virtio_net_new (slirp_open h) (slirp_inbox h) (net_counters h i) forwards card i hostname with
  | Some net => (register DNet d i (dev_slot_of i DEV_NET) net NET_IRQ Net,
                 set_net s (Some (mk_worker (chars "net l2cpu " ++ show_dec i ++ chars " (engine)"))))
  | None => (d, s)
  end.

Definition attach_console (i : Z) (d : Dispatcher Device) (s : L2CpuSlot) : Dispatcher Device * L2CpuSlot :=
  let device := console_new (console_hub s) [] in
  (register DConsole d i (dev_slot_of i DEV_CONSOLE) device CONSOLE_IRQ Console,
   set_virtio_console s
     (Some (mk_vcs (mk_worker (chars "virtio-console l2cpu " ++ show_dec i ++ chars " (engine)")) []))).

Definition register_devices (h : Host) (entropy : list RandRet) (card i : Z) (r : BootRequest)
    (d : Dispatcher Device) (s : L2CpuSlot) : Dispatcher Device * L2CpuSlot :=
  let a := r_attach r in
  let d := if a_rng a then register DRng d i (dev_slot_of i DEV_RNG) (mk_rng entropy) RNG_IRQ Rng else d in
  let '(d, s) := match a_disk a with
                 | Some path => attach_disk h i path None DEV_BLK DISK_IRQ (chars "blk") d s
                 | None => (d, s)
                 end in
  let '(d, s) := match a_cloud_init a with
                 | Some path => attach_disk h i path (Some (chars "cidata")) DEV_BLK1 DISK1_IRQ (chars "cidata") d s
                 | None => (d, s)
                 end in
  let '(d, s) := if a_network a then attach_net h card i (a_extra_fwd a) (r_hostname r) d s else (d, s) in
  let '(d, s) := if a_console a then attach_console i d s else (d, s) in
  (register_uart d i (console_hub s), s).

Section with_kernel.
Context `{K : Tlb.Kernel} `{L : Libfdt} `{G : Guest} `{FW : Firmware} `{B : Board}.

(** [make_slot_from_l2cpu], then the fields a cold boot fills in. *)
Definition new_slot (e : Env) (i : Z) (r : BootRequest) (dtb : list Z) : L2CpuSlot :=
  mk_slot (hub_new i (e_gauge e)) (mk_worker (chars "chip_console l2cpu " ++ show_dec i)) [] (Some dtb)
    (blk_dtb_devs (some (a_cloud_init (r_attach r)))) None None None (Some (r_payload r)) (a_extra_fwd (r_attach r)).

(** [get_or_bring_up_tensix_engine]; [None] as the first component is an error. *)
Definition get_or_bring_up_tensix_engine (e : Env) (c : Card) : option (Card * option TensixEngine) :=
  match c_engine c with
  | Some eng => Some (c, Some eng)
  | None =>
      match bring_up (e_firmware e) (e_build_id e) (shared_chip (daemon (mach c))) (inner_fd <$> c_inner c)
              (host (mach c)) with
      | Up eng os =>
          let st := set_engine (set_dispatcher (daemon (mach c)) (Some (mk_disp ∅ ∅ (e_world e)))) true in
          Some (mk_card (mk_machine st os (handles (mach c))) (c_inner c) (Some eng) (interrupts c) (wedged c)
                  (chip_reset_this_session c), Some eng)
      | Down os => Some (set_os c os, None)
      | EngPanic | EngFuel => None
      end
  end.

(** [?] in [run_boot_sequence] after the L2CPU exists: it is dropped. *)
Definition boot_fails {A} (l : L2Cpu) (c : Card) : answer A :=
  Some (set_os c (l2cpu_drop l (host (mach c))), Err Io).

Definition choose_boot_device (e : Env) (i : Z) (r : BootRequest) : result BootDevice Z :=
  let rootfs_addr := L2CPU_STARTING_ADDRESS i + INITRAMFS_OFFSET in
  if is_uboot (r_payload r) then Ok DeviceTree.Uboot
  else match r_initramfs r, some (a_disk (r_attach r)) with
  | Some p, true =>
      let? bytes := read_bin_file (e_read e p) in
      Ok (InitramfsAndVda rootfs_addr (Z.of_nat (length bytes)) (r_root_device r))
  | Some p, false =>
      let? bytes := read_bin_file (e_read e p) in
      Ok (Initramfs rootfs_addr (Z.of_nat (length bytes)))
  | None, _ => Ok (Vda (r_root_device r))
  end.

Definition run_boot_sequence (e : Env) (c : Card) (i : Z) (r : BootRequest) : answer (L2Cpu * list Z) :=
  let starting_address := L2CPU_STARTING_ADDRESS i in
  let memory_size := memory_size_for i (r_memory r) in
  match l2cpu_new i (inner_fd <$> c_inner c) (host (mach c)) with
  | Panic => None
  | IoErr _ os => Some (set_os c os, Err Io)
  | Ret l os =>
      let c := set_os c os in
      match read_bin_file (e_read e (r_dtb r)), choose_boot_device e i r with
      | Err _, _ => boot_fails l c
      | Ok _, Err _ => boot_fails l c
      | Ok dtb_raw, Ok boot_device =>
          let engine :=
            if any_host_device (r_attach r) then
              match get_or_bring_up_tensix_engine e c with
              | None => None
              | Some (c, None) => Some (c, Err tt)
              | Some (c, Some eng) =>
                  match program_l2cpu_tlb (translated_x eng) (translated_y eng) l i (host (mach c)) with
                  | Panic => None
                  | IoErr _ os => Some (set_os c os, Err tt)
                  | Ret x280_base os => Some (set_os c os, Ok (virtio_nodes_for x280_base (r_attach r)))
                  end
              end
            else Some (c, Ok []) in
          match engine with
          | None => None
          | Some (c, Err _) => boot_fails l c
          | Some (c, Ok virtio_nodes) =>
              match modify_dtb dtb_raw boot_device starting_address memory_size virtio_nodes None
                      (a_console (r_attach r)) (r_extra_bootargs r) with
              | Err FdtPanic => None
              | Err _ => boot_fails l c
              | Ok dtb_patched =>
                  match boot_l2cpu l (e_read e (r_opensbi r)) (starting_address + OPENSBI_OFFSET)
                          (Some (e_read e (payload_path (r_payload r)))) (starting_address + KERNEL_OFFSET)
                          dtb_patched (starting_address + DTB_OFFSET) (e_read e <$> r_initramfs r)
                          (starting_address + INITRAMFS_OFFSET) (host (mach c)) with
                  | Panic => None
                  | IoErr _ os => boot_fails l (set_os c os)
                  | Ret _ os => Some (set_os c os, Ok (l, dtb_patched))
                  end
              end
          end
      end
  end.

(** A write whose result is ignored. *)
Definition write_ignored (l : L2Cpu) (pa v : Z) (os : Os) : option Os :=
  match l2cpu_write32 l pa v os with Ret _ os | IoErr _ os => Some os | Panic => None end.

Definition release_l2cpu_from_reset (c : Card) (i : Z) (l : L2Cpu) : answer unit :=
  let purg_pa := L2CPU_STARTING_ADDRESS i + STATUS_OFFSET in
  let! os := write_ignored l purg_pa 0 (host (mach c)) in
  let! os := write_ignored l (purg_pa + 4) 0 os in
  let c := set_os c os in
  let! x := reset_x280 (shared_chip (daemon (mach c))) [i] in
  match x with
  | Err _ => Some (c, Err Io)
  | Ok chip =>
      let c := set_st c (set_chip (daemon (mach c)) chip) in
      match configure_prefetchers l (host (mach c)) with
      | Panic => None
      | IoErr _ os => Some (set_os c os, Err Io)
      | Ret _ os => Some (set_os c os, Ok tt)
      end
  end.

Definition install_slot (c : Card) (i : Z) (l : L2Cpu) (w : TlbWindow) (s : L2CpuSlot) : Card :=
  let m := mach c in
  mk_card (mk_machine (set_slot (daemon m) i s) (host m) (<[i := l]> (handles m))) (c_inner c) (c_engine c)
    (<[i := w]> (interrupts c)) (<[i := false]> (wedged c)) (chip_reset_this_session c).

(** The slot, its devices, the reset, and the installation.  When the reset
    fails the slot is dropped: the console thread still holds the L2CPU, and the
    entries of the dispatcher, if any device was registered, the interrupt
    window. *)
Definition finish_boot (e : Env) (c : Card) (i : Z) (r : BootRequest) (l : L2Cpu) (dtb : list Z) : answer unit :=
  match get_persistent_2m_window l PENDING_ADDR (host (mach c)) with
  | Panic => None
  | IoErr _ os => Some (set_os c (l2cpu_drop l os), Err Io)
  | Ret w os =>
      let c := set_os c os in
      let st := daemon (mach c) in
      let s := new_slot e i r dtb in
      let '(st, s, held) :=
        match dispatcher st, tensix_engine st with
        | Some d, true =>
            let '(d, s) := register_devices (e_host e) (e_entropy e) (card st) i r d s in
            (set_dispatcher st (Some d), s,
             a_rng (r_attach r) || match slot_workers s with [] => false | _ => true end)
        | _, _ => (st, s, false)
        end in
      let! (c, x) := release_l2cpu_from_reset (set_st c st) i l in
      match x with
      | Err err => Some (if held then c else set_os c (window_drop w (host (mach c))), Err err)
      | Ok _ => Some (install_slot c i l w s, Ok tt)
      end
  end.

Definition cold_boot (e : Env) (c : Card) (i : Z) (r : BootRequest) : answer unit :=
  let! (c, x) := run_boot_sequence e c i r in
  match x with
  | Err err => Some (c, Err err)
  | Ok (l, dtb) => finish_boot e c i r l dtb
  end.

(** ** The way to a cold boot *)

Definition reimaged_reason (i : Z) : list Z := chars "l2cpu " ++ show_dec i ++ chars " re-imaged via --force".

(** Also the sockets of the clients of the slot that went, closed. *)
Definition handle_existing_slot (c : Card) (i : Z) (force : bool) : Card * list Sock * result unit Error :=
  let st := daemon (mach c) in
  match decide_boot_slot (some (l2cpus st !! i)) force i, l2cpus st !! i with
  | Reject _, _ => (c, [], Err SlotState)
  | TearDownAndProceed, Some prior =>
      let st := take_slot st i in
      let closed := (disconnect_all_with_reason (console_hub prior) (reimaged_reason i)).2 in
      let st := unregister_engine_slots st i in
      let st := slot_shutdown st prior in
      (drop_handle (set_st c st) i, closed, Ok tt)
  | _, _ => (c, [], Ok tt)
  end.

(** The loop over the siblings: those that run and those that are parked. *)
Fixpoint scan_siblings (c : Card) (target : Z) (idxs : list Z) : option (Card * (list Z * list Z)) :=
  match idxs with
  | [] => Some (c, ([], []))
  | i :: idxs =>
      if i =? target then scan_siblings c target idxs
      else match slot_l2cpu (mach c) i with
      | None => scan_siblings c target idxs
      | Some l =>
          match read_both l (L2CPU_STARTING_ADDRESS i + STATUS_OFFSET) (host (mach c)) with
          | Ret purg os =>
              let! (c, (running, parked)) := scan_siblings (set_os c os) target idxs in
              Some (c, match classify_sibling purg with
                       | SibParked => (running, i :: parked)
                       | SibRunning => (i :: running, parked)
                       end)
          | _ => None
          end
      end
  end.

Fixpoint stop_siblings (c : Card) (idxs : list Z) : option Card :=
  match idxs with
  | [] => Some c
  | i :: idxs =>
      let! (st, x) := internal_stop (daemon (mach c)) i (chars "opportunistic reset_board") in
      let c := set_st c st in
      stop_siblings (match x with Ok true => drop_handle c i | _ => c end) idxs
  end.

(** The dispatcher and the engine go before the reset; the engine's tile is
    released with it. *)
Definition drop_engine (c : Card) : Card :=
  let st := set_engine (set_dispatcher (daemon (mach c)) None) false in
  let os := match c_engine c with Some eng => tile_drop (eng_tile eng) (host (mach c)) | None => host (mach c) end in
  mk_card (mk_machine st os (handles (mach c))) (c_inner c) None (interrupts c) (wedged c) (chip_reset_this_session c).

Definition maybe_opportunistic_reset_board (e : Env) (c : Card) (target : Z) : answer unit :=
  if chip_reset_this_session c then Some (c, Ok tt)
  else
    let! (c, (running, parked)) := scan_siblings c target [0; 1; 2; 3] in
    match running with
    | _ :: _ => Some (c, Ok tt)
    | [] =>
        let! c := stop_siblings c parked in
        let c := drop_engine c in
        match shared_reset_board (c_inner c) (card (daemon (mach c))) (host (mach c)) with
        | Ret (inner, true) os =>
            let st := set_chip (daemon (mach c)) (mk_chip (Some (e_arc e))) in
            Some (mk_card (mk_machine st os (handles (mach c))) inner (c_engine c) (interrupts c) (wedged c) true, Ok tt)
        | Ret (inner, false) os =>
            let st := set_chip (daemon (mach c)) (mk_chip None) in
            Some (mk_card (mk_machine st os (handles (mach c))) inner (c_engine c) (interrupts c) (wedged c)
                    (chip_reset_this_session c), Err Io)
        | IoErr _ _ | Panic => None
        end
    end.

(** The path of a parked core. *)
Definition to_release (e : Env) (c : Card) (i : Z) (r : BootRequest) (meta : ParkedReleaseMeta) : answer unit :=
  let! (m, x) := dispatch_release (e_host e) (e_pair e) (e_entropy e) (mach c) i
                   (e_read e (payload_path (r_payload r))) meta (take_slot_dtb_bytes (mach c) i) (r_attach r) in
  Some (set_mach c m, x).

Definition cold_path (e : Env) (c : Card) (i : Z) (r : BootRequest) : answer unit :=
  match handle_existing_slot c i (r_force r) with
  | (c, _, Err err) => Some (c, Err err)
  | (c, _, Ok _) =>
      let! (c, x) := maybe_opportunistic_reset_board e c i in
      match x with
      | Err err => Some (c, Err err)
      | Ok _ => cold_boot e (set_st c (set_tail (daemon (mach c)) i [])) i r
      end
  end.

Definition dispatch_boot (e : Env) (c : Card) (i : Z) (r : BootRequest) : answer unit :=
  if is_uboot (r_payload r) && some (r_initramfs r) then Some (c, Err BadRequest)
  else match validate_l2cpu i with
  | Err err => Some (c, Err err)
  | Ok _ =>
      let! (m, x) := read_parked_release_meta (mach c) i in
      let c := set_mach c m in
      match x with
      | Err err => Some (c, Err err)
      | Ok (Some meta) => to_release e c i r meta
      | Ok None =>
          if r_force r then
            let! (m, x) := trigger_force_park_if_available (mach c) i in
            let c := set_mach c m in
            match x with
            | Err err => Some (c, Err err)
            | Ok (Some meta) => to_release e c i r meta
            | Ok None => cold_path e c i r
            end
          else cold_path e c i r
      end
  end.

End with_kernel.

(** ** Devices in step with the slot *)

(** What no attachment changes. *)
Definition kept (s : L2CpuSlot) : option WorkerHandle * option (list Z) * list Z :=
  (virtio_rng s, dtb_bytes s, blk_dtb_dev_idx s).

Section attach.
Variables (l : gmap Z L2CpuSlot) (i : Z) (g : option WorkerHandle).
Hypothesis Hi : 0 <= i < 4.

(** The dispatcher would be in step if the slot were installed with the
    handle [g] of its entropy device. *)
Definition prepared (d : Dispatcher Device) (s : L2CpuSlot) : Prop :=
  consistent (<[i := set_virtio_rng s g]> l) (Some d).

Lemma prepared_add {D} `{VirtioDeviceImpl D} wrap d s s' dev (x : D) irq kind :
  prepared d s -> 0 <= dev < DEVS_PER_L2CPU -> disks_ok i s' ->
  (forall k, k / DEVS_PER_L2CPU = i -> k <> i * DEVS_PER_L2CPU + dev ->
     expected k i (set_virtio_rng s' g) = expected k i (set_virtio_rng s g)) ->
  expected (i * DEVS_PER_L2CPU + dev) i (set_virtio_rng s' g) =
    Some (entry_view (entry_new (i * DEVS_PER_L2CPU + dev) i (wrap x) irq kind)) ->
  prepared (register wrap d i (dev_slot_of i dev) x irq kind) s'.
Proof.
  intros Hc Hdev Hok Hoth Hnew. destruct (dev_slot i dev Hi Hdev) as (E1 & E2 & _).
  fold (dev_slot_of i dev) in E1. rewrite E1.
  unfold prepared in *. rewrite <- (insert_insert_eq l i (set_virtio_rng s' g) (set_virtio_rng s g)).
  eapply consistent_add with (s := set_virtio_rng s g);
    [exact Hc|apply lookup_insert_eq|exact Hok|reflexivity|done|exact E2|done|].
  exact Hnew.
Qed.

(** The disks of a slot sit at the slots of [devs] and have the names [names]. *)
Definition disks_on (s : L2CpuSlot) (devs : list Z) (names : list (list Z)) : Prop :=
  List.map dw_slot_idx (disks s) ⊆ List.map (fun dev => i * DEVS_PER_L2CPU + dev) devs /\
  omap dw_name (disks s) ⊆ names.

Lemma prepared_disk h d s path serial dev irq label devs names :
  prepared d s -> disks_on s devs names -> dev ∈ blk_devs -> irq_for_blk_dev_idx dev = Some irq ->
  dev ∈ blk_dtb_dev_idx s -> dev ∉ devs -> (forall n, serial = Some n -> n ∉ names) ->
  let '(d', s') := attach_disk h i path serial dev irq label d s in
  prepared d' s' /\ disks_on s' (dev :: devs) (option_list serial ++ names) /\
  kept s' = kept s.
Proof.
  intros Hc [Ho1 Ho2] Hdev Hirq Hdtb Hfree Hname. unfold attach_disk.
  assert (Hn : i * DEVS_PER_L2CPU + dev ∉ List.map dw_slot_idx (disks s)).
  { intros Hin%Ho1. apply list_elem_of_In, List.in_map_iff in Hin as (dev' & E & Hin).
    apply Hfree. replace dev with dev' by lia. by apply list_elem_of_In. }
  assert (Hn2 : forall n, serial = Some n -> n ∉ omap dw_name (disks s)).
  { intros n E Hin%Ho2. by eapply Hname. }
  destruct (open_rw h path) as [[[image size]|]|].
  2,3: (split; [done|]; split; [|done]; split; intros x Hx; cbn; apply elem_of_app || apply elem_of_cons; right; auto).
  destruct (dev_slot i dev Hi (blk_dev_range _ Hdev)) as (E1 & E2 & E3). fold (dev_slot_of i dev) in E1.
  cbv zeta. set (w := mk_disk path (dev_slot_of i dev) serial _).
  assert (Ew : dw_slot_idx w = i * DEVS_PER_L2CPU + dev) by exact E1.
  destruct (proj1 Hc i _ (lookup_insert_eq _ _ _)) as [_ (Hd1 & Hd2 & Hd3)].
  assert (Hdisks : disks_ok i (set_disks s (disks s ++ [w]))).
  { split; [|split]; cbn [disks set_disks blk_dtb_dev_idx].
    - apply Forall_app_2; [done|]. constructor; [|constructor]. by exists dev.
    - rewrite List.map_app. apply NoDup_app. split; [done|]. split; [|apply NoDup_singleton].
      intros x Hx Hx'. cbn in Hx'. apply list_elem_of_singleton in Hx'. subst x. by rewrite E1 in Hx.
    - rewrite omap_app. apply NoDup_app. split; [done|]. cbn. destruct serial as [n|]; cbn.
      + split; [|apply NoDup_singleton]. intros x Hx Hx'. apply list_elem_of_singleton in Hx'. subst x.
        by apply (Hn2 n).
      + split; [by intros x _ ?%elem_of_nil|apply NoDup_nil_2]. }
  split; [|split; [|done]].
  - apply prepared_add with (s := s); [exact Hc|by apply blk_dev_range|exact Hdisks| |].
    + intros k Hk Hne. apply expected_same; [|done..]. cbn [disks set_disks set_virtio_rng].
      rewrite disk_at_snoc by (rewrite Ew; exact Hn). rewrite Ew. by destruct (Z.eqb_spec k (i * DEVS_PER_L2CPU + dev)).
    + rewrite expected_blk by (rewrite E3; exact Hdev). rewrite E3, Hirq.
      cbn [mbind option_bind disks set_disks set_virtio_rng].
      rewrite disk_at_snoc by (rewrite Ew; exact Hn). rewrite Ew, Z.eqb_refl. done.
  - unfold disks_on. cbn [disks set_disks]. rewrite List.map_app, omap_app. cbn [List.map]. rewrite Ew.
    split; intros x; cbn; rewrite elem_of_app.
    + rewrite elem_of_cons, elem_of_nil, elem_of_cons. specialize (Ho1 x). tauto.
    + rewrite elem_of_app. specialize (Ho2 x). destruct serial; cbn; tauto.
Qed.

Lemma prepared_net h card fwd host d s :
  prepared d s ->
  let '(d', s') := attach_net h card i fwd host d s in prepared d' s' /\ kept s' = kept s.
Proof.
  intros Hc. unfold attach_net. cbv zeta. destruct (virtio_net_new _ _ _ _ _ _ _) as [net|]; [|done]. split; [|done].
  apply prepared_add with (s := s); [exact Hc|apply dev_ranges| | |].
  - apply (proj2 (proj1 Hc i _ (lookup_insert_eq _ _ _))).
  - intros k Hk Hne. eapply (expected_single k i DEV_NET); [done|apply dev_ranges|done..].
  - rewrite expected_at_net by done. done.
Qed.

Lemma prepared_console d s :
  prepared d s -> let '(d', s') := attach_console i d s in prepared d' s' /\ kept s' = kept s.
Proof.
  intros Hc. split; [|done].
  apply prepared_add with (s := s); [exact Hc|apply dev_ranges| | |].
  - apply (proj2 (proj1 Hc i _ (lookup_insert_eq _ _ _))).
  - intros k Hk Hne. eapply (expected_single k i DEV_CONSOLE); [done|apply dev_ranges|done..].
  - rewrite expected_at_console by done. done.
Qed.

Lemma prepared_uart d s hub : prepared d s -> prepared (register_uart d i hub) s.
Proof.
  intros [Hs Hd]. split; [done|]. intros d' [= <-]. destruct (Hd d eq_refl) as [Hr Hu]. split; [exact Hr|].
  intros u. cbn. destruct (decide (u = i)) as [->|].
  - intros _. rewrite lookup_insert_eq. by eexists.
  - rewrite lookup_insert_ne by done. apply Hu.
Qed.

End attach.

(** A slot as [make_slot_from_l2cpu] leaves it: no device yet. *)
Definition bare (s : L2CpuSlot) : Prop :=
  disks s = [] /\ net s = None /\ virtio_console s = None /\ virtio_rng s = None.

Lemma prepared_bare l i d s :
  0 <= i < 4 -> consistent l (Some d) -> l !! i = None -> bare s -> prepared l i None d s.
Proof.
  intros Hi [Hs Hd] Hl (E1 & E2 & E3 & E4). destruct (Hd d eq_refl) as [Hr Hu]. split.
  - intros j sj. destruct (decide (j = i)) as [->|].
    + rewrite lookup_insert_eq. intros [= <-]. split; [done|]. split; [|split]; cbn; rewrite E1;
        [by apply Forall_nil|apply NoDup_nil_2..].
    + rewrite lookup_insert_ne by done. apply Hs.
  - intros d' [= <-]. split.
    + intros k. rewrite Hr. unfold expected_at. destruct (decide (k / DEVS_PER_L2CPU = i)) as [->|].
      * rewrite lookup_insert_eq, Hl. unfold expected. cbn. rewrite E1, E2, E3.
        repeat (case_match; try done).
      * by rewrite lookup_insert_ne.
    + intros u [x Hx]. destruct (decide (u = i)) as [->|].
      * rewrite lookup_insert_eq. by eexists.
      * rewrite lookup_insert_ne by done. apply Hu. by eexists.
Qed.

Lemma prepared_rng l i d s entropy w :
  0 <= i < 4 -> prepared l i None d s ->
  prepared l i (Some w) (register DRng d i (dev_slot_of i DEV_RNG) (mk_rng entropy) RNG_IRQ Rng) s.
Proof.
  intros Hi Hc. destruct (dev_slot i DEV_RNG Hi (proj2 (proj2 dev_ranges))) as (E1 & E2 & E3).
  fold (dev_slot_of i DEV_RNG) in E1. rewrite E1. unfold prepared in *.
  rewrite <- (insert_insert_eq l i (set_virtio_rng s (Some w)) (set_virtio_rng s None)).
  eapply consistent_add with (s := set_virtio_rng s None); [exact Hc|apply lookup_insert_eq| |reflexivity|done|exact E2| |].
  - apply (proj2 (proj1 Hc i _ (lookup_insert_eq _ _ _))).
  - intros k Hk Hne. eapply (expected_single k i DEV_RNG); [done|apply dev_ranges|done..].
  - cbn [re_slot entry_new]. by rewrite expected_at_rng.
Qed.

(** The handle a cold boot would have to keep for its entropy device. *)
Definition rng_worker (a : Attach) (i : Z) : option WorkerHandle :=
  if a_rng a then Some (mk_worker (chars "virtio-rng l2cpu " ++ show_dec i ++ chars " (engine)")) else None.

Lemma register_disks_spec g h a l i d s :
  0 <= i < 4 -> prepared l i g d s -> disks s = [] -> blk_dtb_dev_idx s = blk_dtb_devs (some (a_cloud_init a)) ->
  let '(d1, s1) := match a_disk a with
                   | Some path => attach_disk h i path None DEV_BLK DISK_IRQ (chars "blk") d s
                   | None => (d, s) end in
  let '(d', s') := match a_cloud_init a with
                   | Some path => attach_disk h i path (Some (chars "cidata")) DEV_BLK1 DISK1_IRQ (chars "cidata") d1 s1
                   | None => (d1, s1) end in
  prepared l i g d' s' /\ kept s' = kept s.
Proof.
  intros Hi H1 E1 Hdtb.
  assert (H2 : let '(d', s') := match a_disk a with
                 | Some path => attach_disk h i path None DEV_BLK DISK_IRQ (chars "blk") d s
                 | None => (d, s) end in
    prepared l i g d' s' /\ disks_on i s' [DEV_BLK] [] /\ kept s' = kept s).
  { assert (Ho : forall devs, disks_on i s devs []).
    { intros devs. unfold disks_on. rewrite E1. split; intros x Hx; by apply elem_of_nil in Hx. }
    destruct (a_disk a) as [p|]; [|done].
    apply (prepared_disk l i g Hi h d s p None DEV_BLK DISK_IRQ (chars "blk") [] []); try done.
    - apply list_elem_of_here.
    - rewrite Hdtb. apply list_elem_of_here.
    - apply not_elem_of_nil. }
  destruct (match a_disk a with Some _ => _ | None => _ end) as [d1 s1]. destruct H2 as (H2 & Ho & E2).
  destruct (a_cloud_init a) as [p|]; [|done].
  pose proof (prepared_disk l i g Hi h d1 s1 p (Some (chars "cidata")) DEV_BLK1 DISK1_IRQ
    (chars "cidata") [DEV_BLK] [] H2 Ho) as H.
  destruct (attach_disk _ _ _ _ _ _ _ _ _) as [d' s']. destruct H as (A & B & C); try done.
  - apply list_elem_of_further, list_elem_of_here.
  - replace (blk_dtb_dev_idx s1) with (blk_dtb_dev_idx s) by (unfold kept in E2; congruence).
    rewrite Hdtb. apply list_elem_of_further, list_elem_of_here.
  - intros Hx. by apply list_elem_of_singleton in Hx.
  - intros n _. apply not_elem_of_nil.
  - by rewrite C.
Qed.

Lemma register_devices_spec h entropy card l i r d s :
  0 <= i < 4 -> consistent l (Some d) -> l !! i = None -> bare s ->
  blk_dtb_dev_idx s = blk_dtb_devs (some (a_cloud_init (r_attach r))) ->
  let '(d', s') := register_devices h entropy card i r d s in
  prepared l i (rng_worker (r_attach r) i) d' s' /\ kept s' = kept s /\ is_Some (uart_registry d' !! i).
Proof.
  intros Hi Hc Hl Hb Hdtb. unfold register_devices. set (a := r_attach r) in *. cbv zeta.
  assert (H1 : prepared l i (rng_worker a i)
    (if a_rng a then register DRng d i (dev_slot_of i DEV_RNG) (mk_rng entropy) RNG_IRQ Rng else d) s).
  { pose proof (prepared_bare l i d s Hi Hc Hl Hb) as Hp. unfold rng_worker.
    destruct (a_rng a); [by apply prepared_rng|done]. }
  revert H1. generalize (if a_rng a then register DRng d i (dev_slot_of i DEV_RNG) (mk_rng entropy) RNG_IRQ Rng else d).
  clear Hc d. intros d H1.
  pose proof (register_disks_spec (rng_worker a i) h a l i d s Hi H1 (proj1 Hb) Hdtb) as H2.
  destruct (match a_disk a with Some _ => _ | None => _ end) as [d1 s1].
  destruct (match a_cloud_init a with Some _ => _ | None => _ end) as [d2 s2]. destruct H2 as (H3 & Er2).
  assert (H4 : let '(d', s') := if a_network a then attach_net h card i (a_extra_fwd a) (r_hostname r) d2 s2 else (d2, s2) in
    prepared l i (rng_worker a i) d' s' /\ kept s' = kept s).
  { destruct (a_network a); [|done]. rewrite <- Er2. by apply prepared_net. }
  destruct (if a_network a then _ else _) as [d3 s3]. destruct H4 as (H4 & Er3).
  assert (H5 : let '(d', s') := if a_console a then attach_console i d3 s3 else (d3, s3) in
    prepared l i (rng_worker a i) d' s' /\ kept s' = kept s).
  { destruct (a_console a); [|done]. rewrite <- Er3. by apply prepared_console. }
  destruct (if a_console a then _ else _) as [d4 s4]. destruct H5 as (H5 & Er4).
  split; [by apply prepared_uart|]. split; [done|]. cbn. rewrite lookup_insert_eq. by eexists.
Qed.

(** ** The end of a cold boot *)

Lemma prefetch_addrs : Forall (fun w => fits 64 w.1 /\ w.1 mod 4 = 0) prefetch_words.
Proof.
  apply Forall_forall. intros w Hw. apply list_elem_of_In, List.in_flat_map in Hw as (k & Hk & Hw).
  apply List.in_seq in Hk. change (Z.to_nat L2_PREFETCH_NUM) with 4%nat in Hk.
  unfold fits, L2_PREFETCH_BASE, L2_PREFETCH_STRIDE in *.
  destruct Hw as [<-|[<-|[]]]; cbn [fst]; (split; [lia|]); Z.div_mod_to_equations; lia.
Qed.

Section finish.
Context `{KL : KernelLaws}.

(** A core [i] out of reset at full speed. *)
Definition released (i : Z) (csm : gmap Z Z) (st : DaemonState) : Prop :=
  exists arc, shared_chip st = mk_chip (Some (arc, csm)) /\
    l2cpu_is_running (mk_chip (Some (arc, csm))) i = Some (Ok true) /\ at_mhz 1750 (pll_of (regs arc)).

Lemma status_words i : 0 <= i < 4 ->
  let p := L2CPU_STARTING_ADDRESS i + STATUS_OFFSET in
  (fits 64 p /\ p mod 4 = 0) /\ (fits 64 (p + 4) /\ (p + 4) mod 4 = 0).
Proof.
  intros Hi. assert (i = 0 \/ i = 1 \/ i = 2 \/ i = 3) as H by lia.
  destruct H as [->|[->|[->| ->]]]; vm_compute; repeat split; discriminate.
Qed.

Lemma write_ignored_spec l pa v os :
  fits 64 pa /\ pa mod 4 = 0 -> l2_fd l ∈ fds os ->
  exists os', write_ignored l pa v os = Some os' /\ fds os' = fds os.
Proof.
  intros [Ha H4] Hfd. unfold write_ignored. pose proof (l2cpu_write32_spec l pa v os Ha H4 Hfd) as H.
  destruct (l2cpu_write32 l pa v os) as [[] os'|e os'|]; [| |done]; exists os'; (split; [done|]);
    apply (same_fds _ _ (proj1 H)).
Qed.

(** The core is released whether or not the prefetchers can be set up. *)
Lemma release_reset_spec c i l arc csm :
  0 <= i < 4 -> l2_idx l < 4 -> l2_fd l ∈ fds (host (mach c)) ->
  shared_chip (daemon (mach c)) = mk_chip (Some (arc, csm)) ->
  exists c' x, release_l2cpu_from_reset c i l = Some (c', x) /\ released i csm (daemon (mach c')) /\
    handles (mach c') = handles (mach c) /\
    l2cpus (daemon (mach c')) = l2cpus (daemon (mach c)) /\
    dispatcher (daemon (mach c')) = dispatcher (daemon (mach c)).
Proof.
  intros Hi Hl Hfd Hc. unfold release_l2cpu_from_reset. destruct (status_words i Hi) as [W1 W2].
  destruct (write_ignored_spec l _ 0 _ W1 Hfd) as (os1 & -> & F1). cbn [mbind option_bind].
  rewrite <- F1 in Hfd. destruct (write_ignored_spec l _ 0 _ W2 Hfd) as (os2 & -> & F2). cbn [mbind option_bind].
  rewrite <- F2 in Hfd. cbn [set_os set_mach mach daemon set_host]. rewrite Hc.
  assert (Hf : Forall (fun i => 0 <= i < 4) [i]) by (by apply Forall_singleton).
  destruct (reset_x280_run arc csm [i] Hf) as (arc' & h1 & r & h2 & -> & Hrun & Hm & _). cbn [mbind option_bind].
  assert (Hrel : released i csm (set_chip (daemon (mach c)) (mk_chip (Some (arc', csm))))).
  { exists arc'. split; [done|]. split; [|done].
    rewrite (Hrun i _ Hi eq_refl), bool_decide_true by apply list_elem_of_here. by rewrite orb_true_r. }
  cbn [set_st set_os set_host set_mach mach daemon set_daemon host]. unfold configure_prefetchers.
  replace (l2_idx l <? 4) with true by (symmetry; by apply Z.ltb_lt). cbn [negb].
  pose proof (l2cpu_write_all_spec l prefetch_words os2 prefetch_addrs Hfd) as H.
  destruct (l2cpu_write_all l prefetch_words os2) as [[] os3|e os3|]; [| |done];
    do 2 eexists; (split; [reflexivity|]); done.
Qed.

(** What a boot leaves in the daemon: the slot that was asked for, in step but
    for the entropy device; or, on an error, either nothing or a released core
    whose devices are registered and whose slot is not there. *)
Definition boot_result (i : Z) (r : BootRequest) (l : L2Cpu) (dtb : list Z) (csm : gmap Z Z) (m m' : Machine)
    (x : result unit Error) : Prop :=
  let st := daemon m in
  let st' := daemon m' in
  match x with
  | Ok _ =>
      exists s, l2cpus st' = <[i := s]> (l2cpus st) /\ dtb_bytes s = Some dtb /\
        handles m' = <[i := l]> (handles m) /\ released i csm st' /\ virtio_rng s = None /\
        state_ok (set_slot st' i (set_virtio_rng s (rng_worker (r_attach r) i))) /\
        (state_ok st' <-> a_rng (r_attach r) = false)
  | Err _ =>
      l2cpus st' = l2cpus st /\ handles m' = handles m /\
      (st' = st \/
       released i csm st' /\ (exists d, dispatcher st' = Some d /\ is_Some (uart_registry d !! i)) /\ ~ state_ok st')
  end.

Lemma prepared_state l i g d s st :
  prepared l i g d s -> l2cpus st = <[i := s]> l -> dispatcher st = Some d -> state_ok (set_slot st i (set_virtio_rng s g)).
Proof. intros H El Ed. unfold state_ok. cbn [l2cpus dispatcher set_slot]. by rewrite El, Ed, insert_insert_eq. Qed.

(** An entropy device that is registered and not on record breaks the step. *)
Lemma prepared_rng_only l i a d s st :
  0 <= i < 4 -> prepared l i (rng_worker a i) d s -> virtio_rng s = None ->
  l2cpus st = <[i := s]> l -> dispatcher st = Some d -> state_ok st <-> a_rng a = false.
Proof.
  intros Hi Hp Hr El Ed. unfold state_ok. rewrite El, Ed. unfold rng_worker in Hp. destruct (a_rng a).
  - split; [|done]. intros [_ H]. destruct (H d eq_refl) as [H1 _]. specialize (H1 (i * DEVS_PER_L2CPU + DEV_RNG)).
    destruct Hp as [_ Hp]. destruct (Hp d eq_refl) as [H2 _]. rewrite H2 in H1. unfold expected_at in H1.
    destruct (dev_slot i DEV_RNG Hi (proj2 (proj2 dev_ranges))) as (_ & E2 & _).
    rewrite E2, !lookup_insert_eq in H1. cbn [mbind option_bind] in H1. rewrite !expected_at_rng in H1 by done.
    cbn in H1. by rewrite Hr in H1.
  - split; [done|]. intros _. unfold prepared in Hp. by destruct s; cbn in *; subst.
Qed.

(** C7: the end of a cold boot ([make_slot_from_l2cpu], the device
    registrations, the release from reset and the installation) on a daemon
    whose engine is up and whose dispatcher is in step with its slots never
    panics.  When it succeeds, the slot is installed with the patched tree, its
    L2CPU handle is kept, the core is out of reset at 1750 MHz, and every
    registration is the one the slot records, except that the entropy device is
    registered and not recorded: the daemon stays in step exactly when no
    entropy device was asked for.  When it fails, the daemon is as before or
    the core is running with its devices registered and no slot. *)
Theorem cold_boot_in_step e c i r l dtb arc csm d :
  0 <= i < 4 -> l2_idx l < 4 -> l2_fd l ∈ fds (host (mach c)) ->
  shared_chip (daemon (mach c)) = mk_chip (Some (arc, csm)) ->
  state_ok (daemon (mach c)) -> l2cpus (daemon (mach c)) !! i = None ->
  dispatcher (daemon (mach c)) = Some d -> tensix_engine (daemon (mach c)) = true ->
  match finish_boot e c i r l dtb with
  | Some (c', x) => boot_result i r l dtb csm (mach c) (mach c') x
  | None => False
  end.
Proof.
  intros Hi Hl Hfd Hc Hok Hno Hd Ht. unfold finish_boot, get_persistent_2m_window.
  assert (Ha : fits 64 PENDING_ADDR) by (vm_compute; split; discriminate || reflexivity).
  pose proof (new_2m_spec (l2_fd l) (coordinates l).1 (coordinates l).2 PENDING_ADDR _ Ha Hfd) as Hw.
  destruct (new_2m _ _ _ _ _) as [w os|er os|]; [|by (split; [done|split; [done|left]])|done].
  destruct Hw as (_ & _ & _ & _ & _ & _ & Hfds & _). cbv zeta. cbn [set_os set_mach mach set_host daemon].
  unfold state_ok in Hok. rewrite Hd in Hok. rewrite Hd, Ht.
  assert (Hb : bare (new_slot e i r dtb)) by done.
  pose proof (register_devices_spec (e_host e) (e_entropy e) (card (daemon (mach c))) _ i r d _ Hi Hok Hno Hb eq_refl) as Hp.
  destruct (register_devices _ _ _ _ _ _ _) as [d' s]. destruct Hp as (Hp & Hk & Hu).
  set (c1 := set_st _ _). destruct (release_reset_spec c1 i l arc csm Hi Hl) as (c' & x & -> & Hrel & Hh & Hls & Hdi).
  { cbn. by rewrite Hfds. } { exact Hc. }
  cbn [c1 set_st set_mach mach daemon set_daemon l2cpus dispatcher set_dispatcher handles set_host] in Hh, Hls, Hdi.
  cbn [mbind option_bind]. unfold kept in Hk. cbn [new_slot virtio_rng dtb_bytes] in Hk.
  destruct x as [[]|er]; cbn [boot_result].
  - exists s. set (st' := daemon (mach (install_slot c' i l w s))).
    assert (El : l2cpus st' = <[i := s]> (l2cpus (daemon (mach c)))) by (cbn; by rewrite Hls).
    split; [done|]. split; [congruence|]. split; [cbn; by rewrite Hh|]. split; [exact Hrel|]. split; [congruence|].
    split; [by eapply prepared_state|]. eapply prepared_rng_only; try done. congruence.
  - match goal with |- context [if ?held then _ else _] => set (kept_window := held) end.
    assert (daemon (mach (if kept_window then c' else set_os c' (window_drop w (host (mach c'))))) = daemon (mach c') /\
      handles (mach (if kept_window then c' else set_os c' (window_drop w (host (mach c'))))) = handles (mach c')) as [-> ->]
      by (by destruct kept_window).
    split; [done|]. split; [done|]. right. split; [done|]. split; [by exists d'|].
    intros [_ H]. rewrite Hdi in H. destruct (H d' eq_refl) as [_ H2]. apply H2 in Hu. rewrite Hls, Hno in Hu.
    by destruct Hu.
Qed.

End finish.

(** ** What a boot leaves alone *)

Lemma status_word_addrs i : 0 <= i < 4 ->
  word_addr (L2CPU_STARTING_ADDRESS i + STATUS_OFFSET) /\ word_addr (L2CPU_STARTING_ADDRESS i + STATUS_OFFSET + 4).
Proof. apply status_words. Qed.

(** The core of slot [i] has an L2CPU whose memory does not say it is parked. *)
Definition runs (m : Machine) (i : Z) : Prop :=
  exists l, slot_l2cpu m i = Some l /\
    parked_mem (tile_mem (host m) (coordinates l)) (L2CPU_STARTING_ADDRESS i + STATUS_OFFSET) = false.

(** Every booted slot's L2CPU has its descriptor. *)
Definition fds_open (m : Machine) : Prop :=
  forall i l, slot_l2cpu m i = Some l -> l2_fd l ∈ fds (host m).

(** Nothing but reads. *)
Definition untouched (os os' : Os) : Prop := same_resources os' os /\ noc os' = noc os.

Lemma untouched_trans os1 os2 os3 : untouched os1 os2 -> untouched os2 os3 -> untouched os1 os3.
Proof. intros [A B] [C D]. split; [by rewrite C|congruence]. Qed.

Section spares.
Context `{KL : KernelLaws} `{L : Libfdt} `{G : Guest} `{FW : Firmware} `{B : Board}.

Lemma read_status_running l pa os :
  l2_fd l ∈ fds os -> word_addr pa -> word_addr (pa + 4) -> parked_mem (tile_mem os (coordinates l)) pa = false ->
  match read_u64 l pa os with
  | Ret o os' => untouched os os' /\ o <> Some STATUS_PARKED
  | _ => False
  end.
Proof.
  intros Hfd [F A] [F' A'] Hp. unfold read_u64. replace (u64 (pa + 4)) with (pa + 4) by (symmetry; by apply wrap_small).
  pose proof (l2cpu_read32_spec l pa os F A Hfd) as H.
  destruct (l2cpu_read32 l pa os) as [lo os1|e os1|]; [|by destruct H|done]. destruct H as (S1 & N1 & ->).
  pose proof (l2cpu_read32_spec l (pa + 4) os1 F' A' ltac:(by rewrite S1)) as H.
  destruct (l2cpu_read32 l (pa + 4) os1) as [hi os2|e os2|]; [| |done].
  - destruct H as (S2 & N2 & ->). split; [by split; [rewrite S2|congruence]|]. intros [= E].
    assert (Hm : tile_mem os1 (coordinates l) = tile_mem os (coordinates l)) by (unfold tile_mem; by rewrite N1).
    rewrite Hm in E. unfold parked_mem in Hp. by rewrite E, Z.eqb_refl in Hp.
  - destruct H as [S2 N2]. split; [by split; [rewrite S2|congruence]|done].
Qed.

(** Looking at the siblings finds one that runs. *)
Lemma scan_siblings_spec target idxs : forall c,
  Forall (fun i => 0 <= i < 4) idxs -> fds_open (mach c) ->
  exists os' running parked, scan_siblings c target idxs = Some (set_os c os', (running, parked)) /\
    untouched (host (mach c)) os' /\
    (forall j, j ∈ idxs -> j <> target -> runs (mach c) j -> running <> []).
Proof.
  induction idxs as [|i idxs IH]; intros c Hi Hfd; cbn [scan_siblings].
  { exists (host (mach c)), [], []. split; [by destruct c as [[]]|]. split; [by split|].
    intros j Hj. by apply elem_of_nil in Hj. }
  apply Forall_cons in Hi as [Hi Hr].
  assert (Hskip : ~ (i <> target /\ runs (mach c) i) -> exists os' running parked,
    scan_siblings c target idxs = Some (set_os c os', (running, parked)) /\ untouched (host (mach c)) os' /\
    (forall j, j ∈ i :: idxs -> j <> target -> runs (mach c) j -> running <> [])).
  { intros Hno. destruct (IH c Hr Hfd) as (os' & ru & pa & E & U & H). exists os', ru, pa. split; [done|].
    split; [done|]. intros j [->|Hj]%elem_of_cons Hne Hj'; [exfalso; by apply Hno|by eapply H]. }
  destruct (Z.eqb_spec i target) as [->|Hne]; [apply Hskip; tauto|].
  destruct (slot_l2cpu (mach c) i) as [l|] eqn:El.
  2:{ apply Hskip. intros [_ (l & E & _)]. congruence. }
  destruct (status_word_addrs i Hi) as [W1 W2].
  pose proof (read_both_spec l _ (host (mach c)) (Hfd i l El) W1 W2) as H.
  destruct (read_both l _ (host (mach c))) as [o os1|e os1|]; [|done..]. destruct H as (S1 & N1 & Hv & _).
  destruct (IH (set_os c os1) Hr) as (os' & ru & pa & E & U & H).
  { intros j lj Hj. cbn. rewrite S1. by eapply Hfd. }
  rewrite E. cbn [mbind option_bind].
  assert (Hu : untouched (host (mach c)) os') by (eapply untouched_trans; [by split|exact U]).
  assert (Hrest : forall j, j ∈ idxs -> j <> target -> runs (mach c) j -> ru <> []).
  { intros j Hj Hnj (lj & Hlj & Hpj). eapply H; [done..|]. exists lj. split; [done|]. cbn.
    unfold tile_mem in *. by rewrite N1. }
  unfold classify_sibling. case_bool_decide as Hpk; do 3 eexists; (split; [reflexivity|]); (split; [exact Hu|]).
  - intros j [->|Hj]%elem_of_cons Hnj (lj & Hlj & Hpj); [|eapply Hrest; try done; by exists lj].
    rewrite El in Hlj. injection Hlj as <-. rewrite <- (Hv _ Hpk) in Hpj. by rewrite Z.eqb_refl in Hpj.
  - intros j _ _ _. done.
Qed.

(** C34: the board reset that a boot may make first is never made while another
    core runs: with a booted sibling whose memory does not say it is parked,
    [maybe_opportunistic_reset_board] reads the siblings' status words, changes
    nothing and lets the boot go on. *)
Theorem reset_spares_running e c target j :
  fds_open (mach c) -> 0 <= j < 4 -> j <> target -> runs (mach c) j ->
  exists os', maybe_opportunistic_reset_board e c target = Some (set_os c os', Ok tt) /\
    untouched (host (mach c)) os'.
Proof.
  intros Hfd Hj Hne Hr. unfold maybe_opportunistic_reset_board. destruct (chip_reset_this_session c).
  { exists (host (mach c)). split; [by destruct c as [[]]|by split]. }
  assert (Hf : Forall (fun i => 0 <= i < 4) [0; 1; 2; 3]) by (repeat apply Forall_cons_2; try apply Forall_nil_2; lia).
  destruct (scan_siblings_spec target _ c Hf Hfd) as (os' & ru & pa & -> & U & H). cbn [mbind option_bind].
  assert (Hin : j ∈ [0; 1; 2; 3]) by (rewrite !elem_of_cons; lia).
  destruct ru; [by destruct (H j Hin Hne Hr)|]. by exists os'.
Qed.

(** A boot request without [force] for a core that runs is refused with a
    slot-state error: the status word is read, and nothing changes in the
    daemon, in the ledger of host resources or in the memory of any tile. *)
Theorem boot_spares_running e c i r :
  0 <= i < 4 -> fds_open (mach c) -> runs (mach c) i ->
  is_uboot (r_payload r) && some (r_initramfs r) = false -> r_force r = false ->
  exists os', dispatch_boot e c i r = Some (set_os c os', Err SlotState) /\ untouched (host (mach c)) os'.
Proof.
  intros Hi Hfd (l & Hl & Hp) Hreq Hforce. unfold dispatch_boot. rewrite Hreq.
  unfold validate_l2cpu. rewrite (proj2 (Z.ltb_lt i 4)) by lia.
  destruct (status_word_addrs i Hi) as [W1 W2].
  pose proof (read_status_running l _ (host (mach c)) (Hfd i l Hl) W1 W2 Hp) as H.
  unfold read_parked_release_meta. rewrite Hl. cbv zeta.
  destruct (read_u64 l _ (host (mach c))) as [o os'|e' os'|]; [|done..]. destruct H as [U Ho].
  cbn [on_host]. rewrite bool_decide_false by done. cbn [negb mbind option_bind]. rewrite Hforce.
  exists os'. split; [|exact U]. unfold cold_path, handle_existing_slot.
  cbn [set_mach mach daemon set_host]. unfold slot_l2cpu in Hl. destruct (l2cpus (daemon (mach c)) !! i) eqn:Es; [|done].
  by rewrite Hforce.
Qed.

End spares.

(** ** Memory and device nodes *)

Lemma memory_size_some i req : 0 <= i < 4 -> fits 64 req ->
  memory_size_for i (Some req) = Z.min (req - req mod TWO_MEG) (L2CPU_MEMORY_SIZE i).
Proof.
  intros Hi Hr. unfold memory_size_for. change (2 * 1024 * 1024) with (2 ^ 21). by rewrite land_high_mask.
Qed.

Lemma memory_size_units i : L2CPU_MEMORY_SIZE i mod TWO_MEG = 0.
Proof. unfold L2CPU_MEMORY_SIZE. by destruct (i <? 2). Qed.

(** A memory request is rounded down to 2 MiB and held to what the L2CPU has:
    the size is the largest multiple of 2 MiB that exceeds neither. *)
Lemma memory_size_largest i req s : 0 <= i < 4 -> fits 64 req -> s mod TWO_MEG = 0 ->
  s <= memory_size_for i (Some req) <-> s <= req /\ s <= L2CPU_MEMORY_SIZE i.
Proof.
  intros Hi Hr Hs. rewrite memory_size_some by done. change TWO_MEG with 2097152 in *. Z.div_mod_to_equations. lia.
Qed.

Lemma memory_size_max i o : 0 <= i < 4 -> (forall req, o = Some req -> fits 64 req) ->
  memory_size_for i o <= L2CPU_MEMORY_SIZE i.
Proof.
  intros Hi Ho. destruct o as [req|]; [|reflexivity]. rewrite memory_size_some by auto. lia.
Qed.

(** On L2CPUs 2 and 3, which have 2 GiB, an initramfs is placed past the end
    of the core's memory, whatever size was asked for: the guest is given an
    address that its own device tree does not describe as memory. *)
Theorem initramfs_outside_memory e i r a n :
  2 <= i < 4 -> (forall req, r_memory r = Some req -> fits 64 req) ->
  choose_boot_device e i r = Ok (Initramfs a n) ->
  L2CPU_STARTING_ADDRESS i + memory_size_for i (r_memory r) <= a.
Proof.
  intros Hi Hr H. pose proof (memory_size_max i (r_memory r) ltac:(lia) Hr) as Hm.
  assert (Ha : a = L2CPU_STARTING_ADDRESS i + INITRAMFS_OFFSET).
  { unfold choose_boot_device in H. destruct (is_uboot _); [done|].
    destruct (r_initramfs r), (some (a_disk (r_attach r))); try done; cbv zeta in H; destruct (read_bin_file _); try done; congruence. }
  subst a. unfold L2CPU_MEMORY_SIZE in Hm. rewrite (proj2 (Z.ltb_ge i 2)) in Hm by lia.
  unfold INITRAMFS_OFFSET. lia.
Qed.

(** The node of block device [dev] is in the tree of a booted guest. *)
Definition declares (x280_base : Z) (a : Attach) (dev : Z) : Prop :=
  exists irq, irq_for_blk_dev_idx dev = Some irq /\
    mk_node (u64 (x280_base + dev * REGS_PER_DEV)) REGS_PER_DEV irq ∈ virtio_nodes_for x280_base a.

(** The block slots that a booted slot accepts hot-added disks on are those
    whose node the guest's device tree declares exactly when the boot attached
    a root disk: without one, the slot of the root disk is offered although no
    node was emitted for it. *)
Theorem blk_slots_declared x280_base a :
  (forall dev, dev ∈ blk_devs -> dev ∈ blk_dtb_devs (some (a_cloud_init a)) <-> declares x280_base a dev) <->
  some (a_disk a) = true.
Proof.
  assert (Hirq : forall dev irq ad sz enabled irq', (mk_node ad sz irq : VirtioMmioNode) ∈
    (if enabled : bool then [mk_node (u64 (x280_base + dev * REGS_PER_DEV)) REGS_PER_DEV irq'] else []) ->
    enabled = true /\ irq = irq').
  { intros dev irq ad sz [] irq' H; [apply list_elem_of_singleton in H; by simplify_eq|by apply elem_of_nil in H]. }
  assert (Hd : forall dev, declares x280_base a dev ->
    dev = DEV_BLK /\ some (a_disk a) = true \/ dev = DEV_BLK1 /\ some (a_cloud_init a) = true).
  { intros dev (irq & Hi & Hin). unfold virtio_nodes_for in Hin. rewrite !elem_of_app in Hin.
    unfold irq_for_blk_dev_idx in Hi.
    destruct (Z.eqb_spec dev DEV_BLK) as [->|]; [|destruct (Z.eqb_spec dev DEV_BLK1) as [->|]; [|
      destruct (Z.eqb_spec dev DEV_BLK2) as [->|]; [|done]]]; injection Hi as <-;
    destruct Hin as [H|[H|[H|[H|H]]]]; apply Hirq in H as [He E]; try discriminate E; auto. }
  split.
  - intros H. destruct (Hd DEV_BLK) as [[_ ?]|[? _]]; [|done|done]. apply H; apply list_elem_of_here.
  - intros Hdisk dev Hdev. split.
    + unfold blk_dtb_devs. intros [->|Hin]%elem_of_cons.
      * exists DISK_IRQ. split; [done|]. unfold virtio_nodes_for. rewrite Hdisk. apply list_elem_of_here.
      * destruct (some (a_cloud_init a)) eqn:Eci; [|by apply elem_of_nil in Hin].
        apply list_elem_of_singleton in Hin as ->. exists DISK1_IRQ. split; [done|]. unfold virtio_nodes_for.
        rewrite !elem_of_app, Eci. do 4 right. apply list_elem_of_here.
    + intros [[-> _]|[-> Hci]]%Hd; unfold blk_dtb_devs; [apply list_elem_of_here|]. rewrite Hci.
      apply list_elem_of_further, list_elem_of_here.
Qed.

(** ** Concrete boots *)

Definition demo_env : Env :=
  mk_env demo_host (fun _ => Ok [1; 2; 3]) true [] [] 0 (mk_world ∅ ∅ ∅ ∅) 0 (mk_arc ∅ [], ∅).

Definition l2cpu2 : L2Cpu :=
  mk_l2cpu 4 2 (L2CPU_STARTING_ADDRESS 2) (L2CPU_MEMORY_SIZE 2) (8, 5) 0
    (mk_window 0 (mk_handle 4 0 0 0) 0) (mk_window 0 (mk_handle 4 0 0 0) 0).

(** L2CPU 1 is booted; its status word says what [status] says. *)
Definition demo_card (status : Z) : Card :=
  mk_card (mk_machine booted_demo
             (mk_os {[3; 4]} ∅ [] [] {[ (8, 9) := wr32 ∅ (L2CPU_STARTING_ADDRESS 1 + STATUS_OFFSET) status ]} 0)
             {[ 1 := demo_l2cpu ]}) None None ∅ ∅ false.

Definition demo_request (force : bool) (disk : option (list Z)) (rng : bool) : BootRequest :=
  mk_boot (chars "fw.bin") (Kernel (chars "Image")) (chars "card.dtb") (Some (chars "initrd")) (chars "/dev/vda")
    (mk_attach disk None true [] rng true) force None None None.

Lemma demo_runs : runs (mach (demo_card 7)) 1.
Proof. exists demo_l2cpu. split; reflexivity. Qed.

Lemma demo_fds_open status : fds_open (mach (demo_card status)).
Proof.
  intros i l. unfold slot_l2cpu. destruct (_ !! i); [|done]. intros H. cbn [mach demo_card handles] in H.
  apply lookup_singleton_Some in H as [_ <-]. apply (bool_decide_unpack _). reflexivity.
Qed.

(** A boot with an entropy device ends well and out of step. *)
Lemma cold_boot_in_step_witness :
  match finish_boot (K := counting_kernel []) demo_env (demo_card 0) 2 (demo_request false (Some (chars "root.img")) true)
          l2cpu2 [9] with
  | Some (c', Ok _) => is_Some (l2cpus (daemon (mach c')) !! 2) /\ ~ state_ok (daemon (mach c'))
  | _ => False
  end.
Proof.
  assert (Hfd : 4 ∈ fds (host (mach (demo_card 0)))) by (apply (bool_decide_unpack _); reflexivity).
  pose proof (cold_boot_in_step (K := counting_kernel []) demo_env (demo_card 0) 2
    (demo_request false (Some (chars "root.img")) true) l2cpu2 [9] (mk_arc ∅ []) ∅ (mk_disp ∅ ∅ (mk_world ∅ ∅ ∅ ∅))
    ltac:(lia) ltac:(reflexivity) Hfd eq_refl booted_demo_ok eq_refl eq_refl eq_refl) as H.
  assert (Hok : match finish_boot (K := counting_kernel []) demo_env (demo_card 0) 2
    (demo_request false (Some (chars "root.img")) true) l2cpu2 [9] with Some (_, Ok _) => true | _ => false end = true)
    by (vm_compute; reflexivity).
  destruct (finish_boot _ _ _ _ _ _) as [[c' [[]|er]]|]; [|discriminate Hok..].
  destruct H as (s & El & _ & _ & _ & _ & _ & Hs). rewrite El. split; [rewrite lookup_insert_eq; by eexists|].
  intros H. by apply Hs in H.
Defined.

(** A boot of core 2 while core 1 runs resets nothing. *)
Lemma reset_spares_running_witness : exists os',
  maybe_opportunistic_reset_board (K := counting_kernel []) demo_env (demo_card 7) 2 =
    Some (set_os (demo_card 7) os', Ok tt).
Proof.
  destruct (reset_spares_running (K := counting_kernel []) demo_env (demo_card 7) 2 1 (demo_fds_open 7)
    ltac:(lia) ltac:(lia) demo_runs) as (os' & H & _).
  exists os'. exact H.
Defined.

Lemma boot_spares_running_witness : exists os',
  dispatch_boot (K := counting_kernel []) (L := Tagged.libfdt) (G := late_guest) demo_env (demo_card 7) 1
    (demo_request false None false) = Some (set_os (demo_card 7) os', Err SlotState).
Proof.
  destruct (boot_spares_running (K := counting_kernel []) (L := Tagged.libfdt) (G := late_guest) demo_env (demo_card 7) 1
    (demo_request false None false) ltac:(lia) (demo_fds_open 7) demo_runs eq_refl eq_refl) as (os' & H & _).
  exists os'. exact H.
Defined.

Lemma initramfs_outside_memory_witness :
  choose_boot_device demo_env 2 (demo_request false None false) = Ok (Initramfs 0x4000e5000000 4) /\
  L2CPU_STARTING_ADDRESS 2 + memory_size_for 2 None <= 0x4000e5000000.
Proof.
  split; [reflexivity|].
  apply (initramfs_outside_memory demo_env 2 (demo_request false None false) 0x4000e5000000 4 ltac:(lia));
    [discriminate|reflexivity].
Defined.
