(* ===== verification/ConsoleWorker.v ===== *)
(** The console thread of a booted L2CPU: [uart_pass] and
    [chip_console_main] of [src/daemon/chip_console.rs], with the park branch
    and [auto_release_for_reboot].

    The rings live in the memory of the L2CPU's tile, behind a window; the
    thread's state is a record with the machine of [Release], the hub it shares
    with the slot, the channel of keystrokes and the loop's variables.  The slot
    keeps the same hub in the daemon; no operation used here reads that copy.
    What happens around an iteration (the clock, keystrokes, the guest's
    accesses, the exit flag) is the record [Tick], one per iteration.  [None] is
    a panic or a fault. *)

From S2P Require Import Prelude Layout Text Sigbus Tlb Virtqueue VirtioBlk ConsoleHub VirtioConsole VirtioRng VirtioNet DataPlane L2cpu Clock Telemetry Tensix Chip Boot Parse Protocol ChipConsole DeviceTree DtbProofs Server Release ColdBoot.

(** ** The tiers of the poll loop, in microseconds *)

Definition FAST_SLEEP : Z := 100.
Definition SLOW_SLEEP : Z := 1000.
Definition IDLE_SLEEP : Z := 10 * 1000.
Definition FAST_WINDOW : Z := 200 * 1000.
Definition IDLE_WINDOW : Z := 2 * 1000 * 1000.
Definition PARKED_PROBE_INTERVAL : Z := 1500 * 1000.

Inductive Tier := Fast | Slow | Idle.

Definition classify_tier (elapsed fast_window idle_window : Z) : Tier :=
  if elapsed <? fast_window then Fast
  else if elapsed <? idle_window then Slow
  else Idle.

Definition tier_sleep (t : Tier) : Z :=
  match t with Fast => FAST_SLEEP | Slow => SLOW_SLEEP | Idle => IDLE_SLEEP end.

(** ** State *)

Record Worker := mk_cworker {
  cw_mach : Machine;
  cw_hub : ConsoleHub;
  cw_channel : list Z;
  cw_connected : bool;
  cw_g2h : Z;
  cw_h2g : Z;
  last_active : Z;
  last_parked : bool;
  last_parked_check : Z }.

Record Tick := mk_tick {
  tk_exit : bool;
  tk_guest : gmap Z Z -> gmap Z Z;
  tk_keys : list Z;
  tk_now : Z;
  tk_late : list Z;
  tk_end : Z }.

(** What the daemon's requests need of the host. *)
Record Outside := mk_outside {
  o_host : Host;
  o_read : list Z -> result (list Z) Z;
  o_pair : bool;
  o_entropy : list RandRet;
  show_error : Error -> list Z }.

Definition set_cw_mach (c : Worker) (m : Machine) : Worker :=
  mk_cworker m (cw_hub c) (cw_channel c) (cw_connected c) (cw_g2h c) (cw_h2g c) (last_active c) (last_parked c)
    (last_parked_check c).
Definition set_cw_hub (c : Worker) (h : ConsoleHub) : Worker :=
  mk_cworker (cw_mach c) h (cw_channel c) (cw_connected c) (cw_g2h c) (cw_h2g c) (last_active c) (last_parked c)
    (last_parked_check c).
Definition set_cw_channel (c : Worker) (l : list Z) : Worker :=
  mk_cworker (cw_mach c) (cw_hub c) l (cw_connected c) (cw_g2h c) (cw_h2g c) (last_active c) (last_parked c)
    (last_parked_check c).
Definition set_cw_park (c : Worker) (parked : bool) (at_ : Z) : Worker :=
  mk_cworker (cw_mach c) (cw_hub c) (cw_channel c) (cw_connected c) (cw_g2h c) (cw_h2g c) (last_active c) parked at_.

(** The tile's memory and a change of it. *)
Definition cw_mem (l : L2Cpu) (c : Worker) : gmap Z Z := tile_mem (host (cw_mach c)) (coordinates l).
Definition set_cw_mem (l : L2Cpu) (mem : gmap Z Z) (c : Worker) : Worker :=
  set_cw_mach c (set_host (cw_mach c) (set_noc (<[coordinates l := mem]> (noc (host (cw_mach c)))) (host (cw_mach c)))).

(** [drain_input_channel] and [drain_rx_ring]. *)
Definition drop_input (l : L2Cpu) (q : Z) (c : Worker) : Worker :=
  let c := set_cw_channel c (drain_input_channel (cw_channel c)).1 in
  set_cw_mem l (drain_rx_ring (cw_mem l c) q).1 c.

Section with_kernel.
Context `{K : Tlb.Kernel} `{L : Libfdt} `{G : Guest}.

(** ** Reboot *)

Inductive RebootErr :=
| NotParked
| MetaErr (e : Error)
| SlotGone
| NoPayload
| NoSocket
| ReleaseErr (e : Error).

Definition reboot_err_text (show : Error -> list Z) (e : RebootErr) : list Z :=
  match e with
  | NotParked => chars "slot not parked when auto-reboot fired"
  | MetaErr e => chars "read_parked_release_meta: " ++ show e
  | SlotGone => chars "slot is gone"
  | NoPayload => chars "no cached boot_payload (warm-resumed slot has no cold-boot args)"
  | NoSocket => chars "socketpair for reply: " ++ show Io
  | ReleaseErr e => chars "dispatch_release: " ++ show e
  end.

Definition no_devices : Attach := mk_attach None None false [] false false.

Definition auto_release_for_reboot (o : Outside) (m : Machine) (i : Z) : option (Machine * result unit RebootErr) :=
  let! (m, r) := read_parked_release_meta m i in
  match r with
  | Err e => Some (m, Err (MetaErr e))
  | Ok None => Some (m, Err NotParked)
  | Ok (Some meta) =>
      match l2cpus (daemon m) !! i with
      | None => Some (m, Err SlotGone)
      | Some s =>
          match boot_payload s with
          | None => Some (m, Err NoPayload)
          | Some p =>
              if negb (o_pair o) then Some (m, Err NoSocket)
              else
                let! (m, r) := dispatch_release (o_host o) (o_pair o) (o_entropy o) m i (o_read o (payload_path p)) meta
                                 (dtb_bytes s) no_devices in
                Some (m, match r with Ok _ => Ok tt | Err e => Err (ReleaseErr e) end)
          end
      end
  end.

Definition reboot_line (i : Z) : list Z :=
  [13; 10] ++ chars "[bhx: l2cpu " ++ show_dec i ++ chars " rebooting (auto-release)" ++ [0xE2; 0x80; 0xA6] ++
  chars "]" ++ [13; 10].

Definition reboot_failed_line (text : list Z) (i : Z) : list Z :=
  chars "[bhx: auto-reboot failed: " ++ text ++ chars "; run `bhx boot -l " ++ show_dec i ++ chars "` to release]" ++
  [13; 10].

Definition poweroff_reason (i : Z) : list Z :=
  chars "l2cpu " ++ show_dec i ++ chars " parked (guest powered off); `bhx boot -l " ++ show_dec i ++
  chars "` to release".

(** A guest that asked for a reboot: the clients stay, the network is made
    anew, and the core is released.  [late] are the keystrokes of the pause. *)
Definition reboot_step (o : Outside) (l : L2Cpu) (i q : Z) (late : list Z) (c : Worker) : option Worker :=
  let c := set_cw_hub c (push_chip_output (cw_hub c) (reboot_line (l2_idx l))).1 in
  let c := drop_input l q c in
  let '(st, cached_extra_fwd) := drop_net_for_reboot (daemon (cw_mach c)) i in
  let c := set_cw_mach c (set_daemon (cw_mach c) st) in
  let c := drop_input l q (set_cw_channel c (cw_channel c ++ late)) in
  let c := match cached_extra_fwd with
           | Some extra =>
               let st := (reattach_net_for_reboot (o_host o) (o_pair o) (daemon (cw_mach c)) i extra).1 in
               set_cw_mach c (set_daemon (cw_mach c) st)
           | None => c
           end in
  let! (m, r) := auto_release_for_reboot o (cw_mach c) i in
  let c := set_cw_mach c m in
  match r with
  | Ok _ => Some c
  | Err e =>
      let line := reboot_failed_line (reboot_err_text (show_error o) e) (l2_idx l) in
      Some (set_cw_hub c (push_chip_output (cw_hub c) line).1)
  end.

(** A guest that powered off. *)
Definition poweroff_step (l : L2Cpu) (i q : Z) (c : Worker) : Worker :=
  let c := set_cw_mach c (set_daemon (cw_mach c) (drop_workers_on_shutdown_park (daemon (cw_mach c)) i)) in
  let hub := (disconnect_all_with_reason (cw_hub c) (poweroff_reason (l2_idx l))).1 in
  let c := set_cw_hub c (clear_scrollback hub) in
  drop_input l q c.

(** ** The park probe *)

(** [read_parked_state]: the second word is read only when the first was. *)
Definition probe_parked (l : L2Cpu) (purg_pa : Z) (os : Os) : option (bool * Os) :=
  match l2cpu_read32 l purg_pa os with
  | Panic => None
  | IoErr _ os => Some (false, os)
  | Ret lo os =>
      match l2cpu_read32 l (u64 (purg_pa + 4)) os with
      | Panic => None
      | IoErr _ os => Some (false, os)
      | Ret hi os => Some (Z.lor (Z.shiftl hi 32) lo =? STATUS_PARKED, os)
      end
  end.

(** [read_parked_reset_type]: a failed read counts as a shutdown. *)
Definition probe_reset_type (l : L2Cpu) (mem_start : Z) (os : Os) : option (Z * Os) :=
  match l2cpu_read32 l (u64 (mem_start + RESET_TYPE_OFFSET)) os with
  | Panic => None
  | IoErr _ os => Some (RESET_TYPE_SHUTDOWN, os)
  | Ret v os => Some (v, os)
  end.

Definition is_reboot (reset_type : Z) : bool :=
  (reset_type =? RESET_TYPE_COLD_REBOOT) || (reset_type =? RESET_TYPE_WARM_REBOOT).

Definition park_step (o : Outside) (l : L2Cpu) (i q : Z) (t : Tick) (c : Worker) : option Worker :=
  let! (reset_type, os) := probe_reset_type l (starting_address l) (host (cw_mach c)) in
  let c := set_cw_mach c (set_host (cw_mach c) os) in
  if is_reboot reset_type then reboot_step o l i q (tk_late t) c else Some (poweroff_step l i q c).

Definition park_check (o : Outside) (l : L2Cpu) (i q : Z) (t : Tick) (c : Worker) : option Worker :=
  if tk_now t - last_parked_check c <? PARKED_PROBE_INTERVAL then Some c
  else
    let! (parked, os) := probe_parked l (starting_address l + STATUS_OFFSET) (host (cw_mach c)) in
    let c := set_cw_mach c (set_host (cw_mach c) os) in
    let was := last_parked c in
    let c := set_cw_park c was (tk_now t) in
    let! c := if detect_park_transition was parked then park_step o l i q t c else Some c in
    Some (set_cw_park c parked (last_parked_check c)).

(** ** One iteration *)

Inductive UartExit := UartDone | UartRetry.

(** The loop goes on after a sleep, ends, or spins on a byte that the full
    ring does not take. *)
Inductive turn :=
| Sleeps (c : Worker) (us : Z)
| Ends (c : Worker) (x : UartExit)
| Spins (c : Worker) (b : Z).

(** The rings end 8208 bytes after the magic. *)
Definition UART_BYTES : Z := OFF_RX_TAIL + 4.
Definition has_room (w : TlbWindow) (n : Z) : bool := w_offset w + n <=? window_size w.

(** The rest of the input loop, then the sleep; [got] is whether bytes have
    moved in this iteration already. *)
Definition input_turn (l : L2Cpu) (q : Z) (t : Tick) (got : bool) (c : Worker) : turn :=
  let upd (mem : gmap Z Z) (h2g : Z) (channel : list Z) (active : Z) : Worker :=
    set_cw_mem l mem (mk_cworker (cw_mach c) (cw_hub c) channel (cw_connected c) (cw_g2h c) h2g active (last_parked c)
                        (last_parked_check c)) in
  match input_pass (cw_mem l c) q (cw_h2g c) (cw_connected c) false (cw_channel c) with
  | InputClosed mem h2g => Ends (upd mem h2g [] (last_active c)) UartDone
  | InputBlocked mem h2g b rest => Spins (upd mem h2g rest (last_active c)) b
  | InputDrained mem h2g got_input =>
      let active := if got || got_input then tk_end t else last_active c in
      Sleeps (upd mem h2g [] active) (tier_sleep (classify_tier (tk_end t - active) FAST_WINDOW IDLE_WINDOW))
  end.

Definition data_passes (l : L2Cpu) (q : Z) (t : Tick) (c : Worker) : turn :=
  let '(mem, hub, g2h, got_output) := output_pass (cw_mem l c) q (cw_hub c) (cw_g2h c) in
  let c := set_cw_mem l mem (mk_cworker (cw_mach c) hub (cw_channel c) (cw_connected c) g2h (cw_h2g c) (last_active c)
                               (last_parked c) (last_parked_check c)) in
  input_turn l q t got_output c.

Definition uart_iteration (o : Outside) (l : L2Cpu) (i : Z) (w : TlbWindow) (q : Z) (t : Tick) (c : Worker)
    : option turn :=
  if tk_exit t then Some (Ends c UartDone)
  else if negb (has_room w 8) then None
  else if negb (read_magic (cw_mem l c) q =? VIRTUAL_UART_MAGIC) then Some (Ends c UartRetry)
  else if negb (has_room w UART_BYTES) then None
  else
    let! c := park_check o l i q t c in
    Some (data_passes l q t c).

(** One try to push the byte the loop spins on. *)
Definition spin_turn (l : L2Cpu) (q b : Z) (t : Tick) (c : Worker) : turn :=
  let '(mem, pushed) := push_char (cw_mem l c) q b in
  let c := set_cw_mem l mem c in
  if pushed then input_turn l q t true c
  else if tk_exit t then Ends c UartDone
  else Spins c b.

(** The loop over a list of ticks, from the top or spinning on a byte.  Before
    each turn the guest and the clients have acted. *)
Fixpoint uart_loop (o : Outside) (l : L2Cpu) (i : Z) (w : TlbWindow) (q : Z) (ticks : list Tick) (pending : option Z)
    (c : Worker) : option (Worker * option UartExit) :=
  match ticks with
  | [] => Some (c, None)
  | t :: ticks =>
      let c := set_cw_mem l (tk_guest t (cw_mem l c)) (set_cw_channel c (cw_channel c ++ tk_keys t)) in
      let! r := match pending with
                | None => uart_iteration o l i w q t c
                | Some b => Some (spin_turn l q b t c)
                end in
      match r with
      | Sleeps c _ => uart_loop o l i w q ticks None c
      | Ends c x => Some (c, Some x)
      | Spins c b => uart_loop o l i w q ticks (Some b) c
      end
  end.

(** ** A pass *)

(** The eye catcher is read byte by byte up to the first mismatch. *)
Fixpoint eye_matches (os : Os) (va : Z) (want : list Z) : option bool :=
  match want with
  | [] => Some true
  | b :: want => let! x := peek8 os va in if x =? b then eye_matches os (va + 1) want else Some false
  end.

(** The descriptor; [None] is a descriptor that is not there yet.  The window
    is gone in every case. *)
Definition find_uart (l : L2Cpu) (os : Os) : io (option Z) :=
  io_bind (l2cpu_read32 l (starting_address l + OPENSBI_DEBUG_PTR) os) (fun debug_ptr os =>
  io_bind (get_persistent_2m_window l (u64 (starting_address l + debug_ptr)) os) (fun w os =>
  match eye_matches os (get_window w) EYE_CATCHER with
  | None => Panic
  | Some false => Ret None (window_drop w os)
  | Some true =>
      match peek os (get_window w + OFF_VIRTUART_BASE_IN_DESC) 8 with
      | None => Panic
      | Some bytes =>
          let base := le_value bytes in
          Ret (if base =? U64_MAX then None else Some base) (window_drop w os)
      end
  end)).

Inductive pass_result :=
| PassEnds (c : Worker) (x : UartExit)
| PassErr (c : Worker)
| PassRuns (c : Worker) (w : TlbWindow) (q : Z).

(** [now] is the clock when the loop starts.  A pass that the ticks do not end
    keeps its window. *)
Definition uart_pass (o : Outside) (l : L2Cpu) (i now : Z) (ticks : list Tick) (c : Worker) : option pass_result :=
  let with_os (os : Os) (c : Worker) : Worker := set_cw_mach c (set_host (cw_mach c) os) in
  match find_uart l (host (cw_mach c)) with
  | Panic => None
  | IoErr _ os => Some (PassErr (with_os os c))
  | Ret None os => Some (PassEnds (with_os os c) UartRetry)
  | Ret (Some q) os =>
      match get_persistent_2m_window l q os with
      | Panic => None
      | IoErr _ os => Some (PassErr (with_os os c))
      | Ret w os =>
          let c := with_os os c in
          let since := if PARKED_PROBE_INTERVAL <=? now then now - PARKED_PROBE_INTERVAL else now in
          let c := mk_cworker (cw_mach c) (cw_hub c) (cw_channel c) (cw_connected c) (cw_g2h c) (cw_h2g c) now false since in
          let! (c, x) := uart_loop o l i w q ticks None c in
          match x with
          | None => Some (PassRuns c w q)
          | Some x => Some (PassEnds (with_os (window_drop w (host (cw_mach c))) c) x)
          end
      end
  end.

(** Passes until one is done; each has its exit flag, its clock and its ticks. *)
Fixpoint chip_console_main (o : Outside) (l : L2Cpu) (i : Z) (passes : list (bool * Z * list Tick)) (c : Worker)
    : option (Worker * bool) :=
  match passes with
  | [] => Some (c, false)
  | (exit_flag, now, ticks) :: passes =>
      if exit_flag then Some (c, true)
      else
        let! r := uart_pass o l i now ticks c in
        match r with
        | PassEnds c UartDone => Some (c, true)
        | PassEnds c UartRetry | PassErr c => chip_console_main o l i passes c
        | PassRuns c _ _ => Some (c, false)
        end
  end.

End with_kernel.

(** ** What the probe sees *)

Lemma reset_type_addr i : 0 <= i < 4 ->
  let pa := L2CPU_STARTING_ADDRESS i + RESET_TYPE_OFFSET in word_addr pa /\ u64 pa = pa.
Proof.
  intros Hi pa. assert (H : word_addr pa).
  { assert (i = 0 \/ i = 1 \/ i = 2 \/ i = 3) as H by lia.
    destruct H as [->|[->|[->| ->]]]; (split; [split; [discriminate|reflexivity]|reflexivity]). }
  split; [exact H|]. apply wrap_small, H.
Qed.

Section probes.
Context `{KL : KernelLaws}.

(** A word read, and nothing else. *)
Lemma read_word l pa os :
  word_addr pa -> l2_fd l ∈ fds os ->
  match l2cpu_read32 l pa os with
  | Ret v os' => untouched os os' /\ v = rd32 (tile_mem os (coordinates l)) pa
  | IoErr _ os' => untouched os os' /\ ~ never_refused l
  | Panic => False
  end.
Proof.
  intros [F A] Hfd. pose proof (l2cpu_read32_spec l pa os F A Hfd) as H.
  destruct (l2cpu_read32 l pa os) as [v os'|e os'|] eqn:E; [| |done].
  - destruct H as (S1 & N1 & ->). by split.
  - destruct H as (S1 & N1). split; [by split|]. intros Hn. destruct (Hn os pa) as (v & os2 & Hv); [done..|congruence].
Qed.

Lemma untouched_fds os os' : untouched os os' -> fds os' = fds os.
Proof. intros [[] _]. done. Qed.

Lemma untouched_mem os os' t : untouched os os' -> tile_mem os' t = tile_mem os t.
Proof. intros [_ E]. unfold tile_mem. by rewrite E. Qed.

Lemma probe_parked_spec l i os :
  0 <= i < 4 -> l2_fd l ∈ fds os ->
  let pa := L2CPU_STARTING_ADDRESS i + STATUS_OFFSET in
  let now := parked_mem (tile_mem os (coordinates l)) pa in
  exists parked os', probe_parked l pa os = Some (parked, os') /\ untouched os os' /\
    (parked = now \/ parked = false /\ ~ never_refused l).
Proof.
  intros Hi Hfd pa now. destruct (status_word_addrs i Hi) as [W1 W2]. unfold probe_parked. fold pa in W1, W2 |- *.
  pose proof (read_word l pa os W1 Hfd) as H. destruct (l2cpu_read32 l pa os) as [lo os1|e os1|]; [| |done].
  2:{ exists false, os1. split; [done|]. destruct H. split; [done|by right]. }
  destruct H as [U1 ->]. replace (u64 (pa + 4)) with (pa + 4) by (symmetry; apply wrap_small, W2).
  pose proof (read_word l (pa + 4) os1 W2 ltac:(by rewrite (untouched_fds _ _ U1))) as H.
  destruct (l2cpu_read32 l (pa + 4) os1) as [hi os2|e os2|]; [| |done].
  - destruct H as [U2 ->]. rewrite (untouched_mem _ _ _ U1). do 2 eexists. split; [reflexivity|].
    split; [by eapply untouched_trans|]. by left.
  - destruct H as [U2 Hn]. exists false, os2. split; [done|]. split; [by eapply untouched_trans|by right].
Qed.

Lemma probe_reset_type_spec l i os :
  0 <= i < 4 -> l2_fd l ∈ fds os ->
  exists ty os', probe_reset_type l (L2CPU_STARTING_ADDRESS i) os = Some (ty, os') /\ untouched os os' /\
    (ty = rd32 (tile_mem os (coordinates l)) (L2CPU_STARTING_ADDRESS i + RESET_TYPE_OFFSET) \/
     ty = RESET_TYPE_SHUTDOWN /\ ~ never_refused l).
Proof.
  intros Hi Hfd. destruct (reset_type_addr i Hi) as [W E]. unfold probe_reset_type. rewrite E.
  pose proof (read_word l _ os W Hfd) as H. destruct (l2cpu_read32 l _ os) as [v os1|e os1|]; [| |done];
    destruct H; do 2 eexists; (split; [reflexivity|]); (split; [done|]); [by left|by right].
Qed.

End probes.

(** ** A guest that powers off *)

Lemma set_cw_mem_eq l mem c : cw_mem l (set_cw_mem l mem c) = mem.
Proof. unfold cw_mem, set_cw_mem, tile_mem. cbn. by rewrite lookup_insert_eq. Qed.

(** The probe is due and the core's memory says parked, which is news. *)
Definition park_due (l : L2Cpu) (i : Z) (t : Tick) (c : Worker) : Prop :=
  PARKED_PROBE_INTERVAL <= tk_now t - last_parked_check c /\ last_parked c = false /\
  parked_mem (cw_mem l c) (L2CPU_STARTING_ADDRESS i + STATUS_OFFSET) = true.

(** The thread belongs to core [i]. *)
Definition owns (l : L2Cpu) (i : Z) (c : Worker) : Prop :=
  0 <= i < 4 /\ starting_address l = L2CPU_STARTING_ADDRESS i /\ l2_fd l ∈ fds (host (cw_mach c)).

Definition reset_type_of (l : L2Cpu) (i : Z) (c : Worker) : Z :=
  rd32 (cw_mem l c) (L2CPU_STARTING_ADDRESS i + RESET_TYPE_OFFSET).

(** A probe that did not get through changes nothing. *)
Definition unseen (c c' : Worker) : Prop :=
  last_parked c' = false /\ cw_hub c' = cw_hub c /\ cw_channel c' = cw_channel c /\
  daemon (cw_mach c') = daemon (cw_mach c) /\ untouched (host (cw_mach c)) (host (cw_mach c')).

(** The guest asked for a cold or a warm reboot, not to be powered off. *)
Definition wants_reboot (l : L2Cpu) (i : Z) (c : Worker) : Prop := reset_type_of l i c = 1 \/ reset_type_of l i c = 2.

Lemma wants_reboot_spec l i c : is_reboot (reset_type_of l i c) = true <-> wants_reboot l i c.
Proof.
  unfold is_reboot, wants_reboot. rewrite orb_true_iff, !Z.eqb_eq. done.
Qed.

(** Exactly the devices that the slot recorded are unregistered. *)
Definition unregistered (i : Z) (st st' : DaemonState) : Prop :=
  forall s d, l2cpus st !! i = Some s -> dispatcher st = Some d ->
    exists d', dispatcher st' = Some d' /\
      forall k, registry d' !! k = if bool_decide (k ∈ park_slots i s) then None else registry d !! k.

Lemma drop_workers_unregistered st i : 0 <= i < 4 -> unregistered i st (drop_workers_on_shutdown_park st i).
Proof.
  intros Hi s d Es Ed. unfold drop_workers_on_shutdown_park. rewrite Es, join_dispatcher.
  cbn [dispatcher set_slot set_dispatcher]. rewrite Ed. eexists. split; [reflexivity|]. intros k.
  destruct (dev_slot i DEV_NET Hi (proj1 dev_ranges)) as (-> & _).
  destruct (dev_slot i DEV_CONSOLE Hi (proj1 (proj2 dev_ranges))) as (-> & _).
  destruct (dev_slot i DEV_RNG Hi (proj2 (proj2 dev_ranges))) as (-> & _).
  apply registry_unregister_all.
Qed.

(** What a power-off leaves in the daemon. *)
Definition scrubbed (l : L2Cpu) (i q : Z) (c c' : Worker) : Prop :=
  last_parked c' = true /\ clients (cw_hub c') = [] /\ scrollback (cw_hub c') = [] /\ cw_channel c' = [] /\
  rx (cw_mem l c') q = [] /\ (state_ok (daemon (cw_mach c)) -> state_ok (daemon (cw_mach c'))) /\
  unregistered i (daemon (cw_mach c)) (daemon (cw_mach c')) /\
  (forall s, l2cpus (daemon (cw_mach c)) !! i = Some s -> attached (daemon (cw_mach c')) i ([], false, false, false)).

Lemma poweroff_step_spec l i q c :
  0 <= i < 4 -> fits 32 (read_rx_head (cw_mem l c) q) ->
  let c' := poweroff_step l i q c in
  clients (cw_hub c') = [] /\ scrollback (cw_hub c') = [] /\ cw_channel c' = [] /\ rx (cw_mem l c') q = [] /\
  (state_ok (daemon (cw_mach c)) -> state_ok (daemon (cw_mach c'))) /\
  unregistered i (daemon (cw_mach c)) (daemon (cw_mach c')) /\
  (forall s, l2cpus (daemon (cw_mach c)) !! i = Some s -> attached (daemon (cw_mach c')) i ([], false, false, false)).
Proof.
  intros Hi Hf c'. split; [done|]. split; [done|]. split; [done|]. split.
  { unfold c', poweroff_step, drop_input. rewrite set_cw_mem_eq. by apply drain_rx_empty. }
  split; [by apply ok_drop_workers|]. split; [by apply drop_workers_unregistered|]. intros s Hs.
  eapply (detach_attached (daemon (cw_mach c))). rewrite detach_all_drop. by rewrite Hs.
Qed.

Section parks.
Context `{KL : KernelLaws} `{L : Libfdt} `{G : Guest}.

Lemma park_check_due o l i q t c :
  owns l i c -> park_due l i t c ->
  (exists c', park_check o l i q t c = Some c' /\ unseen c c' /\ ~ never_refused l) \/
  exists os, untouched (host (cw_mach c)) os /\
    let c1 := set_cw_park (set_cw_mach c (set_host (cw_mach c) os)) false (tk_now t) in
    park_check o l i q t c =
      match park_step o l i q t c1 with
      | Some c' => Some (set_cw_park c' true (last_parked_check c'))
      | None => None
      end.
Proof.
  intros (Hi & Hst & Hfd) (Hdue & Hlast & Hp). unfold park_check. rewrite (proj2 (Z.ltb_ge _ _)) by lia.
  rewrite Hst. destruct (probe_parked_spec l i _ Hi Hfd) as (parked & os & E & U & Hpk). rewrite E.
  fold (cw_mem l c) in Hpk. rewrite Hp in Hpk. destruct Hpk as [->|[-> Hn]].
  - right. exists os. split; [done|]. cbn. by rewrite Hlast.
  - left. cbn. rewrite Hlast. eexists. split; [reflexivity|]. by split.
Qed.

(** C16: A guest that powered off is cleared away.  When the probe finds the core
    newly parked and its memory asks for neither kind of reboot, the thread does
    not panic: the clients are gone, the scrollback is empty, keystrokes and the
    ring to the guest are drained, the slot has no device, and of the dispatcher's
    registrations exactly those that the slot recorded are gone.  So slots and
    registrations stay in step if they were; an entropy device that a cold boot
    registered without recording it stays registered.  A probe that the driver
    refused changes nothing. *)
Theorem poweroff_scrubs o l i q t c :
  owns l i c -> park_due l i t c -> ~ wants_reboot l i c -> fits 32 (read_rx_head (cw_mem l c) q) ->
  exists c', park_check o l i q t c = Some c' /\ (scrubbed l i q c c' \/ unseen c c' /\ ~ never_refused l).
Proof.
  intros Ho Hdue Hty Hf. rewrite <- wants_reboot_spec in Hty. apply not_true_is_false in Hty.
  destruct (park_check_due o l i q t c Ho Hdue) as [(c' & E & U)|(os & U & E)].
  { exists c'. split; [done|by right]. }
  cbv zeta in E. revert E. set (c1 := set_cw_park _ _ _). intros E. destruct Ho as (Hi & Hst & Hfd).
  assert (Hmem : cw_mem l c1 = cw_mem l c) by (unfold cw_mem; cbn; by rewrite (untouched_mem _ _ _ U)).
  unfold park_step in E. rewrite Hst in E.
  destruct (probe_reset_type_spec l i (host (cw_mach c1)) Hi) as (ty & os2 & Ety & U2 & Hty').
  { cbn. by rewrite (untouched_fds _ _ U). }
  rewrite Ety in E. assert (Hr : is_reboot ty = false).
  { destruct Hty' as [->|[-> _]]; [|done]. fold (cw_mem l c1). by rewrite Hmem. }
  rewrite Hr in E. eexists. split; [exact E|]. left.
  set (c2 := set_cw_mach _ _) in E |- *.
  assert (Hmem2 : cw_mem l c2 = cw_mem l c).
  { rewrite <- Hmem. unfold cw_mem, c2. cbn. by rewrite (untouched_mem _ _ _ U2). }
  destruct (poweroff_step_spec l i q c2) as (P1 & P2 & P3 & P4 & P5 & P6 & P7); [done|by rewrite Hmem2|].
  by split.
Qed.

End parks.

(** ** The metadata of a parked core *)

Definition word64 (mem : gmap Z Z) (pa : Z) : Z := Z.lor (Z.shiftl (rd32 mem (pa + 4)) 32) (rd32 mem pa).

(** The addresses that the firmware publishes. *)
Definition meta_of (l : L2Cpu) (i : Z) (mem : gmap Z Z) : ParkedReleaseMeta :=
  let at_ off := word64 mem (L2CPU_STARTING_ADDRESS i + off) in
  mk_meta l (at_ NEXT_ADDR_PA_OFFSET) (at_ NEXT_MODE_PA_OFFSET) (at_ NEXT_ARG1_PA_OFFSET) (at_ HSM_STATE_PA_OFFSET)
    (at_ MSIP_PA_OFFSET).

(** The words of the status block. *)
Definition purgatory_offsets : list Z :=
  [STATUS_OFFSET; NEXT_ADDR_PA_OFFSET; NEXT_MODE_PA_OFFSET; NEXT_ARG1_PA_OFFSET; HSM_STATE_PA_OFFSET; MSIP_PA_OFFSET;
   FORCE_PARK_REQ_PA_OFFSET; FORCE_PARK_REQ_VALUE_OFFSET; STATUS_OFFSET + 8].

Lemma meta_addrs i off : 0 <= i < 4 ->
  off ∈ purgatory_offsets ->
  word_addr (L2CPU_STARTING_ADDRESS i + off) /\ word_addr (L2CPU_STARTING_ADDRESS i + off + 4).
Proof.
  intros Hi Ho. assert (i = 0 \/ i = 1 \/ i = 2 \/ i = 3) as Hc by lia. unfold purgatory_offsets in Ho.
  repeat (apply elem_of_cons in Ho as [->|Ho];
    [destruct Hc as [->|[->|[->| ->]]]; (split; (split; [split; [discriminate|reflexivity]|reflexivity]))|]).
  by apply elem_of_nil in Ho.
Qed.

Section reboots.
Context `{KL : KernelLaws} `{L : Libfdt} `{G : Guest}.

Lemma read_u64_spec l pa os :
  word_addr pa -> word_addr (pa + 4) -> l2_fd l ∈ fds os ->
  exists r os', read_u64 l pa os = Ret r os' /\ untouched os os' /\
    (r = Some (word64 (tile_mem os (coordinates l)) pa) \/ r = None /\ ~ never_refused l).
Proof.
  intros W1 W2 Hfd. unfold read_u64. pose proof (read_word l pa os W1 Hfd) as H.
  destruct (l2cpu_read32 l pa os) as [lo os1|e os1|]; [| |done].
  2:{ do 2 eexists. split; [done|]. destruct H. split; [done|by right]. }
  destruct H as [U1 ->]. replace (u64 (pa + 4)) with (pa + 4) by (symmetry; apply wrap_small, W2).
  pose proof (read_word l (pa + 4) os1 W2 ltac:(by rewrite (untouched_fds _ _ U1))) as H.
  destruct (l2cpu_read32 l (pa + 4) os1) as [hi os2|e os2|]; [| |done]; destruct H as [U2 H];
    do 2 eexists; (split; [reflexivity|]); (split; [by eapply untouched_trans|]).
  - left. rewrite H, (untouched_mem _ _ _ U1). done.
  - by right.
Qed.

(** A word of the metadata, then the rest. *)
Lemma on_host_u64 {B} l i off m os0 (k : option Z -> Machine -> reply B) (P : reply B -> Prop) :
  0 <= i < 4 -> off ∈ purgatory_offsets ->
  l2_fd l ∈ fds os0 -> untouched os0 (host m) ->
  (forall r os', untouched os0 os' ->
     (r = Some (word64 (tile_mem os0 (coordinates l)) (L2CPU_STARTING_ADDRESS i + off)) \/ r = None /\ ~ never_refused l) ->
     P (k r (set_host m os'))) ->
  P (on_host m (read_u64 l (L2CPU_STARTING_ADDRESS i + off) (host m)) k).
Proof.
  intros Hi Ho Hfd U HP. destruct (meta_addrs i off Hi Ho) as [W1 W2].
  destruct (read_u64_spec l _ (host m) W1 W2 ltac:(by rewrite (untouched_fds _ _ U))) as (r & os & E & U2 & Hr).
  rewrite E. cbn [on_host]. apply HP; [by eapply untouched_trans|]. by rewrite (untouched_mem _ _ _ U) in Hr.
Qed.

Definition meta_post (m : Machine) (i : Z) (l : L2Cpu) (x : reply (option ParkedReleaseMeta)) : Prop :=
  exists os r, x = Some (set_host m os, Ok r) /\ untouched (host m) os /\
    (r = None \/ r = Some (meta_of l i (tile_mem (host m) (coordinates l)))).

Lemma read_meta_spec m i l :
  0 <= i < 4 -> slot_l2cpu m i = Some l -> l2_fd l ∈ fds (host m) -> meta_post m i l (read_parked_release_meta m i).
Proof.
  intros Hi Hl Hfd. unfold read_parked_release_meta. rewrite Hl.
  assert (Hnone : forall os, untouched (host m) os -> meta_post m i l (Some (set_host m os, Ok None))).
  { intros os U. exists os, None. auto. }
  eapply (on_host_u64 l i STATUS_OFFSET m (host m)); [done|by repeat constructor|done|by split|].
  intros r0 os0 U0 H0. destruct (negb _); [by apply Hnone|].
  eapply (on_host_u64 l i _ (set_host m os0) (host m)); [done|by repeat constructor|done|done|]. intros r1 os1 U1 H1.
  eapply (on_host_u64 l i _ (set_host (set_host m os0) os1) (host m)); [done|by repeat constructor|done|done|]. intros r2 os2 U2 H2.
  eapply (on_host_u64 l i _ (set_host (set_host (set_host m os0) os1) os2) (host m)); [done|by repeat constructor|done|done|].
  intros r3 os3 U3 H3.
  eapply (on_host_u64 l i _ (set_host (set_host (set_host (set_host m os0) os1) os2) os3) (host m)); [done|by repeat constructor|done|done|].
  intros r4 os4 U4 H4.
  eapply (on_host_u64 l i _ (set_host (set_host (set_host (set_host (set_host m os0) os1) os2) os3) os4) (host m));
    [done|by repeat constructor|done|done|]. intros r5 os5 U5 H5.
  cbn [set_host host daemon handles].
  assert (Hpos : forall o v a, (o = Some v \/ o = None /\ ~ never_refused l) -> positive o = Some a -> a = v).
  { intros o v a [->|[-> _]]; [|done]. unfold positive. destruct (0 <? v); congruence. }
  destruct (positive r1) as [a|] eqn:P1; [|by apply Hnone]. destruct (positive r2) as [b|] eqn:P2; [|by apply Hnone].
  destruct (positive r3) as [d|] eqn:P3; [|by apply Hnone]. destruct (positive r4) as [e|] eqn:P4; [|by apply Hnone].
  destruct (positive r5) as [f|] eqn:P5; [|by apply Hnone].
  exists os5, (Some (mk_meta l a b d e f)). split; [done|]. split; [done|]. right. unfold meta_of.
  by rewrite (Hpos _ _ _ H1 P1), (Hpos _ _ _ H2 P2), (Hpos _ _ _ H3 P3), (Hpos _ _ _ H4 P4), (Hpos _ _ _ H5 P5).
Qed.

(** What a reboot keeps of a slot: all but the network. *)
Definition rides (s s' : L2CpuSlot) : Prop :=
  set_net s' None = set_net s None /\ (net s = None -> net s' = None).

Definition riding (i : Z) (ls ls' : gmap Z L2CpuSlot) : Prop :=
  delete i ls' = delete i ls /\
  match ls !! i with
  | Some s => exists s', ls' !! i = Some s' /\ rides s s'
  | None => ls' !! i = None
  end.

Lemma riding_refl i ls : riding i ls ls.
Proof. split; [done|]. destruct (ls !! i) as [s|] eqn:E; [|done]. by exists s. Qed.

Lemma drop_net_riding st i : riding i (l2cpus st) (l2cpus (drop_net_for_reboot st i).1).
Proof.
  unfold drop_net_for_reboot. destruct (l2cpus st !! i) as [s|] eqn:E; [|apply riding_refl].
  destruct (boot_payload s); [|apply riding_refl]. destruct (net s) as [w|] eqn:En; [|apply riding_refl].
  cbn. split; [by rewrite delete_insert_eq|]. rewrite E. eexists. split; [apply lookup_insert_eq|]. by split.
Qed.

Lemma reattach_riding h pair st i extra ls s0 :
  riding i ls (l2cpus st) -> ls !! i = Some s0 -> net s0 <> None ->
  riding i ls (l2cpus (reattach_net_for_reboot h pair st i extra).1).
Proof.
  intros [Hd Hi] Hs0 Hn. rewrite Hs0 in Hi. destruct Hi as (s & Es & Hr & Hnone).
  assert (Hself : riding i ls (l2cpus st)) by (split; [done|]; rewrite Hs0; by exists s).
  unfold reattach_net_for_reboot. destruct pair; [|done]. unfold dispatch_add_net.
  destruct (validate_l2cpu i); [|done]. rewrite Es. repeat (case_match; [done|]). repeat case_match; try done.
  all: cbn; split; [by rewrite delete_insert_eq|]; rewrite Hs0; eexists; (split; [apply lookup_insert_eq|]).
  all: split; [exact Hr|done].
Qed.

End reboots.

Section auto_release.
Context `{KL : KernelLaws} `{L : Libfdt} `{G : Guest}.
Variable o : Outside.

(** The core runs the slot's payload again. *)
Definition restarted (i : Z) (l : L2Cpu) (mem : gmap Z Z) (ls : gmap Z L2CpuSlot) (mem' : gmap Z Z) : Prop :=
  exists s p, ls !! i = Some s /\ boot_payload s = Some p /\ is_ok (o_read o (payload_path p)) = true /\
    let meta := meta_of l i mem in
    mem' = stores (release_words i meta ++ [(hsm_state_pa meta, HSM_STATE_START_PENDING); (msip_pa meta, 1)])
      (reimaged mem i (image (Some (o_read o (payload_path p)))) (release_dtb i (dtb_bytes s))).

Definition payload_ok (i : Z) (ls : gmap Z L2CpuSlot) : Prop :=
  forall s p, ls !! i = Some s -> boot_payload s = Some p -> images_ok i (o_read o (payload_path p)) (dtb_bytes s).

Definition auto_post (i : Z) (l : L2Cpu) (m : Machine) (x : option (Machine * result unit RebootErr)) : Prop :=
  match x with
  | None => False
  | Some (m', r) =>
      (state_ok (daemon m) -> state_ok (daemon m')) /\ l2cpus (daemon m') = l2cpus (daemon m) /\
      (r = Ok tt -> restarted i l (tile_mem (host m) (coordinates l)) (l2cpus (daemon m)) (tile_mem (host m') (coordinates l)))
  end.

Lemma auto_release_spec m i l :
  0 <= i < 4 -> slot_l2cpu m i = Some l -> l2_fd l ∈ fds (host m) ->
  meta_ok (meta_of l i (tile_mem (host m) (coordinates l))) -> payload_ok i (l2cpus (daemon m)) ->
  auto_post i l m (auto_release_for_reboot o m i).
Proof.
  intros Hi Hl Hfd Hm Hpay. unfold auto_release_for_reboot.
  destruct (read_meta_spec m i l Hi Hl Hfd) as (os & r & E & U & Hr). rewrite E.
  destruct r as [meta|]; [|by split]. destruct Hr as [|[= Hr]]; [done|]. cbn [set_host daemon].
  destruct (l2cpus (daemon m) !! i) as [s|] eqn:Es; [|by split].
  destruct (boot_payload s) as [p|] eqn:Ep; [|by split]. destruct (negb (o_pair o)); [by split|].
  pose proof (release_spec (o_host o) (o_pair o) (o_entropy o) (set_host m os) i (o_read o (payload_path p)) meta
    (dtb_bytes s) no_devices Hi ltac:(by rewrite Hr) ltac:(rewrite Hr; cbn; by rewrite (untouched_fds _ _ U)) ltac:(done)
    (Hpay s p Es Ep)) as H.
  destruct (dispatch_release _ _ _ _ _ _ _ _ _) as [[m' [[]|e]]|]; [| |done].
  - destruct H as (_ & _ & [H3 H4] & _ & H5 & H6 & _). split; [done|]. split; [by apply H4|]. intros _.
    exists s, p. split; [done|]. split; [done|]. split; [done|]. cbn. rewrite Hr in H6. cbn in H6.
    by rewrite (untouched_mem _ _ _ U) in H6.
  - destruct H as (_ & _ & [H3 H4] & _). split; [done|]. by split; [apply H4|].
Qed.

End auto_release.

(** The tile's memory once the ring to the guest has been drained twice. *)
Definition drained (l : L2Cpu) (q : Z) (c : Worker) : gmap Z Z :=
  (drain_rx_ring (drain_rx_ring (cw_mem l c) q).1 q).1.

Lemma drop_input_daemon l q c : daemon (cw_mach (drop_input l q c)) = daemon (cw_mach c).
Proof. done. Qed.

Lemma drop_input_mem l q c : cw_mem l (drop_input l q c) = (drain_rx_ring (cw_mem l c) q).1.
Proof. unfold drop_input. by rewrite set_cw_mem_eq. Qed.

Section reboot.
Context `{KL : KernelLaws} `{L : Libfdt} `{G : Guest}.

(** The daemon once the network was dropped, and made anew. *)
Definition renetted (o : Outside) (i : Z) (st : DaemonState) : DaemonState :=
  match drop_net_for_reboot st i with
  | (st, Some extra) => (reattach_net_for_reboot (o_host o) (o_pair o) st i extra).1
  | (st, None) => st
  end.

Lemma renetted_spec o i st :
  (state_ok st -> state_ok (renetted o i st)) /\ riding i (l2cpus st) (l2cpus (renetted o i st)).
Proof.
  unfold renetted. pose proof (drop_net_riding st i) as Hr. pose proof (ok_drop_net st i) as Hok1.
  destruct (drop_net_for_reboot st i) as [st1 [extra|]] eqn:E; [|done]. cbn [fst] in *. split.
  - intros Hok. eapply server_step_ok; [exact (Hok1 Hok)|]. apply step_reattach_net.
  - revert E. unfold drop_net_for_reboot. destruct (l2cpus st !! i) as [s|] eqn:Es; [|done].
    destruct (boot_payload s); [|done]. destruct (net s) as [w|] eqn:En; [|done]. intros _.
    eapply reattach_riding; [exact Hr|exact Es|by rewrite En].
Qed.

(** The worker that [reboot_step] hands to the release. *)
Lemma reboot_step_eq o l i q late c :
  exists c3, cw_hub c3 = push_all (cw_hub c) [reboot_line (l2_idx l)] /\ cw_channel c3 = [] /\
    cw_mem l c3 = drained l q c /\ daemon (cw_mach c3) = renetted o i (daemon (cw_mach c)) /\
    handles (cw_mach c3) = handles (cw_mach c) /\ fds (host (cw_mach c3)) = fds (host (cw_mach c)) /\
    reboot_step o l i q late c =
      let! (m, r) := auto_release_for_reboot o (cw_mach c3) i in
      match r with
      | Ok _ => Some (set_cw_mach c3 m)
      | Err e => Some (set_cw_hub (set_cw_mach c3 m)
                         (push_chip_output (cw_hub c3) (reboot_failed_line (reboot_err_text (show_error o) e) (l2_idx l))).1)
      end.
Proof.
  unfold reboot_step. cbv zeta. rewrite drop_input_daemon. unfold renetted. cbn [set_cw_hub cw_mach].
  destruct (drop_net_for_reboot (daemon (cw_mach c)) i) as [st1 cached] eqn:E.
  set (c2 := drop_input l q _).
  assert (Hmem : cw_mem l c2 = drained l q c).
  { unfold c2. rewrite drop_input_mem. unfold drained. f_equal. f_equal. by rewrite <- drop_input_mem. }
  exists (match cached with
          | Some extra => set_cw_mach c2 (set_daemon (cw_mach c2)
              (reattach_net_for_reboot (o_host o) (o_pair o) (daemon (cw_mach c2)) i extra).1)
          | None => c2
          end).
  destruct cached as [extra|]; (split; [done|]); (split; [done|]); (split; [exact Hmem|]); (split; [done|]);
    (split; [done|]); (split; [done|]); done.
Qed.

(** What a reboot leaves: the hub, the keystrokes, the slots, and the core. *)
Definition rode (o : Outside) (l : L2Cpu) (i q : Z) (c c' : Worker) : Prop :=
  exists failed, cw_hub c' = push_all (cw_hub c) (reboot_line (l2_idx l) :: failed) /\ (length failed <= 1)%nat /\
    cw_channel c' = [] /\ (state_ok (daemon (cw_mach c)) -> state_ok (daemon (cw_mach c'))) /\
    riding i (l2cpus (daemon (cw_mach c))) (l2cpus (daemon (cw_mach c'))) /\
    (failed = [] -> restarted o i l (drained l q c) (l2cpus (daemon (cw_mach c'))) (cw_mem l c')).

Lemma reboot_step_spec o l i q late c :
  owns l i c -> slot_l2cpu (cw_mach c) i = Some l ->
  meta_ok (meta_of l i (drained l q c)) -> payload_ok o i (l2cpus (daemon (cw_mach c))) ->
  exists c', reboot_step o l i q late c = Some c' /\ rode o l i q c c'.
Proof.
  intros (Hi & Hst & Hfd) Hl Hm Hpay.
  destruct (reboot_step_eq o l i q late c) as (c3 & Hhub & Hch & Hmem & Hd & Hh & Hf & E).
  destruct (renetted_spec o i (daemon (cw_mach c))) as [Hok3 Hrid]. rewrite <- Hd in Hok3, Hrid.
  assert (Hl3 : slot_l2cpu (cw_mach c3) i = Some l).
  { revert Hl. unfold slot_l2cpu. rewrite Hh. destruct Hrid as [_ Hrid].
    destruct (l2cpus (daemon (cw_mach c)) !! i) as [s|]; [|done]. by destruct Hrid as (s' & -> & _). }
  assert (Hpay3 : payload_ok o i (l2cpus (daemon (cw_mach c3)))).
  { intros s' p Hs' Hp. destruct Hrid as [_ Hrid]. destruct (l2cpus (daemon (cw_mach c)) !! i) as [s|] eqn:Es.
    2:{ by rewrite Hrid in Hs'. }
    destruct Hrid as (s2 & Hs2 & Hr & _). rewrite Hs' in Hs2. injection Hs2 as <-.
    unfold set_net in Hr. injection Hr as _ _ _ Hdtb _ _ _ Hbp _. rewrite Hdtb. apply (Hpay s p Es). by rewrite <- Hbp. }
  pose proof (auto_release_spec o (cw_mach c3) i l Hi Hl3 ltac:(by rewrite Hf) ltac:(by rewrite <- Hmem in Hm) Hpay3) as H.
  rewrite E. unfold auto_post in H. fold (cw_mem l c3) in H. rewrite Hmem in H.
  destruct (auto_release_for_reboot o (cw_mach c3) i) as [[m r]|]; [|done]. destruct H as (H1 & H2 & H3).
  destruct r as [[]|e].
  - exists (set_cw_mach c3 m). split; [done|]. exists []. split; [done|]. split; [cbn; lia|]. split; [done|].
    split; [by intros Hok; apply H1, Hok3|]. cbn [cw_mach set_cw_mach]. rewrite H2. split; [done|]. intros _. by apply H3.
  - eexists. split; [done|]. exists [reboot_failed_line (reboot_err_text (show_error o) e) (l2_idx l)].
    split; [cbn [cw_hub set_cw_hub]; by rewrite Hhub|]. split; [cbn; lia|]. split; [done|].
    split; [by intros Hok; apply H1, Hok3|]. cbn [cw_mach set_cw_mach set_cw_hub]. rewrite H2. by split.
Qed.


End reboot.

(** ** A core that parks again at once *)

Section again.
Context `{KL : KernelLaws} `{L : Libfdt} `{G : Guest}.

(** The thread remembers a core as parked after it has restarted it, and looks
    again only at the next probe: when the core has parked again by then, a
    power-off or a second reboot is taken for the park it has dealt with, and
    nothing is done, at this probe or a later one. *)
Theorem second_park_missed o l i q t c :
  owns l i c -> last_parked c = true ->
  parked_mem (cw_mem l c) (L2CPU_STARTING_ADDRESS i + STATUS_OFFSET) = true -> never_refused l ->
  exists c', park_check o l i q t c = Some c' /\ last_parked c' = true /\ cw_hub c' = cw_hub c /\
    cw_channel c' = cw_channel c /\ daemon (cw_mach c') = daemon (cw_mach c) /\ cw_mem l c' = cw_mem l c.
Proof.
  intros (Hi & Hst & Hfd) Hlast Hp Hn. unfold park_check. destruct (_ <? _); [by exists c|].
  rewrite Hst. destruct (probe_parked_spec l i _ Hi Hfd) as (parked & os & E & U & Hpk). rewrite E.
  fold (cw_mem l c) in Hpk. rewrite Hp in Hpk. destruct Hpk as [->|[_ []]]; [|done]. cbn. rewrite Hlast. cbn.
  eexists. split; [reflexivity|]. repeat (split; [done|]). apply (untouched_mem _ _ _ U).
Qed.

End again.

(** ** Concrete parks *)

(** A parked core whose guest asked for [reset_type], with the addresses of the
    firmware published and its hart stopped. *)
Definition parked_demo_mem (reset_type : Z) : gmap Z Z :=
  let base := L2CPU_STARTING_ADDRESS 1 in
  stores (u64_words (base + STATUS_OFFSET) STATUS_PARKED ++ u64_words (base + NEXT_ADDR_PA_OFFSET) 0x1000 ++
          u64_words (base + NEXT_MODE_PA_OFFSET) 0x2000 ++ u64_words (base + NEXT_ARG1_PA_OFFSET) 0x3000 ++
          u64_words (base + HSM_STATE_PA_OFFSET) 0x5000 ++ u64_words (base + MSIP_PA_OFFSET) 0x6000 ++
          [(base + RESET_TYPE_OFFSET, reset_type); (0x5000, HSM_STATE_STOPPED)]) ∅.

Definition parked_worker (reset_type : Z) (last : bool) : Worker :=
  mk_cworker
    (mk_machine booted_demo (mk_os {[3]} ∅ [] [] {[ (8, 9) := parked_demo_mem reset_type ]} 0) {[ 1 := demo_l2cpu ]})
    (push_chip_output (hub_new 1 0) (chars "login:")).1 [97; 98] true 0 0 0 last 0.

Definition demo_tick : Tick := mk_tick false (fun mem => mem) [] (2 * 1000 * 1000) [99] (2 * 1000 * 1000).

Definition demo_outside : Outside := mk_outside demo_host (fun _ => Ok [1; 2; 3]) true [] (fun _ => chars "error").

Lemma demo_owns ty last : owns demo_l2cpu 1 (parked_worker ty last).
Proof. split; [lia|]. split; [done|]. apply (bool_decide_unpack _). reflexivity. Qed.

Lemma poweroff_scrubs_witness :
  match park_check (K := counting_kernel []) (L := Tagged.libfdt) demo_outside demo_l2cpu 1 0x7000 demo_tick
          (parked_worker 0 false) with
  | Some c' => scrubbed demo_l2cpu 1 0x7000 (parked_worker 0 false) c'
  | None => False
  end.
Proof.
  destruct (poweroff_scrubs (K := counting_kernel []) (L := Tagged.libfdt) demo_outside demo_l2cpu 1 0x7000 demo_tick
    (parked_worker 0 false)) as (c' & E & H).
  - apply demo_owns.
  - split; [discriminate|]. split; [reflexivity|]. vm_compute. reflexivity.
  - intros [H|H]; vm_compute in H; discriminate H.
  - split; [discriminate|reflexivity].
  - assert (Hp : match park_check (K := counting_kernel []) (L := Tagged.libfdt) demo_outside demo_l2cpu 1 0x7000 demo_tick
          (parked_worker 0 false) with Some c' => last_parked c' | None => true end = true) by (vm_compute; reflexivity).
    rewrite E in Hp |- *. destruct H as [H|[(H & _) _]]; [exact H|congruence].
Defined.

