(* ===== verification/WarmResume.v ===== *)
(** The start and the end of the daemon, [serve] of [src/daemon/server.rs]:
    which cores were left running, the probe of each and its adoption
    ([probe_initial_chip_state], [warm_resume_released], and
    [adopt_running_tensix_engine] of [src/daemon/mod.rs]), and the teardown once
    the shutdown flag is set.

    The card is the record of [ColdBoot].  [None] is a panic or a fault. *)

From S2P Require Import Prelude Layout Text Sigbus Tlb Virtqueue VirtioBlk ConsoleHub VirtioConsole VirtioRng VirtioNet DataPlane L2cpu Clock Telemetry Tensix Chip Boot Parse Protocol ChipConsole DeviceTree DtbProofs Server Release ColdBoot ConsoleWorker.

(** ** Which cores are released *)

Definition released_cores (val : Z) : list Z :=
  List.filter (fun idx => Z.land (Z.shiftr val (idx + 4)) 1 =? 1) [0; 1; 2; 3].

Definition probe_initial_chip_state (chip : SharedChip) : option (list Z) :=
  let! r := read_l2cpu_reset chip in
  Some (match r with Ok val => released_cores val | Err _ => [] end).

Definition set_wedged (c : Card) (i : Z) (b : bool) : Card :=
  mk_card (mach c) (c_inner c) (c_engine c) (interrupts c) (<[i := b]> (wedged c)) (chip_reset_this_session c).

Section with_kernel.
Context `{K : Tlb.Kernel} `{L : Libfdt} `{G : Guest} `{FW : Firmware} `{B : Board}.

(** ** The engine *)

Definition adopt_running_tensix_engine (e : Env) (c : Card) : option (Card * bool) :=
  match c_engine c with
  | Some _ => Some (c, true)
  | None =>
      match adopt_running (e_build_id e) (shared_chip (daemon (mach c))) (inner_fd <$> c_inner c) (host (mach c)) with
      | Up eng os =>
          let st := set_engine (set_dispatcher (daemon (mach c)) (Some (mk_disp ∅ ∅ (e_world e)))) true in
          Some (mk_card (mk_machine st os (handles (mach c))) (c_inner c) (Some eng) (interrupts c) (wedged c)
                  (chip_reset_this_session c), true)
      | Down os => Some (set_os c os, false)
      | EngPanic | EngFuel => None
      end
  end.

(** ** One core *)

(** [probe_warm_resume] through the driver: an access that fails is a core that
    cannot be resumed, and the windows are gone when it returns. *)
Definition probe_released (l : L2Cpu) (os : Os) : option (bool * Os) :=
  match l2cpu_read32 l (u64 (starting_address l + OPENSBI_DEBUG_PTR)) os with
  | Panic => None
  | IoErr _ os => Some (false, os)
  | Ret debug_ptr os =>
      match get_persistent_2m_window l (u64 (starting_address l + debug_ptr)) os with
      | Panic => None
      | IoErr _ os => Some (false, os)
      | Ret desc os =>
          let! desc_bytes := peek os (get_window desc) (Z.to_nat DESCRIPTOR_BYTES) in
          match decode_descriptor desc_bytes with
          | Err _ => Some (false, window_drop desc os)
          | Ok uart_base =>
              match get_persistent_2m_window l uart_base os with
              | Panic => None
              | IoErr _ os => Some (false, window_drop desc os)
              | Ret q os =>
                  let! magic_bytes := peek os (get_window q + OFF_MAGIC) 8 in
                  Some (is_ok (decode_magic magic_bytes), window_drop desc (window_drop q os))
              end
          end
      end
  end.

(** [make_slot_from_l2cpu] as it is: a slot that knows nothing of the boot. *)
Definition warm_slot (e : Env) (i : Z) : L2CpuSlot :=
  mk_slot (hub_new i (e_gauge e)) (mk_worker (chars "chip_console l2cpu " ++ show_dec i)) [] None [DEV_BLK] None None
    None None [].

Definition warm_resume_one (e : Env) (c : Card) (i : Z) : option Card :=
  match l2cpu_new i (inner_fd <$> c_inner c) (host (mach c)) with
  | Panic => None
  | IoErr _ os => Some (set_wedged (set_os c os) i true)
  | Ret l os =>
      let! (viable, os) := probe_released l os in
      if negb viable then Some (set_wedged (set_os c (l2cpu_drop l os)) i true)
      else
        match get_persistent_2m_window l PENDING_ADDR os with
        | Panic => None
        | IoErr _ os => Some (set_wedged (set_os c (l2cpu_drop l os)) i true)
        | Ret w os => Some (install_slot (set_os c os) i l w (warm_slot e i))
        end
  end.

Fixpoint warm_resume_each (e : Env) (c : Card) (released : list Z) : option Card :=
  match released with
  | [] => Some c
  | i :: released => let! c := warm_resume_one e c i in warm_resume_each e c released
  end.

Definition warm_resume_released (e : Env) (c : Card) (released : list Z) : option Card :=
  match released with
  | [] => Some c
  | _ =>
      let! (c, _) := adopt_running_tensix_engine e c in
      warm_resume_each e c released
  end.

(** ** The whole start *)

(** [DaemonState::new] around a chip that could be opened. *)
Definition daemon_new (card : Z) (chip : SharedChip) : DaemonState :=
  mk_state card ∅ chip false None ∅ false [].

Definition card_new (card : Z) (inner : Inner) (chip : SharedChip) (os : Os) : Card :=
  mk_card (mk_machine (daemon_new card chip) os ∅) (Some inner) None ∅ ∅ false.

(** The part of [serve] before the accept loop: the metrics port and the
    sandbox may refuse ([bind_ok], [sandbox_ok]), after the cores were adopted. *)
Definition serve_start (e : Env) (no_metrics bind_ok sandbox sandbox_ok : bool) (c : Card) : option (Card * result unit Error) :=
  let! released := probe_initial_chip_state (shared_chip (daemon (mach c))) in
  let! c := warm_resume_released e c released in
  if negb no_metrics && negb bind_ok then Some (c, Err Io)
  else if sandbox && negb sandbox_ok then Some (c, Err Io)
  else Some (c, Ok tt).

(** ** The teardown *)

Definition shutdown_reason : list Z := chars "daemon shutting down".

Definition teardown_slot (c : Card) (i : Z) : Card * list Sock :=
  let st := daemon (mach c) in
  match l2cpus st !! i with
  | None => (c, [])
  | Some s =>
      let closed := (disconnect_all_with_reason (console_hub s) shutdown_reason).2 in
      let st := slot_shutdown (unregister_engine_slots (take_slot st i) i) s in
      (drop_handle (set_st c st) i, closed)
  end.

Fixpoint teardown_slots (c : Card) (idxs : list Z) : Card * list Sock :=
  match idxs with
  | [] => (c, [])
  | i :: idxs =>
      let '(c, closed) := teardown_slot c i in
      let '(c, more) := teardown_slots c idxs in
      (c, closed ++ more)
  end.

(** The card, the sockets of the clients, closed, and whether the name of the
    daemon's own socket is still there: it is removed last, and a refusal
    ([remove_ok] is false) is ignored. *)
Definition serve_stop (remove_ok : bool) (c : Card) : option (Card * list Sock * bool) :=
  let '(c, closed) := teardown_slots c [0; 1; 2; 3] in
  let! st := maybe_idle_pll (daemon (mach c)) in
  Some (set_st c st, closed, negb remove_ok).

End with_kernel.

(** ** Which cores *)

Lemma bit_set val k : 0 <= k -> (Z.land (Z.shiftr val k) 1 =? 1) = Z.testbit val k.
Proof.
  intros Hk. replace 1 with (Z.ones 1) at 1 by done. rewrite Z.land_ones, Z.pow_1_r by lia.
  rewrite <- (Z.add_0_l k) at 2. rewrite <- Z.shiftr_spec by lia. rewrite Z.bit0_odd, Zmod_odd.
  by destruct (Z.odd _).
Qed.

Lemma released_cores_spec val i : i ∈ released_cores val <-> 0 <= i < 4 /\ Z.testbit val (i + 4) = true.
Proof.
  unfold released_cores. rewrite list_elem_of_In, filter_In. cbn [In]. split.
  - intros [Hi Hb]. rewrite bit_set in Hb by lia. split; [lia|done].
  - intros [Hi Hb]. rewrite bit_set by lia. split; [lia|done].
Qed.

Lemma released_cores_nodup val : NoDup (released_cores val).
Proof.
  apply NoDup_ListNoDup, List.NoDup_filter, NoDup_ListNoDup. apply (bool_decide_unpack _). reflexivity.
Qed.

(** ** The probe through the driver *)

(** What the probe would see of the tile's memory. *)
Definition io_of (start : Z) (mem : gmap Z Z) : L2CpuIo :=
  mk_io start (fun a => Some (rd32 mem a)) (fun a => Some (fun n => rd8 mem (a + Z.of_nat n))).

Definition descriptor_at (start : Z) (mem : gmap Z Z) : Z := u64 (start + rd32 mem (start + OPENSBI_DEBUG_PTR)).

(** The descriptor and the magic do not cross the end of a window. *)
Definition descriptor_fits (start : Z) (mem : gmap Z Z) : Prop :=
  descriptor_at start mem mod TWO_MEG + DESCRIPTOR_BYTES <= TWO_MEG /\
  forall base, decode_descriptor (read_bytes mem (descriptor_at start mem) 24) = Ok base -> base mod TWO_MEG + 8 <= TWO_MEG.

Lemma window_bytes_read mem a n : forall off,
  window_bytes (fun k => rd8 mem (a + Z.of_nat k)) off n = read_bytes mem (a + Z.of_nat off) n.
Proof.
  unfold window_bytes. induction n as [|n IH]; intros off; cbn; [done|]. f_equal. rewrite IH. f_equal. lia.
Qed.

Lemma decode_base mem a base : mem_ok mem -> decode_descriptor (read_bytes mem a 24) = Ok base -> fits 64 base.
Proof.
  intros Hm. unfold decode_descriptor. destruct (check_eye _ _ _); [done|]. cbv zeta.
  change (Z.to_nat OFF_VIRTUART_BASE_IN_DESC) with 16%nat. set (x := take 8 (drop 16 (read_bytes mem a 24))).
  destruct (le_value x =? U64_MAX); [done|]. intros [= <-].
  assert (Hx : Forall is_byte x) by (by apply Forall_take, Forall_drop, read_bytes_are_bytes).
  apply le_value_bound in Hx. replace (length x) with 8%nat in Hx by done. exact Hx.
Qed.

Section probe.
Context `{KL : KernelLaws}.

(** A window reads the tile from its address on, to its own end. *)
Lemma open_reads l addr os :
  fits 64 addr -> l2_fd l ∈ fds os ->
  match get_persistent_2m_window l addr os with
  | Ret w os' =>
      (forall off n, 0 <= off -> addr mod TWO_MEG + off + Z.of_nat n <= TWO_MEG ->
         peek os' (get_window w + off) n = Some (read_bytes (tile_mem os (coordinates l)) (addr + off) n)) /\
      noc os' = noc os /\ fds os' = fds os /\ (forall os2, untouched os' os2 -> untouched os (window_drop w os2))
  | IoErr _ os' => untouched os os'
  | Panic => False
  end.
Proof.
  intros Ha Hfd. unfold get_persistent_2m_window.
  pose proof (new_2m_spec (l2_fd l) (coordinates l).1 (coordinates l).2 addr os Ha Hfd) as H.
  destruct (new_2m _ _ _ _ _) as [w os'|e os'|]; [|done..].
  destruct H as (Hwo & _ & Hnoc & Ht & Hd & _ & Hf & _). rewrite <- surjective_pairing in Ht.
  pose proof (Z.mod_pos_bound addr TWO_MEG ltac:(done)).
  split; [|split; [done|]; split; [done|]; intros os2 [U1 U2]; split; [by apply Hd|by rewrite window_drop_noc, U2]].
  intros off n Ho Hn. unfold get_window. rewrite Hwo, (peek_contiguous n os' _ (coordinates l) (addr + off)).
  - unfold tile_mem. by rewrite Hnoc.
  - intros i Hi. rewrite <- !Z.add_assoc, Ht by lia. do 2 f_equal. lia.
Qed.

(** A window opened and read at once. *)
Lemma open_peek l addr n os :
  fits 64 addr -> l2_fd l ∈ fds os -> addr mod TWO_MEG + Z.of_nat n <= TWO_MEG ->
  match get_persistent_2m_window l addr os with
  | Ret w os' =>
      peek os' (get_window w) n = Some (read_bytes (tile_mem os (coordinates l)) addr n) /\ noc os' = noc os /\
      fds os' = fds os /\ (forall os2, untouched os' os2 -> untouched os (window_drop w os2))
  | IoErr _ os' => untouched os os'
  | Panic => False
  end.
Proof.
  intros Ha Hfd Hn. pose proof (open_reads l addr os Ha Hfd) as H.
  destruct (get_persistent_2m_window l addr os) as [w os'|e os'|]; [|done..].
  destruct H as [Hp H]. split; [|done]. specialize (Hp 0 n). rewrite !Z.add_0_r in Hp. by apply Hp.
Qed.

(** The answer is the one of [probe_warm_resume] on the tile's memory, or no
    because the driver refused an access; the windows are gone. *)
Lemma probe_released_spec l i os :
  0 <= i < 4 -> starting_address l = L2CPU_STARTING_ADDRESS i -> l2_fd l ∈ fds os ->
  let mem := tile_mem os (coordinates l) in
  mem_ok mem -> descriptor_fits (starting_address l) mem ->
  exists b os', probe_released l os = Some (b, os') /\ untouched os os' /\
    (b = true -> probe_warm_resume (io_of (starting_address l) mem) = true).
Proof.
  intros Hi Hst Hfd mem Hm [Hd Hb]. unfold probe_released, probe_warm_resume. cbn [io_start io_read32 io_window io_of].
  assert (Hw : word_addr (starting_address l + OPENSBI_DEBUG_PTR)).
  { rewrite Hst. assert (i = 0 \/ i = 1 \/ i = 2 \/ i = 3) as H by lia.
    destruct H as [->|[->|[->| ->]]]; (split; [split; [discriminate|reflexivity]|reflexivity]). }
  replace (u64 (starting_address l + OPENSBI_DEBUG_PTR)) with (starting_address l + OPENSBI_DEBUG_PTR)
    by (symmetry; apply wrap_small, Hw).
  pose proof (read_word l _ os Hw Hfd) as H. destruct (l2cpu_read32 l _ os) as [p os1|e os1|]; [| |done].
  2:{ exists false, os1. destruct H. by split. }
  destruct H as [U1 ->]. fold mem. fold (descriptor_at (starting_address l) mem).
  set (da := descriptor_at (starting_address l) mem) in *.
  assert (Hm1 : tile_mem os1 (coordinates l) = mem) by apply (untouched_mem _ _ _ U1).
  assert (Hfd1 : l2_fd l ∈ fds os1) by (by rewrite (untouched_fds _ _ U1)).
  pose proof (open_peek l da 24 os1 (wrap_fits 64 _ ltac:(lia)) Hfd1 ltac:(exact Hd)) as H.
  destruct (get_persistent_2m_window l da os1) as [w os2|e os2|]; [| |done].
  2:{ exists false, os2. split; [done|]. split; [by eapply untouched_trans|done]. }
  destruct H as (Hp & Hn2 & Hf2 & Hd2). change (Z.to_nat DESCRIPTOR_BYTES) with 24%nat. rewrite Hp, Hm1, window_bytes_read, Z.add_0_r.
  assert (Hm2 : tile_mem os2 (coordinates l) = mem) by (rewrite <- Hm1; unfold tile_mem; by rewrite Hn2).
  destruct (decode_descriptor (read_bytes mem da 24)) as [base|] eqn:Ed.
  2:{ exists false, (window_drop w os2). split; [done|]. split; [|done]. eapply untouched_trans; [exact U1|]. by apply Hd2. }
  pose proof (open_peek l base 8 os2 (decode_base _ _ _ Hm Ed) ltac:(by rewrite Hf2) ltac:(by apply Hb)) as H.
  destruct (get_persistent_2m_window l base os2) as [w' os3|e os3|]; [| |done].
  2:{ exists false, (window_drop w os3). split; [done|]. split; [|done]. eapply untouched_trans; [exact U1|]. by apply Hd2. }
  destruct H as (Hp3 & _ & _ & Hd3). change OFF_MAGIC with 0. rewrite Z.add_0_r, Hp3, Hm2.
  change (Z.to_nat 0) with 0%nat. rewrite window_bytes_read, Z.add_0_r.
  do 2 eexists. split; [reflexivity|]. split; [|done].
  eapply untouched_trans; [exact U1|]. apply Hd2, Hd3. by split.
Qed.

End probe.

(** ** Adopting the engine and the cores *)

(** Opening a window unmaps nothing. *)
Lemma mapped_mono os os' :
  ranges os' = ranges os -> (forall a, resolve (segs os') a = None -> resolve (segs os) a = None) ->
  ranges_mapped os -> ranges_mapped os'.
Proof. unfold ranges_mapped. intros -> Hn H. eapply Forall_impl; [exact H|]. cbv beta. auto. Qed.

Lemma l2cpu_drop_noc l os : noc (l2cpu_drop l os) = noc os.
Proof. unfold l2cpu_drop. cbn [close munmap set_fds set_segs noc]. by rewrite !window_drop_noc. Qed.

Section adopting.
Context `{KL : KernelLaws} `{L : Libfdt} `{G : Guest} `{FW : Firmware} `{B : Board}.

Lemma new_2m_mapped fd x y addr os w os' :
  fits 64 addr -> fd ∈ fds os -> ranges_mapped os -> new_2m fd x y addr os = Ret w os' ->
  ranges_mapped os' /\ fds os' = fds os /\ noc os' = noc os.
Proof.
  intros Ha Hfd Hr E. pose proof (new_2m_spec fd x y addr os Ha Hfd) as H. rewrite E in H.
  destruct H as (_ & _ & Hn & _ & _ & _ & Hf & Hra & _ & Hres). split; [|done]. by eapply mapped_mono.
Qed.

Lemma open_tile_mapped chip x y os t os' :
  ranges_mapped os -> io_bind (dup_fd chip os) (fun dup os => new_with_dup_fd dup x y os) = Ret t os' -> ranges_mapped os'.
Proof.
  intros Hr. pose proof (dup_fd_spec chip os) as Hd.
  destruct (dup_fd chip os) as [fd os1|e os1|]; cbn [io_bind]; [|done..]. destruct Hd as [-> Hfd].
  unfold new_with_dup_fd, wrap_owned_fd. set (os1 := set_fds _ os).
  assert (Hr1 : ranges_mapped os1) by (by apply (mapped_mono os)).
  assert (Hfd1 : fd ∈ fds os1) by (cbn; set_solver).
  destruct (new_2m fd x y TLB_BASE_L1 os1) as [w os2|e os2|] eqn:E1; [|done..].
  apply new_2m_mapped in E1 as (Hr2 & Hf2 & _); [|split; done|done|done].
  destruct (new_2m fd x y TLB_BASE_DEBUG_REGS os2) as [w' os3|e os3|] eqn:E2; [|done..].
  apply new_2m_mapped in E2 as (Hr3 & _); [|split; done|by rewrite Hf2|done]. by intros [= _ <-].
Qed.

Lemma adopt_running_mapped build_id chip chip_fd os :
  choose_tile chip <> None -> ranges_mapped os ->
  match adopt_running build_id chip chip_fd os with
  | Up _ os' | Down os' => ranges_mapped os' /\ noc os' = noc os
  | EngPanic | EngFuel => False
  end.
Proof.
  intros Hc Hr. unfold adopt_running. destruct (choose_tile chip) as [[[p [tx ty]]|]|]; [|done..].
  pose proof (open_tile_spec chip_fd (pt_x p) (pt_y p) os) as H.
  pose proof (open_tile_mapped chip_fd (pt_x p) (pt_y p) os) as Hm.
  destruct (io_bind _ _) as [t os1|e os1|]; [| |done]; [|destruct H as [H1 H2]; split; [by rewrite H1|done]].
  specialize (Hm t os1 Hr eq_refl). destruct H as (Ht & Hxy & Hn & Hdrop).
  assert (Hd : ranges_mapped (tile_drop t os1) /\ noc (tile_drop t os1) = noc os).
  { split; [by rewrite (Hdrop os1)|]. cbn. by rewrite !window_drop_noc. }
  assert (Hu : ranges_mapped os1 /\ noc os1 = noc os) by done.
  rewrite !read_l1_reads by done. do 3 (destruct (negb _); [exact Hd|]). exact Hu.
Qed.

(** A core is adopted, or wedged with everything given back. *)
Definition resumed (e : Env) (i : Z) (c c' : Card) : Prop :=
  ranges_mapped (host (mach c')) /\ noc (host (mach c')) = noc (host (mach c)) /\
  dispatcher (daemon (mach c')) = dispatcher (daemon (mach c)) /\
  (probe_warm_resume (io_of (L2CPU_STARTING_ADDRESS i) (tile_mem (host (mach c)) (L2CPU_TILES i))) = true /\
     l2cpus (daemon (mach c')) = <[i := warm_slot e i]> (l2cpus (daemon (mach c))) /\
     wedged c' = <[i := false]> (wedged c) \/
   same_resources (host (mach c')) (host (mach c)) /\ daemon (mach c') = daemon (mach c) /\
     handles (mach c') = handles (mach c) /\ wedged c' = <[i := true]> (wedged c)).

(** The core's memory can be probed. *)
Definition probeable (os : Os) (i : Z) : Prop :=
  mem_ok (tile_mem os (L2CPU_TILES i)) /\ descriptor_fits (L2CPU_STARTING_ADDRESS i) (tile_mem os (L2CPU_TILES i)).

Lemma warm_resume_one_spec e c i :
  0 <= i < 4 -> ranges_mapped (host (mach c)) -> probeable (host (mach c)) i ->
  exists c', warm_resume_one e c i = Some c' /\ resumed e i c c'.
Proof.
  intros Hi Hr [Hm Hfit]. unfold warm_resume_one. set (mem := tile_mem (host (mach c)) (L2CPU_TILES i)) in *.
  pose proof (l2cpu_new_spec i (inner_fd <$> c_inner c) (host (mach c)) Hi Hr) as H.
  destruct (l2cpu_new i _ _) as [l os|e0 os|]; [| |done].
  2:{ destruct H as [H1 H2]. eexists. split; [done|]. split; [cbn; by rewrite H1|]. split; [done|]. split; [done|]. by right. }
  destruct H as ((Hr1 & _ & Hdrop) & _ & Hst & Hco & Hfd & Hn).
  assert (Hmem : tile_mem os (coordinates l) = mem) by (unfold mem, tile_mem; by rewrite Hn, Hco).
  destruct (probe_released_spec l i os Hi Hst Hfd) as (b & os1 & E & [U1 U2] & Hb); [by rewrite Hmem..|by rewrite Hst, Hmem|].
  rewrite E, Hmem, Hst in *.
  assert (Hwedged : forall os2, same_resources os2 os -> noc os2 = noc os ->
    exists c', Some (set_wedged (set_os c (l2cpu_drop l os2)) i true) = Some c' /\ resumed e i c c').
  { intros os2 S2 N2. pose proof (Hdrop os2 S2) as Hd. eexists. split; [done|]. unfold resumed. cbn [mach set_wedged set_os set_mach host set_host].
    split; [by rewrite Hd|]. split; [by rewrite l2cpu_drop_noc, N2|]. split; [done|]. by right. }
  destruct b; cbn [negb]; [|by apply Hwedged].
  assert (Hfd1 : l2_fd l ∈ fds os1) by (by rewrite (same_fds _ _ U1)).
  assert (Hr2 : ranges_mapped os1) by (by rewrite U1).
  unfold get_persistent_2m_window.
  pose proof (new_2m_spec (l2_fd l) (coordinates l).1 (coordinates l).2 PENDING_ADDR os1 ltac:(split; done) Hfd1) as H.
  destruct (new_2m _ _ _ _ _) as [w os2|e0 os2|] eqn:Ew; [| |done].
  2:{ destruct H as [H1 H2]. apply Hwedged; [by rewrite H1|congruence]. }
  apply new_2m_mapped in Ew as (Hr3 & _ & Hn3); [|split; done|done|done].
  eexists. split; [done|]. split; [done|]. split; [cbn; congruence|]. split; [done|]. left. by split; [apply Hb|].
Qed.

Lemma warm_resume_each_spec e released : forall c,
  NoDup released -> (forall i, i ∈ released -> 0 <= i < 4 /\ probeable (host (mach c)) i) -> ranges_mapped (host (mach c)) ->
  exists c', warm_resume_each e c released = Some c' /\
    noc (host (mach c')) = noc (host (mach c)) /\ dispatcher (daemon (mach c')) = dispatcher (daemon (mach c)) /\
    (forall i, i ∉ released -> l2cpus (daemon (mach c')) !! i = l2cpus (daemon (mach c)) !! i /\ wedged c' !! i = wedged c !! i) /\
    (forall i, i ∈ released ->
       probe_warm_resume (io_of (L2CPU_STARTING_ADDRESS i) (tile_mem (host (mach c)) (L2CPU_TILES i))) = true /\
         l2cpus (daemon (mach c')) !! i = Some (warm_slot e i) /\ wedged c' !! i = Some false \/
       l2cpus (daemon (mach c')) !! i = l2cpus (daemon (mach c)) !! i /\ wedged c' !! i = Some true).
Proof.
  induction released as [|j js IH]; intros c Hnd Hp Hr.
  { exists c. split; [done|]. split; [done|]. split; [done|]. split; [done|]. intros i Hi. by apply elem_of_nil in Hi. }
  apply NoDup_cons in Hnd as [Hj Hnd]. destruct (Hp j (list_elem_of_here _ _)) as [Hjr Hjp].
  destruct (warm_resume_one_spec e c j Hjr Hr Hjp) as (c1 & E1 & Hr1 & Hn1 & Hd1 & Hcase).
  assert (Hmem : forall t, tile_mem (host (mach c1)) t = tile_mem (host (mach c)) t) by (intros t; unfold tile_mem; by rewrite Hn1).
  destruct (IH c1 Hnd) as (c2 & E2 & Hn2 & Hd2 & Hout & Hin).
  { intros i Hi. destruct (Hp i (list_elem_of_further _ _ _ Hi)) as [? Hpi]. split; [done|]. unfold probeable in *.
    by rewrite !Hmem. }
  { exact Hr1. }
  exists c2. cbn [warm_resume_each]. rewrite E1. split; [done|]. split; [by rewrite Hn2|]. split; [by rewrite Hd2|].
  assert (Hother : forall i, i <> j -> l2cpus (daemon (mach c1)) !! i = l2cpus (daemon (mach c)) !! i /\ wedged c1 !! i = wedged c !! i).
  { intros i Hne. destruct Hcase as [(_ & -> & ->)|(_ & -> & _ & ->)]; by rewrite ?lookup_insert_ne by done. }
  split.
  - intros i [Hne Hi]%not_elem_of_cons. destruct (Hout i Hi) as [-> ->]. by apply Hother.
  - intros i [->|Hi]%elem_of_cons.
    + destruct (Hout j Hj) as [-> ->]. destruct Hcase as [(Hpr & -> & ->)|(_ & -> & _ & ->)]; rewrite !lookup_insert_eq; [by left|by right].
    + assert (Hne : i <> j) by (by intros ->). destruct (Hother i Hne) as [Hl _]. destruct (Hin i Hi) as [H|[H1 H2]].
      * left. by rewrite Hmem in H.
      * right. by rewrite H1, Hl.
Qed.

End adopting.

Section start.
Context `{KL : KernelLaws} `{L : Libfdt} `{G : Guest} `{FW : Firmware} `{B : Board}.

(** Slots without devices are in step with an empty dispatcher. *)
Lemma bare_state_ok st :
  (forall i s, l2cpus st !! i = Some s -> 0 <= i < 4 /\ disks s = [] /\ net s = None /\ virtio_console s = None /\
     virtio_rng s = None) ->
  (forall d, dispatcher st = Some d -> registry d = ∅ /\ uart_registry d = ∅) -> state_ok st.
Proof.
  intros Hs Hd. split.
  - intros i s Hi. destruct (Hs i s Hi) as (Hr & E & _). split; [done|]. unfold disks_ok. rewrite E.
    split; [by apply Forall_nil|]. split; apply NoDup_nil_2.
  - intros d E. destruct (Hd d E) as [-> ->]. split.
    + intros k. rewrite lookup_empty. unfold expected_at. destruct (l2cpus st !! _) as [s|] eqn:Es; [|done].
      destruct (Hs _ s Es) as (_ & E1 & E2 & E3 & E4). unfold expected. rewrite E1, E2, E3, E4. cbn.
      repeat case_match; done.
    + intros u Hu. rewrite lookup_empty in Hu. by destruct Hu.
Qed.

(** A daemon that has nothing yet. *)
Definition fresh (c : Card) : Prop :=
  l2cpus (daemon (mach c)) = ∅ /\ wedged c = ∅ /\
  forall d, dispatcher (daemon (mach c)) = Some d -> registry d = ∅ /\ uart_registry d = ∅.

Lemma adopt_engine_spec e c :
  fresh c -> choose_tile (shared_chip (daemon (mach c))) <> None -> ranges_mapped (host (mach c)) ->
  exists c' b, adopt_running_tensix_engine e c = Some (c', b) /\ fresh c' /\ ranges_mapped (host (mach c')) /\
    noc (host (mach c')) = noc (host (mach c)).
Proof.
  intros (Hl & Hw & Hd) Hc Hr. unfold adopt_running_tensix_engine. destruct (c_engine c); [by exists c, true|].
  pose proof (adopt_running_mapped (e_build_id e) _ (inner_fd <$> c_inner c) (host (mach c)) Hc Hr) as H.
  destruct (adopt_running _ _ _ _) as [eng os1|os1| |]; [| |done..]; destruct H as [H1 H2]; do 2 eexists;
    (split; [reflexivity|]); (split; [|done]); (split; [done|]); (split; [done|]); [by intros d [= <-]|done].
Qed.

(** What the start makes of the cores of [rel]. *)
Definition taken_over (e : Env) (os : Os) (rel : list Z) (c : Card) : Prop :=
  forall i, match l2cpus (daemon (mach c)) !! i with
            | Some s => s = warm_slot e i /\ i ∈ rel /\ wedged c !! i = Some false /\
                probe_warm_resume (io_of (L2CPU_STARTING_ADDRESS i) (tile_mem os (L2CPU_TILES i))) = true
            | None => wedged c !! i = if bool_decide (i ∈ rel) then Some true else None
            end.

Lemma warm_resume_spec e c rel :
  fresh c -> (rel <> [] -> choose_tile (shared_chip (daemon (mach c))) <> None) -> ranges_mapped (host (mach c)) -> NoDup rel ->
  (forall i, i ∈ rel -> 0 <= i < 4 /\ probeable (host (mach c)) i) ->
  exists c', warm_resume_released e c rel = Some c' /\ noc (host (mach c')) = noc (host (mach c)) /\
    (forall d, dispatcher (daemon (mach c')) = Some d -> registry d = ∅ /\ uart_registry d = ∅) /\
    taken_over e (host (mach c)) rel c'.
Proof.
  intros Hf Hc Hr Hnd Hp. unfold warm_resume_released. destruct rel as [|j js].
  { destruct Hf as (Hl & Hw & Hd). exists c. split; [done|]. split; [done|]. split; [done|]. intros i.
    by rewrite Hl, Hw, !lookup_empty. }
  destruct (adopt_engine_spec e c Hf (Hc ltac:(done)) Hr) as (c1 & b & Ea & (Hl1 & Hw1 & Hd1) & Hr1 & Hn1). rewrite Ea.
  assert (Hmem : forall t, tile_mem (host (mach c1)) t = tile_mem (host (mach c)) t) by (intros t; unfold tile_mem; by rewrite Hn1).
  destruct (warm_resume_each_spec e (j :: js) c1 Hnd) as (c2 & E2 & Hn2 & Hd2 & Hout & Hin); [|done|].
  { intros i Hi. unfold probeable. rewrite !Hmem. by apply Hp. }
  exists c2. split; [done|]. split; [by rewrite Hn2|]. split; [by rewrite Hd2|]. intros i. case_bool_decide as Hi.
  - destruct (Hin i Hi) as [(Hpr & -> & Hw)|[Hl Hw]]; [by rewrite Hmem in Hpr|]. by rewrite Hl, Hl1, lookup_empty.
  - destruct (Hout i Hi) as [-> ->]. by rewrite Hl1, Hw1, !lookup_empty.
Qed.

(** The register can always be read, or the read fails. *)
Lemma read_reset_total chip : exists r, read_l2cpu_reset chip = Some r.
Proof.
  unfold read_l2cpu_reset, arc_read32. destruct (reset_window_offset L2CPU_RESET_ADDR) as [off|] eqn:E; [|discriminate E].
  injection E as <-. cbn [mbind option_bind]. destruct (inner chip) as [[arc csm]|]; eexists; reflexivity.
Qed.

(** The cores to look at: none when the register cannot be read. *)
Definition candidates (chip : SharedChip) : list Z :=
  match read_l2cpu_reset chip with Some (Ok val) => released_cores val | _ => [] end.

Lemma candidates_range chip i : i ∈ candidates chip -> 0 <= i < 4.
Proof.
  unfold candidates. destruct (read_l2cpu_reset chip) as [[val|]|]; try by intros ?%elem_of_nil.
  by intros [? _]%released_cores_spec.
Qed.

(** C19: A restarted daemon takes over only what answers.  From a fresh state,
    whichever calls the driver refuses and whether or not the reset register can
    be read, the start does not panic and writes nothing into a tile; it leaves
    the slots and the dispatcher in step; a core has a slot only when it is out of
    reset and its memory shows the descriptor and the magic, the slot knows no
    device, payload or tree, and a core out of reset that was not taken over is
    marked wedged, and no other.  This needs, if any core is out of reset, that
    reading the chip's telemetry does not panic (a table at an unaligned
    address), and of each such core that its memory is bytes and that neither
    descriptor nor magic crosses the end of a window, where the probe panics. *)
Theorem serve_start_adopts e no_metrics bind_ok sandbox sandbox_ok card inner chip os :
  (candidates chip <> [] -> read_telemetry chip <> None) -> ranges_mapped os ->
  (forall i, i ∈ candidates chip -> probeable os i) ->
  exists c r, serve_start e no_metrics bind_ok sandbox sandbox_ok (card_new card inner chip os) = Some (c, r) /\
    noc (host (mach c)) = noc os /\ state_ok (daemon (mach c)) /\ taken_over e os (candidates chip) c.
Proof.
  intros Hc Hr Hp. unfold serve_start. cbn [card_new mach daemon daemon_new shared_chip].
  assert (probe_initial_chip_state chip = Some (candidates chip)) as ->.
  { unfold probe_initial_chip_state, candidates. destruct (read_reset_total chip) as [r ->]. by destruct r. }
  cbn [mbind option_bind].
  destruct (warm_resume_spec e (card_new card inner chip os) (candidates chip)) as (c & E & Hn & Hd & Ht).
  { done. }
  { intros Hne. rewrite choose_tile_panics. by apply Hc. }
  { done. }
  { unfold candidates. destruct (read_l2cpu_reset chip) as [[val|]|]; [apply released_cores_nodup|apply NoDup_nil_2..]. }
  { intros i Hi. split; [by eapply candidates_range|by apply Hp]. }
  rewrite E. assert (Hok : state_ok (daemon (mach c))).
  { apply bare_state_ok; [|done]. intros i s Hs. specialize (Ht i). rewrite Hs in Ht. destruct Ht as (-> & Hin & _).
    split; [by eapply candidates_range|done]. }
  cbn [mbind option_bind]. destruct (negb no_metrics && negb bind_ok); [|destruct (sandbox && negb sandbox_ok)];
    do 2 eexists; (split; [reflexivity|]); done.
Qed.

End start.

(** ** The end *)

Lemma drop_handle_daemon c i : daemon (mach (drop_handle c i)) = daemon (mach c).
Proof. done. Qed.

(** Whatever is registered belongs to a core that has a slot: so it is when slots
    and registrations are in step, and after a cold boot, which does not record
    its entropy device. *)
Definition accounted_in (l : gmap Z L2CpuSlot) (od : option (Dispatcher Device)) : Prop :=
  (forall i, is_Some (l !! i) -> 0 <= i < 4) /\
  forall d, od = Some d ->
    (forall k, is_Some (registry d !! k) -> is_Some (l !! (k / DEVS_PER_L2CPU))) /\
    (forall u, is_Some (uart_registry d !! u) -> is_Some (l !! u)).

Definition accounted (st : DaemonState) : Prop := accounted_in (l2cpus st) (dispatcher st).

Lemma state_ok_accounted st : state_ok st -> accounted st.
Proof.
  intros [Hs Hd]. split; [by intros i [s Es]; apply (Hs i s Es)|]. intros d Ed. destruct (Hd d Ed) as [Hreg Hu].
  split; [|exact Hu]. intros k [en Ek]. specialize (Hreg k). rewrite Ek in Hreg. unfold expected_at in Hreg.
  destruct (l2cpus st !! (k / DEVS_PER_L2CPU)); [by eexists|discriminate Hreg].
Qed.

(** A cold boot that succeeds leaves the daemon accounted for, with an entropy
    device or without. *)
Lemma cold_boot_accounted i r l dtb csm m m' : boot_result i r l dtb csm m m' (Ok ()) -> accounted (daemon m').
Proof.
  intros (s & El & _ & _ & _ & _ & Hok & _). apply state_ok_accounted in Hok as [Hr Hd].
  cbn [l2cpus dispatcher set_slot] in Hr, Hd. rewrite El, insert_insert_eq in Hr, Hd.
  assert (forall k, is_Some (<[i := set_virtio_rng s (rng_worker (r_attach r) i)]> (l2cpus (daemon m)) !! k) <->
    is_Some (l2cpus (daemon m') !! k)) as Hsame.
  { intros k. rewrite El. destruct (decide (k = i)) as [->|]; [by rewrite !lookup_insert_eq|by rewrite !lookup_insert_ne]. }
  split; [by intros k Hk; apply Hr, Hsame|]. intros d Ed. destruct (Hd d Ed) as [H1 H2].
  split; intros k Hk; apply Hsame; auto.
Qed.

Lemma accounted_stop l od i :
  0 <= i < 4 -> accounted_in l od -> accounted_in (delete i l) ((fun d => without d i) <$> od).
Proof.
  intros Hi [Hr Hd]. split; [intros k [s [_ Es]%lookup_delete_Some]; eauto|]. intros d' Ed'.
  destruct od as [d|]; [|done]. injection Ed' as <-. destruct (Hd d eq_refl) as [H1 H2]. split.
  - intros k. rewrite registry_without by done. destruct (Z.eqb_spec (k / DEVS_PER_L2CPU) i) as [->|Hk]; [by intros []|].
    rewrite lookup_delete_ne by done. apply H1.
  - intros u. rewrite uart_without. destruct (decide (u = i)) as [->|]; [rewrite lookup_delete_eq; by intros []|].
    rewrite !lookup_delete_ne by done. apply H2.
Qed.

(** What a client's socket has seen in the end: as much of the goodbye as it
    took, and the shutdown. *)
Definition farewell (reason : list Z) (old new : Sock) : Prop :=
  is_shutdown new = true /\ exists n, delivered new = delivered old ++ take n (goodbye reason).

Definition client_socks (h : ConsoleHub) : list Sock := List.map sock (clients h).

Lemma disconnect_farewell h reason : Forall2 (farewell reason) (client_socks h) (disconnect_all_with_reason h reason).2.
Proof.
  unfold client_socks, disconnect_all_with_reason. cbn [snd]. induction (clients h) as [|cl cls IH]; cbn [List.map]; constructor; [|done].
  split; [done|]. destruct (send_all_dontwait (sock cl) (goodbye reason)) as [s' ok] eqn:E.
  apply send_all_spec in E as (_ & _ & n & Hn). exists n. exact Hn.
Qed.

(** The clients of the slots of [idxs], core by core. *)
Definition socks_of (st : DaemonState) (idxs : list Z) : list Sock :=
  concat (List.map (fun i => match l2cpus st !! i with Some s => client_socks (console_hub s) | None => [] end) idxs).

Lemma teardown_slot_spec c i :
  0 <= i < 4 -> accounted (daemon (mach c)) ->
  let c' := (teardown_slot c i).1 in
  accounted (daemon (mach c')) /\ l2cpus (daemon (mach c')) = delete i (l2cpus (daemon (mach c))) /\
  shared_chip (daemon (mach c')) = shared_chip (daemon (mach c)) /\
  handles (mach c') = match l2cpus (daemon (mach c)) !! i with Some _ => delete i (handles (mach c)) | None => handles (mach c) end /\
  joined (daemon (mach c')) = joined (daemon (mach c)) ++
    match l2cpus (daemon (mach c)) !! i with Some s => slot_workers s ++ [console_worker s] | None => [] end /\
  Forall2 (farewell shutdown_reason) (socks_of (daemon (mach c)) [i]) (teardown_slot c i).2.
Proof.
  intros Hi Hok. unfold teardown_slot, socks_of. cbn [List.map concat]. rewrite app_nil_r.
  destruct (l2cpus (daemon (mach c)) !! i) as [s|] eqn:Es; cbn [fst snd].
  2:{ split; [done|]. split; [by rewrite delete_id|]. split; [done|]. split; [done|]. split; [by rewrite app_nil_r|constructor]. }
  rewrite drop_handle_daemon. cbn [mach set_st set_mach daemon set_daemon]. rewrite slot_shutdown_eq.
  split; [by apply accounted_stop|]. split; [done|]. split; [done|]. split; [done|]. split; [done|].
  apply disconnect_farewell.
Qed.

Lemma teardown_slots_spec idxs : forall c,
  Forall (fun i => 0 <= i < 4) idxs -> NoDup idxs -> accounted (daemon (mach c)) ->
  let c' := (teardown_slots c idxs).1 in
  accounted (daemon (mach c')) /\ (forall i, i ∈ idxs -> l2cpus (daemon (mach c')) !! i = None) /\
  (forall i s, l2cpus (daemon (mach c')) !! i = Some s -> l2cpus (daemon (mach c)) !! i = Some s) /\
  shared_chip (daemon (mach c')) = shared_chip (daemon (mach c)) /\
  (forall i s, i ∈ idxs -> l2cpus (daemon (mach c)) !! i = Some s ->
     forall w, w ∈ slot_workers s ++ [console_worker s] -> w ∈ joined (daemon (mach c'))) /\
  joined (daemon (mach c)) `prefix_of` joined (daemon (mach c')) /\
  Forall2 (farewell shutdown_reason) (socks_of (daemon (mach c)) idxs) (teardown_slots c idxs).2.
Proof.
  induction idxs as [|i idxs IH]; intros c Hf Hnd Hok.
  { cbn. split; [done|]. split; [by intros i Hi%elem_of_nil|]. split; [done|]. split; [done|].
    split; [by intros i s Hi%elem_of_nil|]. split; [done|constructor]. }
  apply Forall_cons in Hf as [Hi Hf]. apply NoDup_cons in Hnd as [Hni Hnd]. cbn [teardown_slots].
  destruct (teardown_slot_spec c i Hi Hok) as (Hok1 & Hl1 & Hc1 & _ & Hj1 & Hs1).
  destruct (teardown_slot c i) as [c1 closed]. cbn [fst snd] in *.
  destruct (IH c1 Hf Hnd Hok1) as (Hok2 & Hl2 & Hk2 & Hc2 & Hw2 & Hj2 & Hs2).
  destruct (teardown_slots c1 idxs) as [c2 more]. cbn [fst snd] in *.
  assert (Hgone : l2cpus (daemon (mach c2)) !! i = None).
  { destruct (l2cpus (daemon (mach c2)) !! i) as [s|] eqn:E; [|done]. apply Hk2 in E. by rewrite Hl1, lookup_delete_eq in E. }
  split; [done|]. split; [by intros k [->|Hk]%elem_of_cons; [|apply Hl2]|]. split.
  { intros k s Hk. apply Hk2 in Hk. rewrite Hl1 in Hk. by apply lookup_delete_Some in Hk as [_ ?]. }
  split; [by rewrite Hc2|]. split; [|split].
  - intros k s Hk Es w Hw. destruct (decide (k = i)) as [->|Hne].
    + rewrite Es in Hj1. eapply elem_of_prefix; [|exact Hj2]. rewrite Hj1. apply elem_of_app. by right.
    + apply elem_of_cons in Hk as [->|Hk]; [done|]. eapply Hw2; [exact Hk| |exact Hw]. by rewrite Hl1, lookup_delete_ne.
  - etransitivity; [|exact Hj2]. rewrite Hj1. by apply prefix_app_r.
  - unfold socks_of in Hs1 |- *. cbn [List.map concat] in Hs1 |- *. rewrite app_nil_r in Hs1. apply Forall2_app; [exact Hs1|].
    revert Hs2. unfold socks_of. erewrite (List.map_ext_in _ _ idxs); [done|]. intros k Hk.
    rewrite Hl1, lookup_delete_ne; [done|]. intros ->. by apply Hni, list_elem_of_In.
Qed.

(** C20: The daemon's teardown.  Where whatever is registered belongs to a core
    that has a slot (in particular after any cold boot that succeeded), it does not
    panic: no slot is left, every worker of every slot was joined, no device is
    registered with the dispatcher, the socket of every client of every console has
    got the goodbye, as far as it took it, and is shut down, one for one, and the
    clock steps back exactly when every core is in reset.  The name of the daemon's
    socket is gone unless its removal was refused, as it is under the sandbox. *)
Theorem serve_stop_drains remove_ok c :
  accounted (daemon (mach c)) ->
  exists c' closed, serve_stop remove_ok c = Some (c', closed, negb remove_ok) /\ l2cpus (daemon (mach c')) = ∅ /\
    (forall i s w, l2cpus (daemon (mach c)) !! i = Some s -> w ∈ slot_workers s ++ [console_worker s] ->
       w ∈ joined (daemon (mach c'))) /\
    (forall d, dispatcher (daemon (mach c')) = Some d -> registry d = ∅ /\ uart_registry d = ∅) /\
    Forall2 (farewell shutdown_reason) (socks_of (daemon (mach c)) [0; 1; 2; 3]) closed /\
    (forall i, is_Some (l2cpus (daemon (mach c)) !! i) -> i ∈ [0; 1; 2; 3]) /\
    stepped_back true (shared_chip (daemon (mach c))) (shared_chip (daemon (mach c'))).
Proof.
  intros Hok. unfold serve_stop.
  assert (Hf : Forall (fun i => 0 <= i < 4) [0; 1; 2; 3]) by (repeat (apply Forall_cons; split; [lia|]); by apply Forall_nil).
  assert (Hnd : NoDup [0; 1; 2; 3]) by (apply (bool_decide_unpack _); reflexivity).
  destruct (teardown_slots_spec [0; 1; 2; 3] c Hf Hnd Hok) as (Hok1 & Hl & Hk & Hc & Hw & _ & Hs).
  destruct (teardown_slots c [0; 1; 2; 3]) as [c1 closed]. cbn [fst snd] in *.
  assert (Hrange : forall i, is_Some (l2cpus (daemon (mach c)) !! i) -> i ∈ [0; 1; 2; 3]).
  { intros i E. apply (proj1 Hok) in E. assert (i = 0 \/ i = 1 \/ i = 2 \/ i = 3) as Hx by lia. rewrite !elem_of_cons. tauto. }
  assert (Hempty : l2cpus (daemon (mach c1)) = ∅).
  { apply map_empty. intros i. destruct (l2cpus (daemon (mach c1)) !! i) as [s|] eqn:E; [|done]. rewrite <- E. apply Hl, Hrange.
    eexists. by apply Hk. }
  destruct (maybe_idle_spec (daemon (mach c1))) as (chip & E & Hb). rewrite E. rewrite Hempty, bool_decide_true in Hb by done.
  eexists _, closed. split; [reflexivity|]. cbn [mach set_st set_mach daemon set_daemon set_chip l2cpus joined dispatcher shared_chip].
  split; [done|]. split; [by intros i s w Es Hin; eapply Hw; eauto|]. split; [|split; [done|split; [done|by rewrite Hc in Hb]]].
  intros d Ed. destruct (proj2 Hok1 d Ed) as [Hreg Hu]. rewrite Hempty in *. split; apply map_empty; intros k.
  - destruct (registry d !! k) eqn:E2; [|done]. destruct (Hreg k); [by rewrite E2|done].
  - destruct (uart_registry d !! k) eqn:E2; [|done]. destruct (Hu k); [by rewrite E2|done].
Qed.

(** ** A concrete restart *)

(** Core 1 shows its descriptor and its rings, core 2 nothing; both are out of
    reset. *)
Definition resumable_mem : gmap Z Z :=
  let start := L2CPU_STARTING_ADDRESS 1 in
  write_bytes
    (write_bytes (wr32 ∅ (start + OPENSBI_DEBUG_PTR) 0x1000) (start + 0x1000)
       (EYE_CATCHER ++ replicate 8 0 ++ le_bytes 8 (start + 0x2000)))
    (start + 0x2000) (le_bytes 8 VIRTUAL_UART_MAGIC).

Definition restart_os : Os := mk_os {[3]} ∅ [] [] {[ L2CPU_TILES 1 := resumable_mem ]} 0.

Definition restart_chip : SharedChip :=
  mk_chip (Some (mk_arc {[ ARC_TELEMETRY_PTR_ADDR := 0x10000100; L2CPU_RESET_ADDR := 0x60 ]} [], demo_table)).

Definition restart_inner : Inner :=
  mk_inner (mk_window 0 (mk_handle 3 0 0 0) 0) (mk_window 0 (mk_handle 3 0 0 0) 0) 3.

Lemma resumable_mem_ok : mem_ok resumable_mem.
Proof.
  unfold resumable_mem, wr32. repeat apply mem_ok_write_bytes; try apply le_bytes_are_bytes; [apply map_Forall_empty|].
  apply (bool_decide_unpack _). vm_compute. exact I.
Qed.

Lemma restart_probeable i : i ∈ released_cores 0x60 -> probeable restart_os i.
Proof.
  change (released_cores 0x60) with [1; 2]. intros [->|[->|[]%elem_of_nil]%elem_of_cons]%elem_of_cons.
  - split; [exact resumable_mem_ok|]. split; [vm_compute; discriminate|]. intros base H. vm_compute in H.
    injection H as <-. vm_compute. discriminate.
  - split; [apply map_Forall_empty|]. split; [vm_compute; discriminate|]. intros base H. vm_compute in H. discriminate H.
Qed.

Lemma serve_start_adopts_witness :
  match serve_start (K := counting_kernel []) demo_env true true false true (card_new 0 restart_inner restart_chip restart_os) with
  | Some (c, _) => l2cpus (daemon (mach c)) !! 1 = Some (warm_slot demo_env 1) /\ wedged c !! 2 = Some true /\
      wedged c !! 3 = None
  | None => False
  end.
Proof.
  destruct (serve_start_adopts (K := counting_kernel []) demo_env true true false true 0 restart_inner restart_chip restart_os)
    as (c & r & E & _ & _ & Ht).
  - intros _. vm_compute. discriminate.
  - apply Forall_nil_2.
  - exact restart_probeable.
  - assert (Hp : match serve_start (K := counting_kernel []) demo_env true true false true
        (card_new 0 restart_inner restart_chip restart_os) with
      | Some (c, _) => negb (bool_decide (l2cpus (daemon (mach c)) !! 1 = None)) && bool_decide (l2cpus (daemon (mach c)) !! 2 = None)
          && bool_decide (l2cpus (daemon (mach c)) !! 3 = None)
      | None => false
      end = true) by (vm_compute; reflexivity).
    rewrite E in Hp |- *. rewrite !andb_true_iff, negb_true_iff, bool_decide_eq_false, !bool_decide_eq_true in Hp.
    destruct Hp as [[H1 H2] H3]. pose proof (Ht 1) as T1. pose proof (Ht 2) as T2. pose proof (Ht 3) as T3.
    rewrite H2 in T2. rewrite H3 in T3. destruct (l2cpus (daemon (mach c)) !! 1) as [s|]; [|destruct (H1 eq_refl)]. destruct T1 as (-> & _).
    split; [done|]. split; [exact T2|exact T3].
Defined.

Lemma serve_stop_drains_witness : exists c' closed,
  serve_stop false (demo_card 7) = Some (c', closed, true) /\ l2cpus (daemon (mach c')) = ∅ /\
  mk_worker (chars "console l2cpu 1") ∈ joined (daemon (mach c')).
Proof.
  destruct (serve_stop_drains false (demo_card 7) (state_ok_accounted _ booted_demo_ok)) as (c' & closed & E & Hl & Hj & _).
  exists c', closed. split; [exact E|]. split; [exact Hl|]. apply (Hj 1 demo_slot); [apply lookup_singleton_eq|].
  apply list_elem_of_here.
Defined.
