(* ===== verification/Session.v ===== *)
(** The conversation with one client, [handle_client] of
    [src/daemon/server.rs]: the status report, attaching a console (live, or
    the last words of a stopped core) and the thread that reads the client's
    keystrokes, then the dispatch of every request with its accounting.

    The state is the card of [ColdBoot].  A console client's socket is the [Sock]
    of the hub; the daemon's two descriptors of it share it.  What the other
    threads do to the hub during an attach is part of [Talk], what they do
    between two reads part of the list that [reader_loop] walks.  [None] is a
    panic. *)

From S2P Require Import Prelude Layout Text Sigbus Tlb Virtqueue VirtioBlk ConsoleHub VirtioConsole VirtioRng VirtioNet DataPlane L2cpu Clock Telemetry Tensix Chip Boot Parse Protocol ChipConsole DeviceTree DtbProofs Server Release ColdBoot ConsoleWorker WarmResume.

(** ** Status *)

Definition PEERS_OFFSET : Z := STATUS_OFFSET + 8.

Section status.
Context `{K : Tlb.Kernel}.

Definition nonzero (o : option Z) : option Z := match o with Some v => if 0 <? v then Some v else None | None => None end.

(** The metadata of a parked core, with all five addresses or none. *)
Definition parked_release (l : L2Cpu) (mem_base : Z) (fp_pa fp_value msip : option Z) (os : Os)
    : io (option PurgatoryReleaseMeta) :=
  io_bind (read_u64 l (mem_base + NEXT_ADDR_PA_OFFSET) os) (fun a os =>
  io_bind (read_u64 l (mem_base + NEXT_MODE_PA_OFFSET) os) (fun b os =>
  io_bind (read_u64 l (mem_base + NEXT_ARG1_PA_OFFSET) os) (fun c os =>
  io_bind (read_u64 l (mem_base + HSM_STATE_PA_OFFSET) os) (fun d os =>
  Ret (match a, b, c, d, msip with
       | Some a, Some b, Some c, Some d, Some e => Some (mk_release a b c d e (nonzero fp_pa) (nonzero fp_value))
       | _, _, _, _, _ => None
       end) os)))).

Definition booted_status (i : Z) (l : L2Cpu) (s : L2CpuSlot) (os : Os) : io L2CpuStatus :=
  let mem_base := L2CPU_STARTING_ADDRESS i in
  io_bind (read_u64 l (mem_base + STATUS_OFFSET) os) (fun purg os =>
  io_bind (read_u64 l (mem_base + PEERS_OFFSET) os) (fun peers os =>
  let parked := bool_decide (purg = Some STATUS_PARKED) in
  io_bind (read_u64 l (mem_base + FORCE_PARK_REQ_PA_OFFSET) os) (fun fp_pa os =>
  io_bind (read_u64 l (mem_base + FORCE_PARK_REQ_VALUE_OFFSET) os) (fun fp_value os =>
  io_bind (read_u64 l (mem_base + MSIP_PA_OFFSET) os) (fun msip os =>
  io_bind (if parked then parked_release l mem_base fp_pa fp_value msip os
           else if 0 <? default 0 fp_pa then Ret (Some (mk_release 0 0 0 0 (default 0 msip) fp_pa fp_value)) os
           else Ret None os) (fun release os =>
  Ret (mk_l2status i (if parked then Parked else Running) (dw_path <$> head (disks s))
         (List.map (fun d => mk_disk_attach (dw_path d) (dw_name d)) (disks s)) (some (net s)) (some (virtio_console s))
         (u32 (client_count (console_hub s))) purg peers release) os)))))).

Definition slot_status (c : Card) (i : Z) : option (Card * L2CpuStatus) :=
  match l2cpus (daemon (mach c)) !! i with
  | None =>
      let st := if default false (wedged c !! i) then Wedged else Stopped in
      Some (c, mk_l2status i st None [] false false 0 None None None)
  | Some s =>
      let! l := handles (mach c) !! i in
      match booted_status i l s (host (mach c)) with
      | Ret x os => Some (set_os c os, x)
      | IoErr _ _ | Panic => None
      end
  end.

Fixpoint status_all (c : Card) (idxs : list Z) : option (Card * list L2CpuStatus) :=
  match idxs with
  | [] => Some (c, [])
  | i :: idxs =>
      let! (c, x) := slot_status c i in
      let! (c, xs) := status_all c idxs in
      Some (c, x :: xs)
  end.

(** The two dividers of the L2CPU clock, when both registers can be read. *)
Definition pll_state (chip : SharedChip) : option (option Z * option Z) :=
  let! cntl1 := arc_read32 chip (PLL4_BASE + PLL_CNTL_1) in
  let! cntl5 := arc_read32 chip (PLL4_BASE + PLL_CNTL_5) in
  Some (match cntl1, cntl5 with
        | Ok cntl1, Ok cntl5 => (Some (u16 (Z.shiftr cntl1 16)), Some (Z.land cntl5 0xFF))
        | _, _ => (None, None)
        end).

Definition dispatch_status (pid uptime : Z) (c : Card) : option (Card * StatusPayload) :=
  let! (c, l2cpus) := status_all c [0; 1; 2; 3] in
  let! (fbdiv, postdiv0) := pll_state (shared_chip (daemon (mach c))) in
  Some (c, mk_status pid uptime l2cpus ((fun e => (noc0_x e, noc0_y e)) <$> c_engine c) fbdiv postdiv0).

End status.

(** ** Attaching a console *)

(** What the calls of one attach meet: whether the socket pair, its clone, the
    reply and the descriptor's transfer succeed; the client's socket; the chip
    output that other threads push before the reply, before the transfer and
    before the replay; and, should the hub have let go of the client by then,
    whether the replay goes through. *)
Record Talk := mk_talk {
  t_pair : bool;
  t_clone : bool;
  t_frame : bool;
  t_fd : bool;
  t_sock : Sock;
  t_gap1 : list (list Z);
  t_gap2 : list (list Z);
  t_gap3 : list (list Z);
  t_alone : bool }.

(** [write_all] on a blocking socket makes the calls of [send_all_dontwait].  The
    script of the socket is finite: a client that never reads, for which the
    blocking write of the source may not return, has no script here. *)
Definition write_scrollback (s : Sock) (bytes : list Z) : Sock * bool := send_all_dontwait s bytes.

(** The replay through the second descriptor of client [i]'s socket. *)
Definition replay (h : ConsoleHub) (i : Z) (alone : bool) (bytes : list Z) : ConsoleHub * bool :=
  match List.find (fun c => id c =? i) (clients h) with
  | None => (h, alone)
  | Some c =>
      let '(s, ok) := write_scrollback (sock c) bytes in
      let cs := List.map (fun c => if id c =? i then mk_client (id c) s (is_writer c) else c) (clients h) in
      (mk_hub (hub_idx h) (scrollback h) cs (next_id h) (clients_gauge h), ok)
  end.

(** On a live core: the hub, the replies, and the client whose reader was
    started. *)
Definition attach_live (t : Talk) (mode : ConsoleMode) (h : ConsoleHub) : ConsoleHub * list Response * option Z :=
  let '(h, res, sb) := attach h (t_sock t) mode in
  let h := push_all h (t_gap1 t) in
  if negb (t_frame t) then (detach h (ar_id res), [], None)
  else
    let replies := [Attached (ar_scrollback_bytes res) true] in
    let h := push_all h (t_gap2 t) in
    if negb (t_fd t) then (detach h (ar_id res), replies, None)
    else
      let h := push_all h (t_gap3 t) in
      let '(h, ok) := replay h (ar_id res) (t_alone t) sb in
      if ok then (h, replies, Some (ar_id res)) else (detach h (ar_id res), replies, None).

(** On a core that is gone: the replies and the client's socket, shut down. *)
Definition dispatch_attach_console_post_mortem (t : Talk) (mode : ConsoleMode) (tail : list Z)
    : result (list Response * Sock) Error :=
  match mode with
  | Ro =>
      match tail with
      | [] => Err SlotState
      | _ =>
          let closed (s : Sock) := mk_sock (script s) (delivered s) true in
          if negb (t_frame t) then Ok ([], closed (t_sock t))
          else
            let replies := [Attached (u32 (Z.of_nat (length tail))) false] in
            if negb (t_fd t) then Ok (replies, closed (t_sock t))
            else Ok (replies, closed (write_scrollback (t_sock t) tail).1)
      end
  | _ => Err SlotState
  end.

Definition set_console_hub (s : L2CpuSlot) (h : ConsoleHub) : L2CpuSlot :=
  mk_slot h (console_worker s) (disks s) (dtb_bytes s) (blk_dtb_dev_idx s) (net s) (virtio_console s) (virtio_rng s)
    (boot_payload s) (net_extra_fwd s).

Definition dispatch_attach_console (t : Talk) (st : DaemonState) (i : Z) (mode : ConsoleMode)
    : DaemonState * result (list Response) Error :=
  match validate_l2cpu i with
  | Err e => (st, Err e)
  | Ok _ =>
      if negb (t_pair t) || negb (t_clone t) then (st, Err Io)
      else
        match l2cpus st !! i with
        | Some s =>
            let '(h, replies, _) := attach_live t mode (console_hub s) in
            (set_slot st i (set_console_hub s h), Ok replies)
        | None =>
            match dispatch_attach_console_post_mortem t mode (default [] (shutdown_tails st !! i)) with
            | Err e => (st, Err e)
            | Ok (replies, _) => (st, Ok replies)
            end
        end
  end.

(** ** The reader of a client *)

Inductive ReadRet :=
| ReadBytes (bytes : list Z)
| ReadEof
| ReadIntr
| ReadErr.

(** One byte into the bounded buffer of the virtio console. *)
Definition push_vc (buf : list Z) (b : Z) : list Z :=
  (if RX_BUFFER_CAP <=? Z.of_nat (length buf) then drop 1 buf else buf) ++ [b].

(** The channel to the console thread and, when there is one, the buffer of the
    virtio console. *)
Record Keys := mk_keys { k_channel : list Z; k_vc : option (list Z) }.

Definition type_keys (k : Keys) (bytes : list Z) : Keys :=
  mk_keys (k_channel k ++ bytes) ((fun buf => foldl push_vc buf bytes) <$> k_vc k).

(** A read, what the other threads do to the hub before it returns, and whether
    the console thread still receives. *)
Record Read := mk_read { rd_others : ConsoleHub -> ConsoleHub; rd_ret : ReadRet; rd_receives : bool }.

Inductive ReaderEnd := Reading | Detached | Abandoned.

Fixpoint reader_loop (i : Z) (reads : list Read) (h : ConsoleHub) (k : Keys) : ConsoleHub * Keys * ReaderEnd :=
  match reads with
  | [] => (h, k, Reading)
  | r :: reads =>
      let h := rd_others r h in
      match rd_ret r with
      | ReadEof | ReadErr | ReadBytes [] => (detach h i, k, Detached)
      | ReadIntr => reader_loop i reads h k
      | ReadBytes bytes =>
          if bool_decide (current_writer_id h = Some i) then
            if rd_receives r then reader_loop i reads h (type_keys k bytes) else (h, k, Abandoned)
          else reader_loop i reads h k
      end
  end.

(** ** Requests *)

Inductive RpcMethod :=
| MStatus | MBoot | MAttachConsole | MAddDisk | MRemoveDisk | MAddNet | MRemoveNet | MAddConsole | MRemoveConsole
| MStop | MShutdown.

#[export] Instance RpcMethod_eq_dec : EqDecision RpcMethod.
Proof. solve_decision. Defined.

Definition classify_request (req : Request) : RpcMethod :=
  match req with
  | Status => MStatus
  | Boot _ => MBoot
  | AttachConsole _ _ => MAttachConsole
  | AddDisk _ _ _ => MAddDisk
  | RemoveDisk _ _ => MRemoveDisk
  | AddNet _ _ _ => MAddNet
  | RemoveNet _ => MRemoveNet
  | AddConsole _ => MAddConsole
  | RemoveConsole _ => MRemoveConsole
  | Stop _ => MStop
  | Shutdown => MShutdown
  end.

Record Counters := mk_counters {
  n_clients_total : Z;
  n_clients_active : Z;
  n_rpc : RpcMethod -> Z;
  n_rpc_errors : RpcMethod -> Z }.

Definition bump (f : RpcMethod -> Z) (m : RpcMethod) : RpcMethod -> Z :=
  fun m' => if bool_decide (m' = m) then u64 (f m' + 1) else f m'.

Definition enter (n : Counters) : Counters :=
  mk_counters (u64 (n_clients_total n + 1)) (n_clients_active n + 1) (n_rpc n) (n_rpc_errors n).
Definition leave (n : Counters) : Counters :=
  mk_counters (n_clients_total n) (n_clients_active n - 1) (n_rpc n) (n_rpc_errors n).
Definition count_rpc (n : Counters) (m : RpcMethod) : Counters :=
  mk_counters (n_clients_total n) (n_clients_active n) (bump (n_rpc n) m) (n_rpc_errors n).
Definition count_error (n : Counters) (m : RpcMethod) : Counters :=
  mk_counters (n_clients_total n) (n_clients_active n) (n_rpc n) (bump (n_rpc_errors n) m).

(** The fields of the wire's boot request, as [dispatch_boot] takes them. *)
Definition boot_args (b : Protocol.BootRequest) : ColdBoot.BootRequest :=
  ColdBoot.mk_boot (b_opensbi b) (b_payload b) (b_dtb b) (b_initramfs b) (b_root_device b)
    (mk_attach (b_disk b) (b_cloud_init b) (b_network b) (b_extra_fwd b) (b_rng b) (b_console b)) (b_force b)
    (b_memory_override b) (b_hostname_override b) (b_extra_bootargs b).

Section handling.
Context `{K : Tlb.Kernel} `{L : Libfdt} `{G : Guest} `{FW : Firmware} `{B : Board}.

(** A handler that answers with [reply_ok]. *)
Definition replies_ok {A} (c : Card) (r : result A Error) : Card * result (list Response) Error :=
  (c, match r with Ok _ => Ok [ROk] | Err e => Err e end).

Definition stop_card (c : Card) (i : Z) : answer unit :=
  let! (st, r) := dispatch_stop (daemon (mach c)) i in
  let c := set_st c st in
  Some (match r with Ok _ => drop_handle c i | Err _ => c end, r).

(** The answer to a request: the frames written by the handler, or an error. *)
Definition dispatch (e : Env) (t : Talk) (pid uptime : Z) (c : Card) (req : Request)
    : option (Card * result (list Response) Error) :=
  let on_state (x : DaemonState * result unit Error) := Some (replies_ok (set_st c x.1) x.2) in
  let st := daemon (mach c) in
  match req with
  | Status => let! (c, p) := dispatch_status pid uptime c in Some (c, Ok [RStatus p])
  | Boot b => let! (c, r) := dispatch_boot e c (b_l2cpu b) (boot_args b) in Some (replies_ok c r)
  | AttachConsole i mode => let '(st, r) := dispatch_attach_console t st i mode in Some (set_st c st, r)
  | AddDisk i path name => let! (st, r) := dispatch_add_disk (e_host e) st i path name in on_state (st, r)
  | RemoveDisk i name => on_state (dispatch_remove_disk st i name)
  | AddNet i ssh fwd => on_state (dispatch_add_net (e_host e) st i ssh fwd)
  | RemoveNet i => on_state (dispatch_remove_net st i)
  | AddConsole i => on_state (dispatch_add_console st i)
  | RemoveConsole i => on_state (dispatch_remove_console st i)
  | Stop i => let! (c, r) := stop_card c i in Some (replies_ok c r)
  | Shutdown => on_state (dispatch_shutdown st)
  end.

(** [reply_err]: the text on the wire. *)
Definition wire_msg (show : Error -> list Z) (err : Error) : list Z :=
  match err with Internal => chars "internal daemon error" | _ => show err end.

(** [stream] is what the client sent; the frames are those the daemon wrote. *)
Definition handle_client (decode : list Z -> option Request) (show : Error -> list Z) (show_frame : FrameError -> list Z)
    (e : Env) (t : Talk) (pid uptime : Z) (stream : list Z) (c : Card) (n : Counters)
    : option (Card * Counters * list Response) :=
  let n := enter n in
  match read_frame decode stream with
  | Err f => Some (c, leave n, [RError (chars "bad request: " ++ show_frame f)])
  | Ok (req, _) =>
      let m := classify_request req in
      let n := count_rpc n m in
      let! (c, r) := dispatch e t pid uptime c req in
      match r with
      | Ok replies => Some (c, leave n, replies)
      | Err err => Some (c, leave (count_error n m), [RError (wire_msg show err)])
      end
  end.

End handling.

(** ** What a console client sees *)

(** Chip output reaches a client that stays, after what it had. *)
Lemma push_clients h bytes c' :
  c' ∈ clients (push_chip_output h bytes).1 ->
  exists c, c ∈ clients h /\ id c' = id c /\ delivered (sock c') = delivered (sock c) ++ bytes.
Proof.
  unfold push_chip_output. destruct bytes as [|b bs]; [intros Hc; exists c'; by rewrite app_nil_r|].
  destruct (fan_out (clients h) (b :: bs)) as [kept d] eqn:E. apply fan_out_spec in E as (_ & Hk & _). cbn [fst clients].
  intros Hc. destruct (Hk c' Hc) as (c & ? & ? & _ & ?). by exists c.
Qed.

Lemma push_all_clients pushes : forall h c',
  c' ∈ clients (push_all h pushes) ->
  exists c, c ∈ clients h /\ id c' = id c /\ delivered (sock c') = delivered (sock c) ++ concat pushes.
Proof.
  induction pushes as [|p ps IH]; intros h c' Hc; cbn in *; [exists c'; by rewrite app_nil_r|].
  destruct (IH _ c' Hc) as (c1 & H1 & E1 & D1). destruct (push_clients h p c1 H1) as (c & H2 & E2 & D2).
  exists c. split; [done|]. split; [congruence|]. by rewrite D1, D2, <- app_assoc.
Qed.

Lemma push_all_ok pushes : forall h, hub_ok h -> hub_ok (push_all h pushes).
Proof.
  induction pushes as [|p ps IH]; intros h Hok; cbn; [done|]. apply IH. eapply hub_step_ok; [exact Hok|apply step_push].
Qed.

Lemma push_all_app h p q : push_all h (p ++ q) = push_all (push_all h p) q.
Proof. unfold push_all. by rewrite foldl_app. Qed.

Lemma same_id cs c c' : NoDup (List.map id cs) -> c ∈ cs -> c' ∈ cs -> id c = id c' -> c = c'.
Proof.
  induction cs as [|x cs IH]; intros Hnd Hc Hc' E; [by apply elem_of_nil in Hc|].
  cbn in Hnd. apply NoDup_cons in Hnd as [Hx Hnd].
  apply elem_of_cons in Hc as [->|Hc]; apply elem_of_cons in Hc' as [->|Hc']; [done| | |by apply IH].
  - destruct Hx. rewrite E. by apply (list_elem_of_fmap_2 id).
  - destruct Hx. rewrite <- E. by apply (list_elem_of_fmap_2 id).
Qed.

(** The new client after the pushes of the attach. *)
Lemma attached_client h s mode pushes c' :
  hub_ok h -> next_id h < U64_MAX -> c' ∈ clients (push_all (attach h s mode).1.1 pushes) -> id c' = next_id h ->
  delivered (sock c') = delivered s ++ concat pushes.
Proof.
  intros Hok Hn Hc Hid. destruct (push_all_clients _ _ _ Hc) as (c & H1 & E1 & D1).
  pose proof (hub_step_ok _ _ Hok (step_attach h s mode Hn)) as Hok1.
  destruct (attach_shape h s mode Hok) as (cs & w & dm & E & _). rewrite E in H1, Hok1. cbn in H1, Hok1.
  rewrite D1. f_equal. f_equal. assert (c = mk_client (next_id h) s w) as ->; [|done].
  apply (same_id (cs ++ [mk_client (next_id h) s w])); [apply Hok1|done| |cbn; congruence].
  apply elem_of_app. right. apply list_elem_of_here.
Qed.

(** The order of a new client's bytes.  When the reader of a new client is
    started and the hub still has the client, its socket got, in this order,
    the chip output that arrived while the attach was under way and then the
    whole scrollback as it was when the attach began: a client sees the history
    first exactly when the core was silent meanwhile. *)
Theorem replay_follows_live t mode h h' replies i c :
  hub_ok h -> next_id h < U64_MAX -> attach_live t mode h = (h', replies, Some i) ->
  c ∈ clients h' -> id c = i ->
  i = next_id h /\ replies = [Attached (u32 (Z.of_nat (length (scrollback h)))) true] /\
  delivered (sock c) =
    delivered (t_sock t) ++ concat (t_gap1 t ++ t_gap2 t ++ t_gap3 t) ++ scrollback h.
Proof.
  intros Hok Hn. unfold attach_live. destruct (attach_shape h (t_sock t) mode Hok) as (cs & w & dm & E & _).
  pose proof (attached_client h (t_sock t) mode (t_gap1 t ++ t_gap2 t ++ t_gap3 t)) as Hcl.
  pose proof (push_all_ok (t_gap1 t ++ t_gap2 t ++ t_gap3 t) _ (hub_step_ok _ _ Hok (step_attach h (t_sock t) mode Hn))) as Hok1.
  rewrite E in Hcl, Hok1 |- *. cbn [fst snd ar_id ar_scrollback_bytes] in *. rewrite !push_all_app in Hcl, Hok1.
  destruct (negb (t_frame t)); [done|]. destruct (negb (t_fd t)); [done|].
  set (h1 := push_all (push_all (push_all _ _) _) _) in *.
  unfold replay. destruct (List.find (fun c => id c =? next_id h) (clients h1)) as [c0|] eqn:Ef.
  - apply find_some in Ef as [Hin Hid]. apply list_elem_of_In in Hin. apply Z.eqb_eq in Hid.
    unfold write_scrollback. destruct (send_all_dontwait (sock c0) (scrollback h)) as [s ok] eqn:Es.
    apply send_all_spec in Es as (_ & Hs & _). destruct ok; [|done]. intros [= <- <- <-]. cbn [clients].
    intros Hc Hci. split; [done|]. split; [done|].
    apply (list_elem_of_fmap_1 _ (clients h1)) in Hc as (c1 & -> & Hc1). destruct (Z.eqb_spec (id c1) (next_id h)) as [E1|E1]; [|by destruct E1].
    cbn [sock]. rewrite Hs by done. rewrite (Hcl c0 Hok Hn Hin Hid). by rewrite <- (app_assoc (delivered _)).
  - destruct (t_alone t); [|done]. intros [= <- <- <-] Hc Hci.
    eapply find_none in Ef; [|by apply list_elem_of_In]. cbn in Ef. lia.
Qed.

(** ** The last words of a stopped core *)

(** The line that [internal_stop] leaves. *)
Definition stop_line (i : Z) (reason : list Z) : list Z :=
  goodbye (chars "l2cpu " ++ show_dec i ++ chars " stopped (" ++ reason ++ chars ")").

Lemma tail_suffix h n line :
  Z.of_nat (length line) <= n -> line `suffix_of` scrollback h -> line `suffix_of` tail h n.
Proof.
  intros Hn [k Hk]. unfold tail. rewrite Hk. set (len := Z.of_nat (length (k ++ line))).
  assert (E : len = Z.of_nat (length k) + Z.of_nat (length line)) by (unfold len; rewrite length_app; lia).
  assert (Hle : (Z.to_nat (len - Z.min n len) <= length k)%nat) by lia.
  exists (drop (Z.to_nat (len - Z.min n len)) k). rewrite drop_app.
  by replace (_ - length k)%nat with 0%nat by lia.
Qed.

(** A stopped core's last words.  After a stop, an attach that asks for the
    keyboard is refused; a read-only one is told the length of what was kept,
    gets exactly those bytes when its socket takes them, the line that says why
    the core stopped at their end, and then the end of the stream; the daemon's
    state does not change. *)
Theorem last_words st i reason s st' t :
  0 <= i < 4 -> l2cpus st !! i = Some s -> internal_stop st i reason = Some (st', Ok true) ->
  Z.of_nat (length (stop_line i reason)) <= SHUTDOWN_TAIL_BYTES ->
  t_pair t = true -> t_clone t = true -> t_frame t = true -> t_fd t = true ->
  let kept := tail (disconnect_all_with_reason (console_hub s)
                      (chars "l2cpu " ++ show_dec i ++ chars " stopped (" ++ reason ++ chars ")")).1 SHUTDOWN_TAIL_BYTES in
  stop_line i reason `suffix_of` kept /\
  dispatch_attach_console t st' i Ro = (st', Ok [Attached (Z.of_nat (length kept)) false]) /\
  (forall mode, mode <> Ro -> dispatch_attach_console t st' i mode = (st', Err SlotState)) /\
  exists sk, dispatch_attach_console_post_mortem t Ro kept = Ok ([Attached (Z.of_nat (length kept)) false], sk) /\
    is_shutdown sk = true /\
    ((write_scrollback (t_sock t) kept).2 = true -> delivered sk = delivered (t_sock t) ++ kept).
Proof.
  intros Hi Es Hstop Hlen Hp Hc Hf Hd kept.
  assert (Hst' : l2cpus st' !! i = None /\ shutdown_tails st' !! i = Some kept).
  { destruct (stop_spec st i reason s Hi Es) as (c & E & _). rewrite Hstop in E.
    apply (f_equal (fun o => match o with Some (x, _) => x | None => st end)) in E. cbv beta iota in E. rewrite E.
    cbn [l2cpus shutdown_tails]. split; [apply lookup_delete_eq|apply lookup_insert_eq]. }
  destruct Hst' as [Hgone Htail].
  assert (Hsuf : stop_line i reason `suffix_of` kept).
  { apply tail_suffix; [done|]. cbn. unfold append_scrollback. by exists (drop (Z.to_nat (saturating_sub
      (Z.of_nat (length (scrollback (console_hub s)) + length (stop_line i reason))) SCROLLBACK_BYTES)) (scrollback (console_hub s))). }
  assert (Hne : kept <> []).
  { intros Hk. rewrite Hk in Hsuf. apply suffix_nil_inv in Hsuf. discriminate Hsuf. }
  assert (Hkl : Z.of_nat (length kept) <= SHUTDOWN_TAIL_BYTES).
  { unfold kept, tail. rewrite length_drop. change SHUTDOWN_TAIL_BYTES with 16384. lia. }
  assert (Hu : u32 (Z.of_nat (length kept)) = Z.of_nat (length kept)).
  { apply wrap_small. change SHUTDOWN_TAIL_BYTES with 16384 in Hkl. unfold fits. lia. }
  clearbody kept. assert (Hpm : exists sk, dispatch_attach_console_post_mortem t Ro kept = Ok ([Attached (Z.of_nat (length kept)) false], sk) /\
    is_shutdown sk = true /\ ((write_scrollback (t_sock t) kept).2 = true -> delivered sk = delivered (t_sock t) ++ kept)).
  { unfold dispatch_attach_console_post_mortem. destruct kept as [|b bs] eqn:Ek; [done|]. rewrite <- Ek in *. rewrite Hf, Hd, Hu. cbn [negb].
    eexists. split; [reflexivity|]. split; [done|]. cbn [delivered]. unfold write_scrollback.
    destruct (send_all_dontwait (t_sock t) kept) as [s' ok] eqn:E'. apply send_all_spec in E' as (_ & H & _). exact H. }
  split; [done|]. split; [|split; [|done]].
  - unfold dispatch_attach_console, validate_l2cpu. rewrite (proj2 (Z.ltb_lt i 4)), Hp, Hc by lia. cbn [negb orb].
    rewrite Hgone, Htail. change (default [] (Some kept)) with kept. by destruct Hpm as (sk & -> & _).
  - intros mode Hm. unfold dispatch_attach_console, validate_l2cpu. rewrite (proj2 (Z.ltb_lt i 4)), Hp, Hc by lia.
    cbn [negb orb]. rewrite Hgone. by destruct mode.
Qed.

(** ** Keystrokes *)

Lemma push_vc_lastn buf b :
  Z.of_nat (length buf) <= RX_BUFFER_CAP -> push_vc buf b = lastn (Z.to_nat RX_BUFFER_CAP) (buf ++ [b]).
Proof.
  intros Hl. unfold push_vc, lastn. rewrite length_app. cbn [length]. change RX_BUFFER_CAP with 16384 in *.
  destruct (Z.leb_spec 16384 (Z.of_nat (length buf))).
  - replace (length buf + 1 - Z.to_nat 16384)%nat with 1%nat by lia. rewrite drop_app.
    by replace (1 - length buf)%nat with 0%nat by lia.
  - by replace (length buf + 1 - Z.to_nat 16384)%nat with 0%nat by lia.
Qed.

Lemma push_all_vc bytes : forall buf,
  Z.of_nat (length buf) <= RX_BUFFER_CAP -> foldl push_vc buf bytes = lastn (Z.to_nat RX_BUFFER_CAP) (buf ++ bytes).
Proof.
  induction bytes as [|b bs IH] using rev_ind; intros buf Hl.
  - rewrite app_nil_r. unfold lastn. cbn. by replace (length buf - _)%nat with 0%nat by lia.
  - rewrite foldl_app. cbn [foldl]. rewrite IH by done. rewrite push_vc_lastn.
    + rewrite app_assoc. apply lastn_app_lastn.
    + unfold lastn. rewrite length_drop. lia.
Qed.

(** The bytes of the reads at which the client held the keyboard, up to the
    first that ends the thread. *)
Fixpoint typed (i : Z) (reads : list Read) (h : ConsoleHub) : list Z :=
  match reads with
  | [] => []
  | r :: reads =>
      let h := rd_others r h in
      match rd_ret r with
      | ReadEof | ReadErr | ReadBytes [] => []
      | ReadIntr => typed i reads h
      | ReadBytes bytes =>
          if bool_decide (current_writer_id h = Some i) then if rd_receives r then bytes ++ typed i reads h else []
          else typed i reads h
      end
  end.

(** Keystrokes reach the guest in order and from the holder of the keyboard
    only.  The channel to the console thread gets exactly the bytes of the reads
    at which the client was the writer; the virtio console's buffer holds the
    latest of them, never more than its bound; a thread that saw the end of the
    stream takes its client out of the hub, and one whose console thread is gone
    leaves it there. *)
Theorem reader_types_as_writer i reads h k h' k' how :
  (forall buf, k_vc k = Some buf -> Z.of_nat (length buf) <= RX_BUFFER_CAP) ->
  reader_loop i reads h k = (h', k', how) ->
  k_channel k' = k_channel k ++ typed i reads h /\
  k_vc k' = (fun buf => lastn (Z.to_nat RX_BUFFER_CAP) (buf ++ typed i reads h)) <$> k_vc k /\
  (forall buf, k_vc k' = Some buf -> Z.of_nat (length buf) <= RX_BUFFER_CAP) /\
  (how = Detached -> i ∉ List.map id (clients h')) /\
  (how = Abandoned -> current_writer_id h' = Some i).
Proof.
  revert h k. induction reads as [|r rs IH]; intros h k Hb; cbn [reader_loop typed].
  { intros [= <- <- <-]. rewrite app_nil_r. split; [done|]. split; [|done]. destruct (k_vc k) as [buf|]; [|done]. cbn. f_equal.
    rewrite app_nil_r. unfold lastn. specialize (Hb buf eq_refl). by replace (length buf - _)%nat with 0%nat by lia. }
  assert (Hstop : forall h1 how1, (h1, k, how1) = (h', k', how) ->
    (how1 = Detached -> i ∉ List.map id (clients h1)) -> (how1 = Abandoned -> current_writer_id h1 = Some i) ->
    k_channel k' = k_channel k ++ [] /\
    k_vc k' = (fun buf => lastn (Z.to_nat RX_BUFFER_CAP) (buf ++ [])) <$> k_vc k /\
    (forall buf, k_vc k' = Some buf -> Z.of_nat (length buf) <= RX_BUFFER_CAP) /\
    (how = Detached -> i ∉ List.map id (clients h')) /\ (how = Abandoned -> current_writer_id h' = Some i)).
  { intros h1 how1 [= <- <- <-] H1 H2. rewrite app_nil_r. split; [done|]. split; [|done]. destruct (k_vc k) as [buf|]; [|done].
    cbn. f_equal. rewrite app_nil_r. unfold lastn. specialize (Hb buf eq_refl). by replace (length buf - _)%nat with 0%nat by lia. }
  assert (Hdet : forall h1, i ∉ List.map id (clients (detach h1 i))).
  { intros h1 Hin. apply list_elem_of_In, in_map_iff in Hin as (c & Hc & Hf). apply filter_In in Hf as [_ Hf].
    rewrite Hc, Z.eqb_refl in Hf. done. }
  destruct (rd_ret r) as [[|b bs]| | |].
  1, 3, 5: intros H; apply (Hstop _ _ H); [intros _; apply Hdet|done].
  2: by apply IH.
  case_bool_decide as Hw; [|by apply IH]. destruct (rd_receives r); [|intros H; by apply (Hstop _ _ H)].
  intros H. apply IH in H as (H1 & H2 & H3 & H4).
  - split; [rewrite H1; cbn [k_channel type_keys]; by rewrite <- app_assoc|]. split; [|done]. rewrite H2. cbn [k_vc type_keys].
    destruct (k_vc k) as [buf|]; [|done]. cbn [fmap option_fmap option_map]. f_equal. rewrite push_all_vc by (by apply Hb). by rewrite lastn_app_lastn, <- app_assoc.
  - intros buf. cbn [k_vc type_keys]. destruct (k_vc k) as [buf0|]; [|done].
    cbn [fmap option_fmap option_map]. intros Hs. apply (inj Some) in Hs as <-.
    rewrite push_all_vc by (by apply Hb). unfold lastn. rewrite length_drop. change RX_BUFFER_CAP with 16384. lia.
Qed.

(** ** The status report *)

Section status_proof.
Context `{KL : KernelLaws}.

(** A word of the status block, then the rest. *)
Lemma io_u64 {A} l i off os0 os (k : option Z -> Os -> io A) (P : io A -> Prop) :
  0 <= i < 4 -> off ∈ purgatory_offsets -> l2_fd l ∈ fds os0 -> untouched os0 os ->
  (forall r os', untouched os0 os' ->
     (r = Some (word64 (tile_mem os0 (coordinates l)) (L2CPU_STARTING_ADDRESS i + off)) \/ r = None /\ ~ never_refused l) ->
     P (k r os')) ->
  P (io_bind (read_u64 l (L2CPU_STARTING_ADDRESS i + off) os) k).
Proof.
  intros Hi Ho Hfd U HP. destruct (meta_addrs i off Hi Ho) as [W1 W2].
  destruct (read_u64_spec l _ os W1 W2 ltac:(by rewrite (untouched_fds _ _ U))) as (r & os' & E & U2 & Hr).
  rewrite E. cbn [io_bind]. apply HP; [by eapply untouched_trans|]. by rewrite (untouched_mem _ _ _ U) in Hr.
Qed.

(** What a report says of a booted core. *)
Definition reports (l : L2Cpu) (i : Z) (s : L2CpuSlot) (mem : gmap Z Z) (x : L2CpuStatus) : Prop :=
  st_idx x = i /\ st_disk x = dw_path <$> head (disks s) /\
  st_disks x = List.map (fun d => mk_disk_attach (dw_path d) (dw_name d)) (disks s) /\
  st_net x = some (net s) /\ st_virtio_console x = some (virtio_console s) /\
  st_clients x = u32 (client_count (console_hub s)) /\
  (st_state x = Parked \/ st_state x = Running) /\
  (st_state x = Parked -> parked_mem mem (L2CPU_STARTING_ADDRESS i + STATUS_OFFSET) = true) /\
  (never_refused l -> parked_mem mem (L2CPU_STARTING_ADDRESS i + STATUS_OFFSET) = true ->
     st_state x = Parked /\ exists m, st_purgatory_release_meta x = Some m /\
       (Protocol.next_addr_pa m, Protocol.next_mode_pa m, Protocol.next_arg1_pa m, Protocol.hsm_state_pa m, Protocol.msip_pa m) =
       (next_addr_pa (meta_of l i mem), next_mode_pa (meta_of l i mem), next_arg1_pa (meta_of l i mem),
        hsm_state_pa (meta_of l i mem), msip_pa (meta_of l i mem))).

Definition status_post (l : L2Cpu) (i : Z) (s : L2CpuSlot) (os : Os) (r : io L2CpuStatus) : Prop :=
  match r with
  | Ret x os' => untouched os os' /\ reports l i s (tile_mem os (coordinates l)) x
  | _ => False
  end.

Lemma parked_word mem i :
  parked_mem mem (L2CPU_STARTING_ADDRESS i + STATUS_OFFSET) =
  bool_decide (Some (word64 mem (L2CPU_STARTING_ADDRESS i + STATUS_OFFSET)) = Some STATUS_PARKED).
Proof.
  unfold parked_mem, word64. destruct (Z.eqb_spec (Z.lor (Z.shiftl (rd32 mem (L2CPU_STARTING_ADDRESS i + STATUS_OFFSET + 4)) 32)
    (rd32 mem (L2CPU_STARTING_ADDRESS i + STATUS_OFFSET))) STATUS_PARKED) as [E|E].
  - by rewrite bool_decide_true by congruence.
  - by rewrite bool_decide_false by congruence.
Qed.

Lemma booted_status_spec l i s os :
  0 <= i < 4 -> l2_fd l ∈ fds os -> status_post l i s os (booted_status i l s os).
Proof.
  intros Hi Hfd. unfold booted_status, PEERS_OFFSET. set (mem := tile_mem os (coordinates l)).
  eapply (io_u64 l i STATUS_OFFSET os); [done|by repeat constructor|done|by split|]. intros purg os1 U1 H1. fold mem in H1.
  eapply (io_u64 l i _ os); [done|by repeat constructor|done|done|]. intros peers os2 U2 _.
  eapply (io_u64 l i _ os); [done|by repeat constructor|done|done|]. intros fp os3 U3 _.
  eapply (io_u64 l i _ os); [done|by repeat constructor|done|done|]. intros fv os4 U4 _.
  eapply (io_u64 l i _ os); [done|by repeat constructor|done|done|]. intros ms os5 U5 H5. fold mem in H5.
  assert (Hpk : bool_decide (purg = Some STATUS_PARKED) = true -> parked_mem mem (L2CPU_STARTING_ADDRESS i + STATUS_OFFSET) = true).
  { rewrite parked_word. destruct H1 as [->|[-> _]]; [done|]. by rewrite bool_decide_false by done. }
  assert (Hrun : bool_decide (purg = Some STATUS_PARKED) = false -> never_refused l ->
    parked_mem mem (L2CPU_STARTING_ADDRESS i + STATUS_OFFSET) = false).
  { intros E Hn. rewrite parked_word. destruct H1 as [->|[_ []]]; done. }
  destruct (bool_decide (purg = Some STATUS_PARKED)) eqn:Ep.
  - unfold parked_release.
    eapply (io_u64 l i _ os _ _ (fun x => status_post l i s os (io_bind x _))); [done|by repeat constructor|done|done|].
    intros a os6 U6 H6. fold mem in H6.
    eapply (io_u64 l i _ os _ _ (fun x => status_post l i s os (io_bind x _))); [done|by repeat constructor|done|done|].
    intros b os7 U7 H7. fold mem in H7.
    eapply (io_u64 l i _ os _ _ (fun x => status_post l i s os (io_bind x _))); [done|by repeat constructor|done|done|].
    intros d os8 U8 H8. fold mem in H8.
    eapply (io_u64 l i _ os _ _ (fun x => status_post l i s os (io_bind x _))); [done|by repeat constructor|done|done|].
    intros f os9 U9 H9. fold mem in H9. cbn [io_bind]. split; [done|]. repeat (split; [done|]). split; [by left|].
    split; [by intros _; apply Hpk|]. intros Hn _. split; [done|].
    destruct H5 as [->|[_ []]]; [|done]. destruct H6 as [->|[_ []]]; [|done]. destruct H7 as [->|[_ []]]; [|done].
    destruct H8 as [->|[_ []]]; [|done]. destruct H9 as [->|[_ []]]; [|done]. eexists. split; [reflexivity|]. done.
  - destruct (0 <? default 0 fp); cbn [io_bind]; (split; [done|]); repeat (split; [done|]); (split; [by right|]);
      (split; [done|]); intros Hn Hp; fold mem in Hp; rewrite Hrun in Hp by done; done.
Qed.

End status_proof.

Section reporting.
Context `{KL : KernelLaws}.

(** Every slot has an open handle. *)
Definition handles_open (c : Card) : Prop :=
  forall i s, l2cpus (daemon (mach c)) !! i = Some s ->
    0 <= i < 4 /\ exists l, handles (mach c) !! i = Some l /\ l2_fd l ∈ fds (host (mach c)).

(** The report on core [i]. *)
Definition reported (c : Card) (x : L2CpuStatus) : Prop :=
  match l2cpus (daemon (mach c)) !! st_idx x with
  | None => x = mk_l2status (st_idx x) (if default false (wedged c !! st_idx x) then Wedged else Stopped)
                  None [] false false 0 None None None
  | Some s => exists l, handles (mach c) !! st_idx x = Some l /\
                reports l (st_idx x) s (tile_mem (host (mach c)) (coordinates l)) x
  end.

(** The same daemon, on a host that was only read. *)
Definition looked (c c' : Card) : Prop :=
  daemon (mach c') = daemon (mach c) /\ handles (mach c') = handles (mach c) /\ wedged c' = wedged c /\
  c_engine c' = c_engine c /\ untouched (host (mach c)) (host (mach c')).

Lemma looked_trans c c1 c2 : looked c c1 -> looked c1 c2 -> looked c c2.
Proof.
  intros (A1 & A2 & A3 & A4 & A5) (B1 & B2 & B3 & B4 & B5). repeat split; try congruence; by eapply untouched_trans.
Qed.

Lemma looked_reported c c1 x : looked c c1 -> reported c1 x -> reported c x.
Proof.
  intros (A1 & A2 & A3 & A4 & A5). unfold reported. rewrite A1, A2, A3. destruct (l2cpus (daemon (mach c)) !! st_idx x) as [s|]; [|done].
  intros (l0 & H1 & H2). exists l0. split; [done|]. by rewrite (untouched_mem _ _ _ A5) in H2.
Qed.

Lemma slot_status_spec c i :
  handles_open c -> exists c' x, slot_status c i = Some (c', x) /\ looked c c' /\ st_idx x = i /\ reported c x.
Proof.
  intros Hh. unfold slot_status. destruct (l2cpus (daemon (mach c)) !! i) as [s|] eqn:Es.
  - destruct (Hh i s Es) as (Hi & l & El & Hfd). rewrite El.
    pose proof (booted_status_spec l i s (host (mach c)) Hi Hfd) as H.
    destruct (booted_status i l s (host (mach c))) as [x os|e os|]; [|done..]. destruct H as [U Hr].
    exists (set_os c os), x. split; [done|]. split; [done|]. split; [apply Hr|]. unfold reported.
    rewrite (proj1 Hr), Es. by exists l.
  - exists c. eexists. split; [reflexivity|]. split; [done|]. split; [done|]. unfold reported. cbn [st_idx]. by rewrite Es.
Qed.

Lemma status_all_spec idxs : forall c,
  handles_open c ->
  exists c' xs, status_all c idxs = Some (c', xs) /\ looked c c' /\ List.map st_idx xs = idxs /\ Forall (reported c) xs.
Proof.
  induction idxs as [|i idxs IH]; intros c Hh; [exists c, []; by repeat split|].
  destruct (slot_status_spec c i Hh) as (c1 & x & E1 & L1 & Hi & Hx). cbn [status_all]. rewrite E1.
  assert (Hh1 : handles_open c1).
  { destruct L1 as (A1 & A2 & _ & _ & A5). intros j s. rewrite A1, A2. intros Hj. destruct (Hh j s Hj) as (? & l & ? & Hl).
    split; [done|]. exists l. split; [done|]. by rewrite (untouched_fds _ _ A5). }
  destruct (IH c1 Hh1) as (c2 & xs & E2 & L2 & Hm & Hxs). rewrite E2. exists c2, (x :: xs). split; [done|].
  split; [by eapply looked_trans|]. split; [cbn; by rewrite Hi, Hm|]. constructor; [done|].
  eapply Forall_impl; [exact Hxs|]. intros y. by apply looked_reported.
Qed.

Lemma pll_state_spec chip :
  pll_state chip = Some (match inner chip with
    | Some (arc, _) => (Some (u16 (Z.shiftr (pll_read32 arc (PLL4_BASE + PLL_CNTL_1)) 16)),
                        Some (Z.land (pll_read32 arc (PLL4_BASE + PLL_CNTL_5)) 0xFF))
    | None => (None, None)
    end).
Proof. by destruct chip as [[[arc csm]|]]. Qed.

(** C32: The status report is true and changes nothing.  It does not panic; the
    four cores are reported in order, a core without a slot as wedged or
    stopped by its flag, a booted one with its disks in order, its network and
    console, and its number of clients; parked is reported only of a core whose
    memory says so and, when the driver refuses no read, of every such core, with
    the five addresses its firmware publishes. *)
Theorem status_true pid uptime c :
  handles_open c ->
  exists c' p, dispatch_status pid uptime c = Some (c', p) /\ looked c c' /\
    List.map st_idx (sp_l2cpus p) = [0; 1; 2; 3] /\ Forall (reported c) (sp_l2cpus p) /\
    sp_engine_tile p = (fun e => (noc0_x e, noc0_y e)) <$> c_engine c /\
    (sp_pll_fbdiv p = None <-> inner (shared_chip (daemon (mach c))) = None).
Proof.
  intros Hh. unfold dispatch_status. destruct (status_all_spec [0; 1; 2; 3] c Hh) as (c' & xs & E & Hl & Hi & Hx).
  rewrite E, pll_state_spec. pose proof Hl as (A1 & _ & _ & A4 & _). rewrite A1, A4.
  destruct (inner (shared_chip (daemon (mach c)))) as [[arc csm]|];
    do 2 eexists; (split; [reflexivity|]); repeat (split; [done|]); done.
Qed.

End reporting.

(** ** Every request *)

(** The core a request names. *)
Definition core_of (req : Request) : Z :=
  match req with
  | Status | Shutdown => 0
  | Boot b => b_l2cpu b
  | AttachConsole i _ | AddDisk i _ _ | RemoveDisk i _ | AddNet i _ _ | RemoveNet i | AddConsole i | RemoveConsole i
  | Stop i => i
  end.

Definition is_error (r : Response) : bool := match r with RError _ => true | _ => false end.

Lemma attach_ok st i s h : state_ok st -> l2cpus st !! i = Some s -> state_ok (set_slot st i (set_console_hub s h)).
Proof.
  intros Hok Es. unfold state_ok in *. cbn [l2cpus dispatcher set_slot]. destruct (proj1 Hok i s Es) as [Hi Hd].
  destruct (dispatcher st) as [d|].
  - eapply consistent_update with (d := d) (s := s); [done|done|done|done| |done]. intros k Hk.
    destruct (proj2 Hok d eq_refl) as [Hreg _]. rewrite Hreg. unfold expected_at. by rewrite Hk, Es.
  - eapply consistent_none; [done|exact Es|done].
Qed.

Section requests.
Context `{KL : KernelLaws} `{L : Libfdt} `{G : Guest} `{FW : Firmware} `{B : Board}.

(** A handler's answer: at most one frame, and no error among them. *)
Definition answers (c : Card) (x : option (Card * result (list Response) Error)) : Prop :=
  exists c' r, x = Some (c', r) /\ state_ok (daemon (mach c')) /\
    match r with Ok rs => Forall (fun r => is_error r = false) rs /\ (length rs <= 1)%nat | Err _ => True end.

Lemma answers_state c x : state_ok x.1 -> answers c (Some (replies_ok (A := unit) (set_st c x.1) x.2)).
Proof.
  intros Hok. unfold replies_ok. do 2 eexists. split; [reflexivity|]. split; [done|]. destruct x.2; [|done].
  split; [by repeat constructor|done].
Qed.

Lemma attach_answers t st i mode :
  state_ok st ->
  let x := dispatch_attach_console t st i mode in
  state_ok x.1 /\ match x.2 with Ok rs => Forall (fun r => is_error r = false) rs /\ (length rs <= 1)%nat | Err _ => True end.
Proof.
  intros Hok. unfold dispatch_attach_console. destruct (validate_l2cpu i); [|done]. destruct (negb _ || negb _); [done|].
  destruct (l2cpus st !! i) as [s|] eqn:Es.
  - assert (H : forall h rs who, attach_live t mode (console_hub s) = (h, rs, who) ->
      Forall (fun r => is_error r = false) rs /\ (length rs <= 1)%nat).
    { intros h rs who. unfold attach_live. destruct (attach _ _ _) as [[h1 res] sb].
      destruct (negb (t_frame t)); [intros [= <- <- <-]; by split; [apply Forall_nil|cbn; lia]|].
      destruct (negb (t_fd t)); [intros [= <- <- <-]; by split; [repeat constructor|cbn; lia]|].
      destruct (replay _ _ _ _) as [h2 []]; intros [= <- <- <-]; (split; [by repeat constructor|cbn; lia]). }
    destruct (attach_live t mode (console_hub s)) as [[h rs] who]. cbn [fst snd]. split; [by apply attach_ok|by eapply H].
  - unfold dispatch_attach_console_post_mortem. destruct mode; [|done..].
    destruct (default [] (shutdown_tails st !! i)); [done|]. destruct (negb (t_frame t)); [by split; [|split; [apply Forall_nil|cbn; lia]]|].
    destruct (negb (t_fd t)); (split; [done|split; [by repeat constructor|cbn; lia]]).
Qed.

Lemma dispatch_answers e t pid uptime c req :
  state_ok (daemon (mach c)) -> handles_open c -> 0 <= core_of req -> (forall b, req <> Boot b) ->
  answers c (dispatch e t pid uptime c req).
Proof.
  intros Hok Hh Hi Hb. destruct req as [|b|i mode|i path name|i name|i ssh fwd|i|i|i|i|]; cbn [dispatch core_of] in *.
  - unfold dispatch_status. destruct (status_all_spec [0; 1; 2; 3] c Hh) as (c' & xs & E & (A1 & _) & _).
    rewrite E, pll_state_spec. destruct (match inner _ with Some _ => _ | None => _ end). do 2 eexists. split; [reflexivity|].
    split; [by rewrite A1|]. split; [by repeat constructor|cbn; lia].
  - by destruct (Hb b).
  - pose proof (attach_answers t (daemon (mach c)) i mode Hok) as [H1 H2].
    destruct (dispatch_attach_console t (daemon (mach c)) i mode) as [st r]. do 2 eexists. split; [reflexivity|]. by split.
  - destruct (dispatch_add_disk (e_host e) (daemon (mach c)) i path name) as [[st r]|] eqn:E; [|by apply add_disk_total in E].
    apply (answers_state c (st, r)). cbn. by eapply ok_add_disk.
  - apply answers_state. by apply ok_remove_disk.
  - apply answers_state. by apply ok_add_net.
  - apply answers_state. by apply ok_remove_net.
  - apply answers_state. by apply ok_add_console.
  - apply answers_state. by apply ok_remove_console.
  - unfold stop_card, dispatch_stop. destruct (internal_stop (daemon (mach c)) i (chars "client-requested")) as [[st r]|] eqn:E.
    + apply ok_stop in E as Hst; [|done]. unfold replies_ok. do 2 eexists. split; [reflexivity|].
      split; [by destruct r as [[]|]|]. destruct r as [[]|]; [|done..]. split; [by repeat constructor|cbn; lia].
    + exfalso. revert E. unfold internal_stop. destruct (validate_l2cpu i); [|done].
      destruct (l2cpus (daemon (mach c)) !! i) as [s|] eqn:Es; [|done]. destruct (proj1 Hok i s Es) as [Hr _].
      destruct (stop_spec (daemon (mach c)) i (chars "client-requested") s Hr Es) as (ch & E & _). revert E.
      unfold internal_stop. destruct (validate_l2cpu i); [|done]. rewrite Es. congruence.
  - apply (answers_state c (dispatch_shutdown (daemon (mach c)))). exact Hok.
Qed.

(** C22: One conversation.  Whatever a client sends that is not a boot request, the
    handler ends: the slots and the dispatcher stay in step, the gauge of active
    clients is what it was, and the request is counted once under its own
    method.  It is counted as failed exactly when the client's only frame is an
    error; otherwise at most one frame is sent and none is an error.  Bytes that
    are no request change nothing, count under no method and are answered with
    an error. *)
Theorem conversation_accounts decode show show_frame e t pid uptime stream c n :
  state_ok (daemon (mach c)) -> handles_open c ->
  (forall req rest, read_frame decode stream = Ok (req, rest) -> 0 <= core_of req /\ forall b, req <> Boot b) ->
  exists c' n' rs, handle_client decode show show_frame e t pid uptime stream c n = Some (c', n', rs) /\
    state_ok (daemon (mach c')) /\ n_clients_active n' = n_clients_active n /\
    n_clients_total n' = u64 (n_clients_total n + 1) /\
    match read_frame decode stream with
    | Err f => c' = c /\ n_rpc n' = n_rpc n /\ n_rpc_errors n' = n_rpc_errors n /\
               rs = [RError (chars "bad request: " ++ show_frame f)]
    | Ok (req, _) => n_rpc n' = bump (n_rpc n) (classify_request req) /\
        ((exists msg, rs = [RError msg]) /\ n_rpc_errors n' = bump (n_rpc_errors n) (classify_request req) \/
         Forall (fun r => is_error r = false) rs /\ (length rs <= 1)%nat /\ n_rpc_errors n' = n_rpc_errors n)
    end.
Proof.
  intros Hok Hh Hreq. unfold handle_client. destruct (read_frame decode stream) as [[req rest]|f].
  - destruct (Hreq req rest eq_refl) as [Hi Hb].
    destruct (dispatch_answers e t pid uptime c req Hok Hh Hi Hb) as (c' & r & E & Hok' & Hr). rewrite E.
    destruct r as [rs|err]; do 3 eexists; (split; [reflexivity|]); (split; [done|]);
      (split; [cbn; lia|]); (split; [done|]); (split; [done|]); [right; by destruct Hr|left; by eauto].
  - do 3 eexists. split; [reflexivity|]. split; [done|]. split; [cbn; lia|]. by repeat split.
Qed.

End requests.

(** ** Concrete conversations *)

(** A client whose socket takes everything, on a core that prints while it
    attaches. *)
Definition demo_talk (gap : list (list Z)) : Talk :=
  mk_talk true true true true (mk_sock (replicate 8 (Sent 100)) [] false) gap [] [] false.

Definition demo_hub : ConsoleHub := push_all (hub_new 1 0) [chars "old "].

Lemma demo_hub_ok : hub_ok demo_hub.
Proof. apply push_all_ok, hub_new_ok. Qed.

Lemma replay_follows_live_witness :
  match attach_live (demo_talk [chars "new "]) Rw demo_hub with
  | (h', _, Some i) => exists c, c ∈ clients h' /\ delivered (sock c) = chars "new old "
  | _ => False
  end.
Proof.
  destruct (attach_live (demo_talk [chars "new "]) Rw demo_hub) as [[h' replies] who] eqn:E.
  assert (Hw : (attach_live (demo_talk [chars "new "]) Rw demo_hub).2 = Some 1 /\
    List.map id (clients (attach_live (demo_talk [chars "new "]) Rw demo_hub).1.1) = [1]) by (vm_compute; by split).
  rewrite E in Hw. cbn [fst snd] in Hw. destruct Hw as [-> Hcl].
  destruct (clients h') as [|c [|]] eqn:Ec; [discriminate Hcl| |discriminate Hcl]. injection Hcl as Hid.
  exists c. split; [apply list_elem_of_here|].
  destruct (replay_follows_live (demo_talk [chars "new "]) Rw demo_hub h' replies 1 c demo_hub_ok) as (_ & _ & H).
  - reflexivity.
  - exact E.
  - rewrite Ec. apply list_elem_of_here.
  - exact Hid.
  - rewrite H. vm_compute. reflexivity.
Defined.

Lemma last_words_witness : exists st',
  internal_stop booted_demo 1 (chars "test") = Some (st', Ok true) /\
  dispatch_attach_console (demo_talk []) st' 1 Rw = (st', Err SlotState).
Proof.
  destruct (internal_stop booted_demo 1 (chars "test")) as [[st' r]|] eqn:E.
  - assert (Hr : match internal_stop booted_demo 1 (chars "test") with Some (_, Ok true) => true | _ => false end = true)
      by (vm_compute; reflexivity).
    rewrite E in Hr. destruct r as [[]|]; [|discriminate Hr..]. exists st'. split; [reflexivity|].
    destruct (last_words booted_demo 1 (chars "test") demo_slot st' (demo_talk [])) as (_ & _ & H & _).
    + lia.
    + apply lookup_singleton_eq.
    + exact E.
    + vm_compute. discriminate.
    + reflexivity.
    + reflexivity.
    + reflexivity.
    + reflexivity.
    + apply H. discriminate.
  - exfalso. revert E. vm_compute. discriminate.
Defined.

(** A second client takes the keyboard between the reads of the first. *)
Lemma reader_types_as_writer_witness :
  let h := (attach (hub_new 1 0) (mk_sock [] [] false) Rw).1.1 in
  let seize (h : ConsoleHub) := (attach h (mk_sock [] [] false) Takeover).1.1 in
  let reads := [mk_read (fun h => h) (ReadBytes (chars "ls")) true; mk_read seize (ReadBytes (chars "rm")) true;
                mk_read (fun h => h) ReadEof true] in
  let '(h', k', how) := reader_loop 1 reads h (mk_keys [] (Some [])) in
  k_channel k' = chars "ls" /\ k_vc k' = Some (chars "ls") /\ 1 ∉ List.map id (clients h').
Proof.
  intros h seize reads. destruct (reader_loop 1 reads h (mk_keys [] (Some []))) as [[h' k'] how] eqn:E.
  destruct (reader_types_as_writer 1 reads h (mk_keys [] (Some [])) h' k' how) as (H1 & H2 & _ & H4 & _).
  - intros buf [= <-]. discriminate.
  - exact E.
  - assert (Ht : typed 1 reads h = chars "ls") by (vm_compute; reflexivity). rewrite Ht in H1, H2.
    split; [exact H1|]. split; [rewrite H2; vm_compute; reflexivity|]. apply H4.
    assert (Hh : (reader_loop 1 reads h (mk_keys [] (Some []))).2 = Detached) by (vm_compute; reflexivity).
    rewrite E in Hh. exact Hh.
Defined.

Lemma demo_handles_open status : handles_open (demo_card status).
Proof.
  intros i s Hs. change (({[1 := demo_slot]} : gmap Z L2CpuSlot) !! i = Some s) in Hs.
  apply lookup_singleton_Some in Hs as [<- _]. split; [lia|]. exists demo_l2cpu. split; [reflexivity|].
  apply (bool_decide_unpack _). reflexivity.
Qed.

Lemma status_true_witness :
  match dispatch_status (K := counting_kernel []) 42 7 (demo_card 0) with
  | Some (c', p) => looked (demo_card 0) c' /\ List.map st_idx (sp_l2cpus p) = [0; 1; 2; 3]
  | None => False
  end.
Proof.
  destruct (status_true (K := counting_kernel []) 42 7 (demo_card 0) (demo_handles_open 0)) as (c' & p & E & Hl & Hi & _).
  rewrite E. split; [exact Hl|exact Hi].
Defined.

(** One byte is a request here: 1 stops core 1, 2 stops core 2. *)
Definition demo_decode (body : list Z) : option Request :=
  match body with [b] => Some (Stop b) | _ => None end.

Definition no_counts : Counters := mk_counters 0 0 (fun _ => 0) (fun _ => 0).

Definition demo_conversation : option (Card * Counters * list Response) :=
  handle_client (K := counting_kernel []) (L := Tagged.libfdt) (G := late_guest) demo_decode (fun _ => []) (fun _ => [])
    demo_env (demo_talk []) 42 7 [1; 0; 0; 0; 2] (demo_card 0) no_counts.

Lemma conversation_accounts_witness :
  match demo_conversation with
  | Some (_, n', rs) => rs = [RError []] /\ n_rpc_errors n' MStop = 1 /\ n_clients_active n' = 0
  | None => False
  end.
Proof.
  destruct (conversation_accounts (K := counting_kernel []) (L := Tagged.libfdt) (G := late_guest) demo_decode (fun _ => [])
    (fun _ => []) demo_env (demo_talk []) 42 7 [1; 0; 0; 0; 2] (demo_card 0) no_counts) as (c' & n' & rs & E & _ & Ha & _ & H).
  - exact booted_demo_ok.
  - apply demo_handles_open.
  - intros req rest Hr. vm_compute in Hr. injection Hr as <- _. split; [cbn; lia|discriminate].
  - assert (Hm : match demo_conversation with Some (_, _, rs) => bool_decide (List.map is_error rs = [true]) | None => false end = true /\
      match demo_conversation with Some (_, _, [RError m]) => bool_decide (m = []) | _ => false end = true) by (vm_compute; by split).
    change (demo_conversation = Some (c', n', rs)) in E. rewrite E in Hm |- *.
    change (read_frame demo_decode [1; 0; 0; 0; 2]) with (Ok (E := FrameError) (Stop 2, @nil Z)) in H.
    destruct H as [_ [[[msg ->] He]|[Hf _]]].
    + destruct Hm as [_ Hm]. apply bool_decide_eq_true in Hm as ->. rewrite He. split; [reflexivity|]. split; [reflexivity|exact Ha].
    + exfalso. destruct Hm as [Hm _]. apply bool_decide_eq_true in Hm. destruct rs as [|r rs]; [discriminate Hm|].
      apply Forall_cons in Hf as [Hf _]. injection Hm as Hr _. congruence.
Defined.
