(* ===== verification/Metrics.v ===== *)
(** The metrics of [src/daemon/metrics.rs]: the counters and their shapes, and the
    text exposition.  The HTTP exporter and the poller are in [Exporter].

    A [&str] is the list of its Unicode scalar values.  The counters are process
    wide; [Metrics] is a snapshot of them, with those of [handle_client] in the
    record of [Session].  The exposition is a list of lines and their text; the
    printing of a floating-point number is the argument [show_secs]. *)

From S2P Require Import Prelude Text ConsoleHub Clock Telemetry Parse Protocol DeviceTree Server Session ConsoleWorker.

(** ** Counters *)

(** A [Counter] is its u64, a [Gauge] its i64; both wrap. *)
Definition as_i64 (x : Z) : Z := let x := u64 x in if x <? 2 ^ 63 then x else x - 2 ^ 64.

Definition counter_inc (c : Z) : Z := u64 (c + 1).
Definition counter_add (c n : Z) : Z := u64 (c + n).
Definition gauge_set (_ v : Z) : Z := v.
Definition gauge_inc (g : Z) : Z := as_i64 (g + 1).
Definition gauge_dec (g : Z) : Z := as_i64 (g - 1).

(** An array of four cells; an index out of range panics. *)
Definition PerL2cpuCounter : Type := Z -> Z.
Definition PerL2cpuGauge : Type := Z -> Z.
Definition l2cpu_at (v : PerL2cpuCounter) (idx : Z) : option Z :=
  if (0 <=? idx) && (idx <? 4) then Some (v idx) else None.

Record PerL2cpuDirCounter := mk_dir { g2h : PerL2cpuCounter; h2g : PerL2cpuCounter }.
Record PerL2cpuBlkOpCounter := mk_blk_op { op_read : PerL2cpuCounter; op_write : PerL2cpuCounter }.
Record PerL2cpuBlkErrors := mk_blk_errors { ioerr : PerL2cpuCounter; unsupp : PerL2cpuCounter }.
Record PerL2cpuNetDirCounter := mk_net_dir { net_rx : PerL2cpuCounter; net_tx : PerL2cpuCounter }.

Definition tier_name (t : Tier) : list Z :=
  match t with Fast => chars "fast" | Slow => chars "slow" | Idle => chars "idle" end.
Definition tier_all : list Tier := [Fast; Slow; Idle].

Inductive WorkerKind := KVirtioBlk | KVirtioNet | KVirtioConsole | KVirtioRng | KChipConsole.

Definition worker_name (w : WorkerKind) : list Z :=
  match w with
  | KVirtioBlk => chars "virtio_blk"
  | KVirtioNet => chars "virtio_net"
  | KVirtioConsole => chars "virtio_console"
  | KVirtioRng => chars "virtio_rng"
  | KChipConsole => chars "chip_console"
  end.
Definition worker_all : list WorkerKind := [KVirtioBlk; KVirtioNet; KVirtioConsole; KVirtioRng; KChipConsole].
Definition worker_idx (w : WorkerKind) : Z :=
  match w with KVirtioBlk => 0 | KVirtioNet => 1 | KVirtioConsole => 2 | KVirtioRng => 3 | KChipConsole => 4 end.
Definition tier_idx (t : Tier) : Z := match t with Fast => 0 | Slow => 1 | Idle => 2 end.

(** [[[Counter; 3]; 4]; 5]. *)
Definition WorkerTierCounter : Type := Z -> Z -> Z -> Z.
Definition worker_at (v : WorkerTierCounter) (w : WorkerKind) (idx : Z) (t : Tier) : option Z :=
  if (0 <=? idx) && (idx <? 4) then Some (v (worker_idx w) idx (tier_idx t)) else None.

Definition method_name (m : RpcMethod) : list Z :=
  match m with
  | MStatus => chars "status"
  | MBoot => chars "boot"
  | MAttachConsole => chars "attach_console"
  | MAddDisk => chars "add_disk"
  | MRemoveDisk => chars "remove_disk"
  | MAddNet => chars "add_net"
  | MRemoveNet => chars "remove_net"
  | MAddConsole => chars "add_console"
  | MRemoveConsole => chars "remove_console"
  | MStop => chars "stop"
  | MShutdown => chars "shutdown"
  end.
Definition method_all : list RpcMethod :=
  [MStatus; MBoot; MAttachConsole; MAddDisk; MRemoveDisk; MAddNet; MRemoveNet; MAddConsole; MRemoveConsole; MStop; MShutdown].

(** The statics. *)
Record Metrics := mk_metrics {
  DAEMON : Counters;
  DAEMON_SANDBOX_STATUS : Z;
  L2CPU_BOOT_COLD_TOTAL : PerL2cpuCounter;
  L2CPU_BOOT_WARM_TOTAL : PerL2cpuCounter;
  L2CPU_CONSOLE_CLIENTS : PerL2cpuGauge;
  L2CPU_CONSOLE_BYTES_TOTAL : PerL2cpuDirCounter;
  BLK_REQUESTS_TOTAL : PerL2cpuBlkOpCounter;
  BLK_BYTES_TOTAL : PerL2cpuBlkOpCounter;
  BLK_ERRORS_TOTAL : PerL2cpuBlkErrors;
  NET_PACKETS_TOTAL : PerL2cpuNetDirCounter;
  NET_BYTES_TOTAL : PerL2cpuNetDirCounter;
  BLK_INTERRUPTS_TOTAL : PerL2cpuCounter;
  NET_INTERRUPTS_TOTAL : PerL2cpuCounter;
  CONSOLE_INTERRUPTS_TOTAL : PerL2cpuCounter;
  RNG_INTERRUPTS_TOTAL : PerL2cpuCounter;
  NOTIFY_EVENTS_TOTAL : Z;
  DISPATCH_PASSES_TOTAL : Z;
  DISPATCH_QUEUES_DRAINED : Z;
  SEL_READY_RACES_TOTAL : Z;
  BRISC_OLD_SEL_RESCUE_TOTAL : Z;
  UART_FEED_DROPS_TOTAL : PerL2cpuCounter;
  WORKER_POLL_ITERATIONS_TOTAL : WorkerTierCounter;
  WORKER_TIER_NANOS_TOTAL : WorkerTierCounter }.

(** ** Lines *)

Inductive Kind := KCounter | KGauge.

Inductive Line :=
| Help (name help : list Z)
| Type_ (name : list Z) (k : Kind)
| Sample (name : list Z) (labels : list (list Z * list Z)) (value : list Z).

Definition kind_name (k : Kind) : list Z := match k with KCounter => chars "counter" | KGauge => chars "gauge" end.

(** Display of an i64. *)
Definition show_int (n : Z) : list Z := if n <? 0 then 45 :: show_dec (- n) else show_dec n.

Definition show_label (l : list Z * list Z) : list Z := l.1 ++ chars "=" ++ [34] ++ l.2 ++ [34].

Fixpoint show_labels (ls : list (list Z * list Z)) : list Z :=
  match ls with
  | [] => []
  | [l] => show_label l
  | l :: ls => show_label l ++ chars "," ++ show_labels ls
  end.

Definition show_line (l : Line) : list Z :=
  match l with
  | Help name help => chars "# HELP " ++ name ++ chars " " ++ help
  | Type_ name k => chars "# TYPE " ++ name ++ chars " " ++ kind_name k
  | Sample name [] value => name ++ chars " " ++ value
  | Sample name ls value => name ++ chars "{" ++ show_labels ls ++ chars "} " ++ value
  end.

(** [writeln!] for each line. *)
Definition show_lines (ls : list Line) : list Z := flat_map (fun l => show_line l ++ [10]) ls.

Definition header (name help : list Z) (k : Kind) : list Line := [Help name help; Type_ name k].

Definition write_counter (name help : list Z) (value : Z) : list Line :=
  header name help KCounter ++ [Sample name [] (show_dec value)].
Definition write_gauge (name help : list Z) (value : Z) : list Line :=
  header name help KGauge ++ [Sample name [] (show_int value)].
Definition card_label (card : Z) : list Z * list Z := (chars "card", show_dec card).
Definition write_chip_counter (name help : list Z) (card value : Z) : list Line :=
  header name help KCounter ++ [Sample name [card_label card] (show_dec value)].
Definition write_chip_gauge (name help : list Z) (card value : Z) : list Line :=
  header name help KGauge ++ [Sample name [card_label card] (show_int value)].

Definition idx_label (idx : Z) : list Z * list Z := (chars "idx", show_dec idx).
Definition idxs : list Z := [0; 1; 2; 3].

(** ** The exposition *)

Definition render_daemon (m : Metrics) (uptime : Z) : list Line :=
  write_gauge (chars "bhx_daemon_uptime_seconds")
    (chars "Daemon uptime in seconds.") (as_i64 uptime) ++
  write_counter (chars "bhx_daemon_clients_total")
    (chars "Cumulative count of accepted RPC client connections.") (n_clients_total (DAEMON m)) ++
  write_gauge (chars "bhx_daemon_clients_active")
    (chars "Currently-connected RPC clients.") (n_clients_active (DAEMON m)) ++
  write_gauge (chars "bhx_daemon_sandbox_status")
    (chars "Sandbox enforcement: 0=disabled, 1=partial, 2=fully-enforced.") (DAEMON_SANDBOX_STATUS m).

Definition render_rpc (m : Metrics) : list Line :=
  header (chars "bhx_daemon_rpc_total")
    (chars "Cumulative RPC count per method.") KCounter ++
  List.map (fun x => Sample (chars "bhx_daemon_rpc_total") [(chars "method", method_name x)] (show_dec (n_rpc (DAEMON m) x))) method_all ++
  header (chars "bhx_daemon_rpc_errors_total")
    (chars "RPC failures per method.") KCounter ++
  List.map (fun x => Sample (chars "bhx_daemon_rpc_errors_total") [(chars "method", method_name x)] (show_dec (n_rpc_errors (DAEMON m) x))) method_all.

Definition render_l2cpus (m : Metrics) : list Line :=
  header (chars "bhx_l2cpu_boot_total")
    (chars "Boot count per L2CPU, by kind (cold|warm).") KCounter ++
  flat_map (fun i => [Sample (chars "bhx_l2cpu_boot_total") [idx_label i; (chars "kind", chars "cold")] (show_dec (L2CPU_BOOT_COLD_TOTAL m i));
                      Sample (chars "bhx_l2cpu_boot_total") [idx_label i; (chars "kind", chars "warm")] (show_dec (L2CPU_BOOT_WARM_TOTAL m i))]) idxs ++
  header (chars "bhx_l2cpu_console_clients")
    (chars "Currently-attached console clients per L2CPU.") KGauge ++
  List.map (fun i => Sample (chars "bhx_l2cpu_console_clients") [idx_label i] (show_int (L2CPU_CONSOLE_CLIENTS m i))) idxs ++
  header (chars "bhx_l2cpu_console_bytes_total")
    (chars "Chip-console byte transfers per L2CPU per direction (g2h = guest-to-host, h2g = host-to-guest).") KCounter ++
  flat_map (fun i => [Sample (chars "bhx_l2cpu_console_bytes_total") [idx_label i; (chars "direction", chars "g2h")] (show_dec (g2h (L2CPU_CONSOLE_BYTES_TOTAL m) i));
                      Sample (chars "bhx_l2cpu_console_bytes_total") [idx_label i; (chars "direction", chars "h2g")] (show_dec (h2g (L2CPU_CONSOLE_BYTES_TOTAL m) i))]) idxs.

Definition render_devices (m : Metrics) : list Line :=
  header (chars "bhx_blk_requests_total")
    (chars "Block requests completed per L2CPU per op.") KCounter ++
  flat_map (fun i => [Sample (chars "bhx_blk_requests_total") [idx_label i; (chars "disk_id", chars "0"); (chars "op", chars "read")] (show_dec (op_read (BLK_REQUESTS_TOTAL m) i));
                      Sample (chars "bhx_blk_requests_total") [idx_label i; (chars "disk_id", chars "0"); (chars "op", chars "write")] (show_dec (op_write (BLK_REQUESTS_TOTAL m) i))]) idxs ++
  header (chars "bhx_blk_bytes_total")
    (chars "Block bytes transferred per L2CPU per op.") KCounter ++
  flat_map (fun i => [Sample (chars "bhx_blk_bytes_total") [idx_label i; (chars "disk_id", chars "0"); (chars "op", chars "read")] (show_dec (op_read (BLK_BYTES_TOTAL m) i));
                      Sample (chars "bhx_blk_bytes_total") [idx_label i; (chars "disk_id", chars "0"); (chars "op", chars "write")] (show_dec (op_write (BLK_BYTES_TOTAL m) i))]) idxs ++
  header (chars "bhx_blk_errors_total")
    (chars "Block-request errors per L2CPU per reason (ioerr=overflowed image size, unsupp=unknown request type).") KCounter ++
  flat_map (fun i => [Sample (chars "bhx_blk_errors_total") [idx_label i; (chars "disk_id", chars "0"); (chars "reason", chars "ioerr")] (show_dec (ioerr (BLK_ERRORS_TOTAL m) i));
                      Sample (chars "bhx_blk_errors_total") [idx_label i; (chars "disk_id", chars "0"); (chars "reason", chars "unsupp")] (show_dec (unsupp (BLK_ERRORS_TOTAL m) i))]) idxs ++
  header (chars "bhx_net_packets_total")
    (chars "Net packets per L2CPU per direction (rx=slirp-to-guest, tx=guest-to-slirp).") KCounter ++
  flat_map (fun i => [Sample (chars "bhx_net_packets_total") [idx_label i; (chars "direction", chars "rx")] (show_dec (net_rx (NET_PACKETS_TOTAL m) i));
                      Sample (chars "bhx_net_packets_total") [idx_label i; (chars "direction", chars "tx")] (show_dec (net_tx (NET_PACKETS_TOTAL m) i))]) idxs ++
  header (chars "bhx_net_bytes_total")
    (chars "Net bytes per L2CPU per direction.") KCounter ++
  flat_map (fun i => [Sample (chars "bhx_net_bytes_total") [idx_label i; (chars "direction", chars "rx")] (show_dec (net_rx (NET_BYTES_TOTAL m) i));
                      Sample (chars "bhx_net_bytes_total") [idx_label i; (chars "direction", chars "tx")] (show_dec (net_tx (NET_BYTES_TOTAL m) i))]) idxs ++
  header (chars "bhx_blk_interrupts_total")
    (chars "Block-device PLIC interrupts per L2CPU.") KCounter ++
  List.map (fun i => Sample (chars "bhx_blk_interrupts_total") [idx_label i; (chars "disk_id", chars "0")] (show_dec (BLK_INTERRUPTS_TOTAL m i))) idxs ++
  header (chars "bhx_net_interrupts_total")
    (chars "Net-device PLIC interrupts per L2CPU.") KCounter ++
  List.map (fun i => Sample (chars "bhx_net_interrupts_total") [idx_label i] (show_dec (NET_INTERRUPTS_TOTAL m i))) idxs.

Definition render_workers (show_secs : Z -> list Z) (m : Metrics) : list Line :=
  header (chars "bhx_worker_poll_iterations_total")
    (chars "Adaptive-sleep loop iterations per worker per L2CPU per tier (fast=" ++ [181] ++ chars "s, slow=ms, idle=10ms " ++ [8212] ++ chars " see #27).") KCounter ++
  flat_map (fun w => flat_map (fun i => List.map (fun t =>
    Sample (chars "bhx_worker_poll_iterations_total") [(chars "worker", worker_name w); idx_label i; (chars "tier", tier_name t)]
      (show_dec (WORKER_POLL_ITERATIONS_TOTAL m (worker_idx w) i (tier_idx t)))) tier_all) idxs) worker_all ++
  header (chars "bhx_worker_tier_seconds_total")
    (chars "Cumulative seconds spent sleeping in each tier per worker per L2CPU.") KCounter ++
  flat_map (fun w => flat_map (fun i => List.map (fun t =>
    Sample (chars "bhx_worker_tier_seconds_total") [(chars "worker", worker_name w); idx_label i; (chars "tier", tier_name t)]
      (show_secs (WORKER_TIER_NANOS_TOTAL m (worker_idx w) i (tier_idx t)))) tier_all) idxs) worker_all.

Definition render_dispatch (m : Metrics) : list Line :=
  write_counter (chars "bhx_notify_events_total")
    (chars "Cumulative count of guest QUEUE_NOTIFY events BRISC has observed. Mirrors STATS_OFF_NOTIFY_EVENTS.") (NOTIFY_EVENTS_TOTAL m) ++
  write_counter (chars "bhx_dispatch_passes_total")
    (chars "Cumulative count of poll iterations that dispatched at least one (slot, queue) pair via the V2 dirty bitmap.") (DISPATCH_PASSES_TOTAL m) ++
  write_counter (chars "bhx_dispatch_queues_drained")
    (chars "Cumulative count of (slot, queue) pairs dispatched via the V2 dirty bitmap. Roughly the count of guest kicks the daemon turned into a non-empty avail walk.") (DISPATCH_QUEUES_DRAINED m) ++
  write_counter (chars "bhx_sel_ready_races_total")
    (chars "Cumulative count of QUEUE_SEL changes BRISC processed while the previous SEL's QUEUE_READY was still 1 " ++ [8212] ++ chars " the race window M7.2 (#71) was designed to close. Non-zero means BRISC's sweep is borderline; a stock guest kernel can read stale QUEUE_READY=1 and bail virtio probe with -ENOENT.") (SEL_READY_RACES_TOTAL m) ++
  write_counter (chars "bhx_brisc_old_sel_rescue_total")
    (chars "Cumulative count of BRISC's OLD-sel rescue captures " ++ [8212] ++ chars " the third-and-last layer of the SEL" ++ [8594] ++ chars "READY race close. BRISC snapshots the still-visible kernel writes for the previous SEL into shadow when neither the SEL-watch nor handle_queue_ready_change caught the READY=1 in time.") (BRISC_OLD_SEL_RESCUE_TOTAL m) ++
  header (chars "bhx_uart_feed_drops_total")
    (chars "UART feed-ring drops per L2CPU (TRISC0 producer outpaced the daemon consumer).") KCounter ++
  List.map (fun i => Sample (chars "bhx_uart_feed_drops_total") [idx_label i] (show_dec (UART_FEED_DROPS_TOTAL m i))) idxs.

(** What the exposition reads of a slot: its uptime, its number of disks and
    whether it has a network. *)
Record SlotView := mk_slot_view { v_uptime : Z; v_disks : Z; v_net : bool }.

Definition slot_lines (slot : option SlotView) (idx : Z) : list Line :=
  match slot with
  | Some s =>
      [Sample (chars "bhx_l2cpu_running") [idx_label idx] (chars "1");
       Sample (chars "bhx_l2cpu_uptime_seconds") [idx_label idx] (show_int (as_i64 (v_uptime s)));
       Sample (chars "bhx_l2cpu_disks") [idx_label idx] (show_dec (v_disks s));
       Sample (chars "bhx_l2cpu_net") [idx_label idx] (show_dec (if v_net s then 1 else 0))]
  | None =>
      [Sample (chars "bhx_l2cpu_running") [idx_label idx] (chars "0");
       Sample (chars "bhx_l2cpu_disks") [idx_label idx] (chars "0");
       Sample (chars "bhx_l2cpu_net") [idx_label idx] (chars "0")]
  end.

Definition render_slots (slots : Z -> option SlotView) : list Line :=
  header (chars "bhx_l2cpu_running")
    (chars "1 if a slot is installed for this L2CPU, else 0.") KGauge ++
  header (chars "bhx_l2cpu_uptime_seconds")
    (chars "Seconds since slot installation. Absent for L2CPUs without an installed slot.") KGauge ++
  header (chars "bhx_l2cpu_disks")
    (chars "Attached disk-worker count per L2CPU.") KGauge ++
  header (chars "bhx_l2cpu_net")
    (chars "Net-worker presence per L2CPU (0 or 1).") KGauge ++
  flat_map (fun i => slot_lines (slots i) i) idxs.

(** ** Chip telemetry *)

(** [{:#x}] and the padded forms. *)
Definition hex (n : Z) : list Z := chars "0x" ++ show_hex n.
Definition hex_pad (w : nat) (n : Z) : list Z := chars "0x" ++ show_hex_pad w n.


Definition pairs : list (list Z) := [chars "01"; chars "23"; chars "45"; chars "67"].

Definition render_card_info (card : Z) (t : Telemetry) : list Line :=
  header (chars "bhx_card_info")
    (chars "Card / chip identification. Always 1; payload is in the labels.") KGauge ++
  [Sample (chars "bhx_card_info")
     [card_label card; (chars "board_id", hex_pad 16 (board_id t)); (chars "asic_id", show_dec (field t F_asic_id));
      (chars "asic_location", show_dec (field t F_asic_location)); (chars "harvesting", hex_pad 8 (field t F_harvesting_state));
      (chars "enabled_l2cpu", hex (field t F_enabled_l2cpu)); (chars "enabled_gddr", hex (field t F_enabled_gddr));
      (chars "enabled_eth", hex (field t F_enabled_eth)); (chars "pcie_usage", show_dec (field t F_pcie_usage))] (chars "1")].

Definition render_thermal (card : Z) (t : Telemetry) : list Line :=
  write_chip_gauge (chars "bhx_chip_asic_temperature_millicelsius")
    (chars "ASIC die temperature, millicelsius (decoded from ARC's 16.16 fixed-point).") card (field t F_asic_temperature_mc) ++
  write_chip_gauge (chars "bhx_chip_vreg_temperature_millicelsius")
    (chars "Voltage-regulator temperature, millicelsius.") card (field t F_vreg_temperature_mc) ++
  write_chip_gauge (chars "bhx_chip_board_temperature_millicelsius")
    (chars "Board ambient temperature, millicelsius.") card (field t F_board_temperature_mc) ++
  write_chip_gauge (chars "bhx_chip_max_gddr_temperature_celsius")
    (chars "Highest observed GDDR channel-pair temperature, " ++ [176] ++ chars "C.") card (field t F_max_gddr_temperature_c) ++
  header (chars "bhx_chip_gddr_temperature_celsius")
    (chars "Per-channel-pair GDDR temperature, " ++ [176] ++ chars "C.") KGauge ++
  List.map (fun x => Sample (chars "bhx_chip_gddr_temperature_celsius") [card_label card; (chars "pair", x.1)] (show_dec (field t x.2)))
    (List.combine pairs [F_gddr_temperature_c_0; F_gddr_temperature_c_1; F_gddr_temperature_c_2; F_gddr_temperature_c_3]) ++
  header (chars "bhx_chip_gddr_corr_errors_total")
    (chars "Per-channel-pair correctable ECC errors (cumulative).") KCounter ++
  List.map (fun x => Sample (chars "bhx_chip_gddr_corr_errors_total") [card_label card; (chars "pair", x.1)] (show_dec (field t x.2)))
    (List.combine pairs [F_gddr_corr_errs_0; F_gddr_corr_errs_1; F_gddr_corr_errs_2; F_gddr_corr_errs_3]) ++
  write_chip_counter (chars "bhx_chip_gddr_uncorr_errors_total")
    (chars "Total uncorrectable ECC errors across all GDDR channels.") card (field t F_gddr_uncorr_errs).

Definition render_clocks (card : Z) (t : Telemetry) : list Line :=
  write_chip_gauge (chars "bhx_chip_aiclk_mhz")
    (chars "AI compute clock, MHz.") card (field t F_aiclk_mhz) ++
  write_chip_gauge (chars "bhx_chip_axiclk_mhz")
    (chars "AXI fabric clock, MHz.") card (field t F_axiclk_mhz) ++
  write_chip_gauge (chars "bhx_chip_arcclk_mhz")
    (chars "ARC management clock, MHz.") card (field t F_arcclk_mhz) ++
  write_chip_gauge (chars "bhx_chip_aiclk_limit_max_mhz")
    (chars "AI clock max-frequency limit, MHz.") card (field t F_aiclk_limit_max_mhz) ++
  header (chars "bhx_chip_l2cpuclk_mhz")
    (chars "Per-L2CPU clock as published by ARC FW, MHz.") KGauge ++
  List.map (fun x => Sample (chars "bhx_chip_l2cpuclk_mhz") [card_label card; (chars "idx", x.1)] (show_dec (field t x.2)))
    (List.combine (List.map show_dec idxs) [F_l2cpuclk_mhz_0; F_l2cpuclk_mhz_1; F_l2cpuclk_mhz_2; F_l2cpuclk_mhz_3]).

Definition render_power (card : Z) (t : Telemetry) : list Line :=
  write_chip_gauge (chars "bhx_chip_tdp_watts")
    (chars "Instantaneous power draw, W.") card (field t F_tdp_w) ++
  write_chip_gauge (chars "bhx_chip_tdc_amps")
    (chars "Instantaneous current draw, A.") card (field t F_tdc_a) ++
  write_chip_gauge (chars "bhx_chip_input_power_watts")
    (chars "Board input power, W.") card (field t F_input_power_w) ++
  write_chip_gauge (chars "bhx_chip_vcore_millivolts")
    (chars "Core voltage, mV.") card (field t F_vcore_mv) ++
  write_chip_gauge (chars "bhx_chip_vdd_min_millivolts")
    (chars "VDD operating range minimum, mV.") card (field t F_vdd_min_mv) ++
  write_chip_gauge (chars "bhx_chip_vdd_max_millivolts")
    (chars "VDD operating range maximum, mV.") card (field t F_vdd_max_mv) ++
  write_chip_gauge (chars "bhx_chip_tdp_limit_max_watts")
    (chars "TDP soft-cap, W.") card (field t F_tdp_limit_max_w) ++
  write_chip_gauge (chars "bhx_chip_tdc_limit_max_amps")
    (chars "TDC soft-cap, A.") card (field t F_tdc_limit_max_a) ++
  write_chip_gauge (chars "bhx_chip_board_power_limit_watts")
    (chars "Board-level power limit, W.") card (field t F_board_power_limit_w) ++
  write_chip_gauge (chars "bhx_chip_thm_limit_throttle_celsius")
    (chars "Thermal throttle threshold, " ++ [176] ++ chars "C.") card (field t F_thm_limit_throttle_c) ++
  write_chip_gauge (chars "bhx_chip_fan_pct")
    (chars "Fan duty cycle, %.") card (field t F_fan_speed_pct) ++
  write_chip_gauge (chars "bhx_chip_fan_rpm")
    (chars "Fan rotational speed, RPM.") card (field t F_fan_rpm) ++
  write_chip_gauge (chars "bhx_chip_ddr_status")
    (chars "DRAM training status bitfield.") card (field t F_ddr_status) ++
  write_chip_gauge (chars "bhx_chip_ddr_speed_mts")
    (chars "DRAM trained speed grade, MT/s.") card (field t F_ddr_speed_mts) ++
  write_chip_counter (chars "bhx_chip_arc_heartbeat_total")
    (chars "ARC firmware heartbeat. Should advance on every poll. If it stalls, ARC FW has hung.") card (field t F_timer_heartbeat) ++
  write_chip_counter (chars "bhx_chip_therm_trip_total")
    (chars "Thermal-trip events on this chip. Hardware shut clocks down to recover.") card (field t F_therm_trip_count) ++
  write_chip_gauge (chars "bhx_chip_eth_live_status")
    (chars "Ethernet tile liveness bitfield (per-tile).") card (field t F_eth_live_status).

Definition render_chip_telemetry (card : Z) (snapshot : option Telemetry) : list Line :=
  match snapshot with
  | None => []
  | Some t => render_card_info card t ++ render_thermal card t ++ render_clocks card t ++ render_power card t
  end.

(** What the exposition reads of the daemon. *)
Record DaemonView := mk_daemon_view {
  d_card : Z; d_uptime : Z; d_slots : Z -> option SlotView; d_telemetry : option Telemetry }.

Definition metric_lines (show_secs : Z -> list Z) (m : Metrics) (d : DaemonView) : list Line :=
  render_daemon m (d_uptime d) ++ render_rpc m ++ render_l2cpus m ++ render_devices m ++ render_workers show_secs m ++
  render_dispatch m ++ render_slots (d_slots d) ++ render_chip_telemetry (d_card d) (d_telemetry d).

Definition render_prometheus (show_secs : Z -> list Z) (m : Metrics) (d : DaemonView) : list Z :=
  show_lines (metric_lines show_secs m d).

(** ** Reading the exposition back *)

(** The format's own grammar: a metric or label name, and the text of a label
    value, which needs no escape. *)
Definition name_ch (c : Z) : bool := is_alnum c || (c =? 95) || (c =? 58).
Definition good_name (s : list Z) : bool := negb (bool_decide (s = [])) && forallb name_ch s.
Definition printable (c : Z) : bool := (32 <=? c) && (c <? 127).
Definition value_ch (c : Z) : bool := printable c && negb (existsb (Z.eqb c) [34; 44; 125]).

Definition good_label (l : list Z * list Z) : bool := good_name l.1 && forallb value_ch l.2.
Definition sample_ch (c : Z) : bool := printable c && negb (c =? 123).

(** A Unicode scalar value; the text of a help is on one line. *)
Definition scalar (c : Z) : bool := (0 <=? c) && (c <? 0xD800) || (0xE000 <=? c) && (c <? 0x110000).
Definition help_ch (c : Z) : bool := scalar c && negb (c =? 10).

Definition good_line (l : Line) : bool :=
  match l with
  | Help name help => good_name name && forallb help_ch help
  | Type_ name _ => good_name name
  | Sample name ls value => good_name name && forallb good_label ls && forallb sample_ch value
  end.

(** A scraper: split into lines, each line by its prefix. *)
Fixpoint split_on (d : Z) (s : list Z) : list (list Z) :=
  match s with
  | [] => [[]]
  | c :: s =>
      if c =? d then [] :: split_on d s
      else match split_on d s with p :: ps => (c :: p) :: ps | [] => [[c]] end
  end.

Definition parse_kind (s : list Z) : option Kind :=
  if bool_decide (s = chars "counter") then Some KCounter
  else if bool_decide (s = chars "gauge") then Some KGauge else None.

Definition parse_label (s : list Z) : option (list Z * list Z) :=
  let! (name, rest) := split_once [61] s in
  let! rest := strip_prefix [34] rest in
  let! value := strip_suffix rest [34] in
  Some (name, value).

Definition parse_sample (s : list Z) : option Line :=
  match split_once [123] s with
  | None => let! (name, value) := split_once [32] s in Some (Sample name [] value)
  | Some (name, rest) =>
      let! (labels, rest) := split_once [125] rest in
      let! value := strip_prefix [32] rest in
      let! labels := mapM parse_label (split_on 44 labels) in
      Some (Sample name labels value)
  end.

Definition parse_line (s : list Z) : option Line :=
  match strip_prefix (chars "# HELP ") s with
  | Some rest => let! (name, help) := split_once [32] rest in Some (Help name help)
  | None =>
      match strip_prefix (chars "# TYPE ") s with
      | Some rest => let! (name, k) := split_once [32] rest in let! k := parse_kind k in Some (Type_ name k)
      | None => parse_sample s
      end
  end.

(** The lines, the last one empty. *)
Definition parse_exposition (s : list Z) : option (list Line) :=
  match rev (split_on 10 s) with
  | [] :: ls => mapM parse_line (rev ls)
  | _ => None
  end.

Lemma split_on_none d s : forallb (fun c => negb (c =? d)) s = true -> split_on d s = [s].
Proof. induction s as [|c s IH]; [done|]. cbn. rewrite andb_true_iff. intros [-> %negb_true_iff H]. by rewrite IH. Qed.

Lemma split_on_app d s t : forallb (fun c => negb (c =? d)) s = true -> split_on d (s ++ d :: t) = s :: split_on d t.
Proof.
  induction s as [|c s IH]; cbn; [by rewrite Z.eqb_refl|]. rewrite andb_true_iff.
  intros [-> %negb_true_iff H]. by rewrite (IH H).
Qed.

Lemma forallb_imp {A} (p q : A -> bool) l : (forall x, p x = true -> q x = true) -> forallb p l = true -> forallb q l = true.
Proof. rewrite !forallb_forall. eauto. Qed.

(** What is outside a character class does not occur in a text of the class. *)
Lemma class_ne (p : Z -> bool) d s : p d = false -> forallb p s = true -> Forall (fun c => c <> d) s.
Proof.
  rewrite forallb_forall, Forall_forall. intros Hd H x Hx ->. apply list_elem_of_In, H in Hx. congruence.
Qed.

Lemma class_neb (p : Z -> bool) d s : p d = false -> forallb p s = true -> forallb (fun c => negb (c =? d)) s = true.
Proof. intros Hd. apply forallb_imp. intros x Hx. apply negb_true_iff, Z.eqb_neq. intros ->. congruence. Qed.

Lemma forallb_app_iff {A} (p : A -> bool) l k : forallb p (l ++ k) = true <-> forallb p l = true /\ forallb p k = true.
Proof. rewrite forallb_app. apply andb_true_iff. Qed.

Lemma parse_label_show l : good_label l = true -> parse_label (show_label l) = Some l.
Proof.
  destruct l as [n v]. unfold good_label, good_name. rewrite !andb_true_iff. cbn [fst snd]. intros [[_ Hn] Hv].
  unfold parse_label, show_label. cbn [fst snd].
  change (chars "=") with [61]. rewrite (split_once_char 61) by by apply (class_ne name_ch).
  cbn [app strip_prefix]. change (34 =? 34) with true. cbv iota.
  assert (strip_suffix (v ++ [34]) [34] = Some v) as -> by by apply strip_suffix_app. done.
Qed.

Lemma show_label_no d l : good_label l = true -> name_ch d = false -> value_ch d = false -> d <> 61 -> d <> 34 ->
  forallb (fun c => negb (c =? d)) (show_label l) = true.
Proof.
  unfold good_label, good_name, show_label. rewrite !andb_true_iff. intros [[_ Hn] Hv] Hdn Hdv H1 H2.
  assert (forall c, d <> c -> negb (c =? d) = true) as Hne by (intros c Hc; apply negb_true_iff, Z.eqb_neq; congruence).
  change (chars "=") with [61]. rewrite !forallb_app_iff. repeat split;
    first [by apply (class_neb name_ch)|by apply (class_neb value_ch)|cbn [forallb]; by rewrite Hne].
Qed.

Lemma show_labels_split ls : ls <> [] -> forallb good_label ls = true ->
  mapM parse_label (split_on 44 (show_labels ls)) = Some ls.
Proof.
  induction ls as [|l ls IH]; [done|]. intros _. cbn [forallb]. rewrite andb_true_iff. intros [Hl Hls].
  destruct ls as [|l2 ls].
  - cbn. rewrite split_on_none by by apply show_label_no. cbn. by rewrite parse_label_show.
  - change (show_labels (l :: l2 :: ls)) with (show_label l ++ 44 :: show_labels (l2 :: ls)).
    rewrite split_on_app by by apply show_label_no.
    cbn [mapM]. rewrite parse_label_show by done. cbn [mbind option_bind]. by rewrite IH.
Qed.

Lemma show_labels_no d ls : forallb good_label ls = true -> name_ch d = false -> value_ch d = false ->
  d <> 61 -> d <> 34 -> d <> 44 -> forallb (fun c => negb (c =? d)) (show_labels ls) = true.
Proof.
  intros H Hn Hv H1 H2 H3. induction ls as [|l ls IH]; [done|]. cbn [forallb] in H.
  apply andb_true_iff in H as [Hl Hls]. destruct ls as [|l2 ls]; [by apply show_label_no|].
  change (show_labels (l :: l2 :: ls)) with (show_label l ++ [44] ++ show_labels (l2 :: ls)).
  rewrite !forallb_app_iff, (IH Hls). split; [by apply show_label_no|]. split; [|done].
  cbn [forallb]. rewrite andb_true_r. apply negb_true_iff, Z.eqb_neq. congruence.
Qed.

(** A sample starts with a name, so it is no comment. *)
Lemma name_no_comment n s : good_name n = true -> strip_prefix (chars "# HELP ") (n ++ s) = None /\
  strip_prefix (chars "# TYPE ") (n ++ s) = None.
Proof.
  unfold good_name. destruct n as [|c n]; [done|]. cbn [bool_decide negb andb forallb app].
  rewrite !andb_true_iff. intros [_ [Hc _]].
  change (chars "# HELP ") with (35 :: chars " HELP "). change (chars "# TYPE ") with (35 :: chars " TYPE ").
  cbn [strip_prefix]. destruct (Z.eqb_spec 35 c) as [<-|]; done.
Qed.

Lemma split_once_none d s : Forall (fun c => c <> d) s -> split_once [d] s = None.
Proof.
  induction 1 as [|c s Hc _ IH]; [done|]. cbn [split_once strip_prefix].
  destruct (Z.eqb_spec d c); [congruence|]. by rewrite IH.
Qed.

Lemma name_ne d n : good_name n = true -> name_ch d = false -> Forall (fun c => c <> d) n.
Proof. unfold good_name. rewrite andb_true_iff. intros [_ H] Hd. by apply (class_ne name_ch). Qed.

Lemma parse_sample_show n ls v : good_line (Sample n ls v) = true ->
  parse_sample (show_line (Sample n ls v)) = Some (Sample n ls v).
Proof.
  cbn [good_line]. rewrite !andb_true_iff. intros [[Hn Hl] Hv]. unfold parse_sample, show_line.
  destruct ls as [|l ls].
  - change (chars " ") with [32].
    rewrite (split_once_none 123); [by rewrite split_once_char by by apply name_ne|].
    apply Forall_app; split; [by apply name_ne|]. constructor; [done|]. by apply (class_ne sample_ch).
  - change (chars "{") with [123]. rewrite split_once_char by by apply name_ne.
    change (chars "} ") with ([125] ++ [32]). rewrite <- app_assoc.
    rewrite split_once_char by (by apply (class_ne (fun c => negb (c =? 125))), show_labels_no).
    cbn [app strip_prefix]. change (32 =? 32) with true. cbv iota. rewrite show_labels_split; done.
Qed.

Lemma parse_line_show l : good_line l = true -> parse_line (show_line l) = Some l.
Proof.
  intros H. unfold parse_line. destruct l as [n h|n k|n ls v].
  - cbn [good_line] in H. apply andb_true_iff in H as [Hn _]. cbn [show_line].
    assert (strip_prefix (chars "# HELP ") (chars "# HELP " ++ n ++ chars " " ++ h) = Some (n ++ chars " " ++ h)) as ->
      by by apply strip_prefix_app.
    change (chars " ") with [32]. by rewrite split_once_char by by apply name_ne.
  - cbn [good_line show_line] in *. change (strip_prefix (chars "# HELP ") (chars "# TYPE " ++ _)) with (@None (list Z)).
    assert (strip_prefix (chars "# TYPE ") (chars "# TYPE " ++ n ++ chars " " ++ kind_name k) = Some (n ++ chars " " ++ kind_name k)) as ->
      by by apply strip_prefix_app.
    change (chars " ") with [32]. rewrite split_once_char by by apply name_ne. by destruct k.
  - pose proof H as Hn. cbn [good_line] in Hn. rewrite !andb_true_iff in Hn. destruct Hn as [[Hn _] _].
    assert (exists t, show_line (Sample n ls v) = n ++ t) as [t Ht] by (destruct ls; eexists; reflexivity).
    destruct (name_no_comment n t Hn) as [H1 H2]. rewrite Ht, H1, H2, <- Ht. by apply parse_sample_show.
Qed.

(** A class that the lines' characters have in common. *)
Lemma show_label_class (p : Z -> bool) l : (forall c, name_ch c || value_ch c = true -> p c = true) ->
  p 61 && p 34 = true -> good_label l = true -> forallb p (show_label l) = true.
Proof.
  intros Hp Hs. unfold good_label, good_name, show_label. rewrite !andb_true_iff in *. intros [[_ Hn] Hv].
  change (chars "=") with [61]. rewrite !forallb_app_iff. cbn [forallb]. destruct Hs as [-> ->].
  repeat split; [eapply forallb_imp; [|exact Hn]|eapply forallb_imp; [|exact Hv]]; intros x Hx; apply Hp; by rewrite Hx, ?orb_true_r.
Qed.

Lemma show_labels_class (p : Z -> bool) ls : (forall c, name_ch c || value_ch c = true -> p c = true) ->
  p 61 && p 34 = true -> p 44 = true -> forallb good_label ls = true -> forallb p (show_labels ls) = true.
Proof.
  intros Hp Hs Hc. induction ls as [|l ls IH]; [done|]. cbn [forallb]. rewrite andb_true_iff. intros [Hl Hls].
  destruct ls as [|l2 ls]; [by apply show_label_class|].
  change (show_labels (l :: l2 :: ls)) with (show_label l ++ [44] ++ show_labels (l2 :: ls)).
  rewrite !forallb_app_iff, (IH Hls). cbn [forallb]. rewrite Hc. by rewrite show_label_class.
Qed.

Lemma name_help c : name_ch c = true -> help_ch c = true.
Proof. unfold name_ch, is_alnum, is_alpha, is_lower, is_upper, is_digit, help_ch, scalar. lia. Qed.
Lemma printable_help c : printable c = true -> help_ch c = true.
Proof. unfold printable, help_ch, scalar. lia. Qed.
Lemma label_help c : name_ch c || value_ch c = true -> help_ch c = true.
Proof.
  rewrite orb_true_iff. intros [H|H]; [by apply name_help|]. unfold value_ch in H.
  apply andb_true_iff in H as [H _]. by apply printable_help.
Qed.

Lemma show_line_help l : good_line l = true -> forallb help_ch (show_line l) = true.
Proof.
  intros H. assert (forall n, good_name n = true -> forallb help_ch n = true) as Hname.
  { unfold good_name. intros n. rewrite andb_true_iff. intros [_ Hn]. eapply forallb_imp; [apply name_help|done]. }
  destruct l as [n h|n k|n ls v]; cbn [good_line show_line] in *; rewrite ?andb_true_iff in H.
  - destruct H as [Hn Hh]. rewrite !forallb_app_iff. auto.
  - rewrite !forallb_app_iff. destruct k; auto.
  - destruct H as [[Hn Hl] Hv]. assert (forallb help_ch v = true) as Hv'.
    { eapply forallb_imp; [|exact Hv]. unfold sample_ch. intros c Hc. apply andb_true_iff in Hc as [Hc _]. by apply printable_help. }
    assert (forallb help_ch (show_labels ls) = true) by by apply show_labels_class; [apply label_help|..].
    destruct ls as [|l ls]; rewrite !forallb_app_iff; auto 8.
Qed.

Lemma show_line_no_newline l : good_line l = true -> forallb (fun c => negb (c =? 10)) (show_line l) = true.
Proof. intros H. by apply (class_neb help_ch), show_line_help. Qed.

Lemma show_lines_scalar ls : forallb good_line ls = true -> forallb scalar (show_lines ls) = true.
Proof.
  unfold show_lines. induction ls as [|l ls IH]; [done|]. cbn [forallb flat_map]. rewrite andb_true_iff. intros [Hl Hls].
  rewrite !forallb_app_iff. repeat split; [|by apply IH]. eapply forallb_imp; [|by apply show_line_help].
  unfold help_ch. intros c Hc. by apply andb_true_iff in Hc as [Hc _].
Qed.

Lemma split_lines ls : forallb good_line ls = true -> split_on 10 (show_lines ls) = List.map show_line ls ++ [[]].
Proof.
  induction ls as [|l ls IH]; [done|]. cbn [forallb]. rewrite andb_true_iff. intros [Hl Hls].
  cbn [show_lines flat_map List.map app]. rewrite <- app_assoc. cbn [app].
  rewrite split_on_app by by apply show_line_no_newline. unfold show_lines in IH. by rewrite IH.
Qed.

Lemma parse_show_lines ls : forallb good_line ls = true -> parse_exposition (show_lines ls) = Some ls.
Proof.
  intros H. unfold parse_exposition. rewrite split_lines by done. rewrite rev_app_distr. cbn. rewrite rev_involutive.
  induction ls as [|l ls IH]; [done|]. cbn [forallb] in H. apply andb_true_iff in H as [Hl Hls].
  cbn [List.map mapM]. rewrite parse_line_show by done. cbn [mbind option_bind]. by rewrite IH.
Qed.

(** ** The lines are well formed *)

Lemma class_digits (p : Z -> bool) n : (forall c, is_digit c = true -> p c = true) -> forallb p (show_dec n) = true.
Proof.
  intros H. apply forallb_forall. intros c Hc. apply H. pose proof (show_dec_digits n) as Hd.
  rewrite Forall_forall in Hd. by apply Hd, list_elem_of_In.
Qed.

Lemma digit_value_ch c : is_digit c = true -> value_ch c = true.
Proof. unfold is_digit, value_ch, printable. cbn [existsb]. lia. Qed.

Lemma digit_sample_ch c : is_digit c = true -> sample_ch c = true.
Proof. unfold is_digit, sample_ch, printable. lia. Qed.

Lemma show_dec_value n : forallb value_ch (show_dec n) = true.
Proof. apply class_digits, digit_value_ch. Qed.

Lemma show_dec_sample n : forallb sample_ch (show_dec n) = true.
Proof. apply class_digits, digit_sample_ch. Qed.

Lemma show_int_sample n : forallb sample_ch (show_int n) = true.
Proof. unfold show_int. destruct (n <? 0); [cbn [forallb]; rewrite show_dec_sample|apply show_dec_sample]; done. Qed.

Lemma hex_digit_value_ch n : 0 <= n < 16 -> value_ch (hex_digit_of n) = true.
Proof. unfold hex_digit_of, value_ch, printable. cbn [existsb]. intros. destruct (n <? 10) eqn:E; lia. Qed.

Lemma show_hex_aux_value_ch fuel : forall n acc, forallb value_ch acc = true -> forallb value_ch (show_hex_aux fuel n acc) = true.
Proof.
  induction fuel as [|fuel IH]; intros n acc H; [done|]. cbn [show_hex_aux].
  assert (forallb value_ch (hex_digit_of (n mod 16) :: acc) = true) as H2
    by (cbn [forallb]; rewrite hex_digit_value_ch by (apply Z.mod_pos_bound; lia); done).
  destruct (_ =? 0); auto.
Qed.

Lemma show_hex_value_ch n : forallb value_ch (show_hex n) = true.
Proof. by apply show_hex_aux_value_ch. Qed.

Lemma show_hex_pad_value_ch w n : forallb value_ch (show_hex_pad w n) = true.
Proof.
  unfold show_hex_pad. apply forallb_app_iff. split; [|apply show_hex_value_ch].
  apply forallb_forall. intros c Hc. apply list_elem_of_In, elem_of_replicate in Hc as [-> _]. done.
Qed.

Lemma hex_value_ch n : forallb value_ch (hex n) = true.
Proof. unfold hex. apply forallb_app_iff. split; [done|apply show_hex_value_ch]. Qed.

Lemma hex_pad_value_ch w n : forallb value_ch (hex_pad w n) = true.
Proof. unfold hex_pad. apply forallb_app_iff. split; [done|apply show_hex_pad_value_ch]. Qed.

Lemma method_name_value m : forallb value_ch (method_name m) = true.
Proof. by destruct m. Qed.
Lemma worker_name_value w : forallb value_ch (worker_name w) = true.
Proof. by destruct w. Qed.
Lemma tier_name_value t : forallb value_ch (tier_name t) = true.
Proof. by destruct t. Qed.

Create HintDb exposition.
#[export] Hint Resolve show_dec_value show_dec_sample show_int_sample hex_value_ch hex_pad_value_ch
  method_name_value worker_name_value tier_name_value : exposition.

Lemma forallb_map_intro {A B} (p : B -> bool) (f : A -> B) l : (forall x, p (f x) = true) -> forallb p (List.map f l) = true.
Proof. intros H. induction l as [|x l IH]; [done|]. cbn. by rewrite H. Qed.

Lemma forallb_flat_map_intro {A B} (p : B -> bool) (f : A -> list B) l :
  (forall x, forallb p (f x) = true) -> forallb p (flat_map f l) = true.
Proof. intros H. induction l as [|x l IH]; [done|]. cbn. apply forallb_app_iff. by rewrite H. Qed.

Ltac good_lines :=
  repeat match goal with
    | |- forall _, _ => intros
    | |- forallb _ (_ ++ _) = true => apply forallb_app_iff
    | |- forallb good_line (List.map _ _) = true => apply forallb_map_intro
    | |- forallb good_line (flat_map _ _) = true => apply forallb_flat_map_intro
    | |- forallb good_line (_ :: _) = true => apply andb_true_iff
    | |- forallb good_line (match _ with _ => _ end) = true => case_match
    | |- forallb good_label (_ :: _) = true => apply andb_true_iff
    | |- forallb _ [] = true => reflexivity
    | |- good_line (Sample _ _ _) = true => apply andb_true_iff
    | |- good_label _ = true => apply andb_true_iff; cbn [fst snd]
    | |- (_ && _) = true => apply andb_true_iff
    | |- _ /\ _ => split
    | |- _ => first [solve [auto 1 with exposition nocore]|vm_compute; reflexivity]
    end.

Lemma good_daemon m up : forallb good_line (render_daemon m up) = true.
Proof. unfold render_daemon, write_gauge, write_counter, header. good_lines. Qed.
Lemma good_rpc m : forallb good_line (render_rpc m) = true.
Proof. unfold render_rpc, header. good_lines. Qed.
Lemma good_l2cpus m : forallb good_line (render_l2cpus m) = true.
Proof. unfold render_l2cpus, header, idx_label. good_lines. Qed.
Lemma good_devices m : forallb good_line (render_devices m) = true.
Proof. unfold render_devices, header, idx_label. good_lines. Qed.
Lemma good_dispatch m : forallb good_line (render_dispatch m) = true.
Proof. unfold render_dispatch, write_counter, header, idx_label. good_lines. Qed.
Lemma good_slots slots : forallb good_line (render_slots slots) = true.
Proof.
  unfold render_slots, header. unfold slot_lines, idx_label. good_lines.
Qed.
Lemma good_workers show_secs m :
  (forall n, forallb sample_ch (show_secs n) = true) -> forallb good_line (render_workers show_secs m) = true.
Proof. intros Hs. unfold render_workers, header, idx_label. good_lines. Qed.

Lemma good_chip card t : forallb good_line (render_chip_telemetry card t) = true.
Proof.
  destruct t as [t|]; [|done].
  unfold render_chip_telemetry, render_card_info, render_thermal, render_clocks, render_power, write_chip_gauge,
    write_chip_counter, header, card_label, pairs, idxs.
  cbn [List.combine List.map fst snd]. good_lines.
Qed.

Lemma good_metric_lines show_secs m d :
  (forall n, forallb sample_ch (show_secs n) = true) -> forallb good_line (metric_lines show_secs m d) = true.
Proof.
  intros Hs. unfold metric_lines. rewrite !forallb_app.
  by rewrite good_daemon, good_rpc, good_l2cpus, good_devices, good_workers, good_dispatch, good_slots, good_chip.
Qed.

(** ** One declaration per metric, one line per series *)

(** What a line says, less its values: the name of a declaration, the name and
    labels of a sample. *)
Definition series (l : Line) : option (list Z * list (list Z * list Z)) :=
  match l with Sample n ls _ => Some (n, ls) | _ => None end.

(** Every sample belongs to a metric declared before it, none declared twice. *)
Inductive declared : list (list Z) -> list Line -> Prop :=
| declared_nil seen : declared seen []
| declared_help seen n h ls : declared seen ls -> declared seen (Help n h :: ls)
| declared_type seen n k ls : n ∉ seen -> declared (n :: seen) ls -> declared seen (Type_ n k :: ls)
| declared_sample seen n lb v ls : n ∈ seen -> declared seen ls -> declared seen (Sample n lb v :: ls).

Definition line_name (l : Line) : bool * list Z :=
  match l with Help n _ => (false, []) | Type_ n _ => (false, n) | Sample n _ _ => (true, n) end.

Fixpoint declaredb (seen : list (list Z)) (ls : list (bool * list Z)) : bool :=
  match ls with
  | [] => true
  | (false, []) :: ls => declaredb seen ls
  | (false, n) :: ls => negb (bool_decide (n ∈ seen)) && declaredb (n :: seen) ls
  | (true, n) :: ls => bool_decide (n ∈ seen) && declaredb seen ls
  end.

Lemma declaredb_sound ls : forall seen,
  forallb good_line ls = true -> declaredb seen (List.map line_name ls) = true -> declared seen ls.
Proof.
  induction ls as [|l ls IH]; intros seen; [constructor|]. cbn [forallb List.map]. rewrite andb_true_iff.
  intros [Hl Hls]. destruct l as [n h|n k|n lb v]; cbn [line_name declaredb].
  - constructor. auto.
  - destruct n as [|c n]; [done|]. rewrite andb_true_iff. intros [Hn H].
    constructor; [by apply negb_true_iff, bool_decide_eq_false in Hn|auto].
  - rewrite andb_true_iff. intros [Hn H]. constructor; [by apply bool_decide_eq_true in Hn|auto].
Qed.

(** The labels that tell two samples of a metric apart: all but the ones of the
    card, which are the same on every line. *)
Definition telling (n : list Z) : bool :=
  existsb (fun x => bool_decide (x = n))
    [chars "method"; chars "idx"; chars "kind"; chars "direction"; chars "op"; chars "reason"; chars "worker"; chars "tier"; chars "pair"].

Definition told (s : list Z * list (list Z * list Z)) : list Z * list (list Z * list Z) :=
  (s.1, List.filter (fun l => telling l.1) s.2).

Fixpoint nodupb (l : list (list Z * list (list Z * list Z))) : bool :=
  match l with [] => true | x :: l => negb (bool_decide (x ∈ l)) && nodupb l end.

Lemma nodupb_sound l : nodupb l = true -> NoDup l.
Proof.
  induction l as [|x l IH]; [constructor|]. cbn. rewrite andb_true_iff. intros [Hx Hl].
  constructor; [by apply negb_true_iff, bool_decide_eq_false in Hx|auto].
Qed.

Lemma nodupb_complete l : NoDup l -> nodupb l = true.
Proof. induction 1 as [|x l Hx _ IH]; [done|]. cbn. rewrite IH, andb_true_r. by apply negb_true_iff, bool_decide_eq_false. Qed.

Lemma sublist_omap {A B} (f : A -> option B) l k : sublist l k -> sublist (omap f l) (omap f k).
Proof.
  induction 1 as [|x l k _ IH|x l k _ IH]; [done|..]; cbn; destruct (f x); [by apply sublist_skip|done|by apply sublist_cons|done].
Qed.

Lemma told_nodup ls : nodupb (List.map told (omap series ls)) = true -> NoDup (omap series ls).
Proof. intros H. apply nodupb_sound in H. by eapply NoDup_fmap_1. Qed.

(** A daemon with every slot installed and a telemetry snapshot has every line
    that a daemon can have; any other has these less some samples, up to values. *)
Definition key (l : Line) : (bool * list Z) * option (list Z * list (list Z * list Z)) :=
  (line_name l, told <$> series l).

Inductive fewer {A} : list ((bool * list Z) * A) -> list ((bool * list Z) * A) -> Prop :=
| fewer_nil l : fewer [] l
| fewer_keep x l l' : fewer l' l -> fewer (x :: l') (x :: l)
| fewer_drop n a l l' : fewer l' l -> fewer l' (((true, n), a) :: l).

Lemma fewer_refl {A} (l : list ((bool * list Z) * A)) : fewer l l.
Proof. induction l; by constructor. Qed.

Lemma fewer_keeps {A} (k l l' : list ((bool * list Z) * A)) : fewer l' l -> fewer (k ++ l') (k ++ l).
Proof. intros. induction k; [done|by constructor]. Qed.

Lemma fewer_sublist {A} (l l' : list ((bool * list Z) * A)) : fewer l' l -> sublist l' l.
Proof. induction 1; [apply sublist_nil_l|by apply sublist_skip|by apply sublist_cons]. Qed.

Lemma fewer_declared {A} (l l' : list ((bool * list Z) * A)) seen :
  fewer l' l -> declaredb seen l.*1 = true -> declaredb seen l'.*1 = true.
Proof.
  intros H. revert seen. induction H as [l|[[[] n] a] l l' _ IH|n a l l' _ IH]; intros seen; cbn; [done|..].
  - rewrite !andb_true_iff. intros [? ?]. auto.
  - destruct n; [auto|]. rewrite !andb_true_iff. intros [? ?]. auto.
  - rewrite andb_true_iff. intros [? ?]. auto.
Qed.

Definition full (t : Telemetry) (d : DaemonView) : DaemonView :=
  mk_daemon_view (d_card d) (d_uptime d) (fun _ => Some (mk_slot_view 0 0 true)) (Some t).

Lemma slot_fewer s i l l' : fewer l' l ->
  fewer (List.map key (slot_lines s i) ++ l') (List.map key (slot_lines (Some (mk_slot_view 0 0 true)) i) ++ l).
Proof. intros H. destruct s as [s|]; cbn; repeat constructor; done. Qed.

Lemma key_chip card t t' l : List.map key (render_chip_telemetry card (Some t)) = l ->
  List.map key (render_chip_telemetry card (Some t')) = l.
Proof. intros <-. reflexivity. Qed.

Lemma lines_fewer show_secs m t d :
  fewer (List.map key (metric_lines show_secs m d)) (List.map key (metric_lines show_secs m (full t d))).
Proof.
  unfold metric_lines. rewrite !map_app. repeat apply fewer_keeps. unfold render_slots. rewrite !map_app.
  rewrite <- !app_assoc. repeat apply fewer_keeps. cbn [full d_slots d_telemetry d_card].
  cbn [flat_map idxs]. rewrite !app_nil_r, !map_app, <- !app_assoc. repeat apply slot_fewer.
  destruct (d_telemetry d) as [t'|]; [|constructor]. rewrite (key_chip _ t t' _ eq_refl). apply fewer_refl.
Qed.

Lemma key_name l : (List.map key l).*1 = List.map line_name l.
Proof. induction l; cbn; by f_equal. Qed.

Lemma key_series l : omap (fun k : _ * _ => k.2) (List.map key l) = List.map told (omap series l).
Proof. induction l as [|x l IH]; [done|]. cbn. by destruct x; cbn; rewrite IH. Qed.

Lemma full_shape show_secs m t d :
  declaredb [] (List.map line_name (metric_lines show_secs m (full t d))) = true /\
  nodupb (List.map told (omap series (metric_lines show_secs m (full t d)))) = true.
Proof. split; vm_compute; reflexivity. Qed.

(** C27: What the exporter prints can be read back line by line: the page parses,
    by the grammar of HELP, TYPE and sample lines, to exactly the lines that the
    snapshot is rendered to, with their names, labels and values; every sample belongs
    to a metric that a TYPE line before it declares, no metric is declared twice and
    no series (a name with its labels) has two samples, whatever the counters, the
    slots and the telemetry are.  Seconds are assumed to be printed in the characters of
    a sample ([show_secs] is the formatting of floats).  The claim is not that the samples of
    one metric stand together, which those of the slots do not
    ([slot_samples_interleaved]), nor that every counter is among the lines. *)
Theorem exposition_sound show_secs m d :
  (forall n, forallb sample_ch (show_secs n) = true) ->
  parse_exposition (render_prometheus show_secs m d) = Some (metric_lines show_secs m d) /\
  declared [] (metric_lines show_secs m d) /\
  NoDup (omap series (metric_lines show_secs m d)).
Proof.
  intros Hs. pose proof (good_metric_lines show_secs m d Hs) as Hg. split; [by apply parse_show_lines|].
  set (t := mk_telemetry 0 0 [] (fun _ => 0)).
  pose proof (lines_fewer show_secs m t d) as Hf. destruct (full_shape show_secs m t d) as [Hd Hn]. split.
  - apply declaredb_sound; [done|]. rewrite <- key_name in *. by eapply fewer_declared.
  - apply told_nodup. rewrite <- key_series in *. apply nodupb_sound in Hn. apply nodupb_complete.
    by eapply sublist_NoDup; [|apply sublist_omap, fewer_sublist].
Qed.

Definition no_dir : PerL2cpuDirCounter := mk_dir (fun _ => 0) (fun _ => 0).
Definition no_metrics : Metrics :=
  mk_metrics (mk_counters 3 1 (fun _ => 2) (fun _ => 0)) 2 (fun _ => 1) (fun _ => 0) (fun _ => 0) no_dir
    (mk_blk_op (fun _ => 7) (fun _ => 8)) (mk_blk_op (fun _ => 0) (fun _ => 0)) (mk_blk_errors (fun _ => 0) (fun _ => 0))
    (mk_net_dir (fun _ => 0) (fun _ => 0)) (mk_net_dir (fun _ => 0) (fun _ => 0)) (fun _ => 0) (fun _ => 0) (fun _ => 0)
    (fun _ => 0) 5 0 0 0 0 (fun _ => 0) (fun _ _ _ => 0) (fun _ _ _ => 0).
Definition demo_view : DaemonView :=
  mk_daemon_view 0 3600 (fun i => if i =? 1 then Some (mk_slot_view 60 2 true) else None) None.

Lemma exposition_sound_witness :
  parse_exposition (render_prometheus show_dec no_metrics demo_view) = Some (metric_lines show_dec no_metrics demo_view) /\
  length (metric_lines show_dec no_metrics demo_view) = 292%nat.
Proof.
  split; [|vm_compute; reflexivity]. apply (exposition_sound show_dec no_metrics demo_view). intros n. apply show_dec_sample.
Defined.

(** The samples of a slot metric do not stand in one group: another metric's
    sample of the same L2CPU stands between those of two L2CPUs, which the format
    does not allow. *)
Theorem slot_samples_interleaved show_secs m d : exists pre mid post v v' w,
  metric_lines show_secs m d =
    pre ++ Sample (chars "bhx_l2cpu_running") [idx_label 0] v :: mid ++
    Sample (chars "bhx_l2cpu_running") [idx_label 1] v' :: post /\
  Sample (chars "bhx_l2cpu_disks") [idx_label 0] w ∈ mid.
Proof.
  unfold metric_lines, render_slots. cbn [flat_map idxs].
  assert (forall s i, exists v mid w, slot_lines s i = Sample (chars "bhx_l2cpu_running") [idx_label i] v :: mid /\
    Sample (chars "bhx_l2cpu_disks") [idx_label i] w ∈ mid) as Hs
    by (intros [s|] i; do 3 eexists; (split; [reflexivity|by repeat constructor])).
  destruct (Hs (d_slots d 0) 0) as (v & mid & w & -> & Hw). destruct (Hs (d_slots d 1) 1) as (v' & mid' & w' & -> & _).
  exists (render_daemon m (d_uptime d) ++ render_rpc m ++ render_l2cpus m ++ render_devices m ++ render_workers show_secs m ++
    render_dispatch m ++ header (chars "bhx_l2cpu_running") (chars "1 if a slot is installed for this L2CPU, else 0.") KGauge ++
    header (chars "bhx_l2cpu_uptime_seconds") (chars "Seconds since slot installation. Absent for L2CPUs without an installed slot.") KGauge ++
    header (chars "bhx_l2cpu_disks") (chars "Attached disk-worker count per L2CPU.") KGauge ++
    header (chars "bhx_l2cpu_net") (chars "Net-worker presence per L2CPU (0 or 1).") KGauge), mid.
  eexists _, v, v', w. split; [|done]. by rewrite <- !app_assoc.
Qed.
