(* ===== verification/Exporter.v ===== *)
(** The HTTP exporter and the telemetry poller of [src/daemon/metrics.rs].

    A TCP connection is the list of the results of its reads; when the list is
    over the peer has closed.  Bytes are Z; a [&str] is the list of its Unicode
    scalar values, and [from_utf8] is the strict decoder of the standard library. *)

From S2P Require Import Prelude Text ConsoleHub Clock Telemetry Parse Protocol DeviceTree DtbProofs Server Session ConsoleWorker Metrics.

(** ** Text *)

Definition cont (b : Z) : bool := (0x80 <=? b) && (b <=? 0xBF).

(** [std::str::from_utf8], well-formed sequences only: no overlong form, no
    surrogate, nothing above 0x10FFFF. *)
Definition ok2 (b0 b1 : Z) : bool := (0xC2 <=? b0) && (b0 <=? 0xDF) && cont b1.
Definition ok3 (b0 b1 b2 : Z) : bool :=
  (0xE0 <=? b0) && (b0 <=? 0xEF) && cont b1 && cont b2 &&
  (if b0 =? 0xE0 then 0xA0 <=? b1 else if b0 =? 0xED then b1 <=? 0x9F else true).
Definition ok4 (b0 b1 b2 b3 : Z) : bool :=
  (0xF0 <=? b0) && (b0 <=? 0xF4) && cont b1 && cont b2 && cont b3 &&
  (if b0 =? 0xF0 then 0x90 <=? b1 else if b0 =? 0xF4 then b1 <=? 0x8F else true).

Fixpoint from_utf8 (bs : list Z) : option (list Z) :=
  match bs with
  | [] => Some []
  | b0 :: r0 =>
      if b0 <? 0x80 then let! s := from_utf8 r0 in Some (b0 :: s)
      else match r0 with
      | [] => None
      | b1 :: r1 =>
          if ok2 b0 b1 then let! s := from_utf8 r1 in Some ((b0 - 192) * 64 + (b1 - 128) :: s)
          else match r1 with
          | [] => None
          | b2 :: r2 =>
              if ok3 b0 b1 b2 then
                let! s := from_utf8 r2 in Some ((b0 - 224) * 4096 + (b1 - 128) * 64 + (b2 - 128) :: s)
              else match r2 with
              | [] => None
              | b3 :: r3 =>
                  if ok4 b0 b1 b2 b3 then
                    let! s := from_utf8 r3 in
                    Some ((b0 - 240) * 262144 + (b1 - 128) * 4096 + (b2 - 128) * 64 + (b3 - 128) :: s)
                  else None
              end
          end
      end
  end.

(** [lines().next()]: up to the first newline, less a carriage return before it. *)
Definition first_line (s : list Z) : option (list Z) :=
  match s with
  | [] => None
  | _ =>
      match split_once [10] s with
      | Some (l, _) => Some (match strip_suffix l [13] with Some l' => l' | None => l end)
      | None => Some s
      end
  end.

(** [split_whitespace]: the words. *)
Fixpoint take_word (s : list Z) : list Z * list Z :=
  match s with
  | [] => ([], [])
  | c :: s' => if is_whitespace c then ([], s) else let (w, r) := take_word s' in (c :: w, r)
  end.

(** [next().unwrap_or("")]: no word is empty, so the empty text is no word. *)
Definition next_word (s : list Z) : list Z * list Z := take_word (drop_ws s).

(** ** Requests *)

Definition MAX_REQUEST_HEADER_BYTES : Z := 8192.

Inductive RequestKind := Metrics_ | MethodNotAllowed | NotFound.

Definition parse_request_line (line : list Z) : RequestKind :=
  let (method, rest) := next_word line in
  let (raw_path, _) := next_word rest in
  let path := match split_once [63] raw_path with Some (p, _) => p | None => raw_path end in
  if negb (bool_decide (path = chars "/metrics")) then NotFound
  else if negb (bool_decide (method = chars "GET")) then MethodNotAllowed
  else Metrics_.

Definition CRLF2 : list Z := [13; 10; 13; 10].

(** [windows(4).any(|w| w == CRLF CRLF)]. *)
Fixpoint has_end (s : list Z) : bool :=
  starts_with CRLF2 s || match s with [] => false | _ :: s => has_end s end.

(** The result of a read; [Data []] is the end of the stream. *)
Inductive ReadResult := Data (bs : list Z) | TimedOut | ReadErr.

Inductive HeaderError := TooLarge | IoError.

Fixpoint read_loop (buf : list Z) (reads : list ReadResult) : result (list Z) HeaderError :=
  match reads with
  | [] => Ok buf
  | Data [] :: _ => Ok buf
  | Data bs :: reads =>
      let prev_len := length buf in
      let buf := buf ++ bs in
      if has_end (drop (prev_len - 3) buf) then Ok buf
      else if MAX_REQUEST_HEADER_BYTES <=? Z.of_nat (length buf) then Err TooLarge
      else read_loop buf reads
  | TimedOut :: _ => Ok buf
  | ReadErr :: _ => Err IoError
  end.

Definition read_request_headers (reads : list ReadResult) : result (list Z) HeaderError := read_loop [] reads.

Definition crlf : list Z := [13; 10].

Definition http_response (status_line content_type body : list Z) : list Z :=
  chars "HTTP/1.1 " ++ status_line ++ crlf ++
  chars "Content-Type: " ++ content_type ++ crlf ++
  chars "Content-Length: " ++ show_dec (str_len body) ++ crlf ++
  chars "Connection: close" ++ crlf ++ crlf ++ body.

Definition plain : list Z := chars "text/plain; charset=utf-8".

Definition error_response (status : list Z) : list Z := http_response status plain (status ++ [10]).

(** What is served for a request line. *)
Definition respond (body : list Z) (line : list Z) : list Z :=
  match parse_request_line line with
  | Metrics_ => http_response (chars "200 OK") (chars "text/plain; version=0.0.4; charset=utf-8") body
  | MethodNotAllowed => error_response (chars "405 Method Not Allowed")
  | NotFound => error_response (chars "404 Not Found")
  end.

Definition request_line (buf : list Z) : list Z :=
  match from_utf8 buf with
  | Some s => match first_line s with Some l => l | None => [] end
  | None => []
  end.

(** The bytes written, if any; the connection is shut down in every case. *)
Definition handle_request (show_secs : Z -> list Z) (m : Metrics) (d : DaemonView) (reads : list ReadResult) : option (list Z) :=
  match read_request_headers reads with
  | Ok buf => Some (utf8 (respond (render_prometheus show_secs m d) (request_line buf)))
  | Err TooLarge => Some (utf8 (error_response (chars "413 Payload Too Large")))
  | Err IoError => None
  end.

(** ** The accept loop *)

Inductive Accepted := Conn (reads : list ReadResult) | WouldBlock | AcceptErr.

Inductive ExporterAct := Served (reply : option (list Z)) | Slept (ms : Z).

(** Each round: the shutdown flag as it is loaded, the result of [accept] and the
    counters and state at that time. *)
Fixpoint run_exporter (show_secs : Z -> list Z) (rounds : list (bool * Accepted * (Metrics * DaemonView))) : list ExporterAct :=
  match rounds with
  | [] => []
  | (true, _, _) :: _ => []
  | (false, a, (m, d)) :: rounds =>
      match a with
      | Conn reads => Served (handle_request show_secs m d reads)
      | WouldBlock => Slept 100
      | AcceptErr => Slept 500
      end :: run_exporter show_secs rounds
  end.

(** ** The poller *)

Definition POLL_INTERVAL : Z := 5000.
Definition FIRST_BACKOFF : Z := 500.
Definition MAX_BACKOFF : Z := 60000.

Record Poller := mk_poller { chip_telemetry : option Telemetry; backoff : Z; slept : list Z }.

(** One iteration; a read of the table that panics ends the thread. *)
Definition poll_step (p : Poller) (chip : SharedChip) : option Poller :=
  match read_telemetry chip with
  | None => None
  | Some (Ok t) => Some (mk_poller (Some t) FIRST_BACKOFF (slept p ++ [POLL_INTERVAL]))
  | Some (Err _) => Some (mk_poller (chip_telemetry p) (Z.min (backoff p * 2) MAX_BACKOFF) (slept p ++ [backoff p]))
  end.

(** The loop over the states the chip is in at each poll, until shutdown. *)
Fixpoint poll_loop (p : Poller) (polls : list (bool * SharedChip)) : Poller :=
  match polls with
  | [] => p
  | (true, _) :: _ => p
  | (false, chip) :: polls => match poll_step p chip with Some p => poll_loop p polls | None => p end
  end.

(** ** UTF-8 *)

(** Encoding then decoding a text gives it back. *)
Lemma from_utf8_char c r : scalar c = true -> from_utf8 (utf8_char c ++ r) = let! s := from_utf8 r in Some (c :: s).
Proof.
  intros Hc. unfold scalar in Hc. unfold utf8_char.
  destruct (c <? 0x80) eqn:E1; cbn [app from_utf8]; [by rewrite E1|].
  pose proof (Z.div_mod c 64 ltac:(done)) as D1. pose proof (Z.mod_pos_bound c 64 ltac:(done)) as B1.
  pose proof (Z.div_mod (c / 64) 64 ltac:(done)) as D2. pose proof (Z.mod_pos_bound (c / 64) 64 ltac:(done)) as B2.
  pose proof (Z.div_mod (c / 4096) 64 ltac:(done)) as D3. pose proof (Z.mod_pos_bound (c / 4096) 64 ltac:(done)) as B3.
  assert (c / 64 / 64 = c / 4096) as E64 by by rewrite Z.div_div.
  assert (c / 4096 / 64 = c / 262144) as E4096 by by rewrite Z.div_div.
  rewrite E64 in D2. rewrite E4096 in D3.
  destruct (c <? 0x800) eqn:E2; [|destruct (c <? 0x10000) eqn:E3]; cbn [app from_utf8].
  - replace (192 + c / 64 <? 128) with false by lia. replace (ok2 _ _) with true by (unfold ok2, cont; lia).
    by replace ((192 + c / 64 - 192) * 64 + (128 + c mod 64 - 128)) with c by lia.
  - replace (224 + c / 4096 <? 128) with false by lia. replace (ok2 _ _) with false by (unfold ok2, cont; lia).
    replace (ok3 _ _ _) with true.
    2: { unfold ok3, cont. destruct (_ =? 0xE0) eqn:?; [lia|]. destruct (_ =? 0xED) eqn:?; lia. }
    by replace ((224 + c / 4096 - 224) * 4096 + (128 + c / 64 mod 64 - 128) * 64 + (128 + c mod 64 - 128)) with c by lia.
  - replace (240 + c / 262144 <? 128) with false by lia. replace (ok2 _ _) with false by (unfold ok2, cont; lia).
    replace (ok3 _ _ _) with false by (unfold ok3, cont; lia).
    replace (ok4 _ _ _ _) with true.
    2: { unfold ok4, cont. destruct (_ =? 0xF0) eqn:?; [lia|]. destruct (_ =? 0xF4) eqn:?; lia. }
    by replace ((240 + c / 262144 - 240) * 262144 + (128 + c / 4096 mod 64 - 128) * 4096 + (128 + c / 64 mod 64 - 128) * 64 +
      (128 + c mod 64 - 128)) with c by lia.
Qed.

Lemma from_utf8_utf8 s : forallb scalar s = true -> from_utf8 (utf8 s) = Some s.
Proof.
  induction s as [|c s IH]; [done|]. cbn [forallb utf8 flat_map]. rewrite andb_true_iff. intros [Hc Hs].
  rewrite from_utf8_char by done. change (flat_map utf8_char s) with (utf8 s). by rewrite IH.
Qed.

Lemma utf8_app s t : utf8 (s ++ t) = utf8 s ++ utf8 t.
Proof. apply flat_map_app. Qed.

Lemma utf8_length s : str_len s = Z.of_nat (length (utf8 s)).
Proof.
  induction s as [|c s IH]; [done|]. cbn [str_len foldr utf8 flat_map]. rewrite length_app.
  change (foldr _ 0 s) with (str_len s). change (flat_map utf8_char s) with (utf8 s).
  rewrite IH. unfold utf8_len_char, utf8_char. repeat case_match; cbn [length]; lia.
Qed.

(** Bytes below 128 are characters. *)
Definition ascii_ch (c : Z) : bool := (0 <=? c) && (c <? 128).

Lemma utf8_ascii_ch s : forallb ascii_ch s = true -> utf8 s = s.
Proof.
  induction s as [|c s IH]; [done|]. cbn [forallb utf8 flat_map]. rewrite andb_true_iff. intros [Hc Hs].
  change (flat_map utf8_char s) with (utf8 s). rewrite (IH Hs). unfold utf8_char, ascii_ch in *.
  by replace (c <? 0x80) with true by lia.
Qed.

Lemma from_utf8_ascii s : forallb ascii_ch s = true -> from_utf8 s = Some s.
Proof.
  intros H. rewrite <- (utf8_ascii_ch s H) at 1. apply from_utf8_utf8. eapply forallb_imp; [|exact H].
  unfold ascii_ch, scalar. lia.
Qed.

Lemma from_utf8_after a b : forallb ascii_ch a = true -> from_utf8 (a ++ b) = let! s := from_utf8 b in Some (a ++ s).
Proof.
  induction a as [|c a IH]; cbn [forallb app]; [intros _; by destruct (from_utf8 b)|]. rewrite andb_true_iff. intros [Hc Ha].
  cbn [from_utf8]. unfold ascii_ch in Hc. replace (c <? 0x80) with true by lia. rewrite (IH Ha). by destruct (from_utf8 b).
Qed.

(** ** The scan for the end of the headers *)

Lemma starts_with_app p s t : (length p <= length s)%nat -> starts_with p (s ++ t) = starts_with p s.
Proof.
  unfold starts_with. revert s. induction p as [|a p IH]; intros s H; [done|]. destruct s as [|b s]; [cbn in H; lia|].
  cbn [app strip_prefix]. destruct (a =? b); [|done]. apply IH. cbn in H. lia.
Qed.

Lemma starts_with_short p s : (length s < length p)%nat -> starts_with p s = false.
Proof.
  unfold starts_with. revert s. induction p as [|a p IH]; intros s H; [cbn in H; lia|]. destruct s as [|b s]; [done|].
  cbn [strip_prefix]. destruct (a =? b); [|done]. apply IH. cbn in H. lia.
Qed.

Lemma has_end_short s : (length s < 4)%nat -> has_end s = false.
Proof.
  induction s as [|c s IH]; [done|]. intros H. cbn [has_end]. rewrite starts_with_short by done. apply IH. cbn in H. lia.
Qed.

(** Looking at the new bytes and the three before them is looking at all. *)
Lemma has_end_app a b : has_end (a ++ b) = has_end a || has_end (drop (length a - 3) (a ++ b)).
Proof.
  induction a as [|x a IH]; [done|]. destruct (decide (length a < 3)%nat) as [Hs|Hl].
  - rewrite (has_end_short (x :: a)) by (cbn; lia). replace (length (x :: a) - 3)%nat with 0%nat by (cbn; lia). done.
  - replace (length (x :: a) - 3)%nat with (S (length a - 3)) by (cbn; lia). cbn [app drop].
    change (has_end (x :: a ++ b)) with (starts_with CRLF2 ((x :: a) ++ b) || has_end (a ++ b)).
    cbn [has_end]. rewrite <- orb_assoc, <- IH. f_equal. apply starts_with_app. cbn. lia.
Qed.

(** The loop as it would be with a scan of the whole buffer. *)
Fixpoint read_whole (buf : list Z) (reads : list ReadResult) : result (list Z) HeaderError :=
  match reads with
  | [] | Data [] :: _ | TimedOut :: _ => Ok buf
  | Data bs :: reads =>
      if has_end (buf ++ bs) then Ok (buf ++ bs)
      else if MAX_REQUEST_HEADER_BYTES <=? Z.of_nat (length (buf ++ bs)) then Err TooLarge
      else read_whole (buf ++ bs) reads
  | ReadErr :: _ => Err IoError
  end.

Lemma read_loop_whole reads : forall buf, has_end buf = false -> read_loop buf reads = read_whole buf reads.
Proof.
  induction reads as [|[[|b bs]| |] reads IH]; intros buf Hb; try done. cbn [read_loop read_whole].
  pose proof (has_end_app buf (b :: bs)) as He. rewrite Hb in He. cbn [orb] in He. rewrite <- He.
  destruct (has_end (buf ++ b :: bs)) eqn:E; [done|]. destruct (_ <=? _); [done|]. by apply IH.
Qed.

Lemma read_whole_bound reads : forall buf, Forall (fun r => match r with Data bs => (length bs <= 512)%nat | _ => True end) reads ->
  Z.of_nat (length buf) < MAX_REQUEST_HEADER_BYTES ->
  match read_whole buf reads with Ok b => Z.of_nat (length b) < MAX_REQUEST_HEADER_BYTES + 512 | Err _ => True end.
Proof.
  induction reads as [|[[|b bs]| |] reads IH]; intros buf Hr Hb; cbn [read_whole]; try done; try (unfold MAX_REQUEST_HEADER_BYTES in *; lia).
  inversion Hr as [|? ? Hl Hr']. subst. cbn in Hl.
  assert (Z.of_nat (length (buf ++ b :: bs)) < MAX_REQUEST_HEADER_BYTES + 512) by (rewrite length_app; cbn [length]; lia).
  destruct (has_end _); [done|]. destruct (_ <=? _) eqn:E; [done|]. apply IH; [done|lia].
Qed.

(** The incremental scan of the request headers is exact and bounded: looking only
    at the new bytes and the three before them finds the end of the headers
    at the same read as a scan of the whole buffer would, for every sequence of
    reads, and with reads of at most 512 bytes no more than 8703 bytes are kept. *)
Theorem header_scan_exact reads :
  read_request_headers reads = read_whole [] reads /\
  (Forall (fun r => match r with Data bs => (length bs <= 512)%nat | _ => True end) reads ->
   match read_request_headers reads with
   | Ok buf => Z.of_nat (length buf) <= 8703
   | Err _ => True
   end).
Proof.
  unfold read_request_headers. rewrite read_loop_whole by done. split; [done|]. intros H.
  pose proof (read_whole_bound reads [] H eq_refl) as Hb.
  destruct (read_whole [] reads); [|done]. unfold MAX_REQUEST_HEADER_BYTES in Hb. lia.
Qed.

Lemma header_scan_exact_witness :
  match read_request_headers [Data (chars "GET / HTTP/1.0" ++ [13; 10; 13]); Data [10]] with
  | Ok buf => Z.of_nat (length buf) <= 8703 | Err _ => True end.
Proof.
  apply (header_scan_exact [Data (chars "GET / HTTP/1.0" ++ [13; 10; 13]); Data [10]]).
  repeat constructor; apply Nat.leb_le; vm_compute; reflexivity.
Defined.

(** ** Answers *)

(** The reads of a request that came in pieces. *)
Definition pieces (chunks : list (list Z)) : list ReadResult := List.map Data chunks.

(** No more comes: the peer has closed or is silent for the read timeout. *)
Definition quiet (tail : list ReadResult) : bool :=
  match tail with [] | Data [] :: _ | TimedOut :: _ => true | _ => false end.

Lemma read_whole_quiet buf tail : quiet tail = true -> read_whole buf tail = Ok buf.
Proof. by destruct tail as [|[[|]| |] tail]. Qed.

(** All that comes, or a part of it in which the headers end. *)
Lemma read_whole_pieces chunks tail : forall buf,
  Forall (fun c => c <> []) chunks -> Z.of_nat (length (buf ++ concat chunks)) < MAX_REQUEST_HEADER_BYTES ->
  has_end buf = false -> has_end (buf ++ concat chunks) || quiet tail = true ->
  exists p q, read_whole buf (pieces chunks ++ tail) = Ok p /\ buf ++ concat chunks = p ++ q /\ (q = [] \/ has_end p = true).
Proof.
  induction chunks as [|[|b bs] chunks IH]; intros buf Hc Hl Hb He; cbn [pieces List.map concat app] in *.
  - rewrite app_nil_r in He. rewrite Hb in He. exists buf, []. split; [by apply read_whole_quiet|]. rewrite app_nil_r. auto.
  - inversion Hc; congruence.
  - inversion Hc as [|? ? _ Hc']. subst. cbn [read_whole].
    change (b :: bs ++ concat chunks) with ((b :: bs) ++ concat chunks) in *. rewrite app_assoc in *.
    destruct (has_end (buf ++ b :: bs)) eqn:E; [exists (buf ++ b :: bs), (concat chunks); auto|].
    destruct (_ <=? _) eqn:E2; [rewrite length_app in Hl; lia|]. by apply IH.
Qed.

Lemma has_end_newline s : has_end s = true -> 10 ∈ s.
Proof.
  induction s as [|c s IH]; [done|]. cbn [has_end]. rewrite orb_true_iff. intros [H|H]; [|by constructor; apply IH].
  unfold starts_with in H. destruct (strip_prefix CRLF2 (c :: s)) as [r|] eqn:E; [|done].
  apply strip_prefix_app in E. rewrite E. by repeat constructor.
Qed.

(** A part of the request that has a newline has the request line. *)
Lemma line_in_part line rest p q :
  Forall (fun c => c <> 10) line -> line ++ crlf ++ rest = p ++ q -> q = [] \/ 10 ∈ p ->
  exists rest', p = line ++ crlf ++ rest'.
Proof.
  intros Hl E [->|Hp]; [exists rest; by rewrite app_nil_r in E|].
  revert p E Hp. induction Hl as [|c line Hc _ IH]; intros p E Hp.
  - destruct p as [|x [|y p]]; [by apply elem_of_nil in Hp| |].
    + cbn in E. injection E as Ex _. apply list_elem_of_singleton in Hp. congruence.
    + cbn in E. injection E as Ex Ey _. subst. by exists p.
  - destruct p as [|x p]; [by apply elem_of_nil in Hp|]. cbn in E. injection E as -> E.
    apply elem_of_cons in Hp as [<-|Hp]; [done|]. destruct (IH p E Hp) as [r ->]. by exists r.
Qed.

Lemma first_line_crlf line rest : Forall (fun c => c <> 10) line -> first_line (line ++ crlf ++ rest) = Some line.
Proof.
  intros Hl. unfold first_line. assert (line ++ crlf ++ rest = (line ++ [13]) ++ [10] ++ rest) as E by by rewrite <- app_assoc.
  rewrite E, split_once_char by (apply Forall_app; split; [done|by repeat constructor]).
  assert (strip_suffix (line ++ [13]) [13] = Some line) as -> by by apply strip_suffix_app.
  destruct line; done.
Qed.

(** The bytes are text. *)
Definition is_utf8 (bs : list Z) : bool := match from_utf8 bs with Some _ => true | None => false end.

(** What was read of a request whose line is ASCII gives that line, if it is
    text, and none otherwise. *)
Lemma request_line_any line rest p q :
  forallb ascii_ch line = true -> Forall (fun c => c <> 10) line ->
  line ++ crlf ++ rest = p ++ q -> q = [] \/ has_end p = true -> request_line p = if is_utf8 p then line else [].
Proof.
  intros Ha Hl E Hq.
  destruct (line_in_part line rest p q) as [r ->]; [done..|destruct Hq; [by left|right; by apply has_end_newline]|].
  unfold request_line, is_utf8. rewrite app_assoc, from_utf8_after by (rewrite forallb_app, Ha; done).
  destruct (from_utf8 r) as [t|]; [|done]. cbn [mbind option_bind]. by rewrite <- app_assoc, first_line_crlf.
Qed.

Lemma handle_pieces show_secs m d line rest chunks tail :
  concat chunks = line ++ crlf ++ rest -> Forall (fun c => c <> []) chunks ->
  forallb ascii_ch line = true -> Forall (fun c => c <> 10) line ->
  Z.of_nat (length (concat chunks)) < MAX_REQUEST_HEADER_BYTES ->
  has_end (concat chunks) || quiet tail = true ->
  exists got unread, concat chunks = got ++ unread /\ (unread = [] \/ has_end got = true) /\
    handle_request show_secs m d (pieces chunks ++ tail) =
      Some (utf8 (respond (render_prometheus show_secs m d) (if is_utf8 got then line else []))).
Proof.
  intros E Hc Ha Hl Hn He. unfold handle_request, read_request_headers. rewrite read_loop_whole by done.
  destruct (read_whole_pieces chunks tail [] Hc Hn eq_refl He) as (p & q & -> & Ep & Hq).
  cbn [app] in Ep. exists p, q. split; [done|]. split; [done|]. rewrite E in Ep. by rewrite (request_line_any line rest p q).
Qed.

(** ** A client *)

(** The lines up to an empty one, at most [fuel] of them, and what follows. *)
Fixpoint read_fields (fuel : nat) (s : list Z) : option (list (list Z) * list Z) :=
  match fuel with
  | O => None
  | S fuel =>
      let! (l, s) := split_once crlf s in
      match l with
      | [] => Some ([], s)
      | _ => let! (ls, body) := read_fields fuel s in Some (l :: ls, body)
      end
  end.

(** The status line and the body, of the length that the response says. *)
Definition http_read (s : list Z) : option (list Z * list Z) :=
  match read_fields 100 s with
  | Some (status :: fields, body) =>
      let! n := head (omap (strip_prefix (chars "Content-Length: ")) fields) in
      let! n := parse_uint U64_MAX n in
      if n =? Z.of_nat (length body) then Some (status, body) else None
  | _ => None
  end.

Lemma split_once_crlf l s : Forall (fun c => c <> 13) l -> split_once crlf (l ++ crlf ++ s) = Some (l, s).
Proof.
  induction 1 as [|c l Hc Hl IH]; [done|]. cbn [app]. unfold crlf at 1. cbn [split_once strip_prefix].
  destruct (Z.eqb_spec 13 c); [congruence|]. fold crlf. by rewrite IH.
Qed.

Lemma read_field fuel l s : l <> [] -> Forall (fun c => c <> 13) l ->
  read_fields (S fuel) (l ++ crlf ++ s) = let! (ls, body) := read_fields fuel s in Some (l :: ls, body).
Proof. intros Hn Hl. cbn [read_fields]. rewrite split_once_crlf by done. by destruct l. Qed.

Lemma read_fields_end fuel s : read_fields (S fuel) (crlf ++ s) = Some ([], s).
Proof. done. Qed.

Lemma str_len_nonneg s : 0 <= str_len s.
Proof. rewrite utf8_length. lia. Qed.

(** A header text: printable, and so its own UTF-8. *)
Lemma printable_ascii s : forallb printable s = true -> utf8 s = s.
Proof. intros H. apply utf8_ascii_ch. eapply forallb_imp; [|exact H]. unfold printable, ascii_ch. lia. Qed.

Lemma http_read_response status ct body :
  forallb printable status = true -> forallb printable ct = true -> str_len body <= U64_MAX ->
  http_read (utf8 (http_response status ct body)) = Some (chars "HTTP/1.1 " ++ status, utf8 body).
Proof.
  intros Hs Hct Hb. unfold http_response. rewrite !utf8_app.
  rewrite (printable_ascii status), (printable_ascii ct) by done.
  rewrite (utf8_ascii_ch (show_dec (str_len body))) by (apply class_digits; unfold is_digit, ascii_ch; lia).
  change (utf8 crlf) with crlf. change (utf8 (chars "HTTP/1.1 ")) with (chars "HTTP/1.1 ").
  change (utf8 (chars "Content-Type: ")) with (chars "Content-Type: ").
  change (utf8 (chars "Content-Length: ")) with (chars "Content-Length: ").
  change (utf8 (chars "Connection: close")) with (chars "Connection: close").
  assert (forall n, Forall (fun c => c <> 13) (show_dec n)) as Hd by (intros; by apply digits_no).
  assert (forall s, forallb printable s = true -> Forall (fun c => c <> 13) s) as Hp by (intros; by apply (class_ne printable)).
  unfold http_read. rewrite (app_assoc (chars "HTTP/1.1 ")), (app_assoc (chars "Content-Type: ")), (app_assoc (chars "Content-Length: ")).
  rewrite !read_field by first [done|by apply Hp|apply Forall_app; split; [by apply Hp|auto]].
  rewrite read_fields_end. cbv iota beta. cbn [omap list_omap].
  change (strip_prefix (chars "Content-Length: ") (chars "Content-Type: " ++ ct)) with (@None (list Z)).
  assert (forall n, strip_prefix (chars "Content-Length: ") (chars "Content-Length: " ++ n) = Some n) as Hcl
    by (intros; by apply strip_prefix_app).
  rewrite Hcl. cbn [head]. pose proof (str_len_nonneg body).
  rewrite parse_show by done. by rewrite utf8_length, Z.eqb_refl.
Qed.

(** ** Request lines *)

Definition word (s : list Z) : Prop := s <> [] /\ forallb (fun c => negb (is_whitespace c)) s = true.

Lemma take_word_app w s : forallb (fun c => negb (is_whitespace c)) w = true -> take_word (w ++ 32 :: s) = (w, 32 :: s).
Proof.
  induction w as [|c w IH]; [done|]. cbn [forallb app take_word]. rewrite andb_true_iff.
  intros [-> %negb_true_iff Hw]. by rewrite IH.
Qed.

Lemma next_word_app w s : word w -> next_word (w ++ 32 :: s) = (w, 32 :: s).
Proof.
  intros [Hn Hw]. unfold next_word. destruct w as [|c w]; [done|].
  pose proof Hw as Hc. cbn [forallb] in Hc. apply andb_true_iff in Hc as [Hc%negb_true_iff _].
  cbn [app drop_ws]. rewrite Hc. change (c :: w ++ 32 :: s) with ((c :: w) ++ 32 :: s). by apply take_word_app.
Qed.

(** What a request for a target is: the target less its query decides. *)
Definition target_path (target : list Z) : list Z :=
  match split_once [63] target with Some (p, _) => p | None => target end.

Lemma parse_request_words method target version : word method -> word target ->
  parse_request_line (method ++ 32 :: target ++ 32 :: version) =
    if bool_decide (target_path target = chars "/metrics")
    then if bool_decide (method = chars "GET") then Metrics_ else MethodNotAllowed
    else NotFound.
Proof.
  intros Hm Ht. unfold parse_request_line. rewrite next_word_app by done.
  assert (next_word (32 :: target ++ 32 :: version) = (target, 32 :: version)) as ->
    by (rewrite <- next_word_app by done; done).
  fold (target_path target). by repeat case_bool_decide.
Qed.

Lemma respond_read show_secs m d line : let body := render_prometheus show_secs m d in
  str_len body <= U64_MAX ->
  http_read (utf8 (respond body line)) = Some
    match parse_request_line line with
    | Metrics_ => (chars "HTTP/1.1 200 OK", utf8 body)
    | MethodNotAllowed => (chars "HTTP/1.1 405 Method Not Allowed", chars "405 Method Not Allowed" ++ [10])
    | NotFound => (chars "HTTP/1.1 404 Not Found", chars "404 Not Found" ++ [10])
    end.
Proof.
  intros body Hb. unfold respond, error_response. destruct (parse_request_line line); by rewrite http_read_response.
Qed.

Lemma body_read show_secs m d : (forall n, forallb sample_ch (show_secs n) = true) ->
  from_utf8 (utf8 (render_prometheus show_secs m d)) ≫= parse_exposition = Some (metric_lines show_secs m d).
Proof.
  intros Hs. pose proof (good_metric_lines show_secs m d Hs) as Hg. unfold render_prometheus.
  rewrite from_utf8_utf8 by by apply show_lines_scalar. by apply parse_show_lines.
Qed.

(** C33: A scrape works end to end however the network cuts the request.  For
    every method and target, in a request line that is ASCII, every headers
    below the size limit and every split of the bytes into reads, the exporter
    reads all, or a part in which the headers end, and answers 404 unless what it
    read is text (UTF-8) and the target less its query string is /metrics, 405
    then unless the method is GET, and otherwise 200 with a body that a client which
    trusts Content-Length receives whole and whose lines are those of the snapshot.
    The peer sends the end of the headers or falls silent; numbers of seconds
    print in the characters of a sample, and the length of the page fits 64 bits. *)
Theorem scrape_end_to_end show_secs m d method target version rest chunks tail :
  (forall n, forallb sample_ch (show_secs n) = true) ->
  str_len (render_prometheus show_secs m d) <= U64_MAX ->
  word method -> word target ->
  concat chunks = (method ++ 32 :: target ++ 32 :: version) ++ crlf ++ rest ->
  Forall (fun c => c <> []) chunks -> forallb ascii_ch (method ++ 32 :: target ++ 32 :: version) = true ->
  Forall (fun c => c <> 10) (method ++ 32 :: target ++ 32 :: version) ->
  Z.of_nat (length (concat chunks)) < MAX_REQUEST_HEADER_BYTES ->
  has_end (concat chunks) || quiet tail = true ->
  exists got unread status body,
    concat chunks = got ++ unread /\ (unread = [] \/ has_end got = true) /\
    handle_request show_secs m d (pieces chunks ++ tail) ≫= http_read = Some (status, body) /\
    if is_utf8 got && bool_decide (target_path target = chars "/metrics")
    then if bool_decide (method = chars "GET")
         then status = chars "HTTP/1.1 200 OK" /\ from_utf8 body ≫= parse_exposition = Some (metric_lines show_secs m d)
         else status = chars "HTTP/1.1 405 Method Not Allowed"
    else status = chars "HTTP/1.1 404 Not Found".
Proof.
  intros Hs Hb Hm Ht Hc Hne Ha Hl Hn He.
  destruct (handle_pieces show_secs m d _ rest chunks tail Hc Hne Ha Hl Hn He) as (got & unread & Eg & Hu & ->).
  exists got, unread. cbn [mbind option_bind]. rewrite respond_read by done.
  destruct (is_utf8 got); [|eexists _, _; split_and!; [done|done|reflexivity|done]].
  rewrite parse_request_words by done. cbn [andb].
  repeat case_bool_decide; eexists _, _; (split; [exact Eg|]); (split; [exact Hu|]); (split; [reflexivity|]); [|done..].
  split; [done|]. by apply body_read.
Qed.

Lemma scrape_end_to_end_witness :
  exists status body,
    handle_request show_dec no_metrics demo_view
      (pieces [chars "GET /met"; chars "rics?x=1 HTTP/1.1" ++ [13]; [10; 195; 169; 13]] ++ [TimedOut]) ≫= http_read = Some (status, body) /\
    status = chars "HTTP/1.1 200 OK" /\ from_utf8 body ≫= parse_exposition = Some (metric_lines show_dec no_metrics demo_view).
Proof.
  destruct (scrape_end_to_end show_dec no_metrics demo_view (chars "GET") (chars "/metrics?x=1") (chars "HTTP/1.1") [195; 169; 13]
    [chars "GET /met"; chars "rics?x=1 HTTP/1.1" ++ [13]; [10; 195; 169; 13]] [TimedOut])
    as (got & unread & status & body & Eg & Hu & E & H).
  - intros n. apply show_dec_sample.
  - apply Z.leb_le. vm_compute. reflexivity.
  - split; [done|reflexivity].
  - split; [done|reflexivity].
  - vm_compute. reflexivity.
  - repeat constructor; done.
  - vm_compute. reflexivity.
  - apply (class_ne printable); reflexivity.
  - apply Z.ltb_lt. vm_compute. reflexivity.
  - vm_compute. reflexivity.
  - exists status, body. split; [exact E|].
    assert (Hg : got = concat [chars "GET /met"; chars "rics?x=1 HTTP/1.1" ++ [13]; [10; 195; 169; 13]]).
    { destruct Hu as [->|Hu]; [by rewrite app_nil_r in Eg|]. exfalso.
      pose proof (has_end_app got unread) as Hh. rewrite Hu, <- Eg in Hh. vm_compute in Hh. discriminate Hh. }
    rewrite Hg in H. exact H.
Defined.

(** Too many header bytes without an end are refused, at the read that makes them so. *)
Lemma too_large show_secs m d chunks bs tail :
  Forall (fun c => c <> []) chunks -> bs <> [] -> has_end (concat chunks ++ bs) = false ->
  Z.of_nat (length (concat chunks)) < MAX_REQUEST_HEADER_BYTES <= Z.of_nat (length (concat chunks ++ bs)) ->
  handle_request show_secs m d (pieces chunks ++ Data bs :: tail) = Some (utf8 (error_response (chars "413 Payload Too Large"))).
Proof.
  intros Hc Hb He Hl. unfold handle_request, read_request_headers. rewrite read_loop_whole by done.
  enough (forall buf, has_end (buf ++ concat chunks ++ bs) = false ->
    Z.of_nat (length (buf ++ concat chunks)) < MAX_REQUEST_HEADER_BYTES <= Z.of_nat (length (buf ++ concat chunks ++ bs)) ->
    read_whole buf (pieces chunks ++ Data bs :: tail) = Err TooLarge) as H by by rewrite (H [] He Hl).
  clear Hl He. induction Hc as [|c chunks Hc _ IH]; intros buf He Hl; cbn [pieces List.map concat app] in *.
  - destruct bs as [|b bs]; [done|]. cbn [read_whole]. rewrite He. by replace (_ <=? _) with true by lia.
  - destruct c as [|x c]; [done|]. cbn [read_whole].
    assert (buf ++ ((x :: c) ++ concat chunks) ++ bs = (buf ++ x :: c) ++ concat chunks ++ bs) as Ea by by rewrite <- !app_assoc.
    assert (buf ++ (x :: c) ++ concat chunks = (buf ++ x :: c) ++ concat chunks) as Eb by by rewrite app_assoc.
    cbn [app] in Ea, Eb. cbn [app] in He, Hl. rewrite Ea in He, Hl. rewrite Eb in Hl.
    pose proof He as He1. rewrite has_end_app in He1. apply orb_false_iff in He1 as [-> _].
    replace (_ <=? _) with false by (rewrite (length_app (buf ++ x :: c)) in Hl; lia). by apply IH.
Qed.

(** The read timeout is per read: a client that sends a byte at a time is read
    to the end of the limit, and the accept loop serves no one else meanwhile. *)
Theorem slow_client_held n tail : Z.of_nat n < MAX_REQUEST_HEADER_BYTES ->
  read_request_headers (replicate n (Data [65]) ++ tail) = read_whole (replicate n 65) tail.
Proof.
  intros Hn. unfold read_request_headers. rewrite read_loop_whole by done.
  enough (forall k, Z.of_nat (k + n) < MAX_REQUEST_HEADER_BYTES ->
    read_whole (replicate k 65) (replicate n (Data [65]) ++ tail) = read_whole (replicate (k + n) 65) tail) as H by exact (H 0%nat Hn).
  assert (forall k, has_end (replicate k 65) = false) as He by (induction k as [|k IH]; [done|]; cbn; exact IH).
  clear Hn. induction n as [|n IH]; intros k Hk; [by rewrite Nat.add_0_r|]. cbn [replicate app read_whole].
  assert (replicate k 65 ++ [65] = replicate (S k) 65) as -> by (rewrite replicate_S_end; done).
  rewrite He, length_replicate. replace (MAX_REQUEST_HEADER_BYTES <=? Z.of_nat (S k)) with false by (symmetry; apply Z.leb_gt; lia).
  rewrite IH by lia. by replace (S k + n)%nat with (k + S n)%nat by lia.
Qed.

(** ** Polling *)

(** A poll that fails: the table cannot be read now. *)
Definition fails (chip : SharedChip) : Prop := exists e, read_telemetry chip = Some (Err e).

(** The pause after the failure number [k] in a row. *)
Definition pause (k : nat) : Z := Z.min (FIRST_BACKOFF * 2 ^ Z.of_nat k) MAX_BACKOFF.

Lemma pause_step k : Z.min (pause k * 2) MAX_BACKOFF = pause (S k).
Proof.
  unfold pause, MAX_BACKOFF, FIRST_BACKOFF. rewrite Nat2Z.inj_succ, Z.pow_succ_r by lia.
  pose proof (Z.pow_pos_nonneg 2 (Z.of_nat k) ltac:(lia) ltac:(lia)). lia.
Qed.

Lemma poll_loop_app p polls more : Forall (fun x => x.1 = false /\ is_Some (read_telemetry x.2)) polls ->
  poll_loop p (polls ++ more) = poll_loop (poll_loop p polls) more.
Proof.
  intros H. revert p. induction H as [|[b c] polls [Hb [r Hr]] _ IH]; intros p; [done|]. cbn in Hb, Hr. subst b.
  cbn [app poll_loop]. unfold poll_step. rewrite Hr. by destruct r.
Qed.

Lemma failures_pause chips : Forall fails chips -> forall p k, backoff p = pause k ->
  poll_loop p (List.map (pair false) chips) =
    mk_poller (chip_telemetry p) (pause (k + length chips)) (slept p ++ List.map pause (seq k (length chips))).
Proof.
  induction 1 as [|c chips [e He] _ IH]; intros [t b sl] k Hk; cbn in Hk; subst b.
  - cbn. by rewrite Nat.add_0_r, app_nil_r.
  - cbn [List.map poll_loop]. unfold poll_step. rewrite He. cbn [chip_telemetry backoff slept].
    rewrite pause_step, (IH (mk_poller t (pause (S k)) (sl ++ [pause k])) (S k) eq_refl). cbn [chip_telemetry slept length seq List.map]. rewrite <- app_assoc.
    by replace (S k + length chips)%nat with (k + S (length chips))%nat by lia.
Qed.

(** The telemetry poller keeps the last good snapshot and backs off within bounds:
    after a poll that succeeds, a run of failures of any length leaves that
    poll's table as the snapshot the exporter serves, the pauses are 5 seconds, then
    half a second doubling with every failure and never more than a minute, and
    the next success replaces the snapshot and starts the pauses over. *)
Theorem poller_backs_off p good t chips again t' :
  read_telemetry good = Some (Ok t) -> Forall fails chips -> read_telemetry again = Some (Ok t') ->
  let failed := poll_loop p (List.map (pair false) (good :: chips)) in
  let last := poll_loop p (List.map (pair false) (good :: chips ++ [again])) in
  chip_telemetry failed = Some t /\
  slept failed = slept p ++ 5000 :: List.map pause (seq 0 (length chips)) /\
  (forall i, 500 <= pause i <= 60000) /\
  chip_telemetry last = Some t' /\ backoff last = 500 /\
  slept last = slept failed ++ [5000].
Proof.
  intros Hg Hf Ha. cbn zeta.
  assert (poll_loop p (List.map (pair false) (good :: chips)) =
    mk_poller (Some t) (pause (length chips)) (slept p ++ 5000 :: List.map pause (seq 0 (length chips)))) as E1.
  { cbn [List.map poll_loop]. unfold poll_step at 1. rewrite Hg. rewrite (failures_pause chips Hf _ 0) by done.
    cbn [chip_telemetry slept]. by rewrite <- app_assoc. }
  assert (poll_loop p (List.map (pair false) (good :: chips ++ [again])) =
    mk_poller (Some t') 500 ((slept p ++ 5000 :: List.map pause (seq 0 (length chips))) ++ [5000])) as E2.
  { change (good :: chips ++ [again]) with ((good :: chips) ++ [again]). rewrite map_app, poll_loop_app.
    - rewrite E1. cbn [List.map poll_loop]. unfold poll_step. by rewrite Ha.
    - constructor; [cbn; rewrite Hg; by eauto|]. apply Forall_map. eapply Forall_impl; [exact Hf|]. intros c [e He]. cbn. rewrite He. by eauto. }
  rewrite E1, E2. repeat split; try done; unfold pause, FIRST_BACKOFF, MAX_BACKOFF;
    pose proof (Z.pow_pos_nonneg 2 (Z.of_nat i) ltac:(lia) ltac:(lia)); lia.
Qed.

Lemma poller_backs_off_witness :
  exists t, let good := mk_chip (Some (demo_arc, demo_csm)) in let bad := mk_chip None in
  read_telemetry good = Some (Ok t) /\
  chip_telemetry (poll_loop (mk_poller None 500 []) (List.map (pair false) (good :: [bad; bad]))) = Some t /\
  slept (poll_loop (mk_poller None 500 []) (List.map (pair false) (good :: [bad; bad]))) = [5000; 500; 1000].
Proof.
  destruct (read_telemetry (mk_chip (Some (demo_arc, demo_csm)))) as [[t|e]|] eqn:E; [|exfalso..].
  2, 3: assert (match read_telemetry (mk_chip (Some (demo_arc, demo_csm))) with Some (Ok _) => true | _ => false end = true) as H
    by (vm_compute; reflexivity); rewrite E in H; done.
  exists t. cbn zeta. assert (Forall fails [mk_chip None; mk_chip None]) as Hf by (repeat constructor; eexists; reflexivity).
  destruct (poller_backs_off (mk_poller None 500 []) _ t _ _ t E Hf E) as (H1 & H2 & _).
  split; [done|]. split; [exact H1|exact H2].
Defined.
