(* ===== verification/CloudInit.v ===== *)
(** The cloud-init seed of [src/cloud_init.rs]: validation of the operator's
    fields, the two documents and the ISO image.

    A [&str] is the list of its Unicode scalar values.  The YAML parser, the
    tools that hash a password or pack an image and the clock are the host
    program's surroundings, the class [SeedHost]; a tool is what it prints when it
    exits with success.  The IP-address parser is the one of the standard library;
    only whether it accepts matters here. *)

From S2P Require Import Prelude Text Parse Profile ConsoleHub Clock Telemetry Protocol DeviceTree Server Session ConsoleWorker Metrics.

Class SeedHost := {
  yaml_parses : list Z -> bool;
  openssl_passwd : list Z -> option (list Z);
  mkpasswd : list Z -> option (list Z);
  host_pid : Z;
  host_nanos : Z;
  path_dirs : option (list (list Z));
  is_file : list Z -> bool;
}.

(** ** IP addresses *)

Definition is_hex (c : Z) : bool := is_digit c || ((97 <=? c) && (c <=? 102)) || ((65 <=? c) && (c <=? 70)).

(** The digits at the front and what follows. *)
Fixpoint span (p : Z -> bool) (s : list Z) : list Z * list Z :=
  match s with
  | c :: s' => if p c then let (a, b) := span p s' in (c :: a, b) else ([], s)
  | [] => ([], [])
  end.

(** [read_number(10, Some(3), false)] into a u8. *)
Definition read_octet (s : list Z) : option (list Z) :=
  let (ds, rest) := span is_digit s in
  match parse_uint 255 ds with
  | None => None
  | Some _ =>
      if (3 <? Z.of_nat (length ds)) || (starts_with [48] ds && (1 <? Z.of_nat (length ds))) then None else Some rest
  end.

(** [read_number(16, Some(4), true)] into a u16. *)
Definition read_group (s : list Z) : option (list Z) :=
  let (ds, rest) := span is_hex s in
  if (1 <=? Z.of_nat (length ds)) && (Z.of_nat (length ds) <=? 4) then Some rest else None.

Definition given_char (c : Z) (s : list Z) : option (list Z) := strip_prefix [c] s.

(** [read_separator]. *)
Definition separated (sep : Z) (i : nat) (inner : list Z -> option (list Z)) (s : list Z) : option (list Z) :=
  match i with O => inner s | S _ => let! s := given_char sep s in inner s end.

Definition read_ipv4_addr (s : list Z) : option (list Z) :=
  let! s := read_octet s in
  let! s := separated 46 1 read_octet s in
  let! s := separated 46 2 read_octet s in
  separated 46 3 read_octet s.

(** Up to [k] more groups from group [i]: how many there are now and whether the
    last two were an IPv4 address. *)
Fixpoint read_groups (k i : nat) (s : list Z) : nat * bool * list Z :=
  match k with
  | O => (i, false, s)
  | S k =>
      match (match k with O => None | S _ => separated 58 i read_ipv4_addr s end) with
      | Some s => (S (S i), true, s)
      | None =>
          match separated 58 i read_group s with
          | Some s => read_groups k (S i) s
          | None => (i, false, s)
          end
      end
  end.

Definition read_ipv6_addr (s : list Z) : option (list Z) :=
  let '(head_size, head_ipv4, s) := read_groups 8 0 s in
  if (head_size =? 8)%nat then Some s
  else if head_ipv4 : bool then None
  else
    let! s := given_char 58 s in
    let! s := given_char 58 s in
    let '(_, _, s) := read_groups (8 - (head_size + 1)) 0 s in Some s.

(** [str::parse::<IpAddr>] succeeds. *)
Definition is_ip_addr (s : list Z) : bool :=
  match (match read_ipv4_addr s with Some r => Some r | None => read_ipv6_addr s end) with
  | Some [] => true
  | _ => false
  end.

(** ** The seed *)

Definition DEFAULT_USER : list Z := chars "bhx".
Definition DEFAULT_PASSWORD : list Z := chars "bhx".
Definition DEFAULT_NAMESERVER : list Z := chars "8.8.8.8".

Record SeedSpec := mk_seed {
  user : option (list Z);
  password : option (list Z);
  ssh_keys : list (list Z);
  hostname : option (list Z);
  instance_id : option (list Z);
  nameservers : list (list Z);
  extra_user_data : option (list Z) }.

Definition user_ch (c : Z) : bool := is_alnum c || (c =? 46) || (c =? 95) || (c =? 45).

Definition validate_user (s : list Z) : result unit Error :=
  match s with
  | [] => Err BadRequest
  | first :: rest =>
      if 32 <? str_len s then Err BadRequest
      else if negb (is_alpha first || is_digit first) then Err BadRequest
      else if forallb user_ch rest then Ok () else Err BadRequest
  end.

Definition id_ch (c : Z) : bool := is_alnum c || (c =? 45).

Definition validate_instance_id (s : list Z) : result unit Error :=
  match s with
  | [] => Err BadRequest
  | _ => if 64 <? str_len s then Err BadRequest else if forallb id_ch s then Ok () else Err BadRequest
  end.

Definition key_ch (c : Z) : bool := ((32 <=? c) && (c <=? 126)) || (c =? 9).

Definition validate_ssh_key (s : list Z) : result unit Error :=
  match s with
  | [] => Err BadRequest
  | _ => if 4096 <? str_len s then Err BadRequest else if forallb key_ch s then Ok () else Err BadRequest
  end.

Section seed.
  Context `{SeedHost}.

Definition validate (spec : SeedSpec) : result unit Error :=
  let? _ := try_opt validate_user (user spec) in
  let? _ := try_opt (fun h => match parse_hostname h with Ok _ => Ok () | Err _ => Err BadRequest end) (hostname spec) in
  let? _ := try_opt validate_instance_id (instance_id spec) in
  let? _ := try_each validate_ssh_key (ssh_keys spec) in
  let? _ := try_each (fun ns => if is_ip_addr ns then Ok () else Err BadRequest) (nameservers spec) in
  try_opt (fun extra => if yaml_parses extra then Ok () else Err BadRequest) (extra_user_data spec).

(** What a tool printed, if it looks like a SHA-512 hash. *)
Definition usable (out : option (list Z)) : option (list Z) :=
  let! s := out in
  let s := trim s in
  if starts_with (chars "$6$") s then Some s else None.

Definition hash_password_sha512 (plaintext : list Z) : result (list Z) Error :=
  match usable (openssl_passwd plaintext) with
  | Some h => Ok h
  | None => ok_or (usable (mkpasswd plaintext)) BadRequest
  end.

Definition is_nil {A} (l : list A) : bool := match l with [] => true | _ => false end.

Definition effective_password (spec : SeedSpec) : option (list Z) :=
  if negb (is_nil (ssh_keys spec)) then password spec else Some (default DEFAULT_PASSWORD (password spec)).

Definition effective_nameservers (spec : SeedSpec) : list (list Z) :=
  if is_nil (nameservers spec) then [DEFAULT_NAMESERVER] else nameservers spec.

Definition push_extra (extra : option (list Z)) : list Z :=
  match extra with
  | None => []
  | Some extra =>
      (if starts_with [10] extra then [] else [10]) ++ extra ++ (if ends_with extra [10] then [] else [10])
  end.

Definition ln (s : list Z) : list Z := s ++ [10].

Definition render_user_data (spec : SeedSpec) : result (list Z) Error :=
  let? password_hash :=
    match effective_password spec with
    | Some p => let? h := hash_password_sha512 p in Ok (Some h)
    | None => Ok None
    end in
  Ok (ln (chars "#cloud-config") ++
      (match password_hash with Some _ => ln (chars "ssh_pwauth: true") | None => [] end) ++
      ln (chars "users:") ++
      ln (chars "  - name: " ++ default DEFAULT_USER (user spec)) ++
      ln (chars "    sudo: ALL=(ALL) NOPASSWD:ALL") ++
      ln (chars "    shell: /bin/bash") ++
      (match password_hash with
       | Some h => ln (chars "    lock_passwd: false") ++ ln (chars "    passwd: '" ++ h ++ chars "'")
       | None => ln (chars "    lock_passwd: true")
       end) ++
      (if is_nil (ssh_keys spec) then []
       else ln (chars "    ssh_authorized_keys:") ++
            flat_map (fun key => ln (chars "      - " ++ [34] ++ trim key ++ [34])) (ssh_keys spec)) ++
      ln (chars "bootcmd:") ++
      ln (chars "  - [ sh, -c, 'rm -f /etc/resolv.conf && (") ++
      flat_map (fun ns => ln (chars "      echo nameserver " ++ ns)) (effective_nameservers spec) ++
      ln (chars "    ) > /etc/resolv.conf' ]") ++
      push_extra (extra_user_data spec)).

(** [{:x}] of a u128. *)
Definition generate_instance_id : list Z :=
  chars "iid-bhx-" ++ show_hex host_pid ++ chars "-" ++ show_hex_aux 32 host_nanos [].

Definition render_meta_data (spec : SeedSpec) : list Z :=
  ln (chars "instance-id: " ++ default generate_instance_id (instance_id spec)) ++
  ln (chars "local-hostname: " ++ default (chars "bhx-guest") (hostname spec)).

(** ** The image *)

Definition which (name : list Z) : option (list Z) :=
  let! dirs := path_dirs in
  List.find is_file (List.map (fun dir => dir ++ chars "/" ++ name) dirs).

Definition iso_tools : list (list Z) := [chars "xorrisofs"; chars "genisoimage"; chars "mkisofs"].

Definition pick_iso_tool : option (list Z) :=
  List.find (fun t => match which t with Some _ => true | None => false end) iso_tools.

(** [Path::parent], of a path without dot components. *)
Fixpoint drop_slashes (s : list Z) : list Z :=
  match s with c :: s' => if c =? 47 then drop_slashes s' else s | [] => [] end.
Definition no_trailing (s : list Z) : list Z := rev (drop_slashes (rev s)).
Definition parent (p : list Z) : option (list Z) :=
  match no_trailing p with
  | [] => None
  | q =>
      match rsplit_once [47] q with
      | None => Some []
      | Some (d, _) => Some (match no_trailing d with [] => [47] | d => d end)
      end
  end.

(** What is asked of the file system and the tool, and what each step gives. *)
Inductive IsoAct :=
| Stage (name content : list Z)
| MakeDirs (dir : list Z)
| Pack (tool : list Z) (args : list (list Z)) (output : list Z).

Record IsoSteps := mk_iso_steps {
  tempdir_ok : bool; stage_ok : list Z -> bool; mkdirs_ok : bool; spawn_ok : bool; exit_ok : bool }.

Definition io_step (ok : bool) (done_ : list IsoAct) (k : list IsoAct * result unit Error) : list IsoAct * result unit Error :=
  if ok then k else (done_, Err Io).

Definition iso_args : list (list Z) := [chars "-V"; chars "cidata"; chars "-J"; chars "-r"; chars "-o"].

Definition write_iso (fs : IsoSteps) (user_data meta_data output : list Z) : list IsoAct * result unit Error :=
  match pick_iso_tool with
  | None => ([], Err BadRequest)
  | Some tool =>
      let ud := Stage (chars "user-data") user_data in
      let md := Stage (chars "meta-data") meta_data in
      let dirs := match parent output with Some (c :: d) => [MakeDirs (c :: d)] | _ => [] end in
      let staged := [ud; md] ++ dirs in
      io_step (tempdir_ok fs) [] (
      io_step (stage_ok fs (chars "user-data")) [] (
      io_step (stage_ok fs (chars "meta-data")) [ud] (
      io_step (is_nil dirs || mkdirs_ok fs) [ud; md] (
      io_step (spawn_ok fs) staged (
      (staged ++ [Pack tool iso_args output], if exit_ok fs then Ok () else Err BadRequest))))))
  end.

Definition seed_write_iso (fs : IsoSteps) (spec : SeedSpec) (output : list Z) : list IsoAct * result unit Error :=
  match validate spec with
  | Err e => ([], Err e)
  | Ok _ =>
      match render_user_data spec with
      | Err e => ([], Err e)
      | Ok user_data => write_iso fs user_data (render_meta_data spec) output
      end
  end.

End seed.

(** ** What is accepted *)

Definition ip_ch (c : Z) : bool := is_hex c || (c =? 46) || (c =? 58).

(** A reader takes a part of the text, all of it from the class. *)
Definition takes (f : list Z -> option (list Z)) : Prop :=
  forall s r, f s = Some r -> exists w, s = w ++ r /\ forallb ip_ch w = true.

Lemma span_app p s : let (a, b) := span p s in s = a ++ b /\ forallb p a = true.
Proof.
  induction s as [|c s IH]; [done|]. cbn [span]. destruct (p c) eqn:E; [|done].
  destruct (span p s) as [a b]. destruct IH as [-> Ha]. cbn [app forallb]. by rewrite E.
Qed.

Lemma takes_octet : takes read_octet.
Proof.
  intros s r. unfold read_octet. pose proof (span_app is_digit s) as Hs. destruct (span is_digit s) as [a b].
  destruct Hs as [-> Ha]. destruct (parse_uint 255 a); [|done]. destruct (_ || _); [done|]. intros E. injection E as <-.
  exists a. split; [done|]. eapply forallb_imp; [|exact Ha]. unfold ip_ch, is_hex. by intros x ->.
Qed.

Lemma takes_group : takes read_group.
Proof.
  intros s r. unfold read_group. pose proof (span_app is_hex s) as Hs. destruct (span is_hex s) as [a b].
  destruct Hs as [-> Ha]. destruct (_ && _); [|done]. intros E. injection E as <-.
  exists a. split; [done|]. eapply forallb_imp; [|exact Ha]. unfold ip_ch. by intros x ->.
Qed.

Lemma takes_char c : ip_ch c = true -> takes (given_char c).
Proof. intros Hc s r E. apply strip_prefix_app in E as ->. exists [c]. cbn. by rewrite Hc. Qed.

Lemma takes_bind f g : takes f -> takes g -> takes (fun s => let! s := f s in g s).
Proof.
  intros Hf Hg s r E. destruct (f s) as [s'|] eqn:Ef; [|done]. destruct (Hf _ _ Ef) as (w & -> & Hw).
  destruct (Hg _ _ E) as (v & -> & Hv). exists (w ++ v). rewrite app_assoc. split; [done|]. by apply forallb_app_iff.
Qed.

Lemma takes_separated sep i f : ip_ch sep = true -> takes f -> takes (separated sep i f).
Proof. intros Hs Hf. destruct i; [done|]. by apply takes_bind; [apply takes_char|]. Qed.

Lemma takes_ipv4 : takes read_ipv4_addr.
Proof.
  assert (forall i, takes (separated 46 i read_octet)) as Hs by (intros; by apply takes_separated, takes_octet).
  unfold read_ipv4_addr. apply (takes_bind read_octet); [apply takes_octet|].
  apply (takes_bind (separated 46 1 read_octet)); [done|]. by apply (takes_bind (separated 46 2 read_octet)).
Qed.

Lemma takes_groups k : forall i s, exists w, s = w ++ (read_groups k i s).2 /\ forallb ip_ch w = true.
Proof.
  induction k as [|k IH]; intros i s; [by exists []|]. cbn [read_groups].
  destruct (match k with O => None | S _ => _ end) as [s'|] eqn:E4.
  - destruct k; [done|]. exact (takes_separated 58 i _ eq_refl takes_ipv4 _ _ E4).
  - destruct (separated 58 i read_group s) as [s'|] eqn:E; [|by exists []].
    destruct (takes_separated 58 i _ eq_refl takes_group _ _ E) as (w & -> & Hw).
    destruct (IH (S i) s') as (v & Hs & Hv). exists (w ++ v). rewrite <- app_assoc, <- Hs. split; [done|].
    by apply forallb_app_iff.
Qed.

Lemma takes_ipv6 : takes read_ipv6_addr.
Proof.
  intros s r E. unfold read_ipv6_addr in E. pose proof (takes_groups 8 0 s) as (w & Hs & Hw).
  destruct (read_groups 8 0 s) as [[n v4] s']. cbn in Hs. subst s. destruct (n =? 8)%nat; [injection E as <-; by exists w|].
  destruct v4; [done|]. revert E. set (tail := fun t => let! t := given_char 58 t in let! t := given_char 58 t in
    let '(_, _, t) := read_groups (8 - (n + 1)) 0 t in Some t). intros E. change (tail s' = Some r) in E.
  assert (takes tail) as Ht.
  { apply (takes_bind (given_char 58)); [by apply takes_char|]. apply (takes_bind (given_char 58)); [by apply takes_char|]. intros t u. pose proof (takes_groups (8 - (n + 1)) 0 t) as (x & Hx & Hc).
    destruct (read_groups _ 0 t) as [[? ?] t']. intros Et. injection Et as <-. by exists x. }
  destruct (Ht _ _ E) as (x & -> & Hx). exists (w ++ x). rewrite app_assoc. split; [done|]. by apply forallb_app_iff.
Qed.

(** An address is made of hexadecimal digits, dots and colons. *)
Lemma ip_addr_chars s : is_ip_addr s = true -> forallb ip_ch s = true.
Proof.
  unfold is_ip_addr. destruct (read_ipv4_addr s) as [r|] eqn:E4.
  - destruct r; [|done]. intros _. destruct (takes_ipv4 _ _ E4) as (w & -> & Hw). by rewrite app_nil_r.
  - destruct (read_ipv6_addr s) as [r|] eqn:E6; [|done]. destruct r; [|done]. intros _.
    destruct (takes_ipv6 _ _ E6) as (w & -> & Hw). by rewrite app_nil_r.
Qed.

Lemma try_each_Forall {A} (f : A -> result unit Error) l : try_each f l = Ok () -> Forall (fun x => f x = Ok ()) l.
Proof. induction l as [|x l IH]; [constructor|]. cbn. destruct (f x) as [[]|] eqn:Ex; [|done]. intros. constructor; auto. Qed.

(** The fields of a seed that passed. *)
Record valid `{SeedHost} (spec : SeedSpec) : Prop := mk_valid {
  valid_user : try_opt validate_user (user spec) = Ok ();
  valid_host : match hostname spec with Some h => hostname_ok h | None => True end;
  valid_id : try_opt validate_instance_id (instance_id spec) = Ok ();
  valid_keys : Forall (fun k => validate_ssh_key k = Ok ()) (ssh_keys spec);
  valid_ns : Forall (fun n => is_ip_addr n = true) (nameservers spec) }.

Lemma validate_valid `{SeedHost} spec : validate spec = Ok () -> valid spec.
Proof.
  unfold validate. intros Hv.
  destruct (try_opt validate_user (user spec)) as [[]|] eqn:Eu; [|done].
  destruct (try_opt _ (hostname spec)) as [[]|] eqn:Eh; [|done].
  destruct (try_opt validate_instance_id (instance_id spec)) as [[]|] eqn:Ei; [|done].
  destruct (try_each validate_ssh_key (ssh_keys spec)) as [[]|] eqn:Ek; [|done].
  destruct (try_each _ (nameservers spec)) as [[]|] eqn:En; [|done]. constructor; try done.
  - destruct (hostname spec) as [h|]; [|done]. cbn in Eh. destruct (parse_hostname h) as [x|] eqn:Ep; [|done].
    by apply parse_hostname_spec in Ep as [_ ?].
  - by apply try_each_Forall.
  - apply try_each_Forall in En. eapply Forall_impl; [exact En|]. cbn. intros x. by destruct (is_ip_addr x).
Qed.

Lemma user_printable s : validate_user s = Ok () -> forallb user_ch s = true.
Proof.
  unfold validate_user. destruct s as [|c s]; [done|]. destruct (_ <? _); [done|].
  destruct (is_alpha c || is_digit c) eqn:Ec; [|done]. cbn [negb]. destruct (forallb user_ch s) eqn:Es; [|done].
  intros _. cbn [forallb]. rewrite Es. unfold user_ch, is_alnum. by rewrite Ec.
Qed.

Lemma id_printable s : validate_instance_id s = Ok () -> forallb id_ch s = true.
Proof. unfold validate_instance_id. destruct s; [done|]. destruct (_ <? _); [done|]. by destruct (forallb _ _). Qed.

Lemma key_printable s : validate_ssh_key s = Ok () -> forallb key_ch s = true.
Proof. unfold validate_ssh_key. destruct s; [done|]. destruct (_ <? _); [done|]. by destruct (forallb _ _). Qed.

Lemma drop_ws_suffix s : exists w, s = w ++ drop_ws s.
Proof.
  induction s as [|c s [w IH]]; [by exists []|]. cbn [drop_ws]. destruct (is_whitespace c); [|by exists []].
  exists (c :: w). cbn. by f_equal.
Qed.

Lemma drop_ws_class (p : Z -> bool) s : forallb p s = true -> forallb p (drop_ws s) = true.
Proof. destruct (drop_ws_suffix s) as [w E]. intros H. rewrite E in H. by apply forallb_app_iff in H as [_ H]. Qed.

Lemma forallb_rev {A} (p : A -> bool) l : forallb p (rev l) = forallb p l.
Proof.
  apply eq_true_iff_eq. rewrite !forallb_forall. split; intros H x Hx; apply H; by apply in_rev; rewrite ?rev_involutive.
Qed.

Lemma trim_class (p : Z -> bool) s : forallb p s = true -> forallb p (trim s) = true.
Proof. intros H. unfold trim. rewrite forallb_rev. apply drop_ws_class. rewrite forallb_rev. by apply drop_ws_class. Qed.

(** ** The document, line by line *)

Section document.
  Context `{SeedHost}.

(** What the hash tools print: the alphabet of crypt(3). *)
Definition crypt_ch (c : Z) : bool := is_alnum c || (c =? 36) || (c =? 46) || (c =? 47).
Definition crypt_text (out : option (list Z)) : Prop :=
  match usable out with Some h => forallb crypt_ch h = true | None => True end.

Definition key_line (key : list Z) : list Z := chars "      - " ++ [34] ++ trim key ++ [34].
Definition ns_line (ns : list Z) : list Z := chars "      echo nameserver " ++ ns.

Definition seed_lines (spec : SeedSpec) (h : option (list Z)) : list (list Z) :=
  [chars "#cloud-config"] ++
  (match h with Some _ => [chars "ssh_pwauth: true"] | None => [] end) ++
  [chars "users:"; chars "  - name: " ++ default DEFAULT_USER (user spec);
   chars "    sudo: ALL=(ALL) NOPASSWD:ALL"; chars "    shell: /bin/bash"] ++
  (match h with
   | Some h => [chars "    lock_passwd: false"; chars "    passwd: '" ++ h ++ chars "'"]
   | None => [chars "    lock_passwd: true"]
   end) ++
  (if is_nil (ssh_keys spec) then [] else chars "    ssh_authorized_keys:" :: List.map key_line (ssh_keys spec)) ++
  [chars "bootcmd:"; chars "  - [ sh, -c, 'rm -f /etc/resolv.conf && ("] ++
  List.map ns_line (effective_nameservers spec) ++
  [chars "    ) > /etc/resolv.conf' ]"].

Lemma flat_map_map_ln {A} (f : A -> list Z) l : flat_map ln (List.map f l) = flat_map (fun x => ln (f x)) l.
Proof. induction l; cbn; by f_equal. Qed.

(** The hash in use, if there is one. *)
Lemma render_lines spec ud : render_user_data spec = Ok ud -> exists h,
  ud = flat_map ln (seed_lines spec h) ++ push_extra (extra_user_data spec) /\
  match h with
  | Some h => exists p, effective_password spec = Some p /\ hash_password_sha512 p = Ok h
  | None => ssh_keys spec <> [] /\ password spec = None
  end.
Proof.
  unfold render_user_data. intros E.
  assert (forall h, flat_map ln (seed_lines spec h) ++ push_extra (extra_user_data spec) =
    ln (chars "#cloud-config") ++ (match h with Some _ => ln (chars "ssh_pwauth: true") | None => [] end) ++
    ln (chars "users:") ++ ln (chars "  - name: " ++ default DEFAULT_USER (user spec)) ++
    ln (chars "    sudo: ALL=(ALL) NOPASSWD:ALL") ++ ln (chars "    shell: /bin/bash") ++
    (match h with
     | Some h => ln (chars "    lock_passwd: false") ++ ln (chars "    passwd: '" ++ h ++ chars "'")
     | None => ln (chars "    lock_passwd: true") end) ++
    (if is_nil (ssh_keys spec) then [] else ln (chars "    ssh_authorized_keys:") ++
       flat_map (fun key => ln (chars "      - " ++ [34] ++ trim key ++ [34])) (ssh_keys spec)) ++
    ln (chars "bootcmd:") ++ ln (chars "  - [ sh, -c, 'rm -f /etc/resolv.conf && (") ++
    flat_map (fun ns => ln (chars "      echo nameserver " ++ ns)) (effective_nameservers spec) ++
    ln (chars "    ) > /etc/resolv.conf' ]") ++ push_extra (extra_user_data spec)) as Hr.
  { intros h. unfold seed_lines. rewrite !flat_map_app, <- !app_assoc.
    destruct h; destruct (is_nil (ssh_keys spec)); cbn [flat_map]; rewrite ?app_nil_r, <- ?app_assoc;
      rewrite !flat_map_map_ln; reflexivity. }
  destruct (effective_password spec) as [p|] eqn:Ep.
  - destruct (hash_password_sha512 p) as [h|] eqn:Eh; [|done]. injection E as <-. exists (Some h). rewrite Hr. split; [done|]. by exists p.
  - injection E as <-. exists None. rewrite Hr. split; [done|]. unfold effective_password in Ep.
    destruct (ssh_keys spec); [done|]. cbn in Ep. done.
Qed.

(** ** Reading it back *)

Definition lines_of (ud : list Z) : list (list Z) := split_on 10 ud.
Definition between (pre post : list Z) (l : list Z) : option (list Z) :=
  let! r := strip_prefix pre l in strip_suffix r post.

Definition read_users (ls : list (list Z)) : list (list Z) := omap (strip_prefix (chars "  - name: ")) ls.
Definition read_hashes (ls : list (list Z)) : list (list Z) := omap (between (chars "    passwd: '") (chars "'")) ls.
Definition read_keys (ls : list (list Z)) : list (list Z) := omap (between (chars "      - " ++ [34]) [34]) ls.
Definition read_nameservers (ls : list (list Z)) : list (list Z) := omap (strip_prefix (chars "      echo nameserver ")) ls.

Lemma between_app pre post s : between pre post (pre ++ s ++ post) = Some s.
Proof.
  unfold between. assert (strip_prefix pre (pre ++ s ++ post) = Some (s ++ post)) as -> by by apply strip_prefix_app.
  by apply strip_suffix_app.
Qed.

Lemma strip_prefix_same pre s : strip_prefix pre (pre ++ s) = Some s.
Proof. by apply strip_prefix_app. Qed.

Lemma omap_none {A B C} (f : B -> option C) (g : A -> B) l : (forall x, f (g x) = None) -> omap f (List.map g l) = [].
Proof. intros Hf. induction l as [|x l IH]; [done|]. cbn. by rewrite Hf. Qed.

Lemma omap_some {A B C} (f : B -> option C) (g : A -> B) (k : A -> C) l :
  (forall x, f (g x) = Some (k x)) -> omap f (List.map g l) = List.map k l.
Proof. intros Hf. induction l as [|x l IH]; [done|]. cbn. rewrite Hf. by f_equal. Qed.

Lemma omap_skip {B C} (f : B -> option C) x l : f x = None -> omap f (x :: l) = omap f l.
Proof. intros E. cbn. by rewrite E. Qed.

Lemma omap_take {B C} (f : B -> option C) x y l : f x = Some y -> omap f (x :: l) = y :: omap f l.
Proof. intros E. cbn. by rewrite E. Qed.

Ltac read_back :=
  repeat first
    [ rewrite omap_skip by reflexivity
    | rewrite omap_none by reflexivity
    | erewrite omap_take by first [apply strip_prefix_same|apply between_app]
    | erewrite omap_some by (intros; first [apply strip_prefix_same|apply between_app])
    | progress cbn [app is_nil] ].

Lemma read_lines spec h :
  read_users (seed_lines spec h) = [default DEFAULT_USER (user spec)] /\
  read_hashes (seed_lines spec h) = option_list h /\
  read_keys (seed_lines spec h) = List.map trim (ssh_keys spec) /\
  read_nameservers (seed_lines spec h) = effective_nameservers spec.
Proof.
  unfold read_users, read_hashes, read_keys, read_nameservers, seed_lines.
  assert (forall k, key_line k = (chars "      - " ++ [34]) ++ trim k ++ [34]) as Hk by (intros; unfold key_line; by rewrite <- app_assoc).
  rewrite (map_ext _ _ Hk). unfold ns_line.
  repeat split; rewrite !omap_app; destruct h; destruct (ssh_keys spec) as [|k ks]; cbn [is_nil]; read_back;
    rewrite ?map_id; first [reflexivity|apply app_nil_r].
Qed.

(** No field of a seed that passed brings in a line of its own. *)
Lemma seed_lines_one_line spec h : valid spec -> match h with Some h => forallb crypt_ch h = true | None => True end ->
  Forall (fun l => forallb (fun c => negb (c =? 10)) l = true) (seed_lines spec h).
Proof.
  intros Hv Hh. assert (forallb (fun c => negb (c =? 10)) (default DEFAULT_USER (user spec)) = true) as Hu.
  { pose proof (valid_user _ Hv) as Hu. destruct (user spec) as [u|]; [|done]. cbn in Hu |- *.
    by apply (class_neb user_ch), user_printable. }
  assert (Forall (fun l => forallb (fun c => negb (c =? 10)) l = true) (List.map key_line (ssh_keys spec))) as Hk.
  { apply Forall_map. eapply Forall_impl; [apply (valid_keys _ Hv)|]. cbn beta. intros k Hk. unfold key_line.
    rewrite !forallb_app_iff. repeat split; try done. by apply (class_neb key_ch), trim_class, key_printable. }
  assert (Forall (fun l => forallb (fun c => negb (c =? 10)) l = true) (List.map ns_line (effective_nameservers spec))) as Hn.
  { apply Forall_map. pose proof (valid_ns _ Hv) as Hn. unfold effective_nameservers.
    destruct (nameservers spec) as [|n ns]; [by repeat constructor|]. eapply Forall_impl; [exact Hn|]. cbn beta. intros x Hx.
    unfold ns_line. rewrite !forallb_app_iff. split; [done|]. by apply (class_neb ip_ch), ip_addr_chars. }
  unfold seed_lines. repeat (apply Forall_app; split).
  - by repeat constructor.
  - destruct h; by repeat constructor.
  - apply Forall_cons; split; [done|]. apply Forall_cons; split; [by apply forallb_app_iff|]. by repeat constructor.
  - destruct h as [h|]; [|by repeat constructor]. apply Forall_cons; split; [done|]. apply Forall_singleton.
    apply forallb_app_iff. split; [done|]. apply forallb_app_iff. split; [|done]. by apply (class_neb crypt_ch).
  - destruct (ssh_keys spec); [constructor|]. cbn [is_nil]. by constructor.
  - by repeat constructor.
  - done.
  - by repeat constructor.
Qed.

Lemma split_ln ls : Forall (fun l => forallb (fun c => negb (c =? 10)) l = true) ls -> split_on 10 (flat_map ln ls) = ls ++ [[]].
Proof.
  induction 1 as [|l ls Hl _ IH]; [done|]. cbn [flat_map app]. unfold ln at 1. rewrite <- app_assoc. cbn [app].
  rewrite split_on_app by done. by rewrite IH.
Qed.

Lemma hash_crypt p h : crypt_text (openssl_passwd p) -> crypt_text (mkpasswd p) -> hash_password_sha512 p = Ok h ->
  forallb crypt_ch h = true.
Proof.
  unfold hash_password_sha512, crypt_text. intros H1 H2. destruct (usable (openssl_passwd p)); [by intros [= <-]|].
  destruct (usable (mkpasswd p)); [by intros [= <-]|done].
Qed.

Lemma seed_document spec ud : (forall p, crypt_text (openssl_passwd p) /\ crypt_text (mkpasswd p)) ->
  validate spec = Ok () -> render_user_data spec = Ok ud -> extra_user_data spec = None ->
  exists h, lines_of ud = seed_lines spec h ++ [[]] /\
  (h = None -> ssh_keys spec <> [] /\ password spec = None).
Proof.
  intros Hc Hv Hr He. destruct (render_lines spec ud Hr) as (h & -> & Hh). exists h. rewrite He. cbn [push_extra]. rewrite app_nil_r.
  split; [|by intros ->]. unfold lines_of. apply split_ln, seed_lines_one_line; [by apply validate_valid|].
  destruct h as [h|]; [|done]. destruct Hh as (p & _ & Hp). destruct (Hc p). by eapply hash_crypt.
Qed.

(** A double-quoted scalar from after its opening quote: its text up to the
    first quote that no backslash escapes, and what follows. *)
Fixpoint quoted (s : list Z) : option (list Z * list Z) :=
  match s with
  | [] => None
  | 34 :: rest => Some ([], rest)
  | 92 :: c :: s => let! (t, rest) := quoted s in Some (92 :: c :: t, rest)
  | c :: s => let! (t, rest) := quoted s in Some (c :: t, rest)
  end.

Definition unquoted_ch (c : Z) : bool := negb (c =? 34) && negb (c =? 92).

Lemma quoted_plain s rest : forallb unquoted_ch s = true -> quoted (s ++ 34 :: rest) = Some (s, rest).
Proof.
  induction s as [|c s IH]; [done|]. cbn [forallb app]. rewrite andb_true_iff. unfold unquoted_ch at 1.
  intros [Hc Hs]. specialize (IH Hs). assert (c <> 34 /\ c <> 92) as [H1 H2] by lia.
  cbn [quoted]. rewrite IH. destruct c as [|p|p]; try reflexivity. repeat (destruct p as [p|p|]; try reflexivity; try congruence).
Qed.

(** A key without a quote or a backslash is one scalar, the whole line. *)
Lemma key_line_scalar k : forallb unquoted_ch k = true ->
  exists r, strip_prefix (chars "      - " ++ [34]) (key_line k) = Some r /\ quoted r = Some (trim k, []).
Proof.
  intros Hk. exists (trim k ++ [34]). split; [|by apply quoted_plain, trim_class].
  unfold key_line. rewrite (app_assoc (chars "      - ")). apply strip_prefix_same.
Qed.

(** What a reader of double-quoted scalars sees of the key lines: the text of the
    scalar of each, and what stands behind it. *)
Definition key_scalar (l : list Z) : option (list Z * list Z) :=
  match strip_prefix (chars "      - " ++ [34]) l with Some r => quoted r | None => None end.

Definition read_scalars (ls : list (list Z)) : list (list Z * list Z) := omap key_scalar ls.

Lemma key_scalar_line k : forallb unquoted_ch k = true -> key_scalar (key_line k) = Some (trim k, []).
Proof. intros Hk. destruct (key_line_scalar k Hk) as (r & Hr & Hq). unfold key_scalar. by rewrite Hr. Qed.

Lemma read_scalars_keys ks : Forall (fun k => forallb unquoted_ch k = true) ks ->
  read_scalars (List.map key_line ks) = List.map (fun k => (trim k, [])) ks.
Proof. induction 1 as [|k ks Hk _ IH]; [done|]. cbn [List.map]. unfold read_scalars. by rewrite (omap_take _ _ _ _ (key_scalar_line k Hk)), <- IH. Qed.

Lemma seed_scalars spec h : Forall (fun k => forallb unquoted_ch k = true) (ssh_keys spec) ->
  read_scalars (seed_lines spec h) = List.map (fun k => (trim k, [])) (ssh_keys spec).
Proof.
  intros Hk. rewrite <- read_scalars_keys by done. unfold read_scalars, seed_lines. rewrite !omap_app.
  rewrite (omap_none key_scalar ns_line) by reflexivity. destruct h; destruct (ssh_keys spec) as [|k ks]; cbn [is_nil];
    rewrite !app_nil_r; reflexivity.
Qed.

End document.

(** C30: The lines of a seed that passes validation, without text of the
    operator's own ([extra_user_data]): the user data has exactly the lines of the
    template, so no field brings in a line of its own; a reader of those lines by
    their prefixes finds one user, the login name, each key less its surrounding
    blanks, and the resolvers, in order; and there is a password hash unless there
    are keys and no password.  If moreover no key holds a quote or a backslash,
    the double-quoted YAML scalar of each key line is the whole key.  The claim is about lines and
    these scalars, not about a YAML parser or the guest's shell: a key with a quote
    does end its scalar ([key_quote_breaks_out]), and of two resolvers the shell
    gets one [echo] ([second_nameserver_lost]).  The hash tools are assumed to
    print in the alphabet of crypt. *)
Theorem seed_reads_back `{SeedHost} spec ud :
  (forall p, crypt_text (openssl_passwd p) /\ crypt_text (mkpasswd p)) ->
  validate spec = Ok () -> render_user_data spec = Ok ud -> extra_user_data spec = None ->
  exists h, lines_of ud = seed_lines spec h ++ [[]] /\
  read_users (lines_of ud) = [default DEFAULT_USER (user spec)] /\
  read_keys (lines_of ud) = List.map trim (ssh_keys spec) /\
  read_nameservers (lines_of ud) = effective_nameservers spec /\
  read_hashes (lines_of ud) = option_list h /\
  (read_hashes (lines_of ud) = [] -> ssh_keys spec <> [] /\ password spec = None) /\
  (Forall (fun k => forallb unquoted_ch k = true) (ssh_keys spec) ->
   read_scalars (lines_of ud) = List.map (fun k => (trim k, [])) (ssh_keys spec)).
Proof.
  intros Hc Hv Hr He. destruct (seed_document spec ud Hc Hv Hr He) as (h & Hl & Hh). exists h. rewrite Hl.
  destruct (read_lines spec h) as (Hu & Hp & Hk & Hn). unfold read_users, read_keys, read_nameservers, read_hashes in *.
  rewrite !omap_app, Hu, Hk, Hn, Hp. cbn [omap list_omap]. rewrite !app_nil_r. repeat split; try done.
  1, 2: destruct h; try done; by apply Hh.
  intros Hq. pose proof (seed_scalars spec h Hq) as Hs. unfold read_scalars in *. rewrite omap_app, Hs. apply app_nil_r.
Qed.

(** A host with openssl and genisoimage. *)
Definition demo_hash : list Z := chars "$6$saltsalt$NaCl.Hash/9".
Definition demo_seed_host : SeedHost :=
  Build_SeedHost (fun _ => true) (fun _ => Some (ln demo_hash)) (fun _ => None) 4242 1700000000000000000
    (Some [chars "/usr/bin"]) (fun f => bool_decide (f = chars "/usr/bin/genisoimage")).
Definition demo_seed : SeedSpec :=
  mk_seed (Some (chars "dev")) None [chars " ssh-ed25519 AAAA me@host "] None (Some (chars "iid-1"))
    [chars "1.1.1.1"; chars "2001:4860:4860::8888"] None.

Lemma seed_reads_back_witness :
  exists ud, render_user_data (H := demo_seed_host) demo_seed = Ok ud /\
  read_users (lines_of ud) = [chars "dev"] /\ read_keys (lines_of ud) = [chars "ssh-ed25519 AAAA me@host"] /\
  read_nameservers (lines_of ud) = [chars "1.1.1.1"; chars "2001:4860:4860::8888"] /\
  read_scalars (lines_of ud) = [(chars "ssh-ed25519 AAAA me@host", [])].
Proof.
  destruct (render_user_data (H := demo_seed_host) demo_seed) as [ud|] eqn:E; [|discriminate E]. exists ud. split; [done|].
  destruct (seed_reads_back (H := demo_seed_host) demo_seed ud) as (h & _ & Hu & Hk & Hn & _ & _ & Hs).
  - intros p. split; [vm_compute; reflexivity|exact I].
  - vm_compute. reflexivity.
  - exact E.
  - reflexivity.
  - rewrite Hu, Hk, Hn, Hs by by repeat constructor. repeat split; vm_compute; reflexivity.
Defined.

(** ** A quote in a key *)

(** A quote in a key passes the validation, which is there so that the line cannot
    break out of its scalar; the scalar ends at that quote and the rest of the
    key follows it. *)
Theorem key_quote_breaks_out a b :
  forallb key_ch a = true -> forallb unquoted_ch a = true -> forallb key_ch b = true -> a <> [] -> b <> [] ->
  Z.of_nat (length a) + Z.of_nat (length b) <= 4000 ->
  trim (a ++ 34 :: b) = a ++ 34 :: b ->
  validate_ssh_key (a ++ 34 :: b) = Ok () /\
  exists r, strip_prefix (chars "      - " ++ [34]) (key_line (a ++ 34 :: b)) = Some r /\ quoted r = Some (a, b ++ [34]).
Proof.
  intros Ha Hq Hb Hna Hnb Hl Ht.
  assert (forallb key_ch (a ++ 34 :: b) = true) as Hk by (apply forallb_app_iff; by rewrite Ha; cbn; rewrite Hb).
  split.
  - unfold validate_ssh_key. destruct a as [|c a]; [done|]. cbn [app] in *. 
    assert (forall s, forallb key_ch s = true -> str_len s = Z.of_nat (length s)) as Hlen.
    { induction s as [|x s IH]; [done|]. cbn [forallb str_len foldr length]. rewrite andb_true_iff. intros [Hx Hs].
      fold (str_len s). rewrite (IH Hs). unfold utf8_len_char, key_ch in *. replace (x <? 0x80) with true by lia. lia. }
    rewrite (Hlen _ Hk). replace (_ <? _) with false; [by rewrite Hk|]. symmetry. apply Z.ltb_ge.
    cbn [length]. rewrite length_app. cbn [length] in *. lia.
  - exists ((a ++ 34 :: b) ++ [34]). split; [|rewrite <- app_assoc; by apply quoted_plain].
    unfold key_line. rewrite Ht, (app_assoc (chars "      - ")). apply strip_prefix_same.
Qed.

(** ** The folded command *)

(** The text of the single-quoted scalar of the boot command, with its lines. *)
Definition bootcmd_lines (ns : list (list Z)) : list (list Z) :=
  chars "rm -f /etc/resolv.conf && (" :: List.map ns_line ns ++ [chars "    ) > /etc/resolv.conf"].

(** Flow folding of YAML: a line break within a quoted scalar and the blanks
    around it are one space. *)
Fixpoint fold_flow (ls : list (list Z)) : list Z :=
  match ls with
  | [] => []
  | [l] => trim l
  | l :: ls => trim l ++ chars " " ++ fold_flow ls
  end.

Lemma ip_ch_nows c : ip_ch c = true -> is_whitespace c = false.
Proof. unfold ip_ch, is_hex, is_digit, is_whitespace. lia. Qed.

Lemma trim_front c s : is_whitespace c = true -> trim (c :: s) = trim s.
Proof. intros Hc. unfold trim. cbn [drop_ws]. by rewrite Hc. Qed.

Lemma trim_ends c s : is_whitespace c = false -> (forall d t, rev s = d :: t -> is_whitespace d = false) -> trim (c :: s) = c :: s.
Proof.
  intros Hc Hs. unfold trim. cbn [drop_ws]. rewrite Hc. cbn [rev]. destruct (rev s) as [|d t] eqn:E.
  - cbn. rewrite Hc. cbn. f_equal. by rewrite <- (rev_involutive s), E.
  - cbn [app drop_ws]. rewrite (Hs d t eq_refl). change (d :: t ++ [c]) with ((d :: t) ++ [c]). rewrite rev_app_distr, <- E. cbn. by rewrite rev_involutive.
Qed.

Lemma trim_ns_line n : n <> [] -> forallb ip_ch n = true -> trim (ns_line n) = chars "echo nameserver " ++ n.
Proof.
  intros Hn Hc. unfold ns_line. change (chars "      echo nameserver ") with (chars "      " ++ 101 :: chars "cho nameserver ").
  rewrite <- app_assoc. cbn [app]. change (chars "      ") with [32; 32; 32; 32; 32; 32]. cbn [app].
  rewrite !trim_front by done. apply trim_ends; [done|]. intros d t. rewrite rev_app_distr.
  destruct (rev n) as [|x r] eqn:E.
  - destruct n; [done|]. cbn in E. by destruct (rev n).
  - cbn [app]. intros [= -> _]. apply ip_ch_nows. rewrite <- forallb_rev, E in Hc. cbn in Hc. by apply andb_true_iff in Hc as [Hc _].
Qed.

(** The command that the guest's shell gets has no separator between the
    resolvers' [echo]s: with two resolvers it is one [echo] whose arguments are the
    words of both lines, and the second resolver is not on a line of its own. *)
Theorem second_nameserver_lost a b :
  is_ip_addr a = true -> is_ip_addr b = true -> a <> [] -> b <> [] ->
  fold_flow (bootcmd_lines [a; b]) =
    chars "rm -f /etc/resolv.conf && ( echo nameserver " ++ a ++ chars " echo nameserver " ++ b ++ chars " ) > /etc/resolv.conf".
Proof.
  intros Ha Hb Hna Hnb. unfold bootcmd_lines. cbn [List.map app fold_flow].
  rewrite !trim_ns_line by (done || by apply ip_addr_chars). rewrite <- !app_assoc. reflexivity.
Qed.

(** The rendered command is that scalar. *)
Lemma bootcmd_rendered `{SeedHost} spec h : exists pre,
  flat_map ln (seed_lines spec h) =
    pre ++ chars "  - [ sh, -c, '" ++ concat (List.map ln (removelast (bootcmd_lines (effective_nameservers spec)))) ++
    chars "    ) > /etc/resolv.conf" ++ ln (chars "' ]").
Proof.
  unfold seed_lines. rewrite !app_assoc.
  match goal with |- exists _, flat_map ln (((?P ++ _) ++ _) ++ _) = _ => exists (flat_map ln P ++ ln (chars "bootcmd:")) end.
  assert (removelast (bootcmd_lines (effective_nameservers spec)) =
    chars "rm -f /etc/resolv.conf && (" :: List.map ns_line (effective_nameservers spec)) as ->.
  { unfold bootcmd_lines. rewrite app_comm_cons. apply removelast_last. }
  rewrite !flat_map_app, (flat_map_concat_map ln (List.map ns_line _)). cbn [flat_map List.map concat]. rewrite <- !app_assoc. reflexivity.
Qed.

(** ** Packing *)

Lemma find_first {A} (p : A -> bool) l x : List.find p l = Some x ->
  exists a b, l = a ++ x :: b /\ p x = true /\ Forall (fun y => p y = false) a.
Proof.
  induction l as [|y l IH]; [done|]. cbn. destruct (p y) eqn:E; [intros [= ->]; by exists [], l|].
  intros Hf. destruct (IH Hf) as (a & b & -> & Hx & Ha). exists (y :: a), b. split; [done|]. split; [done|]. by constructor.
Qed.

Definition no_pack (acts : list IsoAct) : Prop := forall tool args out, Pack tool args out ∉ acts.

Definition dirs_of (output : list Z) : list IsoAct :=
  match parent output with Some (c :: d) => [MakeDirs (c :: d)] | _ => [] end.

(** The tool runs last, or not at all and the result is an error. *)
Lemma write_iso_cases `{SeedHost} fs ud md output : let (acts, r) := write_iso fs ud md output in
  (no_pack acts /\ r <> Ok ()) \/
  exists tool, pick_iso_tool = Some tool /\
    acts = [Stage (chars "user-data") ud; Stage (chars "meta-data") md] ++ dirs_of output ++ [Pack tool iso_args output].
Proof.
  unfold write_iso. destruct pick_iso_tool as [tool|]; [|left; split; [intros ? ? ? Hx; by apply elem_of_nil in Hx|done]].
  fold (dirs_of output). assert (no_pack (dirs_of output)) as Hd.
  { intros t a o. unfold dirs_of. destruct (parent output) as [[|c d]|]; [by intros ?%elem_of_nil|by intros ?%list_elem_of_singleton|by intros ?%elem_of_nil]. }
  assert (forall n c l, no_pack l -> no_pack (Stage n c :: l)) as Hs by (intros n c l Hl t a o [?|?]%elem_of_cons; [done|by eapply Hl]).
  assert (no_pack []) as Hn by (intros ? ? ? ?%elem_of_nil; done).
  unfold io_step. cbn [app].
  destruct (tempdir_ok fs); [|left; auto]. destruct (stage_ok fs (chars "user-data")); [|left; auto].
  destruct (stage_ok fs (chars "meta-data")); [|left; auto]. destruct (is_nil (dirs_of output) || mkdirs_ok fs); [|left; auto].
  destruct (spawn_ok fs); [|left; auto]. right. exists tool. done.
Qed.

(** Writing the seed does everything or says so: it succeeds only for a spec that
    passed validation, after it staged the two documents under their names, made
    the directory of the output and ran the first installed one of the three
    tools with the label cidata; and whenever a tool is run at all, both documents
    rendered from a validated spec are staged before. *)
Theorem seed_iso_staged `{SeedHost} fs spec output :
  let (acts, r) := seed_write_iso fs spec output in
  (r = Ok () -> exists tool, Pack tool [chars "-V"; chars "cidata"; chars "-J"; chars "-r"; chars "-o"] output ∈ acts) /\
  forall tool args out, Pack tool args out ∈ acts ->
    validate spec = Ok () /\ out = output /\
    exists ud, render_user_data spec = Ok ud /\
    (exists dirs, acts = [Stage (chars "user-data") ud; Stage (chars "meta-data") (render_meta_data spec)] ++ dirs ++ [Pack tool args output] /\
      forall a, a ∈ dirs -> exists d, a = MakeDirs d /\ parent output = Some d) /\
    exists before after, iso_tools = before ++ tool :: after /\ is_Some (which tool) /\ Forall (fun t => which t = None) before.
Proof.
  unfold seed_write_iso. destruct (validate spec) as [[]|] eqn:Ev; [|split; [done|]; intros ? ? ? Hx; by apply elem_of_nil in Hx].
  destruct (render_user_data spec) as [ud|] eqn:Er; [|split; [done|]; intros ? ? ? Hx; by apply elem_of_nil in Hx].
  pose proof (write_iso_cases fs ud (render_meta_data spec) output) as Hc.
  destruct (write_iso _ _ _ _) as [acts r]. destruct Hc as [[Hn Hr]|(tool & Ht & ->)]; [by split; [|intros ? ? ? ?%Hn]|].
  assert (forall x, x ∈ dirs_of output -> exists d, x = MakeDirs d /\ parent output = Some d) as Hd.
  { intros x. unfold dirs_of. destruct (parent output) as [[|c d]|]; [by intros ?%elem_of_nil| |by intros ?%elem_of_nil].
    intros ->%list_elem_of_singleton. eauto. }
  split.
  { intros _. exists tool. rewrite !elem_of_app. right. right. by apply list_elem_of_singleton. }
  intros t args out Hp. apply elem_of_app in Hp as [Hp|Hp]; [by repeat apply elem_of_cons in Hp as [?|Hp]; [..|apply elem_of_nil in Hp]|].
  apply elem_of_app in Hp as [Hp|Hp]; [by destruct (Hd _ Hp) as (? & ? & _)|].
  apply list_elem_of_singleton in Hp. injection Hp as -> -> ->.
  split; [done|]. split; [done|]. exists ud. split; [done|]. split; [by exists (dirs_of output)|].
  destruct (find_first _ _ _ Ht) as (before & after & -> & Hw & Hb). exists before, after. split; [done|].
  split; [destruct (which tool); [by eauto|done]|]. eapply Forall_impl; [exact Hb|]. cbn. intros x. by destruct (which x).
Qed.

Lemma seed_iso_staged_witness :
  (seed_write_iso (H := demo_seed_host) (mk_iso_steps true (fun _ => true) true true true) demo_seed (chars "out/seed.iso")).2 = Ok () /\
  exists tool, Pack tool [chars "-V"; chars "cidata"; chars "-J"; chars "-r"; chars "-o"] (chars "out/seed.iso") ∈
    (seed_write_iso (H := demo_seed_host) (mk_iso_steps true (fun _ => true) true true true) demo_seed (chars "out/seed.iso")).1.
Proof.
  assert ((seed_write_iso (H := demo_seed_host) (mk_iso_steps true (fun _ => true) true true true) demo_seed (chars "out/seed.iso")).2 = Ok ()) as E
    by (vm_compute; reflexivity).
  split; [exact E|].
  pose proof (seed_iso_staged (H := demo_seed_host) (mk_iso_steps true (fun _ => true) true true true) demo_seed (chars "out/seed.iso")) as Hs.
  destruct (seed_write_iso _ _ _) as [acts r]. destruct Hs as [Hs _]. exact (Hs E).
Defined.
