(* ===== verification/Disk.v ===== *)
(** Files: what [std::fs] does for [src/fetch.rs], [src/image.rs],
    [src/ramdisk.rs] and [src/profile.rs], and the directories of [src/xdg.rs].

    A [Disk] is the content of every file and the faults to come: each operation
    that can fail takes the next one.  An operation that is refused does nothing;
    a write may also stop after some of its bytes.  Theorems quantify over the
    faults, so they cover every failure.  Directories are not kept apart: making
    one can fail, and changes no file.  A path is its text, of the form the code
    builds by [join]. *)

From S2P Require Import Prelude Text Parse.

Definition path : Type := list Z.

Inductive Fault := Refused | Short (n : nat).

Record Disk := mk_disk { files : gmap path (list Z); faults : list (option Fault) }.

(** An operation: its result and the disk after it. *)
Definition M (A : Type) : Type := Disk -> result A Error * Disk.

Definition ret {A} (a : A) : M A := fun d => (Ok a, d).
Definition fail {A} (e : Error) : M A := fun d => (Err e, d).
Definition bind {A B} (m : M A) (k : A -> M B) : M B :=
  fun d => match m d with (Ok a, d) => k a d | (Err e, d) => (Err e, d) end.

(** The result as a value: for [let _ =], [if let Err(e) =] and [or_else]. *)
Definition attempt {A} (m : M A) : M (result A Error) := fun d => let (r, d) := m d in (Ok r, d).

Definition of_result {A} (r : result A Error) : M A := fun d => (r, d).

Declare Scope disk_scope.
Delimit Scope disk_scope with disk.
Notation "'let$' x ':=' m 'in' k" := (bind m (fun x => k))
  (at level 10, x pattern, m at level 100, k at level 200) : disk_scope.
Notation "m ;$ k" := (bind m (fun _ => k)) (at level 199, right associativity) : disk_scope.
#[global] Open Scope disk_scope.

(** Take the next fault. *)
Definition fault : M (option Fault) :=
  fun d => match faults d with
           | [] => (Ok None, d)
           | f :: fs => (Ok f, mk_disk (files d) fs)
           end.

Definition get_files : M (gmap path (list Z)) := fun d => (Ok (files d), d).
Definition set_file (p : path) (b : list Z) : M unit := fun d => (Ok (), mk_disk (<[p := b]> (files d)) (faults d)).
Definition del_file (p : path) : M unit := fun d => (Ok (), mk_disk (delete p (files d)) (faults d)).

(** ** Operations *)

Definition fs_exists (p : path) : M bool :=
  let$ fs := get_files in ret (match fs !! p with Some _ => true | None => false end).

(** [fs::read]: the [NotFound] error is the inner [None]. *)
Definition fs_read (p : path) : M (option (list Z)) :=
  let$ f := fault in
  match f with
  | Some _ => fail Io
  | None => let$ fs := get_files in ret (fs !! p)
  end.

(** [fs::write]: create or truncate, then write. *)
Definition fs_write (p : path) (b : list Z) : M unit :=
  let$ f := fault in
  match f with
  | Some Refused => fail Io
  | Some (Short n) => set_file p (take n b) ;$ fail Io
  | None => set_file p b
  end.

(** [write_all] on an open file. *)
Definition fs_append (p : path) (b : list Z) : M unit :=
  let$ fs := get_files in
  let old := default [] (fs !! p) in
  let$ f := fault in
  match f with
  | Some Refused => fail Io
  | Some (Short n) => set_file p (old ++ take n b) ;$ fail Io
  | None => set_file p (old ++ b)
  end.

Definition fs_rename (a b : path) : M unit :=
  let$ f := fault in
  match f with
  | Some _ => fail Io
  | None =>
      let$ fs := get_files in
      match fs !! a with
      | None => fail Io
      | Some x => del_file a ;$ set_file b x
      end
  end.

Definition fs_copy (a b : path) : M unit :=
  let$ fs := get_files in
  match fs !! a with
  | None => fail Io
  | Some x => fs_write b x
  end.

Definition fs_remove (p : path) : M unit :=
  let$ f := fault in
  match f with
  | Some _ => fail Io
  | None =>
      let$ fs := get_files in
      match fs !! p with None => fail Io | Some _ => del_file p end
  end.

Definition fs_create_dirs (p : path) : M unit :=
  let$ f := fault in match f with Some _ => fail Io | None => ret () end.

(** ** Paths *)

Definition join (dir name : path) : path := dir ++ chars "/" ++ name.

(** [file_name] of a path that does not end in a slash. *)
Definition file_name (p : path) : path := match rsplit_once (chars "/") p with Some (_, n) => n | None => p end.

(** [file_stem]: the name less its last extension; a name that starts with its
    only dot has none. *)
Definition stem_of (name : list Z) : list Z :=
  match rsplit_once (chars ".") name with
  | Some ([], _) | None => name
  | Some (s, _) => s
  end.
Definition file_stem (p : path) : path := stem_of (file_name p).

(** [extension]. *)
Definition extension (p : path) : option (list Z) :=
  match rsplit_once (chars ".") (file_name p) with
  | Some ([], _) | None => None
  | Some (_, e) => Some e
  end.

Definition set_file_name (p name : path) : path :=
  match rsplit_once (chars "/") p with Some (dir, _) => join dir name | None => name end.

(** ** Directories *)

(** The environment variables read. *)
Record Env := mk_env { XDG_DATA_HOME : option (list Z); XDG_CONFIG_HOME : option (list Z); HOME : option (list Z) }.

Definition xdg_or (v : option (list Z)) (home : option (list Z)) (sub : list Z) : result path Error :=
  match v with
  | Some (c :: v) => Ok (c :: v)
  | _ => match home with Some h => Ok (join h sub) | None => Err Internal end
  end.

Definition data_home (e : Env) : result path Error := xdg_or (XDG_DATA_HOME e) (HOME e) (chars ".local/share").
Definition config_home (e : Env) : result path Error := xdg_or (XDG_CONFIG_HOME e) (HOME e) (chars ".config").

Definition runtime_dir_fallback (uid : Z) : path := chars "/tmp/bhx-" ++ show_dec uid.

Definition data_subdir (e : Env) (subdir : list Z) : M path :=
  let$ home := of_result (data_home e) in
  let dir := join (join home (chars "bhx")) subdir in
  let$ _ := attempt (fs_create_dirs dir) in
  ret dir.

(** ** What an operation leaves alone *)

(** [m] changes no file but those of [ps]. *)
Definition touches {A} (ps : path -> Prop) (m : M A) : Prop :=
  forall d p, ~ ps p -> files (m d).2 !! p = files d !! p.

Lemma touches_ret {A} ps (a : A) : touches ps (ret a).
Proof. done. Qed.
Lemma touches_fail {A} ps e : touches ps (fail (A := A) e).
Proof. done. Qed.
Lemma touches_of_result {A} ps (r : result A Error) : touches ps (of_result r).
Proof. done. Qed.
Lemma touches_bind {A B} ps (m : M A) (k : A -> M B) : touches ps m -> (forall a, touches ps (k a)) -> touches ps (bind m k).
Proof.
  intros Hm Hk d p Hp. unfold bind. pose proof (Hm d p Hp) as H. destruct (m d) as [[a|e] d']; [|done].
  rewrite (Hk a d' p Hp). exact H.
Qed.
Lemma touches_attempt {A} ps (m : M A) : touches ps m -> touches ps (attempt m).
Proof. intros Hm d p Hp. unfold attempt. pose proof (Hm d p Hp) as H. by destruct (m d). Qed.
Lemma touches_fault ps : touches ps fault.
Proof. intros d p _. unfold fault. by destruct (faults d). Qed.
Lemma touches_get ps : touches ps get_files.
Proof. done. Qed.
Lemma touches_set (ps : path -> Prop) p b : ps p -> touches ps (set_file p b).
Proof. intros Hp d q Hq. cbn. apply lookup_insert_ne. intros ->. done. Qed.
Lemma touches_del (ps : path -> Prop) p : ps p -> touches ps (del_file p).
Proof. intros Hp d q Hq. cbn. apply lookup_delete_ne. intros ->. done. Qed.

Create HintDb disk.
#[export] Hint Resolve touches_ret touches_fail touches_of_result touches_attempt touches_fault touches_get touches_set touches_del : disk.

Ltac touches :=
  repeat first
    [ progress intros | apply touches_bind | solve [auto with disk]
    | match goal with
      | |- touches _ (match ?x with _ => _ end) => destruct x
      | |- touches _ (let (_, _) := ?x in _) => destruct x
      end ].

Lemma touches_exists ps p : touches ps (fs_exists p).
Proof. unfold fs_exists. touches. Qed.
Lemma touches_read ps p : touches ps (fs_read p).
Proof. unfold fs_read. touches. Qed.
Lemma touches_write (ps : path -> Prop) p b : ps p -> touches ps (fs_write p b).
Proof. unfold fs_write. touches. Qed.
#[export] Hint Resolve touches_exists touches_read touches_write : disk.
Lemma touches_append (ps : path -> Prop) p b : ps p -> touches ps (fs_append p b).
Proof. unfold fs_append. touches. Qed.
Lemma touches_rename (ps : path -> Prop) a b : ps a -> ps b -> touches ps (fs_rename a b).
Proof. unfold fs_rename. touches. Qed.
Lemma touches_copy (ps : path -> Prop) a b : ps b -> touches ps (fs_copy a b).
Proof. unfold fs_copy. touches. Qed.
Lemma touches_remove (ps : path -> Prop) p : ps p -> touches ps (fs_remove p).
Proof. unfold fs_remove. touches. Qed.
Lemma touches_create_dirs ps p : touches ps (fs_create_dirs p).
Proof. unfold fs_create_dirs. touches. Qed.
#[export] Hint Resolve touches_append touches_rename touches_copy touches_remove touches_create_dirs : disk.
Lemma touches_data_subdir ps e s : touches ps (data_subdir e s).
Proof. unfold data_subdir. touches. Qed.
#[export] Hint Resolve touches_data_subdir : disk.

Lemma touches_mono {A} (ps qs : path -> Prop) (m : M A) : (forall p, ps p -> qs p) -> touches ps m -> touches qs m.
Proof. intros H Hm d p Hp. apply Hm. auto. Qed.
