(* ===== verification/Fetch.v ===== *)
(** Downloads, [src/fetch.rs]: the atomic download, the cache check and the
    sidecar.

    The HTTP client and the JSON codec are code of other packages: the class
    [Web] gives the response to a request, and [MetaCodec] the encoding of the
    sidecar.  Progress output is left out. *)

From S2P Require Import Prelude Text Parse Disk.

Record FetchMetadata := mk_meta { etag : option (list Z); last_modified : option (list Z) }.

#[export] Instance FetchMetadata_eq_dec : EqDecision FetchMetadata.
Proof. solve_decision. Defined.

(** A response: its status and the reads of its body; [None] is a read error. *)
Inductive HttpResponse := NoResponse | Response_ (status : Z) (body : list (option (list Z))).

Class Web := {
  http_get : list Z -> HttpResponse;
  http_head : list Z -> option FetchMetadata;
}.

Class MetaCodec := {
  to_json : FetchMetadata -> list Z;
  from_json : list Z -> option FetchMetadata;
}.

Definition downloading_path (dest : path) : path := dest ++ chars ".downloading".
Definition sidecar_path (dest : path) : path := dest ++ chars ".fetch.json".

(** ** The download *)

(** The copy loop; an empty read is the end. *)
Fixpoint copy_body (temp : path) (reads : list (option (list Z))) : M unit :=
  match reads with
  | [] | Some [] :: _ => ret ()
  | None :: _ => fail Internal
  | Some b :: reads => fs_append temp b ;$ copy_body temp reads
  end.

Section fetch.
  Context `{Web} `{MetaCodec}.

(** [flush] of a file has nothing to do. *)
Definition download_to (url : list Z) (dest_path : path) : M path :=
  let temp_path := downloading_path dest_path in
  let$ _ := attempt (fs_remove temp_path) in
  match http_get url with
  | NoResponse => fail Internal
  | Response_ status body =>
      if negb ((200 <=? status) && (status <? 300)) then fail Internal
      else
        fs_write temp_path [] ;$
        let$ res := attempt (copy_body temp_path body) in
        match res with
        | Err e => let$ _ := attempt (fs_remove temp_path) in fail e
        | Ok _ => fs_rename temp_path dest_path ;$ ret dest_path
        end
  end.

(** ** The cache *)

Definition non_empty (o : option (list Z)) : option (list Z) := match o with Some (c :: s) => Some (c :: s) | _ => None end.

Definition agree (a b : option (list Z)) : bool :=
  match non_empty a, non_empty b with Some a, Some b => bool_decide (a = b) | _, _ => false end.

Definition upstream_matches (cached upstream : FetchMetadata) : bool :=
  if agree (etag cached) (etag upstream) then true else agree (last_modified cached) (last_modified upstream).

Definition read_sidecar (dest_path : path) : M (option FetchMetadata) :=
  let$ r := attempt (fs_read (sidecar_path dest_path)) in
  ret (match r with Ok (Some bytes) => from_json bytes | _ => None end).

Definition write_sidecar (dest_path : path) (meta : FetchMetadata) : M unit :=
  let sc := sidecar_path dest_path in
  let tmp := sc ++ chars ".tmp" in
  fs_write tmp (to_json meta) ;$ fs_rename tmp sc.

Definition cache_hit (url : list Z) (anchor : path) : M bool :=
  let$ there := fs_exists anchor in
  if negb there then ret false
  else
    let$ sidecar := read_sidecar anchor in
    ret (match sidecar, http_head url with
         | Some cached, Some upstream => upstream_matches cached upstream
         | _, _ => false
         end).

Definition download_to_cached (url : list Z) (dest_path sidecar_anchor : path) (force : bool) : M path :=
  let$ hit := if force then ret false else cache_hit url sidecar_anchor in
  if hit then ret dest_path
  else
    download_to url dest_path ;$
    match http_head url with
    | Some meta => let$ _ := attempt (write_sidecar sidecar_anchor meta) in ret dest_path
    | None => let$ _ := attempt (fs_remove (sidecar_path sidecar_anchor)) in ret dest_path
    end.

End fetch.

(** ** Messages *)

(** [format_duration] of a second or more. *)
Definition format_duration (total : Z) (subsec : list Z) : list Z :=
  let h := total / 3600 in
  let m := total mod 3600 / 60 in
  let s := total mod 60 in
  if 0 <? h then show_dec h ++ chars "h" ++ show_dec m ++ chars "m"
  else if 0 <? m then show_dec m ++ chars "m" ++ show_dec s ++ chars "s"
  else subsec ++ chars "s".

(** ** A download is all or nothing *)

(** The body the reads give, if none fails. *)
Fixpoint body_of (reads : list (option (list Z))) : option (list Z) :=
  match reads with
  | [] | Some [] :: _ => Some []
  | None :: _ => None
  | Some b :: reads => let! r := body_of reads in Some (b ++ r)
  end.

Lemma suffix_ne (p : path) s : s <> [] -> p <> p ++ s.
Proof. intros Hs E. apply (f_equal length) in E. rewrite length_app in E. destruct s; [done|cbn in E; lia]. Qed.

Lemma touches_copy_body (ps : path -> Prop) temp reads : ps temp -> touches ps (copy_body temp reads).
Proof. intros Hp. induction reads as [|[[|b bs]|] reads IH]; cbn [copy_body]; touches. Qed.
#[export] Hint Resolve touches_copy_body : disk.

(** An operation that ends well is each of its parts ending well. *)
Lemma disk_bind_ok {A B} (m : M A) (k : A -> M B) d r d' : bind m k d = (Ok r, d') ->
  exists a d1, m d = (Ok a, d1) /\ k a d1 = (Ok r, d').
Proof. unfold bind. destruct (m d) as [[a|e] d1]; [|done]. eauto. Qed.

Lemma fault_files d f d1 : fault d = (f, d1) -> files d1 = files d.
Proof. unfold fault. destruct (faults d); intros; by simplify_eq. Qed.

Lemma fs_write_ok p b d u d' : fs_write p b d = (Ok u, d') -> files d' = <[p := b]> (files d).
Proof.
  unfold fs_write. intros E. apply disk_bind_ok in E as (f & d1 & Ef & E). apply fault_files in Ef.
  destruct f as [[|n]|]; [done| |].
  - apply disk_bind_ok in E as (? & ? & _ & E). done.
  - injection E as _ <-. cbn. by rewrite Ef.
Qed.

Lemma fs_append_ok p b d u d' old : files d !! p = Some old -> fs_append p b d = (Ok u, d') ->
  files d' = <[p := old ++ b]> (files d).
Proof.
  unfold fs_append. intros Hp E. apply disk_bind_ok in E as (fs & d1 & Ef & E). injection Ef as <- <-.
  apply disk_bind_ok in E as (f & d1 & Ef & E). rewrite Hp in E. apply fault_files in Ef.
  destruct f as [[|n]|]; [done| |].
  - apply disk_bind_ok in E as (? & ? & _ & E). done.
  - injection E as _ <-. cbn. by rewrite Ef.
Qed.

Lemma fs_rename_ok a b d u d' : fs_rename a b d = (Ok u, d') ->
  exists x, files d !! a = Some x /\ files d' = <[b := x]> (delete a (files d)).
Proof.
  unfold fs_rename. intros E. apply disk_bind_ok in E as (f & d1 & Ef & E). destruct f; [done|].
  apply disk_bind_ok in E as (fs & d2 & Eg & E). injection Eg as <- <-.
  apply fault_files in Ef as Hd.
  rewrite Hd in E. destruct (files d !! a) as [x|]; [|done]. exists x. split; [done|].
  apply disk_bind_ok in E as (? & d3 & E3 & E). injection E3 as _ <-. injection E as _ <-. cbn. by rewrite Hd.
Qed.

Lemma fs_rename_err a b d e d' : fs_rename a b d = (Err e, d') -> files d' = files d.
Proof.
  unfold fs_rename, bind, fault, get_files. destruct (faults d) as [|[f|] fs]; cbn;
    try (intros [= _ <-]; done); destruct (files d !! a); cbn; (done || intros [= _ <-]; done).
Qed.

Lemma copy_body_ok temp reads d u d' old : files d !! temp = Some old -> copy_body temp reads d = (Ok u, d') ->
  exists b, body_of reads = Some b /\ files d' !! temp = Some (old ++ b).
Proof.
  revert d old. induction reads as [|[[|b bs]|] reads IH]; intros d old Hd E; cbn [copy_body body_of] in *.
  - injection E as _ <-. exists []. by rewrite app_nil_r.
  - injection E as _ <-. exists []. by rewrite app_nil_r.
  - apply disk_bind_ok in E as (? & d1 & E1 & E). apply (fs_append_ok _ _ _ _ _ _ Hd) in E1.
    destruct (IH d1 (old ++ b :: bs)) as (r & -> & Hr); [by rewrite E1, lookup_insert_eq|done|].
    exists ((b :: bs) ++ r). split; [done|]. by rewrite <- app_assoc in Hr.
  - done.
Qed.

Section atomic.
  Context `{Web} `{MetaCodec}.

Lemma touches_download (ps : path -> Prop) url dest : ps dest -> ps (downloading_path dest) -> touches ps (download_to url dest).
Proof. intros H1 H2. unfold download_to. touches. Qed.

Lemma download_ok url dest d p d' : download_to url dest d = (Ok p, d') ->
  p = dest /\ exists status reads body, http_get url = Response_ status reads /\ 200 <= status < 300 /\
  body_of reads = Some body /\ files d' !! dest = Some body /\ files d' !! downloading_path dest = None.
Proof.
  unfold download_to. intros E. apply disk_bind_ok in E as (? & d1 & E1 & E).
  destruct (http_get url) as [|status reads]; [done|]. destruct (_ && _) eqn:Es; [|done]. cbn [negb] in E.
  apply disk_bind_ok in E as (? & d2 & E2 & E). apply fs_write_ok in E2.
  apply disk_bind_ok in E as (res & d3 & E3 & E). unfold attempt in E3.
  destruct (copy_body (downloading_path dest) reads d2) as [[u|e] d4] eqn:Ec; injection E3 as <- <-.
  2: { apply disk_bind_ok in E as (? & ? & _ & E). done. }
  destruct (copy_body_ok _ _ _ _ _ [] ltac:(by rewrite E2, lookup_insert_eq) Ec) as (b & Hb & Ht).
  apply disk_bind_ok in E as (? & d5 & E5 & E). injection E as <- <-. apply fs_rename_ok in E5 as (y & Hx & Hd).
  rewrite Ht in Hx. injection Hx as <-. split; [done|]. exists status, reads, b. rewrite Hd.
  split; [done|]. split; [lia|]. split; [done|]. split; [apply lookup_insert_eq|].
  rewrite lookup_insert_ne by by apply suffix_ne. apply lookup_delete_eq.
Qed.

Lemma download_err url dest d e d' : download_to url dest d = (Err e, d') -> files d' !! dest = files d !! dest.
Proof.
  intros E. set (temp := downloading_path dest).
  assert (dest <> temp) as Hne by by apply suffix_ne.
  set (only := fun p => p = temp). assert (~ only dest) as Hd by done.
  unfold download_to in E. fold temp in E. unfold bind at 1 in E.
  pose proof (touches_attempt only _ (touches_remove only temp eq_refl) d dest Hd) as H1.
  destruct (attempt (fs_remove temp) d) as [[r1|?] d1]; [|by injection E as _ <-]. cbn [snd] in H1.
  rewrite <- H1. clear H1. destruct (http_get url) as [|status reads]; [by injection E as _ <-|].
  destruct (negb _); [by injection E as _ <-|]. unfold bind at 1 in E.
  pose proof (touches_write only temp [] eq_refl d1 dest Hd) as H2. destruct (fs_write temp [] d1) as [[u|?] d2]; [|by injection E as _ <-].
  rewrite <- H2. cbn [snd]. clear H2. unfold bind at 1 in E.
  pose proof (touches_attempt only _ (touches_copy_body only temp reads eq_refl) d2 dest Hd) as H3.
  destruct (attempt (copy_body temp reads) d2) as [[res|?] d3]; [|by injection E as _ <-]. rewrite <- H3. cbn [snd]. clear H3.
  destruct res as [u'|e'].
  - unfold bind in E. destruct (fs_rename temp dest d3) as [[?|?] d4] eqn:Er; [done|]. injection E as _ <-.
    by apply fs_rename_err in Er as ->.
  - assert (touches only (let$ _ := attempt (fs_remove temp) in fail (A := path) e')) as Ht
      by (apply touches_bind; [by apply touches_attempt, touches_remove|intros; apply touches_fail]).
    specialize (Ht d3 dest Hd). by rewrite E in Ht.
Qed.

End atomic.

(** C28: A download is all or nothing: whatever the server answers and whichever
    file operation fails or stops short, no file but the destination and its
    temporary changes; success means that a 2xx response's whole body is at the
    destination and the temporary is gone, and an error that the destination has
    the content it had before. *)
Theorem download_atomic `{Web} url dest d :
  let (r, d') := download_to url dest d in
  (forall p, p <> dest -> p <> downloading_path dest -> files d' !! p = files d !! p) /\
  match r with
  | Ok p => p = dest /\ exists status reads body,
      http_get url = Response_ status reads /\ 200 <= status < 300 /\ body_of reads = Some body /\
      files d' !! dest = Some body /\ files d' !! downloading_path dest = None
  | Err _ => files d' !! dest = files d !! dest
  end.
Proof.
  destruct (download_to url dest d) as [r d'] eqn:E. split.
  - intros p H1 H2. pose proof (touches_download (fun p => p = dest \/ p = downloading_path dest) url dest (or_introl eq_refl) (or_intror eq_refl) d p) as Ht.
    rewrite E in Ht. apply Ht. by intros [?|?].
  - destruct r as [p|e]; [by apply download_ok in E|by apply download_err in E].
Qed.

(** A server that answers, and one fault: the second read's write stops short. *)
Definition demo_web (reads : list (option (list Z))) : Web :=
  Build_Web (fun _ => Response_ 200 reads) (fun _ => Some (mk_meta (Some (chars "v2")) None)).
Definition demo_disk : Disk := mk_disk {[chars "a.img" := [1]]} [None; None; None; Some (Short 1)].

Lemma download_atomic_witness :
  let (r, d') := download_to (H := demo_web [Some [7; 8]; Some [9; 9; 9]; Some []]) (chars "http://x/a") (chars "a.img") demo_disk in
  r = Err Io /\ files d' !! chars "a.img" = Some [1].
Proof.
  pose proof (download_atomic (H := demo_web [Some [7; 8]; Some [9; 9; 9]; Some []]) (chars "http://x/a") (chars "a.img") demo_disk) as Ha.
  assert (is_ok (download_to (H := demo_web [Some [7; 8]; Some [9; 9; 9]; Some []]) (chars "http://x/a") (chars "a.img") demo_disk).1 = false) as E
    by (vm_compute; reflexivity).
  assert ((download_to (H := demo_web [Some [7; 8]; Some [9; 9; 9]; Some []]) (chars "http://x/a") (chars "a.img") demo_disk).1 = Err Io) as E2
    by (vm_compute; reflexivity).
  destruct (download_to _ _ _) as [[p|e] d']; [discriminate E|]. cbn in E2. destruct Ha as [_ Ha]. split; [exact E2|exact (eq_trans Ha eq_refl)].
Defined.

(** ** The cache *)

Section cache.
  Context `{Web} `{MetaCodec}.

(** Metadata match only on a validator that both sides have, and that agrees. *)
Lemma upstream_matches_spec a b : upstream_matches a b = true <->
  exists v, v <> [] /\ ((etag a = Some v /\ etag b = Some v) \/ (last_modified a = Some v /\ last_modified b = Some v)).
Proof.
  assert (forall x y, agree x y = true <-> exists v, v <> [] /\ x = Some v /\ y = Some v) as Ha.
  { intros x y. unfold agree. destruct x as [[|c x]|], y as [[|e y]|]; cbn [non_empty]; split; try done;
      try (intros (v & Hv & ? & ?); by simplify_eq).
    - intros E%bool_decide_eq_true. exists (c :: x). by rewrite E.
    - intros (v & _ & Hx & Hy). apply bool_decide_eq_true. congruence. }
  unfold upstream_matches. destruct (agree (etag a) (etag b)) eqn:E.
  - split; [|done]. intros _. apply Ha in E as (v & Hv & H1 & H2). exists v. auto.
  - rewrite Ha. split.
    + intros (v & Hv & H1 & H2). exists v. auto.
    + intros (v & Hv & [[H1 H2]|[H1 H2]]); [|by eauto]. assert (agree (etag a) (etag b) = true) by (apply Ha; eauto). congruence.
Qed.

(** A hit needs the artifact: without it the download is always made. *)
Lemma cache_hit_needs_anchor url anchor d : files d !! anchor = None -> cache_hit url anchor d = (Ok false, d).
Proof. intros E. unfold cache_hit, fs_exists, bind, get_files, ret. by rewrite E. Qed.

(** What was recorded is read back. *)
Lemma sidecar_roundtrip p meta d : (forall m, from_json (to_json m) = Some m) -> faults d = [] ->
  exists d', write_sidecar p meta d = (Ok (), d') /\ read_sidecar p d' = (Ok (Some meta), d').
Proof.
  intros Hj Hf. destruct d as [fs flt]. cbn in Hf. subst flt. unfold write_sidecar, fs_write, fs_rename, bind, fault, get_files, set_file, del_file. cbn.
  rewrite lookup_insert_eq. cbn. eexists. split; [reflexivity|].
  unfold read_sidecar, fs_read, bind, attempt, fault, get_files, ret. cbn. by rewrite lookup_insert_eq, Hj.
Qed.
End cache.
