(* ===== verification/Images.v ===== *)
(** Disk images and ram disks: [src/image.rs] from the download on, [src/ramdisk.rs],
    and the files that [src/profile.rs] writes.

    The programs that are run are the class [Tools]: what each makes of the
    content of its file.  A program that cannot be started and one that fails give
    the same error, so both are [None]; where a failing program leaves a
    partial output, the result says what is there.  Listing a directory is a
    field too, since its order is not given. *)

From S2P Require Import Prelude Text Parse Profile Disk Fetch ConsoleHub Clock Telemetry Protocol DeviceTree DtbProofs Server Session ConsoleWorker Metrics Exporter CloudInit.

(** The address of a catalogue entry. *)
Definition image_url (img : KnownImage) : list Z :=
  let n := im_name img in
  if str_eqb n (chars "tt-debian") then chars "https://github.com/tenstorrent/tt-bh-linux/releases/download/v0.10/tt-bh-disk-image.zip"
  else if str_eqb n (chars "debian-13") then chars "https://cloud.debian.org/images/cloud/trixie/latest/debian-13-generic-riscv64.raw"
  else if str_eqb n (chars "ubuntu-24.04") then chars "https://cdimage.ubuntu.com/releases/noble/release/ubuntu-24.04.4-preinstalled-server-riscv64.img.xz"
  else if str_eqb n (chars "ubuntu-26.04") then chars "https://cloud-images.ubuntu.com/releases/resolute/release/ubuntu-26.04-server-cloudimg-riscv64.img"
  else if str_eqb n (chars "fedora-42") then
    chars "https://dl.fedoraproject.org/pub/alt/risc-v/release/42/Server/riscv64/images/" ++
    chars "Fedora-Server-Host-Generic-42.20250911-2251ba41cdd3.riscv64.raw.xz"
  else if str_eqb n (chars "fedora-42-cloud") then
    chars "https://dl.fedoraproject.org/pub/alt/risc-v/release/42/Cloud/riscv64/images/" ++
    chars "Fedora-Cloud-Base-Generic-42.20250911-2251ba41cdd3.riscv64.qcow2"
  else if str_eqb n (chars "almalinux-10-kitten") then
    chars "https://repo.almalinux.org/almalinux-kitten/10-kitten/cloud/riscv64/images/" ++
    chars "AlmaLinux-Kitten-GenericCloud-10-latest.riscv64.qcow2"
  else chars "https://download.opensuse.org/ports/riscv/tumbleweed/appliances/" ++
    chars "openSUSE-Tumbleweed-Minimal-VM.riscv64-kvm-and-xen-grub-bls.qcow2".

(** A partition of the table that sfdisk prints; a field that is not a u64 is [None]. *)
Definition Partition : Type := option Z * option Z.

Class Tools := {
  xz_d : list Z -> option (list Z);
  gunzip : list Z -> option (list Z);
  unzip : list Z -> option (list (list Z * list Z));
  qemu_convert : list Z -> bool * list Z;
  sfdisk_json : list Z -> option (option (list Partition));
  dd_extract : list Z -> Z -> Z -> bool * list Z;
  qemu_resize : list Z -> list Z -> option (list Z);
  e2fsck : list Z -> list Z;
  resize2fs : list Z -> option (list Z);
  sha256sum : list Z -> option (list Z);
  pack_iso : list Z -> list Z -> list Z;
  iso_steps : IsoSteps;
  list_dir : gmap path (list Z) -> path -> list path;
}.

Section images.
  Context `{Web} `{MetaCodec} `{SeedHost} `{Tools}.

(** Run a program on a file. *)
Definition run_on {A} (tool : list Z -> option A) (p : path) : M A :=
  let$ fs := get_files in
  match fs !! p with
  | None => fail Internal
  | Some b => of_result (ok_or (tool b) Internal)
  end.

(** A program that writes [output] from [input], and says whether it succeeded. *)
Definition run_into (tool : list Z -> bool * list Z) (input output : path) : M unit :=
  let$ fs := get_files in
  match fs !! input with
  | None => fail Internal
  | Some b => let (ok, out) := tool b in set_file output out ;$ (if ok : bool then ret () else fail Internal)
  end.

(** ** Download and decompression *)

Fixpoint trim_end_matches (fuel : nat) (s suffix : list Z) : list Z :=
  match fuel with
  | O => s
  | S fuel => match strip_suffix s suffix with Some s => trim_end_matches fuel s suffix | None => s end
  end.

Definition set_files (dir : path) (entries : list (list Z * list Z)) : M unit :=
  foldl (fun m e => m ;$ set_file (join dir (file_name e.1)) e.2) (ret ()) entries.

Definition is_image_ext (p : path) : bool :=
  match extension p with Some e => str_eqb e (chars "img") || str_eqb e (chars "ext4") | None => false end.

Definition download_file (url : list Z) (dir : path) (compression : Compression) (sidecar_anchor : path) (force_refetch : bool)
    : M path :=
  let filename := file_name url in
  let download_path := join dir filename in
  download_to_cached url download_path sidecar_anchor force_refetch ;$
  match compression with
  | CNone => ret download_path
  | Xz =>
      let$ out := run_on xz_d download_path in
      let target := join dir (trim_end_matches (length filename) filename (chars ".xz")) in
      del_file download_path ;$ set_file target out ;$ ret target
  | Zip =>
      let$ entries := attempt (run_on unzip download_path) in
      let$ _ := (match entries with Ok es => set_files dir es | Err _ => ret () end) in
      let$ _ := attempt (fs_remove download_path) in
      match entries with
      | Err e => fail e
      | Ok _ =>
          let extracted := join dir (chars "debian-riscv64.img") in
          let$ there := fs_exists extracted in
          if there then ret extracted
          else
            let$ fs := get_files in
            of_result (ok_or (List.find is_image_ext (list_dir fs dir)) Internal)
      end
  end.

(** ** Conversion *)

(** The last of the largest, as [max_by_key]. *)
Fixpoint largest (best : option (Z * Z)) (ps : list Partition) : option (Z * Z) :=
  match ps with
  | [] => best
  | (Some start, Some size) :: ps =>
      match best with
      | Some (s, z) => if z <=? size then largest (Some (start, size)) ps else largest (Some (s, z)) ps
      | None => largest (Some (start, size)) ps
      end
  | _ :: ps => largest best ps
  end.

Definition parse_largest_partition (json : option (list Partition)) : result (Z * Z) Error :=
  let? ps := ok_or json Internal in ok_or (largest None ps) Internal.

Definition extract_root_partition (disk output : path) : M unit :=
  let$ json := run_on sfdisk_json disk in
  let$ (start, size) := of_result (parse_largest_partition json) in
  run_into (fun b => dd_extract b start size) disk output.

(** [rename(..).or_else(|_| copy(..))], then the input is removed. *)
Definition move_image (input output : path) : M unit :=
  if bool_decide (input = output) then ret ()
  else
    let$ r := attempt (fs_rename input output) in
    (match r with Ok _ => ret () | Err _ => fs_copy input output end) ;$
    let$ _ := attempt (fs_remove input) in ret ().

Definition with_extension (p : path) (e : list Z) : path := set_file_name p (file_stem p ++ chars "." ++ e).

Definition convert_to_disk_image (input : path) (format : ImageFormat) (extract_partition : bool) (output : path) : M path :=
  match format with
  | Ext4 => move_image input output ;$ ret output
  | Qcow2 =>
      let raw_dest := if extract_partition then with_extension input (chars "raw") else output in
      run_into qemu_convert input raw_dest ;$
      let$ _ := attempt (fs_remove input) in
      if extract_partition then
        extract_root_partition raw_dest output ;$
        let$ _ := attempt (fs_remove raw_dest) in ret output
      else ret output
  | RawDisk =>
      if extract_partition then
        extract_root_partition input output ;$
        let$ _ := attempt (fs_remove input) in ret output
      else move_image input output ;$ ret output
  end.

Definition file_len (p : path) : M Z :=
  let$ r := fs_read p in of_result (ok_or (option_map (fun b => Z.of_nat (length b)) r) Io).

(** Grow the file, with zeros if the program does not. *)
Definition grow_file (p : path) (size : list Z) (more : Z) : M unit :=
  let$ r := attempt (run_on (fun b => qemu_resize b size) p) in
  match r with
  | Ok b => set_file p b
  | Err _ =>
      let$ b := fs_read p in
      match b with
      | None => fail Io
      | Some b => fs_write p (b ++ replicate (Z.to_nat more) 0)
      end
  end.

Definition resize_image (p : path) (size : list Z) (is_single_fs : bool) : M unit :=
  let$ target_bytes := of_result (parse_size_disk size) in
  let$ current_bytes := file_len p in
  if target_bytes <=? current_bytes then ret ()
  else
    grow_file p size (target_bytes - current_bytes) ;$
    if negb is_single_fs then ret ()
    else
      let$ b := run_on (fun b => Some (e2fsck b)) p in
      set_file p b ;$
      let$ b := run_on resize2fs p in
      set_file p b.

(** ** The seed beside the image *)

Definition cidata_seed_path_for (disk : path) : path :=
  set_file_name disk (file_stem disk ++ chars ".cidata.img").

Definition default_seed : SeedSpec := mk_seed None None [] None None [] None.

(** [SeedSpec::write_iso] on the disk: the file is there once the tool has run. *)
Definition write_seed (spec : SeedSpec) (out : path) : M unit :=
  let (acts, r) := seed_write_iso iso_steps spec out in
  (match acts with
   | Stage _ ud :: Stage _ md :: _ =>
       if existsb (fun a => match a with Pack _ _ _ => true | _ => false end) acts then set_file out (pack_iso ud md) else ret ()
   | _ => ret ()
   end) ;$ of_result r.

Definition write_default_seed (seed_path : path) : M unit :=
  fun d => let (r, d) := write_seed default_seed seed_path d in (map_err (fun _ => Internal) r, d).

Definition ensure_cidata_seed (image : KnownImage) (disk : path) : M unit :=
  if negb (im_cloud_init image) then ret ()
  else
    let seed_path := cidata_seed_path_for disk in
    let$ there := fs_exists seed_path in
    if there then ret () else write_default_seed seed_path.

(** ** The checksum beside the image *)

Definition sha256_sidecar_path_for (disk : path) : path := disk ++ chars ".sha256".

Definition is_hexdigit (c : Z) : bool := is_hex c.
Definition to_lower (c : Z) : Z := if is_upper c then c + 32 else c.

Definition compute_sha256 (p : path) : M (list Z) :=
  let$ stdout := run_on sha256sum p in
  let hash := (next_word stdout).1 in
  if is_nil hash then fail Internal
  else if negb (Z.of_nat (length hash) =? 64) || negb (forallb is_hexdigit hash) then fail Internal
  else ret (List.map to_lower hash).

Definition write_sha256_sidecar (disk : path) : M unit :=
  let$ hash := compute_sha256 disk in
  fs_write (sha256_sidecar_path_for disk) (utf8 (hash ++ [10])).

Inductive VerifyOutcome := Match | Modified (expected actual : list Z) | NoSidecar.

Definition verify_sha256_sidecar (disk : path) : M VerifyOutcome :=
  let sidecar := sha256_sidecar_path_for disk in
  let$ there := fs_exists sidecar in
  if negb there then ret NoSidecar
  else
    let$ r := fs_read sidecar in
    match r with
    | None => fail Io
    | Some bytes =>
        match from_utf8 bytes with
        | None => fail Io
        | Some text =>
            let expected := (next_word text).1 in
            let$ actual := compute_sha256 disk in
            ret (if bool_decide (expected = actual) then Match else Modified expected actual)
        end
    end.

(** ** Pulling *)

Definition image_suffix (image : KnownImage) : list Z := if is_single_fs_artifact image then chars "ext4" else chars "img".

Definition canonical_path (dir : path) (image : KnownImage) : path := join dir (im_name image ++ chars "." ++ image_suffix image).

Definition image_dir (e : Env) : M path :=
  let$ r := attempt (data_subdir e (chars "images")) in
  match r with
  | Ok dir => ret dir
  | Err _ => let dir := chars ".local/share/bhx/images" in let$ _ := attempt (fs_create_dirs dir) in ret dir
  end.

Definition pull_image (e : Env) (name : list Z) (output : option path) (force_refetch : bool) : M path :=
  let$ image := of_result (ok_or (get_known_image name) BadRequest) in
  let$ dir := image_dir e in
  let final_path := match output with Some o => o | None => canonical_path dir image end in
  let$ there := fs_exists final_path in
  if there && negb force_refetch then ensure_cidata_seed image final_path ;$ ret final_path
  else
    let$ download_path := download_file (image_url image) dir (im_compression image) final_path force_refetch in
    let$ final_path := convert_to_disk_image download_path (im_format image) (im_extract_partition image) final_path in
    (if is_nil (im_default_size image) then ret ()
     else resize_image final_path (im_default_size image) (is_single_fs_artifact image)) ;$
    let$ remains := fs_exists download_path in
    (if negb (bool_decide (download_path = final_path)) && remains
     then let$ _ := attempt (fs_remove download_path) in ret () else ret ()) ;$
    ensure_cidata_seed image final_path ;$
    let$ _ := attempt (write_sha256_sidecar final_path) in
    ret final_path.

Definition known_image_for_disk (p : path) : option KnownImage :=
  List.find (fun img => str_eqb (im_name img) (file_stem p)) KNOWN_IMAGES.

(** ** Verifying *)

Inductive VerifyReport := RMissing | RMatch | RModified (expected actual : list Z) | RNoSidecar | RError (e : Error).

Definition verify_one (p : path) : M VerifyReport :=
  let$ there := fs_exists p in
  if negb there then ret RMissing
  else
    let$ r := attempt (verify_sha256_sidecar p) in
    ret (match r with
         | Ok Match => RMatch
         | Ok (Modified e a) => RModified e a
         | Ok NoSidecar => RNoSidecar
         | Err e => RError e
         end).

(** Names in the order of strings. *)
Fixpoint str_leb (a b : list Z) : bool :=
  match a, b with
  | [], _ => true
  | _ :: _, [] => false
  | x :: a, y :: b => (x <? y) || ((x =? y) && str_leb a b)
  end.

Fixpoint insert_sorted (x : list Z * path) (l : list (list Z * path)) : list (list Z * path) :=
  match l with
  | [] => [x]
  | y :: l => if str_leb x.1 y.1 then x :: y :: l else y :: insert_sorted x l
  end.

Definition is_artifact (name : list Z) : bool :=
  (ends_with name (chars ".img") || ends_with name (chars ".ext4")) && negb (ends_with name (chars ".cidata.img")).

Definition collect_pulled_artifacts (e : Env) : M (list (list Z * path)) :=
  let$ dir := image_dir e in
  let$ fs := get_files in
  ret (foldr insert_sorted [] (List.map (fun p => (file_name p, p)) (List.filter (fun p => is_artifact (file_name p)) (list_dir fs dir)))).

(** [None] is the exit with status 1. *)
Definition cmd_verify (e : Env) (name : option (list Z)) : M (option (list (list Z * VerifyReport))) :=
  let$ entries :=
    (match name with
     | Some n =>
         match get_known_image n with
         | Some img => let$ dir := image_dir e in ret (Some [(im_name img, canonical_path dir img)])
         | None => ret None
         end
     | None => let$ es := collect_pulled_artifacts e in ret (Some es)
     end) in
  match entries with
  | None => ret None
  | Some es =>
      foldr (fun (x : list Z * path) (m : M (option (list (list Z * VerifyReport)))) =>
        let$ r := verify_one x.2 in let$ rest := m in ret (option_map (cons (x.1, r)) rest)) (ret (Some [])) es
  end.

(** ** Ram disks *)

Inductive RamdiskCompression := RNone | RGz | RXz.

Record KnownRamdisk := mk_ramdisk { rd_name : list Z; rd_url : list Z; rd_aliases : list (list Z); rd_compression : RamdiskCompression }.

Definition KNOWN_RAMDISKS : list KnownRamdisk := [
  mk_ramdisk (chars "debian-13-netboot")
    (chars "https://deb.debian.org/debian/dists/trixie/main/installer-riscv64/current/images/netboot/initrd.gz")
    [chars "debian-netboot"; chars "debian-installer"] RGz;
  mk_ramdisk (chars "ubuntu-24.04-netboot")
    (chars "https://cdimage.ubuntu.com/ubuntu-server/daily-live/current/noble-netboot-riscv64.initrd")
    [chars "ubuntu-netboot"] RNone
].

(** No character outside ASCII has a lower case that occurs in these names. *)
Definition find_ramdisk (name : list Z) : option KnownRamdisk :=
  let name_lower := List.map to_lower name in
  List.find (fun r => str_eqb (rd_name r) name_lower || existsb (fun a => str_eqb a name_lower) (rd_aliases r)) KNOWN_RAMDISKS.

Definition ramdisk_dir : path := chars "ramdisks".

(** [gunzip -f] and [xz -d -f] replace the file by its content, without the suffix. *)
Definition decompress (tool : list Z -> option (list Z)) (download_path output_path : path) : M unit :=
  let$ out := run_on tool download_path in
  del_file download_path ;$ set_file output_path out.

Definition pull_ramdisk (name : list Z) (output : option path) (force_refetch : bool) : M path :=
  let$ ramdisk := of_result (ok_or (find_ramdisk name) BadRequest) in
  let$ _ := attempt (fs_create_dirs ramdisk_dir) in
  let output_path := match output with Some o => o | None => join ramdisk_dir (rd_name ramdisk ++ chars ".initrd") end in
  let$ there := fs_exists output_path in
  if there && negb force_refetch then ret output_path
  else
    let download_path :=
      match rd_compression ramdisk with
      | RNone => output_path
      | RGz => output_path ++ chars ".gz"
      | RXz => output_path ++ chars ".xz"
      end in
    download_to_cached (rd_url ramdisk) download_path output_path force_refetch ;$
    (match rd_compression ramdisk with
     | RNone => ret ()
     | RGz => decompress gunzip download_path output_path
     | RXz => decompress xz_d download_path output_path
     end) ;$
    ret output_path.

End images.

(** ** A disk without faults *)

Definition faultless (fs : gmap path (list Z)) : Disk := Disk.mk_disk fs [].

Definition has_file (fs : gmap path (list Z)) (p : path) : bool := match fs !! p with Some _ => true | None => false end.

Lemma bind_faultless {A B} (m : M A) (k : A -> M B) d a d' : m d = (Ok a, d') -> bind m k d = k a d'.
Proof. intros E. unfold bind. by rewrite E. Qed.

Lemma exists_faultless p fs : fs_exists p (faultless fs) = (Ok (has_file fs p), faultless fs).
Proof. done. Qed.
Lemma write_faultless p b fs : fs_write p b (faultless fs) = (Ok (), faultless (<[p := b]> fs)).
Proof. done. Qed.
Lemma remove_faultless p fs : exists r, attempt (fs_remove p) (faultless fs) = (Ok r, faultless (delete p fs)).
Proof.
  unfold attempt, fs_remove, bind, fault, get_files. cbn. destruct (fs !! p) as [x|] eqn:E; cbn; [by eauto|].
  rewrite delete_id by done. eauto.
Qed.
Lemma rename_faultless a b x fs : fs !! a = Some x -> fs_rename a b (faultless fs) = (Ok (), faultless (<[b := x]> (delete a fs))).
Proof. intros E. unfold fs_rename, bind, fault, get_files. cbn. by rewrite E. Qed.
Lemma read_faultless p fs : fs_read p (faultless fs) = (Ok (fs !! p), faultless fs).
Proof. done. Qed.
Lemma run_on_faultless {A} (tool : list Z -> option A) p fs b a : fs !! p = Some b -> tool b = Some a ->
  run_on tool p (faultless fs) = (Ok a, faultless fs).
Proof. intros E Et. unfold run_on, bind, get_files. cbn. rewrite E. unfold of_result. by rewrite Et. Qed.
Lemma run_on_fails {A} (tool : list Z -> option A) p fs b : fs !! p = Some b -> tool b = None ->
  run_on tool p (faultless fs) = (Err Internal, faultless fs).
Proof. intros E Et. unfold run_on, bind, get_files. cbn. rewrite E. unfold of_result. by rewrite Et. Qed.
Lemma append_faultless p b fs old : fs !! p = Some old -> fs_append p b (faultless fs) = (Ok (), faultless (<[p := old ++ b]> fs)).
Proof. intros E. unfold fs_append, bind, get_files, fault. cbn. by rewrite E. Qed.

Lemma copy_body_faultless temp reads body fs old : fs !! temp = Some old -> body_of reads = Some body ->
  copy_body temp reads (faultless fs) = (Ok (), faultless (<[temp := old ++ body]> fs)).
Proof.
  revert fs old body. induction reads as [|[[|b bs]|] reads IH]; intros fs old body Ht Hb; cbn [body_of copy_body] in *.
  - injection Hb as <-. unfold ret. by rewrite app_nil_r, insert_id.
  - injection Hb as <-. unfold ret. by rewrite app_nil_r, insert_id.
  - destruct (body_of reads) as [r|]; [|done]. injection Hb as <-.
    rewrite (bind_faultless _ _ _ _ _ (append_faultless temp (b :: bs) fs old Ht)), (IH _ (old ++ b :: bs) r).
    + rewrite insert_insert_eq, <- app_assoc. done.
    + apply lookup_insert_eq.
    + done.
  - done.
Qed.

Section faultless_pull.
  Context `{Web} `{MetaCodec} `{SeedHost} `{Tools}.

Lemma download_faultless url dest status reads body fs :
  http_get url = Response_ status reads -> 200 <= status < 300 -> body_of reads = Some body ->
  download_to url dest (faultless fs) = (Ok dest, faultless (<[dest := body]> (delete (downloading_path dest) fs))).
Proof.
  intros Hg Hs Hb. unfold download_to. destruct (remove_faultless (downloading_path dest) fs) as [r Er].
  rewrite (bind_faultless _ _ _ _ _ Er), Hg. replace (_ && _) with true by lia. cbn [negb].
  rewrite (bind_faultless _ _ _ _ _ (write_faultless _ _ _)). unfold bind at 1, attempt at 1.
  rewrite (copy_body_faultless _ _ body _ []); [|apply lookup_insert_eq|done].
  rewrite (bind_faultless _ _ _ _ _ (rename_faultless _ dest body _ (lookup_insert_eq _ _ _))). unfold ret. do 3 f_equal.
  by rewrite insert_insert_eq, delete_insert_eq, delete_delete_eq.
Qed.

(** Without the artifact, or when told to fetch again, the cache is not asked: the
    body is always downloaded. *)
Lemma cached_faultless url dest anchor force status reads body fs :
  http_get url = Response_ status reads -> 200 <= status < 300 -> body_of reads = Some body ->
  force = true \/ fs !! anchor = None -> dest <> sidecar_path anchor -> dest <> sidecar_path anchor ++ chars ".tmp" ->
  exists fs', download_to_cached url dest anchor force (faultless fs) = (Ok dest, faultless fs') /\ fs' !! dest = Some body.
Proof.
  intros Hg Hs Hb Hf Hne1 Hne2. unfold download_to_cached.
  assert ((if force then ret false else cache_hit url anchor) (faultless fs) = (Ok false, faultless fs)) as Hc.
  { destruct force; [done|]. destruct Hf as [Hf|Hf]; [done|]. by apply cache_hit_needs_anchor. }
  rewrite (bind_faultless _ _ _ _ _ Hc). rewrite (bind_faultless _ _ _ _ _ (download_faultless _ dest _ _ _ fs Hg Hs Hb)).
  destruct (http_head url) as [meta|].
  - unfold write_sidecar, bind at 1, attempt. rewrite (bind_faultless _ _ _ _ _ (write_faultless _ _ _)).
    rewrite (rename_faultless _ _ (to_json meta)) by apply lookup_insert_eq. eexists. split; [reflexivity|].
    rewrite lookup_insert_ne by done. rewrite lookup_delete_ne, lookup_insert_ne, lookup_insert_eq by done. done.
  - destruct (remove_faultless (sidecar_path anchor) (<[dest:=body]> (delete (downloading_path dest) fs))) as [r Er].
    rewrite (bind_faultless _ _ _ _ _ Er). eexists. split; [reflexivity|]. by rewrite lookup_delete_ne, lookup_insert_eq.
Qed.

Lemma move_faultless input output b fs : fs !! input = Some b ->
  exists fs', move_image input output (faultless fs) = (Ok (), faultless fs') /\ fs' !! output = Some b.
Proof.
  intros E. unfold move_image. case_bool_decide as Heq; [subst; by exists fs|].
  unfold bind at 1, attempt at 1. rewrite (rename_faultless _ output b) by done. unfold bind at 1, ret at 1.
  destruct (remove_faultless input (<[output:=b]> (delete input fs))) as [r Er]. rewrite (bind_faultless _ _ _ _ _ Er).
  eexists. split; [reflexivity|]. by rewrite lookup_delete_ne, lookup_insert_eq.
Qed.
End faultless_pull.

(** ** Paths of the catalogue *)

Lemma rsplit_once_char d a b : Forall (fun c => c <> d) b -> rsplit_once [d] (a ++ [d] ++ b) = Some (a, b).
Proof.
  intros Hb. unfold rsplit_once. cbn [rev app]. rewrite rev_app_distr. cbn [rev].
  change (rev [d]) with [d]. rewrite <- app_assoc.
  rewrite (split_once_char d (rev b) (rev a)) by by apply Forall_rev. by rewrite !rev_involutive.
Qed.

Definition no_slash (s : list Z) : bool := forallb (fun c => negb (c =? 47)) s.

Lemma file_name_join dir n : no_slash n = true -> file_name (join dir n) = n.
Proof.
  intros Hn. unfold file_name, join. change (chars "/") with [47]. rewrite rsplit_once_char; [done|].
  by apply (class_ne (fun c => negb (c =? 47))).
Qed.

Lemma set_file_name_join dir n m : no_slash n = true -> set_file_name (join dir n) m = join dir m.
Proof.
  intros Hn. unfold set_file_name, join. change (chars "/") with [47]. rewrite rsplit_once_char; [done|].
  by apply (class_ne (fun c => negb (c =? 47))).
Qed.

Lemma join_inj dir a b : join dir a = join dir b -> a = b.
Proof. unfold join. intros E. apply app_inv_head in E. by apply app_inv_head in E. Qed.

Definition artifact_name (img : KnownImage) : list Z := im_name img ++ chars "." ++ image_suffix img.
Definition seed_name (img : KnownImage) : list Z := stem_of (artifact_name img) ++ chars ".cidata.img".

Definition ne (a b : list Z) : bool := negb (bool_decide (a = b)).
Lemma ne_spec a b : ne a b = true -> a <> b.
Proof. unfold ne. by intros ?%negb_true_iff%bool_decide_eq_false. Qed.

(** What the pull relies on in a catalogue entry. *)
Definition entry_ok (img : KnownImage) : bool :=
  let f := file_name (image_url img) in
  let a := artifact_name img in
  no_slash a && no_slash f &&
  ne f (a ++ chars ".fetch.json") && ne f (a ++ chars ".fetch.json.tmp") &&
  ne (seed_name img) a && ne (seed_name img) (a ++ chars ".sha256") &&
  negb (im_extract_partition img) && str_eqb (im_default_size img) (chars "10G") && im_cloud_init img && ne f (chars "debian-riscv64.img") &&
  match im_format img with
  | Qcow2 => ne f a && match im_compression img with CNone => true | _ => false end
  | _ => true
  end.

Lemma catalogue_ok img : In img KNOWN_IMAGES -> entry_ok img = true.
Proof. intros Hi. assert (forallb entry_ok KNOWN_IMAGES = true) as Hf by (vm_compute; reflexivity). by apply forallb_forall with (x := img) in Hf. Qed.

Lemma known_in name img : get_known_image name = Some img -> In img KNOWN_IMAGES.
Proof.
  unfold get_known_image. destruct (List.find _ KNOWN_IMAGES) as [i|] eqn:E; [intros [= <-]; by apply find_some in E as [? _]|].
  intros E2. by apply find_some in E2 as [? _].
Qed.

Section pull.
  Context `{Web} `{MetaCodec} `{SeedHost} `{Tools}.

(** The programs do their work. *)
Record tools_work : Prop := mk_tools_work {
  tw_xz : forall b, is_Some (xz_d b);
  tw_unzip : forall b, exists es, unzip b = Some es /\ Exists (fun e => file_name e.1 = chars "debian-riscv64.img") es;
  tw_resize : forall b b', qemu_resize b (chars "10G") = Some b' -> Z.of_nat (length b') = 10737418240;
  tw_e2fsck : forall b, length (e2fsck b) = length b;
  tw_resize2fs : forall b, exists b', resize2fs b = Some b' /\ length b' = length b;
  tw_sha : forall b, exists h rest, sha256sum b = Some (h ++ 32 :: rest) /\ length h = 64%nat /\
             forallb (fun c => is_digit c || ((97 <=? c) && (c <=? 102))) h = true;
  tw_iso : is_Some pick_iso_tool /\ iso_steps = mk_iso_steps true (fun _ => true) true true true;
  tw_hash : forall p, exists h, openssl_passwd p = Some h /\ starts_with (chars "$6$") (trim h) = true }.

Lemma image_dir_faultless e : exists dir, forall fs, image_dir e (faultless fs) = (Ok dir, faultless fs).
Proof. unfold image_dir, data_subdir, bind, attempt, of_result. destruct (data_home e); by eexists. Qed.

Lemma set_files_has dir es p fs :
  is_Some (fs !! p) \/ Exists (fun e => join dir (file_name e.1) = p) es ->
  exists fs', set_files dir es (faultless fs) = (Ok (), faultless fs') /\ is_Some (fs' !! p).
Proof.
  unfold set_files. assert (forall m fs0, m (faultless fs0) = (Ok (), faultless fs) -> is_Some (fs !! p) \/ Exists (fun e => join dir (file_name e.1) = p) es ->
    exists fs', foldl (fun m e => m ;$ set_file (join dir (file_name e.1)) e.2) m es (faultless fs0) = (Ok (), faultless fs') /\ is_Some (fs' !! p)) as Hg.
  { revert fs. induction es as [|e es IH]; intros fs m fs0 Hm Hp.
    - cbn. exists fs. split; [done|]. destruct Hp as [Hp|Hp]; [done|by apply Exists_nil in Hp].
    - cbn [foldl]. apply (IH (<[join dir (file_name e.1) := e.2]> fs)); [by rewrite (bind_faultless _ _ _ _ _ Hm)|].
      destruct (decide (join dir (file_name e.1) = p)) as [<-|Hne]; [left; rewrite lookup_insert_eq; by eauto|].
      rewrite lookup_insert_ne by done. destruct Hp as [Hp|Hp]; [by left|].
      apply Exists_cons in Hp as [?|?]; [done|by right]. }
  intros Hp. by apply (Hg _ fs).
Qed.

Lemma download_file_faultless img dir force status reads body fs : tools_work -> entry_ok img = true ->
  http_get (image_url img) = Response_ status reads -> 200 <= status < 300 -> body_of reads = Some body ->
  force = true \/ fs !! canonical_path dir img = None ->
  exists dl fs', download_file (image_url img) dir (im_compression img) (canonical_path dir img) force (faultless fs) = (Ok dl, faultless fs') /\
    is_Some (fs' !! dl) /\ (im_compression img = CNone -> dl = join dir (file_name (image_url img))).
Proof.
  intros Ht He Hg Hs Hb Hf. unfold entry_ok in He. rewrite !andb_true_iff in He. destruct He as [[[[[[[[[[_ _] Hn1] Hn2] _] _] _] _] _] Hx] _].
  unfold download_file. set (f := file_name (image_url img)).
  destruct (cached_faultless (image_url img) (join dir f) (canonical_path dir img) force status reads body fs Hg Hs Hb Hf) as (fs1 & E1 & Hd1).
  { unfold sidecar_path, canonical_path. unfold join at 2. rewrite <- !app_assoc. intros E. apply (join_inj dir), ne_spec in E; [done|].
    unfold artifact_name in Hn1. by rewrite <- !app_assoc in Hn1. }
  { unfold sidecar_path, canonical_path. unfold join at 2. rewrite <- !app_assoc. intros E. apply (join_inj dir), ne_spec in E; [done|].
    unfold artifact_name in Hn2. by rewrite <- !app_assoc in Hn2. }
  rewrite (bind_faultless _ _ _ _ _ E1). destruct (im_compression img).
  - exists (join dir f), fs1. by rewrite Hd1.
  - destruct (tw_xz Ht body) as [out Ho]. rewrite (bind_faultless _ _ _ _ _ (run_on_faultless _ _ _ _ _ Hd1 Ho)).
    eexists _, _. split; [reflexivity|]. rewrite lookup_insert_eq. by split; [eauto|].
  - destruct (tw_unzip Ht body) as (es & Hu & Hex).
    unfold bind at 1, attempt at 1. rewrite (run_on_faultless _ _ _ _ _ Hd1 Hu).
    set (x := join dir (chars "debian-riscv64.img")).
    destruct (set_files_has dir es x fs1) as (fs2 & E2 & Hd2).
    { right. eapply Exists_impl; [exact Hex|]. cbn. by intros [n b] ->. }
    rewrite (bind_faultless _ _ _ _ _ E2). destruct (remove_faultless (join dir f) fs2) as [r Er]. rewrite (bind_faultless _ _ _ _ _ Er).
    rewrite (bind_faultless _ _ _ _ _ (exists_faultless _ _)). unfold has_file.
    assert (is_Some (delete (join dir f) fs2 !! x)) as Hx2.
    { rewrite lookup_delete_ne; [done|]. intros E. by apply (join_inj dir), ne_spec in E. }
    destruct Hx2 as [y Hy]. rewrite Hy. exists x. eexists. split; [reflexivity|]. rewrite Hy. by split; [eauto|].
Qed.

Lemma convert_faultless img dir dl fs : (forall b, (qemu_convert b).1 = true) -> entry_ok img = true -> is_Some (fs !! dl) ->
  (im_compression img = CNone -> dl = join dir (file_name (image_url img))) ->
  exists fs', convert_to_disk_image dl (im_format img) (im_extract_partition img) (canonical_path dir img) (faultless fs) =
      (Ok (canonical_path dir img), faultless fs') /\ is_Some (fs' !! canonical_path dir img).
Proof.
  intros Ht He [b Hb] Hdl. unfold entry_ok in He. rewrite !andb_true_iff in He. destruct He as [[[[[_ Hx] _] _] _] Hq].
  apply negb_true_iff in Hx as ->.
  assert (exists fs', (move_image dl (canonical_path dir img) ;$ ret (canonical_path dir img)) (faultless fs) =
      (Ok (canonical_path dir img), faultless fs') /\ is_Some (fs' !! canonical_path dir img)) as Hm.
  { destruct (move_faultless dl (canonical_path dir img) b fs Hb) as (fs1 & E1 & Hf1). exists fs1.
    rewrite (bind_faultless _ _ _ _ _ E1). rewrite Hf1. by eauto. }
  unfold convert_to_disk_image. destruct (im_format img); [exact Hm|exact Hm|].
  apply andb_true_iff in Hq as [Hne Hc]. assert (dl <> canonical_path dir img) as Hd.
  { rewrite Hdl by by destruct (im_compression img). intros E. by apply (join_inj dir), ne_spec in E. }
  unfold run_into, bind at 1, bind at 1, get_files. cbn. rewrite Hb. pose proof (Ht b) as Hok.
  destruct (qemu_convert b) as [ok out]. cbn in Hok. subst ok. unfold bind, set_file, ret. cbn.
  change (Disk.mk_disk (<[canonical_path dir img:=out]> fs) []) with (faultless (<[canonical_path dir img:=out]> fs)).
  destruct (remove_faultless dl (<[canonical_path dir img:=out]> fs)) as [r Er]. rewrite Er. eexists. split; [reflexivity|].
  rewrite lookup_delete_ne, lookup_insert_eq by done. by eauto.
Qed.

(** The file only grows, and to the size asked for. *)
Lemma grow_faultless p b fs : tools_work -> fs !! p = Some b -> Z.of_nat (length b) < 10737418240 ->
  exists b', grow_file p (chars "10G") (10737418240 - Z.of_nat (length b)) (faultless fs) = (Ok (), faultless (<[p := b']> fs)) /\
    Z.of_nat (length b') = 10737418240.
Proof.
  intros Ht Hb Hl. unfold grow_file. destruct (qemu_resize b (chars "10G")) as [b'|] eqn:Er.
  - exists b'. split; [|by eapply tw_resize]. unfold bind at 1, attempt. by rewrite (run_on_faultless _ _ _ _ _ Hb Er).
  - exists (b ++ replicate (Z.to_nat (10737418240 - Z.of_nat (length b))) 0). split; [|rewrite length_app, length_replicate; lia].
    unfold bind at 1, attempt. rewrite (run_on_fails _ _ _ _ Hb Er).
    rewrite (bind_faultless _ _ _ _ _ (read_faultless _ _)), Hb. by rewrite write_faultless.
Qed.

Lemma resize_faultless p single b fs : tools_work -> fs !! p = Some b ->
  exists b', resize_image p (chars "10G") single (faultless fs) = (Ok (), faultless (<[p := b']> fs)) /\
    10737418240 <= Z.of_nat (length b').
Proof.
  intros Ht Hb. unfold resize_image.
  assert (of_result (parse_size_disk (chars "10G")) (faultless fs) = (Ok 10737418240, faultless fs)) as Es by done.
  rewrite (bind_faultless _ _ _ _ _ Es). assert (file_len p (faultless fs) = (Ok (Z.of_nat (length b)), faultless fs)) as El.
  { unfold file_len. rewrite (bind_faultless _ _ _ _ _ (read_faultless _ _)), Hb. done. }
  rewrite (bind_faultless _ _ _ _ _ El). destruct (10737418240 <=? Z.of_nat (length b)) eqn:E.
  { exists b. rewrite insert_id by done. split; [done|lia]. }
  destruct (grow_faultless p b fs Ht Hb ltac:(lia)) as (b1 & E1 & Hl1). rewrite (bind_faultless _ _ _ _ _ E1).
  destruct single; cbn [negb]; [|exists b1; split; [done|lia]].
  rewrite (bind_faultless _ _ _ _ _ (run_on_faultless (fun b => Some (e2fsck b)) p _ b1 (e2fsck b1) (lookup_insert_eq _ _ _) eq_refl)).
  set (fs2 := <[p:=b1]> fs).
  assert (set_file p (e2fsck b1) (faultless fs2) = (Ok (), faultless (<[p := e2fsck b1]> fs2))) as Es2 by done.
  rewrite (bind_faultless _ _ _ _ _ Es2). destruct (tw_resize2fs Ht (e2fsck b1)) as (b2 & Hr & Hl2).
  rewrite (bind_faultless _ _ _ _ _ (run_on_faultless _ p _ _ _ (lookup_insert_eq _ _ _) Hr)).
  exists b2. split; [unfold set_file, fs2; cbn; by rewrite !insert_insert_eq|]. rewrite Hl2, (tw_e2fsck Ht). lia.
Qed.

Lemma default_seed_written sp : tools_work -> exists ud md rest, seed_write_iso iso_steps default_seed sp = (Stage (chars "user-data") ud :: Stage (chars "meta-data") md :: rest, Ok ()) /\
  existsb (fun a => match a with Pack _ _ _ => true | _ => false end) rest = true.
Proof.
  intros Ht. unfold seed_write_iso. change (validate default_seed) with (Ok () : result unit Error). cbv iota beta.
  destruct (tw_hash Ht DEFAULT_PASSWORD) as (h & Hh & Hp).
  assert (exists ud, render_user_data default_seed = Ok ud) as [ud ->].
  { unfold render_user_data. change (effective_password default_seed) with (Some DEFAULT_PASSWORD). unfold hash_password_sha512, usable.
    rewrite Hh, Hp. eexists. reflexivity. }
  unfold write_iso. destruct (tw_iso Ht) as [[tool ->] ->]. unfold io_step. cbn [tempdir_ok stage_ok mkdirs_ok spawn_ok exit_ok]. rewrite orb_true_r.
  eexists _, _, _. split; [reflexivity|]. rewrite existsb_app. cbn. by rewrite orb_true_r.
Qed.

Lemma seed_faultless img disk fs : tools_work -> im_cloud_init img = true ->
  exists fs', ensure_cidata_seed img disk (faultless fs) = (Ok (), faultless fs') /\ is_Some (fs' !! cidata_seed_path_for disk) /\
    forall q, q <> cidata_seed_path_for disk -> fs' !! q = fs !! q.
Proof.
  intros Ht Hc. unfold ensure_cidata_seed. rewrite Hc. cbn [negb]. rewrite (bind_faultless _ _ _ _ _ (exists_faultless _ _)). unfold has_file.
  destruct (fs !! cidata_seed_path_for disk) as [x|] eqn:E; [exists fs; rewrite E; by eauto|].
  unfold write_default_seed, write_seed. destruct (default_seed_written (cidata_seed_path_for disk) Ht) as (ud & md & rest & -> & Hx).
  cbn [existsb]. rewrite Hx. cbn [orb]. eexists. split; [reflexivity|]. rewrite lookup_insert_eq. split; [by eauto|].
  intros q Hq. by rewrite lookup_insert_ne.
Qed.

Definition low_hex (c : Z) : bool := is_digit c || ((97 <=? c) && (c <=? 102)).

Lemma low_hex_word h rest : forallb low_hex h = true -> length h = 64%nat -> next_word (h ++ 32 :: rest) = (h, 32 :: rest) /\ next_word (h ++ [10]) = (h, [10]).
Proof.
  intros Hh Hl. assert (forallb (fun c => negb (is_whitespace c)) h = true) as Hw.
  { eapply forallb_imp; [|exact Hh]. unfold low_hex, is_digit, is_whitespace. intros c. lia. }
  split; [apply next_word_app; split; [by destruct h|done]|].
  unfold next_word. destruct h as [|c h]; [done|]. pose proof Hw as Hc. cbn [forallb] in Hc. apply andb_true_iff in Hc as [Hc%negb_true_iff _].
  cbn [app drop_ws]. rewrite Hc. clear Hh Hl Hc. change (c :: h ++ [10]) with ((c :: h) ++ [10]). revert Hw. generalize (c :: h). clear c h.
  induction l as [|c l IH]; [done|]. cbn [forallb app take_word]. rewrite andb_true_iff. intros [Hc%negb_true_iff Hl]. rewrite Hc. by rewrite IH.
Qed.

Lemma sha_faultless p b fs : tools_work -> fs !! p = Some b -> exists h, forallb low_hex h = true /\ length h = 64%nat /\
  compute_sha256 p (faultless fs) = (Ok h, faultless fs).
Proof.
  intros Ht Hb. destruct (tw_sha Ht b) as (h & rest & Hs & Hl & Hh). exists h. split; [done|]. split; [done|].
  unfold compute_sha256. rewrite (bind_faultless _ _ _ _ _ (run_on_faultless _ _ _ _ _ Hb Hs)).
  rewrite (proj1 (low_hex_word h rest Hh Hl)). cbn [fst]. rewrite Hl. assert (is_nil h = false) as -> by by destruct h.
  assert (forallb is_hexdigit h = true) as ->.
  { eapply forallb_imp; [|exact Hh]. unfold low_hex, is_hexdigit, is_hex, is_digit. intros c. lia. }
  cbn [Z.of_nat Z.eqb Pos.of_succ_nat negb orb]. change (64 =? 64) with true. cbn [negb orb]. unfold ret. do 2 f_equal. clear -Hh. induction h as [|c h IH]; [done|]. cbn [forallb List.map] in *. apply andb_true_iff in Hh as [Hc Hh].
  rewrite (IH Hh). f_equal. unfold to_lower, low_hex, is_digit, is_upper in *. clear IH Hh. destruct ((65 <=? c) && (c <=? 90)) eqn:E; lia.
Qed.

(** What was recorded for the content is found again as long as the content stays. *)
Lemma checksum_roundtrip p b fs : tools_work -> fs !! p = Some b ->
  exists fs', write_sha256_sidecar p (faultless fs) = (Ok (), faultless fs') /\
    verify_sha256_sidecar p (faultless fs') = (Ok Match, faultless fs') /\
    forall q, q <> sha256_sidecar_path_for p -> fs' !! q = fs !! q.
Proof.
  intros Ht Hb. destruct (sha_faultless p b fs Ht Hb) as (h & Hh & Hl & Ec). unfold write_sha256_sidecar.
  rewrite (bind_faultless _ _ _ _ _ Ec), write_faultless. set (fs' := <[sha256_sidecar_path_for p := utf8 (h ++ [10])]> fs).
  assert (p <> sha256_sidecar_path_for p) as Hne by by apply suffix_ne.
  exists fs'. split; [done|]. split; [|intros q Hq; by apply lookup_insert_ne].
  unfold verify_sha256_sidecar. rewrite (bind_faultless _ _ _ _ _ (exists_faultless _ _)). unfold has_file.
  assert (fs' !! sha256_sidecar_path_for p = Some (utf8 (h ++ [10]))) as Hs by apply lookup_insert_eq. rewrite Hs. cbn [negb].
  rewrite (bind_faultless _ _ _ _ _ (read_faultless _ _)), Hs.
  assert (forallb ascii_ch (h ++ [10]) = true) as Ha.
  { apply forallb_app_iff. split; [|done]. eapply forallb_imp; [|exact Hh]. unfold low_hex, is_digit, ascii_ch. intros c. lia. }
  rewrite (utf8_ascii_ch _ Ha), (from_utf8_ascii _ Ha), (proj2 (low_hex_word h [] Hh Hl)). cbn [fst].
  assert (fs' !! p = Some b) as Hb' by (unfold fs'; by rewrite lookup_insert_ne).
  destruct (tw_sha Ht b) as (h2 & rest & Hs2 & _ & _).
  destruct (sha_faultless p b fs' Ht Hb') as (h' & _ & _ & Ec').
  rewrite (bind_faultless _ _ _ _ _ Ec'). assert (h = h') as <-.
  { unfold compute_sha256 in Ec, Ec'. rewrite (bind_faultless _ _ _ _ _ (run_on_faultless _ _ _ _ _ Hb Hs2)) in Ec.
    rewrite (bind_faultless _ _ _ _ _ (run_on_faultless _ _ _ _ _ Hb' Hs2)) in Ec'. destruct (is_nil _); [done|]. destruct (_ || _); [done|].
    unfold ret in Ec, Ec'. congruence. }
  by rewrite bool_decide_true.
Qed.

Lemma canonical_seed dir img : entry_ok img = true -> cidata_seed_path_for (canonical_path dir img) = join dir (seed_name img) /\
  join dir (seed_name img) <> canonical_path dir img /\ join dir (seed_name img) <> sha256_sidecar_path_for (canonical_path dir img).
Proof.
  intros He. unfold entry_ok in He. rewrite !andb_true_iff in He. destruct He as [[[[[[[[[[Ha _] _] _] Hs] Hsh] _] _] _] _] _].
  split; [|split].
  - unfold cidata_seed_path_for, file_stem, canonical_path, seed_name, artifact_name in *. rewrite file_name_join, set_file_name_join by done. done.
  - intros E. by apply (join_inj dir), ne_spec in E.
  - unfold sha256_sidecar_path_for, canonical_path. intros E. unfold join at 2 in E. rewrite <- !app_assoc in E.
    apply (join_inj dir), ne_spec in E; [done|]. unfold artifact_name in Hsh. by rewrite <- !app_assoc in Hsh.
Qed.

Lemma pull_faultless e img force status reads body : tools_work -> (forall b, (qemu_convert b).1 = true) -> In img KNOWN_IMAGES ->
  http_get (image_url img) = Response_ status reads -> 200 <= status < 300 -> body_of reads = Some body ->
  exists dir, (forall fs, image_dir e (faultless fs) = (Ok dir, faultless fs)) /\
  let p := canonical_path dir img in
  forall fs, force = true \/ fs !! p = None -> forall name, get_known_image name = Some img ->
  exists fs', pull_image e name None force (faultless fs) = (Ok p, faultless fs') /\
    (exists b, fs' !! p = Some b /\ 10737418240 <= Z.of_nat (length b)) /\
    is_Some (fs' !! cidata_seed_path_for p) /\
    verify_sha256_sidecar p (faultless fs') = (Ok Match, faultless fs').
Proof.
  intros Ht Hcv Hi Hg Hs Hb. pose proof (catalogue_ok img Hi) as He. destruct (image_dir_faultless e) as [dir Hdir].
  exists dir. split; [done|]. cbn zeta. intros fs Hf name Hn. set (p := canonical_path dir img) in *.
  unfold pull_image. assert (of_result (ok_or (get_known_image name) BadRequest) (faultless fs) = (Ok img, faultless fs)) as E0 by by rewrite Hn.
  rewrite (bind_faultless _ _ _ _ _ E0), (bind_faultless _ _ _ _ _ (Hdir fs)), (bind_faultless _ _ _ _ _ (exists_faultless _ _)).
  fold p. unfold has_file. assert ((match fs !! p with Some _ => true | None => false end) && negb force = false) as ->.
  { destruct Hf as [-> | ->]; [apply andb_false_r|done]. }
  destruct (download_file_faultless img dir force status reads body fs Ht He Hg Hs Hb Hf) as (dl & fs1 & E1 & Hd1 & Hc1).
  rewrite (bind_faultless _ _ _ _ _ E1).
  destruct (convert_faultless img dir dl fs1 Hcv He Hd1 Hc1) as (fs2 & E2 & [b2 Hb2]). rewrite (bind_faultless _ _ _ _ _ E2).
  assert (im_default_size img = chars "10G" /\ im_cloud_init img = true) as [Hsz Hci].
  { unfold entry_ok in He. rewrite !andb_true_iff in He. destruct He as [[[[_ Hz] Hc] _] _]. split; [|done]. unfold str_eqb in Hz. by apply bool_decide_eq_true in Hz. }
  rewrite Hsz. change (is_nil (chars "10G")) with false. cbv iota.
  destruct (resize_faultless (canonical_path dir img) (is_single_fs_artifact img) b2 fs2 Ht Hb2) as (b3 & E3 & Hl3). rewrite (bind_faultless _ _ _ _ _ E3).
  fold p. set (fs3 := <[p := b3]> fs2). rewrite (bind_faultless _ _ _ _ _ (exists_faultless _ _)).
  assert (exists fs4, (if negb (bool_decide (dl = p)) && has_file fs3 dl then let$ _ := attempt (fs_remove dl) in ret () else ret ()) (faultless fs3) =
    (Ok (), faultless fs4) /\ fs4 !! p = Some b3) as (fs4 & E4 & Hb4).
  { assert (fs3 !! p = Some b3) as Hb3 by apply lookup_insert_eq. case_bool_decide as Hd; cbn [negb andb]; [by exists fs3|].
    destruct (has_file fs3 dl); [|by exists fs3]. destruct (remove_faultless dl fs3) as [r Er]. rewrite (bind_faultless _ _ _ _ _ Er).
    eexists. split; [reflexivity|]. by rewrite lookup_delete_ne. }
  rewrite (bind_faultless _ _ _ _ _ E4). destruct (canonical_seed dir img He) as (Hsp & Hsn & Hss). fold p in Hsp, Hsn, Hss.
  destruct (seed_faultless img p fs4 Ht Hci) as (fs5 & E5 & Hsd & Hq5). rewrite (bind_faultless _ _ _ _ _ E5).
  assert (fs5 !! p = Some b3) as Hb5 by (rewrite Hq5; [done|by rewrite Hsp]).
  destruct (checksum_roundtrip p b3 fs5 Ht Hb5) as (fs6 & E6 & Hv & Hq6).
  exists fs6. split; [unfold bind, attempt; by rewrite E6|]. split; [exists b3; split; [|done]; rewrite Hq6; [done|by apply suffix_ne]|].
  split; [|exact Hv]. rewrite Hq6; [done|]. by rewrite Hsp.
Qed.

End pull.

(** C29: A pull that downloads works for every entry of the catalogue, on a disk
    whose operations do not fail: when there is no file at the entry's path, or the
    pull is forced, the server answers with success and the programs do their
    work, [pull_image] ends at the entry's path with an image of at least its
    10 GiB, with a login seed beside it and a checksum that verifies as pristine,
    whichever entry and environment, and whatever else the directory holds.  The programs are
    assumed to succeed, to resize to the size they are given and to print a
    checksum.  Without [force] a file at the entry's path is taken for the image
    as it is, so a partial one stays ([failed_convert_sticks]). *)
Theorem pull_ready `{Web} `{MetaCodec} `{SeedHost} `{Tools} e name img force status reads body :
  tools_work -> (forall b, (qemu_convert b).1 = true) -> get_known_image name = Some img ->
  http_get (image_url img) = Response_ status reads -> 200 <= status < 300 -> body_of reads = Some body ->
  exists dir, (forall fs, image_dir e (faultless fs) = (Ok dir, faultless fs)) /\
  let p := canonical_path dir img in
  forall fs, force = true \/ fs !! p = None ->
  exists fs', pull_image e name None force (faultless fs) = (Ok p, faultless fs') /\
    (exists b, fs' !! p = Some b /\ 10737418240 <= Z.of_nat (length b)) /\
    is_Some (fs' !! cidata_seed_path_for p) /\
    verify_sha256_sidecar p (faultless fs') = (Ok Match, faultless fs').
Proof.
  intros Ht Hcv Hn Hg Hs Hb. pose proof (known_in _ _ Hn) as Hi.
  destruct (pull_faultless e img force status reads body Ht Hcv Hi Hg Hs Hb) as (dir & Hd & Hp).
  exists dir. split; [done|]. cbn zeta. intros fs Hf. by apply Hp.
Qed.

Definition demo_sha : list Z := replicate 64 97.
Definition demo_tools : Tools :=
  Build_Tools (fun b => Some b) (fun b => Some b) (fun b => Some [(chars "x/debian-riscv64.img", b)]) (fun b => (true, b)) (fun _ => None)
    (fun b _ _ => (true, b)) (fun _ _ => None) (fun b => b) (fun b => Some b) (fun _ => Some (demo_sha ++ 32 :: chars " a.img"))
    (fun ud md => ud ++ md) (mk_iso_steps true (fun _ => true) true true true) (fun _ _ => []).
Definition demo_codec : MetaCodec := Build_MetaCodec (fun _ => []) (fun _ => None).

Lemma demo_tools_work : tools_work (H1 := demo_seed_host) (H2 := demo_tools).
Proof.
  constructor; intros; by eauto.
Qed.

Lemma pull_ready_witness :
  exists dir fs', pull_image (H := demo_web [Some [1; 2]; Some []]) (H0 := demo_codec) (H1 := demo_seed_host) (H2 := demo_tools)
    (mk_env None None (Some (chars "/home/me"))) (chars "alma") None false (faultless ∅) =
    (Ok (canonical_path dir (mk_image (chars "almalinux-10-kitten") [chars "almalinux"; chars "alma"; chars "kitten"] Qcow2 CNone (chars "10G") [] [] true false true)), faultless fs').
Proof.
  destruct (pull_ready (H := demo_web [Some [1; 2]; Some []]) (H0 := demo_codec) (H1 := demo_seed_host) (H2 := demo_tools)
    (mk_env None None (Some (chars "/home/me"))) (chars "alma")
    (mk_image (chars "almalinux-10-kitten") [chars "almalinux"; chars "alma"; chars "kitten"] Qcow2 CNone (chars "10G") [] [] true false true)
    false 200 [Some [1; 2]; Some []] [1; 2] demo_tools_work) as (dir & _ & Hp).
  - reflexivity.
  - vm_compute. reflexivity.
  - reflexivity.
  - lia.
  - reflexivity.
  - exists dir. destruct (Hp ∅) as (fs' & E & _); [right; apply lookup_empty|]. exists fs'. exact E.
Defined.

(** A conversion that fails leaves what it wrote at the image's own path, so the next
    pull takes it for the image and reports success. *)
Theorem failed_convert_sticks `{Web} `{MetaCodec} `{SeedHost} `{Tools} e name img status reads body part :
  tools_work -> get_known_image name = Some img -> im_format img = Qcow2 ->
  http_get (image_url img) = Response_ status reads -> 200 <= status < 300 -> body_of reads = Some body ->
  qemu_convert body = (false, part) ->
  exists dir, let p := canonical_path dir img in
  forall fs, fs !! p = None ->
  exists fs' fs'', pull_image e name None false (faultless fs) = (Err Internal, faultless fs') /\
    pull_image e name None false (faultless fs') = (Ok p, faultless fs'') /\ fs'' !! p = Some part.
Proof.
  intros Ht Hn Hq Hg Hs Hb Hcv. pose proof (known_in _ _ Hn) as Hi. pose proof (catalogue_ok img Hi) as He.
  destruct (image_dir_faultless e) as [dir Hdir]. exists dir. cbn zeta. intros fs Hf. set (p := canonical_path dir img) in *.
  pose proof He as He'. unfold entry_ok in He'. rewrite Hq, !andb_true_iff in He'. destruct He' as [[[[[_ Hx] _] Hci] _] [Hne Hc]].
  apply negb_true_iff in Hx. assert (im_compression img = CNone) as Hcn by by destruct (im_compression img).
  assert (forall fs, of_result (ok_or (get_known_image name) BadRequest) (faultless fs) = (Ok img, faultless fs)) as E0 by by rewrite Hn.
  assert (exists fs1, download_file (image_url img) dir CNone p false (faultless fs) =
    (Ok (join dir (file_name (image_url img))), faultless fs1) /\ fs1 !! join dir (file_name (image_url img)) = Some body) as (fs1 & E1 & Hd1).
  { unfold download_file. unfold entry_ok in He. rewrite !andb_true_iff in He. destruct He as [[[[[[[[[[_ _] Hn1] Hn2] _] _] _] _] _] _] _].
    destruct (cached_faultless (image_url img) (join dir (file_name (image_url img))) p false status reads body fs Hg Hs Hb (or_intror Hf)) as (fs1 & E1 & Hd1).
    { unfold sidecar_path, p, canonical_path. unfold join at 2. rewrite <- !app_assoc. intros E. apply (join_inj dir), ne_spec in E; [done|].
      unfold artifact_name in Hn1. by rewrite <- !app_assoc in Hn1. }
    { unfold sidecar_path, p, canonical_path. unfold join at 2. rewrite <- !app_assoc. intros E. apply (join_inj dir), ne_spec in E; [done|].
      unfold artifact_name in Hn2. by rewrite <- !app_assoc in Hn2. }
    exists fs1. rewrite (bind_faultless _ _ _ _ _ E1). done. }
  exists (<[p := part]> fs1).
  destruct (seed_faultless img p (<[p := part]> fs1) Ht Hci) as (fs2 & E2 & _ & Hq2). exists fs2.
  destruct (canonical_seed dir img He) as (Hsp & Hsn & _). fold p in Hsp, Hsn.
  split; [|split].
  - unfold pull_image. rewrite (bind_faultless _ _ _ _ _ (E0 fs)), (bind_faultless _ _ _ _ _ (Hdir fs)), (bind_faultless _ _ _ _ _ (exists_faultless _ _)).
    fold p. unfold has_file. rewrite Hf. cbn [andb]. rewrite Hcn, (bind_faultless _ _ _ _ _ E1), Hq, Hx.
    unfold convert_to_disk_image, run_into, bind, get_files. cbn [files faultless]. rewrite Hd1, Hcv. done.
  - unfold pull_image. rewrite (bind_faultless _ _ _ _ _ (E0 _)), (bind_faultless _ _ _ _ _ (Hdir _)), (bind_faultless _ _ _ _ _ (exists_faultless _ _)).
    fold p. unfold has_file. rewrite lookup_insert_eq. cbn [andb negb]. by rewrite (bind_faultless _ _ _ _ _ E2).
  - rewrite Hq2, lookup_insert_eq; [done|by rewrite Hsp].
Qed.

(** Without the expected file in the archive, any image of the directory will do, also
    one that was pulled before. *)
Theorem zip_takes_any_image `{Web} `{MetaCodec} `{SeedHost} `{Tools} url dir anchor force q d d1 d2 :
  download_to_cached url (join dir (file_name url)) anchor force d = (Ok (join dir (file_name url)), d1) ->
  (let$ es := attempt (run_on unzip (join dir (file_name url))) in
   let$ _ := (match es with Ok es => set_files dir es | Err _ => ret () end) in
   let$ _ := attempt (fs_remove (join dir (file_name url))) in ret es) d1 = (Ok (Ok []), d2) ->
  files d2 !! join dir (chars "debian-riscv64.img") = None ->
  List.find is_image_ext (list_dir (files d2) dir) = Some q ->
  download_file url dir Zip anchor force d = (Ok q, d2).
Proof.
  intros E1 E2 Hx Hf. unfold download_file. rewrite (bind_faultless _ _ _ _ _ E1).
  unfold bind at 1. unfold bind at 1 in E2. destruct (attempt (run_on unzip _) d1) as [[es|e'] d3]; [|done].
  unfold bind at 1. unfold bind at 1 in E2. destruct ((match es with Ok es => set_files dir es | Err _ => ret () end) d3) as [[u|e'] d4]; [|done].
  unfold bind at 1. unfold bind at 1 in E2. destruct (attempt (fs_remove _) d4) as [[u'|e'] d5]; [|done]. unfold ret in E2. injection E2 as -> ->.
  unfold fs_exists, bind, get_files, ret. rewrite Hx. unfold of_result. by rewrite Hf.
Qed.
