(* ===== verification/Instances.v ===== *)
(** The files of [src/profile.rs]: the catalogue, saved atomically, the disk of an
    instance, cloned from its template, and the seed that a profile asks for.

    YAML and JSON are the class [ProfileCodec]. *)

From S2P Require Import Prelude Text Parse Profile Disk Fetch ConsoleHub Clock Telemetry Protocol DeviceTree DtbProofs Server Session ConsoleWorker Metrics Exporter CloudInit Images.

Record InstanceMeta := mk_instance_meta {
  template_path : path; template_sha256_at_clone : option (list Z); cloned_at_unix_secs : Z }.

Class ProfileCodec := {
  to_yaml : ProfilesFile -> option (list Z);
  of_yaml : list Z -> option ProfilesFile;
  meta_to_json : InstanceMeta -> list Z;
  meta_of_json : list Z -> option InstanceMeta;
}.

(** ** The seed of a profile *)

Definition to_seed_spec (ci : CloudInitConfig) : SeedSpec :=
  mk_seed (ci_user ci) (ci_password ci) (ci_ssh_keys ci) (ci_hostname ci) (ci_instance_id ci) (ci_nameservers ci)
    (ci_extra_user_data ci).

(** ** The catalogue *)

Definition profiles_path (e : Env) : result path Error :=
  let? home := config_home e in Ok (join (join home (chars "bhx")) (chars "profiles.yaml")).

Section files.
  Context `{ProfileCodec}.

(** [load_profiles_from] on the disk. *)
Definition load_from (p : path) : M ProfilesFile :=
  let$ r := attempt (fs_read p) in
  of_result (load_profiles_from of_yaml (match r with Ok None => Missing | Ok (Some b) => Bytes b | Err _ => ReadError end)).

Definition load_profiles (e : Env) : M ProfilesFile :=
  let$ p := of_result (profiles_path e) in load_from p.

Definition save_profiles_to (profiles : ProfilesFile) (p : path) : M unit :=
  (match parent p with Some dir => fs_create_dirs dir | None => ret () end) ;$
  let$ yaml := of_result (ok_or (to_yaml profiles) Internal) in
  let tmp := p ++ chars ".tmp" in
  fs_write tmp yaml ;$
  fs_rename tmp p.

(** ** Instances *)

Definition instances_dir (e : Env) : M path := data_subdir e (chars "instances").

Definition instance_path (e : Env) (profile_name : list Z) (l2cpu_idx : Z) : M path :=
  let$ dir := instances_dir e in ret (join dir (instance_dir profile_name l2cpu_idx)).

Definition instance_disk_path (e : Env) (profile_name : list Z) (l2cpu_idx : Z) : M path :=
  let$ dir := instance_path e profile_name l2cpu_idx in ret (join dir (chars "disk.img")).

Definition instance_meta_path (e : Env) (profile_name : list Z) (l2cpu_idx : Z) : M path :=
  let$ dir := instance_path e profile_name l2cpu_idx in ret (join dir (chars "meta.json")).

Definition read_instance_meta (e : Env) (profile_name : list Z) (l2cpu_idx : Z) : M (option InstanceMeta) :=
  let$ p := instance_meta_path e profile_name l2cpu_idx in
  let$ r := fs_read p in
  match r with
  | None => ret None
  | Some b => let$ m := of_result (ok_or (meta_of_json b) Internal) in ret (Some m)
  end.

Definition write_instance_meta_to (p : path) (meta : InstanceMeta) : M unit := fs_write p (meta_to_json meta).

(** [now] is the wall clock in seconds. *)
Definition clone_template_if_missing (e : Env) (now : Z) (template : path) (profile_name : list Z) (l2cpu_idx : Z)
    : M (path * bool) :=
  let$ dir := instance_path e profile_name l2cpu_idx in
  let disk := join dir (chars "disk.img") in
  let meta_path := join dir (chars "meta.json") in
  let$ there := fs_exists disk in
  if there then ret (disk, false)
  else
    fs_create_dirs dir ;$
    let$ have := fs_exists template in
    if negb have then fail BadRequest
    else
      fs_copy template disk ;$
      write_instance_meta_to meta_path (mk_instance_meta template None now) ;$
      ret (disk, true).

End files.

(** [pick_editor]. *)
Definition pick_editor (VISUAL EDITOR : option (list Z)) : list Z :=
  match non_empty VISUAL with
  | Some v => v
  | None => match non_empty EDITOR with Some v => v | None => chars "vi" end
  end.

(** ** The catalogue is replaced, never half written *)

Section saved.
  Context `{ProfileCodec}.

Lemma touches_save profiles p : touches (fun q => q = p \/ q = p ++ chars ".tmp") (save_profiles_to profiles p).
Proof. unfold save_profiles_to. touches. Qed.

Lemma save_ok profiles p d u d' : save_profiles_to profiles p d = (Ok u, d') ->
  exists yaml, to_yaml profiles = Some yaml /\ files d' !! p = Some yaml /\ files d' !! (p ++ chars ".tmp") = None.
Proof.
  unfold save_profiles_to. intros E. apply disk_bind_ok in E as (u1 & d1 & _ & E). apply disk_bind_ok in E as (yaml & d2 & Ey & E).
  unfold of_result in Ey. injection Ey as Ey ->. apply ok_or_Ok in Ey. exists yaml. split; [done|].
  apply disk_bind_ok in E as (u2 & d3 & Ew & E). apply fs_write_ok in Ew. apply fs_rename_ok in E as (x & Hx & ->).
  rewrite Ew, lookup_insert_eq in Hx. injection Hx as <-. split; [apply lookup_insert_eq|].
  rewrite lookup_insert_ne by by apply suffix_ne. apply lookup_delete_eq.
Qed.

Lemma save_err profiles p d e d' : save_profiles_to profiles p d = (Err e, d') -> files d' !! p = files d !! p.
Proof.
  set (only := fun q => q = p ++ chars ".tmp"). assert (~ only p) as Hp by by apply suffix_ne.
  unfold save_profiles_to. intros E. unfold bind at 1 in E.
  assert (touches only (match parent p with Some dir => fs_create_dirs dir | None => ret () end)) as Ht by touches.
  specialize (Ht d p Hp). destruct ((match parent p with Some dir => fs_create_dirs dir | None => ret () end) d) as [[u|?] d1]; [|by injection E as _ <-].
  rewrite <- Ht. cbn [snd]. clear Ht. unfold bind at 1, of_result in E. destruct (to_yaml profiles) as [yaml|]; [|by injection E as _ <-].
  cbn [ok_or] in E. unfold bind at 1 in E. pose proof (touches_write only (p ++ chars ".tmp") yaml eq_refl d1 p Hp) as Ht.
  destruct (fs_write (p ++ chars ".tmp") yaml d1) as [[u'|?] d2]; [|by injection E as _ <-]. rewrite <- Ht. cbn [snd].
  by apply fs_rename_err in E as ->.
Qed.

End saved.

(** C31: Saving the profiles never leaves a half-baked catalogue: whatever fails on the
    way, and however short a write stops, the file holds either what it held before,
    when the save reports an error, or the whole new text; a save that reports
    success is read back as the same profiles, and no other file changes but
    the temporary one.  The YAML library is assumed to read what it wrote. *)
Theorem save_atomic `{ProfileCodec} profiles p d :
  (forall ps y, to_yaml ps = Some y -> y <> [] /\ of_yaml y = Some ps) ->
  let (r, d') := save_profiles_to profiles p d in
  (forall q, q <> p -> q <> p ++ chars ".tmp" -> files d' !! q = files d !! q) /\
  match r with
  | Ok _ => load_from p (Disk.mk_disk (files d') []) = (Ok profiles, Disk.mk_disk (files d') [])
  | Err _ => files d' !! p = files d !! p
  end.
Proof.
  intros Hy. destruct (save_profiles_to profiles p d) as [r d'] eqn:E. split.
  - intros q H1 H2. pose proof (touches_save profiles p d q) as Ht. rewrite E in Ht. apply Ht. by intros [?|?].
  - destruct r as [u|e]; [|by apply save_err in E]. apply save_ok in E as (yaml & Hyaml & Hp & _).
    destruct (Hy _ _ Hyaml) as [Hne Ho]. unfold load_from, bind, attempt, fs_read, fault, get_files, ret. cbn. unfold of_result.
    rewrite Hp. destruct yaml; [done|]. cbn [load_profiles_from]. by rewrite Ho.
Qed.

(** A catalogue of one text. *)
Definition demo_profile_codec : ProfileCodec :=
  Build_ProfileCodec (fun ps => match ps with [] => Some [123; 125] | _ => None end) (fun b => match b with [123; 125] => Some [] | _ => None end)
    (fun _ => []) (fun _ => None).

Lemma save_atomic_witness :
  (save_profiles_to (H := demo_profile_codec) [] (chars "c/p.yaml") (Disk.mk_disk {[chars "c/p.yaml" := [1]]} [None; Some (Short 1)])).1 = Err Io /\
  files (save_profiles_to (H := demo_profile_codec) [] (chars "c/p.yaml") (Disk.mk_disk {[chars "c/p.yaml" := [1]]} [None; Some (Short 1)])).2 !! chars "c/p.yaml" = Some [1].
Proof.
  assert ((save_profiles_to (H := demo_profile_codec) [] (chars "c/p.yaml") (Disk.mk_disk {[chars "c/p.yaml" := [1]]} [None; Some (Short 1)])).1 = Err Io) as E
    by (vm_compute; reflexivity).
  split; [exact E|].
  pose proof (save_atomic (H := demo_profile_codec) [] (chars "c/p.yaml") (Disk.mk_disk {[chars "c/p.yaml" := [1]]} [None; Some (Short 1)])) as Hs.
  destruct (save_profiles_to _ _ _) as [r d']. cbn [fst] in E. subst r. destruct Hs as [_ Hs]; [|exact Hs].
  intros [|x ps] y Hy; [|discriminate Hy]. injection Hy as <-. by split.
Defined.

(** ** Cloning *)

Section cloned.
  Context `{ProfileCodec}.

Lemma instance_path_faultless e name idx : (exists err, forall fs, instance_path e name idx (faultless fs) = (Err err, faultless fs)) \/
  exists dir, forall fs, instance_path e name idx (faultless fs) = (Ok dir, faultless fs).
Proof.
  unfold instance_path, instances_dir, data_subdir, bind, of_result, attempt. destruct (data_home e) as [h|err]; [right|left]; by eexists.
Qed.

(** The disk of an instance is the template's content at the first clone and stays
    what it is: a later call changes nothing, whatever the template is by then. *)
Lemma clone_idempotent e now now' template template' name idx fs b p c d' :
  fs !! template = Some b ->
  clone_template_if_missing e now template name idx (faultless fs) = (Ok (p, c), d') ->
  (c = true -> files d' !! p = Some b /\ fs !! p = None) /\ (c = false -> d' = faultless fs) /\
  forall fs2, is_Some (fs2 !! p) -> clone_template_if_missing e now' template' name idx (faultless fs2) = (Ok (p, false), faultless fs2).
Proof.
  intros Hb. unfold clone_template_if_missing at 1. destruct (instance_path_faultless e name idx) as [[err Hi]|[dir Hi]].
  { unfold bind at 1. by rewrite Hi. }
  rewrite (bind_faultless _ _ _ _ _ (Hi fs)), (bind_faultless _ _ _ _ _ (exists_faultless _ _)). unfold has_file.
  set (disk := join dir (chars "disk.img")).
  assert (forall fs2, is_Some (fs2 !! disk) -> clone_template_if_missing e now' template' name idx (faultless fs2) = (Ok (disk, false), faultless fs2)) as H2.
  { intros fs2 [x Hx]. unfold clone_template_if_missing. rewrite (bind_faultless _ _ _ _ _ (Hi fs2)), (bind_faultless _ _ _ _ _ (exists_faultless _ _)).
    unfold has_file. fold disk. by rewrite Hx. }
  destruct (fs !! disk) as [x|] eqn:Ed.
  - unfold ret. intros E. injection E as <- <- <-. split; [done|]. by split.
  - assert (fs_create_dirs dir (faultless fs) = (Ok (), faultless fs)) as Ec by done. rewrite (bind_faultless _ _ _ _ _ Ec).
    rewrite (bind_faultless _ _ _ _ _ (exists_faultless _ _)). unfold has_file. rewrite Hb. cbn [negb].
    assert (fs_copy template disk (faultless fs) = (Ok (), faultless (<[disk := b]> fs))) as Ecp
      by (unfold fs_copy, bind, get_files; cbn; by rewrite Hb).
    rewrite (bind_faultless _ _ _ _ _ Ecp). unfold write_instance_meta_to. rewrite (bind_faultless _ _ _ _ _ (write_faultless _ _ _)).
    unfold ret. intros E. injection E as <- <- <-. split; [|split; [done|exact H2]]. intros _. split; [|done].
    cbn. rewrite lookup_insert_ne, lookup_insert_eq; [done|]. intros E. apply (join_inj dir) in E. discriminate E.
Qed.

(** A copy that stops short leaves the part at the disk's own path; the next
    call takes it for the disk of the instance and reports success. *)
Theorem partial_clone_kept e now template name idx fs b n home :
  fs !! template = Some b -> data_home e = Ok home ->
  let dir := join (join (join home (chars "bhx")) (chars "instances")) (instance_dir name idx) in
  let disk := join dir (chars "disk.img") in
  fs !! disk = None ->
  let d' := Disk.mk_disk (<[disk := take n b]> fs) [] in
  clone_template_if_missing e now template name idx (Disk.mk_disk fs [None; None; Some (Short n)]) = (Err Io, d') /\
  clone_template_if_missing e now template name idx d' = (Ok (disk, false), d').
Proof.
  intros Hb Hh dir disk Hd d'.
  assert (forall fs flt, instance_path e name idx (Disk.mk_disk fs (None :: flt)) = (Ok dir, Disk.mk_disk fs flt)) as Hi
    by (intros; unfold instance_path, instances_dir, data_subdir, bind, of_result; by rewrite Hh).
  assert (instance_path e name idx d' = (Ok dir, d')) as Hi' by (unfold instance_path, instances_dir, data_subdir, bind, of_result; by rewrite Hh).
  split.
  - unfold clone_template_if_missing. rewrite (bind_faultless _ _ _ _ _ (Hi _ _)). fold disk.
    assert (fs_exists disk (Disk.mk_disk fs [None; Some (Short n)]) = (Ok false, Disk.mk_disk fs [None; Some (Short n)])) as E1
      by (unfold fs_exists, bind, get_files, ret; cbn [files]; by rewrite Hd).
    rewrite (bind_faultless _ _ _ _ _ E1).
    assert (fs_create_dirs dir (Disk.mk_disk fs [None; Some (Short n)]) = (Ok (), Disk.mk_disk fs [Some (Short n)])) as E2 by done.
    rewrite (bind_faultless _ _ _ _ _ E2).
    assert (fs_exists template (Disk.mk_disk fs [Some (Short n)]) = (Ok true, Disk.mk_disk fs [Some (Short n)])) as E3
      by (unfold fs_exists, bind, get_files, ret; cbn [files]; by rewrite Hb).
    rewrite (bind_faultless _ _ _ _ _ E3). cbn [negb]. unfold fs_copy, bind, get_files. cbn [files]. rewrite Hb. done.
  - unfold clone_template_if_missing. rewrite (bind_faultless _ _ _ _ _ Hi'). fold disk.
    unfold fs_exists, bind, get_files, ret, d'. cbn [files]. by rewrite lookup_insert_eq.
Qed.
End cloned.
