(* ===== verification/Cli.v ===== *)
(** The command line of [src/main.rs]: targets, paths and payloads, the boot
    command with and without a profile, the seed and profile commands, and the
    client of [src/daemon/client.rs].

    Argument parsing is clap's: a command is the record of its parsed flags.
    The world outside is the class [Shell]: the environment, what
    [canonicalize] makes of a path, whether a daemon runs, starting one, and the
    daemon's answer to a request.  What a command prints is left out. *)

From S2P Require Import Prelude Text Parse Profile Disk Fetch ConsoleHub Clock Telemetry Protocol DeviceTree DtbProofs Server Session ConsoleWorker Metrics Exporter CloudInit Images Instances.

(** ** Targets *)

Definition parse_l2cpu_locator (s : list Z) : result (option Z * Z) Error :=
  let? (card_str, l2cpu_str) :=
    match split_once [58] s with
    | Some ([], _) => Err BadRequest
    | Some (_, []) => Err BadRequest
    | Some (c, n) => Ok (Some c, n)
    | None => Ok (None, s)
    end in
  let? card :=
    match card_str with
    | Some c => let? v := ok_or (parse_uint U32_MAX c) BadRequest in Ok (Some v)
    | None => Ok None
    end in
  let? l2cpu := ok_or (parse_uint 255 l2cpu_str) BadRequest in
  if 3 <? l2cpu then Err BadRequest else Ok (card, l2cpu).

Definition pick_card (loc_card ttdevice : option Z) : result Z Error :=
  match loc_card, ttdevice with
  | Some c, Some t => if c =? t then Ok c else Err BadRequest
  | Some c, None => Ok c
  | None, Some t => Ok t
  | None, None => Ok 0
  end.

Definition resolve_target (loc : list Z) (ttdevice : option Z) : result (Z * Z) Error :=
  let? (loc_card, l2cpu) := parse_l2cpu_locator loc in
  let? card := pick_card loc_card ttdevice in
  Ok (card, l2cpu).

Definition resolve_card (loc : list Z) (ttdevice : option Z) : result Z Error :=
  let? (loc_card, _) := parse_l2cpu_locator loc in
  pick_card loc_card ttdevice.

Definition parse_console_mode (s : list Z) : result ConsoleMode Error :=
  if str_eqb s (chars "ro") then Ok Ro
  else if str_eqb s (chars "rw") then Ok Rw
  else if str_eqb s (chars "takeover") then Ok Takeover
  else Err BadRequest.

(** ** The daemon, started when needed *)

Inductive AutoStartDecision := Disabled | Spawn (metrics_port : Z) (no_metrics : bool).

Definition is_one_of (v : option (list Z)) (xs : list (list Z)) : bool :=
  match v with Some v => existsb (str_eqb v) xs | None => false end.

Definition auto_start_decision_from_env (getter : list Z -> option (list Z)) : AutoStartDecision :=
  if is_one_of (getter (chars "BHX_AUTO_START")) [chars "0"; chars "false"] then Disabled
  else
    let metrics_port :=
      match getter (chars "BHX_AUTO_START_METRICS_PORT") with
      | Some v => default 9090 (parse_uint U16_MAX (trim v))
      | None => 9090
      end in
    Spawn metrics_port (is_one_of (getter (chars "BHX_AUTO_START_NO_METRICS")) [chars "1"; chars "true"]).

Record StartOpts := mk_start_opts {
  so_card : Z; so_foreground : bool; so_log_file : option path; so_sandbox : bool; so_metrics_port : Z; so_no_metrics : bool }.

Class Shell := {
  sh_env : Env;
  sh_getenv : list Z -> option (list Z);
  canonicalize : gmap path (list Z) -> path -> option path;
  is_running : Z -> bool;
  start_daemon : StartOpts -> result unit Error;
  connect : Z -> bool;
  request : Z -> Request -> result Response Error;
  recv_fd : Z -> bool;
  now_secs : Z;
}.

Section cli.
  Context `{Web} `{MetaCodec} `{SeedHost} `{Tools} `{ProfileCodec} `{F64} `{Shell}.

Definition ensure_daemon_running (card : Z) : result unit Error :=
  if is_running card then Ok ()
  else
    match auto_start_decision_from_env sh_getenv with
    | Disabled => Err BadRequest
    | Spawn metrics_port no_metrics => start_daemon (mk_start_opts card false None true metrics_port no_metrics)
    end.

(** ** Client calls *)

Definition expect_ok (resp : Response) : result unit Error :=
  match resp with
  | ROk => Ok ()
  | Protocol.RError _ => Err BadRequest
  | _ => Err Internal
  end.

(** Connect, send, read the answer. *)
Definition call (card : Z) (r : Request) : result unit Error :=
  if connect card then let? resp := request card r in expect_ok resp else Err Io.

(** [client::status]. *)
Definition status (card : Z) : result StatusPayload Error :=
  if connect card then
    let? resp := request card Status in
    match resp with
    | RStatus s => Ok s
    | Protocol.RError _ => Err BadRequest
    | _ => Err Internal
    end
  else Err Io.

(** [client::attach_console]; the descriptor comes behind the answer. *)
Definition attach_console (card l2cpu : Z) (mode : ConsoleMode) : result (Z * bool) Error :=
  if connect card then
    let? resp := request card (AttachConsole l2cpu mode) in
    match resp with
    | Attached scrollback_bytes live => if recv_fd card then Ok (scrollback_bytes, live) else Err Io
    | Protocol.RError _ => Err BadRequest
    | _ => Err Internal
    end
  else Err Io.

(** ** Paths and payloads *)

Definition DEFAULT_DISK_PATH : path := chars "rootfs.ext4".

Definition resolve_disk_path (explicit : option path) (default_path : path) (default_exists : bool) : option path :=
  match explicit with
  | Some p => Some p
  | None => if default_exists then Some default_path else None
  end.

Definition resolve_image_name (name : list Z) : M path :=
  let$ img := of_result (ok_or (get_known_image name) BadRequest) in
  let$ dir := image_dir sh_env in
  let p := canonical_path dir img in
  let$ there := fs_exists p in
  if there then ret p else fail BadRequest.

Definition is_absolute (p : path) : bool := starts_with [47] p.

Definition xdg_firmware_dir : M (option path) :=
  let$ r := attempt (data_subdir sh_env (chars "firmware")) in
  ret (match r with Ok d => Some d | Err _ => None end).

Definition resolve_firmware_path (filename : path) (in_tree_subdir : path) : M path :=
  if is_absolute filename then ret filename
  else
    let$ here := fs_exists filename in
    if here then ret filename
    else
      let intree := join in_tree_subdir filename in
      let$ xdg := xdg_firmware_dir in
      match xdg with
      | Some dir =>
          let candidate := join dir filename in
          let$ there := fs_exists candidate in
          ret (if there then candidate else intree)
      | None => ret intree
      end.

Definition default_uboot_path : M path := resolve_firmware_path (chars "u-boot.bin") (chars "third_party/uboot").

Definition default_boot_payload (disk : option path) : M BootPayload :=
  match (let! d := disk in known_image_for_disk d) with
  | Some img => if im_needs_bootloader img then let$ p := default_uboot_path in ret (Protocol.Uboot p) else ret (Protocol.Kernel (chars "Image"))
  | None => ret (Protocol.Kernel (chars "Image"))
  end.

Definition absolutize (p : path) : M path :=
  let$ fs := get_files in of_result (ok_or (canonicalize fs p) Io).

Definition absolutize_opt (o : option path) : M (option path) :=
  match o with Some p => let$ q := absolutize p in ret (Some q) | None => ret None end.

(** ** The boot client *)

Definition run_boot_client (card : Z) (b : BootRequest) : M unit :=
  let$ o := resolve_firmware_path (b_opensbi b) (chars "third_party/opensbi") in
  let$ opensbi := absolutize o in
  let$ payload :=
    (match b_payload b with
     | Protocol.Kernel p => let$ p := absolutize p in ret (Protocol.Kernel p)
     | Protocol.Uboot p => let$ p := resolve_firmware_path p (chars "third_party/uboot") in let$ p := absolutize p in ret (Protocol.Uboot p)
     end) in
  let$ t := resolve_firmware_path (b_dtb b) (chars "third_party/dtb") in
  let$ dtb := absolutize t in
  let$ initramfs := absolutize_opt (b_initramfs b) in
  let$ disk := absolutize_opt (b_disk b) in
  let$ cloud_init := absolutize_opt (b_cloud_init b) in
  of_result (ensure_daemon_running card) ;$
  of_result (call card (Boot (mk_boot (b_l2cpu b) opensbi payload dtb initramfs (b_root_device b) disk (b_network b) (b_extra_fwd b)
    (b_console b) (b_rng b) (b_force b) (b_memory_override b) (b_hostname_override b) cloud_init (b_extra_bootargs b)))).

(** The flags of [boot]. *)
Record BootArgs := mk_boot_args {
  a_opensbi : path; a_kernel : option path; a_uboot : option path; a_dtb : path; a_initramfs : option path;
  a_root_device : list Z; a_force : bool; a_no_virtio_console : bool; a_no_virtio_rng : bool; a_fwd : list (Z * Z);
  a_memory : option Z; a_hostname : option (list Z); a_profile : option (list Z); a_cloud_init : option path; a_no_cidata : bool;
  a_append : option (list Z) }.

(** The global flags. *)
Record Cli := mk_cli { c_ttdevice : option Z; c_l2cpu : list Z; c_disk : option path; c_image : option (list Z); c_network : bool }.

Definition get_profile (name : list Z) (ps : ProfilesFile) : option Profile :=
  option_map snd (List.find (fun np => str_eqb np.1 name) ps).

(** The forwards of a profile, parsed again. *)
Definition reparse_forward (raw : list Z) : result (Z * Z) Error :=
  let? (h, g) := ok_or (split_once [58] raw) Internal in
  let? h := ok_or (parse_uint U16_MAX h) Internal in
  let? g := ok_or (parse_uint U16_MAX g) Internal in
  Ok (h, g).

Fixpoint reparse_forwards (l : list (list Z)) : result (list (Z * Z)) Error :=
  match l with
  | [] => Ok []
  | raw :: l => let? p := reparse_forward raw in let? ps := reparse_forwards l in Ok (p :: ps)
  end.

Definition profile_payload (p : Profile) (img : KnownImage) : M BootPayload :=
  let uboot := let$ u := default_uboot_path in ret (Protocol.Uboot u) in
  match pr_bootloader p with
  | Some bl =>
      if str_eqb bl (chars "uboot") then uboot
      else if str_eqb bl (chars "kernel") then ret (Protocol.Kernel (chars "Image"))
      else fail BadRequest
  | None => if im_needs_bootloader img then uboot else ret (Protocol.Kernel (chars "Image"))
  end.

(** From the profile on. *)
Definition boot_profile (card l2cpu : Z) (name : list Z) (p : Profile) (a : BootArgs) (cli_disk : option path) (cli_network : bool) : M unit :=
  of_result (validate_profile name p) ;$
  let$ img := of_result (ok_or (get_known_image (pr_image p)) Internal) in
  let ext := if im_needs_bootloader img then chars "img" else chars "ext4" in
  let$ images := image_dir sh_env in
  let template := join images (im_name img ++ chars "." ++ ext) in
  let$ (disk_path, _) :=
    (match cli_disk with
     | Some d => ret (d, false)
     | None => clone_template_if_missing sh_env now_secs template name l2cpu
     end) in
  let$ payload := profile_payload p img in
  let$ memory_override :=
    (match pr_memory p with Some s => let$ m := of_result (parse_memory_str s) in ret (Some m) | None => ret None end) in
  let$ fwd := of_result (reparse_forwards (net_forwards (pr_network p))) in
  let network := net_enabled (pr_network p) || cli_network in
  let$ cloud_init_path :=
    (match pr_cloud_init p with
     | Some ci =>
         let$ dir := instance_path sh_env name l2cpu in
         fs_create_dirs dir ;$
         let seed_path := join dir (chars "cidata.img") in
         let$ r := attempt (write_seed (to_seed_spec ci) seed_path) in
         match r with Ok _ => ret (Some seed_path) | Err _ => fail Internal end
     | None => ret None
     end) in
  run_boot_client card
    (mk_boot l2cpu (a_opensbi a) payload (a_dtb a) (match a_initramfs a with Some i => Some i | None => pr_initramfs p end)
       (a_root_device a) (Some disk_path) network fwd (con_virtio (pr_console p)) (con_rng (pr_console p)) (a_force a)
       memory_override (net_hostname (pr_network p)) cloud_init_path None).

Definition run_boot_via_profile (card l2cpu : Z) (name : list Z) (a : BootArgs) (cli_disk : option path) (cli_network : bool) : M unit :=
  let$ profiles := load_profiles sh_env in
  let$ p := of_result (ok_or (get_profile name profiles) BadRequest) in
  boot_profile card l2cpu name p a cli_disk cli_network.

(** The seed beside the disk, unless the operator said otherwise. *)
Definition pick_seed (explicit : option path) (no_cidata : bool) (disk : option path) : M (option path) :=
  match explicit, no_cidata, disk with
  | Some p, _, _ => ret (Some p)
  | None, false, Some d =>
      let candidate := cidata_seed_path_for d in
      let$ there := fs_exists candidate in
      ret (if there then Some candidate else None)
  | _, _, _ => ret None
  end.

(** The [Boot] arm of [main], less [--attach]; [--image] excludes [--disk], and
    [--kernel] excludes [--uboot]. *)
Definition main_boot (cli : Cli) (a : BootArgs) : M unit :=
  let$ (card, l2cpu) := of_result (resolve_target (c_l2cpu cli) (c_ttdevice cli)) in
  let$ disk_arg :=
    (match c_image cli with Some name => let$ p := resolve_image_name name in ret (Some p) | None => ret (c_disk cli) end) in
  match a_profile a with
  | Some profile_name => run_boot_via_profile card l2cpu profile_name a disk_arg (c_network cli)
  | None =>
      let$ default_exists := fs_exists DEFAULT_DISK_PATH in
      let disk := resolve_disk_path disk_arg DEFAULT_DISK_PATH default_exists in
      let$ payload :=
        (match a_uboot a, a_kernel a with
         | Some p, _ => ret (Protocol.Uboot p)
         | None, Some p => ret (Protocol.Kernel p)
         | None, None => default_boot_payload disk
         end) in
      let$ cloud_init := pick_seed (a_cloud_init a) (a_no_cidata a) disk in
      run_boot_client card
        (mk_boot l2cpu (a_opensbi a) payload (a_dtb a) (a_initramfs a) (a_root_device a) disk (c_network cli) (a_fwd a)
           (negb (a_no_virtio_console a)) (negb (a_no_virtio_rng a)) (a_force a) (a_memory a) (a_hostname a) cloud_init (a_append a))
  end.

(** ** The seed command *)

(** The lines of a text. *)
Definition text_lines (s : list Z) : list (list Z) :=
  match s with [] => [] | _ => match rev (split_on 10 s) with [] :: ls => rev ls | ls => rev ls end end.

Definition key_lines (content : list Z) : list (list Z) :=
  List.filter (fun l => negb (is_nil l) && negb (starts_with (chars "#") l)) (List.map trim (text_lines content)).

Definition read_text (p : path) : M (list Z) :=
  let$ r := fs_read p in
  of_result (match r with Some b => ok_or (from_utf8 b) Io | None => Err Io end).

Fixpoint read_keys_from (fs : list path) : M (list (list Z)) :=
  match fs with
  | [] => ret []
  | f :: fs => let$ c := read_text f in let$ ks := read_keys_from fs in ret (key_lines c ++ ks)
  end.

Definition cmd_cloud_init_seed (output : path) (user password : option (list Z)) (no_password : bool) (ssh_key_files : list path)
    (hostname instance_id : option (list Z)) (user_data : option path) : M unit :=
  if no_password && is_nil ssh_key_files then fail BadRequest
  else
    let$ ssh_keys := read_keys_from ssh_key_files in
    let$ extra := (match user_data with Some p => let$ t := read_text p in ret (Some t) | None => ret None end) in
    write_seed (mk_seed user (if no_password then None else password) ssh_keys hostname instance_id [] extra) output.

(** ** Profile commands *)

Definition empty_profile : Profile :=
  mk_profile [] None None None None (mk_net false None []) ConsoleConfig_default None.

(** A [BTreeMap] insertion: entries in the order of their names. *)
Fixpoint insert_profile (name : list Z) (p : Profile) (ps : ProfilesFile) : ProfilesFile :=
  match ps with
  | [] => [(name, p)]
  | (n, q) :: ps =>
      if str_eqb n name then (name, p) :: ps
      else if str_leb name n then (name, p) :: (n, q) :: ps
      else (n, q) :: insert_profile name p ps
  end.

(** The editor's result on the text it is given. *)
Definition cmd_profile_add (edit : list Z -> result ProfilesFile Error) (name : list Z) : M unit :=
  of_result (validate_profile_name name) ;$
  let$ p := of_result (profiles_path sh_env) in
  let$ profiles := load_from p in
  match get_profile name profiles with
  | Some _ => fail BadRequest
  | None =>
      let$ yaml := of_result (ok_or (to_yaml (insert_profile name empty_profile profiles)) Internal) in
      let$ edited := of_result (edit yaml) in
      save_profiles_to edited p
  end.

Definition cmd_profile_edit (edit : list Z -> result ProfilesFile Error) (template : list Z) : M unit :=
  let$ p := of_result (profiles_path sh_env) in
  let$ r := fs_read p in
  let$ edited := of_result (edit (default template r)) in
  save_profiles_to edited p.

Definition cmd_profile_show (name : list Z) : M Profile :=
  let$ profiles := load_profiles sh_env in
  of_result (ok_or (get_profile name profiles) BadRequest).

Definition cmd_profile_rm (name : list Z) : M unit :=
  let$ p := of_result (profiles_path sh_env) in
  let$ profiles := load_from p in
  match get_profile name profiles with
  | None => fail BadRequest
  | Some _ => save_profiles_to (List.filter (fun np => negb (str_eqb np.1 name)) profiles) p
  end.

(** Which instances [profile reset] is for: the raw arguments decide whether [-l] was given. *)
Definition reset_filter (cli : Cli) (args : list (list Z)) : result (option Z) Error :=
  if str_eqb (c_l2cpu cli) (chars "0") && forallb (fun a => negb (str_eqb a (chars "-l")) && negb (str_eqb a (chars "--l2cpu"))) args
  then Ok None
  else let? (_, l2cpu) := resolve_target (c_l2cpu cli) (c_ttdevice cli) in Ok (Some l2cpu).

(** ** Other commands *)

Inductive Verb :=
| VStop | VAddDisk (p : path) (name : option (list Z)) | VRemoveDisk (name : option (list Z))
| VAddNet (ssh_port : option Z) (fwd : list (Z * Z)) | VRemoveNet | VAddConsole | VRemoveConsole.

Definition verb_request (l2cpu : Z) (v : Verb) : M Request :=
  match v with
  | VStop => ret (Stop l2cpu)
  | VAddDisk p name => let$ p := absolutize p in ret (AddDisk l2cpu p name)
  | VRemoveDisk name => ret (RemoveDisk l2cpu name)
  | VAddNet ssh_port fwd => ret (AddNet l2cpu ssh_port fwd)
  | VRemoveNet => ret (RemoveNet l2cpu)
  | VAddConsole => ret (AddConsole l2cpu)
  | VRemoveConsole => ret (RemoveConsole l2cpu)
  end.

Definition main_verb (cli : Cli) (v : Verb) : M unit :=
  match v with
  | VAddDisk p name =>
      let$ p := absolutize p in
      let$ (card, l2cpu) := of_result (resolve_target (c_l2cpu cli) (c_ttdevice cli)) in
      of_result (call card (AddDisk l2cpu p name))
  | _ =>
      let$ (card, l2cpu) := of_result (resolve_target (c_l2cpu cli) (c_ttdevice cli)) in
      let$ r := verb_request l2cpu v in
      of_result (call card r)
  end.

End cli.

(** ** The locator *)

Lemma split_locator c n : split_once [58] (show_dec c ++ [58] ++ show_dec n) = Some (show_dec c, show_dec n).
Proof. apply split_once_char, digits_no. reflexivity. Qed.

Lemma show_dec_cons n : 0 <= n -> exists c s, show_dec n = c :: s.
Proof. intros Hn. destruct (show_dec_snoc n Hn) as (s & c & -> & _). destruct s; by eexists _, _. Qed.

Lemma locator_pair c n : 0 <= c <= U32_MAX -> 0 <= n <= 3 ->
  parse_l2cpu_locator (show_dec c ++ [58] ++ show_dec n) = Ok (Some c, n).
Proof.
  intros Hc Hn. unfold parse_l2cpu_locator. rewrite split_locator.
  destruct (show_dec_cons c) as (x & s & Ec); [lia|]. destruct (show_dec_cons n) as (y & t & En); [lia|].
  rewrite Ec, En. rewrite <- Ec, <- En, !parse_show by lia. cbn [ok_or]. by destruct (Z.ltb_spec 3 n); [lia|].
Qed.

Lemma locator_plain n : 0 <= n <= 3 -> parse_l2cpu_locator (show_dec n) = Ok (None, n).
Proof.
  intros Hn. unfold parse_l2cpu_locator. rewrite split_once_none by by apply digits_no. cbn [ok_or].
  rewrite parse_show by lia. cbn [ok_or]. by destruct (Z.ltb_spec 3 n); [lia|].
Qed.

Lemma locator_range s c n : parse_l2cpu_locator s = Ok (c, n) -> 0 <= n <= 3 /\ from_option (fun c => 0 <= c <= U32_MAX) True c.
Proof.
  unfold parse_l2cpu_locator. intros E. apply Profile.bind_ok in E as ([cs ns] & _ & E). apply Profile.bind_ok in E as (c' & Ec & E).
  apply Profile.bind_ok in E as (v & Ev & E). apply ok_or_Ok, parse_uint_range in Ev; [|lia].
  destruct (Z.ltb_spec 3 v); [done|]. injection E as -> ->. split; [lia|]. destruct cs as [cs|].
  - apply Profile.bind_ok in Ec as (w & Ew & Ec). injection Ec as <-. apply ok_or_Ok, parse_uint_range in Ew; [exact Ew|unfold U32_MAX; lia].
  - by injection Ec as <-.
Qed.

(** The target of a command is what the locator names.  "N" and "C:N" print and
    parse back for every card number and each of the four cores; a card in the
    locator wins over the default and must agree with [-t]; whatever text is
    accepted names one of the four cores and the card of [-t] if one was given;
    and the commands that want only the card accept the same texts and name the
    same card. *)
Theorem target_exact :
  (forall c n t, 0 <= c <= U32_MAX -> 0 <= n <= 3 ->
     resolve_target (show_dec c ++ [58] ++ show_dec n) t =
       (if from_option (fun t => c =? t) true t then Ok (c, n) else Err BadRequest) /\
     resolve_target (show_dec n) t = Ok (default 0 t, n)) /\
  (forall s t c n, resolve_target s t = Ok (c, n) -> 0 <= n <= 3 /\ from_option (fun t => c = t) (0 <= c <= U32_MAX) t) /\
  (forall s t c, resolve_card s t = Ok c <-> exists n, resolve_target s t = Ok (c, n)).
Proof.
  split; [|split].
  - intros c n t Hc Hn. unfold resolve_target. rewrite locator_pair, locator_plain by done.
    destruct t as [t|]; cbn; [destruct (c =? t)|]; done.
  - intros s t c n E. apply Profile.bind_ok in E as ([lc l] & El & E). apply Profile.bind_ok in E as (card & Ec & E).
    injection E as -> ->. apply locator_range in El as [Hn Hc]. split; [done|].
    destruct lc as [lc|], t as [t|]; cbn in *; simplify_eq; try done.
    destruct (Z.eqb_spec lc t); by simplify_eq.
  - intros s t c. unfold resolve_card, resolve_target. destruct (parse_l2cpu_locator s) as [[lc l]|e]; [|split; [done|by intros []]].
    destruct (pick_card lc t) as [card|]; split; [intros [= ->]; by exists l| |done|]; intros [n E]; by simplify_eq.
Qed.

Lemma target_exact_witness : resolve_target (chars "2:3") None = Ok (2, 3) /\ resolve_target (chars "2:3") (Some 1) = Err BadRequest.
Proof.
  split; [exact (proj1 (proj1 target_exact 2 3 None ltac:(unfold U32_MAX; lia) ltac:(lia)))|].
  exact (proj1 (proj1 target_exact 2 3 (Some 1) ltac:(unfold U32_MAX; lia) ltac:(lia))).
Defined.

(** ** What the daemon is asked *)

Section compiled.
  Context `{Web} `{MetaCodec} `{SeedHost} `{Tools} `{ProfileCodec} `{F64} `{Shell}.

(** Operations that look but do not change a file: they have a value for the files there are. *)
Definition reads {A} (m : M A) (f : gmap path (list Z) -> result A Error) : Prop :=
  forall d, exists d', m d = (f (files d), d') /\ files d' = files d /\ (faults d = [] -> d' = d).

Lemma reads_bind {A B} (m : M A) f (k : A -> M B) g :
  reads m f -> (forall a, reads (k a) (g a)) -> reads (bind m k) (fun fs => let? a := f fs in g a fs).
Proof.
  intros Hm Hk d. destruct (Hm d) as (d1 & E & Hd & Hf). unfold bind. rewrite E. destruct (f (files d)) as [a|e]; [|by exists d1].
  destruct (Hk a d1) as (d2 & E2 & Hd2 & Hf2). exists d2. rewrite E2, Hd2, Hd. split_and!; [done|done|].
  intros Hn. specialize (Hf Hn). subst d1. auto.
Qed.
Lemma reads_ret {A} (a : A) : reads (ret a) (fun _ => Ok a).
Proof. intros d. by exists d. Qed.
Lemma reads_of {A} (r : result A Error) : reads (of_result r) (fun _ => r).
Proof. intros d. by exists d. Qed.
Lemma reads_exists p : reads (fs_exists p) (fun fs => Ok (has_file fs p)).
Proof. intros d. by exists d. Qed.
Lemma reads_ext {A} (m : M A) f g : (forall fs, f fs = g fs) -> reads m f -> reads m g.
Proof. intros E Hm d. rewrite <- E. apply Hm. Qed.

Lemma reads_subdir name : reads (data_subdir sh_env name)
  (fun _ => let? h := data_home sh_env in Ok (join (join h (chars "bhx")) name)).
Proof.
  intros d. unfold data_subdir, bind, attempt, of_result. destruct (data_home sh_env) as [h|e]; [|by exists d].
  pose proof (touches_create_dirs (fun _ => False) (join (join h (chars "bhx")) name) d) as Ht.
  destruct (fs_create_dirs _ d) as [r d'] eqn:E. exists d'. split; [done|]. split.
  - apply map_eq. intros p. apply (Ht p). tauto.
  - intros Hn. unfold fs_create_dirs, bind, fault in E. rewrite Hn in E. by injection E as _ <-.
Qed.

(** Where a firmware file is looked for, in order. *)
Definition candidates (filename sub : path) : list path :=
  if is_absolute filename then [filename]
  else [filename] ++
    match data_home sh_env with Ok h => [join (join (join h (chars "bhx")) (chars "firmware")) filename] | Err _ => [] end ++
    [join sub filename].

(** The first that is there, the last if none is. *)
Definition firmware (fs : gmap path (list Z)) (filename sub : path) : path :=
  default (List.last (candidates filename sub) []) (List.find (has_file fs) (candidates filename sub)).

Lemma reads_firmware f sub : reads (resolve_firmware_path f sub) (fun fs => Ok (firmware fs f sub)).
Proof.
  unfold resolve_firmware_path, firmware, candidates. destruct (is_absolute f).
  { eapply reads_ext, reads_ret. intros fs. cbn. by destruct (has_file fs f). }
  assert (reads xdg_firmware_dir (fun _ => Ok (match data_home sh_env with Ok h => Some (join (join h (chars "bhx")) (chars "firmware")) | Err _ => None end))) as Hx.
  { intros d. destruct (reads_subdir (chars "firmware") d) as (d' & E & Hd). exists d'. split; [|exact Hd].
    unfold xdg_firmware_dir, attempt, bind. rewrite E. by destruct (data_home sh_env). }
  intros d. unfold bind at 1, fs_exists at 1, get_files at 1, bind at 1, ret at 1. fold (has_file (files d) f).
  cbn [app List.find].
  destruct (has_file (files d) f) eqn:Ef; [by exists d|].
  destruct (Hx d) as (d1 & E1 & Hd & Hf). unfold bind at 1. rewrite E1. destruct (data_home sh_env) as [h|e]; exists d1; (split; [|done]).
  - set (c := join (join (join h (chars "bhx")) (chars "firmware")) f). unfold bind, fs_exists, get_files, ret. cbn [files].
    unfold bind. rewrite Hd. cbn [app List.find List.last]. fold (has_file (files d) c).
    destruct (has_file (files d) c); [done|]. by destruct (has_file (files d) (join sub f)).
  - cbn [app List.find List.last]. by destruct (has_file (files d) (join sub f)).
Qed.

Lemma reads_absolutize p : reads (absolutize p) (fun fs => ok_or (canonicalize fs p) Io).
Proof. intros d. by exists d. Qed.

Lemma reads_absolutize_opt o : reads (absolutize_opt o)
  (fun fs => match o with Some p => let? q := ok_or (canonicalize fs p) Io in Ok (Some q) | None => Ok None end).
Proof. destruct o as [p|]; [|apply reads_ret]. intros d. exists d. unfold absolutize_opt, absolutize, bind, get_files, of_result. by destruct (canonicalize (files d) p). Qed.
Definition daemon_up (card : Z) : Prop :=
  is_running card = true \/
  exists port no_metrics, auto_start_decision_from_env sh_getenv = Spawn port no_metrics /\
    start_daemon (mk_start_opts card false None true port no_metrics) = Ok ().

Lemma ensure_spec card : ensure_daemon_running card = Ok () <-> daemon_up card.
Proof.
  unfold ensure_daemon_running, daemon_up. destruct (is_running card); [split; [by left|done]|].
  destruct (auto_start_decision_from_env sh_getenv) as [|port nm].
  - split; [done|]. intros [?|(? & ? & ? & _)]; done.
  - split; [intros E; right; by exists port, nm|]. intros [?|(? & ? & E & ?)]; [done|]. by injection E as <- <-.
Qed.

Lemma call_spec card r : call card r = Ok () <-> connect card = true /\ request card r = Ok ROk.
Proof.
  unfold call, expect_ok. destruct (connect card); [|split; [done|by intros []]].
  destruct (request card r) as [[]|]; split; try done; by intros [].
Qed.

(** The request [b'] is [b] with its paths as the daemon will read them. *)
Record sent_for (fs : gmap path (list Z)) (b b' : BootRequest) : Prop := {
  sf_opensbi : canonicalize fs (firmware fs (b_opensbi b) (chars "third_party/opensbi")) = Some (b_opensbi b');
  sf_payload :
    match b_payload b, b_payload b' with
    | Protocol.Kernel p, Protocol.Kernel q => canonicalize fs p = Some q
    | Protocol.Uboot p, Protocol.Uboot q => canonicalize fs (firmware fs p (chars "third_party/uboot")) = Some q
    | _, _ => False
    end;
  sf_dtb : canonicalize fs (firmware fs (b_dtb b) (chars "third_party/dtb")) = Some (b_dtb b');
  sf_initramfs : option_Forall2 (fun p q => canonicalize fs p = Some q) (b_initramfs b) (b_initramfs b');
  sf_disk : option_Forall2 (fun p q => canonicalize fs p = Some q) (b_disk b) (b_disk b');
  sf_cloud_init : option_Forall2 (fun p q => canonicalize fs p = Some q) (b_cloud_init b) (b_cloud_init b');
  sf_rest : b' = mk_boot (b_l2cpu b) (b_opensbi b') (b_payload b') (b_dtb b') (b_initramfs b') (b_root_device b) (b_disk b')
    (b_network b) (b_extra_fwd b) (b_console b) (b_rng b) (b_force b) (b_memory_override b) (b_hostname_override b) (b_cloud_init b')
    (b_extra_bootargs b) }.

Definition absolute (fs : gmap path (list Z)) (p : path) : result path Error := ok_or (canonicalize fs p) Io.
Definition absolute_opt (fs : gmap path (list Z)) (o : option path) : result (option path) Error :=
  match o with Some p => let? q := absolute fs p in Ok (Some q) | None => Ok None end.

(** The boot client's answer as a function of the files. *)
Definition boot_outcome (card : Z) (b : BootRequest) (fs : gmap path (list Z)) : result unit Error :=
  let? opensbi := absolute fs (firmware fs (b_opensbi b) (chars "third_party/opensbi")) in
  let? payload :=
    match b_payload b with
    | Protocol.Kernel p => let? q := absolute fs p in Ok (Protocol.Kernel q)
    | Protocol.Uboot p => let? q := absolute fs (firmware fs p (chars "third_party/uboot")) in Ok (Protocol.Uboot q)
    end in
  let? dtb := absolute fs (firmware fs (b_dtb b) (chars "third_party/dtb")) in
  let? initramfs := absolute_opt fs (b_initramfs b) in
  let? disk := absolute_opt fs (b_disk b) in
  let? cloud_init := absolute_opt fs (b_cloud_init b) in
  let? _ := ensure_daemon_running card in
  call card (Boot (mk_boot (b_l2cpu b) opensbi payload dtb initramfs (b_root_device b) disk (b_network b) (b_extra_fwd b)
    (b_console b) (b_rng b) (b_force b) (b_memory_override b) (b_hostname_override b) cloud_init (b_extra_bootargs b))).

Lemma reads_firmware_abs f sub {B} (k : path -> M B) g : (forall q, reads (k q) (g q)) ->
  reads (bind (resolve_firmware_path f sub) (fun o => bind (absolutize o) k))
    (fun fs => let? q := absolute fs (firmware fs f sub) in g q fs).
Proof.
  intros Hk. eapply reads_ext; [|apply reads_bind; [apply reads_firmware|intros o; apply reads_bind; [apply reads_absolutize|exact Hk]]]. done.
Qed.

Lemma reads_boot card b : reads (run_boot_client card b) (boot_outcome card b).
Proof.
  unfold run_boot_client, boot_outcome. apply reads_firmware_abs. intros opensbi.
  apply (reads_bind _ (fun fs => match b_payload b with
    | Protocol.Kernel p => let? q := absolute fs p in Ok (Protocol.Kernel q)
    | Protocol.Uboot p => let? q := absolute fs (firmware fs p (chars "third_party/uboot")) in Ok (Protocol.Uboot q)
    end)).
  { destruct (b_payload b) as [p|p].
    - apply (reads_bind _ _ _ (fun q _ => Ok (Protocol.Kernel q)) (reads_absolutize p)). intros q. apply reads_ret.
    - apply reads_firmware_abs. intros q. apply reads_ret. }
  intros payload. apply reads_firmware_abs. intros dtb.
  apply (reads_bind _ _ _ (fun initramfs fs => _) (reads_absolutize_opt (b_initramfs b))). intros initramfs.
  apply (reads_bind _ _ _ (fun disk fs => _) (reads_absolutize_opt (b_disk b))). intros disk.
  apply (reads_bind _ _ _ (fun disk fs => _) (reads_absolutize_opt (b_cloud_init b))). intros cloud_init.
  apply (reads_bind _ (fun _ => ensure_daemon_running card) _ (fun _ _ => _)); [apply reads_of|]. intros _. apply reads_of.
Qed.

Lemma absolute_ok fs p q : absolute fs p = Ok q <-> canonicalize fs p = Some q.
Proof. apply ok_or_Ok. Qed.
Lemma absolute_opt_ok fs o o' : absolute_opt fs o = Ok o' <-> option_Forall2 (fun p q => canonicalize fs p = Some q) o o'.
Proof.
  destruct o as [p|]; cbn [absolute_opt].
  - rewrite Profile.bind_ok. setoid_rewrite absolute_ok. split.
    + intros (q & E & [= <-]). by constructor.
    + inversion 1; subst. eauto.
  - split; [intros [= <-]; constructor|by inversion 1].
Qed.

Lemma payload_ok fs b q :
  match b_payload b with
  | Protocol.Kernel p => let? q := absolute fs p in Ok (Protocol.Kernel q)
  | Protocol.Uboot p => let? q := absolute fs (firmware fs p (chars "third_party/uboot")) in Ok (Protocol.Uboot q)
  end = Ok q <->
  match b_payload b, q with
  | Protocol.Kernel p, Protocol.Kernel q => canonicalize fs p = Some q
  | Protocol.Uboot p, Protocol.Uboot q => canonicalize fs (firmware fs p (chars "third_party/uboot")) = Some q
  | _, _ => False
  end.
Proof.
  destruct (b_payload b) as [p|p]; rewrite Profile.bind_ok; setoid_rewrite absolute_ok; destruct q as [q|q];
    (split; [intros (x & E & [= ?]); by subst|eauto]); intros [].
Qed.

Lemma boot_outcome_ok card b fs :
  boot_outcome card b fs = Ok () <->
  exists b', sent_for fs b b' /\ daemon_up card /\ connect card = true /\ request card (Boot b') = Ok ROk.
Proof.
  unfold boot_outcome. rewrite Profile.bind_ok. setoid_rewrite Profile.bind_ok. setoid_rewrite Profile.bind_ok.
  setoid_rewrite Profile.bind_ok. setoid_rewrite Profile.bind_ok. setoid_rewrite Profile.bind_ok. setoid_rewrite Profile.bind_ok.
  setoid_rewrite absolute_ok. setoid_rewrite payload_ok. setoid_rewrite absolute_opt_ok. setoid_rewrite call_spec. split.
  - intros (opensbi & Ho & payload & Hp & dtb & Hd & initramfs & Hi & disk & Hk & ci & Hc & [] & He & Hcon & Hr).
    apply ensure_spec in He. eexists. split; [|by split_and!]. by constructor.
  - intros (b' & [Ho Hp Hd Hi Hk Hc Hr] & He & Hcon & Hreq). apply ensure_spec in He.
    do 6 (eexists; split; [eassumption|]). exists (). split; [done|]. split; [done|]. by rewrite <- Hr.
Qed.

(** A boot succeeds exactly when the daemon accepts it.  The boot client returns
    success if and only if every file it names is there, the daemon runs or is
    allowed to be started and starts, and the daemon answers [Ok] to a boot
    request that differs from the one asked for only in its paths: each is the
    canonical form of the path, and for firmware files of the first candidate
    that is there (the name itself, the installed firmware directory, the build
    tree).  No file changes either way. *)
Theorem boot_client_exact card b d :
  let (r, d') := run_boot_client card b d in
  files d' = files d /\
  (r = Ok () <->
   exists b', sent_for (files d) b b' /\ daemon_up card /\ connect card = true /\ request card (Boot b') = Ok ROk).
Proof.
  destruct (reads_boot card b d) as (d' & -> & Hd & _). split; [done|]. apply boot_outcome_ok.
Qed.

(** ** Profiles, compiled *)

Lemma catalogue_suffix n img : get_known_image n = Some img ->
  (if im_needs_bootloader img then chars "img" else chars "ext4") = image_suffix img.
Proof.
  intros E. assert (In img KNOWN_IMAGES) as Hi.
  { unfold get_known_image in E. destruct (List.find (fun i => str_eqb (im_name i) n) KNOWN_IMAGES) eqn:Ef.
    - injection E as <-. by apply find_some in Ef as [? _].
    - by apply find_some in E as [? _]. }
  assert (Forall (fun i => (if im_needs_bootloader i then chars "img" else chars "ext4") = image_suffix i) KNOWN_IMAGES) as Hall
    by (repeat constructor).
  rewrite Forall_forall in Hall. apply Hall. by apply list_elem_of_In.
Qed.

Lemma reparse_valid l : Forall (fun f => exists h g, parse_fwd_pair f = Ok (h, g)) l ->
  exists ps, reparse_forwards l = Ok ps /\ Forall2 (fun s hg => parse_fwd_pair s = Ok hg) l ps.
Proof.
  induction 1 as [|s l (h & g & E) _ (ps & IH & Hps)]; [by exists []|].
  exists ((h, g) :: ps). split; [|by constructor]. cbn [reparse_forwards].
  assert (reparse_forward s = Ok (h, g)) as ->; [|by rewrite IH].
  unfold parse_fwd_pair in E. unfold reparse_forward. apply Profile.bind_ok in E as ([a b] & Es & E). apply ok_or_Ok in Es as ->.
  apply Profile.bind_ok in E as (x & Ex & E). apply ok_or_Ok in Ex. apply Profile.bind_ok in E as (y & Ey & E). apply ok_or_Ok in Ey.
  destruct ((x =? 0) || (y =? 0)); [done|]. injection E as <- <-. cbn [ok_or]. by rewrite Ex, Ey.
Qed.

(** Which payload a valid profile asks for. *)
Definition wants_uboot (p : Profile) (img : KnownImage) : bool :=
  match pr_bootloader p with Some bl => str_eqb bl (chars "uboot") | None => im_needs_bootloader img end.

Lemma reads_payload p img : opt_all (fun bl => bl = chars "kernel" \/ bl = chars "uboot") (pr_bootloader p) ->
  reads (profile_payload p img) (fun fs => Ok (if wants_uboot p img
    then Protocol.Uboot (firmware fs (chars "u-boot.bin") (chars "third_party/uboot")) else Protocol.Kernel (chars "Image"))).
Proof.
  assert (reads (bind default_uboot_path (fun u => ret (Protocol.Uboot u)))
    (fun fs => Ok (Protocol.Uboot (firmware fs (chars "u-boot.bin") (chars "third_party/uboot"))))) as Hu.
  { unfold default_uboot_path. intros d. destruct (reads_firmware (chars "u-boot.bin") (chars "third_party/uboot") d) as (d' & E & Hd).
    exists d'. unfold bind. by rewrite E. }
  unfold profile_payload, wants_uboot. destruct (pr_bootloader p) as [bl|]; cbn [opt_all].
  - intros [->| ->].
    + apply (reads_ret (Protocol.Kernel (chars "Image"))).
    + exact Hu.
  - intros _. destruct (im_needs_bootloader img); [exact Hu|apply (reads_ret (Protocol.Kernel (chars "Image")))].
Qed.

(** The paths of an instance. *)
Definition instance_file (home : path) (name : list Z) (l2cpu : Z) (file : path) : path :=
  join (join (join (join home (chars "bhx")) (chars "instances")) (instance_dir name l2cpu)) file.
Definition image_file (home : path) (img : KnownImage) : path := canonical_path (join (join home (chars "bhx")) (chars "images")) img.

Lemma image_dir_home home fs : data_home sh_env = Ok home ->
  image_dir sh_env (faultless fs) = (Ok (join (join home (chars "bhx")) (chars "images")), faultless fs).
Proof. intros E. unfold image_dir, data_subdir, bind, attempt, of_result. by rewrite E. Qed.
Lemma instance_path_home home name l2cpu fs : data_home sh_env = Ok home ->
  instance_path sh_env name l2cpu (faultless fs) =
    (Ok (join (join (join home (chars "bhx")) (chars "instances")) (instance_dir name l2cpu)), faultless fs).
Proof. intros E. unfold instance_path, instances_dir, data_subdir, bind, attempt, of_result. by rewrite E. Qed.

(** The disk of an instance after a boot that cloned it if it was missing. *)
Lemma clone_home home now template name l2cpu fs :
  data_home sh_env = Ok home ->
  let disk := instance_file home name l2cpu (chars "disk.img") in
  is_Some (fs !! disk) \/ is_Some (fs !! template) ->
  exists c fs', clone_template_if_missing sh_env now template name l2cpu (faultless fs) = (Ok (disk, c), faultless fs') /\
    fs' !! disk = (match fs !! disk with Some x => Some x | None => fs !! template end) /\
    forall q, q <> disk -> q <> instance_file home name l2cpu (chars "meta.json") -> fs' !! q = fs !! q.
Proof.
  intros Hh disk Ht. unfold clone_template_if_missing. rewrite (bind_faultless _ _ _ _ _ (instance_path_home home name l2cpu fs Hh)).
  fold (instance_file home name l2cpu (chars "disk.img")). fold (instance_file home name l2cpu (chars "meta.json")). fold disk.
  rewrite (bind_faultless _ _ _ _ _ (exists_faultless _ _)). unfold has_file at 1. destruct (fs !! disk) as [x|] eqn:Ed.
  { exists false, fs. by rewrite Ed. }
  destruct Ht as [[? ?]|[b Hb]]; [congruence|].
  assert (fs_create_dirs (join (join (join home (chars "bhx")) (chars "instances")) (instance_dir name l2cpu)) (faultless fs) = (Ok (), faultless fs)) as Ec by done.
  rewrite (bind_faultless _ _ _ _ _ Ec), (bind_faultless _ _ _ _ _ (exists_faultless _ _)). unfold has_file. rewrite Hb. cbn [negb].
  assert (fs_copy template disk (faultless fs) = (Ok (), faultless (<[disk := b]> fs))) as Ecp
    by (unfold fs_copy, bind, get_files; cbn; by rewrite Hb).
  rewrite (bind_faultless _ _ _ _ _ Ecp). unfold write_instance_meta_to. rewrite (bind_faultless _ _ _ _ _ (write_faultless _ _ _)).
  eexists true, _. split; [reflexivity|]. split.
  - rewrite lookup_insert_ne, lookup_insert_eq; [done|]. intros E. apply join_inj in E. discriminate E.
  - intros q H1' H2'. by rewrite !lookup_insert_ne.
Qed.

(** The seed is written beside the disk. *)
Lemma write_seed_home spec out fs : (seed_write_iso iso_steps spec out).2 = Ok () ->
  exists fs', write_seed spec out (faultless fs) = (Ok (), faultless fs') /\ forall q, q <> out -> fs' !! q = fs !! q.
Proof.
  unfold write_seed. destruct (seed_write_iso iso_steps spec out) as [acts r]. cbn [snd]. intros ->.
  set (m := match acts with Stage _ ud :: Stage _ md :: _ => _ | _ => _ end).
  assert (exists fs', m (faultless fs) = (Ok (), faultless fs') /\ forall q, q <> out -> fs' !! q = fs !! q) as (fs' & E & Hq).
  { assert (exists fs', ret () (faultless fs) = (Ok (), faultless fs') /\ forall q, q <> out -> fs' !! q = fs !! q) as Hr by by exists fs.
    unfold m. destruct acts as [|[| |] [|[| |] ?]]; try exact Hr. case_match; [|exact Hr]. eexists. split; [reflexivity|].
    intros q Hne. by rewrite lookup_insert_ne. }
  exists fs'. by rewrite (bind_faultless _ _ _ _ _ E).
Qed.

(** What the boot client is asked for a profile. *)
Record compiled_from (home : path) (name : list Z) (p : Profile) (img : KnownImage) (a : BootArgs) (l2cpu : Z)
    (cli_disk : option path) (cli_network : bool) (b : BootRequest) : Prop := {
  cf_core : b_l2cpu b = l2cpu;
  cf_disk : b_disk b = Some (default (instance_file home name l2cpu (chars "disk.img")) cli_disk);
  cf_payload : match b_payload b with Protocol.Uboot _ => wants_uboot p img = true | Protocol.Kernel q => wants_uboot p img = false /\ q = chars "Image" end;
  cf_memory : match pr_memory p with
              | Some s => exists n, parse_memory s = Ok n /\ n <> 0 /\ b_memory_override b = Some n
              | None => b_memory_override b = None
              end;
  cf_forwards : Forall2 (fun s hg => parse_fwd_pair s = Ok hg) (net_forwards (pr_network p)) (b_extra_fwd b);
  cf_network : b_network b = net_enabled (pr_network p) || cli_network /\ b_hostname_override b = net_hostname (pr_network p);
  cf_console : b_console b = con_virtio (pr_console p) /\ b_rng b = con_rng (pr_console p);
  cf_seed : b_cloud_init b = option_map (fun _ => instance_file home name l2cpu (chars "cidata.img")) (pr_cloud_init p);
  cf_initramfs : b_initramfs b = match a_initramfs a with Some i => Some i | None => pr_initramfs p end;
  cf_flags : b_opensbi b = a_opensbi a /\ b_dtb b = a_dtb a /\ b_force b = a_force a;
  cf_root : b_root_device b = a_root_device a /\ b_extra_bootargs b = None }.

Lemma disk_step home name l2cpu template cli_disk fs :
  data_home sh_env = Ok home ->
  let disk := instance_file home name l2cpu (chars "disk.img") in
  (cli_disk = None -> is_Some (fs !! disk) \/ is_Some (fs !! template)) ->
  exists c fs', (match cli_disk with
    | Some d => ret (d, false)
    | None => clone_template_if_missing sh_env now_secs template name l2cpu
    end) (faultless fs) = (Ok (default disk cli_disk, c), faultless fs') /\
    (cli_disk = None -> fs' !! disk = (match fs !! disk with Some x => Some x | None => fs !! template end)).
Proof.
  intros Hh disk Ht. destruct cli_disk as [d|]; [by exists false, fs|].
  destruct (clone_home home now_secs template name l2cpu fs Hh (Ht eq_refl)) as (c & fs' & E & Hd & _). by exists c, fs'.
Qed.

Lemma seed_step home name l2cpu ci fs :
  data_home sh_env = Ok home ->
  let seed := instance_file home name l2cpu (chars "cidata.img") in
  (forall c, ci = Some c -> (seed_write_iso iso_steps (to_seed_spec c) seed).2 = Ok ()) ->
  exists fs', (match ci with
     | Some ci =>
         let$ dir := instance_path sh_env name l2cpu in
         fs_create_dirs dir ;$
         let seed_path := join dir (chars "cidata.img") in
         let$ r := attempt (write_seed (to_seed_spec ci) seed_path) in
         match r with Ok _ => ret (Some seed_path) | Err _ => fail Internal end
     | None => ret None
     end) (faultless fs) = (Ok (option_map (fun _ => seed) ci), faultless fs') /\ forall q, q <> seed -> fs' !! q = fs !! q.
Proof.
  intros Hh seed Hs. destruct ci as [ci|]; [|by exists fs].
  destruct (write_seed_home (to_seed_spec ci) seed fs (Hs ci eq_refl)) as (fs' & E & Hq). exists fs'. split; [|done].
  rewrite (bind_faultless _ _ _ _ _ (instance_path_home home name l2cpu fs Hh)).
  fold (instance_file home name l2cpu (chars "cidata.img")). fold seed.
  unfold bind at 1. cbn [fs_create_dirs fault faults faultless]. unfold fs_create_dirs, bind at 1, fault. cbn [faultless faults].
  unfold ret at 1. unfold bind, attempt. by rewrite E.
Qed.

(** C21: What a profile that validates makes the boot client ask for, on a disk
    whose operations do not fail ([faultless]).  With a home directory, with a file
    already at the instance's disk or the image pulled (the clone looks for the template exactly
    where a pull leaves the image), and with the seed, if any, written by its tool,
    every step before the boot client succeeds, and the client runs with exactly one
    request: the profile's memory, forwards, hostname, console and network
    settings as its validation read them, the payload of the boot loader it names
    or its image needs, the instance's own disk unless [-d] gave another, and the
    instance's own seed.  A file that is already there as the instance's disk is taken
    as it is, complete or not; without one the disk is a copy of the template.
    The root device of the request is that of the flags, never the profile's
    ([profile_root_device_ignored]). *)
Theorem profile_compiled card l2cpu name p a cli_disk cli_network home fs :
  validate_profile name p = Ok () -> data_home sh_env = Ok home ->
  (cli_disk = None -> is_Some (fs !! instance_file home name l2cpu (chars "disk.img")) \/
     exists img, get_known_image (pr_image p) = Some img /\ is_Some (fs !! image_file home img)) ->
  (forall ci, pr_cloud_init p = Some ci ->
     (seed_write_iso iso_steps (to_seed_spec ci) (instance_file home name l2cpu (chars "cidata.img"))).2 = Ok ()) ->
  exists img b d', get_known_image (pr_image p) = Some img /\ compiled_from home name p img a l2cpu cli_disk cli_network b /\
    boot_profile card l2cpu name p a cli_disk cli_network (faultless fs) = run_boot_client card b d' /\
    (cli_disk = None -> files d' !! instance_file home name l2cpu (chars "disk.img") =
       match fs !! instance_file home name l2cpu (chars "disk.img") with Some x => Some x | None => fs !! image_file home img end).
Proof.
  intros Hv Hh Hdisk Hseed. assert (Hok := Hv). apply validate_profile_spec in Hok as (_ & [img Hi] & Hmem & Hbl & _ & Hfw & _).
  exists img. unfold boot_profile. rewrite Hv. unfold bind at 1, of_result at 1. rewrite Hi. unfold bind at 1, of_result at 1. cbn [ok_or].
  rewrite (bind_faultless _ _ _ _ _ (image_dir_home home fs Hh)).
  rewrite (catalogue_suffix _ _ Hi). fold (canonical_path (join (join home (chars "bhx")) (chars "images")) img). fold (image_file home img).
  destruct (disk_step home name l2cpu (image_file home img) cli_disk fs Hh) as (c & fs1 & E1 & Hfs1).
  { intros Hn. destruct (Hdisk Hn) as [?|(img' & Hi' & ?)]; [by left|right]. by replace img with img' by congruence. }
  rewrite (bind_faultless _ _ _ _ _ E1). clear E1. destruct (reads_payload p img Hbl (faultless fs1)) as (d2 & E2 & _ & Hd2).
  rewrite (Hd2 eq_refl) in E2. rewrite (bind_faultless _ _ _ _ _ E2). clear E2 d2 Hd2.
  set (pl := if wants_uboot p img then _ else _).
  assert (exists m, (match pr_memory p with Some s => let$ m := of_result (parse_memory_str s) in ret (Some m) | None => ret None end) (faultless fs1) =
      (Ok m, faultless fs1) /\ match pr_memory p with Some s => exists n, parse_memory s = Ok n /\ n <> 0 /\ m = Some n | None => m = None end) as (m & Em & Hm).
  { destruct (pr_memory p) as [s|]; [|by exists None]. destruct Hmem as (n & En & Hn). exists (Some n).
    unfold parse_memory_str, bind, of_result. rewrite En. eauto. }
  rewrite (bind_faultless _ _ _ _ _ Em). clear Em. destruct (reparse_valid _ Hfw) as (ps & Eps & Hps). rewrite Eps.
  unfold bind at 1, of_result at 1. destruct (seed_step home name l2cpu (pr_cloud_init p) fs1 Hh Hseed) as (fs2 & Es & Hfs2).
  rewrite (bind_faultless _ _ _ _ _ Es). clear Es. eexists _, (faultless fs2). split; [done|]. split; [|split; [reflexivity|]].
  - constructor; try done. unfold pl. cbn [b_payload]. by destruct (wants_uboot p img).
  - intros Hn. rewrite <- (Hfs1 Hn). apply Hfs2. intros E. apply join_inj in E. discriminate E.
Qed.

(** The profile's own root device is not among what is sent: the profile may
    change it without changing anything of the boot. *)
Theorem profile_root_device_ignored card l2cpu name p a cli_disk cli_network root :
  boot_profile card l2cpu name
    (mk_profile (pr_image p) (pr_memory p) (pr_bootloader p) (pr_initramfs p) root (pr_network p) (pr_console p) (pr_cloud_init p))
    a cli_disk cli_network =
  boot_profile card l2cpu name p a cli_disk cli_network.
Proof. done. Qed.

(** Nor is what the boot flags that have no profile counterpart say. *)
Theorem profile_drops_flags card l2cpu name p a cli_disk cli_network kernel uboot console rng fwd mem host prof ci no_ci app :
  boot_profile card l2cpu name p
    (mk_boot_args (a_opensbi a) kernel uboot (a_dtb a) (a_initramfs a) (a_root_device a) (a_force a) console rng fwd mem host prof ci no_ci app)
    cli_disk cli_network =
  boot_profile card l2cpu name p a cli_disk cli_network.
Proof. done. Qed.

(** ** The seed command *)

(** A seed asked for with no password, and key files that hold no key, is the seed
    with the default password. *)
Theorem no_password_default out user pw f bytes text host iid fs :
  fs !! f = Some bytes -> from_utf8 bytes = Some text -> key_lines text = [] ->
  cmd_cloud_init_seed out user pw true [f] host iid None (faultless fs) =
  cmd_cloud_init_seed out user None false [] host iid None (faultless fs) /\
  forall extra, effective_password (mk_seed user None [] host iid [] extra) = Some DEFAULT_PASSWORD.
Proof.
  intros Hf Hu Hk. split; [|done]. unfold cmd_cloud_init_seed. cbn [andb is_nil read_keys_from].
  assert (read_text f (faultless fs) = (Ok text, faultless fs)) as E
    by (unfold read_text; rewrite (bind_faultless _ _ _ _ _ (read_faultless _ _)), Hf; unfold of_result; by rewrite Hu).
  unfold bind at 1, bind at 1. rewrite E. unfold bind at 1, ret at 1. by rewrite Hk.
Qed.

(** ** Profile commands *)

Lemma get_filter name n ps :
  get_profile n (List.filter (fun np => negb (str_eqb np.1 name)) ps) = if str_eqb n name then None else get_profile n ps.
Proof.
  unfold get_profile. induction ps as [|[m q] ps IH]; cbn [List.filter List.find fst]; [by destruct (str_eqb n name)|].
  unfold str_eqb in *. destruct (bool_decide_reflect (m = name)) as [->|Hm]; cbn [negb].
  - rewrite IH. destruct (bool_decide_reflect (n = name)) as [->|Hn]; [done|]. by rewrite bool_decide_eq_false_2.
  - cbn [List.find fst]. destruct (bool_decide_reflect (m = n)) as [->|Hn]; [by rewrite bool_decide_eq_false_2|]. exact IH.
Qed.

Lemma get_insert name n p ps : get_profile name ps = None ->
  get_profile n (insert_profile name p ps) = if str_eqb n name then Some p else get_profile n ps.
Proof.
  unfold get_profile, str_eqb. induction ps as [|[m q] ps IH]; cbn [insert_profile List.find fst].
  - intros _. destruct (bool_decide_reflect (name = n)) as [->|Hn]; [by rewrite bool_decide_eq_true_2|].
    by rewrite bool_decide_eq_false_2.
  - unfold str_eqb. destruct (bool_decide_reflect (m = name)) as [->|Hm]; [done|]. intros Hg. specialize (IH Hg).
    destruct (str_leb name m); cbn [List.find fst].
    + destruct (bool_decide_reflect (name = n)) as [->|Hn]; [by rewrite bool_decide_eq_true_2|].
      rewrite (bool_decide_eq_false_2 (n = name)) by done. done.
    + destruct (bool_decide_reflect (m = n)) as [->|Hn]; [by rewrite bool_decide_eq_false_2|]. exact IH.
Qed.

(** What a catalogue file holds. *)
Definition catalogue (d : Disk) (p : path) : result ProfilesFile Error := (load_from p (faultless (files d))).1.

Lemma load_from_ok p d ps d' : load_from p d = (Ok ps, d') -> catalogue d p = Ok ps /\ files d' = files d.
Proof.
  unfold catalogue, load_from, bind, attempt, fs_read, fault, get_files, ret, fail, of_result.
  destruct d as [fs [|[f|] flt]]; cbn; intros E; try discriminate E; injection E as E <-; by rewrite E.
Qed.

Lemma saved_catalogue ps p d u d' :
  (forall ps y, to_yaml ps = Some y -> y <> [] /\ of_yaml y = Some ps) ->
  save_profiles_to ps p d = (Ok u, d') -> catalogue d' p = Ok ps.
Proof.
  intros Hy E. apply save_ok in E as (yaml & Hyaml & Hp & _). destruct (Hy _ _ Hyaml) as [Hne Ho].
  unfold catalogue, load_from, bind, attempt, fs_read, fault, get_files, ret, of_result. cbn. rewrite Hp.
  destruct yaml; [done|]. cbn [load_profiles_from]. by rewrite Ho.
Qed.

(** Removing a profile removes that profile.  When [profile rm] succeeds the
    catalogue on disk had the profile and reads back with every other profile as
    it was and that one gone; when it fails the catalogue is as it was.  Adding
    one refuses a name that is taken, and offers the operator a catalogue with
    every profile as it was and an empty one of that name.  The YAML library is
    assumed to read what it wrote. *)
Theorem catalogue_edits name p d :
  (forall ps y, to_yaml ps = Some y -> y <> [] /\ of_yaml y = Some ps) -> profiles_path sh_env = Ok p ->
  (let (r, d') := cmd_profile_rm name d in
   match r with
   | Ok _ => exists ps ps', catalogue d p = Ok ps /\ is_Some (get_profile name ps) /\ catalogue d' p = Ok ps' /\
       forall n, get_profile n ps' = if str_eqb n name then None else get_profile n ps
   | Err _ => files d' !! p = files d !! p
   end) /\
  (forall edit d' u, cmd_profile_add edit name d = (Ok u, d') ->
   exists ps offered yaml edited, catalogue d p = Ok ps /\ get_profile name ps = None /\ to_yaml offered = Some yaml /\
     edit yaml = Ok edited /\ catalogue d' p = Ok edited /\
     forall n, get_profile n offered = if str_eqb n name then Some empty_profile else get_profile n ps).
Proof.
  intros Hy Hp. split.
  - destruct (cmd_profile_rm name d) as [r d'] eqn:E. unfold cmd_profile_rm in E. rewrite Hp in E. unfold bind at 1, of_result at 1 in E.
    unfold bind at 1 in E. destruct (load_from p d) as [[ps|e] d1] eqn:El.
    + apply load_from_ok in El as [Hc Hf]. destruct (get_profile name ps) as [q|] eqn:Eg; [|injection E as <- <-; by rewrite Hf].
      destruct r as [u|e].
      * exists ps, (List.filter (fun np => negb (str_eqb np.1 name)) ps). split; [done|]. split; [done|].
        split; [by apply saved_catalogue in E|]. intros n. apply get_filter.
      * apply save_err in E. by rewrite E, Hf.
    + injection E as <- <-. unfold load_from, bind, attempt, fs_read, fault, get_files, ret, fail, of_result in El.
      destruct d as [fs [|[f|] flt]]; cbn in El; by injection El as _ <-.
  - intros edit d' u E. unfold cmd_profile_add in E. unfold bind at 1, of_result at 1 in E.
    destruct (validate_profile_name name); [|done]. rewrite Hp in E. unfold bind at 1, of_result at 1, bind at 1 in E.
    destruct (load_from p d) as [[ps|e] d1] eqn:El; [|done]. apply load_from_ok in El as [Hc Hf].
    destruct (get_profile name ps) eqn:Eg; [done|]. unfold bind at 1, of_result at 1 in E.
    destruct (to_yaml (insert_profile name empty_profile ps)) as [yaml|] eqn:Et; [|done]. cbn [ok_or] in E.
    unfold bind at 1, of_result at 1 in E. destruct (edit yaml) as [edited|] eqn:Ee; [|done].
    exists ps, (insert_profile name empty_profile ps), yaml, edited. split_and!; try done; [by apply saved_catalogue in E|].
    intros n. by apply get_insert.
Qed.

(** ** Resets *)

(** A locator glued to its flag is not seen: the reset meant for core 0 is for
    every core. *)
Theorem glued_locator_resets_all :
  let cli := mk_cli None (chars "0") None None false in
  reset_filter cli [chars "bhx"; chars "-l0"; chars "profile"; chars "reset"; chars "web"] = Ok None /\
  reset_filter cli [chars "bhx"; chars "--l2cpu=0"; chars "profile"; chars "reset"; chars "web"] = Ok None /\
  reset_filter cli [chars "bhx"; chars "-l"; chars "0"; chars "profile"; chars "reset"; chars "web"] = Ok (Some 0).
Proof. vm_compute. done. Qed.

End compiled.

(** ** A shell *)

Definition demo_f64 : F64 := Build_F64 Z (parse_uint U64_MAX) (fun z => z) (fun _ => true) Z.leb Z.ltb Z.mul (fun z => z).

(** A home directory, a daemon that runs and accepts. *)
Definition demo_shell : Shell :=
  Build_Shell (mk_env None None (Some (chars "/h"))) (fun _ => None) (fun fs p => if has_file fs p then Some p else None) (fun _ => true)
    (fun _ => Err Io) (fun _ => true) (fun _ _ => Ok ROk) (fun _ => true) 0.

Definition demo_profile : Profile :=
  mk_profile (chars "debian") (Some (chars "2GiB")) None None None (mk_net true None [chars "2222:22"; chars "8080:80"]) ConsoleConfig_default None.
Definition demo_boot_args : BootArgs :=
  mk_boot_args (chars "fw_jump.bin") None None (chars "blackhole-card.dtb") None (chars "vda") false false false [] None None None None false None.

Lemma profile_compiled_witness :
  exists b d',
    boot_profile (H1 := demo_seed_host) (H2 := demo_tools) (H3 := demo_profile_codec) (H4 := demo_f64) (H5 := demo_shell) 0 1 (chars "web")
      demo_profile demo_boot_args None false (faultless {[chars "/h/.local/share/bhx/images/debian-13.img" := [7]]}) =
    run_boot_client (H5 := demo_shell) 0 b d' /\
    b_extra_fwd b = [(2222, 22); (8080, 80)] /\ b_memory_override b = Some 2147483648 /\
    files d' !! chars "/h/.local/share/bhx/instances/web-l1/disk.img" = Some [7].
Proof.
  destruct (profile_compiled (H1 := demo_seed_host) (H2 := demo_tools) (H3 := demo_profile_codec) (H4 := demo_f64) (H5 := demo_shell)
    0 1 (chars "web") demo_profile demo_boot_args None false (chars "/h/.local/share")
    {[chars "/h/.local/share/bhx/images/debian-13.img" := [7]]}) as (img & b & d' & Hi & Hc & E & Hf).
  - vm_compute. reflexivity.
  - reflexivity.
  - intros _. right. eexists. split; [vm_compute; reflexivity|]. exists [7]. vm_compute. reflexivity.
  - discriminate.
  - exists b, d'. split; [exact E|]. destruct Hc as [_ _ _ Hm Hw _ _ _ _ _ _]. split; [|split].
    + change (net_forwards (pr_network demo_profile)) with [chars "2222:22"; chars "8080:80"] in Hw.
      inversion Hw as [|? x1 ? ? Hx1 Hw1]; subst. inversion Hw1 as [|? x2 ? ? Hx2 Hw2]; subst. inversion Hw2.
      assert (parse_fwd_pair (chars "2222:22") = Ok (2222, 22)) as A1 by (vm_compute; reflexivity).
      assert (parse_fwd_pair (chars "8080:80") = Ok (8080, 80)) as A2 by (vm_compute; reflexivity). congruence.
    + destruct Hm as (n & En & _ & ->). assert (@parse_memory demo_f64 (chars "2GiB") = Ok 2147483648) as A by (vm_compute; reflexivity). congruence.
    + specialize (Hf eq_refl). assert (get_known_image (chars "debian") = Some img) as Hi' by exact Hi. vm_compute in Hi'. injection Hi' as <-.
      exact (eq_trans Hf eq_refl).
Defined.

Definition one_profile_codec : ProfileCodec :=
  Build_ProfileCodec (fun ps => match ps with [] => Some [123; 125] | _ => None end)
    (fun b => match b with [123; 125] => Some [] | [49] => Some [(chars "web", demo_profile)] | _ => None end) (fun _ => []) (fun _ => None).

Lemma catalogue_edits_witness :
  exists ps', catalogue (H3 := one_profile_codec)
    (cmd_profile_rm (H3 := one_profile_codec) (H5 := demo_shell) (chars "web") (faultless {[chars "/h/.config/bhx/profiles.yaml" := [49]]})).2
    (chars "/h/.config/bhx/profiles.yaml") = Ok ps' /\ get_profile (chars "web") ps' = None.
Proof.
  destruct (catalogue_edits (H3 := one_profile_codec) (H5 := demo_shell) (chars "web") (chars "/h/.config/bhx/profiles.yaml")
    (faultless {[chars "/h/.config/bhx/profiles.yaml" := [49]]})) as [Hr _].
  - intros [|q ps] y Hq; [|discriminate Hq]. injection Hq as <-. by split.
  - reflexivity.
  - assert ((cmd_profile_rm (H3 := one_profile_codec) (H5 := demo_shell) (chars "web") (faultless {[chars "/h/.config/bhx/profiles.yaml" := [49]]})).1 = Ok ()) as E
      by (vm_compute; reflexivity).
    destruct (cmd_profile_rm _ _) as [r d']. cbn [fst] in E. subst r. destruct Hr as (ps & ps' & _ & _ & Hc & Hg).
    exists ps'. split; [exact Hc|]. rewrite Hg. reflexivity.
Defined.
