(* ===== verification/Lifetime.v ===== *)
(** The daemon process of [src/daemon/lifetime.rs], [src/daemon/runner.rs] and
    [src/daemon/fork.rs]: the runtime directory, the lock on the pid file, and
    the commands [start], [stop] and [is_running] as programs over system calls.

    A program is a tree of system calls, one constructor each, with the rest of
    the program behind it; processes interleave between any two calls.  The
    kernel keeps the names of the runtime directory apart from the files they
    lead to: unlinking a name leaves the file to those who have it open, and the
    lock belongs to the file.  File work that has no part in the exclusion (the
    directory, the log file, the reserved-tile record) is taken to succeed;
    sleeping is being scheduled late. *)

From S2P Require Import Prelude Text Parse Disk.

(** ** The runtime directory *)

(** [Path::ends_with] of one component. *)
Definition ends_in (p name : path) : bool := bool_decide (file_name p = name).

Definition runtime_dir (xdg_runtime_dir : option (list Z)) (uid card : Z) : path :=
  let base := match xdg_runtime_dir with Some (c :: x) => c :: x | _ => runtime_dir_fallback uid end in
  let base := if ends_in base (chars "bhx") then base else join base (chars "bhx") in
  join base (show_dec card).

Definition socket_path (xdg : option (list Z)) (uid card : Z) : path := join (runtime_dir xdg uid card) (chars "sock").
Definition pidfile_path (xdg : option (list Z)) (uid card : Z) : path := join (runtime_dir xdg uid card) (chars "pid").
Definition log_path (xdg : option (list Z)) (uid card : Z) : path := join (runtime_dir xdg uid card) (chars "log").
Definition reserved_tile_path (xdg : option (list Z)) (uid card : Z) : path := join (runtime_dir xdg uid card) (chars "reserved-tile").

(** ** System calls *)

Inductive Name := Sock | Pid | Tile.
Inductive Signal := SIGTERM | SIGKILL.

Inductive prog :=
| Return (r : result unit Error)
| Open (k : bool -> prog)               (* the pid file, if it is there *)
| Create (k : prog)                     (* the pid file, made if it is not *)
| TryLock (k : bool -> prog)            (* LOCK_EX | LOCK_NB on the open file *)
| Close (k : prog)                      (* and with it the lock *)
| Truncate (k : prog)
| WritePid (k : prog)
| ReadPid (k : option nat -> prog)
| Unlink (n : Name) (k : prog)
| Bind (k : bool -> prog)
| Fork (child : prog) (k : prog)
| Kill (s : Signal) (pid : nat) (k : prog)
| Serve (k : bool -> prog).             (* the accept loop, and whether it ended well *)

(** ** The commands *)

Definition is_running (k : bool -> prog) : prog :=
  Open (fun there => if there then TryLock (fun got => Close (k (negb got))) else k false).

Definition acquire_pidfile (k : bool -> prog) : prog :=
  Create (TryLock (fun got => if got then Truncate (WritePid (k true)) else Close (k false))).

(** [fs::remove_file] of a process; under the sandbox the call is refused, and
    the refusal is not looked at. *)
Definition remove_file (refused : bool) (n : Name) (k : prog) : prog := if refused then k else Unlink n k.

(** [serve] takes the socket's name away when it ends well; by then the sandbox is on. *)
Definition serve (sandbox : bool) (k : bool -> prog) : prog :=
  Serve (fun ok => if ok then remove_file sandbox Sock (k true) else k false).

Definition run_foreground (sandbox : bool) : prog :=
  serve sandbox (fun ok => if ok then Close (remove_file sandbox Pid (Return (Ok ()))) else Close (Return (Err Io))).

(** The grand-child's part of [run_daemonized]. *)
Definition grand_child (sandbox : bool) : prog :=
  acquire_pidfile (fun got =>
    if got then serve sandbox (fun ok => remove_file (sandbox && ok) Sock (remove_file (sandbox && ok) Pid (Return (Ok ()))))
    else Return (Err Io)).

(** The parent goes on; the child between forks again and exits.  A process that
    gives up on the way is one that crashes there. *)
Definition double_fork (grand_child parent : prog) : prog := Fork (Fork grand_child (Return (Ok ()))) parent.

Definition run_daemonized (sandbox : bool) : prog := Close (double_fork (grand_child sandbox) (Return (Ok ()))).

Definition start_locked (foreground sandbox : bool) : prog :=
  acquire_pidfile (fun got =>
    if got then Bind (fun ok =>
      if ok then if foreground then run_foreground sandbox else run_daemonized sandbox else Close (Return (Err Io)))
    else Return (Err SlotState)).

Definition start (foreground sandbox : bool) : prog :=
  is_running (fun r => if r then start_locked foreground sandbox else Unlink Sock (start_locked foreground sandbox)).

Definition cleanup : prog := Unlink Sock (Unlink Pid (Unlink Tile (Return (Ok ())))).

(** [polls]: how often the loop comes round before the deadline. *)
Fixpoint await (polls : nat) (k : prog) : prog :=
  match polls with
  | O => k
  | S polls => is_running (fun r => if r then await polls k else k)
  end.

Definition stop (polls : nat) : prog :=
  is_running (fun r =>
    if r then ReadPid (fun pid =>
      match pid with
      | Some pid => Kill SIGTERM pid (await polls (is_running (fun r => if r then Kill SIGKILL pid cleanup else cleanup)))
      | None => Return (Err Internal)
      end)
    else cleanup).

Fixpoint and_then (p q : prog) : prog :=
  match p with
  | Return (Ok _) => q
  | Return (Err e) => Return (Err e)
  | Open k => Open (fun b => and_then (k b) q)
  | Create k => Create (and_then k q)
  | TryLock k => TryLock (fun b => and_then (k b) q)
  | Close k => Close (and_then k q)
  | Truncate k => Truncate (and_then k q)
  | WritePid k => WritePid (and_then k q)
  | ReadPid k => ReadPid (fun o => and_then (k o) q)
  | Unlink n k => Unlink n (and_then k q)
  | Bind k => Bind (fun b => and_then (k b) q)
  | Fork c k => Fork c (and_then k q)
  | Kill s pid k => Kill s pid (and_then k q)
  | Serve k => Serve (fun b => and_then (k b) q)
  end.

Definition restart (polls : nat) (foreground sandbox : bool) : prog := and_then (stop polls) (start foreground sandbox).

(** [is_running] as a command of its own ([status], the auto-start of a boot). *)
Definition probe : prog := is_running (fun _ => Return (Ok ())).

(** ** The kernel *)

(** A process: the rest of its program, the file it has open, whether it holds
    the lock on it, and the socket it listens on. *)
Record Proc := mk_proc { code : prog; fd : option nat; locked : bool; listener : option nat }.

(** Files and sockets are numbered.  [w_torn]: the name was taken from a file
    that another process had open and was yet to rely on. *)
Record World := mk_world {
  w_pid : option nat; w_sock : option nat; w_next : nat; w_text : gmap nat (option nat); w_lock : gmap nat nat;
  w_procs : gmap nat Proc; w_newpid : nat; w_ended : list (nat * result unit Error); w_torn : bool }.

Definition set_procs (w : World) (f : gmap nat Proc -> gmap nat Proc) : World :=
  mk_world (w_pid w) (w_sock w) (w_next w) (w_text w) (w_lock w) (f (w_procs w)) (w_newpid w) (w_ended w) (w_torn w).
Definition set_lock (w : World) (f : gmap nat nat -> gmap nat nat) : World :=
  mk_world (w_pid w) (w_sock w) (w_next w) (w_text w) (f (w_lock w)) (w_procs w) (w_newpid w) (w_ended w) (w_torn w).
Definition set_text (w : World) (f : gmap nat (option nat) -> gmap nat (option nat)) : World :=
  mk_world (w_pid w) (w_sock w) (w_next w) (f (w_text w)) (w_lock w) (w_procs w) (w_newpid w) (w_ended w) (w_torn w).

(** The lock of a file goes with the process that closes it. *)
Definition release (w : World) (pr : Proc) : World :=
  match fd pr, locked pr with Some i, true => set_lock w (delete i) | _, _ => w end.

Definition terminate (w : World) (p : nat) : World :=
  match w_procs w !! p with Some pr => set_procs (release w pr) (delete p) | None => w end.

(** Nothing of the rest of the program looks at the lock. *)
Fixpoint past (c : prog) : bool :=
  match c with
  | Return _ => true
  | Unlink _ k => past k
  | Close k => past k
  | _ => false
  end.

Definition serving (pr : Proc) : bool := match code pr with Serve _ => true | _ => false end.

(** Some other process relies on file [i]. *)
Definition relied_on (w : World) (p i : nat) : bool :=
  existsb (fun e : nat * Proc => negb (Nat.eqb e.1 p) && bool_decide (fd e.2 = Some i) && negb (past (code e.2))) (map_to_list (w_procs w)).

(** One call of process [p]; [b] is how an accept loop ends. *)
Definition syscall (w : World) (p : nat) (pr : Proc) (b : bool) : World :=
  let go w c := set_procs w (insert p (mk_proc c (fd pr) (locked pr) (listener pr))) in
  let at_fd w c f := set_procs w (insert p (mk_proc c f false (listener pr))) in
  match code pr with
  | Return r =>
      let w := terminate w p in
      mk_world (w_pid w) (w_sock w) (w_next w) (w_text w) (w_lock w) (w_procs w) (w_newpid w) (w_ended w ++ [(p, r)]) (w_torn w)
  | Open k => match w_pid w with Some i => at_fd w (k true) (Some i) | None => go w (k false) end
  | Create k =>
      match w_pid w with
      | Some i => at_fd w k (Some i)
      | None =>
          let i := w_next w in
          at_fd (mk_world (Some i) (w_sock w) (S i) (<[i := None]> (w_text w)) (w_lock w) (w_procs w) (w_newpid w) (w_ended w) (w_torn w))
            k (Some i)
      end
  | TryLock k =>
      match fd pr with
      | Some i =>
          match w_lock w !! i with
          | None => set_procs (set_lock w (insert i p)) (insert p (mk_proc (k true) (fd pr) true (listener pr)))
          | Some _ => go w (k false)
          end
      | None => go w (k false)
      end
  | Close k => at_fd (release w pr) k None
  | Truncate k => match fd pr with Some i => go (set_text w (insert i None)) k | None => go w k end
  | WritePid k => match fd pr with Some i => go (set_text w (insert i (Some p))) k | None => go w k end
  | ReadPid k => go w (k (let! i := w_pid w in let! t := w_text w !! i in t))
  | Unlink Sock k =>
      go (mk_world (w_pid w) None (w_next w) (w_text w) (w_lock w) (w_procs w) (w_newpid w) (w_ended w) (w_torn w)) k
  | Unlink Pid k =>
      let torn := match w_pid w with Some i => relied_on w p i | None => false end in
      go (mk_world None (w_sock w) (w_next w) (w_text w) (w_lock w) (w_procs w) (w_newpid w) (w_ended w) (w_torn w || torn)) k
  | Unlink Tile k => go w k
  | Bind k =>
      match w_sock w with
      | Some _ => go w (k false)
      | None =>
          let l := w_next w in
          set_procs (mk_world (w_pid w) (Some l) (S l) (w_text w) (w_lock w) (w_procs w) (w_newpid w) (w_ended w) (w_torn w))
            (insert p (mk_proc (k true) (fd pr) (locked pr) (Some l)))
      end
  | Fork child k =>
      let q := w_newpid w in
      go (mk_world (w_pid w) (w_sock w) (w_next w) (w_text w) (w_lock w) (<[q := mk_proc child None false (listener pr)]> (w_procs w)) (S q)
            (w_ended w) (w_torn w)) k
  | Kill s q k =>
      let w := match s, w_procs w !! q with
               | SIGTERM, Some qr => if serving qr then w else terminate w q
               | _, _ => terminate w q
               end in
      match w_procs w !! p with Some _ => go w k | None => w end
  | Serve k => go w (k b)
  end.

(** What can happen next: a new command, a call of a process, a crash. *)
Inductive event := Command (c : prog) | Run (p : nat) (b : bool) | Crash (p : nat).

Definition step (w : World) (e : event) : World :=
  match e with
  | Command c =>
      let q := w_newpid w in
      mk_world (w_pid w) (w_sock w) (w_next w) (w_text w) (w_lock w) (<[q := mk_proc c None false None]> (w_procs w)) (S q) (w_ended w) (w_torn w)
  | Run p b => match w_procs w !! p with Some pr => syscall w p pr b | None => w end
  | Crash p => terminate w p
  end.

Definition run (w : World) (es : list event) : World := foldl step w es.

(** No process, and whatever files a crash left. *)
Definition idle (pid sock : option nat) (next : nat) (text : gmap nat (option nat)) (newpid : nat) : World :=
  mk_world pid sock next text ∅ ∅ newpid [] false.

(** The commands there are. *)
Inductive command : prog -> Prop :=
| cmd_start fg sb : command (start fg sb)
| cmd_stop polls : command (stop polls)
| cmd_restart polls fg sb : command (restart polls fg sb)
| cmd_probe : command probe.

Inductive reachable : World -> Prop :=
| reach_idle pid sock next text newpid : reachable (idle pid sock next text newpid)
| reach_command w c : reachable w -> command c -> reachable (step w (Command c))
| reach_run w p b : reachable w -> reachable (step w (Run p b))
| reach_crash w p : reachable w -> reachable (step w (Crash p)).

(** ** One holder *)

(** What a program may assume of its file. *)
Inductive fdst := Closed | Opened | Locked.

Definition state_of (pr : Proc) : fdst :=
  match fd pr, locked pr with None, _ => Closed | Some _, false => Opened | Some _, true => Locked end.

Fixpoint typed_prog (s : fdst) (c : prog) : Prop :=
  match c with
  | Return _ => True
  | Open k => s = Closed /\ typed_prog Opened (k true) /\ typed_prog Closed (k false)
  | Create k => s = Closed /\ typed_prog Opened k
  | TryLock k => s = Opened /\ typed_prog Locked (k true) /\ typed_prog Opened (k false)
  | Close k => typed_prog Closed k
  | Truncate k | WritePid k => s = Locked /\ typed_prog s k
  | ReadPid k => forall o, typed_prog s (k o)
  | Unlink n k => typed_prog s k /\ (n = Pid -> s = Closed \/ past k = true)
  | Bind k => forall b, typed_prog s (k b)
  | Fork child k => typed_prog Closed child /\ s = Closed /\ typed_prog s k
  | Kill _ _ k => s = Closed /\ typed_prog s k
  | Serve k => s = Locked /\ forall b, typed_prog s (k b)
  end.

Lemma typed_is_running k : (forall r, typed_prog Closed (k r)) -> typed_prog Closed (is_running k).
Proof. intros Hk. split; [done|]. split; [|apply Hk]. split; [done|]. split; apply Hk. Qed.

Lemma typed_acquire k : typed_prog Locked (k true) -> typed_prog Closed (k false) -> typed_prog Closed (acquire_pidfile k).
Proof. intros Ht Hf. by repeat split. Qed.

Lemma typed_grand_child sb : typed_prog Closed (grand_child sb).
Proof. apply typed_acquire; [|done]. split; [done|]. intros []; destruct sb; cbn; auto. Qed.

Lemma typed_start_locked fg sb : typed_prog Closed (start_locked fg sb).
Proof.
  apply typed_acquire; [|done]. intros []; [|done]. destruct fg.
  - split; [done|]. intros []; destruct sb; cbn; auto.
  - split; [split; [apply typed_grand_child|done]|done].
Qed.

Lemma typed_start fg sb : typed_prog Closed (start fg sb).
Proof. apply typed_is_running. intros []; [apply typed_start_locked|]. split; [apply typed_start_locked|done]. Qed.

Lemma typed_cleanup : typed_prog Closed cleanup.
Proof. cbn. auto. Qed.

Lemma typed_await n k : typed_prog Closed k -> typed_prog Closed (await n k).
Proof. intros Hk. induction n as [|n IH]; [done|]. apply typed_is_running. by intros []. Qed.

Lemma typed_stop n : typed_prog Closed (stop n).
Proof.
  apply typed_is_running. intros []; [|apply typed_cleanup]. intros [pid|]; [|done]. split; [done|].
  apply typed_await, typed_is_running. intros []; [split; [done|]|]; apply typed_cleanup.
Qed.

Lemma typed_is_running_then k q : (forall r, typed_prog Closed (and_then (k r) q)) -> typed_prog Closed (and_then (is_running k) q).
Proof. intros Hk. split; [done|]. split; [|apply Hk]. split; [done|]. split; apply Hk. Qed.

Lemma typed_cleanup_then q : typed_prog Closed q -> typed_prog Closed (and_then cleanup q).
Proof. intros Hq. cbn. auto. Qed.

Lemma typed_await_then n k q : typed_prog Closed (and_then k q) -> typed_prog Closed (and_then (await n k) q).
Proof. intros Hk. induction n as [|n IH]; [done|]. apply typed_is_running_then. by intros []. Qed.

Lemma typed_restart n fg sb : typed_prog Closed (restart n fg sb).
Proof.
  pose proof (typed_start fg sb) as Hs. apply typed_is_running_then. intros []; [|by apply typed_cleanup_then].
  intros [pid|]; [|done]. split; [done|]. apply typed_await_then, typed_is_running_then.
  intros []; [split; [done|]|]; by apply typed_cleanup_then.
Qed.

Lemma typed_command c : command c -> typed_prog Closed c.
Proof.
  destruct 1; [apply typed_start|apply typed_stop|apply typed_restart|]. apply typed_is_running. by intros.
Qed.

(** The invariant of all interleavings: every process is as its program assumes,
    locks and holders agree, and, unless the name was torn from a file in use,
    whoever still relies on a file has the one the name leads to. *)
Record Inv (w : World) : Prop := {
  inv_pids : forall p pr, w_procs w !! p = Some pr -> (p < w_newpid w)%nat;
  inv_typed : forall p pr, w_procs w !! p = Some pr -> typed_prog (state_of pr) (code pr);
  inv_holds : forall p pr i, w_procs w !! p = Some pr -> fd pr = Some i -> locked pr = true -> w_lock w !! i = Some p;
  inv_held : forall i p, w_lock w !! i = Some p -> exists pr, w_procs w !! p = Some pr /\ fd pr = Some i /\ locked pr = true;
  inv_name : w_torn w = false -> forall p pr i, w_procs w !! p = Some pr -> fd pr = Some i -> w_pid w = Some i \/ past (code pr) = true }.

Lemma inv_idle pid sock next text newpid : Inv (idle pid sock next text newpid).
Proof. split; cbn; intros; try done. Qed.

(** The world after [p], that had [pr], becomes [pr'], its lock going with it if it closed the file. *)
Lemma inv_update w p pr pr' w' :
  Inv w -> w_procs w !! p = Some pr ->
  w_procs w' = <[p := pr']> (w_procs w) -> w_newpid w' = w_newpid w -> w_lock w' = w_lock w ->
  (w_torn w' = false -> w_torn w = false) ->
  fd pr' = fd pr -> locked pr' = locked pr ->
  typed_prog (state_of pr') (code pr') ->
  (w_torn w' = false -> forall q qr i, w_procs w' !! q = Some qr -> fd qr = Some i -> w_pid w' = Some i \/ past (code qr) = true) ->
  Inv w'.
Proof.
  intros [I1 I2 I3 I4 I5] Hp Ep En El Et Ef Ek Hty Hname. split.
  - intros q qr. rewrite Ep, En. intros [[<- <-]|[_ Hq]]%lookup_insert_Some; eauto.
  - intros q qr. rewrite Ep. intros [[<- <-]|[_ Hq]]%lookup_insert_Some; eauto.
  - intros q qr i. rewrite Ep, El. intros [[<- <-]|[_ Hq]]%lookup_insert_Some; eauto. rewrite Ef, Ek. eauto.
  - intros i q. rewrite Ep, El. intros Hq. destruct (I4 i q Hq) as (qr & Hqr & Hf & Hk). destruct (decide (p = q)) as [<-|Hne].
    + exists pr'. rewrite lookup_insert_eq, Ef, Ek. replace qr with pr in * by congruence. done.
    + exists qr. by rewrite lookup_insert_ne.
  - exact Hname.
Qed.

Lemma lock_of_release w pr : w_lock (release w pr) = match fd pr, locked pr with Some i, true => delete i (w_lock w) | _, _ => w_lock w end.
Proof. unfold release. by destruct (fd pr), (locked pr). Qed.
Lemma release_rest w pr : w_procs (release w pr) = w_procs w /\ w_newpid (release w pr) = w_newpid w /\ w_torn (release w pr) = w_torn w /\
  w_pid (release w pr) = w_pid w.
Proof. unfold release. by destruct (fd pr), (locked pr). Qed.

(** Without [p], or with [p] that has the file closed. *)
Lemma inv_closed w p pr ps' w' :
  Inv w -> w_procs w !! p = Some pr ->
  w_lock w' = w_lock (release w pr) -> w_newpid w' = w_newpid w -> w_torn w' = w_torn w -> w_pid w' = w_pid w -> w_procs w' = ps' ->
  (ps' = delete p (w_procs w) \/ exists pr', ps' = <[p := pr']> (w_procs w) /\ fd pr' = None /\ locked pr' = false /\ typed_prog Closed (code pr')) ->
  Inv w'.
Proof.
  intros [I1 I2 I3 I4 I5] Hp El En Et Epid Eps Hps. rewrite lock_of_release in El.
  assert (forall q qr, ps' !! q = Some qr -> (q <> p /\ w_procs w !! q = Some qr) \/
      (q = p /\ fd qr = None /\ locked qr = false /\ typed_prog (state_of qr) (code qr))) as Hq.
  { intros q qr. destruct Hps as [->|(pr' & -> & Hf & Hk & Ht)].
    - rewrite lookup_delete_Some. intros [? ?]. left. by split; [congruence|].
    - intros [[<- <-]|[? ?]]%lookup_insert_Some; [right|left]; [|by split; [congruence|]]. split_and!; try done. unfold state_of. by rewrite Hf. }
  split; rewrite ?Eps, ?En, ?Et, ?Epid.
  - intros q qr [[_ ?]|(-> & _)]%Hq; eauto.
  - intros q qr [[_ ?]|(-> & _ & _ & ?)]%Hq; eauto.
  - intros q qr i [[Hne Hqr]|(-> & Hf & _)]%Hq Hfd Hk; [|congruence]. rewrite El. pose proof (I3 _ _ _ Hqr Hfd Hk) as Hl.
    destruct (fd pr) as [j|] eqn:Ej; [|done]. destruct (locked pr) eqn:Ek; [|done].
    rewrite lookup_delete_ne; [done|]. intros ->. pose proof (I3 _ _ _ Hp Ej Ek). congruence.
  - intros i q Hl. assert (w_lock w !! i = Some q /\ q <> p) as [Hl' Hne].
    { rewrite El in Hl. destruct (fd pr) as [j|] eqn:Ej; [destruct (locked pr) eqn:Ek|].
      - apply lookup_delete_Some in Hl as [Hij Hl]. split; [done|]. intros ->. destruct (I4 _ _ Hl) as (x & Hx & Hfx & _). congruence.
      - split; [done|]. intros ->. destruct (I4 _ _ Hl) as (x & Hx & Hfx & Hkx). congruence.
      - split; [done|]. intros ->. destruct (I4 _ _ Hl) as (x & Hx & Hfx & Hkx). congruence. }
    destruct (I4 _ _ Hl') as (qr & Hqr & Hf & Hk). exists qr. split; [|done].
    destruct Hps as [->|(pr' & -> & _)]; [by rewrite lookup_delete_ne|by rewrite lookup_insert_ne].
  - intros Hn q qr i [[_ Hqr]|(-> & Hf & _)]%Hq Hfd; [|congruence]. eauto.
Qed.

Lemma inv_terminate w p : Inv w -> Inv (terminate w p).
Proof.
  intros Hi. unfold terminate. destruct (w_procs w !! p) as [pr|] eqn:Hp; [|done].
  destruct (release_rest w pr) as (E1 & E2 & E3 & E4).
  eapply (inv_closed w p pr); cbn; eauto. left. by rewrite E1.
Qed.

(** A call that leaves the name, the file and the lock. *)
Lemma inv_go w p pr c l w0 :
  Inv w -> w_procs w !! p = Some pr ->
  w_procs w0 = w_procs w -> w_newpid w0 = w_newpid w -> w_lock w0 = w_lock w -> w_torn w0 = w_torn w -> w_pid w0 = w_pid w ->
  typed_prog (state_of pr) c -> (past (code pr) = true -> past c = true) ->
  Inv (set_procs w0 (insert p (mk_proc c (fd pr) (locked pr) l))).
Proof.
  intros Hi Hp Ep En El Et Epid Hty Hpast.
  eapply (inv_update w p pr (mk_proc c (fd pr) (locked pr) l)); cbn; try done; [by rewrite Ep|by rewrite Et|].
  rewrite Et, Ep, Epid. intros Hn q qr i [[<- <-]|[_ Hq]]%lookup_insert_Some Hf; [|by eapply inv_name].
  destruct (inv_name w Hi Hn p pr i Hp Hf) as [?|?]; auto.
Qed.

(** A process that had the file closed gets it open, without the lock. *)
Lemma inv_open w p pr c i w0 :
  Inv w -> w_procs w !! p = Some pr -> fd pr = None ->
  w_procs w0 = w_procs w -> w_newpid w0 = w_newpid w -> w_lock w0 = w_lock w -> w_torn w0 = w_torn w ->
  w_pid w0 = Some i -> (w_pid w = None \/ w_pid w = Some i) -> typed_prog Opened c ->
  Inv (set_procs w0 (insert p (mk_proc c (Some i) false (listener pr)))).
Proof.
  intros Hi Hp Hfd Ep En El Et Epid Hpid Hty. split; cbn; rewrite ?Ep, ?En, ?El, ?Et, ?Epid.
  - intros q qr [[<- _]|[_ Hq]]%lookup_insert_Some; by eapply inv_pids.
  - intros q qr [[<- <-]|[_ Hq]]%lookup_insert_Some; [done|by eapply inv_typed].
  - intros q qr j [[<- <-]|[_ Hq]]%lookup_insert_Some; [done|by eapply inv_holds].
  - intros j q Hl. destruct (inv_held w Hi j q Hl) as (qr & Hq & Hf & Hk). exists qr. split; [|done].
    rewrite lookup_insert_ne; [done|]. intros <-. congruence.
  - intros Hn q qr j [[<- <-]|[_ Hq]]%lookup_insert_Some Hf; [by left; injection Hf as <-|].
    destruct (inv_name w Hi Hn q qr j Hq Hf) as [E|?]; [|by right]. left. destruct Hpid; congruence.
Qed.

Lemma inv_lock w p pr c i :
  Inv w -> w_procs w !! p = Some pr -> fd pr = Some i -> locked pr = false -> w_lock w !! i = None ->
  typed_prog Locked c -> past (code pr) = false ->
  Inv (set_procs (set_lock w (insert i p)) (insert p (mk_proc c (fd pr) true (listener pr)))).
Proof.
  intros Hi Hp Hfd Hk Hl Hty Hpast. split; cbn.
  - intros q qr [[<- _]|[_ Hq]]%lookup_insert_Some; by eapply inv_pids.
  - intros q qr [[<- <-]|[_ Hq]]%lookup_insert_Some; [|by eapply inv_typed]. unfold state_of. cbn. by rewrite Hfd.
  - intros q qr j [[<- <-]|[Hne Hq]]%lookup_insert_Some Hf Hkq; cbn in *.
    + replace j with i by congruence. apply lookup_insert_eq.
    + pose proof (inv_holds w Hi q qr j Hq Hf Hkq). rewrite lookup_insert_ne; congruence.
  - intros j q [[<- <-]|[Hne Hq]]%lookup_insert_Some.
    + eexists. by rewrite lookup_insert_eq.
    + destruct (inv_held w Hi j q Hq) as (qr & Hqr & Hf & Hkq). exists qr. split; [|done].
      rewrite lookup_insert_ne; [done|]. intros <-. congruence.
  - intros Hn q qr j [[<- <-]|[_ Hq]]%lookup_insert_Some Hf; cbn in *; [|by eapply inv_name].
    destruct (inv_name w Hi Hn p pr j Hp Hf); [by left|congruence].
Qed.

Lemma inv_new w c l : Inv w -> typed_prog Closed c ->
  Inv (mk_world (w_pid w) (w_sock w) (w_next w) (w_text w) (w_lock w) (<[w_newpid w := mk_proc c None false l]> (w_procs w)) (S (w_newpid w))
    (w_ended w) (w_torn w)).
Proof.
  intros Hi Hty. assert (w_procs w !! w_newpid w = None) as Hfresh.
  { destruct (w_procs w !! w_newpid w) as [pr|] eqn:E; [|done]. apply (inv_pids w Hi) in E. lia. }
  split; cbn.
  - intros q qr [[<- _]|[_ Hq]]%lookup_insert_Some; [lia|]. apply (inv_pids w Hi) in Hq. lia.
  - intros q qr [[<- <-]|[_ Hq]]%lookup_insert_Some; [done|by eapply inv_typed].
  - intros q qr j [[<- <-]|[_ Hq]]%lookup_insert_Some; [done|by eapply inv_holds].
  - intros j q Hl. destruct (inv_held w Hi j q Hl) as (qr & Hq & Hf & Hk). exists qr. split; [|done].
    rewrite lookup_insert_ne; [done|]. intros <-. congruence.
  - intros Hn q qr j [[<- <-]|[_ Hq]]%lookup_insert_Some Hf; [done|by eapply inv_name].
Qed.

(** Whoever relies on the file the name led to is seen when the name goes. *)
Lemma not_relied_on w p i q qr : relied_on w p i = false -> w_procs w !! q = Some qr -> q <> p -> fd qr = Some i -> past (code qr) = true.
Proof.
  unfold relied_on. intros Hr Hq Hne Hf. destruct (past (code qr)) eqn:Ep; [done|]. exfalso.
  assert (existsb (fun e : nat * Proc => negb (Nat.eqb e.1 p) && bool_decide (fd e.2 = Some i) && negb (past (code e.2))) (map_to_list (w_procs w)) = true) as Ht;
    [|congruence].
  apply existsb_exists. exists (q, qr). split; [by apply list_elem_of_In, elem_of_map_to_list|]. cbn.
  rewrite Ep, (proj2 (Nat.eqb_neq q p) Hne), bool_decide_eq_true_2 by done. done.
Qed.

Lemma inv_unlink w p pr k :
  Inv w -> w_procs w !! p = Some pr -> typed_prog (state_of pr) k -> state_of pr = Closed \/ past k = true ->
  Inv (set_procs (mk_world None (w_sock w) (w_next w) (w_text w) (w_lock w) (w_procs w) (w_newpid w) (w_ended w)
         (w_torn w || match w_pid w with Some i => relied_on w p i | None => false end))
       (insert p (mk_proc k (fd pr) (locked pr) (listener pr)))).
Proof.
  intros Hi Hp Hty Hcl. eapply (inv_update w p pr (mk_proc k (fd pr) (locked pr) (listener pr))); cbn; try done.
  - intros [? _]%orb_false_iff. done.
  - intros [Hn Hr]%orb_false_iff q qr i [[<- <-]|[Hne Hq]]%lookup_insert_Some Hf; right; cbn in *.
    + destruct Hcl as [Hcl|?]; [|done]. unfold state_of in Hcl. rewrite Hf in Hcl. by destruct (locked pr).
    + destruct (inv_name w Hi Hn q qr i Hq Hf) as [E|?]; [|done]. rewrite E in Hr. by eapply not_relied_on.
Qed.

Lemma terminate_other w p q pr : q <> p -> w_procs w !! p = Some pr -> w_procs (terminate w q) !! p = Some pr.
Proof.
  intros Hne Hp. unfold terminate. destruct (w_procs w !! q) as [qr|]; [|done].
  cbn. destruct (release_rest w qr) as (-> & _). by rewrite lookup_delete_ne.
Qed.

Lemma inv_kill w p pr s q k : Inv w -> w_procs w !! p = Some pr -> code pr = Kill s q k -> Inv (syscall w p pr true).
Proof.
  intros Hi Hp Ec. unfold syscall. rewrite Ec. set (w1 := match s, w_procs w !! q with SIGTERM, Some qr => _ | _, _ => _ end).
  assert (Inv w1) as Hi1.
  { unfold w1. pose proof (inv_terminate w q Hi). destruct s; [|done]. destruct (w_procs w !! q) as [qr|]; [|done]. by destruct (serving qr). }
  destruct (w_procs w1 !! p) as [pr1|] eqn:E1; [|done].
  assert (pr1 = pr) as ->.
  { unfold w1 in E1. destruct (decide (q = p)) as [->|Hne].
    - unfold terminate in E1. rewrite Hp in E1. cbn in E1. destruct (release_rest w pr) as (Er & _). destruct s; [destruct (serving pr)|].
      + congruence.
      + cbn in E1. by rewrite Er, lookup_delete_eq in E1.
      + cbn in E1. by rewrite Er, lookup_delete_eq in E1.
    - pose proof (terminate_other w p q pr Hne Hp). destruct s; [|congruence]. destruct (w_procs w !! q) as [qr|]; [|congruence].
      destruct (serving qr); congruence. }
  pose proof (inv_typed w Hi p pr Hp) as Ht. rewrite Ec in Ht. destruct Ht as [_ Ht].
  apply (inv_go w1 p pr); try done. by rewrite Ec.
Qed.

Lemma inv_syscall w p pr b : Inv w -> w_procs w !! p = Some pr -> Inv (syscall w p pr b).
Proof.
  intros Hi Hp. pose proof (inv_typed w Hi p pr Hp) as Ht.
  assert (forall c, code pr = c -> (past c = false -> forall c', past (code pr) = true -> past c' = true)) as Hnp by (intros c -> Hf c' ?; congruence).
  destruct (code pr) as [r|k|k|k|k|k|k|k|n k|k|c k|s q k|k] eqn:Ec; cbn [typed_prog] in Ht; specialize (Hnp _ eq_refl); cbn [past] in Hnp.
  - (* Return *) unfold syscall. rewrite Ec. pose proof (inv_terminate w p Hi) as [I1 I2 I3 I4 I5]. by split.
  - (* Open *) destruct Ht as (Hs & Ht & Hf). unfold syscall. rewrite Ec.
    assert (fd pr = None) as Hfd by (unfold state_of in Hs; destruct (fd pr); [by destruct (locked pr)|done]).
    destruct (w_pid w) as [i|] eqn:Epid; [by apply (inv_open w p pr); auto|]. apply (inv_go w p pr); try done; [by rewrite Hs|rewrite Ec; by auto].
  - (* Create *) destruct Ht as (Hs & Ht). unfold syscall. rewrite Ec.
    assert (fd pr = None) as Hfd by (unfold state_of in Hs; destruct (fd pr); [by destruct (locked pr)|done]).
    destruct (w_pid w) as [i|] eqn:Epid; by apply (inv_open w p pr); auto.
  - (* TryLock *) destruct Ht as (Hs & Ht & Hf). unfold syscall. rewrite Ec.
    destruct (fd pr) as [i|] eqn:Efd; [|by unfold state_of in Hs; rewrite Efd in Hs].
    assert (locked pr = false) as Hk by (unfold state_of in Hs; rewrite Efd in Hs; by destruct (locked pr)).
    destruct (w_lock w !! i) as [q|] eqn:El.
    + rewrite <- Efd. apply (inv_go w p pr); try done; [by rewrite Hs|by rewrite Ec].
    + rewrite <- Efd. apply (inv_lock w p pr); try done. by rewrite Ec.
  - (* Close *) unfold syscall. rewrite Ec. destruct (release_rest w pr) as (E1 & E2 & E3 & E4).
    eapply (inv_closed w p pr); cbn; eauto. right. eexists. by rewrite E1.
  - (* Truncate *) destruct Ht as [_ Ht]. unfold syscall. rewrite Ec. destruct (fd pr) as [i|] eqn:Efd; rewrite <- Efd;
      by apply (inv_go w p pr); try done; rewrite Ec.
  - (* WritePid *) destruct Ht as [_ Ht]. unfold syscall. rewrite Ec. destruct (fd pr) as [i|] eqn:Efd; rewrite <- Efd;
      by apply (inv_go w p pr); try done; rewrite Ec.
  - (* ReadPid *) unfold syscall. rewrite Ec. apply (inv_go w p pr); try done. by rewrite Ec.
  - (* Unlink *) destruct Ht as [Ht Hn]. unfold syscall. rewrite Ec. destruct n.
    + apply (inv_go w p pr); try done. by rewrite Ec.
    + apply inv_unlink; auto.
    + apply (inv_go w p pr); try done. by rewrite Ec.
  - (* Bind *) unfold syscall. rewrite Ec. destruct (w_sock w); apply (inv_go w p pr); try done; by rewrite Ec.
  - (* Fork *) destruct Ht as (Hc & Hs & Ht). unfold syscall. rewrite Ec. pose proof (inv_new w c (listener pr) Hi Hc) as Hi'.
    eapply (inv_go _ p pr _ _ _ Hi'); try done; [|by rewrite Ec]. cbn.
    rewrite lookup_insert_ne; [done|]. intros E. apply (inv_pids w Hi) in Hp. lia.
  - (* Kill *) assert (syscall w p pr b = syscall w p pr true) as -> by (unfold syscall; by rewrite Ec). by eapply inv_kill.
  - (* Serve *) destruct Ht as [_ Ht]. unfold syscall. rewrite Ec. apply (inv_go w p pr); try done. by rewrite Ec.
Qed.

Lemma inv_reachable w : reachable w -> Inv w.
Proof.
  induction 1 as [pid sock next text newpid|w c _ IH Hc|w p b _ IH|w p _ IH].
  - apply inv_idle.
  - apply inv_new; [done|]. by apply typed_command.
  - unfold step. destruct (w_procs w !! p) as [pr|] eqn:Hp; [by apply inv_syscall|done].
  - by apply inv_terminate.
Qed.

(** C10: One daemon per card, as far as the lock reaches.  Whatever starts, stops,
    restarts, probes, exits and crashes interleave, between any two system calls:
    every process in its accept loop holds the lock of a pid file, no two of
    them that of the same file, and as long as the name was never unlinked from
    under a process that had the file open and was yet to rely on its lock, at most
    one process is in its accept loop, and it holds the file the name leads to. *)
Theorem one_daemon w p pr :
  reachable w -> w_procs w !! p = Some pr -> serving pr = true ->
  exists i, fd pr = Some i /\ w_lock w !! i = Some p /\
    (forall q qr, w_procs w !! q = Some qr -> serving qr = true -> fd qr = Some i -> q = p) /\
    (w_torn w = false -> w_pid w = Some i /\ forall q qr, w_procs w !! q = Some qr -> serving qr = true -> q = p).
Proof.
  intros Hr. apply inv_reachable in Hr as Hi.
  assert (forall q qr, w_procs w !! q = Some qr -> serving qr = true -> exists i, fd qr = Some i /\ w_lock w !! i = Some q /\ past (code qr) = false) as Hs.
  { intros q qr Hq Hs. pose proof (inv_typed w Hi q qr Hq) as Ht. unfold serving in Hs. destruct (code qr) eqn:Ec; try done.
    destruct Ht as [Ht _]. unfold state_of in Ht. destruct (fd qr) as [i|] eqn:Ef; [|done]. destruct (locked qr) eqn:Ek; [|done].
    exists i. split; [done|]. split; [by eapply inv_holds|done]. }
  intros Hp Hsp. destruct (Hs p pr Hp Hsp) as (i & Hf & Hl & Hpast). exists i. split; [done|]. split; [done|].
  assert (forall q qr, w_procs w !! q = Some qr -> serving qr = true -> fd qr = Some i -> q = p) as Hsame.
  { intros q qr Hq Hsq Hfq. destruct (Hs q qr Hq Hsq) as (j & Hfj & Hlj & _). congruence. }
  split; [exact Hsame|]. intros Hn.
  assert (forall q qr, w_procs w !! q = Some qr -> serving qr = true -> fd qr = w_pid w) as Hname.
  { intros q qr Hq Hsq. destruct (Hs q qr Hq Hsq) as (j & Hfj & _ & Hpj). destruct (inv_name w Hi Hn q qr j Hq Hfj); congruence. }
  split; [by rewrite <- (Hname p pr Hp Hsp)|]. intros q qr Hq Hsq. apply (Hsame q qr Hq Hsq). rewrite (Hname q qr Hq Hsq), <- (Hname p pr Hp Hsp). done.
Qed.

(** ** One command after the other *)

(** One process runs on; an accept loop ends well. *)
Fixpoint alone (w : World) (p : nat) (n : nat) : World :=
  match n with O => w | S n => alone (step w (Run p true)) p n end.

Lemma alone_call w p pr n : w_procs w !! p = Some pr -> alone w p (S n) = alone (syscall w p pr true) p n.
Proof. intros Hp. cbn [alone step]. by rewrite Hp. Qed.

Lemma alone_gone w p n : w_procs w !! p = None -> alone w p n = w.
Proof. intros Hp. induction n as [|n IH]; [done|]. cbn [alone step]. by rewrite Hp. Qed.

Lemma alone_add w p n m : alone w p (n + m) = alone (alone w p n) p m.
Proof. revert w. induction n as [|n IH]; intros w; [done|]. apply IH. Qed.

Lemma unlocked (i p : nat) : delete i (<[i := p]> (∅ : gmap nat nat)) = ∅.
Proof. apply map_eq. intros j. rewrite lookup_delete. by repeat case_decide; rewrite ?lookup_insert_ne, ?lookup_empty. Qed.
Lemma gone_one (p : nat) (a : Proc) : delete p (<[p := a]> (∅ : gmap nat Proc)) = ∅.
Proof. apply map_eq. intros j. rewrite lookup_delete. by repeat case_decide; rewrite ?lookup_insert_ne, ?lookup_empty. Qed.
Lemma gone_first (p q : nat) (a b c : Proc) : p <> q -> delete p (<[p := a]> (<[q := b]> (<[p := c]> ∅))) = <[q := b]> (∅ : gmap nat Proc).
Proof.
  intros Hne. apply map_eq. intros j. rewrite lookup_delete, !lookup_insert, lookup_empty. repeat case_decide; congruence.
Qed.
Lemma gone_second (p q : nat) (a b : Proc) : p <> q -> delete p (<[p := a]> (<[q := b]> ∅)) = <[q := b]> (∅ : gmap nat Proc).
Proof.
  intros Hne. apply map_eq. intros j. rewrite lookup_delete, !lookup_insert, lookup_empty. repeat case_decide; congruence.
Qed.

Ltac look := rewrite ?lookup_insert_eq, ?lookup_empty, ?insert_insert_eq, ?unlocked.
Ltac reduce :=
  cbv beta iota zeta delta [syscall code fd locked listener set_procs set_lock set_text release terminate w_pid w_sock w_next w_text w_lock w_procs
    w_newpid w_ended w_torn start start_locked is_running acquire_pidfile negb andb orb serving remove_file serve run_foreground run_daemonized double_fork grand_child stop cleanup].
(** The next call of the process that runs. *)
Ltac call := erewrite alone_call by (cbn [w_procs]; apply lookup_insert_eq); reduce; look; reduce.

(** The world with a daemon up: process [q] holds file [i] and listens on [l]. *)
Definition up (sb : bool) (q i l : nat) (next : nat) (text : gmap nat (option nat)) (newpid : nat) (ended : list (nat * result unit Error)) : World :=
  mk_world (Some i) (Some l) next text (<[i := q]> ∅)
    (<[q := mk_proc (serve sb (fun ok => remove_file (sb && ok) Sock (remove_file (sb && ok) Pid (Return (Ok ()))))) (Some i) true (Some l)]> ∅) newpid ended false.

Lemma start_runs sb pid sock next text newpid :
  let i := default next pid in
  let l := match pid with Some _ => next | None => S next end in
  alone (step (idle pid sock next text newpid) (Command (start false sb))) newpid 12 =
  mk_world (Some i) (Some l) (S l) (<[i := Some newpid]> text) ∅ (<[S newpid := mk_proc (Fork (grand_child sb) (Return (Ok ()))) None false (Some l)]> ∅) (S (S newpid))
    [(newpid, Ok ())] false.
Proof.
  intros i l. unfold step, idle. cbn [w_newpid w_pid w_sock w_next w_text w_lock w_procs w_ended w_torn].
  destruct pid as [j|]; unfold i, l; cbn [default from_option id].
  - do 12 call. cbn [alone]. rewrite gone_first by lia. done.
  - do 10 call. rewrite alone_gone by (cbn [w_procs]; apply lookup_delete_eq). rewrite gone_first by lia. done.
Qed.

Lemma child_forks sb q i l next text newpid ended : q <> newpid ->
  alone (mk_world (Some i) (Some l) next text ∅ (<[q := mk_proc (Fork (grand_child sb) (Return (Ok ()))) None false (Some l)]> ∅) newpid ended false) q 2 =
  mk_world (Some i) (Some l) next text ∅ (<[newpid := mk_proc (grand_child sb) None false (Some l)]> ∅) (S newpid) (ended ++ [(q, Ok ())]) false.
Proof. intros Hne. do 2 call. cbn [alone]. by rewrite gone_first. Qed.

Lemma child_serves sb q i l next text newpid ended :
  alone (mk_world (Some i) (Some l) next text ∅ (<[q := mk_proc (grand_child sb) None false (Some l)]> ∅) newpid ended false) q 4 =
  up sb q i l next (<[i := Some q]> text) newpid ended.
Proof. unfold grand_child, up. do 4 call. done. Qed.

Lemma start_refused fg sb' sb q i l next text newpid ended : q <> newpid ->
  alone (step (up sb q i l next text newpid ended) (Command (start fg sb'))) newpid 7 =
  up sb q i l next text (S newpid) (ended ++ [(newpid, Err SlotState)]).
Proof.
  intros Hne. unfold step, up. cbn [w_newpid w_pid w_sock w_next w_text w_lock w_procs w_ended w_torn].
  do 7 call. cbn [alone]. rewrite gone_second by done. done.
Qed.

(** The world with a daemon up and another process beside it. *)
Definition beside (c : prog) (n : nat) (w : World) : World := set_procs w (insert n (mk_proc c None false None)).

Lemma stop_signals polls sb q i l next text newpid ended : q <> newpid -> text !! i = Some (Some q) ->
  alone (step (up sb q i l next text newpid ended) (Command (stop polls))) newpid 5 =
  beside (await polls (is_running (fun r => if r then Kill SIGKILL q cleanup else cleanup))) newpid (up sb q i l next text (S newpid) ended).
Proof.
  intros Hne Ht. unfold step, up, beside, set_procs. cbn [w_newpid w_pid w_sock w_next w_text w_lock w_procs w_ended w_torn].
  do 4 call. rewrite Ht. call. rewrite lookup_insert_ne, lookup_insert_eq by done. cbv iota. look. done.
Qed.

(** A poll of a lock that is held changes nothing. *)
Lemma poll_held k n sb q i l next text newpid ended m : q <> n ->
  alone (beside (is_running k) n (up sb q i l next text newpid ended)) n (3 + m) = alone (beside (k true) n (up sb q i l next text newpid ended)) n m.
Proof.
  intros Hne. unfold up, beside, set_procs. cbn [w_newpid w_pid w_sock w_next w_text w_lock w_procs w_ended w_torn].
  change (3 + m)%nat with (S (S (S m))). do 3 call. done.
Qed.

Lemma await_held polls k n sb q i l next text newpid ended m : q <> n ->
  alone (beside (await polls k) n (up sb q i l next text newpid ended)) n (3 * polls + m) = alone (beside k n (up sb q i l next text newpid ended)) n m.
Proof.
  intros Hne. induction polls as [|polls IH]; [done|]. replace (3 * S polls + m)%nat with (3 + (3 * polls + m))%nat by lia.
  cbn [await]. by rewrite poll_held.
Qed.

Lemma relied_on_none w p i : (forall q qr, w_procs w !! q = Some qr -> q <> p -> fd qr <> Some i) -> relied_on w p i = false.
Proof.
  intros Hn. unfold relied_on. apply not_true_is_false. rewrite existsb_exists. intros ([q qr] & Hin & He).
  apply list_elem_of_In, elem_of_map_to_list in Hin. cbn in He. rewrite !andb_true_iff in He. destruct He as [[Hq Hf] _].
  apply bool_decide_eq_true in Hf. apply (Hn q qr Hin); [|done]. intros ->. by rewrite Nat.eqb_refl in Hq.
Qed.

Lemma killed (n q : nat) (a b c : Proc) : q <> n -> <[n := a]> (delete q (<[n := b]> (<[q := c]> ∅))) = <[n := a]> (∅ : gmap nat Proc).
Proof. intros Hne. apply map_eq. intros j. rewrite !lookup_insert, lookup_delete, !lookup_insert, lookup_empty. repeat case_decide; congruence. Qed.

(** What [cleanup] leaves when nobody else is there. *)
Lemma cleans n pid sock next text newpid ended :
  alone (mk_world pid sock next text ∅ (<[n := mk_proc cleanup None false None]> ∅) newpid ended false) n 4 =
  mk_world None None next text ∅ ∅ newpid (ended ++ [(n, Ok ())]) false.
Proof.
  unfold cleanup. call. erewrite alone_call by (cbn [w_procs]; apply lookup_insert_eq). reduce. look.
  assert (forall w i, w_procs w = <[n := mk_proc (Unlink Pid (Unlink Tile (Return (Ok ())))) None false None]> ∅ -> relied_on w n i = false) as Hr.
  { intros w i E. apply relied_on_none. intros q qr. rewrite E. intros [[<- <-]|[_ Hq]]%lookup_insert_Some; [done|]. by rewrite lookup_empty in Hq. }
  replace (match pid with Some i => _ | None => false end) with false by (destruct pid; [by rewrite Hr|done]).
  do 2 call. cbn [alone]. by rewrite gone_one.
Qed.

Lemma kills_last sb q i l next text newpid n ended : q <> n ->
  alone (beside (Kill SIGKILL q cleanup) n (up sb q i l next text newpid ended)) n 5 =
  mk_world None None next text ∅ ∅ newpid (ended ++ [(n, Ok ())]) false.
Proof.
  intros Hne. unfold up, beside, set_procs. cbn [w_newpid w_pid w_sock w_next w_text w_lock w_procs w_ended w_torn].
  erewrite alone_call by (cbn [w_procs]; apply lookup_insert_eq). reduce. rewrite lookup_insert_ne, lookup_insert_eq by done. reduce. look.
  rewrite lookup_delete_ne, lookup_insert_eq by done. cbv iota. rewrite killed by done.
  rewrite <- (cleans n (Some i) (Some l) next text newpid ended). done.
Qed.

(** The daemon's own end, beside a process that has the file closed: under the
    sandbox the names stay. *)
Lemma daemon_leaves c sb q i l next text newpid n ended : q <> n ->
  alone (beside c n (up sb q i l next text newpid ended)) q 5 =
  mk_world (if sb then Some i else None) (if sb then Some l else None) next text ∅ (<[n := mk_proc c None false None]> ∅) newpid
    (ended ++ [(q, Ok ())]) false.
Proof.
  intros Hne. unfold up, beside, set_procs. cbn [w_newpid w_pid w_sock w_next w_text w_lock w_procs w_ended w_torn].
  erewrite alone_call by (cbn [w_procs]; rewrite lookup_insert_ne by done; apply lookup_insert_eq). destruct sb; reduce; look.
  { call. rewrite alone_gone by (cbn [w_procs]; apply lookup_delete_eq). by rewrite gone_first. }
  do 2 call. erewrite alone_call by (cbn [w_procs]; apply lookup_insert_eq). reduce. look.
  rewrite relied_on_none.
  2:{ cbn [w_procs]. intros r rr [[<- <-]|[_ [[<- <-]|[_ [[<- <-]|[_ Hr]]%lookup_insert_Some]]%lookup_insert_Some]]%lookup_insert_Some Hrq; done. }
  call. cbn [alone]. by rewrite gone_first.
Qed.

(** A probe of a lock that nobody holds, when no other process is there. *)
Lemma poll_free k n i sock next text newpid ended m :
  alone (mk_world (Some i) sock next text ∅ (<[n := mk_proc (is_running k) None false None]> ∅) newpid ended false) n (3 + m) =
  alone (mk_world (Some i) sock next text ∅ (<[n := mk_proc (k false) None false None]> ∅) newpid ended false) n m.
Proof. change (3 + m)%nat with (S (S (S m))). do 3 call. done. Qed.

(** A probe where no name is left. *)
Lemma poll_gone k n sock next text ps newpid ended torn m :
  alone (mk_world None sock next text ∅ (<[n := mk_proc (is_running k) None false None]> ps) newpid ended torn) n (S m) =
  alone (mk_world None sock next text ∅ (<[n := mk_proc (k false) None false None]> ps) newpid ended torn) n m.
Proof. call. done. Qed.

(** Commands given one after the other do what they say, whatever a crash left
    in the runtime directory.  A start clears the leftovers, returns success, and
    its grand-child comes up: it alone runs, holds the file the name leads to,
    which says its process number, and listens on the socket the name leads to.
    A second start is then refused and changes nothing.  A stop returns success
    with no process, no lock, no pid file and no socket left, both when the daemon
    answers the signal before the first poll and when it never does. *)
Theorem commands_in_turn pid sock next text newpid polls sb fg sb' :
  let i := default next pid in
  let l := match pid with Some _ => next | None => S next end in
  let p := newpid in let c := S p in let q := S c in let r := S q in
  let w := alone (alone (alone (step (idle pid sock next text newpid) (Command (start false sb))) p 12) c 2) q 4 in
  let text' := <[i := Some q]> (<[i := Some p]> text) in
  w = up sb q i l (S l) text' r [(p, Ok ()); (c, Ok ())] /\
  alone (step w (Command (start fg sb'))) r 7 = up sb q i l (S l) text' (S r) [(p, Ok ()); (c, Ok ()); (r, Err SlotState)] /\
  alone (alone (alone (step w (Command (stop (S polls)))) r 5) q 5) r 10 =
    mk_world None None (S l) text' ∅ ∅ (S r) [(p, Ok ()); (c, Ok ()); (q, Ok ()); (r, Ok ())] false /\
  alone (alone (step w (Command (stop polls))) r 5) r (3 * polls + 8) =
    mk_world None None (S l) text' ∅ ∅ (S r) [(p, Ok ()); (c, Ok ()); (r, Ok ())] false.
Proof.
  intros i l p c q r w text'. assert (w = up sb q i l (S l) text' r [(p, Ok ()); (c, Ok ())]) as Hw by (unfold w, p; rewrite start_runs, child_forks by lia; apply child_serves).
  assert (q <> r) as Hqr by (unfold q, r; lia). assert (text' !! i = Some (Some q)) as Ht by apply lookup_insert_eq.
  rewrite Hw. split; [done|]. split; [by rewrite start_refused|]. split; rewrite stop_signals by done.
  - rewrite daemon_leaves by done. cbn [await]. destruct sb.
    + change 10%nat with (3 + (3 + 4))%nat. rewrite poll_free. cbv iota. rewrite poll_free. cbv iota. by rewrite cleans.
    + rewrite poll_gone. cbv iota. rewrite poll_gone. cbv iota. change 8%nat with (4 + 4)%nat. rewrite alone_add, cleans. by apply alone_gone.
  - rewrite await_held by done. change 8%nat with (3 + 5)%nat. rewrite poll_held by done. by rewrite kills_last.
Qed.

(** ** Where the exclusion ends *)

Definition servers (w : World) : list nat := List.map fst (List.filter (fun e : nat * Proc => serving e.2) (map_to_list (w_procs w))).
Definition calls (p n : nat) : list event := replicate n (Run p true).

(** A stop that saw no daemon unlinks the pid file although one has come up in
    the meantime; the next start then makes a new one and both daemons serve. *)
Theorem stop_splits_daemons :
  exists es, Forall (fun e => match e with Command c => command c | _ => True end) es /\
    let w := run (idle None None 0 ∅ 0) es in
    servers w = [6; 2]%nat /\ Forall (fun e => e.2 = Ok ()) (w_ended w) /\ w_torn w = true.
Proof.
  exists ([Command (start false true)] ++ calls 0 10 ++ calls 1 2 ++ [Command (stop 50)] ++ calls 3 4 ++ calls 2 4 ++ calls 3 3 ++
    [Command (start false true)] ++ calls 4 12 ++ calls 5 2 ++ calls 6 4).
  split; [repeat (constructor; [done || constructor|]); by constructor|]. vm_compute. split; [done|]. split; [repeat constructor|done].
Qed.

(** Start returns before its grand-child has the lock.  A second start in that
    time takes the socket's name away; both report success, and the daemon that
    comes up listens where no name leads. *)
Theorem second_start_orphans :
  exists es, Forall (fun e => match e with Command c => command c | _ => True end) es /\
    let w := run (idle None None 0 ∅ 0) es in
    servers w = [2]%nat /\ w_ended w = [(0%nat, Ok ()); (1%nat, Ok ()); (3%nat, Ok ()); (4%nat, Ok ()); (5%nat, Err Io)] /\
    (let! pr := w_procs w !! 2%nat in listener pr) = Some 1%nat /\ w_sock w = Some 2%nat.
Proof.
  exists ([Command (start false true)] ++ calls 0 10 ++ calls 1 2 ++ [Command (start false true)] ++ calls 3 12 ++ calls 4 2 ++ calls 2 4 ++ calls 5 4).
  split; [repeat (constructor; [done || constructor|]); by constructor|]. vm_compute. done.
Qed.

(** A probe holds the lock for a moment; the grand-child that tries it then gives
    up, after its start has reported success. *)
Theorem probe_stops_daemon :
  exists es, Forall (fun e => match e with Command c => command c | _ => True end) es /\
    let w := run (idle None None 0 ∅ 0) es in
    w_procs w = ∅ /\ w_ended w = [(0%nat, Ok ()); (1%nat, Ok ()); (2%nat, Err Io); (3%nat, Ok ())].
Proof.
  exists ([Command (start false true)] ++ calls 0 10 ++ calls 1 2 ++ [Command probe] ++ calls 3 2 ++ calls 2 4 ++ calls 3 2).
  split; [repeat (constructor; [done || constructor|]); by constructor|]. vm_compute. done.
Qed.

(** The daemon's own clean exit takes its names away only without the sandbox. *)
Theorem sandboxed_exit_leaves_names sb q i l next text newpid ended :
  alone (up sb q i l next text newpid ended) q 5 =
  mk_world (if sb then Some i else None) (if sb then Some l else None) next text ∅ ∅ newpid (ended ++ [(q, Ok ())]) false.
Proof.
  unfold up. call. destruct sb; reduce.
  { call. rewrite alone_gone by (cbn [w_procs]; apply lookup_delete_eq). by rewrite gone_one. }
  do 2 call. erewrite alone_call by (cbn [w_procs]; apply lookup_insert_eq). reduce. look. rewrite relied_on_none.
  2:{ cbn [w_procs]. intros r rr [[<- <-]|[_ Hr]]%lookup_insert_Some Hrq; done. }
  call. cbn [alone]. by rewrite gone_one.
Qed.

(** ** Witness *)

Lemma one_daemon_witness :
  let w := run (idle None None 0 ∅ 0) ([Command (start false true)] ++ calls 0 10 ++ calls 1 2 ++ calls 2 4) in
  w_pid w = Some 0%nat /\ forall q qr, w_procs w !! q = Some qr -> serving qr = true -> q = 2%nat.
Proof.
  intros w. assert (reachable w) as Hr.
  { unfold w, run. cbn -[start step]. repeat first [apply reach_run | apply reach_command; [|apply cmd_start] | apply reach_idle]. }
  destruct (w_procs w !! 2%nat) as [pr|] eqn:Hp; [|vm_compute in Hp; discriminate Hp].
  assert (serving pr = true) as Hs by (vm_compute in Hp; injection Hp as <-; reflexivity).
  destruct (one_daemon w 2 pr Hr Hp Hs) as (i & Hf & _ & _ & Hone). destruct Hone as [Hpid Hq]; [vm_compute; reflexivity|]. split; [|exact Hq].
  vm_compute. reflexivity.
Defined.

(** ** Names and times *)

(** Cards do not share a runtime directory. *)
Lemma runtime_dir_inj xdg uid c1 c2 : 0 <= c1 -> 0 <= c2 -> runtime_dir xdg uid c1 = runtime_dir xdg uid c2 -> c1 = c2.
Proof.
  intros H1 H2. unfold runtime_dir, join. intros E. apply app_inv_head in E. injection E as E. by apply show_dec_inj in E.
Qed.

(** [log::format_offset]: the zone as [Z], [+hh:mm] or [-hh:mm]. *)
Definition format_offset (gmtoff_secs : Z) : list Z :=
  if gmtoff_secs =? 0 then chars "Z"
  else
    let (sign, a) := if gmtoff_secs <? 0 then (45, - gmtoff_secs) else (43, gmtoff_secs) in
    [sign] ++ show_dec2 (a / 3600) ++ [58] ++ show_dec2 (a mod 3600 / 60).

Lemma parse_dec2 n : 0 <= n < 100 -> parse_uint 255 (show_dec2 n) = Some n /\ Forall (fun c => c <> 58) (show_dec2 n).
Proof.
  intros Hn.
  assert (forallb (fun n => bool_decide (parse_uint 255 (show_dec2 n) = Some n) && forallb (fun c => negb (c =? 58)) (show_dec2 n)) (seqZ 0 100) = true) as Hall
    by (vm_compute; reflexivity).
  rewrite forallb_forall in Hall. specialize (Hall n). rewrite andb_true_iff in Hall. destruct Hall as [H1 H2].
  { apply list_elem_of_In, elem_of_seqZ. lia. }
  split; [by apply bool_decide_eq_true in H1|]. apply Forall_forall. intros c Hc ->.
  rewrite forallb_forall in H2. by specialize (H2 58 ltac:(by apply list_elem_of_In)).
Qed.

(** The zone text says which whole-minute offset it is. *)
Lemma format_offset_inj a b : Z.abs a < 360000 -> Z.abs b < 360000 -> a mod 60 = 0 -> b mod 60 = 0 ->
  format_offset a = format_offset b -> a = b.
Proof.
  assert (forall o, Z.abs o < 360000 -> o mod 60 = 0 -> o <> 0 ->
    exists h m, format_offset o = [if o <? 0 then 45 else 43] ++ show_dec2 h ++ [58] ++ show_dec2 m /\
      0 <= h < 100 /\ 0 <= m < 100 /\ Z.abs o = 3600 * h + 60 * m) as Hf.
  { intros o Ho Hm Hz. exists (Z.abs o / 3600), (Z.abs o mod 3600 / 60). unfold format_offset.
    destruct (Z.eqb_spec o 0); [done|].
    assert (Z.abs o mod 60 = 0) as Hm' by (destruct (Z.abs_eq_or_opp o) as [->| ->]; [done|by apply Z.mod_opp_l_z]).
    assert (Z.abs o = 3600 * (Z.abs o / 3600) + 60 * (Z.abs o mod 3600 / 60)) as E
      by (Z.to_euclidean_division_equations; lia).
    split_and!; try (Z.to_euclidean_division_equations; lia). destruct (Z.ltb_spec o 0); [by rewrite Z.abs_neq by lia|by rewrite Z.abs_eq by lia]. }
  intros Ha Hb Hma Hmb E. destruct (Z.eq_dec a 0) as [->|Hza], (Z.eq_dec b 0) as [->|Hzb]; [done| | |].
  - destruct (Hf b Hb Hmb Hzb) as (h & m & Eb & _). rewrite Eb in E. cbn in E. by destruct (b <? 0).
  - destruct (Hf a Ha Hma Hza) as (h & m & Ea & _). rewrite Ea in E. cbn in E. by destruct (a <? 0).
  - destruct (Hf a Ha Hma Hza) as (h & m & Ea & Hh & Hm & Ha'), (Hf b Hb Hmb Hzb) as (h' & m' & Eb & Hh' & Hm' & Hb').
    rewrite Ea, Eb in E. cbn [app] in E. injection E as Es E.
    destruct (parse_dec2 h Hh) as [Ph Nh], (parse_dec2 h' Hh') as [Ph' Nh'], (parse_dec2 m Hm) as [Pm _], (parse_dec2 m' Hm') as [Pm' _].
    pose proof (split_once_char 58 _ (show_dec2 m) Nh) as S1. pose proof (split_once_char 58 _ (show_dec2 m') Nh') as S2.
    cbn [app] in S1, S2. rewrite E, S2 in S1. injection S1 as S1 S3. rewrite S1 in Ph'. rewrite S3 in Pm'.
    destruct (Z.ltb_spec a 0), (Z.ltb_spec b 0); simplify_eq; lia.
Qed.
