(* ===== verification/Sandbox.v ===== *)
(** The sandbox of [src/daemon/sandbox.rs]: the landlock rules and the seccomp list
    the daemon puts on itself before its accept loop.

    Landlock and seccomp are the kernel's and two crates': the class [Confiner]
    says which rules can be made, which access a set of rules grants and what
    a filter answers, and the theorems take their documented behaviour as
    hypotheses.  System call numbers are those of x86-64. *)

From S2P Require Import Prelude Text Parse Disk CloudInit Lifetime.

(** ** Rights *)

Inductive AccessFs :=
| Execute | WriteFile | ReadFile | ReadDir | RemoveDir | RemoveFile | MakeChar | MakeDir | MakeReg | MakeSock | MakeFifo | MakeBlock
| MakeSym | Refer | Truncate.

#[global] Instance AccessFs_eq_dec : EqDecision AccessFs.
Proof. solve_decision. Defined.

(** A path and what is allowed beneath it. *)
Definition Rule : Type := path * list AccessFs.

Inductive RulesetStatus := FullyEnforced | PartiallyEnforced | NotEnforced.
Inductive SeccompAction := Allow | Errno (n : Z).

(** [ruleset_ok]: the rule set could be made; [opens]: [PathFd::new]; [add_ok]:
    [add_rule]; [restrict]: [restrict_self]; [restricts]: the rights that this
    kernel's landlock knows, all those asked for only when it enforces in full;
    [grants]: what it lets a process under these rules do; [verdict]: what the filter that allows these
    calls and refuses all others answers; [filter_ok]: it could be installed. *)
Class Confiner := {
  ruleset_ok : bool;
  opens : path -> bool;
  add_ok : Rule -> bool;
  restrict : option RulesetStatus;
  restricts : AccessFs -> bool;
  grants : list Rule -> path -> AccessFs -> bool;
  verdict : list Z -> Z -> SeccompAction;
  filter_ok : bool;
}.

(** What the rules are made from. *)
Record Site := mk_site {
  si_exists : path -> bool; si_env : Env; si_xdg_runtime : option (list Z); si_uid : Z; si_operator_cwd : option path }.

(** ** Landlock rules *)

Definition read_only : list AccessFs := [ReadFile; ReadDir].

(** Up to the nearest directory that exists; [fuel] bounds the components. *)
Fixpoint climb (exists_ : path -> bool) (fuel : nat) (p : path) : path :=
  match fuel with
  | O => p
  | S fuel =>
      if exists_ p then p
      else match parent p with
           | Some (c :: up) => climb exists_ fuel (c :: up)
           | _ => p
           end
  end.

Definition log_rule (s : Site) (log_path : path) : list Rule :=
  match parent log_path with
  | Some dir =>
      let p := climb (si_exists s) (length dir) dir in
      if si_exists s p then [(p, [ReadFile; WriteFile; MakeReg; ReadDir])] else []
  | None => []
  end.

Definition data_rule (s : Site) (subdir : list Z) (access : list AccessFs) : list Rule :=
  match data_home (si_env s) with
  | Ok h => [(join (join h (chars "bhx")) subdir, access)]
  | Err _ => []
  end.

Definition cwd_rule (s : Site) : list Rule :=
  match si_operator_cwd s with
  | Some cwd => if si_exists s cwd then [(cwd, [ReadFile; WriteFile; ReadDir])] else []
  | None => []
  end.

Definition system_paths : list path :=
  [chars "/etc"; chars "/usr"; chars "/lib"; chars "/lib64"; chars "/proc/self"; chars "/tmp"; chars "/sys/bus/pci"; chars "/sys/devices"].

Definition device_path (card : Z) : path := chars "/dev/tenstorrent/" ++ show_dec card.

Definition allow (s : Site) (card : Z) (log_path : path) : list Rule :=
  [(device_path card, [ReadFile; WriteFile]);
   (chars "/dev/urandom", [ReadFile]);
   (runtime_dir (si_xdg_runtime s) (si_uid s) card, [ReadFile; WriteFile; ReadDir; RemoveFile; MakeReg; MakeDir])]
  ++ log_rule s log_path
  ++ data_rule s (chars "images") [ReadFile; WriteFile; ReadDir]
  ++ data_rule s (chars "firmware") [ReadFile; ReadDir]
  ++ data_rule s (chars "instances") [ReadFile; WriteFile; ReadDir; MakeReg; MakeDir]
  ++ cwd_rule s
  ++ List.map (fun p => (p, read_only)) (List.filter (si_exists s) system_paths).

(** ** System calls *)

Definition allowed : list Z := [
  (* read write pread64 pwrite64 close fcntl lseek fstat newfstatat statx flock ftruncate pipe2 socketpair openat getcwd access faccessat
     readlink readlinkat getdents64 *)
  0; 1; 17; 18; 3; 72; 8; 5; 262; 332; 73; 77; 293; 53; 257; 79; 21; 269; 89; 267; 217;
  (* mmap munmap mprotect mremap madvise brk *)
  9; 11; 10; 25; 28; 12;
  (* clone3 futex set_robust_list rseq getpid gettid tgkill exit exit_group sched_getaffinity sched_yield getrandom *)
  435; 202; 273; 334; 39; 186; 234; 60; 231; 204; 24; 318;
  (* clock_gettime clock_nanosleep nanosleep pselect6 poll ppoll epoll_pwait epoll_wait epoll_create1 epoll_ctl *)
  228; 230; 35; 270; 7; 271; 281; 232; 291; 233;
  (* socket bind listen accept accept4 getsockname getsockopt setsockopt recvfrom recvmsg sendto sendmsg shutdown connect *)
  41; 49; 50; 43; 288; 51; 55; 54; 45; 47; 44; 46; 48; 42;
  (* ioctl rt_sigaction rt_sigprocmask rt_sigreturn sigaltstack prctl *)
  16; 13; 14; 15; 131; 157].

Definition EPERM : Z := 1.

(** ** Putting it on *)

(** What is on: the landlock rules, the call filter, and the status gauge. *)
Record Confined := mk_confined { landlock_on : option (list Rule); seccomp_on : bool; sandbox_status : option Z }.

Definition unconfined : Confined := mk_confined None false None.

Section apply.
  Context `{Confiner}.

(** The rules that are added: those whose path opens. *)
Fixpoint add_rules (rules : list Rule) : result (list Rule) Error :=
  match rules with
  | [] => Ok []
  | r :: rules =>
      if opens r.1 then
        if add_ok r then let? rs := add_rules rules in Ok (r :: rs) else Err Internal
      else add_rules rules
  end.

Definition apply_landlock (s : Site) (card : Z) (log_path : path) (c : Confined) : Confined * result unit Error :=
  if negb ruleset_ok then (c, Err Internal)
  else
    match add_rules (allow s card log_path) with
    | Err e => (c, Err e)
    | Ok rules =>
        match restrict with
        | None => (c, Err Internal)
        | Some FullyEnforced => (mk_confined (Some rules) (seccomp_on c) (Some 2), Ok ())
        | Some PartiallyEnforced => (mk_confined (Some rules) (seccomp_on c) (Some 1), Ok ())
        | Some NotEnforced => (c, Err Internal)
        end
    end.

Definition apply_seccomp (c : Confined) : Confined * result unit Error :=
  if filter_ok then (mk_confined (landlock_on c) true (sandbox_status c), Ok ()) else (c, Err Internal).

Definition sandbox_apply (s : Site) (card : Z) (log_path : path) : Confined * result unit Error :=
  match apply_landlock s card log_path unconfined with
  | (c, Ok _) => apply_seccomp c
  | (c, Err e) => (c, Err e)
  end.

End apply.

(** ** Climbing ends at a directory that is there, or at the top *)

Lemma drop_slashes_length s : (length (drop_slashes s) <= length s)%nat.
Proof. induction s as [|c s IH]; cbn; [lia|]. destruct (c =? 47); cbn; lia. Qed.
Lemma no_trailing_length s : (length (no_trailing s) <= length s)%nat.
Proof. unfold no_trailing. rewrite length_rev. pose proof (drop_slashes_length (rev s)). rewrite length_rev in H. lia. Qed.

Lemma split_once_shorter d s a b : split_once [d] s = Some (a, b) -> (length a + length b < length s)%nat.
Proof.
  revert a b. induction s as [|c s IH]; intros a b; cbn [split_once strip_prefix]; [done|].
  destruct (d =? c); [intros [= <- <-]; cbn; lia|].
  destruct (split_once [d] s) as [[a' b']|]; [|done]. intros [= <- <-]. specialize (IH a' b' eq_refl). cbn. lia.
Qed.

Lemma drop_slashes_head s : match drop_slashes s with c :: _ => c <> 47 | [] => True end.
Proof. induction s as [|c s IH]; cbn; [done|]. destruct (Z.eqb_spec c 47); done. Qed.

Lemma parent_shorter p c up : parent p = Some (c :: up) -> (length (c :: up) < length p)%nat.
Proof.
  unfold parent. pose proof (no_trailing_length p) as Hp. destruct (no_trailing p) as [|x q] eqn:E; [done|].
  assert (rev (x :: q) = drop_slashes (rev p)) as Er by (rewrite <- E; unfold no_trailing; by rewrite rev_involutive).
  unfold rsplit_once. destruct (split_once (rev [47]) (rev (x :: q))) as [[a b]|] eqn:Es; [|done].
  cbn [rev app] in Es. change (rev q ++ [x]) with (rev (x :: q)) in Es. rewrite Er in Es.
  assert (a <> []) as Ha.
  { intros ->. pose proof (drop_slashes_head (rev p)) as Hh. destruct (drop_slashes (rev p)) as [|y z]; [done|].
    cbn [split_once strip_prefix] in Es. destruct (Z.eqb_spec 47 y); [congruence|]. by destruct (split_once [47] z) as [[? ?]|]. }
  apply split_once_shorter in Es. rewrite <- Er, length_rev in Es. intros [= E2]. destruct a as [|a0 a]; [done|]. cbn [length] in *.
  pose proof (no_trailing_length (rev b)) as Hn. rewrite length_rev in Hn. destruct (no_trailing (rev b)) as [|y z] eqn:Ey.
  - injection E2 as <- <-. cbn [length]. lia.
  - assert (length (y :: z) = length (c :: up)) as El by by rewrite E2. cbn [length] in *. lia.
Qed.

(** The fuel is enough: the climb ends where the loop does. *)
Lemma climb_ends ex fuel p : (length p <= fuel)%nat ->
  ex (climb ex fuel p) = true \/ forall c up, parent (climb ex fuel p) <> Some (c :: up).
Proof.
  revert p. induction fuel as [|fuel IH]; intros p Hp; cbn [climb].
  - right. intros c up E. apply parent_shorter in E. cbn in E. lia.
  - destruct (ex p) eqn:Ee; [by left|]. destruct (parent p) as [[|c up]|] eqn:E; [right; congruence| |right; congruence].
    apply IH. apply parent_shorter in E. cbn in *. lia.
Qed.

(** ** What a sandboxed daemon can do *)

(** [p] is [q] or lies beneath it. *)
Definition beneath (q p : path) : bool := bool_decide (p = q) || starts_with (no_trailing q ++ [47]) p.

(** The documented behaviour of the kernel and of the two crates: a right that
    the kernel does not know is not restricted, any other is granted by the
    rules alone. *)
Class ConfinerLaws `{Confiner} : Prop := {
  grants_spec : forall rules p a, grants rules p a = true <-> restricts a = false \/ Exists (fun r => beneath r.1 p = true /\ a ∈ r.2) rules;
  full_spec : restrict = Some FullyEnforced -> forall a, restricts a = true;
  verdict_spec : forall calls n, verdict calls n = if existsb (Z.eqb n) calls then Allow else Errno EPERM }.

Section confined.
  Context `{ConfinerLaws}.

Lemma add_rules_incl rules rs : add_rules rules = Ok rs -> rs ⊆ rules.
Proof.
  revert rs. induction rules as [|r rules IH]; intros rs; cbn [add_rules]; [by intros [= <-]|].
  destruct (opens r.1); [destruct (add_ok r); [|done]|].
  - destruct (add_rules rules) as [rs'|]; [|done]. intros [= <-]. specialize (IH rs' eq_refl). set_solver.
  - intros E. specialize (IH rs E). set_solver.
Qed.

Lemma apply_ok s card log c : sandbox_apply s card log = (c, Ok ()) ->
  exists rules v, add_rules (allow s card log) = Ok rules /\ c = mk_confined (Some rules) true (Some v) /\
    (v = 2 /\ restrict = Some FullyEnforced \/ v = 1 /\ restrict = Some PartiallyEnforced).
Proof.
  unfold sandbox_apply, apply_landlock. destruct ruleset_ok; [cbn [negb]|done].
  destruct (add_rules (allow s card log)) as [rules|]; [|done].
  destruct restrict as [[]|]; try done; unfold apply_seccomp; destruct filter_ok; try done; intros [= <-]; eauto 10.
Qed.

(** Where the daemon may change something, and where it may only look. *)
Definition writable (s : Site) (card : Z) (log : path) : list path :=
  [device_path card; runtime_dir (si_xdg_runtime s) (si_uid s) card] ++ List.map fst (log_rule s log) ++
  List.map fst (data_rule s (chars "images") []) ++ List.map fst (data_rule s (chars "instances") []) ++ List.map fst (cwd_rule s).
Definition readable (s : Site) : list path :=
  [chars "/dev/urandom"] ++ List.map fst (data_rule s (chars "firmware") []) ++ system_paths.

Ltac only_rule H := apply list_elem_of_singleton in H as [= -> ->]; set_solver.

(** Each rule, by what it is for. *)
Lemma allow_cases s card log q rights : (q, rights) ∈ allow s card log ->
  (rights ⊆ [ReadFile; ReadDir] /\ q ∈ readable s) \/
  (rights ⊆ [ReadFile; WriteFile; ReadDir; RemoveFile; MakeReg; MakeDir] /\ q ∈ writable s card log /\
   (RemoveFile ∈ rights -> q = runtime_dir (si_xdg_runtime s) (si_uid s) card) /\
   (MakeDir ∈ rights -> q = runtime_dir (si_xdg_runtime s) (si_uid s) card \/ q ∈ List.map fst (data_rule s (chars "instances") []))).
Proof.
  unfold allow, writable, readable, log_rule, data_rule, cwd_rule. rewrite !elem_of_app.
  intros [Hq|[Hq|[Hq|[Hq|[Hq|[Hq|Hq]]]]]].
  - apply elem_of_cons in Hq as [[= -> ->]|Hq]; [right; set_solver|].
    apply elem_of_cons in Hq as [[= -> ->]|Hq]; [left; set_solver|].
    apply list_elem_of_singleton in Hq as [= -> ->]. right. set_solver.
  - right. destruct (parent log) as [dir|]; [|by apply elem_of_nil in Hq].
    destruct (si_exists s (climb (si_exists s) (length dir) dir)); [|by apply elem_of_nil in Hq]. only_rule Hq.
  - right. destruct (data_home (si_env s)) as [h|]; [|by apply elem_of_nil in Hq]. only_rule Hq.
  - left. destruct (data_home (si_env s)) as [h|]; [|by apply elem_of_nil in Hq]. only_rule Hq.
  - right. destruct (data_home (si_env s)) as [h|]; [|by apply elem_of_nil in Hq]. only_rule Hq.
  - right. destruct (si_operator_cwd s) as [cwd|]; [|by apply elem_of_nil in Hq]. destruct (si_exists s cwd); [|by apply elem_of_nil in Hq]. only_rule Hq.
  - left. apply list_elem_of_In, in_map_iff in Hq as (p & [= <- <-] & Hp). apply filter_In in Hp as [Hp _]. apply list_elem_of_In in Hp.
    unfold read_only. set_solver.
Qed.

(** Calls that would start a program or another process, look into one, or change
    names: execve fork vfork clone ptrace bpf mount kill unlink unlinkat rename mkdir open creat. *)
Definition refused_calls : list Z := [59; 57; 58; 56; 101; 321; 165; 62; 87; 263; 82; 83; 2; 85].


(** ** Where the comments say otherwise *)

(** The calls are not looked into: outgoing connections, [clone3] with any flags
    and [prctl] are all allowed. *)
Theorem sandbox_lets_out : Forall (fun n => verdict allowed n = Allow) [42; 435; 157].
Proof. repeat (constructor; [by rewrite verdict_spec|]). constructor. Qed.

(** A log file straight in the home directory opens all of it. *)
Theorem log_in_home_opens_home s card home file p rules :
  parent (join home file) = Some home -> si_exists s home = true -> opens home = true -> beneath home p = true ->
  add_rules (allow s card (join home file)) = Ok rules -> grants rules p ReadFile = true /\ grants rules p WriteFile = true.
Proof.
  intros Hpar Hex Ho Hb Hr. assert ((home, [ReadFile; WriteFile; MakeReg; ReadDir]) ∈ allow s card (join home file)) as Hin.
  { assert (climb (si_exists s) (length home) home = home) as Hc by (destruct home; [done|]; cbn [length climb]; by rewrite Hex).
    unfold allow. rewrite !elem_of_app. right. left. unfold log_rule. rewrite Hpar, Hc, Hex. by apply list_elem_of_singleton. }
  assert (forall rules rs r, add_rules rules = Ok rs -> r ∈ rules -> opens r.1 = true -> r ∈ rs) as Hadd.
  { intros rl. induction rl as [|r' rl IH]; intros rs r; cbn [add_rules]; [by intros _ ?%elem_of_nil|].
    destruct (opens r'.1) eqn:Eo; [destruct (add_ok r'); [|done]|].
    - destruct (add_rules rl) as [rs'|] eqn:Er; [|done]. intros [= <-] [->|Hr']%elem_of_cons Hro; [set_solver|].
      apply elem_of_cons. right. by eapply IH.
    - intros Er [->|Hr']%elem_of_cons Hro; [congruence|]. by eapply IH. }
  pose proof (Hadd _ _ _ Hr Hin Ho) as Hrs.
  split; apply grants_spec; right; apply Exists_exists; eexists; (split; [exact Hrs|]); cbn; (split; [done|]); set_solver.
Qed.

(** On a kernel that does not know truncation the sandbox goes on without it. *)
Theorem old_kernel_truncates rules p : restricts Truncate = false -> grants rules p Truncate = true.
Proof. intros E. apply grants_spec. by left. Qed.

End confined.

(** ** A kernel *)

Definition demo_confiner : Confiner :=
  Build_Confiner true (fun _ => true) (fun _ => true) (Some FullyEnforced) (fun _ => true)
    (fun rules p a => existsb (fun r => beneath r.1 p && bool_decide (a ∈ r.2)) rules)
    (fun calls n => if existsb (Z.eqb n) calls then Allow else Errno EPERM) true.

Lemma demo_laws : ConfinerLaws (H := demo_confiner).
Proof.
  constructor; [|done..]. intros rules p a. cbn [grants restricts demo_confiner]. rewrite existsb_exists, Exists_exists. split.
  - intros (r & Hr & Hb). apply andb_true_iff in Hb as [Hb Ha%bool_decide_eq_true]. right. exists r. by rewrite list_elem_of_In.
  - intros [?|(r & Hr & Hb & Ha)]; [done|]. exists r. rewrite <- list_elem_of_In. split; [done|]. apply andb_true_iff. split; [done|]. by apply bool_decide_eq_true.
Qed.

(** Started from a project directory, the daemon cannot read the operator's keys. *)
Definition demo_site : Site := mk_site (fun _ => true) (mk_env None None (Some (chars "/h"))) (Some (chars "/run/user/7")) 7 (Some (chars "/h/proj")).

