(* ===== verification/DebugCmds.v ===== *)
(** The debug commands of [src/main.rs] that look at the chip or flip a reset bit:
    the interlock with the daemon, the reset bit, the choice of a tile, and the
    counters of emulated instructions ([isa_emu_pmu] of [src/regs.rs]).

    The firmware publishes the counters as one struct in the core's memory; the
    host reads it through a window.  Rows of a report are data, not text.
    The self-tests that load their own firmware are in [SelfTest.v]. *)

From Stdlib Require Sorted.
From S2P Require Import Prelude Text Parse Tlb DataPlane L2cpu Clock Telemetry Release ColdBoot ConsoleWorker WarmResume Disk Cli.

(** ** Which commands may run beside the daemon *)

Inductive DebugAction :=
| ReadResetReg | ResetX280 | AssertReset | DeassertReset | TensixHello (x y : option Z) (duration : Z) | TelemetryDump (all_tags : bool)
| PickTile | TensixVirtio (x y : option Z) | TensixEngine | IsaEmuCounters (all show_zero : bool) | IsaEmuEvents
| UartLoopback (count gap_us : Z) (no_lsr_poll : bool).

Definition writes_chip (a : DebugAction) : bool :=
  match a with ReadResetReg | TelemetryDump _ | PickTile | IsaEmuCounters _ _ => false | _ => true end.

(** The check at the head of [run_debug_cmd]. *)
Definition debug_gate (daemon_up : bool) (a : DebugAction) : result unit Error :=
  if daemon_up && writes_chip a then Err SlotState else Ok ().

(** ** The reset bit *)

(** The registers before and after are printed; [None] is a panic. *)
Definition toggle_reset_bit (chip : SharedChip) (l2cpu : Z) (release : bool) : option (result SharedChip Error) :=
  if 3 <? l2cpu then Some (Err BadRequest)
  else
    let reg := L2CPU_RESET_ADDR in
    let bit := u32 (Z.shiftl 1 (l2cpu + 4)) in
    let! before := arc_read32 chip reg in
    match before with
    | Err _ => Some (Err Io)
    | Ok before =>
        let after := if release then Z.lor before bit else Z.land before (U32_MAX - bit) in
        let! w := arc_write32 chip reg after in
        match w with
        | Err _ => Some (Err Io)
        | Ok chip =>
            let! rb := arc_read32 chip reg in
            match rb with Err _ => Some (Err Io) | Ok _ => Some (Ok chip) end
        end
    end.

(** ** The tile *)

Definition resolve_tensix_coords (chip : SharedChip) (x y : option Z) : option (result (Z * Z) Error) :=
  match x, y with
  | Some x, Some y => Some (Ok (x, y))
  | _, _ =>
      let! telem := read_telemetry chip in
      Some (match telem with
            | Err _ => Err Internal
            | Ok telem => match pick_virtio_engine_tile telem with Err _ => Err Internal | Ok p => Ok (pt_x p, pt_y p) end
            end)
  end.

Definition run_pick_tile (chip : SharedChip) : option (result PickedTile Error) :=
  let! telem := read_telemetry chip in
  Some (match telem with
        | Err _ => Err Internal
        | Ok telem => match pick_virtio_engine_tile telem with Err _ => Err Internal | Ok p => Ok p end
        end).

(** What a command comes to: an end on the shared chip ([None] is a panic), a
    report, or the start of a self-test with its arguments. *)
Inductive DebugRun :=
| Ends (r : option (result SharedChip Error)) | PrintsEvents | DumpsTelemetry (all_tags : bool) | ReadsCounters (l2cpu : Z) (all show_zero : bool)
| SelfHello (x y duration : Z) | SelfVirtio (x y : Z) | SelfEngine | SelfLoopback (l2cpu count gap_us : Z) (no_lsr_poll : bool).

Definition with_coords (chip : SharedChip) (x y : option Z) (k : Z -> Z -> DebugRun) : DebugRun :=
  match resolve_tensix_coords chip x y with
  | None => Ends None
  | Some (Err e) => Ends (Some (Err e))
  | Some (Ok (x, y)) => k x y
  end.

Definition debug_arm (chip : SharedChip) (l2cpu : Z) (a : DebugAction) : DebugRun :=
  match a with
  | ReadResetReg =>
      Ends (let! r := arc_read32 chip L2CPU_RESET_ADDR in Some (match r with Ok _ => Ok chip | Err _ => Err Io end))
  | ResetX280 =>
      Ends (if 3 <? l2cpu then Some (Err BadRequest)
            else let! r := reset_x280 chip [l2cpu] in Some (match r with Ok c => Ok c | Err _ => Err Io end))
  | AssertReset => Ends (toggle_reset_bit chip l2cpu false)
  | DeassertReset => Ends (toggle_reset_bit chip l2cpu true)
  | TensixHello x y duration => with_coords chip x y (fun x y => SelfHello x y duration)
  | TelemetryDump all_tags => DumpsTelemetry all_tags
  | PickTile => Ends (let! r := run_pick_tile chip in Some (match r with Ok _ => Ok chip | Err e => Err e end))
  | TensixVirtio x y => with_coords chip x y SelfVirtio
  | TensixEngine => SelfEngine
  | UartLoopback count gap_us no_lsr_poll => SelfLoopback l2cpu count gap_us no_lsr_poll
  | IsaEmuCounters all show_zero => ReadsCounters l2cpu all show_zero
  | IsaEmuEvents => PrintsEvents
  end.

(** The chip is opened once the command may run. *)
Definition run_debug_cmd (daemon_up : bool) (opened : result SharedChip Error) (l2cpu : Z) (a : DebugAction) : DebugRun :=
  match a with
  | IsaEmuEvents => PrintsEvents
  | _ =>
      match debug_gate daemon_up a with
      | Err e => Ends (Some (Err e))
      | Ok _ => match opened with Ok chip => debug_arm chip l2cpu a | Err e => Ends (Some (Err e)) end
      end
  end.

(** ** Events *)

Definition PERF_CONFIG_BASE : Z := 0xC000000000000000.
Definition PERF_EVENT_DATA_MASK : Z := Z.shiftl 1 62 - 1.
Definition perf_config (event_id : Z) : Z := Z.lor PERF_CONFIG_BASE (Z.land event_id PERF_EVENT_DATA_MASK).

Definition NONE : Z := 0.
Definition EVENTS : list (Z * list Z) :=
  [(0, chars "NONE"); (1, chars "ANY"); (2, chars "Zcb"); (3, chars "Zba"); (4, chars "Zbb"); (5, chars "Zbs"); (6, chars "Zicond");
   (7, chars "Zimop"); (8, chars "Zawrs"); (9, chars "Zfa"); (10, chars "Zfhmin"); (11, chars "Zicbom"); (12, chars "Zicboz");
   (13, chars "Zcmop"); (14, chars "Zbc"); (15, chars "Supm"); (16, chars "UNHANDLED"); (17, chars "Zvbb"); (18, chars "VS-off-bounce")].
Definition EVENT_COUNT : nat := 19.

(** The rows of [isa-emu-events]. *)
Definition event_rows : list (Z * list Z * Z) :=
  List.map (fun e => (e.1, e.2, perf_config e.1)) (List.filter (fun e => negb (e.1 =? NONE)) EVENTS).

(** ** The published counters *)

Definition PUBLISH_PTR_OFFSET : Z := 0x88.
Definition PUBLISH_MAGIC : Z := 0x554d5042.
Definition PUBLISH_VERSION : Z := 5.
Definition PUBLISH_MAX_HARTS : nat := 8.
Definition X280_HART_IDX : nat := 0.
Definition UNHANDLED_TABLE_SIZE : nat := 32.

Record UnhandledEntry := mk_unhandled { ue_insn : Z; ue_first_mepc : Z; ue_count : Z }.

(** The struct's fields for the one hart that moves, and its header. *)
Record Publish := mk_publish {
  magic : Z; version : Z; counts : list Z; first_unhandled_insn : Z; first_unhandled_mepc : Z;
  unhandled_table : list UnhandledEntry; unhandled_overflow : Z }.

(** Offsets of [#[repr(C)]]. *)
Definition PUBLISH_COUNTS : nat := 16.
Definition PUBLISH_FIRST_INSN : nat := 1744.
Definition PUBLISH_FIRST_MEPC : nat := 1808.
Definition PUBLISH_TABLE : nat := 1872.
Definition PUBLISH_OVERFLOW : nat := Z.to_nat 8016.
Definition PUBLISH_SIZE : nat := Z.to_nat 8128.

Definition u32_at (b : list Z) (o : nat) : Z := le_value (take 4 (drop o b)).
Definition u64_at (b : list Z) (o : nat) : Z := le_value (take 8 (drop o b)).

Definition publish_of (b : list Z) : Publish :=
  mk_publish (u32_at b 0) (u32_at b 4)
    (List.map (fun e => u64_at b (PUBLISH_COUNTS + 8 * (X280_HART_IDX * EVENT_COUNT + e))) (seq 0 EVENT_COUNT))
    (u64_at b (PUBLISH_FIRST_INSN + 8 * X280_HART_IDX)) (u64_at b (PUBLISH_FIRST_MEPC + 8 * X280_HART_IDX))
    (List.map (fun e => let o := (PUBLISH_TABLE + 24 * (X280_HART_IDX * UNHANDLED_TABLE_SIZE + e))%nat in
                        mk_unhandled (u64_at b o) (u64_at b (o + 8)) (u64_at b (o + 16))) (seq 0 UNHANDLED_TABLE_SIZE))
    (u64_at b (PUBLISH_OVERFLOW + 8 * X280_HART_IDX)).

Inductive EmuCountersError :=
| NotBooted (debug_descriptor_off publish_off : Z) | BadMagic (got : Z) | BadVersion (got : Z).

Section snapshot.
  Context `{K : Kernel}.

Definition read64 (l : L2Cpu) (pa : Z) (os : Os) : io Z :=
  io_bind (l2cpu_read32 l pa os) (fun lo os =>
  io_bind (l2cpu_read32 l (u64 (pa + 4)) os) (fun hi os => Ret (Z.lor (Z.shiftl hi 32) lo) os)).

(** From the pointer to the struct; the window is gone in every case. *)
Definition read_publish (l : L2Cpu) (os : Os) : io (result Publish EmuCountersError) :=
  let starting := starting_address l in
  io_bind (read64 l (u64 (starting + PUBLISH_PTR_OFFSET)) os) (fun publish_off os =>
  if (publish_off =? 0) || (publish_off =? U64_MAX) || negb (publish_off mod 8 =? 0) then
    io_bind (read64 l (u64 (starting + 0x80)) os) (fun dbg os => Ret (Err (NotBooted dbg publish_off)) os)
  else
    io_bind (get_persistent_2m_window l (u64 (starting + publish_off)) os) (fun w os =>
    match peek os (get_window w) 4 with
    | None => Panic
    | Some m =>
        if negb (le_value m =? PUBLISH_MAGIC) then Ret (Err (BadMagic (le_value m))) (window_drop w os)
        else
          match peek os (get_window w + 4) 4 with
          | None => Panic
          | Some v =>
              if negb (le_value v =? PUBLISH_VERSION) then Ret (Err (BadVersion (le_value v))) (window_drop w os)
              else
                match peek os (get_window w) PUBLISH_SIZE with
                | None => Panic
                | Some b => Ret (Ok (publish_of b)) (window_drop w os)
                end
          end
    end)).

Definition snapshot_isa_emu_counters_for_l2cpu (chip : option Z) (idx : Z) (os : Os) : io (result Publish EmuCountersError) :=
  match l2cpu_new idx chip os with
  | Ret l os =>
      match read_publish l os with
      | Ret r os => Ret r (l2cpu_drop l os)
      | IoErr e os => IoErr e (l2cpu_drop l os)
      | Panic => Panic
      end
  | IoErr e os => IoErr e os
  | Panic => Panic
  end.

(** What is printed for a core. *)
Inductive CounterReport :=
| Counters (idx : Z) (snap : Publish) | FirmwareNotRunning (idx debug_descriptor_off publish_off : Z) (predates : bool)
| MagicMismatch (idx got : Z) | VersionMismatch (idx got : Z).

Definition dbg_plausible (off : Z) : bool := negb (off =? 0) && negb (off =? U64_MAX) && (off mod 8 =? 0) && (off <? 0x1000000).

Fixpoint counters_each (chip : option Z) (all : bool) (targets : list Z) (os : Os) : io (list CounterReport) :=
  match targets with
  | [] => Ret [] os
  | idx :: targets =>
      io_bind (snapshot_isa_emu_counters_for_l2cpu chip idx os) (fun r os =>
      let report :=
        match r with
        | Ok snap => [Counters idx snap]
        | Err (NotBooted d p) => if all then [] else [FirmwareNotRunning idx d p (dbg_plausible d)]
        | Err (BadMagic g) => [MagicMismatch idx g]
        | Err (BadVersion g) => [VersionMismatch idx g]
        end in
      io_bind (counters_each chip all targets os) (fun rest os => Ret (report ++ rest) os))
  end.

(** A core index above 3 is a bad request, here [None]; the last flag is whether
    no core had counters although all were asked. *)
Definition run_isa_emu_counters (chip : option Z) (l2cpu : Z) (all : bool) (os : Os) : option (io (list CounterReport * bool)) :=
  let targets := if all then [0; 1; 2; 3] else [l2cpu] in
  if forallb (fun i => i <=? 3) targets then
    Some (io_bind (counters_each chip all targets os) (fun rs os =>
      Ret (rs, all && forallb (fun r => match r with Counters _ _ => false | _ => true end) rs) os))
  else None.

End snapshot.

(** ** The report *)

Definition counter_rows (snap : Publish) (show_zero : bool) : list (Z * list Z * Z) :=
  List.filter (fun r => negb (r.2 =? 0) || show_zero)
    (List.map (fun e => (e.1, e.2, default 0 (counts snap !! Z.to_nat e.1))) (List.filter (fun e => negb (e.1 =? NONE)) EVENTS)).

Definition is_compressed (insn : Z) : bool := negb (Z.land insn 3 =? 3).

(** The bytes given to the disassembler. *)
Definition insn_bytes (insn : Z) : list Z := if is_compressed insn then le_bytes 2 (insn mod 2 ^ 16) else le_bytes 4 (u32 insn).

(** A stable sort, highest count first. *)
Fixpoint insert_by_count (e : UnhandledEntry) (l : list UnhandledEntry) : list UnhandledEntry :=
  match l with
  | [] => [e]
  | x :: l => if ue_count x <? ue_count e then e :: x :: l else x :: insert_by_count e l
  end.
Definition sort_by_count (l : list UnhandledEntry) : list UnhandledEntry := foldl (fun acc e => insert_by_count e acc) [] l.

Definition unhandled_rows (snap : Publish) : list UnhandledEntry :=
  sort_by_count (List.filter (fun e => negb (ue_insn e =? 0)) (unhandled_table snap)).

Definition classify_riscv_major_opcode (insn : Z) (compressed : bool) : list Z :=
  if compressed then
    match Z.land insn 3 with
    | 0 => chars "C0 quadrant (compressed load/store, addi4spn)"
    | 1 => chars "C1 quadrant (compressed arith / jump / branch " ++ [8212] ++ chars " Zcb / Zcmop)"
    | 2 => chars "C2 quadrant (compressed load/store/jalr/mv/add " ++ [8212] ++ chars " Zcmop)"
    | _ => chars "unrecognized compressed quadrant"
    end
  else
    match Z.land (Z.shiftr insn 2) 0x1f with
    | 0x00 => chars "LOAD"
    | 0x01 => chars "LOAD-FP (Zfhmin / Zfh / D / F loads)"
    | 0x03 => chars "MISC-MEM (fence / fence.i / Zicbom / Zicboz cmo)"
    | 0x04 => chars "OP-IMM (Zba/Zbb/Zbs immediate forms)"
    | 0x05 => chars "AUIPC"
    | 0x06 => chars "OP-IMM-32 (Zba/Zbb 32-bit immediate forms)"
    | 0x08 => chars "STORE"
    | 0x09 => chars "STORE-FP"
    | 0x0b => chars "AMO (A extension / Zacas)"
    | 0x0c => chars "OP (Zba/Zbb/Zbs/Zbc/Zicond register forms)"
    | 0x0d => chars "LUI"
    | 0x0e => chars "OP-32 (Zba/Zbb 32-bit register forms)"
    | 0x10 => chars "MADD"
    | 0x11 => chars "MSUB"
    | 0x12 => chars "NMSUB"
    | 0x13 => chars "NMADD"
    | 0x14 => chars "OP-FP (Zfa / Zfhmin / Zfh / D / F)"
    | 0x15 => chars "OP-V (RVV " ++ [8212] ++ chars " Zvbb/Zvbc/Zvfh/...; likely need a vector emulator)"
    | 0x18 => chars "BRANCH"
    | 0x19 => chars "JALR"
    | 0x1b => chars "JAL"
    | 0x1c => chars "SYSTEM (csr / ecall / Zimop / Zawrs)"
    | _ => chars "unknown major opcode"
    end.

(** The mnemonic in the disassembler's output: the third column of the line at
    offset 0. *)
Fixpoint mnemonic_of (lines : list (list Z)) : option (list Z) :=
  match lines with
  | [] => None
  | line :: lines =>
      let t := drop_ws line in
      if starts_with (chars "0:") t then
        Some (match split_once [9] t with
              | Some (_, rest) => match split_once [9] rest with Some (_, m) => trim m | None => chars "(no mnemonic)" end
              | None => chars "(no mnemonic)"
              end)
      else mnemonic_of lines
  end.

(** ** Beside a running daemon nothing of the chip changes *)

Lemma fits_high w v i : fits w v -> 0 <= w <= i -> Z.testbit v i = false.
Proof. intros Hv Hi. rewrite <- (wrap_small w v Hv). unfold wrap. apply Z.mod_pow2_bits_high. lia. Qed.

(** The register value a toggle writes. *)
Definition toggled (release : bool) (before bit : Z) : Z :=
  if release then Z.lor before bit else Z.land before (U32_MAX - bit).

Lemma toggled_bits release before k i :
  fits 32 before -> 0 <= k < 32 -> 0 <= i ->
  Z.testbit (toggled release before (Z.shiftl 1 k)) i = if i =? k then release else Z.testbit before i.
Proof.
  intros Hf Hk Hi.
  assert (Hb : forall j, 0 <= j -> Z.testbit (Z.shiftl 1 k) j = (j =? k)).
  { intros j Hj. rewrite Z.shiftl_1_l, Z.pow2_bits_eqb by lia. apply Z.eqb_sym. }
  destruct release; unfold toggled.
  { rewrite Z.lor_spec, Hb by done. by destruct (i =? k), (Z.testbit before i). }
  assert (Hc : U32_MAX - Z.shiftl 1 k = Z.ldiff (Z.ones 32) (Z.shiftl 1 k)).
  { rewrite <- Z.sub_nocarry_ldiff; [done|]. apply Z.bits_inj'. intros j Hj.
    rewrite Z.ldiff_spec, Hb, Z.bits_0, Z.testbit_ones_nonneg by lia.
    destruct (Z.eqb_spec j k), (Z.ltb_spec j 32); try done; lia. }
  rewrite Hc, Z.land_spec, Z.ldiff_spec, Hb, Z.testbit_ones_nonneg by lia.
  destruct (Z.eqb_spec i k); [by rewrite !andb_false_r|]. rewrite andb_true_r.
  destruct (Z.ltb_spec i 32); [by rewrite andb_true_r|]. rewrite andb_false_r. symmetry. by apply (fits_high 32).
Qed.

Lemma toggle_reset_bit_ok arc csm l2cpu release :
  0 <= l2cpu <= 3 ->
  toggle_reset_bit (mk_chip (Some (arc, csm))) l2cpu release =
    Some (Ok (mk_chip (Some (pll_write32 arc L2CPU_RESET_ADDR (toggled release (reset_reg (regs arc)) (Z.shiftl 1 (l2cpu + 4))), csm)))).
Proof.
  intros Hl. unfold toggle_reset_bit. replace (3 <? l2cpu) with false by lia.
  assert (Hb : u32 (Z.shiftl 1 (l2cpu + 4)) = Z.shiftl 1 (l2cpu + 4)).
  { apply wrap_small. rewrite Z.shiftl_1_l. split; [lia|]. apply Z.pow_lt_mono_r; lia. }
  rewrite Hb, read_reset. cbv zeta. fold (toggled release (reset_reg (regs arc)) (Z.shiftl 1 (l2cpu + 4))).
  rewrite write_reset, read_reset. done.
Qed.

(** The debug commands keep off a chip the daemon owns.  While the daemon runs
    for the card, whatever the command and its arguments: no self-test starts,
    and a command that ends well leaves every register as it was; the writing
    ones are refused before the chip is opened.  Without the daemon, asserting or
    releasing a core's reset is one register write, which changes that core's
    bit of the reset register to what was asked and no other bit. *)
Theorem debug_interlock :
  (forall opened l2cpu a,
     match run_debug_cmd true opened l2cpu a with
     | Ends (Some (Ok c)) => opened = Ok c
     | SelfHello _ _ _ | SelfVirtio _ _ | SelfEngine | SelfLoopback _ _ _ _ => False
     | _ => True
     end) /\
  (forall opened l2cpu a, writes_chip a = true -> a <> IsaEmuEvents ->
     run_debug_cmd true opened l2cpu a = Ends (Some (Err SlotState))) /\
  (forall arc csm l2cpu (release : bool), 0 <= l2cpu <= 3 -> fits 32 (reset_reg (regs arc)) ->
     exists v, run_debug_cmd false (Ok (mk_chip (Some (arc, csm)))) l2cpu (if release then DeassertReset else AssertReset) =
         Ends (Some (Ok (mk_chip (Some (pll_write32 arc L2CPU_RESET_ADDR v, csm))))) /\
       forall i, 0 <= i -> Z.testbit v i = if i =? l2cpu + 4 then release else Z.testbit (reset_reg (regs arc)) i).
Proof.
  split; [|split].
  - intros [chip|e] l2cpu a; destruct a; cbn [run_debug_cmd debug_gate writes_chip andb debug_arm]; try done.
    + by destruct (arc_read32 chip L2CPU_RESET_ADDR) as [[?|?]|].
    + by destruct (run_pick_tile chip) as [[?|?]|].
  - intros opened l2cpu a Hw Hn. unfold run_debug_cmd, debug_gate. rewrite Hw. by destruct a.
  - intros arc csm l2cpu release Hl Hf. eexists. split.
    + destruct release; cbn [run_debug_cmd debug_gate writes_chip andb debug_arm]; by rewrite toggle_reset_bit_ok.
    + intros i Hi. apply toggled_bits; [done|lia..].
Qed.

(** One of [--x] and [--y] alone is not used: the tile is then the picked one. *)
Theorem lone_coordinate_ignored chip x y :
  resolve_tensix_coords chip (Some x) None = resolve_tensix_coords chip None None /\
  resolve_tensix_coords chip None (Some y) = resolve_tensix_coords chip None None.
Proof. done. Qed.

(** ** The report *)

Abbreviation by_count_desc := (Sorted.StronglySorted (fun a b => ue_count b <= ue_count a)).

Lemma insert_by_count_perm e l : insert_by_count e l ≡ₚ e :: l.
Proof.
  induction l as [|x l IH]; cbn; [done|]. destruct (ue_count x <? ue_count e); [done|].
  rewrite IH. apply Permutation_swap.
Qed.

Lemma insert_by_count_sorted e l :
  by_count_desc l -> by_count_desc (insert_by_count e l).
Proof.
  induction 1 as [|x l Hs IH Hx]; cbn; [repeat constructor|]. destruct (Z.ltb_spec (ue_count x) (ue_count e)) as [Hlt|Hge].
  - repeat constructor; [done..|lia|]. eapply Forall_impl; [exact Hx|]. cbn. lia.
  - constructor; [done|]. rewrite insert_by_count_perm. by constructor.
Qed.

Lemma sort_by_count_spec l acc :
  by_count_desc acc ->
  let r := foldl (fun acc e => insert_by_count e acc) acc l in
  by_count_desc r /\ r ≡ₚ l ++ acc.
Proof.
  revert acc. induction l as [|e l IH]; intros acc Ha; cbn; [done|].
  destruct (IH _ (insert_by_count_sorted e acc Ha)) as [H1 H2]. split; [done|].
  rewrite H2, insert_by_count_perm. symmetry. apply Permutation_middle.
Qed.

(** The histogram is complete and ordered: its rows are the entries in use, each
    as often as it is in the table, the highest count first. *)
Theorem unhandled_rows_sorted snap :
  by_count_desc (unhandled_rows snap) /\
  unhandled_rows snap ≡ₚ List.filter (fun e => negb (ue_insn e =? 0)) (unhandled_table snap).
Proof.
  destruct (sort_by_count_spec (List.filter (fun e => negb (ue_insn e =? 0)) (unhandled_table snap)) []) as [H1 H2]; [constructor|].
  split; [exact H1|]. unfold unhandled_rows, sort_by_count. rewrite H2. by rewrite app_nil_r.
Qed.

Lemma published_count b i : (i < EVENT_COUNT)%nat -> default 0 (counts (publish_of b) !! i) = u64_at b (PUBLISH_COUNTS + 8 * i).
Proof.
  intros Hi. unfold publish_of. cbn [counts]. rewrite list_lookup_fmap, lookup_seq_lt by done. done.
Qed.

(** Every event but [NONE] has one row under its own id and counter, or none if
    the counter is zero and zeros are not asked for. *)
Theorem counter_rows_exact b show_zero e name v :
  (e, name, v) ∈ counter_rows (publish_of b) show_zero <->
  0 < e /\ EVENTS !! Z.to_nat e = Some (e, name) /\ v = u64_at b (PUBLISH_COUNTS + 8 * Z.to_nat e) /\ (v <> 0 \/ show_zero = true).
Proof.
  unfold counter_rows. rewrite list_elem_of_In, filter_In, in_map_iff. split.
  - intros [(p & Hp & Hin) Hv]. apply filter_In in Hin as [Hin Hn]. destruct p as [i n]. cbn [fst snd] in Hp, Hn, Hv. pose proof (f_equal (fun t => t.1.1) Hp) as E1. pose proof (f_equal (fun t => t.1.2) Hp) as E2.
    apply (f_equal snd) in Hp. cbn [fst snd] in *. subst i n v.
    assert (EVENTS !! Z.to_nat e = Some (e, name) /\ 0 < e /\ (Z.to_nat e < EVENT_COUNT)%nat) as (He & H0 & Hc).
    { apply list_elem_of_In, list_elem_of_lookup in Hin as [k Hk]. pose proof (lookup_lt_Some _ _ _ Hk) as Hl. change (k < 19)%nat in Hl.
      do 19 (destruct k as [|k]; [injection Hk as <- <-; by vm_compute|]). lia. }
    rewrite published_count by done. split_and!; [done..|]. rewrite published_count in Hv by done.
    destruct show_zero; [by right|]. left. rewrite orb_false_r in Hv. intros Hz. by rewrite Hz in Hv.
  - intros (H0 & He & -> & Hv). pose proof (lookup_lt_Some _ _ _ He) as Hc. split.
    + exists (e, name). cbn [fst snd]. rewrite published_count by done. split; [done|]. apply filter_In. split.
      * by apply list_elem_of_In, (list_elem_of_lookup_2 _ (Z.to_nat e)).
      * cbn. unfold NONE. destruct (Z.eqb_spec e 0); [lia|done].
    + cbn [snd]. destruct show_zero; [apply orb_true_r|]. destruct Hv as [Hv|Hv]; [|done]. by destruct (Z.eqb_spec (u64_at b (PUBLISH_COUNTS + 8 * Z.to_nat e)) 0).
Qed.

(** The event selector keeps the two top bits and the id. *)
Lemma perf_config_id e : fits 32 e -> Z.shiftr (perf_config e) 62 = 3 /\ Z.land (perf_config e) PERF_EVENT_DATA_MASK = e.
Proof.
  intros He. assert (Hm : Z.land e PERF_EVENT_DATA_MASK = e).
  { change PERF_EVENT_DATA_MASK with (Z.ones 62). rewrite Z.land_ones by lia. apply Z.mod_small. unfold fits in He. lia. }
  unfold perf_config. rewrite Hm. change PERF_CONFIG_BASE with (Z.shiftl 3 62). split.
  - rewrite Z.shiftr_lor, Z.shiftr_shiftl_l, Z.shiftl_0_r by lia. replace (Z.shiftr e 62) with 0; [done|].
    symmetry. rewrite Z.shiftr_div_pow2 by lia. apply Z.div_small. unfold fits in He. lia.
  - rewrite Z.land_lor_distr_l, Hm. done.
Qed.

(** ** The snapshot *)

(** What the counters of a core are in its memory: the struct the pointer leads
    to, or why there is none. *)
Definition counters_in (mem : gmap Z Z) (start : Z) : result Publish EmuCountersError :=
  let off := word64 mem (start + PUBLISH_PTR_OFFSET) in
  let pa := u64 (start + off) in
  if (off =? 0) || (off =? U64_MAX) || negb (off mod 8 =? 0) then Err (NotBooted (word64 mem (start + 0x80)) off)
  else if negb (rd32 mem pa =? PUBLISH_MAGIC) then Err (BadMagic (rd32 mem pa))
  else if negb (rd32 mem (pa + 4) =? PUBLISH_VERSION) then Err (BadVersion (rd32 mem (pa + 4)))
  else Ok (publish_of (read_bytes mem pa PUBLISH_SIZE)).

(** A struct of the right magic and version does not cross the end of its window. *)
Definition publish_fits (mem : gmap Z Z) (start : Z) : Prop :=
  is_ok (counters_in mem start) = true ->
  u64 (start + word64 mem (start + PUBLISH_PTR_OFFSET)) mod TWO_MEG + Z.of_nat PUBLISH_SIZE <= TWO_MEG.

Section snapshot_proofs.
Context `{KL : KernelLaws}.

Lemma read64_spec l pa os :
  word_addr pa -> word_addr (pa + 4) -> l2_fd l ∈ fds os ->
  match read64 l pa os with
  | Ret v os' => untouched os os' /\ v = word64 (tile_mem os (coordinates l)) pa
  | IoErr _ os' => untouched os os'
  | Panic => False
  end.
Proof.
  intros W1 W2 Hfd. unfold read64. pose proof (read_word l pa os W1 Hfd) as H.
  destruct (l2cpu_read32 l pa os) as [lo os1|e os1|]; cbn [io_bind]; [|by destruct H|done]. destruct H as [U1 ->].
  replace (u64 (pa + 4)) with (pa + 4) by (symmetry; apply wrap_small, W2).
  pose proof (read_word l (pa + 4) os1 W2 ltac:(by rewrite (untouched_fds _ _ U1))) as H.
  destruct (l2cpu_read32 l (pa + 4) os1) as [hi os2|e os2|]; cbn [io_bind]; [| |done].
  - destruct H as [U2 ->]. rewrite (untouched_mem _ _ _ U1). split; [by eapply untouched_trans|done].
  - destruct H as [U2 _]. by eapply untouched_trans.
Qed.

Lemma core_words i off : 0 <= i < 4 -> 0 <= off < 2 ^ 20 -> off mod 4 = 0 -> word_addr (L2CPU_STARTING_ADDRESS i + off).
Proof.
  intros Hi Ho Hm. assert (Ha : fits 63 (L2CPU_STARTING_ADDRESS i) /\ L2CPU_STARTING_ADDRESS i mod 4 = 0).
  { assert (i = 0 \/ i = 1 \/ i = 2 \/ i = 3) as H by lia. destruct H as [->|[->|[->| ->]]]; (split; [split; [discriminate|reflexivity]|reflexivity]). }
  destruct Ha as [Hf Ha]. unfold fits in *. split; [split; lia|]. rewrite Z.add_mod, Ha, Hm by done. done.
Qed.

(** The header is within one window, for the pointer is aligned. *)
Lemma header_fits i off : 0 <= i < 4 -> off mod 8 = 0 -> u64 (L2CPU_STARTING_ADDRESS i + off) mod TWO_MEG + 8 <= TWO_MEG.
Proof.
  intros Hi Ho. set (a := u64 (L2CPU_STARTING_ADDRESS i + off)).
  assert (Ha : a mod 8 = 0).
  { unfold a, u64, wrap. rewrite Z.mod_mod_divide by (by exists (2 ^ 61)).
    rewrite Z.add_mod, Ho by done. assert (i = 0 \/ i = 1 \/ i = 2 \/ i = 3) as H by lia. by destruct H as [->|[->|[->| ->]]]. }
  assert (Hm : a mod TWO_MEG mod 8 = 0) by (rewrite Z.mod_mod_divide by (by exists (2 ^ 18)); done).
  pose proof (Z.mod_pos_bound a TWO_MEG ltac:(done)) as Hb. generalize dependent (a mod TWO_MEG).
  unfold TWO_MEG. intros r Hm Hb. clear -Hm Hb. change (Z.shiftl 1 21) with 2097152 in *. Z.div_mod_to_equations. lia.
Qed.

Lemma read_publish_spec l i os :
  0 <= i < 4 -> starting_address l = L2CPU_STARTING_ADDRESS i -> l2_fd l ∈ fds os ->
  let mem := tile_mem os (coordinates l) in
  publish_fits mem (L2CPU_STARTING_ADDRESS i) ->
  match read_publish l os with
  | Ret r os' => untouched os os' /\ r = counters_in mem (L2CPU_STARTING_ADDRESS i)
  | IoErr _ os' => untouched os os'
  | Panic => False
  end.
Proof.
  intros Hi Hst Hfd mem Hfit. unfold read_publish, publish_fits, counters_in in *. rewrite Hst. cbv zeta in *. set (start := L2CPU_STARTING_ADDRESS i) in *.
  assert (W : forall o, 0 <= o < 2 ^ 20 -> o mod 4 = 0 -> word_addr (start + o)) by (intros; by apply core_words).
  assert (E : forall o, 0 <= o < 2 ^ 20 -> o mod 4 = 0 -> u64 (start + o) = start + o) by (intros; by apply wrap_small, W).
  assert (R : forall o os1, 0 <= o < 2 ^ 19 -> o mod 4 = 0 -> untouched os os1 ->
    match read64 l (u64 (start + o)) os1 with Ret v os2 => untouched os os2 /\ v = word64 mem (start + o) | IoErr _ os2 => untouched os os2 | Panic => False end).
  { intros o os1 Ho Hm U. rewrite E by (done || lia).
    pose proof (read64_spec l (start + o) os1 ltac:(apply W; [lia|done])) as H. rewrite <- Z.add_assoc in H.
    specialize (H ltac:(apply W; [lia|rewrite Z.add_mod, Hm by done; done]) ltac:(by rewrite (untouched_fds _ _ U))).
    rewrite (untouched_mem _ _ _ U) in H. destruct (read64 _ _ _); [|by eapply untouched_trans|done]. destruct H. split; [by eapply untouched_trans|done]. }
  pose proof (R PUBLISH_PTR_OFFSET os ltac:(done) ltac:(done) ltac:(done)) as H.
  destruct (read64 _ _ os) as [off os1|e os1|]; cbn [io_bind]; [|done..]. destruct H as [U1 ->].
  destruct ((_ =? 0) || _ || _) eqn:Eoff.
  { pose proof (R 0x80 os1 ltac:(done) ltac:(done) U1) as H. destruct (read64 _ _ os1); cbn [io_bind]; [|done..]. by destruct H as [? ->]. }
  set (off := word64 mem (start + PUBLISH_PTR_OFFSET)) in *. set (pa := u64 (start + off)) in *.
  apply orb_false_iff in Eoff as [_ Eoff%negb_false_iff%Z.eqb_eq]. pose proof (header_fits i off Hi Eoff) as Hh. fold start pa in Hh.
  pose proof (open_reads l pa os1 (wrap_fits 64 _ ltac:(lia)) ltac:(by rewrite (untouched_fds _ _ U1))) as H.
  destruct (get_persistent_2m_window l pa os1) as [w os2|e os2|]; cbn [io_bind]; [|by eapply untouched_trans|done].
  destruct H as (Hp & _ & _ & Hd). rewrite (untouched_mem _ _ _ U1) in Hp. fold mem in Hp.
  assert (U2 : untouched os (window_drop w os2)) by (eapply untouched_trans; [exact U1|]; by apply Hd).
  pose proof (Hp 0 4%nat ltac:(lia) ltac:(lia)) as H0. rewrite !Z.add_0_r in H0. rewrite H0. fold (rd32 mem pa).
  destruct (negb (rd32 mem pa =? PUBLISH_MAGIC)); [done|].
  rewrite (Hp 4 4%nat) by lia. fold (rd32 mem (pa + 4)). destruct (negb (rd32 mem (pa + 4) =? PUBLISH_VERSION)); [done|].
  specialize (Hfit eq_refl). pose proof (Hp 0 PUBLISH_SIZE ltac:(lia) ltac:(lia)) as H1. rewrite !Z.add_0_r in H1. by rewrite H1.
Qed.

(** The counters of a core are read exactly and at no cost.  Of whatever the
    core's memory holds, the snapshot is the published struct, or the right
    reason why there is none (no pointer, wrong magic, wrong version), unless the
    driver refuses an access; in every case the chip is not written to and every
    window, mapping and file descriptor is given back.  A pointer that is
    garbage does not make it fault: only a struct of the right magic and version
    has to be inside its window. *)
Theorem counters_snapshot_exact chip i os :
  0 <= i < 4 -> ranges_mapped os -> publish_fits (tile_mem os (L2CPU_TILES i)) (L2CPU_STARTING_ADDRESS i) ->
  match snapshot_isa_emu_counters_for_l2cpu chip i os with
  | Ret r os' => untouched os os' /\ r = counters_in (tile_mem os (L2CPU_TILES i)) (L2CPU_STARTING_ADDRESS i)
  | IoErr _ os' => untouched os os'
  | Panic => False
  end.
Proof.
  intros Hi Hr Hfit. unfold snapshot_isa_emu_counters_for_l2cpu. pose proof (l2cpu_new_spec i chip os Hi Hr) as H.
  destruct (l2cpu_new i chip os) as [l os1|e os1|]; [|done..].
  destruct H as ((_ & _ & Hdrop) & _ & Hst & Hco & Hfd & Hn).
  assert (Hmem : tile_mem os1 (coordinates l) = tile_mem os (L2CPU_TILES i)) by (unfold tile_mem; by rewrite Hn, Hco).
  assert (Hd : forall os2, untouched os1 os2 -> untouched os (l2cpu_drop l os2)).
  { intros os2 [S2 N2]. split; [by apply Hdrop|by rewrite l2cpu_drop_noc, N2]. }
  pose proof (read_publish_spec l i os1 Hi Hst Hfd) as H. rewrite Hmem in H. specialize (H Hfit).
  destruct (read_publish l os1) as [r os2|e os2|]; [|by apply Hd|done]. destruct H. split; [by apply Hd|done].
Qed.

End snapshot_proofs.
