(* ===== verification/Firmware.v ===== *)
(** The firmware of the reserved Tensix tile, [brisc-firmware/virtio.c] with its
    headers: the register files and queue shadows, the watchers of the guests'
    register writes, the UARTs, the reset of the helper cores and the start-up
    handshake.

    A function of the firmware is a program over single loads and stores
    ([fw]), so that the writes of guests, of the daemon and of the other cores
    can fall between any two of its accesses ([interleaved]); [fw_run] runs it
    alone.  Stores become visible in program order, which is what the fences and
    the read-backs of the source are for.  The C statics of a core are a record
    that its loop carries; readings of the cycle counter are arguments. *)

From S2P Require Import Prelude Layout.

(** ** Programs *)

Inductive fw (A : Type) : Type :=
| Pure (a : A)
| Load (addr : Z) (k : Z -> fw A)
| Store (addr v : Z) (k : fw A)
| Store8 (addr v : Z) (k : fw A).
Arguments Pure {A} a.
Arguments Load {A} addr k.
Arguments Store {A} addr v k.
Arguments Store8 {A} addr v k.

Fixpoint fw_bind {A B} (p : fw A) (f : A -> fw B) : fw B :=
  match p with
  | Pure a => f a
  | Load addr k => Load addr (fun v => fw_bind (k v) f)
  | Store addr v k => Store addr v (fw_bind k f)
  | Store8 addr v k => Store8 addr v (fw_bind k f)
  end.

Declare Scope fw_scope.
Delimit Scope fw_scope with fw.
Notation "'let*' x := p 'in' q" := (fw_bind p (fun x => q)) (at level 10, x name, p at level 100, q at level 200) : fw_scope.
Notation "p ;; q" := (fw_bind p (fun _ => q)) (at level 100, q at level 200, right associativity) : fw_scope.
Open Scope fw_scope.

Definition read_u32 (addr : Z) : fw Z := Load addr Pure.
Definition store_u32 (addr v : Z) : fw unit := Store addr v (Pure tt).
(** The same with a fence. *)
Definition write_u32 (addr v : Z) : fw unit := Store addr v (Pure tt).

(** Alone. *)
Fixpoint fw_run {A} (p : fw A) (m : gmap Z Z) : A * gmap Z Z :=
  match p with
  | Pure a => (a, m)
  | Load addr k => fw_run (k (rd32 m addr)) m
  | Store addr v k => fw_run k (wr32 m addr v)
  | Store8 addr v k => fw_run k (wr8 m addr v)
  end.

(** With steps of the others, [E], anywhere between. *)
Inductive interleaved (E : gmap Z Z -> gmap Z Z -> Prop) {A} : fw A -> gmap Z Z -> A -> gmap Z Z -> Prop :=
| il_pure a m : interleaved E (Pure a) m a m
| il_load addr k m a m' : interleaved E (k (rd32 m addr)) m a m' -> interleaved E (Load addr k) m a m'
| il_store addr v k m a m' : interleaved E k (wr32 m addr v) a m' -> interleaved E (Store addr v k) m a m'
| il_store8 addr v k m a m' : interleaved E k (wr8 m addr v) a m' -> interleaved E (Store8 addr v k) m a m'
| il_env p m m1 a m' : E m m1 -> interleaved E p m1 a m' -> interleaved E p m a m'.

Fixpoint for_each_do {A} (l : list A) (body : A -> fw unit) : fw unit :=
  match l with
  | [] => Pure tt
  | a :: l => body a ;; for_each_do l body
  end.

Definition fw_when (b : bool) (p : fw unit) : fw unit := if b then p else Pure tt.

(** [0 .. n - 1]. *)
Definition upto (n : Z) : list Z := List.map Z.of_nat (seq 0 (Z.to_nat n)).

(** ** Addresses and the device table *)

Definition FW_SENTINEL : Z := 0xFFFFFFFF.

Record device_init := mk_dev_init { di_device_id : Z; di_num_queues : Z; di_feat_low : Z; di_feat_high : Z }.

Definition DEVICE_TEMPLATE : list device_init :=
  [mk_dev_init VIRTIO_ID_BLOCK QUEUES_BLK 0 VIRTIO_F_VERSION_1_HIGH_BIT;
   mk_dev_init VIRTIO_ID_NET QUEUES_NET VIRTIO_NET_F_MAC_BIT VIRTIO_F_VERSION_1_HIGH_BIT;
   mk_dev_init VIRTIO_ID_CONSOLE QUEUES_CONSOLE 0 VIRTIO_F_VERSION_1_HIGH_BIT;
   mk_dev_init VIRTIO_ID_ENTROPY QUEUES_RNG 0 VIRTIO_F_VERSION_1_HIGH_BIT;
   mk_dev_init VIRTIO_ID_BLOCK QUEUES_BLK 0 VIRTIO_F_VERSION_1_HIGH_BIT;
   mk_dev_init VIRTIO_ID_BLOCK QUEUES_BLK 0 VIRTIO_F_VERSION_1_HIGH_BIT;
   mk_dev_init 0 0 0 0;
   mk_dev_init 0 0 0 0].

Definition device_for_slot (s : Z) : device_init :=
  default (mk_dev_init 0 0 0 0) (DEVICE_TEMPLATE !! Z.to_nat (s mod DEVS_PER_L2CPU)).

Definition reg_addr (s off : Z) : Z := u32 (REGS_BASE + s * REGS_PER_DEV + off).
Definition shadow_addr (s off : Z) : Z := u32 (SHADOW_BASE + s * SHADOW_PER_DEVICE + off).
Definition fw_shadow_queue_addr (s q off : Z) : Z := shadow_addr s (u32 (q * SHADOW_PER_QUEUE + off)).
Definition fw_snap_addr (s off : Z) : Z := shadow_addr s (SNAP_BASE_OFF + off).
Definition ctrl_addr (off : Z) : Z := u32 (CTRL_BASE + off).

Definition SNAP_OFF_QUEUE_SEL : Z := 0x04.
Definition SNAP_OFF_DRV_FEAT_SEL : Z := 0x30.
Definition SNAP_OFF_DRV_FEAT : Z := 0x34.
Definition SNAP_OFF_SEL_GEN_ECHO : Z := 0x38.

(** ** Initialization *)

Fixpoint zero_words (n : nat) (base : Z) : fw unit :=
  match n with
  | O => Pure tt
  | S n => store_u32 base 0 ;; zero_words n (base + 4)
  end.

(** The sizes are multiples of a word. *)
Definition zero_region (base size_bytes : Z) : fw unit := zero_words (Z.to_nat (size_bytes / 4)) base.

Definition init_device (s : Z) : fw unit :=
  let d := device_for_slot s in
  zero_region (reg_addr s 0) MMIO_STATUS ;;
  zero_region (reg_addr s (MMIO_STATUS + 4)) (MMIO_CONFIG - (MMIO_STATUS + 4)) ;;
  zero_region (shadow_addr s 0) SHADOW_PER_DEVICE ;;
  store_u32 (reg_addr s MMIO_MAGIC_VALUE) MAGIC ;;
  store_u32 (reg_addr s MMIO_VERSION) VERSION ;;
  store_u32 (reg_addr s MMIO_DEVICE_ID) (di_device_id d) ;;
  store_u32 (reg_addr s MMIO_VENDOR_ID) VENDOR_ID ;;
  store_u32 (reg_addr s MMIO_QUEUE_NUM_MAX) QUEUE_NUM_MAX ;;
  store_u32 (reg_addr s MMIO_DEVICE_FEATURES) (Z.lor (di_feat_low d) (di_feat_high d)) ;;
  store_u32 (reg_addr s MMIO_QUEUE_NOTIFY) FW_SENTINEL ;;
  store_u32 (reg_addr s MMIO_SW_IMPL) 1 ;;
  for_each_do (upto (di_num_queues d)) (fun q =>
    store_u32 (fw_shadow_queue_addr s q SHADOW_Q_OFF_NUM) 0 ;;
    store_u32 (fw_shadow_queue_addr s q SHADOW_Q_OFF_READY) 0).

(** [BRISC_VIRTIO_FW_VERSION] of a build. *)
Definition FW_VERSION (build_id : Z) : Z := Z.lor (u32 (Z.shiftl build_id 8)) (Z.land PROTOCOL_VERSION 0xFF).

Definition init_stats (build_id : Z) : fw unit :=
  zero_region STATS_BASE STATS_SIZE ;;
  store_u32 (STATS_BASE + STATS_OFF_VERSION) (FW_VERSION build_id) ;;
  store_u32 (STATS_BASE + STATS_OFF_MAGIC) STATS_MAGIC_LOADED.

Definition init_proto : fw unit := zero_region (ctrl_addr 0) CTRL_SIZE.

Definition inc_stat (off : Z) : fw unit :=
  let* v := read_u32 (STATS_BASE + off) in store_u32 (STATS_BASE + off) (u32 (v + 1)).

Definition update_max_u32 (addr v : Z) : fw unit :=
  let* cur := read_u32 addr in fw_when (cur <? v) (store_u32 addr v).

(** ** The handlers *)

(** A setup register of a queue and its place in the shadow. *)
Definition FIELDS : list (Z * Z) :=
  [(MMIO_QUEUE_NUM, SHADOW_Q_OFF_NUM); (MMIO_QUEUE_DESC_LOW, SHADOW_Q_OFF_DESC_LO);
   (MMIO_QUEUE_DESC_HIGH, SHADOW_Q_OFF_DESC_HI); (MMIO_QUEUE_DRIVER_LOW, SHADOW_Q_OFF_DRIVER_LO);
   (MMIO_QUEUE_DRIVER_HIGH, SHADOW_Q_OFF_DRIVER_HI); (MMIO_QUEUE_DEVICE_LOW, SHADOW_Q_OFF_DEVICE_LO);
   (MMIO_QUEUE_DEVICE_HIGH, SHADOW_Q_OFF_DEVICE_HI)].

Fixpoint capture (s : Z) (fields : list (Z * Z)) : fw (list Z) :=
  match fields with
  | [] => Pure []
  | (mmio, _) :: fields => let* v := read_u32 (reg_addr s mmio) in let* vs := capture s fields in Pure (v :: vs)
  end.

Fixpoint commit (s q : Z) (fields : list (Z * Z)) (cap : list Z) : fw unit :=
  match fields, cap with
  | (_, off) :: fields, v :: cap => store_u32 (fw_shadow_queue_addr s q off) v ;; commit s q fields cap
  | _, _ => Pure tt
  end.

(** The seven fields of the previous queue, if its READY was never seen. *)
Definition rescue (s old_sel sel : Z) : fw unit :=
  fw_when (old_sel <? MAX_QUEUES_PER_SLOT) (
    let* shadow_ready := read_u32 (fw_shadow_queue_addr s old_sel SHADOW_Q_OFF_READY) in
    fw_when (shadow_ready =? 0) (
      let* cap := capture s FIELDS in
      let* sel_post := read_u32 (reg_addr s MMIO_QUEUE_SEL) in
      fw_when ((sel_post =? sel) && negb (default 0 (head cap) =? 0)) (
        commit s old_sel FIELDS cap ;;
        let* _ := read_u32 (fw_shadow_queue_addr s old_sel SHADOW_Q_OFF_DEVICE_HI) in
        store_u32 (fw_shadow_queue_addr s old_sel SHADOW_Q_OFF_READY) 1 ;;
        inc_stat STATS_OFF_BRISC_OLD_SEL_RESCUE))).

(** [dt] is the time between the two readings of the cycle counter. *)
Definition handle_queue_sel_change (dt s old_sel sel : Z) : fw unit :=
  fw_when (sel <? MAX_QUEUES_PER_SLOT) (
    let* prev_ready := read_u32 (reg_addr s MMIO_QUEUE_READY) in
    store_u32 (reg_addr s MMIO_QUEUE_READY) 0 ;;
    update_max_u32 (STATS_BASE + STATS_OFF_MAX_SEL_PATH_CYCLES) dt ;;
    rescue s old_sel sel ;;
    let* num := read_u32 (fw_shadow_queue_addr s sel SHADOW_Q_OFF_NUM) in
    store_u32 (reg_addr s MMIO_QUEUE_NUM_MAX) (if sel <? di_num_queues (device_for_slot s) then QUEUE_NUM_MAX else 0) ;;
    store_u32 (reg_addr s MMIO_QUEUE_NUM) num ;;
    fw_when (negb (prev_ready =? 0)) (inc_stat STATS_OFF_SEL_READY_RACES) ;;
    inc_stat STATS_OFF_SEL_CHANGES).

Definition handle_queue_ready_change (s sel ready : Z) : fw unit :=
  fw_when (sel <? MAX_QUEUES_PER_SLOT) (
    fw_when (negb (ready =? 0)) (
      let* cap := capture s FIELDS in
      let* sel_post := read_u32 (reg_addr s MMIO_QUEUE_SEL) in
      if sel_post =? sel then
        commit s sel FIELDS cap ;;
        let* _ := read_u32 (fw_shadow_queue_addr s sel SHADOW_Q_OFF_DEVICE_HI) in
        inc_stat STATS_OFF_QUEUE_SETUPS
      else inc_stat STATS_OFF_READY_CAPTURE_SEL_RACES) ;;
    store_u32 (fw_shadow_queue_addr s sel SHADOW_Q_OFF_READY) ready ;;
    fw_when (ready =? 0) (
      commit s sel FIELDS (replicate 7 0) ;;
      inc_stat STATS_OFF_QUEUE_TEARDOWNS) ;;
    inc_stat STATS_OFF_READY_EVENTS).

Definition handle_queue_notify (s q : Z) : fw unit :=
  store_u32 (STATS_BASE + STATS_OFF_LAST_NOTIFY) (Z.lor (u32 (Z.shiftl s 16)) (Z.land q 0xFFFF)) ;;
  fw_when (q <? MAX_QUEUES_PER_SLOT) (Store8 (ctrl_addr (CTRL_OFF_DIRTY + s * MAX_QUEUES_PER_SLOT + q)) 1 (Pure tt)) ;;
  inc_stat STATS_OFF_NOTIFY_EVENTS.

(** The result is whether the device was initialized again. *)
Definition handle_status_change (s status : Z) : fw bool :=
  fw_when (status =? 0) (init_device s) ;; inc_stat STATS_OFF_STATUS_CHANGES ;; Pure (status =? 0).

(** A register that is only remembered. *)
Definition snap_register (s mmio off : Z) : fw unit :=
  let* v := read_u32 (reg_addr s mmio) in
  let* prev := read_u32 (fw_snap_addr s off) in
  fw_when (negb (v =? prev)) (store_u32 (fw_snap_addr s off) v).

Definition poll_status (s : Z) : fw bool :=
  let* status := read_u32 (reg_addr s MMIO_STATUS) in
  let* status_prev := read_u32 (fw_snap_addr s SNAP_OFF_STATUS) in
  if status =? status_prev then Pure false
  else let* fired := handle_status_change s status in store_u32 (fw_snap_addr s SNAP_OFF_STATUS) status ;; Pure fired.

(** The selector that the rest of the poll works with. *)
Definition poll_sel (dt s : Z) : fw Z :=
  let* sel := read_u32 (reg_addr s MMIO_QUEUE_SEL) in
  let* sel_prev := read_u32 (fw_snap_addr s SNAP_OFF_QUEUE_SEL) in
  fw_when (negb (sel =? sel_prev)) (
    handle_queue_sel_change dt s sel_prev sel ;; store_u32 (fw_snap_addr s SNAP_OFF_QUEUE_SEL) sel) ;;
  Pure sel.

Definition poll_ready (s sel : Z) : fw unit :=
  let* ready := read_u32 (reg_addr s MMIO_QUEUE_READY) in
  fw_when (negb (ready =? 0)) (handle_queue_ready_change s sel ready ;; store_u32 (reg_addr s MMIO_QUEUE_READY) 0).

Definition poll_notify (s : Z) : fw unit :=
  let* notify := read_u32 (reg_addr s MMIO_QUEUE_NOTIFY) in
  fw_when (negb (notify =? FW_SENTINEL)) (
    handle_queue_notify s notify ;; write_u32 (reg_addr s MMIO_QUEUE_NOTIFY) FW_SENTINEL).

Definition echo_sel_generation (s : Z) : fw unit :=
  let* curr_gen := read_u32 (reg_addr s MMIO_SEL_GENERATION) in
  let* last_echoed := read_u32 (fw_snap_addr s SNAP_OFF_SEL_GEN_ECHO) in
  fw_when (negb (curr_gen =? last_echoed)) (
    write_u32 (reg_addr s MMIO_SEL_GENERATION) (u32 (curr_gen + 1)) ;;
    store_u32 (fw_snap_addr s SNAP_OFF_SEL_GEN_ECHO) (u32 (curr_gen + 1))).

Definition poll_one_device (dt s : Z) : fw bool :=
  let* fired := poll_status s in
  let* sel := poll_sel dt s in
  poll_ready s sel ;;
  poll_notify s ;;
  snap_register s MMIO_DRIVER_FEATURES_SEL SNAP_OFF_DRV_FEAT_SEL ;;
  snap_register s MMIO_DRIVER_FEATURES SNAP_OFF_DRV_FEAT ;;
  echo_sel_generation s ;;
  Pure fired.

(** ** The UARTs *)

Definition BRISC_UART_BASE : Z := 0x40000.
Definition UART_REG_RBR_THR : Z := 0x00.
Definition UART_REG_IIR_FCR : Z := 0x08.
Definition UART_REG_LCR : Z := 0x0c.
Definition UART_REG_MCR : Z := 0x10.
Definition UART_REG_LSR : Z := 0x14.
Definition UART_REG_MSR : Z := 0x18.
Definition UART_LSR_THRE : Z := 0x20.
Definition UART_LSR_TEMT : Z := 0x40.
Definition UART_MSR_CTS : Z := 0x10.
Definition UART_MSR_DSR : Z := 0x20.
Definition UART_IIR_NO_INT : Z := 0x01.
Definition UART_IIR_NO_FIFO : Z := 0x00.
Definition UART_MCR_DTR_RTS_OUT2 : Z := 0x0b.
Definition UART_LCR_8N1 : Z := 0x03.
Definition UART_LCR_DLAB : Z := 0x80.
Definition TRISC0_UART_THRE_HOLD_SWEEPS : Z := 20.

Definition uart_regs_base (i : Z) : Z := u32 (BRISC_UART_BASE + i * UART_PER_L2CPU_STRIDE).
Definition uart_reg_addr (i off : Z) : Z := u32 (uart_regs_base i + off).
Definition uart_priv_addr (i off : Z) : Z := u32 (uart_private_base i + off).
Definition LSR_IDLE : Z := Z.lor UART_LSR_THRE UART_LSR_TEMT.

Definition uart_init_one (i : Z) : fw unit :=
  zero_region (uart_regs_base i) UART_REG_FILE_SIZE ;;
  store_u32 (uart_reg_addr i UART_REG_RBR_THR) FW_SENTINEL ;;
  store_u32 (uart_reg_addr i UART_REG_LCR) UART_LCR_8N1 ;;
  store_u32 (uart_reg_addr i UART_REG_MCR) UART_MCR_DTR_RTS_OUT2 ;;
  store_u32 (uart_reg_addr i UART_REG_LSR) LSR_IDLE ;;
  store_u32 (uart_reg_addr i UART_REG_MSR) (Z.lor UART_MSR_CTS UART_MSR_DSR) ;;
  store_u32 (uart_reg_addr i UART_REG_IIR_FCR) (Z.lor UART_IIR_NO_FIFO UART_IIR_NO_INT) ;;
  zero_region (uart_private_base i) UART_PRIVATE_PER_L2CPU.

Definition uart_init_devices : fw unit := for_each_do (upto NUM_L2CPUS) uart_init_one.

Definition trisc0_uart_feed_push (i byte : Z) : fw unit :=
  let* producer := read_u32 (uart_priv_addr i UART_PRIV_OFF_FEED_PRODUCER_SEQ) in
  let* consumer := read_u32 (uart_priv_addr i UART_PRIV_OFF_FEED_CONSUMER_SEQ) in
  if UART_FEED_RING_ENTRIES <=? u32 (producer - consumer) then
    let* d := read_u32 (uart_priv_addr i UART_PRIV_OFF_FEED_DROP_COUNT) in
    store_u32 (uart_priv_addr i UART_PRIV_OFF_FEED_DROP_COUNT) (u32 (d + 1))
  else
    let idx := Z.land producer (UART_FEED_RING_ENTRIES - 1) in
    let slot_addr := uart_priv_addr i (UART_PRIV_OFF_FEED_RING + idx * 4) in
    store_u32 slot_addr byte ;;
    let* _ := read_u32 slot_addr in
    store_u32 (uart_priv_addr i UART_PRIV_OFF_FEED_PRODUCER_SEQ) (u32 (producer + 1)).

Definition trisc0_uart_poll_one (i : Z) : fw unit :=
  let cell := uart_reg_addr i UART_REG_RBR_THR in
  let lsr_addr := uart_reg_addr i UART_REG_LSR in
  let hold_addr := uart_priv_addr i UART_PRIV_OFF_HOLD in
  let* hold := read_u32 hold_addr in
  if 0 <? hold then
    store_u32 hold_addr (hold - 1) ;;
    fw_when (hold - 1 =? 0) (store_u32 lsr_addr LSR_IDLE)
  else
    let* v := read_u32 cell in
    fw_when (negb (v =? FW_SENTINEL)) (
      store_u32 lsr_addr 0 ;;
      let* lcr := read_u32 (uart_reg_addr i UART_REG_LCR) in
      if negb (Z.land lcr UART_LCR_DLAB =? 0) then
        store_u32 cell FW_SENTINEL ;; store_u32 lsr_addr LSR_IDLE
      else
        store_u32 cell FW_SENTINEL ;;
        trisc0_uart_feed_push i (Z.land v 0xFF) ;;
        store_u32 hold_addr TRISC0_UART_THRE_HOLD_SWEEPS).

(** One turn of [trisc0_main]; [c] is its counter. *)
Definition trisc0_iter (c : Z) : fw Z :=
  let* active := read_u32 (ctrl_addr CTRL_OFF_ACTIVE_SLOTS) in
  for_each_do (upto NUM_L2CPUS) (fun i =>
    fw_when (negb (Z.land (Z.shiftr active (slot_for_l2cpu i)) 1 =? 0)) (trisc0_uart_poll_one i)) ;;
  let c := u32 (c + 1) in
  fw_when (Z.land c 0x3FF =? 0) (store_u32 trisc0_heartbeat_addr c) ;;
  Pure c.

(** ** The helper cores *)

Definition FW_SOFT_RESET_ADDR : Z := 0xFFB121B0.
Definition FW_SOFT_RESET_TRISC0 : Z := Z.shiftl 1 12.
Definition FW_SOFT_RESET_TRISC1 : Z := Z.shiftl 1 13.
Definition FW_SOFT_RESET_TRISC2 : Z := Z.shiftl 1 14.

Definition set_trisc_reset (bit : Z) (asserted : bool) : fw unit :=
  let* v := read_u32 FW_SOFT_RESET_ADDR in
  store_u32 FW_SOFT_RESET_ADDR (if asserted then Z.lor v bit else Z.land v (U32_MAX - bit)) ;;
  let* _ := read_u32 FW_SOFT_RESET_ADDR in Pure tt.
Definition brisc_set_trisc0_reset : bool -> fw unit := set_trisc_reset FW_SOFT_RESET_TRISC0.
Definition brisc_set_trisc1_reset : bool -> fw unit := set_trisc_reset FW_SOFT_RESET_TRISC1.
Definition brisc_set_trisc2_reset : bool -> fw unit := set_trisc_reset FW_SOFT_RESET_TRISC2.

(** Edges only; the result is the new value of the flag. *)
Definition drive_lifecycle (set_reset : bool -> fw unit) (want running : bool) : fw bool :=
  if want && negb running then set_reset false ;; Pure true
  else if negb want && running then set_reset true ;; Pure false
  else Pure running.

Definition BRISC_UART_SLOT_MASK : Z := 0x40404040.
Definition brisc_drive_trisc0_lifecycle (active : Z) : bool -> fw bool :=
  drive_lifecycle brisc_set_trisc0_reset (negb (Z.land active BRISC_UART_SLOT_MASK =? 0)).
Definition brisc_drive_trisc1_lifecycle (virtio_active : Z) : bool -> fw bool :=
  drive_lifecycle brisc_set_trisc1_reset (negb (virtio_active =? 0)).
Definition brisc_drive_trisc2_lifecycle (virtio_active : Z) : bool -> fw bool :=
  drive_lifecycle brisc_set_trisc2_reset (negb (virtio_active =? 0)).

(** The loops over the set bits of a mask, by groups of eight. *)
Definition slots_of (active : Z) : list Z :=
  concat (List.map (fun base =>
    let group := Z.land (Z.shiftr active base) 0xFF in
    if group =? 0 then []
    else List.map (fun i => base + i) (List.filter (fun i => negb (Z.land (Z.shiftr group i) 1 =? 0)) (upto 8)))
    [0; 8; 16; 24]).

(** One turn of [trisc1_main]; [last_qsel] is its array. *)
Fixpoint trisc1_slots (slots : list Z) (last_qsel : gmap Z Z) : fw (gmap Z Z) :=
  match slots with
  | [] => Pure last_qsel
  | s :: slots =>
      let* qsel := read_u32 (reg_addr s MMIO_QUEUE_SEL) in
      if qsel =? default 0 (last_qsel !! s) then trisc1_slots slots last_qsel
      else store_u32 (reg_addr s MMIO_QUEUE_READY) 0 ;; trisc1_slots slots (<[s := qsel]> last_qsel)
  end.
Definition trisc1_iter (last_qsel : gmap Z Z) : fw (gmap Z Z) :=
  let* virtio_active := read_u32 (ctrl_addr CTRL_OFF_ACTIVE_VIRTIO_SLOTS) in
  trisc1_slots (slots_of virtio_active) last_qsel.

Definition feature_half (s dfsel : Z) : Z :=
  if dfsel =? 0 then di_feat_low (device_for_slot s)
  else if dfsel =? 1 then di_feat_high (device_for_slot s)
  else 0.

(** One turn of [trisc2_main]. *)
Fixpoint trisc2_slots (slots : list Z) (last_dfsel : gmap Z Z) : fw (gmap Z Z) :=
  match slots with
  | [] => Pure last_dfsel
  | s :: slots =>
      let* dfsel := read_u32 (reg_addr s MMIO_DEVICE_FEATURES_SEL) in
      if dfsel =? default FW_SENTINEL (last_dfsel !! s) then trisc2_slots slots last_dfsel
      else
        store_u32 (reg_addr s MMIO_DEVICE_FEATURES) (feature_half s dfsel) ;;
        inc_stat STATS_OFF_DEV_FEAT_SEL_CHANGES ;;
        trisc2_slots slots (<[s := dfsel]> last_dfsel)
  end.
Definition trisc2_iter (last_dfsel : gmap Z Z) : fw (gmap Z Z) :=
  let* virtio_active := read_u32 (ctrl_addr CTRL_OFF_ACTIVE_VIRTIO_SLOTS) in
  trisc2_slots (slots_of virtio_active) last_dfsel.

(** ** The main loop *)

(** The variables of BRISC; [b_sweep_t] is [prev_sweep_t] once it is valid. *)
Record Brisc := mk_brisc {
  b_heartbeat : Z; b_prev_active : Z; b_sweep_t : option Z; b_init_fired : bool;
  b_trisc0 : bool; b_trisc1 : bool; b_trisc2 : bool }.

Definition brisc_start : Brisc := mk_brisc 0 0 None false false false false.

Definition sweep_timing (now : Z) (b : Brisc) : fw bool :=
  match b_sweep_t b with
  | None => Pure (b_init_fired b)
  | Some prev =>
      let cycles := u32 (now - prev) in
      store_u32 (STATS_BASE + STATS_OFF_LAST_SWEEP_CYCLES) cycles ;;
      update_max_u32 (STATS_BASE + STATS_OFF_MAX_SWEEP_CYCLES) cycles ;;
      fw_when (negb (b_init_fired b)) (update_max_u32 (STATS_BASE + STATS_OFF_MAX_STEADY_SWEEP_CYCLES) cycles) ;;
      Pure false
  end.

(** The slots that became active; the result is whether there was one. *)
Definition init_newly (newly : Z) : fw bool :=
  let slots := List.filter (fun s => negb (Z.land (Z.shiftr newly s) 1 =? 0) && negb (s mod DEVS_PER_L2CPU =? UART_SLOT_OFFSET_IN_L2CPU))
                 (upto NUM_SLOTS) in
  for_each_do slots init_device ;; Pure (negb (Nat.eqb (length slots) 0)).

Fixpoint poll_slots (dt : Z -> Z) (slots : list Z) : fw bool :=
  match slots with
  | [] => Pure false
  | s :: slots =>
      let* fired := poll_one_device (dt s) s in
      let* more := poll_slots dt slots in Pure (fired || more)
  end.

(** One turn: [now] is the cycle counter at its top, [dt s] the time slot [s]
    took to answer a selection. *)
Definition brisc_sweep (now : Z) (dt : Z -> Z) (b : Brisc) : fw Brisc :=
  let* fired := sweep_timing now b in
  let* active := read_u32 (ctrl_addr CTRL_OFF_ACTIVE_SLOTS) in
  let* virtio_active := read_u32 (ctrl_addr CTRL_OFF_ACTIVE_VIRTIO_SLOTS) in
  let newly := Z.land active (U32_MAX - b_prev_active b) in
  let* inited := (if newly =? 0 then Pure false else init_newly newly) in
  let* polled := poll_slots dt (slots_of active) in
  let* t0 := brisc_drive_trisc0_lifecycle active (b_trisc0 b) in
  let* t1 := brisc_drive_trisc1_lifecycle virtio_active (b_trisc1 b) in
  let* t2 := brisc_drive_trisc2_lifecycle virtio_active (b_trisc2 b) in
  let heartbeat := u32 (b_heartbeat b + 1) in
  fw_when (Z.land heartbeat 0x3FF =? 0) (store_u32 (STATS_BASE + STATS_OFF_HEARTBEAT) heartbeat) ;;
  Pure (mk_brisc heartbeat active (Some now) (fired || inited || polled) t0 t1 t2).

(** ** Start-up *)

(** One turn of the wait for the greeting, and the answer. *)
Definition hello_ack (build_id : Z) : fw unit :=
  let* _ := read_u32 (ctrl_addr (CTRL_OFF_HELLO + HELLO_OFF_PROTOCOL_VERSION)) in
  store_u32 (ctrl_addr (CTRL_OFF_HELLO_ACK + HELLO_ACK_OFF_PROTOCOL_VERSION)) PROTOCOL_VERSION ;;
  store_u32 (ctrl_addr (CTRL_OFF_HELLO_ACK + HELLO_ACK_OFF_FIRMWARE_VERSION)) (FW_VERSION build_id) ;;
  write_u32 (ctrl_addr (CTRL_OFF_HELLO_ACK + HELLO_ACK_OFF_MAGIC)) HELLO_ACK_MAGIC.

Definition await_hello (build_id : Z) : fw bool :=
  let* magic := read_u32 (ctrl_addr (CTRL_OFF_HELLO + HELLO_OFF_MAGIC)) in
  if magic =? HELLO_MAGIC then hello_ack build_id ;; Pure true else Pure false.

(** [main] up to the wait. *)
Definition fw_init (build_id : Z) : fw unit :=
  init_stats build_id ;;
  init_proto ;;
  for_each_do (upto NUM_SLOTS) init_device ;;
  uart_init_devices.
