(* ===== verification/FirmwareProofs.v ===== *)
(** Theorems about the firmware of [Firmware]: what a guest writes into its
    register file reaches the daemon, whatever the other cores do meanwhile. *)

From S2P Require Import Prelude Layout Virtqueue ConsoleHub DataPlane DispatchProofs PollProofs Firmware.

(** ** Programs *)

Lemma fw_run_bind {A B} (p : fw A) (f : A -> fw B) : forall m,
  fw_run (fw_bind p f) m = fw_run (f (fw_run p m).1) (fw_run p m).2.
Proof. induction p as [a|addr k IH|addr v k IH|addr v k IH]; intros m; cbn; auto. Qed.

Lemma interleaved_bind E {A B} (p : fw A) (f : A -> fw B) m b m' :
  interleaved E (fw_bind p f) m b m' -> exists a m1, interleaved E p m a m1 /\ interleaved E (f a) m1 b m'.
Proof.
  intros H. remember (fw_bind p f) as r eqn:Hr. revert p Hr.
  induction H as [a m|addr k m a m' H IH|addr v k m a m' H IH|addr v k m a m' H IH|r m m1 a m' HE H IH]; intros p Hr.
  5:{ destruct (IH p Hr) as (x & m2 & H1 & H2). exists x, m2. split; [by eapply il_env|done]. }
  all: destruct p as [x|addr' k'|addr' v' k'|addr' v' k']; cbn in Hr; try discriminate Hr.
  all: try (exists x; eexists; split; [apply il_pure|]; rewrite <- Hr; by constructor).
  all: injection Hr as -> ->.
  - destruct (IH _ eq_refl) as (x & m2 & H1 & H2). exists x, m2. split; [by constructor|done].
  - subst. destruct (IH _ eq_refl) as (x & m2 & H1 & H2). exists x, m2. split; [by constructor|done].
  - subst. destruct (IH _ eq_refl) as (x & m2 & H1 & H2). exists x, m2. split; [by constructor|done].
Qed.

(** ** What others may do *)

(** Two memories with the same bytes in [F]. *)
Definition agree_on (F : Z -> Prop) (m m' : gmap Z Z) : Prop := forall x, F x -> rd8 m' x = rd8 m x.

Lemma agree_refl F m : agree_on F m m.
Proof. done. Qed.

Lemma agree_trans F m1 m2 m3 : agree_on F m1 m2 -> agree_on F m2 m3 -> agree_on F m1 m3.
Proof. intros H1 H2 x Hx. by rewrite H2, H1. Qed.

Definition cell4 (F : Z -> Prop) (a : Z) : Prop := F a /\ F (a + 1) /\ F (a + 2) /\ F (a + 3).

Lemma agree_rd32 F m m' a : agree_on F m m' -> cell4 F a -> rd32 m' a = rd32 m a.
Proof.
  intros H (H0 & H1 & H2 & H3). unfold rd32. f_equal. apply read_bytes_ext. intros x Hx. change (Z.of_nat 4) with 4 in Hx.
  apply H. assert (x = a \/ x = a + 1 \/ x = a + 2 \/ x = a + 3) as Hc by lia. by destruct Hc as [->|[->|[->| ->]]].
Qed.

Lemma agree_write_bytes F l : forall m m' a, agree_on F m m' -> agree_on F (write_bytes m a l) (write_bytes m' a l).
Proof.
  induction l as [|b l IH]; intros m m' a H; cbn; [done|]. apply IH. intros x Hx. unfold rd8, wr8.
  destruct (decide (x = a)) as [->|Hne]; [by rewrite !lookup_insert_eq|]. rewrite !lookup_insert_ne by done. by apply H.
Qed.

(** The accesses of this run are in [F]. *)
Fixpoint touches (F : Z -> Prop) {A} (p : fw A) (m : gmap Z Z) : Prop :=
  match p with
  | Pure _ => True
  | Load addr k => cell4 F addr /\ touches F (k (rd32 m addr)) m
  | Store addr v k => touches F k (wr32 m addr v)
  | Store8 addr v k => touches F k (wr8 m addr v)
  end.

Lemma fw_touches_bind F {A B} (p : fw A) (f : A -> fw B) : forall m,
  touches F p m -> touches F (f (fw_run p m).1) (fw_run p m).2 -> touches F (fw_bind p f) m.
Proof. induction p as [a|addr k IH|addr v k IH|addr v k IH]; intros m; cbn; [done| |auto..]. intros [? ?] ?. split; auto. Qed.

(** Whatever is done outside [F] between its accesses, a program whose reads are
    in [F] ends as if it had run alone, as far as [F] goes. *)
Lemma interleaved_agrees F {A} (p : fw A) m a m' : forall m0,
  interleaved (agree_on F) p m a m' -> agree_on F m0 m -> touches F p m0 ->
  (fw_run p m0).1 = a /\ agree_on F (fw_run p m0).2 m'.
Proof.
  intros m0 H. revert m0. induction H as [a m|addr k m a m' H IH|addr v k m a m' H IH|addr v k m a m' H IH|p m m1 a m' HE H IH];
    intros m0 Hm Ht; cbn [touches fw_run] in *.
  - done.
  - destruct Ht as [Hc Ht]. rewrite <- (agree_rd32 F m0 m addr Hm Hc) in Ht |- *. by apply IH.
  - apply IH; [by apply agree_write_bytes|done].
  - apply IH; [|done]. intros x Hx. unfold rd8, wr8. destruct (decide (x = addr)) as [->|Hne]; [by rewrite !lookup_insert_eq|].
    rewrite !lookup_insert_ne by done. by apply Hm.
  - apply IH; [by eapply agree_trans|done].
Qed.

(** ** Reads and writes of a program *)

(** Whatever 32-bit values it loads, the program loads from [R] and stores to
    [W]. *)
Fixpoint confined (R W : Z -> Prop) {A} (p : fw A) : Prop :=
  match p with
  | Pure _ => True
  | Load addr k => cell4 R addr /\ forall v, fits 32 v -> confined R W (k v)
  | Store addr v k => cell4 W addr /\ confined R W k
  | Store8 addr v k => W addr /\ is_byte v /\ confined R W k
  end.

Lemma confined_bind R W {A B} (p : fw A) (f : A -> fw B) :
  confined R W p -> (forall a, confined R W (f a)) -> confined R W (fw_bind p f).
Proof.
  intros Hp Hf. induction p as [a|addr k IH|addr v k IH|addr v k IH]; cbn in *; [done| | |]; destruct Hp as [H1 H2].
  - split; [done|]. intros v Hv. auto.
  - split; auto.
  - destruct H2. split_and!; auto.
Qed.

(** The continuation may rely on a loaded value being 32 bits wide. *)
Lemma confined_load R W {B} addr (f : Z -> fw B) :
  cell4 R addr -> (forall v, fits 32 v -> confined R W (f v)) -> confined R W (fw_bind (read_u32 addr) f).
Proof. cbn. auto. Qed.

Lemma confined_when R W b p : (b = true -> confined R W p) -> confined R W (fw_when b p).
Proof. destruct b; cbn; auto. Qed.

Lemma confined_each R W {A} (l : list A) body :
  (forall a, a ∈ l -> confined R W (body a)) -> confined R W (for_each_do l body).
Proof.
  induction l as [|a l IH]; intros H; cbn; [done|]. apply confined_bind; [apply H, list_elem_of_here|].
  intros _. apply IH. intros b Hb. by apply H, list_elem_of_further.
Qed.

Lemma confined_mono (R R' W W' : Z -> Prop) {A} (p : fw A) :
  (forall x, R x -> R' x) -> (forall x, W x -> W' x) -> confined R W p -> confined R' W' p.
Proof.
  intros HR HW. unfold cell4. induction p as [a|addr k IH|addr v k IH|addr v k IH]; cbn; [done| | |]; unfold cell4; naive_solver.
Qed.

Lemma confined_touches R W {A} (p : fw A) : forall m, mem_ok m -> confined R W p -> touches R p m.
Proof.
  induction p as [a|addr k IH|addr v k IH|addr v k IH]; intros m Hm Hp; cbn [confined touches] in *; [done| | |].
  - destruct Hp as [H1 H2]. split; [done|]. apply IH; [done|]. by apply H2, rd32_fits.
  - apply IH; [|apply Hp]. apply mem_ok_write_bytes; [done|apply le_bytes_are_bytes].
  - apply IH; [|apply Hp]. apply mem_ok_wr8; [done|apply Hp].
Qed.

Lemma confined_run R W {A} (p : fw A) : forall m, mem_ok m -> confined R W p ->
  mem_ok (fw_run p m).2 /\ forall x, ~ W x -> rd8 (fw_run p m).2 x = rd8 m x.
Proof.
  induction p as [a|addr k IH|addr v k IH|addr v k IH]; intros m Hm Hp; cbn [confined fw_run] in *; [done| | |].
  - apply IH; [done|]. by apply Hp, rd32_fits.
  - destruct Hp as [(H0 & H1 & H2 & H3) Hp]. destruct (IH (wr32 m addr v)) as [Hok Hout]; [apply mem_ok_write_bytes; [done|apply le_bytes_are_bytes]|done|].
    split; [done|]. intros x Hx. rewrite Hout by done. apply rd8_wr32_out.
    destruct (Z.lt_ge_cases x addr); [by left|]. destruct (Z.lt_ge_cases x (addr + 4)); [|by right].
    exfalso. apply Hx. assert (x = addr \/ x = addr + 1 \/ x = addr + 2 \/ x = addr + 3) as Hc by lia. by destruct Hc as [->|[->|[->| ->]]].
  - destruct Hp as (H0 & Hb & Hp). destruct (IH (wr8 m addr v)) as [Hok Hout]; [by apply mem_ok_wr8|done|].
    split; [done|]. intros x Hx. rewrite Hout by done. apply rd8_wr8_ne. by intros ->.
Qed.

Definition fw_mem {A} (p : fw A) (m : gmap Z Z) : gmap Z Z := (fw_run p m).2.

Lemma confined_mem_ok R W {A} (p : fw A) m : confined R W p -> mem_ok m -> mem_ok (fw_mem p m).
Proof. intros Hp Hm. by apply (confined_run R W p m). Qed.

(** A word clear of the stores. *)
Lemma confined_keeps R W {A} (p : fw A) m a :
  confined R W p -> mem_ok m -> ~ W a -> ~ W (a + 1) -> ~ W (a + 2) -> ~ W (a + 3) -> rd32 (fw_mem p m) a = rd32 m a.
Proof.
  intros Hp Hm H0 H1 H2 H3. unfold rd32. f_equal. apply read_bytes_ext. intros x Hx. change (Z.of_nat 4) with 4 in Hx.
  apply (confined_run R W p m Hm Hp). assert (x = a \/ x = a + 1 \/ x = a + 2 \/ x = a + 3) as Hc by lia. by destruct Hc as [->|[->|[->| ->]]].
Qed.

Lemma fw_mem_bind {A B} (p : fw A) (f : A -> fw B) m : fw_mem (fw_bind p f) m = fw_mem (f (fw_run p m).1) (fw_mem p m).
Proof. unfold fw_mem. by rewrite fw_run_bind. Qed.

(** ** Addresses without the wrap *)

Definition slot_ok (s : Z) : Prop := 0 <= s < NUM_SLOTS.

(** The numbers of the layout, for [lia]. *)
Ltac layout :=
  unfold slot_ok, NUM_SLOTS, NUM_L2CPUS, DEVS_PER_L2CPU, REGS_BASE, REGS_PER_DEV, SHADOW_BASE, SHADOW_PER_DEVICE, SHADOW_PER_QUEUE,
    MAX_QUEUES_PER_SLOT, SNAP_BASE_OFF, CTRL_BASE, CTRL_SIZE, CTRL_OFF_DIRTY, CTRL_OFF_HELLO, CTRL_OFF_HELLO_ACK, CTRL_OFF_ACTIVE_SLOTS,
    CTRL_OFF_ACTIVE_VIRTIO_SLOTS, STATS_BASE, STATS_SIZE, MMIO_MAGIC_VALUE, MMIO_VERSION, MMIO_DEVICE_ID, MMIO_VENDOR_ID, MMIO_DEVICE_FEATURES,
    MMIO_DEVICE_FEATURES_SEL, MMIO_SW_IMPL, MMIO_SEL_GENERATION, MMIO_DRIVER_FEATURES, MMIO_DRIVER_FEATURES_SEL, MMIO_QUEUE_SEL,
    MMIO_QUEUE_NUM_MAX, MMIO_QUEUE_NUM, MMIO_QUEUE_READY, MMIO_QUEUE_NOTIFY, MMIO_STATUS, MMIO_QUEUE_DESC_LOW, MMIO_QUEUE_DESC_HIGH,
    MMIO_QUEUE_DRIVER_LOW, MMIO_QUEUE_DRIVER_HIGH, MMIO_QUEUE_DEVICE_LOW, MMIO_QUEUE_DEVICE_HIGH, MMIO_CONFIG,
    SHADOW_Q_OFF_NUM, SHADOW_Q_OFF_READY, SHADOW_Q_OFF_DESC_LO, SHADOW_Q_OFF_DESC_HI, SHADOW_Q_OFF_DRIVER_LO, SHADOW_Q_OFF_DRIVER_HI,
    SHADOW_Q_OFF_DEVICE_LO, SHADOW_Q_OFF_DEVICE_HI, SNAP_OFF_STATUS, SNAP_OFF_QUEUE_SEL, SNAP_OFF_DRV_FEAT_SEL, SNAP_OFF_DRV_FEAT,
    SNAP_OFF_SEL_GEN_ECHO, STATS_OFF_STATUS_CHANGES, STATS_OFF_SEL_CHANGES, STATS_OFF_NOTIFY_EVENTS, STATS_OFF_READY_EVENTS,
    STATS_OFF_LAST_NOTIFY, STATS_OFF_SEL_READY_RACES, STATS_OFF_READY_CAPTURE_SEL_RACES, STATS_OFF_QUEUE_SETUPS, STATS_OFF_QUEUE_TEARDOWNS,
    STATS_OFF_BRISC_OLD_SEL_RESCUE, STATS_OFF_MAX_SEL_PATH_CYCLES, STATS_OFF_DEV_FEAT_SEL_CHANGES, fits in *.
Ltac l1_lia := layout; lia.

Lemma reg_addr_eq s off : slot_ok s -> 0 <= off < REGS_PER_DEV -> reg_addr s off = 0x10000 + s * 0x1000 + off.
Proof. intros Hs Ho. unfold reg_addr. apply wrap_small. l1_lia. Qed.

Lemma shadow_addr_eq s off : slot_ok s -> 0 <= off < SHADOW_PER_DEVICE -> shadow_addr s off = 0x30000 + s * 0x400 + off.
Proof. intros Hs Ho. unfold shadow_addr. apply wrap_small. l1_lia. Qed.

Lemma shadow_q_eq s q off :
  slot_ok s -> 0 <= q < MAX_QUEUES_PER_SLOT -> 0 <= off < SHADOW_PER_QUEUE ->
  fw_shadow_queue_addr s q off = 0x30000 + s * 0x400 + q * 0x40 + off.
Proof.
  intros Hs Hq Ho. unfold fw_shadow_queue_addr.
  replace (u32 (q * SHADOW_PER_QUEUE + off)) with (q * SHADOW_PER_QUEUE + off) by (symmetry; apply wrap_small; l1_lia).
  rewrite shadow_addr_eq by (done || l1_lia). l1_lia.
Qed.

Lemma snap_eq s off : slot_ok s -> 0 <= off < 0x40 -> fw_snap_addr s off = 0x30000 + s * 0x400 + 0x200 + off.
Proof. intros Hs Ho. unfold fw_snap_addr. rewrite shadow_addr_eq by (done || l1_lia). l1_lia. Qed.

Lemma ctrl_eq off : 0 <= off < CTRL_SIZE -> ctrl_addr off = 0x5000 + off.
Proof. intros Ho. unfold ctrl_addr. apply wrap_small. l1_lia. Qed.

Lemma dirty_eq s q : slot_ok s -> 0 <= q < MAX_QUEUES_PER_SLOT -> dirty_byte_addr s q = 0x5100 + s * 8 + q.
Proof. intros Hs Hq. unfold dirty_byte_addr. etransitivity; [apply wrap_small; l1_lia|l1_lia]. Qed.

(** The two sides agree_on on where things are. *)
Lemma shadow_addr_daemon s q off :
  slot_ok s -> 0 <= q < MAX_QUEUES_PER_SLOT -> 0 <= off < SHADOW_PER_QUEUE -> shadow_queue_addr s q off = fw_shadow_queue_addr s q off.
Proof.
  intros Hs Hq Ho. rewrite shadow_q_eq by done. unfold shadow_queue_addr. apply wrap_small. l1_lia.
Qed.

(** ** The cells of a slot *)

(** Bytes [lo .. hi - 1] of the register file and of the shadow. *)
Definition in_regs (s lo hi x : Z) : Prop := 0x10000 + s * 0x1000 + lo <= x < 0x10000 + s * 0x1000 + hi.
Definition in_shadow (s lo hi x : Z) : Prop := 0x30000 + s * 0x400 + lo <= x < 0x30000 + s * 0x400 + hi.
Definition in_dirty (s x : Z) : Prop := 0x5100 + s * 8 <= x < 0x5100 + s * 8 + 8.
(** The counters of BRISC. *)
Definition in_stats (x : Z) : Prop := 0x4010 <= x < 0x4038 \/ 0x4048 <= x < 0x404c.

(** What a poll of the slot depends on: the registers a driver writes (without
    the feature selector, which is TRISC2's), the shadow, the counters; and the
    dirty bytes. *)
Definition slot_cells (s x : Z) : Prop := in_regs s 0x1c 0x100 x \/ in_shadow s 0 0x400 x \/ in_dirty s x \/ in_stats x.

(** What a poll may write: neither the status register nor the device
    configuration, nothing of another slot. *)
Definition slot_writes (s x : Z) : Prop :=
  in_regs s 0 0x70 x \/ in_regs s 0x74 0x100 x \/ in_shadow s 0 0x400 x \/ in_dirty s x \/ in_stats x.

Ltac l1_addrs := rewrite ?reg_addr_eq, ?shadow_q_eq, ?snap_eq, ?ctrl_eq, ?shadow_addr_eq by (done || l1_lia).
Ltac in_cells := l1_addrs; unfold cell4, slot_cells, slot_writes, in_regs, in_shadow, in_dirty, in_stats; l1_lia.

Ltac confine :=
  repeat match goal with
  | |- confined _ _ (Pure _) => exact I
  | |- confined _ _ (fw_bind (read_u32 _) _) => apply confined_load; [|intros ? ?]
  | |- confined _ _ (fw_bind _ _) => apply confined_bind; [|intros ?]
  | |- confined _ _ (fw_when _ _) => apply confined_when; intros ?
  | |- confined _ _ (if ?b then _ else _) => destruct b eqn:?
  | |- confined _ _ (read_u32 _) => split; [|done]
  | |- confined _ _ (store_u32 _ _) => split; [|exact I]
  | |- confined _ _ (write_u32 _ _) => split; [|exact I]
  | |- confined _ _ (Store8 _ _ _) => split; [|split; [split; done|exact I]]
  | |- confined _ _ (inc_stat _) => unfold inc_stat
  | |- confined _ _ (update_max_u32 _ _) => unfold update_max_u32
  | |- confined _ _ (for_each_do _ _) => apply confined_each; intros ? ?
  end.

Lemma zero_words_confined R W n : forall base,
  (forall x, base <= x < base + 4 * Z.of_nat n -> W x) -> confined R W (zero_words n base).
Proof.
  induction n as [|n IH]; intros base H; [exact I|]. cbn [zero_words]. confine.
  - unfold cell4. split_and!; apply H; lia.
  - apply IH. intros x Hx. apply H. lia.
Qed.

Lemma zero_region_confined (R W : Z -> Prop) base size :
  0 <= size -> (forall x, base <= x < base + size -> W x) -> confined R W (zero_region base size).
Proof.
  intros Hs H. apply zero_words_confined. intros x Hx. apply H. rewrite Z2Nat.id in Hx by (apply Z.div_pos; lia).
  pose proof (Z.mul_div_le size 4 ltac:(lia)). lia.
Qed.

Lemma upto_spec n x : x ∈ upto n <-> 0 <= x < n.
Proof.
  unfold upto. rewrite list_elem_of_In, in_map_iff. split.
  - intros (k & <- & Hk%in_seq). lia.
  - intros Hx. exists (Z.to_nat x). split; [lia|]. apply in_seq. lia.
Qed.

Lemma num_queues_bound s : 0 <= di_num_queues (device_for_slot s) <= 2.
Proof.
  unfold device_for_slot. pose proof (Z.mod_pos_bound s DEVS_PER_L2CPU ltac:(done)) as H. unfold DEVS_PER_L2CPU in *.
  assert (s mod 8 = 0 \/ s mod 8 = 1 \/ s mod 8 = 2 \/ s mod 8 = 3 \/ s mod 8 = 4 \/ s mod 8 = 5 \/ s mod 8 = 6 \/ s mod 8 = 7) as Hc by lia.
  by destruct Hc as [->|[->|[->|[->|[->|[->|[->| ->]]]]]]].
Qed.

Section slot.
Variable s : Z.
Hypothesis Hs : slot_ok s.

Lemma init_device_confined : confined (slot_cells s) (slot_writes s) (init_device s).
Proof.
  unfold init_device. cbv zeta. pose proof (num_queues_bound s). confine.
  all: try match goal with Hq : _ ∈ upto _ |- _ => apply upto_spec in Hq end.
  all: try (apply zero_region_confined; [done|intros x Hx; revert Hx]).
  all: try in_cells.
Qed.

Lemma capture_confined fields :
  Forall (fun f => 0x38 <= f.1 < 0xfd) fields -> confined (in_regs s 0x38 0x100) (fun _ => False) (capture s fields).
Proof.
  induction 1 as [|[mmio off] fields Hf _ IH]; cbn [capture]; confine; [|done]. cbn in Hf. in_cells.
Qed.

Lemma commit_confined q fields : forall cap,
  0 <= q < MAX_QUEUES_PER_SLOT -> Forall (fun f => 0 <= f.2 < 0x3d) fields ->
  confined (fun _ => False) (in_shadow s (q * 0x40) (q * 0x40 + 0x40)) (commit s q fields cap).
Proof.
  induction fields as [|[mmio off] fields IH]; intros cap Hq Hf; [done|]. apply Forall_cons in Hf as [Hf Hfs].
  destruct cap; cbn [commit]; confine; [cbn in Hf; in_cells|by apply IH].
Qed.

Lemma fields_regs : Forall (fun f => 0x38 <= f.1 < 0xfd) FIELDS.
Proof. apply (bool_decide_unpack _). reflexivity. Qed.
Lemma fields_shadow : Forall (fun f => 0 <= f.2 < 0x3d) FIELDS.
Proof. apply (bool_decide_unpack _). reflexivity. Qed.

Lemma capture_in (R W : Z -> Prop) : (forall x, in_regs s 0x38 0x100 x -> R x) -> confined R W (capture s FIELDS).
Proof. intros H. eapply confined_mono; [exact H| |apply capture_confined, fields_regs]. done. Qed.

Lemma commit_in (R W : Z -> Prop) q cap :
  0 <= q < MAX_QUEUES_PER_SLOT -> (forall x, in_shadow s (q * 0x40) (q * 0x40 + 0x40) x -> W x) -> confined R W (commit s q FIELDS cap).
Proof. intros Hq H. eapply confined_mono; [|exact H|by apply commit_confined, fields_shadow]. done. Qed.

(** Where a change of the selector writes, of which [old] was the queue. *)
Definition sel_writes (x : Z) : Prop :=
  in_regs s 0x34 0x3c x \/ in_regs s 0x44 0x48 x \/ in_shadow s 0 0x208 x /\ ~ in_shadow s 0x200 0x204 x \/ in_stats x.

Lemma rescue_confined old sel :
  fits 32 old ->
  confined (slot_cells s) (fun x => in_shadow s (old * 0x40) (old * 0x40 + 0x40) x /\ 0 <= old < 8 \/ in_stats x) (rescue s old sel).
Proof.
  intros Ho. unfold rescue. confine.
  all: try (apply capture_in; intros x; in_cells).
  all: try (apply commit_in; [l1_lia|intros x Hx; left; split; [done|l1_lia]]).
  all: in_cells.
Qed.

Lemma sel_change_confined dt old sel :
  fits 32 old -> fits 32 sel -> confined (slot_cells s) sel_writes (handle_queue_sel_change dt s old sel).
Proof.
  intros Ho Hsel. unfold handle_queue_sel_change. confine.
  all: try (eapply confined_mono; [| |by apply rescue_confined]; [done|]; cbn beta; intros x).
  all: unfold sel_writes; in_cells.
Qed.

Definition ready_writes (sel x : Z) : Prop := in_shadow s (sel * 0x40) (sel * 0x40 + 0x40) x \/ in_stats x.

Lemma ready_change_confined sel ready :
  0 <= sel < MAX_QUEUES_PER_SLOT -> confined (slot_cells s) (ready_writes sel) (handle_queue_ready_change s sel ready).
Proof.
  intros Hsel. unfold handle_queue_ready_change. confine.
  all: try (apply capture_in; intros x; in_cells).
  all: try (apply commit_in; [done|intros x; by left]).
  all: unfold ready_writes; in_cells.
Qed.

End slot.

(** ** One poll of a slot *)

Section poll.
Variable s : Z.
Hypothesis Hs : slot_ok s.

(** The visible registers and the remembered ones. *)
Definition reg (m : gmap Z Z) (off : Z) : Z := rd32 m (reg_addr s off).
Definition snap (m : gmap Z Z) (off : Z) : Z := rd32 m (fw_snap_addr s off).
Definition shadow (m : gmap Z Z) (q off : Z) : Z := rd32 m (fw_shadow_queue_addr s q off).

(** [p] leaves the bytes outside [W] alone. *)
Definition leaves (W : Z -> Prop) (m m' : gmap Z Z) : Prop := mem_ok m' /\ forall x, ~ W x -> rd8 m' x = rd8 m x.

Lemma confined_leaves R W {A} (p : fw A) m : confined R W p -> mem_ok m -> leaves W m (fw_mem p m).
Proof. intros Hp Hm. by apply (confined_run R W p m). Qed.

Lemma leaves_rd32 W m m' a :
  leaves W m m' -> ~ W a -> ~ W (a + 1) -> ~ W (a + 2) -> ~ W (a + 3) -> rd32 m' a = rd32 m a.
Proof.
  intros [_ H] H0 H1 H2 H3. unfold rd32. f_equal. apply read_bytes_ext. intros x Hx. change (Z.of_nat 4) with 4 in Hx.
  apply H. assert (x = a \/ x = a + 1 \/ x = a + 2 \/ x = a + 3) as Hc by lia. by destruct Hc as [->|[->|[->| ->]]].
Qed.

Lemma leaves_trans (W1 W2 W : Z -> Prop) m1 m2 m3 :
  leaves W1 m1 m2 -> leaves W2 m2 m3 -> (forall x, W1 x -> W x) -> (forall x, W2 x -> W x) -> leaves W m1 m3.
Proof. intros [_ H1] [Ho H2] S1 S2. split; [done|]. intros x Hx. rewrite H2, H1; [done|auto..]. Qed.

Lemma leaves_refl W m : mem_ok m -> leaves W m m.
Proof. by split. Qed.

Ltac kept H := rewrite (leaves_rd32 _ _ _ _ H) by in_cells.

Definition status_writes (x : Z) : Prop := in_shadow s 0x200 0x204 x \/ in_stats x.

(** Of a driver that is not resetting the device, the status is remembered. *)
Lemma poll_status_spec m :
  mem_ok m -> reg m MMIO_STATUS <> 0 ->
  (fw_run (poll_status s) m).1 = false /\ leaves status_writes m (fw_mem (poll_status s) m) /\
  snap (fw_mem (poll_status s) m) SNAP_OFF_STATUS = reg m MMIO_STATUS.
Proof.
  intros Hm Hst. unfold poll_status, fw_mem. cbn [fw_run fw_bind read_u32]. fold (reg m MMIO_STATUS) (snap m SNAP_OFF_STATUS).
  destruct (Z.eqb_spec (reg m MMIO_STATUS) (snap m SNAP_OFF_STATUS)) as [E|E]; [split; [done|]; split; [by apply leaves_refl|done]|].
  unfold handle_status_change. rewrite (proj2 (Z.eqb_neq _ _) Hst). cbn [fw_when fw_bind fw_run inc_stat read_u32 store_u32 fst snd].
  split; [done|]. split.
  - apply (confined_leaves (slot_cells s) status_writes
      (inc_stat STATS_OFF_STATUS_CHANGES ;; store_u32 (fw_snap_addr s SNAP_OFF_STATUS) (reg m MMIO_STATUS))%fw m); [|done].
    confine; unfold status_writes; in_cells.
  - unfold snap. rewrite rd32_wr32_eq; [done|by apply rd32_fits].
Qed.

Definition poll_sel_writes (x : Z) : Prop := sel_writes s x.

Lemma poll_sel_spec dt m :
  mem_ok m ->
  (fw_run (poll_sel dt s) m).1 = reg m MMIO_QUEUE_SEL /\ leaves poll_sel_writes m (fw_mem (poll_sel dt s) m) /\
  snap (fw_mem (poll_sel dt s) m) SNAP_OFF_QUEUE_SEL = reg m MMIO_QUEUE_SEL /\
  (reg m MMIO_QUEUE_SEL = snap m SNAP_OFF_QUEUE_SEL -> fw_mem (poll_sel dt s) m = m).
Proof.
  intros Hm. unfold poll_sel, fw_mem. cbn [fw_run fw_bind read_u32]. fold (reg m MMIO_QUEUE_SEL) (snap m SNAP_OFF_QUEUE_SEL).
  assert (Fq : fits 32 (reg m MMIO_QUEUE_SEL)) by by apply rd32_fits.
  assert (Fp : fits 32 (snap m SNAP_OFF_QUEUE_SEL)) by by apply rd32_fits.
  destruct (Z.eqb_spec (reg m MMIO_QUEUE_SEL) (snap m SNAP_OFF_QUEUE_SEL)) as [E|E]; cbn [negb fw_when fw_bind fw_run].
  { split; [done|]. split; [by apply leaves_refl|]. by rewrite E. }
  set (p := (handle_queue_sel_change dt s (snap m SNAP_OFF_QUEUE_SEL) (reg m MMIO_QUEUE_SEL) ;;
             store_u32 (fw_snap_addr s SNAP_OFF_QUEUE_SEL) (reg m MMIO_QUEUE_SEL))%fw).
  assert (Hp : confined (slot_cells s) poll_sel_writes p).
  { unfold p. confine; [by apply sel_change_confined|]. unfold poll_sel_writes, sel_writes. in_cells. }
  rewrite fw_run_bind. cbn [fw_run fst snd]. split; [done|]. split; [by apply (confined_leaves (slot_cells s) poll_sel_writes p)|]. split; [|done].
  unfold p. rewrite fw_run_bind. cbn [fw_run store_u32 snd]. unfold snap. by rewrite rd32_wr32_eq.
Qed.

(** The values a capture reads. *)
Lemma capture_reads fields : forall m, fw_run (capture s fields) m = (List.map (fun f => reg m f.1) fields, m).
Proof.
  induction fields as [|[mmio off] fields IH]; intros m; [done|]. cbn [capture fw_bind read_u32 fw_run].
  rewrite fw_run_bind, IH. done.
Qed.

(** A commit leaves each field's value in its place. *)
Lemma commit_fields q caps : forall fields m,
  0 <= q < MAX_QUEUES_PER_SLOT -> Forall (fun f => 0 <= f.2 < 0x3d /\ f.2 mod 4 = 0) fields -> NoDup (List.map snd fields) ->
  length caps = length fields -> Forall (fits 32) caps ->
  forall k f v, fields !! k = Some f -> caps !! k = Some v -> shadow (fw_mem (commit s q fields caps) m) q f.2 = v.
Proof.
  induction caps as [|c caps IH]; intros [|[mmio off] fields] m Hq Hf Hn Hl Hc k f v Hk Hv; [done..|].
  apply Forall_cons in Hf as [[Hf Hd] Hfs]. apply Forall_cons in Hc as [Hc Hcs]. cbn [List.map snd] in *. apply NoDup_cons in Hn as [Hni Hn].
  cbn [commit]. rewrite fw_mem_bind. cbn [fw_run store_u32 fst]. unfold fw_mem at 2. cbn [fw_run store_u32 snd].
  destruct k as [|k]; cbn in Hk, Hv.
  - simplify_eq. cbn [snd]. unfold shadow, fw_mem.
    assert (Hkeep : forall fs vs m0, Forall (fun f => 0 <= f.2 < 0x3d /\ f.2 mod 4 = 0) fs -> off ∉ List.map snd fs ->
      rd32 (fw_run (commit s q fs vs) m0).2 (fw_shadow_queue_addr s q off) = rd32 m0 (fw_shadow_queue_addr s q off)).
    { clear -Hs Hq Hf Hd. induction fs as [|[mm o] fs IHf]; intros vs m0 HF Hno; [done|]. destruct vs as [|x vs]; [done|].
      apply Forall_cons in HF as [[HF1 HF2] HF]. cbn [List.map snd] in Hno. apply not_elem_of_cons in Hno as [Hne Hno].
      cbn [commit fw_bind store_u32 fw_run]. rewrite IHf by done. apply rd32_wr32_out. cbn [snd] in *.
      rewrite !shadow_q_eq by (done || l1_lia). Z.div_mod_to_equations. lia. }
    rewrite Hkeep by done. by rewrite rd32_wr32_eq.
  - apply (IH fields _ Hq Hfs Hn) with (k := k); [by injection Hl|done..].
Qed.

(** What the shadow of queue [q] holds when the driver's registers were
    captured. *)
Definition captured (m0 m : gmap Z Z) (q : Z) : Prop := forall f, f ∈ FIELDS -> shadow m q f.2 = reg m0 f.1.

Lemma fields_places : Forall (fun f => 0 <= f.2 < 0x3d /\ f.2 mod 4 = 0 /\ f.2 <> SHADOW_Q_OFF_READY) FIELDS.
Proof. apply (bool_decide_unpack _). reflexivity. Qed.

Lemma fields_nodup : NoDup (List.map snd FIELDS).
Proof. apply (bool_decide_unpack _). reflexivity. Qed.

Lemma commit_captured m0 m q :
  mem_ok m0 -> 0 <= q < MAX_QUEUES_PER_SLOT -> captured m0 (fw_mem (commit s q FIELDS (List.map (fun f => reg m0 f.1) FIELDS)) m) q.
Proof.
  intros Hm Hq f [k Hk]%list_elem_of_lookup. eapply commit_fields; [done| |apply fields_nodup|by rewrite length_map| |exact Hk|].
  - eapply Forall_impl; [apply fields_places|]. cbn. tauto.
  - apply Forall_map, Forall_true. intros g. by apply rd32_fits.
  - by rewrite list_lookup_fmap, Hk.
Qed.

(** The capture part, when the queue is still selected. *)
Lemma capture_part m q :
  reg m MMIO_QUEUE_SEL = q ->
  fw_mem (let* cap := capture s FIELDS in
          let* sel_post := read_u32 (reg_addr s MMIO_QUEUE_SEL) in
          if sel_post =? q then
            commit s q FIELDS cap ;;
            let* _ := read_u32 (fw_shadow_queue_addr s q SHADOW_Q_OFF_DEVICE_HI) in
            inc_stat STATS_OFF_QUEUE_SETUPS
          else inc_stat STATS_OFF_READY_CAPTURE_SEL_RACES)%fw m =
  fw_mem (inc_stat STATS_OFF_QUEUE_SETUPS) (fw_mem (commit s q FIELDS (List.map (fun f => reg m f.1) FIELDS)) m).
Proof.
  intros Hsel. rewrite fw_mem_bind. unfold fw_mem at 2. rewrite capture_reads. cbn [fst snd].
  unfold fw_mem at 1. cbn [fw_bind read_u32 fw_run]. fold (reg m MMIO_QUEUE_SEL). rewrite Hsel, Z.eqb_refl.
  rewrite fw_run_bind. done.
Qed.

Definition poll_ready_writes (sel x : Z) : Prop := ready_writes s sel x \/ in_regs s 0x44 0x48 x.

(** Stores clear of the fields keep a capture. *)
Lemma captured_leaves W m0 m m' q :
  0 <= q < MAX_QUEUES_PER_SLOT -> captured m0 m q -> leaves W m m' ->
  (forall x, in_shadow s (q * 0x40) (q * 0x40 + 4) x \/ in_shadow s (q * 0x40 + 8) (q * 0x40 + 0x40) x -> ~ W x) -> captured m0 m' q.
Proof.
  intros Hq Hc HW HN f Hf. rewrite <- (Hc f Hf). unfold shadow.
  pose proof (proj1 (Forall_forall _ _) fields_places f Hf) as (H1 & H2 & H3). unfold SHADOW_Q_OFF_READY in H3.
  rewrite shadow_q_eq by (done || l1_lia).
  apply (leaves_rd32 W); [done|..]; apply HN; unfold in_shadow; Z.div_mod_to_equations; lia.
Qed.

(** A READY that is seen with its queue still selected captures the queue. *)
Lemma ready_change_spec m q ready :
  mem_ok m -> 0 <= q < MAX_QUEUES_PER_SLOT -> reg m MMIO_QUEUE_SEL = q -> fits 32 ready -> ready <> 0 ->
  let m' := fw_mem (handle_queue_ready_change s q ready) m in
  captured m m' q /\ shadow m' q SHADOW_Q_OFF_READY = ready.
Proof.
  intros Hm Hq Hsel Hf Hr m'. unfold m', handle_queue_ready_change.
  rewrite (proj2 (Z.ltb_lt q _)) by apply Hq. cbn [fw_when]. rewrite (proj2 (Z.eqb_neq ready 0) Hr). cbn [negb fw_when].
  rewrite fw_mem_bind, capture_part by done. set (mc := fw_mem (commit _ _ _ _) m).
  assert (Hmc : mem_ok mc) by (eapply confined_mem_ok; [apply (commit_in s Hs (fun _ => False) (fun _ => True)); done|done]).
  set (tail := (store_u32 _ _ ;; _)%fw).
  assert (HL : leaves (fun x => in_stats x \/ in_shadow s (q * 0x40 + 4) (q * 0x40 + 8) x) mc (fw_mem tail (fw_mem (inc_stat STATS_OFF_QUEUE_SETUPS) mc))).
  { rewrite <- (fw_mem_bind (inc_stat STATS_OFF_QUEUE_SETUPS) (fun _ => tail)). apply (confined_leaves (slot_cells s)); [|done].
    unfold tail. confine; in_cells. }
  split.
  - eapply captured_leaves; [done|by apply commit_captured|exact HL|]. intros x. in_cells.
  - unfold tail, fw_mem. cbn [fw_bind store_u32 fw_run fw_when inc_stat read_u32 snd]. unfold shadow.
    rewrite rd32_wr32_out by in_cells. by rewrite rd32_wr32_eq.
Qed.

Lemma poll_ready_spec m q :
  mem_ok m -> reg m MMIO_QUEUE_SEL = q -> fits 32 q ->
  let m' := fw_mem (poll_ready s q) m in
  leaves (fun x => poll_ready_writes q x /\ q < MAX_QUEUES_PER_SLOT \/ in_regs s 0x44 0x48 x) m m' /\ reg m' MMIO_QUEUE_READY = 0 /\
  (reg m MMIO_QUEUE_READY = 0 -> m' = m) /\
  (reg m MMIO_QUEUE_READY <> 0 -> q < MAX_QUEUES_PER_SLOT ->
     captured m m' q /\ shadow m' q SHADOW_Q_OFF_READY = reg m MMIO_QUEUE_READY).
Proof.
  intros Hm Hsel Fq m'. unfold m', poll_ready, fw_mem. cbn [fw_bind read_u32 fw_run]. fold (reg m MMIO_QUEUE_READY).
  assert (Fr : fits 32 (reg m MMIO_QUEUE_READY)) by by apply rd32_fits.
  destruct (Z.eqb_spec (reg m MMIO_QUEUE_READY) 0) as [E|E]; cbn [negb fw_when].
  { cbn [fw_run snd]. split; [by apply leaves_refl|]. done. }
  fold (fw_mem (handle_queue_ready_change s q (reg m MMIO_QUEUE_READY) ;; store_u32 (reg_addr s MMIO_QUEUE_READY) 0)%fw m).
  set (p := (handle_queue_ready_change _ _ _ ;; _)%fw). assert (Hr0 : reg (fw_mem p m) MMIO_QUEUE_READY = 0).
  { unfold p. rewrite fw_mem_bind. unfold fw_mem at 1. cbn [store_u32 fw_run snd]. unfold reg. by rewrite rd32_wr32_eq. }
  destruct (decide (q < MAX_QUEUES_PER_SLOT)) as [Hlt|Hge].
  - assert (Hq : 0 <= q < MAX_QUEUES_PER_SLOT) by l1_lia.
    split.
    { apply (confined_leaves (slot_cells s)); [|done]. unfold p. confine; [|unfold poll_ready_writes; in_cells].
      eapply confined_mono; [| |by apply ready_change_confined]; [done|]. unfold poll_ready_writes. auto. }
    split; [done|]. split; [done|]. intros _ _. destruct (ready_change_spec m q _ Hm Hq Hsel Fr E) as [H1 H2].
    assert (HL : leaves (in_regs s 0x44 0x48) (fw_mem (handle_queue_ready_change s q (reg m MMIO_QUEUE_READY)) m) (fw_mem p m)).
    { unfold p. rewrite fw_mem_bind. apply (confined_leaves (fun _ => True)); [confine; in_cells|].
      eapply confined_mem_ok; [by apply ready_change_confined|done]. }
    split.
    + eapply captured_leaves; [done|exact H1|exact HL|]. intros x. in_cells.
    + rewrite <- H2. unfold shadow. apply (leaves_rd32 _ _ _ _ HL); in_cells.
  - assert (Hp : fw_mem p m = fw_mem (store_u32 (reg_addr s MMIO_QUEUE_READY) 0) m).
    { unfold p. rewrite fw_mem_bind. f_equal. unfold handle_queue_ready_change. by replace (q <? MAX_QUEUES_PER_SLOT) with false by lia. }
    split; [|done]. rewrite Hp. apply (confined_leaves (fun _ => True)); [confine; in_cells|done].
Qed.

Definition notify_writes (x : Z) : Prop := in_dirty s x \/ in_stats x \/ in_regs s 0x50 0x54 x.

Lemma poll_notify_spec m :
  mem_ok m ->
  let q := reg m MMIO_QUEUE_NOTIFY in
  let m' := fw_mem (poll_notify s) m in
  leaves notify_writes m m' /\ reg m' MMIO_QUEUE_NOTIFY = FW_SENTINEL /\
  (q < MAX_QUEUES_PER_SLOT -> rd8 m' (dirty_byte_addr s q) = 1) /\
  (forall x, in_dirty s x -> (q = FW_SENTINEL \/ x <> dirty_byte_addr s q) -> rd8 m' x = rd8 m x).
Proof.
  intros Hm q m'. unfold m', poll_notify, fw_mem. cbn [fw_bind read_u32 fw_run]. fold (reg m MMIO_QUEUE_NOTIFY). fold q.
  assert (Fq : fits 32 q) by by apply rd32_fits.
  destruct (Z.eqb_spec q FW_SENTINEL) as [E|E]; cbn [negb fw_when].
  { cbn [fw_run snd]. split; [by apply leaves_refl|]. split; [done|]. split; [|done]. rewrite E. done. }
  fold (fw_mem (handle_queue_notify s q ;; write_u32 (reg_addr s MMIO_QUEUE_NOTIFY) FW_SENTINEL)%fw m).
  set (p := (handle_queue_notify _ _ ;; _)%fw).
  split; [|split].
  - apply (confined_leaves (slot_cells s)); [|done]. unfold p, handle_queue_notify. confine; unfold notify_writes; in_cells.
  - unfold p. rewrite fw_mem_bind. unfold fw_mem at 1. cbn [write_u32 fw_run snd]. unfold reg. by rewrite rd32_wr32_eq.
  - unfold p, handle_queue_notify. destruct (Z.ltb_spec q MAX_QUEUES_PER_SLOT) as [Hlt|Hge].
    + assert (Ed : ctrl_addr (CTRL_OFF_DIRTY + s * MAX_QUEUES_PER_SLOT + q) = 0x5100 + s * 8 + q) by (rewrite ctrl_eq by l1_lia; l1_lia).
      assert (Ed' : dirty_byte_addr s q = 0x5100 + s * 8 + q) by (apply dirty_eq; [done|l1_lia]).
      unfold fw_mem. cbn [fw_when fw_bind store_u32 write_u32 inc_stat read_u32 fw_run snd]. rewrite Ed, Ed'. split.
      * intros _. rewrite !rd8_wr32_out by in_cells. apply rd8_wr8_eq.
      * intros x Hx [?|Hne]; [done|]. unfold in_dirty in Hx. rewrite !rd8_wr32_out by in_cells. rewrite rd8_wr8_ne by done.
        by rewrite rd8_wr32_out by in_cells.
    + split; [lia|]. intros x Hx _. unfold in_dirty in Hx. unfold fw_mem. cbn [fw_when fw_bind store_u32 write_u32 inc_stat read_u32 fw_run snd].
      by rewrite !rd8_wr32_out by in_cells.
Qed.

Definition rest_writes (x : Z) : Prop := in_shadow s 0x230 0x23c x \/ in_regs s 0x1c 0x20 x.

(** The registers that are only remembered, and the echo. *)
Definition poll_rest : fw unit :=
  (snap_register s MMIO_DRIVER_FEATURES_SEL SNAP_OFF_DRV_FEAT_SEL ;;
   snap_register s MMIO_DRIVER_FEATURES SNAP_OFF_DRV_FEAT ;;
   echo_sel_generation s)%fw.

Lemma poll_rest_leaves m : mem_ok m -> leaves rest_writes m (fw_mem poll_rest m).
Proof.
  intros Hm. apply (confined_leaves (slot_cells s)); [|done]. unfold poll_rest, snap_register, echo_sel_generation.
  confine; unfold rest_writes; in_cells.
Qed.

(** A poll is its parts. *)
Lemma poll_parts dt m :
  fw_mem (poll_one_device dt s) m =
  fw_mem poll_rest (fw_mem (poll_notify s)
    (fw_mem (poll_ready s (fw_run (poll_sel dt s) (fw_mem (poll_status s) m)).1) (fw_mem (poll_sel dt s) (fw_mem (poll_status s) m)))).
Proof. unfold poll_one_device, poll_rest. rewrite !fw_mem_bind. unfold fw_mem at 1. cbn [fw_run snd]. reflexivity. Qed.

Lemma poll_status_confined : confined (slot_cells s) (slot_writes s) (poll_status s).
Proof.
  unfold poll_status, handle_status_change. confine; [..|in_cells];
    (match goal with |- confined _ _ (init_device _) => by apply init_device_confined | _ => in_cells end).
Qed.

Lemma poll_sel_confined dt : confined (slot_cells s) (slot_writes s) (poll_sel dt s).
Proof.
  unfold poll_sel. confine; try in_cells. eapply confined_mono; [| |by apply sel_change_confined]; [done|].
  intros x. unfold sel_writes. in_cells.
Qed.

Lemma poll_ready_confined sel : fits 32 sel -> confined (slot_cells s) (slot_writes s) (poll_ready s sel).
Proof.
  intros Hf. unfold poll_ready. confine; try in_cells. destruct (decide (sel < MAX_QUEUES_PER_SLOT)) as [Hlt|Hge].
  - assert (0 <= sel < MAX_QUEUES_PER_SLOT) by l1_lia. eapply confined_mono; [| |by apply ready_change_confined]; [done|]. intros x. unfold ready_writes. in_cells.
  - unfold handle_queue_ready_change. by replace (sel <? MAX_QUEUES_PER_SLOT) with false by lia.
Qed.

Lemma poll_notify_confined : confined (slot_cells s) (slot_writes s) (poll_notify s).
Proof. unfold poll_notify, handle_queue_notify. confine; in_cells. Qed.

Lemma poll_rest_confined : confined (slot_cells s) (slot_writes s) poll_rest.
Proof. unfold poll_rest, snap_register, echo_sel_generation. confine; in_cells. Qed.

(** A poll, whatever the guest wrote, reads and writes the slot's cells only, and
    the status and the configuration are the driver's. *)
Lemma poll_frame dt m :
  mem_ok m -> touches (slot_cells s) (poll_one_device dt s) m /\ leaves (slot_writes s) m (fw_mem (poll_one_device dt s) m).
Proof.
  intros Hm. unfold poll_one_device.
  assert (H1 := confined_run _ _ _ _ Hm poll_status_confined). destruct H1 as [M1 L1].
  assert (H2 := confined_run _ _ _ _ M1 (poll_sel_confined dt)). destruct H2 as [M2 L2].
  destruct (poll_sel_spec dt _ M1) as [E2 _].
  assert (F2 : fits 32 (fw_run (poll_sel dt s) (fw_run (poll_status s) m).2).1) by (rewrite E2; by apply rd32_fits).
  set (tail := fun fired => (poll_notify s ;; snap_register s MMIO_DRIVER_FEATURES_SEL SNAP_OFF_DRV_FEAT_SEL ;;
     snap_register s MMIO_DRIVER_FEATURES SNAP_OFF_DRV_FEAT ;; echo_sel_generation s ;; Pure (A := bool) fired)%fw).
  assert (Ht : forall fired, confined (slot_cells s) (slot_writes s) (tail fired)).
  { intros fired. unfold tail. apply confined_bind; [apply poll_notify_confined|]. intros _.
    unfold snap_register, echo_sel_generation. confine; in_cells. }
  assert (H3 := confined_run _ _ _ _ M2 (poll_ready_confined _ F2)). destruct H3 as [M3 L3].
  split.
  - apply fw_touches_bind; [by apply (confined_touches _ (slot_writes s)), poll_status_confined|].
    apply fw_touches_bind; [by apply (confined_touches _ (slot_writes s)), poll_sel_confined|].
    apply fw_touches_bind; [by apply (confined_touches _ (slot_writes s)), poll_ready_confined|].
    apply (confined_touches _ (slot_writes s)); [done|apply Ht].
  - unfold fw_mem. rewrite !fw_run_bind. fold (tail (fw_run (poll_status s) m).1).
    set (m3 := (fw_run (poll_ready s _) _).2) in *.
    assert (H4 := confined_run _ _ (tail (fw_run (poll_status s) m).1) m3 M3 (Ht _)). destruct H4 as [M4 L4].
    unfold tail in M4, L4. rewrite !fw_run_bind in M4, L4. split; [exact M4|]. intros x Hx. by rewrite L4, L3, L2, L1.
Qed.

(** What a poll does for a driver that is at work: *)
Lemma poll_driven dt m :
  mem_ok m -> reg m MMIO_STATUS <> 0 ->
  let m' := fw_mem (poll_one_device dt s) m in
  let q := reg m MMIO_QUEUE_SEL in
  let n := reg m MMIO_QUEUE_NOTIFY in
  mem_ok m' /\ reg m' MMIO_STATUS = reg m MMIO_STATUS /\ reg m' MMIO_QUEUE_SEL = q /\ snap m' SNAP_OFF_QUEUE_SEL = q /\
  reg m' MMIO_QUEUE_READY = 0 /\ reg m' MMIO_QUEUE_NOTIFY = FW_SENTINEL /\
  (n < MAX_QUEUES_PER_SLOT -> rd8 m' (dirty_byte_addr s n) = 1) /\
  (forall x, in_dirty s x -> (n = FW_SENTINEL \/ x <> dirty_byte_addr s n) -> rd8 m' x = rd8 m x) /\
  (snap m SNAP_OFF_QUEUE_SEL = q -> q < MAX_QUEUES_PER_SLOT -> reg m MMIO_QUEUE_READY <> 0 ->
     captured m m' q /\ shadow m' q SHADOW_Q_OFF_READY = reg m MMIO_QUEUE_READY) /\
  (snap m SNAP_OFF_QUEUE_SEL = q -> reg m MMIO_QUEUE_READY = 0 -> forall x, in_shadow s 0 0x200 x -> rd8 m' x = rd8 m x).
Proof.
  intros Hm Hst m' q n. destruct (poll_frame dt m Hm) as [_ [Hm' _]].
  destruct (poll_status_spec m Hm Hst) as (_ & L1 & _). set (m1 := fw_mem (poll_status s) m) in *.
  assert (M1 : mem_ok m1) by apply L1. destruct (poll_sel_spec dt m1 M1) as (E2 & L2 & S2 & I2). set (m2 := fw_mem (poll_sel dt s) m1) in *.
  assert (M2 : mem_ok m2) by apply L2.
  assert (Hq1 : reg m1 MMIO_QUEUE_SEL = q) by (unfold reg; apply (leaves_rd32 _ _ _ _ L1); unfold status_writes; in_cells).
  assert (Hq2 : reg m2 MMIO_QUEUE_SEL = q) by (rewrite <- Hq1; unfold reg; apply (leaves_rd32 _ _ _ _ L2); unfold poll_sel_writes, sel_writes; in_cells).
  assert (Fq : fits 32 q) by by apply rd32_fits.
  destruct (poll_ready_spec m2 q M2 Hq2 Fq) as (L3 & R3 & I3 & C3). set (m3 := fw_mem (poll_ready s q) m2) in *.
  assert (M3 : mem_ok m3) by apply L3.
  destruct (poll_notify_spec m3 M3) as (L4 & N4 & D4 & D4'). set (m4 := fw_mem (poll_notify s) m3) in *.
  assert (M4 : mem_ok m4) by apply L4. pose proof (poll_rest_leaves m4 M4) as L5.
  assert (Em : m' = fw_mem poll_rest m4) by (unfold m'; rewrite poll_parts; fold m1; rewrite E2, Hq1; reflexivity). rewrite <- Em in L5. clear Em.
  assert (Hn : reg m3 MMIO_QUEUE_NOTIFY = n).
  { unfold n, reg. rewrite (leaves_rd32 _ _ _ _ L3), (leaves_rd32 _ _ _ _ L2), (leaves_rd32 _ _ _ _ L1);
      unfold status_writes, poll_sel_writes, sel_writes, poll_ready_writes, ready_writes; (done || in_cells). }
  rewrite Hn in D4, D4'.
  assert (L45 : leaves (fun x => notify_writes x \/ rest_writes x) m3 m') by (eapply leaves_trans; [exact L4|exact L5|auto..]).
  assert (K45 : forall off, 0x20 <= off < 0xfd -> off < 0x4d \/ 0x54 <= off -> reg m' off = reg m3 off).
  { intros off Ho1 Ho2. unfold reg. apply (leaves_rd32 _ _ _ _ L45); unfold notify_writes, rest_writes; in_cells. }
  assert (Kshadow : forall x, in_shadow s 0 0x200 x -> rd8 m' x = rd8 m3 x).
  { intros x Hx. apply L45. unfold notify_writes, rest_writes, in_shadow, in_dirty, in_stats, in_regs in *. l1_lia. }
  split; [done|]. split.
  { rewrite K45 by l1_lia. unfold reg. rewrite (leaves_rd32 _ _ _ _ L3), (leaves_rd32 _ _ _ _ L2), (leaves_rd32 _ _ _ _ L1);
      unfold status_writes, poll_sel_writes, sel_writes, poll_ready_writes, ready_writes; (done || in_cells). }
  split.
  { rewrite K45 by l1_lia. rewrite <- Hq2. unfold reg. apply (leaves_rd32 _ _ _ _ L3); unfold poll_ready_writes, ready_writes; in_cells. }
  split.
  { rewrite <- Hq1, <- S2. unfold snap. rewrite (leaves_rd32 _ _ _ _ L45), (leaves_rd32 _ _ _ _ L3);
      unfold notify_writes, rest_writes, poll_ready_writes, ready_writes; (done || in_cells). }
  split; [by rewrite K45 by l1_lia|]. split.
  { rewrite <- N4. unfold reg. apply (leaves_rd32 _ _ _ _ L5); unfold rest_writes; in_cells. }
  assert (K13 : forall x, in_dirty s x -> rd8 m3 x = rd8 m x).
  { intros x Hx. destruct L1 as [_ L1], L2 as [_ L2], L3 as [_ L3]. rewrite L3, L2, L1; [done|..];
      unfold status_writes, poll_sel_writes, sel_writes, poll_ready_writes, ready_writes, in_dirty, in_shadow, in_regs, in_stats in *; l1_lia. }
  split.
  { intros Hlt. destruct L5 as [_ L5]. assert (0 <= n) by (apply rd32_fits; done). rewrite L5; [by apply D4|].
    rewrite dirty_eq by (done || l1_lia). unfold rest_writes, in_shadow, in_regs. l1_lia. }
  split.
  { intros x Hx Hne. destruct L5 as [_ L5]. rewrite L5, D4', K13; [done..|]. unfold rest_writes, in_dirty, in_shadow, in_regs in *. l1_lia. }
  assert (I12 : snap m SNAP_OFF_QUEUE_SEL = q -> m2 = m1).
  { intros Hsn. apply I2. rewrite Hq1, <- Hsn. unfold snap. symmetry. apply (leaves_rd32 _ _ _ _ L1); unfold status_writes; in_cells. }
  assert (K1 : forall off, 0 <= off < 0xfd -> reg m1 off = reg m off).
  { intros off Ho. unfold reg. apply (leaves_rd32 _ _ _ _ L1); unfold status_writes; in_cells. }
  split.
  - intros Hsn Hlt Hr. rewrite (I12 Hsn) in *. destruct C3 as [C3 C3']; [by rewrite K1|done|]. rewrite K1 in C3' by done. split.
    + intros f Hf. pose proof (proj1 (Forall_forall _ _) fields_regs f Hf) as Hfr. cbv beta in Hfr. rewrite <- (K1 f.1) by lia.
      assert (Hc : captured m1 m' q); [|by apply Hc]. eapply captured_leaves; [l1_lia|exact C3|exact L45|].
      intros x. unfold notify_writes, rest_writes, in_shadow, in_dirty, in_stats, in_regs. l1_lia.
    + rewrite <- C3'. unfold shadow. apply (leaves_rd32 _ _ _ _ L45); unfold notify_writes, rest_writes; in_cells.
  - intros Hsn Hr x Hx. rewrite Kshadow by done. rewrite I3; [|by rewrite (I12 Hsn), K1]. rewrite (I12 Hsn). apply L1.
    unfold status_writes, in_shadow, in_stats in *. l1_lia.
Qed.

(** ** From the driver to the daemon *)

(** What the other slots, cores and the daemon may do around a poll. *)
Definition others (m m' : gmap Z Z) : Prop := agree_on (slot_cells s) m m' /\ mem_ok m'.

(** A poll with the others at work between any two of its accesses. *)
Definition polled_among (dt : Z) (m m' : gmap Z Z) : Prop := exists fired, interleaved others (poll_one_device dt s) m fired m'.

Lemma interleaved_mono (E E' : gmap Z Z -> gmap Z Z -> Prop) {A} (p : fw A) m a m' :
  (forall x y, E x y -> E' x y) -> interleaved E p m a m' -> interleaved E' p m a m'.
Proof. intros HE. induction 1; [constructor..|]; try done. eapply il_env; eauto. Qed.

Lemma polled_spec dt m m' : mem_ok m -> polled_among dt m m' -> agree_on (slot_cells s) (fw_mem (poll_one_device dt s) m) m'.
Proof.
  intros Hm [fired H]. apply (interleaved_mono _ (agree_on (slot_cells s))) in H; [|by intros x y []].
  eapply interleaved_agrees; [exact H|apply agree_refl|]. by apply poll_frame.
Qed.

Record QueueSetup := mk_setup { qs_num : Z; qs_desc : Z; qs_avail : Z; qs_used : Z }.

(** The writes of a virtio-mmio driver. *)
Definition driver_select (m : gmap Z Z) (q : Z) : gmap Z Z := wr32 m (reg_addr s MMIO_QUEUE_SEL) q.
Definition setup_words (c : QueueSetup) : list (Z * Z) :=
  [(MMIO_QUEUE_NUM, qs_num c); (MMIO_QUEUE_DESC_LOW, qs_desc c mod 2 ^ 32); (MMIO_QUEUE_DESC_HIGH, qs_desc c / 2 ^ 32);
   (MMIO_QUEUE_DRIVER_LOW, qs_avail c mod 2 ^ 32); (MMIO_QUEUE_DRIVER_HIGH, qs_avail c / 2 ^ 32);
   (MMIO_QUEUE_DEVICE_LOW, qs_used c mod 2 ^ 32); (MMIO_QUEUE_DEVICE_HIGH, qs_used c / 2 ^ 32)].
Definition driver_setup (m : gmap Z Z) (c : QueueSetup) : gmap Z Z :=
  wr32 (foldl (fun m w => wr32 m (reg_addr s w.1) w.2) m (setup_words c)) (reg_addr s MMIO_QUEUE_READY) 1.
Definition driver_kick (m : gmap Z Z) (q : Z) : gmap Z Z := wr32 m (reg_addr s MMIO_QUEUE_NOTIFY) q.

Definition setup_fits (c : QueueSetup) : Prop := fits 32 (qs_num c) /\ fits 64 (qs_desc c) /\ fits 64 (qs_avail c) /\ fits 64 (qs_used c).

Lemma half_fits x : fits 64 x -> fits 32 (x mod 2 ^ 32) /\ fits 32 (x / 2 ^ 32).
Proof.
  unfold fits. intros Hx. split; [apply Z.mod_pos_bound; lia|]. split; [apply Z.div_pos; lia|]. apply Z.div_lt_upper_bound; lia.
Qed.

Lemma mem_ok_wr32' m a v : mem_ok m -> mem_ok (wr32 m a v).
Proof. intros Hm. apply mem_ok_write_bytes; [done|apply le_bytes_are_bytes]. Qed.

Lemma driver_setup_regs m c :
  setup_fits c ->
  (forall k w, setup_words c !! k = Some w -> reg (driver_setup m c) w.1 = w.2) /\ reg (driver_setup m c) MMIO_QUEUE_READY = 1 /\
  reg (driver_setup m c) MMIO_QUEUE_SEL = reg m MMIO_QUEUE_SEL /\ reg (driver_setup m c) MMIO_STATUS = reg m MMIO_STATUS /\
  snap (driver_setup m c) SNAP_OFF_QUEUE_SEL = snap m SNAP_OFF_QUEUE_SEL.
Proof.
  intros (F1 & F2 & F3 & F4). apply half_fits in F2 as [F2 F2'], F3 as [F3 F3'], F4 as [F4 F4'].
  unfold driver_setup, setup_words, reg, snap. cbn [foldl fst snd]. split_and!.
  - intros k w Hk. do 7 (destruct k as [|k]; [injection Hk as <-; cbn [fst snd]; rewrite ?rd32_wr32_out by in_cells; by rewrite rd32_wr32_eq|]). done.
  - by rewrite rd32_wr32_eq.
  - by rewrite !rd32_wr32_out by in_cells.
  - by rewrite !rd32_wr32_out by in_cells.
  - by rewrite !rd32_wr32_out by in_cells.
Qed.

Lemma cell_reg off : 0x1c <= off < 0xfd -> cell4 (slot_cells s) (reg_addr s off).
Proof. intros Ho. in_cells. Qed.
Lemma cell_snap off : 0 <= off < 0x3d -> cell4 (slot_cells s) (fw_snap_addr s off).
Proof. intros Ho. in_cells. Qed.
Lemma cell_shadow q off : 0 <= q < MAX_QUEUES_PER_SLOT -> 0 <= off < 0x3d -> cell4 (slot_cells s) (fw_shadow_queue_addr s q off).
Proof. intros Hq Ho. in_cells. Qed.

End poll.

(** The daemon reads back the address a driver wrote in two halves. *)
Lemma halves_join x : fits 64 x -> Z.lor (Z.shiftl (x / 2 ^ 32) 32) (x mod 2 ^ 32) = x.
Proof.
  intros Hx. destruct (half_fits x Hx) as [F _]. rewrite Z.lor_comm, lor_shiftl_add by (lia || done). pose proof (Z.div_mod x (2 ^ 32) ltac:(done)). lia.
Qed.

(** The queue [c] as the daemon may use it for guest [i]: not empty, and inside
    the guest's memory. *)
Definition setup_valid (i : Z) (c : QueueSetup) : Prop :=
  setup_fits c /\ 0 < qs_num c <= U16_MAX /\ qs_desc c <> 0 /\ qs_avail c <> 0 /\ qs_used c <> 0 /\
  let start := L2CPU_STARTING_ADDRESS i in let mem_end := start + L2CPU_MEMORY_SIZE i in
  in_range start mem_end (qs_desc c) 16 = true /\ in_range start mem_end (qs_avail c) 4 = true /\ in_range start mem_end (qs_used c) 4 = true.

(** A driver at work, with queue [q] selected and seen. *)
Definition at_work (s q : Z) (m : gmap Z Z) : Prop :=
  reg s m MMIO_STATUS <> 0 /\ reg s m MMIO_QUEUE_SEL = q /\ snap s m SNAP_OFF_QUEUE_SEL = q /\ reg s m MMIO_QUEUE_READY = 0.

Lemma agree_reg s m m' off : slot_ok s -> agree_on (slot_cells s) m m' -> 0x1c <= off < 0xfd -> reg s m' off = reg s m off.
Proof. intros Hs HA Ho. eapply agree_rd32; [exact HA|by apply cell_reg]. Qed.

Lemma agree_snap s m m' off : slot_ok s -> agree_on (slot_cells s) m m' -> 0 <= off < 0x3d -> snap s m' off = snap s m off.
Proof. intros Hs HA Ho. eapply agree_rd32; [exact HA|by apply cell_snap]. Qed.

Lemma agree_shadow s m m' q off :
  slot_ok s -> 0 <= q < MAX_QUEUES_PER_SLOT -> agree_on (slot_cells s) m m' -> 0 <= off < 0x3d -> shadow s m' q off = shadow s m q off.
Proof. intros Hs Hq HA Ho. eapply agree_rd32; [exact HA|by apply cell_shadow]. Qed.

Lemma agree_at_work s q m m' : slot_ok s -> agree_on (slot_cells s) m m' -> at_work s q m -> at_work s q m'.
Proof.
  intros Hs HA (H1 & H2 & H3 & H4). unfold at_work.
  rewrite !(agree_reg s m m') by (done || l1_lia). rewrite (agree_snap s m m') by (done || l1_lia). done.
Qed.

Section steps.
Variables (s q dt : Z) (m m' : gmap Z Z).
Hypotheses (Hs : slot_ok s) (Hq : 0 <= q < MAX_QUEUES_PER_SLOT) (Hm : mem_ok m).

Lemma select_step :
  reg s m MMIO_STATUS <> 0 -> polled_among s dt (driver_select s m q) m' -> at_work s q m' /\ reg s m' MMIO_STATUS = reg s m MMIO_STATUS.
Proof.
  intros Hst P. assert (M0 : mem_ok (driver_select s m q)) by by apply mem_ok_wr32'.
  assert (E0 : reg s (driver_select s m q) MMIO_STATUS = reg s m MMIO_STATUS) by (unfold reg, driver_select; by rewrite rd32_wr32_out by in_cells).
  assert (E1 : reg s (driver_select s m q) MMIO_QUEUE_SEL = q) by (unfold reg, driver_select; rewrite rd32_wr32_eq; [done|l1_lia]).
  pose proof (polled_spec s Hs dt _ _ M0 P) as HA.
  destruct (poll_driven s Hs dt _ M0) as (_ & T1 & S1 & N1 & R1 & _); [by rewrite E0|].
  assert (Hw : at_work s q (fw_mem (poll_one_device dt s) (driver_select s m q))).
  { unfold at_work. rewrite T1, E0, S1, N1, R1, E1. done. }
  split; [by eapply agree_at_work|]. rewrite (agree_reg s _ m' _ Hs HA) by l1_lia. by rewrite T1, E0.
Qed.

Lemma setup_step c :
  setup_fits c -> at_work s q m -> polled_among s dt (driver_setup s m c) m' ->
  at_work s q m' /\ reg s m' MMIO_STATUS = reg s m MMIO_STATUS /\
  (forall k f w, FIELDS !! k = Some f -> setup_words c !! k = Some w -> shadow s m' q f.2 = w.2) /\
  shadow s m' q SHADOW_Q_OFF_READY = 1.
Proof.
  intros Hc (Hst & Hsel & Hsn & Hr) P. destruct (driver_setup_regs s Hs m c Hc) as (D1 & D2 & D3 & D4 & D5).
  assert (M0 : mem_ok (driver_setup s m c)) by (unfold driver_setup, setup_words; cbn [foldl]; repeat apply mem_ok_wr32'; done).
  pose proof (polled_spec s Hs dt _ _ M0 P) as HA.
  destruct (poll_driven s Hs dt _ M0) as (_ & T1 & S1 & N1 & R1 & _ & _ & _ & C & _); [by rewrite D4|].
  rewrite D3, Hsel in C. rewrite D5, D2 in C. destruct C as [C1 C2]; [done|apply Hq|done|].
  assert (Hw : at_work s q (fw_mem (poll_one_device dt s) (driver_setup s m c))).
  { unfold at_work. by rewrite T1, D4, S1, N1, R1, D3. }
  split; [by eapply agree_at_work|]. split; [rewrite (agree_reg s _ m' _ Hs HA) by l1_lia; by rewrite T1, D4|]. split.
  - intros k f w Hf Hw'. pose proof (list_elem_of_lookup_2 _ _ _ Hf) as Hin.
    pose proof (proj1 (Forall_forall _ _) fields_places f Hin) as Hp. cbv beta in Hp.
    rewrite (agree_shadow s _ m' q _ Hs Hq HA), (C1 f Hin) by lia. rewrite <- (D1 k w Hw'). f_equal.
    clear -Hf Hw'. do 7 (destruct k as [|k]; [by injection Hf as <-; injection Hw' as <-|]). done.
  - rewrite (agree_shadow s _ m' q _ Hs Hq HA) by l1_lia. done.
Qed.

Lemma kick_step :
  at_work s q m -> polled_among s dt (driver_kick s m q) m' ->
  at_work s q m' /\ reg s m' MMIO_STATUS = reg s m MMIO_STATUS /\ rd8 m' (dirty_byte_addr s q) = 1 /\
  forall p off, 0 <= p < MAX_QUEUES_PER_SLOT -> 0 <= off < 0x3d -> shadow s m' p off = shadow s m p off.
Proof.
  intros (Hst & Hsel & Hsn & Hr) P. set (mk := driver_kick s m q). assert (M0 : mem_ok mk) by by apply mem_ok_wr32'.
  assert (Er : forall off, 0 <= off < 0xfd -> off < 0x4d \/ 0x54 <= off -> reg s mk off = reg s m off)
    by (intros off H1 H2; unfold reg, mk, driver_kick; by rewrite rd32_wr32_out by in_cells).
  assert (En : reg s mk MMIO_QUEUE_NOTIFY = q) by (unfold reg, mk, driver_kick; rewrite rd32_wr32_eq; [done|l1_lia]).
  assert (Es : snap s mk SNAP_OFF_QUEUE_SEL = q) by (rewrite <- Hsn; unfold snap, mk, driver_kick; by rewrite rd32_wr32_out by in_cells).
  pose proof (polled_spec s Hs dt _ _ M0 P) as HA.
  destruct (poll_driven s Hs dt mk M0) as (_ & T1 & S1 & N1 & R1 & _ & Dn & _ & _ & K); [by rewrite Er by l1_lia|].
  rewrite En in Dn. rewrite !Er in T1, S1, N1, K by l1_lia. rewrite Hsel in S1, N1, K.
  set (mp := fw_mem (poll_one_device dt s) mk) in *.
  assert (Hw : at_work s q mp) by (unfold at_work; by rewrite T1, S1, N1, R1).
  split; [by eapply agree_at_work|]. split; [rewrite (agree_reg s mp m' _ Hs HA) by l1_lia; exact T1|]. split.
  - rewrite HA; [apply Dn, Hq|]. rewrite dirty_eq by done. unfold slot_cells, in_dirty. l1_lia.
  - intros p off Hp Ho. rewrite (agree_shadow s mp m' p off Hs Hp HA) by done.
    transitivity (shadow s mk p off); [|unfold shadow, mk, driver_kick; by rewrite rd32_wr32_out by in_cells].
    unfold shadow, rd32. f_equal. apply read_bytes_ext. intros x Hx. apply K; [exact Es|by rewrite ?Er by l1_lia|].
    revert Hx. rewrite shadow_q_eq by (done || l1_lia). unfold in_shadow. change (Z.of_nat 4) with 4. l1_lia.
Qed.

End steps.

Section to_daemon.
Context {D : Type} `{VirtioDeviceImpl D}.

Lemma shadow_queue_of m s q c (re : RegEntry D) :
  slot_ok s -> 0 <= q < MAX_QUEUES_PER_SLOT -> re_slot re = s -> setup_valid (re_l2cpu re) c ->
  (forall k f w, FIELDS !! k = Some f -> setup_words c !! k = Some w -> shadow s m q f.2 = w.2) ->
  shadow_queue m re q =
    Some (mk_queue (qs_desc c) (qs_avail c) (qs_used c) q (queue_header_size (re_device re)) (qs_num c)
            (L2CPU_STARTING_ADDRESS (re_l2cpu re)) (L2CPU_STARTING_ADDRESS (re_l2cpu re) + L2CPU_MEMORY_SIZE (re_l2cpu re))).
Proof.
  intros Hs Hq Hre ((F1 & F2 & F3 & F4) & Hn & Hd & Ha & Hu & R1 & R2 & R3) Hw. unfold shadow_queue, ring_addr, read_shadow. rewrite Hre.
  rewrite !shadow_addr_daemon by (done || l1_lia). fold (shadow s m q SHADOW_Q_OFF_NUM).
  fold (shadow s m q SHADOW_Q_OFF_DESC_LO) (shadow s m q SHADOW_Q_OFF_DESC_HI) (shadow s m q SHADOW_Q_OFF_DRIVER_LO)
    (shadow s m q SHADOW_Q_OFF_DRIVER_HI) (shadow s m q SHADOW_Q_OFF_DEVICE_LO) (shadow s m q SHADOW_Q_OFF_DEVICE_HI).
  pose proof (Hw 0%nat _ _ eq_refl eq_refl) as W0. pose proof (Hw 1%nat _ _ eq_refl eq_refl) as W1. pose proof (Hw 2%nat _ _ eq_refl eq_refl) as W2.
  pose proof (Hw 3%nat _ _ eq_refl eq_refl) as W3. pose proof (Hw 4%nat _ _ eq_refl eq_refl) as W4. pose proof (Hw 5%nat _ _ eq_refl eq_refl) as W5.
  pose proof (Hw 6%nat _ _ eq_refl eq_refl) as W6. cbn [snd] in W0, W1, W2, W3, W4, W5, W6.
  rewrite W0, W1, W2, W3, W4, W5, W6, !halves_join by done.
  rewrite (proj2 (Z.eqb_neq _ _) Hd), (proj2 (Z.eqb_neq _ _) Ha), (proj2 (Z.eqb_neq _ _) Hu). cbn [orb].
  replace (qs_num c =? 0) with false by lia. replace (U16_MAX <? qs_num c) with false by lia. cbn [orb].
  rewrite R1, R2, R3. done.
Qed.

(** C8: What a driver sets up is what the daemon works with.  On any slot, whatever
    the tile's memory holds: the driver selects a queue and the firmware polls
    the slot; the driver writes the queue's size and addresses and READY, and
    the firmware polls; it notifies, and the firmware polls.  Then the queue the
    daemon takes from the shadow is the one the driver wrote, all seven words of
    it, and the dirty byte of this queue is set.  Other slots, the other cores
    and the daemon may write anything outside the slot's cells before, after and
    between any two accesses of the polls.  After each poll READY reads 0 and
    the status is the driver's. *)
Theorem setup_reaches_daemon s q c (re : RegEntry D) dt1 dt2 dt3 m0 m1 m1' m2 m2' m3 :
  slot_ok s -> 0 <= q < MAX_QUEUES_PER_SLOT -> re_slot re = s -> setup_valid (re_l2cpu re) c ->
  mem_ok m0 -> reg s m0 MMIO_STATUS <> 0 ->
  polled_among s dt1 (driver_select s m0 q) m1 -> others s m1 m1' ->
  polled_among s dt2 (driver_setup s m1' c) m2 -> others s m2 m2' ->
  polled_among s dt3 (driver_kick s m2' q) m3 ->
  reg s m1 MMIO_QUEUE_READY = 0 /\ reg s m2 MMIO_QUEUE_READY = 0 /\ reg s m3 MMIO_STATUS = reg s m0 MMIO_STATUS /\
  rd8 m3 (dirty_byte_addr s q) = 1 /\
  shadow_queue m3 re q =
    Some (mk_queue (qs_desc c) (qs_avail c) (qs_used c) q (queue_header_size (re_device re)) (qs_num c)
            (L2CPU_STARTING_ADDRESS (re_l2cpu re)) (L2CPU_STARTING_ADDRESS (re_l2cpu re) + L2CPU_MEMORY_SIZE (re_l2cpu re))).
Proof.
  intros Hs Hq Hre Hv M0 Hst P1 [A1 M1'] P2 [A2 M2'] P3.
  destruct (select_step s q dt1 m0 m1 Hs Hq M0 Hst P1) as [W1 T1].
  destruct (setup_step s q dt2 m1' m2 Hs Hq M1' c (proj1 Hv) (agree_at_work s q _ _ Hs A1 W1) P2) as (W2 & T2 & S2 & _).
  destruct (kick_step s q dt3 m2' m3 Hs Hq M2' (agree_at_work s q _ _ Hs A2 W2) P3) as (W3 & T3 & D3 & S3).
  split; [apply W1|]. split; [apply W2|]. split.
  { rewrite T3, (agree_reg s m2 m2') , T2, (agree_reg s m1 m1'), T1 by (done || l1_lia). done. }
  split; [done|]. eapply shadow_queue_of; [done..|]. intros k f w Hf Hw.
  pose proof (proj1 (Forall_forall _ _) fields_places f (list_elem_of_lookup_2 _ _ _ Hf)) as Hp. cbv beta in Hp.
  rewrite S3 by (done || lia). rewrite (agree_shadow s m2 m2' q) by (done || lia). by eapply S2.
Qed.

End to_daemon.

(** ** Races *)

(** Run [p], with one step [g] of somebody else after [n] of its accesses. *)
Fixpoint run_at (n : nat) (g : gmap Z Z -> gmap Z Z) {A} (p : fw A) (m : gmap Z Z) : A * gmap Z Z :=
  match n with
  | O => fw_run p (g m)
  | S n =>
      match p with
      | Pure a => (a, m)
      | Load addr k => run_at n g (k (rd32 m addr)) m
      | Store addr v k => run_at n g k (wr32 m addr v)
      | Store8 addr v k => run_at n g k (wr8 m addr v)
      end
  end.

Lemma fw_run_interleaved E {A} (p : fw A) : forall m, interleaved E p m (fw_run p m).1 (fw_run p m).2.
Proof. induction p; intros m; cbn [fw_run]; constructor; auto. Qed.

Lemma run_at_interleaved (E : gmap Z Z -> gmap Z Z -> Prop) g {A} (p : fw A) : (forall m, E m (g m)) ->
  forall n m, interleaved E p m (run_at n g p m).1 (run_at n g p m).2.
Proof.
  intros Hg n. revert p. induction n as [|n IH]; intros p m; cbn [run_at]; [eapply il_env; [apply Hg|apply fw_run_interleaved]|].
  destruct p; constructor; apply IH.
Qed.

(** The net device of guest 0, initialized, with a driver at work. *)
Definition demo_slot : Z := 1.
Definition driver_on : gmap Z Z := wr32 (fw_mem (init_device demo_slot) ∅) (reg_addr demo_slot MMIO_STATUS) 3.
Definition poll_net : gmap Z Z -> gmap Z Z := fw_mem (poll_one_device 0 demo_slot).
Definition rx_setup : QueueSetup := mk_setup 256 0x400031000000 0x400031001000 0x400031002000.
Definition tx_setup : QueueSetup := mk_setup 256 0x400032000000 0x400032001000 0x400032002000.
Definition shadow_words (m : gmap Z Z) (q : Z) : list Z := List.map (fun f => shadow demo_slot m q f.2) FIELDS.
Definition shadow_ready (m : gmap Z Z) (q : Z) : Z := shadow demo_slot m q SHADOW_Q_OFF_READY.

(** Selected and seen, then set up and ready. *)
Definition rx_ready : gmap Z Z := driver_setup demo_slot (poll_net (driver_select demo_slot driver_on 0)) rx_setup.

(** A driver that selects its next queue while the firmware captures the one it
    made ready: the capture is discarded, and the queue is marked ready all the
    same.  The next poll does not rescue it, since it counts as captured, so it
    stays without addresses; undisturbed it is captured. *)
Theorem raced_capture_sticks :
  let raced := (run_at 8 (fun m => driver_select demo_slot m 1) (poll_one_device 0 demo_slot) rx_ready).2 in
  shadow_words (poll_net rx_ready) 0 = List.map snd (setup_words rx_setup) /\
  shadow_ready raced 0 = 1 /\ shadow_words raced 0 = replicate 7 0 /\
  shadow_ready (poll_net raced) 0 = 1 /\ shadow_words (poll_net raced) 0 = replicate 7 0.
Proof. vm_compute. done. Qed.

(** A driver that selects a queue and makes it ready before the firmware polls
    once: its addresses are filed as those of the queue selected before, and its
    own READY is lost. *)
Theorem late_poll_misfiles :
  let late := poll_net (driver_setup demo_slot (driver_select demo_slot driver_on 1) tx_setup) in
  shadow_words late 0 = List.map snd (setup_words tx_setup) /\ shadow_ready late 0 = 1 /\
  shadow_words late 1 = replicate 7 0 /\ shadow_ready late 1 = 0 /\ reg demo_slot late MMIO_QUEUE_READY = 0.
Proof. vm_compute. done. Qed.

(** The helper core clears READY when it sees a new selection.  If its store
    comes late, after the firmware has seen the selection too and the driver
    made the queue ready, the READY is gone before the firmware sees it. *)
Theorem late_clear_loses_ready :
  let on := wr32 driver_on (ctrl_addr CTRL_OFF_ACTIVE_VIRTIO_SLOTS) (Z.shiftl 1 demo_slot) in
  let cleared := (run_at 2 (fun m => driver_setup demo_slot (poll_net m) tx_setup) (trisc1_iter ∅) (driver_select demo_slot on 1)).2 in
  reg demo_slot cleared MMIO_QUEUE_READY = 0 /\ shadow_ready (poll_net cleared) 1 = 0 /\ shadow_words (poll_net cleared) 1 = replicate 7 0.
Proof. vm_compute. done. Qed.

(** A notification that arrives between the firmware's read of the register and
    its reset to the sentinel is overwritten: no dirty byte, then or later. *)
Theorem notify_overwritten :
  let kicked := (run_at 8 (fun m => driver_kick demo_slot m 1) (poll_one_device 0 demo_slot) (driver_kick demo_slot (poll_net driver_on) 0)).2 in
  rd8 kicked (dirty_byte_addr demo_slot 0) = 1 /\ rd8 kicked (dirty_byte_addr demo_slot 1) = 0 /\
  rd8 (poll_net kicked) (dirty_byte_addr demo_slot 1) = 0.
Proof. vm_compute. done. Qed.

Lemma setup_reaches_daemon_witness :
  let re := mk_entry demo_slot 0 recording_new 34 Net [0] in
  exists m3, rd8 m3 (dirty_byte_addr demo_slot 0) = 1 /\
    shadow_queue m3 re 0 = Some (mk_queue 0x400031000000 0x400031001000 0x400031002000 0 (queue_header_size recording_new) 256 0x400030000000 0x400130000000).
Proof.
  intros re. set (m1 := poll_net (driver_select demo_slot driver_on 0)). set (m2 := poll_net (driver_setup demo_slot m1 rx_setup)).
  exists (poll_net (driver_kick demo_slot m2 0)).
  assert (P : forall m, polled_among demo_slot 0 m (poll_net m)) by (intros m; eexists; apply fw_run_interleaved).
  pose proof (setup_reaches_daemon demo_slot 0 rx_setup re 0 0 0 driver_on m1 m1 m2 m2 (poll_net (driver_kick demo_slot m2 0))) as H.
  destruct H as (_ & _ & _ & H1 & H2); [split; done|split; done|done| |apply (bool_decide_unpack _); vm_compute; done|vm_compute; discriminate|apply P| |apply P| |apply P|].
  - repeat split; try done; vm_compute; congruence.
  - split; [done|]. apply (bool_decide_unpack _). vm_compute. done.
  - split; [done|]. apply (bool_decide_unpack _). vm_compute. done.
  - split; [exact H1|exact H2].
Defined.
