(* ===== verification/SerialLine.v ===== *)
(** The serial line of a guest, from its transmit register to its console: the
    guest's driver, the poll of TRISC0 ([trisc0_uart_poll_one] of the firmware),
    the feed ring, and the daemon's [drain_uart], as one system.

    A step is a whole poll of TRISC0, a whole drain of the daemon, or one store of
    the guest: polls and drains do not fall inside one another, so the order of
    the stores within [trisc0_uart_feed_push] (byte, load back, publish) is not
    observable here.  The guest transmits and does not write the line-control
    register, so the divisor latch stays closed. *)

From S2P Require Import Prelude Layout Virtqueue ConsoleHub DataPlane PollProofs Firmware FirmwareProofs.

(** ** The cells of a UART *)

Definition uart_ok (i : Z) : Prop := 0 <= i < NUM_L2CPUS.

Lemma uart_reg_eq i off : uart_ok i -> 0 <= off < 0x1000 -> uart_reg_addr i off = 0x40000 + i * 0x4000 + off.
Proof.
  unfold uart_ok, NUM_L2CPUS. intros Hi Ho. unfold uart_reg_addr, uart_regs_base, BRISC_UART_BASE, UART_PER_L2CPU_STRIDE.
  unfold u32. rewrite (wrap_small 32 (_ + _ * _)) by (unfold fits; lia). apply wrap_small. unfold fits. lia.
Qed.

Lemma uart_base_eq i : uart_ok i -> uart_private_base i = 0x50000 + i * 0x2000.
Proof. unfold uart_ok, NUM_L2CPUS. intros Hi. apply wrap_small. unfold fits, UART_PRIVATE_BASE, UART_PRIVATE_PER_L2CPU. lia. Qed.

Lemma uart_priv_eq i off : uart_ok i -> 0 <= off < 0x2000 -> uart_priv_addr i off = 0x50000 + i * 0x2000 + off.
Proof.
  intros Hi Ho. unfold uart_priv_addr. rewrite uart_base_eq by done. apply wrap_small. unfold uart_ok, NUM_L2CPUS in Hi. unfold fits. lia.
Qed.

(** The transmit, line-control and line-status registers, and the private block
    with the ring. *)
Definition uart_cells (i x : Z) : Prop :=
  let r := 0x40000 + i * 0x4000 in let p := 0x50000 + i * 0x2000 in
  r <= x < r + 4 \/ r + 0xc <= x < r + 0x10 \/ r + 0x14 <= x < r + 0x18 \/ p <= x < p + 0x1040.

Section uart.
Variable i : Z.
Hypothesis Hi : uart_ok i.

Definition thr (m : gmap Z Z) : Z := rd32 m (uart_reg_addr i UART_REG_RBR_THR).
Definition lsr (m : gmap Z Z) : Z := rd32 m (uart_reg_addr i UART_REG_LSR).
Definition lcr (m : gmap Z Z) : Z := rd32 m (uart_reg_addr i UART_REG_LCR).
Definition hold (m : gmap Z Z) : Z := rd32 m (uart_priv_addr i UART_PRIV_OFF_HOLD).
Definition producer (m : gmap Z Z) : Z := rd32 m (uart_priv_addr i UART_PRIV_OFF_FEED_PRODUCER_SEQ).
Definition consumer (m : gmap Z Z) : Z := rd32 m (uart_priv_addr i UART_PRIV_OFF_FEED_CONSUMER_SEQ).
Definition drops (m : gmap Z Z) : Z := rd32 m (uart_priv_addr i UART_PRIV_OFF_FEED_DROP_COUNT).

(** The bytes in the ring, oldest first. *)
Definition waiting (m : gmap Z Z) : list Z :=
  feed_bytes m (uart_private_base i) (consumer m) (Z.to_nat (u32 (producer m - consumer m))).

(** ** The system *)

(** [u_seen]: TRISC0 has looked since the guest's last write. *)
Record Uart := mk_uart { u_l1 : gmap Z Z; u_cursor : Z; u_hub : ConsoleHub; u_seen : bool; u_sent : list Z }.

Definition uart_others (m m' : gmap Z Z) : Prop := agree_on (uart_cells i) m m' /\ mem_ok m'.

Inductive uart_step : Uart -> Uart -> Prop :=
| uart_write u b :
    is_byte b -> u_seen u = true -> Z.land (lsr (u_l1 u)) UART_LSR_THRE <> 0 ->
    uart_step u (mk_uart (wr32 (u_l1 u) (uart_reg_addr i UART_REG_RBR_THR) b) (u_cursor u) (u_hub u) false (u_sent u ++ [b]))
| uart_poll u m' :
    interleaved uart_others (trisc0_uart_poll_one i) (u_l1 u) tt m' -> mem_ok m' ->
    uart_step u (mk_uart m' (u_cursor u) (u_hub u) true (u_sent u))
| uart_drain u m' c' h' some :
    drain_uart (u_l1 u) i (u_cursor u) (u_hub u) = Done (m', c', h', some) ->
    uart_step u (mk_uart m' c' h' (u_seen u) (u_sent u))
| uart_env u m' :
    uart_others (u_l1 u) m' -> uart_step u (mk_uart m' (u_cursor u) (u_hub u) (u_seen u) (u_sent u)).

(** The firmware has just set the UART up. *)
Definition uart_start (m : gmap Z Z) (h : ConsoleHub) : Uart := mk_uart (fw_mem (uart_init_one i) m) 0 h true [].

(** The bytes of [l] that [fate] lets through. *)
Fixpoint survivors (l : list Z) (fate : list bool) : list Z :=
  match l, fate with
  | b :: l, f :: fate => (if f then [b] else []) ++ survivors l fate
  | _, _ => []
  end.

Definition lost (fate : list bool) : Z := Z.of_nat (length (List.filter negb fate)).

(** The byte the guest wrote and nobody took yet. *)
Definition in_flight (u : Uart) : list Z := if u_seen u then [] else [thr (u_l1 u)].

Record line_ok (h : ConsoleHub) (u : Uart) : Prop := mk_line {
  ln_mem : mem_ok (u_l1 u);
  ln_cursor : u_cursor u = consumer (u_l1 u);
  ln_lcr : Z.land (lcr (u_l1 u)) UART_LCR_DLAB = 0;
  ln_room : u32 (producer (u_l1 u) - consumer (u_l1 u)) <= UART_FEED_RING_ENTRIES;
  ln_seen : u_seen u = true -> thr (u_l1 u) = FW_SENTINEL;
  ln_unseen : u_seen u = false -> is_byte (thr (u_l1 u)) /\ hold (u_l1 u) = 0;
  ln_hold : 0 < hold (u_l1 u) -> lsr (u_l1 u) = 0;
  ln_stream : exists chunks picked fate, u_hub u = push_all h chunks /\ u_sent u = picked ++ in_flight u /\
    length fate = length picked /\ survivors picked fate = concat chunks ++ waiting (u_l1 u) /\
    drops (u_l1 u) = u32 (lost fate) }.

Ltac uart_lia := unfold UART_REG_RBR_THR, UART_REG_LSR, UART_REG_LCR, UART_PRIV_OFF_HOLD, UART_PRIV_OFF_FEED_PRODUCER_SEQ,
  UART_PRIV_OFF_FEED_CONSUMER_SEQ, UART_PRIV_OFF_FEED_DROP_COUNT, UART_PRIV_OFF_FEED_RING, UART_FEED_RING_ENTRIES, uart_ok, NUM_L2CPUS in *; lia.
Ltac uart_addrs := rewrite ?uart_reg_eq, ?uart_priv_eq, ?uart_base_eq by (done || uart_lia).
Ltac uart_cell := uart_addrs; unfold cell4, uart_cells; cbv zeta; uart_lia.

Lemma land_mask x : 0 <= x -> Z.land x (UART_FEED_RING_ENTRIES - 1) = x mod 1024.
Proof. intros Hx. change (UART_FEED_RING_ENTRIES - 1) with (Z.ones 10). by rewrite Z.land_ones by lia. Qed.

(** The ring cell of a sequence number. *)
Definition ring_cell (n : Z) : Z := 0x50000 + i * 0x2000 + 0x40 + (u32 n mod 1024) * 4.

Lemma feed_byte_cell m n : feed_byte m (uart_private_base i) n = Z.land (rd32 m (ring_cell n)) 0xff.
Proof.
  unfold feed_byte, ring_cell. cbv zeta. pose proof (u32_fits n) as [H0 _]. rewrite land_mask by done. do 2 f_equal. rewrite uart_base_eq by done.
  pose proof (Z.mod_pos_bound (u32 n) 1024 ltac:(done)). etransitivity; [apply wrap_small; unfold fits; uart_lia|uart_lia].
Qed.

Lemma agree_feed m m' c n : agree_on (uart_cells i) m m' -> feed_bytes m' (uart_private_base i) c n = feed_bytes m (uart_private_base i) c n.
Proof.
  intros HA. unfold feed_bytes. apply List.map_ext. intros k. rewrite !feed_byte_cell. f_equal.
  eapply agree_rd32; [exact HA|]. pose proof (Z.mod_pos_bound (u32 (c + Z.of_nat k)) 1024 ltac:(done)). unfold ring_cell. uart_cell.
Qed.

Lemma uart_poll_touches m : mem_ok m -> touches (uart_cells i) (trisc0_uart_poll_one i) m.
Proof.
  intros Hm. apply (confined_touches _ (fun _ => True)); [done|]. unfold trisc0_uart_poll_one, trisc0_uart_feed_push. cbv zeta.
  confine; try uart_cell; try (unfold cell4; done).
  match goal with H : fits 32 ?v |- cell4 _ (uart_priv_addr i (_ + Z.land ?v _ * 4)) =>
    rewrite (land_mask v) by apply H; pose proof (Z.mod_pos_bound v 1024 ltac:(done)) end. uart_cell.
Qed.

Lemma agree_uart m m' :
  agree_on (uart_cells i) m m' ->
  thr m' = thr m /\ lsr m' = lsr m /\ lcr m' = lcr m /\ hold m' = hold m /\ producer m' = producer m /\ consumer m' = consumer m /\
  drops m' = drops m /\ waiting m' = waiting m.
Proof.
  intros HA. unfold waiting.
  assert (E : forall a, cell4 (uart_cells i) a -> rd32 m' a = rd32 m a) by (intros a; by apply agree_rd32).
  unfold thr, lsr, lcr, hold, producer, consumer, drops. rewrite !E by uart_cell. rewrite (agree_feed m m') by done. done.
Qed.

(** ** One poll of TRISC0 *)

(** Nothing of the ring moves. *)
Definition ring_kept (m m' : gmap Z Z) : Prop :=
  lcr m' = lcr m /\ producer m' = producer m /\ consumer m' = consumer m /\ waiting m' = waiting m.

Lemma ring_cell_bound n : 0x50040 + i * 0x2000 <= ring_cell n <= 0x5103c + i * 0x2000.
Proof. unfold ring_cell. pose proof (Z.mod_pos_bound (u32 n) 1024 ltac:(done)). lia. Qed.

Lemma waiting_kept m m' :
  producer m' = producer m -> consumer m' = consumer m -> (forall n, rd32 m' (ring_cell n) = rd32 m (ring_cell n)) -> waiting m' = waiting m.
Proof.
  intros Hp Hc Hr. unfold waiting. rewrite Hp, Hc. unfold feed_bytes. apply List.map_ext. intros k. by rewrite !feed_byte_cell, Hr.
Qed.

Ltac uart_out := repeat rewrite rd32_wr32_out by (uart_addrs; uart_lia).

Lemma poll_holding m :
  mem_ok m -> 0 < hold m -> let m' := fw_mem (trisc0_uart_poll_one i) m in
  thr m' = thr m /\ drops m' = drops m /\ ring_kept m m' /\ (0 < hold m' -> lsr m' = lsr m).
Proof.
  intros Hm Hh m'. assert (Fh : fits 32 (hold m)) by by apply rd32_fits. unfold m', trisc0_uart_poll_one, fw_mem. cbv zeta. cbn [fw_bind read_u32 fw_run].
  fold (hold m). rewrite (proj2 (Z.ltb_lt 0 (hold m)) Hh). cbn [fw_bind store_u32 fw_run].
  set (m1 := wr32 m (uart_priv_addr i UART_PRIV_OFF_HOLD) (hold m - 1)).
  assert (Hk : forall a v, (a = uart_reg_addr i UART_REG_LSR -> ring_kept m (wr32 m1 a v) /\ thr (wr32 m1 a v) = thr m /\ drops (wr32 m1 a v) = drops m)).
  { intros a v ->. unfold m1. unfold ring_kept, thr, drops, lcr. split_and!; try (by uart_out).
    - unfold producer. by uart_out.
    - unfold consumer. by uart_out.
    - apply waiting_kept; [unfold producer; by uart_out|unfold consumer; by uart_out|]. intros n. pose proof (ring_cell_bound n). by uart_out. }
  destruct (Z.eqb_spec (hold m - 1) 0) as [E|E]; cbn [fw_when fw_run store_u32 snd].
  - destruct (Hk _ LSR_IDLE eq_refl) as (H1 & H2 & H3). split; [done|]. split; [done|]. split; [done|]. unfold hold at 1, m1. uart_out.
    rewrite rd32_wr32_eq by (rewrite E; done). lia.
  - unfold m1. split_and!.
    + unfold thr. by uart_out.
    + unfold drops. by uart_out.
    + unfold ring_kept, lcr. split_and!; [by uart_out|unfold producer; by uart_out|unfold consumer; by uart_out|].
      apply waiting_kept; [unfold producer; by uart_out|unfold consumer; by uart_out|]. intros n. pose proof (ring_cell_bound n). by uart_out.
    + intros _. unfold lsr. by uart_out.
Qed.

Lemma poll_resting m : hold m = 0 -> thr m = FW_SENTINEL -> fw_mem (trisc0_uart_poll_one i) m = m.
Proof.
  intros Hh Ht. unfold trisc0_uart_poll_one, fw_mem. cbv zeta. cbn [fw_bind read_u32 fw_run]. fold (hold m). rewrite Hh. cbn [Z.ltb Z.compare].
  cbn [fw_bind read_u32 fw_run]. fold (thr m). by rewrite Ht.
Qed.

(** The push. *)
Lemma push_spec m b :
  mem_ok m -> is_byte b -> let m' := fw_mem (trisc0_uart_feed_push i b) m in
  let full := UART_FEED_RING_ENTRIES <=? u32 (producer m - consumer m) in
  thr m' = thr m /\ lsr m' = lsr m /\ lcr m' = lcr m /\ consumer m' = consumer m /\
  drops m' = (if full then u32 (drops m + 1) else drops m) /\ producer m' = (if full then producer m else u32 (producer m + 1)) /\
  waiting m' = waiting m ++ (if full then [] else [b]).
Proof.
  intros Hm Hb m' full. unfold m', trisc0_uart_feed_push, fw_mem. cbn [fw_bind read_u32 fw_run]. fold (producer m) (consumer m). fold full.
  assert (Fp : fits 32 (producer m)) by by apply rd32_fits. assert (Fc : fits 32 (consumer m)) by by apply rd32_fits.
  destruct full eqn:Ef; cbn [fw_bind read_u32 fw_run store_u32 snd].
  - fold (drops m). unfold thr, lsr, lcr. split_and!; try (by uart_out).
    + unfold consumer. by uart_out.
    + unfold drops at 1. rewrite rd32_wr32_eq; [done|apply u32_fits].
    + unfold producer. by uart_out.
    + rewrite app_nil_r. apply waiting_kept; [unfold producer; by uart_out|unfold consumer; by uart_out|].
      intros n. pose proof (ring_cell_bound n). by uart_out.
  - assert (Hcell : uart_priv_addr i (UART_PRIV_OFF_FEED_RING + Z.land (producer m) (UART_FEED_RING_ENTRIES - 1) * 4) = ring_cell (producer m)).
    { unfold ring_cell. rewrite land_mask by apply Fp. unfold u32. rewrite (wrap_small 32 (producer m)) by done.
      pose proof (Z.mod_pos_bound (producer m) 1024 ltac:(done)). rewrite uart_priv_eq by (done || uart_lia). uart_lia. }
    rewrite Hcell. pose proof (ring_cell_bound (producer m)) as Hrc.
    unfold thr, lsr, lcr. split_and!; try (by uart_out).
    + unfold consumer. by uart_out.
    + unfold drops. by uart_out.
    + unfold producer at 1. rewrite rd32_wr32_eq; [done|apply u32_fits].
    + set (m2 := wr32 (wr32 m _ _) _ _).
      assert (Ep : producer m2 = u32 (producer m + 1)) by (unfold producer at 1, m2; rewrite rd32_wr32_eq; [done|apply u32_fits]).
      assert (Ec : consumer m2 = consumer m) by (unfold consumer, m2; by uart_out).
      assert (Hd : u32 (producer m - consumer m) < 1024) by (apply Z.leb_gt in Ef; unfold UART_FEED_RING_ENTRIES in Ef; lia).
      pose proof (u32_fits (producer m - consumer m)) as [Hd0 _]. set (d := u32 (producer m - consumer m)) in *.
      assert (Ed : u32 (producer m2 - consumer m2) = d + 1).
      { rewrite Ep, Ec. unfold d, u32, wrap, fits in *. change (2 ^ 32) with 4294967296 in *. rewrite Zminus_mod_idemp_l. Z.div_mod_to_equations. lia. }
      assert (Hcp : u32 (consumer m + d) = producer m).
      { unfold d, u32, wrap, fits in *. change (2 ^ 32) with 4294967296 in *. rewrite Zplus_mod_idemp_r. replace (consumer m + (producer m - consumer m)) with (producer m) by lia. apply Z.mod_small. lia. }
      unfold waiting. rewrite Ed, Ec. fold d. replace (Z.to_nat (d + 1)) with (Z.to_nat d + 1)%nat by lia.
      rewrite feed_bytes_app. f_equal.
      * unfold feed_bytes. apply List.map_ext_in. intros k Hk%in_seq. rewrite !feed_byte_cell. f_equal. unfold m2. pose proof (ring_cell_bound (consumer m + Z.of_nat k)).
        rewrite rd32_wr32_out by (uart_addrs; uart_lia). apply rd32_wr32_out.
        unfold ring_cell. rewrite <- Hcp. unfold d, u32, wrap, fits in *. change (2 ^ 32) with 4294967296 in *. Z.div_mod_to_equations. lia.
      * rewrite Z2Nat.id by lia. rewrite Hcp. unfold feed_bytes. cbn [List.map seq]. rewrite Z.add_0_r, feed_byte_cell. f_equal. unfold m2.
        rewrite rd32_wr32_out by (uart_addrs; uart_lia). rewrite rd32_wr32_eq by (unfold is_byte, fits in *; lia).
        change 0xff with (Z.ones 8). rewrite Z.land_ones by lia. apply Z.mod_small. exact Hb.
Qed.

Lemma poll_taking m b :
  mem_ok m -> hold m = 0 -> thr m = b -> is_byte b -> Z.land (lcr m) UART_LCR_DLAB = 0 ->
  let m' := fw_mem (trisc0_uart_poll_one i) m in
  let full := UART_FEED_RING_ENTRIES <=? u32 (producer m - consumer m) in
  thr m' = FW_SENTINEL /\ lsr m' = 0 /\ lcr m' = lcr m /\ consumer m' = consumer m /\
  drops m' = (if full then u32 (drops m + 1) else drops m) /\ producer m' = (if full then producer m else u32 (producer m + 1)) /\
  waiting m' = waiting m ++ (if full then [] else [b]).
Proof.
  intros Hm Hh Ht Hb Hl m' full. unfold m', trisc0_uart_poll_one, fw_mem. cbv zeta. cbn [fw_bind read_u32 fw_run]. fold (hold m). rewrite Hh.
  cbn [Z.ltb Z.compare]. cbn [fw_bind read_u32 fw_run]. fold (thr m). rewrite Ht.
  rewrite (proj2 (Z.eqb_neq b FW_SENTINEL)) by (unfold is_byte, FW_SENTINEL in *; lia). cbn [negb fw_when fw_bind store_u32 read_u32 fw_run].
  set (m1 := wr32 m (uart_reg_addr i UART_REG_LSR) 0).
  assert (El : rd32 m1 (uart_reg_addr i UART_REG_LCR) = lcr m) by (unfold m1; by uart_out). rewrite El, Hl, Z.eqb_refl. cbn [negb].
  cbn [fw_bind store_u32 fw_run]. set (m2 := wr32 m1 (uart_reg_addr i UART_REG_RBR_THR) FW_SENTINEL).
  assert (Ev : Z.land b 255 = b) by (change 255 with (Z.ones 8); rewrite Z.land_ones by lia; by apply Z.mod_small). rewrite Ev.
  assert (M2 : mem_ok m2) by (unfold m2, m1; by repeat apply mem_ok_wr32').
  assert (K : forall a, a = UART_PRIV_OFF_FEED_PRODUCER_SEQ \/ a = UART_PRIV_OFF_FEED_CONSUMER_SEQ \/ a = UART_PRIV_OFF_FEED_DROP_COUNT ->
    rd32 m2 (uart_priv_addr i a) = rd32 m (uart_priv_addr i a)).
  { intros a Ha. unfold m2, m1. destruct Ha as [->|[->| ->]]; by uart_out. }
  assert (Ep : producer m2 = producer m) by (apply K; auto). assert (Ec : consumer m2 = consumer m) by (apply K; auto).
  assert (Ed : drops m2 = drops m) by (apply K; auto).
  assert (Ew : waiting m2 = waiting m).
  { apply waiting_kept; [done..|]. intros n. pose proof (ring_cell_bound n). unfold m2, m1. by uart_out. }
  destruct (push_spec m2 b M2 Hb) as (P1 & P2 & P3 & P4 & P5 & P6 & P7).
  rewrite Ep, Ec, Ed, Ew in *. fold full in P5, P6, P7. rewrite fw_run_bind. cbn [fw_run store_u32 snd]. fold (fw_mem (trisc0_uart_feed_push i b) m2).
  set (m3 := fw_mem (trisc0_uart_feed_push i b) m2) in *.
  assert (T2 : thr m2 = FW_SENTINEL) by (unfold thr, m2; by rewrite rd32_wr32_eq).
  assert (L2 : lsr m2 = 0) by (unfold lsr, m2, m1; uart_out; by rewrite rd32_wr32_eq).
  assert (C2 : lcr m2 = lcr m) by (unfold lcr, m2, m1; by uart_out).
  split_and!.
  - rewrite <- T2, <- P1. unfold thr. by uart_out.
  - rewrite <- L2, <- P2. unfold lsr. by uart_out.
  - rewrite <- C2, <- P3. unfold lcr. by uart_out.
  - rewrite <- P4. unfold consumer. by uart_out.
  - rewrite <- P5. unfold drops. by uart_out.
  - rewrite <- P6. unfold producer. by uart_out.
  - rewrite <- P7. apply waiting_kept; [unfold producer; by uart_out|unfold consumer; by uart_out|]. intros n. pose proof (ring_cell_bound n). by uart_out.
Qed.

(** ** The line *)

Lemma survivors_app l fate l' fate' :
  length fate = length l -> survivors (l ++ l') (fate ++ fate') = survivors l fate ++ survivors l' fate'.
Proof.
  revert fate. induction l as [|b l IH]; intros [|f fate] Hl; try done. cbn. rewrite IH by (by injection Hl). by rewrite app_assoc.
Qed.

Lemma lost_snoc fate f : u32 (lost (fate ++ [f])) = if f then u32 (lost fate) else u32 (u32 (lost fate) + 1).
Proof.
  unfold lost. rewrite List.filter_app, length_app. destruct f; cbn [List.filter negb length].
  - by rewrite Nat.add_0_r.
  - unfold u32. rewrite wrap_add_l by lia. f_equal. lia.
Qed.

Lemma survivors_all l fate : length fate = length l -> lost fate = 0 -> survivors l fate = l.
Proof.
  revert fate. induction l as [|b l IH]; intros [|f fate] Hl H0; try done. destruct f; cbn in *.
  - f_equal. apply IH; [by injection Hl|done].
  - unfold lost in H0. cbn in H0. lia.
Qed.

Lemma line_agree h u m' : uart_others (u_l1 u) m' -> line_ok h u -> line_ok h (mk_uart m' (u_cursor u) (u_hub u) (u_seen u) (u_sent u)).
Proof.
  intros [HA Hm] [L1 L2 L3 L4 L5 L6 L7 (chunks & picked & fate & S1 & S2 & S3 & S4 & S5)].
  destruct (agree_uart _ _ HA) as (E1 & E2 & E3 & E4 & E5 & E6 & E7 & E8).
  constructor; cbn [u_l1 u_cursor u_hub u_seen u_sent]; rewrite ?E1, ?E2, ?E3, ?E4, ?E5, ?E6, ?E7, ?E8; try done.
  exists chunks, picked, fate. split_and!; try done. unfold in_flight in *. cbn [u_seen u_l1]. by rewrite E1.
Qed.

Lemma line_write h u b :
  is_byte b -> u_seen u = true -> Z.land (lsr (u_l1 u)) UART_LSR_THRE <> 0 -> line_ok h u ->
  line_ok h (mk_uart (wr32 (u_l1 u) (uart_reg_addr i UART_REG_RBR_THR) b) (u_cursor u) (u_hub u) false (u_sent u ++ [b])).
Proof.
  intros Hb Hseen Hthre [L1 L2 L3 L4 L5 L6 L7 (chunks & picked & fate & S1 & S2 & S3 & S4 & S5)].
  set (m' := wr32 _ _ _). assert (T : thr m' = b) by (unfold thr, m'; rewrite rd32_wr32_eq; [done|unfold is_byte, fits in *; lia]).
  assert (K : forall off, 4 <= off < 0xffd -> rd32 m' (uart_reg_addr i off) = rd32 (u_l1 u) (uart_reg_addr i off)) by (intros off Ho; unfold m'; by uart_out).
  assert (K' : forall off, 0 <= off < 0x1ffd -> rd32 m' (uart_priv_addr i off) = rd32 (u_l1 u) (uart_priv_addr i off)) by (intros off Ho; unfold m'; by uart_out).
  assert (Ep : producer m' = producer (u_l1 u)) by (apply K'; uart_lia). assert (Ec : consumer m' = consumer (u_l1 u)) by (apply K'; uart_lia).
  assert (Eh : hold m' = hold (u_l1 u)) by (apply K'; uart_lia). assert (Ew : waiting m' = waiting (u_l1 u)).
  { apply waiting_kept; [done..|]. intros n. pose proof (ring_cell_bound n). unfold m'. by uart_out. }
  assert (Hh : hold (u_l1 u) = 0).
  { destruct (Z.lt_ge_cases 0 (hold (u_l1 u))) as [H|H]; [rewrite (L7 H) in Hthre; done|].
    assert (fits 32 (hold (u_l1 u))) by (by apply rd32_fits). unfold fits in *. lia. }
  constructor; cbn [u_l1 u_cursor u_hub u_seen u_sent]; rewrite ?Ep, ?Ec, ?Eh; try done.
  - by apply mem_ok_wr32'.
  - unfold lcr. by rewrite K by uart_lia.
  - intros _. by rewrite T.
  - lia.
  - exists chunks, picked, fate. unfold in_flight in *. cbn [u_seen u_l1]. rewrite Hseen, app_nil_r in S2. rewrite S2, T, Ew. split_and!; try done.
    unfold drops. by rewrite K' by uart_lia.
Qed.

Lemma line_poll h u m' :
  interleaved uart_others (trisc0_uart_poll_one i) (u_l1 u) tt m' -> mem_ok m' -> line_ok h u ->
  line_ok h (mk_uart m' (u_cursor u) (u_hub u) true (u_sent u)).
Proof.
  intros P Hm' L. set (m1 := fw_mem (trisc0_uart_poll_one i) (u_l1 u)).
  assert (HA : agree_on (uart_cells i) m1 m').
  { apply (interleaved_mono _ (agree_on (uart_cells i))) in P; [|by intros x y []].
    eapply interleaved_agrees; [exact P|apply agree_refl|]. by apply uart_poll_touches, L. }
  cut (line_ok h (mk_uart m1 (u_cursor u) (u_hub u) true (u_sent u))); [intros L1; by apply (line_agree h (mk_uart m1 (u_cursor u) (u_hub u) true (u_sent u)))|]. clear HA Hm' P.
  assert (M1 : mem_ok m1).
  { eapply (confined_mem_ok (fun _ => True) (fun _ => True)); [|apply L]. unfold trisc0_uart_poll_one, trisc0_uart_feed_push. cbv zeta.
    confine; by unfold cell4. }
  destruct L as [L1 L2 L3 L4 L5 L6 L7 (chunks & picked & fate & S1 & S2 & S3 & S4 & S5)].
  assert (Fh : fits 32 (hold (u_l1 u))) by by apply rd32_fits.
  destruct (Z.lt_ge_cases 0 (hold (u_l1 u))) as [Hh|Hh].
  - destruct (u_seen u) eqn:Eseen; [|destruct (L6 eq_refl); lia].
    destruct (poll_holding _ L1 Hh) as (P1 & P2 & (P3 & P4 & P5 & P6) & P7). fold m1 in P1, P2, P3, P4, P5, P6, P7.
    constructor; cbn [u_l1 u_cursor u_hub u_seen u_sent]; rewrite ?P1, ?P3, ?P4, ?P5; try done; auto.
    + intros Hh'. rewrite P7 by done. auto.
    + exists chunks, picked, fate. unfold in_flight in *. cbn [u_seen]. rewrite Eseen in S2. by rewrite P2, P6.
  - assert (Hh0 : hold (u_l1 u) = 0) by (unfold fits in Fh; lia). destruct (u_seen u) eqn:Eseen.
    + unfold m1 in *. rewrite poll_resting in * by auto. constructor; cbn [u_l1 u_cursor u_hub u_seen u_sent]; try done; auto.
      exists chunks, picked, fate. unfold in_flight in *. cbn [u_seen]. by rewrite Eseen in S2.
    + destruct (L6 eq_refl) as [Hb _]. destruct (poll_taking _ _ L1 Hh0 eq_refl Hb L3) as (P1 & P2 & P3 & P4 & P5 & P6 & P7).
      fold m1 in P1, P2, P3, P4, P5, P6, P7. set (full := UART_FEED_RING_ENTRIES <=? _) in *.
      constructor; cbn [u_l1 u_cursor u_hub u_seen u_sent]; rewrite ?P1, ?P2, ?P3, ?P4; try done.
      * rewrite P6. destruct full eqn:Ef; [done|]. unfold full in Ef. apply Z.leb_gt in Ef.
        assert (Fp : fits 32 (producer (u_l1 u))) by by apply rd32_fits. assert (Fc : fits 32 (consumer (u_l1 u))) by by apply rd32_fits.
        unfold u32, wrap, fits, UART_FEED_RING_ENTRIES in *. change (2 ^ 32) with 4294967296 in *. rewrite Zminus_mod_idemp_l. Z.div_mod_to_equations. lia.
      * exists chunks, (picked ++ [thr (u_l1 u)]), (fate ++ [negb full]). unfold in_flight in *. rewrite Eseen in S2. cbn [u_seen]. split_and!.
        -- done.
        -- by rewrite S2, app_nil_r.
        -- rewrite !length_app. cbn. lia.
        -- rewrite survivors_app, S4, P7 by done. cbn. rewrite app_nil_r, <- app_assoc. by destruct full.
        -- rewrite P5, lost_snoc, S5. by destruct full.
Qed.

Lemma line_drain h u m' c' h' b :
  drain_uart (u_l1 u) i (u_cursor u) (u_hub u) = Done (m', c', h', b) -> line_ok h u -> line_ok h (mk_uart m' c' h' (u_seen u) (u_sent u)).
Proof.
  intros D [L1 L2 L3 L4 L5 L6 L7 (chunks & picked & fate & S1 & S2 & S3 & S4 & S5)].
  assert (Fc : fits 32 (consumer (u_l1 u))) by by apply rd32_fits.
  assert (Fp : fits 32 (producer (u_l1 u))) by by apply rd32_fits.
  rewrite L2 in D. destruct (uart_drain_exact (u_l1 u) i (consumer (u_l1 u)) (u_hub u) Hi L1 Fc) as (cs & E & Hcs & _). rewrite E in D.
  injection D as Em Ec Eh _. fold (uart_priv_addr i UART_PRIV_OFF_FEED_PRODUCER_SEQ) in Em, Ec, Hcs. fold (producer (u_l1 u)) in Em, Ec, Hcs.
  rewrite Z.min_l in Hcs by exact L4.
  assert (Hd : u32 (producer (u_l1 u) - u32 (producer (u_l1 u) - consumer (u_l1 u))) = consumer (u_l1 u)).
  { unfold u32, wrap, fits in *. change (2 ^ 32) with 4294967296 in *. rewrite Zminus_mod_idemp_r.
    replace (producer (u_l1 u) - (producer (u_l1 u) - consumer (u_l1 u))) with (consumer (u_l1 u)) by lia. apply Z.mod_small. lia. }
  rewrite Hd in Hcs. fold (waiting (u_l1 u)) in Hcs.
  assert (K : forall a, a + 4 <= 0x50008 + i * 0x2000 \/ 0x5000c + i * 0x2000 <= a -> rd32 m' a = rd32 (u_l1 u) a).
  { intros a Ha. rewrite <- Em. destruct (_ =? _); [done|]. fold (uart_priv_addr i UART_PRIV_OFF_FEED_CONSUMER_SEQ).
    apply rd32_wr32_out. uart_addrs. uart_lia. }
  assert (Ec' : consumer m' = producer (u_l1 u)).
  { rewrite <- Em. destruct (Z.eqb_spec (producer (u_l1 u)) (consumer (u_l1 u))) as [Heq|_]; [done|].
    fold (uart_priv_addr i UART_PRIV_OFF_FEED_CONSUMER_SEQ). unfold consumer at 1. by rewrite rd32_wr32_eq. }
  assert (Ep' : producer m' = producer (u_l1 u)) by (unfold producer; apply K; uart_addrs; uart_lia).
  assert (M' : mem_ok m') by (rewrite <- Em; destruct (_ =? _); [done|by apply mem_ok_wr32']).
  assert (Ew' : waiting m' = []).
  { unfold waiting. rewrite Ec', Ep'. by replace (u32 (producer (u_l1 u) - producer (u_l1 u))) with 0 by (by rewrite Z.sub_diag). }
  assert (Kr : forall off, 0 <= off < 0xffd -> rd32 m' (uart_reg_addr i off) = rd32 (u_l1 u) (uart_reg_addr i off)) by (intros off Ho; apply K; uart_addrs; uart_lia).
  constructor; cbn [u_l1 u_cursor u_hub u_seen u_sent].
  - done.
  - by rewrite <- Ec.
  - unfold lcr. by rewrite Kr by uart_lia.
  - rewrite Ec', Ep'. by rewrite Z.sub_diag.
  - intros Hx. unfold thr. rewrite Kr by uart_lia. by apply L5.
  - intros Hx. unfold thr, hold. rewrite Kr, K by (uart_addrs; uart_lia). by apply L6.
  - unfold hold, lsr. rewrite Kr, K by (uart_addrs; uart_lia). exact L7.
  - exists (chunks ++ cs), picked, fate. split_and!; [|..].
    + rewrite <- Eh, S1. unfold push_all. by rewrite foldl_app.
    + rewrite S2. unfold in_flight, thr. cbn [u_seen u_l1]. by rewrite Kr by uart_lia.
    + done.
    + rewrite S4, Ew', app_nil_r, concat_app, Hcs. done.
    + rewrite <- S5. unfold drops. apply K. uart_addrs. uart_lia.
Qed.

Lemma line_step h u u' : uart_step u u' -> line_ok h u -> line_ok h u'.
Proof. destruct 1; intros L; eauto using line_write, line_poll, line_drain, line_agree. Qed.

Lemma zero_words_run n : forall base m x,
  rd8 (fw_mem (zero_words n base) m) x = if (base <=? x) && (x <? base + 4 * Z.of_nat n) then 0 else rd8 m x.
Proof.
  induction n as [|n IH]; intros base m x.
  - destruct (Z.leb_spec base x), (Z.ltb_spec x (base + 4 * Z.of_nat 0)); try done; lia.
  - cbn [zero_words]. rewrite fw_mem_bind. unfold fw_mem at 2. cbn [fw_run store_u32 fst snd]. rewrite IH.
    destruct (Z.leb_spec (base + 4) x), (Z.ltb_spec x (base + 4 + 4 * Z.of_nat n)), (Z.leb_spec base x), (Z.ltb_spec x (base + 4 * Z.of_nat (S n)));
      cbn [andb]; try done; try lia; try (apply rd8_wr32_out; lia).
    unfold wr32. replace x with (base + Z.of_nat (Z.to_nat (x - base))) by lia. apply rd8_write_bytes_in.
    assert (x - base = 0 \/ x - base = 1 \/ x - base = 2 \/ x - base = 3) as Hc by lia. by destruct Hc as [->|[->|[->| ->]]].
Qed.

Lemma rd32_zero m a : (forall x, a <= x < a + 4 -> rd8 m x = 0) -> rd32 m a = 0.
Proof. intros Hx. unfold rd32. cbn [read_bytes le_value]. rewrite !Hx by lia. done. Qed.

Lemma zero_region_run base size m a :
  0 <= size -> size mod 4 = 0 -> base <= a -> a + 4 <= base + size -> rd32 (fw_mem (zero_region base size) m) a = 0.
Proof.
  intros Hs Hd Ha He. apply rd32_zero. intros x Hx. unfold zero_region. rewrite zero_words_run. rewrite Z2Nat.id by (apply Z.div_pos; lia).
  destruct (Z.leb_spec base x), (Z.ltb_spec x (base + 4 * (size / 4))); cbn [andb]; try done; Z.div_mod_to_equations; lia.
Qed.

Lemma fw_mem_store a v m : fw_mem (store_u32 a v) m = wr32 m a v.
Proof. done. Qed.

Lemma line_start m h : mem_ok m -> line_ok h (uart_start m h).
Proof.
  intros Hm. unfold uart_start, uart_init_one. set (p1 := zero_region (uart_regs_base i) _). set (p2 := zero_region (uart_private_base i) _).
  rewrite !fw_mem_bind, !fw_mem_store. set (ma := fw_mem p1 m). set (mb := wr32 _ _ _).
  assert (M2 : mem_ok (fw_mem p2 mb)).
  { apply (confined_mem_ok (fun _ => True) (fun _ => True)); [apply zero_region_confined; done|]. unfold mb. do 6 apply mem_ok_wr32'.
    apply (confined_mem_ok (fun _ => True) (fun _ => True)); [apply zero_region_confined; done|done]. }
  assert (Z2 : forall off, 0 <= off < 0x1ffd -> rd32 (fw_mem p2 mb) (uart_priv_addr i off) = 0).
  { intros off Ho. apply zero_region_run; [done|done|..]; uart_addrs; unfold UART_PRIVATE_PER_L2CPU; uart_lia. }
  assert (Kr : forall off, 0 <= off < 0xffd -> rd32 (fw_mem p2 mb) (uart_reg_addr i off) = rd32 mb (uart_reg_addr i off)).
  { intros off Ho. unfold p2, zero_region. unfold rd32. f_equal. apply read_bytes_ext. intros x Hx. change (Z.of_nat 4) with 4 in Hx. rewrite zero_words_run.
    revert Hx. uart_addrs. intros Hx. unfold UART_PRIVATE_PER_L2CPU. rewrite Z2Nat.id by done. change (0x2000 / 4) with 0x800.
    destruct (Z.leb_spec (0x50000 + i * 0x2000) x); [|done]. uart_lia. }
  assert (El : rd32 mb (uart_reg_addr i UART_REG_LCR) = UART_LCR_8N1).
  { unfold mb, UART_REG_MCR, UART_REG_MSR, UART_REG_IIR_FCR. clearbody ma. uart_out. by rewrite rd32_wr32_eq. }
  assert (Et : rd32 mb (uart_reg_addr i UART_REG_RBR_THR) = FW_SENTINEL).
  { unfold mb, UART_REG_MCR, UART_REG_MSR, UART_REG_IIR_FCR. clearbody ma. uart_out. by rewrite rd32_wr32_eq. }
  rewrite <- Kr in El, Et by uart_lia. clear Kr. revert M2 Z2 El Et. generalize (fw_mem p2 mb). clear. intros m2 M2 Z2 El Et.
  assert (Ep : producer m2 = 0) by (apply Z2; uart_lia). assert (Ec : consumer m2 = 0) by (apply Z2; uart_lia).
  constructor; cbn [u_l1 u_cursor u_hub u_seen u_sent]; rewrite ?Ep, ?Ec; try done.
  - unfold lcr. by rewrite El.
  - intros Hh. unfold hold in Hh. rewrite Z2 in Hh by uart_lia. lia.
  - exists [], [], []. split_and!; try done.
    + cbn. unfold waiting. by rewrite Ep, Ec.
    + unfold drops. by rewrite Z2 by uart_lia.
Qed.

(** C12: No byte of a guest's serial output is reordered, repeated or lost without
    being counted.  From the moment the firmware has set the UART up, in every
    history of the guest's writes, of TRISC0's polls, of the daemon's drains and
    of anything the others do outside the UART's cells (also in the middle of a
    poll): what the console received, then what waits in the ring, is the
    guest's output in order, less the bytes dropped at a full ring, whose number
    the drop counter holds; the byte just written is still in the register.  The
    guest writes when it has seen the transmitter ready, and TRISC0 has looked
    once since its last byte. *)
Theorem uart_stream m h u :
  mem_ok m -> rtc uart_step (uart_start m h) u ->
  exists chunks picked fate, u_hub u = push_all h chunks /\ u_sent u = picked ++ in_flight u /\ length fate = length picked /\
    concat chunks ++ waiting (u_l1 u) = survivors picked fate /\ drops (u_l1 u) = u32 (lost fate) /\
    (lost fate = 0 -> concat chunks ++ waiting (u_l1 u) ++ in_flight u = u_sent u).
Proof.
  intros Hm Hr. assert (L : line_ok h u).
  { pose proof (line_start m h Hm) as L0. revert L0. generalize (uart_start m h) Hr. intros v Hv. induction Hv; eauto using line_step. }
  destruct L as [_ _ _ _ _ _ _ (chunks & picked & fate & S1 & S2 & S3 & S4 & S5)]. exists chunks, picked, fate. split_and!; try done.
  intros H0. rewrite app_assoc, <- S4, survivors_all by done. done.
Qed.

End uart.

(** The guest writes one byte, TRISC0 takes it, the daemon drains it. *)
Lemma uart_stream_witness :
  exists u, rtc (uart_step 0) (uart_start 0 ∅ (hub_new 0 0)) u /\ u_sent u = [104] /\
    exists chunks, u_hub u = push_all (hub_new 0 0) chunks /\ concat chunks = [104].
Proof.
  set (u0 := uart_start 0 ∅ (hub_new 0 0)).
  set (m1 := wr32 (u_l1 u0) (uart_reg_addr 0 UART_REG_RBR_THR) 104). set (m2 := fw_mem (trisc0_uart_poll_one 0) m1).
  assert (M2 : mem_ok m2) by (apply (bool_decide_unpack _); vm_compute; exact I).
  destruct (uart_drain_exact m2 0 0 (hub_new 0 0) ltac:(split; done) M2 ltac:(split; done)) as (cs & Ed & _).
  set (m3 := if _ =? _ then m2 else _) in Ed. match type of Ed with _ = Done (_, ?c, ?h, _) => set (u := mk_uart m3 c h true [104]) end.
  assert (Hr : rtc (uart_step 0) u0 u).
  { eapply rtc_l; [apply (uart_write 0 u0 104); [split; done|done|vm_compute; discriminate]|].
    eapply rtc_l; [apply (uart_poll 0 _ m2); [apply (fw_run_interleaved _ (trisc0_uart_poll_one 0) m1)|exact M2]|].
    apply rtc_once. eapply (uart_drain 0 (mk_uart m2 0 (hub_new 0 0) true [104])). exact Ed. }
  exists u. split; [exact Hr|]. split; [reflexivity|].
  destruct (uart_stream 0 ltac:(split; done) ∅ (hub_new 0 0) u (map_Forall_empty _) Hr) as (chunks & picked & fate & H1 & H2 & H3 & H4 & H5 & H6).
  exists chunks. split; [exact H1|]. assert (Hw : waiting 0 (u_l1 u) = []) by (vm_compute; reflexivity).
  assert (Hd : drops 0 (u_l1 u) = 0) by (vm_compute; reflexivity).
  rewrite Hw in H4, H6. change (in_flight 0 u) with (@nil Z) in H2, H6. change (u_sent u) with [104] in H2, H6. rewrite Hd in H5. rewrite !app_nil_r in *.
  subst picked. destruct fate as [|[] [|f fate]]; [discriminate H3|apply H6; reflexivity|discriminate H3| |discriminate H3].
  discriminate H5.
Defined.

(** Why TRISC0 must look between two bytes: until it does, the transmitter still
    reads ready, and a second byte replaces the first without a trace. *)
Theorem stale_ready_loses i m a b :
  uart_ok i -> mem_ok m -> hold i m = 0 -> is_byte a -> is_byte b -> Z.land (lcr i m) UART_LCR_DLAB = 0 ->
  u32 (producer i m - consumer i m) < UART_FEED_RING_ENTRIES ->
  let once := wr32 m (uart_reg_addr i UART_REG_RBR_THR) a in
  let twice := wr32 once (uart_reg_addr i UART_REG_RBR_THR) b in
  let m' := fw_mem (trisc0_uart_poll_one i) twice in
  lsr i once = lsr i m /\ waiting i m' = waiting i m ++ [b] /\ drops i m' = drops i m.
Proof.
  intros Hi Hm Hh Ha Hb Hl Hd once twice m'.
  assert (K : forall off, 0 <= off < 0x1ffd -> rd32 twice (uart_priv_addr i off) = rd32 m (uart_priv_addr i off)).
  { intros off Ho. unfold twice, once, UART_REG_RBR_THR. rewrite uart_reg_eq, uart_priv_eq by (done || lia).
    unfold uart_ok, NUM_L2CPUS in Hi. by rewrite !rd32_wr32_out by lia. }
  assert (Kr : forall off, 4 <= off < 0xffd -> rd32 twice (uart_reg_addr i off) = rd32 m (uart_reg_addr i off) /\
    rd32 once (uart_reg_addr i off) = rd32 m (uart_reg_addr i off)).
  { intros off Ho. unfold twice, once, UART_REG_RBR_THR. rewrite !uart_reg_eq by (done || lia). by rewrite !rd32_wr32_out by lia. }
  assert (M2 : mem_ok twice) by (by do 2 apply mem_ok_wr32').
  assert (T : thr i twice = b) by (unfold thr, twice; rewrite rd32_wr32_eq; [done|unfold is_byte, fits in *; lia]).
  assert (Ew : waiting i twice = waiting i m).
  { apply waiting_kept; [done|apply K; done|apply K; done|]. intros n. pose proof (ring_cell_bound i n). unfold twice, once, UART_REG_RBR_THR.
    rewrite uart_reg_eq by (done || lia). unfold uart_ok, NUM_L2CPUS in Hi. by rewrite !rd32_wr32_out by lia. }
  split; [apply Kr; done|].
  destruct (poll_taking i Hi twice b M2 ltac:(unfold hold; by rewrite K) T Hb ltac:(unfold lcr; by rewrite (proj1 (Kr UART_REG_LCR ltac:(done))))) as (_ & _ & _ & _ & P5 & _ & P7).
  fold m' in P5, P7. unfold producer, consumer in P5, P7. rewrite !K in P5, P7 by done. fold (producer i m) (consumer i m) in P5, P7.
  rewrite (proj2 (Z.leb_gt _ _) Hd) in P5, P7. rewrite Ew in P7. split; [done|]. rewrite P5. unfold drops. by apply K.
Qed.

(** The address at which a guest would find its UART, through the window that
    [program_l2cpu_tlb] gives it, is where the firmware keeps it for guest 0
    only: the firmware's UARTs are 16 KiB apart and the windows 32 KiB.  Guest 1
    would reach the UART of guest 2, guest 2 the private block of guest 0, and
    guest 3 the heartbeat of TRISC0. *)
Theorem uart_window_elsewhere :
  let found i := uart_pa_from_engine_base (l2cpu_window_base i) in
  (forall i, uart_ok i -> found i = uart_reg_addr i 0 <-> i = 0) /\
  found 1 = uart_reg_addr 2 0 /\ found 2 = uart_priv_addr 0 UART_PRIV_OFF_HOLD /\ found 3 = trisc0_heartbeat_addr.
Proof.
  split; [|done]. intros i Hi. unfold uart_ok, NUM_L2CPUS in Hi.
  assert (i = 0 \/ i = 1 \/ i = 2 \/ i = 3) as Hc by lia. by destruct Hc as [->|[->|[->| ->]]].
Qed.
