(* ===== verification/FirmwareBoot.v ===== *)
(** The firmware's start-up against the daemon's bring-up: the stores of [main]
    in [brisc-firmware/virtio.c], spread over the polls of [bring_up], and when
    the two meet.  Also the device table of the firmware against that of the
    daemon, and the reset line of the helper cores. *)

From S2P Require Import Prelude Layout Tlb Clock Telemetry L2cpu Tensix Firmware FirmwareProofs SerialLine.

(** ** The daemon's side, on the memory of the tile *)

Section meeting.
Context `{FW : Tensix.Firmware}.

Fixpoint poll_mem (fuel : nat) (addr magic timeout : Z) (k0 k : nat) (m : gmap Z Z) : option (nat * gmap Z Z) :=
  match fuel with
  | O => None
  | S fuel =>
      let m := fw_step (k0 + k) m in
      if rd32 m addr =? magic then Some ((k0 + k + 1)%nat, m)
      else if timeout <? elapsed_ms k then None
      else poll_mem fuel addr magic timeout k0 (k + 1) m
  end.

Lemma poll_hit addr magic timeout k0 k m :
  rd32 (fw_step (k0 + k) m) addr = magic ->
  poll_mem poll_fuel addr magic timeout k0 k m = Some ((k0 + k + 1)%nat, fw_step (k0 + k) m).
Proof. intros H. assert (exists n, poll_fuel = S n) as [n ->] by (by exists 501%nat). cbn [poll_mem]. by rewrite H, Z.eqb_refl. Qed.

Definition STATS_MAGIC_AT : Z := STATS_BASE + STATS_OFF_MAGIC.
Definition HELLO_AT : Z := CTRL_BASE + CTRL_OFF_HELLO.
Definition ACK_AT : Z := CTRL_BASE + CTRL_OFF_HELLO_ACK.

Definition greeted (m : gmap Z Z) : gmap Z Z :=
  wr32 (wr32 m (HELLO_AT + HELLO_OFF_PROTOCOL_VERSION) PROTOCOL_VERSION) (HELLO_AT + HELLO_OFF_MAGIC) HELLO_MAGIC.

(** The version the daemon takes the firmware to have, if they meet. *)
Definition met (firmware : list Z) (fw_build_id : Z) (m : gmap Z Z) : option Z :=
  match poll_mem poll_fuel STATS_MAGIC_AT STATS_MAGIC_LOADED STATS_TIMEOUT_MS 0 0 (prepared firmware m) with
  | None => None
  | Some (k, m) =>
      let m := greeted (wr32 m (STATS_BASE + STATS_OFF_VERSION) (stamped_version fw_build_id)) in
      match poll_mem poll_fuel (ACK_AT + HELLO_ACK_OFF_MAGIC) HELLO_ACK_MAGIC HANDSHAKE_TIMEOUT_MS k 0 m with
      | None => None
      | Some (_, m) =>
          if rd32 m (ACK_AT + HELLO_ACK_OFF_PROTOCOL_VERSION) =? PROTOCOL_VERSION
          then Some (rd32 m (ACK_AT + HELLO_ACK_OFF_FIRMWARE_VERSION)) else None
      end
  end.

Lemma poll_magic_mem t addr magic timeout k0 : forall fuel k os,
  tile_ready os t -> 0 <= addr -> addr + 4 <= TENSIX_L1_SIZE -> addr mod 4 = 0 ->
  Z.of_nat k <= timeout + 1 -> timeout + 1 < Z.of_nat (k + fuel) ->
  match poll_magic fuel t addr magic timeout k0 k os with
  | Seen k' os' => same_resources os' os /\
      poll_mem fuel addr magic timeout k0 k (tile_mem os (tile_xy t)) = Some (k', tile_mem os' (tile_xy t))
  | TimedOut os' => poll_mem fuel addr magic timeout k0 k (tile_mem os (tile_xy t)) = None
  | PollPanic | PollFuel => False
  end.
Proof.
  induction fuel as [|fuel IH]; intros k os Hr H0 H1 H4 Hk Hf; cbn [poll_magic poll_mem]; [lia|].
  assert (Hr' : tile_ready (fw_runs t (k0 + k) os) t) by (by rewrite fw_runs_same).
  assert (E : tile_mem (fw_runs t (k0 + k) os) (tile_xy t) = fw_step (k0 + k) (tile_mem os (tile_xy t))).
  { unfold fw_runs, tile_mem, tile_xy. cbn. by rewrite lookup_insert_eq. }
  rewrite read_l1_reads, E by done. destruct (Z.eqb_spec (rd32 (fw_step (k0 + k) (tile_mem os (tile_xy t))) addr) magic); [by rewrite E|].
  destruct (Z.ltb_spec timeout (elapsed_ms k)); [done|].
  pose proof (elapsed_grows k). specialize (IH (k + 1)%nat (fw_runs t (k0 + k) os) Hr' H0 H1 H4 ltac:(lia) ltac:(lia)).
  rewrite E in IH. pose proof (fw_runs_same t (k0 + k) os) as Hs.
  destruct (poll_magic _ _ _ _ _ _ _ _); [|done..]. destruct IH as [IH ->]. split; [by rewrite IH|done].
Qed.

End meeting.

Section engine_meeting.
Context `{KL : KernelLaws} `{FW : Tensix.Firmware}.

(** The whole of [bring_up], windows and descriptors included, comes to [met] of
    the memory of the tile. *)
Lemma bring_up_met fw build_id chip chip_fd os p tx ty t os1 :
  choose_tile chip = Some (Some (p, (tx, ty))) ->
  io_bind (dup_fd chip_fd os) (fun dup os => new_with_dup_fd dup (pt_x p) (pt_y p) os) = Ret t os1 ->
  Forall is_byte fw -> Z.of_nat (length fw) <= TENSIX_L1_SIZE ->
  match bring_up fw build_id chip chip_fd os with
  | Up e _ => met fw build_id (tile_mem os (pt_x p, pt_y p)) = Some (firmware_version e) /\ protocol_version e = PROTOCOL_VERSION
  | Down _ => met fw build_id (tile_mem os (pt_x p, pt_y p)) = None
  | EngPanic | EngFuel => False
  end.
Proof.
  intros Hc Ho Hb Hl. unfold bring_up, met. rewrite Hc, Ho.
  pose proof (open_tile_spec chip_fd (pt_x p) (pt_y p) os) as H. rewrite Ho in H. destruct H as (Hr & Hxy & Hn & _).
  destruct (prepare_tile_does t fw Hb Hl os1 Hr) as (os2 & -> & W). pose proof (wrote_same _ _ _ _ W) as S2.
  assert (Hr2 : tile_ready os2 t) by (by rewrite <- S2).
  pose proof (poll_magic_mem t (STATS_BASE + STATS_OFF_MAGIC) STATS_MAGIC_LOADED STATS_TIMEOUT_MS 0
                poll_fuel 0 os2 Hr2 ltac:(done) ltac:(done) ltac:(done) ltac:(done) ltac:(done)) as P.
  rewrite (wrote_mem _ _ _ _ W) in P. assert (E1 : tile_mem os1 (tile_xy t) = tile_mem os (pt_x p, pt_y p)) by (unfold tile_mem; by rewrite Hn, Hxy).
  rewrite E1 in P. unfold STATS_MAGIC_AT.
  destruct (poll_magic _ _ _ _ _ _ _ _) as [k os3|os3| |]; [|by rewrite P|done..]. destruct P as [P ->].
  assert (Hr3 : tile_ready os3 t) by (by rewrite P).
  destruct (write_l1_does t (STATS_BASE + STATS_OFF_VERSION) (stamped_version build_id)
              ltac:(done) ltac:(done) ltac:(done) os3 Hr3) as (os4 & -> & W4).
  assert (Hr4 : tile_ready os4 t) by (by rewrite <- (wrote_same _ _ _ _ W4)).
  unfold run_handshake.
  destruct (does_seq t _ _ _ _
              (write_l1_does t (CTRL_BASE + CTRL_OFF_HELLO + HELLO_OFF_PROTOCOL_VERSION) PROTOCOL_VERSION
                 ltac:(done) ltac:(done) ltac:(done))
              (write_l1_does t (CTRL_BASE + CTRL_OFF_HELLO + HELLO_OFF_MAGIC) HELLO_MAGIC
                 ltac:(done) ltac:(done) ltac:(done)) os4 Hr4) as (os5 & -> & W5).
  assert (Hr5 : tile_ready os5 t) by (by rewrite <- (wrote_same _ _ _ _ W5)).
  pose proof (poll_magic_mem t (CTRL_BASE + CTRL_OFF_HELLO_ACK + HELLO_ACK_OFF_MAGIC) HELLO_ACK_MAGIC
                HANDSHAKE_TIMEOUT_MS k poll_fuel 0 os5 Hr5 ltac:(done) ltac:(done) ltac:(done) ltac:(done) ltac:(done)) as Q.
  rewrite (wrote_mem _ _ _ _ W5), (wrote_mem _ _ _ _ W4) in Q. unfold greeted, HELLO_AT, ACK_AT.
  destruct (poll_magic _ _ _ _ _ _ _ _) as [k' os6|os6| |]; [|by rewrite Q|done..]. destruct Q as [Q ->].
  assert (Hr6 : tile_ready os6 t) by (by rewrite Q). rewrite !read_l1_reads by done.
  destruct (Z.eqb_spec (rd32 (tile_mem os6 (tile_xy t)) (CTRL_BASE + CTRL_OFF_HELLO_ACK + HELLO_ACK_OFF_PROTOCOL_VERSION)) PROTOCOL_VERSION);
    cbn [negb firmware_version protocol_version]; done.
Qed.

End engine_meeting.

(** ** The firmware's side *)

(** The stores of a program that only stores. *)
Fixpoint plain {A} (p : fw A) : Prop :=
  match p with Pure _ => True | Store _ _ p => plain p | _ => False end.
Fixpoint stores_of {A} (p : fw A) : list (Z * Z) :=
  match p with Store a v p => (a, v) :: stores_of p | _ => [] end.
Definition play (l : list (Z * Z)) (m : gmap Z Z) : gmap Z Z := foldl (fun m w => wr32 m w.1 w.2) m l.

Lemma plain_run {A} (p : fw A) : forall m, plain p -> fw_mem p m = play (stores_of p) m.
Proof. induction p as [x|a k IH|a v p IH|a v p IH]; intros m H; try done. exact (IH (wr32 m a v) H). Qed.

Lemma plain_bind {A B} (p : fw A) (f : A -> fw B) : plain p -> (forall a, plain (f a)) -> plain (fw_bind p f).
Proof. intros Hp Hf. induction p as [x|a k IH|a v p IH|a v p IH]; cbn in *; auto. Qed.

Lemma plain_zero n : forall base, plain (zero_words n base).
Proof. induction n as [|n IH]; intros base; [done|]. exact (IH (base + 4)). Qed.

Lemma plain_each {A} (l : list A) body : (forall x, plain (body x)) -> plain (for_each_do l body).
Proof. intros Hb. induction l as [|x l IH]; [done|]. apply plain_bind; [apply Hb|done]. Qed.

Lemma plain_store a v : plain (store_u32 a v).
Proof. exact I. Qed.

Ltac all_plain :=
  repeat match goal with
  | |- plain (fw_bind _ _) => apply plain_bind; [|intros ?]
  | |- plain (store_u32 _ _) => apply plain_store
  | |- plain (zero_words _ _) => apply plain_zero
  | |- plain (zero_region _ _) => unfold zero_region; apply plain_zero
  | |- plain (for_each_do _ _) => apply plain_each; intros ?
  | |- plain (init_stats _) => unfold init_stats
  | |- plain init_proto => unfold init_proto
  | |- plain (init_device _) => unfold init_device; cbv zeta
  | |- plain uart_init_devices => unfold uart_init_devices
  | |- plain (uart_init_one _) => unfold uart_init_one
  end.

Definition main_stores (build_id : Z) : list (Z * Z) := stores_of (fw_init build_id).

(** [main] up to its wait does not look at memory: its effect is its stores. *)
Lemma main_stores_run build_id m : fw_mem (fw_init build_id) m = play (main_stores build_id) m.
Proof.
  unfold main_stores. rewrite plain_run; [done|]. unfold fw_init. cbv zeta. all_plain.
Qed.

(** By poll [k] of the daemon the firmware has done the first [progress k] of
    those stores; once they are done, it looks for the greeting between any two
    polls.  The answer is three stores whose last is the word the daemon waits
    for, so where it is cut does not matter. *)
Definition slice {A} (a b : nat) (l : list A) : list A := take (b - a) (drop a l).

Definition before (progress : nat -> nat) (k : nat) : nat := match k with O => O | S k => progress k end.

Definition booting (build_id : Z) (progress : nat -> nat) (clock : nat -> Z) (Hclock : forall k, Z.of_nat k <= clock k)
    : Tensix.Firmware := {|
  fw_step k m :=
    let m := play (slice (before progress k) (progress k) (main_stores build_id)) m in
    if (length (main_stores build_id) <=? progress k)%nat then fw_mem (await_hello build_id) m else m;
  elapsed_ms := clock;
  elapsed_grows := Hclock |}.

Lemma slice_elem {A} a b (l : list A) x : x ∈ slice a b l -> exists i, (a <= i < b)%nat /\ l !! i = Some x.
Proof.
  unfold slice. intros [i Hi]%list_elem_of_lookup_1. pose proof (lookup_lt_Some _ _ _ Hi) as Hl. rewrite length_take in Hl.
  rewrite lookup_take_lt, lookup_drop in Hi by lia. exists (a + i)%nat. split; [lia|done].
Qed.

Lemma slice_split {A} a i b (l : list A) x :
  (a <= i < b)%nat -> l !! i = Some x -> slice a b l = slice a i l ++ x :: slice (S i) b l.
Proof.
  intros Hi Hx. pose proof (lookup_lt_Some _ _ _ Hx) as Hl.
  assert (E : drop a l = take (i - a) (drop a l) ++ x :: drop (S i) l).
  { rewrite <- (take_drop (i - a) (drop a l)) at 1. f_equal. rewrite drop_drop.
    replace (a + (i - a))%nat with i by lia. by apply drop_S. }
  unfold slice. rewrite E at 1. assert (L : length (take (i - a) (drop a l)) = (i - a)%nat) by (rewrite length_take, length_drop; lia).
  rewrite take_app_ge by lia. rewrite L. f_equal. replace (b - a - (i - a))%nat with (S (b - S i)) by lia. done.
Qed.

Lemma rd32_play_out l : forall m w, (forall a v, (a, v) ∈ l -> w + 4 <= a \/ a + 4 <= w) -> rd32 (play l m) w = rd32 m w.
Proof.
  induction l as [|[a v] l IH]; intros m w Hl; [done|]. change (rd32 (play l (wr32 m a v)) w = rd32 m w).
  rewrite IH; [|intros a' v' Hin; apply (Hl a' v'); by right]. apply rd32_wr32_out, (Hl a v). by left.
Qed.

(** The stores by their place in the sequence. *)
Definition zeros (n : nat) (base : Z) : list (Z * Z) := (fun j => (base + 4 * Z.of_nat j, 0)) <$> seq 0 n.

Lemma stores_bind {B} (p : fw unit) (q : fw B) : plain p -> stores_of (p ;; q)%fw = stores_of p ++ stores_of q.
Proof. intros Hp. induction p as [x|a k IH|a v p IH|a v p IH]; try done. cbn in *. by rewrite IH. Qed.

Lemma stores_store a v : stores_of (store_u32 a v) = [(a, v)].
Proof. done. Qed.

Lemma stores_zero n : forall base, stores_of (zero_words n base) = zeros n base.
Proof.
  induction n as [|n IH]; intros base; [done|]. cbn [zero_words]. rewrite stores_bind, IH by apply plain_store.
  unfold zeros. cbn [seq fmap list_fmap]. rewrite Z.add_0_r. cbn. f_equal. rewrite <- seq_shift. unfold fmap. rewrite <- list_fmap_compose.
  apply list_fmap_ext. intros i x Hx. cbn. f_equal. lia.
Qed.

Lemma confined_stores R W {A} (p : fw A) a v : confined R W p -> (a, v) ∈ stores_of p -> W a.
Proof.
  induction p as [x|b k IH|b w p IH|b w p IH]; cbn; intros Hc He; try by apply not_elem_of_nil in He.
  destruct Hc as [Hw Hc]. apply elem_of_cons in He as [He|He]; [|by apply IH]. simplify_eq. apply Hw.
Qed.

(** The devices and the UARTs. *)
Definition device_boot : fw unit := (for_each_do (upto NUM_SLOTS) init_device ;; uart_init_devices)%fw.
Definition device_stores : list (Z * Z) := stores_of device_boot.

Lemma main_stores_split b : main_stores b =
  zeros 1024 STATS_BASE ++ [(STATS_BASE + STATS_OFF_VERSION, FW_VERSION b); (STATS_MAGIC_AT, STATS_MAGIC_LOADED)] ++
  zeros 1024 CTRL_BASE ++ device_stores.
Proof.
  unfold main_stores. change (fw_init b) with (init_stats b ;; init_proto ;; device_boot)%fw.
  unfold device_stores. generalize device_boot. intros d. unfold init_stats, init_proto, zero_region.
  rewrite !stores_bind, !stores_zero, !stores_store by all_plain. change (ctrl_addr 0) with CTRL_BASE. rewrite <- !app_assoc.
  generalize (stores_of d). intros l. reflexivity.
Qed.

Lemma device_stores_high a v : (a, v) ∈ device_stores -> 0x10000 <= a.
Proof.
  unfold device_stores, device_boot. apply (confined_stores (fun _ => True) (fun x => 0x10000 <= x)).
  apply confined_bind; [|intros _]; apply confined_each; intros s Hs%upto_spec.
  - unfold init_device. cbv zeta. pose proof (num_queues_bound s). confine.
    all: try match goal with Hq : _ ∈ upto _ |- _ => apply upto_spec in Hq end.
    all: try (apply zero_region_confined; [done|intros x Hx; revert Hx]).
    all: l1_addrs; unfold cell4; layout; lia.
  - assert (Hu : uart_ok s) by exact Hs. unfold uart_init_one. confine.
    all: try (apply zero_region_confined; [done|intros x Hx; revert Hx]).
    all: unfold cell4; rewrite ?uart_reg_eq, ?uart_base_eq by done;
      unfold UART_REG_RBR_THR, UART_REG_LCR, UART_REG_MCR, UART_REG_LSR, UART_REG_MSR, UART_REG_IIR_FCR; try lia.
    replace (uart_regs_base s) with (0x40000 + s * 0x4000); [lia|].
    symmetry. apply wrap_small. unfold fits, BRISC_UART_BASE, UART_PER_L2CPU_STRIDE, NUM_L2CPUS in *. lia.
Qed.

(** ** The words that the two exchange *)

Definition MAGIC_STORE : nat := 1025.
Definition CLEARED : nat := 2050.
(** The store that clears the word at [CTRL_BASE + 4 * j]. *)
Definition wipe_index (j : nat) : nat := (1026 + j)%nat.

Lemma lookup_zeros n base j a v : zeros n base !! j = Some (a, v) <-> (j < n)%nat /\ a = base + 4 * Z.of_nat j /\ v = 0.
Proof.
  unfold zeros. rewrite list_lookup_fmap_Some. split.
  - intros (i & E & [-> Hi]%lookup_seq). by simplify_eq.
  - intros (Hj & -> & ->). exists j. by rewrite lookup_seq.
Qed.

Lemma length_zeros n base : length (zeros n base) = n.
Proof. unfold zeros. by rewrite length_fmap, length_seq. Qed.

(** A sequence in five parts. *)
Section parts.
Context (l1 l2 l3 : list (Z * Z)) (x y : Z * Z).
#[local] Abbreviation parts := (l1 ++ [x; y] ++ l2 ++ l3).

Lemma lookup_parts i w : parts !! i = Some w ->
  l1 !! i = Some w \/ i = length l1 /\ w = x \/ i = S (length l1) /\ w = y \/
  (exists k, i = (length l1 + 2 + k)%nat /\ l2 !! k = Some w) \/ (length l1 + 2 + length l2 <= i)%nat /\ w ∈ l3.
Proof.
  intros [H|[Hl H]]%lookup_app_Some; [by left|right]. destruct (i - length l1)%nat as [|[|k]] eqn:Ei; cbn in H.
  - left. split; [lia|congruence].
  - right. left. split; [lia|congruence].
  - do 2 right. apply lookup_app_Some in H as [H|[Hk H]].
    + left. exists k. split; [lia|done].
    + right. split; [lia|by eapply list_elem_of_lookup_2].
Qed.

Lemma parts_first i w : l1 !! i = Some w -> parts !! i = Some w.
Proof. apply lookup_app_l_Some. Qed.
Lemma parts_second : parts !! S (length l1) = Some y.
Proof. rewrite lookup_app_r by lia. replace (S (length l1) - length l1)%nat with 1%nat by lia. done. Qed.
Lemma parts_third k w : l2 !! k = Some w -> parts !! (length l1 + 2 + k)%nat = Some w.
Proof.
  intros H. rewrite lookup_app_r by lia. replace (length l1 + 2 + k - length l1)%nat with (S (S k)) by lia.
  change ((l2 ++ l3) !! k = Some w). by apply lookup_app_l_Some.
Qed.
Lemma length_parts : (length l1 + 2 + length l2 <= length parts)%nat.
Proof. rewrite !length_app. cbn. lia. Qed.
End parts.

Section order.
Variable b : Z.
#[local] Abbreviation stores := (main_stores b).

Inductive store_kind (i : nat) (a v : Z) : Prop :=
  | ClearStats : (i < 1024)%nat -> a = STATS_BASE + 4 * Z.of_nat i -> v = 0 -> store_kind i a v
  | Version : i = 1024%nat -> a = STATS_BASE + STATS_OFF_VERSION -> store_kind i a v
  | Published : i = MAGIC_STORE -> a = STATS_MAGIC_AT -> v = STATS_MAGIC_LOADED -> store_kind i a v
  | ClearCtrl j : i = wipe_index j -> (j < 1024)%nat -> a = CTRL_BASE + 4 * Z.of_nat j -> v = 0 -> store_kind i a v
  | Devices : (CLEARED <= i)%nat -> 0x10000 <= a -> store_kind i a v.

Lemma store_is i a v : stores !! i = Some (a, v) -> store_kind i a v.
Proof.
  rewrite main_stores_split. intros [H|[[Hi E]|[[Hi E]|[(k & Hi & H)|[Hi H]]]]]%lookup_parts; rewrite ?length_zeros in *.
  - apply lookup_zeros in H as (? & ? & ?). by apply ClearStats.
  - injection E as -> _. by apply Version.
  - injection E as -> ->. by apply Published.
  - apply lookup_zeros in H as (? & -> & ->). by apply (ClearCtrl _ _ _ k).
  - apply Devices; [done|]. by eapply device_stores_high.
Qed.

Lemma publish_at : stores !! MAGIC_STORE = Some (STATS_MAGIC_AT, STATS_MAGIC_LOADED).
Proof. rewrite main_stores_split. unfold MAGIC_STORE. rewrite <- (length_zeros 1024 STATS_BASE) at 1. apply parts_second. Qed.

Lemma wipe_at j : (j < 1024)%nat -> stores !! wipe_index j = Some (CTRL_BASE + 4 * Z.of_nat j, 0).
Proof.
  intros Hj. rewrite main_stores_split. replace (wipe_index j) with (length (zeros 1024 STATS_BASE) + 2 + j)%nat by (by rewrite length_zeros).
  apply parts_third. by apply lookup_zeros.
Qed.

Lemma all_stores : (CLEARED <= length stores)%nat.
Proof. rewrite main_stores_split. pose proof length_parts as L. etransitivity; [|apply L]. by rewrite !length_zeros. Qed.

Lemma slice_keeps p q m w :
  (forall i a v, (p <= i < q)%nat -> stores !! i = Some (a, v) -> w + 4 <= a \/ a + 4 <= w) ->
  rd32 (play (slice p q stores) m) w = rd32 m w.
Proof. intros H. apply rd32_play_out. intros a v (i & Hi & Hx)%slice_elem. by apply (H i a v). Qed.

Lemma slice_last p i q m w v :
  (p <= i < q)%nat -> stores !! i = Some (w, v) -> fits 32 v ->
  (forall j a u, (i < j < q)%nat -> stores !! j = Some (a, u) -> w + 4 <= a \/ a + 4 <= w) ->
  rd32 (play (slice p q stores) m) w = v.
Proof.
  intros Hi Hx Hv H. rewrite (slice_split _ _ _ _ _ Hi Hx). unfold play. rewrite foldl_app. cbn [foldl fst snd].
  fold (play (slice p i stores) m). fold (play (slice (S i) q stores) (wr32 (play (slice p i stores) m) w v)).
  rewrite slice_keeps; [by apply rd32_wr32_eq|]. intros j a u Hj. apply H. lia.
Qed.

Ltac by_kind := let K := fresh in intros ? ? ? ? K; apply store_is in K; destruct K; subst;
  unfold STATS_MAGIC_AT, STATS_BASE, STATS_OFF_MAGIC, STATS_OFF_VERSION, CTRL_BASE, wipe_index, MAGIC_STORE, CLEARED in *; lia.

Lemma published p q m : (p <= MAGIC_STORE < q)%nat -> rd32 (play (slice p q stores) m) STATS_MAGIC_AT = STATS_MAGIC_LOADED.
Proof. intros H. apply (slice_last p MAGIC_STORE); [done|apply publish_at|done|]. by_kind. Qed.

Lemma unpublished p q m : (q <= MAGIC_STORE)%nat -> rd32 m STATS_MAGIC_AT <> STATS_MAGIC_LOADED ->
  rd32 (play (slice p q stores) m) STATS_MAGIC_AT <> STATS_MAGIC_LOADED.
Proof.
  intros Hq Hm. destruct (decide (p <= 1 < q)%nat) as [H|H].
  - rewrite (slice_last p 1 q m _ 0); [done|done| |done|by_kind].
    rewrite main_stores_split. apply parts_first. apply lookup_zeros. by split; [lia|].
  - rewrite slice_keeps; [done|]. by_kind.
Qed.

Lemma wiped p j q m : (j < 1024)%nat -> (p <= wipe_index j < q)%nat -> rd32 (play (slice p q stores) m) (CTRL_BASE + 4 * Z.of_nat j) = 0.
Proof. intros Hj H. apply (slice_last p (wipe_index j)); [done|by apply wipe_at|done|]. by_kind. Qed.

Lemma unwiped p j q m : (j < 1024)%nat -> (q <= wipe_index j \/ wipe_index j < p)%nat ->
  rd32 (play (slice p q stores) m) (CTRL_BASE + 4 * Z.of_nat j) = rd32 m (CTRL_BASE + 4 * Z.of_nat j).
Proof. intros Hj H. apply slice_keeps. by_kind. Qed.

End order.

(** ** When they meet *)

#[local] Abbreviation HELLO_WORD := (HELLO_AT + HELLO_OFF_MAGIC).
#[local] Abbreviation ACK_WORD := (ACK_AT + HELLO_ACK_OFF_MAGIC).
#[local] Abbreviation ACK_PROTOCOL := (ACK_AT + HELLO_ACK_OFF_PROTOCOL_VERSION).
#[local] Abbreviation ACK_VERSION := (ACK_AT + HELLO_ACK_OFF_FIRMWARE_VERSION).

Lemma fits_version b : fits 32 (FW_VERSION b).
Proof. apply fits_lor; [done|apply wrap_fits|]; done. Qed.

(** One turn of the wait. *)
Lemma await_idle b m : rd32 m HELLO_WORD <> HELLO_MAGIC -> fw_mem (await_hello b) m = m.
Proof.
  intros H. unfold await_hello, fw_mem. cbn [fw_bind read_u32 fw_run].
  change (ctrl_addr (CTRL_OFF_HELLO + HELLO_OFF_MAGIC)) with HELLO_WORD. destruct (Z.eqb_spec (rd32 m HELLO_WORD) HELLO_MAGIC); done.
Qed.

Lemma await_answers b m : rd32 m HELLO_WORD = HELLO_MAGIC ->
  fw_mem (await_hello b) m = wr32 (wr32 (wr32 m ACK_PROTOCOL PROTOCOL_VERSION) ACK_VERSION (FW_VERSION b)) ACK_WORD HELLO_ACK_MAGIC.
Proof.
  intros H. unfold await_hello, fw_mem. cbn [fw_bind read_u32 fw_run].
  change (ctrl_addr (CTRL_OFF_HELLO + HELLO_OFF_MAGIC)) with HELLO_WORD. by rewrite H.
Qed.

(** Code that ends below the statistics page stays below it when padded. *)
Lemma pad4_below l n : (length l <= 4 * n)%nat -> (length (pad4 l) <= 4 * n)%nat.
Proof.
  unfold pad4. rewrite length_app, length_replicate. intros H. pose proof (Nat.div_mod_eq (length l) 4) as E.
  pose proof (Nat.mod_upper_bound (length l) 4 ltac:(done)) as B. destruct (length l mod 4)%nat as [|[|[|[|r]]]]; cbn; lia.
Qed.

Lemma prepared_stats fw m w : Z.of_nat (length fw) <= STATS_BASE -> STATS_BASE <= w -> w + 4 <= REGS_BASE ->
  rd32 (prepared fw m) w = rd32 m w.
Proof.
  intros Hl H1 H2. pose proof (pad4_below fw (Z.to_nat 0x1000)) as P. apply rd32_ext. intros x Hx.
  unfold STATS_BASE, REGS_BASE in *. rewrite prepared_l1 by (unfold TENSIX_L1_SIZE; lia).
  rewrite !rd8_write_bytes_out; [done|unfold REGS_BASE; lia|lia].
Qed.

Section booting.
Context (b : Z) (progress : nat -> nat) (clock : nat -> Z) (Hclock : forall k, Z.of_nat k <= clock k).
Context (Hmono : forall k, (progress k <= progress (S k))%nat).
#[local] Instance FWB : Tensix.Firmware := booting b progress clock Hclock.
#[local] Abbreviation stores := (main_stores b).

Lemma progress_mono j k : (j <= k)%nat -> (progress j <= progress k)%nat.
Proof. induction 1; [done|]. etransitivity; [done|apply Hmono]. Qed.

Lemma before_le k : (before progress k <= progress k)%nat.
Proof. destruct k; [apply Nat.le_0_l|apply Hmono]. Qed.

(** Until it is through, a poll finds the slice of stores only. *)
Lemma step_partial k m : (progress k < length stores)%nat ->
  fw_step k m = play (slice (before progress k) (progress k) stores) m.
Proof. intros H. cbn [fw_step FWB booting]. by rewrite (proj2 (Nat.leb_gt _ _) H). Qed.

Lemma step_complete k m : (length stores <= progress k)%nat ->
  fw_step k m = fw_mem (await_hello b) (play (slice (before progress k) (progress k) stores) m).
Proof. intros H. cbn [fw_step FWB booting]. by rewrite (proj2 (Nat.leb_le _ _) H). Qed.

Lemma step_waiting k m : rd32 (play (slice (before progress k) (progress k) stores) m) HELLO_WORD <> HELLO_MAGIC ->
  fw_step k m = play (slice (before progress k) (progress k) stores) m.
Proof.
  intros H. destruct (Nat.le_gt_cases (length stores) (progress k)); [|by apply step_partial].
  rewrite step_complete by done. by apply await_idle.
Qed.

(** The wait for the page. *)
Lemma page_seen k2 :
  (forall k, progress k <= MAGIC_STORE \/ CLEARED <= progress k)%nat ->
  (length stores <= progress k2)%nat -> (forall j, (j < k2)%nat -> clock j <= STATS_TIMEOUT_MS) ->
  forall fuel k m, (k <= k2 < k + fuel)%nat -> (before progress k <= MAGIC_STORE)%nat -> rd32 m STATS_MAGIC_AT <> STATS_MAGIC_LOADED ->
  exists k1 m1, poll_mem fuel STATS_MAGIC_AT STATS_MAGIC_LOADED STATS_TIMEOUT_MS 0 k m = Some (S k1, m1) /\
    (k1 <= k2)%nat /\ (CLEARED <= progress k1)%nat /\ rd32 m1 ACK_WORD = 0.
Proof.
  intros Hc He Ht. induction fuel as [|fuel IH]; intros k m Hk Hp Hm; [lia|]. cbn [poll_mem Nat.add]. pose proof (all_stores b) as Ha.
  destruct (Hc k) as [Hq|Hq].
  - assert (k <> k2) by (intros ->; unfold MAGIC_STORE, CLEARED in *; lia).
    rewrite step_partial by (unfold MAGIC_STORE, CLEARED in *; lia).
    pose proof (unpublished b (before progress k) _ _ Hq Hm) as Hn. rewrite (proj2 (Z.eqb_neq _ _) Hn).
    rewrite (proj2 (Z.ltb_ge _ _)) by (apply Ht; lia). rewrite Nat.add_1_r. apply IH; [lia|done|done].
  - assert (W : forall j, (j < 1024)%nat -> rd32 (play (slice (before progress k) (progress k) stores) m) (CTRL_BASE + 4 * Z.of_nat j) = 0).
    { intros j Hj. apply wiped; unfold wipe_index, MAGIC_STORE, CLEARED in *; lia. }
    pose proof (W 1%nat ltac:(lia)) as W1. change (CTRL_BASE + 4 * Z.of_nat 1) with HELLO_WORD in W1.
    rewrite step_waiting by (by rewrite W1).
    rewrite published by (unfold MAGIC_STORE, CLEARED in *; lia). rewrite Z.eqb_refl. exists k. eexists. split; [by rewrite Nat.add_1_r|].
    split; [lia|]. split; [done|]. apply (W 18%nat). lia.
Qed.

(** The wait for the answer. *)
Lemma answer_seen k2 k0 : (length stores <= progress (k0 + k2))%nat -> (forall j, (j < k2)%nat -> clock j <= HANDSHAKE_TIMEOUT_MS) ->
  forall fuel k m, (k <= k2 < k + fuel)%nat -> (CLEARED <= before progress (k0 + k))%nat ->
  rd32 m HELLO_WORD = HELLO_MAGIC -> rd32 m ACK_WORD <> HELLO_ACK_MAGIC ->
  exists k3 m3, poll_mem fuel ACK_WORD HELLO_ACK_MAGIC HANDSHAKE_TIMEOUT_MS k0 k m = Some (k3, m3) /\
    rd32 m3 ACK_PROTOCOL = PROTOCOL_VERSION /\ rd32 m3 ACK_VERSION = FW_VERSION b.
Proof.
  intros He Ht. induction fuel as [|fuel IH]; intros k m Hk Hp Hh Hn; [lia|]. cbn [poll_mem].
  assert (W : forall j, (j < 1024)%nat ->
    rd32 (play (slice (before progress (k0 + k)) (progress (k0 + k)) stores) m) (CTRL_BASE + 4 * Z.of_nat j) = rd32 m (CTRL_BASE + 4 * Z.of_nat j)).
  { intros j Hj. apply unwiped; [done|]. unfold wipe_index, CLEARED in *. lia. }
  pose proof (W 1%nat ltac:(lia)) as W1. pose proof (W 18%nat ltac:(lia)) as W18.
  change (CTRL_BASE + 4 * Z.of_nat 1) with HELLO_WORD in W1. change (CTRL_BASE + 4 * Z.of_nat 18) with ACK_WORD in W18.
  destruct (Nat.le_gt_cases (length stores) (progress (k0 + k))) as [Hd|Hd].
  - rewrite step_complete, await_answers by (done || congruence). rewrite rd32_wr32_eq by done. rewrite Z.eqb_refl.
    do 2 eexists. split; [done|]. unfold ACK_AT, CTRL_BASE, CTRL_OFF_HELLO_ACK, HELLO_ACK_OFF_PROTOCOL_VERSION, HELLO_ACK_OFF_FIRMWARE_VERSION, HELLO_ACK_OFF_MAGIC.
    split.
    + rewrite !rd32_wr32_out by lia. by apply rd32_wr32_eq.
    + rewrite rd32_wr32_out by lia. apply rd32_wr32_eq, fits_version.
  - rewrite step_partial, W18 by done. rewrite (proj2 (Z.eqb_neq _ _) Hn).
    assert (k <> k2) by (intros ->; lia). rewrite (proj2 (Z.ltb_ge _ _)) by (apply Ht; lia).
    apply IH; [lia| |congruence|congruence]. replace (k0 + (k + 1))%nat with (S (k0 + k)) by lia. cbn [before].
    etransitivity; [exact Hp|apply before_le].
Qed.

Lemma greeted_words m : rd32 (greeted m) HELLO_WORD = HELLO_MAGIC /\ rd32 (greeted m) ACK_WORD = rd32 m ACK_WORD.
Proof.
  unfold greeted. split; [by apply rd32_wr32_eq|]. unfold HELLO_AT, ACK_AT, CTRL_BASE, CTRL_OFF_HELLO, CTRL_OFF_HELLO_ACK,
    HELLO_OFF_PROTOCOL_VERSION, HELLO_OFF_MAGIC, HELLO_ACK_OFF_MAGIC. by rewrite !rd32_wr32_out by lia.
Qed.

Lemma met_booting fw build_id m k2 :
  Z.of_nat (length fw) <= STATS_BASE -> rd32 m STATS_MAGIC_AT <> STATS_MAGIC_LOADED ->
  (forall k, progress k <= MAGIC_STORE \/ CLEARED <= progress k)%nat ->
  (length stores <= progress k2)%nat -> (forall j, (j < k2)%nat -> clock j <= STATS_TIMEOUT_MS) ->
  met fw build_id m = Some (FW_VERSION b).
Proof.
  intros Hl Hm Hc He Ht.
  assert (Hf : (k2 < poll_fuel)%nat).
  { destruct k2 as [|k2]; [unfold poll_fuel; lia|]. pose proof (Hclock k2). pose proof (Ht k2 ltac:(lia)).
    unfold STATS_TIMEOUT_MS, poll_fuel in *. lia. }
  destruct (page_seen k2 Hc He Ht poll_fuel 0 (prepared fw m)) as (k1 & m1 & E1 & H1 & H2 & H3); [lia|apply Nat.le_0_l|by rewrite prepared_stats|].
  unfold met. rewrite E1. destruct (greeted_words (wr32 m1 (STATS_BASE + STATS_OFF_VERSION) (stamped_version build_id))) as [G1 G2].
  rewrite rd32_wr32_out in G2 by (right; vm_compute; discriminate).
  destruct (answer_seen k2 (S k1)) with (fuel := poll_fuel) (k := 0%nat)
    (m := greeted (wr32 m1 (STATS_BASE + STATS_OFF_VERSION) (stamped_version build_id))) as (k3 & m3 & -> & -> & ->); try done; try lia.
  - etransitivity; [exact He|apply progress_mono; lia].
  - intros j Hj. etransitivity; [by apply Ht|done].
  - by rewrite Nat.add_0_r.
  - by rewrite G2, H3.
Qed.

(** A greeting that the clearing of the control page overtakes is not seen, and
    no answer comes. *)
Lemma no_answer k0 : forall fuel k m,
  (before progress (k0 + k) <= wipe_index 1)%nat \/ rd32 m HELLO_WORD <> HELLO_MAGIC -> rd32 m ACK_WORD <> HELLO_ACK_MAGIC ->
  poll_mem fuel ACK_WORD HELLO_ACK_MAGIC HANDSHAKE_TIMEOUT_MS k0 k m = None.
Proof.
  induction fuel as [|fuel IH]; intros k m Hh Ha; [done|]. cbn [poll_mem]. pose proof (all_stores b) as Hs.
  pose proof (before_le (k0 + k)) as Hb.
  set (m' := play (slice (before progress (k0 + k)) (progress (k0 + k)) stores) m).
  assert (A : rd32 m' ACK_WORD <> HELLO_ACK_MAGIC).
  { change ACK_WORD with (CTRL_BASE + 4 * Z.of_nat 18) in *. unfold m'.
    destruct (decide (before progress (k0 + k) <= wipe_index 18 < progress (k0 + k))%nat); [by rewrite wiped by lia|by rewrite unwiped by lia]. }
  assert (H : (progress (k0 + k) <= wipe_index 1)%nat \/ rd32 m' HELLO_WORD <> HELLO_MAGIC).
  { destruct (Nat.le_gt_cases (progress (k0 + k)) (wipe_index 1)) as [|Hq]; [by left|right].
    change HELLO_WORD with (CTRL_BASE + 4 * Z.of_nat 1) in *. unfold m'.
    destruct Hh as [Hh|Hh]; [by rewrite wiped by lia|].
    destruct (decide (before progress (k0 + k) <= wipe_index 1)%nat); [by rewrite wiped by lia|by rewrite unwiped by lia]. }
  assert (E : fw_step (k0 + k) m = m').
  { destruct H as [H|H]; [apply step_partial; unfold wipe_index, CLEARED in *; lia|by apply step_waiting]. }
  rewrite E, (proj2 (Z.eqb_neq _ _) A). destruct (HANDSHAKE_TIMEOUT_MS <? elapsed_ms k); [done|].
  apply IH; [|done]. replace (k0 + (k + 1))%nat with (S (k0 + k)) by lia. exact H.
Qed.

Lemma met_early fw build_id m :
  Z.of_nat (length fw) <= STATS_BASE -> rd32 m ACK_WORD <> HELLO_ACK_MAGIC -> (MAGIC_STORE < progress 0 <= wipe_index 1)%nat ->
  met fw build_id m = None.
Proof.
  intros Hl Ha Hp. unfold met. pose proof (all_stores b) as Hs.
  set (m1 := play (slice 0 (progress 0) stores) (prepared fw m)).
  assert (E : fw_step 0 (prepared fw m) = m1) by (apply step_partial; unfold wipe_index, CLEARED in *; lia).
  rewrite poll_hit; cbn [Nat.add]; rewrite E; [|apply published; lia].
  assert (A : rd32 m1 ACK_WORD <> HELLO_ACK_MAGIC).
  { change ACK_WORD with (CTRL_BASE + 4 * Z.of_nat 18) in *. unfold m1. rewrite unwiped by (unfold wipe_index in *; lia).
    rewrite prepared_stats; [done|done|vm_compute; discriminate|vm_compute; discriminate]. }
  rewrite (no_answer 1); [done|left; cbn [Nat.add before]; lia|].
  destruct (greeted_words (wr32 m1 (STATS_BASE + STATS_OFF_VERSION) (stamped_version build_id))) as [_ ->].
  by rewrite rd32_wr32_out by (right; vm_compute; discriminate).
Qed.

End booting.

Section boots.
Context `{KL : KernelLaws}.

(** C25: A daemon that brings up the engine meets the firmware of the image: if
    the tile holds no page of an earlier run, no poll falls between the store
    that publishes the page and the end of the clearing of the control page,
    and the start-up is through within the time the daemon allows for the page,
    then the engine comes up with the version that the firmware reports,
    however the stores of its start-up are spread over the daemon's polls. *)
Theorem firmware_meets_daemon b progress clock Hclock fw build_id chip chip_fd os p tx ty t os1 k2 :
  choose_tile chip = Some (Some (p, (tx, ty))) ->
  io_bind (dup_fd chip_fd os) (fun dup os => new_with_dup_fd dup (pt_x p) (pt_y p) os) = Ret t os1 ->
  Forall is_byte fw -> Z.of_nat (length fw) <= STATS_BASE ->
  rd32 (tile_mem os (pt_x p, pt_y p)) STATS_MAGIC_AT <> STATS_MAGIC_LOADED ->
  (forall k, progress k <= progress (S k))%nat ->
  (forall k, progress k <= MAGIC_STORE \/ CLEARED <= progress k)%nat ->
  (length (main_stores b) <= progress k2)%nat -> (forall j, (j < k2)%nat -> clock j <= STATS_TIMEOUT_MS) ->
  match bring_up (FW := booting b progress clock Hclock) fw build_id chip chip_fd os with
  | Up e _ => firmware_version e = FW_VERSION b /\ protocol_version e = PROTOCOL_VERSION
  | _ => False
  end.
Proof.
  intros Hc Ho Hb Hl Hm Hp Hg He Ht.
  pose proof (bring_up_met (FW := booting b progress clock Hclock) fw build_id chip chip_fd os p tx ty t os1 Hc Ho Hb) as M.
  pose proof (met_booting b progress clock Hclock Hp fw build_id (tile_mem os (pt_x p, pt_y p)) k2 Hl Hm Hg He Ht) as E.
  specialize (M ltac:(etransitivity; [exact Hl|done])). unfold FWB in E. rewrite E in M.
  destruct (bring_up _ _ _ _ _) as [e os'|os'| |]; [|discriminate|done..]. destruct M as [M Hv]. split; [congruence|done].
Qed.

End boots.

(** The stores come in three parts: none by the first poll, the pages by the
    second, the rest by the third. *)
Definition demo_progress (k : nat) : nat :=
  match k with O => O | S O => CLEARED | _ => length (main_stores 7) end.

Lemma firmware_meets_daemon_witness :
  match bring_up (K := counting_kernel []) (FW := booting 7 demo_progress Z.of_nat (fun k => Z.le_refl (Z.of_nat k))) [0x6f; 0; 0; 8] 7 demo_chip (Some 3) (demo_os ∅) with
  | Up e _ => firmware_version e = 0x705 /\ protocol_version e = PROTOCOL_VERSION
  | _ => False
  end.
Proof.
  destruct (io_bind (dup_fd (K := counting_kernel []) (Some 3) (demo_os ∅))
              (fun dup os => new_with_dup_fd (K := counting_kernel []) dup 16 11 os)) as [t os1|e os1|] eqn:Ho;
    [|vm_compute in Ho; discriminate Ho|vm_compute in Ho; discriminate Ho].
  refine (firmware_meets_daemon (K := counting_kernel []) 7 demo_progress Z.of_nat (fun k => Z.le_refl (Z.of_nat k)) [0x6f; 0; 0; 8] 7 demo_chip (Some 3) (demo_os ∅)
            (mk_picked 16 11 BottomRightCorner) 16 11 t os1 2 eq_refl Ho _ _ _ _ _ _ _).
  - apply (bool_decide_unpack _). exact I.
  - vm_compute. discriminate.
  - vm_compute. discriminate.
  - intros [|[|k]]; cbn [demo_progress]; [apply Nat.le_0_l|apply all_stores|reflexivity].
  - pose proof (all_stores 7) as Ha. intros [|[|k]]; cbn [demo_progress]; [left; apply Nat.le_0_l|right; reflexivity|right; exact Ha].
  - reflexivity.
  - intros [|[|j]] Hj; [vm_compute; discriminate|vm_compute; discriminate|lia].
Defined.

(** ** When they do not *)

Section departures.
Context `{KL : KernelLaws}.

(** [main] publishes the page before it clears the control page, although the
    comment of [init_proto] has it the other way round.  A daemon whose poll falls
    between the two greets too early: its greeting is wiped and the bring-up
    fails, however long it waits. *)
Theorem early_greeting_lost b progress clock Hclock fw build_id chip chip_fd os p tx ty t os1 :
  choose_tile chip = Some (Some (p, (tx, ty))) ->
  io_bind (dup_fd chip_fd os) (fun dup os => new_with_dup_fd dup (pt_x p) (pt_y p) os) = Ret t os1 ->
  Forall is_byte fw -> Z.of_nat (length fw) <= STATS_BASE ->
  rd32 (tile_mem os (pt_x p, pt_y p)) ACK_WORD <> HELLO_ACK_MAGIC ->
  (forall k, progress k <= progress (S k))%nat -> (MAGIC_STORE < progress 0 <= wipe_index 1)%nat ->
  match bring_up (FW := booting b progress clock Hclock) fw build_id chip chip_fd os with Down _ => True | _ => False end.
Proof.
  intros Hc Ho Hb Hl Ha Hm Hp.
  pose proof (bring_up_met (FW := booting b progress clock Hclock) fw build_id chip chip_fd os p tx ty t os1 Hc Ho Hb) as M.
  specialize (M ltac:(etransitivity; [exact Hl|done])). pose proof (met_early b progress clock Hclock Hm fw build_id (tile_mem os (pt_x p, pt_y p)) Hl Ha Hp) as E.
  unfold FWB in E. rewrite E in M.
  by destruct (bring_up _ _ _ _ _) as [e os'|os'| |]; [destruct M| | |].
Qed.

(** The bring-up clears neither the statistics page nor the control page.  Over
    the memory that an earlier engine left, it takes that engine's page and
    answer for those of the firmware it has just loaded, although not one
    instruction of that has run. *)
Theorem stale_page_answers b clock Hclock fw build_id chip chip_fd os p tx ty t os1 :
  choose_tile chip = Some (Some (p, (tx, ty))) ->
  io_bind (dup_fd chip_fd os) (fun dup os => new_with_dup_fd dup (pt_x p) (pt_y p) os) = Ret t os1 ->
  Forall is_byte fw -> Z.of_nat (length fw) <= STATS_BASE ->
  let m := tile_mem os (pt_x p, pt_y p) in
  rd32 m STATS_MAGIC_AT = STATS_MAGIC_LOADED -> rd32 m ACK_WORD = HELLO_ACK_MAGIC -> rd32 m ACK_PROTOCOL = PROTOCOL_VERSION ->
  match bring_up (FW := booting b (fun _ => O) clock Hclock) fw build_id chip chip_fd os with
  | Up e _ => firmware_version e = rd32 m ACK_VERSION
  | _ => False
  end.
Proof.
  intros Hc Ho Hb Hl m H1 H2 H3.
  pose proof (bring_up_met (FW := booting b (fun _ => O) clock Hclock) fw build_id chip chip_fd os p tx ty t os1 Hc Ho Hb) as M.
  specialize (M ltac:(etransitivity; [exact Hl|done])). fold m in M.
  assert (E : met (FW := booting b (fun _ => O) clock Hclock) fw build_id m = Some (rd32 m ACK_VERSION)).
  { unfold met. pose proof (all_stores b) as Hs.
    assert (P : forall k m', fw_step (Firmware := booting b (fun _ => O) clock Hclock) k m' = m').
    { intros k m'. rewrite (step_partial b (fun _ => O) clock Hclock) by (unfold CLEARED in Hs; lia). by destruct k. }
    rewrite poll_hit; rewrite P; [|rewrite prepared_stats; done].
    set (m1 := wr32 _ _ _). destruct (greeted_words m1) as [_ G].
    assert (Ek : forall w, ACK_AT <= w <= ACK_AT + 8 -> rd32 (greeted m1) w = rd32 m w).
    { intros w Hw. unfold greeted, m1, HELLO_AT, ACK_AT, CTRL_BASE, CTRL_OFF_HELLO, CTRL_OFF_HELLO_ACK, STATS_BASE, STATS_OFF_VERSION,
        HELLO_OFF_PROTOCOL_VERSION, HELLO_OFF_MAGIC in *. rewrite !rd32_wr32_out by lia. apply prepared_stats; [done|unfold STATS_BASE; lia|unfold REGS_BASE; lia]. }
    rewrite poll_hit; rewrite P; rewrite !Ek by done; [|done]. by rewrite H3. }
  rewrite E in M. destruct (bring_up _ _ _ _ _) as [e os'|os'| |]; [|discriminate|done..]. destruct M; congruence.
Qed.

End departures.

(** ** The tables of both sides *)

(** The firmware and the daemon are built from separate tables of the devices of
    a guest.  They are the same table. *)
Theorem tables_agree s : 0 <= s < NUM_SLOTS ->
  let i := s mod DEVS_PER_L2CPU in
  device_for_slot s = mk_dev_init (device_id_for_index i) (num_queues_for_device i) (dev_feat_low_for_index i) (dev_feat_high_for_index i).
Proof.
  intros Hs i. assert (Hi : 0 <= i < 8) by (apply Z.mod_pos_bound; done).
  unfold device_for_slot. fold i. clearbody i.
  assert (i = 0 \/ i = 1 \/ i = 2 \/ i = 3 \/ i = 4 \/ i = 5 \/ i = 6 \/ i = 7) as Hc by lia.
  by destruct Hc as [->|[->|[->|[->|[->|[->|[->| ->]]]]]]].
Qed.

(** ** The helper cores *)

Definition soft_reset (m : gmap Z Z) : Z := rd32 m FW_SOFT_RESET_ADDR.

(** The register once a core's bit is as wanted. *)
Definition with_core (n : Z) (want : bool) (v : Z) : Z := if want then Z.clearbit v n else Z.setbit v n.

Lemma with_core_bit n want v i : 0 <= n -> Z.testbit (with_core n want v) i = if i =? n then negb want else Z.testbit v i.
Proof.
  intros Hn. unfold with_core. rewrite Z.eqb_sym. destruct want; rewrite ?Z.clearbit_eqb, ?Z.setbit_eqb by done;
    destruct (n =? i); by rewrite ?andb_true_r, ?andb_false_r.
Qed.

Lemma land_clear v n : fits 32 v -> 12 <= n <= 14 -> Z.land v (U32_MAX - Z.shiftl 1 n) = Z.clearbit v n.
Proof.
  intros Hv Hn. rewrite Z.clearbit_spec', Z.shiftl_1_l.
  assert (E : U32_MAX - 2 ^ n = Z.ldiff (Z.ones 32) (2 ^ n)).
  { assert (n = 12 \/ n = 13 \/ n = 14) as Hc by lia. by destruct Hc as [->|[->| ->]]. }
  rewrite E. apply Z.bits_inj'. intros i Hi. rewrite Z.land_spec, !Z.ldiff_spec.
  replace (Z.testbit v i) with (Z.testbit v i && Z.testbit (Z.ones 32) i) at 2; [by destruct (Z.testbit v i), (Z.testbit (Z.ones 32) i)|].
  rewrite <- Z.land_spec, Z.land_ones, Z.mod_small; done.
Qed.

Lemma fits_land w v x : 0 <= w -> fits w v -> fits w (Z.land v x).
Proof.
  intros Hw Hv. replace (Z.land v x) with (Z.land v x mod 2 ^ w); [by apply Z.mod_pos_bound, Z.pow_pos_nonneg|].
  rewrite <- Z.land_ones, <- Z.land_assoc, (Z.land_comm x), Z.land_assoc, Z.land_ones, Z.mod_small by done. done.
Qed.

Lemma drive_spec n want running m :
  mem_ok m -> 12 <= n <= 14 -> running = negb (Z.testbit (soft_reset m) n) ->
  let r := fw_run (drive_lifecycle (set_trisc_reset (Z.shiftl 1 n)) want running) m in
  r.1 = want /\ mem_ok r.2 /\ soft_reset r.2 = with_core n want (soft_reset m) /\
  forall x, x < FW_SOFT_RESET_ADDR \/ FW_SOFT_RESET_ADDR + 4 <= x -> rd8 r.2 x = rd8 m x.
Proof.
  intros Hm Hn ->. pose proof (rd32_fits m FW_SOFT_RESET_ADDR Hm) as Hv. fold (soft_reset m) in Hv.
  assert (Hs : fits 32 (Z.setbit (soft_reset m) n)).
  { rewrite Z.setbit_spec'. apply fits_lor; [done|done|]. unfold fits. split; [lia|apply Z.pow_lt_mono_r; lia]. }
  assert (Hc : fits 32 (Z.clearbit (soft_reset m) n)).
  { rewrite <- land_clear by done. by apply fits_land. }
  unfold drive_lifecycle, set_trisc_reset, with_core. destruct want, (Z.testbit (soft_reset m) n) eqn:Eb; cbn [negb andb fw_bind fw_run read_u32 store_u32 fst snd];
    fold (soft_reset m); rewrite ?land_clear by done; rewrite ?Z.shiftl_1_l, <- ?Z.setbit_spec'.
  - split_and!; [done|by apply mem_ok_wr32|by apply rd32_wr32_eq|]. intros x Hx. by apply rd8_wr32_out.
  - split_and!; [done|done| |done]. apply Z.bits_inj'. intros i Hi. rewrite Z.clearbit_eqb.
    destruct (Z.eqb_spec n i) as [->|]; [by rewrite Eb|by rewrite andb_true_r].
  - split_and!; [done|done| |done]. apply Z.bits_inj'. intros i Hi. rewrite Z.setbit_eqb by lia.
    destruct (Z.eqb_spec n i) as [->|]; [by rewrite Eb|done].
  - split_and!; [done|by apply mem_ok_wr32|by apply rd32_wr32_eq|]. intros x Hx. by apply rd8_wr32_out.
Qed.

Definition drive_helpers (active virtio_active : Z) (t : bool * bool * bool) : fw (bool * bool * bool) :=
  (let* t0 := brisc_drive_trisc0_lifecycle active t.1.1 in
   let* t1 := brisc_drive_trisc1_lifecycle virtio_active t.1.2 in
   let* t2 := brisc_drive_trisc2_lifecycle virtio_active t.2 in
   Pure (t0, t1, t2))%fw.

Definition reset_follows (v : Z) (t : bool * bool * bool) : Prop :=
  t.1.1 = negb (Z.testbit v 12) /\ t.1.2 = negb (Z.testbit v 13) /\ t.2 = negb (Z.testbit v 14).

(** After a sweep's look at the masks, TRISC0 is out of reset exactly when a UART
    is registered, TRISC1 and TRISC2 exactly when a virtio device is, BRISC's own
    flags say so, and no other bit of the reset register nor any other cell
    changed. *)
Theorem helpers_follow_masks active virtio_active t m :
  mem_ok m -> reset_follows (soft_reset m) t ->
  let r := fw_run (drive_helpers active virtio_active t) m in
  let wanted := (negb (Z.land active BRISC_UART_SLOT_MASK =? 0), negb (virtio_active =? 0), negb (virtio_active =? 0)) in
  r.1 = wanted /\ reset_follows (soft_reset r.2) wanted /\
  (forall i, 0 <= i -> i <> 12 -> i <> 13 -> i <> 14 -> Z.testbit (soft_reset r.2) i = Z.testbit (soft_reset m) i) /\
  forall x, x < FW_SOFT_RESET_ADDR \/ FW_SOFT_RESET_ADDR + 4 <= x -> rd8 r.2 x = rd8 m x.
Proof.
  intros Hm (H0 & H1 & H2). destruct t as [[t0 t1] t2]. cbn [fst snd] in *. unfold drive_helpers. cbn [fst snd].
  set (w0 := negb (Z.land active BRISC_UART_SLOT_MASK =? 0)). set (w1 := negb (virtio_active =? 0)).
  cbv zeta. rewrite fw_run_bind.
  destruct (drive_spec 12 w0 t0 m Hm ltac:(lia) H0) as (E0 & M0 & S0 & F0). 
  change (brisc_drive_trisc0_lifecycle active t0) with (drive_lifecycle (set_trisc_reset (Z.shiftl 1 12)) w0 t0).
  set (r0 := fw_run _ m) in *. clearbody r0. destruct r0 as [x0 m0]. cbn [fst snd] in *. subst x0.
  assert (H1' : t1 = negb (Z.testbit (soft_reset m0) 13)).
  { rewrite S0, H1. by rewrite with_core_bit. }
  destruct (drive_spec 13 w1 t1 m0 M0 ltac:(lia) H1') as (E1 & M1 & S1 & F1).
  change (brisc_drive_trisc1_lifecycle virtio_active t1) with (drive_lifecycle (set_trisc_reset (Z.shiftl 1 13)) w1 t1).
  rewrite fw_run_bind. set (r1 := fw_run _ m0) in *. clearbody r1. destruct r1 as [x1 m1]. cbn [fst snd] in *. subst x1.
  assert (H2' : t2 = negb (Z.testbit (soft_reset m1) 14)).
  { rewrite S1, S0, H2. by rewrite !with_core_bit. }
  destruct (drive_spec 14 w1 t2 m1 M1 ltac:(lia) H2') as (E2 & M2 & S2 & F2).
  change (brisc_drive_trisc2_lifecycle virtio_active t2) with (drive_lifecycle (set_trisc_reset (Z.shiftl 1 14)) w1 t2).
  rewrite fw_run_bind. set (r2 := fw_run _ m1) in *. clearbody r2. destruct r2 as [x2 m2]. cbn [fst snd fw_run] in *. subst x2.
  assert (B : forall i, 0 <= i -> Z.testbit (soft_reset m2) i =
    if i =? 12 then negb w0 else if (i =? 13) || (i =? 14) then negb w1 else Z.testbit (soft_reset m) i).
  { intros i Hi. rewrite S2, S1, S0, !with_core_bit by done.
    destruct (Z.eqb_spec i 12), (Z.eqb_spec i 13), (Z.eqb_spec i 14); done || lia. }
  split; [done|]. split; [split_and!; rewrite B by done; cbn; by rewrite negb_involutive|].
  split; [intros i Hi N0 N1 N2; rewrite B by done; by rewrite (proj2 (Z.eqb_neq _ _) N0), (proj2 (Z.eqb_neq _ _) N1), (proj2 (Z.eqb_neq _ _) N2)|].
  intros x Hx. by rewrite F2, F1, F0 by done.
Qed.
