(* ===== verification/SelfTest.v ===== *)
(** The self-tests of [bhx debug] in [src/main.rs]: the host drives a tile of its
    own, with firmware it has just loaded or the engine it has just brought up,
    and judges what it sees there.

    Between any two accesses of the host the cores of the tile (and a dispatcher
    thread, where a test starts one) may do anything to its memory: [Bench] says
    what, moment by moment, and how much longer than asked each moment took.
    Bring-up itself is [Tensix.bring_up]; the functions here are what follows it.
    Printing is left out, but for the numbers a test reports. *)

From S2P Require Import Prelude Layout Clock Tensix Firmware.
#[local] Close Scope fw_scope.

(** ** The bench *)

Class Bench := {
  cores : nat -> Z -> gmap Z Z -> gmap Z Z;
  lag : nat -> Z;
  lag_nonneg : forall n, 0 <= lag n }.

(** The memory of the tile, the number of moments so far, and the time in
    microseconds. *)
Record Lab := mk_lab { l_mem : gmap Z Z; l_moment : nat; l_us : Z }.

(** A test goes on, reports failure, panics, or has no fuel left. *)
Inductive Verdict (A : Type) := Good (a : A) | Bad | Crash | Spent.
Arguments Good {A} _.
Arguments Bad {A}.
Arguments Crash {A}.
Arguments Spent {A}.

Definition Probe (A : Type) : Type := Lab -> Verdict A * Lab.

#[export] Instance probe_ret : MRet Probe := fun A a l => (Good a, l).
#[export] Instance probe_bind : MBind Probe := fun A B f p l =>
  match p l with
  | (Good a, l) => f a l
  | (Bad, l) => (Bad, l)
  | (Crash, l) => (Crash, l)
  | (Spent, l) => (Spent, l)
  end.

Definition fail {A} : Probe A := fun l => (Bad, l).
Definition panic {A} : Probe A := fun l => (Crash, l).
Definition out_of_fuel {A} : Probe A := fun l => (Spent, l).
Definition when_not (b : bool) (p : Probe unit) : Probe unit := if b then mret tt else p.

Section probes.
Context `{Bench}.

(** Something the host does to memory at the end of a moment of [us]. *)
Definition moment {A} (us : Z) (act : gmap Z Z -> A * gmap Z Z) : Probe A := fun l =>
  let '(a, m) := act (cores (l_moment l) us (l_mem l)) in
  (Good a, mk_lab m (S (l_moment l)) (l_us l + us + lag (l_moment l))).

Definition read_l1 (addr : Z) : Probe Z := moment 0 (fun m => (rd32 m addr, m)).
Definition write_l1 (addr v : Z) : Probe unit := moment 0 (fun m => (tt, wr32 m addr v)).
Definition read_l1_byte (addr : Z) : Probe Z := moment 0 (fun m => (rd8 m addr, m)).
Definition write_l1_byte (addr v : Z) : Probe unit := moment 0 (fun m => (tt, wr8 m addr v)).
Definition load_image (image : list Z) : Probe unit := moment 0 (fun m => (tt, write_bytes m 0 (pad4 image))).
Definition sleep (us : Z) : Probe unit := moment us (fun m => (tt, m)).
Definition now : Probe Z := fun l => (Good (l_us l), l).

Fixpoint each {A} (l : list A) (body : A -> Probe unit) : Probe unit :=
  match l with [] => mret tt | a :: l => body a ;; each l body end.

(** ** [run_tensix_engine] *)

Definition ACTIVE_AT : Z := CTRL_BASE + CTRL_OFF_ACTIVE_SLOTS.
Definition write_active_slots (mask : Z) : Probe unit := write_l1 ACTIVE_AT mask.
Definition trisc0_heartbeat : Probe Z := read_l1 trisc0_heartbeat_addr.

(** [while started.elapsed() < 100 ms]. *)
Fixpoint watch_dirty (fuel : nat) (started dirty_addr : Z) (saw_set : bool) : Probe bool :=
  match fuel with
  | O => out_of_fuel
  | S fuel =>
      t ← now;
      if t - started <? 100000 then
        byte ← read_l1_byte dirty_addr;
        let saw_set := saw_set || negb (byte =? 0) in
        if saw_set && (byte =? 0) then mret saw_set
        else sleep 2000 ;; watch_dirty fuel started dirty_addr saw_set
      else mret saw_set
  end.

(** Two heartbeats, 20 ms apart, after 20 ms. *)
Definition two_beats : Probe (Z * Z) :=
  sleep 20000 ;; hb ← trisc0_heartbeat; sleep 20000 ;; hb2 ← trisc0_heartbeat; mret (hb, hb2).

Definition run_tensix_engine : Probe unit :=
  write_active_slots (Z.shiftl 1 7) ;;
  let slot7_notify := u32 (slot_regs_base 7 + MMIO_QUEUE_NOTIFY) in
  let dirty_addr := dirty_byte_addr 7 2 in
  write_l1_byte dirty_addr 0 ;;
  write_l1 slot7_notify 2 ;;
  started ← now;
  saw_set ← watch_dirty 51 started dirty_addr false;
  when_not saw_set fail ;;
  write_active_slots (Z.shiftl 1 7) ;;
  quiet ← two_beats;
  when_not (quiet.1 =? quiet.2) fail ;;
  write_active_slots (Z.lor (Z.shiftl 1 7) (Z.shiftl 1 16)) ;;
  running ← two_beats;
  when_not (running.1 <? running.2) fail ;;
  write_active_slots (Z.shiftl 1 7) ;;
  after ← two_beats;
  when_not (after.1 =? after.2) fail.

(** ** [run_tensix_hello] *)

Definition HELLO_MAGIC_OFFSET : Z := 0x40.
Definition HELLO_COUNTER_OFFSET : Z := 0x44.
Definition HELLO_MAGIC_VALUE : Z := 0xA110C0DE.

Definition set_resets (v : Z) : Probe unit := write_l1 TENSIX_SOFT_RESET_ADDR v ;; _ ← read_l1 TENSIX_SOFT_RESET_ADDR; mret tt.

(** One sample per second; whether the magic word and an advance were seen. *)
Fixpoint hello_samples (duration : nat) (last_counter : option Z) (magic_observed counter_advanced : bool) : Probe (bool * bool) :=
  match duration with
  | O => mret (magic_observed, counter_advanced)
  | S duration =>
      sleep 1000000 ;;
      magic ← read_l1 HELLO_MAGIC_OFFSET;
      counter ← read_l1 HELLO_COUNTER_OFFSET;
      let advanced := match last_counter with Some prev => negb (counter =? prev) | None => negb (counter =? 0) end in
      hello_samples duration (Some counter) (magic_observed || (magic =? HELLO_MAGIC_VALUE)) (counter_advanced || advanced)
  end.

Definition run_tensix_hello (HELLO_FIRMWARE : list Z) (duration : Z) : Probe unit :=
  _ ← read_l1 TENSIX_SOFT_RESET_ADDR;
  set_resets SOFT_RESET_ALL ;;
  _ ← read_l1 TENSIX_SOFT_RESET_ADDR;
  load_image HELLO_FIRMWARE ;;
  write_l1 HELLO_MAGIC_OFFSET 0 ;;
  write_l1 HELLO_COUNTER_OFFSET 0 ;;
  set_resets SOFT_RESET_ALL_EXCEPT_BRISC ;;
  _ ← read_l1 TENSIX_SOFT_RESET_ADDR;
  seen ← hello_samples (Z.to_nat duration) None false false;
  when_not (seen.1 && seen.2) fail.

(** ** [run_tensix_virtio] *)

(** [started.elapsed() > 500 ms] after a poll that saw nothing. *)
Fixpoint await_ack (fuel : nat) (started : Z) : Probe unit :=
  match fuel with
  | O => out_of_fuel
  | S fuel =>
      m ← read_l1 (CTRL_BASE + CTRL_OFF_HELLO_ACK + HELLO_ACK_OFF_MAGIC);
      if m =? HELLO_ACK_MAGIC then mret tt
      else
        t ← now;
        if 500000 <? t - started then fail else sleep 1000 ;; await_ack fuel started
  end.

Definition virtio_handshake : Probe unit :=
  write_l1 (CTRL_BASE + CTRL_OFF_HELLO + HELLO_OFF_PROTOCOL_VERSION) PROTOCOL_VERSION ;;
  write_l1 (CTRL_BASE + CTRL_OFF_HELLO + HELLO_OFF_MAGIC) HELLO_MAGIC ;;
  started ← now;
  await_ack 502 started ;;
  proto_v ← read_l1 (CTRL_BASE + CTRL_OFF_HELLO_ACK + HELLO_ACK_OFF_PROTOCOL_VERSION);
  _ ← read_l1 (CTRL_BASE + CTRL_OFF_HELLO_ACK + HELLO_ACK_OFF_FIRMWARE_VERSION);
  when_not (proto_v =? PROTOCOL_VERSION) fail.

Definition device_ids : list Z := [VIRTIO_ID_BLOCK; VIRTIO_ID_NET; VIRTIO_ID_CONSOLE; VIRTIO_ID_ENTROPY].

(** The registers of one slot; [device_ids[dev_idx]] panics out of range.  The
    result is the number of errors so far. *)
Definition check_slot (s errors : Z) : Probe Z :=
  let base := slot_regs_base s in
  match device_ids !! Z.to_nat (s mod DEVS_PER_L2CPU) with
  | None => panic
  | Some expected_dev_id =>
      magic ← read_l1 (u32 (base + MMIO_MAGIC_VALUE));
      version ← read_l1 (u32 (base + MMIO_VERSION));
      dev_id ← read_l1 (u32 (base + MMIO_DEVICE_ID));
      vendor ← read_l1 (u32 (base + MMIO_VENDOR_ID));
      nmax ← read_l1 (u32 (base + MMIO_QUEUE_NUM_MAX));
      let ok := (magic =? MAGIC) && (version =? VERSION) && (dev_id =? expected_dev_id) && (vendor =? VENDOR_ID) && (nmax =? QUEUE_NUM_MAX) in
      mret (if ok then errors else errors + 1)
  end.

Fixpoint check_slots (slots : list Z) (errors : Z) : Probe Z :=
  match slots with [] => mret errors | s :: slots => errors ← check_slot s errors; check_slots slots errors end.

Definition check_stats (errors : Z) : Probe Z :=
  _ ← read_l1 (STATS_BASE + STATS_OFF_VERSION);
  stats_magic ← read_l1 (STATS_BASE + STATS_OFF_MAGIC);
  mret (if stats_magic =? STATS_MAGIC_LOADED then errors else errors + 1).

Definition check_status (errors : Z) : Probe Z :=
  let status_changes_addr := STATS_BASE + STATS_OFF_STATUS_CHANGES in
  before_status ← read_l1 status_changes_addr;
  write_l1 (u32 (slot_regs_base 0 + MMIO_STATUS)) STATUS_ACKNOWLEDGE ;;
  sleep 5000 ;;
  after_status ← read_l1 status_changes_addr;
  mret (if before_status <? after_status then errors else errors + 1).

Definition check_sel (errors : Z) : Probe Z :=
  let sel_changes_addr := STATS_BASE + STATS_OFF_SEL_CHANGES in
  before_sel ← read_l1 sel_changes_addr;
  write_l1 (u32 (slot_regs_base 1 + MMIO_QUEUE_SEL)) 1 ;;
  sleep 5000 ;;
  after_sel ← read_l1 sel_changes_addr;
  nmax ← read_l1 (u32 (slot_regs_base 1 + MMIO_QUEUE_NUM_MAX));
  mret (if (before_sel <? after_sel) && (nmax =? QUEUE_NUM_MAX) then errors else errors + 1).

Definition check_dirty (errors : Z) : Probe Z :=
  let dirty_addr := CTRL_BASE + CTRL_OFF_DIRTY + 5 * MAX_QUEUES_PER_SLOT + 2 in
  let dirty_word_addr := Z.land dirty_addr (U32_MAX - 3) in
  let dirty_byte_shift := Z.land dirty_addr 3 * 8 in
  pre ← read_l1 dirty_word_addr;
  write_l1 dirty_word_addr (Z.land pre (U32_MAX - u32 (Z.shiftl 0xFF dirty_byte_shift))) ;;
  write_l1 (u32 (slot_regs_base 5 + MMIO_QUEUE_NOTIFY)) 2 ;;
  sleep 5000 ;;
  after ← read_l1 dirty_word_addr;
  mret (if Z.land (Z.shiftr after dirty_byte_shift) 0xFF =? 1 then errors else errors + 1).

(** Both halves of the features are expected to read 1. *)
Definition check_features (errors : Z) : Probe Z :=
  let slot0_dev_feat_sel := u32 (slot_regs_base 0 + MMIO_DEVICE_FEATURES_SEL) in
  let slot0_dev_feat := u32 (slot_regs_base 0 + MMIO_DEVICE_FEATURES) in
  write_l1 slot0_dev_feat_sel 1 ;;
  sleep 5000 ;;
  advertised ← read_l1 slot0_dev_feat;
  let errors := if advertised =? 1 then errors else errors + 1 in
  write_l1 slot0_dev_feat_sel 0 ;;
  sleep 5000 ;;
  low_half ← read_l1 slot0_dev_feat;
  mret (if low_half =? 1 then errors else errors + 1).

Definition check_shadow (errors : Z) : Probe Z :=
  write_l1 (u32 (slot_regs_base 0 + MMIO_QUEUE_DESC_LOW)) 0xCAFE0001 ;;
  sleep 5000 ;;
  captured ← read_l1 (shadow_queue_addr 0 0 SHADOW_Q_OFF_DESC_LO);
  mret (if captured =? 0xCAFE0001 then errors else errors + 1).

Definition run_tensix_virtio (VIRTIO_FIRMWARE : list Z) : Probe unit :=
  set_resets SOFT_RESET_ALL ;;
  each (upto NUM_SLOTS) (fun s => each (upto (REGS_PER_DEV / 4)) (fun i => write_l1 (u32 (slot_regs_base s + i * 4)) 0)) ;;
  load_image VIRTIO_FIRMWARE ;;
  set_resets SOFT_RESET_ALL_EXCEPT_BRISC ;;
  sleep 10000 ;;
  virtio_handshake ;;
  errors ← check_slots (upto NUM_SLOTS) 0;
  errors ← check_stats errors;
  write_active_slots 0x0000FFFF ;;
  sleep 2000 ;;
  errors ← check_status errors;
  errors ← check_sel errors;
  errors ← check_dirty errors;
  errors ← check_features errors;
  errors ← check_shadow errors;
  when_not (errors =? 0) fail.

(** ** [run_uart_loopback] *)

(** [wait_for_xmitr]: at most 10000 reads; whether they ran out. *)
Fixpoint await_thre (tmout : nat) (lsr_addr : Z) : Probe bool :=
  match tmout with
  | O => mret true
  | S tmout => lsr ← read_l1 lsr_addr; if negb (Z.land lsr 0x20 =? 0) then mret false else await_thre tmout lsr_addr
  end.

Fixpoint send_bytes (pattern : list Z) (thr_addr lsr_addr gap_us : Z) (no_lsr_poll : bool) (lsr_timeouts : Z) : Probe Z :=
  match pattern with
  | [] => mret lsr_timeouts
  | b :: pattern =>
      late ← (if no_lsr_poll then (mret false : Probe bool) else await_thre (Z.to_nat 10000) lsr_addr);
      write_l1 thr_addr b ;;
      (if 0 <? gap_us then sleep gap_us else (mret tt : Probe unit)) ;;
      send_bytes pattern thr_addr lsr_addr gap_us no_lsr_poll (lsr_timeouts + Z.b2z late)
  end.

Fixpoint read_ring (n : nat) (i p_start ring_base : Z) : Probe (list Z) :=
  match n with
  | O => mret []
  | S n =>
      cell ← read_l1 (u32 (ring_base + u32 (Z.land (u32 (p_start + i)) (UART_FEED_RING_ENTRIES - 1) * 4)));
      rest ← read_ring n (i + 1) p_start ring_base;
      mret (Z.land cell 0xFF :: rest)
  end.

(** The pattern after the next byte equal to [b], with the number of those
    passed over. *)
Fixpoint next_match (pattern : list Z) (b : Z) (lost : Z) : bool * list Z * Z :=
  match pattern with
  | [] => (false, [], lost)
  | p :: pattern => if p =? b then (true, pattern, lost) else next_match pattern b (lost + 1)
  end.

Fixpoint match_stream (received pattern : list Z) (lost_in_stream corrupted : Z) : Z * Z * list Z :=
  match received with
  | [] => (lost_in_stream, corrupted, pattern)
  | b :: received =>
      let '(found, pattern, lost_in_stream) := next_match pattern b lost_in_stream in
      match_stream received pattern lost_in_stream (if found then corrupted else corrupted + 1)
  end.

Record LoopReport := mk_loop {
  lr_sent : Z; lr_timeouts : Z; lr_captured : Z; lr_dropped : Z; lr_lost_in_stream : Z; lr_lost_at_tail : Z; lr_corrupted : Z }.

Definition loop_pattern (count : nat) : list Z := List.map (fun i => 65 + Z.of_nat i mod 16) (seq 0 count).

Definition run_uart_loopback (l2cpu_idx : Z) (count : nat) (gap_us : Z) (no_lsr_poll : bool) : Probe LoopReport :=
  if 4 <=? l2cpu_idx then fail else
  write_active_slots (Z.shiftl 1 (slot_for_l2cpu l2cpu_idx)) ;;
  sleep 50000 ;;
  hb0 ← trisc0_heartbeat;
  sleep 10000 ;;
  hb1 ← trisc0_heartbeat;
  when_not (hb0 <? hb1) fail ;;
  let uart_base := 0x40000 + l2cpu_idx * 0x4000 in
  let priv_base := uart_private_base l2cpu_idx in
  let producer_addr := u32 (priv_base + UART_PRIV_OFF_FEED_PRODUCER_SEQ) in
  let consumer_addr := u32 (priv_base + UART_PRIV_OFF_FEED_CONSUMER_SEQ) in
  let drops_addr := u32 (priv_base + UART_PRIV_OFF_FEED_DROP_COUNT) in
  let ring_base := u32 (priv_base + UART_PRIV_OFF_FEED_RING) in
  p_start ← read_l1 producer_addr;
  d_start ← read_l1 drops_addr;
  write_l1 consumer_addr p_start ;;
  let pattern := loop_pattern count in
  lsr_timeouts ← send_bytes pattern uart_base (uart_base + 0x14) gap_us no_lsr_poll 0;
  sleep 50000 ;;
  p_end ← read_l1 producer_addr;
  d_end ← read_l1 drops_addr;
  let captured := u32 (p_end - p_start) in
  received ← read_ring (Nat.min (Z.to_nat captured) count) 0 p_start ring_base;
  let '(lost, corrupted, rest) := match_stream received pattern 0 0 in
  mret (mk_loop (Z.of_nat count) lsr_timeouts captured (u32 (d_end - d_start)) lost (Z.of_nat (length rest)) corrupted).

End probes.

(** ** Reasoning about probes *)

Section rules.
Context `{Bench}.

(** From [P], the probe reports failure or goes on in [Q]; it neither panics nor
    runs out of fuel. *)
Definition holds {A} (P : Lab -> Prop) (p : Probe A) (Q : A -> Lab -> Prop) : Prop :=
  forall l, P l -> match p l with (Good a, l') => Q a l' | (Bad, _) => True | _ => False end.

Lemma holds_ret {A} (P : Lab -> Prop) (a : A) : holds P (mret a) (fun a' l => a' = a /\ P l).
Proof. intros l Hl. by split. Qed.

Lemma holds_bind {A B} P (p : Probe A) Q (f : A -> Probe B) R :
  holds P p Q -> (forall a, holds (Q a) (f a) R) -> holds P (p ≫= f) R.
Proof.
  intros Hp Hf l Hl. unfold mbind, probe_bind. specialize (Hp l Hl). destruct (p l) as [[a| | |] l']; try done. by apply Hf.
Qed.

Lemma holds_mono {A} (P P' : Lab -> Prop) (p : Probe A) (Q Q' : A -> Lab -> Prop) :
  holds P p Q -> (forall l, P' l -> P l) -> (forall a l, Q a l -> Q' a l) -> holds P' p Q'.
Proof. intros Hp HP HQ l Hl. specialize (Hp l (HP _ Hl)). destruct (p l) as [[a| | |] l']; auto. Qed.

(** A moment: [inv] is kept by the cores, [act] leads to [Q]. *)
Lemma holds_moment {A} (inv : gmap Z Z -> Prop) us (act : gmap Z Z -> A * gmap Z Z) (Q : A -> gmap Z Z -> Prop) :
  (forall n us m, inv m -> inv (cores n us m)) -> (forall m, inv m -> Q (act m).1 (act m).2) ->
  holds (fun l => inv (l_mem l)) (moment us act) (fun a l => Q a (l_mem l)).
Proof.
  intros Hc Ha l Hl. unfold moment. specialize (Ha _ (Hc (l_moment l) us _ Hl)).
  by destruct (act (cores (l_moment l) us (l_mem l))).
Qed.

Lemma holds_when b p (P : Lab -> Prop) (Q : unit -> Lab -> Prop) :
  (forall l, b = true -> P l -> Q tt l) -> (b = false -> holds P p Q) -> holds P (when_not b p) Q.
Proof. destruct b; intros Ht Hf; [intros l Hl; by apply Ht|by apply Hf]. Qed.

Lemma holds_fail {A} P (Q : A -> Lab -> Prop) : holds P fail Q.
Proof. by intros l Hl. Qed.

Lemma holds_pure {A} (R : Prop) P (p : Probe A) Q : (R -> holds P p Q) -> holds (fun l => R /\ P l) p Q.
Proof. intros Hp l [HR Hl]. by apply Hp. Qed.

(** What a probe does to time only. *)
Definition calm_probe {A} (p : Probe A) : Prop := forall l, exists a l', p l = (Good a, l') /\ l_us l <= l_us l'.

Lemma calm_moment {A} us (act : gmap Z Z -> A * gmap Z Z) : 0 <= us -> calm_probe (moment us act).
Proof.
  intros Hu l. unfold moment. destruct (act _) as [a m]. do 2 eexists. split; [done|]. cbn. pose proof (lag_nonneg (l_moment l)). lia.
Qed.

Lemma calm_holds {A} P (p : Probe A) : calm_probe p -> holds P p (fun _ _ => True).
Proof. intros Hp l _. destruct (Hp l) as (a & l' & -> & _). done. Qed.

Lemma calm_bind {A B} (p : Probe A) (f : A -> Probe B) : calm_probe p -> (forall a, calm_probe (f a)) -> calm_probe (p ≫= f).
Proof.
  intros Hp Hf l. unfold mbind, probe_bind. destruct (Hp l) as (a & l1 & -> & H1). destruct (Hf a l1) as (b & l2 & -> & H2).
  exists b, l2. split; [done|lia].
Qed.

Lemma calm_ret {A} (a : A) : calm_probe (mret a).
Proof. intros l. by exists a, l. Qed.

Lemma calm_each {A} (l : list A) body : (forall a, calm_probe (body a)) -> calm_probe (each l body).
Proof. intros Hb. induction l as [|a l IH]; [apply calm_ret|]. apply calm_bind; [apply Hb|done]. Qed.

End rules.

Ltac calm :=
  repeat match goal with
  | |- calm_probe (mret _) => apply calm_ret
  | |- calm_probe (mbind _ _) => apply calm_bind; [|intros ?]
  | |- calm_probe (each _ _) => apply calm_each; intros ?
  | |- calm_probe (read_l1 _) => apply calm_moment; lia
  | |- calm_probe (write_l1 _ _) => apply calm_moment; lia
  | |- calm_probe (read_l1_byte _) => apply calm_moment; lia
  | |- calm_probe (write_l1_byte _ _) => apply calm_moment; lia
  | |- calm_probe (load_image _) => apply calm_moment; lia
  | |- calm_probe (sleep _) => apply calm_moment; lia
  | |- calm_probe trisc0_heartbeat => apply calm_moment; lia
  | |- calm_probe (write_active_slots _) => apply calm_moment; lia
  | |- calm_probe (set_resets _) => unfold set_resets
  end.

(** ** What the tests tell *)

Section judgements.
Context `{Bench}.

Definition quiet (m : gmap Z Z) : Prop := Z.land (rd32 m ACTIVE_AT) BRISC_UART_SLOT_MASK = 0.

Lemma two_beats_calm : calm_probe two_beats.
Proof. unfold two_beats. calm. Qed.

Lemma watch_ends fuel : forall started addr saw l,
  100000 <= l_us l - started + 2000 * (Z.of_nat fuel - 1) -> 0 < Z.of_nat fuel ->
  match watch_dirty fuel started addr saw l with (Good _, _) => True | _ => False end.
Proof.
  induction fuel as [|fuel IH]; intros started addr saw l Hl Hf; [lia|]. cbn [watch_dirty]. unfold mbind, probe_bind, now.
  destruct (Z.ltb_spec (l_us l - started) 100000) as [Ht|Ht]; [|done].
  unfold read_l1_byte, moment. set (l1 := mk_lab _ _ _). destruct (_ && _); [done|].
  unfold sleep, moment. set (l2 := mk_lab _ _ _). apply IH; unfold l2, l1; cbn [l_us l_moment];
    pose proof (lag_nonneg (l_moment l)); pose proof (lag_nonneg (S (l_moment l))); lia.
Qed.

(** The engine test gives the UART of guest 0 the bit 16, but the UARTs are at
    the bits 6, 14, 22 and 30.  On firmware that runs TRISC0 only while one of
    those is set, the test reports a failure whatever else the tile does. *)
Theorem engine_test_fails :
  (forall n us m, quiet m ->
     quiet (cores n us m) /\ rd32 (cores n us m) trisc0_heartbeat_addr = rd32 m trisc0_heartbeat_addr) ->
  forall l, (run_tensix_engine l).1 = Bad.
Proof.
  intros Hq.
  assert (B : forall P, holds P (write_active_slots (Z.lor (Z.shiftl 1 7) (Z.shiftl 1 16)) ≫= fun _ => two_beats) (fun r _ => r.1 = r.2)).
  { intros P. apply (holds_bind _ _ (fun _ l => quiet (l_mem l))).
    - intros l _. unfold write_active_slots, write_l1, moment. cbn [l_mem]. unfold quiet. by rewrite rd32_wr32_eq.
    - intros ? l Hl. unfold two_beats, mbind, probe_bind, mret, probe_ret, sleep, trisc0_heartbeat, read_l1, moment. cbn [l_mem l_moment fst snd].
      destruct (Hq (l_moment l) 20000 _ Hl) as [Q1 _]. destruct (Hq (S (l_moment l)) 0 _ Q1) as [Q2 _].
      destruct (Hq (S (S (l_moment l))) 20000 _ Q2) as [Q3 E3]. destruct (Hq (S (S (S (l_moment l)))) 0 _ Q3) as [_ E4]. congruence. }
  assert (R : holds (fun _ => True) run_tensix_engine (fun _ _ => False)).
  { unfold run_tensix_engine. cbv zeta. eapply holds_bind; [apply calm_holds; calm|intros ?].
    eapply holds_bind; [apply calm_holds; calm|intros ?]. eapply holds_bind; [apply calm_holds; calm|intros ?].
    apply (holds_bind _ _ (fun t l => l_us l = t)); [by intros l _|]. intros started.
    apply (holds_bind _ _ (fun _ _ => True)).
    { intros l Hl. pose proof (watch_ends 51 started (dirty_byte_addr 7 2) false l) as W.
      destruct (watch_dirty _ _ _ _ l) as [[]]; try done; apply W; lia. }
    intros saw. eapply holds_bind; [apply (holds_when _ _ _ (fun _ _ => True)); [done|intros _; apply holds_fail]|intros ?].
    eapply holds_bind; [apply calm_holds; calm|intros ?]. eapply holds_bind; [apply calm_holds, two_beats_calm|intros q].
    eapply holds_bind; [apply (holds_when _ _ _ (fun _ _ => True)); [done|intros _; apply holds_fail]|intros ?].
    intros l Hl. specialize (B (fun _ => True) l I). revert B. unfold mbind, probe_bind.
    destruct (write_active_slots _ l) as [[u| | |] l1]; try done. destruct (two_beats l1) as [[r| | |] l2]; try done.
    intros E. by rewrite E, Z.ltb_irrefl. }
  intros l. specialize (R l I). by destruct (run_tensix_engine l) as [[]].
Qed.

(** The array of device ids has four entries and a guest has eight slots: the
    check of the fifth slot panics, so the test never gives a verdict on a tile
    whose firmware answers the greeting, and never passes. *)
Lemma check_slot_low s errors : 0 <= s < 4 -> calm_probe (check_slot s errors).
Proof.
  intros Hs. unfold check_slot. cbv zeta.
  assert (exists d, device_ids !! Z.to_nat (s mod DEVS_PER_L2CPU) = Some d) as [d ->].
  { assert (s = 0 \/ s = 1 \/ s = 2 \/ s = 3) as Hc by lia. destruct Hc as [->|[->|[->| ->]]]; by eexists. }
  calm.
Qed.

Lemma check_slots_panics l errors : (check_slots (upto NUM_SLOTS) errors l).1 = Crash.
Proof.
  change (upto NUM_SLOTS) with ([0; 1; 2; 3] ++ 4 :: List.map Z.of_nat (seq 5 27)).
  assert (G : forall slots rest errors l, Forall (fun s => 0 <= s < 4) slots -> (check_slots (slots ++ 4 :: rest) errors l).1 = Crash).
  { clear. induction slots as [|s slots IH]; intros rest errors l Hs; [done|]. apply Forall_cons in Hs as [Hs Hr]. cbn [app check_slots].
    unfold mbind, probe_bind. destruct (check_slot_low s errors Hs l) as (e & l1 & -> & _). by apply IH. }
  apply G. repeat (apply Forall_cons_2; [lia|]). apply Forall_nil_2.
Qed.

Lemma await_ends fuel : forall started l,
  500000 < l_us l - started + 1000 * (Z.of_nat fuel - 1) -> 0 < Z.of_nat fuel ->
  match await_ack fuel started l with (Good _, _) | (Bad, _) => True | _ => False end.
Proof.
  induction fuel as [|fuel IH]; intros started l Hl Hf; [lia|]. cbn [await_ack]. unfold mbind, probe_bind, now, read_l1, moment.
  destruct (_ =? _); [done|]. cbn [l_us]. pose proof (lag_nonneg (l_moment l)).
  destruct (Z.ltb_spec 500000 (l_us l + 0 + lag (l_moment l) - started)); [done|].
  unfold sleep, moment. apply IH; cbn [l_us l_moment]; pose proof (lag_nonneg (S (l_moment l))); lia.
Qed.

Lemma handshake_ends : holds (fun _ => True) virtio_handshake (fun _ _ => True).
Proof.
  unfold virtio_handshake. do 2 (eapply holds_bind; [apply calm_holds; calm|intros ?]).
  apply (holds_bind _ _ (fun t l => l_us l = t)); [by intros l _|]. intros started. apply (holds_bind _ _ (fun _ _ => True)).
  { intros l Hl. pose proof (await_ends 502 started l) as W. destruct (await_ack _ _ l) as [[]]; try done; apply W; lia. }
  intros ?. do 2 (eapply holds_bind; [apply calm_holds; calm|intros ?]). apply holds_when; [done|intros _; apply holds_fail].
Qed.

Theorem virtio_test_panics VIRTIO_FIRMWARE l :
  (run_tensix_virtio VIRTIO_FIRMWARE l).1 = Bad \/ (run_tensix_virtio VIRTIO_FIRMWARE l).1 = Crash.
Proof.
  assert (S : forall {A B} (p : Probe A) (f : A -> Probe B) l, calm_probe p ->
    (forall a l, (f a l).1 = Bad \/ (f a l).1 = Crash) -> ((p ≫= f) l).1 = Bad \/ ((p ≫= f) l).1 = Crash).
  { clear. intros A B p f l Hp Hf. unfold mbind, probe_bind. destruct (Hp l) as (a & l1 & -> & _). apply Hf. }
  unfold run_tensix_virtio. apply S; [calm|intros _ l1]. apply S; [calm|intros _ l2].
  apply S; [calm|intros _ l3]. apply S; [calm|intros _ l4]. apply S; [calm|intros _ l5].
  pose proof (handshake_ends l5 I) as Hh. unfold mbind, probe_bind.
  destruct (virtio_handshake l5) as [[u| | |] l6]; [|by left|done|done]. right.
  pose proof (check_slots_panics l6 0) as P. by destruct (check_slots _ 0 l6) as [[]].
Qed.

(** ** The hello test *)

#[local] Abbreviation magic_of m := (rd32 m HELLO_MAGIC_OFFSET).
#[local] Abbreviation counter_of m := (rd32 m HELLO_COUNTER_OFFSET).

Lemma samples_calm duration : forall last magic adv, calm_probe (hello_samples duration last magic adv).
Proof. induction duration as [|d IH]; intros last magic adv; cbn [hello_samples]; calm. apply IH. Qed.

(** A probe under an invariant of memory that the cores keep. *)
Lemma holds_inv {A} (inv : gmap Z Z -> Prop) us (act : gmap Z Z -> A * gmap Z Z) (R : A -> Prop) :
  (forall n us m, inv m -> inv (cores n us m)) -> (forall m, inv m -> R (act m).1 /\ inv (act m).2) ->
  holds (fun l => inv (l_mem l)) (moment us act) (fun a l => R a /\ inv (l_mem l)).
Proof. intros Hc Ha. by apply (holds_moment inv us act (fun a m => R a /\ inv m)). Qed.

Definition cleared (m : gmap Z Z) : Prop := magic_of m = 0 /\ counter_of m = 0.

(** The test cannot be passed by a tile on which nothing runs, whatever its
    memory held before: the words are cleared after the image is loaded. *)
Theorem hello_dead_fails image duration :
  (forall n us m, magic_of (cores n us m) = magic_of m /\ counter_of (cores n us m) = counter_of m) ->
  forall l, (run_tensix_hello image duration l).1 = Bad.
Proof.
  intros Hd.
  assert (Hc : forall n us m, cleared m -> cleared (cores n us m)).
  { intros n us m [H1 H2]. destruct (Hd n us m) as [E1 E2]. split; congruence. }
  assert (Hr : forall a, holds (fun l => cleared (l_mem l)) (read_l1 a)
    (fun v l => (a = HELLO_MAGIC_OFFSET \/ a = HELLO_COUNTER_OFFSET -> v = 0) /\ cleared (l_mem l))).
  { intros a. apply holds_inv; [done|]. intros m Hm. split; [|done]. by intros [->| ->]; apply Hm. }
  assert (Hs : forall d last, last = None \/ last = Some 0 ->
    holds (fun l => cleared (l_mem l)) (hello_samples d last false false) (fun r l => r = (false, false))).
  { induction d as [|d IH]; intros last Hl; [intros l _; done|]. cbn [hello_samples].
    apply (holds_bind _ _ (fun _ l => cleared (l_mem l))); [apply (holds_moment cleared _ _ (fun _ => cleared)); done|intros _].
    eapply holds_bind; [apply Hr|intros magic]. apply holds_pure. intros Hm. rewrite (Hm (or_introl eq_refl)).
    eapply holds_bind; [apply Hr|intros counter]. apply holds_pure. intros Hct. rewrite (Hct (or_intror eq_refl)).
    destruct Hl as [->| ->]; exact (IH (Some 0) (or_intror eq_refl)). }
  assert (R : holds (fun _ => True) (run_tensix_hello image duration) (fun _ _ => False)).
  { unfold run_tensix_hello. do 4 (eapply holds_bind; [apply calm_holds; calm|intros ?]).
    apply (holds_bind _ _ (fun _ l => magic_of (l_mem l) = 0)).
    { intros l _. unfold write_l1, moment. cbn [l_mem]. by rewrite rd32_wr32_eq. }
    intros ?. apply (holds_bind _ _ (fun _ l => cleared (l_mem l))).
    { intros l Hl. unfold write_l1, moment. cbn [l_mem]. destruct (Hd (l_moment l) 0 (l_mem l)) as [E _].
      split; [rewrite rd32_wr32_out by (left; done)|rewrite rd32_wr32_eq by done]; congruence. }
    intros ?. apply (holds_bind _ _ (fun _ l => cleared (l_mem l))).
    { unfold set_resets. apply (holds_bind _ _ (fun _ l => cleared (l_mem l))).
      - apply (holds_moment cleared _ _ (fun _ => cleared)); [done|]. intros m [H1 H2]. cbn [snd].
        split; rewrite rd32_wr32_out by (left; done); done.
      - intros ?. eapply holds_bind; [apply Hr|]. intros v l [_ Hv]. done. }
    intros ?. eapply holds_bind; [apply Hr|intros v0]. apply (holds_bind _ _ (fun r _ => r = (false, false))).
    { eapply holds_mono; [apply (Hs _ None); by left|by intros l [_ Hl]|done]. }
    intros r l ->. done. }
  intros l. specialize (R l I). by destruct (run_tensix_hello image duration l) as [[]].
Qed.

(** Firmware that has put its magic word and a counter there by the end of a
    second passes. *)
Theorem hello_live_passes image duration :
  0 < duration ->
  (forall n m, magic_of (cores n 1000000 m) = HELLO_MAGIC_VALUE /\ counter_of (cores n 1000000 m) <> 0) ->
  (forall n m, magic_of m = HELLO_MAGIC_VALUE -> counter_of m <> 0 ->
     magic_of (cores n 0 m) = HELLO_MAGIC_VALUE /\ counter_of (cores n 0 m) <> 0) ->
  forall l, (run_tensix_hello image duration l).1 = Good tt.
Proof.
  intros Hp Hs Hk.
  assert (G : forall {A} (p : Probe A) (f : A -> Probe unit) l, calm_probe p ->
    (forall a l, (f a l).1 = Good tt) -> ((p ≫= f) l).1 = Good tt).
  { clear. intros A p f l Hp Hf. unfold mbind, probe_bind. destruct (Hp l) as (a & l1 & -> & _). apply Hf. }
  intros l. unfold run_tensix_hello. do 8 (apply G; [calm|intros ? ?]).
  destruct (Z.to_nat duration) as [|d] eqn:Ed; [lia|]. cbn [hello_samples].
  unfold mbind, probe_bind at 1 2 3 4. unfold sleep, read_l1, moment. cbn [l_mem l_moment].
  match goal with |- context [cores ?n 1000000 ?m] => destruct (Hs n m) as [H1 H2]; destruct (Hk (S n) _ H1 H2) as [H3 H4];
    destruct (Hk (S (S n)) _ H3 H4) as [_ H6] end.
  rewrite H3, Z.eqb_refl, (proj2 (Z.eqb_neq _ 0) H6). cbn [negb orb].
  assert (K : forall d last l, exists l', hello_samples d last true true l = (Good (true, true), l')).
  { clear. induction d as [|d IH]; intros last l; cbn [hello_samples]; [by eexists|]. unfold mbind, probe_bind, sleep, read_l1, moment. cbn [orb].
    apply IH. }
  match goal with |- context [hello_samples d ?last true true ?l] => destruct (K d last l) as [l' ->] end. done.
Qed.

(** ** The loopback test *)

Lemma next_match_spec pattern b : forall lost,
  match next_match pattern b lost with
  | (true, rest, lost') => exists skipped, pattern = skipped ++ b :: rest /\ b ∉ skipped /\ lost' = lost + Z.of_nat (length skipped)
  | (false, rest, lost') => rest = [] /\ b ∉ pattern /\ lost' = lost + Z.of_nat (length pattern)
  end.
Proof.
  induction pattern as [|p pattern IH]; intros lost; cbn [next_match].
  - split; [done|]. split; [apply not_elem_of_nil|cbn; lia].
  - destruct (Z.eqb_spec p b) as [->|Hp]; [exists []; split; [done|split; [apply not_elem_of_nil|cbn; lia]]|].
    specialize (IH (lost + 1)). destruct (next_match pattern b (lost + 1)) as [[[] rest] lost'].
    + destruct IH as (skipped & -> & Hn & ->). exists (p :: skipped). split; [done|]. split; [set_solver|cbn [length]; lia].
    + destruct IH as (-> & Hn & ->). split; [done|]. split; [set_solver|cbn [length]; lia].
Qed.

Lemma sublist_skip_to (b : Z) skipped l k : b ∉ skipped -> b :: l `sublist_of` skipped ++ b :: k <-> l `sublist_of` k.
Proof.
  intros Hn. split.
  - induction skipped as [|s skipped IH]; cbn; intros Hs.
    + inversion Hs as [|? ? ? Hi|? ? ? Hi]; subst; [done|]. etransitivity; [|exact Hi]. by constructor.
    + inversion Hs as [|? ? ? Hi|? ? ? Hi]; subst; [set_solver|]. apply IH; [set_solver|done].
  - intros Hl. apply sublist_inserts_l. by constructor.
Qed.

Lemma match_stream_spec received : forall pattern lost corrupted,
  let '(lost', corrupted', rest) := match_stream received pattern lost corrupted in
  corrupted <= corrupted' <= corrupted + Z.of_nat (length received) /\
  lost' - lost + Z.of_nat (length rest) + (Z.of_nat (length received) - (corrupted' - corrupted)) = Z.of_nat (length pattern) /\
  (corrupted' = corrupted <-> received `sublist_of` pattern).
Proof.
  induction received as [|b received IH]; intros pattern lost corrupted; cbn [match_stream].
  - split; [lia|]. split; [cbn; lia|]. split; [intros _; apply sublist_nil_l|done].
  - pose proof (next_match_spec pattern b lost) as N. destruct (next_match pattern b lost) as [[[] pattern'] lost'].
    + destruct N as (skipped & -> & Hn & ->). specialize (IH pattern' (lost + Z.of_nat (length skipped)) corrupted).
      destruct (match_stream _ _ _ _) as [[lost2 corrupted2] rest]. destruct IH as (H1 & H2 & H3).
      split; [cbn [length]; lia|]. split; [rewrite length_app; cbn [length]; lia|]. by rewrite sublist_skip_to.
    + destruct N as (-> & Hn & ->). specialize (IH [] (lost + Z.of_nat (length pattern)) (corrupted + 1)).
      destruct (match_stream _ _ _ _) as [[lost2 corrupted2] rest]. destruct IH as (H1 & H2 & _).
      split; [cbn [length]; lia|]. split; [cbn [length] in *; lia|]. split; [lia|]. intros Hs. destruct Hn.
      eapply elem_of_submseteq; [|by apply sublist_submseteq]. by left.
Qed.

Lemma read_ring_spec n : forall i p_start base l, exists r l', read_ring n i p_start base l = (Good r, l') /\ length r = n.
Proof.
  induction n as [|n IH]; intros i p_start base l; cbn [read_ring]; [by do 2 eexists|].
  unfold mbind, probe_bind, read_l1, moment. destruct (IH (i + 1) p_start base (mk_lab (cores (l_moment l) 0 (l_mem l)) (S (l_moment l))
    (l_us l + 0 + lag (l_moment l)))) as (r & l' & -> & Hr). do 2 eexists. split; [done|]. cbn. by rewrite Hr.
Qed.

Lemma await_thre_calm n addr : calm_probe (await_thre n addr).
Proof. induction n as [|n IH]; cbn [await_thre]; calm. by destruct (negb _); [apply calm_ret|]. Qed.

Lemma send_calm pattern thr_addr lsr_addr gap_us no_lsr_poll : forall timeouts,
  calm_probe (send_bytes pattern thr_addr lsr_addr gap_us no_lsr_poll timeouts).
Proof.
  induction pattern as [|b pattern IH]; intros timeouts; cbn [send_bytes]; [apply calm_ret|].
  apply calm_bind; [destruct no_lsr_poll; [apply calm_ret|apply await_thre_calm]|intros late].
  apply calm_bind; [calm|intros ?]. apply calm_bind; [|intros ?; apply IH].
  destruct (Z.ltb_spec 0 gap_us); [apply calm_moment; lia|apply calm_ret].
Qed.

(** What the loopback test reports adds up: every byte sent was lost in the
    stream, lost at its end, or matched by a byte taken from the ring that is not
    reported as corrupted. *)
Theorem loopback_accounts l2cpu_idx count gap_us no_lsr_poll l :
  match run_uart_loopback l2cpu_idx count gap_us no_lsr_poll l with
  | (Good r, _) =>
      let received := Z.min (lr_captured r) (lr_sent r) in
      lr_sent r = Z.of_nat count /\ 0 <= lr_corrupted r <= received /\
      lr_lost_in_stream r + lr_lost_at_tail r + (received - lr_corrupted r) = lr_sent r
  | (Bad, _) => True
  | _ => False
  end.
Proof.
  assert (R : holds (fun _ => True) (run_uart_loopback l2cpu_idx count gap_us no_lsr_poll) (fun r _ =>
    let received := Z.min (lr_captured r) (lr_sent r) in
    lr_sent r = Z.of_nat count /\ 0 <= lr_corrupted r <= received /\
    lr_lost_in_stream r + lr_lost_at_tail r + (received - lr_corrupted r) = lr_sent r)).
  { unfold run_uart_loopback. destruct (4 <=? l2cpu_idx); [apply holds_fail|]. cbv zeta.
    do 5 (eapply holds_bind; [apply calm_holds; calm|intros ?]).
    eapply holds_bind; [apply (holds_when _ _ _ (fun _ _ => True)); [done|intros _; apply holds_fail]|intros ?].
    do 3 (eapply holds_bind; [apply calm_holds; calm|intros ?]). eapply holds_bind; [apply calm_holds, send_calm|intros ?].
    eapply holds_bind; [apply calm_holds; calm|intros ?]. eapply holds_bind; [apply calm_holds; calm|intros p_end].
    eapply holds_bind; [apply calm_holds; calm|intros d_end]. intros l1 _. unfold mbind, probe_bind.
    match goal with |- context [read_ring ?n ?i ?p ?b l1] => destruct (read_ring_spec n i p b l1) as (received & l2 & -> & Hl) end.
    pose proof (match_stream_spec received (loop_pattern count) 0 0) as M.
    destruct (match_stream received (loop_pattern count) 0 0) as [[lost corrupted] rest]. destruct M as (M1 & M2 & _).
    cbn [mret probe_ret lr_captured lr_sent lr_corrupted lr_lost_in_stream lr_lost_at_tail].
    match goal with |- context [u32 (p_end - ?p)] => pose proof (wrap_fits 32 (p_end - p) ltac:(done)) as [W _]; fold (u32 (p_end - p)) in W end.
    unfold loop_pattern in M2. rewrite length_map, length_seq in M2. split; [done|]. lia. }
  exact (R l I).
Qed.

End judgements.

(** No byte is reported as corrupted exactly when what came back is what was sent
    with some bytes left out. *)
Theorem corrupted_none_iff received pattern :
  (match_stream received pattern 0 0).1.2 = 0 <-> received `sublist_of` pattern.
Proof.
  pose proof (match_stream_spec received pattern 0 0) as M. destruct (match_stream _ _ _ _) as [[lost corrupted] rest]. apply M.
Qed.

(** One byte that matches nothing uses up the whole pattern: everything after it
    is reported as corrupted and everything not yet matched as lost, however well
    the rest came through. *)
Theorem one_bad_byte_swamps b received pattern : b ∉ pattern ->
  match_stream (b :: received) pattern 0 0 = (Z.of_nat (length pattern), 1 + Z.of_nat (length received), []).
Proof.
  intros Hb. cbn [match_stream]. pose proof (next_match_spec pattern b 0) as N. destruct (next_match pattern b 0) as [[[] rest] lost].
  - destruct N as (skipped & -> & _). set_solver.
  - destruct N as (-> & _ & ->). clear. rewrite Z.add_0_l. change (0 + 1) with 1. generalize 1 as c, (Z.of_nat (length pattern)) as k.
    induction received as [|x received IH]; intros c k; cbn [match_stream next_match length]; [f_equal; f_equal; lia|].
    rewrite IH. f_equal. f_equal. lia.
Qed.

(** ** A bench *)

(** Firmware that has started to count by the first sample. *)
#[local, refine] Instance hello_bench : Bench := {|
  cores n us m := if us =? 1000000 then wr32 (wr32 m HELLO_MAGIC_OFFSET HELLO_MAGIC_VALUE) HELLO_COUNTER_OFFSET 1 else m;
  lag _ := 0 |}.
Proof. done. Defined.

(** BRISC's answer to the synthetic kick, and nothing else. *)
#[local, refine] Instance kicked_bench : Bench := {|
  cores n us m := if us =? 2000 then wr8 m (dirty_byte_addr 7 2) (if rd8 m (dirty_byte_addr 7 2) =? 0 then 1 else 0) else m;
  lag _ := 0 |}.
Proof. done. Defined.

Lemma engine_test_fails_witness : (run_tensix_engine (H := kicked_bench) (mk_lab ∅ 0 0)).1 = Bad.
Proof.
  apply (engine_test_fails (H := kicked_bench)). intros n us m Hm. cbn [cores kicked_bench]. destruct (us =? 2000); [|done].
  assert (E : forall v a, 0x6000 <= a \/ a + 4 <= 0x5100 -> rd32 (wr8 m (dirty_byte_addr 7 2) v) a = rd32 m a).
  { intros v a Ha. apply rd32_ext. intros x Hx. apply rd8_wr8_ne. change (dirty_byte_addr 7 2) with 0x513a. lia. }
  unfold quiet in *. rewrite !E by (vm_compute; (left; discriminate) || (right; discriminate)). done.
Defined.

Lemma hello_live_passes_witness : (run_tensix_hello (H := hello_bench) [0x6f; 0; 0; 8] 3 (mk_lab ∅ 0 0)).1 = Good tt.
Proof.
  apply (hello_live_passes (H := hello_bench)); [done| |intros n m H1 H2; done].
  intros n m. cbn [cores hello_bench]. rewrite Z.eqb_refl.
  split; [rewrite rd32_wr32_out by (left; done)|]; by rewrite rd32_wr32_eq.
Defined.
