(* ===== verification/DaemonLog.v ===== *)
(** Where the daemon logs and what [bhx daemon status] and [bhx daemon logs] print:
    the log path and its sidecar in [src/daemon/runner.rs], and the time stamps of
    [src/daemon/log.rs].

    Files are those of [Disk]; the lock on the pid file is [Lifetime]'s, here only
    its outcome.  A status line is data.  [localtime_r] is an argument, the broken
    down time it yields. *)

From S2P Require Import Prelude Text Parse Disk Telemetry Clock ChipConsole DeviceTree Protocol ConsoleHub CloudInit Metrics Exporter Lifetime.

(** ** The log file *)

Section runner.
Context (runtime_dir : path) (cwd : path).

Definition sidecar : path := join runtime_dir (chars "logpath").
Definition default_log : path := join runtime_dir (chars "log").

(** [OpenOptions::create(true).append(true).open]. *)
Definition fs_open_append (p : path) : M unit :=
  let$ f := fault in
  match f with
  | Some _ => Disk.fail Io
  | None => let$ there := fs_exists p in if there then ret () else set_file p []
  end.

Definition log_abs (p : path) : path := if starts_with (chars "/") p then p else join cwd p.

Definition open_log (p : path) : M path :=
  let abs := log_abs p in
  match parent abs with Some dir => fs_create_dirs dir | None => ret () end ;$
  fs_open_append abs ;$
  ret abs.

Definition resolve_log_path_with_override (override_path : option path) : M path :=
  match override_path with
  | Some p =>
      let$ abs := open_log p in
      attempt (fs_write sidecar (utf8 (abs ++ [10]))) ;$
      ret abs
  | None => attempt (fs_remove sidecar) ;$ ret default_log
  end.

(** [start] up to the lock: the log file is settled first. *)
Definition start_log (override_path : option path) (running : bool) : M path :=
  let$ log_path := resolve_log_path_with_override override_path in
  if running then Disk.fail SlotState else ret log_path.

(** [resolve_log_path]; a file that cannot be read or is not UTF-8 counts as
    none. *)
Definition resolve_log_path : M path :=
  let$ s := attempt (fs_read sidecar) in
  ret (match s with
       | Ok (Some b) =>
           match from_utf8 b with
           | Some s => match trim s with [] => default_log | trimmed => trimmed end
           | None => default_log
           end
       | _ => default_log
       end).

(** [str::lines]. *)
Definition drop_cr (l : list Z) : list Z := match rev l with 13 :: r => rev r | _ => l end.
Definition str_lines (s : list Z) : list (list Z) :=
  match rev (split_on 10 s) with
  | [] => []
  | last :: before => List.map drop_cr (rev before) ++ match last with [] => [] | _ => [last] end
  end.

(** The lines that [logs] prints before it follows the file. *)
Definition log_tail (lines : nat) (text : list Z) : list (list Z) := rev (take lines (rev (str_lines text))).

(** [String::from_utf8_lossy]: each longest piece that no character could begin
    with or continue becomes one U+FFFD. *)
Definition begins (b0 b1 : Z) : bool :=
  (0xE0 <=? b0) && (b0 <=? 0xF4) && cont b1
  && (if b0 =? 0xE0 then 0xA0 <=? b1 else if b0 =? 0xED then b1 <=? 0x9F
      else if b0 =? 0xF0 then 0x90 <=? b1 else if b0 =? 0xF4 then b1 <=? 0x8F else true).

Fixpoint from_utf8_lossy (bs : list Z) : list Z :=
  match bs with
  | [] => []
  | b0 :: r0 =>
      if b0 <? 0x80 then b0 :: from_utf8_lossy r0
      else match r0 with
      | [] => [0xFFFD]
      | b1 :: r1 =>
          if ok2 b0 b1 then (b0 - 192) * 64 + (b1 - 128) :: from_utf8_lossy r1
          else if negb (begins b0 b1) then 0xFFFD :: from_utf8_lossy r0
          else match r1 with
          | [] => [0xFFFD]
          | b2 :: r2 =>
              if ok3 b0 b1 b2 then (b0 - 224) * 4096 + (b1 - 128) * 64 + (b2 - 128) :: from_utf8_lossy r2
              else if negb ((0xF0 <=? b0) && cont b2) then 0xFFFD :: from_utf8_lossy r1
              else match r2 with
              | [] => [0xFFFD]
              | b3 :: r3 =>
                  if ok4 b0 b1 b2 b3
                  then (b0 - 240) * 262144 + (b1 - 128) * 4096 + (b2 - 128) * 64 + (b3 - 128) :: from_utf8_lossy r3
                  else 0xFFFD :: from_utf8_lossy r2
              end
          end
      end
  end.

Definition logs (lines : nat) : M (list (list Z)) :=
  let$ path := resolve_log_path in
  let$ there := fs_exists path in
  if negb there then Disk.fail BadRequest
  else
    let$ b := fs_read path in
    match b with None => Disk.fail Io | Some b => ret (log_tail lines (from_utf8_lossy b)) end.

End runner.

(** ** The time stamp *)

Record Tm := mk_tm { tm_year : Z; tm_mon : Z; tm_mday : Z; tm_hour : Z; tm_min : Z; tm_sec : Z; tm_gmtoff : Z }.

(** [{:0w}] of a number that is not negative. *)
Definition show_pad (w : nat) (n : Z) : list Z := let s := show_dec n in replicate (w - length s) 48 ++ s.

Definition ts_prefix (tm : Tm) (tv_nsec pid tid : Z) : list Z :=
  chars "[" ++ show_pad 4 (tm_year tm + 1900) ++ chars "-" ++ show_dec2 (tm_mon tm + 1) ++ chars "-" ++ show_dec2 (tm_mday tm)
  ++ chars "T" ++ show_dec2 (tm_hour tm) ++ chars ":" ++ show_dec2 (tm_min tm) ++ chars ":" ++ show_dec2 (tm_sec tm)
  ++ chars "." ++ show_pad 3 (tv_nsec / 1000000) ++ format_offset (tm_gmtoff tm)
  ++ chars " pid=" ++ show_dec pid ++ chars " tid=" ++ show_dec tid ++ chars "]".

(** ** The status listing *)

Inductive Tag := TagActive | TagIdle | NoTag.
Inductive PurgatoryLabel := LParked | LRunning | LUnknown.
Inductive DiskLabel := CloudInitSeed | Named (name : list Z) | DataDisk.

Inductive StatusLine :=
| NotRunning (card : Z)
| DaemonUp (card pid uptime_secs : Z) (sock : path)
| EngineTile (x y : Z)
| PllLine (fbdiv postdiv0 mhz : Z) (tag : Tag)
| SlotLine (idx : Z) (state : L2CpuState) (disk : option (list Z)) (net virtio_console : bool) (clients : Z)
| PurgatoryLine (label : PurgatoryLabel) (word : Z) (peers : option (Z * Z))
| ReleaseLine (next_addr next_mode next_arg1 hsm_state msip : Z)
| ForceParkLine (req val msip : Z)
| DiskLine (label : DiskLabel) (path : list Z)
| RpcFailed
| Unreachable.

Definition pll_mhz (fbdiv postdiv0 : Z) : Z := u32 (25 * fbdiv) / (postdiv0 + 1).
Definition pll_tag (fbdiv postdiv0 : Z) : Tag :=
  if (fbdiv =? 140) && (postdiv0 =? 1) then TagActive
  else if (fbdiv =? 128) && (postdiv0 =? 15) then TagIdle else NoTag.

Definition pll_lines (p : StatusPayload) : list StatusLine :=
  match sp_pll_fbdiv p, sp_pll_postdiv0 p with
  | Some fbdiv, Some postdiv0 => [PllLine fbdiv postdiv0 (pll_mhz fbdiv postdiv0) (pll_tag fbdiv postdiv0)]
  | _, _ => []
  end.

Definition release_lines (m : PurgatoryReleaseMeta) : list StatusLine :=
  (if 0 <? next_addr_pa m then [ReleaseLine (next_addr_pa m) (next_mode_pa m) (next_arg1_pa m) (hsm_state_pa m) (msip_pa m)] else [])
  ++ match force_park_request_pa m, force_park_request_value m with
     | Some req_pa, Some req_val => [ForceParkLine req_pa req_val (msip_pa m)]
     | _, _ => []
     end.

Definition purgatory_lines (l : L2CpuStatus) : list StatusLine :=
  match st_purgatory_status l with
  | None => []
  | Some p =>
      let label := if p =? STATUS_PARKED then LParked else if p =? 0 then LRunning else LUnknown in
      let peers := match st_purgatory_peers l with
                   | Some mask => if p =? STATUS_PARKED then Some (Z.land mask 0xf, count_ones mask) else None
                   | None => None
                   end in
      PurgatoryLine label p peers :: match st_purgatory_release_meta l with Some m => release_lines m | None => [] end
  end.

Definition disk_label (d : DiskAttach) : DiskLabel :=
  match da_name d with
  | Some n => if bool_decide (n = chars "cidata") then CloudInitSeed else Named n
  | None => DataDisk
  end.

Definition status_slot_lines (debug : bool) (l : L2CpuStatus) : list StatusLine :=
  SlotLine (st_idx l) (st_state l) (st_disk l) (st_net l) (st_virtio_console l) (st_clients l)
  :: (if debug then purgatory_lines l else [])
  ++ List.map (fun d => DiskLine (disk_label d) (da_path d)) (drop 1 (st_disks l)).

Definition payload_lines (card : Z) (debug : bool) (sock : path) (p : StatusPayload) : list StatusLine :=
  DaemonUp card (sp_pid p) (sp_uptime_secs p) sock
  :: match sp_engine_tile p with Some (x, y) => [EngineTile x y] | None => [] end
  ++ pll_lines p
  ++ List.concat (List.map (status_slot_lines debug) (sp_l2cpus p)).

(** [runner::status]; [connected] and [reply] are the outcome of the two calls. *)
Definition print_status (card : Z) (debug is_running connected : bool) (sock : path) (reply : result StatusPayload Error) : list StatusLine :=
  if negb is_running then [NotRunning card]
  else if connected then match reply with Ok p => payload_lines card debug sock p | Err _ => [RpcFailed] end
  else [Unreachable].

(** ** Where the log is *)

(** Text that decodes is not altered. *)
Lemma lossy_valid n : forall bs s, (length bs <= n)%nat -> from_utf8 bs = Some s -> from_utf8_lossy bs = s.
Proof.
  induction n as [|n IH]; intros bs s Hn H; [destruct bs; [by simplify_eq/=|cbn in Hn; lia]|].
  destruct bs as [|b0 r0]; [by simplify_eq/=|]. cbn [from_utf8 from_utf8_lossy length] in *.
  destruct (b0 <? 128). { destruct (from_utf8 r0) eqn:E; [|done]. simplify_eq/=. f_equal. apply IH; [lia|done]. }
  destruct r0 as [|b1 r1]; [done|]. cbn [length] in Hn.
  destruct (ok2 b0 b1). { destruct (from_utf8 r1) eqn:E; [|done]. simplify_eq/=. f_equal. apply IH; [lia|done]. }
  destruct r1 as [|b2 r2]; [done|]. cbn [length] in Hn.
  destruct (ok3 b0 b1 b2) eqn:E3.
  { replace (begins b0 b1) with true; cbn [negb].
    - destruct (from_utf8 r2) eqn:E; [|done]. simplify_eq/=. f_equal. apply IH; [lia|done].
    - unfold ok3, begins, cont in *. destruct (b0 =? 0xE0) eqn:?, (b0 =? 0xED) eqn:?, (b0 =? 0xF0) eqn:?, (b0 =? 0xF4) eqn:?; lia. }
  destruct r2 as [|b3 r3]; [done|]. cbn [length] in Hn.
  destruct (ok4 b0 b1 b2 b3) eqn:E4; [|done].
  replace (begins b0 b1) with true; cbn [negb].
  - replace ((240 <=? b0) && cont b2) with true by (unfold ok4, cont in *; lia). cbn [negb].
    destruct (from_utf8 r3) eqn:E; [|done]. simplify_eq/=. f_equal. apply IH; [lia|done].
  - unfold ok4, begins, cont in *. destruct (b0 =? 0xE0) eqn:?, (b0 =? 0xED) eqn:?, (b0 =? 0xF0) eqn:?, (b0 =? 0xF4) eqn:?; lia.
Qed.

(** A path that reads back: an absolute one that does not end in white space. *)
Definition plain_path (p : path) : Prop :=
  forallb scalar p = true /\ exists q c, p = 47 :: q /\ last p = Some c /\ is_whitespace c = false.

Lemma trim_path p : plain_path p -> trim (p ++ [10]) = p.
Proof.
  intros (_ & q & c & -> & Hl & Hc). unfold trim. cbn [app drop_ws]. change (is_whitespace 47) with false. cbn iota.
  change (47 :: q ++ [10]) with ((47 :: q) ++ [10]). rewrite rev_unit. cbn [drop_ws]. change (is_whitespace 10) with true. cbn iota.
  apply last_Some in Hl as [k Hk]. rewrite Hk, rev_unit. cbn [drop_ws]. rewrite Hc. cbn [rev]. by rewrite rev_involutive.
Qed.

Section remembered.
Context (runtime_dir cwd : path).

Lemma open_log_exact p d : faults d = [] ->
  let abs := log_abs cwd p in
  exists d', open_log cwd p d = (Ok abs, d') /\ faults d' = [] /\
    files d' = match files d !! abs with Some _ => files d | None => <[abs := []]> (files d) end.
Proof.
  intros Hf abs. unfold open_log. fold abs. clearbody abs. unfold fs_create_dirs, fs_open_append, fs_exists, fault, bind, ret, get_files, set_file.
  destruct d as [fs fl]. cbn in Hf. subst fl. destruct (parent abs); cbn; destruct (fs !! abs) eqn:Ea; cbn; eexists; (split; [reflexivity|]); cbn; rewrite ?Ea; done.
Qed.

Lemma resolve_exact d : faults d = [] ->
  resolve_log_path runtime_dir d =
  (Ok (match files d !! sidecar runtime_dir with
       | Some b => match from_utf8 b with
                   | Some s => match trim s with [] => default_log runtime_dir | t => t end
                   | None => default_log runtime_dir end
       | None => default_log runtime_dir end), d).
Proof.
  intros Hf. destruct d as [fs fl]. cbn in Hf. subst fl. unfold resolve_log_path, attempt, fs_read, fault, bind, ret, get_files. cbn.
  by destruct (fs !! sidecar runtime_dir).
Qed.

(** What [logs] will take for the log path after a start that got that far. *)
Definition log_of (override_path : option path) : path :=
  match override_path with
  | Some p => log_abs cwd p
  | None => default_log runtime_dir
  end.

Lemma sidecar_tells o d : faults d = [] -> match o with Some _ => plain_path (log_of o) | None => True end ->
  exists d', resolve_log_path_with_override runtime_dir cwd o d = (Ok (log_of o), d') /\ faults d' = [] /\
    resolve_log_path runtime_dir d' = (Ok (log_of o), d').
Proof.
  intros Hf Hp. unfold resolve_log_path_with_override. destruct o as [p|].
  - destruct (open_log_exact p d Hf) as (d1 & E & Hf1 & _). unfold bind at 1. rewrite E. cbn [log_of] in *.
    set (abs := log_abs cwd p) in *. clearbody abs. destruct d1 as [fs fl]. cbn in Hf1. subst fl.
    unfold attempt, fs_write, fault, bind, ret, set_file. cbn. eexists. split; [done|]. split; [done|].
    rewrite resolve_exact by done. cbn [files]. rewrite lookup_insert_eq. 
    rewrite from_utf8_utf8 by (rewrite forallb_app; apply andb_true_iff; split; [apply Hp|reflexivity]). rewrite trim_path by done.
    destruct Hp as (_ & q & c & Hq & _). by rewrite Hq.
  - destruct d as [fs fl]. cbn in Hf. subst fl. unfold attempt, fs_remove, fault, bind, ret, get_files, del_file, Disk.fail. cbn.
    destruct (fs !! sidecar runtime_dir) eqn:Es; cbn; eexists; (split; [done|split; [done|]]); rewrite resolve_exact by done; cbn [files];
      [by rewrite lookup_delete_eq|by rewrite Es].
Qed.

(** After a start that no fault disturbs, [bhx daemon logs] reads the file the
    daemon writes to, whether the operator named one or not. *)
Theorem log_remembered o d :
  faults d = [] -> match o with Some _ => plain_path (log_of o) | None => True end ->
  exists p d', start_log runtime_dir cwd o false d = (Ok p, d') /\ resolve_log_path runtime_dir d' = (Ok p, d').
Proof.
  intros Hf Hp. destruct (sidecar_tells o d Hf Hp) as (d' & E & _ & R). exists (log_of o), d'.
  split; [|done]. unfold start_log, bind. by rewrite E.
Qed.

(** [start] settles the log before it tries the lock.  One that is refused
    because a daemon runs has by then replaced or removed the record of that
    daemon's log: [logs] no longer finds it. *)
Theorem refused_start_moves_log o d p :
  faults d = [] -> match o with Some _ => plain_path (log_of o) | None => True end ->
  resolve_log_path runtime_dir d = (Ok p, d) -> p <> log_of o ->
  exists d', start_log runtime_dir cwd o true d = (Err SlotState, d') /\ resolve_log_path runtime_dir d' = (Ok (log_of o), d').
Proof.
  intros Hf Hp _ _. destruct (sidecar_tells o d Hf Hp) as (d' & E & _ & R). exists d'.
  split; [|done]. unfold start_log, bind. by rewrite E.
Qed.

(** The lines that [logs] prints are the last ones of the file. *)
Theorem logs_last_lines n d p b :
  faults d = [] -> resolve_log_path runtime_dir d = (Ok p, d) -> files d !! p = Some b ->
  logs runtime_dir n d = (Ok (lastn n (str_lines (from_utf8_lossy b))), d).
Proof.
  intros Hf Hr Hb. unfold logs, bind at 1. rewrite Hr. destruct d as [fs fl]. cbn in Hf. subst fl.
  unfold fs_exists, fs_read, fault, bind, ret, get_files. cbn in *. rewrite Hb. cbn. rewrite Hb. cbn.
  do 2 f_equal. unfold log_tail, lastn. by rewrite firstn_rev, rev_involutive.
Qed.

End remembered.

(** ** Departures of the log file *)

(** A name that ends in a space: the record is trimmed when it is read. *)
Theorem spaced_log_lost :
  let d := mk_disk ∅ [] in
  let p := chars "/var/log/card 0 " in
  exists d', start_log (chars "/run/bhx/0") (chars "/") (Some p) false d = (Ok p, d') /\
    files d' !! p = Some [] /\ (logs (chars "/run/bhx/0") 10 d').1 = Err BadRequest.
Proof. eexists. split; [reflexivity|]. split; vm_compute; reflexivity. Qed.

(** The record is best effort: without it the start reports success all the same,
    and [logs] looks in the runtime directory. *)
Theorem sidecar_fault_ignored :
  let d := mk_disk ∅ [None; None; Some Refused] in
  let p := chars "/var/log/bhx.log" in
  exists d', start_log (chars "/run/bhx/0") (chars "/") (Some p) false d = (Ok p, d') /\
    (resolve_log_path (chars "/run/bhx/0") d').1 = Ok (chars "/run/bhx/0/log").
Proof. eexists. split; [reflexivity|]. vm_compute. reflexivity. Qed.

(** A daemon that logs to a file of the operator's; a second start, refused. *)
Lemma log_remembered_witness :
  exists p d', start_log (chars "/run/bhx/0") (chars "/home/op") (Some (chars "bhx.log")) false (mk_disk ∅ []) = (Ok p, d') /\
    resolve_log_path (chars "/run/bhx/0") d' = (Ok p, d').
Proof.
  apply (log_remembered (chars "/run/bhx/0") (chars "/home/op") (Some (chars "bhx.log")) (mk_disk ∅ [])); [reflexivity|].
  split; [reflexivity|]. exists (chars "home/op/bhx.log"), 103. split; [reflexivity|]. split; reflexivity.
Defined.

(** ** The status listing *)

(** The frequency shown is the one that was asked for, at the two operating
    points of the clock; at the third, 15 MHz, it shows 30. *)
Theorem pll_label_true mhz fbdiv postdiv0 ps :
  frequency_solution mhz = Some (fbdiv, postdiv0 :: ps) ->
  pll_mhz fbdiv postdiv0 = (if mhz =? 15 then 30 else mhz) /\
  pll_tag fbdiv postdiv0 = (if mhz =? 1750 then TagActive else if mhz =? 200 then TagIdle else NoTag).
Proof.
  unfold frequency_solution. destruct (Z.eqb_spec mhz 200) as [->|]; [by intros [= <- <- _]|].
  destruct (Z.eqb_spec mhz 1750) as [->|]; [by intros [= <- <- _]|]. destruct (Z.eqb_spec mhz 15) as [->|]; [by intros [= <- <- _]|done].
Qed.

Definition debug_line (l : StatusLine) : bool :=
  match l with PurgatoryLine _ _ _ | ReleaseLine _ _ _ _ _ | ForceParkLine _ _ _ => true | _ => false end.

(** What the debug flag adds is the lines on the purgatory, and nothing else
    changes. *)
Theorem debug_only_adds card sock p :
  List.filter (fun l => negb (debug_line l)) (payload_lines card true sock p) = payload_lines card false sock p.
Proof.
  assert (F : forall A (g : A -> StatusLine) l, (forall x, debug_line (g x) = false) ->
    List.filter (fun l => negb (debug_line l)) (List.map g l) = List.map g l).
  { clear. intros A g l Hg. induction l as [|x l IH]; [done|]. cbn. by rewrite Hg, IH. }
  assert (P : forall l, List.filter (fun l => negb (debug_line l)) (purgatory_lines l) = []).
  { clear. intros l. unfold purgatory_lines. destruct (st_purgatory_status l); [|done]. cbn.
    destruct (st_purgatory_release_meta l) as [m|]; [|done]. unfold release_lines. destruct (0 <? _), (force_park_request_pa m), (force_park_request_value m); done. }
  unfold payload_lines. cbn [List.filter debug_line negb]. f_equal. rewrite !List.filter_app. f_equal.
  { by destruct (sp_engine_tile p) as [[]|]. }
  f_equal. { unfold pll_lines. by destruct (sp_pll_fbdiv p), (sp_pll_postdiv0 p). }
  induction (sp_l2cpus p) as [|l ls IH]; [done|]. cbn [List.map List.concat]. rewrite List.filter_app, IH. f_equal.
  unfold status_slot_lines. cbn [List.filter debug_line negb app]. rewrite List.filter_app, P. cbn [app]. by rewrite F.
Qed.
