(* ===== verification/TerminalGuard.v ===== *)
(** The raw-mode guard of [src/console.rs]: the terminal's settings are saved when a
    console is attached and put back when the guard goes.

    The terminal of standard input is its settings, four words of flags, and the
    outcomes of the calls to come; without one, standard input is not a
    terminal. *)

From S2P Require Import Prelude Text Parse.

(** [termios] on Linux. *)
Record Termios := mk_termios { input_flags : Z; output_flags : Z; control_flags : Z; local_flags : Z; control_chars : list Z }.

Definition ISIG : Z := 0x1.
Definition ICANON : Z := 0x2.
Definition ECHO : Z := 0x8.
Definition IEXTEN : Z := 0x8000.
Definition BRKINT : Z := 0x2.
Definition INPCK : Z := 0x10.
Definition ISTRIP : Z := 0x20.
Definition ICRNL : Z := 0x100.
Definition IXON : Z := 0x400.
Definition OPOST : Z := 0x1.
Definition CS8 : Z := 0x30.

Definition LOCAL_CLEARED : Z := Z.lor (Z.lor (Z.lor ECHO ICANON) ISIG) IEXTEN.
Definition INPUT_CLEARED : Z := Z.lor (Z.lor (Z.lor (Z.lor BRKINT INPCK) ISTRIP) IXON) ICRNL.

Definition make_raw (t : Termios) : Termios :=
  mk_termios (Z.ldiff (input_flags t) INPUT_CLEARED) (Z.ldiff (output_flags t) OPOST) (Z.lor (control_flags t) CS8)
    (Z.ldiff (local_flags t) LOCAL_CLEARED) (control_chars t).

(** Standard input: its settings if it is a terminal, and whether each call to
    come succeeds. *)
Record Stdin := mk_stdin { tty : option Termios; calls_ok : nat -> bool; calls_made : nat }.

Definition tcgetattr (s : Stdin) : result Termios Error * Stdin :=
  let s' := mk_stdin (tty s) (calls_ok s) (S (calls_made s)) in
  match tty s with
  | Some t => (if calls_ok s (calls_made s) then Ok t else Err Io, s')
  | None => (Err Io, s')
  end.

Definition tcsetattr (t : Termios) (s : Stdin) : result unit Error * Stdin :=
  match tty s with
  | Some t0 =>
      if calls_ok s (calls_made s) then (Ok tt, mk_stdin (Some t) (calls_ok s) (S (calls_made s)))
      else (Err Io, mk_stdin (Some t0) (calls_ok s) (S (calls_made s)))
  | None => (Err Io, mk_stdin None (calls_ok s) (S (calls_made s)))
  end.

Record TerminalRawMode := mk_guard { orig : option Termios }.

Definition raw_mode_new (s : Stdin) : result TerminalRawMode Error * Stdin :=
  match tty s with
  | None => (Ok (mk_guard None), s)
  | Some _ =>
      match tcgetattr s with
      | (Err e, s) => (Err e, s)
      | (Ok o, s) =>
          match tcsetattr (make_raw o) s with
          | (Err e, s) => (Err e, s)
          | (Ok _, s) => (Ok (mk_guard (Some o)), s)
          end
      end
  end.

Definition raw_mode_drop (g : TerminalRawMode) (s : Stdin) : Stdin :=
  match orig g with Some o => (tcsetattr o s).2 | None => s end.

(** The guard leaves the terminal as it found it: a refused guard changes
    nothing, and one that was granted restores the settings of before, whatever
    was set in between, if the call that does so succeeds. *)
Theorem guard_restores s :
  match raw_mode_new s with
  | (Err _, s') => tty s' = tty s
  | (Ok g, s') =>
      (tty s' = make_raw <$> tty s) /\
      forall s2, (is_Some (tty s2) <-> is_Some (tty s)) -> (forall n, calls_ok s2 n = true) -> tty (raw_mode_drop g s2) = tty s \/ tty s = None
  end.
Proof.
  unfold raw_mode_new, tcgetattr, tcsetattr. destruct s as [[t|] ok n]; cbn; [|by split; [|right]].
  destruct (ok n); cbn; [|done]. destruct (ok (S n)); cbn; [|done]. split; [done|]. intros s2 Ht Ho. left.
  unfold raw_mode_drop, tcsetattr. cbn. destruct (tty s2); cbn; [by rewrite Ho|]. destruct (proj2 Ht); [by eexists|done].
Qed.

(** In raw mode no key is echoed, gathered into a line, or turned into a signal;
    every other flag is as before, and bytes have eight bits. *)
Theorem raw_mode_exact t i : 0 <= i ->
  Z.testbit (local_flags (make_raw t)) i = Z.testbit (local_flags t) i && negb (existsb (Z.eqb i) [0; 1; 3; 15]) /\
  Z.testbit (input_flags (make_raw t)) i = Z.testbit (input_flags t) i && negb (existsb (Z.eqb i) [1; 4; 5; 8; 10]) /\
  Z.testbit (output_flags (make_raw t)) i = Z.testbit (output_flags t) i && negb (existsb (Z.eqb i) [0]) /\
  Z.testbit (control_flags (make_raw t)) i = Z.testbit (control_flags t) i || existsb (Z.eqb i) [4; 5].
Proof.
  intros Hi. cbn [make_raw local_flags input_flags output_flags control_flags]. rewrite !Z.ldiff_spec, Z.lor_spec.
  assert (B : forall l m, Z.log2 m < 16 -> 0 <= m -> forallb (fun k => eqb (Z.testbit m k) (existsb (Z.eqb k) l)) (List.map Z.of_nat (seq 0 16)) = true ->
    Forall (fun k => k < 16) l -> Z.testbit m i = existsb (Z.eqb i) l).
  { intros l m Hm H0 Hl Hb. destruct (Z.lt_ge_cases i 16) as [H|H].
    - rewrite forallb_forall in Hl. apply eqb_prop, Hl, in_map_iff. exists (Z.to_nat i). split; [lia|]. apply in_seq. lia.
    - rewrite Z.bits_above_log2 by lia. symmetry. clear -Hb H. induction Hb as [|k l Hk _ IH]; [done|]. cbn. rewrite IH. lia. }
  rewrite (B [0; 1; 3; 15] LOCAL_CLEARED), (B [1; 4; 5; 8; 10] INPUT_CLEARED), (B [0] OPOST), (B [4; 5] CS8);
    (done || (repeat (apply Forall_cons_2; [lia|]); apply Forall_nil_2)).
Qed.
