(* ===== verification/FaultHandler.v ===== *)
(** Installing the fault handler of [src/daemon/sigbus.rs] and what happens when a
    fault strikes, in the daemon or in the handler itself.

    [Sigbus] has the handler's decision and message.  Here the process has its
    signal dispositions, as [sigaction] keeps them, and faults strike while the
    handler writes: a fault whose signal is blocked, or whose disposition is not a
    handler, kills the process, which is what Linux does with a fault. *)

From S2P Require Import Prelude Text Parse Sigbus.

(** ** Dispositions *)

Definition SA_SIGINFO : Z := 0x4.
Definition SA_NODEFER : Z := 0x40000000.
Definition SA_RESETHAND : Z := 0x80000000.

#[export] Instance signal_eq_dec : EqDecision signal.
Proof. solve_decision. Defined.

Record sigaction := mk_action { sa_flags : Z; sa_mask : list signal }.

Inductive disposition :=
| SIG_DFL
| SIG_IGN
| ChipFault (act : sigaction).

Record Signals := mk_signals { disposition_of : signal -> disposition; blocked : list signal }.

Definition with_disposition (s : signal) (d : disposition) (p : Signals) : Signals :=
  mk_signals (fun s' => if decide (s' = s) then d else disposition_of p s') (blocked p).

Definition handler_action : sigaction := mk_action (Z.lor SA_RESETHAND SA_SIGINFO) [].

(** [refused] says which calls of [sigaction] fail; [empty_ok] whether
    [sigemptyset] succeeds. *)
Fixpoint install_each (refused : signal -> bool) (sigs : list signal) (p : Signals) : result unit Error * Signals :=
  match sigs with
  | [] => (Ok tt, p)
  | s :: sigs => if refused s then (Err Io, p) else install_each refused sigs (with_disposition s (ChipFault handler_action) p)
  end.

Definition install_chip_fault_handler (empty_ok : bool) (refused : signal -> bool) (p : Signals) : result unit Error * Signals :=
  if empty_ok then install_each refused [SIGBUS; SIGSEGV] p else (Err Io, p).

(** ** Faults *)

(** How a process ends. *)
Inductive ending :=
| Exited (code : Z)
| Killed (s : signal).

(** The kernel's part: entering the handler of a fault, if there is one to enter. *)
Definition take_fault (p : Signals) (s : signal) : option Signals :=
  match disposition_of p s with
  | ChipFault act =>
      if decide (s ∈ blocked p) then None
      else
        let p := if Z.land (sa_flags act) SA_RESETHAND =? 0 then p else with_disposition s SIG_DFL p in
        let deferred := if Z.land (sa_flags act) SA_NODEFER =? 0 then [s] else [] in
        Some (mk_signals (disposition_of p) (deferred ++ sa_mask act ++ blocked p))
  | _ => None
  end.

(** The writes of the handler, in order. *)
Definition fault_writes (rs : list ChipRange) (s : signal) (si_addr : option Z) : list (list Z) :=
  let addr := default 0 si_addr in
  let in_chip := addr_is_in_chip_range rs addr in
  match s with
  | SIGBUS => [if in_chip then MSG_SIGBUS_CHIP else MSG_SIGBUS_NONCHIP; write_hex_u64 addr; [10]]
  | SIGSEGV => [if in_chip then MSG_SIGSEGV_CHIP else MSG_SIGSEGV_NONCHIP; write_hex_u64 addr; [10]]
  | OtherSignal _ => [MSG_UNKNOWN]
  end.

(** The handler at work.  The script says, for each write and for the exit,
    whether a fault strikes before it; past its end none does. *)
Fixpoint handler_runs (rs : list ChipRange) (p : Signals) (todo : list (list Z)) (code : Z)
    (script : list (option (signal * option Z))) : list Z * ending :=
  match script with
  | [] => (concat todo, Exited code)
  | None :: script =>
      match todo with
      | [] => ([], Exited code)
      | w :: todo => let '(out, e) := handler_runs rs p todo code script in (w ++ out, e)
      end
  | Some (s, a) :: script =>
      match take_fault p s with
      | None => ([], Killed s)
      | Some p => handler_runs rs p (fault_writes rs s a) (128 + signum s) script
      end
  end.

(** A fault in the daemon: what reaches the log, and how the process ends. *)
Definition chip_fault (rs : list ChipRange) (p : Signals) (s : signal) (si_addr : option Z) (script : list (option (signal * option Z))) : list Z * ending :=
  match take_fault p s with
  | None => ([], Killed s)
  | Some p => handler_runs rs p (fault_writes rs s si_addr) (128 + signum s) script
  end.

(** A process that has just installed the handler. *)
Definition installed : Signals := (install_chip_fault_handler true (fun _ => false) (mk_signals (fun _ => SIG_DFL) [])).2.

(** ** Theorems *)

Definition default_actions (p : Signals) : Prop := disposition_of p SIGBUS = SIG_DFL /\ disposition_of p SIGSEGV = SIG_DFL /\ blocked p = [].

Definition memory_fault (s : signal) : Prop := s = SIGBUS \/ s = SIGSEGV.

Lemma writes_are_message rs s a : concat (fault_writes rs s a) = (handle_chip_fault rs s a).1.
Proof. unfold fault_writes, handle_chip_fault. destruct s, (addr_is_in_chip_range rs (default 0 a)); cbn; by rewrite ?app_nil_r. Qed.

(** The handler covers both signals when every call succeeds; if [sigaction]
    refuses the second signal the first keeps the handler and the call fails. *)
Theorem install_exact empty_ok refused p :
  let '(r, p') := install_chip_fault_handler empty_ok refused p in
  (r = Ok tt <-> empty_ok = true /\ refused SIGBUS = false /\ refused SIGSEGV = false) /\
  (r = Ok tt -> forall s, memory_fault s -> disposition_of p' s = ChipFault handler_action) /\
  (forall s, ~ memory_fault s -> disposition_of p' s = disposition_of p s) /\
  (empty_ok = true -> refused SIGBUS = false -> disposition_of p' SIGBUS = ChipFault handler_action) /\
  blocked p' = blocked p.
Proof.
  unfold install_chip_fault_handler, memory_fault. cbn.
  destruct empty_ok; [destruct (refused SIGBUS) eqn:E1; [|destruct (refused SIGSEGV) eqn:E2]|]; cbn;
    (split_and!; [intuition congruence| | | |done]); try (intros; congruence); try (by intros [|]); try done.
  - intros s Hs. repeat case_decide; tauto.
  - intros _ s [-> | ->]; done.
  - intros s Hs. repeat case_decide; tauto.
Qed.

(** A fault with the handler installed writes the one line of [handle_chip_fault]
    and ends the process with its code. *)
Theorem fault_reported refused p rs s a p' :
  default_actions p -> install_chip_fault_handler true refused p = (Ok tt, p') -> memory_fault s ->
  chip_fault rs p' s a [] = ((handle_chip_fault rs s a).1, Exited (handle_chip_fault rs s a).2).
Proof.
  intros (_ & _ & Hb) Hi Hs. unfold install_chip_fault_handler in Hi. cbn in Hi.
  destruct (refused SIGBUS); [done|]. destruct (refused SIGSEGV); [done|]. injection Hi as <-.
  assert (handle_chip_fault rs s a = (concat (fault_writes rs s a), 128 + signum s)) as ->.
  { rewrite writes_are_message. unfold handle_chip_fault. destruct s, (addr_is_in_chip_range rs (default 0 a)); done. }
  destruct Hs as [-> | ->]; unfold chip_fault, take_fault; cbn -[fault_writes]; rewrite Hb; cbn -[fault_writes]; done.
Qed.

(** Faults that strike the handler do not loop: each signal is reported at most
    once, so with a fault before every write the third one kills. *)
Theorem faults_end refused p rs s1 a1 s2 a2 s3 a3 script p' :
  default_actions p -> install_chip_fault_handler true refused p = (Ok tt, p') ->
  memory_fault s1 -> memory_fault s2 -> memory_fault s3 ->
  exists s, chip_fault rs p' s1 a1 (Some (s2, a2) :: Some (s3, a3) :: script) = ([], Killed s) /\ memory_fault s.
Proof.
  destruct p as [dp bp]. intros (_ & _ & Hb) Hi H1 H2 H3. cbn in Hb. subst bp. unfold install_chip_fault_handler in Hi. cbn in Hi.
  destruct (refused SIGBUS); [done|]. destruct (refused SIGSEGV); [done|]. injection Hi as <-.
  destruct H1 as [-> | ->], H2 as [-> | ->], H3 as [-> | ->];
    cbn -[fault_writes concat]; eexists; (split; [reflexivity|unfold memory_fault; tauto]).
Qed.

(** The comment has a fault inside the handler end in a core dump.  That is so for
    the same signal; the other one is neither blocked nor reset, and enters the
    handler again: two beginnings of a line, and the code of the second. *)
Theorem other_signal_reenters rs a b :
  chip_fault rs installed SIGBUS a [None; Some (SIGSEGV, b)]
  = ((if addr_is_in_chip_range rs (default 0 a) then MSG_SIGBUS_CHIP else MSG_SIGBUS_NONCHIP) ++ (handle_chip_fault rs SIGSEGV b).1, Exited 139) /\
  chip_fault rs installed SIGBUS a [None; Some (SIGBUS, b)]
  = (if addr_is_in_chip_range rs (default 0 a) then MSG_SIGBUS_CHIP else MSG_SIGBUS_NONCHIP, Killed SIGBUS).
Proof.
  rewrite <- writes_are_message. split; cbn -[MSG_SIGBUS_CHIP MSG_SIGBUS_NONCHIP MSG_SIGSEGV_CHIP MSG_SIGSEGV_NONCHIP write_hex_u64 app].
  - reflexivity.
  - lazy -[MSG_SIGBUS_CHIP MSG_SIGBUS_NONCHIP addr_is_in_chip_range app default]. by rewrite app_nil_r.
Qed.

(** The exit code of a bus error is 135; the daemon's comment gives 134. *)
Theorem bus_error_code rs a : chip_fault rs installed SIGBUS a [] = ((handle_chip_fault rs SIGBUS a).1, Exited 135).
Proof. rewrite <- writes_are_message. done. Qed.
